(* ===== verification/_CoqProject ===== *)
-Q . S2P
Prelude.v
JsString.v
JsNumber.v
JsDate.v
ApiTypes.v
ConsolidateLogs.v
QueryLogsDiff.v
Reasons.v
Outcomes.v
CustomRules.v
RuleComposer.v
Blocklists.v
Locations.v
Formats.v
ServiceLogos.v
EventBus.v
Store.v
ApiEvents.v
Session.v
DataCollection.v
DataCollectionSpec.v
Ranges.v
Derive.v
StatsTime.v
ApiResource.v
SwUpdate.v
LazyRetry.v
WebAuthn.v
SentryPrivacy.v
Verification.v
Announcements.v
ImportExport.v
DnsStatus.v
Chrome.v
Async.v
CustomRulesPage.v
CustomRulesPageFacts.v
CustomRulesCard.v
CustomRulesCardFacts.v
LogsPage.v
LogsPageFacts.v
LogControls.v
CollectionControl.v
CollectionControlFacts.v
BlocklistsPage.v
BlocklistsPageFacts.v
BlocklistCards.v
ImportDialog.v
ImportDialogFacts.v
ProfileMenu.v
SettingsPage.v
Reauth.v
ExportDialog.v
ChangeEmail.v
DeleteAccount.v
OtpInput.v
AccountPage.v
Passkeys.v
UpdatePassword.v
Login.v
Signup.v
PasswordReset.v
Subscription.v
QuickRule.v
QueryLogRow.v
Statistics.v
StatisticsFacts.v
StatsPanels.v
MobileConfig.v
SetupPage.v
SetupGuides.v
DnsStamps.v
SetupFacts.v
Navigation.v
Uri.v
ApiClient.v
ApiOperations.v
ApiClientFacts.v
Requests.v
