(* ===== verification/Prelude.v ===== *)
(** * The modDNS web application: a verification development

    modDNS is a DNS resolver with per-profile blocking. Its web application, [src/app/src]
    (TypeScript, React), is what a user configures it with. This development models the application
    below its markup: the state it keeps, the decisions it makes, the requests it sends and how it
    answers what comes back.

    ** The program and the files

    The application has one store of account and profiles (zustand, partly persisted in
    [localStorage]), one session state (React state of the authentication provider, mirrored in
    [localStorage]), one event bus, and pages that read the store, call the API client and write
    the answers back. A read of account or profiles that is refused as expired becomes a bus event,
    which reaches the authentication provider; it ends the session and clears the store. A response
    interceptor is meant to do the same for every request, through a browser event and the handler
    mounted in the router, but the client makes its requests on another instance of axios
    ([client_bypasses_interceptor]).

    - Foundations. [Prelude]: notations, results of code that throws, step relations and runs of a
      transition function with their induction principles, lemmas on lists and options.
      [JsString], [JsNumber], [JsDate]: the part of the JavaScript standard library the source uses.
      [ApiTypes]: the records of [api/client/api.ts].
    - The frame. [Store]: [store/general.ts], one function per action. [EventBus]:
      [lib/eventBus.ts]. [ApiEvents]: [api/api.ts] and [api/eventHandler.ts]. [Session]: [App.tsx],
      the provider, the route loaders with their render-from-cache path, the routes and the guards, as
      one transition function [session_step] over logins, bus events, navigations that may wait for
      their loader, answers and other tabs; which route a path matches is the class [Router].
      [SwUpdate]: [lib/swUpdate.ts], the life of a page of a tab as [sw_step], with the storage that
      survives reloads. [LazyRetry]: [lib/lazyWithRetry.ts]. [SentryPrivacy]: [lib/sentryPrivacy.ts],
      [lib/sentryReplay.ts], [sentry.ts]. [Announcements], [DnsStatus], [Chrome]: small hooks.
    - Accounts. [WebAuthn]: [lib/webauthn.ts] over a monad of calls. [Verification]: the method that
      proves an identity and the fields that collect it. [ImportExport]: [hooks/useProfileExport.ts]
      and [hooks/useProfileImport.ts].
    - Data collection. [DataCollection]: [components/data-collection/model.ts], from the saved
      settings to the label, the note, the confirmation dialog and the JSON Patch body of a change.
      [DataCollectionSpec]: what a save promises, stated on the settings and the counts themselves.
    - Query logs. [ConsolidateLogs], [QueryLogsDiff], [Reasons], [Outcomes]: what a row of the log
      shows and which rows are new. [ConsolidateLogs] compares the loop with maximal runs of
      duplicates, its reference definition. [QueryLogRow]: the row of a run and its menu.
      [QuickRule]: the sheet that adds a rule for the domain of a row. [LogControls]: the filter
      bar, the empty state, pull-to-refresh and the download, on [LogsPage].
    - Rules and lists. [CustomRules], [RuleComposer]: parsing of pasted rules, the composer as a
      state machine, the JSON Pointer of a group. [Blocklists]: the composite cards of the newly
      registered domain lists and of the native trackers. [BlocklistCards]: what the tabs of the
      blocklists page show, and their switches, on [BlocklistsPage].
    - Statistics. [ApiResource]: [pages/statistics/useApiResource.ts], a hook with overtaking
      answers. [Ranges], [Derive], [StatsTime]: views, bucket series, ticks. [Statistics],
      [StatisticsFacts]: the page around its seven resources. [StatsPanels]: what
      its panels draw.
    - Devices. [MobileConfig]: the generator of configuration profiles and the
      page that downloads one. [SetupPage], [SetupGuides], [DnsStamps], [SetupFacts]: the setup page,
      the addresses its guides name, the stamps it fetches.
    - The client. [Uri]: URLs, query strings and JSON. [ApiClient]: [api/client/base.ts],
      [common.ts], [configuration.ts], what every generated method has in common, and the client of
      [api/api.ts]. [ApiOperations]: the methods, one definition per endpoint and layer, and the type
      [Call]. [ApiClientFacts]: what is sent and where. [Requests]: the requests of the pages as
      calls, as a class [Wire] with the law [WireLaws] its client proves against.
    - [Navigation]: menu, header, theme, status bar, logout, announcements page.
    - [Locations], [Formats], [ServiceLogos]: environment lists, formats, constants, logo files.
    - Pages as systems. [Async]: what an asynchronous event handler is ([Prog], a program of awaited
      requests and updates of the state), what a page is while handlers wait ([Sys], its state and the
      handlers in flight), and how a page runs when everything is answered ([play]). A file [X] has the
      state, the handlers and the updates of one page or dialog, [XFacts], or the end of [X], what
      holds of them:
      [CustomRulesPage], [CustomRulesCard] (the page of custom rules and its card with drag and drop),
      [LogsPage] (the query log with its filters, pages and background ticks), [CollectionControl] (the
      data collection cards, built on [DataCollection]), [BlocklistsPage] (lists, categories, services
      and the range card, built on [Blocklists]), [SettingsPage], [ProfileMenu] (creating, renaming,
      switching and deleting profiles), [ImportDialog], [ExportDialog] (backup and restore, built on
      [ImportExport]).
    - The account. [Reauth]: the identity check that three dialogs share, as a class of dialogs
      ([ReauthDialog]) with the laws its lemmas need ([ReauthLaws]); [ExportDialog], [ChangeEmail] and
      [DeleteAccount] are instances. [AccountPage]: [pages/account_preferences/Account.tsx] with the
      two-factor, verification and session dialogs. [Passkeys], [UpdatePassword], [OtpInput]: the
      passkey section, the password dialog, the input of a code. [Subscription]: the subscription card.
    - Before a session. [Login] (the sign-in page with its second factor, its session limit and its
      deferred toasts, on [Session] and [WebAuthn]), [Signup], [PasswordReset].

    Names follow the source. A React component or hook is a record of its state (with its refs and
    the requests in flight) and a function from a state and an event to the next state, which is the
    handler, the render it causes and the effects of that render, in the order React runs them. What
    a handler asks of the outside (toasts, requests, downloads) is recorded in the state or returned
    beside it. Requests overlap freely: an answer is an event, and any request in flight may be
    answered next.

    ** What the theorems show

    - A save does what it shows: the PATCH body of a data collection change brings the stored
      settings to the pending ones ([updates_commit]); a confirmation is asked exactly when stored
      data goes, in hours of logs and days of counts ([dialog_iff_deletes]), it says what goes
      ([dialog_names_losses]) and how many days of it ([lost_days_exact]).
    - Sessions: without one only public pages and the not-found page show, and no loader fetches
      unless another tab has logged in ([unauthenticated_sees_public_pages]); a refused read ends it
      once and any other answer does not ([refused_read_ends_session]); what a late answer does to the next one
      ([late_answer_reaches_next_session]) and why a missing resource does nothing
      ([missing_resource_never_logs_out]). The store's two copies of a profile agree
      as long as a list of the API is followed by its active profile ([store_consistent], and
      [lone_list_disagrees] without); the bus loses no event ([no_event_lost]).
    - Overtaking answers: a statistics resource shows its own key's data and never waits without a
      request ([resource_consistent], [resource_answered]).
    - Privacy of error reports: what scrubbing does to the segments of a path and to parameters
      ([clean_path_hides], [scrubUrl_hides_parameters]), which leaves the device of a dns-query
      address ([device_of_dns_query_stays]), scrubbing is idempotent and throws on one
      kind of input ([scrubUrl_idempotent], [malformed_parameter_throws]), and recording follows
      consent ([replay_follows_consent]).
    - Updates: every reload has a cause and the guarded ones do not loop
      ([automatic_reloads_never_loop]; the waiting worker of a hidden tab is not guarded,
      [worker_reloads_hidden_tab]), each page reloads and prompts once, and a prompt that is clicked
      leads to a reload ([reload_and_prompt_once], [prompt_is_actionable]); a lazy import retries with
      its delays, keeps its last error and reloads at most once in a window ([retry_loop_spec],
      [import_reloads_apart]).
    - Equivalences and round trips: consolidation is the partition into runs, refreshed pages merge
      without duplicates, pointers and NRD ranges decode to what was encoded, buckets cover the window.

    - Pages against a server: a handler of the blocklists or the custom rules page whose change is
      applied ends with the page showing what the server has ([changes_reach_server_and_page],
      [change_shows_server_profile], [save_commits], [created_profile_is_active]); a switch turns its
      lists to its other position and no others ([switch_takes_other_position],
      [service_switch_takes_other_position]); on a log that does not change, for one profile object
      and without background ticks, the list is a prefix of it ([list_is_a_prefix]; what breaks it:
      [new_profile_object_appends], [stale_tick_is_shown]); a save that finds other settings sends
      nothing ([stale_save_sends_nothing]); backup codes stay until Done ([codes_stay_until_done],
      with the late failure that closes them, [late_setup_failure_closes_codes]).
    - What is sent: an import, an export, a deletion, a new address and a new password carry exactly
      what was chosen and exactly one proof of identity ([import_sends_the_selection],
      [export_sends_the_selection], [deletion_needs_code_and_proof], [email_is_confirmed],
      [password_is_entered_twice]); query logs are asked for within the cap of the server
      ([requests_within_cap], [logs_urls_within_cap]).
    - What the server reads: ids and parameters come back from path and query as they were given
      ([path_carries_ids], [query_carries_parameters]; a dot or two dots in the place of an id are
      resolved away, [dotted_id_leaves_the_path]), a request names its call
      ([request_determines_call]) and its profile ([requests_name_their_profile]), its body is JSON
      ([bodies_are_json]), and nothing is sent without a required parameter
      ([missing_parameter_sends_nothing]).
    - Nothing hangs: loading flags have a handler in flight that lowers them
      ([loading_is_one_fetch], [catalog_loads_the_shown_sort], [deletion_code_settles],
      [blocklists_page_settles]); every handler ends, and its outcome is stated for each answer
      ([export_ends], [email_change_ends], [deletion_ends], [password_change_ends], [login_ends],
      [one_account_is_created], [reset_page_settles], [sync_ends],
      [refused_import_can_be_repeated], [failed_save_shows_server], [submission_ends],
      [generator_settles], [stamps_settle]).
    - What is drawn: the counts of the statistics page are of the view its address names
      ([counts_are_of_the_view], [address_names_the_view]) and it updates itself while data is
      collected ([collecting_updates_itself]); binning keeps the sum ([binned_keeps_the_sum]), shares
      fill the track ([shares_fill_the_track]), the partial tail joins the line
      ([tail_joins_the_line]); every list of the catalog is on one card, except for the stranded ones
      ([cards_cover_the_catalog]); the filter bar shows the request ([request_is_what_the_bar_shows],
      [clearing_clears]) and a pull refreshes when it is long enough ([long_pull_refreshes]); a row has
      the status of its run ([row_status_of_run]); the sheet sends the rule it shows
      ([sheet_sends_what_it_shows]).
    - Devices and navigation: a requested configuration profile has what the server accepts
      ([profile_requests_conform]), a guide names addresses of its profile
      ([guide_names_addresses]; the hosts of device identification are another server's,
      [device_guide_names_example_host]), object URLs are given back ([no_blob_is_leaked]), timers are the
      current one's ([timer_is_current]), the menu marks one entry ([one_active_entry]), and every
      announcement can be reached ([all_announcements_are_reached]).
    - Where the code does something else than it means to, the theorem states what it does: a saved
      consent that error reports do not follow ([saved_consent_does_not_reach_reports]), a failed
      refetch reported as a failed change ([saved_switch_is_shown_failed],
      [saved_email_is_shown_failed], [saved_password_is_shown_failed], [unread_sync_is_announced]), an
      account that cannot sign in at its session limit ([limit_locks_out_second_factor]), answers that arrive after a
      dialog was closed ([late_ceremony_verifies], [late_code_shown_again],
      [closing_while_enabling_loses_codes]), a deleted profile that stays active
      ([deleted_first_profile_stays_active]), late answers that undo a later choice
      ([late_rule_switches_back], [late_revalidation_switches_back], [late_code_is_of_other_form],
      [late_close_hides_the_page], [late_stamps_are_of_other_device],
      [late_stamp_under_other_profile]), lists that no control turns off
      ([stranded_list_has_no_switch]), a search that shows a profile as not set up
      ([blank_search_is_unseen]), a pull that goes on after its touch
      ([cancelled_pull_refreshes_on_tap]), and single cases ([empty_view_offers_a_dead_end],
      [www_domain_blocks_its_suffix], [failed_retry_shows_both], [device_guide_names_example_host],
      [refused_logout_differs]).

    A theorem over a state machine quantifies over every finite sequence of events from the initial
    state; it is proved by an invariant and [run_invariant]. A theorem over a handler says what [play]
    gives for any answers, with any updates of the state between them.

    ** Bounds and fuel

    - Scans that are not structural recurse on the length of the string: [JsString.replace_from] and
      the URI decoder have as fuel the length of their input and each round consumes at least one
      character, so the fuel is never used up; [ConsolidateLogs.runs] likewise with the number of
      logs, and [StatsPanels.binned_from] with the number of values. [LazyRetry] counts attempts, as the source does.
    - Counts, durations and time values are exact integers ([Z]); the source keeps them below 2^53.
      Where it divides or multiplies fractions, the double is computed by [spec_float] ([JsNumber]).

    ** Outside the model

    - Strings range over Latin-1 code units; lower-casing is ASCII's and that of Latin-1 letters.
    - The members of [Object.prototype], which [key in obj] and [obj[key]] also find.
    - The time zone, [Intl] and [localeCompare]: the class [Host], with the laws used in [HostLaws],
      and [utc_host], an instance in which the witnesses compute. Number formatting of fractions:
      [NumberHost].
    - URLs with a query or characters that a URL escapes in a path: the paths of the client have none.
    - [@simplewebauthn/browser], Sentry, axios, zustand, React and
      react-router: what they answer is an event or an argument ([World] in [WebAuthn], [Router] in
      [Session]).
    - Components that only render and CSS: of the setup guides the wording, of the charts the
      geometry, and the legal and landing pages.
    - The Go services of the repository ([src/api], [src/proxy], [src/blocklists], [src/dnscheck]). *)

From stdpp Require Export base tactics list strings gmap sorting numbers pretty.
From Stdlib Require Export ZArith Lia Ascii.

(** ** Scope and notations *)

Declare Scope js_scope.
Delimit Scope js_scope with js.

(** [x ?? d] is the nullish coalescing of the source: [undefined] and [null] are both [None]. *)
Notation "x ?? d" := (default d x) (at level 62, right associativity) : js_scope.

(** Template literals and string [+] are concatenation. *)
Infix "++s" := String.append (at level 60, right associativity) : js_scope.

(** stdpp seals [String.append]; the development computes with it. *)
#[global] Arguments String.append !_ _ : simpl nomatch.

#[global] Open Scope js_scope.
#[global] Open Scope Z_scope.

(** ** Results of code that may throw *)

Inductive result (E A : Type) : Type :=
| Ok (a : A)
| Throw (e : E).
Arguments Ok {E A} a.
Arguments Throw {E A} e.

#[export] Instance result_eq_dec {E A} `{EqDecision E} `{EqDecision A} : EqDecision (result E A).
Proof. solve_decision. Defined.

Section result_monad.
Context {E : Type}.
#[export] Instance result_ret : MRet (result E) := fun _ a => Ok a.
#[export] Instance result_throw : MThrow E (result E) := fun _ e => Throw e.
#[export] Instance result_bind : MBind (result E) := fun _ _ f r =>
  match r with Ok a => f a | Throw e => Throw e end.
#[export] Instance result_fmap : FMap (result E) := fun _ _ f r =>
  match r with Ok a => Ok (f a) | Throw e => Throw e end.
End result_monad.

(** [try r catch h] *)
Definition try_catch {E A} (r : result E A) (h : E -> result E A) : result E A :=
  match r with Ok a => Ok a | Throw e => h e end.

Definition is_ok {E A} (r : result E A) : bool :=
  match r with Ok _ => true | Throw _ => false end.

(** ** Reachability of a step relation *)

Section reach.
Context {S : Type} (step : S -> S -> Prop).
Inductive reach (s0 : S) : S -> Prop :=
| reach_refl : reach s0 s0
| reach_step s s' : reach s0 s -> step s s' -> reach s0 s'.

Lemma reach_invariant (P : S -> Prop) s0 :
  P s0 -> (forall s s', P s -> step s s' -> P s') -> forall s, reach s0 s -> P s.
Proof. intros H0 Hstep s Hr. induction Hr; eauto. Qed.

Lemma reach_trans s0 s1 s2 : reach s0 s1 -> reach s1 s2 -> reach s0 s2.
Proof. intros H1 H2. induction H2; eauto using reach. Qed.
End reach.

(** Running a deterministic handler over a list of events. *)
Definition run {S Ev : Type} (step : S -> Ev -> S) (s : S) (evs : list Ev) : S :=
  foldl step s evs.

Lemma run_app {S Ev} (step : S -> Ev -> S) s l1 l2 :
  run step s (l1 ++ l2) = run step (run step s l1) l2.
Proof. apply foldl_app. Qed.

Lemma run_snoc {S Ev} (step : S -> Ev -> S) s l e :
  run step s (l ++ [e]) = step (run step s l) e.
Proof. by rewrite run_app. Qed.

Lemma run_invariant {S Ev} (step : S -> Ev -> S) (P : S -> Prop) :
  (forall s e, P s -> P (step s e)) -> forall evs s, P s -> P (run step s evs).
Proof. intros Hstep evs. induction evs as [|e evs IH]; cbn; auto. Qed.

(** ** Lists *)

(** [Array.prototype.find] *)
Definition array_find {A} (p : A -> bool) (l : list A) : option A :=
  head (List.filter p l).

(** [Array.prototype.findIndex], [-1] as [None]. *)
Fixpoint find_index {A} (p : A -> bool) (l : list A) : option nat :=
  match l with
  | [] => None
  | x :: l' => if p x then Some 0%nat else S <$> find_index p l'
  end.

Lemma array_find_Some {A} (p : A -> bool) l x :
  array_find p l = Some x ->
  exists l1 l2, l = l1 ++ x :: l2 /\ p x = true /\ Forall (fun y => p y = false) l1.
Proof.
  unfold array_find. induction l as [|y l IH]; cbn; [done|].
  destruct (p y) eqn:Hy; cbn.
  - intros [= <-]. exists [], l. auto.
  - intros H. destruct (IH H) as (l1 & l2 & -> & Hp & Hl).
    exists (y :: l1), l2. split; [done|]. split; [done|]. by constructor.
Qed.

Lemma array_find_elem {A} (p : A -> bool) l x :
  array_find p l = Some x -> x ∈ l /\ p x = true.
Proof.
  intros (l1 & l2 & -> & Hp & _)%array_find_Some. split; [|done].
  rewrite elem_of_app, elem_of_cons. auto.
Qed.

Lemma array_find_None {A} (p : A -> bool) l :
  array_find p l = None <-> Forall (fun y => p y = false) l.
Proof.
  unfold array_find. induction l as [|y l IH]; cbn.
  - split; [constructor|done].
  - destruct (p y) eqn:Hy; cbn; rewrite Forall_cons.
    + split; [done|]. intros [? _]. congruence.
    + rewrite IH. tauto.
Qed.

Lemma existsb_elem {A} (p : A -> bool) (l : list A) :
  existsb p l = true <-> exists x, x ∈ l /\ p x = true.
Proof.
  rewrite existsb_exists. split; intros (x & ? & ?); exists x; split; auto; by apply list_elem_of_In.
Qed.

Lemma elem_of_list_filter_b {A} (p : A -> bool) (l : list A) x :
  x ∈ List.filter p l <-> x ∈ l /\ p x = true.
Proof. rewrite !list_elem_of_In. apply filter_In. Qed.

Lemma filter_b_sublist {A} (p : A -> bool) (l : list A) : List.filter p l `sublist_of` l.
Proof. induction l as [|x l IH]; cbn; [done|]. destruct (p x); by constructor. Qed.

Lemma map_sublist {A B} (f : A -> B) (l k : list A) : l `sublist_of` k -> map f l `sublist_of` map f k.
Proof. induction 1; cbn; by constructor. Qed.

Lemma NoDup_filter_b {A} (p : A -> bool) (l : list A) : NoDup l -> NoDup (List.filter p l).
Proof. intros. eapply sublist_NoDup; [done|]. apply filter_b_sublist. Qed.

Lemma filter_delete_false {A} (p : A -> bool) l i x :
  l !! i = Some x -> p x = false -> List.filter p (delete i l) = List.filter p l.
Proof.
  revert i. induction l as [|y l IH]; intros [|i]; [done|done| |].
  - intros [= ->] Hx. change (delete 0%nat (x :: l)) with l. cbn. by rewrite Hx.
  - intros Hi Hx. change (delete (S i) (y :: l)) with (y :: delete i l). cbn [List.filter]. by rewrite (IH i).
Qed.

Lemma filter_delete_single {A} (p : A -> bool) l i x y :
  l !! i = Some x -> p x = true -> List.filter p l = [y] -> x = y /\ List.filter p (delete i l) = [].
Proof.
  revert i. induction l as [|z l IH]; intros [|i]; [done|done| |].
  - intros [= ->] Hx. change (delete 0%nat (x :: l)) with l. cbn [List.filter]. rewrite Hx. by intros [= -> ->].
  - intros Hi Hx. change (delete (S i) (z :: l)) with (z :: delete i l). cbn [List.filter].
    destruct (p z) eqn:Hz; [|by apply (IH i)]. intros [= -> Hl]. exfalso.
    assert (x ∈ List.filter p l) as Hin by (apply elem_of_list_filter_b; split; [by eapply list_elem_of_lookup_2|done]).
    rewrite Hl in Hin. by apply elem_of_nil in Hin.
Qed.

Lemma existsb_false {A} (p : A -> bool) (l : list A) :
  existsb p l = false <-> Forall (fun x => p x = false) l.
Proof.
  induction l as [|x l IH]; cbn; [split; constructor|].
  rewrite orb_false_iff, Forall_cons. tauto.
Qed.

(** First-seen de-duplication: the [Set]-guarded [push] loops of the source. *)
Fixpoint dedup_from {A} `{EqDecision A} (seen : list A) (l : list A) : list A :=
  match l with
  | [] => []
  | x :: l' => if bool_decide (x ∈ seen) then dedup_from seen l'
               else x :: dedup_from (x :: seen) l'
  end.
Definition dedup {A} `{EqDecision A} (l : list A) : list A := dedup_from [] l.

Section dedup.
Context {A : Type} `{EqDecision A}.
Implicit Types l seen : list A.

Lemma elem_of_dedup_from seen l x :
  x ∈ dedup_from seen l <-> x ∈ l /\ x ∉ seen.
Proof.
  revert seen. induction l as [|y l IH]; intros seen; cbn.
  { set_solver. }
  case_bool_decide as Hy.
  - rewrite IH. set_solver.
  - rewrite elem_of_cons, IH. destruct (decide (x = y)) as [->|]; set_solver.
Qed.

Lemma NoDup_dedup_from seen l : NoDup (dedup_from seen l).
Proof.
  revert seen. induction l as [|y l IH]; intros seen; cbn; [constructor|].
  case_bool_decide; [apply IH|]. constructor; [|apply IH].
  rewrite elem_of_dedup_from. set_solver.
Qed.

Lemma elem_of_dedup l x : x ∈ dedup l <-> x ∈ l.
Proof. unfold dedup. rewrite elem_of_dedup_from. set_solver. Qed.

Lemma NoDup_dedup l : NoDup (dedup l).
Proof. apply NoDup_dedup_from. Qed.

Lemma dedup_from_sublist seen l : dedup_from seen l `sublist_of` l.
Proof.
  revert seen. induction l as [|y l IH]; intros seen; cbn; [done|].
  case_bool_decide; by constructor.
Qed.

Lemma dedup_from_disjoint_id seen l :
  NoDup l -> (forall x, x ∈ l -> x ∉ seen) -> dedup_from seen l = l.
Proof.
  revert seen. induction l as [|y l IH]; intros seen Hnd Hdis; cbn; [done|].
  apply NoDup_cons in Hnd as [Hy Hnd].
  rewrite bool_decide_eq_false_2 by set_solver. f_equal. apply IH; [done|set_solver].
Qed.

Lemma dedup_id l : NoDup l -> dedup l = l.
Proof. intros. apply dedup_from_disjoint_id; [done|set_solver]. Qed.
End dedup.

(** The same loop as the source writes it: append what the accumulator does not hold. *)
Definition add_new {A} `{EqDecision A} (acc : list A) (x : A) : list A :=
  if bool_decide (x ∈ acc) then acc else acc ++ [x].

Lemma foldl_add_new {A} `{EqDecision A} (acc l : list A) :
  foldl add_new acc l = acc ++ dedup_from acc l.
Proof.
  assert (forall (l seen1 seen2 : list A), (forall x, x ∈ seen1 <-> x ∈ seen2) ->
    dedup_from seen1 l = dedup_from seen2 l) as Hext.
  { clear. intros l. induction l as [|x l IH]; intros s1 s2 Hs; cbn; [done|].
    rewrite (bool_decide_ext _ _ (Hs x)). destruct (bool_decide _); [by apply IH|].
    f_equal. apply IH. set_solver. }
  revert acc. induction l as [|x l IH]; intros acc; cbn; [by rewrite app_nil_r|].
  rewrite IH. unfold add_new. destruct (bool_decide (x ∈ acc)) eqn:Hx; [done|].
  rewrite <- app_assoc. cbn. do 2 f_equal. apply Hext. set_solver.
Qed.

(** De-duplication by a key: the first element of each key. *)
Fixpoint dedup_by {A K} `{EqDecision K} (key : A -> K) (seen : list K) (l : list A) : list A :=
  match l with
  | [] => []
  | x :: l' => if bool_decide (key x ∈ seen) then dedup_by key seen l'
               else x :: dedup_by key (key x :: seen) l'
  end.

Lemma map_dedup_by {A K} `{EqDecision K} (key : A -> K) seen l :
  map key (dedup_by key seen l) = dedup_from seen (map key l).
Proof.
  revert seen. induction l as [|x l IH]; intros seen; cbn; [done|].
  case_bool_decide; cbn; by rewrite IH.
Qed.

Lemma dedup_by_sublist {A K} `{EqDecision K} (key : A -> K) seen l :
  dedup_by key seen l `sublist_of` l.
Proof.
  revert seen. induction l as [|x l IH]; intros seen; cbn; [done|].
  case_bool_decide; by constructor.
Qed.

Create HintDb moddns.
#[export] Hint Resolve filter_b_sublist NoDup_filter_b NoDup_dedup dedup_by_sublist : moddns.
#[export] Hint Rewrite @elem_of_dedup @elem_of_list_filter_b : moddns.

(** [Array.prototype.sort] with a comparison function: a stable sort. *)
Section sort.
Context {A : Type} (cmp : A -> A -> Z).

Fixpoint insert_stable (x : A) (l : list A) : list A :=
  match l with
  | [] => [x]
  | y :: l' => if 0 <? cmp x y then y :: insert_stable x l' else x :: l
  end.
Definition array_sort (l : list A) : list A := foldr insert_stable [] l.

Definition cmp_le (x y : A) : Prop := cmp x y <= 0.

Lemma insert_stable_perm x l : insert_stable x l ≡ₚ x :: l.
Proof.
  induction l as [|y l IH]; cbn; [done|]. destruct (0 <? cmp x y); [|done].
  rewrite IH. constructor.
Qed.

Lemma array_sort_perm l : array_sort l ≡ₚ l.
Proof. induction l as [|x l IH]; cbn; [done|]. by rewrite insert_stable_perm, IH. Qed.

(** The comparison function is consistent: total and transitive. *)
Context (Htot : forall x y, cmp x y <= 0 \/ cmp y x <= 0).

Lemma insert_stable_sorted x l : Sorted cmp_le l -> Sorted cmp_le (insert_stable x l).
Proof.
  induction 1 as [|y l Hs IH Hy]; cbn; [by repeat constructor|].
  destruct (Z.ltb_spec 0 (cmp x y)) as [Hlt|Hle].
  - constructor; [done|]. assert (cmp_le y x) as Hyx by (destruct (Htot x y); [lia|done]).
    destruct Hy as [|z l' Hyz]; cbn; [by constructor|]. destruct (0 <? cmp x z); by constructor.
  - constructor; [by constructor|]. by constructor.
Qed.

Lemma array_sort_sorted l : Sorted cmp_le (array_sort l).
Proof. induction l; cbn; [constructor|]. by apply insert_stable_sorted. Qed.
End sort.

(** ** Numbers *)

(** [Math.floor (x / d)] for an integer [x] and a positive integer [d] is [x / d] (floor division). *)

(** [Math.round (x / d)]: round half towards positive infinity. *)
Definition math_round_div (x d : Z) : Z := (2 * x + d) / (2 * d).

(** [Math.ceil (x / d)] *)
Definition math_ceil_div (x d : Z) : Z := - ((- x) / d).

(** [Math.max] and [Math.min] over optional bounds: [None] is [-Infinity]. *)
Definition max_opt (a b : option Z) : option Z :=
  match a, b with
  | None, b => b
  | a, None => a
  | Some a, Some b => Some (Z.max a b)
  end.

Lemma floor_mul_bounds x d : 0 < d -> x / d * d <= x < x / d * d + d.
Proof.
  intros Hd. pose proof (Z.div_mod x d ltac:(lia)). pose proof (Z.mod_pos_bound x d Hd). lia.
Qed.

Lemma math_round_div_exact k d : 0 < d -> math_round_div (k * d) d = k.
Proof.
  intros Hd. unfold math_round_div.
  replace (2 * (k * d) + d) with (k * (2 * d) + d) by lia.
  rewrite Z.div_add_l by lia. rewrite Z.div_small by lia. lia.
Qed.

(** ** Tactics *)

(** Split every boolean or option test of the goal, keeping the equations. *)
Ltac cases :=
  repeat match goal with
  | |- context [match ?x with _ => _ end] =>
      lazymatch x with context [match _ with _ => _ end] => fail | _ => destruct x eqn:? end
  end.

(** Turn boolean connectives and comparisons in the context into propositions. *)
Ltac to_prop :=
  repeat match goal with
  | H : _ && _ = true |- _ => apply andb_true_iff in H as [? ?]
  | H : _ || _ = false |- _ => apply orb_false_iff in H as [? ?]
  | H : negb _ = true |- _ => apply negb_true_iff in H
  | H : negb _ = false |- _ => apply negb_false_iff in H
  | H : bool_decide _ = true |- _ => apply bool_decide_eq_true in H
  | H : bool_decide _ = false |- _ => apply bool_decide_eq_false in H
  | H : (_ <? _) = true |- _ => apply Z.ltb_lt in H
  | H : (_ <? _) = false |- _ => apply Z.ltb_ge in H
  | H : (_ <=? _) = true |- _ => apply Z.leb_le in H
  | H : (_ <=? _) = false |- _ => apply Z.leb_gt in H
  | H : (_ =? _) = true |- _ => apply Z.eqb_eq in H
  | H : (_ =? _) = false |- _ => apply Z.eqb_neq in H
  | H : String.eqb _ _ = true |- _ => apply String.eqb_eq in H
  | H : String.eqb _ _ = false |- _ => apply String.eqb_neq in H
  end.
