(* ===== verification/JsString.v ===== *)
(** * JavaScript strings

    A JavaScript string is a sequence of 16-bit code units. The development represents the strings
    whose code units are below 256 (Latin-1) by [string], one [ascii] per code unit: every literal
    of the source, and every token, identifier, host name and address the modelled code compares,
    is of this kind. The operations below are the standard library's, on that range. *)

From S2P Require Import Prelude.


(** ** Code units and character classes *)

Definition code (c : ascii) : Z := Z.of_N (N_of_ascii c).
Definition of_code (z : Z) : ascii := ascii_of_N (Z.to_N z).

Definition in_range (lo hi : Z) (c : ascii) : bool := (lo <=? code c) && (code c <=? hi).

(** WhiteSpace and LineTerminator code units: what [trim] strips and [\s] matches. *)
Definition is_ws (c : ascii) : bool :=
  in_range 9 13 c || (code c =? 32) || (code c =? 160).

Definition is_upper (c : ascii) : bool :=
  in_range 65 90 c || (in_range 192 222 c && negb (code c =? 215)).
Definition is_lower (c : ascii) : bool :=
  in_range 97 122 c || (in_range 224 254 c && negb (code c =? 247)).

Definition lower_char (c : ascii) : ascii := if is_upper c then of_code (code c + 32) else c.
Definition upper_char (c : ascii) : ascii := if is_lower c then of_code (code c - 32) else c.

Fixpoint str_map (f : ascii -> ascii) (s : string) : string :=
  match s with "" => "" | String c s' => String (f c) (str_map f s') end.

Definition toLowerCase : string -> string := str_map lower_char.

Fixpoint str_all (p : ascii -> bool) (s : string) : bool :=
  match s with "" => true | String c s' => p c && str_all p s' end.

(** A double quote. *)
Definition QUOTE : string := String (ascii_of_nat 34) "".
Definition quoted (s : string) : string := QUOTE ++s s ++s QUOTE.

(** [sort()] without a comparison: by code units. *)
Definition compare_units (a b : string) : Z :=
  match String.compare a b with Lt => -1 | Eq => 0 | Gt => 1 end.

(** ** Searching and slicing *)

Definition startsWith (s pat : string) : bool := String.prefix pat s.

Fixpoint indexOf (s pat : string) : option nat :=
  if startsWith s pat then Some 0%nat
  else match s with "" => None | String _ s' => S <$> indexOf s' pat end.

Definition includes (s pat : string) : bool :=
  match indexOf s pat with Some _ => true | None => false end.

(** [s.slice(0, n)] *)
Fixpoint str_take (n : nat) (s : string) : string :=
  match n, s with
  | S n', String c s' => String c (str_take n' s')
  | _, _ => ""
  end.

(** [s.slice(n)] *)
Fixpoint str_drop (n : nat) (s : string) : string :=
  match n, s with
  | O, _ => s
  | S n', String _ s' => str_drop n' s'
  | S _, "" => ""
  end.

Fixpoint endsWith (s pat : string) : bool :=
  String.eqb s pat || match s with "" => false | String _ s' => endsWith s' pat end.

(** [s.replace(pat, rep)] with a string pattern and a replacement without [$]: the first
    occurrence only. *)
Definition replaceFirst (s pat rep : string) : string :=
  match indexOf s pat with
  | Some i => str_take i s ++s rep ++s str_drop (i + String.length pat) s
  | None => s
  end.

(** [s.replace(/\.$/, "")] *)
Fixpoint stripFinalDot (s : string) : string :=
  match s with
  | "" => ""
  | String c "" => if Ascii.eqb c "."%char then "" else s
  | String c s' => String c (stripFinalDot s')
  end.

(** ** Trimming *)

Fixpoint trimStart (s : string) : string :=
  match s with
  | "" => ""
  | String c s' => if is_ws c then trimStart s' else s
  end.

Fixpoint trimEnd (s : string) : string :=
  match s with
  | "" => ""
  | String c s' =>
      match trimEnd s' with
      | "" => if is_ws c then "" else String c ""
      | t => String c t
      end
  end.

Definition trim (s : string) : string := trimEnd (trimStart s).

(** ** Splitting and joining *)

(** Split at every code unit in [p]; [split_on (Ascii.eqb c)] is [s.split(c)]. *)
Fixpoint split_on (p : ascii -> bool) (s : string) : list string :=
  match s with
  | "" => [""]
  | String c s' =>
      match split_on p s' with
      | w :: ws => if p c then "" :: w :: ws else String c w :: ws
      | [] => []
      end
  end.

Definition split (s : string) (sep : ascii) : list string := split_on (Ascii.eqb sep) s.

(** [words.join(sep)] *)
Fixpoint join (sep : string) (ws : list string) : string :=
  match ws with
  | [] => ""
  | [w] => w
  | w :: ws' => w ++s sep ++s join sep ws'
  end.

(** ** Truthiness and number printing *)

(** [!!s] *)
Definition truthy (s : string) : bool := negb (String.eqb s "").

(** [s || d] *)
Definition str_or (s d : string) : string := if truthy s then s else d.

(** [s || d] for an optional string. *)
Definition opt_or (s : option string) (d : string) : string := str_or (default "" s) d.

(** [!!s] for an optional string. *)
Definition truthy_opt (s : option string) : bool := truthy (default "" s).

(** [String(n)] *)
Definition show (n : Z) : string := pretty n.

Definition is_digit (c : ascii) : bool := in_range 48 57 c.

(** [parseInt(s, 10)]: [None] is [NaN]. *)
Fixpoint digits_value (acc : Z) (s : string) : Z :=
  match s with
  | EmptyString => acc
  | String c s' => if is_digit c then digits_value (10 * acc + (code c - 48)) s' else acc
  end.

Definition parse_digits (s : string) : option Z :=
  match s with
  | String c _ => if is_digit c then Some (digits_value 0 s) else None
  | EmptyString => None
  end.

Definition parseInt10 (s : string) : option Z :=
  match trimStart s with
  | EmptyString => None
  | String c s' as t =>
      if Ascii.eqb c "-" then Z.opp <$> parse_digits s'
      else if Ascii.eqb c "+" then parse_digits s' else parse_digits t
  end.

Definition digit36 (d : Z) : ascii := of_code (if d <? 10 then 48 + d else 87 + d).

Fixpoint toString36_go (fuel : nat) (n : Z) (acc : string) : string :=
  match fuel with
  | O => acc
  | S f => if n =? 0 then acc else toString36_go f (n / 36) (String (digit36 (n mod 36)) acc)
  end.

(** [n.toString(36)] for [0 <= n < 2 ^ 32]: seven base-36 digits are enough. *)
Definition toString36 (n : Z) : string :=
  if n =? 0 then "0" else toString36_go 7 n "".

(** ** Concatenation *)

Lemma app_nil_r_s s : s ++s "" = s.
Proof. induction s as [|c s IH]; cbn; [done|by rewrite IH]. Qed.

Lemma app_assoc_s s1 s2 s3 : (s1 ++s s2) ++s s3 = s1 ++s s2 ++s s3.
Proof. induction s1 as [|c s IH]; cbn; [done|by rewrite IH]. Qed.

Lemma app_inj_l s s1 s2 : s ++s s1 = s ++s s2 -> s1 = s2.
Proof. induction s as [|c s IH]; cbn; [done|]. intros [= ?]. auto. Qed.

Lemma length_app_s s1 s2 : String.length (s1 ++s s2) = (String.length s1 + String.length s2)%nat.
Proof. induction s1 as [|c s IH]; cbn; [done|by rewrite IH]. Qed.

Lemma app_inj_r s s1 s2 : s1 ++s s = s2 ++s s -> s1 = s2.
Proof.
  revert s2. induction s1 as [|c s1 IH]; intros [|d s2]; cbn; intros H; [done|..].
  - apply (f_equal String.length) in H. cbn in H. rewrite length_app_s in H. lia.
  - apply (f_equal String.length) in H. cbn in H. rewrite length_app_s in H. lia.
  - injection H as -> H. f_equal. by apply IH.
Qed.

Lemma str_all_app p s1 s2 : str_all p (s1 ++s s2) = str_all p s1 && str_all p s2.
Proof. induction s1 as [|c s IH]; cbn; [done|]. by rewrite IH, andb_assoc. Qed.

Lemma str_all_impl (p q : ascii -> bool) s :
  (forall c, p c = true -> q c = true) -> str_all p s = true -> str_all q s = true.
Proof.
  intros Hpq. induction s as [|c s IH]; cbn; [done|]. intros [? ?]%andb_true_iff.
  apply andb_true_iff. auto.
Qed.

(** ** Searching *)

Lemma startsWith_app s t : startsWith (s ++s t) s = true.
Proof.
  unfold startsWith. induction s as [|c s IH]; cbn; [by destruct t|].
  destruct (ascii_dec c c); [done|congruence].
Qed.

Lemma startsWith_spec s pat : startsWith s pat = true <-> exists t, s = pat ++s t.
Proof.
  split; [|intros [t ->]; apply startsWith_app].
  unfold startsWith. revert s. induction pat as [|c pat IH]; intros [|d s]; cbn; intros H;
    [by exists ""|by eexists|done|].
  destruct (ascii_dec c d) as [->|]; [|done]. destruct (IH s H) as [t ->]. by exists t.
Qed.

Lemma take_drop_s n s : str_take n s ++s str_drop n s = s.
Proof. revert s. induction n as [|n IH]; intros [|c s]; cbn; [done..|]. by rewrite IH. Qed.

Lemma drop_app_s s t : str_drop (String.length s) (s ++s t) = t.
Proof. induction s as [|c s IH]; cbn; [by destruct t|done]. Qed.

Lemma drop_drop_s n m s : str_drop n (str_drop m s) = str_drop (m + n) s.
Proof.
  revert s. induction m as [|m IH]; intros [|c s]; cbn; [done|done|by destruct n|apply IH].
Qed.

Lemma indexOf_Some s pat i :
  indexOf s pat = Some i ->
  s = str_take i s ++s pat ++s str_drop (i + String.length pat) s.
Proof.
  revert i. induction s as [|c s IH]; intros i H; cbn [indexOf] in H;
    destruct (startsWith _ pat) eqn:Hp.
  - injection H as <-. apply startsWith_spec in Hp as [t Ht].
    rewrite Ht at 1. cbn. rewrite Ht, drop_app_s. done.
  - done.
  - injection H as <-. apply startsWith_spec in Hp as [t Ht].
    cbn [str_take Nat.add]. rewrite Ht, drop_app_s. done.
  - destruct (indexOf s pat) as [j|] eqn:Hj; [|done]. injection H as <-.
    cbn. f_equal. by apply IH.
Qed.

Lemma indexOf_app s pat t : is_Some (indexOf (s ++s pat ++s t) pat).
Proof.
  induction s as [|c s IH]; cbn [String.append].
  - pose proof (startsWith_app pat t) as H.
    destruct (pat ++s t); cbn [indexOf]; rewrite H; eauto.
  - cbn [indexOf]. destruct (startsWith _ _); [eauto|].
    destruct IH as [j Hj]. fold (String.append pat t). rewrite Hj. cbn. eauto.
Qed.

(** [s.includes(pat)] holds exactly when [pat] occurs in [s]. *)
Lemma includes_spec s pat : includes s pat = true <-> exists a b, s = a ++s pat ++s b.
Proof.
  unfold includes. split.
  - destruct (indexOf s pat) as [i|] eqn:Hi; [|done]. intros _.
    eauto using indexOf_Some.
  - intros (a & b & ->). by destruct (indexOf_app a pat b) as [? ->].
Qed.

Lemma includes_app_l a s pat : includes s pat = true -> includes (a ++s s) pat = true.
Proof.
  rewrite !includes_spec. intros (x & y & ->). exists (a ++s x), y. by rewrite app_assoc_s.
Qed.

Lemma includes_app_r s b pat : includes s pat = true -> includes (s ++s b) pat = true.
Proof.
  rewrite !includes_spec. intros (x & y & ->). exists x, (y ++s b). by rewrite !app_assoc_s.
Qed.

Lemma includes_refl pat : includes pat pat = true.
Proof. rewrite includes_spec. exists "", "". cbn. by rewrite app_nil_r_s. Qed.

Lemma includes_trans s q r : includes s q = true -> includes q r = true -> includes s r = true.
Proof.
  rewrite !includes_spec. intros (a & b & ->) (c & d & ->).
  exists (a ++s c), (d ++s b). by rewrite !app_assoc_s.
Qed.

Lemma includes_replaceFirst s pat rep q :
  includes s pat = true -> includes rep q = true -> includes (replaceFirst s pat rep) q = true.
Proof.
  unfold replaceFirst. intros Hs Hr. unfold includes in Hs.
  destruct (indexOf s pat); [|done]. apply includes_app_l, includes_app_r, Hr.
Qed.

#[export] Hint Resolve includes_refl includes_app_l includes_app_r includes_replaceFirst : moddns.

(** ** Splitting and joining *)

Lemma split_on_nonempty p s : split_on p s <> [].
Proof.
  induction s as [|c s IH]; cbn; [done|]. destruct (split_on p s); [done|]. by destruct (p c).
Qed.

Lemma split_on_pieces p s : Forall (fun w => str_all (fun c => negb (p c)) w = true) (split_on p s).
Proof.
  induction s as [|c s IH]; cbn; [by repeat constructor|].
  destruct (split_on p s) as [|w ws]; [done|]. apply Forall_cons in IH as [Hw Hws].
  destruct (p c) eqn:Hc; [by repeat constructor|].
  constructor; [|done]. cbn. by rewrite Hc.
Qed.

Lemma split_on_none p w :
  str_all (fun c => negb (p c)) w = true -> split_on p w = [w].
Proof.
  induction w as [|c w IH]; cbn; [done|]. intros [Hc Hw]%andb_true_iff.
  apply negb_true_iff in Hc. by rewrite IH, Hc.
Qed.

Lemma split_on_app p w c s :
  str_all (fun c => negb (p c)) w = true -> p c = true ->
  split_on p (w ++s String c s) = w :: split_on p s.
Proof.
  intros Hw Hc. induction w as [|d w IH]; cbn in *.
  - destruct (split_on p s) eqn:E; [by destruct (split_on_nonempty p s)|]. by rewrite Hc.
  - apply andb_true_iff in Hw as [Hd Hw]. apply negb_true_iff in Hd.
    rewrite IH by done. by rewrite Hd.
Qed.

Lemma join_split s c : join (String c "") (split s c) = s.
Proof.
  unfold split. induction s as [|d s IH]; cbn; [done|].
  destruct (split_on (Ascii.eqb c) s) as [|w ws] eqn:E; [by destruct (split_on_nonempty (Ascii.eqb c) s)|].
  destruct (Ascii.eqb_spec c d) as [->|]; cbn in *; [by rewrite IH|].
  destruct ws; cbn in *; by rewrite IH.
Qed.

(** Splitting a join gives the words back when no word holds the separator. *)
Lemma split_join ws c :
  ws <> [] -> Forall (fun w => str_all (fun d => negb (Ascii.eqb c d)) w = true) ws ->
  split (join (String c "") ws) c = ws.
Proof.
  unfold split. intros Hne Hall. induction ws as [|w ws IH]; [done|].
  apply Forall_cons in Hall as [Hw Hws]. destruct ws as [|w' ws]; cbn [join].
  - by apply split_on_none.
  - cbn [String.append]. rewrite split_on_app; [|done|apply Ascii.eqb_refl].
    f_equal. by apply IH.
Qed.

(** ** Trimming *)

Definition no_edge_ws (s : string) : Prop := trim s = s.

Lemma trimStart_app s t : str_all is_ws s = true -> trimStart (s ++s t) = trimStart t.
Proof.
  induction s as [|c s IH]; cbn; [done|]. intros [Hc Hs]%andb_true_iff. rewrite Hc. auto.
Qed.

Lemma trimEnd_suffix s : exists w, s = trimEnd s ++s w /\ str_all is_ws w = true.
Proof.
  induction s as [|c s (w & Hs & Hw)]; [by exists ""|].
  cbn. destruct (trimEnd s) as [|d t] eqn:E.
  - cbn in Hs. subst w. destruct (is_ws c) eqn:Hc; [exists (String c s)|exists s]; cbn; by rewrite ?Hc.
  - exists w. split; [|done]. cbn. by rewrite Hs at 1.
Qed.

Lemma trimStart_suffix s : exists w, s = w ++s trimStart s /\ str_all is_ws w = true.
Proof.
  induction s as [|c s (w & Hs & Hw)]; [by exists ""|].
  cbn. destruct (is_ws c) eqn:Hc; [|by exists ""].
  exists (String c w). cbn. rewrite Hc. by rewrite <- Hs.
Qed.

Lemma str_all_trim p s : str_all p s = true -> str_all p (trim s) = true.
Proof.
  unfold trim. destruct (trimStart_suffix s) as (w1 & Hs & _).
  destruct (trimEnd_suffix (trimStart s)) as (w2 & Ht & _).
  rewrite Hs at 1. rewrite Ht at 1. rewrite !str_all_app.
  intros [_ [? _]%andb_true_iff]%andb_true_iff. done.
Qed.

(** A string without white space is its own trim. *)
Lemma trim_no_ws s : str_all (fun c => negb (is_ws c)) s = true -> trim s = s.
Proof.
  intros Hs. unfold trim.
  assert (trimStart s = s) as ->.
  { destruct s; [done|]. cbn in *. apply andb_true_iff in Hs as [Hc _].
    apply negb_true_iff in Hc. by rewrite Hc. }
  induction s as [|c s IH]; cbn in *; [done|]. apply andb_true_iff in Hs as [Hc Hs].
  apply negb_true_iff in Hc. rewrite IH by done. destruct s; [by rewrite Hc|done].
Qed.

(** ** Number printing *)

#[export] Instance show_inj : Inj (=) (=) show.
Proof. apply _. Qed.

Lemma truthy_spec s : truthy s = true <-> s <> "".
Proof. unfold truthy. destruct (String.eqb_spec s ""); naive_solver. Qed.

Lemma truthy_false s : truthy s = false <-> s = "".
Proof. unfold truthy. destruct (String.eqb_spec s ""); naive_solver. Qed.

(** ** Replacing past a prefix *)

(** A prefix without the pattern's first code unit holds no occurrence. *)
Definition lacks (c : ascii) (s : string) : bool := str_all (fun d => negb (Ascii.eqb c d)) s.

Lemma indexOf_skip c pat p s :
  lacks c p = true ->
  indexOf (p ++s s) (String c pat) = Nat.add (String.length p) <$> indexOf s (String c pat).
Proof.
  unfold lacks. induction p as [|d p IH]; intros Hp; cbn [str_all] in Hp.
  - cbn. by destruct (indexOf s (String c pat)).
  - apply andb_true_iff in Hp as [Hd Hp]. apply negb_true_iff, Ascii.eqb_neq in Hd.
    cbn [String.append indexOf]. unfold startsWith. cbn [String.prefix].
    destruct (ascii_dec c d); [done|]. rewrite IH by done.
    by destruct (indexOf s (String c pat)).
Qed.

Lemma str_take_app p s n : str_take (String.length p + n) (p ++s s) = p ++s str_take n s.
Proof. induction p as [|c p IH]; cbn; [done|]. by rewrite IH. Qed.

Lemma str_drop_app p s n : str_drop (String.length p + n) (p ++s s) = str_drop n s.
Proof. induction p as [|c p IH]; cbn; [done|]. done. Qed.

Lemma replaceFirst_skip c pat p s rep :
  lacks c p = true ->
  replaceFirst (p ++s s) (String c pat) rep = p ++s replaceFirst s (String c pat) rep.
Proof.
  intros Hp. unfold replaceFirst. rewrite indexOf_skip by done.
  destruct (indexOf s (String c pat)) as [i|]; cbn [fmap option_fmap option_map]; [|done].
  rewrite str_take_app, <- Nat.add_assoc, str_drop_app. by rewrite app_assoc_s.
Qed.

(** ** Digits and separators *)

Lemma pretty_N_char_digit x : is_digit (pretty_N_char x) = true.
Proof. unfold pretty_N_char. by repeat case_match. Qed.

Lemma pretty_N_go_digits x s : str_all is_digit s = true -> str_all is_digit (pretty_N_go x s) = true.
Proof.
  revert s. induction (N.lt_wf_0 x) as [x _ IH]; intros s Hs.
  assert (x = 0 \/ 0 < x)%N as [->|Hx] by lia; [by rewrite pretty_N_go_0|].
  rewrite pretty_N_go_step by done. apply IH; [by apply N.div_lt|].
  cbn [str_all]. by rewrite pretty_N_char_digit.
Qed.

(** A count prints as decimal digits. *)
Lemma show_digits n : 0 <= n -> str_all is_digit (show n) = true.
Proof.
  intros Hn. unfold show. destruct n as [|p|p]; [done| |lia].
  unfold pretty, pretty_Z, pretty, pretty_positive, pretty, pretty_N.
  case_decide; [done|]. by apply pretty_N_go_digits.
Qed.

Lemma pretty_N_char_value x : (x < 10)%N -> code (pretty_N_char x) - 48 = Z.of_N x.
Proof.
  intros Hx. assert (x = 0 \/ x = 1 \/ x = 2 \/ x = 3 \/ x = 4 \/ x = 5 \/ x = 6 \/ x = 7 \/ x = 8 \/ x = 9)%N
    as Hc by lia. by repeat destruct Hc as [->|Hc]; subst.
Qed.

Lemma digits_value_go x s : digits_value 0 (pretty_N_go x s) = digits_value (Z.of_N x) s.
Proof.
  revert s. induction (N.lt_wf_0 x) as [x _ IH]; intros s.
  assert (x = 0 \/ 0 < x)%N as [->|Hx] by lia; [by rewrite pretty_N_go_0|].
  rewrite pretty_N_go_step by done. rewrite IH by (by apply N.div_lt). cbn [digits_value].
  rewrite pretty_N_char_digit, pretty_N_char_value by (by apply N.mod_lt).
  f_equal. rewrite <- (N2Z.inj_mul 10), <- N2Z.inj_add. f_equal. pose proof (N.div_mod x 10). lia.
Qed.

Lemma parseInt10_digits s :
  str_all is_digit s = true -> s <> "" -> parseInt10 s = Some (digits_value 0 s).
Proof.
  intros Hs Hne. destruct s as [|c s]; [done|]. cbn [str_all] in Hs. apply andb_true_iff in Hs as [Hc Hs].
  assert (48 <= code c <= 57) as Hb by (unfold is_digit, in_range in Hc; to_prop; lia).
  assert (is_ws c = false) as Hw by (unfold is_ws, in_range; lia).
  unfold parseInt10. cbn [trimStart]. rewrite Hw.
  destruct (Ascii.eqb_spec c "-") as [->|_]; [done|]. destruct (Ascii.eqb_spec c "+") as [->|_]; [done|].
  unfold parse_digits. by rewrite Hc.
Qed.

(** Printing and parsing a timestamp round-trips. *)
Lemma parseInt10_show n : 0 <= n -> parseInt10 (show n) = Some n.
Proof.
  intros Hn. rewrite parseInt10_digits; [|by apply show_digits|].
  - f_equal. destruct n as [|p|p]; [done| |lia]. unfold show, pretty, pretty_Z, pretty, pretty_positive, pretty, pretty_N.
    case_decide; [done|]. by rewrite digits_value_go.
  - intros H. change "" with (str_take 0 (show n)) in H. destruct n as [|p|p]; [done| |lia].
    revert H. unfold show, pretty, pretty_Z, pretty, pretty_positive, pretty, pretty_N. case_decide as Hd; [done|].
    intros H. assert (digits_value 0 (pretty_N_go (N.pos p) "") = 0) as Hz by (rewrite H; done).
    rewrite digits_value_go in Hz. cbn in Hz. lia.
Qed.

Lemma show_lacks c n : is_digit c = false -> 0 <= n -> lacks c (show n) = true.
Proof.
  intros Hc Hn. eapply str_all_impl; [|by apply show_digits]. cbn. intros d Hd.
  destruct (Ascii.eqb_spec c d); [congruence|done].
Qed.

(** What follows the last separator is determined by the whole string. *)
Lemma last_sep_inj c a b x y :
  lacks c x = true -> lacks c y = true ->
  a ++s String c x = b ++s String c y -> a = b /\ x = y.
Proof.
  assert (forall d z w, lacks c z = true -> z <> d ++s String c w) as Hno.
  { intros d z w Hz ->. unfold lacks in Hz. rewrite str_all_app in Hz. cbn in Hz.
    rewrite Ascii.eqb_refl in Hz. cbn in Hz. by rewrite andb_false_r in Hz. }
  intros Hx Hy. revert b. induction a as [|d a IH]; intros [|e b]; cbn; intros [= ].
  - done.
  - exfalso. by eapply Hno; [exact Hx|].
  - exfalso. eapply Hno; [exact Hy|]. symmetry; done.
  - subst. edestruct IH as [-> ->]; eauto.
Qed.

(** Joined words give the words back when the separator occurs in none of them. *)
Lemma split_on_word p w : str_all (fun c => negb (p c)) w = true -> split_on p w = [w].
Proof. apply split_on_none. Qed.

Lemma truthy_trim s : truthy (trim s) = true -> truthy s = true.
Proof. intros H. apply truthy_spec. intros ->. by vm_compute in H. Qed.
