(* ===== verification/JsNumber.v ===== *)
(** * JavaScript numbers

    A count or a duration is an integer, exact as long as it stays below 2 ^ 53. Where the source
    divides or multiplies fractions the double is computed: [spec_float] with the parameters of
    binary64, rounding to nearest even. *)

From Stdlib Require Export SpecFloat.
From S2P Require Import Prelude JsString.

Definition number (z : Z) : spec_float := binary_normalize 53 1024 z 0 false.
Definition num_div (x y : spec_float) : spec_float := SFdiv 53 1024 x y.
Definition num_mul (x y : spec_float) : spec_float := SFmul 53 1024 x y.
Definition num_lt (x y : spec_float) : bool := SFltb x y.

(** [x.toFixed(f)] times [10 ^ f], for a finite non-negative [x]: the nearest integer, the larger of
    two. *)
Definition fixed_digits (f : Z) (x : spec_float) : Z :=
  match x with
  | S754_finite false m e =>
      let num := Zpos m * 10 ^ f * 2 ^ (Z.max e 0) in
      let den := 2 ^ (Z.max (- e) 0) in
      (2 * num + den) / (2 * den)
  | _ => 0
  end.

Definition toFixed1 (x : spec_float) : string :=
  let k := fixed_digits 1 x in show (k / 10) ++s "." ++s show (k mod 10).
Definition toFixed0 (x : spec_float) : string := show (fixed_digits 0 x).

(** [Number.prototype.toLocaleString] and [Intl.NumberFormat] of the browser. *)
Class NumberHost := {
  (** [n.toLocaleString()] *)
  locale_integer : Z -> string;
  (** [toLocaleString(undefined, { minimumFractionDigits: 1, maximumFractionDigits: 1 })] *)
  locale_one_decimal : spec_float -> string;
  (** [new Intl.NumberFormat(undefined, { notation: "compact", maximumFractionDigits: 1 }).format(n)] *)
  locale_compact : Z -> string;
}.
