(* ===== verification/JsDate.v ===== *)
(** * Dates, time zones and locales

    A time value is an integer number of milliseconds since the epoch. UTC fields are computed from
    the proleptic Gregorian calendar. What the browser decides (its time zone, the output of [Intl],
    the collation of [localeCompare], the parse of date strings outside the ISO 8601 forms) is the
    class [Host]: the definitions that use it take it as an argument. *)

From S2P Require Import Prelude JsString.

Definition SECOND_MS : Z := 1000.
Definition MINUTE_MS : Z := 60 * 1000.
Definition HOUR_MS : Z := 60 * 60 * 1000.
Definition DAY_MS : Z := 86400000.

(** ** The browser *)

(** [Intl.DateTimeFormatOptions]: the fields the source sets. *)
Record DateTimeFormatOptions := {
  o_weekday : option string;
  o_month : option string;
  o_day : option string;
  o_year : option string;
  o_hour : option string;
  o_minute : option string;
  o_timeZone : option string;
  o_timeZoneName : option string;
}.

Definition no_options : DateTimeFormatOptions :=
  {| o_weekday := None; o_month := None; o_day := None; o_year := None; o_hour := None;
     o_minute := None; o_timeZone := None; o_timeZoneName := None |}.

Class Host := {
  (** [-new Date(ms).getTimezoneOffset()]: minutes east of UTC at the instant. *)
  tz_offset_min : Z -> Z;
  (** [new Intl.DateTimeFormat(undefined, options).format(ms)] *)
  intl_format : DateTimeFormatOptions -> Z -> string;
  (** [new Intl.RelativeTimeFormat(undefined, { numeric: "auto" }).format(n, unit)] *)
  relative_format : Z -> string -> string;
  (** [a.localeCompare(b)] *)
  localeCompare : string -> string -> Z;
  (** [Date.parse] on the strings that are not ISO 8601 with a zone; [None] is [NaN]. *)
  legacy_parse : string -> option Z;
}.

(** What ECMA-402 and ECMA-262 say of [localeCompare]: a consistent comparison function. *)
Class HostLaws (H : Host) := {
  localeCompare_antisym a b : localeCompare a b <= 0 \/ localeCompare b a <= 0;
  localeCompare_trans a b c :
    localeCompare a b <= 0 -> localeCompare b c <= 0 -> localeCompare a c <= 0;
}.

(** ** Calendar *)

Record civil := { c_year : Z; c_month : Z; c_day : Z }.

Definition days_from_civil (y m d : Z) : Z :=
  let y' := if m <=? 2 then y - 1 else y in
  let era := y' / 400 in
  let yoe := y' - era * 400 in
  let doy := (153 * (if 2 <? m then m - 3 else m + 9) + 2) / 5 + d - 1 in
  let doe := yoe * 365 + yoe / 4 - yoe / 100 + doy in
  era * 146097 + doe - 719468.

Definition civil_from_days (z0 : Z) : civil :=
  let z := z0 + 719468 in
  let era := z / 146097 in
  let doe := z - era * 146097 in
  let yoe := (doe - doe / 1460 + doe / 36524 - doe / 146096) / 365 in
  let y := yoe + era * 400 in
  let doy := doe - (365 * yoe + yoe / 4 - yoe / 100) in
  let mp := (5 * doy + 2) / 153 in
  let d := doy - (153 * mp + 2) / 5 + 1 in
  let m := if mp <? 10 then mp + 3 else mp - 9 in
  {| c_year := if m <=? 2 then y + 1 else y; c_month := m; c_day := d |}.

Definition is_leap (y : Z) : bool :=
  (y mod 4 =? 0) && (negb (y mod 100 =? 0) || (y mod 400 =? 0)).

Definition days_in_month (y m : Z) : Z :=
  if m =? 2 then (if is_leap y then 29 else 28)
  else if (m =? 4) || (m =? 6) || (m =? 9) || (m =? 11) then 30 else 31.

Definition utc_civil (ms : Z) : civil := civil_from_days (ms / DAY_MS).

(** [new Date(ms).getUTCDay()], 0 for Sunday *)
Definition getUTCDay (ms : Z) : Z := (ms / DAY_MS + 4) mod 7.
Definition getUTCDate (ms : Z) : Z := c_day (utc_civil ms).
(** 0-based, as in JavaScript *)
Definition getUTCMonth (ms : Z) : Z := c_month (utc_civil ms) - 1.
Definition getUTCFullYear (ms : Z) : Z := c_year (utc_civil ms).

Section local.
Context {H : Host}.

Definition local_ms (ms : Z) : Z := ms + tz_offset_min ms * MINUTE_MS.
Definition getHours (ms : Z) : Z := (local_ms ms mod DAY_MS) / HOUR_MS.
Definition getMinutes (ms : Z) : Z := (local_ms ms mod HOUR_MS) / MINUTE_MS.
Definition getFullYear (ms : Z) : Z := c_year (utc_civil (local_ms ms)).

(** [new Date(a).toDateString() === new Date(b).toDateString()]: the strings name a local day. *)
Definition sameDateString (a b : Z) : bool :=
  local_ms a / DAY_MS =? local_ms b / DAY_MS.
End local.

(** ** [Date.parse] *)

Fixpoint read_digits (n : nat) (acc : Z) (s : string) : option (Z * string) :=
  match n, s with
  | O, _ => Some (acc, s)
  | S n', String c s' => if is_digit c then read_digits n' (acc * 10 + (code c - 48)) s' else None
  | S _, "" => None
  end.

Definition expect (c : ascii) (s : string) : option string :=
  match s with String d s' => if Ascii.eqb c d then Some s' else None | "" => None end.

(** The digits of a fraction: the first three are the milliseconds, the others are dropped. *)
Fixpoint read_fraction (scale acc : Z) (seen : bool) (s : string) : option (Z * string) :=
  match s with
  | String c s' =>
      if is_digit c then read_fraction (scale / 10) (acc + (code c - 48) * scale) true s'
      else if seen then Some (acc, s) else None
  | "" => if seen then Some (acc, "") else None
  end.

Definition parse_date (s : string) : option (Z * string) :=
  '(y, s) ← read_digits 4 0 s; s ← expect "-" s;
  '(m, s) ← read_digits 2 0 s; s ← expect "-" s;
  '(d, s) ← read_digits 2 0 s;
  if (1 <=? m) && (m <=? 12) && (1 <=? d) && (d <=? days_in_month y m)
  then Some (days_from_civil y m d * DAY_MS, s) else None.

Definition parse_clock (s : string) : option (Z * string) :=
  '(hh, s) ← read_digits 2 0 s; s ← expect ":" s; '(mm, s) ← read_digits 2 0 s;
  if (hh <=? 23) && (mm <=? 59) then Some (hh * HOUR_MS + mm * MINUTE_MS, s) else None.

Definition parse_seconds (s : string) : option (Z * string) :=
  match expect ":" s with
  | None => Some (0, s)
  | Some s =>
      '(ss, s) ← read_digits 2 0 s;
      if 59 <? ss then None else
      match expect "." s with
      | None => Some (ss * SECOND_MS, s)
      | Some s => '(f, s) ← read_fraction 100 0 false s; Some (ss * SECOND_MS + f, s)
      end
  end.

(** The zone in milliseconds east of UTC; the whole rest of the string. *)
Definition parse_zone (s : string) : option Z :=
  match s with
  | "Z" => Some 0
  | String c s' =>
      '(off, rest) ← parse_clock s';
      if negb (String.eqb rest "") then None
      else if Ascii.eqb c "+" then Some off
      else if Ascii.eqb c "-" then Some (- off) else None
  | "" => None
  end.

Definition parse_iso (s : string) : option Z :=
  '(day, s) ← parse_date s;
  if String.eqb s "" then Some day
  else s ← expect "T" s;
       '(clock, s) ← parse_clock s;
       '(secs, s) ← parse_seconds s;
       zone ← parse_zone s;
       Some (day + clock + secs - zone).

(** [Date.parse(s)]; [None] is [NaN]. *)
Definition Date_parse {H : Host} (s : string) : option Z :=
  match parse_iso s with Some t => Some t | None => legacy_parse s end.

(** ** A concrete host: UTC, byte order collation, printed numbers *)

Definition utc_host : Host := {|
  tz_offset_min _ := 0;
  intl_format _ ms := show ms;
  relative_format n unit := show n ++s " " ++s unit;
  localeCompare a b := match String.compare a b with Lt => -1 | Eq => 0 | Gt => 1 end;
  legacy_parse _ := None;
|}.

Example parse_epoch : @Date_parse utc_host "1970-01-01T00:00:00Z" = Some 0.
Proof. reflexivity. Qed.
Example parse_offset : @Date_parse utc_host "2024-02-29T12:30:15.123456+02:00" = Some 1709202615123.
Proof. reflexivity. Qed.
Example parse_bad_day : @Date_parse utc_host "2023-02-29" = None.
Proof. reflexivity. Qed.

(** ** Facts *)

Lemma DAY_MS_pos : 0 < DAY_MS.
Proof. done. Qed.
#[export] Hint Resolve DAY_MS_pos : moddns.

(** [floorDay], [Math.floor(ms / w) * w]: the start of the bucket of width [w] that holds [ms]. *)
Definition floor_to (w ms : Z) : Z := ms / w * w.

Lemma floor_to_bounds w ms : 0 < w -> floor_to w ms <= ms < floor_to w ms + w.
Proof. apply floor_mul_bounds. Qed.

Lemma floor_to_mono w a b : 0 < w -> a <= b -> floor_to w a <= floor_to w b.
Proof. intros Hw Hab. unfold floor_to. pose proof (Z.div_le_mono a b w Hw Hab). nia. Qed.

Lemma floor_to_divide w ms : (w | floor_to w ms).
Proof. unfold floor_to. apply Z.divide_factor_r. Qed.

Lemma floor_to_idemp w ms : 0 < w -> floor_to w (floor_to w ms) = floor_to w ms.
Proof. intros. unfold floor_to. by rewrite Z.div_mul by lia. Qed.

(** A bucket start is below a time exactly when it is at or below the time's own bucket start. *)
Lemma floor_to_galois w b ms : 0 < w -> (w | b) -> (b <= ms <-> b <= floor_to w ms).
Proof.
  intros Hw [k ->]. unfold floor_to. split; intros H.
  - apply Z.mul_le_mono_nonneg_r; [lia|]. apply Z.div_le_lower_bound; lia.
  - pose proof (floor_mul_bounds ms w Hw). lia.
Qed.

(** The next bucket start is the least bucket start after a time. *)
Lemma floor_to_next w q ms : 0 < w -> (w | q) -> ms < q -> floor_to w ms + w <= q.
Proof.
  intros Hw [a ->] Hlt. unfold floor_to. pose proof (floor_mul_bounds ms w Hw) as Hb.
  revert Hb. generalize (ms / w) as x. intros x Hb.
  replace (x * w + w) with ((x + 1) * w) by lia. apply Z.mul_le_mono_nonneg_r; [lia|].
  assert (x * w < a * w) as Hx by lia. apply Z.mul_lt_mono_pos_r in Hx; lia.
Qed.

Lemma floor_to_max w a b : 0 < w -> floor_to w (Z.max a b) = Z.max (floor_to w a) (floor_to w b).
Proof.
  intros Hw. destruct (Z.max_spec a b) as [[Hab ->]|[Hab ->]].
  - rewrite Z.max_r; [done|]. apply floor_to_mono; lia.
  - rewrite Z.max_l; [done|]. apply floor_to_mono; lia.
Qed.
#[export] Hint Resolve floor_to_divide floor_to_mono : moddns.

Lemma utc_host_laws : HostLaws utc_host.
Proof.
  split; cbn.
  - intros a b. rewrite (String.compare_antisym a b). destruct (String.compare b a); cbn; lia.
  - intros a b c Hab Hbc.
    assert (forall x y : string, (match String.compare x y with Lt => -1 | Eq => 0 | Gt => 1 end <= 0)
      <-> String.leb x y = true) as Hleb.
    { intros x y. unfold String.leb. destruct (String.compare x y); split; (lia || done). }
    rewrite Hleb in *. apply Is_true_true in Hab, Hbc. apply Is_true_true.
    exact (transitivity (R := String.le) Hab Hbc).
Qed.
