(* ===== verification/ApiTypes.v ===== *)
(** * Data of the API client

    The records of [src/app/src/api/client/api.ts] that the modelled code reads. A field that is
    optional there, or that the code reads with [?.], is an [option]: [None] is [undefined] or
    [null]. String enums are their wire strings. The statistics response is not here: its reader
    accepts any JSON value (see [Json] in [Derive]). *)

From S2P Require Import Prelude.

Record AnnouncementsAnnouncement := MkAnnouncementsAnnouncement {
  ann_body : option string;
  ann_category : option string;
  ann_expires_at : option string;
  ann_id : option string;
  ann_link : option string;
  ann_pinned : option bool;
  ann_published_at : option string;
  ann_severity : option string;
  ann_title : option string;
}.

Record ModelTotpSettings := MkModelTotpSettings {
  totp_enabled : option bool;
}.

Record ModelMFASettings := MkModelMFASettings {
  mfa_totp : option ModelTotpSettings;
}.

Record ModelAccount := MkModelAccount {
  acc_auth_methods : option (list string);
  acc_email : option string;
  acc_email_verified : option bool;
  acc_error_reports_consent : option bool;
  acc_id : option string;
  acc_mfa : option ModelMFASettings;
  acc_profiles : option (list string);
}.

Record ModelBlocklist := MkModelBlocklist {
  bl_blocklist_id : string;
  bl_category : option string;
  bl_default : option bool;
  bl_description : string;
  bl_entries : option Z;
  bl_homepage : option string;
  bl_id : option string;
  bl_intensity : option (list string);
  bl_kind : option string;
  bl_last_modified : option string;
  bl_name : string;
  bl_source_url : option string;
  bl_tags : option (list string);
  bl_type : option string;
}.

Record ModelCredential := MkModelCredential {
  cred_created_at : option string;
  cred_id : option string;
}.

Record ModelCustomRule := MkModelCustomRule {
  cr_action : string;
  cr_group : option string;
  cr_id : string;
  cr_note : option string;
  cr_order : option Z;
  cr_value : string;
}.

Record ModelCustomRuleGroup := MkModelCustomRuleGroup {
  crg_comment : option string;
  crg_name : string;
}.

Record ModelCustomRuleGroups := MkModelCustomRuleGroups {
  crgs_allow : option (list ModelCustomRuleGroup);
  crgs_block : option (list ModelCustomRuleGroup);
}.

Record ModelDNSRequest := MkModelDNSRequest {
  dr_dnssec : option bool;
  dr_domain : option string;
  dr_query_type : option string;
  dr_response_code : option string;
}.

Record ModelDNSSECSettings := MkModelDNSSECSettings {
  dnssec_enabled : bool;
  dnssec_send_do_bit : bool;
}.

Record ModelRebindingProtection := MkModelRebindingProtection {
  rp_enabled : option bool;
}.

Record ModelSecurity := MkModelSecurity {
  sec_dnssec : ModelDNSSECSettings;
  sec_rebinding_protection : option ModelRebindingProtection;
}.

Record ModelAdvanced := MkModelAdvanced {
  adv_recursor : string;
}.

Record ModelPrivacy := MkModelPrivacy {
  priv_blocklists : option (list string);
  priv_blocklists_subdomains_rule : string;
  priv_custom_rules_subdomains_rule : option string;
  priv_default_rule : string;
  priv_services : option (list string);
}.

Record ModelLogsSettings := MkModelLogsSettings {
  ls_enabled : option bool;
  ls_log_clients_ips : option bool;
  ls_log_domains : option bool;
  ls_retention : option string;
}.

Record ModelStatisticsSettings := MkModelStatisticsSettings {
  ss_enabled : option bool;
  ss_enabled_at : option string;
  ss_history_deleted_at : option string;
  ss_retention : option string;
}.

Record ModelProfileSettings := MkModelProfileSettings {
  ps_advanced : option ModelAdvanced;
  ps_custom_rule_groups : option ModelCustomRuleGroups;
  ps_custom_rules : option (list ModelCustomRule);
  ps_logs : option ModelLogsSettings;
  ps_privacy : option ModelPrivacy;
  ps_profile_id : string;
  ps_security : option ModelSecurity;
  ps_statistics : option ModelStatisticsSettings;
}.

Record ModelProfile := MkModelProfile {
  p_account_id : string;
  p_id : string;
  p_name : string;
  p_profile_id : string;
  p_settings : option ModelProfileSettings;
}.

Record ModelQueryLog := MkModelQueryLog {
  ql_client_ip : option string;
  ql_device_id : option string;
  ql_dns_request : option ModelDNSRequest;
  ql_id : option string;
  ql_outcome : option string;
  ql_profile_id : option string;
  ql_protocol : option string;
  ql_reasons : option (list string);
  ql_status : option string;
  ql_timestamp : option string;
}.

Record ModelExportedAdvanced := MkModelExportedAdvanced {
  xadv_recursor : option string;
}.

Record ModelExportedCustomRule := MkModelExportedCustomRule {
  xcr_action : string;
  xcr_group : option string;
  xcr_note : option string;
  xcr_value : string;
}.

Record ModelExportedLogs := MkModelExportedLogs {
  xl_enabled : option bool;
  xl_logClientsIPs : option bool;
  xl_logDomains : option bool;
  xl_retention : option string;
}.

Record ModelExportedPrivacy := MkModelExportedPrivacy {
  xpriv_blocklists : list string;
  xpriv_blocklistsSubdomainsRule : option string;
  xpriv_customRulesSubdomainsRule : option string;
  xpriv_defaultRule : option string;
  xpriv_services : list string;
}.

Record ModelExportedDNSSEC := MkModelExportedDNSSEC {
  xdnssec_enabled : option bool;
  xdnssec_sendDoBit : option bool;
}.

Record ModelExportedRebindingProtection := MkModelExportedRebindingProtection {
  xrp_enabled : option bool;
}.

Record ModelExportedSecurity := MkModelExportedSecurity {
  xsec_dnssec : option ModelExportedDNSSEC;
  xsec_rebindingProtection : option ModelExportedRebindingProtection;
}.

Record ModelExportedStatistics := MkModelExportedStatistics {
  xst_enabled : option bool;
}.

Record ModelExportedSettings := MkModelExportedSettings {
  xs_advanced : option ModelExportedAdvanced;
  xs_customRuleGroups : option ModelCustomRuleGroups;
  xs_customRules : option (list ModelExportedCustomRule);
  xs_logs : option ModelExportedLogs;
  xs_privacy : option ModelExportedPrivacy;
  xs_security : option ModelExportedSecurity;
  xs_statistics : option ModelExportedStatistics;
}.

Record ModelExportedProfile := MkModelExportedProfile {
  xp_comment : option string;
  xp_name : string;
  xp_settings : ModelExportedSettings;
}.

Record ModelExportedFromInfo := MkModelExportedFromInfo {
  xfi_appVersion : option string;
  xfi_service : option string;
}.

Record ModelExportEnvelope := MkModelExportEnvelope {
  xe_exportedAt : string;
  xe_exportedFrom : option ModelExportedFromInfo;
  xe_kind : string;
  xe_profiles : list ModelExportedProfile;
  xe_schemaVersion : Z;
}.

(** ** JSON Patch updates of a profile *)

Inductive ModelProfileUpdateOperationEnum : Set :=
| Remove | Add | Replace | Move | Copy.

Inductive ModelProfileUpdatePathEnum : Set :=
| Name
| SettingsStatisticsEnabled
| SettingsStatisticsRetention
| SettingsLogsEnabled
| SettingsLogsLogClientsIps
| SettingsLogsLogDomains
| SettingsLogsRetention
| SettingsPrivacyDefaultRule
| SettingsPrivacyBlocklistsSubdomainsRule
| SettingsPrivacyCustomRulesSubdomainsRule
| SettingsSecurityDnssecEnabled
| SettingsSecurityDnssecSendDoBit
| SettingsSecurityRebindingProtectionEnabled
| SettingsAdvancedRecursor.

#[export] Instance path_eq_dec : EqDecision ModelProfileUpdatePathEnum.
Proof. solve_decision. Defined.

(** The [value] of an update: the code only ever sends booleans and strings. *)
Inductive UpdateValue : Type :=
| VBool (b : bool)
| VString (s : string).

Record ModelProfileUpdate := MkModelProfileUpdate {
  operation : ModelProfileUpdateOperationEnum;
  path : ModelProfileUpdatePathEnum;
  value : UpdateValue;
}.

(** Requests and answers of the custom rules page. *)
Inductive RequestsCustomRuleGroupUpdateOperationEnum : Set := GroupAdd | GroupReplace | GroupRemove | GroupMove.

Record RequestsCustomRuleGroupUpdate := MkRequestsCustomRuleGroupUpdate {
  gu_operation : RequestsCustomRuleGroupUpdateOperationEnum;
  gu_action : string;
  gu_from : option string;
  gu_path : string;
  gu_value : option string;
}.

Record RequestsUpdateProfileCustomRuleBody := MkRequestsUpdateProfileCustomRuleBody {
  ub_action : option string;
  ub_group : option string;
  ub_note : option string;
  ub_order : option Z;
  ub_value : option string;
}.

Record ResponsesCustomRuleBatchCreated := MkResponsesCustomRuleBatchCreated {
  bc_id : option string;
  bc_value : option string;
}.

Record ResponsesCustomRuleBatchSkipped := MkResponsesCustomRuleBatchSkipped {
  bs_message : option string;
  bs_reason : option string;
  bs_value : option string;
}.

Record ResponsesCreateProfileCustomRulesBatchResponse := MkResponsesCreateProfileCustomRulesBatchResponse {
  br_action : option string;
  br_created : option (list ResponsesCustomRuleBatchCreated);
  br_skipped : option (list ResponsesCustomRuleBatchSkipped);
  br_total_requested : option Z;
}.

(** The order asked of the blocklist catalog. *)
Inductive ApiV1BlocklistsGetSortByEnum : Set := SortUpdated | SortName | SortEntries.
#[export] Instance sort_by_eq_dec : EqDecision ApiV1BlocklistsGetSortByEnum.
Proof. solve_decision. Defined.

Record ServicescatalogService := MkServicescatalogService {
  svc_aliases : option (list string);
  svc_asns : option (list Z);
  svc_domains : option (list string);
  svc_id : option string;
  svc_logo_key : option string;
  svc_name : option string;
}.

Definition SeverityCritical : string := "critical".

#[export] Instance ModelDNSRequest_eq_dec : EqDecision ModelDNSRequest.
Proof. solve_decision. Defined.
#[export] Instance ModelQueryLog_eq_dec : EqDecision ModelQueryLog.
Proof. solve_decision. Defined.
