(* ===== verification/ConsolidateLogs.v ===== *)
(** * Consolidated query logs

    [src/app/src/lib/consolidateLogs.ts]: adjacent duplicate entries of the query log are shown as
    one row. The loop is a fold whose state is the loop's variables; [Runs] is the reference
    definition it is compared with. *)

From S2P Require Import Prelude JsString JsDate ApiTypes.

Record ConsolidatedLogGroup := mkGroup {
  g_key : string;
  g_identity : string;
  g_representative : ModelQueryLog;
  g_count : nat;
  g_members : list ModelQueryLog;
  g_firstTimestamp : option string;
  g_lastTimestamp : option string;
  g_queryTypes : list string;
  g_responseCodes : list string;
}.

(** ** Signatures *)

Definition normalizeDomain (domain : option string) : string :=
  stripFinalDot (toLowerCase (domain ?? "")).

Definition MAX_GROUP_SPAN_MS : Z := 10000.

(** The separator is the NUL character. *)
Definition NUL : string := String "000" "".

Definition signature (log : ModelQueryLog) : string :=
  join NUL [normalizeDomain (r ← ql_dns_request log; dr_domain r); ql_status log ?? "";
            ql_device_id log ?? ""; ql_client_ip log ?? ""; ql_protocol log ?? ""].

(** The fields a signature is made of. *)
Definition signature_fields (log : ModelQueryLog) : list string :=
  [normalizeDomain (r ← ql_dns_request log; dr_domain r); ql_status log ?? "";
   ql_device_id log ?? ""; ql_client_ip log ?? ""; ql_protocol log ?? ""].

(** ToInt32: what the bitwise operators make of a number. *)
Definition to_int32 (z : Z) : Z := (z + 2 ^ 31) mod 2 ^ 32 - 2 ^ 31.
Definition to_uint32 (z : Z) : Z := z mod 2 ^ 32.

Fixpoint hash_loop (h : Z) (s : string) : Z :=
  match s with
  | "" => h
  | String c s' => hash_loop (to_int32 (to_int32 (Z.shiftl h 5) + h + code c)) s'
  end.

Definition hashSignature (sig : string) : string := toString36 (to_uint32 (hash_loop 5381 sig)).

Definition buildIdentity (rep : ModelQueryLog) (sig : string) : string :=
  (ql_profile_id rep ?? "") ++s "-" ++s (ql_timestamp rep ?? "") ++s "-" ++s hashSignature sig.

Definition buildKey (rep : ModelQueryLog) (sig : string) (startIndex : nat) : string :=
  buildIdentity rep sig ++s "-" ++s show (Z.of_nat startIndex).

Definition uniqueInOrder (values : list (option string)) : list string :=
  dedup (List.filter truthy (omap id values)).

(** [members] is [rep :: rest]: every call has a first member. *)
Definition finalize (rep : ModelQueryLog) (rest : list ModelQueryLog) (sig : string) (startIndex : nat)
    : ConsolidatedLogGroup :=
  let members := rep :: rest in
  {| g_key := buildKey rep sig startIndex;
     g_identity := buildIdentity rep sig;
     g_representative := rep;
     g_count := length members;
     g_members := members;
     g_firstTimestamp := ql_timestamp rep;
     g_lastTimestamp := l ← last members; ql_timestamp l;
     g_queryTypes := uniqueInOrder (map (fun m => r ← ql_dns_request m; dr_query_type r) members);
     g_responseCodes := uniqueInOrder (map (fun m => r ← ql_dns_request m; dr_response_code r) members) |}.

Definition toSingletonGroup (log : ModelQueryLog) (index : nat) : ConsolidatedLogGroup :=
  finalize log [] (signature log) index.

(** ** The loop *)

(** The loop's variables; [members] and [currentSig] are set together. *)
Record LoopState := mkLoop {
  groups : list ConsolidatedLogGroup;
  members : list ModelQueryLog;
  currentSig : option string;
  startIndex : nat;
}.

Section consolidate.
Context {H : Host}.

Definition withinSpan (anchor ts : option string) (maxMs : Z) : bool :=
  if negb (truthy_opt anchor) || negb (truthy_opt ts) then false
  else match Date_parse (anchor ?? ""), Date_parse (ts ?? "") with
       | Some a, Some b => Z.abs (a - b) <=? maxMs
       | _, _ => false
       end.

(** [if (members.length > 0) groups.push(finalize(...))] *)
Definition flush (st : LoopState) : list ConsolidatedLogGroup :=
  match members st with
  | [] => groups st
  | rep :: rest => groups st ++ [finalize rep rest (currentSig st ?? "") (startIndex st)]
  end.

Definition loop_body (maxGroupSpanMs : Z) (st : LoopState) (entry : nat * ModelQueryLog) : LoopState :=
  let '(i, log) := entry in
  let sig := signature log in
  if bool_decide (currentSig st = Some sig)
     && withinSpan (m ← head (members st); ql_timestamp m) (ql_timestamp log) maxGroupSpanMs
  then mkLoop (groups st) (members st ++ [log]) (currentSig st) (startIndex st)
  else mkLoop (flush st) [log] (Some sig) i.

Definition entries (logs : list ModelQueryLog) : list (nat * ModelQueryLog) := imap pair logs.

Definition consolidateLogs (logs : list ModelQueryLog) (maxGroupSpanMs : Z) : list ConsolidatedLogGroup :=
  flush (foldl (loop_body maxGroupSpanMs) (mkLoop [] [] None 0) (entries logs)).

(** ** Reference definition *)

(** [log] belongs to the run that [rep] opens. *)
Definition joins (maxMs : Z) (rep log : ModelQueryLog) : bool :=
  String.eqb (signature rep) (signature log) && withinSpan (ql_timestamp rep) (ql_timestamp log) maxMs.

(** The longest prefix of entries that join the run, and what follows it. *)
Fixpoint take_run (p : ModelQueryLog -> bool) (l : list ModelQueryLog) : list ModelQueryLog :=
  match l with [] => [] | x :: l' => if p x then x :: take_run p l' else [] end.
Fixpoint drop_run (p : ModelQueryLog -> bool) (l : list ModelQueryLog) : list ModelQueryLog :=
  match l with [] => [] | x :: l' => if p x then drop_run p l' else l end.

(** The groups of a list, the first entry at index [i]; the fuel is the length of the list. *)
Fixpoint runs (fuel : nat) (maxMs : Z) (i : nat) (l : list ModelQueryLog) : list ConsolidatedLogGroup :=
  match fuel, l with
  | S f, rep :: l' =>
      let rest := take_run (joins maxMs rep) l' in
      finalize rep rest (signature rep) i
      :: runs f maxMs (i + length (rep :: rest)) (drop_run (joins maxMs rep) l')
  | _, _ => []
  end.

(** ** Facts *)

Lemma take_drop_run p l : take_run p l ++ drop_run p l = l.
Proof. induction l as [|x l IH]; cbn; [done|]. destruct (p x); cbn; by rewrite ?IH. Qed.

Lemma take_run_all p l : Forall (fun x => p x = true) (take_run p l).
Proof. induction l as [|x l IH]; cbn; [constructor|]. destruct (p x) eqn:E; by constructor. Qed.

Lemma drop_run_head p l x l' : drop_run p l = x :: l' -> p x = false.
Proof.
  induction l as [|y l IH]; cbn; [done|]. destruct (p y) eqn:E; [done|]. congruence.
Qed.

Lemma drop_run_length p l : (length (drop_run p l) <= length l)%nat.
Proof. rewrite <- (take_drop_run p l) at 2. rewrite length_app. lia. Qed.

Lemma imap_pair_cons (i : nat) (x : ModelQueryLog) l :
  imap (fun k y => ((i + k)%nat, y)) (x :: l) = (i, x) :: imap (fun k y => ((S i + k)%nat, y)) l.
Proof.
  rewrite imap_cons. f_equal; [by rewrite Nat.add_0_r|]. apply imap_ext. intros k y _. cbn.
  f_equal. lia.
Qed.

(** Fuel beyond the length of the list changes nothing. *)
Lemma runs_fuel f1 f2 maxMs i l :
  (length l <= f1)%nat -> (length l <= f2)%nat -> runs f1 maxMs i l = runs f2 maxMs i l.
Proof.
  revert f2 i l. induction f1 as [|f1 IH]; intros [|f2] i [|x l] H1 H2; cbn [length] in *; try done; try lia.
  cbn [runs]. f_equal. pose proof (drop_run_length (joins maxMs x) l). apply IH; lia.
Qed.

Definition all_runs (maxMs : Z) (i : nat) (l : list ModelQueryLog) : list ConsolidatedLogGroup :=
  runs (length l) maxMs i l.

Lemma all_runs_cons maxMs i rep l :
  all_runs maxMs i (rep :: l) =
  finalize rep (take_run (joins maxMs rep) l) (signature rep) i
  :: all_runs maxMs (i + S (length (take_run (joins maxMs rep) l))) (drop_run (joins maxMs rep) l).
Proof.
  unfold all_runs. cbn [length runs]. f_equal. pose proof (drop_run_length (joins maxMs rep) l).
  by apply runs_fuel.
Qed.

(** The loop from inside a run: the rest of the run, then the groups after it. *)
Lemma loop_runs maxMs g rep ms i n l :
  n = (i + S (length ms))%nat ->
  flush (foldl (loop_body maxMs) (mkLoop g (rep :: ms) (Some (signature rep)) i)
           (imap (fun k y => ((n + k)%nat, y)) l))
  = g ++ finalize rep (ms ++ take_run (joins maxMs rep) l) (signature rep) i
    :: all_runs maxMs (n + length (take_run (joins maxMs rep) l)) (drop_run (joins maxMs rep) l).
Proof.
  revert g rep ms i n. induction l as [|x l IH]; intros g rep ms i n Hn.
  { cbn [foldl imap take_run drop_run]. unfold flush. cbn. by rewrite app_nil_r. }
  rewrite imap_pair_cons. cbn [foldl]. unfold loop_body at 2.
  cbn [currentSig members head groups startIndex mbind option_bind].
  assert (bool_decide (Some (signature rep) = Some (signature x))
          && withinSpan (ql_timestamp rep) (ql_timestamp x) maxMs = joins maxMs rep x) as ->.
  { unfold joins. f_equal. destruct (String.eqb_spec (signature rep) (signature x)) as [->|Hne];
      [by rewrite bool_decide_eq_true_2|]. rewrite bool_decide_eq_false_2; congruence. }
  cbn [take_run drop_run]. destruct (joins maxMs rep x) eqn:Hj.
  - change ((rep :: ms) ++ [x]) with (rep :: (ms ++ [x])).
    rewrite IH by (rewrite length_app; cbn; lia). rewrite <- app_assoc. cbn [app length].
    do 3 f_equal. lia.
  - rewrite IH by (cbn; lia). unfold flush. cbn [members groups currentSig startIndex default length].
    rewrite <- app_assoc. cbn [app]. rewrite app_nil_r, all_runs_cons, Nat.add_0_r.
    do 4 f_equal. lia.
Qed.

Lemma consolidateLogs_loop logs maxMs : consolidateLogs logs maxMs = all_runs maxMs 0 logs.
Proof.
  unfold consolidateLogs, entries. destruct logs as [|x l]; [done|].
  rewrite imap_cons. cbn [foldl]. unfold loop_body at 2. cbn [currentSig members].
  rewrite bool_decide_eq_false_2 by done. cbn [andb flush groups members].
  change (pair ∘ S) with (fun k (y : ModelQueryLog) => ((1 + k)%nat, y)).
  rewrite (loop_runs maxMs [] x [] 0 1 l) by done. by rewrite all_runs_cons.
Qed.

(** Induction over the groups of a list. *)
Lemma all_runs_ind (P : nat -> list ModelQueryLog -> list ConsolidatedLogGroup -> Prop) maxMs :
  (forall i, P i [] []) ->
  (forall i rep l, let rest := take_run (joins maxMs rep) l in
     let l' := drop_run (joins maxMs rep) l in
     P (i + S (length rest))%nat l' (all_runs maxMs (i + S (length rest)) l') ->
     P i (rep :: l) (finalize rep rest (signature rep) i :: all_runs maxMs (i + S (length rest)) l')) ->
  forall i l, P i l (all_runs maxMs i l).
Proof.
  intros Hnil Hcons i l. remember (length l) as n eqn:Hn. revert i l Hn.
  induction (Nat.lt_wf_0 n) as [n _ IH]. intros i [|rep l] ->; [apply Hnil|].
  rewrite all_runs_cons. apply Hcons. eapply IH; [|reflexivity].
  pose proof (drop_run_length (joins maxMs rep) l). cbn. lia.
Qed.

(** Text without the separator: two signatures agree only when every field does. *)
Lemma signature_inj a b :
  Forall (fun f => lacks "000" f = true) (signature_fields a) ->
  Forall (fun f => lacks "000" f = true) (signature_fields b) ->
  signature a = signature b -> signature_fields a = signature_fields b.
Proof.
  intros Ha Hb Heq. change (join NUL (signature_fields a) = join NUL (signature_fields b)) in Heq.
  rewrite <- (split_join (signature_fields a) "000"), <- (split_join (signature_fields b) "000") by done.
  unfold NUL in Heq. by rewrite Heq.
Qed.

(** The rows of a group: the first entry, then entries that join it. *)
Definition group_ok (maxMs : Z) (g : ConsolidatedLogGroup) : Prop :=
  exists rep rest, g_members g = rep :: rest /\ g_representative g = rep /\
    g_count g = length (g_members g) /\
    Forall (fun m => signature m = signature rep /\
                     withinSpan (ql_timestamp rep) (ql_timestamp m) maxMs = true) rest.

Lemma finalize_ok maxMs rep rest i :
  Forall (fun m => joins maxMs rep m = true) rest -> group_ok maxMs (finalize rep rest (signature rep) i).
Proof.
  intros Hr. exists rep, rest. split; [done|]. split; [done|]. split; [done|].
  eapply Forall_impl; [exact Hr|]. cbn. intros m Hm. unfold joins in Hm. to_prop. done.
Qed.

(** C39: consolidation keeps every entry in order, each row holds entries of one signature within
    the time span of its first, and adjacent rows could not be merged *)
Theorem consolidateLogs_spec logs maxMs :
  let gs := consolidateLogs logs maxMs in
  List.concat (map g_members gs) = logs /\
  Forall (group_ok maxMs) gs /\
  Sorted (fun a b => joins maxMs a b = false) (map g_representative gs).
Proof.
  cbv zeta. rewrite consolidateLogs_loop.
  apply (all_runs_ind (fun _ l gs => List.concat (map g_members gs) = l /\ Forall (group_ok maxMs) gs /\
    Sorted (fun a b => joins maxMs a b = false) (map g_representative gs))).
  - intros _. split; [done|]. by split; constructor.
  - intros i rep l rest l' (Hc & Hok & Hs). cbn [map List.concat]. split; [|split].
    + rewrite Hc. cbn [g_members finalize]. unfold rest, l'. cbn [app]. by rewrite take_drop_run.
    + constructor; [|done]. apply finalize_ok, take_run_all.
    + constructor; [done|]. unfold l' in *. clear Hc Hok Hs.
      destruct (drop_run (joins maxMs rep) l) as [|x l2] eqn:Hd; [constructor|].
      rewrite all_runs_cons. constructor. by eapply drop_run_head.
Qed.

(** ** Row keys *)

Lemma hashSignature_bounds s : 0 <= to_uint32 (hash_loop 5381 s) < 2 ^ 32.
Proof. apply Z.mod_pos_bound. done. Qed.

Lemma buildKey_inj rep1 sig1 i1 rep2 sig2 i2 :
  buildKey rep1 sig1 i1 = buildKey rep2 sig2 i2 -> i1 = i2.
Proof.
  unfold buildKey. change ("-" ++s show ?x) with (String "-" (show x)). intros Heq.
  apply last_sep_inj in Heq as [_ Heq]; [|apply show_lacks; [done|lia]..].
  apply (inj show) in Heq. lia.
Qed.

(** The keys of the groups from index [i] on carry indexes from [i] on. *)
Lemma all_runs_keys maxMs i l :
  NoDup (map g_key (all_runs maxMs i l)) /\
  Forall (fun k => exists rep sig j, k = buildKey rep sig j /\ (i <= j)%nat) (map g_key (all_runs maxMs i l)).
Proof.
  apply (all_runs_ind (fun i _ gs => NoDup (map g_key gs) /\
    Forall (fun k => exists rep sig j, k = buildKey rep sig j /\ (i <= j)%nat) (map g_key gs))).
  - intros j0. split; constructor.
  - intros j0 rep l0 rest l' [Hnd Hall]. cbn [map]. split.
    + constructor; [|done]. intros Hin. rewrite Forall_forall in Hall.
      destruct (Hall _ Hin) as (r & s & j & Hk & Hj). apply buildKey_inj in Hk. lia.
    + constructor; [by eexists _, _, j0|]. eapply Forall_impl; [exact Hall|].
      intros k (r & s & j & -> & Hj). exists r, s, j. split; [done|lia].
Qed.

Theorem consolidateLogs_keys_unique logs maxMs : NoDup (map g_key (consolidateLogs logs maxMs)).
Proof. rewrite consolidateLogs_loop. apply all_runs_keys. Qed.
End consolidate.
