(* ===== verification/QueryLogsDiff.v ===== *)
(** * Diffing a refreshed first page of the query log

    [src/app/src/lib/queryLogsDiff.ts]: which entries of a fetched page are new, against the head of
    the displayed list. *)

From S2P Require Import Prelude JsString ApiTypes.

Definition OVERLAP_WINDOW : nat := 150.

Record QueryLogsDiff := mkDiff { newLogs : list ModelQueryLog; overlapFound : bool }.

Definition logIdentity (log : ModelQueryLog) : string :=
  opt_or (ql_id log)
    (join "|" [ql_timestamp log ?? ""; (r ← ql_dns_request log; dr_domain r) ?? "";
               (r ← ql_dns_request log; dr_query_type r) ?? ""; ql_status log ?? "";
               ql_device_id log ?? ""; ql_client_ip log ?? ""; ql_protocol log ?? ""]).

(** The loop over [fetched], [newLogs] being its accumulator. *)
Fixpoint diff_loop (known : list string) (fetched : list ModelQueryLog) (newLogs : list ModelQueryLog)
    : QueryLogsDiff :=
  match fetched with
  | [] => mkDiff newLogs false
  | log :: rest =>
      if bool_decide (logIdentity log ∈ known) then mkDiff newLogs true
      else diff_loop known rest (newLogs ++ [log])
  end.

(** [new Set(current.slice(0, OVERLAP_WINDOW).map(logIdentity))]: only membership is asked of it. *)
Definition knownIds (current : list ModelQueryLog) : list string :=
  map logIdentity (take OVERLAP_WINDOW current).

Definition computeNewQueryLogs (fetched current : list ModelQueryLog) : QueryLogsDiff :=
  diff_loop (knownIds current) fetched [].

(** ** Facts *)

Lemma diff_loop_spec known fetched acc :
  exists rest, acc ++ fetched = newLogs (diff_loop known fetched acc) ++ rest /\
    (exists new, newLogs (diff_loop known fetched acc) = acc ++ new /\
       Forall (fun log => logIdentity log ∉ known) new) /\
    overlapFound (diff_loop known fetched acc) = bool_decide (rest <> []) /\
    Forall (fun log => logIdentity log ∈ known) (take 1 rest).
Proof.
  revert acc. induction fetched as [|log fetched IH]; intros acc; cbn [diff_loop].
  { exists []. cbn. split; [done|]. split; [|by split; [|constructor]].
    exists []. by rewrite app_nil_r. }
  case_bool_decide as Hk.
  - exists (log :: fetched). cbn. split; [done|]. split; [exists []; by rewrite app_nil_r|].
    split; [done|]. by repeat constructor.
  - destruct (IH (acc ++ [log])) as (rest & Heq & (new & Hnew & Hall) & Ho & Hr).
    exists rest. rewrite <- app_assoc in Heq. split; [done|]. split; [|done].
    exists (log :: new). rewrite Hnew, <- app_assoc. split; [done|]. by constructor.
Qed.

Theorem computeNewQueryLogs_spec fetched current :
  let d := computeNewQueryLogs fetched current in
  exists rest, fetched = newLogs d ++ rest /\
    Forall (fun log => logIdentity log ∉ knownIds current) (newLogs d) /\
    (overlapFound d = true <-> rest <> []) /\
    (forall log, head rest = Some log -> logIdentity log ∈ knownIds current).
Proof.
  cbv zeta. destruct (diff_loop_spec (knownIds current) fetched []) as (rest & Heq & (new & Hnew & Hall) & Ho & Hr).
  exists rest. unfold computeNewQueryLogs. cbn [app] in *. rewrite Hnew in *.
  split; [done|]. split; [done|]. split; [rewrite Ho; apply bool_decide_eq_true|].
  intros log Hl. destruct rest as [|x rest]; [done|]. injection Hl as <-. by inversion Hr.
Qed.

Theorem merge_without_duplicates fetched current :
  NoDup (map logIdentity fetched) -> NoDup (map logIdentity current) ->
  (length current <= OVERLAP_WINDOW)%nat ->
  NoDup (map logIdentity (newLogs (computeNewQueryLogs fetched current) ++ current)).
Proof.
  intros Hf Hc Hlen. rewrite map_app. apply NoDup_app.
  destruct (diff_loop_spec (knownIds current) fetched []) as (rest & Heq & (new & Hnew & Hall) & _).
  unfold computeNewQueryLogs. cbn [app] in *. rewrite Hnew in *. subst fetched.
  rewrite map_app in Hf. apply NoDup_app in Hf as (Hn & _ & _).
  split; [done|]. split; [|done]. intros id Hin Hcur.
  apply list_elem_of_fmap in Hin as (log & -> & Hlog).
  rewrite Forall_forall in Hall. specialize (Hall log Hlog).
  unfold knownIds in Hall. rewrite take_ge in Hall by done. done.
Qed.

Definition witness_log (id : string) : ModelQueryLog :=
  MkModelQueryLog None None None (Some id) None None None None None None.

Lemma merge_without_duplicates_witness :
  NoDup (map logIdentity
    (newLogs (computeNewQueryLogs (map witness_log ["c"; "b"; "a"]) (map witness_log ["b"; "a"]))
     ++ map witness_log ["b"; "a"]))
  /\ newLogs (computeNewQueryLogs (map witness_log ["c"; "b"; "a"]) (map witness_log ["b"; "a"]))
     = [witness_log "c"].
Proof.
  split; [|reflexivity].
  apply (merge_without_duplicates (map witness_log ["c"; "b"; "a"]) (map witness_log ["b"; "a"]));
    [..|vm_compute; lia]; apply (bool_decide_unpack _); reflexivity.
Defined.
