(* ===== verification/Reasons.v ===== *)
(** * Reason chips of a query log row

    [src/app/src/lib/formatReasons.ts]: the proxy's reason tokens as ordered, de-duplicated chips.
    The scan is a fold over the tokens; each [Set] of the source guards the array beside it, so the
    array alone is kept. Name maps are finite maps. *)

From S2P Require Import Prelude JsString.

Inductive ReasonKind : Set :=
| kind_blocklist | kind_service | kind_custom_rule | kind_default | kind_subdomain | kind_dnssec
| kind_rebinding.
#[export] Instance ReasonKind_eq_dec : EqDecision ReasonKind.
Proof. solve_decision. Defined.

Record FormattedReason := mkChip { chip_kind : ReasonKind; chip_label : string }.

Definition BLOCKLIST_PREFIX : string := "blocklist: ".
Definition SERVICE_PREFIX : string := "service: ".

(** The variables of the scan. *)
Record Scan := mkScan {
  blocklistIds : list string;
  serviceIds : list string;
  hasGenericBlocklist : bool;
  hasGenericService : bool;
  hasSubdomain : bool;
  hasCustomRule : bool;
  hasDefault : bool;
  hasDnssecFailed : bool;
  hasRebinding : bool;
  hasCname : bool;
}.

Definition scan0 : Scan := mkScan [] [] false false false false false false false false.

Definition after_prefix (reason prefix : string) : string := str_drop (String.length prefix) reason.

(** One iteration of the loop over [reasons]. *)
Definition scan_step (st : Scan) (reason : string) : Scan :=
  let '(mkScan b s gb gs sd cr df dn rb cn) := st in
  if String.eqb reason "dnssec_failed" then mkScan b s gb gs sd cr df true rb cn
  else if startsWith reason BLOCKLIST_PREFIX
  then mkScan (add_new b (after_prefix reason BLOCKLIST_PREFIX)) s gb gs sd cr df dn rb cn
  else if String.eqb reason "blocklists" then mkScan b s true gs sd cr df dn rb cn
  else if String.eqb reason "blocklists_subdomains_rule" then mkScan b s gb gs true cr df dn rb cn
  else if startsWith reason SERVICE_PREFIX
  then mkScan b (add_new s (after_prefix reason SERVICE_PREFIX)) gb gs sd cr df dn rb cn
  else if String.eqb reason "services" then mkScan b s gb true sd cr df dn rb cn
  else if String.eqb reason "rebinding_protection" then mkScan b s gb gs sd cr df dn true cn
  else if String.eqb reason "custom_rules" then mkScan b s gb gs sd true df dn rb cn
  else if String.eqb reason "default_rule" then mkScan b s gb gs sd cr true dn rb cn
  else if String.eqb reason "cname_uncloaking" then mkScan b s gb gs sd cr df dn rb true
  else st.

Definition scan (reasons : list string) : Scan := foldl scan_step scan0 reasons.

Definition when {A} (b : bool) (l : list A) : list A := if b then l else [].

Definition blocklistSignal (st : Scan) : bool :=
  negb (bool_decide (blocklistIds st = [])) || hasGenericBlocklist st || hasSubdomain st.
Definition cnameOnBlocklist (st : Scan) : bool :=
  hasCname st && (blocklistSignal st || negb (hasCustomRule st)).

Definition subdomainSuffix (st : Scan) : string :=
  match (when (hasSubdomain st) ["subdomain"] ++ when (cnameOnBlocklist st) ["CNAME"])%list with
  | [] => ""
  | qs => " (" ++s join ", " qs ++s ")"
  end.
Definition customRuleSuffix (st : Scan) : string :=
  if hasCname st && negb (cnameOnBlocklist st) then " (CNAME)" else "".

Section tiers.
Context (st : Scan) (blocklistNames serviceNames : gmap string string).

(** The tiers of chips, in the order the source pushes them. *)
Definition blocklistTier : list FormattedReason :=
  match blocklistIds st with
  | [] => when (hasGenericBlocklist st || hasSubdomain st || (hasCname st && cnameOnBlocklist st))
            [mkChip kind_blocklist ("Blocklist" ++s subdomainSuffix st)]
  | ids => map (fun id => mkChip kind_blocklist
                            ("Blocklist: " ++s (blocklistNames !! id ?? id) ++s subdomainSuffix st)) ids
  end.

Definition serviceTier : list FormattedReason :=
  match serviceIds st with
  | [] => when (hasGenericService st) [mkChip kind_service "Service"]
  | ids => map (fun id => mkChip kind_service ("Service: " ++s (serviceNames !! id ?? id))) ids
  end.

Definition chips : list FormattedReason :=
  when (hasDnssecFailed st) [mkChip kind_dnssec "DNSSEC validation failed"]
  ++ blocklistTier
  ++ serviceTier
  ++ when (hasRebinding st) [mkChip kind_rebinding "Rebinding protection"]
  ++ when (hasCustomRule st) [mkChip kind_custom_rule ("Custom rule" ++s customRuleSuffix st)]
  ++ when (hasDefault st) [mkChip kind_default "Default rule"].
End tiers.

Definition formatReasons (reasons : list string) (blocklistNames serviceNames : gmap string string)
    : list FormattedReason :=
  match reasons with
  | [] => []
  | _ => chips (scan reasons) blocklistNames serviceNames
  end.

(** ** What the scan collects *)

(** The id of a [blocklist: <id>] or [service: <id>] token. *)
Definition token_id (prefix reason : string) : option string :=
  if startsWith reason prefix then Some (after_prefix reason prefix) else None.
Definition holds (token : string) (reasons : list string) : bool := existsb (fun r => String.eqb r token) reasons.

Definition collected (reasons : list string) : Scan :=
  {| blocklistIds := dedup (omap (token_id BLOCKLIST_PREFIX) reasons);
     serviceIds := dedup (omap (token_id SERVICE_PREFIX) reasons);
     hasGenericBlocklist := holds "blocklists" reasons;
     hasGenericService := holds "services" reasons;
     hasSubdomain := holds "blocklists_subdomains_rule" reasons;
     hasCustomRule := holds "custom_rules" reasons;
     hasDefault := holds "default_rule" reasons;
     hasDnssecFailed := holds "dnssec_failed" reasons;
     hasRebinding := holds "rebinding_protection" reasons;
     hasCname := holds "cname_uncloaking" reasons |}.

Lemma holds_elem token reasons : holds token reasons = true <-> token ∈ reasons.
Proof.
  unfold holds. rewrite existsb_elem. split.
  - intros (x & Hx & Heq). apply String.eqb_eq in Heq. by subst.
  - intros Hx. exists token. by rewrite String.eqb_refl.
Qed.

Lemma holds_snoc token reasons r : holds token (reasons ++ [r]) = holds token reasons || String.eqb r token.
Proof. unfold holds. rewrite existsb_app. cbn. by rewrite orb_false_r. Qed.

Lemma dedup_snoc {A} `{EqDecision A} (l : list A) x : dedup (l ++ [x]) = add_new (dedup l) x.
Proof.
  unfold dedup. pose proof (foldl_add_new [] (l ++ [x])) as H1. pose proof (foldl_add_new [] l) as H2.
  cbn [app] in H1, H2. rewrite <- H1, <- H2, foldl_app. done.
Qed.

Lemma omap_snoc {A B} (f : A -> option B) l x :
  omap f (l ++ [x]) = omap f l ++ match f x with Some y => [y] | None => [] end.
Proof. rewrite omap_app. cbn. by destruct (f x). Qed.

Lemma scan_step_collected reasons r : scan_step (collected reasons) r = collected (reasons ++ [r]).
Proof.
  unfold collected. rewrite !omap_snoc, !holds_snoc. unfold token_id, scan_step.
  repeat match goal with
  | |- (if String.eqb r ?t then _ else _) = _ =>
      destruct (String.eqb_spec r t) as [->|?];
        [cbn -[dedup holds]; rewrite ?app_nil_r, ?orb_true_r, ?orb_false_r; reflexivity|cbv iota]
  | |- (if startsWith r ?p then _ else _) = _ =>
      let E := fresh in destruct (startsWith r p) eqn:E;
        [apply startsWith_spec in E as [x ->]; unfold after_prefix; rewrite drop_app_s;
         rewrite dedup_snoc; cbn -[dedup holds add_new]; rewrite ?app_nil_r, ?orb_false_r; reflexivity|cbv iota]
  end.
  by rewrite ?app_nil_r, ?orb_false_r.
Qed.

(** The scan collects, whatever the order of the tokens. *)
Lemma scan_collected reasons : scan reasons = collected reasons.
Proof.
  unfold scan. induction reasons as [|r reasons IH] using rev_ind; [done|].
  by rewrite foldl_app, IH, <- scan_step_collected.
Qed.

Lemma scan_holds reasons :
  (hasGenericBlocklist (scan reasons) = true <-> "blocklists" ∈ reasons) /\
  (hasGenericService (scan reasons) = true <-> "services" ∈ reasons) /\
  (hasSubdomain (scan reasons) = true <-> "blocklists_subdomains_rule" ∈ reasons) /\
  (hasCustomRule (scan reasons) = true <-> "custom_rules" ∈ reasons) /\
  (hasDefault (scan reasons) = true <-> "default_rule" ∈ reasons) /\
  (hasDnssecFailed (scan reasons) = true <-> "dnssec_failed" ∈ reasons) /\
  (hasRebinding (scan reasons) = true <-> "rebinding_protection" ∈ reasons) /\
  (hasCname (scan reasons) = true <-> "cname_uncloaking" ∈ reasons).
Proof. rewrite scan_collected. cbn [collected hasGenericBlocklist hasGenericService hasSubdomain
  hasCustomRule hasDefault hasDnssecFailed hasRebinding hasCname]. rewrite !holds_elem. tauto. Qed.

(** *** Chips *)

Definition kind_rank (k : ReasonKind) : nat :=
  match k with
  | kind_dnssec => 0 | kind_blocklist => 1 | kind_subdomain => 1 | kind_service => 2
  | kind_rebinding => 3 | kind_custom_rule => 4 | kind_default => 5
  end.

(** A list of chips of one kind. *)
Definition all_kind (k : ReasonKind) (l : list FormattedReason) : Prop :=
  Forall (fun c => chip_kind c = k) l.

Lemma all_kind_when k b c : chip_kind c = k -> all_kind k (when b [c]).
Proof. destruct b; cbn; by repeat constructor. Qed.
Lemma all_kind_map {A} k (f : A -> FormattedReason) l :
  (forall x, chip_kind (f x) = k) -> all_kind k (map f l).
Proof. intros Hf. by apply Forall_fmap, Forall_true. Qed.
#[export] Hint Resolve all_kind_when all_kind_map : moddns.

Definition rank_le (a b : FormattedReason) : Prop :=
  (kind_rank (chip_kind a) <= kind_rank (chip_kind b))%nat.

(** Tiers of one kind each, of increasing rank, concatenate to a list sorted by rank. *)
Lemma tiers_sorted (ts : list (ReasonKind * list FormattedReason)) :
  Forall (fun t => all_kind t.1 t.2) ts -> StronglySorted lt (map (kind_rank ∘ fst) ts) ->
  StronglySorted rank_le (List.concat (map snd ts)).
Proof.
  induction 1 as [|[k l] ts Hk Hts IH]; cbn; [constructor|]. intros Hs.
  apply StronglySorted_inv in Hs as [Hs Hlt]. specialize (IH Hs).
  assert (Forall (fun c => kind_rank k <= kind_rank (chip_kind c))%nat (List.concat (map snd ts))) as Hge.
  { clear -Hts Hlt. induction Hts as [|[k' l'] ts Hk' Hts IH]; cbn; [constructor|].
    cbn in Hlt. apply Forall_cons in Hlt as [Hk Hlt]. apply Forall_app. split; [|by apply IH].
    eapply Forall_impl; [exact Hk'|]. cbn. intros c ->. cbn in Hk. lia. }
  cbn in Hk. induction Hk as [|c l Hc Hk IHl]; cbn; [done|]. constructor; [done|].
  apply Forall_app. split.
  - eapply Forall_impl; [exact Hk|]. unfold rank_le. intros c' Hc'. by rewrite Hc, Hc'.
  - eapply Forall_impl; [exact Hge|]. unfold rank_le. intros c' Hc'. by rewrite Hc.
Qed.

Lemma tiers_kind (ts : list (ReasonKind * list FormattedReason)) k :
  Forall (fun t => all_kind t.1 t.2) ts ->
  (exists c, c ∈ List.concat (map snd ts) /\ chip_kind c = k) <->
  Exists (fun t => t.1 = k /\ t.2 <> []) ts.
Proof.
  induction 1 as [|[k' l] ts Hk Hts IH]; cbn.
  - split; [by intros (c & ?%elem_of_nil & _)|by intros ?%Exists_nil].
  - rewrite Exists_cons, <- IH. cbn in *. setoid_rewrite elem_of_app. unfold all_kind in Hk.
    rewrite Forall_forall in Hk. split.
    + intros (c & [Hc|Hc] & Hck); [left|right; eauto]. rewrite <- Hck. split; [symmetry; auto|].
      intros ->. by apply elem_of_nil in Hc.
    + intros [[-> Hne]|(c & ? & ?)]; [|eauto]. destruct l as [|c l]; [done|].
      exists c. assert (c ∈ c :: l) by (apply elem_of_cons; auto). auto.
Qed.

Section tier_facts.
Context (st : Scan) (bn sn : gmap string string).

Definition tiers : list (ReasonKind * list FormattedReason) :=
  [ (kind_dnssec, when (hasDnssecFailed st) [mkChip kind_dnssec "DNSSEC validation failed"]);
    (kind_blocklist, blocklistTier st bn);
    (kind_service, serviceTier st sn);
    (kind_rebinding, when (hasRebinding st) [mkChip kind_rebinding "Rebinding protection"]);
    (kind_custom_rule, when (hasCustomRule st) [mkChip kind_custom_rule ("Custom rule" ++s customRuleSuffix st)]);
    (kind_default, when (hasDefault st) [mkChip kind_default "Default rule"]) ].

Lemma chips_tiers : chips st bn sn = List.concat (map snd tiers).
Proof. unfold chips, tiers. cbn [map List.concat snd]. by rewrite app_nil_r. Qed.

Lemma tiers_kinds : Forall (fun t => all_kind t.1 t.2) tiers.
Proof.
  unfold tiers, blocklistTier, serviceTier.
  repeat (constructor; [cbn [fst snd]|]); auto with moddns;
    [destruct (blocklistIds st)|destruct (serviceIds st)]; auto with moddns.
Qed.

Lemma when_nonempty {A} b (x : A) : when b [x] <> [] <-> b = true.
Proof. destruct b; cbn; split; done. Qed.

Lemma blocklistTier_nonempty :
  blocklistTier st bn <> [] <->
  blocklistIds st <> [] \/ hasGenericBlocklist st = true \/ hasSubdomain st = true
  \/ (hasCname st = true /\ hasCustomRule st = false).
Proof.
  unfold blocklistTier, cnameOnBlocklist, blocklistSignal. destruct (blocklistIds st) as [|i l]; [|naive_solver].
  rewrite when_nonempty, bool_decide_eq_true_2 by done.
  destruct (hasGenericBlocklist st), (hasSubdomain st), (hasCname st), (hasCustomRule st); cbn; naive_solver.
Qed.

Lemma serviceTier_nonempty :
  serviceTier st sn <> [] <-> serviceIds st <> [] \/ hasGenericService st = true.
Proof.
  unfold serviceTier. destruct (serviceIds st) as [|i l]; [|naive_solver]. rewrite when_nonempty. naive_solver.
Qed.
End tier_facts.

(** The tokens that ask for a chip of a kind. *)
Definition asks (reasons : list string) (k : ReasonKind) : Prop :=
  match k with
  | kind_dnssec => "dnssec_failed" ∈ reasons
  | kind_blocklist => (exists id, BLOCKLIST_PREFIX ++s id ∈ reasons) \/ "blocklists" ∈ reasons
      \/ "blocklists_subdomains_rule" ∈ reasons
      \/ ("cname_uncloaking" ∈ reasons /\ "custom_rules" ∉ reasons)
  | kind_service => (exists id, SERVICE_PREFIX ++s id ∈ reasons) \/ "services" ∈ reasons
  | kind_rebinding => "rebinding_protection" ∈ reasons
  | kind_custom_rule => "custom_rules" ∈ reasons
  | kind_default => "default_rule" ∈ reasons
  | kind_subdomain => False
  end.

Lemma ids_nonempty p reasons :
  dedup (omap (token_id p) reasons) <> [] <-> exists id, p ++s id ∈ reasons.
Proof.
  split.
  - intros Hne. destruct (dedup _) as [|id l] eqn:Hd; [done|]. exists id.
    assert (id ∈ dedup (omap (token_id p) reasons)) as Hid by (rewrite Hd; apply elem_of_cons; auto).
    rewrite elem_of_dedup in Hid. apply list_elem_of_omap in Hid as (r & Hr & Htok).
    unfold token_id in Htok. destruct (startsWith r p) eqn:Hs; [|done]. injection Htok as <-.
    apply startsWith_spec in Hs as [x ->]. unfold after_prefix. by rewrite drop_app_s.
  - intros (id & Hid) Hnil. assert (id ∈ dedup (omap (token_id p) reasons)) as Hx; [|by rewrite Hnil in Hx; apply elem_of_nil in Hx].
    rewrite elem_of_dedup, list_elem_of_omap. exists (p ++s id). split; [done|].
    unfold token_id, after_prefix. by rewrite startsWith_app, drop_app_s.
Qed.

Theorem formatReasons_kinds reasons bn sn :
  StronglySorted rank_le (formatReasons reasons bn sn) /\
  forall k, (exists c, c ∈ formatReasons reasons bn sn /\ chip_kind c = k) <-> asks reasons k.
Proof.
  assert (formatReasons reasons bn sn = chips (scan reasons) bn sn) as -> by (by destruct reasons).
  rewrite chips_tiers. pose proof (tiers_kinds (scan reasons) bn sn) as Hk. split.
  { apply tiers_sorted; [done|]. unfold tiers. cbn. repeat constructor. }
  intros k. rewrite (tiers_kind _ k Hk). unfold tiers.
  rewrite !Exists_cons, Exists_nil. cbn [fst snd].
  rewrite !when_nonempty, blocklistTier_nonempty, serviceTier_nonempty.
  destruct (scan_holds reasons) as (Hgb & Hgs & Hsd & Hcr & Hdf & Hdn & Hrb & Hcn).
  assert (hasCustomRule (scan reasons) = false <-> "custom_rules" ∉ reasons) as Hcr'
    by (rewrite <- Hcr; destruct (hasCustomRule _); naive_solver).
  rewrite Hgb, Hgs, Hsd, Hcr, Hdf, Hdn, Hrb, Hcn, Hcr'.
  rewrite scan_collected. cbn [collected blocklistIds serviceIds]. rewrite !ids_nonempty.
  destruct k; cbn [asks]; (split; [intros Hx; destruct_or! Hx; destruct Hx as [? ?]; done || congruence|]);
    intros Hx; try done; repeat first [left; split; [reflexivity|exact Hx] | right].
Qed.

(** *** Qualifiers *)

Lemma suffix_includes st q :
  (q = "subdomain" /\ hasSubdomain st = true) \/ (q = "CNAME" /\ cnameOnBlocklist st = true) ->
  includes (subdomainSuffix st) q = true.
Proof.
  unfold subdomainSuffix. intros [[-> ->]|[-> ->]]; [destruct (cnameOnBlocklist st)|destruct (hasSubdomain st)];
    reflexivity.
Qed.

(** A qualifier of the blocklist tier is on every chip of the tier. *)
Lemma blocklistTier_suffix st bn c :
  c ∈ blocklistTier st bn -> exists l, chip_label c = l ++s subdomainSuffix st.
Proof.
  unfold blocklistTier. destruct (blocklistIds st) as [|i l].
  - destruct (_ || _); cbn; [|by intros ?%elem_of_nil]. intros ->%list_elem_of_singleton. by exists "Blocklist".
  - intros (x & -> & _)%list_elem_of_fmap. exists ("Blocklist: " ++s (bn !! x ?? x)). cbn [chip_label].
    by rewrite app_assoc_s.
Qed.

Theorem formatReasons_cname_shown reasons bn sn :
  "cname_uncloaking" ∈ reasons ->
  exists c, c ∈ formatReasons reasons bn sn /\ includes (chip_label c) "CNAME" = true.
Proof.
  intros Hc. assert (formatReasons reasons bn sn = chips (scan reasons) bn sn) as -> by (by destruct reasons).
  destruct (scan_holds reasons) as (_ & _ & _ & _ & _ & _ & _ & Hcn). apply Hcn in Hc. clear Hcn.
  set (st := scan reasons) in *. destruct (cnameOnBlocklist st) eqn:Hon.
  - assert (blocklistTier st bn <> []) as Hne.
    { rewrite blocklistTier_nonempty. unfold cnameOnBlocklist, blocklistSignal in Hon.
      destruct (blocklistIds st); [|by left]. rewrite Hc in Hon.
      destruct (hasGenericBlocklist st), (hasSubdomain st), (hasCustomRule st); cbn in Hon; auto; done. }
    destruct (blocklistTier st bn) as [|c l] eqn:Hb; [done|]. exists c. split.
    + unfold chips. rewrite Hb. rewrite !elem_of_app, elem_of_cons. auto.
    + destruct (blocklistTier_suffix st bn c) as [l' ->]; [rewrite Hb; apply elem_of_cons; auto|].
      apply includes_app_l, suffix_includes. auto.
  - assert (hasCustomRule st = true) as Hcr.
    { unfold cnameOnBlocklist in Hon. rewrite Hc in Hon. destruct (hasCustomRule st); [done|].
      by rewrite orb_true_r in Hon. }
    exists (mkChip kind_custom_rule ("Custom rule" ++s customRuleSuffix st)). split.
    + unfold chips. rewrite Hcr. rewrite !elem_of_app. cbn [when]. rewrite list_elem_of_singleton. tauto.
    + unfold customRuleSuffix. rewrite Hc, Hon. reflexivity.
Qed.

Lemma formatReasons_cname_shown_witness :
  exists c, c ∈ formatReasons ["cname_uncloaking"; "custom_rules"] ∅ ∅
    /\ includes (chip_label c) "CNAME" = true.
Proof.
  apply (formatReasons_cname_shown ["cname_uncloaking"; "custom_rules"] ∅ ∅), elem_of_cons. by left.
Defined.
