(* ===== verification/Outcomes.v ===== *)
(** * Resolution outcomes of a query log row

    [src/app/src/lib/formatOutcome.ts]: the label of an outcome token, the distinct (query type,
    outcome) pairs of a row, and the "No answer" trigger. *)

From S2P Require Import Prelude JsString ApiTypes.

(** The object literal, as an association list; its inherited members are left out. *)
Definition OUTCOME_LABELS : list (string * string) :=
  [ ("resolved", "Resolved"); ("nodata", "No records"); ("nxdomain", "Domain not found");
    ("blocked", "Blocked"); ("servfail_dnssec", "DNSSEC validation failure");
    ("servfail_upstream", "Upstream failure"); ("timeout", "Upstream timeout");
    ("network_error", "Upstream unreachable"); ("refused", "Refused");
    ("filter_unavailable", "Filtering unavailable") ].

Definition outcomeLabel (outcome : string) : option string :=
  snd <$> array_find (fun e => String.eqb (fst e) outcome) OUTCOME_LABELS.

Definition FAILURE_OUTCOMES : list string :=
  ["blocked"; "servfail_dnssec"; "servfail_upstream"; "timeout"; "network_error"; "refused";
   "filter_unavailable"].

Definition formatOutcome (outcome responseCode : option string) : string :=
  if truthy_opt outcome then outcomeLabel (outcome ?? "") ?? (outcome ?? "")
  else opt_or responseCode "Unknown".

Record OutcomePair := mkPair { queryType : string; op_label : string; failure : bool }.

Definition pairOf (m : ModelQueryLog) : OutcomePair :=
  {| queryType := (r ← ql_dns_request m; dr_query_type r) ?? "";
     op_label := formatOutcome (ql_outcome m) (r ← ql_dns_request m; dr_response_code r);
     failure := bool_decide (ql_outcome m ?? "" ∈ FAILURE_OUTCOMES) |}.

Definition pairKey (p : OutcomePair) : string := queryType p ++s " " ++s op_label p.

(** The loop, with its accumulator [pairs] and the [Set] [seen]. *)
Fixpoint pairs_loop (members : list ModelQueryLog) (seen : list string) (pairs : list OutcomePair)
    : list OutcomePair :=
  match members with
  | [] => pairs
  | m :: rest =>
      let p := pairOf m in
      if bool_decide (pairKey p ∈ seen) then pairs_loop rest seen pairs
      else pairs_loop rest (pairKey p :: seen) (pairs ++ [p])
  end.

Definition outcomePairs (members : list ModelQueryLog) : list OutcomePair := pairs_loop members [] [].

Definition UNANSWERED_OUTCOMES : list string :=
  ["servfail_upstream"; "timeout"; "network_error"; "refused"; "filter_unavailable"].

Definition hasUnansweredMember (members : list ModelQueryLog) : bool :=
  existsb (fun m => bool_decide (ql_outcome m ?? "" ∈ UNANSWERED_OUTCOMES)) members.

(** ** Facts *)

Lemma pairs_loop_dedup members seen pairs :
  pairs_loop members seen pairs = pairs ++ dedup_by pairKey seen (map pairOf members).
Proof.
  revert seen pairs. induction members as [|m rest IH]; intros seen pairs; cbn [pairs_loop map dedup_by].
  - by rewrite app_nil_r.
  - destruct (bool_decide _); rewrite IH; [done|]. by rewrite <- app_assoc.
Qed.

Lemma outcomePairs_dedup members : outcomePairs members = dedup_by pairKey [] (map pairOf members).
Proof. apply pairs_loop_dedup. Qed.

(** A query type is a DNS mnemonic: it holds no space. *)
Definition spaceless (m : ModelQueryLog) : Prop := lacks " " (queryType (pairOf m)) = true.

Lemma first_sep_inj c a b x y :
  lacks c a = true -> lacks c b = true -> a ++s String c x = b ++s String c y -> a = b /\ x = y.
Proof.
  intros Ha Hb. revert b Hb. induction a as [|d a IH]; intros [|e b] Hb; cbn; intros [= ]; subst; try done.
  - cbn in Hb. by rewrite Ascii.eqb_refl in Hb.
  - cbn in Ha. by rewrite Ascii.eqb_refl in Ha.
  - cbn in Ha, Hb. apply andb_true_iff in Ha as [_ Ha]. apply andb_true_iff in Hb as [_ Hb].
    destruct (IH Ha b Hb) as [-> ->]; auto.
Qed.

Definition type_and_label (p : OutcomePair) : string * string := (queryType p, op_label p).

Theorem outcomePairs_spec members :
  Forall spaceless members ->
  let ps := outcomePairs members in
  ps `sublist_of` map pairOf members /\
  NoDup (map type_and_label ps) /\
  (forall m, m ∈ members -> type_and_label (pairOf m) ∈ map type_and_label ps).
Proof.
  intros Hsp. cbv zeta. rewrite outcomePairs_dedup.
  pose proof (dedup_by_sublist pairKey [] (map pairOf members)) as Hsub. split; [done|].
  pose proof (map_dedup_by pairKey [] (map pairOf members)) as Hkeys.
  assert (forall p, p ∈ map pairOf members -> lacks " " (queryType p) = true) as Hsl.
  { intros p (m & -> & Hm)%list_elem_of_fmap. rewrite Forall_forall in Hsp. by apply Hsp. }
  split.
  - assert (NoDup (map pairKey (dedup_by pairKey [] (map pairOf members)))) as Hnd
      by (rewrite Hkeys; apply NoDup_dedup_from).
    clear -Hnd. induction (dedup_by pairKey [] (map pairOf members)) as [|p ps IH]; [constructor|].
    cbn in *. apply NoDup_cons in Hnd as [Hp Hnd]. constructor; [|by apply IH].
    intros (q & Heq & Hq)%list_elem_of_fmap. apply Hp, list_elem_of_fmap. exists q. split; [|done].
    unfold pairKey. unfold type_and_label in Heq. by injection Heq as -> ->.
  - intros m Hm. set (p := pairOf m).
    assert (p ∈ map pairOf members) as Hp by (apply list_elem_of_fmap; by exists m).
    assert (pairKey p ∈ map pairKey (dedup_by pairKey [] (map pairOf members))) as Hk.
    { rewrite Hkeys, elem_of_dedup_from. split; [|by intros ?%elem_of_nil].
      apply list_elem_of_fmap. by exists p. }
    apply list_elem_of_fmap in Hk as (q & Hkq & Hq). apply list_elem_of_fmap. exists q. split; [|done].
    unfold pairKey in Hkq. apply first_sep_inj in Hkq as [Ht Hl]; [|by apply Hsl|].
    + unfold type_and_label. by rewrite Ht, Hl.
    + apply Hsl. by eapply elem_of_sublist.
Qed.

Definition witness_query (ty outcome : string) : ModelQueryLog :=
  MkModelQueryLog None None (Some (MkModelDNSRequest None None (Some ty) None)) None (Some outcome)
    None None None None None.

Lemma outcomePairs_spec_witness :
  let ms := [witness_query "A" "resolved"; witness_query "AAAA" "nodata"; witness_query "A" "resolved"] in
  outcomePairs ms `sublist_of` map pairOf ms /\
  NoDup (map type_and_label (outcomePairs ms)) /\
  (forall m, m ∈ ms -> type_and_label (pairOf m) ∈ map type_and_label (outcomePairs ms)).
Proof.
  apply (outcomePairs_spec [witness_query "A" "resolved"; witness_query "AAAA" "nodata"; witness_query "A" "resolved"]).
  repeat constructor.
Defined.

(** Every unanswered outcome is a failure, and the two verdicts are failures that were answered. *)
Lemma unanswered_failure :
  Forall (fun o => o ∈ FAILURE_OUTCOMES) UNANSWERED_OUTCOMES /\
  List.filter (fun o => negb (bool_decide (o ∈ UNANSWERED_OUTCOMES))) FAILURE_OUTCOMES
    = ["blocked"; "servfail_dnssec"].
Proof.
  split; [|reflexivity]. apply (bool_decide_unpack _). reflexivity.
Qed.
