(* ===== verification/CustomRules.v ===== *)
(** * Custom rules: values, lists and group names

    [src/app/src/pages/custom_rules/utils.ts] and the pure helpers of
    [src/app/src/pages/custom_rules/MainContentSection.tsx]: splitting pasted rules, counting an
    account's rules, and the JSON Pointer a group name travels in. *)

From S2P Require Import Prelude JsString ApiTypes.

Definition MAX_RULES_PER_BATCH : Z := 20.
Definition MAX_CUSTOM_RULES_PER_ACCOUNT : Z := 10000.
Definition CUSTOM_RULES_USAGE_NOTICE_AT : Z := 9000.

Definition customRulesOf (p : ModelProfile) : list ModelCustomRule :=
  (s ← p_settings p; ps_custom_rules s) ?? [].

(** [profile?.settings?.custom_rules?.length ?? 0] *)
Definition ruleCount (p : ModelProfile) : nat := length (customRulesOf p).

Definition countAccountCustomRules (profiles : list ModelProfile) (activeProfile : option ModelProfile) : nat :=
  let activeId := p_profile_id <$> activeProfile in
  foldl (fun total profile =>
           if truthy_opt activeId && bool_decide (Some (p_profile_id profile) = activeId) then total
           else (total + ruleCount profile)%nat)
    ((ruleCount <$> activeProfile) ?? 0%nat) profiles.

(** [/[\n\r\t,;]+|\s{1,}/g]: what a separator run is made of. Splitting at each code unit of a run
    instead of at the run adds empty pieces only, and the source drops the empty pieces. *)
Definition is_rule_sep (c : ascii) : bool := is_ws c || Ascii.eqb c "," || Ascii.eqb c ";".

Definition splitRulesFromInput (raw : string) : list string :=
  List.filter truthy (map trim (split_on is_rule_sep raw)).

(** [null] is [None]. *)
Definition normalizeRuleValue (value : string) : option string :=
  let trimmed := trim value in
  if negb (truthy trimmed) then None
  else if endsWith trimmed "." then Some (str_take (String.length trimmed - 1) trimmed)
  else Some trimmed.

Inductive RuleList : Set := denylist | allowlist.
#[export] Instance RuleList_eq_dec : EqDecision RuleList.
Proof. solve_decision. Defined.
Definition ruleListValue (l : RuleList) : string :=
  match l with denylist => "denylist" | allowlist => "allowlist" end.

Definition parseRuleList (value : option string) : RuleList :=
  if bool_decide (value = Some "allowlist") then allowlist else denylist.
Definition customRulesPath (l : RuleList) : string := "/custom-rules?list=" ++s ruleListValue l.

Definition TAB_TO_ACTION (l : RuleList) : string :=
  match l with denylist => "block" | allowlist => "allow" end.

(** [s.replace(/c/g, rep)] for a single code unit. *)
Fixpoint replaceAll (c : ascii) (rep : string) (s : string) : string :=
  match s with
  | "" => ""
  | String d s' => if Ascii.eqb c d then rep ++s replaceAll c rep s' else String d (replaceAll c rep s')
  end.

(** RFC 6901: [~] is escaped before [/]. *)
Definition toPointer (name : string) : string :=
  "/" ++s replaceAll "/" "~1" (replaceAll "~" "~0" name).

(** ** Splitting *)

(** Every value the composer is given is non-empty and holds no separator; nothing else is lost. *)
Definition drop_seps (s : string) : string :=
  (fix go s := match s with "" => "" | String c s' => if is_rule_sep c then go s' else String c (go s') end) s.

Definition concat_s (ws : list string) : string := foldr String.append "" ws.

Lemma is_ws_sep c : is_ws c = true -> is_rule_sep c = true.
Proof. unfold is_rule_sep. by intros ->. Qed.

Lemma piece_trim w : str_all (fun c => negb (is_rule_sep c)) w = true -> trim w = w.
Proof.
  intros Hw. apply trim_no_ws. eapply str_all_impl; [|exact Hw]. cbn. intros c Hc.
  destruct (is_ws c) eqn:E; [|done]. by rewrite (is_ws_sep c E) in Hc.
Qed.

Lemma split_pieces_map_trim raw : map trim (split_on is_rule_sep raw) = split_on is_rule_sep raw.
Proof.
  rewrite <- (map_id (split_on is_rule_sep raw)) at 2. apply map_ext_in. intros w Hw.
  apply piece_trim. pose proof (split_on_pieces is_rule_sep raw) as Hall. rewrite Forall_forall in Hall.
  apply Hall. by apply list_elem_of_In.
Qed.

Lemma splitRulesFromInput_eq raw :
  splitRulesFromInput raw = List.filter truthy (split_on is_rule_sep raw).
Proof. unfold splitRulesFromInput. by rewrite split_pieces_map_trim. Qed.

Lemma concat_filter_truthy ws : concat_s (List.filter truthy ws) = concat_s ws.
Proof. unfold concat_s. induction ws as [|w ws IH]; cbn; [done|]. destruct w; cbn; by rewrite IH. Qed.

Lemma concat_split p s :
  concat_s (split_on p s) =
  (fix go s := match s with "" => "" | String c s' => if p c then go s' else String c (go s') end) s.
Proof.
  unfold concat_s. induction s as [|c s IH]; [done|]. cbn [split_on].
  destruct (split_on p s) as [|w ws] eqn:E; [by destruct (split_on_nonempty p s)|].
  destruct (p c); cbn in *; by rewrite IH.
Qed.

Theorem splitRulesFromInput_spec raw :
  Forall (fun v => v <> "" /\ str_all (fun c => negb (is_rule_sep c)) v = true) (splitRulesFromInput raw) /\
  concat_s (splitRulesFromInput raw) = drop_seps raw /\
  (forall c rules, is_rule_sep c = true ->
     Forall (fun v => v <> "" /\ str_all (fun c => negb (is_rule_sep c)) v = true) rules ->
     splitRulesFromInput (join (String c "") rules) = rules).
Proof.
  rewrite splitRulesFromInput_eq. split; [|split].
  - rewrite Forall_forall. intros v [Hv Ht]%elem_of_list_filter_b. apply truthy_spec in Ht. split; [done|].
    pose proof (split_on_pieces is_rule_sep raw) as Hall. rewrite Forall_forall in Hall. by apply Hall.
  - rewrite concat_filter_truthy. apply concat_split.
  - intros c rules Hc Hall. rewrite splitRulesFromInput_eq.
    induction Hall as [|v rules [Hv Hs] Hall IH]; [done|]. destruct Hall as [|v' rules [Hv' Hs'] Hall'].
    + cbn [join]. rewrite split_on_none by done. cbn. by rewrite (proj2 (truthy_spec v) Hv).
    + change (join (String c "") (v :: v' :: rules)) with (v ++s String c (join (String c "") (v' :: rules))).
      rewrite split_on_app by done. cbn [List.filter]. rewrite (proj2 (truthy_spec v) Hv). by f_equal.
Qed.

(** ** Counting an account's rules *)

(** The profile list with the active profile's live entry in place of its stored one. *)
Definition refresh (active : ModelProfile) (profiles : list ModelProfile) : list ModelProfile :=
  map (fun p => if String.eqb (p_profile_id p) (p_profile_id active) then active else p) profiles.

Lemma count_loop active profiles n :
  p_profile_id active <> "" ->
  foldl (fun total profile =>
           if truthy_opt (Some (p_profile_id active))
              && bool_decide (Some (p_profile_id profile) = Some (p_profile_id active)) then total
           else (total + ruleCount profile)%nat) n profiles
  = (n + sum_list (map ruleCount (List.filter (fun p => negb (String.eqb (p_profile_id p) (p_profile_id active))) profiles)))%nat.
Proof.
  intros Hne. revert n. assert (truthy_opt (Some (p_profile_id active)) = true) as Ht by (by apply truthy_spec).
  rewrite Ht. induction profiles as [|p ps IH]; intros n; cbn [foldl List.filter map]; [cbn; lia|].
  destruct (String.eqb_spec (p_profile_id p) (p_profile_id active)) as [Heq|Hneq].
  - rewrite bool_decide_eq_true_2 by congruence. cbn [andb negb]. apply IH.
  - rewrite bool_decide_eq_false_2 by congruence. cbn [andb negb map]. rewrite IH. cbn. lia.
Qed.

Theorem countAccountCustomRules_spec profiles active :
  p_profile_id active <> "" -> NoDup (map p_profile_id profiles) ->
  p_profile_id active ∈ map p_profile_id profiles ->
  countAccountCustomRules profiles (Some active) = sum_list (map ruleCount (refresh active profiles)).
Proof.
  intros Hne Hnd Hin. unfold countAccountCustomRules. cbn [fmap option_fmap option_map default].
  rewrite count_loop by done. unfold refresh.
  induction profiles as [|p ps IH]; [by apply elem_of_nil in Hin|].
  cbn [map] in *. apply NoDup_cons in Hnd as [Hp Hnd]. cbn [List.filter].
  destruct (String.eqb_spec (p_profile_id p) (p_profile_id active)) as [Heq|Hneq]; cbn [negb map sum_list].
  - rewrite Heq in Hp. f_equal. clear -Hp.
    induction ps as [|q ps IH]; [done|]. cbn [List.filter map]. cbn in Hp. apply not_elem_of_cons in Hp as [Hq Hp].
    destruct (String.eqb_spec (p_profile_id q) (p_profile_id active)); [congruence|].
    cbn [negb map]. cbn. by rewrite IH.
  - apply elem_of_cons in Hin as [?|Hin]; [congruence|]. specialize (IH Hnd Hin). cbn in *. lia.
Qed.

Definition witness_rules (id : string) (n : nat) : ModelProfile :=
  MkModelProfile "acc" id "Home" id
    (Some (MkModelProfileSettings None None
       (Some (List.repeat (MkModelCustomRule "block" None "r" None None "a.com") n)) None None id None None)).

Lemma countAccountCustomRules_spec_witness :
  countAccountCustomRules [witness_rules "p" 2; witness_rules "q" 1] (Some (witness_rules "p" 3))
    = sum_list (map ruleCount (refresh (witness_rules "p" 3) [witness_rules "p" 2; witness_rules "q" 1]))
  /\ countAccountCustomRules [witness_rules "p" 2; witness_rules "q" 1] (Some (witness_rules "p" 3)) = 4%nat.
Proof.
  split; [|reflexivity].
  apply (countAccountCustomRules_spec [witness_rules "p" 2; witness_rules "q" 1] (witness_rules "p" 3));
    apply (bool_decide_unpack _); reflexivity.
Defined.

(** ** Group pointers *)

(** RFC 6901 decoding of the token after the leading slash: [~1] first, then [~0]. *)
Fixpoint unescape (s : string) : option string :=
  match s with
  | "" => Some ""
  | String "~" (String "0" s') => String "~" <$> unescape s'
  | String "~" (String "1" s') => String "/" <$> unescape s'
  | String "~" _ => None
  | String "/" _ => None
  | String c s' => String c <$> unescape s'
  end.

Definition fromPointer (p : string) : option string :=
  match p with String "/" s => unescape s | _ => None end.

Lemma replaceAll_app c rep s t : replaceAll c rep (s ++s t) = replaceAll c rep s ++s replaceAll c rep t.
Proof.
  induction s as [|d s IH]; cbn; [done|]. destruct (Ascii.eqb c d); rewrite IH; [by rewrite app_assoc_s|done].
Qed.

Theorem toPointer_roundtrip name : fromPointer (toPointer name) = Some name.
Proof.
  unfold fromPointer, toPointer. cbn [String.append].
  induction name as [|c s IH]; [done|]. cbn [replaceAll].
  destruct (Ascii.eqb_spec "~" c) as [<-|Ht].
  - cbn. cbn in IH. by rewrite IH.
  - cbn [replaceAll]. destruct (Ascii.eqb_spec "/" c) as [<-|Hs]; [cbn; cbn in IH; by rewrite IH|].
    destruct c as [[] [] [] [] [] [] [] []]; cbn; cbn in IH; try done; by rewrite IH.
Qed.
