(* ===== verification/RuleComposer.v ===== *)
(** * The rule composer

    [src/app/src/pages/custom_rules/RuleComposer.tsx]: the input that turns typed or pasted text into
    chips and submits them. A handler maps the rendered state to the next state and the effects it
    asks for: toasts and submissions. [tokens] is the parent's state, replaced by [onTokensChange]. *)

From S2P Require Import Prelude JsString CustomRules.

Record RuleOptionMeta := { m_error : option string; m_reason : option string }.

Record RuleOption := mkOption { o_label : string; o_value : string; o_meta : option RuleOptionMeta }.

(** [token.meta?.error] as a condition *)
Definition hasError (t : RuleOption) : bool := truthy_opt (m ← o_meta t; m_error m).

Inductive Effect : Type :=
| ToastWarning (text : string)
| ToastError (text : string)
| Submit (tokensOverride : option (list RuleOption)).

Record Composer := mkComposer { tokens : list RuleOption; inputValue : string }.

(** ** Adding tokens *)

(** The variables of the loop over the raw values. *)
Record AddLoop := mkAdd {
  normalizedSet : list string;
  duplicates : list string;
  added : list RuleOption;
  overflow : list string;
  slots : Z;
}.

Definition truthy_value (v : option string) : option string :=
  v ≫= fun s => if truthy s then Some s else None.

Definition add_one (existingValues : list string) (st : AddLoop) (raw : string) : AddLoop :=
  let '(mkAdd ns du ad ov sl) := st in
  if sl <=? 0 then
    match truthy_value (normalizeRuleValue raw) with
    | Some v => mkAdd ns du ad (ov ++ [v]) sl
    | None => st
    end
  else
    match truthy_value (normalizeRuleValue raw) with
    | None => st
    | Some v =>
        if bool_decide (v ∈ existingValues) || bool_decide (v ∈ ns) then mkAdd ns (du ++ [v]) ad ov sl
        else mkAdd (v :: ns) du (ad ++ [mkOption v v None]) ov (sl - 1)
    end.

Definition availableSlots (ts : list RuleOption) : Z := MAX_RULES_PER_BATCH - Z.of_nat (length ts).

Definition add_loop (ts : list RuleOption) (rawValues : list string) : AddLoop :=
  foldl (add_one (map o_value ts)) (mkAdd [] [] [] [] (availableSlots ts)) rawValues.

Definition addEffects (st : AddLoop) : list Effect :=
  let n := length (duplicates st) in
  (match duplicates st with
   | [] => []
   | _ => [ToastWarning (show (Z.of_nat n) ++s " entr" ++s (if (n =? 1)%nat then "y" else "ies")
                         ++s " skipped as duplicates.")]
   end ++
   match overflow st with
   | [] => []
   | _ => [ToastError ("Only " ++s show MAX_RULES_PER_BATCH ++s " entries can be submitted at once.")]
   end)%list.

(** Returns the merged list, the next state and the effects. *)
Definition addTokens (rawValues : list string) (c : Composer) : list RuleOption * Composer * list Effect :=
  match rawValues with
  | [] => (tokens c, c, [])
  | _ =>
      let st := add_loop (tokens c) rawValues in
      let merged := (match added st with [] => tokens c | _ => tokens c ++ added st end)%list in
      (merged, mkComposer merged "", addEffects st)
  end.

(** ** Handlers *)

Inductive ComposerEvent : Type :=
| AddClick
| CreateOption (value : string)
| InputChange (value : string) (isInputChange : bool)
| KeyDown (key : string)
| Change (nextValue : list RuleOption) (isClear : bool).

Definition setInput (v : string) (c : Composer) : Composer := mkComposer (tokens c) v.
Definition setTokens (ts : list RuleOption) (c : Composer) : Composer := mkComposer ts (inputValue c).

Definition handleAddClick (loading : bool) (c : Composer) : Composer * list Effect :=
  let '(merged, c', effects) :=
    if truthy (trim (inputValue c)) then addTokens (splitRulesFromInput (inputValue c)) c
    else (tokens c, c, []) in
  match List.filter (fun t => negb (hasError t)) merged with
  | _ :: _ => (c', if loading then effects else effects ++ [Submit (Some merged)])
  | [] => (c', effects)
  end%list.

Definition handleCreateOption (value : string) (c : Composer) : Composer * list Effect :=
  if (String.length (trim value) =? 0)%nat then (c, [])
  else let '(_, c', effects) := addTokens (splitRulesFromInput value) c in (c', effects).

(** [/[\s,;]/.test(value)] *)
Definition hasSeparator (value : string) : bool := negb (str_all (fun ch => negb (is_rule_sep ch)) value).

Definition handleInputChange (value : string) (isInputChange : bool) (c : Composer) : Composer * list Effect :=
  if negb isInputChange then (c, [])
  else if hasSeparator value then
    let '(_, c', effects) := addTokens (splitRulesFromInput value) c in (c', effects)
  else (setInput value c, []).

Definition handleKeyDown (loading : bool) (key : string) (c : Composer) : Composer * list Effect :=
  if bool_decide (key ∈ ["Enter"; "Tab"; ","]) then
    if truthy (trim (inputValue c)) then
      let '(_, c', effects) := addTokens (splitRulesFromInput (inputValue c)) c in (c', effects)
    else if String.eqb key "Enter" && existsb (fun t => negb (hasError t)) (tokens c) && negb loading
    then (c, [Submit None]) else (c, [])
  else (c, []).

Definition handleChange (nextValue : list RuleOption) (isClear : bool) (c : Composer) : Composer * list Effect :=
  if isClear then (setTokens [] c, []) else (setTokens nextValue c, []).

Definition handle (loading : bool) (e : ComposerEvent) (c : Composer) : Composer * list Effect :=
  match e with
  | AddClick => handleAddClick loading c
  | CreateOption v => handleCreateOption v c
  | InputChange v b => handleInputChange v b c
  | KeyDown k => handleKeyDown loading k c
  | Change next clear => handleChange next clear c
  end.

(** ** What the loop adds *)

Definition normalized (raw : string) : option string := truthy_value (normalizeRuleValue raw).

(** The state of the loop after the values [raws]. *)
Record add_inv (ts : list RuleOption) (raws : list string) (st : AddLoop) : Prop := {
  ai_set : forall v, v ∈ normalizedSet st <-> v ∈ map o_value (added st);
  ai_nodup : NoDup (map o_value (added st));
  ai_new : forall v, v ∈ map o_value (added st) -> v ∉ map o_value ts;
  ai_nonempty : Forall (fun t => o_value t <> "" /\ o_meta t = None) (added st);
  ai_from : forall v, v ∈ map o_value (added st) -> exists raw, raw ∈ raws /\ normalized raw = Some v;
  ai_slots : slots st = availableSlots ts - Z.of_nat (length (added st));
  ai_room : added st = [] \/ 0 <= slots st;
  ai_overflow : overflow st <> [] -> slots st <= 0;
  ai_all : forall raw v, raw ∈ raws -> normalized raw = Some v ->
    v ∈ map o_value ts \/ v ∈ map o_value (added st) \/ v ∈ overflow st;
  ai_count : (length (omap normalized raws) =
              length (added st) + length (duplicates st) + length (overflow st))%nat;
}.

Lemma normalized_truthy raw v : normalized raw = Some v -> v <> "".
Proof.
  unfold normalized, truthy_value. destruct (normalizeRuleValue raw); [|done]. cbn.
  destruct (truthy s) eqn:E; [|done]. intros [= <-]. by apply truthy_spec.
Qed.

Lemma add_inv_0 ts : add_inv ts [] (mkAdd [] [] [] [] (availableSlots ts)).
Proof.
  split; cbn; try set_solver; try constructor; try lia; auto.
Qed.

Lemma omap_snoc_n raws raw :
  length (omap normalized (raws ++ [raw])) =
  (length (omap normalized raws) + match normalized raw with Some _ => 1 | None => 0 end)%nat.
Proof. rewrite omap_app, length_app. cbn. by destruct (normalized raw). Qed.

Lemma add_one_inv ts raws st raw :
  add_inv ts raws st -> add_inv ts (raws ++ [raw]) (add_one (map o_value ts) st raw).
Proof.
  intros [Hset Hnd Hnew Hne Hfrom Hslots Hroom Hov Hall Hcount]. destruct st as [ns du ad ov sl].
  cbn in *. fold (normalized raw).
  assert (forall r v, r ∈ raws ++ [raw] -> normalized r = Some v -> r ∈ raws \/ normalized raw = Some v) as Hsplit.
  { intros r v [?|Hr%list_elem_of_singleton]%elem_of_app Hv; [auto|]. subst. auto. }
  destruct (normalized raw) as [v|] eqn:Hv.
  2: { destruct (sl <=? 0); split; cbn; rewrite ?omap_snoc_n, ?Hv; try done; try lia;
         try (intros w Hw; destruct (Hfrom w Hw) as (r & ? & ?); exists r; set_solver);
         intros r w Hr Hw; (destruct (Hsplit r w Hr Hw); [by eauto|congruence]). }
  pose proof (normalized_truthy raw v Hv) as Hvne.
  destruct (Z.leb_spec sl 0) as [Hsl|Hsl].
  - split; cbn; rewrite ?omap_snoc_n, ?Hv, ?length_app; cbn; try done; try lia.
    + intros w Hw. destruct (Hfrom w Hw) as (r & ? & ?). exists r. set_solver.
    + intros r w Hr Hw. rewrite elem_of_app, list_elem_of_singleton.
      destruct (Hsplit r w Hr Hw) as [Hr'|[= ->]]; [|auto]. destruct (Hall r w Hr' Hw) as [?|[?|?]]; auto.
  - destruct (bool_decide (v ∈ map o_value ts)) eqn:He; [|destruct (bool_decide (v ∈ ns)) eqn:Hn]; cbn [orb].
    1-2: split; cbn; rewrite ?omap_snoc_n, ?Hv, ?length_app; cbn; try done; try lia.
    all: try (intros w Hw; destruct (Hfrom w Hw) as (r & ? & ?); exists r; set_solver).
    1-2: intros r w Hr Hw; destruct (Hsplit r w Hr Hw) as [Hr'|[= ->]]; [by eauto|to_prop; naive_solver].
    to_prop. split; cbn; rewrite ?omap_snoc_n, ?Hv, ?map_app, ?length_app; cbn; try lia.
    + intros w. rewrite elem_of_cons, elem_of_app, list_elem_of_singleton, Hset. tauto.
    + apply NoDup_app. split; [done|]. split; [|apply NoDup_singleton].
      intros w Hw ->%list_elem_of_singleton. apply Hset in Hw. done.
    + intros w [Hw| ->%list_elem_of_singleton]%elem_of_app; auto.
    + apply Forall_app. split; [done|]. by repeat constructor.
    + intros w [Hw| ->%list_elem_of_singleton]%elem_of_app.
      * destruct (Hfrom w Hw) as (r & ? & ?). exists r. set_solver.
      * exists raw. set_solver.
    + intros Ho. specialize (Hov Ho). lia.
    + intros r w Hr Hw. rewrite elem_of_app, list_elem_of_singleton.
      destruct (Hsplit r w Hr Hw) as [Hr'|[= ->]]; [|auto]. destruct (Hall r w Hr' Hw) as [?|[?|?]]; auto.
Qed.

Lemma add_loop_inv ts raws : add_inv ts raws (add_loop ts raws).
Proof.
  unfold add_loop. induction raws as [|raw raws IH] using rev_ind; [apply add_inv_0|].
  rewrite foldl_app. by apply add_one_inv.
Qed.

Definition composer_ok (ts : list RuleOption) : Prop :=
  NoDup (map o_value ts) /\ Z.of_nat (length ts) <= MAX_RULES_PER_BATCH /\
  Forall (fun t => o_value t <> "") ts.

Lemma addTokens_tokens raws c :
  tokens (addTokens raws c).1.2 = (addTokens raws c).1.1 /\
  (addTokens raws c).1.1 = tokens c ++ added (add_loop (tokens c) raws).
Proof.
  unfold addTokens. destruct raws; cbn [fst snd tokens]; [by rewrite app_nil_r|]. split; [done|].
  destruct (added _); [by rewrite app_nil_r|done].
Qed.

Lemma addTokens_ok raws c : composer_ok (tokens c) -> composer_ok (tokens (addTokens raws c).1.2).
Proof.
  intros (Hnd & Hlen & Hne). destruct (addTokens_tokens raws c) as [-> ->].
  destruct (add_loop_inv (tokens c) raws) as [_ Hnd' Hnew Hne' _ Hslots Hroom _ _ _].
  split; [|split].
  - rewrite map_app. apply NoDup_app. split; [done|]. split; [|done]. intros v Hv Ha. by apply (Hnew v).
  - rewrite length_app. destruct Hroom as [->|Hroom]; cbn; [lia|]. unfold availableSlots in Hslots. lia.
  - apply Forall_app. split; [done|]. eapply Forall_impl; [exact Hne'|]. tauto.
Qed.

Lemma addTokens_case raws c (P : list RuleOption * Composer * list Effect -> Composer -> Prop) :
  P (addTokens raws c) (addTokens raws c).1.2 ->
  let '(m, c', e) := addTokens raws c in P (m, c', e) c'.
Proof. by destruct (addTokens raws c) as [[m c'] e]. Qed.

Lemma handle_tokens loading e c :
  tokens (handle loading e c).1 = tokens c \/
  (exists raws, tokens (handle loading e c).1 = tokens (addTokens raws c).1.2) \/
  (exists next b, e = Change next b).
Proof.
  destruct e as [|v|v []|k|next b]; cbn [handle handleInputChange handleAddClick handleCreateOption handleKeyDown negb].
  - unfold handleAddClick. destruct (truthy _); [|by left; destruct (List.filter _ _), loading].
    right. left. exists (splitRulesFromInput (inputValue c)).
    destruct (addTokens _ c) as [[m c'] ef]. by destruct (List.filter _ m), loading.
  - unfold handleCreateOption. destruct (_ =? 0)%nat; [by left|]. right. left.
    exists (splitRulesFromInput v). by destruct (addTokens _ c) as [[m c'] ef].
  - destruct (hasSeparator v); [|by left]. right. left.
    exists (splitRulesFromInput v). by destruct (addTokens _ c) as [[m c'] ef].
  - by left.
  - unfold handleKeyDown. destruct (bool_decide _); [|by left]. destruct (truthy _).
    + right. left. exists (splitRulesFromInput (inputValue c)). by destruct (addTokens _ c) as [[m c'] ef].
    + left. by destruct (_ && _).
  - right. right. eauto.
Qed.

Theorem composer_invariant loading e c :
  (forall next, e = Change next false -> next `sublist_of` tokens c) ->
  composer_ok (tokens c) -> composer_ok (tokens (handle loading e c).1).
Proof.
  intros Hnext Hok. destruct (handle_tokens loading e c) as [->|[[raws ->]|(next & b & ->)]]; [done|by apply addTokens_ok|].
  cbn. destruct b; cbn; [split; [constructor|by split; [|constructor]]|]. specialize (Hnext next eq_refl).
  destruct Hok as (Hnd & Hlen & Hne). split; [|split].
  - eapply sublist_NoDup; [exact Hnd|]. by apply (fmap_sublist o_value).
  - pose proof (sublist_length _ _ Hnext). lia.
  - rewrite Forall_forall in Hne |- *. intros t Ht. apply Hne. by eapply elem_of_sublist.
Qed.

Definition witness_composer : Composer := mkComposer [mkOption "a.com" "a.com" None] "b.com, a.com".

Lemma composer_invariant_witness :
  composer_ok (tokens (handle false AddClick witness_composer).1)
  /\ map o_value (tokens (handle false AddClick witness_composer).1) = ["a.com"; "b.com"].
Proof.
  split; [|reflexivity]. apply (composer_invariant false AddClick witness_composer); [done|].
  split; [apply (bool_decide_unpack _); reflexivity|]. split; [done|]. by repeat constructor.
Defined.

Theorem addTokens_spec raws c :
  let merged := (addTokens raws c).1.1 in
  let st := add_loop (tokens c) raws in
  merged = tokens c ++ added st /\
  (forall raw v, raw ∈ raws -> normalized raw = Some v -> v ∈ map o_value merged \/ v ∈ overflow st) /\
  (overflow st <> [] -> MAX_RULES_PER_BATCH <= Z.of_nat (length merged)) /\
  (length (omap normalized raws) = length (added st) + length (duplicates st) + length (overflow st))%nat.
Proof.
  cbv zeta. destruct (addTokens_tokens raws c) as [_ ->].
  destruct (add_loop_inv (tokens c) raws) as [_ _ _ _ _ Hslots _ Hov Hall Hcount].
  split; [done|]. split; [|split; [|done]].
  - intros raw v Hr Hv. rewrite map_app, elem_of_app. destruct (Hall raw v Hr Hv) as [?|[?|?]]; auto.
  - intros Ho. specialize (Hov Ho). rewrite length_app. unfold availableSlots in Hslots. lia.
Qed.
