(* ===== verification/Blocklists.v ===== *)
(** * Blocklist groups

    [src/app/src/pages/blocklists/nrdGroup.ts], [nativeGroup.ts] and [formatEntries.ts]: the range
    card of the newly registered domain lists, the native tracker card, and the entry count. A
    [Set] or iterable of enabled ids is a list of which only membership is asked. *)

From S2P Require Import Prelude JsString JsNumber JsDate ApiTypes.

(** ** Newly registered domains *)

Definition NRD_TAG : string := "nrd".

Record NrdTier := { tier_id : string; tier_label : string; tier_window : string }.

Definition NRD_GROUP : list NrdTier :=
  [ {| tier_id := "hagezi_nrd_07"; tier_label := "7d"; tier_window := "last 7 days" |};
    {| tier_id := "hagezi_nrd_14_08"; tier_label := "14d"; tier_window := "last 14 days" |};
    {| tier_id := "hagezi_nrd_21_15"; tier_label := "21d"; tier_window := "last 21 days" |};
    {| tier_id := "hagezi_nrd_28_22"; tier_label := "28d"; tier_window := "last 28 days" |};
    {| tier_id := "hagezi_nrd_35_29"; tier_label := "35d"; tier_window := "last 35 days" |} ].

Definition NRD_IDS : list string := map tier_id NRD_GROUP.

Definition hasTag (bl : ModelBlocklist) (tag : string) : bool :=
  match bl_tags bl with Some tags => bool_decide (tag ∈ tags) | None => false end.

Definition isNrdItem (bl : ModelBlocklist) : bool :=
  bool_decide (bl_blocklist_id bl ∈ NRD_IDS) || hasTag bl NRD_TAG.

(** [new Map(items.map(...))]: the last item of an id wins. *)
Definition byId (items : list ModelBlocklist) (id : string) : option ModelBlocklist :=
  last (List.filter (fun bl => String.eqb (bl_blocklist_id bl) id) items).

Definition orderedNrdItems (items : list ModelBlocklist) : list ModelBlocklist :=
  omap (fun t => byId items (tier_id t)) NRD_GROUP.

(** The [forEach] over [orderedIds], [depth] being its accumulator. *)
Definition nrdDepthFromEnabled (orderedIds enabled : list string) : nat :=
  foldl (fun depth '(i, id) => if bool_decide (id ∈ enabled) then (i + 1)%nat else depth) 0%nat
    (imap pair orderedIds).

Record NrdTargets := { enable : list string; disable : list string }.

Definition nrdDepthTargets (orderedIds : list string) (depth : Z) : NrdTargets :=
  let clamped := Z.to_nat (Z.max 0 (Z.min depth (Z.of_nat (length orderedIds)))) in
  {| enable := take clamped orderedIds; disable := drop clamped orderedIds |}.

(** ** Native trackers *)

Definition NATIVE_TAG : string := "native".
Definition NATIVE_LABEL : string := "Hagezi Native Trackers".
Definition NATIVE_DESCRIPTION : string :=
  "Block built-in device and OS telemetry per vendor, without breaking the vendor's services".

Record NativeLogo := { logo_key : string; logo_wide : bool }.

Definition NATIVE_LOGOS : list (string * NativeLogo) :=
  [ ("hagezi_native_amazon", {| logo_key := "amazon"; logo_wide := false |});
    ("hagezi_native_apple", {| logo_key := "apple"; logo_wide := false |});
    ("hagezi_native_huawei", {| logo_key := "huawei"; logo_wide := false |});
    ("hagezi_native_winoffice", {| logo_key := "microsoft"; logo_wide := false |});
    ("hagezi_native_samsung", {| logo_key := "samsung"; logo_wide := true |});
    ("hagezi_native_tiktok", {| logo_key := "tiktok"; logo_wide := false |});
    ("hagezi_native_tiktok_extended", {| logo_key := "tiktok"; logo_wide := false |});
    ("hagezi_native_lgwebos", {| logo_key := "lg"; logo_wide := true |});
    ("hagezi_native_roku", {| logo_key := "roku"; logo_wide := true |});
    ("hagezi_native_vivo", {| logo_key := "vivo"; logo_wide := true |});
    ("hagezi_native_oppo_realme", {| logo_key := "oppo"; logo_wide := true |});
    ("hagezi_native_xiaomi", {| logo_key := "xiaomi"; logo_wide := false |}) ].

Definition nativeLogo (bl : ModelBlocklist) : option NativeLogo :=
  snd <$> array_find (fun e => String.eqb (fst e) (bl_blocklist_id bl)) NATIVE_LOGOS.

Definition isNativeItem (bl : ModelBlocklist) : bool := hasTag bl NATIVE_TAG.

Definition orderedNativeItems {H : Host} (items : list ModelBlocklist) : list ModelBlocklist :=
  array_sort (fun a b => localeCompare (bl_name a) (bl_name b)) (List.filter isNativeItem items).

Definition includesTerm (text : option string) (term : string) : bool :=
  includes (toLowerCase (text ?? "")) term.

Definition nativeCardMatches (term : string) : bool :=
  let t := toLowerCase (trim term) in
  String.eqb t "" || includesTerm (Some NATIVE_LABEL) t || includesTerm (Some NATIVE_DESCRIPTION) t.

Definition nativeVendorMatches (items : list ModelBlocklist) (term : string) : bool :=
  let t := toLowerCase (trim term) in
  if String.eqb t "" then false
  else existsb (fun bl => includesTerm (Some (bl_name bl)) t || includesTerm (Some (bl_description bl)) t) items.

Record NativeVisibilityInput := {
  v_items : list ModelBlocklist;
  v_enabled : list string;
  v_filterValue : string;
  v_searchTerm : string;
}.

Definition nativeCardVisible (i : NativeVisibilityInput) : bool :=
  let isOn bl := bool_decide (bl_blocklist_id bl ∈ v_enabled i) in
  if (length (v_items i) =? 0)%nat then false else
  let f := v_filterValue i in
  let matchesFilter :=
    if String.eqb f "all" || String.eqb f "hagezi" then true
    else if String.eqb f "enabled" then existsb isOn (v_items i)
    else if String.eqb f "disabled" then existsb (fun bl => negb (isOn bl)) (v_items i)
    else false in
  if negb matchesFilter then false
  else nativeCardMatches (v_searchTerm i) || nativeVendorMatches (v_items i) (v_searchTerm i).

Record NativeSummary := mkSummary { enabledCount : nat; totalEntries : Z; mostRecent : string }.

Section summary.
Context {H : Host}.

(** [new Date(a) > new Date(b)]: false when either is not a date. *)
Definition laterThan (a b : string) : bool :=
  match Date_parse a, Date_parse b with Some x, Some y => y <? x | _, _ => false end.

Definition summary_step (enabled : list string) (s : NativeSummary) (bl : ModelBlocklist) : NativeSummary :=
  {| enabledCount := if bool_decide (bl_blocklist_id bl ∈ enabled) then S (enabledCount s) else enabledCount s;
     totalEntries := totalEntries s + (bl_entries bl ?? 0);
     mostRecent :=
       let lm := bl_last_modified bl ?? "" in
       if truthy lm && (negb (truthy (mostRecent s)) || laterThan lm (mostRecent s)) then lm else mostRecent s |}.

Definition nativeSummary (items : list ModelBlocklist) (enabled : list string) : NativeSummary :=
  foldl (summary_step enabled) (mkSummary 0 0 "") items.
End summary.

(** ** Entry counts *)

Definition formatEntries (n : Z) : string :=
  if 1000000 <=? n then toFixed1 (num_div (number n) (number 1000000)) ++s "M"
  else if 1000 <=? n then toFixed0 (num_div (number n) (number 1000)) ++s "K"
  else show n.

Example entries_1250000 : formatEntries 1250000 = "1.3M".
Proof. vm_compute. reflexivity. Qed.
Example entries_1150000 : formatEntries 1150000 = "1.1M".
Proof. vm_compute. reflexivity. Qed.
Example entries_45678 : formatEntries 45678 = "46K".
Proof. vm_compute. reflexivity. Qed.
Example entries_999500 : formatEntries 999500 = "1000K".
Proof. vm_compute. reflexivity. Qed.

(** ** Facts about the range card *)

Lemma imap_pair_snoc {A} (l : list A) x : imap pair (l ++ [x]) = imap pair l ++ [(length l, x)].
Proof. rewrite imap_app. cbn. by rewrite Nat.add_0_r. Qed.

Lemma nrdDepth_snoc ids enabled id :
  nrdDepthFromEnabled (ids ++ [id]) enabled =
  if bool_decide (id ∈ enabled) then S (length ids) else nrdDepthFromEnabled ids enabled.
Proof.
  unfold nrdDepthFromEnabled. rewrite imap_pair_snoc, foldl_app. cbn [foldl].
  by rewrite Nat.add_comm.
Qed.

Theorem nrdDepth_spec ids enabled :
  let d := nrdDepthFromEnabled ids enabled in
  (d <= length ids)%nat /\
  (forall id, last (take d ids) = Some id -> id ∈ enabled) /\
  (forall id, id ∈ drop d ids -> id ∉ enabled) /\
  (d = 0%nat <-> forall id, id ∈ ids -> id ∉ enabled).
Proof.
  cbv zeta. induction ids as [|id ids (Hle & Hlast & Hrest & Hzero)] using rev_ind.
  { cbn. split; [lia|]. split; [done|]. split; [by intros id ?%elem_of_nil|]. split; [|done].
    by intros _ id ?%elem_of_nil. }
  rewrite nrdDepth_snoc, length_app. cbn [length]. case_bool_decide as Hin.
  - split; [lia|]. rewrite take_ge, drop_ge by (rewrite length_app; cbn; lia).
    split; [rewrite last_snoc; by intros ? [= <-]|]. split; [by intros ? ?%elem_of_nil|].
    split; [lia|]. intros Hnone. exfalso. apply (Hnone id); [set_solver|done].
  - split; [lia|]. rewrite take_app_le, drop_app_le by lia. split; [done|]. split.
    + intros x [?| ->%list_elem_of_singleton]%elem_of_app; auto.
    + rewrite Hzero. set_solver.
Qed.

Theorem nrd_targets_roundtrip ids depth enabled :
  let t := nrdDepthTargets ids depth in
  enable t ++ disable t = ids /\
  (NoDup ids -> (forall id, id ∈ ids -> id ∈ enabled <-> id ∈ enable t) ->
   Z.of_nat (nrdDepthFromEnabled ids enabled) = Z.max 0 (Z.min depth (Z.of_nat (length ids)))).
Proof.
  cbv zeta. unfold nrdDepthTargets. cbn [enable disable].
  set (k := Z.to_nat _). split; [apply take_drop|]. intros Hnd Hen.
  assert (k <= length ids)%nat as Hk by lia.
  enough (nrdDepthFromEnabled ids enabled = k) by lia. clearbody k.
  induction ids as [|id ids IH] using rev_ind; [cbn in *; lia|].
  rewrite nrdDepth_snoc. rewrite length_app in Hk. cbn in Hk.
  apply NoDup_app in Hnd as (Hnd & Hdis & _).
  case_bool_decide as Hin.
  - apply Hen in Hin; [|set_solver]. destruct (decide (k <= length ids)%nat) as [Hle|Hgt]; [|lia].
    rewrite take_app_le in Hin by done. exfalso. apply (Hdis id); [|set_solver].
    eapply elem_of_submseteq; [exact Hin|]. apply submseteq_take.
  - destruct (decide (k <= length ids)%nat) as [Hle|Hgt].
    + apply IH; [done| |done]. intros x Hx. rewrite Hen, take_app_le by (done || set_solver). done.
    + exfalso. apply Hin, Hen; [set_solver|]. rewrite take_ge by (rewrite length_app; cbn; lia). set_solver.
Qed.

(** ** Facts about the native tracker card *)

Section summary_facts.
Context {H : Host}.

(** The modification dates of a group that the summary can order. *)
Definition dated (bl : ModelBlocklist) : Prop :=
  truthy (bl_last_modified bl ?? "") = true -> is_Some (Date_parse (bl_last_modified bl ?? "")).

Definition summary_ok (enabled : list string) (items : list ModelBlocklist) (s : NativeSummary) : Prop :=
  enabledCount s = length (List.filter (fun bl => bool_decide (bl_blocklist_id bl ∈ enabled)) items) /\
  totalEntries s = foldr Z.add 0 (map (fun bl => bl_entries bl ?? 0) items) /\
  (mostRecent s = "" <-> Forall (fun bl => bl_last_modified bl ?? "" = "") items) /\
  (mostRecent s <> "" -> exists t, Date_parse (mostRecent s) = Some t /\
     (exists bl, bl ∈ items /\ bl_last_modified bl = Some (mostRecent s)) /\
     forall bl u, bl ∈ items -> bl_last_modified bl ?? "" <> "" ->
       Date_parse (bl_last_modified bl ?? "") = Some u -> u <= t).

Lemma foldr_add_snoc l x : foldr Z.add 0 (l ++ [x]) = foldr Z.add 0 l + x.
Proof. induction l as [|y l IH]; cbn; [lia|]. rewrite IH. lia. Qed.

Lemma summary_step_ok enabled items s bl :
  dated bl -> summary_ok enabled items s -> summary_ok enabled (items ++ [bl]) (summary_step enabled s bl).
Proof.
  intros Hd (Hc & Ht & Hm & Hr). unfold summary_step, summary_ok.
  cbn [enabledCount totalEntries mostRecent]. split; [|split; [|]].
  - rewrite List.filter_app, length_app. cbn. destruct (bool_decide _); cbn; lia.
  - rewrite map_app. cbn [map]. rewrite foldr_add_snoc. lia.
  - rewrite Forall_app, Forall_singleton. unfold dated in Hd. set (lm := bl_last_modified bl ?? "") in *.
    assert (forall b, b ∈ items ++ [bl] -> b ∈ items \/ b = bl) as Hin.
    { intros b [?| ->%list_elem_of_singleton]%elem_of_app; auto. }
    destruct (truthy lm) eqn:Hlm; cbn [andb].
    + assert (bl_last_modified bl = Some lm) as Hsome.
      { unfold lm in *. by destruct (bl_last_modified bl). }
      destruct (Hd eq_refl) as [u Hu]. apply truthy_spec in Hlm.
      destruct (truthy (mostRecent s)) eqn:Hs; cbn [negb orb].
      * apply truthy_spec in Hs. destruct (Hr Hs) as (t & Hp & (b & Hb & Hbl) & Hmax).
        unfold laterThan. rewrite Hu, Hp. destruct (Z.ltb_spec t u) as [Hlt|Hge].
        -- split; [naive_solver|]. intros _. exists u. split; [done|]. split; [exists bl; set_solver|].
           intros b' u' [Hb'| ->]%Hin Hne' Hu'; [|fold lm in Hu'; rewrite Hu in Hu'; injection Hu' as <-; lia]. specialize (Hmax b' u' Hb' Hne' Hu'). lia.
        -- split; [naive_solver|]. intros _. exists t. split; [done|]. split; [exists b; set_solver|].
           intros b' u' [Hb'| ->]%Hin Hne' Hu'; [eauto|]. fold lm in Hu'. rewrite Hu in Hu'. injection Hu' as <-. lia.
      * apply truthy_false in Hs. split; [naive_solver|]. intros _. exists u. split; [done|].
        split; [exists bl; set_solver|]. intros b' u' [Hb'| ->]%Hin Hne' Hu'.
        -- exfalso. apply Hm in Hs. rewrite Forall_forall in Hs. by apply Hne', Hs.
        -- fold lm in Hu'. rewrite Hu in Hu'. injection Hu' as <-. lia.
    + apply truthy_false in Hlm. split; [rewrite Hm; tauto|]. intros Hne.
      destruct (Hr Hne) as (t & Hp & (b & Hb & Hbl) & Hmax). exists t. split; [done|].
      split; [exists b; set_solver|]. intros b' u' [Hb'| ->]%Hin Hne' Hu'; [eauto|done].
Qed.

Theorem nativeSummary_spec items enabled :
  Forall dated items -> summary_ok enabled items (nativeSummary items enabled).
Proof.
  unfold nativeSummary. induction items as [|bl items IH] using rev_ind.
  - intros _. split; [done|]. split; [done|]. split; [by split|done].
  - rewrite Forall_app, Forall_singleton, foldl_app. intros [Hi Hbl].
    cbn [foldl]. apply summary_step_ok; [exact Hbl|by apply IH].
Qed.
End summary_facts.

Definition witness_native (id : string) (n : Z) (lm : string) : ModelBlocklist :=
  MkModelBlocklist id None None "" (Some n) None None None None (Some lm) "" None None None.

Lemma nativeSummary_spec_witness :
  let items := [witness_native "a" 3 "2025-01-01"; witness_native "b" 4 "2025-02-01"] in
  @summary_ok utc_host ["b"] items (@nativeSummary utc_host items ["b"])
  /\ @nativeSummary utc_host items ["b"] = mkSummary 1 7 "2025-02-01".
Proof.
  split; [|reflexivity].
  apply (@nativeSummary_spec utc_host [witness_native "a" 3 "2025-01-01"; witness_native "b" 4 "2025-02-01"]).
  repeat constructor; intros _; eexists; reflexivity.
Defined.

(** ** Entry counts *)

Lemma thousands_round_up :
  forallb (fun k => fixed_digits 0 (num_div (number (999500 + Z.of_nat k)) (number 1000)) =? 1000) (seq 0 500) = true.
Proof. vm_compute. reflexivity. Qed.

Theorem formatEntries_rounds_to_1000K n : 999500 <= n < 1000000 -> formatEntries n = "1000K".
Proof.
  intros Hn. unfold formatEntries, toFixed0. rewrite (proj2 (Z.leb_gt _ _)), (proj2 (Z.leb_le _ _)) by lia.
  pose proof thousands_round_up as Hall. rewrite forallb_forall in Hall.
  specialize (Hall (Z.to_nat (n - 999500))). rewrite in_seq in Hall. specialize (Hall ltac:(lia)).
  replace (999500 + Z.of_nat (Z.to_nat (n - 999500))) with n in Hall by lia.
  apply Z.eqb_eq in Hall. by rewrite Hall.
Qed.

Lemma formatEntries_rounds_to_1000K_witness : formatEntries 999999 = "1000K".
Proof. apply (formatEntries_rounds_to_1000K 999999). lia. Defined.
