(* ===== verification/Locations.v ===== *)
(** * DNS server locations

    [src/app/src/lib/dnsServerLocations.ts]: the list of server locations of the build environment,
    and the first address of a list. *)

From S2P Require Import Prelude JsString.

Record DnsServerLocation := mkLocation {
  loc_prefix : string;
  loc_city : string;
  loc_hostname : string;
  loc_ipv4 : option string;
  loc_ipv6 : option string;
}.

Definition nonEmpty (value : option string) : option string :=
  v ← value; let trimmed := trim v in if truthy trimmed then Some trimmed else None.

Definition parse_entry (domain entry : string) : DnsServerLocation :=
  let fields := if includes entry "|" then split entry "|" else split entry ":" in
  let prefix := trim (fields !! 0%nat ?? "") in
  {| loc_prefix := prefix;
     loc_city := nonEmpty (fields !! 1%nat) ?? prefix;
     loc_hostname := prefix ++s "." ++s domain;
     loc_ipv4 := nonEmpty (fields !! 2%nat);
     loc_ipv6 := nonEmpty (fields !! 3%nat) |}.

Definition parseDnsServerLocations (raw : option string) (domain : string) : list DnsServerLocation :=
  map (parse_entry domain) (List.filter truthy (map trim (split (raw ?? "") ","))).

Definition firstAddress (raw : option string) : option string :=
  array_find truthy (map trim (split (raw ?? "") ",")).

(** ** Round trip *)

Definition print_location (l : DnsServerLocation) : string :=
  join "|" [loc_prefix l; loc_city l; loc_ipv4 l ?? ""; loc_ipv6 l ?? ""].
Definition print_locations (ls : list DnsServerLocation) : string := join "," (map print_location ls).

(** A field that survives: no separator inside, no white space at its edges. *)
Definition clean (s : string) : Prop :=
  lacks "," s = true /\ lacks "|" s = true /\ trimStart s = s /\ trimEnd s = s.

Definition clean_location (domain : string) (l : DnsServerLocation) : Prop :=
  clean (loc_prefix l) /\ clean (loc_city l) /\ loc_city l <> "" /\
  loc_hostname l = loc_prefix l ++s "." ++s domain /\
  (forall a, loc_ipv4 l = Some a -> clean a /\ a <> "") /\
  (forall a, loc_ipv6 l = Some a -> clean a /\ a <> "").

Lemma trimStart_length s : (String.length (trimStart s) <= String.length s)%nat.
Proof. induction s as [|c s IH]; cbn; [done|]. destruct (is_ws c); cbn; lia. Qed.

Lemma trimStart_fixed s :
  trimStart s = s <-> match s with String c _ => is_ws c = false | "" => True end.
Proof.
  destruct s as [|c s]; [done|]. cbn. destruct (is_ws c); split; try done.
  intros Heq. pose proof (trimStart_length s) as Hl. rewrite Heq in Hl. cbn in Hl. lia.
Qed.

Lemma trimEnd_app s t : t <> "" -> trimEnd t = t -> trimEnd (s ++s t) = s ++s t.
Proof.
  intros Hne Ht. induction s as [|c s IH]; [done|]. cbn. rewrite IH.
  destruct (s ++s t) eqn:E; [|done]. destruct s; [by destruct t|done].
Qed.

Lemma trim_clean s : clean s -> trim s = s.
Proof. intros (_ & _ & Hs & He). unfold trim. by rewrite Hs. Qed.

Lemma clean_opt domain l :
  clean_location domain l -> clean (loc_ipv4 l ?? "") /\ clean (loc_ipv6 l ?? "").
Proof.
  intros (_ & _ & _ & _ & H4 & H6). split.
  - destruct (loc_ipv4 l); [by apply H4|done].
  - destruct (loc_ipv6 l); [by apply H6|done].
Qed.

Lemma join4 a b c d :
  join "|" [a; b; c; d] = a ++s String "|" (b ++s String "|" (c ++s String "|" d)).
Proof. done. Qed.

Lemma print_location_trim domain l : clean_location domain l -> trim (print_location l) = print_location l.
Proof.
  intros Hc. destruct (clean_opt _ _ Hc) as [_ H6]. destruct Hc as (Hp & _).
  unfold print_location. rewrite join4. unfold trim.
  assert (forall s, trimStart (loc_prefix l ++s String "|" s) = loc_prefix l ++s String "|" s) as ->.
  { intros s. apply trimStart_fixed. destruct Hp as (_ & _ & Hs & _). apply trimStart_fixed in Hs.
    destruct (loc_prefix l); [done|exact Hs]. }
  apply trimEnd_app; [done|].
  change (String "|" ?x) with ("|" ++s x). apply trimEnd_app; [by destruct (loc_city l)|].
  apply trimEnd_app; [done|]. change (String "|" ?x) with ("|" ++s x).
  apply trimEnd_app; [by destruct (loc_ipv4 l ?? "")|].
  apply trimEnd_app; [done|].
  destruct H6 as (_ & _ & _ & He). cbn. rewrite He. by destruct (loc_ipv6 l ?? "").
Qed.

Lemma lacks_app c s t : lacks c (s ++s t) = lacks c s && lacks c t.
Proof. apply str_all_app. Qed.

Lemma print_location_split domain l :
  clean_location domain l ->
  split (print_location l) "|" = [loc_prefix l; loc_city l; loc_ipv4 l ?? ""; loc_ipv6 l ?? ""].
Proof.
  intros Hc. destruct (clean_opt _ _ Hc) as [H4 H6]. destruct Hc as (Hp & Hci & _).
  apply split_join; [done|]. repeat constructor; [apply Hp|apply Hci|apply H4|apply H6].
Qed.

Lemma print_location_comma domain l : clean_location domain l -> lacks "," (print_location l) = true.
Proof.
  intros Hc. destruct (clean_opt _ _ Hc) as [H4 H6]. destruct Hc as (Hp & Hci & _).
  unfold print_location. rewrite join4.
  repeat (rewrite lacks_app || change (lacks "," (String "|" ?x)) with (lacks "," x)).
  destruct Hp as [-> _], Hci as [-> _], H4 as [-> _], H6 as [-> _]. done.
Qed.

Lemma parse_print_location domain l :
  clean_location domain l -> parse_entry domain (print_location l) = l.
Proof.
  intros Hc. unfold parse_entry. rewrite (print_location_split _ _ Hc).
  assert (includes (print_location l) "|" = true) as ->.
  { apply includes_spec. unfold print_location. rewrite join4. by eexists _, _. }
  destruct Hc as (Hp & Hci & Hne & Hh & H4 & H6). destruct l as [p ci h v4 v6].
  cbn [loc_prefix loc_city loc_hostname loc_ipv4 loc_ipv6] in *. cbn -[trim truthy].
  rewrite (trim_clean p Hp), (trim_clean ci Hci), (proj2 (truthy_spec ci) Hne). subst h.
  assert (forall v, (forall a, v = Some a -> clean a /\ a <> "") ->
    (if truthy (trim (v ?? "")) then Some (trim (v ?? "")) else None) = v) as Hv.
  { intros [a|] Ha; [|done]. destruct (Ha a eq_refl) as [Hcl Hna]. change (Some a ?? "") with a.
    by rewrite (trim_clean a Hcl), (proj2 (truthy_spec a) Hna). }
  by rewrite (Hv v4 H4), (Hv v6 H6).
Qed.

Theorem parse_print_locations domain ls :
  Forall (clean_location domain) ls -> parseDnsServerLocations (Some (print_locations ls)) domain = ls.
Proof.
  intros Hall. unfold parseDnsServerLocations, print_locations. cbn [from_option id].
  destruct ls as [|l0 ls0]; [done|]. remember (l0 :: ls0) as ls eqn:Hls.
  rewrite split_join; [|by rewrite Hls|].
  2: { apply Forall_fmap. eapply Forall_impl; [exact Hall|]. intros l. apply print_location_comma. }
  clear l0 ls0 Hls. induction Hall as [|l ls Hl Hall IH]; [done|]. cbn [map List.filter].
  rewrite (print_location_trim _ _ Hl).
  assert (truthy (print_location l) = true) as ->.
  { apply truthy_spec. unfold print_location. rewrite join4. by destruct (loc_prefix l). }
  cbn [map]. by rewrite IH, (parse_print_location _ _ Hl).
Qed.

Definition witness_locations : list DnsServerLocation :=
  [ mkLocation "nyc" "New York" "nyc.dns.example" (Some "203.0.113.7") (Some "2001:db8::7");
    mkLocation "ams" "Amsterdam" "ams.dns.example" None (Some "2001:db8::8") ].

Lemma parse_print_locations_witness :
  parseDnsServerLocations (Some (print_locations witness_locations)) "dns.example" = witness_locations.
Proof.
  apply (parse_print_locations "dns.example" witness_locations).
  constructor; [|constructor; [|constructor]]; unfold clean_location, clean; cbn;
    repeat split; try done; intros; try congruence; simplify_eq; done.
Defined.
