(* ===== verification/Formats.v ===== *)
(** * Messages, numbers and constants

    [src/app/src/lib/formatStats.ts], [lib/apiError.ts], [lib/importExportErrors.ts],
    [lib/consts.ts], [components/setup/dnscryptProxy.ts], [pages/landing/links.ts],
    [pages/statistics/axisHover.ts] and [stripTrailingDot] of [lib/utils.ts]. *)

From Stdlib Require Import QArith Qminmax Lqa.
From S2P Require Import Prelude JsString JsNumber.
#[local] Open Scope Z_scope.

(** ** Numbers of the Statistics page *)

Section stats_formats.
Context {N : NumberHost}.

Definition COMPACT_FROM : Z := 10000.

Definition formatCount (n : Z) : string := locale_integer n.

Definition formatCompact (n : Z) : string :=
  if Z.abs n <? COMPACT_FROM then formatCount n else locale_compact n.

(** The literals [0] and [0.05] of the source. *)
Definition five_hundredths : spec_float := num_div (number 5) (number 100).

Definition formatPercent (part whole : Z) : string :=
  if whole =? 0 then "-"
  else
    let value := num_mul (num_div (number part) (number whole)) (number 100) in
    if num_lt (number 0) value && num_lt value five_hundredths then "<0.1 %"
    else locale_one_decimal value ++s " %".

Definition formatAxisCount (n : Z) : string :=
  if Z.abs n <? 1000 then show n else locale_compact n.
End stats_formats.

(** A concrete browser: unformatted integers, tenths rounded to nearest. *)
Definition plain_numbers : NumberHost :=
  {| locale_integer := show; locale_one_decimal := toFixed1; locale_compact n := show (n / 1000) ++s "K" |}.

Example percent_third : @formatPercent plain_numbers 1 3 = "33.3 %".
Proof. vm_compute. reflexivity. Qed.
Example percent_tiny : @formatPercent plain_numbers 1 100000 = "<0.1 %".
Proof. vm_compute. reflexivity. Qed.
Example percent_edge : @formatPercent plain_numbers 1 2000 = "0.1 %".
Proof. vm_compute. reflexivity. Qed.

(** ** API errors *)

(** The value a [catch] receives, as the helper reads it; [data] is absent without a response. *)
Record ApiErrorData := { d_error : option string; d_message : option string; d_detail : option string }.

Inductive CaughtError : Type :=
| CaughtString (s : string)
| CaughtObject (data : option ApiErrorData) (message : option string)
| CaughtOther.

Definition formatApiError (error : CaughtError) (fallback : string) : string :=
  match error with
  | CaughtString s => s
  | CaughtObject data message =>
      match d ← data; d_error d with
      | Some e => e
      | None =>
          match d ← data; d_message d with
          | Some m => m
          | None => match d ← data; d_detail d with Some t => t | None => message ?? fallback end
          end
      end
  | CaughtOther => fallback
  end.

(** [undefined] is [None]. *)
Definition importErrorMessage (status : option Z) (serverError : option string) : string :=
  match status with
  | Some 413 => "That file is too large to import."
  | Some 415 => "Unsupported file type."
  | Some 429 => "Too many attempts. Please wait a little and try again."
  | Some 504 => "The import took too long. Try importing fewer profiles or rules at a time."
  | None | Some 0 => "The import took too long. Try importing fewer profiles or rules at a time."
  | Some _ => serverError ?? "The file could not be imported. Please check it and try again."
  end.

Definition isReauthError (serverError : option string) : bool :=
  if negb (truthy_opt serverError) then false
  else let lower := toLowerCase (serverError ?? "") in
       includes lower "password" || includes lower "reauth" || includes lower "token".

(** ** Constants *)

Definition AUTH_KEY : string := "isAuthenticated".

Inductive RefreshIntervalKey : Set := Roff | Rauto | R5s | R10s | R15s | R30s | R60s.
#[export] Instance RefreshIntervalKey_eq_dec : EqDecision RefreshIntervalKey.
Proof. solve_decision. Defined.

Record RefreshIntervalOption := {
  ri_key : RefreshIntervalKey;
  ri_label : string;
  ri_buttonLabel : string;
  ri_ms : option Z;
}.

Definition QUERY_LOGS_REFRESH_INTERVALS : list RefreshIntervalOption :=
  [ {| ri_key := Roff; ri_label := "Off"; ri_buttonLabel := ""; ri_ms := None |};
    {| ri_key := Rauto; ri_label := "Auto (10s)"; ri_buttonLabel := "Auto"; ri_ms := Some 10000 |};
    {| ri_key := R5s; ri_label := "5s"; ri_buttonLabel := "5s"; ri_ms := Some 5000 |};
    {| ri_key := R10s; ri_label := "10s"; ri_buttonLabel := "10s"; ri_ms := Some 10000 |};
    {| ri_key := R15s; ri_label := "15s"; ri_buttonLabel := "15s"; ri_ms := Some 15000 |};
    {| ri_key := R30s; ri_label := "30s"; ri_buttonLabel := "30s"; ri_ms := Some 30000 |};
    {| ri_key := R60s; ri_label := "60s"; ri_buttonLabel := "60s"; ri_ms := Some 60000 |} ].

Definition refreshIntervalMsFor (key : RefreshIntervalKey) : option Z :=
  o ← array_find (fun o => bool_decide (ri_key o = key)) QUERY_LOGS_REFRESH_INTERVALS; ri_ms o.

(** ** Text helpers *)

Definition newline : string := String (of_code 10) "".

Definition buildDnscryptProxyToml (profileId dohStamp : string) : string :=
  let serverName := "modDNS-" ++s profileId in
  "server_names = ['" ++s serverName ++s "']" ++s newline ++s newline
  ++s "[static]" ++s newline
  ++s "  [static.'" ++s serverName ++s "']" ++s newline
  ++s "  stamp = '" ++s dohStamp ++s "'".

(** [domain.replace(/\.$/, "")] *)
Definition stripTrailingDot (domain : string) : string := stripFinalDot domain.

(** [s.replace(/\/+$/, "")] *)
Fixpoint stripTrailingSlashes (s : string) : string :=
  match s with
  | "" => ""
  | String c s' =>
      match stripTrailingSlashes s' with
      | "" => if Ascii.eqb c "/" then "" else String c ""
      | t => String c t
      end
  end.

Record LandingLinks := {
  l_ivpnHome : string; l_pricing : string; l_ivpnTeam : string; l_unlinkedAccess : string;
  l_auditReport : string; l_moddnsRepo : string; l_unlinkedRepo : string;
}.

(** [env] is [VITE_IVPN_HOME_URL]. *)
Definition LINKS (env : option string) : LandingLinks :=
  let ivpnHome := stripTrailingSlashes (opt_or env "https://www.ivpn.net") in
  {| l_ivpnHome := ivpnHome;
     l_pricing := ivpnHome ++s "/pricing/";
     l_ivpnTeam := ivpnHome ++s "/en/team/";
     l_unlinkedAccess := ivpnHome ++s "/en/unlinked-access/";
     l_auditReport := ivpnHome ++s "/resources/IVP-08-report.pdf";
     l_moddnsRepo := "https://github.com/ivpn/moddns";
     l_unlinkedRepo := "https://github.com/ivpn/unlinked-access" |}.

(** ** The time-axis hover label *)

Definition HOVER_LABEL_HEIGHT : Z := 20.
Definition AXIS_BAND_HEIGHT : Z := 30.
Definition HOVER_STRIP_HEIGHT : Z := HOVER_LABEL_HEIGHT + 4.

Record LabelBox := { lb_x : Q; lb_width : Z }.

(** [Math.round(text.length * 6.4 + 16)]: the fraction is a multiple of one fifth, never a half. *)
Definition labelWidth (text : string) : Z :=
  math_round_div (64 * Z.of_nat (String.length text) + 160) 10.

Definition axisLabelBox (centerX : Q) (text : string) (minX maxX : Q) : LabelBox :=
  let width := labelWidth text in
  {| lb_x := Qmin (Qmax (centerX - inject_Z width / 2) minX) (Qmax minX (maxX - inject_Z width));
     lb_width := width |}.

(** A label that fits stays inside the plot. *)
Lemma axisLabelBox_inside centerX text minX maxX :
  (minX + inject_Z (labelWidth text) <= maxX)%Q ->
  let b := axisLabelBox centerX text minX maxX in
  (minX <= lb_x b)%Q /\ (lb_x b + inject_Z (lb_width b) <= maxX)%Q.
Proof.
  intros Hfit. cbn [axisLabelBox lb_x lb_width]. set (w := inject_Z (labelWidth text)) in *.
  assert (Qmax minX (maxX - w) == maxX - w)%Q as Hm by (apply Q.max_r; lra).
  rewrite Hm. split.
  - apply Q.min_glb; [apply Q.le_max_r|lra].
  - assert (Qmin (Qmax (centerX - w / 2) minX) (maxX - w) <= maxX - w)%Q by apply Q.le_min_r. lra.
Qed.
