(* ===== verification/ServiceLogos.v ===== *)
(** * Service logos

    [src/app/src/assets/services/index.ts]: the map from service keys to the logo files of the
    build, and the variant shown for a service. The modules that [import.meta.glob] finds are a
    list of paths and sources. *)

From S2P Require Import Prelude JsString.

Record LogoVariants := mkVariants {
  v_base : option string;
  v_dark_mode : option string;
  v_light_mode : option string;
}.

Inductive Variant : Set := Vbase | Vdark | Vlight.

Definition set_variant (v : Variant) (src : string) (l : LogoVariants) : LogoVariants :=
  match v with
  | Vbase => mkVariants (Some src) (v_dark_mode l) (v_light_mode l)
  | Vdark => mkVariants (v_base l) (Some src) (v_light_mode l)
  | Vlight => mkVariants (v_base l) (v_dark_mode l) (Some src)
  end.

Definition is_key_char (c : ascii) : bool := in_range 97 122 c || is_digit c.

(** [s.replace(/[^a-z0-9]/g, "")] *)
Fixpoint keep_chars (p : ascii -> bool) (s : string) : string :=
  match s with "" => "" | String c s' => if p c then String c (keep_chars p s') else keep_chars p s' end.

Definition normalizeServiceKey (value : string) : string :=
  keep_chars is_key_char (toLowerCase (trim value)).

(** [file.replace(/\.(svg|png)$/i, "")] *)
Definition stripExtension (file : string) : string :=
  let lower := toLowerCase file in
  if endsWith lower ".svg" || endsWith lower ".png"
  then str_take (String.length file - 4) file else file.

(** The variant and the service part of a file name. *)
Definition logoName (file : string) : Variant * string :=
  let baseName := stripExtension file in
  if endsWith baseName "_dark_mode" then (Vdark, str_take (String.length baseName - 10) baseName)
  else if endsWith baseName "_light_mode" then (Vlight, str_take (String.length baseName - 11) baseName)
  else (Vbase, baseName).

Definition no_variants : LogoVariants := mkVariants None None None.

Definition fileOf (path : string) : string := last (split path "/") ?? "".

Definition add_module (m : gmap string LogoVariants) (e : string * string) : gmap string LogoVariants :=
  let '(path, src) := e in
  let file := fileOf path in
  if negb (truthy file) then m
  else
    let '(variant, servicePart) := logoName file in
    let key := normalizeServiceKey servicePart in
    if negb (truthy key) then m
    else <[key := set_variant variant src (m !! key ?? no_variants)]> m.

Definition buildServiceLogoMap (modules : list (string * string)) : gmap string LogoVariants :=
  foldl add_module ∅ modules.

(** [a ?? b ?? c] on optional strings *)
Definition first_of (a b c : option string) : option string :=
  match a with Some x => Some x | None => match b with Some x => Some x | None => c end end.

Definition getServiceLogoSrc (logos : gmap string LogoVariants) (serviceId serviceName : option string)
    (isDark : bool) : option string :=
  let raw := if truthy_opt serviceId then serviceId else serviceName in
  if negb (truthy_opt raw) then None
  else
    v ← logos !! normalizeServiceKey (raw ?? "");
    if isDark then first_of (v_dark_mode v) (v_base v) (v_light_mode v)
    else first_of (v_light_mode v) (v_base v) (v_dark_mode v).

(** ** Every file is shown *)

Definition some_variant (l : LogoVariants) : Prop :=
  is_Some (v_base l) \/ is_Some (v_dark_mode l) \/ is_Some (v_light_mode l).

Lemma set_variant_some v src l : some_variant (set_variant v src l).
Proof. unfold some_variant. destruct v; cbn; eauto. Qed.

Lemma add_module_grows m e k l : m !! k = Some l -> some_variant l ->
  exists l', add_module m e !! k = Some l' /\ some_variant l'.
Proof.
  intros Hk Hl. unfold add_module. destruct e as [path src].
  destruct (negb (truthy (fileOf path))); [eauto|]. destruct (logoName (fileOf path)) as [v part].
  destruct (negb (truthy (normalizeServiceKey part))); [eauto|].
  destruct (decide (normalizeServiceKey part = k)) as [<-|Hne].
  - rewrite lookup_insert_eq. eauto using set_variant_some.
  - rewrite lookup_insert_ne by done. eauto.
Qed.

Lemma buildServiceLogoMap_key modules path src :
  (path, src) ∈ modules -> fileOf path <> "" ->
  let key := normalizeServiceKey (logoName (fileOf path)).2 in
  key <> "" -> exists l, buildServiceLogoMap modules !! key = Some l /\ some_variant l.
Proof.
  intros Hin Hfile key Hkey. unfold buildServiceLogoMap.
  assert (forall ms m, (path, src) ∈ ms \/ (exists l, m !! key = Some l /\ some_variant l) ->
    exists l, foldl add_module m ms !! key = Some l /\ some_variant l) as Hfold; [|eauto].
  clear Hin. intros ms. induction ms as [|e ms IH]; intros m [Hin|Hm]; cbn [foldl].
  - by apply elem_of_nil in Hin.
  - done.
  - apply IH. apply elem_of_cons in Hin as [<-|Hin]; [right|by left].
    unfold add_module. rewrite (proj2 (truthy_spec _) Hfile). cbn [negb].
    unfold key in *. destruct (logoName (fileOf path)) as [v part]. cbn [snd] in *.
    rewrite (proj2 (truthy_spec _) Hkey). cbn [negb]. rewrite lookup_insert_eq. eauto using set_variant_some.
  - apply IH. right. destruct Hm as (l & Hl & Hs). by eapply add_module_grows.
Qed.

Lemma keep_chars_all p s : str_all p (keep_chars p s) = true.
Proof. induction s as [|c s IH]; cbn; [done|]. destruct (p c) eqn:E; cbn; by rewrite ?E. Qed.

Lemma keep_chars_id p s : str_all p s = true -> keep_chars p s = s.
Proof.
  induction s as [|c s IH]; cbn; [done|]. intros [Hc Hs]%andb_true_iff. rewrite Hc. by rewrite IH.
Qed.

Lemma key_char_lower c : is_key_char c = true -> lower_char c = c /\ is_ws c = false.
Proof.
  assert (forallb (fun n => let c := ascii_of_nat n in
    negb (is_key_char c) || (Ascii.eqb (lower_char c) c && negb (is_ws c))) (seq 0 256) = true) as Hall
    by (vm_compute; reflexivity).
  rewrite forallb_forall in Hall. specialize (Hall (nat_of_ascii c)). rewrite in_seq in Hall.
  pose proof (nat_ascii_bounded c) as Hb. specialize (Hall ltac:(lia)). cbv zeta in Hall.
  rewrite ascii_nat_embedding in Hall. intros Hc. rewrite Hc in Hall. cbn in Hall.
  apply andb_true_iff in Hall as [Hl Hw]. apply Ascii.eqb_eq in Hl. by apply negb_true_iff in Hw.
Qed.

(** A key is its own key. *)
Lemma normalizeServiceKey_idemp s : normalizeServiceKey (normalizeServiceKey s) = normalizeServiceKey s.
Proof.
  unfold normalizeServiceKey at 2 3. set (k := keep_chars is_key_char _).
  assert (str_all is_key_char k = true) as Hk by apply keep_chars_all. clearbody k.
  unfold normalizeServiceKey. rewrite trim_no_ws.
  - assert (toLowerCase k = k) as ->; [|by apply keep_chars_id].
    unfold toLowerCase. clear s. induction k as [|c k IH]; [done|]. cbn in *.
    apply andb_true_iff in Hk as [Hc Hk]. by rewrite (proj1 (key_char_lower c Hc)), IH.
  - eapply str_all_impl; [|exact Hk]. cbn. intros c Hc. by rewrite (proj2 (key_char_lower c Hc)).
Qed.

Theorem logo_reachable modules path src name isDark :
  (path, src) ∈ modules -> fileOf path <> "" ->
  normalizeServiceKey name = normalizeServiceKey (logoName (fileOf path)).2 ->
  normalizeServiceKey name <> "" ->
  is_Some (getServiceLogoSrc (buildServiceLogoMap modules) (Some name) None isDark).
Proof.
  intros Hin Hfile Hname Hne. unfold getServiceLogoSrc.
  assert (name <> "") as Hn by (intros ->; by apply Hne).
  unfold truthy_opt. cbn [from_option id]. rewrite (proj2 (truthy_spec name) Hn).
  cbn [from_option id]. rewrite (proj2 (truthy_spec name) Hn).
  cbn [negb]. rewrite Hname in Hne |- *.
  destruct (buildServiceLogoMap_key modules path src Hin Hfile Hne) as (l & -> & Hl).
  cbn [mbind option_bind]. unfold some_variant in Hl.
  destruct isDark, (v_base l), (v_dark_mode l), (v_light_mode l); cbn; eauto;
    destruct Hl as [[? ?]|[[? ?]|[? ?]]]; done.
Qed.

Lemma logo_reachable_witness :
  is_Some (getServiceLogoSrc (buildServiceLogoMap [("./amazon_dark_mode.svg", "/a.svg")]) (Some "Amazon") None false).
Proof.
  apply (logo_reachable [("./amazon_dark_mode.svg", "/a.svg")] "./amazon_dark_mode.svg" "/a.svg");
    [by left|discriminate|reflexivity|discriminate].
Defined.
