(* ===== verification/EventBus.v ===== *)
(** * The application event bus

    [src/app/src/lib/eventBus.ts]: an in-memory bus that queues the events dispatched while nobody
    listens. The module variables are the state; what the listeners are called with is recorded in
    [delivered]. A listener that throws changes nothing for the others (the source swallows it), and
    a listener is assumed not to call the bus back while it is being called. *)

From S2P Require Import Prelude JsString.

Inductive ToastLevel : Set := success | info | error | warning.

Inductive AppEvent : Type :=
| forceLogout (reason : option string) (toastType : option ToastLevel)
| sessionExpired
| toastShow (level : ToastLevel) (message : string).

Section bus.
Context {L : Type} `{EqDecision L}.

Record Bus := mkBus {
  listeners : list L;
  hasSubscriber : bool;
  pending : list AppEvent;
  delivered : list (L * AppEvent);
}.

Definition bus0 : Bus := mkBus [] false [] [].

(** [Set.prototype.add] and [delete]: insertion order is kept. *)
Definition set_add (l : L) (s : list L) : list L := if bool_decide (l ∈ s) then s else s ++ [l].
Definition set_delete (l : L) (s : list L) : list L := List.filter (fun x => negb (bool_decide (x = l))) s.

Definition subscribe (l : L) (b : Bus) : Bus :=
  let ls := set_add l (listeners b) in
  if hasSubscriber b then mkBus ls true (pending b) (delivered b)
  else mkBus ls true [] (delivered b ++ map (fun e => (l, e)) (pending b)).

(** The function that [subscribe] returns. *)
Definition unsubscribe (l : L) (b : Bus) : Bus :=
  let ls := set_delete l (listeners b) in
  mkBus ls (if (length ls =? 0)%nat then false else hasSubscriber b) (pending b) (delivered b).

Definition dispatch (ev : AppEvent) (b : Bus) : Bus :=
  if negb (hasSubscriber b) then mkBus (listeners b) (hasSubscriber b) (pending b ++ [ev]) (delivered b)
  else mkBus (listeners b) (hasSubscriber b) (pending b) (delivered b ++ map (fun l => (l, ev)) (listeners b)).

Inductive BusOp : Type :=
| Subscribe (l : L)
| Unsubscribe (l : L)
| Dispatch (ev : AppEvent).

Definition bus_step (b : Bus) (o : BusOp) : Bus :=
  match o with
  | Subscribe l => subscribe l b
  | Unsubscribe l => unsubscribe l b
  | Dispatch ev => dispatch ev b
  end.

(** ** Facts *)

(** What a listener has received, and what was dispatched. *)
Definition heard (l : L) (d : L * AppEvent) : option AppEvent :=
  if bool_decide (d.1 = l) then Some d.2 else None.
Definition received (l : L) (b : Bus) : list AppEvent :=
  omap (heard l) (delivered b).
Definition dispatched (ops : list BusOp) : list AppEvent :=
  omap (fun o => match o with Dispatch e => Some e | _ => None end) ops.

Definition bus_ok (b : Bus) : Prop :=
  NoDup (listeners b) /\ (hasSubscriber b = true <-> listeners b <> []) /\
  (hasSubscriber b = true -> pending b = []).

Lemma set_add_nonempty l s : set_add l s <> [].
Proof. unfold set_add. case_bool_decide; [by destruct s as [|]; [set_solver|]|]. by destruct s. Qed.

Lemma set_add_NoDup l s : NoDup s -> NoDup (set_add l s).
Proof.
  intros Hs. unfold set_add. case_bool_decide as Hl; [done|]. apply NoDup_app.
  split; [done|]. split; [|apply NoDup_singleton]. intros x Hx ->%list_elem_of_singleton. done.
Qed.

Lemma elem_of_set_add x l s : x ∈ set_add l s <-> x = l \/ x ∈ s.
Proof. unfold set_add. case_bool_decide; set_solver. Qed.

Lemma elem_of_set_delete x l s : x ∈ set_delete l s <-> x <> l /\ x ∈ s.
Proof.
  unfold set_delete. rewrite elem_of_list_filter_b, negb_true_iff, bool_decide_eq_false. tauto.
Qed.

Lemma bus_step_ok b o : bus_ok b -> bus_ok (bus_step b o).
Proof.
  intros (Hnd & Hhas & Hp). destruct o as [l|l|ev]; cbn [bus_step].
  - unfold subscribe. destruct (hasSubscriber b) eqn:E; (split; [by apply set_add_NoDup|]); cbn;
      (split; [|by auto]); split; auto using set_add_nonempty.
  - unfold unsubscribe. split; [by apply NoDup_filter_b|]. cbn.
    destruct (Nat.eqb_spec (length (set_delete l (listeners b))) 0) as [E|E].
    + apply length_zero_iff_nil in E. rewrite E. by split; [split|].
    + split; [|done]. split; [by intros _ H; rewrite H in E|]. intros _. apply Hhas.
      intros H. apply E. by rewrite H.
  - unfold dispatch. destruct (hasSubscriber b) eqn:E; cbn; (split; [done|]); (split; [done|]); first [done | auto].
Qed.

Lemma run_ok ops : bus_ok (run bus_step bus0 ops).
Proof.
  apply run_invariant; [intros; by apply bus_step_ok|]. split; [constructor|]. by split; [split|].
Qed.

Lemma received_app l d1 d2 :
  omap (heard l) (d1 ++ d2) =
  omap (heard l) d1 ++
  omap (heard l) d2.
Proof. apply omap_app. Qed.

(** An event sent to a set of listeners reaches a member once. *)
Lemma received_broadcast l ls (ev : AppEvent) :
  NoDup ls ->
  omap (heard l) (map (fun x => (x, ev)) ls)
  = if bool_decide (l ∈ ls) then [ev] else [].
Proof.
  induction 1 as [|x ls Hx Hnd IH]; cbn.
  { by rewrite bool_decide_eq_false_2 by set_solver. }
  rewrite IH. unfold heard. cbn [fst snd]. destruct (decide (x = l)) as [->|Hxl].
  - rewrite (bool_decide_eq_true_2 (l = l)), (bool_decide_eq_false_2 (l ∈ ls)) by done.
    by rewrite bool_decide_eq_true_2 by set_solver.
  - rewrite (bool_decide_eq_false_2 (x = l)) by done.
    rewrite (bool_decide_ext (l ∈ x :: ls) (l ∈ ls)); [done|]. rewrite elem_of_cons. intuition congruence.
Qed.

Lemma received_flush l evs :
  omap (heard l) (map (fun e => (l, e)) evs) = evs.
Proof.
  induction evs as [|e evs IH]; cbn; [done|]. unfold heard at 1. cbn [fst snd].
  rewrite bool_decide_eq_true_2 by done. by rewrite IH.
Qed.

(** A listener that stays subscribed receives every event, in order. *)
Lemma received_while_subscribed l b ops :
  bus_ok b -> l ∈ listeners b -> Forall (fun o => o <> Unsubscribe l) ops ->
  received l (run bus_step b ops) = received l b ++ dispatched ops /\ l ∈ listeners (run bus_step b ops).
Proof.
  revert b. induction ops as [|o ops IH]; intros b Hok Hl Hops; [by rewrite app_nil_r|].
  apply Forall_cons in Hops as [Ho Hops].
  assert (hasSubscriber b = true) as Hhas.
  { destruct Hok as (_ & Hh & _). apply Hh. intros E. rewrite E in Hl. by apply elem_of_nil in Hl. }
  assert (l ∈ listeners (bus_step b o)) as Hl'.
  { destruct o as [l'|l'|ev]; cbn.
    - unfold subscribe. rewrite Hhas. cbn. apply elem_of_set_add. auto.
    - apply elem_of_set_delete. split; [congruence|done].
    - unfold dispatch. by rewrite Hhas. }
  destruct (IH (bus_step b o) (bus_step_ok b o Hok) Hl' Hops) as [Hrec Hin].
  cbn [run foldl]. split; [|done]. unfold run in Hrec. rewrite Hrec.
  destruct o as [l'|l'|ev]; cbn [bus_step dispatched omap list_omap].
  - unfold subscribe. by rewrite Hhas.
  - done.
  - unfold dispatch, received. rewrite Hhas. cbn [negb delivered]. rewrite received_app.
    destruct Hok as (Hnd & _). rewrite received_broadcast by done.
    rewrite bool_decide_eq_true_2 by done. by rewrite <- app_assoc.
Qed.

(** C36: a listener that subscribes when nobody listens receives every event queued so far, in
    order, followed by every event dispatched until it unsubscribes *)
Theorem no_event_lost ops1 l ops2 :
  hasSubscriber (run bus_step bus0 ops1) = false ->
  Forall (fun o => o <> Unsubscribe l) ops2 ->
  received l (run bus_step bus0 (ops1 ++ Subscribe l :: ops2))
  = received l (run bus_step bus0 ops1) ++ pending (run bus_step bus0 ops1) ++ dispatched ops2.
Proof.
  intros Hno Hops. rewrite run_app. cbn [run foldl]. set (b := run bus_step bus0 ops1) in *.
  pose proof (run_ok ops1) as Hok. fold b in Hok.
  fold (run bus_step (bus_step b (Subscribe l)) ops2).
  destruct (received_while_subscribed l (bus_step b (Subscribe l)) ops2) as [-> _];
    [by apply bus_step_ok| |done|].
  - cbn. unfold subscribe. rewrite Hno. cbn. apply elem_of_set_add. auto.
  - rewrite app_assoc. f_equal. cbn. unfold subscribe, received. rewrite Hno. cbn [delivered].
    rewrite received_app. f_equal. apply received_flush.
Qed.

(** Every event is queued or has reached a listener: [dispatched] splits into what was flushed to
    some listener and what is pending, in order. *)
Definition accounted (ops : list BusOp) (b : Bus) : Prop :=
  exists seen, dispatched ops = seen ++ pending b /\
    Forall (fun e => exists l, (l, e) ∈ delivered b) seen.

Lemma accounted_step ops b o : bus_ok b -> accounted ops b -> accounted (ops ++ [o]) (bus_step b o).
Proof.
  intros Hok (seen & Hd & Hs). unfold accounted, dispatched. rewrite omap_app. cbn [omap list_omap].
  fold (dispatched ops). rewrite Hd.
  assert (forall d, Forall (fun e => exists l, (l, e) ∈ delivered b ++ d) seen) as Hmono.
  { intros d. eapply Forall_impl; [exact Hs|]. cbn. intros e [x Hx]. exists x. rewrite elem_of_app. auto. }
  destruct o as [l|l|ev]; cbn [bus_step].
  - rewrite app_nil_r. unfold subscribe. destruct (hasSubscriber b); cbn [pending delivered]; [by exists seen|].
    exists (seen ++ pending b). rewrite app_nil_r. split; [done|]. apply Forall_app. split; [apply Hmono|].
    apply Forall_forall. intros e He. exists l. rewrite elem_of_app. right. apply list_elem_of_fmap. eauto.
  - rewrite app_nil_r. by exists seen.
  - unfold dispatch. destruct (hasSubscriber b) eqn:Hh; cbn [negb pending delivered].
    + destruct Hok as (_ & Hiff & Hp). rewrite (Hp Hh), !app_nil_r. exists (seen ++ [ev]).
      rewrite app_nil_r. split; [done|]. apply Forall_app. split; [apply Hmono|]. constructor; [|constructor].
      apply Hiff in Hh. destruct (listeners b) as [|x ls]; [done|]. exists x. rewrite elem_of_app. right. by left.
    + exists seen. by rewrite app_assoc.
Qed.

Theorem event_pending_or_delivered ops : accounted ops (run bus_step bus0 ops).
Proof.
  induction ops as [|o ops IH] using rev_ind; [by exists []|].
  rewrite run_snoc. apply accounted_step; [apply run_ok|done].
Qed.
End bus.

Definition witness_ops : list (BusOp (L := nat)) := [Dispatch sessionExpired].

Lemma no_event_lost_witness :
  received 1%nat (run bus_step bus0 (witness_ops ++ Subscribe 1%nat :: [Dispatch (toastShow info "hi")]))
  = received 1%nat (run bus_step bus0 witness_ops)
    ++ pending (run bus_step bus0 witness_ops) ++ [toastShow info "hi"].
Proof.
  apply (no_event_lost witness_ops 1%nat [Dispatch (toastShow info "hi")]);
    [reflexivity|by repeat constructor].
Defined.
