(* ===== verification/Store.v ===== *)
(** * The application store

    [src/app/src/store/general.ts]: the zustand store as a record, one function per action, the part
    that is persisted, and the profile data derived from the environment. The subscription flags of
    [src/app/src/hooks/useSubscriptionGuard.ts] are here too: they are a view of the store. *)

From S2P Require Import Prelude JsString ApiTypes.

Record AppState := mkApp {
  activeProfile : option ModelProfile;
  profiles : list ModelProfile;
  account : option ModelAccount;
  rightPanelOpen : bool;
  connectionStatusVisible : bool;
  verificationBannerDismissed : bool;
  blocklistsAlertDismissed : bool;
  customRulesAlertDismissed : bool;
  logsExpandHintDismissed : bool;
  passkeys : list ModelCredential;
  subscriptionStatus : option string;
  subscriptionType : option string;
  subscriptionDeletionScheduled : bool;
  announcementsLastSeenAt : option string;
  customRulesCollapsed : gmap string (list string);
}.

Definition initialState : AppState :=
  mkApp None [] None false true false false false false [] None None false None ∅.

(** ** Actions *)

Definition with_active (p : option ModelProfile) (s : AppState) : AppState :=
  mkApp p (profiles s) (account s) (rightPanelOpen s) (connectionStatusVisible s)
    (verificationBannerDismissed s) (blocklistsAlertDismissed s) (customRulesAlertDismissed s)
    (logsExpandHintDismissed s) (passkeys s) (subscriptionStatus s) (subscriptionType s)
    (subscriptionDeletionScheduled s) (announcementsLastSeenAt s) (customRulesCollapsed s).

Definition setProfiles (ps : list ModelProfile) (s : AppState) : AppState :=
  mkApp (activeProfile s) ps (account s) (rightPanelOpen s) (connectionStatusVisible s)
    (verificationBannerDismissed s) (blocklistsAlertDismissed s) (customRulesAlertDismissed s)
    (logsExpandHintDismissed s) (passkeys s) (subscriptionStatus s) (subscriptionType s)
    (subscriptionDeletionScheduled s) (announcementsLastSeenAt s) (customRulesCollapsed s).

(** [s.profiles.map(p => p.profile_id === profile.profile_id ? profile : p)] *)
Definition mirror (profile : ModelProfile) (ps : list ModelProfile) : list ModelProfile :=
  map (fun p => if String.eqb (p_profile_id p) (p_profile_id profile) then profile else p) ps.

Definition setActiveProfile (profile : option ModelProfile) (s : AppState) : AppState :=
  with_active profile
    match profile with
    | Some p => setProfiles (mirror p (profiles s)) s
    | None => s
    end.

(** The active profile is looked up by [id], the other actions go by [profile_id]. *)
Definition restoreActiveProfile (ps : list ModelProfile) (s : AppState) : AppState :=
  let found :=
    match activeProfile s with
    | Some a => array_find (fun p => String.eqb (p_id p) (p_id a)) ps
    | None => None
    end in
  match found, ps with
  | Some p, _ => with_active (Some p) s
  | None, p :: _ => with_active (Some p) s
  | None, [] => s
  end.

Definition setAccount (a : option ModelAccount) (s : AppState) : AppState :=
  mkApp (activeProfile s) (profiles s) a (rightPanelOpen s) (connectionStatusVisible s)
    (verificationBannerDismissed s) (blocklistsAlertDismissed s) (customRulesAlertDismissed s)
    (logsExpandHintDismissed s) (passkeys s) (subscriptionStatus s) (subscriptionType s)
    (subscriptionDeletionScheduled s) (announcementsLastSeenAt s) (customRulesCollapsed s).

(** The actions that set one field. *)
Inductive FieldUpdate : Type :=
| setRightPanelOpen (b : bool)
| setConnectionStatusVisible (b : bool)
| setVerificationBannerDismissed (b : bool)
| setBlocklistsAlertDismissed (b : bool)
| setCustomRulesAlertDismissed (b : bool)
| setLogsExpandHintDismissed (b : bool)
| setPasskeys (ks : list ModelCredential)
| setSubscriptionStatus (v : option string)
| setSubscriptionType (v : option string)
| setSubscriptionDeletionScheduled (b : bool)
| markAnnouncementsSeen (nowIso : string)
| setCustomRulesCollapsed (key : string) (collapsedNames : list string).

Definition set_field (u : FieldUpdate) (s : AppState) : AppState :=
  let '(mkApp ap ps ac rp cs vb ba ca lh pk st ty ds an cc) := s in
  match u with
  | setRightPanelOpen b => mkApp ap ps ac b cs vb ba ca lh pk st ty ds an cc
  | setConnectionStatusVisible b => mkApp ap ps ac rp b vb ba ca lh pk st ty ds an cc
  | setVerificationBannerDismissed b => mkApp ap ps ac rp cs b ba ca lh pk st ty ds an cc
  | setBlocklistsAlertDismissed b => mkApp ap ps ac rp cs vb b ca lh pk st ty ds an cc
  | setCustomRulesAlertDismissed b => mkApp ap ps ac rp cs vb ba b lh pk st ty ds an cc
  | setLogsExpandHintDismissed b => mkApp ap ps ac rp cs vb ba ca b pk st ty ds an cc
  | setPasskeys ks => mkApp ap ps ac rp cs vb ba ca lh ks st ty ds an cc
  | setSubscriptionStatus v => mkApp ap ps ac rp cs vb ba ca lh pk v ty ds an cc
  | setSubscriptionType v => mkApp ap ps ac rp cs vb ba ca lh pk st v ds an cc
  | setSubscriptionDeletionScheduled b => mkApp ap ps ac rp cs vb ba ca lh pk st ty b an cc
  | markAnnouncementsSeen now => mkApp ap ps ac rp cs vb ba ca lh pk st ty ds (Some now) cc
  | setCustomRulesCollapsed k names => mkApp ap ps ac rp cs vb ba ca lh pk st ty ds an (<[k := names]> cc)
  end.

(** ** Persistence *)

Record Persisted := mkPersisted {
  pe_activeProfile : option ModelProfile;
  pe_verificationBannerDismissed : bool;
  pe_blocklistsAlertDismissed : bool;
  pe_customRulesAlertDismissed : bool;
  pe_connectionStatusVisible : bool;
  pe_announcementsLastSeenAt : option string;
  pe_customRulesCollapsed : gmap string (list string);
  pe_logsExpandHintDismissed : bool;
}.

Definition partialize (s : AppState) : Persisted :=
  mkPersisted (activeProfile s) (verificationBannerDismissed s) (blocklistsAlertDismissed s)
    (customRulesAlertDismissed s) (connectionStatusVisible s) (announcementsLastSeenAt s)
    (customRulesCollapsed s) (logsExpandHintDismissed s).

(** ** Derived profile data *)

Record DerivedProfileData := mkDerived {
  dp_id : string;
  dp_dnsOverTLS : string;
  dp_dnsOverHTTPS : string;
  dp_ipv4 : string;
  dp_ipv6 : option string;
  dp_domain : string;
  dp_dohEndpoint : string;
}.

Record ProfileEnv := { env_domain : option string; env_ips : option string; env_ipv6s : option string }.

(** [raw.split(",").map(trim).filter(Boolean)[0]] *)
Definition firstListed (raw : string) : option string :=
  head (List.filter truthy (map trim (split raw ","))).

Definition useProfileData (env : ProfileEnv) (s : AppState) : option DerivedProfileData :=
  let domain := opt_or (env_domain env) "example.com" in
  let primaryIp := opt_or (firstListed (opt_or (env_ips env) "")) "0.0.0.0" in
  let primaryIpv6 := firstListed (opt_or (env_ipv6s env) "") in
  a ← activeProfile s;
  let id := str_or (p_profile_id a) (p_id a) in
  let doh := "https://" ++s domain ++s "/dns-query/" ++s id in
  Some (mkDerived id (id ++s "." ++s domain) doh primaryIp primaryIpv6 domain doh).

(** ** Subscription flags *)

Record SubscriptionGuard := mkGuard {
  isLimited : bool;
  isInactive : bool;
  isPendingDelete : bool;
  isRetired : bool;
  isCutOff : bool;
  isRestricted : bool;
  canMutate : bool;
}.

Definition useSubscriptionGuard (s : AppState) : SubscriptionGuard :=
  let hasStatus v := bool_decide (subscriptionStatus s = Some v) in
  let inactive := hasStatus "inactive" in
  let pendingDelete := hasStatus "pending_delete" in
  let cutOff := inactive || pendingDelete in
  {| isLimited := hasStatus "limited_access";
     isInactive := inactive;
     isPendingDelete := pendingDelete;
     isRetired := pendingDelete && subscriptionDeletionScheduled s;
     isCutOff := cutOff;
     isRestricted := hasStatus "limited_access" || cutOff;
     canMutate := hasStatus "active" || hasStatus "grace_period" || bool_decide (subscriptionStatus s = None) |}.

(** ** The active profile and the list agree *)

(** A profile of the list that is the active profile is the active profile's latest copy. *)
Definition store_ok (s : AppState) : Prop :=
  NoDup (map p_profile_id (profiles s)) /\
  forall a p, activeProfile s = Some a -> p ∈ profiles s -> p_profile_id p = p_profile_id a -> p = a.

Lemma mirror_ids p ps : map p_profile_id (mirror p ps) = map p_profile_id ps.
Proof.
  unfold mirror. rewrite map_map. apply map_ext. intros q.
  destruct (String.eqb_spec (p_profile_id q) (p_profile_id p)); congruence.
Qed.

Lemma elem_of_mirror p ps q : q ∈ mirror p ps -> p_profile_id q = p_profile_id p -> q = p.
Proof.
  intros (r & -> & Hr)%list_elem_of_fmap. destruct (String.eqb_spec (p_profile_id r) (p_profile_id p)); [done|].
  congruence.
Qed.

(** The refresh of [App.tsx]: the fetched list, then the active profile from it. *)
Definition refreshProfiles (ps : list ModelProfile) (s : AppState) : AppState :=
  restoreActiveProfile ps (setProfiles ps s).

(** The actions of the store. *)
Inductive StoreOp : Type :=
| OpSetActive (p : option ModelProfile)
| OpSetProfiles (ps : list ModelProfile)
| OpRestore (ps : list ModelProfile)
| OpAccount (a : option ModelAccount)
| OpField (u : FieldUpdate).

Definition store_step (s : AppState) (o : StoreOp) : AppState :=
  match o with
  | OpSetActive p => setActiveProfile p s
  | OpSetProfiles ps => setProfiles ps s
  | OpRestore ps => restoreActiveProfile ps s
  | OpAccount a => setAccount a s
  | OpField u => set_field u s
  end.

(** How the application puts a list in the store: from the API, where no two profiles share a
    [profile_id], and followed at once by [restoreActiveProfile] of it ([App.tsx], the import) or by
    [setActiveProfile] (the profile menu, the logout); or as the list that is there with one profile
    replaced, which is the active one if it has its [profile_id] ([writeProfile] of the data collection
    cards). *)
Definition list_ok (s : AppState) (ps : list ModelProfile) (next : list StoreOp) : Prop :=
  (NoDup (map p_profile_id ps) /\
   match next with
   | OpRestore ps' :: _ => ps' = ps
   | OpSetActive _ :: _ => True
   | _ => False
   end) \/
  exists u, ps = mirror u (profiles s) /\
    forall a, activeProfile s = Some a -> p_profile_id u = p_profile_id a -> u = a.

Fixpoint orderly (s : AppState) (ops : list StoreOp) : Prop :=
  match ops with
  | [] => True
  | o :: next =>
      match o with
      | OpSetProfiles ps => list_ok s ps next
      | OpRestore ps => ps = profiles s
      | _ => True
      end /\ orderly (store_step s o) next
  end.

Lemma NoDup_same_id ps p q :
  NoDup (map p_profile_id ps) -> p ∈ ps -> q ∈ ps -> p_profile_id p = p_profile_id q -> p = q.
Proof.
  intros Hnd Hp Hq Heq. apply list_elem_of_lookup in Hp as [i Hi], Hq as [j Hj].
  assert (i = j) as ->; [|congruence].
  eapply (NoDup_lookup (map p_profile_id ps)); [done|rewrite list_lookup_fmap, Hi; reflexivity|].
  rewrite list_lookup_fmap, Hj. cbn. by rewrite Heq.
Qed.

Lemma restore_active ps s a :
  activeProfile (restoreActiveProfile ps s) = Some a -> a ∈ ps \/ (ps = [] /\ activeProfile s = Some a).
Proof.
  unfold restoreActiveProfile. destruct (match activeProfile s with Some _ => _ | None => None end) as [p|] eqn:Hf.
  - cbn. intros [= <-]. left. destruct (activeProfile s); [|done]. by apply array_find_elem in Hf as [? _].
  - destruct ps; [auto|]. cbn. intros [= <-]. left. by left.
Qed.

Lemma restore_profiles ps s : profiles (restoreActiveProfile ps s) = profiles s.
Proof.
  unfold restoreActiveProfile. destruct (match activeProfile s with Some _ => _ | None => None end); [done|].
  by destruct ps.
Qed.

(** One profile of the list replaced. *)
Lemma mirror_list_ok u s :
  store_ok s -> (forall a, activeProfile s = Some a -> p_profile_id u = p_profile_id a -> u = a) ->
  store_ok (setProfiles (mirror u (profiles s)) s).
Proof.
  intros [Hnd Hsame] Hu. split; cbn; [by rewrite mirror_ids|]. intros a p Ha Hp Heq.
  destruct (decide (p_profile_id p = p_profile_id u)) as [E|Hne].
  - apply elem_of_mirror in Hp as ->; [|done]. by apply Hu.
  - apply (Hsame a p Ha); [|done]. apply list_elem_of_fmap in Hp as (q & -> & Hq).
    destruct (String.eqb_spec (p_profile_id q) (p_profile_id u)); [by destruct Hne|done].
Qed.

(** The active profile set or restored, whatever it was: the list is what counts. *)
Lemma set_active_ok p s : NoDup (map p_profile_id (profiles s)) -> store_ok (setActiveProfile p s).
Proof.
  intros Hnd. destruct p as [p|]; split; cbn; rewrite ?mirror_ids; try done.
  intros a q [= <-] Hq Heq. by apply (elem_of_mirror p (profiles s)).
Qed.

Lemma restore_ok s : NoDup (map p_profile_id (profiles s)) -> store_ok (restoreActiveProfile (profiles s) s).
Proof.
  intros Hnd. unfold store_ok. rewrite restore_profiles. split; [done|].
  intros a q Ha Hq Heq. apply restore_active in Ha as [Ha|[Hn _]]; [|rewrite Hn in Hq; by apply elem_of_nil in Hq].
  by apply (NoDup_same_id (profiles s)).
Qed.

(** Between the two actions of a change of the list only the list is known to be good. *)
Definition awaits_active (s : AppState) (ops : list StoreOp) : Prop :=
  NoDup (map p_profile_id (profiles s)) /\
  match ops with OpRestore ps :: _ => ps = profiles s | OpSetActive _ :: _ => True | _ => False end.

Lemma orderly_ok ops : forall s, store_ok s \/ awaits_active s ops -> orderly s ops -> store_ok (run store_step s ops).
Proof.
  induction ops as [|o ops IH]; intros s Hs Ho; [by destruct Hs as [?|[_ ?]]|]. destruct Ho as [Hop Ho].
  change (run store_step s (o :: ops)) with (run store_step (store_step s o) ops). apply IH; [|exact Ho].
  assert (NoDup (map p_profile_id (profiles s))) as Hnd by (by destruct Hs as [[? _]|[? _]]).
  destruct o as [p|ps|ps|a|u]; cbn [store_step].
  - left. by apply set_active_ok.
  - destruct Hs as [Hs|[_ Hs]]; [|done]. destruct Hop as [Hl|(u & -> & Hu)]; [by right|].
    left. by apply mirror_list_ok.
  - left. subst ps. by apply restore_ok.
  - left. by destruct Hs as [Hs|[_ ?]].
  - left. destruct Hs as [Hs|[_ ?]]; [|done]. by destruct s, u.
Qed.


Definition witness_home (name : string) : ModelProfile := MkModelProfile "acc" "1" name "p1" None.

Definition witness_ops : list StoreOp :=
  [OpSetProfiles [witness_home "Home"]; OpRestore [witness_home "Home"]; OpSetActive (Some (witness_home "Flat"))].


(** A list on its own that holds another copy of the active profile: the two disagree. *)
Example lone_list_disagrees :
  let s := run store_step initialState (witness_ops ++ [OpSetProfiles [witness_home "Home"]]) in
  activeProfile s = Some (witness_home "Flat") /\ profiles s = [witness_home "Home"].
Proof. split; reflexivity. Qed.

(** The refresh is orderly. *)
Lemma refresh_actions ps s :
  NoDup (map p_profile_id ps) ->
  orderly s [OpSetProfiles ps; OpRestore ps] /\
  run store_step s [OpSetProfiles ps; OpRestore ps] = refreshProfiles ps s.
Proof. intros Hnd. split; [|done]. split; [by left|]. by repeat split. Qed.

(** The alert dismissals are part of the persisted state. *)
Lemma partialize_alerts s :
  pe_blocklistsAlertDismissed (partialize s) = blocklistsAlertDismissed s /\
  pe_customRulesAlertDismissed (partialize s) = customRulesAlertDismissed s.
Proof. done. Qed.

(** A restricted account cannot mutate, and a cut-off account is restricted. *)
Lemma guard_spec s :
  let g := useSubscriptionGuard s in
  (isCutOff g = true -> isRestricted g = true) /\ (isRestricted g = true -> canMutate g = false) /\
  (isRetired g = true -> isCutOff g = true).
Proof.
  cbv zeta. unfold useSubscriptionGuard. cbn [isCutOff isRestricted canMutate isRetired].
  repeat case_bool_decide; try done; try congruence.
Qed.
