(* ===== verification/ApiEvents.v ===== *)
(** * From API errors to application events

    [src/app/src/api/api.ts] and [src/app/src/api/eventHandler.ts]: the response interceptor raises
    a browser event by the status of a failed request, and the handler mounted in the router turns
    it into a toast or a bus event. The request itself is always rejected with its error. *)

From S2P Require Import Prelude JsString EventBus.

(** ** The interceptor *)

(** The parts of [window.location] that are read. *)
Record Location := mkLoc { loc_pathname : string; loc_href : string }.

Inductive BrowserEvent : Set := auth_logout | api_forbidden | api_notfound | api_servererror.
#[export] Instance BrowserEvent_eq_dec : EqDecision BrowserEvent.
Proof. solve_decision. Defined.

Definition isAuthRoute (l : Location) : bool :=
  includes (loc_pathname l) "/login" || includes (loc_pathname l) "/reset-password".

Definition isAccountOrProfileRoute (l : Location) : bool :=
  includes (loc_href l) "/accounts/current" || includes (loc_href l) "/profiles".

(** [status] is [error.response?.status]. *)
Definition interceptor (l : Location) (status : option Z) : option BrowserEvent :=
  let is_status n := bool_decide (status = Some n) in
  if is_status 401 then (if negb (isAuthRoute l) then Some auth_logout else None)
  else if is_status 403 then Some api_forbidden
  else if is_status 404 then
    (if negb (isAuthRoute l) && isAccountOrProfileRoute l then Some auth_logout else Some api_notfound)
  else if is_status 500 || is_status 502 || is_status 503 then Some api_servererror
  else None.

(** ** The handlers *)

Inductive Reaction : Type :=
| DispatchEvent (ev : AppEvent)
| ShowToast (level : ToastLevel) (message : string).

Definition SESSION_EXPIRED : string := "Session expired - please log in again.".

(** [dataStatus] is [event.detail?.error?.response?.data?.status]. *)
Definition handleEvent (l : Location) (dataStatus : option string) (e : BrowserEvent) : option Reaction :=
  match e with
  | auth_logout =>
      if String.eqb (loc_pathname l) "/login" then None
      else Some (DispatchEvent (forceLogout (Some SESSION_EXPIRED) (Some error)))
  | api_forbidden =>
      if bool_decide (dataStatus = Some "inactive") || bool_decide (dataStatus = Some "pending_delete") then None
      else Some (ShowToast error "Access denied. You don't have permission to perform this action.")
  | api_notfound => Some (ShowToast error "The requested resource was not found.")
  | api_servererror => Some (ShowToast error "A server error occurred. Please try again later.")
  end.

(** What a failed request does to the application. *)
Definition onApiError (l : Location) (status : option Z) (dataStatus : option string) : option Reaction :=
  e ← interceptor l status; handleEvent l dataStatus e.

(** ** Facts *)

Lemma login_is_auth_route l : loc_pathname l = "/login" -> isAuthRoute l = true.
Proof. unfold isAuthRoute. by intros ->. Qed.

Definition logsOut (r : option Reaction) : bool :=
  match r with Some (DispatchEvent (forceLogout _ _)) => true | _ => false end.

Theorem onApiError_logs_out l status dataStatus :
  logsOut (onApiError l status dataStatus) = true <->
  isAuthRoute l = false /\ (status = Some 401 \/ (status = Some 404 /\ isAccountOrProfileRoute l = true)).
Proof.
  unfold onApiError, interceptor.
  assert (isAuthRoute l = false -> String.eqb (loc_pathname l) "/login" = false) as Hlogin.
  { intros Ha. apply String.eqb_neq. intros E. by rewrite (login_is_auth_route l E) in Ha. }
  assert (forall e, logsOut (handleEvent l dataStatus e) = true <->
            e = auth_logout /\ String.eqb (loc_pathname l) "/login" = false) as Hh.
  { intros []; cbn [handleEvent].
    - destruct (String.eqb (loc_pathname l) "/login"); cbn; naive_solver.
    - destruct (_ || _); cbn; naive_solver.
    - cbn; naive_solver.
    - cbn; naive_solver. }
  destruct (bool_decide (status = Some 401)) eqn:H401; to_prop.
  { subst. destruct (isAuthRoute l); cbn [negb mbind option_bind]; [cbn; naive_solver|]. rewrite Hh. naive_solver. }
  destruct (bool_decide (status = Some 403)) eqn:H403; to_prop.
  { subst. cbn [mbind option_bind]. rewrite Hh. naive_solver. }
  destruct (bool_decide (status = Some 404)) eqn:H404; to_prop.
  { subst. destruct (isAuthRoute l), (isAccountOrProfileRoute l); cbn [negb andb mbind option_bind]; rewrite Hh; naive_solver. }
  destruct (_ || _); cbn [mbind option_bind]; [rewrite Hh|cbn]; naive_solver.
Qed.

(** A cut-off account sees no toast for its refused requests. *)
Lemma cutoff_is_quiet l dataStatus :
  dataStatus = Some "inactive" \/ dataStatus = Some "pending_delete" ->
  onApiError l (Some 403) dataStatus = None.
Proof.
  intros Hs. unfold onApiError, interceptor. rewrite bool_decide_eq_false_2, bool_decide_eq_true_2 by done.
  cbn [mbind option_bind handleEvent]. by destruct Hs as [-> | ->].
Qed.
