(* ===== verification/Session.v ===== *)
(** * Sessions and route loaders

    [src/app/src/App.tsx]: the authentication provider, the loaders of the protected routes with
    their render-from-cache path, the route guards and the routes. The state is what survives a
    navigation: React's [isAuthenticated], the [localStorage] key (which other tabs share), the store,
    the path, the navigation whose loader is still waiting, the toasts shown and the requests in flight.
    A handler runs to completion and React commits before the next event, so the effects of a change of
    [isAuthenticated] and the redirect of the protected layout are part of the handler's step. Which
    route a path matches is decided by the router library: [Router]. *)

From S2P Require Import Prelude JsString ApiTypes EventBus ApiEvents Store.

(** ** Routes *)

(** The routes that need no session. *)
Definition publicRoutes : list string :=
  ["/"; "/login"; "/signup"; "/tos"; "/privacy"; "/faq"; "/announcements"; "/reset-password";
   "/reset-password/:token"; "/short/:code"].

Inductive LoaderKind : Set := root_loader | profiles_only_loader.

Definition protectedRoutes : list (string * LoaderKind) :=
  [ ("/home", root_loader); ("/setup", root_loader); ("/settings", root_loader);
    ("/blocklists", profiles_only_loader); ("/custom-rules", root_loader);
    ("/account-preferences", root_loader); ("/mobileconfig", root_loader);
    ("/statistics", root_loader); ("/query-logs", root_loader) ].

Inductive Route : Type :=
| PublicRoute (pattern : string)
| ProtectedRoute (pattern : string) (loader : LoaderKind)
| NotFoundRoute.

(** The matching of the router library, and what it promises: a path matches one of the routes, and a
    path that is written like a route without parameters matches this route. *)
Class Router := mkRouter {
  matchRoute : string -> Route;
  match_known p :
    match matchRoute p with
    | PublicRoute pattern => pattern ∈ publicRoutes
    | ProtectedRoute pattern loader => (pattern, loader) ∈ protectedRoutes
    | NotFoundRoute => True
    end;
  match_public p : p ∈ publicRoutes -> lacks ":" p = true -> matchRoute p = PublicRoute p;
  match_protected p k : (p, k) ∈ protectedRoutes -> matchRoute p = ProtectedRoute p k;
}.

Definition isPublicPath (p : string) : bool :=
  bool_decide (p ∈ ["/"; "/login"; "/signup"; "/tos"; "/privacy"; "/faq"; "/announcements"; "/reset-password"])
  || startsWith p "/reset-password/" || startsWith p "/verify/email/" || startsWith p "/short/".

(** ** State *)

Inductive Toast : Type :=
| LoginSuccess
| LogoutSuccess
| SessionExpiredToast
| TooManyRequests
| PlainToast (level : ToastLevel) (message : string).

Inductive Fetch (A : Type) : Type :=
| Fulfilled (a : A)
| Rejected (status : option Z).
Arguments Fulfilled {A} a.
Arguments Rejected {A} status.

(** [RootFetch nav] and [ProfilesFetch nav] are awaited by the loader of the navigation [nav]. *)
Inductive Request : Set := Revalidate | RevalidateProfiles | RootFetch (nav : nat) | ProfilesFetch (nav : nat).
#[export] Instance Request_eq_dec : EqDecision Request.
Proof. solve_decision. Defined.

(** What a loader gives the router. *)
Inductive LoaderResult : Type :=
| RedirectLogin
| LoaderData (account : option ModelAccount) (profiles : list ModelProfile)
| Waiting.

(** [pending] is the navigation whose loader is waiting, with its target: until it ends, [path] is the
    page that is left. [navs] numbers the navigations. *)
Record Session := mkSession {
  isAuthenticated : bool;
  authKey : option string;
  store : AppState;
  path : string;
  toasts : list Toast;
  inflight : list Request;
  pending : option (nat * string);
  navs : nat;
}.

Definition upd_store (f : AppState -> AppState) (s : Session) : Session :=
  mkSession (isAuthenticated s) (authKey s) (f (store s)) (path s) (toasts s) (inflight s) (pending s) (navs s).
Definition show_toast (t : Toast) (s : Session) : Session :=
  mkSession (isAuthenticated s) (authKey s) (store s) (path s) (toasts s ++ [t]) (inflight s) (pending s) (navs s).
Definition set_key (k : option string) (s : Session) : Session :=
  mkSession (isAuthenticated s) k (store s) (path s) (toasts s) (inflight s) (pending s) (navs s).
(** A navigation that ends at once; it takes the place of one that is waiting. *)
Definition navigate (p : string) (s : Session) : Session :=
  mkSession (isAuthenticated s) (authKey s) (store s) p (toasts s) (inflight s) None (navs s).
(** A navigation that waits for its loader. *)
Definition wait_for (p : string) (s : Session) : Session :=
  mkSession (isAuthenticated s) (authKey s) (store s) (path s) (toasts s) (inflight s) (Some (navs s, p)) (S (navs s)).
Definition add_request (r : Request) (s : Session) : Session :=
  mkSession (isAuthenticated s) (authKey s) (store s) (path s) (toasts s) (inflight s ++ [r]) (pending s) (navs s).

(** [setIsAuthenticated(b)] and the effects of the commit that follows: the key is written, and an
    unauthenticated visitor of a path that is not public is sent to the login page. *)
Definition commit_auth (b : bool) (s : Session) : Session :=
  if Bool.eqb b (isAuthenticated s) then s
  else
    let s' := mkSession b (Some (if b then "true" else "false")) (store s) (path s) (toasts s) (inflight s)
                (pending s) (navs s) in
    if negb b && negb (isPublicPath (path s')) then navigate "/login" s' else s'.

(** ** The provider *)

Definition login (showToast : bool) (s : Session) : Session :=
  let s := set_key (Some "true") s in
  let s := if showToast then show_toast LoginSuccess s else s in
  commit_auth true s.

Definition clear_store (st : AppState) : AppState :=
  set_field (setSubscriptionType None)
    (set_field (setSubscriptionStatus None)
      (setActiveProfile None (setProfiles [] (setAccount None st)))).

Definition performLogoutSideEffects (s : Session) : Session :=
  upd_store clear_store (set_key None s).

Definition logout (toastMessage : option string) (toastType : ToastLevel) (s : Session) : Session :=
  let s := performLogoutSideEffects s in
  let s := if truthy_opt toastMessage then show_toast (PlainToast toastType (toastMessage ?? "")) s
           else show_toast LogoutSuccess s in
  commit_auth false s.

(** The listener that the provider subscribes to the event bus. *)
Definition onBusEvent (ev : AppEvent) (s : Session) : Session :=
  let expire (reason : option string) (level : ToastLevel) :=
    if negb (isAuthenticated s) then s
    else
      let s := performLogoutSideEffects s in
      let s := if bool_decide (reason = Some SESSION_EXPIRED) then show_toast SessionExpiredToast s
               else if truthy_opt reason then show_toast (PlainToast level (reason ?? "")) s
               else show_toast LogoutSuccess s in
      let s := commit_auth false s in
      if String.eqb (path s) "/login" then s else navigate "/login" s in
  match ev with
  | forceLogout reason toastType => expire reason (toastType ?? error)
  | sessionExpired => expire (Some SESSION_EXPIRED) error
  | toastShow _ _ => s
  end.

(** ** Loaders *)

Definition isAuthExpiryError (status : option Z) : bool :=
  bool_decide (status = Some 401) || bool_decide (status = Some 404).

Definition rejectedExpiry {A} (f : Fetch A) : bool :=
  match f with Rejected st => isAuthExpiryError st | Fulfilled _ => false end.

(** The synchronous part of a loader: the guard, the cache, or the requests it waits for. *)
Definition startRootLoader (s : Session) : Session * LoaderResult :=
  if negb (bool_decide (authKey s = Some "true")) then (s, RedirectLogin)
  else
    match account (store s), profiles (store s) with
    | Some a, _ :: _ => (add_request Revalidate s, LoaderData (Some a) (profiles (store s)))
    | _, _ => (add_request (RootFetch (navs s)) s, Waiting)
    end.

Definition startProfilesOnlyLoader (s : Session) : Session * LoaderResult :=
  if negb (bool_decide (authKey s = Some "true")) then (s, RedirectLogin)
  else
    match profiles (store s) with
    | _ :: _ => (add_request RevalidateProfiles s, LoaderData None (profiles (store s)))
    | [] => (add_request (ProfilesFetch (navs s)) s, Waiting)
    end.

Definition startLoader (k : LoaderKind) (s : Session) : Session * LoaderResult :=
  match k with root_loader => startRootLoader s | profiles_only_loader => startProfilesOnlyLoader s end.

(** The [then] of [revalidateAccountAndProfiles]. *)
Definition revalidateAccountAndProfiles (a : Fetch ModelAccount) (ps : Fetch (list ModelProfile)) (s : Session)
    : Session :=
  let s := match a with Fulfilled acc => upd_store (setAccount (Some acc)) s | Rejected _ => s end in
  let s := match ps with Fulfilled l => upd_store (refreshProfiles l) s | Rejected _ => s end in
  if rejectedExpiry a || rejectedExpiry ps then onBusEvent sessionExpired s else s.

(** The background fetch of [profilesOnlyLoader]. *)
Definition revalidateProfiles (ps : Fetch (list ModelProfile)) (s : Session) : Session :=
  match ps with
  | Fulfilled l => upd_store (refreshProfiles l) s
  | Rejected st => if isAuthExpiryError st then onBusEvent sessionExpired s else s
  end.

(** The [catch] of both loaders. *)
Definition loaderError (status : option Z) (s : Session) : Session * LoaderResult :=
  if isAuthExpiryError status then (onBusEvent sessionExpired s, RedirectLogin)
  else if bool_decide (status = Some 429) then (show_toast TooManyRequests s, LoaderData None [])
  else (s, LoaderData None []).

Definition finishRootLoader (a : Fetch ModelAccount) (ps : Fetch (list ModelProfile)) (s : Session)
    : Session * LoaderResult :=
  match a with
  | Rejected st => loaderError st s
  | Fulfilled acc =>
      let l := match ps with Fulfilled l => l | Rejected _ => [] end in
      (upd_store (refreshProfiles l) (upd_store (setAccount (Some acc)) s), LoaderData (Some acc) l)
  end.

Definition finishProfilesOnlyLoader (ps : Fetch (list ModelProfile)) (s : Session) : Session * LoaderResult :=
  match ps with
  | Rejected st => loaderError st s
  | Fulfilled l => (upd_store (refreshProfiles l) s, LoaderData None l)
  end.

(** ** The session as a state machine *)

(** What [ProtectedLayout] renders: a redirect, or the page. *)
Definition protectedRedirect (s : Session) : option string :=
  if negb (isAuthenticated s) || negb (bool_decide (authKey s = Some "true")) then Some "/login"
  else if String.eqb (path s) "/" then Some "/home" else None.

Section routing.
Context {R : Router}.

(** What the router shows at the path. *)
Inductive View : Type :=
| PublicPage (pattern : string)
| ProtectedPage (pattern : string)
| NotFoundPage
| RedirectTo (p : string).

Definition view (s : Session) : View :=
  match matchRoute (path s) with
  | PublicRoute pattern => PublicPage pattern
  | NotFoundRoute => NotFoundPage
  | ProtectedRoute pattern _ =>
      match protectedRedirect s with Some p => RedirectTo p | None => ProtectedPage pattern end
  end.

(** A navigation to any path: the loader of its route runs first, and may redirect. *)
Definition navigateTo (p : string) (s : Session) : Session :=
  match matchRoute p with
  | ProtectedRoute _ k =>
      let '(s', r) := startLoader k s in
      match r with
      | RedirectLogin => navigate "/login" s'
      | LoaderData _ _ => navigate p s'
      | Waiting => wait_for p s'
      end
  | _ => navigate p s
  end.

(** A loader that was waiting for the navigation [nav] ends; its result counts only while no other
    navigation has taken its place. *)
Definition endNavigation (nav : nat) (r : LoaderResult) (s : Session) : Session :=
  match pending s with
  | Some (n, p) =>
      if (n =? nav)%nat then navigate (match r with RedirectLogin => "/login" | _ => p end) s else s
  | None => s
  end.

(** The effect of [AccountCutoffGuard], which the protected layout mounts. *)
Definition cutoffGuard (s : Session) : Session :=
  if isCutOff (useSubscriptionGuard (store s)) && negb (String.eqb (path s) "/account-preferences")
  then navigateTo "/account-preferences" s else s.

(** The effect of [LoginWrapper]. *)
Definition loginWrapper (s : Session) : Session :=
  if isAuthenticated s then navigateTo "/home" s else s.

(** [OtherTab key]: another tab of the browser writes or removes the key. [Rerender]: the layout renders
    again for a reason of its own. *)
Inductive SessionEvent : Type :=
| Login (showToast : bool)
| Logout (message : option string) (level : ToastLevel)
| Bus (ev : AppEvent)
| Navigate (p : string)
| Answer (r : Request) (a : Fetch ModelAccount) (ps : Fetch (list ModelProfile))
| OtherTab (key : option string)
| Rerender
| LoginPageEffect
| CutoffEffect.

Fixpoint remove_request (r : Request) (l : list Request) : list Request :=
  match l with [] => [] | x :: l' => if bool_decide (x = r) then l' else x :: remove_request r l' end.

Definition drop_request (r : Request) (s : Session) : Session :=
  mkSession (isAuthenticated s) (authKey s) (store s) (path s) (toasts s) (remove_request r (inflight s))
    (pending s) (navs s).

Definition answer (r : Request) (a : Fetch ModelAccount) (ps : Fetch (list ModelProfile)) (s : Session) : Session :=
  match r with
  | Revalidate => revalidateAccountAndProfiles a ps s
  | RevalidateProfiles => revalidateProfiles ps s
  | RootFetch nav => let '(s', r) := finishRootLoader a ps s in endNavigation nav r s'
  | ProfilesFetch nav => let '(s', r) := finishProfilesOnlyLoader ps s in endNavigation nav r s'
  end.

Definition handle (s : Session) (e : SessionEvent) : Session :=
  match e with
  | Login b => login b s
  | Logout m l => logout m l s
  | Bus ev => onBusEvent ev s
  | Navigate p => navigateTo p s
  | Answer r a ps => if bool_decide (r ∈ inflight s) then answer r a ps (drop_request r s) else s
  | OtherTab key => set_key key s
  | Rerender => s
  | LoginPageEffect => match view s with PublicPage p => if String.eqb p "/login" then loginWrapper s else s | _ => s end
  | CutoffEffect => match view s with ProtectedPage _ => cutoffGuard s | _ => s end
  end.

(** The layout renders when the path or the authentication has changed, and now and then besides. *)
Definition renders (e : SessionEvent) (s s' : Session) : bool :=
  match e with
  | Rerender => true
  | _ => negb (String.eqb (path s) (path s') && Bool.eqb (isAuthenticated s) (isAuthenticated s'))
  end.

(** The redirect of the layout. *)
Definition follow_redirect (s : Session) : Session :=
  match view s with RedirectTo p => navigateTo p s | _ => s end.

Definition session_step (s : Session) (e : SessionEvent) : Session :=
  let s' := handle s e in if renders e s s' then follow_redirect s' else s'.

(** The provider mounts with what [localStorage] holds, at the path of the window, whose loader the
    router starts; the effects of the provider run once. *)
Definition boot (key : option string) (persisted : AppState) (p : string) : Session :=
  let auth := bool_decide (key = Some "true") in
  let s := navigateTo p (mkSession auth key persisted p [] [] None 0) in
  let s := set_key (Some (if auth then "true" else "false")) s in
  let s := if negb auth && negb (isPublicPath (path s)) then navigate "/login" s else s in
  follow_redirect s.

(** ** Guards and wrappers *)

(** [RootIndexRedirect] *)
Definition landingAuthed (s : Session) : bool :=
  isAuthenticated s && bool_decide (authKey s = Some "true").

Definition PAGE_NAMES : list (string * string) :=
  [ ("/home", ""); ("/setup", ""); ("/blocklists", "Blocklists"); ("/custom-rules", "Custom rules");
    ("/settings", "Settings"); ("/statistics", "Statistics"); ("/query-logs", "Logs");
    ("/account-preferences", "Account preferences"); ("/mobileconfig", "Mobile configuration") ].

Definition PAGE_PREFIXES : list (string * string) :=
  [ ("/setup/", "DNS Setup"); ("/blocklists/", "Blocklists"); ("/custom-rules/", "Custom rules");
    ("/settings/", "Settings"); ("/statistics/", "Statistics"); ("/query-logs/", "Logs");
    ("/account-preferences/", "Account"); ("/mobileconfig/", "Mobile configuration") ].

Definition getCurrentPageName (p : string) : string :=
  match array_find (fun e => String.eqb p (fst e)) PAGE_NAMES with
  | Some e => e.2
  | None => match array_find (fun e => startsWith p (fst e)) PAGE_PREFIXES with
            | Some e => e.2 | None => "Dashboard" end
  end.

(** ** Facts *)

(** The steps that keep the authentication. *)
Definition same_auth (s s' : Session) : Prop :=
  isAuthenticated s' = isAuthenticated s /\ authKey s' = authKey s.

Lemma startLoader_spec k s :
  let '(s', r) := startLoader k s in
  same_auth s s' /\ store s' = store s /\ path s' = path s /\ toasts s' = toasts s /\ pending s' = pending s /\
  (r = RedirectLogin <-> authKey s <> Some "true").
Proof.
  unfold same_auth.
  destruct k; cbn [startLoader]; [unfold startRootLoader|unfold startProfilesOnlyLoader];
    case_bool_decide as Hk; cbn [negb].
  - destruct (account (store s)), (profiles (store s)); cbn; naive_solver.
  - naive_solver.
  - destruct (profiles (store s)); cbn; naive_solver.
  - naive_solver.
Qed.

Lemma navigateTo_same p s :
  same_auth s (navigateTo p s) /\ store (navigateTo p s) = store s /\ toasts (navigateTo p s) = toasts s.
Proof.
  unfold navigateTo. destruct (matchRoute p) as [| pattern k |]; try by repeat split.
  pose proof (startLoader_spec k s) as Hs. destruct (startLoader k s) as [s' []];
    destruct Hs as ([? ?] & ? & ? & ? & _); by repeat split.
Qed.

Lemma navigate_login s : navigateTo "/login" s = navigate "/login" s.
Proof. unfold navigateTo. by rewrite match_public by (first [apply (bool_decide_unpack _); exact I | done]). Qed.

Lemma endNavigation_same n r s :
  same_auth s (endNavigation n r s) /\ store (endNavigation n r s) = store s /\ toasts (endNavigation n r s) = toasts s.
Proof. unfold endNavigation. destruct (pending s) as [[m p]|]; [|done]. by destruct (m =? n)%nat. Qed.

Lemma follow_redirect_same s : same_auth s (follow_redirect s).
Proof. unfold follow_redirect. destruct (view s); try done. apply navigateTo_same. Qed.

(** *** What is on the screen *)

Definition public_view (s : Session) : Prop := (exists p, view s = PublicPage p) \/ view s = NotFoundPage.

Lemma login_page s : view (navigate "/login" s) = PublicPage "/login".
Proof.
  unfold view. cbn [navigate path].
  by rewrite match_public by (first [apply (bool_decide_unpack _); exact I | done]).
Qed.

Lemma follow_redirect_public s : isAuthenticated s = false -> public_view (follow_redirect s).
Proof.
  intros Ha. unfold follow_redirect. destruct (view s) as [p|p| |p] eqn:E.
  - left. by exists p.
  - unfold view, protectedRedirect in E. rewrite Ha in E. cbn in E. by destruct (matchRoute (path s)).
  - by right.
  - unfold view, protectedRedirect in E. rewrite Ha in E. cbn in E. destruct (matchRoute (path s)); simplify_eq.
    rewrite navigate_login. left. exists "/login". apply login_page.
Qed.

Lemma public_view_path s s' :
  isAuthenticated s = false -> path s' = path s -> public_view s -> public_view s'.
Proof.
  intros Ha Hp [[p Hv]|Hv]; unfold public_view; unfold view, protectedRedirect in *; rewrite Hp, Ha in *; cbn in *;
    destruct (matchRoute (path s)); simplify_eq; eauto.
Qed.

Lemma public_page_listed s p : view s = PublicPage p -> p ∈ publicRoutes.
Proof.
  unfold view. pose proof (match_known (path s)) as Hk. destruct (matchRoute (path s)); [by intros [= <-]| |done].
  by destruct (protectedRedirect s).
Qed.

Lemma session_step_public s e :
  (isAuthenticated s = false -> public_view s) ->
  isAuthenticated (session_step s e) = false -> public_view (session_step s e).
Proof.
  intros Hs. unfold session_step. destruct (renders e s (handle s e)) eqn:Hr.
  - intros Ha. apply follow_redirect_public. by destruct (follow_redirect_same (handle s e)) as [<- _].
  - intros Ha. assert (path (handle s e) = path s /\ isAuthenticated s = isAuthenticated (handle s e)) as [Hp Hi].
    { destruct e; cbn [renders] in Hr; try done; apply negb_false_iff, andb_true_iff in Hr as [H1 H2];
        apply String.eqb_eq in H1; apply Bool.eqb_prop in H2; by split. }
    apply (public_view_path s); [congruence|done|]. apply Hs. congruence.
Qed.

(** *** The key *)

(** Without another tab, whoever is not authenticated has no key. *)
Definition key_ok (s : Session) : Prop := authKey s = Some "true" -> isAuthenticated s = true.

Lemma same_key_ok s s' : same_auth s s' -> key_ok s -> key_ok s'.
Proof. unfold same_auth, key_ok. by intros [-> ->]. Qed.

Lemma commit_false s : authKey s <> Some "true" -> authKey (commit_auth false s) <> Some "true".
Proof.
  intros Hk. unfold commit_auth. destruct (isAuthenticated s); cbn; [|done]. by destruct (isPublicPath _).
Qed.

Lemma login_key_ok b s : key_ok (login b s).
Proof. intros _. unfold login, commit_auth. destruct b; cbn; destruct (isAuthenticated s) eqn:E; done. Qed.

Lemma logout_key m l s : authKey (logout m l s) <> Some "true".
Proof. unfold logout. apply commit_false. by destruct (truthy_opt m). Qed.

(** A bus event leaves the session alone or takes its key. *)
Lemma onBusEvent_key ev s : onBusEvent ev s = s \/ authKey (onBusEvent ev s) <> Some "true".
Proof.
  destruct ev as [r tt| |lv m]; cbn [onBusEvent]; [| |by left].
  all: destruct (isAuthenticated s); cbn [negb]; [right|by left].
  all: match goal with |- context [commit_auth false ?x] =>
         assert (authKey (commit_auth false x) <> Some "true") as Hc by (apply commit_false; by repeat case_match) end.
  all: by destruct (String.eqb _ _).
Qed.

Lemma onBusEvent_key_ok ev s : key_ok s -> key_ok (onBusEvent ev s).
Proof. intros Hok. destruct (onBusEvent_key ev s) as [->|Hk]; [done|]. by intros ?. Qed.

Lemma answer_key_ok r a ps s : key_ok s -> key_ok (answer r a ps s).
Proof.
  intros Hok. assert (forall st s, key_ok s -> key_ok (loaderError st s).1) as Herr.
  { intros st x Hx. unfold loaderError. destruct (isAuthExpiryError st); [by apply onBusEvent_key_ok|].
    by destruct (bool_decide _). }
  assert (forall n r s, key_ok s -> key_ok (endNavigation n r s)) as Hend.
  { intros n q x. apply same_key_ok, endNavigation_same. }
  destruct r; cbn [answer].
  - unfold revalidateAccountAndProfiles. destruct a, ps; cbn [rejectedExpiry orb];
      repeat case_match; try apply onBusEvent_key_ok; done.
  - unfold revalidateProfiles. destruct ps; [done|]. destruct (isAuthExpiryError _); auto using onBusEvent_key_ok.
  - unfold finishRootLoader. destruct a as [acc|st]; [by apply Hend|]. specialize (Herr st s Hok).
    destruct (loaderError st s) as [s' q]. by apply Hend.
  - unfold finishProfilesOnlyLoader. destruct ps as [l|st]; [by apply Hend|]. specialize (Herr st s Hok).
    destruct (loaderError st s) as [s' q]. by apply Hend.
Qed.

Lemma cutoffGuard_same s : same_auth s (cutoffGuard s).
Proof. unfold cutoffGuard. destruct (_ && _); [apply navigateTo_same|done]. Qed.

Lemma loginWrapper_same s : same_auth s (loginWrapper s).
Proof. unfold loginWrapper. destruct (isAuthenticated s); [apply navigateTo_same|done]. Qed.

Lemma session_step_key_ok s e : e <> OtherTab (Some "true") -> key_ok s -> key_ok (session_step s e).
Proof.
  intros He Hok. assert (key_ok (handle s e)) as Hh.
  { destruct e as [b|m l|ev|p|r a ps|key| | |]; cbn [handle]; try done.
    - apply login_key_ok.
    - intros Hk. by apply logout_key in Hk.
    - by apply onBusEvent_key_ok.
    - by apply (same_key_ok s), Hok; apply navigateTo_same.
    - destruct (bool_decide _); [by apply answer_key_ok|done].
    - intros Hk. cbn in Hk. congruence.
    - destruct (view s); try done. destruct (String.eqb _ _); [|done]. by apply (same_key_ok s), Hok; apply loginWrapper_same.
    - destruct (view s); try done. by apply (same_key_ok s), Hok; apply cutoffGuard_same. }
  unfold session_step. destruct (renders _ _ _); [|done]. by apply (same_key_ok (handle s e)), Hh; apply follow_redirect_same.
Qed.

Lemma boot_same key st p :
  let s := boot key st p in
  isAuthenticated s = bool_decide (key = Some "true") /\ (key_ok s) /\ (isAuthenticated s = false -> public_view s).
Proof.
  cbv zeta. unfold boot. set (auth := bool_decide (key = Some "true")).
  set (s0 := navigateTo p _). assert (isAuthenticated s0 = auth) as Hs0 by (by destruct (navigateTo_same p (mkSession auth key st p [] [] None 0)) as [[? _] _]).
  set (s1 := set_key _ s0). set (s2 := if negb auth && _ then _ else s1).
  assert (isAuthenticated s2 = auth /\ authKey s2 = Some (if auth then "true" else "false")) as [Ha Hk]
    by (unfold s2; destruct (negb auth && _); done).
  destruct (follow_redirect_same s2) as [Hfa Hfk]. split; [congruence|]. split.
  - intros H. rewrite Hfa, Ha. rewrite Hfk, Hk in H. by destruct auth.
  - intros H. apply follow_redirect_public. congruence.
Qed.

(** C5: whatever happens to a session, from the start of the application on - navigations to any
    path, answers, bus events, logins and logouts here and in other tabs - the page that shows while
    the user is not authenticated is one of the public routes or the not-found page; and unless
    another tab has logged in, every loader then redirects to the login page and neither fetches nor
    changes anything *)
Theorem unauthenticated_sees_public_pages key st p0 evs k :
  let s := run session_step (boot key st p0) evs in
  isAuthenticated s = false ->
  ((exists p, p ∈ publicRoutes /\ view s = PublicPage p) \/ view s = NotFoundPage) /\
  (OtherTab (Some "true") ∉ evs -> startLoader k s = (s, RedirectLogin)).
Proof.
  cbv zeta. intros Ha. destruct (boot_same key st p0) as (_ & Hk & Hp). split.
  - assert (public_view (run session_step (boot key st p0) evs)) as [[p Hv]|Hv]; [|left; exists p|by right].
    + revert Ha. apply (run_invariant session_step (fun s => isAuthenticated s = false -> public_view s)); [|done].
      intros s e Hs. by apply session_step_public.
    + split; [by apply public_page_listed in Hv|done].
  - intros Hno. assert (key_ok (run session_step (boot key st p0) evs)) as Hok.
    { clear Ha Hp. revert Hk Hno. generalize (boot key st p0). induction evs as [|e evs IH]; intros s Hk Hno; [done|].
      apply not_elem_of_cons in Hno as [He Hno]. cbn [run foldl]. apply IH; [|done]. by apply session_step_key_ok. }
    unfold key_ok in Hok. set (s := run _ _ _) in *. clearbody s.
    assert (authKey s <> Some "true") as Hn by (intros H; specialize (Hok H); congruence).
    destruct k; cbn [startLoader]; [unfold startRootLoader|unfold startProfilesOnlyLoader];
      by rewrite bool_decide_eq_false_2.
Qed.

(** ** Forced logout *)

Lemma clear_store_empty st :
  account (clear_store st) = None /\ profiles (clear_store st) = [] /\
  activeProfile (clear_store st) = None /\ subscriptionStatus (clear_store st) = None.
Proof. by destruct st. Qed.

(** The clearing is made of orderly actions of the store. *)
Lemma clear_store_actions st :
  exists ops, orderly st ops /\ run store_step st ops = clear_store st.
Proof.
  exists [OpAccount None; OpSetProfiles []; OpSetActive None; OpField (setSubscriptionStatus None); OpField (setSubscriptionType None)].
  split; [|done]. repeat split. left. split; [constructor|done].
Qed.

Lemma commit_false_store s : store (commit_auth false s) = store s /\ toasts (commit_auth false s) = toasts s
  /\ inflight (commit_auth false s) = inflight s /\ isAuthenticated (commit_auth false s) = false.
Proof.
  unfold commit_auth. destruct (isAuthenticated s) eqn:E; cbn; [|done].
  by destruct (isPublicPath (path s)).
Qed.

(** [s'] is [s] after its session has expired: nothing of it is left, and one message says so. *)
Definition ended (s s' : Session) : Prop :=
  isAuthenticated s' = false /\ authKey s' <> Some "true" /\ path s' = "/login" /\
  account (store s') = None /\ profiles (store s') = [] /\ activeProfile (store s') = None /\
  toasts s' = toasts s ++ [SessionExpiredToast].

Lemma expire_ends s : isAuthenticated s = true -> ended s (onBusEvent sessionExpired s).
Proof.
  intros Ha. set (s' := onBusEvent _ s).
  assert (authKey s' <> Some "true") as Hk.
  { unfold s'. cbn [onBusEvent]. rewrite Ha. cbn [negb]. rewrite bool_decide_eq_true_2 by done.
    match goal with |- context [commit_auth false ?x] => assert (authKey (commit_auth false x) <> Some "true") as Hc by by apply commit_false end.
    by destruct (String.eqb _ _). }
  assert (isAuthenticated s' = false /\ path s' = "/login" /\ store s' = clear_store (store s) /\
          toasts s' = toasts s ++ [SessionExpiredToast]) as (Hf & Hp & Hst & Hts).
  { unfold s'. cbn [onBusEvent]. rewrite Ha. cbn [negb]. rewrite bool_decide_eq_true_2 by done.
    match goal with |- context [commit_auth false ?x] => destruct (commit_false_store x) as (Hs & Ht & _ & Hau) end.
    destruct (String.eqb_spec (path (commit_auth false (show_toast SessionExpiredToast (performLogoutSideEffects s)))) "/login");
      cbn; rewrite ?Hs, ?Ht, ?Hau; done. }
  destruct (clear_store_empty (store s)) as (H1 & H2 & H3 & _). unfold ended.
  rewrite Hst. done.
Qed.

(** What the interceptor would raise for a refused request has the same effect. *)
Lemma interceptor_event_ends_session s l status dataStatus ev :
  isAuthenticated s = true ->
  onApiError l status dataStatus = Some (DispatchEvent ev) -> ended s (onBusEvent ev s).
Proof.
  intros Ha Hev.
  assert (ev = forceLogout (Some SESSION_EXPIRED) (Some error)) as ->.
  { unfold onApiError in Hev. destruct (interceptor l status) as [[]|]; cbn in Hev; try discriminate;
      [destruct (String.eqb (loc_pathname l) "/login")|destruct (_ || _)]; by simplify_eq. }
  exact (expire_ends s Ha).
Qed.

(** An answer that is taken for the end of the session. In the loader of both reads the profiles are
    best effort: only the account counts. *)
Definition refuses (r : Request) (a : Fetch ModelAccount) (ps : Fetch (list ModelProfile)) : bool :=
  match r with
  | Revalidate => rejectedExpiry a || rejectedExpiry ps
  | RootFetch _ => rejectedExpiry a
  | RevalidateProfiles | ProfilesFetch _ => rejectedExpiry ps
  end.

Lemma ended_toasts x s s' : toasts x = toasts s -> ended x s' -> ended s s'.
Proof. unfold ended. by intros ->. Qed.

(** The loader's redirect finds the visitor on the login page already. *)
Lemma ended_redirect n s s' : ended s s' -> ended s (endNavigation n RedirectLogin s').
Proof. unfold ended, endNavigation. destruct (pending s') as [[m p]|]; [|done]. destruct (m =? n)%nat; cbn; tauto. Qed.

Lemma signed_out_stays s : isAuthenticated s = false -> onBusEvent sessionExpired s = s.
Proof. intros Ha. cbn [onBusEvent]. by rewrite Ha. Qed.

Lemma loaderError_expiry st s :
  isAuthExpiryError st = true -> loaderError st s = (onBusEvent sessionExpired s, RedirectLogin).
Proof. intros H. unfold loaderError. by rewrite H. Qed.

Lemma refused_answer_ends r a ps s :
  isAuthenticated s = true -> refuses r a ps = true -> ended s (answer r a ps s).
Proof.
  intros Ha Href. destruct r; cbn [refuses answer] in *.
  - unfold revalidateAccountAndProfiles. destruct a, ps; rewrite Href;
      match goal with |- ended _ (onBusEvent _ ?x) => apply (ended_toasts x) end; try done; by apply expire_ends.
  - destruct ps; [done|]. cbn in Href |- *. rewrite Href. by apply expire_ends.
  - destruct a; [done|]. cbn in Href |- *. rewrite loaderError_expiry by done. by apply ended_redirect, expire_ends.
  - destruct ps; [done|]. cbn in Href |- *. rewrite loaderError_expiry by done. by apply ended_redirect, expire_ends.
Qed.

(** Whoever is signed out hears no more of it. *)
Lemma refused_answer_silent r a ps s :
  isAuthenticated s = false -> refuses r a ps = true ->
  isAuthenticated (answer r a ps s) = false /\ toasts (answer r a ps s) = toasts s.
Proof.
  intros Ha Href.
  assert (forall n, isAuthenticated (endNavigation n RedirectLogin s) = false /\
    toasts (endNavigation n RedirectLogin s) = toasts s) as Hend.
  { intros n. destruct (endNavigation_same n RedirectLogin s) as ([-> _] & _ & ->). done. }
  destruct r; cbn [refuses answer] in *.
  - unfold revalidateAccountAndProfiles. destruct a, ps; rewrite Href, signed_out_stays; done.
  - destruct ps; [done|]. cbn [rejectedExpiry] in Href. unfold revalidateProfiles. by rewrite Href, signed_out_stays.
  - destruct a; [done|]. cbn [rejectedExpiry] in Href. unfold finishRootLoader.
    by rewrite loaderError_expiry, signed_out_stays.
  - destruct ps; [done|]. cbn [rejectedExpiry] in Href. unfold finishProfilesOnlyLoader.
    by rewrite loaderError_expiry, signed_out_stays.
Qed.

(** Any other answer leaves the session as it is; too many requests are announced. *)
Definition goes_on (s s' : Session) : Prop :=
  same_auth s s' /\ (toasts s' = toasts s \/ toasts s' = toasts s ++ [TooManyRequests]).

Lemma goes_on_end n q s s' : goes_on s s' -> goes_on s (endNavigation n q s').
Proof.
  intros [[Ha Hk] Ht]. destruct (endNavigation_same n q s') as ([Ha' Hk'] & _ & Ht').
  unfold goes_on, same_auth. by rewrite Ha', Hk', Ht'.
Qed.

Lemma loaderError_goes_on st s : isAuthExpiryError st = false -> goes_on s (loaderError st s).1.
Proof.
  intros H. unfold loaderError. rewrite H. destruct (bool_decide _); (split; [done|]); [by right|by left].
Qed.

Lemma other_answer_goes_on r a ps s : refuses r a ps = false -> goes_on s (answer r a ps s).
Proof.
  intros Href. assert (forall x, same_auth s x -> toasts x = toasts s -> goes_on s x) as Hsame by (intros; split; auto).
  destruct r; cbn [refuses answer] in *.
  - unfold revalidateAccountAndProfiles. rewrite Href. apply Hsame; by destruct a, ps.
  - destruct ps; cbn in Href |- *; [|rewrite Href]; by apply Hsame.
  - destruct a as [acc|st]; cbn [finishRootLoader]; [apply goes_on_end, Hsame; done|].
    pose proof (loaderError_goes_on st s Href) as Hl. destruct (loaderError st s). by apply goes_on_end.
  - destruct ps as [l|st]; cbn [finishProfilesOnlyLoader]; [apply goes_on_end, Hsame; done|].
    pose proof (loaderError_goes_on st s Href) as Hl. destruct (loaderError st s). by apply goes_on_end.
Qed.

Lemma follow_redirect_keeps s :
  store (follow_redirect s) = store s /\ toasts (follow_redirect s) = toasts s.
Proof. unfold follow_redirect. destruct (view s); try done. apply navigateTo_same. Qed.

Lemma rendered_goes_on e x s s' : goes_on s s' -> goes_on s (if renders e x s' then follow_redirect s' else s').
Proof.
  intros Hg. destruct (renders _ _ _); [|done]. destruct (follow_redirect_same s') as [Ha Hk].
  unfold goes_on, same_auth in *. by rewrite Ha, Hk, (proj2 (follow_redirect_keeps s')).
Qed.

(** On the login page there is no redirect to follow. *)
Lemma rendered_ended e x s s' : ended s s' -> ended s (if renders e x s' then follow_redirect s' else s').
Proof.
  intros He. destruct (renders _ _ _); [|done]. assert (view s' = PublicPage "/login") as Hv.
  { destruct He as (_ & _ & Hp & _). unfold view. rewrite Hp.
    by rewrite match_public by (first [apply (bool_decide_unpack _); exact I | done]). }
  unfold follow_redirect. by rewrite Hv.
Qed.

Lemma answer_step s r a ps :
  r ∈ inflight s ->
  session_step s (Answer r a ps) =
  let s' := answer r a ps (drop_request r s) in if renders (Answer r a ps) s s' then follow_redirect s' else s'.
Proof. intros Hr. unfold session_step. cbn [handle]. by rewrite bool_decide_eq_true_2. Qed.


(** ** What a later session is served *)

(** Nothing of an earlier session: the store holds no account and no profiles. *)
Definition nothing_cached (s : Session) : Prop :=
  account (store s) = None /\ profiles (store s) = [].

Lemma logout_clears m l s : nothing_cached (logout m l s) /\ inflight (logout m l s) = inflight s.
Proof.
  unfold logout, nothing_cached.
  match goal with |- context [commit_auth false ?x] => destruct (commit_false_store x) as (-> & _ & -> & _) end.
  destruct (clear_store_empty (store s)) as (? & ? & _). by destruct (truthy_opt m).
Qed.

(** The events that bring no answer from the server. *)
Definition no_answer (e : SessionEvent) : bool := match e with Answer _ _ _ => false | _ => true end.

Lemma step_store s e : store (session_step s e) = store (handle s e).
Proof. unfold session_step. destruct (renders _ _ _); [|done]. apply follow_redirect_keeps. Qed.

Lemma navigateTo_inflight p r s : r ∈ inflight s -> r ∈ inflight (navigateTo p s).
Proof.
  intros Hr. assert (forall q, r ∈ inflight s ++ [q]) as Ha by (intros; apply elem_of_app; by left).
  unfold navigateTo, startLoader, startRootLoader, startProfilesOnlyLoader.
  by repeat (case_match; simplify_eq/=).
Qed.

Lemma step_inflight s e r : r ∈ inflight (handle s e) -> r ∈ inflight (session_step s e).
Proof.
  intros Hr. unfold session_step, follow_redirect. destruct (renders _ _ _); [|done].
  destruct (view _); try done. by apply navigateTo_inflight.
Qed.

Lemma step_keeps_nothing s e :
  no_answer e = true -> nothing_cached s -> nothing_cached (session_step s e).
Proof.
  intros He Hn. unfold nothing_cached. rewrite step_store. change (nothing_cached (handle s e)).
  assert (forall x p, nothing_cached x -> nothing_cached (navigateTo p x)) as Hnav.
  { intros x p [? ?]. unfold nothing_cached. by rewrite (proj1 (proj2 (navigateTo_same p x))). }
  destruct e as [b|m l|ev|p|r a ps|key| | |]; cbn [handle]; try done.
  - unfold login, commit_auth. destruct b; cbn; destruct (isAuthenticated s); done.
  - apply logout_clears.
  - assert (forall x, nothing_cached x -> nothing_cached (commit_auth false x)) as Hc.
    { intros x [? ?]. destruct (commit_false_store x) as (Hs & _). unfold nothing_cached. by rewrite Hs. }
    destruct ev; cbn [onBusEvent]; [| |done];
      (destruct (isAuthenticated s); cbn [negb]; [|done]);
      match goal with |- nothing_cached (if _ then ?x else _) => assert (nothing_cached x) as Hx end;
      try (apply Hc; destruct (clear_store_empty (store s)) as (? & ? & _); repeat case_match; done);
      destruct (String.eqb _ _); done.
  - by apply Hnav.
  - destruct (view s); try done. destruct (String.eqb _ _); [|done]. unfold loginWrapper.
    destruct (isAuthenticated s); auto.
  - destruct (view s); try done. unfold cutoffGuard. destruct (_ && _); auto.
Qed.

Theorem next_session_fetches s m l evs k :
  forallb no_answer evs = true ->
  let s' := run session_step (logout m l s) evs in
  (startLoader k s').2 = RedirectLogin \/ (startLoader k s').2 = Waiting.
Proof.
  intros Hev. cbv zeta. set (s' := run _ _ _).
  assert (nothing_cached s') as [Hacc Hps].
  { unfold s'. clear s'. pose proof (proj1 (logout_clears m l s)) as H0. revert H0.
    generalize (logout m l s) as s0. induction evs as [|e evs IH]; intros s0 H0; [done|].
    cbn in Hev. apply andb_true_iff in Hev as [He Hev]. cbn [run foldl]. apply IH; [done|].
    by apply step_keeps_nothing. }
  destruct k; cbn [startLoader]; [unfold startRootLoader|unfold startProfilesOnlyLoader];
    rewrite ?Hacc, ?Hps; destruct (negb _); auto.
Qed.

Lemma login_store b s : store (login b s) = store s /\ authKey (login b s) = Some "true".
Proof. unfold login, commit_auth. destruct b; cbn; destruct (isAuthenticated s); cbn; done. Qed.

Lemma revalidated_store acc p ps s :
  account (store (revalidateAccountAndProfiles (Fulfilled acc) (Fulfilled (p :: ps)) s)) = Some acc /\
  profiles (store (revalidateAccountAndProfiles (Fulfilled acc) (Fulfilled (p :: ps)) s)) = p :: ps.
Proof.
  unfold revalidateAccountAndProfiles. cbn [rejectedExpiry orb upd_store store].
  unfold refreshProfiles. rewrite restore_profiles. split; [|done].
  unfold restoreActiveProfile. by repeat case_match.
Qed.

Theorem late_answer_reaches_next_session s m l acc p ps b :
  Revalidate ∈ inflight s -> isAuthenticated s = true ->
  let s' := run session_step s [Logout m l; Answer Revalidate (Fulfilled acc) (Fulfilled (p :: ps)); Login b] in
  (startRootLoader s').2 = LoaderData (Some acc) (p :: ps).
Proof.
  intros Hin Ha. cbv zeta. cbn [run foldl].
  destruct (logout_clears m l s) as [_ Hfl]. assert (Revalidate ∈ inflight (session_step s (Logout m l))) as Hin1.
  { apply step_inflight. cbn [handle]. by rewrite Hfl. }
  set (s1 := session_step s (Logout m l)) in *. clearbody s1.
  set (s2 := session_step s1 (Answer Revalidate (Fulfilled acc) (Fulfilled (p :: ps)))).
  assert (account (store s2) = Some acc /\ profiles (store s2) = p :: ps) as [H1 H2].
  { unfold s2. rewrite step_store. cbn [handle]. rewrite bool_decide_eq_true_2 by done. apply revalidated_store. }
  assert (store (session_step s2 (Login b)) = store s2 /\ authKey (session_step s2 (Login b)) = Some "true") as [H3 H4].
  { rewrite step_store. destruct (login_store b s2) as [Hs Hk]. split; [exact Hs|]. unfold session_step.
    destruct (renders _ _ _); [|exact Hk]. by destruct (follow_redirect_same (handle s2 (Login b))) as [_ ->]. }
  unfold startRootLoader. rewrite H3, H4, H1, H2. by rewrite bool_decide_eq_true_2.
Qed.

(** *** A refused navigation *)

(** A loader whose navigation was replaced says nothing about where to go. *)
Lemma replaced_navigation_is_ignored n r s p m : pending s = Some (m, p) -> m <> n -> endNavigation n r s = s.
Proof. intros Hp Hm. unfold endNavigation. rewrite Hp. by apply Nat.eqb_neq in Hm as ->. Qed.
End routing.

(** ** Routes *)

(** The predicate and the router agree, and no page is an account or profile page of the API. *)
Lemma routes_in_sync :
  Forall (fun p => isPublicPath p = true) publicRoutes /\
  Forall (fun r => isPublicPath r.1 = false) protectedRoutes.
Proof. split; repeat constructor. Qed.

Theorem missing_resource_never_logs_out p dataStatus :
  p ∈ publicRoutes ++ map fst protectedRoutes ->
  logsOut (onApiError (mkLoc p ("https://app.moddns.net" ++s p)) (Some 404) dataStatus) = false.
Proof.
  intros Hp. repeat (apply elem_of_cons in Hp as [-> | Hp]; [reflexivity|]). by apply elem_of_nil in Hp.
Qed.

Lemma missing_resource_never_logs_out_witness :
  logsOut (onApiError (mkLoc "/settings" ("https://app.moddns.net" ++s "/settings")) (Some 404) None) = false.
Proof. apply (missing_resource_never_logs_out "/settings" None). apply (bool_decide_unpack _). reflexivity. Defined.

(** ** Witnesses *)

(** A router that knows the paths without parameters. *)
Definition exactRoute (p : string) : Route :=
  match array_find (fun r => String.eqb p r.1) protectedRoutes with
  | Some r => ProtectedRoute r.1 r.2
  | None => if bool_decide (p ∈ publicRoutes) then PublicRoute p else NotFoundRoute
  end.

Definition exactRouter : Router.
Proof.
  refine (mkRouter exactRoute _ _ _).
  - intros p. unfold exactRoute. destruct (array_find _ _) as [[q k]|] eqn:E; [by apply array_find_elem in E as [? _]|].
    by case_bool_decide.
  - intros p Hp _. repeat (apply elem_of_cons in Hp as [-> | Hp]; [reflexivity|]). by apply elem_of_nil in Hp.
  - intros p k Hp. repeat (apply elem_of_cons in Hp as [[= -> ->] | Hp]; [reflexivity|]). by apply elem_of_nil in Hp.
Defined.

#[local] Existing Instance exactRouter.

Definition witness_profile1 : ModelProfile := MkModelProfile "acc" "1" "Home" "p1" None.
Definition witness_account : ModelAccount := MkModelAccount None (Some "a@example.com") None None (Some "acc") None None.
Definition witness_session : Session :=
  mkSession true (Some "true") (refreshProfiles [witness_profile1] (setAccount (Some witness_account) initialState))
    "/settings" [] [] None 0.

(** Logged out by the server, then sent to an unknown path and to a page of another tab's session. *)
Lemma unauthenticated_sees_public_pages_witness :
  let s := run session_step (boot (Some "true") initialState "/settings")
    [Bus sessionExpired; OtherTab (Some "true"); Navigate "/settings"; Answer (RootFetch 1) (Fulfilled witness_account) (Fulfilled [])] in
  view s = PublicPage "/login" /\ ((exists p, p ∈ publicRoutes /\ view s = PublicPage p) \/ view s = NotFoundPage).
Proof.
  split; [vm_compute; reflexivity|].
  apply (unauthenticated_sees_public_pages (Some "true") initialState "/settings"
    [Bus sessionExpired; OtherTab (Some "true"); Navigate "/settings"; Answer (RootFetch 1) (Fulfilled witness_account) (Fulfilled [])]
    root_loader). vm_compute. reflexivity.
Defined.

Example unknown_path_shows_not_found :
  view (session_step (boot None initialState "/login") (Navigate "/nowhere")) = NotFoundPage.
Proof. vm_compute. reflexivity. Qed.


Lemma next_session_fetches_witness :
  let s' := run session_step (logout None success witness_session) [Login true; Navigate "/tos"] in
  (startLoader root_loader s').2 = RedirectLogin \/ (startLoader root_loader s').2 = Waiting.
Proof.
  apply (next_session_fetches witness_session None success [Login true; Navigate "/tos"] root_loader).
  reflexivity.
Defined.

Lemma late_answer_reaches_next_session_witness :
  let s := session_step witness_session (Navigate "/setup") in
  let s' := run session_step s
    [Logout None success; Answer Revalidate (Fulfilled witness_account) (Fulfilled [witness_profile1]); Login true] in
  (startRootLoader s').2 = LoaderData (Some witness_account) [witness_profile1].
Proof.
  apply (late_answer_reaches_next_session (session_step witness_session (Navigate "/setup"))
           None success witness_account witness_profile1 [] true); [by left|reflexivity].
Defined.
