(* ===== verification/DataCollection.v ===== *)
(** * The data collection state machine

    [src/app/src/components/data-collection/model.ts]: the state behind the Statistics and Query
    logs cards, the transition a pending change makes (label, toast, note, confirmation dialog),
    the JSON Patch body that saves it, and the sentences that say how much a change deletes. *)

From S2P Require Import Prelude JsString JsDate ApiTypes.

(** ** Retentions *)

Inductive LogsRetention : Set := R1h | R6h | R1d | R1w | R1m.
Inductive StatsRetention : Set := S30d | S90d | S1y.

#[export] Instance LogsRetention_eq_dec : EqDecision LogsRetention.
Proof. solve_decision. Defined.
#[export] Instance StatsRetention_eq_dec : EqDecision StatsRetention.
Proof. solve_decision. Defined.

(** The wire value of a retention. *)
Definition logsRetentionValue (r : LogsRetention) : string :=
  match r with R1h => "1h" | R6h => "6h" | R1d => "1d" | R1w => "1w" | R1m => "1m" end.
Definition statsRetentionValue (r : StatsRetention) : string :=
  match r with S30d => "30d" | S90d => "90d" | S1y => "1y" end.

Definition LOGS_RETENTION_WORDS (r : LogsRetention) : string :=
  match r with
  | R1h => "1 hour" | R6h => "6 hours" | R1d => "1 day" | R1w => "1 week" | R1m => "1 month"
  end.

Definition LOGS_RETENTION_HOURS (r : LogsRetention) : Z :=
  match r with R1h => 1 | R6h => 6 | R1d => 24 | R1w => 168 | R1m => 720 end.

Record LogsRetentionOption := { lo_value : LogsRetention; lo_label : string }.

Definition LOGS_RETENTION_OPTIONS : list LogsRetentionOption :=
  [ {| lo_value := R1h; lo_label := "1 H" |};
    {| lo_value := R6h; lo_label := "6 H" |};
    {| lo_value := R1d; lo_label := "1 D" |};
    {| lo_value := R1w; lo_label := "1 W" |};
    {| lo_value := R1m; lo_label := "1 M" |} ].

(** [value in LOGS_RETENTION_WORDS], with the key it names. The names of [Object.prototype]
    members, which [in] also accepts, are no retention and are left out. *)
Definition logsRetentionOf (v : string) : option LogsRetention :=
  lo_value <$> array_find (fun o => String.eqb (logsRetentionValue (lo_value o)) v) LOGS_RETENTION_OPTIONS.

Record StatsRetentionOption := {
  so_value : StatsRetention;
  so_label : string;
  so_words : string;
  so_days : Z;
}.

Definition STATS_RETENTION_OPTIONS : list StatsRetentionOption :=
  [ {| so_value := S30d; so_label := "30 D"; so_words := "30 days"; so_days := 30 |};
    {| so_value := S90d; so_label := "90 D"; so_words := "90 days"; so_days := 90 |};
    {| so_value := S1y; so_label := "1 Y"; so_words := "1 year"; so_days := 365 |} ].

(** A value that is not a string is [None]: it equals no option. *)
Definition normalizeStatsRetention (value : option string) : StatsRetention :=
  match array_find (fun o => bool_decide (Some (statsRetentionValue (so_value o)) = value))
          STATS_RETENTION_OPTIONS with
  | Some o => so_value o
  | None => S30d
  end.

(** [STATS_RETENTION_OPTIONS.find(o => o.value === r)!]: every retention has its option. *)
Definition statsOption (r : StatsRetention) : StatsRetentionOption :=
  match r with
  | S30d => {| so_value := S30d; so_label := "30 D"; so_words := "30 days"; so_days := 30 |}
  | S90d => {| so_value := S90d; so_label := "90 D"; so_words := "90 days"; so_days := 90 |}
  | S1y => {| so_value := S1y; so_label := "1 Y"; so_words := "1 year"; so_days := 365 |}
  end.

Definition statsRetentionWords (value : option string) : string :=
  so_words (statsOption (normalizeStatsRetention value)).
Definition statsDays (r : StatsRetention) : Z := so_days (statsOption r).

Lemma statsOption_find r :
  array_find (fun o => bool_decide (so_value o = r)) STATS_RETENTION_OPTIONS = Some (statsOption r).
Proof. by destruct r. Qed.

Definition profileStatsRetention (profile : option ModelProfile) : StatsRetention :=
  normalizeStatsRetention
    (p ← profile; s ← p_settings p; st ← ps_statistics s; ss_retention st).

(** ** The state *)

Record DataCollectionState := mkState {
  stats : bool;
  logs : bool;
  statsRetention : StatsRetention;
  domains : bool;
  ips : bool;
  retention : LogsRetention;
}.

#[export] Instance state_eq_dec : EqDecision DataCollectionState.
Proof. solve_decision. Defined.

Definition fromProfile (profile : option ModelProfile) : DataCollectionState :=
  let settings := p ← profile; p_settings p in
  let lg := s ← settings; ps_logs s in
  let st := s ← settings; ps_statistics s in
  let r := l ← lg; ls_retention l in
  {| stats := (s ← st; ss_enabled s) ?? false;
     logs := (l ← lg; ls_enabled l) ?? false;
     statsRetention := normalizeStatsRetention (s ← st; ss_retention s);
     domains := (l ← lg; ls_log_domains l) ?? true;
     ips := (l ← lg; ls_log_clients_ips l) ?? false;
     retention := (r ≫= logsRetentionOf) ?? R1h |}.

Inductive StateKey : Set := S0 | S1 | S2 | S3.
#[export] Instance StateKey_eq_dec : EqDecision StateKey.
Proof. solve_decision. Defined.

Definition stateKey (s : DataCollectionState) : StateKey :=
  if logs s then (if stats s then S2 else S3)
  else (if stats s then S1 else S0).

(** ** Retention changes *)

Inductive Change : Set := Raise | Lower.
#[export] Instance Change_eq_dec : EqDecision Change.
Proof. solve_decision. Defined.

(** T14 / T15 apply only while statistics stay on. *)
Definition retentionChange (saved pending : DataCollectionState) : option Change :=
  if negb (stats saved) || negb (stats pending)
     || bool_decide (statsRetention saved = statsRetention pending)
  then None
  else Some (if statsDays (statsRetention saved) <? statsDays (statsRetention pending)
             then Raise else Lower).

(** T17 / T18 apply only while query logs stay on. *)
Definition logsRetentionChange (saved pending : DataCollectionState) : option Change :=
  if negb (logs saved) || negb (logs pending)
     || bool_decide (retention saved = retention pending)
  then None
  else Some (if LOGS_RETENTION_HOURS (retention saved) <? LOGS_RETENTION_HOURS (retention pending)
             then Raise else Lower).

Definition logsFieldsChanged (saved pending : DataCollectionState) : bool :=
  logs pending && (negb (Bool.eqb (domains pending) (domains saved))
                   || negb (Bool.eqb (ips pending) (ips saved))).

Definition UNDONE : string := "This action cannot be undone.".

(** ** What the stored counts cover *)

Record StatsHeld := mkHeld { nowMs : Z; oldestMs : Z; firstDayMs : Z }.

Definition floorDay (ms : Z) : Z := floor_to DAY_MS ms.

Definition days (n : Z) : string := show n ++s " " ++s (if n =? 1 then "day" else "days").

(** Spec row C25: the sentence goes after the first one. *)
Definition afterFirstSentence (body sentence : string) : string :=
  match indexOf body ". " with
  | None => body ++s " " ++s sentence
  | Some i => str_take (i + 1) body ++s " " ++s sentence ++s str_drop (i + 1) body
  end.

Section held.
Context {H : Host}.

Definition parseTime (v : option string) : option Z := v ≫= Date_parse.

(** Spec row C25: [None] without a counting start, which keeps the general copy. *)
Definition statsHeld (profile : option ModelProfile) (now : Z) : option StatsHeld :=
  let s := p ← profile; st ← p_settings p; ps_statistics st in
  if negb ((t ← s; ss_enabled t) ?? false) then None else
  let enabledAt := parseTime (t ← s; ss_enabled_at t) in
  let deletedAt := parseTime (t ← s; ss_history_deleted_at t) in
  match max_opt enabledAt deletedAt,
        max_opt (floorDay <$> enabledAt) ((fun d => floorDay d + DAY_MS) <$> deletedAt) with
  | Some start, Some startDay =>
      let limit := now - statsDays (normalizeStatsRetention (t ← s; ss_retention t)) * DAY_MS in
      Some {| nowMs := now;
              oldestMs := Z.max start limit;
              firstDayMs := Z.max startDay (floorDay limit) |}
  | _, _ => None
  end.

Definition monthDay (year : option string) : DateTimeFormatOptions :=
  {| o_weekday := None; o_month := Some "short"; o_day := Some "numeric"; o_year := year;
     o_hour := None; o_minute := None; o_timeZone := None; o_timeZoneName := None |}.

Definition localDate (ms now : Z) : string :=
  let sameYear := getFullYear ms =? getFullYear now in
  intl_format (monthDay (if sameYear then None else Some "numeric")) ms.

Definition localTime (ms now : Z) : string :=
  let clock month day :=
    {| o_weekday := None; o_month := month; o_day := day; o_year := None;
       o_hour := Some "2-digit"; o_minute := Some "2-digit";
       o_timeZone := None; o_timeZoneName := None |} in
  intl_format (if sameDateString ms now then clock None None
               else clock (Some "short") (Some "numeric")) ms.

Definition utcDate (ms : Z) : string :=
  intl_format {| o_weekday := None; o_month := Some "short"; o_day := Some "numeric"; o_year := None;
                 o_hour := None; o_minute := None; o_timeZone := Some "UTC";
                 o_timeZoneName := None |} ms.

(** Spec row C25: every stored count, for turning statistics off. *)
Definition heldSentence (h : StatsHeld) : string :=
  let n := (nowMs h - oldestMs h) / DAY_MS in
  if n <? 1 then "The counts go back to " ++s localTime (oldestMs h) (nowMs h) ++s "."
  else "The counts go back to " ++s localDate (oldestMs h) (nowMs h) ++s " (" ++s days n ++s ").".

Definition lostDays (h : StatsHeld) (keepDays : Z) : Z :=
  math_round_div (floorDay (nowMs h - keepDays * DAY_MS) - firstDayMs h) DAY_MS.

(** Spec row C25: the daily buckets a lowering deletes; [None] when there are none. *)
Definition lostSentence (h : StatsHeld) (keepDays : Z) : option string :=
  let cutoff := floorDay (nowMs h - keepDays * DAY_MS) in
  let n := lostDays h keepDays in
  if n <? 1 then None else
  let first := utcDate (firstDayMs h) in
  Some (if n =? 1 then "That is 1 day of counts, " ++s first ++s "."
        else "That is " ++s days n ++s " of counts, from " ++s first ++s " to "
             ++s utcDate (cutoff - DAY_MS) ++s ".").
End held.

(** ** Transitions *)

Record Dialog := mkDialog { title : string; body : string; confirm : string }.

Record Transition := mkTransition {
  t_id : string;
  t_label : string;
  t_toast : string;
  t_note : option string;
  t_dialog : option Dialog;
  t_retention : option Change;
  t_logsRetention : option Change;
  t_lost : option string;
  t_nothingOlder : bool;
}.

(** An object literal with only the state change's own members. *)
Definition plain (id label toast : string) (note : option string) (dialog : option Dialog) : Transition :=
  mkTransition id label toast note dialog None None None false.

Definition set_note (n : option string) (t : Transition) : Transition :=
  mkTransition (t_id t) (t_label t) (t_toast t) n (t_dialog t) (t_retention t)
    (t_logsRetention t) (t_lost t) (t_nothingOlder t).
Definition set_dialog (d : option Dialog) (t : Transition) : Transition :=
  mkTransition (t_id t) (t_label t) (t_toast t) (t_note t) d (t_retention t)
    (t_logsRetention t) (t_lost t) (t_nothingOlder t).
Definition set_retention (c : option Change) (t : Transition) : Transition :=
  mkTransition (t_id t) (t_label t) (t_toast t) (t_note t) (t_dialog t) c
    (t_logsRetention t) (t_lost t) (t_nothingOlder t).
Definition set_logsRetention (c : option Change) (t : Transition) : Transition :=
  mkTransition (t_id t) (t_label t) (t_toast t) (t_note t) (t_dialog t) (t_retention t)
    c (t_lost t) (t_nothingOlder t).
Definition set_lost (l : option string) (t : Transition) : Transition :=
  mkTransition (t_id t) (t_label t) (t_toast t) (t_note t) (t_dialog t) (t_retention t)
    (t_logsRetention t) l (t_nothingOlder t).
Definition set_nothingOlder (b : bool) (t : Transition) : Transition :=
  mkTransition (t_id t) (t_label t) (t_toast t) (t_note t) (t_dialog t) (t_retention t)
    (t_logsRetention t) (t_lost t) b.

(** [note: t.note ? `${t.note} ${note}` : note] *)
Definition appendNote (t : Transition) (note : string) : option string :=
  Some (if truthy_opt (t_note t) then (t_note t ?? "") ++s " " ++s note else note).

Definition FIRST : string := " The first counts appear at the next quarter hour.".

Definition stateTransition (from to : StateKey) (logsWords statsWords : string) : option Transition :=
  match from, to with
  | S0, S1 => Some (plain "T1" "Turn on statistics" "Statistics turned on."
      (Some ("modDNS will start counting this profile's queries per device and keep the counts for "
             ++s statsWords ++s ". No domains or addresses are stored." ++s FIRST))
      None)
  | S0, S2 => Some (plain "T2" "Turn on statistics and query logs" "Statistics and query logs turned on."
      (Some ("modDNS will record each query for " ++s logsWords ++s " and keep counts per device for "
             ++s statsWords ++s "." ++s FIRST))
      None)
  | S0, S3 => Some (plain "T3" "Turn on query logs" "Query logs turned on."
      (Some ("modDNS will record each query for " ++s logsWords ++s ". No counts are kept."))
      None)
  | S1, S0 => Some (plain "T4" "Turn off" "Statistics turned off and deleted." None
      (Some {| title := "Turn off statistics?";
               body := "All statistics for this profile will be permanently deleted. " ++s UNDONE;
               confirm := "Turn off and delete" |}))
  | S1, S2 => Some (plain "T5" "Turn on query logs" "Query logs turned on."
      (Some ("modDNS will also record each query for " ++s logsWords ++s "."))
      None)
  | S1, S3 => Some (plain "T6" "Save changes" "Data collection updated."
      (Some ("modDNS will record each query for " ++s logsWords ++s ". No counts are kept."))
      (Some {| title := "Switch to query logs only?";
               body := "All statistics for this profile will be permanently deleted, and modDNS will start recording each query for "
                       ++s logsWords ++s ". " ++s UNDONE;
               confirm := "Switch and delete statistics" |}))
  | S2, S0 => Some (plain "T7" "Turn off" "Data collection turned off. Logs and statistics deleted." None
      (Some {| title := "Turn off data collection?";
               body := "All query logs and statistics for this profile will be permanently deleted. " ++s UNDONE;
               confirm := "Turn off and delete" |}))
  | S2, S1 => Some (plain "T8" "Save changes" "Query logs turned off and deleted." None
      (Some {| title := "Turn off query logs?";
               body := "All query logs for this profile will be permanently deleted. Statistics stay on. " ++s UNDONE;
               confirm := "Delete logs" |}))
  | S2, S3 => Some (plain "T9" "Save changes" "Statistics turned off and deleted." None
      (Some {| title := "Stop keeping statistics?";
               body := "All statistics for this profile will be permanently deleted. Query logs stay on. " ++s UNDONE;
               confirm := "Delete statistics" |}))
  | S3, S0 => Some (plain "T10" "Turn off" "Query logs turned off and deleted." None
      (Some {| title := "Turn off query logs?";
               body := "All query logs for this profile will be permanently deleted. " ++s UNDONE;
               confirm := "Turn off and delete" |}))
  | S3, S1 => Some (plain "T11" "Save changes" "Data collection updated."
      (Some ("modDNS will start counting this profile's queries per device and keep the counts for "
             ++s statsWords ++s "." ++s FIRST))
      (Some {| title := "Switch to statistics?";
               body := "All query logs for this profile will be permanently deleted, and modDNS will start counting queries per device for "
                       ++s statsWords ++s ". " ++s UNDONE;
               confirm := "Switch and delete logs" |}))
  | S3, S2 => Some (plain "T12" "Turn on statistics" "Statistics turned on."
      (Some ("modDNS will also keep counts per device for " ++s statsWords ++s "." ++s FIRST))
      None)
  | _, _ => None
  end.

(** Spec row C25: turning statistics off deletes every stored count. *)
Definition DELETES_STATS : list string := ["T4"; "T6"; "T7"; "T9"].

(** [/^T([4-9]|1[01])$/.test(t.id)]: the dialog is a state change's own. *)
Definition stateDialog (t : Transition) : bool :=
  bool_decide (t_id t ∈ ["T4"; "T5"; "T6"; "T7"; "T8"; "T9"; "T10"; "T11"]).

Definition logsKeepNote (logsWords : string) : string :=
  "modDNS will keep this profile's query logs for up to " ++s logsWords ++s ".".
Definition logsOlder (logsWords : string) : string :=
  "Query logs older than " ++s logsWords ++s " will be permanently deleted.".

(** T17 / T18 with nothing else in the save. *)
Definition logsRetentionAlone (change : Change) (logsWords : string) : Transition :=
  match change with
  | Raise =>
      set_logsRetention (Some Raise)
        (plain "T17" ("Keep for " ++s logsWords) ("Query logs are now kept for " ++s logsWords ++s ".")
           (Some (logsKeepNote logsWords)) None)
  | Lower =>
      set_logsRetention (Some Lower)
        (plain "T18" "Save changes"
           ("Query logs are now kept for " ++s logsWords ++s ". Older logs deleted.") None
           (Some {| title := "Keep query logs for " ++s logsWords ++s "?";
                    body := logsOlder logsWords ++s " " ++s UNDONE;
                    confirm := "Delete older logs" |}))
  end.

(** T17 / T18 added to another change: the raise note, or the lowering sentence in the one dialog. *)
Definition withLogsRetention (t : Transition) (change : option Change) (logsWords : string) : Transition :=
  match change with
  | Some Raise => set_logsRetention (Some Raise) (set_note (appendNote t (logsKeepNote logsWords)) t)
  | None => t
  | Some Lower =>
      let older := logsOlder logsWords in
      set_logsRetention (Some Lower)
        match t_dialog t with
        | None =>
            set_dialog (Some {| title := "Keep query logs for " ++s logsWords ++s "?";
                                body := older ++s " " ++s UNDONE;
                                confirm := "Delete older logs" |}) t
        | Some d =>
            let own := stateDialog t in
            set_dialog (Some {| title := if own then title d else "Delete older counts and logs?";
                                body := replaceFirst (body d) UNDONE (older ++s " " ++s UNDONE);
                                confirm := if own then confirm d else "Delete older data" |}) t
        end
  end.

Section transition.
Context {H : Host}.

Definition withHeld (t : option Transition) (h : option StatsHeld) : option Transition :=
  match t, h with
  | Some t', Some h' =>
      match t_dialog t' with
      | Some d =>
          if bool_decide (t_id t' ∈ DELETES_STATS)
          then Some (set_dialog (Some {| title := title d;
                                         body := afterFirstSentence (body d) (heldSentence h');
                                         confirm := confirm d |}) t')
          else t
      | None => t
      end
  | _, _ => t
  end.

(** [lost ? `${lost} ` : ""] and its mirror image. *)
Definition lostThenSpace (lost : option string) : string :=
  match lost with Some l => if truthy l then l ++s " " else "" | None => "" end.
Definition spaceThenLost (lost : option string) : string :=
  match lost with Some l => if truthy l then " " ++s l else "" | None => "" end.

Definition countsOlder (statsWords : string) : string :=
  "Counts older than " ++s statsWords ++s " will be permanently deleted.".
Definition keepNote (statsWords : string) : string :=
  "No counts are older than " ++s statsWords ++s " yet, so nothing is deleted.".
Definition raiseNote (statsWords : string) : string :=
  "modDNS will keep this profile's counts for up to " ++s statsWords ++s ".".

(** Only the statistics retention changes (T14, T15). *)
Definition retentionAlone (change : Change) (lost : option string) (nothingOlder : bool)
    (statsWords : string) : Transition :=
  match change with
  | Raise =>
      set_retention (Some Raise)
        (plain "T14" ("Keep for " ++s statsWords) ("Statistics are now kept for " ++s statsWords ++s ".")
           (Some (raiseNote statsWords)) None)
  | Lower =>
      if nothingOlder then
        set_nothingOlder true (set_retention (Some Lower)
          (plain "T15" ("Keep for " ++s statsWords) ("Statistics are now kept for " ++s statsWords ++s ".")
             (Some (keepNote statsWords)) None))
      else
        set_lost lost (set_retention (Some Lower)
          (plain "T15" "Save changes"
             ("Statistics are now kept for " ++s statsWords ++s ". Older counts deleted.") None
             (Some {| title := "Keep statistics for " ++s statsWords ++s "?";
                      body := countsOlder statsWords ++s " " ++s lostThenSpace lost ++s UNDONE;
                      confirm := "Delete older counts" |})))
  end.

(** The statistics retention change added to another change. *)
Definition withRetention (t : Transition) (change : option Change) (lost : option string)
    (nothingOlder : bool) (statsWords : string) : Transition :=
  match change with
  | Some Raise => set_retention change (set_note (appendNote t (raiseNote statsWords)) t)
  | Some Lower =>
      if nothingOlder then
        set_nothingOlder true (set_retention change
          match t_dialog t with
          | Some _ => t
          | None => set_note (appendNote t (keepNote statsWords)) t
          end)
      else
        let older := countsOlder statsWords ++s spaceThenLost lost in
        set_lost lost (set_retention change (set_dialog (Some
          match t_dialog t with
          | Some d => {| title := title d;
                         body := replaceFirst (body d) UNDONE (older ++s " " ++s UNDONE);
                         confirm := confirm d |}
          | None => {| title := "Keep statistics for " ++s statsWords ++s "?";
                       body := older ++s " " ++s UNDONE;
                       confirm := "Delete older counts" |}
          end) t))
  | None => t
  end.

Definition lostFor (saved pending : DataCollectionState) (held : option StatsHeld) : option string :=
  match retentionChange saved pending, held with
  | Some Lower, Some h => lostSentence h (statsDays (statsRetention pending))
  | _, _ => None
  end.

Definition nothingOlderFor (saved pending : DataCollectionState) (held : option StatsHeld) : bool :=
  bool_decide (retentionChange saved pending = Some Lower) && bool_decide (is_Some held)
  && bool_decide (lostFor saved pending held = None).

Definition transitionFor (saved pending : DataCollectionState) (held : option StatsHeld)
    : option Transition :=
  let logsWords := LOGS_RETENTION_WORDS (retention pending) in
  let statsWords := statsRetentionWords (Some (statsRetentionValue (statsRetention pending))) in
  let change := retentionChange saved pending in
  let logsChange := logsRetentionChange saved pending in
  let fields := logsFieldsChanged saved pending in
  let logsSubs := fields || bool_decide (is_Some logsChange) in
  let lost := lostFor saved pending held in
  let nothingOlder := nothingOlderFor saved pending held in
  let finish t := Some (withLogsRetention (withRetention t change lost nothingOlder statsWords)
                          logsChange logsWords) in
  match withHeld (stateTransition (stateKey saved) (stateKey pending) logsWords statsWords) held with
  | Some t => finish t
  | None =>
      match change, logsSubs, logsChange, fields with
      | Some c, false, _, _ => Some (retentionAlone c lost nothingOlder statsWords)
      | None, _, Some lc, false => Some (logsRetentionAlone lc logsWords)
      | None, false, _, _ => None
      | _, _, _, _ => finish (plain "T13" "Save changes" "Data collection updated." None None)
      end
  end.
End transition.

(** ** Saving *)

Definition replace (p : ModelProfileUpdatePathEnum) (v : UpdateValue) : ModelProfileUpdate :=
  {| operation := Replace; path := p; value := v |}.

Definition push_if (b : bool) (u : ModelProfileUpdate) (us : list ModelProfileUpdate) :=
  if b then us ++ [u] else us.

(** One PATCH body: the enabled paths that change, plus the staged sub-options of the checked cards. *)
Definition buildUpdates (saved pending : DataCollectionState) : list ModelProfileUpdate :=
  let us := [] in
  let us := push_if (negb (Bool.eqb (stats pending) (stats saved)))
              (replace SettingsStatisticsEnabled (VBool (stats pending))) us in
  let us := push_if (negb (Bool.eqb (logs pending) (logs saved)))
              (replace SettingsLogsEnabled (VBool (logs pending))) us in
  let us := push_if (stats pending && negb (bool_decide (statsRetention pending = statsRetention saved)))
              (replace SettingsStatisticsRetention (VString (statsRetentionValue (statsRetention pending)))) us in
  if logs pending then
    let us := push_if (negb (Bool.eqb (domains pending) (domains saved)))
                (replace SettingsLogsLogDomains (VBool (domains pending))) us in
    let us := push_if (negb (Bool.eqb (ips pending) (ips saved)))
                (replace SettingsLogsLogClientsIps (VBool (ips pending))) us in
    push_if (negb (bool_decide (retention pending = retention saved)))
      (replace SettingsLogsRetention (VString (logsRetentionValue (retention pending)))) us
  else us.

(** I26: what an imported profile starts collecting. *)
Definition importedCollection (settings : option ModelExportedSettings) : option string :=
  let statsPart :=
    if (s ← settings; st ← xs_statistics s; xst_enabled st) ?? false
    then ["query counts per device, kept for " ++s statsRetentionWords (Some "30d")] else [] in
  let lg := s ← settings; xs_logs s in
  let logsPart :=
    if (l ← lg; xl_enabled l) ?? false then
      let fields := (if (l ← lg; xl_logDomains l) ?? false then ["domain"] else [])
                    ++ (if (l ← lg; xl_logClientsIPs l) ?? false then ["client IP address"] else []) in
      let r := (l ← lg; v ← xl_retention l; logsRetentionOf v) ?? R1h in
      let withFields := match fields with [] => "" | _ => " with its " ++s join " and " fields end in
      ["a record of each query" ++s withFields ++s ", kept for " ++s LOGS_RETENTION_WORDS r]
    else [] in
  match statsPart ++ logsPart with [] => None | parts => Some (join "; " parts) end.
