(* ===== verification/DataCollectionSpec.v ===== *)
(** * The data collection contract

    What a save promises: a change is offered exactly when there is something to save, a
    confirmation dialog is shown exactly when data is deleted and names what is, and the PATCH body
    brings the stored settings to the pending ones. *)

From S2P Require Import Prelude JsString JsDate ApiTypes DataCollection.

(** ** Helper facts about the words and the option tables *)

Lemma statsDays_inj r1 r2 : statsDays r1 = statsDays r2 -> r1 = r2.
Proof. by destruct r1, r2. Qed.

Lemma normalize_value r : normalizeStatsRetention (Some (statsRetentionValue r)) = r.
Proof. by destruct r. Qed.

Lemma logsRetentionOf_value r : logsRetentionOf (logsRetentionValue r) = Some r.
Proof. by destruct r. Qed.

Lemma stateTransition_None from to lw sw : stateTransition from to lw sw = None <-> from = to.
Proof. destruct from, to; cbn; split; congruence. Qed.

Lemma stateKey_eq s p : stateKey s = stateKey p <-> stats s = stats p /\ logs s = logs p.
Proof.
  unfold stateKey. destruct (stats s), (logs s), (stats p), (logs p); split; intuition congruence.
Qed.

Lemma stateKey_eq_l s p : stats s = stats p -> logs s = logs p -> stateKey s = stateKey p.
Proof. intros. by apply stateKey_eq. Qed.

(** A retention changes only while its half of the collection stays on. *)
Lemma retentionChange_on s p c :
  retentionChange s p = Some c -> stats s = true /\ stats p = true /\ statsRetention s <> statsRetention p.
Proof.
  unfold retentionChange. destruct (stats s), (stats p); cbn; try done. case_bool_decide; [done|]. auto.
Qed.
Lemma logsRetentionChange_on s p c :
  logsRetentionChange s p = Some c -> logs s = true /\ logs p = true /\ retention s <> retention p.
Proof.
  unfold logsRetentionChange. destruct (logs s), (logs p); cbn; try done. case_bool_decide; [done|]. auto.
Qed.

Lemma lostFor_lower {H : Host} s p h l : lostFor s p h = Some l -> retentionChange s p = Some Lower.
Proof. unfold lostFor. by destruct (retentionChange s p) as [[]|], h. Qed.

(** ** What a change deletes *)

Definition turnsOffStats (s p : DataCollectionState) : bool := stats s && negb (stats p).
Definition turnsOffLogs (s p : DataCollectionState) : bool := logs s && negb (logs p).

(** Counts kept for fewer days go, unless the held counts are known to be younger. *)
Definition lowersStats {H : Host} (s p : DataCollectionState) (h : option StatsHeld) : bool :=
  stats s && stats p && (statsDays (statsRetention p) <? statsDays (statsRetention s))
  && match h with None => true | Some h' => 1 <=? lostDays h' (statsDays (statsRetention p)) end.
(** Query logs are kept for fewer hours. *)
Definition lowersLogs (s p : DataCollectionState) : bool :=
  logs s && logs p && (LOGS_RETENTION_HOURS (retention p) <? LOGS_RETENTION_HOURS (retention s)).

Definition deletesData {H : Host} (s p : DataCollectionState) (h : option StatsHeld) : bool :=
  turnsOffStats s p || turnsOffLogs s p || lowersStats s p h || lowersLogs s p.

(** A transition with a dialog of its own deletes one half of the collection, and conversely. *)
Lemma stateTransition_dialog s p lw sw t :
  stateTransition (stateKey s) (stateKey p) lw sw = Some t ->
  (is_Some (t_dialog t) <-> turnsOffStats s p || turnsOffLogs s p = true).
Proof.
  unfold stateKey, turnsOffStats, turnsOffLogs.
  destruct (stats s), (logs s), (stats p), (logs p); cbn; intros [= <-]; cbn;
    split; intros Hx; try done; try (by eexists); by destruct Hx.
Qed.

Section contract.
Context {H : Host}.

Lemma withHeld_None t h : withHeld t h = None <-> t = None.
Proof. unfold withHeld. destruct t as [t|], h; cases; split; congruence. Qed.

(** The held sentence changes the dialog's body and nothing else. *)
Lemma withHeld_Some t h t' :
  withHeld (Some t) h = Some t' ->
  t' = t \/
  exists d hd, t_dialog t = Some d /\ h = Some hd /\ t_id t ∈ DELETES_STATS /\
    t' = set_dialog (Some {| title := title d; confirm := confirm d;
                             body := afterFirstSentence (body d) (heldSentence hd) |}) t.
Proof.
  unfold withHeld. destruct h as [hd|]; [|intros [= <-]; auto].
  destruct (t_dialog t) as [d|] eqn:Hd; [|intros [= <-]; auto].
  case_bool_decide; intros [= <-]; [|auto]. right. by exists d, hd.
Qed.

Lemma withHeld_dialog t h t' :
  withHeld (Some t) h = Some t' -> is_Some (t_dialog t') <-> is_Some (t_dialog t).
Proof. intros [->|(d & hd & Hd & _ & _ & ->)]%withHeld_Some; [done|]. rewrite Hd. cbn. by split; eexists. Qed.

Lemma withRetention_dialog t c lost older sw :
  is_Some (t_dialog (withRetention t c lost older sw))
  <-> is_Some (t_dialog t) \/ (c = Some Lower /\ older = false).
Proof.
  destruct c as [[]|]; cbn; [|destruct older; cbn; [destruct (t_dialog t) eqn:Hd; cbn; rewrite ?Hd|]|];
    split; intros; repeat match goal with
      | H : _ \/ _ |- _ => destruct H
      | H : _ /\ _ |- _ => destruct H
      | H : is_Some _ |- _ => destruct H end; try done; eauto.
Qed.

Lemma withLogsRetention_dialog t c lw :
  is_Some (t_dialog (withLogsRetention t c lw)) <-> is_Some (t_dialog t) \/ c = Some Lower.
Proof.
  destruct c as [[]|]; cbn; [| |].
  - split; [auto|]. intros [|]; [done|congruence].
  - destruct (t_dialog t); cbn; split; intros; eauto.
  - split; [auto|]. intros [|]; [done|congruence].
Qed.

Lemma logsHours_inj r r' : LOGS_RETENTION_HOURS r = LOGS_RETENTION_HOURS r' -> r = r'.
Proof. by destruct r, r'. Qed.

(** Both kinds of lowering, in the numbers they compare. *)
Lemma retentionChange_lower s p :
  retentionChange s p = Some Lower <->
  stats s = true /\ stats p = true /\ statsDays (statsRetention p) < statsDays (statsRetention s).
Proof.
  unfold retentionChange. destruct (stats s), (stats p); cbn [negb orb]; try naive_solver.
  case_bool_decide as Hr; [rewrite Hr; split; [done|lia]|].
  assert (statsDays (statsRetention s) <> statsDays (statsRetention p)) by (intros ?%statsDays_inj; done).
  destruct (Z.ltb_spec (statsDays (statsRetention s)) (statsDays (statsRetention p)));
    split; try done; intros; [lia|auto with lia].
Qed.
Lemma logsRetentionChange_lower s p :
  logsRetentionChange s p = Some Lower <->
  logs s = true /\ logs p = true /\
  LOGS_RETENTION_HOURS (retention p) < LOGS_RETENTION_HOURS (retention s).
Proof.
  unfold logsRetentionChange. destruct (logs s), (logs p); cbn [negb orb]; try naive_solver.
  case_bool_decide as Hr; [rewrite Hr; split; [done|lia]|].
  assert (LOGS_RETENTION_HOURS (retention s) <> LOGS_RETENTION_HOURS (retention p)) by (intros ?%logsHours_inj; done).
  destruct (Z.ltb_spec (LOGS_RETENTION_HOURS (retention s)) (LOGS_RETENTION_HOURS (retention p)));
    split; try done; intros; [lia|auto with lia].
Qed.

Lemma nothingOlderFor_false s p h :
  retentionChange s p = Some Lower ->
  nothingOlderFor s p h = false <->
  match h with None => true | Some h' => 1 <=? lostDays h' (statsDays (statsRetention p)) end = true.
Proof.
  intros Hc. unfold nothingOlderFor, lostFor. rewrite Hc. rewrite bool_decide_eq_true_2 by done.
  destruct h as [h|]; cbn [andb]; [|by rewrite bool_decide_eq_false_2 by (by intros [])].
  rewrite bool_decide_eq_true_2 by done. cbn [andb]. unfold lostSentence.
  rewrite bool_decide_eq_false, Z.leb_le.
  destruct (Z.ltb_spec (lostDays h (statsDays (statsRetention p))) 1); split; try done; try lia.
Qed.

Lemma lowersStats_spec s p h :
  lowersStats s p h = true <-> retentionChange s p = Some Lower /\ nothingOlderFor s p h = false.
Proof.
  unfold lowersStats. rewrite !andb_true_iff, Z.ltb_lt.
  split; [intros [[[? ?] ?] Ho]|intros [Hc Ho]].
  - assert (retentionChange s p = Some Lower) as Hc by (by apply retentionChange_lower).
    split; [done|]. by apply nothingOlderFor_false.
  - apply nothingOlderFor_false in Ho; [|done]. apply retentionChange_lower in Hc. tauto.
Qed.
Lemma lowersLogs_spec s p : lowersLogs s p = true <-> logsRetentionChange s p = Some Lower.
Proof. unfold lowersLogs. rewrite logsRetentionChange_lower, !andb_true_iff, Z.ltb_lt. tauto. Qed.

Lemma deletesData_spec s p h :
  deletesData s p h = true <->
  turnsOffStats s p || turnsOffLogs s p = true
  \/ (retentionChange s p = Some Lower /\ nothingOlderFor s p h = false)
  \/ logsRetentionChange s p = Some Lower.
Proof. unfold deletesData. rewrite !orb_true_iff, lowersStats_spec, lowersLogs_spec. tauto. Qed.

Lemma same_key_deletes s p :
  stateKey s = stateKey p -> turnsOffStats s p || turnsOffLogs s p = false.
Proof.
  intros [Hs Hl]%stateKey_eq. unfold turnsOffStats, turnsOffLogs. rewrite Hs, Hl.
  by destruct (stats p), (logs p).
Qed.

(** The cases of [transitionFor]. *)
Lemma transitionFor_cases s p h t :
  transitionFor s p h = Some t ->
  let lw := LOGS_RETENTION_WORDS (retention p) in
  let sw := so_words (statsOption (statsRetention p)) in
  let finish t0 := withLogsRetention
    (withRetention t0 (retentionChange s p) (lostFor s p h) (nothingOlderFor s p h) sw)
    (logsRetentionChange s p) lw in
  (exists t0 t1, stateTransition (stateKey s) (stateKey p) lw sw = Some t0 /\
     withHeld (Some t0) h = Some t1 /\ t = finish t1)
  \/ (stateKey s = stateKey p /\ (exists c, retentionChange s p = Some c /\
        t = retentionAlone c (lostFor s p h) (nothingOlderFor s p h) sw) /\
      logsRetentionChange s p = None)
  \/ (stateKey s = stateKey p /\ retentionChange s p = None /\
      exists c, logsRetentionChange s p = Some c /\ t = logsRetentionAlone c lw)
  \/ (stateKey s = stateKey p /\ t = finish (plain "T13" "Save changes" "Data collection updated." None None)).
Proof.
  unfold transitionFor, statsRetentionWords. rewrite normalize_value. cbv zeta.
  destruct (stateTransition _ _ _ _) as [t0|] eqn:Hst.
  - destruct (withHeld (Some t0) h) as [t1|] eqn:Hw; [|by apply withHeld_None in Hw].
    intros [= <-]. left. eauto.
  - apply stateTransition_None in Hst. cbn.
    destruct (retentionChange s p) as [c|], (logsRetentionChange s p) as [lc|];
      destruct (logsFieldsChanged s p); cbn; rewrite ?bool_decide_eq_true_2 by eauto;
      rewrite ?bool_decide_eq_false_2 by (intros [? ?]; done);
      intros [= <-]; right; eauto 10.
Qed.

Lemma dialog_deletes s p h t :
  transitionFor s p h = Some t -> (is_Some (t_dialog t) <-> deletesData s p h = true).
Proof.
  intros Ht. rewrite deletesData_spec.
  destruct (transitionFor_cases s p h t Ht) as
    [(t0 & t1 & Hst & Hw & ->)|[(Hk & (c & Hc & ->) & Hl)|[(Hk & Hc & c & Hl & ->)|(Hk & ->)]]].
  - rewrite withLogsRetention_dialog, withRetention_dialog, (withHeld_dialog _ _ _ Hw),
      (stateTransition_dialog _ _ _ _ _ Hst). tauto.
  - rewrite (same_key_deletes s p Hk), Hc, Hl. destruct c; cbn; [|destruct (nothingOlderFor s p h); cbn];
      split; intros Hx; repeat match goal with
      | H : _ \/ _ |- _ => destruct H | H : _ /\ _ |- _ => destruct H | H : is_Some _ |- _ => destruct H
      end; try done; eauto.
  - rewrite (same_key_deletes s p Hk), Hc, Hl. destruct c; cbn;
      split; intros Hx; repeat match goal with
      | H : _ \/ _ |- _ => destruct H | H : _ /\ _ |- _ => destruct H | H : is_Some _ |- _ => destruct H
      end; try done; eauto.
  - rewrite withLogsRetention_dialog, withRetention_dialog, (same_key_deletes s p Hk). cbn.
    rewrite is_Some_alt. intuition congruence.
Qed.

(** C4: a change asks for confirmation exactly when saving it deletes stored data: it turns
    statistics or query logs off, lowers the logs retention, or lowers the statistics retention with
    counts old enough to go *)
Theorem dialog_iff_deletes s p h t :
  transitionFor s p h = Some t -> (is_Some (t_dialog t) <-> deletesData s p h = true).
Proof. apply dialog_deletes. Qed.

End contract.

(** ** No change *)

(** The pending state shows what is saved: the enabled halves agree, and so do the options of the
    halves that are on. *)
Definition agrees (s p : DataCollectionState) : Prop :=
  stats s = stats p /\ logs s = logs p /\
  (stats p = true -> statsRetention s = statsRetention p) /\
  (logs p = true -> domains s = domains p /\ ips s = ips p /\ retention s = retention p).

Lemma push_if_nil b u us : push_if b u us = [] <-> b = false /\ us = [].
Proof. unfold push_if. destruct b; [|tauto]. split; [|intros [? _]; done]. by destruct us. Qed.

Lemma eqb_neg_false a b : negb (Bool.eqb a b) = false <-> a = b.
Proof. by rewrite negb_false_iff, eqb_true_iff. Qed.

Lemma bool_decide_neg_false (P : Prop) `{Decision P} : negb (bool_decide P) = false <-> P.
Proof. by rewrite negb_false_iff, bool_decide_eq_true. Qed.

#[local] Hint Rewrite push_if_nil eqb_neg_false @bool_decide_neg_false : updates.

Lemma buildUpdates_nil s p : buildUpdates s p = [] <-> agrees s p.
Proof.
  unfold buildUpdates, agrees. destruct (stats p), (logs p); cbn [andb]; cbv zeta;
    autorewrite with updates; intuition congruence.
Qed.

Lemma retentionChange_None s p :
  retentionChange s p = None <-> (stats s = true -> stats p = true -> statsRetention s = statsRetention p).
Proof.
  unfold retentionChange. destruct (stats s), (stats p); cbn; try (split; done).
  case_bool_decide; split; intuition congruence.
Qed.
Lemma logsRetentionChange_None s p :
  logsRetentionChange s p = None <-> (logs s = true -> logs p = true -> retention s = retention p).
Proof.
  unfold logsRetentionChange. destruct (logs s), (logs p); cbn; try (split; done).
  case_bool_decide; split; intuition congruence.
Qed.
Lemma logsFieldsChanged_false s p :
  logsFieldsChanged s p = false <-> (logs p = true -> domains s = domains p /\ ips s = ips p).
Proof.
  unfold logsFieldsChanged. destruct (logs p); cbn; [|split; done].
  rewrite orb_false_iff, !eqb_neg_false. intuition congruence.
Qed.

Lemma transitionFor_None {H : Host} s p h :
  transitionFor s p h = None <->
  stateKey s = stateKey p /\ retentionChange s p = None /\ logsRetentionChange s p = None
  /\ logsFieldsChanged s p = false.
Proof.
  unfold transitionFor. cbv zeta.
  destruct (stateTransition _ _ _ _) as [t0|] eqn:Hst.
  - assert (stateKey s <> stateKey p) as Hne.
    { intros E. rewrite (proj2 (stateTransition_None _ _ _ _) E) in Hst. done. }
    destruct (withHeld (Some t0) h) as [t1|] eqn:Hw; [|by apply withHeld_None in Hw]. split; [done|tauto].
  - apply stateTransition_None in Hst. cbn.
    destruct (retentionChange s p), (logsRetentionChange s p), (logsFieldsChanged s p); cbn;
      rewrite ?bool_decide_eq_true_2 by eauto;
      rewrite ?bool_decide_eq_false_2 by (intros [? ?]; done); cbn; intuition congruence.
Qed.

Theorem offered_iff_updates {H : Host} s p h :
  transitionFor s p h = None <-> buildUpdates s p = [].
Proof.
  rewrite transitionFor_None, buildUpdates_nil, stateKey_eq, retentionChange_None,
    logsRetentionChange_None, logsFieldsChanged_false.
  unfold agrees. split.
  - intros ((Hs & Hl) & Hr & Hlr & Hf). rewrite Hs, Hl in *. naive_solver.
  - intros (Hs & Hl & Hr & Ho). rewrite Hs, Hl in *. naive_solver.
Qed.

(** ** Applying the PATCH body *)

(** The settings a [replace] operation leaves, per path: what the profile endpoint promises. *)
Definition apply_update (s : DataCollectionState) (u : ModelProfileUpdate) : DataCollectionState :=
  match path u, value u with
  | SettingsStatisticsEnabled, VBool b => mkState b (logs s) (statsRetention s) (domains s) (ips s) (retention s)
  | SettingsLogsEnabled, VBool b => mkState (stats s) b (statsRetention s) (domains s) (ips s) (retention s)
  | SettingsStatisticsRetention, VString v =>
      mkState (stats s) (logs s) (normalizeStatsRetention (Some v)) (domains s) (ips s) (retention s)
  | SettingsLogsLogDomains, VBool b => mkState (stats s) (logs s) (statsRetention s) b (ips s) (retention s)
  | SettingsLogsLogClientsIps, VBool b => mkState (stats s) (logs s) (statsRetention s) (domains s) b (retention s)
  | SettingsLogsRetention, VString v =>
      mkState (stats s) (logs s) (statsRetention s) (domains s) (ips s) (logsRetentionOf v ?? retention s)
  | _, _ => s
  end.

Definition apply_updates : DataCollectionState -> list ModelProfileUpdate -> DataCollectionState :=
  foldl apply_update.

(** The pending state with the options of unchecked cards left as saved. *)
Definition committed (s p : DataCollectionState) : DataCollectionState :=
  {| stats := stats p; logs := logs p;
     statsRetention := if stats p then statsRetention p else statsRetention s;
     domains := if logs p then domains p else domains s;
     ips := if logs p then ips p else ips s;
     retention := if logs p then retention p else retention s |}.

Lemma apply_push_if s b u us :
  apply_updates s (push_if b u us) =
  if b then apply_update (apply_updates s us) u else apply_updates s us.
Proof. unfold push_if. destruct b; [|done]. unfold apply_updates. by rewrite foldl_app. Qed.

(** Setting a field to its pending value, skipped when it already has it. *)
Lemma set_if_differs {A} (X : bool -> A) (p s : bool) :
  (if negb (Bool.eqb p s) then X p else X s) = X p.
Proof. by destruct p, s. Qed.
Lemma set_if_differs_dec {A B} `{EqDecision B} (X : B -> A) (b : bool) (p s : B) :
  (if b && negb (bool_decide (p = s)) then X p else X s) = X (if b then p else s).
Proof. destruct b; cbn; [|done]. case_bool_decide; by subst. Qed.

Lemma apply_buildUpdates s p : apply_updates s (buildUpdates s p) = committed s p.
Proof.
  destruct s as [ss sl sr sd si sw], p as [ps pl pr pd pi pw]. unfold buildUpdates, committed. cbv zeta.
  cbn [stats logs statsRetention domains ips retention].
  assert (forall us, apply_updates (mkState ss sl sr sd si sw) us = mkState ps pl (if ps then pr else sr) sd si sw ->
    apply_updates (mkState ss sl sr sd si sw)
      (push_if (negb (bool_decide (pw = sw))) (replace SettingsLogsRetention (VString (logsRetentionValue pw)))
        (push_if (negb (Bool.eqb pi si)) (replace SettingsLogsLogClientsIps (VBool pi))
          (push_if (negb (Bool.eqb pd sd)) (replace SettingsLogsLogDomains (VBool pd)) us)))
    = mkState ps pl (if ps then pr else sr) pd pi pw) as Hlogs.
  { intros us Hus. rewrite !apply_push_if, Hus. cbn [apply_update replace path value stats logs statsRetention domains ips retention].
    rewrite (set_if_differs (fun b => mkState ps pl (if ps then pr else sr) b si sw) pd sd).
    cbn [apply_update replace path value stats logs statsRetention domains ips retention].
    rewrite (set_if_differs (fun b => mkState ps pl (if ps then pr else sr) pd b sw) pi si).
    cbn [apply_update replace path value stats logs statsRetention domains ips retention].
    rewrite logsRetentionOf_value. apply (set_if_differs_dec (mkState ps pl _ pd pi) true). }
  set (us := push_if (ps && _) _ _).
  assert (apply_updates (mkState ss sl sr sd si sw) us = mkState ps pl (if ps then pr else sr) sd si sw) as Hus.
  { unfold us. rewrite !apply_push_if. cbn [apply_updates foldl apply_update replace path value stats logs statsRetention domains ips retention].
    rewrite (set_if_differs (fun b => mkState b sl sr sd si sw) ps ss).
    cbn [apply_update replace path value stats logs statsRetention domains ips retention].
    rewrite (set_if_differs (fun b => mkState ps b sr sd si sw) pl sl).
    cbn [apply_update replace path value stats logs statsRetention domains ips retention].
    rewrite normalize_value. apply (set_if_differs_dec (fun r => mkState ps pl r sd si sw)). }
  destruct pl; [by apply Hlogs|done].
Qed.

(** C1: applying the PATCH body of buildUpdates to the saved settings gives the pending state, with
    the options of cards that are unchecked left as saved *)
Theorem updates_commit s p : apply_updates s (buildUpdates s p) = committed s p.
Proof. apply apply_buildUpdates. Qed.

Theorem turn_off_sends_false s p :
  stats p = false -> logs p = false ->
  Forall (fun u => value u = VBool false) (buildUpdates s p).
Proof.
  intros Hs Hl. unfold buildUpdates, push_if. rewrite Hs, Hl. cbn.
  destruct (stats s), (logs s); cbn; repeat constructor.
Qed.
Definition witness_on : DataCollectionState := mkState true true S90d true false R1w.
Definition witness_off : DataCollectionState := mkState false false S90d true false R1w.

Lemma turn_off_sends_false_witness :
  Forall (fun u => value u = VBool false) (buildUpdates witness_on witness_off)
  /\ length (buildUpdates witness_on witness_off) = 2%nat.
Proof. split; [apply (turn_off_sends_false witness_on witness_off); reflexivity|reflexivity]. Defined.

(** ** What the dialog says *)

Section wording.
Context {H : Host}.

(** A sentence of the dialog that later replacements and insertions leave in place: no later step
    cuts inside it, and the closing warning comes after it. *)
Definition says (d : Dialog) (p : string) : Prop :=
  exists rest, body d = p ++s rest /\ lacks "T" p = true /\ includes rest UNDONE = true.

Lemma says_includes d p q : says d p -> includes p q = true -> includes (body d) q = true.
Proof. intros (rest & -> & _ & _) Hp. by apply includes_app_r. Qed.

Lemma says_undone d p : says d p -> includes (body d) UNDONE = true.
Proof. intros (rest & -> & _ & ?). by apply includes_app_l. Qed.

(** Naming a further loss in front of the warning keeps what the dialog says. *)
Lemma says_replace d p older ti co :
  says d p ->
  let d' := {| title := ti; confirm := co;
               body := replaceFirst (body d) UNDONE (older ++s " " ++s UNDONE) |} in
  says d' p /\ includes (body d') older = true.
Proof.
  intros (rest & Hb & Hp & Hr) d'.
  assert (body d' = p ++s replaceFirst rest UNDONE (older ++s " " ++s UNDONE)) as Hd'.
  { unfold d'. cbn [body]. rewrite Hb. exact (replaceFirst_skip "T" _ p rest _ Hp). }
  split.
  - eexists. split; [done|]. split; [done|].
    apply includes_replaceFirst; [done|]. by apply includes_app_l.
  - rewrite Hd'. apply includes_app_l, includes_replaceFirst; [done|].
    apply includes_app_r, includes_refl.
Qed.

Lemma afterFirst_skip p s sentence :
  lacks "." p = true -> afterFirstSentence (p ++s s) sentence = p ++s afterFirstSentence s sentence.
Proof.
  intros Hp. unfold afterFirstSentence. rewrite indexOf_skip by done.
  destruct (indexOf s ". ") as [i|]; cbn [fmap option_fmap option_map].
  - rewrite <- !Nat.add_assoc, str_take_app, str_drop_app, app_assoc_s. done.
  - by rewrite app_assoc_s.
Qed.

(** What an inserted sentence leaves behind it. *)
Definition tailAfterFirst (s : string) : string :=
  match indexOf s ". " with Some i => str_drop (i + 1) s | None => "" end.

Lemma afterFirst_includes s sentence q :
  includes (tailAfterFirst s) q = true -> includes (afterFirstSentence s sentence) q = true.
Proof.
  unfold tailAfterFirst, afterFirstSentence. destruct (indexOf s ". "); intros Hq.
  - by apply includes_app_l, includes_app_l, includes_app_l.
  - rewrite includes_spec in Hq. destruct Hq as (a & b & Hq). destruct a, q; try done.
    apply includes_spec. by eexists "", _.
Qed.

Lemma says_held d p sentence ti co rest :
  body d = p ++s rest -> lacks "T" p = true -> lacks "." p = true ->
  includes (tailAfterFirst rest) UNDONE = true ->
  says {| title := ti; confirm := co; body := afterFirstSentence (body d) sentence |} p.
Proof.
  intros Hb HT Hdot Hrest. exists (afterFirstSentence rest sentence). cbn. rewrite Hb.
  split; [by apply afterFirst_skip|]. split; [done|]. by apply afterFirst_includes.
Qed.

Definition ALL_STATS : string := "All statistics for this profile will be permanently deleted".
Definition ALL_LOGS : string := "All query logs for this profile will be permanently deleted".
Definition ALL_BOTH : string :=
  "All query logs and statistics for this profile will be permanently deleted".

(** The deletion a turn-off announces. *)
Definition loss (s p : DataCollectionState) : string :=
  if turnsOffStats s p then (if turnsOffLogs s p then ALL_BOTH else ALL_STATS) else ALL_LOGS.

Lemma loss_clean s p : lacks "T" (loss s p) = true /\ lacks "." (loss s p) = true.
Proof. unfold loss. by destruct (turnsOffStats s p), (turnsOffLogs s p). Qed.

(** The state change's own dialog: the loss first, then the rest with the warning after its first
    sentence. *)
Lemma stateTransition_says s p sw t d :
  stateTransition (stateKey s) (stateKey p) (LOGS_RETENTION_WORDS (retention p)) sw = Some t ->
  t_dialog t = Some d ->
  exists rest, body d = loss s p ++s rest /\ includes rest UNDONE = true /\
    (t_id t ∈ DELETES_STATS -> includes (tailAfterFirst rest) UNDONE = true).
Proof.
  unfold stateKey, loss, turnsOffStats, turnsOffLogs.
  destruct (stats s), (logs s), (stats p), (logs p); cbn [andb negb];
    intros [= <-]; cbn [plain t_dialog t_id body]; intros [= <-]; try done.
  1-3,5,7: eexists; split; [reflexivity|]; split; [reflexivity|]; intros _; reflexivity.
  - eexists. split; [reflexivity|]. by destruct (retention p).
  - exists (", and modDNS will start counting queries per device for " ++s sw ++s ". " ++s UNDONE).
    split; [reflexivity|]. split; [by apply includes_app_l, includes_app_l|].
    intros Hx. apply (bool_decide_eq_true_2 _) in Hx. discriminate Hx.
Qed.

Lemma countsOlder_clean r : lacks "T" (countsOlder (so_words (statsOption r))) = true.
Proof. by destruct r. Qed.
Lemma logsOlder_clean r : lacks "T" (logsOlder (LOGS_RETENTION_WORDS r)) = true.
Proof. by destruct r. Qed.

(** A dialog made for one loss says it. *)
Lemma says_fresh p mid ti co :
  lacks "T" p = true -> says {| title := ti; confirm := co; body := p ++s mid ++s UNDONE |} p.
Proof. intros. eexists. split; [reflexivity|]. split; [done|]. apply includes_app_l, includes_refl. Qed.

Lemma withRetention_says q t c lost older r d' :
  let sw := so_words (statsOption r) in
  (forall d, t_dialog t = Some d -> says d q) ->
  t_dialog (withRetention t c lost older sw) = Some d' ->
  (t_dialog t <> None -> says d' q) /\
  (c = Some Lower -> older = false -> includes (body d') (countsOlder sw) = true) /\
  (t_dialog t = None -> says d' (countsOlder sw)).
Proof.
  intros sw Hq. pose proof (countsOlder_clean r : lacks "T" (countsOlder sw) = true) as HT.
  destruct c as [[]|]; unfold withRetention.
  - intros Hd'. change (t_dialog t = Some d') in Hd'. rewrite Hd' in *. split; [auto|]. split; congruence.
  - destruct older; [destruct (t_dialog t) eqn:Hd; intros Hd';
      change (t_dialog t = Some d') in Hd'; rewrite Hd in Hd'; split; try congruence; [naive_solver|split; congruence]|].
    intros [= <-]. destruct (t_dialog t) as [d0|].
    + pose proof (says_replace d0 q (countsOlder sw ++s spaceThenLost lost) (title d0) (confirm d0)
        (Hq d0 eq_refl)) as [Hs Hi].
      split; [intros _; exact Hs|]. split; [intros _ _|done].
      eapply includes_trans; [exact Hi|]. apply includes_app_r, includes_refl.
    + rewrite app_assoc_s. pose proof (says_fresh (countsOlder sw) (spaceThenLost lost ++s " ")
        ("Keep statistics for " ++s sw ++s "?") "Delete older counts" HT) as Hs.
      rewrite app_assoc_s in Hs. split; [done|]. split; [|intros _; exact Hs]. intros _ _.
      eapply says_includes; [exact Hs|apply includes_refl].
  - intros Hd'. rewrite Hd' in *. split; [auto|]. split; congruence.
Qed.

Lemma withLogsRetention_says q t c r d' :
  let lw := LOGS_RETENTION_WORDS r in
  (forall d, t_dialog t = Some d -> says d q) ->
  t_dialog (withLogsRetention t c lw) = Some d' ->
  (t_dialog t <> None -> says d' q) /\
  (c = Some Lower -> includes (body d') (logsOlder lw) = true) /\
  (t_dialog t = None -> says d' (logsOlder lw)).
Proof.
  intros lw Hq. pose proof (logsOlder_clean r : lacks "T" (logsOlder lw) = true) as HT.
  destruct c as [[]|]; unfold withLogsRetention.
  - intros Hd'. change (t_dialog t = Some d') in Hd'. rewrite Hd' in *. split; [auto|]. split; congruence.
  - destruct (t_dialog t) as [d0|] eqn:Hd; intros [= <-].
    + pose proof (says_replace d0 q (logsOlder lw)
        (if stateDialog t then title d0 else "Delete older counts and logs?")
        (if stateDialog t then confirm d0 else "Delete older data") (Hq d0 eq_refl)) as [Hs Hi].
      split; [intros _; exact Hs|]. split; [intros _; exact Hi|done].
    + pose proof (says_fresh (logsOlder lw) " " ("Keep query logs for " ++s lw ++s "?")
        "Delete older logs" HT) as Hs.
      split; [done|]. split; [|intros _; exact Hs]. intros _.
      eapply says_includes; [exact Hs|apply includes_refl].
  - intros Hd'. rewrite Hd' in *. split; [auto|]. split; congruence.
Qed.

Lemma withHeld_says s p sw t h t' d' :
  stateTransition (stateKey s) (stateKey p) (LOGS_RETENTION_WORDS (retention p)) sw = Some t ->
  withHeld (Some t) h = Some t' -> t_dialog t' = Some d' -> says d' (loss s p).
Proof.
  intros Hst Hw Hd'. destruct (loss_clean s p) as [HT Hdot].
  apply withHeld_Some in Hw as [->|(d & hd & Hd & _ & Hid & ->)].
  - destruct (stateTransition_says _ _ _ _ _ Hst Hd') as (rest & ? & ? & _). by exists rest.
  - destruct (stateTransition_says _ _ _ _ _ Hst Hd) as (rest & Hb & _ & Htail).
    injection Hd' as <-. eapply says_held; eauto.
Qed.

(** What the dialog must say for each loss of the save. *)
Definition names_losses (s p : DataCollectionState) (h : option StatsHeld) (d : Dialog) : Prop :=
  includes (body d) UNDONE = true /\
  (turnsOffStats s p || turnsOffLogs s p = true -> includes (body d) (loss s p) = true) /\
  (lowersStats s p h = true ->
     includes (body d) (countsOlder (so_words (statsOption (statsRetention p)))) = true) /\
  (lowersLogs s p = true -> includes (body d) (logsOlder (LOGS_RETENTION_WORDS (retention p))) = true).

(** A change of state leaves no retention change of both kinds. *)
Lemma state_change_one s p c1 c2 :
  retentionChange s p = Some c1 -> logsRetentionChange s p = Some c2 -> stateKey s = stateKey p.
Proof.
  intros (? & ? & _)%retentionChange_on (? & ? & _)%logsRetentionChange_on. apply stateKey_eq. split; congruence.
Qed.

Lemma finish_names s p h t1 d q :
  let sw := so_words (statsOption (statsRetention p)) in
  (forall d, t_dialog t1 = Some d -> says d q) ->
  (t_dialog t1 = None -> turnsOffStats s p || turnsOffLogs s p = false) ->
  (t_dialog t1 <> None -> q = loss s p /\
     (retentionChange s p = None \/ logsRetentionChange s p = None)) ->
  t_dialog (withLogsRetention
    (withRetention t1 (retentionChange s p) (lostFor s p h) (nothingOlderFor s p h) sw)
    (logsRetentionChange s p) (LOGS_RETENTION_WORDS (retention p))) = Some d ->
  names_losses s p h d.
Proof.
  intros sw Hq Hnone Hsome Hd.
  set (t2 := withRetention _ _ _ _ sw) in Hd.
  assert (forall d2, t_dialog t2 = Some d2 ->
    says d2 (if t_dialog t1 then q else countsOlder sw) /\
    (lowersStats s p h = true -> includes (body d2) (countsOlder sw) = true)) as H2.
  { intros d2 Hd2. destruct (withRetention_says q _ _ _ _ _ _ Hq Hd2) as (Ha & Hb & Hc).
    split; [destruct (t_dialog t1); auto|]. intros [? ?]%lowersStats_spec. auto. }
  destruct (withLogsRetention_says _ _ _ _ _ (fun d2 Hd2 => proj1 (H2 d2 Hd2)) Hd) as (Ha & Hb & Hc).
  assert (exists q', says d q') as [q' Hq'].
  { destruct (t_dialog t2); eauto. }
  split; [by eapply says_undone|]. split; [|split].
  - intros Hoff. destruct (t_dialog t1) as [d1|] eqn:Hd1; [|by rewrite Hnone in Hoff].
    destruct (Hsome ltac:(done)) as [-> _]. eapply says_includes; [apply Ha|apply includes_refl].
    intros Ht2. assert (is_Some (t_dialog t2)) as [? ?]; [|congruence].
    apply withRetention_dialog. rewrite Hd1. eauto.
  - intros Hlow. assert (is_Some (t_dialog t2)) as [d2 Hd2].
    { apply withRetention_dialog. right. by apply lowersStats_spec. }
    destruct (H2 d2 Hd2) as [Hs2 Hi2]. destruct (t_dialog t1) as [d1|] eqn:Hd1.
    + destruct (Hsome ltac:(done)) as [_ [Hr|Hl]].
      * apply lowersStats_spec in Hlow. destruct Hlow. congruence.
      * rewrite Hl in Hd. cbn in Hd. rewrite Hd2 in Hd. injection Hd as <-. auto.
    + eapply says_includes; [apply Ha; by rewrite Hd2|apply includes_refl].
  - intros Hlow%lowersLogs_spec. auto.
Qed.
End wording.

Theorem dialog_names_losses {H : Host} s p h t d :
  transitionFor s p h = Some t -> t_dialog t = Some d -> names_losses s p h d.
Proof.
  intros Ht Hd.
  destruct (transitionFor_cases s p h t Ht) as
    [(t0 & t1 & Hst & Hw & ->)|[(Hk & (c & Hc & ->) & Hl)|[(Hk & Hc & c & Hl & ->)|(Hk & ->)]]].
  - eapply (finish_names s p h t1 d (loss s p)); [| | |exact Hd].
    + intros d1. by eapply withHeld_says.
    + intros Hnone. apply not_true_is_false. intros Hoff.
      apply (stateTransition_dialog _ _ _ _ _ Hst), (withHeld_dialog _ _ _ Hw) in Hoff.
      rewrite Hnone in Hoff. by destruct Hoff.
    + intros _. split; [done|]. destruct (retentionChange s p) eqn:Hr, (logsRetentionChange s p) eqn:Hl; auto.
      rewrite (proj2 (stateTransition_None _ _ _ _) (state_change_one _ _ _ _ Hr Hl)) in Hst. done.
  - unfold names_losses. rewrite (same_key_deletes s p Hk).
    destruct c; [discriminate Hd|]. cbn in Hd. destruct (nothingOlderFor s p h) eqn:Hno; [discriminate Hd|].
    injection Hd as <-. cbn [body].
    pose proof (says_fresh (countsOlder (so_words (statsOption (statsRetention p))))
      (" " ++s lostThenSpace (lostFor s p h)) "" "" (countsOlder_clean _)) as Hs.
    rewrite app_assoc_s in Hs.
    split; [exact (says_undone _ _ Hs)|]. split; [done|]. split; [intros _|].
    + eapply (says_includes _ _ _ Hs), includes_refl.
    + intros Hx%lowersLogs_spec. congruence.
  - unfold names_losses. rewrite (same_key_deletes s p Hk).
    destruct c; [discriminate Hd|]. injection Hd as <-. cbn [body].
    pose proof (says_fresh (logsOlder (LOGS_RETENTION_WORDS (retention p))) " " "" "" (logsOlder_clean _)) as Hs.
    split; [exact (says_undone _ _ Hs)|]. split; [done|]. split.
    + intros [? _]%lowersStats_spec. congruence.
    + intros _. eapply (says_includes _ _ _ Hs), includes_refl.
  - eapply (finish_names s p h _ d ""); [| | |exact Hd]; [done| |done].
    intros _. by apply same_key_deletes.
Qed.

(** ** How much a lowering deletes *)

Lemma floorDay_shift ms k : floorDay (ms + k * DAY_MS) = floorDay ms + k * DAY_MS.
Proof. unfold floorDay, floor_to. rewrite Z.div_add by (unfold DAY_MS; lia). lia. Qed.

Section lost.
Context {H : Host}.

Definition profile_days (profile : option ModelProfile) : Z := statsDays (profileStatsRetention profile).

Lemma statsHeld_spec profile now h :
  statsHeld profile now = Some h ->
  nowMs h = now /\ (DAY_MS | firstDayMs h) /\
  floorDay (now - profile_days profile * DAY_MS) <= firstDayMs h /\
  now - profile_days profile * DAY_MS <= oldestMs h.
Proof.
  unfold statsHeld, profile_days, profileStatsRetention.
  destruct profile as [[? ? ? ? [[? ? ? ? ? ? ? [[en ea hd rt]|]]|]]|]; cbn -[parseTime floorDay DAY_MS]; try done.
  destruct (negb (en ?? false)); [done|].
  set (e := parseTime ea). set (d := parseTime hd).
  set (limit := now - _).
  destruct (max_opt e d) as [start|], (max_opt (floorDay <$> e) ((fun d => floorDay d + DAY_MS) <$> d))
    as [sd|] eqn:Hsd; try discriminate.
  intros [= <-]. cbn. split; [done|]. split; [|lia].
  assert ((DAY_MS | sd)) as Hdiv.
  { assert (forall x : Z, (DAY_MS | floorDay x)) by (intros; apply floor_to_divide).
    assert (forall x : Z, (DAY_MS | floorDay x + DAY_MS)) by (intros; apply Z.divide_add_r; [done|apply Z.divide_refl]).
    destruct e as [e'|], d as [d'|]; cbn in Hsd; try discriminate; injection Hsd as <-; auto.
    destruct (Z.max_spec (floorDay e') (floorDay d' + DAY_MS)) as [[_ ->]|[_ ->]]; auto. }
  destruct (Z.max_spec sd (floorDay limit)) as [[_ ->]|[_ ->]]; [apply floor_to_divide|done].
Qed.

Theorem lost_days_exact profile now h keep :
  statsHeld profile now = Some h -> keep <= profile_days profile ->
  let cutoff := floorDay (now - keep * DAY_MS) in
  (lostSentence h keep = None <-> cutoff <= firstDayMs h) /\
  cutoff - firstDayMs h = lostDays h keep * DAY_MS /\
  lostDays h keep <= profile_days profile - keep.
Proof.
  intros Hh Hkeep cutoff. destruct (statsHeld_spec _ _ _ Hh) as (Hnow & [k Hk] & Hfirst & _).
  assert (cutoff = (now - keep * DAY_MS) / DAY_MS * DAY_MS) as Hcut by done.
  set (c := (now - keep * DAY_MS) / DAY_MS) in Hcut.
  assert (lostDays h keep = c - k) as Hlost.
  { unfold lostDays. rewrite Hnow. fold cutoff. rewrite Hcut, Hk, <- Z.mul_sub_distr_r.
    by apply math_round_div_exact. }
  pose proof DAY_MS_pos.
  split; [|split; [rewrite Hlost, Hcut, Hk; lia|]].
  - unfold lostSentence. rewrite Hlost. destruct (Z.ltb_spec (c - k) 1); split; try done; intros.
    + rewrite Hcut, Hk. apply Z.mul_le_mono_nonneg_r; lia.
    + exfalso. rewrite Hcut, Hk in *. nia.
  - rewrite Hlost.
    replace (now - profile_days profile * DAY_MS)
      with (now - keep * DAY_MS + (keep - profile_days profile) * DAY_MS) in Hfirst by lia.
    rewrite floorDay_shift in Hfirst. fold cutoff in Hfirst. rewrite Hcut, Hk in Hfirst. nia.
Qed.
End lost.

(** ** Concrete inputs *)

Definition witness_off_dialog : Transition :=
  plain "T7" "Turn off" "Data collection turned off. Logs and statistics deleted." None
    (Some {| title := "Turn off data collection?";
             body := "All query logs and statistics for this profile will be permanently deleted. This action cannot be undone.";
             confirm := "Turn off and delete" |}).

Lemma dialog_iff_deletes_witness :
  is_Some (t_dialog witness_off_dialog) <-> @deletesData utc_host witness_on witness_off None = true.
Proof. apply (@dialog_iff_deletes utc_host witness_on witness_off None). reflexivity. Defined.

Lemma dialog_names_losses_witness :
  exists d, t_dialog witness_off_dialog = Some d
    /\ @names_losses utc_host witness_on witness_off None d.
Proof.
  eexists. split; [reflexivity|].
  apply (@dialog_names_losses utc_host witness_on witness_off None witness_off_dialog); reflexivity.
Defined.

(** Statistics on since the start of 2024 and kept for 90 days, seen at noon on day 19 860. *)
Definition witness_profile : ModelProfile :=
  MkModelProfile "acc" "1" "Home" "p1"
    (Some (MkModelProfileSettings None None None None None "p1" None
       (Some (MkModelStatisticsSettings (Some true) (Some "2024-01-01T06:00:00Z") None (Some "90d"))))).
Definition witness_now : Z := 19860 * DAY_MS + 12 * HOUR_MS.

Lemma lost_days_exact_witness :
  exists h, @statsHeld utc_host (Some witness_profile) witness_now = Some h /\
  lostDays h 30 = 60 /\
  let cutoff := floorDay (witness_now - 30 * DAY_MS) in
  (@lostSentence utc_host h 30 = None <-> cutoff <= firstDayMs h) /\
  cutoff - firstDayMs h = lostDays h 30 * DAY_MS /\
  lostDays h 30 <= profile_days (Some witness_profile) - 30.
Proof.
  eexists. split; [reflexivity|]. split; [reflexivity|].
  apply (@lost_days_exact utc_host (Some witness_profile) witness_now); [reflexivity|].
  vm_compute. discriminate.
Defined.
