(* ===== verification/Ranges.v ===== *)
(** * The timeframe picker

    [src/app/src/pages/statistics/ranges.ts]: the views of the Statistics page, which of them the
    statistics retention covers, and the view a [?range=] value opens. *)

From S2P Require Import Prelude JsString ApiTypes DataCollection.

Inductive RangeKey : Set := K3h | K6h | K24h | K7d | K30d | K3m | K12m.
#[export] Instance RangeKey_eq_dec : EqDecision RangeKey.
Proof. solve_decision. Defined.

(** The string of a key: the [?range=] value. *)
Definition rangeKeyValue (k : RangeKey) : string :=
  match k with
  | K3h => "3h" | K6h => "6h" | K24h => "24h" | K7d => "7d" | K30d => "30d" | K3m => "3m" | K12m => "12m"
  end.

Definition DEFAULT_RANGE : RangeKey := K24h.

Record RangeDef := { r_key : RangeKey; r_label : string; r_words : string; r_seconds : Z }.

Definition DAY : Z := 86400.

Definition RANGES : list RangeDef :=
  [ {| r_key := K3h; r_label := "Last 3 hours"; r_words := "last 3 hours"; r_seconds := 3 * 3600 |};
    {| r_key := K6h; r_label := "Last 6 hours"; r_words := "last 6 hours"; r_seconds := 6 * 3600 |};
    {| r_key := K24h; r_label := "Last 24 hours"; r_words := "last 24 hours"; r_seconds := DAY |};
    {| r_key := K7d; r_label := "Last 7 days"; r_words := "last 7 days"; r_seconds := 7 * DAY |};
    {| r_key := K30d; r_label := "Last 30 days"; r_words := "last 30 days"; r_seconds := 30 * DAY |};
    {| r_key := K3m; r_label := "Last 3 months"; r_words := "last 3 months"; r_seconds := 90 * DAY |};
    {| r_key := K12m; r_label := "Last 12 months"; r_words := "last 12 months"; r_seconds := 365 * DAY |} ].

(** [RANGES.find(r => r.key === key) ?? RANGES.find(r => r.key === DEFAULT_RANGE)!] *)
Definition rangeDef (key : RangeKey) : RangeDef :=
  array_find (fun r => bool_decide (r_key r = key)) RANGES
  ?? (array_find (fun r => bool_decide (r_key r = DEFAULT_RANGE)) RANGES
  ?? {| r_key := DEFAULT_RANGE; r_label := ""; r_words := ""; r_seconds := 0 |}).

(** The module variable [remembered], threaded as state. *)
Definition rememberRange (key : RangeKey) (remembered : option RangeKey) : option RangeKey := Some key.
Definition rememberedRange (remembered : option RangeKey) : option RangeKey := remembered.
Definition resetRememberedRange (remembered : option RangeKey) : option RangeKey := None.

(** K2: an invalid or missing value reads as the default. *)
Definition parseRange (value : option string) : RangeKey :=
  match array_find (fun r => bool_decide (Some (rangeKeyValue (r_key r)) = value)) RANGES with
  | Some r => r_key r
  | None => DEFAULT_RANGE
  end.

(** K11: the views whose window the statistics retention covers, shortest first. *)
Definition offeredRanges (retention : StatsRetention) : list RangeDef :=
  let days := (so_days <$> array_find (fun o => bool_decide (so_value o = retention)) STATS_RETENTION_OPTIONS) ?? 30 in
  List.filter (fun r => r_seconds r <=? days * DAY) RANGES.

(** K2, K11. [None] stands for the [TypeError] of reading [key] off an empty list. *)
Definition resolveRange (value : option string) (retention : StatsRetention) : option RangeKey :=
  let asked := parseRange value in
  let offered := offeredRanges retention in
  if existsb (fun r => bool_decide (r_key r = asked)) offered then Some asked
  else r_key <$> last offered.

Definition nextLongerRange (key : RangeKey) : option RangeKey :=
  match find_index (fun r => bool_decide (r_key r = key)) RANGES with
  | Some i => if (i <? length RANGES - 1)%nat then r_key <$> RANGES !! (i + 1)%nat else None
  | None => None
  end.

(** K3 *)
Definition STATS_TIMESPAN (k : RangeKey) : string :=
  match k with
  | K3h => "LAST_3_HOURS" | K6h => "LAST_6_HOURS" | K24h => "LAST_1_DAY" | K7d => "LAST_7_DAYS"
  | K30d => "LAST_MONTH" | K3m => "LAST_3_MONTHS" | K12m => "LAST_YEAR"
  end.

(** K4: logs never exceed one month, so the long views read [LAST_MONTH]. *)
Definition LOGS_TIMESPAN (k : RangeKey) : string :=
  match k with
  | K3h => "LAST_3_HOURS" | K6h => "LAST_6_HOURS" | K24h => "LAST_1_DAY" | K7d => "LAST_7_DAYS"
  | K30d => "LAST_MONTH" | K3m => "LAST_MONTH" | K12m => "LAST_MONTH"
  end.

(** ** Facts *)

Definition rangeSeconds (k : RangeKey) : Z := r_seconds (rangeDef k).

Lemma rangeDef_key k : r_key (rangeDef k) = k.
Proof. by destruct k. Qed.

Lemma rangeSeconds_pos k : 0 < rangeSeconds k.
Proof. by destruct k. Qed.

Lemma rangeSeconds_inj k1 k2 : rangeSeconds k1 = rangeSeconds k2 -> k1 = k2.
Proof. by destruct k1, k2. Qed.
#[export] Hint Resolve rangeSeconds_pos : moddns.

Lemma parseRange_value k : parseRange (Some (rangeKeyValue k)) = k.
Proof. by destruct k. Qed.

(** A view is offered exactly when its window fits the retention. *)
Lemma elem_of_offered k ret :
  k ∈ r_key <$> offeredRanges ret <-> rangeSeconds k <= statsDays ret * DAY.
Proof.
  rewrite <- (bool_decide_spec (k ∈ _)), <- (bool_decide_spec (_ <= _)). by destruct k, ret.
Qed.

Theorem resolveRange_spec value ret :
  exists k, resolveRange value ret = Some k /\
    rangeSeconds k <= statsDays ret * DAY /\
    (rangeSeconds (parseRange value) <= statsDays ret * DAY -> k = parseRange value) /\
    (forall k', rangeSeconds k' <= statsDays ret * DAY ->
       statsDays ret * DAY < rangeSeconds (parseRange value) -> rangeSeconds k' <= rangeSeconds k) /\
    resolveRange (Some (rangeKeyValue k)) ret = Some k.
Proof.
  unfold resolveRange at 1. generalize (parseRange value) as asked. intros asked.
  destruct ret, asked; cbn; eexists; (split; [reflexivity|]); (split; [done|]);
    (split; [done|]); (split; [|reflexivity]); intros [] ?; done.
Qed.

Theorem nextLongerRange_spec k :
  match nextLongerRange k with
  | Some k' => rangeSeconds k < rangeSeconds k' /\
      forall j, rangeSeconds k < rangeSeconds j -> rangeSeconds k' <= rangeSeconds j
  | None => forall j, rangeSeconds j <= rangeSeconds k
  end.
Proof. destruct k; cbn; try split; try intros []; done. Qed.
