(* ===== verification/Derive.v ===== *)
(** * Derivations from a statistics response

    [src/app/src/pages/statistics/derive.ts]: reading the API's answer, the bucket series with its
    gaps, the shorter view offered for a late start, when the first counts can appear, and the
    window the logs panels cover. *)

From S2P Require Import Prelude JsString JsDate ApiTypes DataCollection Ranges.

(** ** JSON values *)

(** The numbers of a response: integers (counts, widths), and the values the code's finiteness test
    guards against. Fractions are not represented: no field of the response has one. *)
Inductive JsNum : Set := Fin (z : Z) | PosInf | NegInf | JNaN.

Inductive Json : Type :=
| JNull
| JBool (b : bool)
| JNum (n : JsNum)
| JStr (s : string)
| JArr (l : list Json)
| JObj (fields : list (string * Json)).

Inductive JsError : Set := TypeError.

(** [undefined] is [None]. *)
Definition prop (fields : list (string * Json)) (k : string) : option Json :=
  snd <$> array_find (fun f => String.eqb (fst f) k) fields.

(** [v.k]: reading a member of [null] or [undefined] throws; primitives and arrays have none of the
    members the code reads. *)
Definition member (v : option Json) (k : string) : result JsError (option Json) :=
  match v with
  | None | Some JNull => Throw TypeError
  | Some (JObj fields) => Ok (prop fields k)
  | Some _ => Ok None
  end.

(** [v?.k] *)
Definition member_opt (v : option Json) (k : string) : option Json :=
  match member v k with Ok x => x | Throw _ => None end.

(** [v ?? {}] *)
Definition or_empty (v : option Json) : option Json :=
  match v with None | Some JNull => Some (JObj []) | _ => v end.

(** ** Tables *)

Definition TOP_LIST_LIMIT : nat := 50.

Inductive ReasonKey : Set := blocklist | service | custom_rule | default_rule | rebinding | other.
Inductive ProtocolKey : Set := doh | dot | doq.
#[export] Instance ReasonKey_eq_dec : EqDecision ReasonKey.
Proof. solve_decision. Defined.
#[export] Instance ProtocolKey_eq_dec : EqDecision ProtocolKey.
Proof. solve_decision. Defined.

Definition reasonKeyValue (k : ReasonKey) : string :=
  match k with
  | blocklist => "blocklist" | service => "service" | custom_rule => "custom_rule"
  | default_rule => "default_rule" | rebinding => "rebinding" | other => "other"
  end.
Definition protocolKeyValue (k : ProtocolKey) : string :=
  match k with doh => "doh" | dot => "dot" | doq => "doq" end.

Record ClassDef (K : Type) := { cl_key : K; cl_label : string; cl_cat : Z }.
Arguments cl_key {K}. Arguments cl_label {K}. Arguments cl_cat {K}.

Definition REASON_CLASSES : list (ClassDef ReasonKey) :=
  [ {| cl_key := blocklist; cl_label := "Blocklists"; cl_cat := 1 |};
    {| cl_key := service; cl_label := "Services"; cl_cat := 2 |};
    {| cl_key := custom_rule; cl_label := "Custom rules"; cl_cat := 3 |};
    {| cl_key := default_rule; cl_label := "Default rule"; cl_cat := 4 |};
    {| cl_key := rebinding; cl_label := "DNS rebinding"; cl_cat := 5 |};
    {| cl_key := other; cl_label := "Other"; cl_cat := 6 |} ].

Definition PROTOCOLS : list (ClassDef ProtocolKey) :=
  [ {| cl_key := doh; cl_label := "DoH"; cl_cat := 1 |};
    {| cl_key := dot; cl_label := "DoT"; cl_cat := 2 |};
    {| cl_key := doq; cl_label := "DoQ"; cl_cat := 3 |} ].

(** ** The normalised data *)

Record StatsPoint := mkPoint { pt_ts : Z; pt_total : Z; pt_blocked : Z; pt_dnssec : Z }.
Record StatsDevice := mkDevice { dv_id : string; dv_total : Z; dv_blocked : Z }.
Record StatsTotals := mkTotals { tot_total : Z; tot_blocked : Z; tot_dnssec : Z }.

Record StatsData := mkStats {
  enabled : bool;
  enabledAt : option Z;
  turnedOnAt : option Z;
  historyDeletedAt : option Z;
  d_retention : string;
  fromMs : Z;
  toMs : Z;
  bucketSeconds : Z;
  totals : StatsTotals;
  series : list StatsPoint;
  reasons : ReasonKey -> Z;
  protocols : ProtocolKey -> Z;
  devices : list StatsDevice;
}.

Definition num (v : option Json) : Z := match v with Some (JNum (Fin z)) => z | _ => 0 end.

Definition latest (a b : option Z) : option Z := max_opt a b.

(** [Array.isArray(v) ? v : []] *)
Definition elems (v : option Json) : list Json := match v with Some (JArr l) => l | _ => [] end.

Fixpoint map_throw {A B} (f : A -> result JsError B) (l : list A) : result JsError (list B) :=
  match l with
  | [] => Ok []
  | x :: l' => y ← f x; ys ← map_throw f l'; Ok (y :: ys)
  end.

Section normalize.
Context {H : Host}.

Definition time (v : option Json) : option Z :=
  match v with Some (JStr s) => Date_parse s | _ => None end.

Definition point (p : Json) : result JsError (list StatsPoint) :=
  tsv ← member (Some p) "ts";
  match time tsv with
  | None => Ok []
  | Some ts =>
      let f k := num (member_opt (Some p) k) in
      Ok [{| pt_ts := ts; pt_total := f "total"; pt_blocked := f "blocked"; pt_dnssec := f "dnssec" |}]
  end.

(** A [device_id] that is not a string has no place in the type; it reads as absent. *)
Definition device (d : Json) : result JsError StatsDevice :=
  idv ← member (Some d) "device_id";
  let f k := num (member_opt (Some d) k) in
  Ok {| dv_id := match idv with Some (JStr s) => s | _ => "" end;
        dv_total := f "total"; dv_blocked := f "blocked" |}.

(** Tolerates absent fields: an off profile answers with empty collections. *)
Definition normalizeStats (raw : Json) : result JsError StatsData :=
  let r := match raw with JObj fs => fs | _ => [] end in
  let get k := prop r k in
  let tot := or_empty (get "totals") in
  points ← map_throw point (elems (get "series"));
  devs ← map_throw device (elems (get "devices"));
  Ok {| enabled := match get "enabled" with Some (JBool true) => true | _ => false end;
        enabledAt := latest (time (get "enabled_at")) (time (get "history_deleted_at"));
        turnedOnAt := time (get "enabled_at");
        historyDeletedAt := time (get "history_deleted_at");
        d_retention := match get "retention" with Some (JStr s) => s | _ => "" end;
        fromMs := time (get "from") ?? 0;
        toMs := time (get "to") ?? 0;
        bucketSeconds := num (get "bucket_seconds");
        totals := {| tot_total := num (member_opt tot "total");
                     tot_blocked := num (member_opt tot "blocked");
                     tot_dnssec := num (member_opt tot "dnssec") |};
        series := List.concat points;
        reasons := fun k => num (member_opt (get "reasons") (reasonKeyValue k));
        protocols := fun k => num (member_opt (get "protocols") (protocolKeyValue k));
        devices := devs |}.
End normalize.

(** ** Buckets *)

Definition FLUSH_LAG_MS : Z := 15 * 60 * 1000.

Record Bucket := mkBucket {
  b_ts : Z;
  b_total : option Z;
  b_blocked : option Z;
  b_dnssec : option Z;
  b_inProgress : bool;
}.

(** [Math.floor(d.enabledAt / width) * width], when there is a start and a width. *)
Definition startFloor (d : StatsData) : option Z :=
  let width := bucketSeconds d * 1000 in
  match enabledAt d with
  | Some e => if 0 <? width then Some (floor_to width e) else None
  | None => None
  end.

Definition isGap (d : StatsData) (p : StatsPoint) : bool :=
  match startFloor d with Some f => pt_ts p <? f | None => false end.

(** P9: points before the bucket containing the start of counting are gaps, not zeros. *)
Definition buildBuckets (d : StatsData) : list Bucket :=
  let width := bucketSeconds d * 1000 in
  map (fun p =>
    let gap := isGap d p in
    {| b_ts := pt_ts p;
       b_total := if gap then None else Some (pt_total p);
       b_blocked := if gap then None else Some (pt_blocked p);
       b_dnssec := if gap then None else Some (pt_dnssec p);
       b_inProgress := negb gap && (toMs d - FLUSH_LAG_MS <? pt_ts p + width) |}) (series d).

(** P9: the first bucket that counts, when statistics were enabled inside the view. *)
Definition countingSince (d : StatsData) : option Z :=
  match enabledAt d with
  | None => None
  | Some e =>
      if e <=? fromMs d then None
      else match series d with
           | p :: _ => if pt_ts p <? e then Some e else None
           | [] => None
           end
  end.

(** P9: the shortest offered view that still contains the start of counting, when the counted part
    is under a quarter of the current view and a shorter view exists. *)
Definition shorterViewForStart (d : StatsData) (current : RangeKey) (offered : list RangeDef) : option RangeKey :=
  match countingSince d with
  | None => None
  | Some since =>
      let counted := toMs d - since in
      let viewSpan := rangeSeconds current * 1000 in
      if viewSpan <=? 4 * counted then None
      else match array_find (fun r => counted <=? r_seconds r * 1000) offered with
           | Some fit => if r_seconds fit * 1000 <? viewSpan then Some (r_key fit) else None
           | None => None
           end
  end.

Inductive CountsState : Set := data | no_queries_yet | empty_range.

(** P5 / P6 *)
Definition countsState (d : StatsData) : CountsState :=
  if 0 <? tot_total (totals d) then data
  else match enabledAt d with
       | Some e => if fromMs d <=? e then no_queries_yet else empty_range
       | None => empty_range
       end.

Inductive DeviceLabelKind : Set := dl_id | dl_none | dl_other.
Record DeviceLabel := { dl_kind : DeviceLabelKind; dl_text : string; dl_hint : option string }.

Definition deviceLabel (id : string) : DeviceLabel :=
  if String.eqb id "" then
    {| dl_kind := dl_none; dl_text := "No device ID";
       dl_hint := Some "Queries that arrived without a device identifier" |}
  else if String.eqb id "_other" then
    {| dl_kind := dl_other; dl_text := "Other devices";
       dl_hint := Some "Devices beyond the 99 busiest in this range, grouped" |}
  else {| dl_kind := dl_id; dl_text := id; dl_hint := None |}.

Definition sum (values : list (option Z)) : Z := foldl (fun s v => s + (v ?? 0)) 0 values.

(** ** The first counts *)

Definition QUARTER_MS : Z := 15 * 60000.
Definition FLUSH_TICK_MS : Z := 60000.
Definition COLLECTING_GRACE_MS : Z := 2 * 60000.

Record ExpectedFirstCounts := { boundaryMs : Z; displayMs : Z; collectingUntilMs : Z }.

(** The bucket width of a view's tier; the two short views read quarter hours. *)
Definition tierBucket (range : RangeKey) : option Z :=
  match range with
  | K24h | K7d => Some HOUR_MS
  | K30d | K3m | K12m => Some DAY_MS
  | K3h | K6h => None
  end.

(** P24 *)
Definition expectedFirstCounts (range : RangeKey) (enabledAt historyDeletedAt : option Z)
    : option ExpectedFirstCounts :=
  match latest enabledAt historyDeletedAt with
  | None => None
  | Some start =>
      let boundary := floor_to QUARTER_MS start + QUARTER_MS in
      let boundary :=
        match historyDeletedAt, tierBucket range with
        | Some del, Some bucket => Z.max boundary (floor_to bucket del + bucket + QUARTER_MS)
        | _, _ => boundary
        end in
      let display := boundary + FLUSH_TICK_MS in
      Some {| boundaryMs := boundary; displayMs := display;
              collectingUntilMs := display + COLLECTING_GRACE_MS |}
  end.

(** ** The logs window *)

Inductive Scope : Type := ScopeLast (words : string) | ScopeSince (at_ : Z).

Record Window := mkWindow { w_seconds : Z; w_words : string }.

Definition LOGS_RETENTION_WINDOW (r : LogsRetention) : Window :=
  match r with
  | R1h => mkWindow 3600 "last hour"
  | R6h => mkWindow (6 * 3600) "last 6 hours"
  | R1d => mkWindow 86400 "last 24 hours"
  | R1w => mkWindow (7 * 86400) "last 7 days"
  | R1m => mkWindow (30 * 86400) "last 30 days"
  end.

(** P18: the shorter of the view and the logs retention; an unknown retention reads as 1 hour. *)
Definition logsWindow (range : RangeKey) (logsRetention : option string) : Window :=
  let kept := LOGS_RETENTION_WINDOW (logsRetentionOf (logsRetention ?? "") ?? R1h) in
  let view := rangeDef range in
  if w_seconds kept <? r_seconds view then kept else mkWindow (r_seconds view) (r_words view).

(** P18: how far a start may sit inside the logs window before the scope says "since". Every window
    is a multiple of 12 seconds. *)
Definition toleranceMs (windowSeconds : Z) : Z := windowSeconds * 1000 / 12.

Definition logsScope (range : RangeKey) (logsRetention : option string) (coveredFrom : option Z) (nowMs : Z) : Scope :=
  let w := logsWindow range logsRetention in
  let start := nowMs - w_seconds w * 1000 in
  match coveredFrom with
  | Some c => if start + toleranceMs (w_seconds w) <? c then ScopeSince c else ScopeLast (w_words w)
  | None => ScopeLast (w_words w)
  end.

(** P28: the logs start before statistics started counting inside the view. *)
Definition logsReachBeforeCounts (range : RangeKey) (logsRetention : option string)
    (coveredFrom countsStart : option Z) : bool :=
  match coveredFrom, countsStart with
  | Some c, Some s => c <? s - toleranceMs (w_seconds (logsWindow range logsRetention))
  | _, _ => false
  end.

(** ** Enabled lists *)

Record BlocklistItem := mkItem { bi_id : string; bi_name : option string; bi_count : Z }.

Section scope_words.
Context {H : Host}.

Definition formatDateTime (ms : Z) : string :=
  intl_format {| o_weekday := None; o_month := Some "short"; o_day := Some "numeric"; o_year := None;
                 o_hour := Some "2-digit"; o_minute := Some "2-digit"; o_timeZone := None;
                 o_timeZoneName := None |} ms.

Definition scopeTitle (s : Scope) : string :=
  match s with
  | ScopeLast (String c w) => String (upper_char c) w
  | ScopeLast "" => ""
  | ScopeSince t => "Since " ++s formatDateTime t
  end.

(** P27: the scope inside a sentence. *)
Definition scopeIn (s : Scope) : string :=
  match s with
  | ScopeLast w => "in the " ++s w
  | ScopeSince t => "since " ++s formatDateTime t
  end.

Definition itemLabel (b : BlocklistItem) : string := bi_name b ?? bi_id b.

(** P22: appends the enabled lists the logs never credited, as 0, sorted by name. *)
Definition withEnabledLists (items : list BlocklistItem) (enabled : list string)
    (names : gmap string string) : list BlocklistItem :=
  if (TOP_LIST_LIMIT <=? length items)%nat then items else
  let credited := map bi_id items in
  let zero := array_sort (fun a b => localeCompare (itemLabel a) (itemLabel b))
    (map (fun id => {| bi_id := id; bi_name := names !! id; bi_count := 0 |})
       (List.filter (fun id => negb (bool_decide (id ∈ credited))) enabled)) in
  match zero with [] => items | _ => items ++ zero end.
End scope_words.

(** ** Facts *)

Lemma map_throw_ok {A B} (f : A -> result JsError B) l :
  is_ok (map_throw f l) = true <-> Forall (fun x => is_ok (f x) = true) l.
Proof.
  induction l as [|x l IH]; cbn; [split; [constructor|done]|].
  rewrite Forall_cons, <- IH. destruct (f x), (map_throw f l); cbn; intuition congruence.
Qed.

Section normalize_facts.
Context {H : Host}.

Lemma point_ok p : is_ok (point p) = true <-> p <> JNull.
Proof.
  unfold point. destruct p; cbn; try (split; done).
  destruct (time (prop fields "ts")); split; done.
Qed.
Lemma device_ok d : is_ok (device d) = true <-> d <> JNull.
Proof. unfold device. destruct d; cbn; split; done. Qed.

Definition response_fields (raw : Json) : list (string * Json) :=
  match raw with JObj fs => fs | _ => [] end.

Theorem normalizeStats_throws_iff_null raw :
  is_ok (normalizeStats raw) = true <->
  JNull ∉ elems (prop (response_fields raw) "series") /\
  JNull ∉ elems (prop (response_fields raw) "devices").
Proof.
  unfold normalizeStats. fold (response_fields raw). cbv zeta.
  assert (forall l, JNull ∉ l <-> Forall (fun x => x <> JNull) l) as Hnull.
  { intros l. rewrite Forall_forall. naive_solver. }
  set (s := elems (prop _ "series")). set (dv := elems (prop _ "devices")).
  assert (is_ok (map_throw point s) = true <-> JNull ∉ s) as Hs.
  { rewrite map_throw_ok, Hnull. apply Forall_iff. intros. apply point_ok. }
  assert (is_ok (map_throw device dv) = true <-> JNull ∉ dv) as Hd.
  { rewrite map_throw_ok, Hnull. apply Forall_iff. intros. apply device_ok. }
  rewrite <- Hs, <- Hd. destruct (map_throw point s), (map_throw device dv); cbn; intuition congruence.
Qed.
End normalize_facts.

(** *** Buckets *)

Definition series_aligned (d : StatsData) : Prop :=
  Forall (fun p => (bucketSeconds d * 1000 | pt_ts p)) (series d).

(** On an aligned series a point is a gap exactly when its bucket ended before counting started. *)
Lemma isGap_spec d p :
  (bucketSeconds d * 1000 | pt_ts p) -> 0 < bucketSeconds d ->
  isGap d p = true <-> exists e, enabledAt d = Some e /\ pt_ts p + bucketSeconds d * 1000 <= e.
Proof.
  intros Hdiv Hw. unfold isGap, startFloor. destruct (enabledAt d) as [e|]; [|naive_solver].
  rewrite (proj2 (Z.ltb_lt _ _)) by lia. rewrite Z.ltb_lt.
  set (w := bucketSeconds d * 1000) in *. assert (0 < w) by lia.
  assert ((w | pt_ts p + w)) as Hdiv' by (apply Z.divide_add_r; [done|apply Z.divide_refl]).
  assert (pt_ts p < floor_to w e <-> pt_ts p + w <= e).
  { rewrite (floor_to_galois w (pt_ts p + w) e) by done.
    destruct Hdiv as [a ->]. unfold floor_to. clearbody w. generalize (e / w) as q. intros q.
    rewrite <- (Z.mul_lt_mono_pos_r w a q) by done.
    replace (a * w + w) with ((a + 1) * w) by lia.
    rewrite <- (Z.mul_le_mono_pos_r (a + 1) q w) by done. lia. }
  naive_solver.
Qed.

Theorem buildBuckets_spec d :
  series_aligned d -> 0 < bucketSeconds d ->
  map b_ts (buildBuckets d) = map pt_ts (series d) /\
  Forall (fun b =>
    match b_total b with
    | None => (exists e, enabledAt d = Some e /\ b_ts b + bucketSeconds d * 1000 <= e)
              /\ b_blocked b = None /\ b_dnssec b = None /\ b_inProgress b = false
    | Some t => (forall e, enabledAt d = Some e -> e < b_ts b + bucketSeconds d * 1000)
                /\ b_blocked b <> None /\ b_dnssec b <> None
                /\ (b_inProgress b = true <-> toMs d - FLUSH_LAG_MS < b_ts b + bucketSeconds d * 1000)
    end) (buildBuckets d).
Proof.
  intros Hal Hw. unfold buildBuckets. split; [by rewrite map_map|].
  apply Forall_fmap. unfold series_aligned in Hal. eapply Forall_impl; [exact Hal|].
  intros p Hp. pose proof (isGap_spec d p Hp Hw) as Hgap. cbn.
  destruct (isGap d p); cbn; [naive_solver|].
  split; [|split; [done|split; [done|apply Z.ltb_lt]]].
  intros e He. apply Z.nle_gt. intros Hle. assert (false = true) by naive_solver. done.
Qed.

Definition witness_stats : StatsData :=
  mkStats true (Some 2000000) (Some 2000000) None "30d" 0 4500000 900 (mkTotals 3 1 0)
    [mkPoint 900000 0 0 0; mkPoint 1800000 3 1 0] (fun _ => 0) (fun _ => 0) [].

Lemma buildBuckets_spec_witness :
  map b_ts (buildBuckets witness_stats) = [900000; 1800000]
  /\ map b_total (buildBuckets witness_stats) = [None; Some 3].
Proof.
  split; [|reflexivity]. apply (buildBuckets_spec witness_stats); [|reflexivity].
  repeat constructor; [by exists 1|by exists 2].
Defined.

(** *** A shorter view for a late start *)

Theorem shorterViewForStart_spec d cur offered k :
  shorterViewForStart d cur offered = Some k ->
  exists since r before after,
    countingSince d = Some since /\ offered = before ++ r :: after /\ r_key r = k /\
    toMs d - since <= r_seconds r * 1000 /\
    r_seconds r * 1000 < rangeSeconds cur * 1000 /\
    4 * (toMs d - since) < rangeSeconds cur * 1000 /\
    Forall (fun r' => r_seconds r' * 1000 < toMs d - since) before.
Proof.
  unfold shorterViewForStart. destruct (countingSince d) as [since|] eqn:Hs; [|done].
  destruct (_ <=? 4 * _) eqn:Hq; [done|]. destruct (array_find _ _) as [r|] eqn:Hf; [|done].
  destruct (_ <? _) eqn:Hlt; [|done]. intros [= <-]. to_prop.
  apply array_find_Some in Hf as (l1 & l2 & -> & Hr & Hall). to_prop.
  exists since, r, l1, l2. repeat split; try done; try lia.
  eapply Forall_impl; [exact Hall|]. cbn. intros r' ?. to_prop. done.
Qed.

Lemma shorterViewForStart_spec_witness :
  exists since r before after,
    countingSince witness_stats = Some since /\ RANGES = before ++ r :: after /\ r_key r = K3h /\
    toMs witness_stats - since <= r_seconds r * 1000 /\
    r_seconds r * 1000 < rangeSeconds K24h * 1000 /\
    4 * (toMs witness_stats - since) < rangeSeconds K24h * 1000 /\
    Forall (fun r' => r_seconds r' * 1000 < toMs witness_stats - since) before.
Proof. apply (shorterViewForStart_spec witness_stats K24h RANGES K3h). reflexivity. Defined.

(** *** The first counts *)

Lemma latest_spec a b s : latest a b = Some s ->
  (forall x, a = Some x -> x <= s) /\ (forall x, b = Some x -> x <= s) /\ (a = Some s \/ b = Some s).
Proof.
  unfold latest, max_opt. destruct a as [a|], b as [b|]; intros [= <-];
    (split; [|split]); try (intros ? [= <-]; lia); try done; auto.
  destruct (Z.max_spec a b) as [[_ ->]|[_ ->]]; auto.
Qed.

(** The conditions the first bucket boundary has to meet. *)
Definition first_boundary (range : RangeKey) (start : Z) (deletedAt : option Z) (q : Z) : Prop :=
  (QUARTER_MS | q) /\ start < q /\
  forall b t, tierBucket range = Some b -> deletedAt = Some t -> floor_to b t + b + QUARTER_MS <= q.

Lemma quarter_divides_tier range b : tierBucket range = Some b -> (QUARTER_MS | b).
Proof. destruct range; intros [= <-]; (by exists 4) || (by exists 96). Qed.

Theorem expectedFirstCounts_least range e del r :
  expectedFirstCounts range e del = Some r ->
  exists start, latest e del = Some start /\
    first_boundary range start del (boundaryMs r) /\
    (forall q, first_boundary range start del q -> boundaryMs r <= q) /\
    displayMs r = boundaryMs r + FLUSH_TICK_MS /\
    collectingUntilMs r = displayMs r + COLLECTING_GRACE_MS.
Proof.
  unfold expectedFirstCounts. destruct (latest e del) as [start|] eqn:Hl; [|done]. intros [= <-].
  exists start. cbn [boundaryMs displayMs collectingUntilMs]. split; [done|].
  assert (0 < QUARTER_MS) as HQ by done.
  pose proof (floor_to_bounds QUARTER_MS start HQ) as Hb.
  set (base := floor_to QUARTER_MS start + QUARTER_MS).
  assert ((QUARTER_MS | base)) as Hdiv
    by (apply Z.divide_add_r; [apply floor_to_divide|apply Z.divide_refl]).
  assert (forall q, (QUARTER_MS | q) -> start < q -> base <= q) as Hleast.
  { intros q Hq Hlt. by apply floor_to_next. }
  destruct del as [t|]; [destruct (tierBucket range) as [b|] eqn:Ht|].
  - set (tier := floor_to b t + b + QUARTER_MS).
    assert ((QUARTER_MS | tier)).
    { pose proof (quarter_divides_tier _ _ Ht). apply Z.divide_add_r; [|apply Z.divide_refl].
      apply Z.divide_add_r; [|done]. eapply Z.divide_trans; [done|apply floor_to_divide]. }
    split; [|split; [|done]].
    + split; [destruct (Z.max_spec base tier) as [[_ ->]|[_ ->]]; done|]. split; [lia|].
      intros b' t' Hb' [= <-]. rewrite Ht in Hb'. injection Hb' as <-. fold tier. lia.
    + intros q (Hq & Hlt & Htier). specialize (Hleast q Hq Hlt).
      specialize (Htier b t Ht eq_refl). fold tier in Htier. lia.
  - split; [|split; [|done]]; [split; [done|split; [lia|congruence]]|]. intros q (? & ? & _). auto.
  - split; [|split; [|done]]; [split; [done|split; [lia|congruence]]|]. intros q (? & ? & _). auto.
Qed.

Lemma expectedFirstCounts_least_witness :
  exists r, expectedFirstCounts K24h (Some 4000000) (Some 3000000) = Some r /\ boundaryMs r = 4500000 /\
  exists start, latest (Some 4000000) (Some 3000000) = Some start /\
    first_boundary K24h start (Some 3000000) (boundaryMs r) /\
    (forall q, first_boundary K24h start (Some 3000000) q -> boundaryMs r <= q) /\
    displayMs r = boundaryMs r + FLUSH_TICK_MS /\
    collectingUntilMs r = displayMs r + COLLECTING_GRACE_MS.
Proof.
  eexists. split; [reflexivity|]. split; [reflexivity|].
  apply (expectedFirstCounts_least K24h (Some 4000000) (Some 3000000)). reflexivity.
Defined.

(** *** Enabled lists *)

Section lists.
Context {H : Host} {HL : HostLaws H}.

Definition uncredited (items : list BlocklistItem) (enabled : list string) : list string :=
  List.filter (fun id => negb (bool_decide (id ∈ map bi_id items))) enabled.

Definition by_label (a b : BlocklistItem) : Prop := localeCompare (itemLabel a) (itemLabel b) <= 0.

Theorem withEnabledLists_spec items enabled names :
  (length items < TOP_LIST_LIMIT)%nat ->
  exists zero, withEnabledLists items enabled names = items ++ zero /\
    map bi_id zero ≡ₚ uncredited items enabled /\
    Forall (fun b => bi_count b = 0 /\ bi_name b = names !! bi_id b) zero /\
    Sorted by_label zero /\
    (NoDup (map bi_id items) -> NoDup enabled -> NoDup (map bi_id (items ++ zero))).
Proof.
  intros Hlen. unfold withEnabledLists. rewrite (proj2 (Nat.leb_gt _ _)) by done.
  fold (uncredited items enabled).
  set (mk := fun id => {| bi_id := id; bi_name := names !! id; bi_count := 0 |}).
  set (cmp := fun a b => localeCompare (itemLabel a) (itemLabel b)).
  set (zero := array_sort cmp (map mk (uncredited items enabled))).
  assert (zero ≡ₚ map mk (uncredited items enabled)) as Hperm by apply array_sort_perm.
  assert (map bi_id zero ≡ₚ uncredited items enabled) as Hids.
  { rewrite Hperm, map_map. cbn. by rewrite map_id. }
  exists zero. split; [|split; [done|split; [|split]]].
  - destruct zero; [by rewrite app_nil_r|done].
  - rewrite Hperm. apply Forall_fmap, Forall_true. done.
  - apply (array_sort_sorted cmp). intros a b. apply localeCompare_antisym.
  - intros Hi He. rewrite map_app. apply NoDup_app. split; [done|]. split.
    + intros id Hin. rewrite Hids. unfold uncredited. rewrite elem_of_list_filter_b.
      intros [_ ?]. to_prop. done.
    + rewrite Hids. by apply NoDup_filter_b.
Qed.
End lists.

Lemma withEnabledLists_spec_witness :
  exists zero, @withEnabledLists utc_host [mkItem "b" None 4] ["c"; "b"; "a"] ∅ = [mkItem "b" None 4] ++ zero /\
    map bi_id zero ≡ₚ uncredited [mkItem "b" None 4] ["c"; "b"; "a"] /\
    Forall (fun b => bi_count b = 0 /\ bi_name b = (∅ : gmap string string) !! bi_id b) zero /\
    Sorted (@by_label utc_host) zero /\
    (NoDup (map bi_id [mkItem "b" None 4]) -> NoDup ["c"; "b"; "a"] ->
       NoDup (map bi_id ([mkItem "b" None 4] ++ zero))).
Proof. apply (@withEnabledLists_spec utc_host utc_host_laws), Nat.ltb_lt. reflexivity. Defined.
