(* ===== verification/StatsTime.v ===== *)
(** * Dates and ticks of the Statistics page

    [src/app/src/pages/statistics/time.ts]: the formats of times, the X-axis ticks of each view,
    the bucket labels with their zone name when the local clock repeats an hour, and relative times.
    The formatter cache of [fmt] is not modelled: a formatter is a function of its options. A chart
    width is an integer; a fractional one behaves as its integer part. *)


From S2P Require Import Prelude JsString JsDate ApiTypes DataCollection Ranges Derive.

Record AxisTick := mkTick { tick_ts : Z; tick_label : string }.

(** Rough rendered label widths. *)
Definition TICK_LABEL_PX (k : RangeKey) : Z :=
  match k with K3h => 64 | K6h => 64 | K24h => 64 | K7d => 52 | K30d => 50 | K3m => 50 | K12m => 64 end.

(** Sub-day tick steps in minutes of the local day, usual step first (K12); none for daily views. *)
Definition SUBDAY_STEPS (k : RangeKey) : list Z :=
  match k with
  | K3h => [30; 15] | K6h => [60; 30; 15] | K24h => [180; 60] | K7d => [1440; 360; 180; 60]
  | K30d | K3m | K12m => []
  end.

Inductive DayStep : Set :=
| days_step (n : nat)
| monday_step (every : nat)
| month_step (every : nat).

(** Smallest step first; the first one whose label count fits wins. *)
Definition DAILY_LADDER : list DayStep :=
  [days_step 1; days_step 2; days_step 3; monday_step 1; monday_step 2;
   month_step 1; month_step 2; month_step 3].

(** [k++ % every === 0], counting from [k]. *)
Fixpoint keep_every {A} (every k : nat) (l : list A) : list A :=
  match l with
  | [] => []
  | x :: l' => (if (k mod every =? 0)%nat then [x] else []) ++ keep_every every (S k) l'
  end.

Definition indexes {A} (l : list A) : list nat := seq 0 (length l).

Definition stepIndexes (tsList : list Z) (step : DayStep) : list nat :=
  let at_ i := tsList !!! i in
  match step with
  | days_step n => keep_every n 0 (indexes tsList)
  | monday_step every => keep_every every 0 (List.filter (fun i => getUTCDay (at_ i) =? 1) (indexes tsList))
  | month_step every => keep_every every 0 (List.filter (fun i => getUTCDate (at_ i) =? 1) (indexes tsList))
  end.

Record Pick := mkPick { pick_step : DayStep; pick_idx : list nat }.

Definition stepPx (crossesYear : bool) (step : DayStep) : Z :=
  match step with month_step _ => 64 | _ => if crossesYear then 74 else 54 end.

Definition stepMax (widthPx : Z) (crossesYear : bool) (step : DayStep) : Z :=
  let fit := (widthPx - 40) / (stepPx crossesYear step + 4) in
  Z.max 4 (Z.min fit (if widthPx <? 520 then 5 else 10)).

(** The [for] loop over the ladder, with [chosen ??= previous] after it. *)
Fixpoint choose (tsList : list Z) (widthPx : Z) (crossesYear : bool) (wanted : nat)
    (ladder : list DayStep) (previous : option Pick) : option Pick :=
  match ladder with
  | [] => previous
  | step :: rest =>
      let idx := stepIndexes tsList step in
      if Z.of_nat (length idx) <=? stepMax widthPx crossesYear step then
        match previous with
        | Some p => if (length idx <? wanted)%nat then Some p else Some (mkPick step idx)
        | None => Some (mkPick step idx)
        end
      else choose tsList widthPx crossesYear wanted rest (Some (mkPick step idx))
  end.

Section ticks.
Context {H : Host}.

Definition formatClock (ms : Z) : string :=
  intl_format {| o_weekday := None; o_month := None; o_day := None; o_year := None;
                 o_hour := Some "2-digit"; o_minute := Some "2-digit"; o_timeZone := None;
                 o_timeZoneName := None |} ms.

(** "about {expected}" (P5): the clock time today, the date and time on another day. *)
Definition formatExpected (ms nowMs : Z) : string :=
  if sameDateString ms nowMs then formatClock ms else formatDateTime ms.

Definition formatUtcDay (ms : Z) (withYear : bool) : string :=
  intl_format {| o_weekday := None; o_month := Some "short"; o_day := Some "numeric";
                 o_year := if withYear then Some "numeric" else None; o_hour := None; o_minute := None;
                 o_timeZone := Some "UTC"; o_timeZoneName := None |} ms.

Definition bucketUnitWord (bucketSeconds : Z) : string :=
  if 86400 <=? bucketSeconds then "daily"
  else if 3600 <=? bucketSeconds then "hourly" else "15-minute".

Definition crossesYear (tsList : list Z) : bool :=
  match tsList, last tsList with
  | a :: _, Some b => negb (getUTCFullYear a =? getUTCFullYear b)
  | _, _ => false
  end.

Definition dayLabel (cy : bool) (ts : Z) (step : DayStep) (first : bool) : string :=
  match step with
  | month_step _ =>
      intl_format {| o_weekday := None; o_month := Some "short"; o_day := None; o_year := Some "numeric";
                     o_hour := None; o_minute := None; o_timeZone := Some "UTC"; o_timeZoneName := None |} ts
  | _ => formatUtcDay ts (cy && (first || ((getUTCDate ts =? 1) && (getUTCMonth ts =? 0))))
  end.

(** K6: ticks for the daily (UTC-day) views. *)
Definition dailyTicks (tsList : list Z) (widthPx : Z) : list AxisTick :=
  match tsList with
  | [] => []
  | _ =>
      let cy := crossesYear tsList in
      let wanted := Nat.min (length tsList) 4 in
      match choose tsList widthPx cy wanted DAILY_LADDER None with
      | None => []
      | Some p =>
          imap (fun k i => let ts := tsList !!! i in
                  mkTick ts (dayLabel cy ts (pick_step p) (k =? 0)%nat)) (pick_idx p)
      end
  end.

(** Minutes of the local day. *)
Definition localMinutes (ts : Z) : Z := getHours ts * 60 + getMinutes ts.

Definition clockLabel (range : RangeKey) (ts : Z) : string :=
  let midnight := localMinutes ts =? 0 in
  let short weekday month :=
    {| o_weekday := weekday; o_month := month; o_day := Some "numeric"; o_year := None; o_hour := None;
       o_minute := None; o_timeZone := None; o_timeZoneName := None |} in
  if midnight && bool_decide (range = K7d) then intl_format (short (Some "short") None) ts
  else if midnight && bool_decide (range = K24h) then intl_format (short None (Some "short")) ts
  else formatClock ts.

(** The [for] loop over the steps: the first that leaves enough labels, else the last. *)
Fixpoint firstEnough (tsList : list Z) (want : nat) (steps : list Z) (ticks : list Z) : list Z :=
  match steps with
  | [] => ticks
  | step :: rest =>
      let ticks := List.filter (fun ts => localMinutes ts mod step =? 0) tsList in
      if (want <=? length ticks)%nat then ticks else firstEnough tsList want rest ticks
  end.

(** [while (step > 1 && Math.ceil(n / step) < Math.min(3, n)) step--], from [step]. *)
Fixpoint lowerStep (n step : nat) : nat :=
  match step with
  | S (S _ as s) => if math_ceil_div (Z.of_nat n) (Z.of_nat step) <? Z.of_nat (Nat.min 3 n)
                    then lowerStep n s else step
  | _ => step
  end.

Definition thinStep (range : RangeKey) (n : nat) (widthPx : Z) : nat :=
  let fit := Z.max 1 ((widthPx - 40) / (TICK_LABEL_PX range + 8)) in
  lowerStep n (Z.to_nat (Z.max (math_ceil_div (Z.of_nat n) fit) (if widthPx <? 520 then 2 else 1))).

(** K6: explicit X-axis ticks for each view, taken from the bucket timestamps. *)
Definition axisTicks (range : RangeKey) (tsList : list Z) (widthPx : option Z) : list AxisTick :=
  match range with
  | K30d | K3m | K12m => dailyTicks tsList (widthPx ?? 1000)
  | _ =>
      match tsList with
      | [] => []
      | _ =>
          let want := Nat.min 3 (length tsList) in
          let ticks := firstEnough tsList want (SUBDAY_STEPS range) [] in
          let ticks := match widthPx with
                       | Some w => if (1 <? length ticks)%nat
                                   then keep_every (thinStep range (length ticks) w) 0 ticks else ticks
                       | None => ticks
                       end in
          map (fun ts => mkTick ts (clockLabel range ts)) ticks
      end
  end.

(** True when the local clock shows this wall time twice. *)
Definition isRepeatedLocalTime (ms : Z) : bool :=
  let before := tz_offset_min (ms - 3 * HOUR_MS) in
  let after := tz_offset_min (ms + 3 * HOUR_MS) in
  if before =? after then false
  else let own := tz_offset_min ms in
       existsb (fun other => negb (other =? own)
                  && (tz_offset_min (ms + (own - other) * 60000) =? other)) [before; after].

(** Tooltip and table row header for one bucket; a repeated local time carries its zone name. *)
Definition formatBucketLabel (ms bucketSeconds : Z) : string :=
  if 86400 <=? bucketSeconds then formatUtcDay ms true ++s " (UTC day)"
  else
    let end_ := ms + bucketSeconds * 1000 in
    let zoned month day :=
      {| o_weekday := None; o_month := month; o_day := day; o_year := None; o_hour := Some "2-digit";
         o_minute := Some "2-digit"; o_timeZone := None; o_timeZoneName := Some "short" |} in
    let start := if isRepeatedLocalTime ms
                 then intl_format (zoned (Some "short") (Some "numeric")) ms else formatDateTime ms in
    let finish := if isRepeatedLocalTime end_
                  then intl_format (zoned None None) end_ else formatClock end_ in
    start ++s "-" ++s finish.

Definition formatRelative (ms nowMs : Z) : string :=
  let diffSec := math_round_div (ms - nowMs) 1000 in
  let abs := Z.abs diffSec in
  if abs <? 60 then relative_format diffSec "second"
  else if abs <? 3600 then relative_format (math_round_div diffSec 60) "minute"
  else if abs <? 86400 then relative_format (math_round_div diffSec 3600) "hour"
  else relative_format (math_round_div diffSec 86400) "day".
End ticks.

(** ** The ticks of a chart axis

    Which timestamps an axis labels, how many, and where the sub-day views have none. *)

(** ** Keeping every n-th element *)

Lemma keep_every_sublist {A} e k (l : list A) : keep_every e k l `sublist_of` l.
Proof.
  revert k. induction l as [|x l IH]; intros k; cbn; [done|].
  destruct (k mod e =? 0)%nat; cbn; constructor; apply IH.
Qed.
#[export] Hint Resolve keep_every_sublist : moddns.

(** The multiples of [e] among the [n] numbers from [k]. *)
Lemma length_keep_every {A} e k (l : list A) :
  (0 < e)%nat -> Z.of_nat (length (keep_every e k l)) =
    math_ceil_div (Z.of_nat (k + length l)) (Z.of_nat e) - math_ceil_div (Z.of_nat k) (Z.of_nat e).
Proof.
  intros He. revert k. induction l as [|x l IH]; intros k; cbn [keep_every length].
  { rewrite Nat.add_0_r. cbn. lia. }
  rewrite length_app, Nat2Z.inj_add, IH. replace (S k + length l)%nat with (k + S (length l))%nat by lia.
  enough (Z.of_nat (length (if (k mod e =? 0)%nat then [x] else [])) =
    math_ceil_div (Z.of_nat (S k)) (Z.of_nat e) - math_ceil_div (Z.of_nat k) (Z.of_nat e)) by lia.
  unfold math_ceil_div. rewrite Nat2Z.inj_succ. set (ez := Z.of_nat e). assert (0 < ez) by lia.
  pose proof (Nat2Z.inj_mod k e) as Hm. fold ez in Hm. set (kz := Z.of_nat k) in *.
  pose proof (Z.div_mod kz ez ltac:(lia)) as Hd. pose proof (Z.mod_pos_bound kz ez ltac:(lia)) as Hb.
  set (q := kz / ez) in *. set (r := kz mod ez) in *. clearbody q r.
  assert (- Z.succ kz / ez = - q - 1) as ->.
  { symmetry. apply (Z.div_unique _ _ _ (ez - 1 - r)); [left; lia|nia]. }
  destruct (Nat.eqb_spec (k mod e) 0) as [E|E]; cbn [length].
  - assert (r = 0) by lia. assert (- kz / ez = - q) as ->; [|lia].
    symmetry. apply (Z.div_unique _ _ _ 0); [left; lia|nia].
  - assert (- kz / ez = - q - 1) as ->; [|lia].
    symmetry. apply (Z.div_unique _ _ _ (ez - r)); [left; lia|nia].
Qed.

Lemma length_keep_every_0 {A} e (l : list A) :
  (0 < e)%nat -> Z.of_nat (length (keep_every e 0 l)) = math_ceil_div (Z.of_nat (length l)) (Z.of_nat e).
Proof.
  intros He. rewrite length_keep_every by done. cbn [Nat.add].
  assert (math_ceil_div (Z.of_nat 0) (Z.of_nat e) = 0) as ->; [|lia].
  unfold math_ceil_div. cbn. rewrite Z.div_0_l; lia.
Qed.

(** ** Daily views *)

Lemma stepIndexes_sublist l step : stepIndexes l step `sublist_of` indexes l.
Proof.
  destruct step; cbn; [apply keep_every_sublist|..]; (etransitivity; [apply keep_every_sublist|apply filter_b_sublist]).
Qed.

Lemma choose_sublist l w cy wanted ladder prev p :
  (forall q, prev = Some q -> pick_idx q `sublist_of` indexes l) ->
  choose l w cy wanted ladder prev = Some p -> pick_idx p `sublist_of` indexes l.
Proof.
  revert prev. induction ladder as [|step rest IH]; intros prev Hprev; cbn [choose]; [apply Hprev|].
  destruct (_ <=? _).
  - destruct prev as [q|]; [destruct (length (stepIndexes l step) <? wanted)%nat|]; intros [= <-]; eauto using stepIndexes_sublist.
  - apply IH. intros q [= <-]. apply stepIndexes_sublist.
Qed.

Lemma imap_lookup_sublist (l : list Z) idx :
  idx `sublist_of` indexes l -> map (fun i => l !!! i) idx `sublist_of` l.
Proof.
  intros Hs. assert (map (fun i => l !!! i) (indexes l) = l) as Hl.
  { unfold indexes. apply list_eq. intros i. rewrite list_lookup_fmap.
    destruct (decide (i < length l)%nat) as [Hi|Hi].
    - rewrite lookup_seq_lt by done. cbn. symmetry. by apply list_lookup_lookup_total_lt.
    - rewrite lookup_seq_ge by lia. cbn. symmetry. apply lookup_ge_None. lia. }
  pose proof (fmap_sublist (fun i => l !!! i) _ _ Hs) as Hm.
  etransitivity; [exact Hm|]. change (map (fun i => l !!! i) (indexes l) `sublist_of` l). by rewrite Hl.
Qed.

Lemma map_imap_ticks {A B C} (f : nat -> A -> B) (g : B -> C) (h : A -> C) l :
  (forall k x, g (f k x) = h x) -> map g (imap f l) = map h l.
Proof.
  intros Hf. revert f Hf. induction l as [|x l IH]; intros f Hf; cbn; [done|].
  rewrite Hf. f_equal. apply IH. intros. apply Hf.
Qed.

(** A previous pick of the loop did not fit, so it has more labels than the smallest limit. *)
Lemma choose_length l w cy wanted ladder prev p :
  (wanted <= 4)%nat ->
  (forall q, prev = Some q -> (4 < length (pick_idx q))%nat) ->
  (prev = None -> exists rest, ladder = days_step 1 :: rest) ->
  (wanted <= length l)%nat ->
  choose l w cy wanted ladder prev = Some p -> (wanted <= length (pick_idx p))%nat.
Proof.
  intros Hw. revert prev. induction ladder as [|step rest IH]; intros prev Hprev Hnone Hl; cbn [choose].
  { intros Hp. specialize (Hprev p Hp). lia. }
  destruct (_ <=? _) eqn:Hfit; to_prop.
  - destruct prev as [q|].
    + destruct (Nat.ltb_spec (length (stepIndexes l step)) wanted); intros [= <-]; [|done].
      specialize (Hprev q eq_refl). lia.
    + intros [= <-]. destruct (Hnone eq_refl) as [rest' [= -> ->]]. cbn.
      pose proof (length_keep_every_0 1 (indexes l) ltac:(lia)) as Hlen.
      unfold math_ceil_div in Hlen. rewrite Z.div_1_r in Hlen.
      unfold indexes in *. rewrite length_seq in Hlen. lia.
  - apply IH; [|done|done]. intros q [= <-]. cbn. unfold stepMax in Hfit. lia.
Qed.

Lemma choose_Some l w cy wanted ladder prev :
  (ladder <> [] \/ prev <> None) -> exists p, choose l w cy wanted ladder prev = Some p.
Proof.
  revert prev. induction ladder as [|step rest IH]; intros prev Hne; cbn [choose].
  - destruct prev; [by eexists|]. by destruct Hne.
  - destruct (Z.of_nat _ <=? _); [|apply IH; by right]. destruct prev; [|by eexists].
    destruct (length (stepIndexes l step) <? wanted)%nat; by eexists.
Qed.

Section axis.
Context {H : Host}.

Lemma dailyTicks_ts l w :
  l = [] /\ dailyTicks l w = [] \/
  exists p, choose l w (crossesYear l) (Nat.min (length l) 4) DAILY_LADDER None = Some p /\
    map tick_ts (dailyTicks l w) = map (fun i => l !!! i) (pick_idx p).
Proof.
  unfold dailyTicks. destruct l as [|x l']; [by left|]. right.
  destruct (choose_Some (x :: l') w (crossesYear (x :: l')) (Nat.min (length (x :: l')) 4) DAILY_LADDER None)
    as [p Hp]; [by left|].
  exists p. rewrite Hp. split; [done|]. by apply map_imap_ticks.
Qed.

Lemma firstEnough_sublist l want steps init :
  init `sublist_of` l -> firstEnough l want steps init `sublist_of` l.
Proof.
  revert init. induction steps as [|s rest IH]; intros init Hi; cbn; [done|].
  destruct (_ <=? _)%nat; [|apply IH]; apply filter_b_sublist.
Qed.

(** The labels of a sub-day view, before its text. *)
Definition subdayTicks (range : RangeKey) (l : list Z) (w : option Z) : list Z :=
  let ticks := firstEnough l (Nat.min 3 (length l)) (SUBDAY_STEPS range) [] in
  match w with
  | Some w => if (1 <? length ticks)%nat then keep_every (thinStep range (length ticks) w) 0 ticks else ticks
  | None => ticks
  end.

Definition is_daily (r : RangeKey) : bool :=
  match r with K30d | K3m | K12m => true | _ => false end.

Lemma axisTicks_ts range l w :
  map tick_ts (axisTicks range l w) =
  if is_daily range then map tick_ts (dailyTicks l (w ?? 1000)) else subdayTicks range l w.
Proof.
  unfold axisTicks, subdayTicks.
  destruct range; cbn [is_daily]; try done; (destruct l as [|x l];
    [by destruct w|rewrite map_map; cbn [tick_ts]; by rewrite map_id]).
Qed.

Lemma subdayTicks_sublist range l w : subdayTicks range l w `sublist_of` l.
Proof.
  unfold subdayTicks. pose proof (firstEnough_sublist l (Nat.min 3 (length l)) (SUBDAY_STEPS range) [])
    as Hf. specialize (Hf ltac:(apply sublist_nil_l)).
  destruct w; [|done]. destruct (_ <? _)%nat; [|done].
  etransitivity; [apply keep_every_sublist|done].
Qed.

Theorem axisTicks_sublist range l w : map tick_ts (axisTicks range l w) `sublist_of` l.
Proof.
  rewrite axisTicks_ts. destruct (is_daily range); [|apply subdayTicks_sublist].
  destruct (dailyTicks_ts l (w ?? 1000)) as [[-> ->]|(p & Hp & ->)]; [done|].
  apply imap_lookup_sublist. eapply choose_sublist; [|exact Hp]. done.
Qed.

(** ** Enough labels *)

Lemma lowerStep_spec n s : (1 <= s)%nat ->
  (1 <= lowerStep n s)%nat /\
  Z.of_nat (Nat.min 3 n) <= math_ceil_div (Z.of_nat n) (Z.of_nat (lowerStep n s)).
Proof.
  assert (Z.of_nat (Nat.min 3 n) <= math_ceil_div (Z.of_nat n) 1) as H1.
  { unfold math_ceil_div. rewrite Z.div_1_r. lia. }
  induction s as [|s IH]; [lia|]. intros _. cbn [lowerStep].
  destruct s as [|s]; [done|].
  destruct (Z.ltb_spec (math_ceil_div (Z.of_nat n) (Z.of_nat (S (S s)))) (Z.of_nat (Nat.min 3 n))) as [Hlt|Hge];
    [apply IH; lia|lia].
Qed.

Lemma thinStep_pos range n w : (1 <= thinStep range n w)%nat.
Proof. unfold thinStep. apply lowerStep_spec. destruct (w <? 520); lia. Qed.

Lemma thin_keeps_three range (ticks : list Z) w :
  (Nat.min 3 (length ticks) <= length (keep_every (thinStep range (length ticks) w) 0 ticks))%nat.
Proof.
  apply Nat2Z.inj_le. rewrite length_keep_every_0 by apply thinStep_pos.
  unfold thinStep. apply lowerStep_spec. destruct (w <? 520); lia.
Qed.

(** The bucket of a sub-day view in minutes: quarter hours, then hours. *)
Definition tierMinutes (range : RangeKey) : Z := match range with K3h | K6h => 15 | _ => 60 end.

Definition aligned_local (m : Z) (ts : Z) : Prop := (m * MINUTE_MS | local_ms ts).

Lemma localMinutes_eq ts : localMinutes ts = local_ms ts mod DAY_MS / MINUTE_MS.
Proof.
  unfold localMinutes, getHours, getMinutes. generalize (local_ms ts) as x. intros x.
  change DAY_MS with 86400000. change HOUR_MS with 3600000. change MINUTE_MS with 60000.
  assert (x mod 3600000 = (x mod 86400000) mod 3600000) as ->.
  { rewrite (Z.div_mod x 86400000) at 1 by lia.
    replace (86400000 * (x / 86400000)) with (x / 86400000 * 24 * 3600000) by lia.
    rewrite Z.add_comm. apply Z.mod_add. lia. }
  generalize (x mod 86400000) as y. intros y. clear x.
  rewrite (Z.div_mod y 3600000) at 3 by lia.
  replace (3600000 * (y / 3600000)) with (y / 3600000 * 60 * 60000) by lia.
  rewrite Z.div_add_l by lia. lia.
Qed.

(** A local time on a multiple of [m] minutes has a multiple of [m] as its minute of the day. *)
Lemma localMinutes_aligned m ts :
  0 < m -> (m | 1440) -> aligned_local m ts -> localMinutes ts mod m = 0.
Proof.
  intros Hm [d Hd] [k Hk]. rewrite localMinutes_eq, Hk.
  replace DAY_MS with (1440 * MINUTE_MS) by done.
  replace (k * (m * MINUTE_MS)) with (k * m * MINUTE_MS) by lia.
  rewrite Z.mul_mod_distr_r by done. rewrite Z.div_mul by done.
  rewrite Hd, (Z.mul_comm d m), (Z.mul_comm k m), Z.mul_mod_distr_l by nia.
  rewrite Z.mul_comm. apply Z.mod_mul. lia.
Qed.

Lemma firstEnough_enough l want steps init s :
  last steps = Some s -> (want <= length l)%nat ->
  Forall (fun ts => localMinutes ts mod s = 0) l ->
  (want <= length (firstEnough l want steps init))%nat.
Proof.
  intros Hlast Hl Hall. revert init. induction steps as [|x rest IH]; intros init; cbn; [done|].
  destruct (Nat.leb_spec want (length (List.filter (fun ts => localMinutes ts mod x =? 0) l))) as [Hle|Hgt]; [done|].
  destruct rest as [|y rest].
  - cbn in Hlast. injection Hlast as ->. exfalso. revert Hgt.
    rewrite (forallb_filter_id _ l); [lia|].
    apply forallb_forall. intros ts Hts. apply Z.eqb_eq. rewrite Forall_forall in Hall.
    apply Hall. by apply list_elem_of_In.
  - by apply IH.
Qed.

Theorem axisTicks_enough range l w :
  (is_daily range = false -> Forall (aligned_local (tierMinutes range)) l) ->
  (Nat.min (length l) (if is_daily range then 4 else 3) <= length (axisTicks range l w))%nat.
Proof.
  intros Hal. rewrite <- (length_map tick_ts), axisTicks_ts.
  destruct (is_daily range) eqn:Hd.
  - destruct (dailyTicks_ts l (w ?? 1000)) as [[-> ->]|(p & Hp & ->)]; [done|]. rewrite length_map.
    eapply choose_length; [| | | |exact Hp]; [lia|done|by eexists|lia].
  - rewrite Nat.min_comm. specialize (Hal eq_refl).
    assert (Nat.min 3 (length l) <= length (firstEnough l (Nat.min 3 (length l)) (SUBDAY_STEPS range) []))%nat as Hf.
    { apply (firstEnough_enough _ _ _ _ (tierMinutes range)); [by destruct range|lia|].
      eapply Forall_impl; [exact Hal|]. intros ts. apply localMinutes_aligned; destruct range; try done;
        try (by exists 96); by exists 24. }
    unfold subdayTicks. destruct w as [w|]; [|done].
    set (ticks := firstEnough _ _ _ _) in *. destruct (Nat.ltb_spec 1 (length ticks)); [|done].
    pose proof (thin_keeps_three range ticks w). lia.
Qed.

(** ** Zones off the hour *)

Lemma localMinutes_off_hour ts :
  local_ms ts mod HOUR_MS = 30 * MINUTE_MS -> localMinutes ts mod 60 = 30.
Proof.
  intros Hl. unfold localMinutes, getMinutes. rewrite Hl.
  replace (30 * MINUTE_MS / MINUTE_MS) with 30 by reflexivity.
  rewrite Z.add_comm, Z.mod_add by lia. reflexivity.
Qed.

Theorem axisTicks_half_hour_zone range l w :
  range = K24h \/ range = K7d ->
  Forall (fun ts => (HOUR_MS | ts) /\ tz_offset_min ts mod 60 = 30) l ->
  axisTicks range l w = [].
Proof.
  intros Hr Hl.
  assert (forall step, (60 | step) -> 0 < step ->
    List.filter (fun ts => localMinutes ts mod step =? 0) l = []) as Hnone.
  { intros step [q Hq] Hpos. induction Hl as [|ts l [[k Hts] Hz] _ IH]; [done|]. cbn.
    destruct (Z.eqb_spec (localMinutes ts mod step) 0) as [Hm|]; [|done].
    assert (localMinutes ts mod 60 = 30) as H30.
    { apply localMinutes_off_hour. unfold local_ms. rewrite Hts.
      replace (tz_offset_min (k * HOUR_MS)) with (tz_offset_min ts) by (by rewrite Hts).
      pose proof (Z.div_mod (tz_offset_min ts) 60 ltac:(lia)) as Ho. rewrite Hz in Ho. rewrite Ho.
      unfold HOUR_MS, MINUTE_MS.
      replace (k * (60 * 60 * 1000) + (60 * (tz_offset_min ts / 60) + 30) * (60 * 1000))
        with (30 * (60 * 1000) + (k + tz_offset_min ts / 60) * (60 * 60 * 1000)) by lia.
      rewrite Z.mod_add by lia. reflexivity. }
    apply Z.mod_divide in Hm; [|lia]. destruct Hm as [j Hj]. rewrite Hj, Hq in H30.
    rewrite Z.mul_assoc, Z.mod_mul in H30 by lia. done. }
  unfold axisTicks. destruct Hr as [-> | ->]; destruct l as [|x l']; try done;
    cbn [SUBDAY_STEPS firstEnough]; rewrite !Hnone by first [done | by exists 1 | by exists 3 | by exists 6 | by exists 24];
    cbn [length]; destruct (_ <=? 0)%nat; by destruct w.
Qed.
End axis.

(** ** Concrete inputs *)

(** Six hourly buckets from midnight UTC. *)
Definition witness_hours : list Z := map (fun k => k * HOUR_MS) [0; 1; 2; 3; 4; 5; 6].

Lemma axisTicks_enough_witness :
  (Nat.min (length witness_hours) 3 <= length (@axisTicks utc_host K24h witness_hours (Some 300%Z)))%nat.
Proof.
  apply (@axisTicks_enough utc_host K24h witness_hours (Some 300)). intros _.
  unfold witness_hours. apply Forall_fmap, Forall_true. intros k. exists k.
  unfold local_ms, HOUR_MS, MINUTE_MS, tierMinutes, tz_offset_min, utc_host. lia.
Defined.

(** A browser in India, at UTC+5:30 all year. *)
Definition kolkata_host : Host := {|
  tz_offset_min _ := 330;
  intl_format _ ms := show ms;
  relative_format n unit := show n ++s " " ++s unit;
  localeCompare a b := match String.compare a b with Lt => -1 | Eq => 0 | Gt => 1 end;
  legacy_parse _ := None;
|}.

Lemma axisTicks_half_hour_zone_witness : @axisTicks kolkata_host K24h witness_hours (Some 900) = [].
Proof.
  apply (@axisTicks_half_hour_zone kolkata_host K24h witness_hours (Some 900)); [by left|].
  unfold witness_hours. apply Forall_fmap, Forall_true. intros k. split; [by exists k|reflexivity].
Defined.
