(* ===== verification/ApiResource.v ===== *)
(** * Resources of the Statistics page

    [src/app/src/pages/statistics/useApiResource.ts]: a hook that fetches whenever its key changes.
    The state is the hook's [useState], its refs and the requests in flight; a render and the
    effects it triggers are one step, and answers arrive in any order. *)

From S2P Require Import Prelude JsString.

#[local] Arguments truthy : simpl never.
#[local] Arguments truthy_opt : simpl never.

Inductive ResourceStatus : Set := idle | loading | ready | failed.
#[export] Instance ResourceStatus_eq_dec : EqDecision ResourceStatus.
Proof. solve_decision. Defined.

Section resource.
Context {T : Type}.

Record ResourceState := mkRes {
  r_status : ResourceStatus;
  r_data : option T;
  r_refreshing : bool;
  r_errorStatus : option Z;
}.

Definition STALE_AFTER_MS : Z := 5 * 60 * 1000.

(** A call of [run] whose fetch has not settled. *)
Record Run := mkRun { run_key : string; run_silent : bool }.

Record Hook := mkHook {
  state : ResourceState;
  keyRef : option string;
  scopeRef : option string;
  lastOk : Z;
  rendered : option (option string * option string);
  running : list Run;
}.

Definition hook0 : Hook := mkHook (mkRes idle None false None) None None 0 None [].

Definition set_state (st : ResourceState) (h : Hook) : Hook :=
  mkHook st (keyRef h) (scopeRef h) (lastOk h) (rendered h) (running h).

Definition start_run (k : string) (silent : bool) (h : Hook) : Hook :=
  mkHook (state h) (keyRef h) (scopeRef h) (lastOk h) (rendered h) (running h ++ [mkRun k silent]).

Definition idle_state : ResourceState := mkRes idle None false None.
Definition loading_state : ResourceState := mkRes loading None false None.

(** The effect on [[key, scope, run]]. *)
Definition key_effect (scope key : option string) (h : Hook) : Hook :=
  if negb (truthy_opt key) then
    mkHook idle_state (keyRef h) None (lastOk h) (rendered h) (running h)
  else
    let sameScope := bool_decide (scopeRef h = scope) in
    let st := match sameScope, r_data (state h) with
              | true, Some d => mkRes (r_status (state h)) (Some d) true (r_errorStatus (state h))
              | _, _ => loading_state
              end in
    start_run (key ?? "") false (mkHook st (keyRef h) scope (lastOk h) (rendered h) (running h)).

(** A render: the refs are written, and the effect runs when its dependencies changed. *)
Definition render (scope key : option string) (h : Hook) : Hook :=
  let changed := negb (bool_decide (rendered h = Some (key, scope))) in
  let h' := mkHook (state h) key (scopeRef h) (lastOk h) (Some (key, scope)) (running h) in
  if changed then key_effect scope key h' else h'.

Inductive Answer : Type :=
| Resolved (d : T)
| Failed (status : option Z).

(** The end of a call of [run]: an answer for a key that is no longer current is ignored. *)
Definition settle (r : Run) (a : Answer) (now : Z) (h : Hook) : Hook :=
  let current := bool_decide (keyRef h = Some (run_key r)) in
  match a with
  | Resolved d =>
      if negb current then h
      else mkHook (mkRes ready (Some d) false None) (keyRef h) (scopeRef h) now (rendered h) (running h)
  | Failed status =>
      if negb current || run_silent r then h
      else set_state (mkRes failed None false status) h
  end.

Definition remove_run (i : nat) (h : Hook) : Hook :=
  mkHook (state h) (keyRef h) (scopeRef h) (lastOk h) (rendered h) (delete i (running h)).

(** The visibility listener; [visible] is [document.visibilityState === "visible"]. *)
Definition onVisible (visible : bool) (now : Z) (h : Hook) : Hook :=
  if negb visible || negb (truthy_opt (keyRef h)) then h
  else if STALE_AFTER_MS <? now - lastOk h then start_run (keyRef h ?? "") true h else h.

Definition reload (h : Hook) : Hook :=
  if negb (truthy_opt (keyRef h)) then h
  else start_run (keyRef h ?? "") false (set_state loading_state h).

Definition refetch (h : Hook) : Hook :=
  if truthy_opt (keyRef h) then start_run (keyRef h ?? "") true h else h.

Inductive HookEvent : Type :=
| Render (scope key : option string)
| Settle (i : nat) (a : Answer) (now : Z)
| VisibilityChange (visible : bool) (now : Z)
| Reload
| Refetch.

Definition hook_step (h : Hook) (e : HookEvent) : Hook :=
  match e with
  | Render scope key => render scope key h
  | Settle i a now => match running h !! i with Some r => settle r a now (remove_run i h) | None => h end
  | VisibilityChange v now => onVisible v now h
  | Reload => reload h
  | Refetch => refetch h
  end.

(** ** What the page shows *)

Section invariant.
(** [answers k d]: [d] is an answer of the API for the key [k]; a key belongs to one scope. *)
Context (answers : string -> T -> Prop) (key_scope : string -> option string).

(** The environment: renders pair a key with its scope, and an answer is for the key it was asked. *)
Definition event_ok (h : Hook) (e : HookEvent) : Prop :=
  match e with
  | Render scope key => forall k, key = Some k -> truthy k = true -> scope = key_scope k
  | Settle i (Resolved d) _ => forall r, running h !! i = Some r -> answers (run_key r) d
  | _ => True
  end.

(** The state shown is consistent: data belongs to the scope, it is the current key's unless it is
    marked refreshing, and while a newer answer is awaited the request for it is in flight. *)
Record hook_ok (h : Hook) : Prop := {
  ho_data : r_data (state h) <> None <-> r_status (state h) = ready;
  ho_current : forall d, r_data (state h) = Some d -> r_refreshing (state h) = false ->
    exists k, keyRef h = Some k /\ answers k d;
  ho_scope : forall d, r_data (state h) = Some d ->
    exists k, answers k d /\ key_scope k = scopeRef h /\ truthy k = true;
  ho_refreshing : r_refreshing (state h) = true -> r_status (state h) = ready;
  ho_awaited : r_status (state h) = loading \/ r_refreshing (state h) = true ->
    exists k, keyRef h = Some k /\ mkRun k false ∈ running h;
  ho_idle : truthy_opt (keyRef h) = false <-> r_status (state h) = idle;
  ho_key : forall k, keyRef h = Some k -> truthy k = true -> scopeRef h = key_scope k;
  ho_rendered : forall k s, rendered h = Some (k, s) -> keyRef h = k;
  ho_unrendered : rendered h = None -> keyRef h = None;
  ho_runs : Forall (fun r => truthy (run_key r) = true) (running h);
}.

Lemma truthy_opt_Some k : truthy_opt (Some k) = truthy k.
Proof. done. Qed.

Lemma truthy_opt_spec (k : option string) : truthy_opt k = true -> exists s, k = Some s /\ truthy s = true.
Proof. destruct k as [s|]; cbn; [eauto|done]. Qed.

Lemma hook0_ok : hook_ok hook0.
Proof. split; cbn; try done. by intros [?|?]. Qed.

Lemma elem_of_delete_run i (l : list Run) r x :
  l !! i = Some r -> x ∈ l -> x <> r -> x ∈ delete i l.
Proof.
  intros Hi Hx Hne. rewrite (delete_Permutation l i r Hi) in Hx. by apply elem_of_cons in Hx as [?|?].
Qed.

Lemma Forall_delete_run {P : Run -> Prop} i (l : list Run) : Forall P l -> Forall P (delete i l).
Proof. intros Hl. by apply Forall_delete. Qed.

Lemma start_silent_ok k h : keyRef h = Some k -> truthy k = true -> hook_ok h -> hook_ok (start_run k true h).
Proof.
  intros Hk Ht []. split; cbn; try done.
  - intros Hw. destruct (ho_awaited0 Hw) as (k' & ? & ?). exists k'. split; [done|]. set_solver.
  - apply Forall_app. split; [done|]. by repeat constructor.
Qed.

Lemma settle_ok i r a now h :
  running h !! i = Some r -> (forall d, a = Resolved d -> answers (run_key r) d) ->
  hook_ok h -> hook_ok (settle r a now (remove_run i h)).
Proof.
  intros Hi Ha Hok. destruct Hok as [Hd Hcur Hsc Hrf Haw Hid Hkey Hre Hun Hrun].
  pose proof (Forall_delete_run i _ Hrun) as Hrun'.
  assert (truthy (run_key r) = true) as Hrt by (rewrite Forall_lookup in Hrun; by apply (Hrun i)).
  assert (keyRef h <> Some (run_key r) \/ run_silent r = true ->
    (r_status (state h) = loading \/ r_refreshing (state h) = true ->
     exists k, keyRef h = Some k /\ mkRun k false ∈ delete i (running h))) as Hkeep.
  { intros Hor Hw. destruct (Haw Hw) as (k & Hk & Hin). exists k. split; [done|].
    eapply elem_of_delete_run; [exact Hi|exact Hin|]. intros <-. cbn in Hor. destruct Hor; congruence. }
  unfold settle. destruct a as [d|status]; cbn [remove_run keyRef].
  - case_bool_decide as Hk; cbn [negb]; [|split; cbn; try done; by apply Hkeep; left].
    specialize (Ha d eq_refl). split; cbn; try done.
    + intros d' [= <-] _. eauto.
    + intros d' [= <-]. exists (run_key r). split; [done|]. split; [|done]. symmetry. by apply Hkey.
    + by intros [?|?].
    + split; [|done]. by rewrite Hk, truthy_opt_Some, Hrt.
  - case_bool_decide as Hk; cbn [negb orb]; [|split; cbn; try done; by apply Hkeep; left].
    destruct (run_silent r) eqn:Hs; [split; cbn; try done; by apply Hkeep; right|].
    split; cbn; try done.
    + by intros [?|?].
    + split; [|done]. by rewrite Hk, truthy_opt_Some, Hrt.
Qed.

Lemma live_key k st : truthy k = true -> st <> idle -> truthy_opt (Some k) = false <-> st = idle.
Proof. intros Ht Hst. split; [|done]. by rewrite truthy_opt_Some, Ht. Qed.

(** The fields of the invariant that hold by computation. *)
Ltac effect_field k :=
  try done; try (by intros ? [= <-]); try (by intros ? ? [= <- <-]);
  try (by intros [? | ?]); try (by intros _; exists k);
  try (by apply live_key).

(** The effect of a truthy key establishes the invariant, whatever was shown before. *)
Lemma key_effect_ok h scope k :
  hook_ok h -> truthy k = true -> scope = key_scope k ->
  hook_ok (key_effect scope (Some k) (mkHook (state h) (Some k) (scopeRef h) (lastOk h) (Some (Some k, scope)) (running h))).
Proof.
  intros [Hd Hcur Hsc Hrf Haw Hid Hkey Hre Hun Hrun] Ht Hscope.
  unfold key_effect. rewrite truthy_opt_Some, Ht. cbn [negb scopeRef state lastOk rendered running from_option id].
  assert (Forall (fun r => truthy (run_key r) = true) (running h ++ [mkRun k false])) as Hr'.
  { apply Forall_app. split; [done|]. by repeat constructor. }
  assert (exists k', Some k = Some k' /\ mkRun k' false ∈ running h ++ [mkRun k false]) as Hw.
  { exists k. split; [done|]. set_solver. }
  case_bool_decide as Hsame; [destruct (r_data (state h)) as [d|] eqn:Hdata|].
  - assert (r_status (state h) = ready) as Hready by (apply Hd; congruence).
    split; cbn [state keyRef scopeRef rendered running r_status r_data r_refreshing]; rewrite ?Hready;
      effect_field k.
    intros d' [= <-]. cbn. rewrite <- Hsame. by apply Hsc.
  - split; cbn; effect_field k.
  - split; cbn; effect_field k.
Qed.

Lemma idle_ok h scope key :
  hook_ok h -> truthy_opt key = false ->
  hook_ok (mkHook idle_state key None (lastOk h) (Some (key, scope)) (running h)).
Proof.
  intros [] Hk. split; cbn; try done.
  - by intros [?|?].
  - intros k -> Ht. by rewrite truthy_opt_Some, Ht in Hk.
  - intros k s [= <- <-]. done.
Qed.

Lemma render_ok scope key h :
  (forall k, key = Some k -> truthy k = true -> scope = key_scope k) -> hook_ok h -> hook_ok (render scope key h).
Proof.
  intros Hs Hok. unfold render. case_bool_decide as Hr; cbn [negb].
  - assert (key = keyRef h) as -> by (symmetry; by apply (ho_rendered h Hok _ scope)).
    destruct Hok. split; cbn; try done. intros k s [= <- <-]. done.
  - destruct (truthy_opt key) eqn:Hk.
    + apply truthy_opt_spec in Hk as (k & -> & Ht). apply key_effect_ok; auto.
    + unfold key_effect. rewrite Hk. cbn. by eapply idle_ok.
Qed.

Lemma reload_ok h : hook_ok h -> hook_ok (reload h).
Proof.
  intros Hok. unfold reload. destruct (truthy_opt (keyRef h)) eqn:Hk; cbn [negb]; [|done].
  apply truthy_opt_spec in Hk as (k & Hk & Ht). rewrite Hk. cbn [from_option id].
  destruct Hok. split; cbn; try done.
  - intros _. exists k. split; [done|]. set_solver.
  - by rewrite Hk, truthy_opt_Some, Ht.
  - apply Forall_app. split; [done|]. by repeat constructor.
Qed.

Lemma hook_step_ok h e : event_ok h e -> hook_ok h -> hook_ok (hook_step h e).
Proof.
  intros He Hok. destruct e as [scope key|i a now|v now| |]; cbn [hook_step].
  - by apply render_ok.
  - destruct (running h !! i) as [r|] eqn:Hi; [|done]. apply settle_ok; [done| |done].
    intros d ->. by apply He.
  - unfold onVisible. destruct (negb v || negb (truthy_opt (keyRef h))) eqn:Hv; [done|].
    destruct (_ <? _); [|done]. to_prop. apply truthy_opt_spec in H0 as (k & Hk & Ht). rewrite Hk.
    by apply start_silent_ok.
  - by apply reload_ok.
  - unfold refetch. destruct (truthy_opt (keyRef h)) eqn:Hk; [|done].
    apply truthy_opt_spec in Hk as (k & Hk & Ht). rewrite Hk. by apply start_silent_ok.
Qed.

(** The histories the environment can produce. *)
Inductive hook_reach : Hook -> Prop :=
| hook_start : hook_reach hook0
| hook_next h e : hook_reach h -> event_ok h e -> hook_reach (hook_step h e).

Lemma hook_reach_ok h : hook_reach h -> hook_ok h.
Proof. induction 1; [apply hook0_ok|by apply hook_step_ok]. Qed.

(** C19: the data a statistics resource shows is always an answer for the current scope, and is the
    answer for the current key unless it is marked as refreshing, however answers overtake each
    other *)
Theorem resource_consistent h d :
  hook_reach h -> r_data (state h) = Some d ->
  exists k, answers k d /\ r_status (state h) = ready /\
    (forall key, keyRef h = Some key -> truthy key = true -> key_scope k = key_scope key) /\
    (r_refreshing (state h) = false -> exists key, keyRef h = Some key /\ answers key d).
Proof.
  intros Hok%hook_reach_ok Hd. destruct (ho_scope h Hok d Hd) as (k & Ha & Hs & _).
  exists k. split; [done|]. split; [apply (ho_data h Hok); congruence|]. split.
  - intros key Hk Ht. rewrite Hs. by apply (ho_key h Hok).
  - by apply (ho_current h Hok).
Qed.

Theorem resource_answered h k :
  hook_reach h -> keyRef h = Some k -> r_status (state h) = loading \/ r_refreshing (state h) = true ->
  exists i, running h !! i = Some (mkRun k false) /\
    forall a now, let h' := hook_step h (Settle i a now) in
      r_refreshing (state h') = false /\
      match a with
      | Resolved d => state h' = mkRes ready (Some d) false None
      | Failed st => state h' = mkRes failed None false st
      end.
Proof.
  intros Hok%hook_reach_ok Hk Hw. destruct (ho_awaited h Hok Hw) as (k' & Hk' & Hin).
  rewrite Hk in Hk'. injection Hk' as <-. apply list_elem_of_lookup in Hin as [i Hi]. exists i. split; [done|].
  intros a now. cbv zeta. cbn [hook_step]. rewrite Hi. unfold settle. cbn [remove_run keyRef run_key run_silent].
  rewrite bool_decide_eq_true_2 by done. by destruct a.
Qed.
End invariant.
End resource.

(** A page that showed profile "p" for one range and then asks for another: the answer for the
    first range stays, marked refreshing, until the second arrives. *)
Definition switched : Hook :=
  run hook_step hook0 [Render (Some "p") (Some "p:24h"); Settle 0 (Resolved 1) 5; Render (Some "p") (Some "p:7d")].

Definition example_answers (k : string) (d : Z) : Prop := k = "p:24h" /\ d = 1.

Example resource_consistent_witness :
  exists k, example_answers k 1 /\ r_status (state switched) = ready /\
    (forall key, keyRef switched = Some key -> truthy key = true -> Some "p" = Some "p") /\
    (r_refreshing (state switched) = false -> exists key, keyRef switched = Some key /\ example_answers key 1).
Proof.
  apply (resource_consistent example_answers (fun _ => Some "p") switched 1); [|reflexivity].
  repeat (first [apply hook_start | apply hook_next]); cbn; try (intros; reflexivity).
  intros r [= <-]. by split.
Defined.

Example resource_answered_witness :
  exists i, running switched !! i = Some (mkRun "p:7d" false) /\
    forall a now, let h' := hook_step switched (Settle i a now) in
      r_refreshing (state h') = false /\
      match a with
      | Resolved d => state h' = mkRes ready (Some d) false None
      | Failed st => state h' = mkRes failed None false st
      end.
Proof.
  apply (resource_answered example_answers (fun _ => Some "p") switched "p:7d"); [|reflexivity|right; reflexivity].
  repeat (first [apply hook_start | apply hook_next]); cbn; try (intros; reflexivity).
  intros r [= <-]. by split.
Defined.
