(* ===== verification/SwUpdate.v ===== *)
(** * Applying a new version of the app

    [src/app/src/lib/swUpdate.ts]: [setupSWUpdate] and [checkForAppUpdate] as a state machine over
    what happens to one page: service-worker registration, visibility, timers, answers of
    [/version.json], clicks on the toast. The browser's side (the registration's [waiting] and
    [installing] workers, [navigator.onLine], the clock) enters through the events. [sessionStorage]
    survives [Loaded], the start of the next page of the same tab. *)

From S2P Require Import Prelude JsString.
From coqutil Require Import Datatypes.RecordSetters.
Import TriangleBracketNotations.

#[local] Arguments constant _ _ _ /.

Definition CHECK_INTERVAL_MS : Z := 15 * 60 * 1000.
Definition NAV_CHECK_MIN_INTERVAL_MS : Z := 60 * 1000.

(** ** State *)

Record Registration := mkReg { waiting : bool; installing : bool }.

(** The argument of [onUpdateAvailable]. *)
Record Source := mkSource { hasWaiting : bool; buildId : option string }.

Inductive Storage : Type :=
| Unavailable
| ReadOnly (v : option string)
| Available (v : option string).

(** The await a call of [versionCheck] is at: the fetch of [/version.json], or
    [registration.update()] for the build id that was read. *)
Inductive Await : Type :=
| Fetching
| Updating (id : string).

Inductive Effect : Set := Reload | SkipWaiting | ShowToast.
#[export] Instance Effect_eq_dec : EqDecision Effect.
Proof. solve_decision. Defined.

Record Page := mkPage {
  appBuildId : string;
  hidden : bool;
  online : bool;
  session_storage : Storage;
  swRegistration : option Registration;
  updateHandled : bool;
  reloading : bool;
  listener : option Source;
  toast : option Source;
  controllerListener : bool;
  timers : nat;
  checks : list Await;
  lastCheckAt : Z;
  effects : list Effect;
  (** the build ids [autoReload] reloaded this tab for, newest first (ghost); a reload through
      [applyWaiting] is not in it *)
  autoReloads : list string;
  (** when the checks of this page ran, and which a navigation asked for, newest first (ghost) *)
  checkLog : list (Z * bool);
}.

Definition load_page (build : string) (hid onl : bool) (st : Storage) (autos : list string) : Page :=
  mkPage build hid onl st None false false None None false 0 [] 0 [] autos [].

(** ** Handlers *)

Definition emit (e : Effect) (p : Page) : Page := p <| effects ::= fun es => es ++ [e] |>.

Definition reload (p : Page) : Page :=
  if reloading p then p else emit Reload (p <| reloading := true |>).

(** [addEventListener] with the same callback is a no-op, so one controller listener exists. *)
Definition applyWaiting (p : Page) : Page :=
  emit SkipWaiting (p <| controllerListener := true |> <| timers ::= S |>).

Definition autoReload (id : string) (p : Page) : Page * bool :=
  match session_storage p with
  | Available g =>
      if bool_decide (g = Some id) then (p, false)
      else (reload (p <| session_storage := Available (Some id) |> <| autoReloads ::= cons id |>), true)
  | _ => (p, false)
  end.

Definition registration_waiting (p : Page) : bool :=
  match swRegistration p with Some r => waiting r | None => false end.

Definition apply_update_source (source : Source) (manual : bool) (p : Page) : Page * bool :=
  if hasWaiting source || registration_waiting p then (applyWaiting p, true)
  else if manual then (reload p, true)
  else autoReload (buildId source ?? "unknown") p.

Definition onUpdateAvailable (source : Source) (p : Page) : Page :=
  if updateHandled p then p
  else if hidden p then
    let '(p', done) := apply_update_source source false p in p' <| updateHandled := done |>
  else
    emit ShowToast (p <| updateHandled := true |> <| listener := Some source |> <| toast := Some source |>).

(** The toast's action. *)
Definition applyOnce (p : Page) : Page :=
  match toast p with
  | Some source => (apply_update_source source true (p <| listener := None |>)).1
  | None => p
  end.

Definition onHidden (p : Page) : Page :=
  match listener p with
  | Some source =>
      if negb (hidden p) then p else (apply_update_source source false (p <| listener := None |>)).1
  | None => p
  end.

(** [check]; [nav] records that a navigation asked for it. *)
Definition check (nav : bool) (now : Z) (p : Page) : Page :=
  if negb (online p) then p
  else p <| lastCheckAt := now |> <| checks ::= fun cs => cs ++ [Fetching] |>
         <| checkLog ::= cons (now, nav) |>.

(** [checkForAppUpdate]: a no-op until the registration completes. *)
Definition checkForAppUpdate (now : Z) (p : Page) : Page :=
  match swRegistration p with
  | None => p
  | Some _ => if now - lastCheckAt p <? NAV_CHECK_MIN_INTERVAL_MS then p else check true now p
  end.

Definition onRegisteredSW (r : option Registration) (now : Z) (p : Page) : Page :=
  match r with
  | None => p
  | Some r => p <| swRegistration := Some r |> <| lastCheckAt := now |>
  end.

Definition visibilitychange (hid : bool) (now : Z) (p : Page) : Page :=
  let p1 := onHidden (p <| hidden := hid |>) in
  match swRegistration p1 with
  | Some _ => if hid then p1 else check false now p1
  | None => p1
  end.

(** [versionCheck], from the answer of [/version.json] on: [None] is a failed or non-ok answer. *)
Definition versionAnswer (answer : option (option string)) (p : Page) : Page :=
  match answer with
  | Some (Some id) =>
      if negb (truthy id) || bool_decide (id = appBuildId p) then p
      else match swRegistration p with
           | Some _ => p <| checks ::= fun cs => cs ++ [Updating id] |>
           | None => onUpdateAvailable (mkSource false (Some id)) p
           end
  | _ => p
  end.

(** [versionCheck], after [await swRegistration.update()], resolved or rejected. *)
Definition versionUpdated (id : string) (p : Page) : Page :=
  match swRegistration p with
  | Some r =>
      if waiting r then onUpdateAvailable (mkSource true None) p
      else if installing r then p
      else onUpdateAvailable (mkSource false (Some id)) p
  | None => p
  end.

Definition drop_check (i : nat) (p : Page) : Page := p <| checks ::= delete i |>.

(** What happens to a page; the register module calls [onRegisteredSW] once. *)
Inductive Event : Type :=
| Registered (r : option Registration) (now : Z)
| RegistrationChanged (r : Registration)
| NeedRefresh
| Visibility (hid : bool) (now : Z)
| Connectivity (onl : bool)
| ToastClick
| ControllerChange
| FallbackTimer
| IntervalTick (now : Z)
| StartupTimer
| Navigation (now : Z)
| VersionAnswered (i : nat) (answer : option (option string))
| UpdateSettled (i : nat)
| Loaded (build : string) (hid onl : bool).

Definition sw_step (p : Page) (e : Event) : Page :=
  match e with
  | Registered r now => match swRegistration p with None => onRegisteredSW r now p | Some _ => p end
  | RegistrationChanged r =>
      match swRegistration p with Some _ => p <| swRegistration := Some r |> | None => p end
  | NeedRefresh => onUpdateAvailable (mkSource true None) p
  | Visibility hid now => visibilitychange hid now p
  | Connectivity onl => p <| online := onl |>
  | ToastClick => applyOnce p
  | ControllerChange => if controllerListener p then reload (p <| controllerListener := false |>) else p
  | FallbackTimer => match timers p with O => p | S n => reload (p <| timers := n |>) end
  | IntervalTick now => match swRegistration p with Some _ => check false now p | None => p end
  | StartupTimer => if online p then p <| checks ::= fun cs => cs ++ [Fetching] |> else p
  | Navigation now => checkForAppUpdate now p
  | VersionAnswered i answer =>
      match checks p !! i with Some Fetching => versionAnswer answer (drop_check i p) | _ => p end
  | UpdateSettled i =>
      match checks p !! i with Some (Updating id) => versionUpdated id (drop_check i p) | _ => p end
  | Loaded build hid onl => load_page build hid onl (session_storage p) (autoReloads p)
  end.

(** ** Invariant *)

Definition emitted (e : Effect) (p : Page) : nat := count_occ Effect_eq_dec (effects p) e.

Definition check_ok (build : string) (a : Await) : Prop :=
  match a with Updating id => truthy id = true /\ id <> build | Fetching => True end.

(** A check a navigation asked for is at least a minute after the previous check. *)
Definition spaced (later earlier : Z * bool) : Prop :=
  later.2 = true -> NAV_CHECK_MIN_INTERVAL_MS <= later.1 - earlier.1.

Definition autos_ok (st : Storage) (autos : list string) : Prop :=
  match st with Available g => autos = [] \/ head autos = g | _ => autos = [] end.

Definition log_ok (r : option Registration) (last : Z) (log : list (Z * bool)) : Prop :=
  match r with None => log = [] | Some _ => log = [] \/ fst <$> head log = Some last end.

Record sw_ok (p : Page) : Prop := {
  ok_reload : emitted Reload p = (if reloading p then 1 else 0)%nat;
  ok_toast : emitted ShowToast p = (match toast p with Some _ => 1 | None => 0 end)%nat;
  ok_handled : updateHandled p = true ->
    toast p <> None \/ SkipWaiting ∈ effects p \/ reloading p = true;
  ok_unhandled : updateHandled p = false -> toast p = None;
  ok_armed : controllerListener p = true \/ timers p <> O -> SkipWaiting ∈ effects p;
  ok_autos : autos_ok (session_storage p) (autoReloads p);
  ok_differ : Sorted (fun a b => a <> b) (autoReloads p);
  ok_checks : Forall (check_ok (appBuildId p)) (checks p);
  ok_log : log_ok (swRegistration p) (lastCheckAt p) (checkLog p);
  ok_spaced : Sorted spaced (checkLog p);
}.

Lemma load_page_ok build hid onl st autos :
  autos_ok st autos -> Sorted (fun a b => a <> b) autos -> sw_ok (load_page build hid onl st autos).
Proof. intros. split; cbn; try done; try constructor. by intros [?|?]. Qed.

(** Open a page and compute the fields of its successor. *)
Ltac open_page p := destruct p; unfold emitted in *; cbn in *.

Lemma page_reload_ok p : sw_ok p -> sw_ok (reload p) /\ reloading (reload p) = true.
Proof.
  intros Hok. unfold reload. destruct (reloading p) eqn:Hr; [done|]. split; [|done].
  destruct Hok as [Hrl Hto Hha Hun Har Hau Hdi Hch Hlo Hsp]. open_page p. subst.
  split; unfold emitted; cbn; try done.
  - by rewrite count_occ_app, Hrl.
  - by rewrite count_occ_app, Hto, Nat.add_0_r.
  - auto.
  - intros H. apply elem_of_app. left. auto.
Qed.

Lemma applyWaiting_ok p :
  sw_ok p -> sw_ok (applyWaiting p) /\ SkipWaiting ∈ effects (applyWaiting p).
Proof.
  intros [Hrl Hto Hha Hun Har Hau Hdi Hch Hlo Hsp]. open_page p.
  assert (SkipWaiting ∈ effects0 ++ [SkipWaiting]) as Hin by (apply elem_of_app; right; by left).
  split; [|done]. split; unfold emitted; cbn; auto.
  - by rewrite count_occ_app, Hrl, Nat.add_0_r.
  - by rewrite count_occ_app, Hto, Nat.add_0_r.
Qed.

Lemma remember_ok id p :
  session_storage p <> Unavailable -> sw_ok p ->
  (exists g, session_storage p = Available g /\ g <> Some id) ->
  sw_ok (p <| session_storage := Available (Some id) |> <| autoReloads ::= cons id |>).
Proof.
  intros _ [Hrl Hto Hha Hun Har Hau Hdi Hch Hlo Hsp] (g & Hg & Hne). open_page p. subst.
  split; unfold emitted; cbn; try done; [by right|]. constructor; [done|].
  destruct Hau as [->|Hhd]; [constructor|]. destruct autoReloads0; constructor. cbn in Hhd. congruence.
Qed.

(** The three ways of applying an update: nothing is recorded unless it happens. *)
Lemma apply_update_source_ok source manual p p' done' :
  sw_ok p -> apply_update_source source manual p = (p', done') ->
  sw_ok p' /\ toast p' = toast p /\ updateHandled p' = updateHandled p /\ listener p' = listener p /\
  if done' then SkipWaiting ∈ effects p' \/ reloading p' = true else p' = p.
Proof.
  intros Hok. unfold apply_update_source.
  assert (forall q, toast (reload q) = toast q /\ updateHandled (reload q) = updateHandled q /\
    listener (reload q) = listener q) as Hsame.
  { intros q. unfold reload. by destruct (reloading q), q. }
  destruct (_ || _); [|destruct manual].
  - intros [= <- <-]. destruct (applyWaiting_ok p Hok). destruct p; cbn in *. auto 6.
  - intros [= <- <-]. destruct (page_reload_ok p Hok). destruct (Hsame p) as (-> & -> & ->). auto 6.
  - unfold autoReload. destruct (session_storage p) as [|v|g] eqn:Hst; try by intros [= <- <-].
    case_bool_decide as Hg; intros Hp; apply pair_equal_spec in Hp as [<- <-]; [done|].
    assert (sw_ok (p <| session_storage := Available (Some (buildId source ?? "unknown")) |>
      <| autoReloads ::= cons (buildId source ?? "unknown") |>)) as Hok'.
    { apply remember_ok; [congruence|done|eauto]. }
    destruct (page_reload_ok _ Hok'). split; [done|].
    pose proof (Hsame (p <| session_storage := Available (Some (buildId source ?? "unknown")) |>
      <| autoReloads ::= cons (buildId source ?? "unknown") |>)) as (-> & -> & ->).
    destruct p; cbn in *; auto 7.
Qed.

Lemma elem_of_snoc {A} (x : A) l y : x ∈ l -> x ∈ l ++ [y].
Proof. intros. apply elem_of_app. by left. Qed.

Lemma onUpdateAvailable_ok source p : sw_ok p -> sw_ok (onUpdateAvailable source p).
Proof.
  intros Hok. unfold onUpdateAvailable. destruct (updateHandled p) eqn:Hh; [done|].
  destruct (hidden p).
  - destruct (apply_update_source source false p) as [p' d] eqn:Ha.
    destruct (apply_update_source_ok _ _ _ _ _ Hok Ha) as (Hok' & Ht & Hu & _ & Hd).
    pose proof (ok_unhandled p Hok Hh) as Hnone. rewrite <- Ht in Hnone. clear Ha Ht Hu.
    destruct d; [|subst p']; [destruct Hok'|destruct Hok].
    + open_page p'. split; unfold emitted; cbn; auto.
    + open_page p. split; unfold emitted; cbn; auto.
  - destruct Hok as [Hrl Hto Hha Hun Har Hau Hdi Hch Hlo Hsp]. open_page p. rewrite (Hun Hh) in Hto.
    split; unfold emitted; cbn; auto using elem_of_snoc.
    + by rewrite count_occ_app, Hrl, Nat.add_0_r.
    + by rewrite count_occ_app, Hto.
    + done.
Qed.

Lemma unlisten_ok p : sw_ok p -> sw_ok (p <| listener := None |>).
Proof. intros []. open_page p. by split. Qed.

Lemma apply_fst_ok source manual p : sw_ok p -> sw_ok (apply_update_source source manual p).1.
Proof.
  intros Hok. destruct (apply_update_source source manual p) as [p' d] eqn:Ha.
  by apply (apply_update_source_ok _ _ _ _ _ Hok Ha).
Qed.

Lemma check_step_ok nav now p :
  (nav = true -> NAV_CHECK_MIN_INTERVAL_MS <= now - lastCheckAt p) -> swRegistration p <> None ->
  sw_ok p -> sw_ok (check nav now p).
Proof.
  intros Hn Hr Hok. unfold check. destruct (online p); [|done]. cbn [negb].
  destruct Hok as [Hrl Hto Hha Hun Har Hau Hdi Hch Hlo Hsp]. open_page p.
  destruct swRegistration0; [|done]. split; unfold emitted; cbn; auto.
  - apply Forall_app. split; [done|]. by repeat constructor.
  - constructor; [done|]. destruct Hlo as [->|Hl]; [constructor|].
    destruct checkLog0 as [|[t b] l]; constructor. injection Hl as ->. intros Hnav. by apply Hn.
Qed.

Lemma add_check_ok a p : check_ok (appBuildId p) a -> sw_ok p -> sw_ok (p <| checks ::= fun cs => cs ++ [a] |>).
Proof.
  intros Ha []. open_page p. split; unfold emitted; cbn; auto.
  apply Forall_app. split; [done|]. by repeat constructor.
Qed.

Lemma drop_check_ok i p : sw_ok p -> sw_ok (drop_check i p).
Proof. intros []. open_page p. split; unfold emitted; cbn; auto. by apply Forall_delete. Qed.

Lemma onHidden_ok p : sw_ok p -> sw_ok (onHidden p).
Proof.
  intros Hok. unfold onHidden. destruct (listener p) as [source|]; [|done].
  destruct (hidden p); [|done]. by apply apply_fst_ok, unlisten_ok.
Qed.

Lemma applyOnce_ok p : sw_ok p -> sw_ok (applyOnce p).
Proof.
  intros Hok. unfold applyOnce. destruct (toast p) as [source|]; [|done].
  by apply apply_fst_ok, unlisten_ok.
Qed.

Lemma versionAnswer_ok answer p : sw_ok p -> sw_ok (versionAnswer answer p).
Proof.
  intros Hok. destruct answer as [[id|]|]; [|done..]. cbn [versionAnswer].
  destruct (negb (truthy id) || bool_decide (id = appBuildId p)) eqn:Hid; [done|]. to_prop.
  destruct (swRegistration p); [by apply add_check_ok|by apply onUpdateAvailable_ok].
Qed.

Lemma versionUpdated_ok id p : sw_ok p -> sw_ok (versionUpdated id p).
Proof.
  intros Hok. unfold versionUpdated. destruct (swRegistration p) as [r|]; [|done].
  destruct (waiting r), (installing r); try done; by apply onUpdateAvailable_ok.
Qed.

Lemma sw_step_ok p e : sw_ok p -> sw_ok (sw_step p e).
Proof.
  intros Hok. destruct e as [r now|r| |hid now|onl| | | |now| |now|i answer|i|build hid onl]; cbn [sw_step].
  - destruct (swRegistration p) eqn:Hr; [done|]. destruct r as [r|]; [|done]. destruct Hok. open_page p.
    subst. split; unfold emitted; cbn; auto.
  - destruct (swRegistration p) eqn:Hr; [|done]. destruct Hok. open_page p. by subst; split.
  - by apply onUpdateAvailable_ok.
  - unfold visibilitychange. assert (sw_ok (onHidden (p <| hidden := hid |>))) as Hok'.
    { apply onHidden_ok. destruct Hok. open_page p. by split. }
    destruct (swRegistration _) eqn:Hr; [|done]. destruct hid; [done|]. apply check_step_ok; congruence.
  - destruct Hok. open_page p. by split.
  - by apply applyOnce_ok.
  - destruct (controllerListener p) eqn:Hc; [|done]. apply page_reload_ok. destruct Hok. open_page p.
    subst. split; unfold emitted; cbn; auto.
  - destruct (timers p) as [|n] eqn:Hc; [done|]. apply page_reload_ok. destruct Hok. open_page p.
    subst. split; unfold emitted; cbn; auto.
  - destruct (swRegistration p) eqn:Hr; [|done]. apply check_step_ok; congruence.
  - destruct (online p); [|done]. by apply add_check_ok.
  - unfold checkForAppUpdate. destruct (swRegistration p) eqn:Hr; [|done].
    destruct (_ <? _) eqn:Hlt; [done|]. to_prop. apply check_step_ok; [lia|congruence|done].
  - destruct (checks p !! i) as [[|id]|]; [|done..]. by apply versionAnswer_ok, drop_check_ok.
  - destruct (checks p !! i) as [[|id]|]; [done| |done]. by apply versionUpdated_ok, drop_check_ok.
  - apply load_page_ok; apply Hok.
Qed.

(** The first page of a tab: nothing was reloaded yet. *)
Definition tab (build : string) (hid onl : bool) (st : Storage) (evs : list Event) : Page :=
  run sw_step (load_page build hid onl st []) evs.

Lemma tab_ok build hid onl st evs : sw_ok (tab build hid onl st evs).
Proof.
  apply (run_invariant sw_step sw_ok); [intros; by apply sw_step_ok|].
  apply load_page_ok; [by destruct st; try left|constructor].
Qed.

(** ** Why a page reloads *)

(** What an automatic reload goes by, and leaves behind. *)
Definition guard (p : Page) : Storage * list string := (session_storage p, autoReloads p).

Definition reloads_itself (p p' : Page) : Prop :=
  exists id g autos, g <> Some id /\ guard p = (Available g, autos) /\
    guard p' = (Available (Some id), id :: autos).

Lemma apply_reload_cause source manual p :
  reloading p = false -> reloading (apply_update_source source manual p).1 = true ->
  manual = true \/ reloads_itself p (apply_update_source source manual p).1.
Proof.
  unfold apply_update_source. intros Hp. destruct (_ || _); [|destruct manual; [by left|]].
  - destruct p; cbn in *. congruence.
  - unfold autoReload. destruct (session_storage p) as [|?|g] eqn:Hs; cbn; try congruence.
    case_bool_decide; cbn; [congruence|]. intros _. right. exists (buildId source ?? "unknown"), g, (autoReloads p).
    unfold reload, guard. by destruct p; cbn in *; subst.
Qed.

Lemma update_reload_cause source p :
  reloading p = false -> reloading (onUpdateAvailable source p) = true ->
  reloads_itself p (onUpdateAvailable source p).
Proof.
  unfold onUpdateAvailable. intros Hp. destruct (updateHandled p); [congruence|]. destruct (hidden p).
  - pose proof (apply_reload_cause source false p Hp) as Hc.
    destruct (apply_update_source source false p) as [p' d]. cbn [fst] in Hc. intros Hr.
    assert (reloading p' = true) as Hr' by (by destruct p').
    destruct (Hc Hr') as [?|(id & g & autos & Hid)]; [done|]. exists id, g, autos. by destruct p'.
  - destruct p; cbn in *. congruence.
Qed.

Lemma check_reload nav now p : reloading (check nav now p) = reloading p.
Proof. unfold check. by destruct (online p), p. Qed.

(** Fields an update of other fields leaves alone. *)
Lemma quiet (p : Page) hid l cs :
  reloading (p <| hidden := hid |>) = reloading p /\ guard (p <| hidden := hid |>) = guard p /\
  reloading (p <| listener := l |>) = reloading p /\ guard (p <| listener := l |>) = guard p /\
  reloading (p <| checks ::= cs |>) = reloading p /\ guard (p <| checks ::= cs |>) = guard p.
Proof. by destruct p. Qed.

Lemma step_reload_cause p e :
  sw_ok p -> reloading p = false -> reloading (sw_step p e) = true ->
  e = ToastClick \/
  (e = ControllerChange \/ e = FallbackTimer) /\ SkipWaiting ∈ effects p \/
  reloads_itself p (sw_step p e).
Proof.
  intros Hok Hp.
  destruct e as [r now|r| |hid now|onl| | | |now| |now|i answer|i|build hid onl]; cbn [sw_step].
  - destruct (swRegistration p); [congruence|]. destruct r, p; cbn in *; congruence.
  - destruct (swRegistration p), p; cbn in *; congruence.
  - intros. right. right. by apply update_reload_cause.
  - intros Hr. right. right.
    assert (reloading (onHidden (p <| hidden := hid |>)) = true /\
      guard (visibilitychange hid now p) = guard (onHidden (p <| hidden := hid |>))) as [Hr' Hau].
    { revert Hr. unfold visibilitychange. destruct (swRegistration _), hid; try done.
      rewrite check_reload. unfold check. generalize (onHidden (p <| hidden := false |>)). intros q.
      by destruct (online q), q. }
    unfold reloads_itself. rewrite Hau. clear Hau Hr. revert Hr'. unfold onHidden.
    destruct (quiet p hid None id) as (E1 & E2 & _).
    destruct (listener _) as [source|]; [|congruence]. destruct (hidden _); cbn [negb]; [|congruence].
    destruct (quiet (p <| hidden := hid |>) hid None id) as (_ & _ & E3 & E4 & _). intros Hr.
    apply apply_reload_cause in Hr as [?|(id & g & autos & Hid)]; [done|exists id, g, autos|]; congruence.
  - destruct p; cbn in *; congruence.
  - by left.
  - destruct (controllerListener p) eqn:Hc; [|congruence]. intros _. right. left. split; [auto|]. apply (ok_armed p Hok). by left.
  - destruct (timers p) eqn:Hc; [congruence|]. intros _. right. left. split; [auto|]. apply (ok_armed p Hok). right. congruence.
  - destruct (swRegistration p); rewrite ?check_reload; congruence.
  - destruct (online p), p; cbn in *; congruence.
  - unfold checkForAppUpdate. destruct (swRegistration p); [|congruence].
    destruct (_ <? _); rewrite ?check_reload; congruence.
  - destruct (checks p !! i) as [[|id]|]; [|congruence..]. intros Hr. right. right.
    destruct (quiet p true None (delete i)) as (_ & _ & _ & _ & E1 & E2). fold (drop_check i p) in E1, E2.
    destruct answer as [[id|]|]; cbn [versionAnswer] in *; [|congruence..].
    destruct (_ || _); [congruence|]. destruct (swRegistration _).
    + revert Hr. generalize dependent (drop_check i p). intros q E1 _. destruct q; cbn in *. congruence.
    + apply update_reload_cause in Hr as (id' & g & autos & Hid); [exists id', g, autos|]; congruence.
  - destruct (checks p !! i) as [[|id]|]; [congruence| |congruence]. intros Hr. right. right.
    destruct (quiet p true None (delete i)) as (_ & _ & _ & _ & E1 & E2). fold (drop_check i p) in E1, E2.
    revert Hr. unfold versionUpdated. destruct (swRegistration _) as [r|]; [|congruence].
    destruct (waiting r), (installing r); try congruence; intros Hr;
      apply update_reload_cause in Hr as (id' & g & autos & Hid); try (exists id', g, autos); congruence.
  - done.
Qed.

(** ** What is prompted *)

Lemma reload_toast p : toast (reload p) = toast p.
Proof. unfold reload. by destruct (reloading p), p. Qed.

Lemma check_toast nav now p : toast (check nav now p) = toast p.
Proof. unfold check. by destruct (online p), p. Qed.

Lemma apply_toast source manual p : toast (apply_update_source source manual p).1 = toast p.
Proof.
  unfold apply_update_source. destruct (_ || _); [by destruct p|]. destruct manual; [apply reload_toast|].
  unfold autoReload. destruct (session_storage p); try done. case_bool_decide; [done|]. cbn [fst].
  rewrite reload_toast. by destruct p.
Qed.

Lemma update_prompts source p s :
  toast p = None -> toast (onUpdateAvailable source p) = Some s -> s = source /\ hidden p = false.
Proof.
  intros Hn. unfold onUpdateAvailable. destruct (updateHandled p); [congruence|].
  destruct (hidden p) eqn:Hh.
  - pose proof (apply_toast source false p) as Ht. destruct (apply_update_source source false p) as [p' d].
    cbn [fst] in Ht. intros Hs. exfalso. destruct p'; cbn in *. congruence.
  - destruct p; cbn in *. intros [= <-]. done.
Qed.

Definition settled (r : option Registration) : Prop :=
  match r with Some r => waiting r = false /\ installing r = false | None => True end.

Definition actionable (p : Page) (s : Source) : Prop :=
  hasWaiting s = true \/
  exists id, buildId s = Some id /\ truthy id = true /\ id <> appBuildId p /\ settled (swRegistration p).

Lemma answer_prompts answer p s :
  toast p = None -> toast (versionAnswer answer p) = Some s -> hidden p = false /\ actionable p s.
Proof.
  intros Hn. destruct answer as [[id|]|]; cbn [versionAnswer]; [|congruence..].
  destruct (_ || _) eqn:Hid; [congruence|]. to_prop. destruct (swRegistration p) eqn:Hr.
  - destruct p; cbn in *. congruence.
  - intros [-> Hh]%update_prompts; [|done]. split; [done|]. right. exists id. by rewrite Hr.
Qed.

Lemma updated_prompts id p s :
  check_ok (appBuildId p) (Updating id) -> toast p = None -> toast (versionUpdated id p) = Some s ->
  hidden p = false /\ actionable p s.
Proof.
  intros [Ht Hne] Hn. unfold versionUpdated. destruct (swRegistration p) as [r|] eqn:Hr; [|congruence].
  destruct (waiting r) eqn:Hw; [|destruct (installing r) eqn:Hi; [congruence|]];
    (intros [-> Hh]%update_prompts; [|done]); (split; [done|]); [by left|].
  right. exists id. by rewrite Hr.
Qed.

Lemma drop_fields i p :
  toast (drop_check i p) = toast p /\ hidden (drop_check i p) = hidden p /\
  appBuildId (drop_check i p) = appBuildId p /\ swRegistration (drop_check i p) = swRegistration p.
Proof. by destruct p. Qed.

Lemma step_prompts p e s :
  sw_ok p -> toast p = None -> toast (sw_step p e) = Some s -> hidden p = false /\ actionable p s.
Proof.
  intros Hok Hn.
  destruct e as [r now|r| |hid now|onl| | | |now| |now|i answer|i|build hid onl]; cbn [sw_step].
  - destruct (swRegistration p); [congruence|]. destruct r, p; cbn in *; congruence.
  - destruct (swRegistration p), p; cbn in *; congruence.
  - intros [-> Hh]%update_prompts; [|done]. split; [done|by left].
  - unfold visibilitychange. assert (toast (onHidden (p <| hidden := hid |>)) = None) as Ho.
    { unfold onHidden. destruct (listener _); [destruct (hidden _)|]; try (by destruct p).
      cbn [negb]. rewrite apply_toast. by destruct p. }
    destruct (swRegistration _); [destruct hid|]; rewrite ?check_toast; congruence.
  - destruct p; cbn in *; congruence.
  - unfold applyOnce. rewrite Hn. congruence.
  - destruct (controllerListener p); [rewrite reload_toast|]; destruct p; cbn in *; congruence.
  - destruct (timers p); [|rewrite reload_toast]; destruct p; cbn in *; congruence.
  - destruct (swRegistration p); rewrite ?check_toast; congruence.
  - destruct (online p), p; cbn in *; congruence.
  - unfold checkForAppUpdate. destruct (swRegistration p); [|congruence].
    destruct (_ <? _); rewrite ?check_toast; congruence.
  - destruct (checks p !! i) as [[|id]|]; [|congruence..]. destruct (drop_fields i p) as (E1 & E2 & E3 & E4).
    intros [Hh Ha]%answer_prompts; [|congruence]. split; [congruence|].
    unfold actionable in *. by rewrite E3, E4 in Ha.
  - destruct (checks p !! i) as [[|id]|] eqn:Hi; [congruence| |congruence].
    destruct (drop_fields i p) as (E1 & E2 & E3 & E4).
    intros [Hh Ha]%updated_prompts; [| |congruence].
    + split; [congruence|]. unfold actionable in *. by rewrite E3, E4 in Ha.
    + rewrite E3. pose proof (ok_checks p Hok) as Hc. rewrite Forall_lookup in Hc. by apply (Hc i).
  - done.
Qed.

(** ** What users see *)

Theorem reload_and_prompt_once build hid onl st evs :
  let p := tab build hid onl st evs in
  (emitted Reload p <= 1)%nat /\ (emitted ShowToast p <= 1)%nat /\
  (updateHandled p = true -> toast p <> None \/ SkipWaiting ∈ effects p \/ reloading p = true).
Proof.
  intros p. pose proof (tab_ok build hid onl st evs) as Hok.
  split; [|split].
  - rewrite (ok_reload p Hok). destruct (reloading p); lia.
  - rewrite (ok_toast p Hok). destruct (toast p); lia.
  - apply (ok_handled p Hok).
Qed.

(** C38: every reload of the page has a cause: a click on the prompt, the activation of a waiting
    worker that was told to take over, or the timer that stands in for it, or a guarded automatic
    reload, which needs a session storage that can be written, holding another build, and remembers
    the build it reloads for; two guarded reloads in a row are never for the same build, and without
    a writable storage there is none *)
Theorem automatic_reloads_never_loop build hid onl st evs e :
  let p := tab build hid onl st evs in
  (reloading p = false -> reloading (sw_step p e) = true ->
    e = ToastClick \/
    (e = ControllerChange \/ e = FallbackTimer) /\ SkipWaiting ∈ effects p \/
    exists id g, g <> Some id /\ session_storage p = Available g /\
      session_storage (sw_step p e) = Available (Some id) /\
      autoReloads (sw_step p e) = id :: autoReloads p) /\
  Sorted (fun newer older => newer <> older) (autoReloads p) /\
  ((forall v, session_storage p <> Available v) -> autoReloads p = []).
Proof.
  intros p. pose proof (tab_ok build hid onl st evs) as Hok. fold p in Hok. split; [|split; [apply Hok|]].
  - intros Hp Hr. destruct (step_reload_cause p e Hok Hp Hr) as [?|[?|(id & g & autos & Hg & He & He')]]; auto.
    do 2 right. injection He as Hs Ha. injection He' as Hs' Ha'. exists id, g. by rewrite Ha, Ha'.
  - intros Hv. pose proof (ok_autos p Hok) as Ha. destruct (session_storage p); try done. by destruct (Hv v).
Qed.

Theorem navigation_checks_throttled build hid onl st evs i later earlier :
  checkLog (tab build hid onl st evs) !! i = Some later ->
  checkLog (tab build hid onl st evs) !! S i = Some earlier -> later.2 = true ->
  NAV_CHECK_MIN_INTERVAL_MS <= later.1 - earlier.1.
Proof.
  intros Hi Hs. generalize (ok_spaced _ (tab_ok build hid onl st evs)).
  revert i Hi Hs. induction (checkLog _) as [|x l IH]; intros i Hi Hs Hsp; [done|].
  inversion Hsp as [|? ? Hl Hx]; subst. destruct i as [|i]; cbn in *; [|by apply (IH i)].
  injection Hi as ->. destruct l as [|y l]; [done|]. injection Hs as ->. by inversion Hx.
Qed.

Theorem prompt_is_actionable build hid onl st evs e s :
  let p := tab build hid onl st evs in
  toast p = None -> toast (sw_step p e) = Some s ->
  hidden p = false /\
  (hasWaiting s = true \/
   exists id, buildId s = Some id /\ truthy id = true /\ id <> appBuildId p /\ settled (swRegistration p)).
Proof. intros p. apply step_prompts, tab_ok. Qed.

Example navigation_checks_throttled_witness :
  NAV_CHECK_MIN_INTERVAL_MS <= 70000 - 10000.
Proof.
  apply (navigation_checks_throttled "a" false true (Available None)
    [Registered (Some (mkReg false false)) 0; IntervalTick 10000; Navigation 60000; Navigation 70000]
    0 (70000, true) (10000, false)); reflexivity.
Defined.

(** A hidden tab that finds a new build and no worker to wait for reloads by itself. *)
Example automatic_reloads_never_loop_witness :
  let p := tab "a" true true (Available None) [StartupTimer] in
  let e := VersionAnswered 0 (Some (Some "b")) in
  (reloading p = false -> reloading (sw_step p e) = true ->
    e = ToastClick \/
    (e = ControllerChange \/ e = FallbackTimer) /\ SkipWaiting ∈ effects p \/
    exists id g, g <> Some id /\ session_storage p = Available g /\
      session_storage (sw_step p e) = Available (Some id) /\
      autoReloads (sw_step p e) = id :: autoReloads p) /\
  Sorted (fun newer older => newer <> older) (autoReloads p) /\
  ((forall v, session_storage p <> Available v) -> autoReloads p = []).
Proof. apply (automatic_reloads_never_loop "a" true true (Available None) [StartupTimer]). Defined.

(** A hidden tab with a waiting worker reloads without a click and without storage. *)
Example worker_reloads_hidden_tab :
  reloading (tab "a" true true Unavailable [NeedRefresh; FallbackTimer]) = true.
Proof. reflexivity. Qed.

Example prompt_is_actionable_witness :
  let p := tab "a" false true (Available None) [StartupTimer] in
  hidden p = false /\
  (hasWaiting (mkSource false (Some "b")) = true \/
   exists id, buildId (mkSource false (Some "b")) = Some id /\ truthy id = true /\ id <> appBuildId p /\
     settled (swRegistration p)).
Proof.
  apply (prompt_is_actionable "a" false true (Available None) [StartupTimer]
    (VersionAnswered 0 (Some (Some "b"))) (mkSource false (Some "b"))); reflexivity.
Defined.
