(* ===== verification/LazyRetry.v ===== *)
(** * Lazy page imports

    [src/app/src/lib/lazyWithRetry.ts]: the retry loop of an import, its fallback to one guarded
    reload of the page, and the memoized promise [preload] and [React.lazy] share. [importFn] is the
    bundler's dynamic import: here the outcome of its [i]-th call. *)

From S2P Require Import Prelude JsString.

(** ** Outcomes *)

(** What a rejected import throws; [isError] is [error instanceof Error]. *)
Record JsError := mkJsError { isError : bool; message : string }.

Definition isChunkError (e : JsError) : bool :=
  isError e &&
  (includes (message e) "dynamically imported module" || includes (message e) "Failed to fetch" ||
   includes (message e) "Loading chunk" || includes (message e) "Loading CSS chunk").

Section lazy.
Context {M : Type}.

Inductive Outcome : Type :=
| Module_ (m : M)
| Rejects (e : JsError).

(** How the [for] loop ends: a value, a thrown error, or every attempt failed. *)
Inductive LoopEnd : Type :=
| Returns (m : M)
| Throws (e : JsError)
| Exhausted (lastError : option JsError).

(** The loop from [attempt], with [n] iterations to go: how it ends and the delays it waited. *)
Fixpoint attempts (retries : Z) (importFn : nat -> Outcome) (n : nat) (attempt : nat)
    (lastError : option JsError) : LoopEnd * list Z :=
  match n with
  | O => (Exhausted lastError, [])
  | S n' =>
      match importFn attempt with
      | Module_ m => (Returns m, [])
      | Rejects e =>
          if negb (isChunkError e) then (Throws e, [])
          else
            let '(r, waits) := attempts retries importFn n' (S attempt) (Some e) in
            if Z.of_nat attempt <? retries then (r, 100 * 2 ^ Z.of_nat attempt :: waits) else (r, waits)
      end
  end.

Definition retry_loop (retries : Z) (importFn : nat -> Outcome) : LoopEnd * list Z :=
  attempts retries importFn (Z.to_nat (retries + 1)) 0 None.

(** ** The reload *)

Definition lastReloadKey : string := "__lazy_import_reload_timestamp__".

(** The tab: [sessionStorage] at [lastReloadKey], the page's address, and the reloads made. *)
Record Tab := mkTab { lastReload : option string; href : string; reloads : list Z }.

Inductive LoadResult : Type :=
| Resolves (m : M)
| RejectsWith (e : option JsError)
| NeverSettles.

(** [now - parseInt(lastReload, 10) > 10000]; a comparison with [NaN] is false. *)
Definition may_reload (lastReload : option string) (now : Z) : bool :=
  negb (truthy_opt lastReload) ||
  match parseInt10 (lastReload ?? "") with Some t => 10000 <? now - t | None => false end.

Definition busted_href (href : string) (now : Z) : string :=
  default "" (head (split href "?")) ++s "?_=" ++s show now.

Definition loadWithRetry (retries : Z) (importFn : nat -> Outcome) (now : Z) (t : Tab) : LoadResult * Tab :=
  match (retry_loop retries importFn).1 with
  | Returns m => (Resolves m, t)
  | Throws e => (RejectsWith (Some e), t)
  | Exhausted lastError =>
      if may_reload (lastReload t) now then
        (NeverSettles, mkTab (Some (show now)) (busted_href (href t) now) (now :: reloads t))
      else (RejectsWith lastError, t)
  end.

(** ** The memoized promise *)

(** [cached] points at a started load; [loads] is the state of each load, oldest first. *)
Inductive LoadState : Type :=
| Pending
| Settled (r : LoadResult).

Record Lazy := mkLazy { cached : option nat; loads : list LoadState }.

(** [load], which [preload] and [React.lazy] both call: the load it hands out. *)
Definition load (l : Lazy) : Lazy * nat :=
  match cached l with
  | Some i => (l, i)
  | None => (mkLazy (Some (length (loads l))) (loads l ++ [Pending]), length (loads l))
  end.

(** A load settles; the [catch] clears the memo so that a later call imports again. *)
Definition settle_load (i : nat) (r : LoadResult) (l : Lazy) : Lazy :=
  match loads l !! i, r with
  | Some Pending, NeverSettles => l
  | Some Pending, RejectsWith _ => mkLazy None (<[i := Settled r]> (loads l))
  | Some Pending, Resolves _ => mkLazy (cached l) (<[i := Settled r]> (loads l))
  | _, _ => l
  end.

Inductive LazyEvent : Type :=
| Load
| SettleLoad (i : nat) (r : LoadResult).

Definition lazy_step (l : Lazy) (e : LazyEvent) : Lazy :=
  match e with
  | Load => (load l).1
  | SettleLoad i r => settle_load i r l
  end.

(** ** The loop *)

Definition chunk_failure (o : Outcome) : bool :=
  match o with Rejects e => isChunkError e | Module_ _ => false end.

Definition ends_with (o : Outcome) : LoopEnd :=
  match o with Module_ m => Returns m | Rejects e => Throws e end.

Definition backoff (from k : nat) : list Z := map (fun a => 100 * 2 ^ Z.of_nat a) (seq from k).

Lemma attempts_stops retries importFn k : forall n a last,
  (k < n)%nat -> Z.of_nat (a + k) <= retries ->
  (forall i, (i < k)%nat -> chunk_failure (importFn (a + i)%nat) = true) ->
  chunk_failure (importFn (a + k)%nat) = false ->
  attempts retries importFn n a last = (ends_with (importFn (a + k)%nat), backoff a k).
Proof.
  induction k as [|k IH]; intros n a last Hn Hr Hf Hstop; destruct n as [|n]; try lia; cbn [attempts].
  - rewrite Nat.add_0_r in *. destruct (importFn a) as [m|e]; [done|]. cbn in Hstop. by rewrite Hstop.
  - pose proof (Hf 0%nat ltac:(lia)) as H0. rewrite Nat.add_0_r in H0.
    destruct (importFn a) as [m|e]; [done|]. cbn in H0. rewrite H0. cbn [negb].
    rewrite (IH n (S a) (Some e)); [| lia | lia | |].
    + rewrite Nat.add_succ_r. destruct (Z.ltb_spec (Z.of_nat a) retries); [|lia]. done.
    + intros i Hi. rewrite Nat.add_succ_comm. apply Hf. lia.
    + by rewrite Nat.add_succ_comm.
Qed.

(** [n] attempts from [a] on, all of them chunk failures: the last one's error is the one kept. *)
Lemma attempts_exhausts retries importFn n : forall a last e,
  Z.of_nat (a + n) = retries ->
  (forall i, (i < n)%nat -> chunk_failure (importFn (a + i)%nat) = true) ->
  importFn (a + n)%nat = Rejects e -> isChunkError e = true ->
  attempts retries importFn (S n) a last = (Exhausted (Some e), backoff a n).
Proof.
  induction n as [|n IH]; intros a last e Hr Hf He Hc.
  - rewrite Nat.add_0_r in *. cbn [attempts]. rewrite He, Hc. cbn [negb].
    destruct (Z.ltb_spec (Z.of_nat a) retries); [lia|done].
  - rewrite <- Nat.add_succ_comm in *. pose proof (Hf 0%nat ltac:(lia)) as H0. rewrite Nat.add_0_r in H0.
    cbn [attempts]. destruct (importFn a) as [m|e0]; [done|]. cbn in H0. rewrite H0. cbn [negb].
    pose proof (IH (S a) (Some e0) e Hr) as IHa. cbn [attempts] in IHa. rewrite IHa; [|clear IHa|done..].
    + destruct (Z.ltb_spec (Z.of_nat a) retries); [|lia]. done.
    + intros i Hi. rewrite Nat.add_succ_comm. apply Hf. lia.
Qed.

(** C40: a lazy import is tried again exactly as long as it fails for a missing chunk and tries are
    left, with the doubled delays between the tries; the first other outcome is the result, and when
    all tries failed so the error of the last one is kept *)
Theorem retry_loop_spec (retries : nat) importFn :
  (forall k, (k <= retries)%nat -> (forall i, (i < k)%nat -> chunk_failure (importFn i) = true) ->
    chunk_failure (importFn k) = false ->
    retry_loop (Z.of_nat retries) importFn = (ends_with (importFn k), backoff 0 k)) /\
  (forall e, (forall i, (i < retries)%nat -> chunk_failure (importFn i) = true) ->
    importFn retries = Rejects e -> isChunkError e = true ->
    retry_loop (Z.of_nat retries) importFn = (Exhausted (Some e), backoff 0 retries)).
Proof.
  unfold retry_loop. replace (Z.to_nat (Z.of_nat retries + 1)) with (S retries) by lia. split.
  - intros k Hk Hf Hs. apply (attempts_stops (Z.of_nat retries) importFn k (S retries) 0 None); auto; lia.
  - intros e Hf He Hc. by apply (attempts_exhausts (Z.of_nat retries) importFn retries 0 None).
Qed.

(** ** The guard of the reload *)

Definition tab_step (retries : Z) (t : Tab) (l : (nat -> Outcome) * Z) : Tab :=
  (loadWithRetry retries l.1 l.2 t).2.

Definition reloads_apart (newer older : Z) : Prop := 10000 < newer - older.

Definition tab_ok (t : Tab) : Prop :=
  Sorted reloads_apart (reloads t) /\
  (reloads t = [] \/ exists r, head (reloads t) = Some r /\ 0 <= r /\ lastReload t = Some (show r)).

Lemma show_truthy n : 0 <= n -> truthy (show n) = true.
Proof.
  intros Hn. apply truthy_spec. intros He. pose proof (parseInt10_show n Hn) as Hp. by rewrite He in Hp.
Qed.

Lemma may_reload_after r now : 0 <= r -> may_reload (Some (show r)) now = true -> 10000 < now - r.
Proof.
  intros Hr. unfold may_reload. change (truthy_opt (Some (show r))) with (truthy (show r)).
  rewrite show_truthy by done. cbn [negb orb from_option id]. rewrite parseInt10_show by done. intros H. to_prop. done.
Qed.

Lemma tab_step_ok retries t l : 0 <= l.2 -> tab_ok t -> tab_ok (tab_step retries t l).
Proof.
  intros Hl [Hs Hh]. unfold tab_step, loadWithRetry. destruct (retry_loop retries l.1).1; try by split.
  destruct (may_reload (lastReload t) l.2) eqn:Hm; [|by split]. split; cbn; [|eauto 6].
  constructor; [done|]. destruct Hh as [->|(r & Hr & Hr0 & Hlast)]; [constructor|].
  rewrite Hlast in Hm. apply may_reload_after in Hm; [|done].
  destruct (reloads t); constructor. injection Hr as ->. done.
Qed.

Theorem import_reloads_apart retries last url (history : list ((nat -> Outcome) * Z)) :
  Forall (fun l => 0 <= l.2) history ->
  Sorted (fun newer older => 10000 < newer - older)
    (reloads (run (tab_step retries) (mkTab last url []) history)).
Proof.
  intros Hh. assert (tab_ok (mkTab last url [])) as Hok by (split; [constructor|by left]).
  revert Hok. generalize (mkTab last url []). induction Hh as [|l ls Hl Hls IH]; intros t Hok.
  - apply Hok.
  - apply IH. by apply tab_step_ok.
Qed.

(** ** Sharing *)

Definition rejected (s : LoadState) : Prop := exists e, s = Settled (RejectsWith e).

Definition lazy_ok (l : Lazy) : Prop :=
  (forall i, cached l = Some i -> exists s, loads l !! i = Some s /\ ~ rejected s) /\
  (forall i s, loads l !! i = Some s -> cached l <> Some i -> rejected s).

Lemma lazy_step_ok l e : lazy_ok l -> lazy_ok (lazy_step l e).
Proof.
  intros [Hc Ho]. destruct e as [|i r]; cbn [lazy_step].
  - unfold load. destruct (cached l) as [i|] eqn:Hi; [split; cbn; rewrite ?Hi; auto|]. split; cbn.
    + intros i [= <-]. exists Pending. rewrite list_lookup_middle by done. split; [done|]. by intros [? ?].
    + intros i s Hs Hne. apply (Ho i); [|done]. apply lookup_app_Some in Hs as [?|[Hge Hs]]; [done|].
      apply list_lookup_singleton_Some in Hs as [Hz _]. destruct Hne. f_equal. lia.
  - unfold settle_load. destruct (loads l !! i) as [[|?]|] eqn:Hi; try by split.
    assert (cached l = Some i) as Hci.
    { destruct (decide (cached l = Some i)); [done|]. by destruct (Ho i Pending Hi) as [? ?]. }
    pose proof (lookup_lt_Some _ _ _ Hi) as Hlt.
    assert (forall j s r', <[i := Settled r']> (loads l) !! j = Some s ->
      j = i /\ s = Settled r' \/ j <> i /\ loads l !! j = Some s) as Hins.
    { intros j s r' Hj. destruct (decide (j = i)) as [->|Hne].
      - rewrite list_lookup_insert_eq in Hj by done. left. split; congruence.
      - rewrite list_lookup_insert_ne in Hj by done. by right. }
    destruct r as [m|e|]; [| |by split]; split; cbn.
    + intros j Hj. rewrite Hci in Hj. injection Hj as <-. exists (Settled (Resolves m)).
      rewrite list_lookup_insert_eq by done. split; [done|]. by intros [? ?].
    + intros j s [[-> ->]|[Hne Hj]]%Hins Hcj; [done|]. by apply (Ho j).
    + done.
    + intros j s [[-> ->]|[Hne Hj]]%Hins _; [by exists e|]. apply (Ho j); [done|]. congruence.
Qed.

Theorem lazy_import_shared events :
  let l := run lazy_step (mkLazy None []) events in
  (forall i s, loads l !! i = Some s -> cached l <> Some i -> exists e, s = Settled (RejectsWith e)) /\
  (forall i, cached l = Some i ->
    load l = (l, i) /\ (loads l !! i = Some Pending \/ exists r, loads l !! i = Some (Settled r) /\ forall e, r <> RejectsWith e)).
Proof.
  intros l. assert (lazy_ok l) as [Hc Ho].
  { apply (run_invariant lazy_step lazy_ok); [intros; by apply lazy_step_ok|]. by split. }
  split; [exact Ho|]. intros i Hi. split; [by unfold load; rewrite Hi|].
  destruct (Hc i Hi) as (s & Hs & Hn). destruct s as [|r]; [by left|]. right. exists r. split; [done|].
  intros e ->. apply Hn. by exists e.
Qed.
End lazy.

(** The address does not collect one timestamp per reload. *)
Lemma busted_href_again url t1 t2 :
  busted_href (busted_href url t1) t2 = busted_href url t2.
Proof.
  unfold busted_href. f_equal. unfold split.
  pose proof (split_on_pieces (Ascii.eqb "?") url) as Hp.
  destruct (split_on (Ascii.eqb "?") url) as [|w ws] eqn:Hw; [by destruct (split_on_nonempty (Ascii.eqb "?") url)|].
  cbn [head from_option id]. apply Forall_cons in Hp as [Hp _].
  change ("?_=" ++s show t1) with (String "?" ("_=" ++s show t1)).
  by rewrite (split_on_app (Ascii.eqb "?") w "?" ("_=" ++s show t1)).
Qed.

(** Every import fails; the third load comes too soon after the second to reload again. *)
Definition broken (_ : nat) : @Outcome unit := Rejects (mkJsError true "Failed to fetch dynamically imported module: /x.js").

Example import_reloads_apart_witness :
  Sorted (fun newer older => 10000 < newer - older)
    (reloads (run (tab_step 2) (mkTab None "https://app/x?a=1" [])
      [(broken, 5000); (broken, 20000); (broken, 21000); (broken, 40000)])).
Proof. apply (import_reloads_apart 2 None "https://app/x?a=1"). repeat constructor; vm_compute; discriminate. Defined.

Example broken_reloads :
  reloads (run (tab_step 2) (mkTab None "https://app/x?a=1" [])
    [(broken, 5000); (broken, 20000); (broken, 21000); (broken, 40000)]) = [40000; 20000; 5000].
Proof. vm_compute. reflexivity. Qed.
