(* ===== verification/WebAuthn.v ===== *)
(** * Passkey ceremonies

    [src/app/src/lib/webauthn.ts]. Each function is a value of a small monad: the calls it makes, in
    order, and how it ends. What answers the calls - the API client, the browser's ceremony through
    [@simplewebauthn/browser] - is the argument [World]. A thrown value is an object; a property it
    does not have is [""] or [None]. *)

From S2P Require Import Prelude JsString.

#[local] Arguments truthy : simpl never.
#[local] Arguments includes : simpl never.
#[local] Arguments String.eqb : simpl never.

(** ** Data *)

(** Answers of the API as [JSON.parse] gives them; a number only matters by being zero or not. *)
Inductive Json : Type :=
| JNull
| JBool (b : bool)
| JNumber (n : Z)
| JString (s : string)
| JArray (elements : list Json)
| JObject (fields : list (string * Json)).

Definition json_truthy (v : Json) : bool :=
  match v with
  | JNull => false
  | JBool b => b
  | JNumber n => negb (n =? 0)
  | JString s => truthy s
  | JArray _ | JObject _ => true
  end.

(** The own property [name], [None] when there is none. *)
Definition own_property (name : string) (v : Json) : option Json :=
  match v with
  | JObject fields => snd <$> array_find (fun f => String.eqb f.1 name) fields
  | _ => None
  end.

(** The response an Axios error carries; [rs_error] and [rs_message] are [data.error], [data.message]. *)
Record Response := mkResponse {
  rs_status : option Z;
  rs_error : option string;
  rs_message : option string;
}.

Record Thrown := mkThrown {
  isError : bool;
  isAxiosError : bool;
  name : string;
  message : string;
  response : option Response;
}.

(** [new Error(m)] *)
Definition new_Error (m : string) : Thrown := mkThrown true false "Error" m None.

Record IdentityVerification := mkIdentity {
  currentPassword : option string;
  otp : option string;
  reauthToken : option string;
}.

Inductive VerificationBody : Type :=
| BodyReauthToken (token : string)
| BodyCurrentPassword (password : option string).

(** The MFA header arguments: the code and its methods. *)
Definition MfaArgs : Type := option (string * list string).

Inductive Call : Type :=
| RegisterBegin (email subid : string)
| RegisterFinish (data : string)
| LoginBegin (email : string)
| LoginFinish (xSessionsRemove : option string) (data : string)
| PasskeyAddBegin (body : VerificationBody) (mfa : MfaArgs)
| PasskeyAddFinish (data : string)
| PasskeyDelete (id : string) (body : VerificationBody) (mfa : MfaArgs)
| ReauthBegin (purpose : string)
| ReauthFinish (data : string)
| StartRegistration (options : Json)
| StartAuthentication (options : Json)
| OnSessionLimitReached.

Section webauthn.
(** A credential the browser returns, before [JSON.stringify]. *)
Context {Credential : Type}.

Record World := mkWorld {
  browserSupportsWebAuthn : bool;
  platformAuthenticatorIsAvailable : result Thrown bool;
  begin_ : Call -> result Thrown Json;
  ceremony : Call -> result Thrown Credential;
  finish : Call -> result Thrown Z;
  finish_token : Call -> result Thrown (option string);
  stringify : Credential -> string;
  (** what reading a property of [null] throws *)
  type_error : Thrown;
}.

(** ** The monad *)

Definition M (A : Type) : Type := list Call * result Thrown A.

#[export] Instance M_ret : MRet M := fun _ a => ([], Ok a).
#[export] Instance M_bind : MBind M := fun _ _ f m =>
  match m with
  | (cs, Ok a) => let '(cs', r) := f a in (cs ++ cs', r)
  | (cs, Throw e) => (cs, Throw e)
  end.

Definition throw {A} (e : Thrown) : M A := ([], Throw e).
Definition call {A} (c : Call) (answer : Call -> result Thrown A) : M A := ([c], answer c).
Definition lift {A} (r : result Thrown A) : M A := ([], r).

Definition try_ {A} (m : M A) (handler : Thrown -> M A) : M A :=
  match m with
  | (cs, Ok a) => (cs, Ok a)
  | (cs, Throw e) => let '(cs', r) := handler e in (cs ++ cs', r)
  end.

Definition unless (b : bool) (e : Thrown) : M unit := if b then mret tt else throw e.

Context (W : World).

(** [options.publicKey] *)
Definition get_publicKey (options : Json) : result Thrown (option Json) :=
  match options with JNull => Throw (type_error W) | _ => Ok (own_property "publicKey" options) end.

Definition present (v : option Json) : bool := match v with Some v => json_truthy v | None => false end.

(** ** Errors *)

Definition status_429 (e : Thrown) : bool :=
  isAxiosError e && bool_decide ((response e ≫= rs_status) = Some 429).

Definition data_error (e : Thrown) : option string := response e ≫= rs_error.

(** The mapping of an error to the one shown, common to registration, authentication and addition. *)
Definition map_error (cancelled invalidState notSupported generic : string) (e : Thrown) : Thrown :=
  if String.eqb (name e) "NotAllowedError" then new_Error cancelled
  else if String.eqb (name e) "InvalidStateError" then new_Error invalidState
  else if String.eqb (name e) "NotSupportedError" then new_Error notSupported
  else if truthy_opt (data_error e) then new_Error (data_error e ?? "")
  else if truthy (message e) then e
  else new_Error generic.

Definition too_many_requests : Thrown := new_Error "Too many requests. Please try again in a moment.".

(** The inner [catch] around a ceremony. *)
Definition on_invalid_state (m : string) (e : Thrown) : Thrown :=
  if isError e && String.eqb (name e) "InvalidStateError" then new_Error m else e.

(** ** Registration *)

Definition registerPasskey_body (email subid : string) : M unit :=
  _ ← unless (browserSupportsWebAuthn W) (new_Error "WebAuthn is not supported in this browser");
  options ← call (RegisterBegin email subid) (begin_ W);
  publicKey ← lift (get_publicKey options);
  _ ← unless (present publicKey) (new_Error "Invalid WebAuthn options received from server");
  registrationResponse ←
    try_ (call (StartRegistration (publicKey ?? JNull)) (ceremony W))
         (fun e => throw (on_invalid_state "A passkey might already be registered for this device" e));
  status ← call (RegisterFinish (stringify W registrationResponse)) (finish W);
  unless (status =? 201) (new_Error "Failed to complete passkey registration").

Definition registerPasskey (email subid : string) : M unit :=
  try_ (registerPasskey_body email subid) (fun e =>
    throw (if status_429 e then too_many_requests
           else map_error "Passkey registration was cancelled or timed out"
             "A passkey is already registered for this account on this device"
             "Passkey registration is not supported on this device"
             "Passkey registration failed" e)).

(** ** Authentication *)

Definition authenticate_body (email : string) (xSessionsRemove : bool) : M unit :=
  _ ← unless (browserSupportsWebAuthn W) (new_Error "WebAuthn is not supported in this browser");
  options ← call (LoginBegin email) (begin_ W);
  publicKey ← lift (get_publicKey options);
  _ ← unless (present publicKey) (new_Error "Invalid WebAuthn options received from server");
  authenticationResponse ←
    try_ (call (StartAuthentication (publicKey ?? JNull)) (ceremony W))
         (fun e => throw (on_invalid_state "No passkey found for this account" e));
  status ← call (LoginFinish (if xSessionsRemove then Some "true" else None)
                   (stringify W authenticationResponse)) (finish W);
  unless (status =? 201) (new_Error "Passkey authentication failed").

(** [data?.error || data?.message || ''] *)
Definition errorMessage (e : Thrown) : string :=
  str_or ((response e ≫= rs_error) ?? "") ((response e ≫= rs_message) ?? "").

Definition session_limit (e : Thrown) : bool :=
  includes (toLowerCase (errorMessage e)) "maximum number of active sessions reached".

(** [onSessionLimitReached] tells whether the callback is passed. *)
Definition authenticateWithPasskey (email : string) (onSessionLimitReached xSessionsRemove : bool) : M unit :=
  try_ (authenticate_body email xSessionsRemove) (fun e =>
    if status_429 e then
      if session_limit e then
        if onSessionLimitReached then ([OnSessionLimitReached], Ok tt)
        else throw (new_Error "Maximum number of active sessions reached. Please log out from other devices or wait for sessions to expire.")
      else throw too_many_requests
    else throw (map_error "Passkey authentication was cancelled or timed out"
             "No passkey found for this account"
             "Passkey authentication is not supported on this device"
             "Passkey authentication failed" e)).

(** ** Passkeys of an authenticated account *)

Definition ALREADY_HOLDS_PASSKEY : string :=
  "This device or password manager already has a passkey for your account (passkeys sync across your devices). To add another one, use a different authenticator, such as a security key.".

Definition verificationRequest (v : IdentityVerification) : VerificationBody * MfaArgs :=
  ( if truthy_opt (reauthToken v) then BodyReauthToken (reauthToken v ?? "")
    else BodyCurrentPassword (currentPassword v),
    if truthy_opt (otp v) then Some (otp v ?? "", ["totp"]) else None ).

Definition deletePasskey (id : string) (verification : IdentityVerification) : M unit :=
  let '(body, mfa) := verificationRequest verification in
  _ ← call (PasskeyDelete id body mfa) (finish W);
  mret tt.

(** The options with or without the [publicKey] wrapper. *)
Definition add_options (options : Json) : option Json :=
  match options with
  | JObject fields =>
      match own_property "publicKey" options with Some v => Some v | None => Some options end
  | v => Some v
  end.

Definition addPasskey_body (verification : IdentityVerification) : M unit :=
  _ ← unless (browserSupportsWebAuthn W) (new_Error "WebAuthn is not supported in this browser");
  let '(body, mfa) := verificationRequest verification in
  options ← call (PasskeyAddBegin body mfa) (begin_ W);
  webauthnOptions ← lift (Ok (add_options options));
  _ ← unless (present webauthnOptions) (new_Error "Invalid WebAuthn options received from server");
  registrationResponse ←
    try_ (call (StartRegistration (webauthnOptions ?? JNull)) (ceremony W))
         (fun e => throw (on_invalid_state ALREADY_HOLDS_PASSKEY e));
  status ← call (PasskeyAddFinish (stringify W registrationResponse)) (finish W);
  unless (status =? 201) (new_Error "Failed to complete passkey addition").

Definition addPasskeyToAccount (verification : IdentityVerification) : M unit :=
  try_ (addPasskey_body verification) (fun e =>
    throw (if status_429 e then too_many_requests
           else map_error "Passkey addition was cancelled or timed out" ALREADY_HOLDS_PASSKEY
             "Passkey addition is not supported on this device" "Failed to add passkey" e)).

Definition isWebAuthnSupported : bool := browserSupportsWebAuthn W.

Definition isPlatformAuthenticatorAvailable : bool :=
  if negb (browserSupportsWebAuthn W) then false
  else match platformAuthenticatorIsAvailable W with Ok b => b | Throw _ => false end.

(** ** Reauthentication *)

Definition reauth_body (purpose : string) : M string :=
  options ← call (ReauthBegin purpose) (begin_ W);
  publicKey ← lift (get_publicKey options);
  let opts := if present publicKey then publicKey ?? JNull else options in
  assertionResponse ← call (StartAuthentication opts) (ceremony W);
  token ← call (ReauthFinish (stringify W assertionResponse)) (finish_token W);
  _ ← unless (truthy_opt token) (new_Error "Missing reauth token");
  mret (token ?? "").

Definition beginReauthForPurpose (purpose : string) : M string :=
  try_ (reauth_body purpose) (fun e => throw
    (if String.eqb (name e) "NotAllowedError" then new_Error "Passkey verification was cancelled or timed out."
     else if truthy_opt (data_error e) then new_Error (data_error e ?? "")
     else new_Error (str_or (message e) "Passkey reauthentication failed."))).

Definition beginEmailChangeReauth : M string := beginReauthForPurpose "email_change".
Definition beginAccountDeletionReauth : M string := beginReauthForPurpose "account_deletion".
Definition beginProfileExportReauth : M string := beginReauthForPurpose "profile_export".
Definition beginPasswordSetReauth : M string := beginReauthForPurpose "password_set".
Definition beginPasskeyAddReauth : M string := beginReauthForPurpose "passkey_add".
Definition beginPasskeyDeleteReauth : M string := beginReauthForPurpose "passkey_delete".
Definition beginProfileImportReauth : M string := beginReauthForPurpose "profile_import".

(** ** Computing with the monad *)

Lemma bind_Ok {A B} (m : M A) (f : A -> M B) cs b :
  m ≫= f = (cs, Ok b) <->
  exists cs1 cs2 a, m = (cs1, Ok a) /\ f a = (cs2, Ok b) /\ cs = cs1 ++ cs2.
Proof.
  destruct m as [cs1 [a|e]]; cbn; [|by split; [|intros (? & ? & ? & ? & ?)]].
  destruct (f a) as [cs2 r] eqn:Hf. split.
  - intros [= <- ->]. eauto 7.
  - intros (? & ? & ? & [= <- <-] & Hf' & ->). congruence.
Qed.

Lemma unless_Ok b e cs u : unless b e = (cs, Ok u) <-> b = true /\ cs = [].
Proof. unfold unless. destruct b, u; cbn; split; try (by intros [= <-]); by intros [? ->]. Qed.

Lemma call_Ok {A} c (answer : Call -> result Thrown A) cs a :
  call c answer = (cs, Ok a) <-> cs = [c] /\ answer c = Ok a.
Proof. unfold call. split; [intros [= <- ->]|intros [-> ->]]; done. Qed.

Lemma lift_Ok {A} (r : result Thrown A) cs a : lift r = (cs, Ok a) <-> cs = [] /\ r = Ok a.
Proof. unfold lift. split; [intros [= <- ->]|intros [-> ->]]; done. Qed.

(** A handler that rethrows changes no success. *)
Lemma try_throw_Ok {A} (m : M A) h cs a : try_ m (fun e => throw (h e)) = (cs, Ok a) <-> m = (cs, Ok a).
Proof. by destruct m as [cs' [a'|e]]. Qed.

(** ** Success *)

(** The three steps a ceremony must pass, and the calls made then. *)
Definition ceremony_succeeds (begins : Call) (start : Json -> Call) (finishes : string -> Call)
    (pick : Json -> option Json) (cs : list Call) : Prop :=
  browserSupportsWebAuthn W = true /\
  exists options key credential,
    begin_ W begins = Ok options /\ pick options = Some key /\ json_truthy key = true /\
    ceremony W (start key) = Ok credential /\ finish W (finishes (stringify W credential)) = Ok 201 /\
    cs = [begins; start key; finishes (stringify W credential)].

Lemma ceremony_chain begins start finishes get pick unsupported invalid failed rethrow cs :
  (forall v k, json_truthy k = true -> get v = Ok (Some k) <-> pick v = Some k) ->
  (_ ← unless (browserSupportsWebAuthn W) unsupported;
   options ← call begins (begin_ W);
   key ← lift (get options);
   _ ← unless (present key) invalid;
   credential ← try_ (call (start (key ?? JNull)) (ceremony W)) (fun e => throw (rethrow e));
   status ← call (finishes (stringify W credential)) (finish W);
   unless (status =? 201) failed) = (cs, Ok tt) <->
  ceremony_succeeds begins start finishes pick cs.
Proof.
  intros Hpick. split.
  - intros (? & ? & [] & [Hsup ->]%unless_Ok & H & ->)%bind_Ok.
    apply bind_Ok in H as (? & ? & options & [-> Hb]%call_Ok & H & ->).
    apply bind_Ok in H as (? & ? & [key|] & [-> Hg]%lift_Ok & H & ->);
      [|by apply bind_Ok in H as (? & ? & [] & [? ?]%unless_Ok & ? & ?)].
    apply bind_Ok in H as (? & ? & [] & [Ht ->]%unless_Ok & H & ->).
    apply bind_Ok in H as (? & ? & credential & [-> Hc]%try_throw_Ok%call_Ok & H & ->).
    apply bind_Ok in H as (? & ? & status & [-> Hf]%call_Ok & [Hs ->]%unless_Ok & ->).
    apply Z.eqb_eq in Hs as ->. split; [done|]. exists options, key, credential.
    split; [done|]. split; [by apply Hpick|]. done.
  - intros (Hsup & options & key & credential & Hb & Hk & Ht & Hc & Hf & ->).
    apply (Hpick _ _ Ht) in Hk. unfold call, lift. rewrite Hsup, Hb. cbn. rewrite Hk. cbn. rewrite Ht. cbn.
    rewrite Hc. cbn. by rewrite Hf.
Qed.

Lemma get_publicKey_picks v k :
  json_truthy k = true -> get_publicKey v = Ok (Some k) <-> own_property "publicKey" v = Some k.
Proof. intros _. destruct v; cbn; split; congruence. Qed.

Theorem registerPasskey_succeeds email subid cs :
  registerPasskey email subid = (cs, Ok tt) <->
  ceremony_succeeds (RegisterBegin email subid) StartRegistration RegisterFinish (own_property "publicKey") cs.
Proof. unfold registerPasskey. rewrite try_throw_Ok. apply ceremony_chain, get_publicKey_picks. Qed.

Theorem addPasskeyToAccount_succeeds v cs :
  addPasskeyToAccount v = (cs, Ok tt) <->
  ceremony_succeeds (PasskeyAddBegin (verificationRequest v).1 (verificationRequest v).2) StartRegistration
    PasskeyAddFinish add_options cs.
Proof.
  unfold addPasskeyToAccount, addPasskey_body. rewrite try_throw_Ok.
  destruct (verificationRequest v) as [body mfa]. cbn [fst snd].
  apply (ceremony_chain (PasskeyAddBegin body mfa) StartRegistration PasskeyAddFinish (fun o => Ok (add_options o))).
  intros w k _. split; congruence.
Qed.

Lemma authenticate_body_succeeds email remove cs :
  authenticate_body email remove = (cs, Ok tt) <->
  ceremony_succeeds (LoginBegin email) StartAuthentication
    (LoginFinish (if remove then Some "true" else None)) (own_property "publicKey") cs.
Proof. apply ceremony_chain, get_publicKey_picks. Qed.

Theorem authenticateWithPasskey_succeeds email onLimit remove cs :
  authenticateWithPasskey email onLimit remove = (cs, Ok tt) <->
  ceremony_succeeds (LoginBegin email) StartAuthentication
    (LoginFinish (if remove then Some "true" else None)) (own_property "publicKey") cs \/
  onLimit = true /\ exists cs' e, authenticate_body email remove = (cs', Throw e) /\
    status_429 e = true /\ session_limit e = true /\ cs = cs' ++ [OnSessionLimitReached].
Proof.
  unfold authenticateWithPasskey. rewrite <- authenticate_body_succeeds.
  destruct (authenticate_body email remove) as [cs' [[]|e]]; cbn [try_].
  - split; [by left|]. intros [?|(_ & ? & ? & ? & _)]; done.
  - split.
    + destruct (status_429 e) eqn:H4; [|done]. destruct (session_limit e) eqn:Hs; [|done].
      destruct onLimit; [|done]. intros [= <-]. right. split; [done|]. by exists cs', e.
    + intros [?|(-> & cs'' & e' & [= <- <-] & -> & -> & ->)]; done.
Qed.

Theorem beginReauthForPurpose_succeeds purpose cs token :
  beginReauthForPurpose purpose = (cs, Ok token) <->
  truthy token = true /\
  exists options pk credential,
    let opts := if present pk then pk ?? JNull else options in
    begin_ W (ReauthBegin purpose) = Ok options /\ get_publicKey options = Ok pk /\
    ceremony W (StartAuthentication opts) = Ok credential /\
    finish_token W (ReauthFinish (stringify W credential)) = Ok (Some token) /\
    cs = [ReauthBegin purpose; StartAuthentication opts; ReauthFinish (stringify W credential)].
Proof.
  unfold beginReauthForPurpose, reauth_body. rewrite try_throw_Ok. split.
  - intros (? & ? & options & [-> Hb]%call_Ok & H & ->)%bind_Ok.
    apply bind_Ok in H as (? & ? & pk & [-> Hg]%lift_Ok & H & ->).
    apply bind_Ok in H as (? & ? & credential & [-> Hc]%call_Ok & H & ->).
    apply bind_Ok in H as (? & ? & [tok|] & [-> Hf]%call_Ok & H & ->);
      apply bind_Ok in H as (? & ? & [] & [Ht ->]%unless_Ok & H & ->); [|done].
    injection H as <- <-. split; [done|]. by exists options, pk, credential.
  - intros (Ht & options & pk & credential & Hb & Hg & Hc & Hf & ->).
    unfold call, lift. rewrite Hb. cbn. rewrite Hg. cbn. rewrite Hc. cbn. rewrite Hf. cbn.
    change (truthy_opt (Some token)) with (truthy token). by rewrite Ht.
Qed.

(** ** Errors *)

Lemma map_error_speaks c i n g e :
  truthy c = true -> truthy i = true -> truthy n = true -> truthy g = true ->
  truthy (message (map_error c i n g e)) = true.
Proof.
  intros Hc Hi Hn Hg. unfold map_error.
  destruct (String.eqb (name e) _); [done|]. destruct (String.eqb (name e) _); [done|].
  destruct (String.eqb (name e) _); [done|]. destruct (truthy_opt (data_error e)) eqn:Hd; [exact Hd|].
  by destruct (truthy (message e)) eqn:Hm.
Qed.

Lemma try_Throw {A} (m : M A) (h : Thrown -> M A) cs e :
  try_ m h = (cs, Throw e) -> exists cs1 e1 cs2, m = (cs1, Throw e1) /\ h e1 = (cs2, Throw e).
Proof.
  destruct m as [cs1 [a|e1]]; cbn; [done|]. destruct (h e1) as [cs2 r] eqn:Hh. intros [= <- ->]. eauto.
Qed.

Theorem passkey_errors_have_messages cs e :
  (forall email subid, registerPasskey email subid = (cs, Throw e) -> truthy (message e) = true) /\
  (forall email limit remove, authenticateWithPasskey email limit remove = (cs, Throw e) ->
     truthy (message e) = true) /\
  (forall v, addPasskeyToAccount v = (cs, Throw e) -> truthy (message e) = true) /\
  (forall purpose, beginReauthForPurpose purpose = (cs, Throw e) -> truthy (message e) = true).
Proof.
  repeat split.
  - intros email subid (? & e1 & ? & _ & [= _ <-])%try_Throw.
    destruct (status_429 e1); [done|by apply map_error_speaks].
  - intros email limit remove (? & e1 & ? & _ & He)%try_Throw. revert He.
    destruct (status_429 e1); [|by intros [= _ <-]; apply map_error_speaks].
    destruct (session_limit e1), limit; by intros [= _ <-].
  - intros v (? & e1 & ? & _ & [= _ <-])%try_Throw.
    destruct (status_429 e1); [done|by apply map_error_speaks].
  - intros purpose (? & e1 & ? & _ & [= _ <-])%try_Throw.
    destruct (String.eqb _ _); [done|]. destruct (truthy_opt (data_error e1)) eqn:Hd; [exact Hd|].
    cbn [new_Error message]. unfold str_or. by destruct (truthy (message e1)) eqn:Hm.
Qed.

(** The session limit is reported through the callback whenever one is given. *)
Lemma session_limit_not_thrown email remove cs e cs' e' :
  authenticate_body email remove = (cs', Throw e') -> status_429 e' = true -> session_limit e' = true ->
  authenticateWithPasskey email true remove <> (cs, Throw e).
Proof. unfold authenticateWithPasskey. intros -> H4 Hs. cbn. by rewrite H4, Hs. Qed.
End webauthn.
