(* ===== verification/SentryPrivacy.v ===== *)
(** * What error reports carry

    [src/app/src/lib/sentryPrivacy.ts], [sentryReplay.ts] and [src/app/src/sentry.ts]: scrubbing of
    URLs, the consent hooks and the replay switch. The parts of an event the code only copies are a
    type parameter. *)

From S2P Require Import Prelude JsString.

#[local] Arguments truthy : simpl never.
#[local] Arguments Ascii.eqb : simpl never.
#[local] Arguments lower_char : simpl never.

(** ** Path identifiers *)

(** [[^/?#\s]] *)
Definition seg_char (c : ascii) : bool :=
  negb (Ascii.eqb c "/" || Ascii.eqb c "?" || Ascii.eqb c "#" || is_ws c).

(** What [[^/?#\s]*] leaves of the input. *)
Fixpoint drop_run (s : string) : string :=
  match s with
  | EmptyString => EmptyString
  | String c s' => if seg_char c then drop_run s' else s
  end.

Definition starts_run (s : string) : bool :=
  match s with String c _ => seg_char c | EmptyString => false end.

(** [(\/name\/)[^/?#\s]+] at the start of [s], ignoring case. *)
Definition matches_at (name s : string) : bool :=
  startsWith (toLowerCase s) ("/" ++s name ++s "/") &&
  starts_run (str_drop (String.length name + 2) s).

(** [s.replace(/(\/name\/)[^/?#\s]+/gi, "$1marker")], with fuel for the length of [s]. *)
Fixpoint replace_from (name marker : string) (fuel : nat) (s : string) : string :=
  match fuel, s with
  | S fuel', String c s' =>
      if matches_at name s then
        str_take (String.length name + 2) s ++s marker ++s
        replace_from name marker fuel' (drop_run (str_drop (String.length name + 2) s))
      else String c (replace_from name marker fuel' s')
  | _, _ => s
  end.
Definition replace_ids (name marker s : string) : string :=
  replace_from name marker (String.length s) s.

Definition clean_path (path : string) : string :=
  replace_ids "dns-query" ":profile_id"
    (replace_ids "devices" ":device_id" (replace_ids "profiles" ":profile_id" path)).

(** ** Query parameters *)

Inductive URIError : Set := malformed_URI.

Definition hex_value (c : ascii) : option Z :=
  if in_range 48 57 c then Some (code c - 48)
  else if in_range 65 70 c then Some (code c - 55)
  else if in_range 97 102 c then Some (code c - 87) else None.

(** [%XX] at the start of [s]: the octet and what follows. *)
Definition octet (s : string) : option (Z * string) :=
  match s with
  | String p (String a (String b s')) =>
      if Ascii.eqb p "%" then
        match hex_value a, hex_value b with
        | Some x, Some y => Some (16 * x + y, s')
        | _, _ => None
        end
      else None
  | _ => None
  end.

(** [n] continuation octets after the bits [acc]. *)
Fixpoint continuation (n : nat) (acc : Z) (s : string) : option (Z * string) :=
  match n with
  | O => Some (acc, s)
  | S n' =>
      match octet s with
      | Some (b, s') => if b / 64 =? 2 then continuation n' (64 * acc + b mod 64) s' else None
      | None => None
      end
  end.

(** One escape sequence: a code point in UTF-8, neither overlong nor a surrogate. *)
Definition escape (s : string) : option (Z * string) :=
  match octet s with
  | None => None
  | Some (b, s') =>
      let wide n lead lo hi :=
        match continuation n lead s' with
        | Some (v, s'') => if (lo <=? v) && (v <=? hi) && negb ((55296 <=? v) && (v <=? 57343)) then Some (v, s'') else None
        | None => None
        end in
      if b <? 128 then Some (b, s')
      else if b / 32 =? 6 then wide 1%nat (b mod 32) 128 2047
      else if b / 16 =? 14 then wide 2%nat (b mod 16) 2048 65535
      else if b / 8 =? 30 then wide 3%nat (b mod 8) 65536 1114111
      else None
  end.

(** [decodeURIComponent], as code points; fuel for the length of the string. *)
Fixpoint decode_from (fuel : nat) (s : string) : result URIError (list Z) :=
  match fuel, s with
  | S fuel', String c s' =>
      if Ascii.eqb c "%" then
        match escape s with
        | Some (v, rest) => r ← decode_from fuel' rest; mret (v :: r)
        | None => Throw malformed_URI
        end
      else r ← decode_from fuel' s'; mret (code c :: r)
  | _, _ => Ok []
  end.
Definition decodeURIComponent (s : string) : result URIError (list Z) := decode_from (String.length s) s.

(** The code points of a string, and [toLowerCase] on them. No code point above 255 lowercases to a
    name in [ID_PARAMS]. *)
Fixpoint points (s : string) : list Z :=
  match s with EmptyString => [] | String c s' => code c :: points s' end.
Definition lower_point (v : Z) : Z := if v <? 256 then code (lower_char (of_code v)) else v.

Definition FILTERED : string := "[Filtered]".
Definition ID_PARAMS : list string := ["device_id"; "device"; "profile_id"; "profile"; "id"].

Definition is_id_param (decoded : list Z) : bool :=
  bool_decide (map lower_point decoded ∈ map points ID_PARAMS).

(** [pair.split("=", 2)] *)
Definition split2 (c : ascii) (s : string) : string * option string :=
  match split s c with
  | k :: v :: _ => (k, Some v)
  | k :: [] => (k, None)
  | [] => ("", None)
  end.

Definition scrub_pair (pair : string) : result URIError string :=
  let '(k, v) := split2 "=" pair in
  match v with
  | Some _ =>
      d ← decodeURIComponent k;
      mret (if is_id_param d then k ++s "=" ++s FILTERED else pair)
  | None => mret pair
  end.

Fixpoint map_result {E A B} (f : A -> result E B) (l : list A) : result E (list B) :=
  match l with
  | [] => Ok []
  | x :: l' => y ← f x; ys ← map_result f l'; mret (y :: ys)
  end.

Definition scrub_query (query : string) : result URIError string :=
  join "&" <$> map_result scrub_pair (split query "&").

Definition scrubUrl (url : string) : result URIError string :=
  if negb (truthy url) then Ok url
  else
    let '(beforeHash, hash) := split2 "#" url in
    let '(path, query) := split2 "?" beforeHash in
    let cleanPath := clean_path path in
    out ← match query with
          | Some q => q' ← scrub_query q; mret (cleanPath ++s "?" ++s q')
          | None => mret cleanPath
          end;
    mret match hash with Some h => out ++s "#" ++s h | None => out end.

(** ** Events *)

Inductive Value : Type :=
| VString (s : string)
| VOther.

Definition scrubValue (v : Value) : result URIError Value :=
  match v with VString s => VString <$> scrubUrl s | VOther => Ok VOther end.

Definition URL_KEYS : list string :=
  ["url"; "from"; "to"; "http.url"; "http.query"; "url.full"; "url.path"; "http.target"; "path"].

Definition Data : Type := gmap string Value.

Definition scrub_key (out : Data) (key : string) : result URIError Data :=
  match out !! key with
  | Some v => v' ← scrubValue v; mret (<[key := v']> out)
  | None => Ok out
  end.

Fixpoint foldM {E A B} (f : A -> B -> result E A) (a : A) (l : list B) : result E A :=
  match l with [] => Ok a | x :: l' => a' ← f a x; foldM f a' l' end.

Definition scrubData (data : option Data) : result URIError (option Data) :=
  match data with
  | None => Ok None
  | Some d => Some <$> foldM scrub_key d URL_KEYS
  end.

(** [x ? scrubUrl(x) : x] *)
Definition scrub_opt (s : option string) : result URIError (option string) :=
  match s with Some s => Some <$> scrubUrl s | None => Ok None end.

Section events.
(** What the code copies without looking at it. *)
Context {Rest : Type}.

Record Breadcrumb := mkBreadcrumb { b_message : option string; b_data : option Data; b_rest : Rest }.
Record Request := mkRequest { q_url : option string; q_rest : Rest }.
Record Span := mkSpan { s_description : option string; s_data : option Data; s_rest : Rest }.
Record ErrorEvent := mkErrorEvent {
  e_request : option Request;
  e_breadcrumbs : option (list Breadcrumb);
  e_rest : Rest;
}.
(** [t_trace] is [contexts.trace.data] when there is such a context. *)
Record TransactionEvent := mkTransactionEvent {
  t_transaction : option string;
  t_request : option Request;
  t_breadcrumbs : option (list Breadcrumb);
  t_spans : option (list Span);
  t_trace : option (option Data);
  t_rest : Rest;
}.

Definition scrubBreadcrumb (crumb : Breadcrumb) : result URIError Breadcrumb :=
  message ← scrub_opt (b_message crumb);
  data ← scrubData (b_data crumb);
  mret (mkBreadcrumb message data (b_rest crumb)).

Definition scrub_request (r : option Request) : result URIError (option Request) :=
  match r with
  | Some q => if truthy_opt (q_url q) then url ← scrub_opt (q_url q); mret (Some (mkRequest url (q_rest q)))
              else mret (Some q)
  | None => mret None
  end.

Definition map_opt_list {A} (f : A -> result URIError A) (l : option (list A)) : result URIError (option (list A)) :=
  match l with Some l => Some <$> map_result f l | None => Ok None end.

Definition scrub_span (span : Span) : result URIError Span :=
  description ← scrub_opt (s_description span);
  data ← scrubData (s_data span);
  mret (mkSpan description data (s_rest span)).

Definition scrubTransaction (event : TransactionEvent) : result URIError TransactionEvent :=
  transaction ← scrub_opt (t_transaction event);
  request ← scrub_request (t_request event);
  breadcrumbs ← map_opt_list scrubBreadcrumb (t_breadcrumbs event);
  spans ← map_opt_list scrub_span (t_spans event);
  trace ← match t_trace event with Some d => Some <$> scrubData d | None => Ok None end;
  mret (mkTransactionEvent transaction request breadcrumbs spans trace (t_rest event)).

Definition scrubErrorEvent (event : ErrorEvent) : result URIError ErrorEvent :=
  request ← scrub_request (e_request event);
  breadcrumbs ← map_opt_list scrubBreadcrumb (e_breadcrumbs event);
  mret (mkErrorEvent request breadcrumbs (e_rest event)).

(** [createPrivacyHooks] *)
Definition beforeSend (consent : bool) (event : ErrorEvent) : result URIError (option ErrorEvent) :=
  if consent then Some <$> scrubErrorEvent event else Ok None.
Definition beforeSendTransaction (consent : bool) (event : TransactionEvent) : result URIError (option TransactionEvent) :=
  if consent then Some <$> scrubTransaction event else Ok None.
Definition beforeBreadcrumb (crumb : Breadcrumb) : result URIError Breadcrumb := scrubBreadcrumb crumb.

(** The payload of a recorded breadcrumb is scrubbed like a breadcrumb; [payload] is [None] when the
    recording event has no such payload. *)
Definition beforeAddRecordingEvent (tag : option string) (payload : option Breadcrumb) : result URIError (option Breadcrumb) :=
  match payload with
  | Some p => if bool_decide (tag = Some "breadcrumb") then Some <$> scrubBreadcrumb p else Ok (Some p)
  | None => Ok None
  end.
End events.

Definition tracesSampler (consent : bool) : Z := if consent then 1 else 0.

(** ** Session replay *)

(** [Math.random() < 0.1], the draw given in units of 10^-4. *)
Definition REPLAY_SESSION_SAMPLE_RATE_1e4 : Z := 1000.

Inductive ReplayCall : Set := AddIntegration | Start | Stop.

Record ReplaySync := mkReplaySync { replay : bool; replay_calls : list ReplayCall }.
Definition replay0 : ReplaySync := mkReplaySync false [].

(** The function [createReplayConsentSync] returns. *)
Definition syncReplay (consent : bool) (random : Z) (s : ReplaySync) : ReplaySync :=
  if consent then
    if negb (replay s) then mkReplaySync true (replay_calls s ++ [AddIntegration])
    else if random <? REPLAY_SESSION_SAMPLE_RATE_1e4 then mkReplaySync true (replay_calls s ++ [Start])
    else s
  else if replay s then mkReplaySync true (replay_calls s ++ [Stop]) else s.

(** [src/app/src/sentry.ts]: one call at startup and one per change of the consent. *)
Record SentryState := mkSentry { consent : bool; sync : ReplaySync }.

Definition sentry_init (c : bool) (random : Z) : SentryState := mkSentry c (syncReplay c random replay0).
Definition store_changed (s : SentryState) (ev : bool * Z) : SentryState :=
  mkSentry ev.1 (if negb (Bool.eqb ev.1 (consent s)) then syncReplay ev.1 ev.2 (sync s) else sync s).

(** ** The path, segment by segment *)

Definition replace_run (marker w : string) : string :=
  if starts_run w then marker ++s drop_run w else w.

(** Replace the run of every segment that follows a segment [name]. *)
Fixpoint walk (name marker : string) (prev : bool) (ws : list string) : list string :=
  match ws with
  | [] => []
  | w :: ws' =>
      let w' := if prev then replace_run marker w else w in
      w' :: walk name marker (bool_decide (toLowerCase w' = name)) ws'
  end.

(** The segment before the first slash names nothing. *)
Definition walk_path (name marker : string) (ws : list string) : list string :=
  match ws with w :: ws' => w :: walk name marker false ws' | [] => [] end.

Lemma lower_slash c : lower_char c = "/"%char -> c = "/"%char.
Proof. destruct c as [[] [] [] [] [] [] [] []]; vm_compute; congruence. Qed.

Lemma length_lower s : String.length (toLowerCase s) = String.length s.
Proof. unfold toLowerCase. induction s as [|c s IH]; cbn; congruence. Qed.

Lemma lower_app s t : toLowerCase (s ++s t) = toLowerCase s ++s toLowerCase t.
Proof. unfold toLowerCase. induction s as [|c s IH]; cbn; congruence. Qed.

Lemma lower_lacks w : lacks "/" w = true -> lacks "/" (toLowerCase w) = true.
Proof.
  unfold lacks, toLowerCase. induction w as [|c w IH]; cbn; [done|]. intros [Hc Hw]%andb_true_iff.
  apply andb_true_iff. split; [|by apply IH]. apply negb_true_iff, Ascii.eqb_neq. intros He.
  symmetry in He. apply lower_slash in He as ->. done.
Qed.

(** What follows a segment: nothing, or a slash and more segments. *)
Definition after (ws : list string) : string :=
  match ws with [] => "" | _ => "/" ++s join "/" ws end.

Lemma join_after w ws : join "/" (w :: ws) = w ++s after ws.
Proof. destruct ws; cbn; [by rewrite app_nil_r_s|done]. Qed.

Lemma drop_run_after w ws : lacks "/" w = true -> drop_run (w ++s after ws) = drop_run w ++s after ws.
Proof.
  unfold lacks. induction w as [|c w IH]; cbn; [by destruct ws|]. intros [_ Hw]%andb_true_iff.
  destruct (seg_char c); [by apply IH|done].
Qed.

Lemma starts_run_after w ws : starts_run (w ++s after ws) = starts_run w.
Proof. destruct w, ws; done. Qed.

Lemma drop_run_lacks w : lacks "/" w = true -> lacks "/" (drop_run w) = true.
Proof.
  unfold lacks. induction w as [|c w IH]; [done|]. intros Hw. cbn. destruct (seg_char c); [|done].
  cbn in Hw. apply andb_true_iff in Hw as [_ Hw]. auto.
Qed.

Section walk.
Context (name marker : string) (Hname : lacks "/" name = true)
  (Hmarker : forall w, toLowerCase (marker ++s w) <> name).

Lemma not_slash_no_match c s : c <> "/"%char -> matches_at name (String c s) = false.
Proof.
  intros Hc. unfold matches_at. change (toLowerCase (String c s)) with (String (lower_char c) (toLowerCase s)).
  unfold startsWith. cbn [String.append String.prefix].
  destruct (ascii_dec "/" (lower_char c)) as [He|]; [|done]. by destruct Hc; apply lower_slash.
Qed.

Lemma replace_copies w t fuel :
  lacks "/" w = true -> (String.length (w ++s t) <= fuel)%nat ->
  exists fuel', (String.length t <= fuel')%nat /\
    replace_from name marker fuel (w ++s t) = w ++s replace_from name marker fuel' t.
Proof.
  unfold lacks. revert fuel. induction w as [|c w IH]; intros fuel Hw Hf; cbn in *; [by exists fuel|].
  apply andb_true_iff in Hw as [Hc Hw]. apply negb_true_iff, Ascii.eqb_neq in Hc.
  destruct fuel as [|fuel]; [lia|]. cbn. rewrite not_slash_no_match by congruence.
  destruct (IH fuel Hw) as (f' & Hf' & ->); [lia|]. by exists f'.
Qed.

(** At a slash: a match is a segment [name] whose successor starts a run. *)
Lemma matches_at_segment w ws :
  lacks "/" w = true ->
  matches_at name ("/" ++s w ++s after ws) =
  bool_decide (toLowerCase w = name) && match ws with w' :: _ => starts_run w' | [] => false end.
Proof.
  intros Hw. unfold matches_at.
  assert (startsWith (toLowerCase ("/" ++s w ++s after ws)) ("/" ++s name ++s "/") =
    bool_decide (toLowerCase w = name) && match ws with [] => false | _ => true end) as ->.
  { rewrite !lower_app. change (toLowerCase "/") with "/".
    apply eq_bool_prop_intro. rewrite !Is_true_true, andb_true_iff, bool_decide_eq_true, startsWith_spec. split.
    - intros (t & Ht). cbn in Ht. injection Ht as Ht. rewrite app_assoc_s in Ht.
      pose proof (lower_lacks w Hw) as Hl. revert Ht Hl Hname. generalize (toLowerCase w). clear.
      intros v. unfold lacks. revert name. induction v as [|c v IH]; intros [|d n] Ht Hl Hn; cbn in *.
      + by destruct ws.
      + destruct ws; [done|]. cbn in Ht. injection Ht as <- _. done.
      + injection Ht as -> _. done.
      + injection Ht as -> Ht. apply andb_true_iff in Hl as [_ Hl]. apply andb_true_iff in Hn as [_ Hn].
        destruct (IH n Ht Hl Hn) as [-> ?]. done.
    - intros [<- Hws]. destruct ws as [|w' ws]; [done|]. exists (toLowerCase (join "/" (w' :: ws))).
      cbn [after]. rewrite lower_app. cbn. by rewrite !app_assoc_s. }
  case_bool_decide as He; [|done]. cbn [andb]. destruct ws as [|w' ws]; [done|]. cbn [andb].
  rewrite <- He, length_lower. replace (String.length w + 2)%nat with (S (String.length w + 1)) by lia.
  cbn [String.append str_drop]. rewrite str_drop_app. change (str_drop 1 (after (w' :: ws))) with (join "/" (w' :: ws)).
  by rewrite join_after, starts_run_after.
Qed.

Definition no_slash (w : string) : Prop := lacks "/" w = true.

Lemma length_drop_run s : (String.length (drop_run s) <= String.length s)%nat.
Proof. induction s as [|c s IH]; cbn; [lia|]. destruct (seg_char c); cbn; lia. Qed.

(** A match cuts the input into the segment with its slashes and the rest. *)
Lemma take_match w w' ws : str_take (String.length w + 2) (after (w :: w' :: ws)) = "/" ++s w ++s "/".
Proof.
  replace (String.length w + 2)%nat with (S (String.length w + 1)) by lia.
  cbn [after String.append str_take]. rewrite join_after, str_take_app.
  cbn [after String.append str_take]. by destruct (join "/" (w' :: ws)).
Qed.

Lemma drop_match w w' ws : str_drop (String.length w + 2) (after (w :: w' :: ws)) = w' ++s after ws.
Proof.
  replace (String.length w + 2)%nat with (S (String.length w + 1)) by lia.
  cbn [after String.append str_drop]. rewrite join_after, str_drop_app. cbn [after String.append str_drop].
  apply join_after.
Qed.

Lemma replace_step fuel w ws :
  no_slash w -> replace_from name marker (S fuel) (after (w :: ws)) =
  if bool_decide (toLowerCase w = name) && match ws with w' :: _ => starts_run w' | [] => false end then
    str_take (String.length w + 2) (after (w :: ws)) ++s marker ++s
    replace_from name marker fuel (drop_run (str_drop (String.length w + 2) (after (w :: ws))))
  else String "/" (replace_from name marker fuel (w ++s after ws)).
Proof.
  intros Hw. rewrite <- matches_at_segment by done. cbn [after String.append].
  cbn [replace_from]. rewrite join_after. destruct (matches_at name _) eqn:Hm; [|done].
  change (String "/" (w ++s after ws)) with ("/" ++s w ++s after ws) in Hm.
  rewrite matches_at_segment in Hm by done. apply andb_true_iff in Hm as [He _].
  apply bool_decide_eq_true in He.
  by assert (String.length name = String.length w) as -> by (by rewrite <- He, length_lower).
Qed.

(** From a slash on, the replacement is the walk with the segment kept. *)
Lemma replace_from_walk n : forall w ws fuel,
  (length ws <= n)%nat -> no_slash w -> Forall no_slash ws ->
  (String.length (after (w :: ws)) <= fuel)%nat ->
  replace_from name marker fuel (after (w :: ws)) =
  after (w :: walk name marker (bool_decide (toLowerCase w = name)) ws).
Proof.
  assert (forall n ws f', (length ws <= S n)%nat -> Forall no_slash ws ->
    (forall w ws fuel, (length ws <= n)%nat -> no_slash w -> Forall no_slash ws ->
      (String.length (after (w :: ws)) <= fuel)%nat ->
      replace_from name marker fuel (after (w :: ws)) =
      after (w :: walk name marker (bool_decide (toLowerCase w = name)) ws)) ->
    (String.length (after ws) <= f')%nat ->
    replace_from name marker f' (after ws) = after (walk name marker false ws)) as Htail.
  { intros m ws f' Hl Hws IH Hf. destruct ws as [|w ws]; [by destruct f'|].
    apply Forall_cons in Hws as [Hw Hws]. cbn in Hl. by rewrite IH by (first [done|lia]). }
  induction n as [|n IH]; intros w ws fuel Hn Hw Hws Hf;
    (destruct fuel as [|fuel]; [cbn in Hf; lia|]);
    assert (String.length (w ++s after ws) <= fuel)%nat as Hf1
      by (rewrite <- join_after; cbn [after String.append String.length] in Hf; lia);
    rewrite replace_step by done.
  - destruct ws; [|cbn in Hn; lia]. rewrite andb_false_r.
    destruct (replace_copies w (after []) fuel Hw Hf1) as (f' & _ & ->).
    destruct f'; cbn; by rewrite ?app_nil_r_s.
  - destruct (bool_decide (toLowerCase w = name) && _) eqn:Hm.
    + apply andb_true_iff in Hm as [-> Hrun]. destruct ws as [|w' ws]; [done|].
      apply Forall_cons in Hws as [Hw' Hws]. rewrite take_match, drop_match, drop_run_after by done.
      destruct (replace_copies (drop_run w') (after ws) fuel) as (f' & Hf' & ->); [by apply drop_run_lacks| |].
      { rewrite <- drop_run_after by done. pose proof (length_drop_run (w' ++s after ws)).
        revert Hf1. rewrite length_app_s. cbn [after String.append String.length]. rewrite join_after. lia. }
      cbn [length] in Hn. rewrite (Htail n ws f') by (first [done|lia]). cbn [walk]. unfold replace_run.
      rewrite Hrun, (bool_decide_eq_false_2 _ (Hmarker _)). cbn [after String.append].
      rewrite join_after. cbn [after String.append]. by rewrite join_after, !app_assoc_s.
    + destruct (replace_copies w (after ws) fuel Hw Hf1) as (f' & Hf' & ->).
      rewrite (Htail n ws f') by (first [done|lia]).
      cbn [after String.append]. rewrite join_after. do 3 f_equal.
      destruct ws as [|w' ws]; [done|]. cbn [walk]. destruct (bool_decide (toLowerCase w = name)); [|done].
      cbn [andb] in Hm. unfold replace_run. by rewrite Hm.
Qed.

Lemma replace_ids_walk s :
  replace_ids name marker s = join "/" (walk_path name marker (split s "/")).
Proof.
  unfold replace_ids. rewrite <- (join_split s "/") at 1 2.
  pose proof (split_on_pieces (Ascii.eqb "/") s) as Hp. unfold split.
  destruct (split_on (Ascii.eqb "/") s) as [|w ws] eqn:Hs; [by destruct (split_on_nonempty (Ascii.eqb "/") s)|].
  apply Forall_cons in Hp as [Hw Hws]. cbn [walk_path]. rewrite !join_after.
  destruct (replace_copies w (after ws) (String.length (w ++s after ws)) Hw) as (f' & Hf' & ->); [lia|].
  f_equal. destruct ws as [|w' ws]; [by destruct f'|]. apply Forall_cons in Hws as [Hw' Hws].
  by rewrite (replace_from_walk (length ws)).
Qed.
End walk.

(** ** What the walk guarantees *)

(** A segment after [name] has no run of its own: it has none, or the marker. *)
Definition masked (marker w : string) : Prop :=
  starts_run w = true -> exists rest, w = marker ++s rest /\ starts_run rest = false.

Definition hides (name marker : string) (ws : list string) : Prop :=
  forall i w w', ws !! S i = Some w -> ws !! S (S i) = Some w' -> toLowerCase w = name -> masked marker w'.

Lemma starts_drop_run w : starts_run (drop_run w) = false.
Proof. induction w as [|c w IH]; cbn; [done|]. by destruct (seg_char c) eqn:H. Qed.

Lemma replace_run_masked marker w : masked marker (replace_run marker w).
Proof.
  unfold replace_run, masked. destruct (starts_run w) eqn:H; [|congruence]. intros _.
  exists (drop_run w). split; [done|apply starts_drop_run].
Qed.

Lemma walk_lookup name marker prev ws i w' :
  walk name marker prev ws !! i = Some w' ->
  exists w, ws !! i = Some w /\
    (w' = w \/ w' = replace_run marker w /\
      match i with
      | O => prev = true
      | S j => exists u, walk name marker prev ws !! j = Some u /\ toLowerCase u = name
      end).
Proof.
  revert prev i. induction ws as [|w ws IH]; intros prev i; cbn [walk]; [done|]. destruct i as [|i]; cbn.
  - intros [= <-]. exists w. split; [done|]. destruct prev; auto.
  - intros (v & Hv & Hor)%IH. exists v. split; [done|]. destruct Hor as [?|[Hr Hi]]; [by left|]. right.
    split; [done|]. destruct i as [|i]; [|exact Hi]. apply bool_decide_eq_true in Hi. eauto.
Qed.

Lemma walk_masks name marker prev ws i u w' :
  walk name marker prev ws !! i = Some u -> walk name marker prev ws !! S i = Some w' ->
  toLowerCase u = name -> masked marker w'.
Proof.
  revert prev i. induction ws as [|w ws IH]; intros prev i; cbn [walk]; [done|].
  destruct i as [|i]; cbn; [|by apply IH]. intros [= <-] Hw' He. rewrite (bool_decide_eq_true_2 _ He) in Hw'.
  destruct ws as [|v ws]; [done|]. injection Hw' as <-. apply replace_run_masked.
Qed.

Lemma walk_path_hides name marker ws : hides name marker (walk_path name marker ws).
Proof. intros i w w'. destruct ws as [|w0 ws]; [done|]. cbn. apply walk_masks. Qed.

(** Masking another name keeps what is masked. *)
Lemma walk_path_keeps name marker name2 marker2 ws :
  name <> name2 -> (forall w, toLowerCase (marker2 ++s w) <> name) ->
  hides name marker ws -> hides name marker (walk_path name2 marker2 ws).
Proof.
  intros Hne Hm Hh i w w' Hw Hw' He. destruct ws as [|w0 ws]; [done|].
  change (walk name2 marker2 false ws !! i = Some w) in Hw.
  change (walk name2 marker2 false ws !! S i = Some w') in Hw'.
  apply walk_lookup in Hw' as (v' & Hv' & Hor').
  destruct Hor' as [->|[_ (u & Hu & Hu2)]]; [|rewrite Hw in Hu; congruence].
  apply walk_lookup in Hw as (v & Hv & Hor). apply (Hh i v v'); [done..|].
  destruct Hor as [->|[-> _]]; [done|]. unfold replace_run in He.
  destruct (starts_run v); [by destruct (Hm (drop_run v))|done].
Qed.

Lemma walk_no_slash name marker prev ws :
  no_slash marker -> Forall no_slash ws -> Forall no_slash (walk name marker prev ws).
Proof.
  intros Hm Hws. revert prev. induction Hws as [|w ws Hw Hws IH]; intros prev; cbn [walk]; constructor; [|done].
  destruct prev; [|done]. unfold replace_run. destruct (starts_run w); [|done].
  unfold no_slash, lacks in *. rewrite str_all_app, Hm. by apply drop_run_lacks.
Qed.

(** A list that hides a name is not changed by masking it again. *)
Lemma walk_hidden name marker prev ws :
  str_all seg_char marker = true ->
  (prev = true -> forall w, head ws = Some w -> masked marker w) ->
  (forall i w w', ws !! i = Some w -> ws !! S i = Some w' -> toLowerCase w = name -> masked marker w') ->
  walk name marker prev ws = ws.
Proof.
  intros Hm. assert (forall w, masked marker w -> replace_run marker w = w) as Hid.
  { intros w Hw. unfold replace_run. destruct (starts_run w) eqn:Hr; [|done].
    destruct (Hw Hr) as (rest & -> & Hrest). f_equal. clear Hw Hr. induction marker as [|c m IH]; cbn in *.
    - destruct rest as [|c rest]; [done|]. cbn in *. by rewrite Hrest.
    - apply andb_true_iff in Hm as [-> Hm]. by apply IH. }
  revert prev. induction ws as [|w ws IH]; intros prev Hhd Hh; [done|]. cbn [walk].
  assert ((if prev then replace_run marker w else w) = w) as ->.
  { destruct prev; [|done]. apply Hid. by apply Hhd. }
  f_equal. apply IH.
  - intros He%bool_decide_eq_true w' Hw'. apply (Hh 0%nat w w'); [done| |done]. by destruct ws.
  - intros i. apply (Hh (S i)).
Qed.

Definition id_segments : list (string * string) :=
  [("profiles", ":profile_id"); ("devices", ":device_id"); ("dns-query", ":profile_id")].

Lemma colon_differs m n w :
  match n with String c _ => c <> ":"%char | EmptyString => True end -> n <> "" ->
  toLowerCase (String ":" m ++s w) <> n.
Proof. intros Hn Hne He. destruct n as [|c n]; [done|]. injection He as <- _. by apply Hn. Qed.

Ltac marker_side := first
  [ reflexivity
  | let w := fresh in intros w; apply colon_differs; [discriminate|discriminate]
  | discriminate ].

Definition clean_segments (ws : list string) : list string :=
  walk_path "dns-query" ":profile_id" (walk_path "devices" ":device_id" (walk_path "profiles" ":profile_id" ws)).

Lemma split_nonempty s c : split s c <> [].
Proof. apply split_on_nonempty. Qed.

Lemma split_lacks s c : Forall (fun w => lacks c w = true) (split s c).
Proof. apply (split_on_pieces (Ascii.eqb c)). Qed.

Lemma walk_path_nonempty name marker ws : ws <> [] -> walk_path name marker ws <> [].
Proof. by destruct ws. Qed.

Lemma walk_path_no_slash name marker ws :
  no_slash marker -> Forall no_slash ws -> Forall no_slash (walk_path name marker ws).
Proof. intros Hm Hws. destruct Hws; cbn; constructor; [done|]. by apply walk_no_slash. Qed.

Lemma split_join_segments ws : ws <> [] -> Forall no_slash ws -> split (join "/" ws) "/" = ws.
Proof. apply split_join. Qed.

Lemma clean_path_segments path : split (clean_path path) "/" = clean_segments (split path "/").
Proof.
  unfold clean_path, clean_segments. pose proof (split_nonempty path "/") as Hne. pose proof (split_lacks path "/") as Hws.
  change (Forall no_slash (split path "/")) in Hws. revert Hne Hws.
  do 3 (rewrite replace_ids_walk by marker_side).
  generalize (split path "/"). intros ws Hne Hws.
  assert (forall name marker l, no_slash marker -> l <> [] -> Forall no_slash l ->
    split (join "/" (walk_path name marker l)) "/" = walk_path name marker l) as Hsj.
  { intros. apply split_join_segments; [by apply walk_path_nonempty|by apply walk_path_no_slash]. }
  rewrite (Hsj "profiles"), (Hsj "devices"), (Hsj "dns-query");
    repeat first [done | apply walk_path_nonempty | apply walk_path_no_slash].
Qed.

Lemma clean_segments_hide ws p : p ∈ id_segments -> hides p.1 p.2 (clean_segments ws).
Proof.
  intros Hp. unfold clean_segments.
  repeat (apply elem_of_cons in Hp as [->|Hp]); [..|by apply elem_of_nil in Hp]; cbn [fst snd].
  - do 2 (apply walk_path_keeps; [marker_side..|]). apply walk_path_hides.
  - apply walk_path_keeps; [marker_side..|]. apply walk_path_hides.
  - apply walk_path_hides.
Qed.

(** Each segment is the one it was, or follows a segment of [names] and lost its run to the marker. *)
Definition only_masked (names : list (string * string)) (ws ws' : list string) : Prop :=
  forall i w', ws' !! i = Some w' -> exists w, ws !! i = Some w /\
    (w' = w \/ exists p j u, p ∈ names /\ i = S (S j) /\ ws !! S j = Some u /\ toLowerCase u = p.1 /\
      w' = replace_run p.2 w).

Lemma walk_path_lookup name marker ws i w' :
  walk_path name marker ws !! i = Some w' ->
  exists w, ws !! i = Some w /\
    (w' = w \/ w' = replace_run marker w /\
      exists j u, i = S (S j) /\ walk_path name marker ws !! S j = Some u /\ toLowerCase u = name).
Proof.
  destruct ws as [|w0 ws]; [done|]. destruct i as [|i]; cbn; [intros [= <-]; eauto|].
  intros (w & Hw & Hor)%walk_lookup. exists w. split; [done|]. destruct Hor as [?|[Hr Hi]]; [by left|].
  right. split; [done|]. destruct i as [|i]; [done|]. destruct Hi as (u & Hu & Hn). by exists i, u.
Qed.

Lemma only_masked_nil ws : only_masked [] ws ws.
Proof. intros i w Hw. exists w. auto. Qed.

(** A masked segment is none of the names. *)
Lemma unmasked_name (names : list (string * string)) p w n :
  Forall (fun q => forall w, toLowerCase (q.2 ++s w) <> n) names -> p ∈ names ->
  toLowerCase (replace_run p.2 w) = n -> replace_run p.2 w = w.
Proof.
  rewrite Forall_forall. intros Hn Hp. unfold replace_run. destruct (starts_run w); [|done].
  intros He. by destruct (Hn p Hp (drop_run w)).
Qed.

Lemma only_masked_walk names q ws ws' :
  q.1 ∉ names.*1 -> Forall (fun p => forall w, toLowerCase (p.2 ++s w) <> q.1) (q :: names) ->
  only_masked names ws ws' -> only_masked (names ++ [q]) ws (walk_path q.1 q.2 ws').
Proof.
  intros Hq Hm Ho i w'' Hw''.
  destruct (walk_path_lookup _ _ _ _ _ Hw'') as (w' & Hw' & Hor). destruct (Ho i w' Hw') as (w & Hw & Hor').
  exists w. split; [done|]. destruct Hor as [->|(-> & j & u & -> & Hu & Hn)].
  - destruct Hor' as [?|(p & j & u & Hp & Hrest)]; [by left|]. right. exists p, j, u.
    split; [apply elem_of_app; by left|done].
  - right. destruct (walk_path_lookup _ _ _ _ _ Hu) as (u' & Hu' & Hou).
    assert (u = u') as ->.
    { destruct Hou as [?|[-> _]]; [done|].
      apply (unmasked_name (q :: names) q u' q.1 Hm); [by left|done]. }
    destruct (Ho (S j) u' Hu') as (v & Hv & Hov).
    assert (u' = v) as ->.
    { destruct Hov as [?|(p & k & x & Hp & _ & _ & _ & ->)]; [done|].
      apply (unmasked_name (q :: names) p v q.1 Hm); [by right|done]. }
    exists q, j, v. split; [apply elem_of_app; right; by left|]. do 3 (split; [done|]).
    destruct Hor' as [->|(p & k & x & Hp & [= <-] & Hx & Hxn & _)]; [done|]. exfalso. apply Hq.
    rewrite Hv in Hx. injection Hx as <-. apply list_elem_of_fmap. exists p. split; congruence.
Qed.

Lemma walk_length name marker prev ws : length (walk name marker prev ws) = length ws.
Proof. revert prev. induction ws as [|w ws IH]; intros prev; cbn; auto. Qed.

Lemma walk_path_length name marker ws : length (walk_path name marker ws) = length ws.
Proof. destruct ws; cbn; [done|]. by rewrite walk_length. Qed.

Lemma clean_segments_only_masked ws : only_masked id_segments ws (clean_segments ws).
Proof.
  assert (Forall (fun q => Forall (fun p => forall w, toLowerCase (p.2 ++s w) <> q.1) id_segments) id_segments)
    as Hm by (repeat constructor; marker_side).
  unfold id_segments in *. rewrite !Forall_cons in Hm. destruct Hm as ([H1 _] & (H4 & H5 & _) & (H7 & H8 & H9 & _) & _).
  apply (only_masked_walk [("profiles", ":profile_id"); ("devices", ":device_id")] ("dns-query", ":profile_id"));
    [vm_compute; set_solver|by repeat constructor|].
  apply (only_masked_walk [("profiles", ":profile_id")] ("devices", ":device_id"));
    [vm_compute; set_solver|by repeat constructor|].
  apply (only_masked_walk [] ("profiles", ":profile_id")); [vm_compute; set_solver|by repeat constructor|].
  apply only_masked_nil.
Qed.

(** C37: a scrubbed path keeps its number of segments; in the segment after one named profiles,
    devices or dns-query, in any case, that itself follows a slash, the text up to the first blank,
    question mark or hash is the placeholder or nothing, and the rest stays; every other segment is
    as it was, so a device name after the profile of a dns-query path is not hidden *)
Theorem clean_path_hides path name marker :
  (name, marker) ∈ id_segments ->
  let before := split path "/" in
  let after := split (clean_path path) "/" in
  length after = length before /\
  (forall i u w, after !! S i = Some u -> toLowerCase u = name -> after !! S (S i) = Some w ->
    exists rest, (w = rest \/ w = marker ++s rest) /\ starts_run rest = false) /\
  (forall i w w', before !! i = Some w -> after !! i = Some w' -> w' <> w ->
    exists p j u, p ∈ id_segments /\ i = S (S j) /\ before !! S j = Some u /\ toLowerCase u = p.1 /\
      w' = p.2 ++s drop_run w).
Proof.
  intros Hp before after. subst before after. rewrite clean_path_segments. split; [|split].
  - unfold clean_segments. by rewrite !walk_path_length.
  - intros i u w Hu Hn Hw. pose proof (clean_segments_hide (split path "/") (name, marker) Hp i u w Hu Hw Hn) as Hmask.
    destruct (starts_run w) eqn:Hr; [|by exists w; auto]. destruct (Hmask Hr) as (rest & -> & ?). eauto.
  - intros i w w' Hw Hw' Hne. destruct (clean_segments_only_masked _ i w' Hw') as (v & Hv & Hor).
    rewrite Hw in Hv. injection Hv as <-. destruct Hor as [?|(p & j & u & Hin & Hi & Hu & Hn & ->)]; [done|].
    exists p, j, u. do 4 (split; [done|]). revert Hne. unfold replace_run. by destruct (starts_run w).
Qed.

Lemma walk_path_hidden name marker ws :
  str_all seg_char marker = true -> hides name marker ws -> walk_path name marker ws = ws.
Proof.
  intros Hm Hh. destruct ws as [|w ws]; [done|]. cbn. f_equal. apply walk_hidden; [done|done|].
  intros i u u'. apply (Hh i).
Qed.

Lemma clean_path_again path : clean_path (clean_path path) = clean_path path.
Proof.
  rewrite <- (join_split (clean_path (clean_path path)) "/"), !clean_path_segments.
  assert (forall ws, clean_segments (clean_segments ws) = clean_segments ws) as ->.
  { intros ws. pose proof (clean_segments_hide ws) as Hh. unfold clean_segments at 1.
    rewrite (walk_path_hidden "profiles"); [|done|by apply (Hh ("profiles", ":profile_id")); left].
    rewrite (walk_path_hidden "devices"); [|done|by apply (Hh ("devices", ":device_id")); right; left].
    rewrite (walk_path_hidden "dns-query"); [done|done|].
    apply (Hh ("dns-query", ":profile_id")). do 2 right. by left. }
  rewrite <- clean_path_segments. apply join_split.
Qed.

(** ** The parts of a URL *)

Lemma split2_none c s : lacks c s = true -> split2 c s = (s, None).
Proof. intros Hs. unfold split2, split. by rewrite split_on_none. Qed.

Lemma split2_some c k v : lacks c k = true -> lacks c v = true -> split2 c (k ++s String c v) = (k, Some v).
Proof.
  intros Hk Hv. unfold split2, split. rewrite split_on_app by (first [done|apply Ascii.eqb_refl]).
  by rewrite split_on_none.
Qed.

Lemma split2_lacks c s k v :
  split2 c s = (k, v) -> lacks c k = true /\ match v with Some v => lacks c v = true | None => k = s end.
Proof.
  unfold split2. pose proof (split_lacks s c) as Hl. pose proof (join_split s c) as Hj.
  destruct (split s c) as [|w [|w' ws]]; [by intros [= <- <-]; cbn in *| |]; intros [= <- <-];
    apply Forall_cons in Hl as [? Hl]; split; try done.
  by apply Forall_cons in Hl as [? _].
Qed.

(** The pieces also lack whatever the whole lacks. *)
Lemma split_keeps p c s : str_all p s = true -> Forall (fun w => str_all p w = true) (split s c).
Proof.
  unfold split. induction s as [|d s IH]; cbn; [by repeat constructor|]. intros [Hd Hs]%andb_true_iff.
  specialize (IH Hs). destruct (split_on (Ascii.eqb c) s) as [|w ws]; [by repeat constructor; cbn; rewrite Hd|].
  apply Forall_cons in IH as [Hw Hws]. destruct (Ascii.eqb c d); repeat constructor; try done. cbn. by rewrite Hd.
Qed.

Lemma split2_keeps p c s k v :
  str_all p s = true -> split2 c s = (k, v) ->
  str_all p k = true /\ match v with Some v => str_all p v = true | None => True end.
Proof.
  intros Hp. unfold split2. pose proof (split_keeps p c s Hp) as Hl.
  destruct (split s c) as [|w [|w' ws]]; intros [= <- <-]; [done|by apply Forall_cons in Hl as [? _]|].
  apply Forall_cons in Hl as [? Hl]. by apply Forall_cons in Hl as [? _].
Qed.

Lemma str_all_take p n s : str_all p s = true -> str_all p (str_take n s) = true.
Proof.
  revert n. induction s as [|c s IH]; intros [|n]; cbn; try done. intros [-> Hs]%andb_true_iff. by apply IH.
Qed.

Lemma str_all_drop p n s : str_all p s = true -> str_all p (str_drop n s) = true.
Proof. revert n. induction s as [|c s IH]; intros [|n]; cbn; try done. intros [_ Hs]%andb_true_iff. by apply IH. Qed.

Lemma str_all_drop_run p s : str_all p s = true -> str_all p (drop_run s) = true.
Proof.
  induction s as [|c s IH]; [done|]. intros Hs. cbn. destruct (seg_char c); [|done].
  cbn in Hs. apply andb_true_iff in Hs as [_ Hs]. by apply IH.
Qed.

Lemma replace_from_keeps p name marker fuel s :
  str_all p marker = true -> str_all p s = true -> str_all p (replace_from name marker fuel s) = true.
Proof.
  intros Hm. revert s. induction fuel as [|fuel IH]; intros s Hs; [done|]. destruct s as [|c s]; [done|].
  cbn [replace_from]. destruct (matches_at _ _).
  - rewrite !str_all_app, Hm, str_all_take by done. cbn [andb]. apply IH. by apply str_all_drop_run, str_all_drop.
  - cbn in *. apply andb_true_iff in Hs as [-> Hs]. by apply IH.
Qed.

Lemma clean_path_keeps p path :
  str_all p ":profile_id" = true -> str_all p ":device_id" = true ->
  str_all p path = true -> str_all p (clean_path path) = true.
Proof. intros. unfold clean_path, replace_ids. by repeat apply replace_from_keeps. Qed.

(** ** Query parameters *)

Lemma scrub_pair_again pair out : scrub_pair pair = Ok out -> scrub_pair out = Ok out.
Proof.
  unfold scrub_pair. destruct (split2 "=" pair) as [k v] eqn:Hs. destruct v as [v|].
  - destruct (decodeURIComponent k) as [d|e] eqn:Hd; cbn; [|done]. destruct (is_id_param d) eqn:Hi; intros [= <-].
    + apply split2_lacks in Hs as [Hk _]. change (k ++s "=" ++s FILTERED) with (k ++s String "=" FILTERED).
      rewrite split2_some by done. rewrite Hd. cbn. by rewrite Hi.
    + rewrite Hs, Hd. cbn. by rewrite Hi.
  - intros [= <-]. by rewrite Hs.
Qed.

Lemma scrub_pair_keeps p pair out :
  str_all p "=[Filtered]" = true -> str_all p pair = true -> scrub_pair pair = Ok out -> str_all p out = true.
Proof.
  intros Hf Hp. unfold scrub_pair. destruct (split2 "=" pair) as [k v] eqn:Hs. destruct v as [v|].
  - destruct (decodeURIComponent k) as [d|e]; cbn; [|done]. destruct (is_id_param d); intros [= <-]; [|done].
    apply (split2_keeps p) in Hs as [Hk _]; [|done]. rewrite str_all_app, Hk. exact Hf.
  - by intros [= <-].
Qed.

Lemma map_result_Ok {E A B} (f : A -> result E B) l out :
  map_result f l = Ok out <-> Forall2 (fun x y => f x = Ok y) l out.
Proof.
  revert out. induction l as [|x l IH]; intros out; cbn.
  - split; [intros [= <-]; constructor|by inversion 1].
  - split.
    + destruct (f x) as [y|e] eqn:Hf; cbn; [|done]. destruct (map_result f l) as [ys|e]; cbn; [|done].
      intros [= <-]. constructor; [done|]. by apply IH.
    + inversion 1 as [|? y ? ys Hf Hl]; subst. rewrite Hf. cbn. apply IH in Hl. by rewrite Hl.
Qed.

Lemma scrub_query_Ok q q' :
  scrub_query q = Ok q' ->
  split q' "&" <> [] /\ map_result scrub_pair (split q "&") = Ok (split q' "&") /\
  Forall (fun pair => scrub_pair pair = Ok pair) (split q' "&").
Proof.
  unfold scrub_query. destruct (map_result scrub_pair (split q "&")) as [ps|e] eqn:Hm; [|done].
  intros [= <-]. apply map_result_Ok in Hm.
  assert (split (join "&" ps) "&" = ps) as Hsj.
  { apply split_join.
    - intros ->. apply Forall2_nil_inv_r in Hm. by apply (split_nonempty q "&").
    - pose proof (split_lacks q "&") as Hl. clear -Hm Hl. induction Hm as [|x y l l' Hxy Hm IH]; [constructor|].
      apply Forall_cons in Hl as [Hx Hl]. constructor; [|by apply IH]. by apply (scrub_pair_keeps _ x y). }
  rewrite Hsj. split; [|split].
  - intros ->. apply Forall2_nil_inv_r in Hm. by apply (split_nonempty q "&").
  - done.
  - clear Hsj. induction Hm as [|x y l l' Hxy Hm IH]; constructor; [|done]. by apply (scrub_pair_again x).
Qed.

Lemma scrub_query_again q q' : scrub_query q = Ok q' -> scrub_query q' = Ok q'.
Proof.
  intros (_ & _ & Hf)%scrub_query_Ok. unfold scrub_query.
  assert (map_result scrub_pair (split q' "&") = Ok (split q' "&")) as ->.
  { apply map_result_Ok. induction Hf; by constructor. }
  cbn. f_equal. apply (join_split q' "&").
Qed.

Lemma scrub_query_keeps p q q' :
  str_all p "=[Filtered]" = true -> str_all p "&" = true -> str_all p q = true ->
  scrub_query q = Ok q' -> str_all p q' = true.
Proof.
  intros Hf Ha Hq (_ & Hm & _)%scrub_query_Ok. apply map_result_Ok in Hm.
  rewrite <- (join_split q' "&"). pose proof (split_keeps p "&" q Hq) as Hl. revert Hl Hm.
  generalize (split q "&"), (split q' "&"). intros l l' Hl Hm.
  induction Hm as [|x y l l' Hxy Hm IH]; [done|]. apply Forall_cons in Hl as [Hx Hl].
  assert (str_all p y = true) as Hy by (by apply (scrub_pair_keeps _ x y)).
  destruct l' as [|y' l']; [done|]. cbn [join]. rewrite !str_all_app, Hy. cbn [andb].
  cbn in Ha |- *. apply andb_true_iff in Ha as [-> _]. cbn [andb]. by apply IH.
Qed.

(** ** URLs *)

Definition assemble (path : string) (query hash : option string) : string :=
  (match query with Some q => path ++s "?" ++s q | None => path end)
  ++s match hash with Some h => "#" ++s h | None => "" end.

Definition split_url (url : string) : string * option string * option string :=
  let '(beforeHash, hash) := split2 "#" url in
  let '(path, query) := split2 "?" beforeHash in (path, query, hash).

Definition opt_lacks (c : ascii) (s : option string) : bool := match s with Some s => lacks c s | None => true end.

Lemma split_assemble path query hash :
  lacks "#" path = true -> lacks "?" path = true -> opt_lacks "#" query = true -> opt_lacks "?" query = true ->
  opt_lacks "#" hash = true -> split_url (assemble path query hash) = (path, query, hash).
Proof.
  intros Hp1 Hp2 Hq1 Hq2 Hh. unfold split_url, assemble.
  set (bh := match query with Some q => path ++s "?" ++s q | None => path end).
  assert (lacks "#" bh = true) as Hbh.
  { subst bh. destruct query as [q|]; [|done]. unfold lacks in *. rewrite !str_all_app, Hp1. exact Hq1. }
  assert (split2 "?" bh = (path, query)) as Hb.
  { subst bh. destruct query as [q|]; [by apply split2_some|by apply split2_none]. }
  destruct hash as [h|].
  - change (bh ++s "#" ++s h) with (bh ++s String "#" h). rewrite split2_some by done. by rewrite Hb.
  - rewrite app_nil_r_s, split2_none by done. by rewrite Hb.
Qed.

Lemma split_url_lacks url path query hash :
  split_url url = (path, query, hash) ->
  lacks "#" path = true /\ lacks "?" path = true /\ opt_lacks "#" query = true /\ opt_lacks "?" query = true /\
  opt_lacks "#" hash = true.
Proof.
  unfold split_url. destruct (split2 "#" url) as [bh h] eqn:H1. destruct (split2 "?" bh) as [p q] eqn:H2.
  intros [= -> -> ->]. apply split2_lacks in H1 as [Hb Hh]. destruct (split2_keeps _ _ _ _ _ Hb H2) as [Hp1 Hq1].
  apply split2_lacks in H2 as [Hp2 Hq2]. split; [done|]. split; [done|].
  split; [by destruct query|]. split; [by destruct query|]. by destruct hash.
Qed.

(** Scrubbing works on the parts and leaves the fragment alone. *)
Lemma scrubUrl_parts url path query hash :
  url <> "" -> split_url url = (path, query, hash) ->
  scrubUrl url =
  match query with
  | Some q => (fun q' => assemble (clean_path path) (Some q') hash) <$> scrub_query q
  | None => Ok (assemble (clean_path path) None hash)
  end.
Proof.
  intros Hne. unfold scrubUrl, split_url, assemble. rewrite (proj2 (truthy_spec url)) by done. cbn [negb].
  destruct (split2 "#" url) as [bh h]. destruct (split2 "?" bh) as [p q]. intros [= -> -> ->].
  destruct query as [q|]; cbn; [destruct (scrub_query q); cbn; [|done]|]; f_equal;
    destruct hash; rewrite ?app_nil_r_s; done.
Qed.

Lemma scrubUrl_Ok url out path query hash :
  url <> "" -> split_url url = (path, query, hash) -> scrubUrl url = Ok out ->
  exists query', split_url out = (clean_path path, query', hash) /\ out = assemble (clean_path path) query' hash /\
    match query, query' with
    | Some q, Some q' => scrub_query q = Ok q'
    | None, None => True
    | _, _ => False
    end.
Proof.
  intros Hne Hs Ho. destruct (split_url_lacks _ _ _ _ Hs) as (Hp1 & Hp2 & Hq1 & Hq2 & Hh).
  rewrite (scrubUrl_parts url path query hash Hne Hs) in Ho. destruct query as [q|].
  - destruct (scrub_query q) as [q'|] eqn:Hq; [|done]. injection Ho as <-. exists (Some q').
    split; [|done]. apply split_assemble; try done; try (by apply clean_path_keeps).
    + by apply (scrub_query_keeps _ q).
    + by apply (scrub_query_keeps _ q).
  - injection Ho as <-. exists None. split; [|done]. apply split_assemble; try done; by apply clean_path_keeps.
Qed.

Theorem scrubUrl_hides_parameters url out path query hash pair k v d :
  scrubUrl url = Ok out -> split_url out = (path, Some query, hash) ->
  pair ∈ split query "&" -> split2 "=" pair = (k, Some v) ->
  decodeURIComponent k = Ok d -> is_id_param d = true -> v = FILTERED.
Proof.
  intros Ho Hs Hin Hkv Hd Hi. destruct (decide (url = "")) as [->|Hne].
  { injection Ho as <-. discriminate Hs. }
  destruct (split_url url) as [[p q] h] eqn:Hu.
  destruct (scrubUrl_Ok url out p q h Hne Hu Ho) as (q' & Hs' & _ & Hq).
  rewrite Hs in Hs'. injection Hs' as -> <- ->. destruct q as [q|]; [|done].
  apply scrub_query_Ok in Hq as (_ & _ & Hall). rewrite Forall_forall in Hall. specialize (Hall pair Hin).
  unfold scrub_pair in Hall. rewrite Hkv, Hd in Hall. cbn in Hall. rewrite Hi in Hall. injection Hall as Hall.
  change (k ++s "=" ++s FILTERED) with (k ++s String "=" FILTERED) in Hall.
  destruct (split2_lacks _ _ _ _ Hkv) as [Hk _].
  rewrite <- Hall, split2_some in Hkv by done. by injection Hkv.
Qed.

Theorem scrubUrl_idempotent url out : scrubUrl url = Ok out -> scrubUrl out = Ok out.
Proof.
  intros Ho. destruct (decide (url = "")) as [->|Hne]; [by injection Ho as <-|].
  destruct (decide (out = "")) as [->|Hne']; [done|].
  destruct (split_url url) as [[p q] h] eqn:Hu.
  destruct (scrubUrl_Ok url out p q h Hne Hu Ho) as (q' & Hs' & Ha & Hq).
  rewrite (scrubUrl_parts out _ _ _ Hne' Hs'), clean_path_again.
  destruct q as [q|], q' as [q'|]; try done; [|by rewrite <- Ha].
  rewrite (scrub_query_again q q' Hq). cbn [fmap result_fmap]. by rewrite <- Ha.
Qed.

Theorem scrubUrl_keeps_fragment url out path query hash :
  url <> "" -> split_url url = (path, query, hash) -> scrubUrl url = Ok out ->
  exists query', split_url out = (clean_path path, query', hash).
Proof. intros Hne Hs Ho. destruct (scrubUrl_Ok url out path query hash Hne Hs Ho) as (q' & ? & _). eauto. Qed.

Theorem malformed_parameter_throws {Rest} path k v (rest : Rest) :
  path <> "" -> lacks "#" path = true -> lacks "?" path = true ->
  lacks "#" (k ++s "=" ++s v) = true -> lacks "?" (k ++s "=" ++s v) = true ->
  lacks "&" (k ++s "=" ++s v) = true -> lacks "=" k = true -> lacks "=" v = true ->
  decodeURIComponent k = Throw malformed_URI ->
  beforeBreadcrumb (mkBreadcrumb (Some (path ++s "?" ++s k ++s "=" ++s v)) None rest) = Throw malformed_URI.
Proof.
  intros Hne H1 H2 H3 H4 H5 H6 H7 Hd. unfold beforeBreadcrumb, scrubBreadcrumb. cbn [b_message scrub_opt].
  assert (scrubUrl (path ++s "?" ++s k ++s "=" ++s v) = Throw malformed_URI) as ->; [|done].
  rewrite (scrubUrl_parts _ path (Some (k ++s "=" ++s v)) None).
  - assert (scrub_query (k ++s "=" ++s v) = Throw malformed_URI) as ->; [|done]. unfold scrub_query, split.
    rewrite (split_on_none (Ascii.eqb "&")) by exact H5. cbn [map_result]. unfold scrub_pair.
    change (k ++s "=" ++s v) with (k ++s String "=" v). rewrite split2_some by done. by rewrite Hd.
  - by destruct path.
  - rewrite <- (split_assemble path (Some (k ++s "=" ++s v)) None) by done. unfold assemble. by rewrite app_nil_r_s.
Qed.

(** ** Consent *)

(** Whether the page records: the last thing the replay integration was told, if it was added. *)
Definition recording_told (s : ReplaySync) : bool :=
  match last (replay_calls s) with Some Stop | None => false | Some _ => true end.

#[export] Instance ReplayCall_eq_dec : EqDecision ReplayCall.
Proof. solve_decision. Defined.

(** The integration is the first thing added and the only one; nothing is told before it. *)
Definition sync_ok (s : ReplaySync) : Prop :=
  match replay_calls s with
  | [] => replay s = false
  | c :: cs => replay s = true /\ c = AddIntegration /\ AddIntegration ∉ cs
  end.

Lemma syncReplay_ok consent random s : sync_ok s -> sync_ok (syncReplay consent random s).
Proof.
  destruct s as [r [|c cs]]; unfold sync_ok; cbn.
  - intros ->. unfold syncReplay. destruct consent; cbn; [|done]. split; [done|]. split; [done|]. apply not_elem_of_nil.
  - intros (-> & -> & Hc). unfold syncReplay. destruct consent; cbn [replay negb];
      [destruct (_ <? _); cbn|cbn]; (split; [done|]); (split; [done|]); try done;
      intros [?|?%list_elem_of_singleton]%elem_of_app; done.
Qed.

Lemma syncReplay_revoked random s : sync_ok s -> recording_told (syncReplay false random s) = false.
Proof.
  destruct s as [r cs]. unfold sync_ok, syncReplay, recording_told. cbn. destruct cs as [|c cs].
  - by intros ->.
  - intros (-> & _). cbn [replay_calls]. by rewrite last_snoc.
Qed.

Theorem replay_follows_consent c0 random0 (changes : list (bool * Z)) :
  let s := run store_changed (sentry_init c0 random0) changes in
  (consent s = false -> recording_told (sync s) = false) /\
  (count_occ ReplayCall_eq_dec (replay_calls (sync s)) AddIntegration <= 1)%nat /\
  (Forall (fun c => c.1 = false) changes -> c0 = false -> replay_calls (sync s) = []).
Proof.
  assert (forall s e, (sync_ok (sync s) /\ (consent s = false -> recording_told (sync s) = false)) ->
    (sync_ok (sync (store_changed s e)) /\ (consent (store_changed s e) = false -> recording_told (sync (store_changed s e)) = false)))
    as Hstep.
  { intros [c sy] [c' r] [Hok Hrec]. unfold store_changed. cbn in *. destruct (Bool.eqb c' c) eqn:He; cbn [negb].
    - apply Bool.eqb_prop in He as ->. done.
    - split; [by apply syncReplay_ok|]. intros ->. by apply syncReplay_revoked. }
  intros s. destruct (run_invariant store_changed _ Hstep changes (sentry_init c0 random0)) as [Hok Hrec].
  { split; [by apply syncReplay_ok|]. cbn. intros ->. done. }
  fold s in Hok, Hrec. split; [done|]. split.
  - unfold sync_ok in Hok. destruct (replay_calls (sync s)) as [|c cs]; [cbn; lia|].
    destruct Hok as (_ & -> & Hc). rewrite count_occ_cons_eq by done.
    rewrite (proj1 (count_occ_not_In ReplayCall_eq_dec cs AddIntegration)); [done|].
    by rewrite <- list_elem_of_In.
  - intros Hch ->. subst s. clear -Hch. assert (sentry_init false random0 = mkSentry false replay0) as -> by done.
    induction Hch as [|[c r] l Hc Hl IH]; [done|]. cbn in Hc. subst c. exact IH.
Qed.

Example clean_path_hides_witness :
  ("devices", ":device_id") ∈ id_segments /\
  length (split (clean_path "/api/v1/profiles/abc123/Devices/laptop") "/") = 7%nat.
Proof.
  split; [right; left|].
  apply (clean_path_hides "/api/v1/profiles/abc123/Devices/laptop" "devices" ":device_id"). right; left.
Defined.

(** The address of a device in the setup guide: the name of the device follows no name. *)
Example device_of_dns_query_stays :
  clean_path "https://dns.example/dns-query/p1/phone" = "https://dns.example/dns-query/:profile_id/phone".
Proof. vm_compute. reflexivity. Qed.

Example scrubUrl_hides_parameters_witness : FILTERED = FILTERED.
Proof.
  apply (scrubUrl_hides_parameters "https://app/query-logs?Profile%5FID=abc&page=2"
    "https://app/query-logs?Profile%5FID=[Filtered]&page=2" "https://app/query-logs"
    "Profile%5FID=[Filtered]&page=2" None "Profile%5FID=[Filtered]" "Profile%5FID" FILTERED (points "Profile_ID"));
    try (vm_compute; reflexivity).
  apply (bool_decide_eq_true_1 _). vm_compute. reflexivity.
Defined.

Example scrubUrl_idempotent_witness :
  scrubUrl "/profiles/:profile_id?id=[Filtered]" = Ok "/profiles/:profile_id?id=[Filtered]".
Proof. apply (scrubUrl_idempotent "/profiles/abc?id=7"). vm_compute. reflexivity. Defined.

(** A fragment that names a profile is sent as it is. *)
Example scrubUrl_keeps_fragment_witness :
  exists query', split_url "/faq#/profiles/abc123" = (clean_path "/faq", query', Some "/profiles/abc123").
Proof. apply (scrubUrl_keeps_fragment "/faq#/profiles/abc123" _ "/faq" None); [discriminate|vm_compute; reflexivity..]. Defined.

Example malformed_parameter_throws_witness :
  beforeBreadcrumb (mkBreadcrumb (Some ("/search" ++s "?" ++s "100%" ++s "=" ++s "1")) None tt) = Throw malformed_URI.
Proof. apply malformed_parameter_throws; first [discriminate | vm_compute; reflexivity]. Defined.
