(* ===== verification/Verification.v ===== *)
(** * Identity checks

    [src/app/src/hooks/useAccountVerificationMethod.ts] and
    [src/app/src/components/dialogs/VerifyIdentityFields.tsx]: which method verifies an account, and
    the fields that produce an [IdentityVerification]. A step is an event, the render it causes and
    the effects of that render, in the order the components declare them. The dialogs that show the
    fields unmount them on closing, so a state begins with [mount]. *)

From S2P Require Import Prelude JsString ApiTypes WebAuthn.
From coqutil Require Import Datatypes.RecordSetters.
Import TriangleBracketNotations.

#[local] Arguments constant _ _ _ /.
#[local] Arguments truthy : simpl never.

(** ** The method *)

Inductive VerificationMethod : Set := password | passkey.
#[export] Instance VerificationMethod_eq_dec : EqDecision VerificationMethod.
Proof. solve_decision. Defined.

Definition passwordAvailable (account : option ModelAccount) : bool :=
  match account with
  | None => true
  | Some a =>
      match acc_auth_methods a with
      | None | Some [] => true
      | Some methods => bool_decide ("password" ∈ methods)
      end
  end.

Definition preferredMethod (hasPasskeys passwordAvailable : bool) : VerificationMethod :=
  if hasPasskeys && negb passwordAvailable then passkey
  else if negb hasPasskeys && passwordAvailable then password
  else if hasPasskeys && passwordAvailable then passkey
  else password.

Definition isMethodAvailable (hasPasskeys passwordAvailable : bool) (m : VerificationMethod) : bool :=
  match m with passkey => hasPasskeys | password => passwordAvailable end.

Definition totpEnabled (account : option ModelAccount) : bool :=
  (a ← account; mfa ← acc_mfa a; t ← mfa_totp mfa; totp_enabled t) ?? false.

(** ** The fields *)

Inductive ReauthStatus : Set := st_idle | in_progress | verified | st_error.
#[export] Instance ReauthStatus_eq_dec : EqDecision ReauthStatus.
Proof. solve_decision. Defined.

(** [chosen] is the hook's state; [obtained] the tokens the ceremonies returned (ghost). *)
Record Fields := mkFields {
  f_account : option ModelAccount;
  f_hasPasskeys : bool;
  f_open : bool;
  f_passkeyOnly : bool;
  chosen : VerificationMethod;
  f_currentPassword : string;
  f_otp : string;
  f_reauthToken : option string;
  reauthStatus : ReauthStatus;
  ceremonies : nat;
  obtained : list string;
}.

Definition method (f : Fields) : VerificationMethod := if f_passkeyOnly f then passkey else chosen f.

Definition showOtp (f : Fields) : bool :=
  bool_decide (method f = password) && (totpEnabled (f_account f) && bool_decide (chosen f = password)).

Definition reset (f : Fields) : Fields :=
  f <| f_currentPassword := "" |> <| f_otp := "" |> <| f_reauthToken := None |> <| reauthStatus := st_idle |>.

(** The effect of the hook on its method. *)
Definition settle_method (f : Fields) : VerificationMethod :=
  let pref := preferredMethod (f_hasPasskeys f) (passwordAvailable (f_account f)) in
  if negb (f_open f) then pref
  else if isMethodAvailable (f_hasPasskeys f) (passwordAvailable (f_account f)) (chosen f) then chosen f
  else pref.

(** [onMethodChange] runs when the method changes. *)
Definition set_method (m : VerificationMethod) (f : Fields) : Fields :=
  if bool_decide (m = chosen f) then f else reset (f <| chosen := m |>).

(** The effects of a render with new props, [wasOpen] being the previous [open]. *)
Definition run_effects (wasOpen : bool) (f : Fields) : Fields :=
  let f := set_method (settle_method f) f in
  if wasOpen && negb (f_open f) then reset f else f.

Definition mount (account : option ModelAccount) (hasPasskeys open passkeyOnly : bool) : Fields :=
  run_effects open
    (mkFields account hasPasskeys open passkeyOnly
       (preferredMethod hasPasskeys (passwordAvailable account)) "" "" None st_idle 0 []).

Definition switchMethod (next : VerificationMethod) (f : Fields) : Fields :=
  if isMethodAvailable (f_hasPasskeys f) (passwordAvailable (f_account f)) next then set_method next f else f.

(** The passkey button is disabled while a ceremony runs and once it succeeded. *)
Definition verifyWithPasskey (f : Fields) : Fields :=
  match method f, reauthStatus f with
  | passkey, (st_idle | st_error) => f <| reauthStatus := in_progress |> <| ceremonies ::= S |>
  | _, _ => f
  end.

Definition ceremony_done (token : option string) (f : Fields) : Fields :=
  match ceremonies f with
  | O => f
  | S n =>
      match token with
      | Some t => f <| ceremonies := n |> <| f_reauthToken := Some t |> <| reauthStatus := verified |>
                    <| obtained ::= cons t |>
      | None => f <| ceremonies := n |> <| reauthStatus := st_error |>
      end
  end.

Inductive FieldsEvent : Type :=
| Props (account : option ModelAccount) (hasPasskeys open : bool)
| SwitchMethod (next : VerificationMethod)
| TypePassword (s : string)
| TypeOtp (s : string)
| VerifyClick
| CeremonyDone (token : option string).

(** An input exists only while its method is shown. *)
Definition fields_step (f : Fields) (e : FieldsEvent) : Fields :=
  match e with
  | Props account pk open =>
      run_effects (f_open f) (f <| f_account := account |> <| f_hasPasskeys := pk |> <| f_open := open |>)
  | SwitchMethod next => if f_passkeyOnly f then f else switchMethod next f
  | TypePassword s => if bool_decide (method f = password) then f <| f_currentPassword := s |> else f
  | TypeOtp s => if showOtp f then f <| f_otp := s |> else f
  | VerifyClick => verifyWithPasskey f
  | CeremonyDone token => ceremony_done token f
  end.

(** What the last effect passes to [onChange]. *)
Definition onChange (f : Fields) : option IdentityVerification :=
  match method f with
  | passkey => if truthy_opt (f_reauthToken f) then Some (mkIdentity None None (f_reauthToken f)) else None
  | password =>
      if truthy (f_currentPassword f) && (negb (showOtp f) || truthy (f_otp f)) then
        Some (if showOtp f then mkIdentity (Some (f_currentPassword f)) (Some (f_otp f)) None
              else mkIdentity (Some (f_currentPassword f)) None None)
      else None
  end.

(** ** Invariant *)

Record fields_ok (f : Fields) : Prop := {
  fo_available : f_open f = true ->
    isMethodAvailable (f_hasPasskeys f) (passwordAvailable (f_account f)) (chosen f) = true \/
    f_hasPasskeys f = false /\ passwordAvailable (f_account f) = false /\ chosen f = password;
  fo_obtained : forall t, f_reauthToken f = Some t -> t ∈ obtained f;
}.

Lemma preferred_available pk pw :
  isMethodAvailable pk pw (preferredMethod pk pw) = true \/
  pk = false /\ pw = false /\ preferredMethod pk pw = password.
Proof. destruct pk, pw; cbn; auto. Qed.

Lemma set_method_fields m f :
  chosen (set_method m f) = m /\ f_open (set_method m f) = f_open f /\
  f_hasPasskeys (set_method m f) = f_hasPasskeys f /\ f_account (set_method m f) = f_account f /\
  obtained (set_method m f) = obtained f /\
  (f_reauthToken (set_method m f) = f_reauthToken f \/ f_reauthToken (set_method m f) = None).
Proof. unfold set_method, reset. case_bool_decide as H; destruct f; cbn in *; subst; auto 10. Qed.

Lemma set_method_ok m f :
  (isMethodAvailable (f_hasPasskeys f) (passwordAvailable (f_account f)) m = true \/
   f_hasPasskeys f = false /\ passwordAvailable (f_account f) = false /\ m = password) ->
  (forall t, f_reauthToken f = Some t -> t ∈ obtained f) -> fields_ok (set_method m f).
Proof.
  intros Hm Ht. destruct (set_method_fields m f) as (Hc & Ho & Hp & Ha & Hb & Hr). split.
  - intros _. by rewrite Hc, Hp, Ha.
  - rewrite Hb. intros t Hs. apply Ht. destruct Hr as [<-|Hr]; [done|congruence].
Qed.

Lemma reset_ok f : fields_ok f -> fields_ok (reset f).
Proof. intros [Ha Ht]. destruct f. by split. Qed.

Lemma run_effects_ok wasOpen f :
  (forall t, f_reauthToken f = Some t -> t ∈ obtained f) -> fields_ok (run_effects wasOpen f).
Proof.
  intros Ht. assert (fields_ok (set_method (settle_method f) f)) as Hok.
  { apply set_method_ok; [|done]. unfold settle_method. destruct (f_open f); cbn [negb]; [|apply preferred_available].
    destruct (isMethodAvailable _ _ (chosen f)) eqn:Hc; [by left|apply preferred_available]. }
  unfold run_effects. destruct (wasOpen && _); [by apply reset_ok|done].
Qed.

Lemma fields_step_ok f e : fields_ok f -> fields_ok (fields_step f e).
Proof.
  intros Hok. destruct Hok as [Ha Ht] eqn:Eok. clear Eok.
  destruct e as [account pk open|next|s|s| |token]; cbn [fields_step].
  - apply run_effects_ok. by destruct f.
  - destruct (f_passkeyOnly f); [done|]. unfold switchMethod.
    destruct (isMethodAvailable _ _ next) eqn:Hn; [|done]. apply set_method_ok; [by left|done].
  - case_bool_decide; [|done]. destruct f. by split.
  - destruct (showOtp f); [|done]. destruct f. by split.
  - unfold verifyWithPasskey. destruct (method f), (reauthStatus f); try done; destruct f; by split.
  - unfold ceremony_done. destruct (ceremonies f); [done|]. destruct token as [t|]; destruct f; split; cbn in *; try done.
    intros t' [= <-]. by left.
Qed.

Lemma fields_run_ok account pk open only events : fields_ok (run fields_step (mount account pk open only) events).
Proof.
  apply (run_invariant fields_step fields_ok); [intros; by apply fields_step_ok|].
  by apply run_effects_ok.
Qed.

Theorem verification_is_complete account pk open only events v :
  let f := run fields_step (mount account pk open only) events in
  onChange f = Some v ->
  (exists token, token ∈ obtained f /\ truthy token = true /\
     verificationRequest v = (BodyReauthToken token, None)) \/
  (exists pw, truthy pw = true /\ chosen f = password /\
     (verificationRequest v).1 = BodyCurrentPassword (Some pw) /\
     (totpEnabled (f_account f) = true ->
        exists code, truthy code = true /\ (verificationRequest v).2 = Some (code, ["totp"])) /\
     (totpEnabled (f_account f) = false -> (verificationRequest v).2 = None)).
Proof.
  intros f. pose proof (fields_run_ok account pk open only events) as Hok. fold f in Hok. unfold onChange.
  destruct (method f) eqn:Hm.
  - assert (chosen f = password) as Hc by (unfold method in Hm; destruct (f_passkeyOnly f); congruence).
    assert (showOtp f = totpEnabled (f_account f)) as Hs.
    { unfold showOtp. rewrite Hm, Hc. rewrite !bool_decide_eq_true_2 by done. by rewrite andb_true_r. }
    rewrite Hs. destruct (truthy (f_currentPassword f)) eqn:Hp; [|done]. cbn [andb].
    destruct (totpEnabled (f_account f)) eqn:Htotp; cbn [negb orb]; intros Hv.
    + destruct (truthy (f_otp f)) eqn:Ho; [|done]. injection Hv as <-. right. exists (f_currentPassword f).
      split; [done|]. split; [done|]. split; [done|]. split; [|done]. intros _. exists (f_otp f). split; [done|].
      unfold verificationRequest. cbn [otp]. change (truthy_opt (Some (f_otp f))) with (truthy (f_otp f)). by rewrite Ho.
    + injection Hv as <-. right. by exists (f_currentPassword f).
  - destruct (f_reauthToken f) as [t|] eqn:Ht; [|done].
    change (truthy_opt (Some t)) with (truthy t). destruct (truthy t) eqn:Htt; [|done]. intros [= <-]. left. exists t.
    split; [by apply (fo_obtained f Hok)|]. split; [done|]. unfold verificationRequest. cbn [reauthToken].
    change (truthy_opt (Some t)) with (truthy t). by rewrite Htt.
Qed.

Theorem chosen_method_is_available account pk open only events :
  let f := run fields_step (mount account pk open only) events in
  f_open f = true -> f_hasPasskeys f = true \/ passwordAvailable (f_account f) = true ->
  isMethodAvailable (f_hasPasskeys f) (passwordAvailable (f_account f)) (chosen f) = true.
Proof.
  intros f Ho Hsome. destruct (fo_available f (fields_run_ok _ _ _ _ _) Ho) as [?|(Hp & Hw & _)]; [done|].
  destruct Hsome; congruence.
Qed.

(** Switching the method forgets what was entered. *)
Lemma switch_forgets f next : next <> chosen f -> f_passkeyOnly f = false ->
  isMethodAvailable (f_hasPasskeys f) (passwordAvailable (f_account f)) next = true ->
  onChange (fields_step f (SwitchMethod next)) = None.
Proof.
  intros Hne Ho Ha. cbn [fields_step]. rewrite Ho. unfold switchMethod, set_method. rewrite Ha.
  rewrite bool_decide_eq_false_2 by done. destruct f as [a p o k c w ot r s n l]; cbn in *. subst k.
  unfold onChange, method. cbn. by destruct next.
Qed.

Definition totp_account : option ModelAccount :=
  Some (MkModelAccount (Some ["password"; "passkey"]) None None None None
    (Some (MkModelMFASettings (Some (MkModelTotpSettings (Some true))))) None).

Example verification_is_complete_witness :
  let f := run fields_step (mount totp_account false true false) [TypePassword "secret"; TypeOtp "123456"] in
  let v := mkIdentity (Some "secret") (Some "123456") None in
  (exists token, token ∈ obtained f /\ truthy token = true /\
     verificationRequest v = (BodyReauthToken token, None)) \/
  (exists pw, truthy pw = true /\ chosen f = password /\
     (verificationRequest v).1 = BodyCurrentPassword (Some pw) /\
     (totpEnabled (f_account f) = true ->
        exists code, truthy code = true /\ (verificationRequest v).2 = Some (code, ["totp"])) /\
     (totpEnabled (f_account f) = false -> (verificationRequest v).2 = None)).
Proof. apply verification_is_complete. vm_compute. reflexivity. Defined.

Example chosen_method_is_available_witness :
  let f := run fields_step (mount totp_account true true false) [Props totp_account false true] in
  isMethodAvailable (f_hasPasskeys f) (passwordAvailable (f_account f)) (chosen f) = true.
Proof. apply chosen_method_is_available; [reflexivity|right; vm_compute; reflexivity]. Defined.
