(* ===== verification/Announcements.v ===== *)
(** * The announcements dot

    [src/app/src/hooks/useAnnouncementsIndicator.ts]: which announcements count as unread, the
    request cache the two navigation bars share, and the hook instances that load through it. *)

From S2P Require Import Prelude JsString JsDate ApiTypes.

#[local] Arguments truthy : simpl never.
#[local] Arguments Date_parse : simpl never.

Record AnnouncementsIndicator := mkIndicator { hasUnread : bool; hasCriticalUnread : bool }.

Definition CLEAN_BROWSER_UNREAD_WINDOW_MS : Z := 48 * 60 * 60 * 1000.
Definition CACHE_TTL_MS : Z := 60000.
Definition POLL_INTERVAL_MS : Z := 5 * 60000.

(** The comparison floor; [None] is [NaN]. *)
Definition lastSeenMs {H : Host} (lastSeenAt : option string) (now : Z) : option Z :=
  if truthy_opt lastSeenAt then Date_parse (lastSeenAt ?? "")
  else Some (now - CLEAN_BROWSER_UNREAD_WINDOW_MS).

(** [a.published_at != null && new Date(a.published_at).getTime() > lastSeenMs] *)
Definition is_unread {H : Host} (floor : option Z) (a : AnnouncementsAnnouncement) : bool :=
  match ann_published_at a, floor with
  | Some p, Some f => match Date_parse p with Some t => f <? t | None => false end
  | _, _ => false
  end.

Definition is_critical (a : AnnouncementsAnnouncement) : bool :=
  bool_decide (ann_severity a = Some SeverityCritical).

Definition computeAnnouncementsIndicator {H : Host} (items : list AnnouncementsAnnouncement)
    (lastSeenAt : option string) (now : Z) : AnnouncementsIndicator :=
  let unread := List.filter (is_unread (lastSeenMs lastSeenAt now)) items in
  mkIndicator (negb (Nat.eqb (length unread) 0)) (existsb is_critical unread).

(** ** The cache and the hook instances *)

(** A request: pending, or the list it resolved to (an error resolves to the empty list). *)
Definition Request : Type := option (list AnnouncementsAnnouncement).

Record Instance_ := mkInstance { active : bool; items : list AnnouncementsAnnouncement }.

(** [started] are the times of the requests, oldest first; [waits] the pending [then] callbacks:
    instance and request. *)
Record Nav := mkNav {
  cache : option (Z * nat);
  requests : list Request;
  started : list Z;
  instances : list Instance_;
  waits : list (nat * nat);
}.

Definition nav0 : Nav := mkNav None [] [] [] [].

Definition fetchAnnouncements (now : Z) (n : Nav) : Nav * nat :=
  match cache n with
  | Some (ts, r) =>
      if now - ts <? CACHE_TTL_MS then (n, r)
      else (mkNav (Some (now, length (requests n))) (requests n ++ [None]) (started n ++ [now])
              (instances n) (waits n), length (requests n))
  | None => (mkNav (Some (now, length (requests n))) (requests n ++ [None]) (started n ++ [now])
               (instances n) (waits n), length (requests n))
  end.

(** [load] of instance [i]. *)
Definition load (i : nat) (now : Z) (n : Nav) : Nav :=
  let '(n', r) := fetchAnnouncements now n in
  mkNav (cache n') (requests n') (started n') (instances n') (waits n' ++ [(i, r)]).

Definition settle_request (r : nat) (answer : option (list AnnouncementsAnnouncement)) (n : Nav) : Nav :=
  match requests n !! r with
  | Some None => mkNav (cache n) (<[r := Some (answer ?? [])]> (requests n)) (started n) (instances n) (waits n)
  | _ => n
  end.

(** A [then] callback runs once its request resolved; an unmounted instance ignores it. *)
Definition deliver (k : nat) (n : Nav) : Nav :=
  match waits n !! k with
  | Some (i, r) =>
      match requests n !! r with
      | Some (Some data) =>
          mkNav (cache n) (requests n) (started n)
            (alter (fun x => if active x then mkInstance true data else x) i (instances n))
            (delete k (waits n))
      | _ => n
      end
  | None => n
  end.

Definition mount (now : Z) (n : Nav) : Nav :=
  load (length (instances n)) now
    (mkNav (cache n) (requests n) (started n) (instances n ++ [mkInstance true []]) (waits n)).

Definition unmount (i : nat) (n : Nav) : Nav :=
  mkNav (cache n) (requests n) (started n) (alter (fun x => mkInstance false (items x)) i (instances n)) (waits n).

Definition is_active (i : nat) (n : Nav) : bool :=
  match instances n !! i with Some x => active x | None => false end.

Inductive NavEvent : Type :=
| Mount (now : Z)
| Unmount (i : nat)
| Poll (i : nat) (now : Z)
| Visibility (visible : bool) (i : nat) (now : Z)
| RequestSettled (r : nat) (answer : option (list AnnouncementsAnnouncement))
| Deliver (k : nat).

Definition nav_step (n : Nav) (e : NavEvent) : Nav :=
  match e with
  | Mount now => mount now n
  | Unmount i => unmount i n
  | Poll i now => if is_active i n then load i now n else n
  | Visibility visible i now => if visible && is_active i n then load i now n else n
  | RequestSettled r answer => settle_request r answer n
  | Deliver k => deliver k n
  end.

(** ** The unread rule *)

Theorem announcements_unread_iff {H : Host} l lastSeenAt now :
  let ind := computeAnnouncementsIndicator l lastSeenAt now in
  (hasUnread ind = true <-> exists a, a ∈ l /\ is_unread (lastSeenMs lastSeenAt now) a = true) /\
  (hasCriticalUnread ind = true <->
     exists a, a ∈ l /\ is_unread (lastSeenMs lastSeenAt now) a = true /\ ann_severity a = Some SeverityCritical) /\
  (hasCriticalUnread ind = true -> hasUnread ind = true).
Proof.
  cbn. set (p := is_unread _).
  assert (negb (Nat.eqb (length (List.filter p l)) 0) = true <-> exists a, a ∈ l /\ p a = true) as Hu.
  { rewrite negb_true_iff, Nat.eqb_neq. split.
    - intros Hl. destruct (List.filter p l) as [|a l'] eqn:E; [done|]. exists a.
      apply elem_of_list_filter_b. rewrite E. by left.
    - intros (a & Ha) Hl%nil_length_inv. apply elem_of_list_filter_b in Ha. rewrite Hl in Ha. by apply elem_of_nil in Ha. }
  assert (existsb is_critical (List.filter p l) = true <->
    exists a, a ∈ l /\ p a = true /\ ann_severity a = Some SeverityCritical) as Hc.
  { rewrite existsb_elem. unfold is_critical. split.
    - intros (a & [Ha Hp]%elem_of_list_filter_b & Hs%bool_decide_eq_true). eauto.
    - intros (a & Ha & Hp & Hs). exists a. rewrite elem_of_list_filter_b, bool_decide_eq_true. eauto. }
  split; [exact Hu|]. split; [exact Hc|]. rewrite Hc, Hu. intros (a & ? & ? & _). eauto.
Qed.

(** ** The cache *)

Definition apart (later earlier : Z) : Prop := CACHE_TTL_MS <= later - earlier.

(** Every unread instance shows an answer of a request or nothing. *)
Record nav_ok (n : Nav) : Prop := {
  no_cache : fst <$> cache n = last (started n);
  no_apart : Sorted (fun a b => apart b a) (started n);
  no_items : Forall (fun x => items x = [] \/ Some (items x) ∈ requests n) (instances n);
}.

Lemma Sorted_snoc {A} (R : A -> A -> Prop) l x :
  Sorted R l -> (forall y, last l = Some y -> R y x) -> Sorted R (l ++ [x]).
Proof.
  induction 1 as [|y l Hs IH Hy]; intros Hl; cbn; [by repeat constructor|]. constructor.
  - apply IH. intros z Hz. apply Hl. destruct l; [done|]. by rewrite last_cons_cons.
  - destruct Hy; cbn; constructor; [by apply Hl|done].
Qed.

Lemma fetch_ok now n : nav_ok n -> nav_ok (fetchAnnouncements now n).1.
Proof.
  intros Hok. destruct Hok as [Hc Ha Hi] eqn:Heq. clear Heq. unfold fetchAnnouncements.
  assert (forall c, (forall t, last (started n) = Some t -> apart now t) ->
    nav_ok (mkNav (Some (now, c)) (requests n ++ [None]) (started n ++ [now]) (instances n) (waits n))) as Hnew.
  { intros c Hap. split; cbn [cache requests started instances waits].
    - by rewrite last_snoc.
    - by apply Sorted_snoc.
    - eapply Forall_impl; [exact Hi|]. intros x [?|?]; [by left|]. right. apply elem_of_app. by left. }
  destruct (cache n) as [[ts r]|]; cbn in Hc.
  - destruct (Z.ltb_spec (now - ts) CACHE_TTL_MS); cbn [fst]; [done|].
    apply Hnew. rewrite <- Hc. intros t [= <-]. done.
  - apply Hnew. by rewrite <- Hc.
Qed.

Lemma load_ok i now n : nav_ok n -> nav_ok (load i now n).
Proof.
  intros Hok. unfold load. pose proof (fetch_ok now n Hok) as [Hc Ha Hi].
  destruct (fetchAnnouncements now n). by split.
Qed.

Lemma Forall_alter_b {A} (P : A -> Prop) f i (l : list A) :
  Forall P l -> (forall x, P x -> P (f x)) -> Forall P (alter f i l).
Proof. intros Hl Hf. apply Forall_alter; [done|]. intros x Hx HP. by apply Hf. Qed.

Lemma nav_step_ok n e : nav_ok n -> nav_ok (nav_step n e).
Proof.
  intros Hok. destruct e as [now|i|i now|v i now|r answer|k]; cbn [nav_step].
  - apply load_ok. destruct Hok as [Hc Ha Hi]. split; cbn; try done.
    apply Forall_app. split; [done|]. by repeat constructor; left.
  - destruct Hok as [Hc Ha Hi]. split; cbn; try done. by apply Forall_alter_b.
  - destruct (is_active i n); [by apply load_ok|done].
  - destruct (v && is_active i n); [by apply load_ok|done].
  - unfold settle_request. destruct (requests n !! r) as [[?|]|] eqn:Hr; try done.
    destruct Hok as [Hc Ha Hi]. split; cbn; try done. eapply Forall_impl; [exact Hi|].
    intros x [?|Hx]; [by left|]. right. apply list_elem_of_lookup in Hx as [j Hj].
    apply list_elem_of_lookup. exists j. rewrite list_lookup_insert_ne; [done|intros ->; discriminate (eq_trans (eq_sym Hr) Hj)].
  - unfold deliver. destruct (waits n !! k) as [[i r]|]; [|done].
    destruct (requests n !! r) as [[data|]|] eqn:Hr; try done.
    destruct Hok as [Hc Ha Hi]. split; cbn; try done. apply Forall_alter_b; [done|].
    intros x Hx. destruct (active x); [|done]. right. cbn. by eapply list_elem_of_lookup_2.
Qed.

Lemma nav_run_ok events : nav_ok (run nav_step nav0 events).
Proof. apply (run_invariant nav_step nav_ok); [intros; by apply nav_step_ok|]. by repeat constructor. Qed.

Theorem announcement_requests_apart events :
  let n := run nav_step nav0 events in
  Sorted (fun earlier later => CACHE_TTL_MS <= later - earlier) (started n) /\
  Forall (fun x => items x = [] \/ Some (items x) ∈ requests n) (instances n).
Proof. destruct (nav_run_ok events) as [_ Ha Hi]. by split. Qed.
