(* ===== verification/ImportExport.v ===== *)
(** * Exporting and importing profiles

    [src/app/src/hooks/useProfileExport.ts] and [src/app/src/hooks/useProfileImport.ts]. A call is
    the list of its effects and how its promise settles, as a function of what the API answered. The
    exported blob, the payload and the clock's [toISOString] come from outside. *)

From S2P Require Import Prelude JsString Formats.

#[local] Arguments truthy : simpl never.
#[local] Arguments importErrorMessage : simpl never.
#[local] Arguments Ascii.eqb : simpl never.

Inductive ExportScope : Set := scope_all | scope_selected.

Record ExportProfilesInput := mkExportInput {
  ei_scope : ExportScope;
  ei_profileIds : option (list string);
  ei_currentPassword : option string;
  ei_reauthToken : option string;
  ei_otp : option string;
}.

(** The body of the request and its [x-mfa-code] header. *)
Record ExportRequest := mkExportRequest {
  er_scope : ExportScope;
  er_profile_ids : option (list string);
  er_current_password : option string;
  er_reauth_token : option string;
  er_mfa_code : option string;
}.

(** Only a password goes with a code. *)
Definition mfa_header (currentPassword otp : option string) : option string :=
  match currentPassword with
  | Some _ => if truthy_opt otp then otp else None
  | None => None
  end.

Definition export_request (input : ExportProfilesInput) : ExportRequest :=
  mkExportRequest (ei_scope input) (ei_profileIds input) (ei_currentPassword input) (ei_reauthToken input)
    (mfa_header (ei_currentPassword input) (ei_otp input)).

(** ** The file name *)

(** The class of the file name: no double quote, semicolon or white space. *)
Definition name_char (c : ascii) : bool := negb (code c =? 34) && negb (Ascii.eqb c ";") && negb (is_ws c).

Fixpoint take_name (s : string) : string :=
  match s with
  | EmptyString => EmptyString
  | String c s' => if name_char c then String c (take_name s') else EmptyString
  end.

Definition drop_quote (s : string) : string :=
  match s with String c s' => if code c =? 34 then s' else s | EmptyString => s end.

(** The group of the first match: [filename=], an optional quote, and a run of the class. *)
Fixpoint filenameMatch (s : string) : option string :=
  match s with
  | EmptyString => None
  | String _ s' =>
      let name := take_name (drop_quote (str_drop 9 s)) in
      if startsWith s "filename=" && truthy name then Some name else filenameMatch s'
  end.

(** [iso.replace(/[:.]/g, '-')] *)
Definition dashed (iso : string) : string :=
  str_map (fun c => if Ascii.eqb c ":" || Ascii.eqb c "." then "-"%char else c) iso.

Definition filename (disposition : option string) (iso : string) : string :=
  match filenameMatch (disposition ?? "") with
  | Some name => name
  | None => "moddns-export-" ++s dashed iso ++s ".moddns.json"
  end.

(** ** Export *)

(** The body of an error response: a blob with its parsed [error], an object, or neither. *)
Inductive ErrorBody : Type :=
| BlobBody (parsed : option (option string))
| ObjectBody (error : option string)
| NoBody.

Definition serverMessage (b : ErrorBody) : option string :=
  match b with
  | BlobBody (Some e) => e
  | BlobBody None => None
  | ObjectBody e => e
  | NoBody => None
  end.

Inductive Effect : Type :=
| SetBusy (b : bool)
| SendExport (r : ExportRequest)
| CreateObjectURL
| Download (name : string)
| RevokeObjectURL
| ToastError (message : string).

Inductive ExportAnswer : Type :=
| Exported (disposition : option string)
| ExportFailed (body : ErrorBody).

Definition exportProfiles (input : ExportProfilesInput) (iso : string) (answer : ExportAnswer)
    : list Effect * bool :=
  let '(effects, ok) :=
    match answer with
    | Exported disposition => ([CreateObjectURL; Download (filename disposition iso); RevokeObjectURL], true)
    | ExportFailed body => ([ToastError (serverMessage body ?? "Export failed. Please try again.")], false)
    end in
  (SetBusy true :: SendExport (export_request input) :: effects ++ [SetBusy false], ok).

(** ** Import *)

Section import.
Context {Payload : Type}.

Record ImportProfilesInput := mkImportInput {
  ii_payload : Payload;
  ii_currentPassword : option string;
  ii_reauthToken : option string;
  ii_otp : option string;
}.

Record ImportRequest := mkImportRequest {
  ir_payload : Payload;
  ir_current_password : option string;
  ir_reauth_token : option string;
  ir_mfa_code : option string;
}.

Definition import_request (input : ImportProfilesInput) : ImportRequest :=
  mkImportRequest (ii_payload input) (ii_currentPassword input) (ii_reauthToken input)
    (mfa_header (ii_currentPassword input) (ii_otp input)).
End import.

Record ImportResult := mkImportResult {
  createdProfileIds : list string;
  createdProfileNames : list string;
  warnings : list string;
}.

Inductive ImportAnswer : Type :=
| Imported (ids names warns : option (list string))
| ImportFailed (status : option Z) (error : option string).

(** The hook's state, and the toasts it raised. *)
Record ImportState := mkImport { isImporting : bool; result_ : option ImportResult; toasts : list string }.

Definition import_start (s : ImportState) : ImportState := mkImport true None (toasts s).

Definition import_result (ids names warns : option (list string)) : ImportResult :=
  mkImportResult (ids ?? []) (names ?? []) (warns ?? []).

Definition import_finish (a : ImportAnswer) (s : ImportState) : ImportState * option ImportResult :=
  match a with
  | Imported ids names warns =>
      let r := import_result ids names warns in (mkImport false (Some r) (toasts s), Some r)
  | ImportFailed status error =>
      (mkImport false (result_ s) (toasts s ++ [importErrorMessage status error]), None)
  end.

Definition importProfiles (a : ImportAnswer) (s : ImportState) : ImportState * option ImportResult :=
  import_finish a (import_start s).

Definition reset (s : ImportState) : ImportState := mkImport (isImporting s) None (toasts s).

(** ** Facts *)

Lemma take_name_word w s :
  str_all name_char w = true -> take_name s = "" -> take_name (w ++s s) = w.
Proof.
  intros Hw Hs. induction w as [|c w IH]; cbn in *; [done|]. apply andb_true_iff in Hw as [-> Hw]. by rewrite IH.
Qed.


Lemma filenameMatch_skip p s :
  lacks "f" p = true -> filenameMatch (p ++s s) = filenameMatch s.
Proof.
  unfold lacks. induction p as [|c p IH]; cbn [str_all String.append filenameMatch]; [done|].
  intros [Hc Hp]%andb_true_iff. apply negb_true_iff, Ascii.eqb_neq in Hc.
  assert (startsWith (String c (p ++s s)) "filename=" = false) as ->; [|by apply IH].
  unfold startsWith. cbn [String.prefix]. destruct (ascii_dec "f" c); [done|reflexivity].
Qed.

Lemma filenameMatch_here n s :
  truthy n = true -> str_all name_char n = true -> take_name s = "" ->
  filenameMatch ("filename=" ++s QUOTE ++s n ++s s) = Some n.
Proof.
  intros Hn Hc Hs.
  assert (forall t, filenameMatch ("filename=" ++s t) =
    let name := take_name (drop_quote t) in
    if startsWith ("filename=" ++s t) "filename=" && truthy name then Some name else filenameMatch ("ilename=" ++s t))
    as Hstep by reflexivity.
  rewrite Hstep, startsWith_app. change (drop_quote (QUOTE ++s n ++s s)) with (n ++s s). cbv zeta.
  rewrite take_name_word by done. by rewrite Hn.
Qed.

Theorem export_file_name before name after iso :
  lacks "f" before = true -> truthy name = true -> str_all name_char name = true ->
  filename (Some (before ++s "filename=" ++s QUOTE ++s name ++s QUOTE ++s after)) iso = name.
Proof.
  intros Hb Hn Hc. unfold filename. cbn [from_option id]. rewrite filenameMatch_skip by done.
  by rewrite filenameMatch_here.
Qed.

Definition is_toast (e : Effect) : bool := match e with ToastError _ => true | _ => false end.
Definition is_download (e : Effect) : bool := match e with Download _ => true | _ => false end.

Lemma mfa_header_Some pw o code : mfa_header pw o = Some code -> truthy code = true /\ is_Some pw.
Proof.
  unfold mfa_header. destruct pw; [|done]. destruct o as [o|]; [|done].
  change (truthy_opt (Some o)) with (truthy o). destruct (truthy o) eqn:Ho; [|done]. intros [= <-]. by split.
Qed.

Theorem export_effects input iso answer :
  let '(effects, ok) := exportProfiles input iso answer in
  head effects = Some (SetBusy true) /\ last effects = Some (SetBusy false) /\
  (effects !! 1%nat = Some (SendExport (export_request input))) /\
  (ok = true <-> exists d, answer = Exported d) /\
  length (List.filter is_download effects) = (if ok then 1 else 0)%nat /\
  length (List.filter is_toast effects) = (if ok then 0 else 1)%nat /\
  (forall code, er_mfa_code (export_request input) = Some code ->
     truthy code = true /\ is_Some (er_current_password (export_request input))).
Proof.
  assert (forall code, er_mfa_code (export_request input) = Some code ->
    truthy code = true /\ is_Some (er_current_password (export_request input))) as Hmfa by apply mfa_header_Some.
  unfold exportProfiles. destruct answer as [d|b]; cbn -[filename export_request].
  - repeat (split; [done|]). split; [by split; [eexists|]|]. by repeat (split; [done|]).
  - repeat (split; [done|]). split; [by split; [|intros [? ?]]|]. by repeat (split; [done|]).
Qed.

Theorem import_settles a s :
  let '(s', r) := importProfiles a s in
  isImporting s' = false /\ result_ s' = r /\
  match a with
  | Imported ids names warns => r = Some (import_result ids names warns) /\ toasts s' = toasts s
  | ImportFailed status error => r = None /\ toasts s' = toasts s ++ [importErrorMessage status error]
  end.
Proof. by destruct a. Qed.

Example export_file_name_witness :
  filename (Some ("attachment; " ++s "filename=" ++s QUOTE ++s "moddns-2026.json" ++s QUOTE ++s "")) "2026-01-01T00:00:00.000Z"
  = "moddns-2026.json".
Proof. apply export_file_name; vm_compute; reflexivity. Defined.

Example default_file_name :
  filename None "2026-01-01T00:00:00.000Z" = "moddns-export-2026-01-01T00-00-00-000Z.moddns.json".
Proof. vm_compute. reflexivity. Qed.
