(* ===== verification/DnsStatus.v ===== *)
(** * The DNS connection status

    [src/app/src/hooks/useDnsConnectionStatus.ts]: a poll of the DNS check and the status derived
    from its last answer. Polls overlap: a new one starts on every tick, whatever is in flight. *)

From S2P Require Import Prelude JsString ApiTypes.
From coqutil Require Import Datatypes.RecordSetters.
Import TriangleBracketNotations.

#[local] Arguments constant _ _ _ /.
#[local] Arguments truthy : simpl never.

Record DnsCheckResponse := mkResponse { d_status : string; d_profile_id : string }.

(** The badge's text stands for its class too. *)
Record StatusInfo := mkInfo { badge : string; i_message : string; isCurrentProfile : bool }.

Record Hook := mkHook {
  response : DnsCheckResponse;
  isLoading : bool;
  lastStable : option StatusInfo;
  h_error : string;
  enabled : bool;
  polling : bool;
  inflight : nat;
}.

Inductive CheckAnswer : Type :=
| Answered (status : Z) (data : DnsCheckResponse)
| Rejected (status : option Z) (dataError : option string).

Definition hook0 (enabled : bool) : Hook := mkHook (mkResponse "" "") true None "" enabled false 0.

(** [executeDnsCheck] up to its await. *)
Definition start_check (h : Hook) : Hook := h <| h_error := "" |> <| inflight ::= S |>.

Definition finish_check (a : CheckAnswer) (h : Hook) : Hook :=
  match a with
  | Answered status data =>
      if status =? 200 then h <| response := data |> <| isLoading := false |> else h
  | Rejected status dataError =>
      if bool_decide (status = Some 404) && bool_decide (dataError = Some "disconnected") then
        h <| response := mkResponse "disconnected" "" |> <| isLoading := false |> <| h_error := "" |>
      else h <| h_error := "Failed to check DNS status" |> <| isLoading := false |>
  end.

(** The effect on [[activeProfile?.profile_id, enabled, pollMs]]. *)
Definition run_effect (en : bool) (h : Hook) : Hook :=
  if en then start_check (h <| enabled := true |> <| polling := true |>)
  else h <| enabled := false |> <| polling := false |>.

(** [profiles.find(...)?.name || 'Unknown Profile'] *)
Definition getCurrentProfileName (profiles : list ModelProfile) (r : DnsCheckResponse) : string :=
  if negb (truthy (d_profile_id r)) then "Unknown Profile"
  else match array_find (fun p => String.eqb (p_profile_id p) (d_profile_id r)) profiles with
       | Some p => str_or (p_name p) "Unknown Profile"
       | None => "Unknown Profile"
       end.

Definition current_status (active : option ModelProfile) (profiles : list ModelProfile) (h : Hook) : StatusInfo :=
  if truthy (h_error h) then mkInfo "Error" "Unable to check DNS status." false
  else if String.eqb (d_status (response h)) "ok" then
    if bool_decide ((p_profile_id <$> active) = Some (d_profile_id (response h))) then
      mkInfo "Connected" "This device or browser is currently using modDNS with this profile." true
    else mkInfo "Different Profile" ("This device or browser is using modDNS with profile: "
           ++s getCurrentProfileName profiles (response h)) false
  else if String.eqb (d_status (response h)) "disconnected" then
    mkInfo "Disconnected" "This device or browser is not using modDNS." false
  else mkInfo "Checking..." "Checking DNS configuration..." false.

(** [getStatusInfo], which writes [lastStableStatusRef]. *)
Definition getStatusInfo (active : option ModelProfile) (profiles : list ModelProfile) (h : Hook) : StatusInfo * Hook :=
  if negb (isLoading h) then
    let c := current_status active profiles h in (c, h <| lastStable := Some c |>)
  else match lastStable h with
       | Some s => (mkInfo "Checking..." (i_message s) (isCurrentProfile s), h)
       | None => (mkInfo "Checking..." "Checking DNS configuration..." false, h)
       end.

Inductive DnsEvent : Type :=
| Deps (en : bool)
| Tick
| Refresh
| Finish (a : CheckAnswer)
| RenderStatus (active : option ModelProfile) (profiles : list ModelProfile).

Definition dns_step (h : Hook) (e : DnsEvent) : Hook :=
  match e with
  | Deps en => run_effect en h
  | Tick => if polling h then start_check h else h
  | Refresh => start_check h
  | Finish a => match inflight h with O => h | S n => finish_check a (h <| inflight := n |>) end
  | RenderStatus active profiles => (getStatusInfo active profiles h).2
  end.

(** ** Facts *)

(** Once a check settled the hook never goes back to loading, so the kept status is not shown. *)
Lemma never_loading_again h e : isLoading h = false -> isLoading (dns_step h e) = false.
Proof.
  intros Hl. destruct e as [en| | |a|active profiles]; cbn.
  - destruct en; by destruct h.
  - destruct (polling h); [by destruct h|done].
  - by destruct h.
  - destruct (inflight h); [done|]. destruct a as [status d|status e]; cbn.
    + destruct (status =? 200); by destruct h.
    + destruct (_ && _); by destruct h.
  - unfold getStatusInfo. rewrite Hl. by destruct h.
Qed.

Lemma loading_has_no_status h e :
  (isLoading h = true -> lastStable h = None) -> isLoading (dns_step h e) = true -> lastStable (dns_step h e) = None.
Proof.
  intros Hk Hl. destruct (isLoading h) eqn:Hh; [|by rewrite never_loading_again in Hl]. specialize (Hk eq_refl).
  destruct e as [en| | |a|active profiles]; cbn in *.
  - destruct en; by destruct h.
  - destruct (polling h); [by destruct h|done].
  - by destruct h.
  - destruct (inflight h); [done|]. destruct a as [status d|status e]; cbn in *.
    + destruct (status =? 200); by destruct h.
    + destruct (_ && _); by destruct h.
  - unfold getStatusInfo in *. rewrite Hh, Hk in *. done.
Qed.

Theorem dns_status_shown en events active profiles :
  let h := run dns_step (hook0 en) events in
  let s := (getStatusInfo active profiles h).1 in
  (badge s = "Connected" <->
     isLoading h = false /\ h_error h = "" /\ d_status (response h) = "ok" /\
     p_profile_id <$> active = Some (d_profile_id (response h))) /\
  (isCurrentProfile s = true <-> badge s = "Connected") /\
  (badge s = "Error" <-> isLoading h = false /\ h_error h <> "") /\
  (isLoading h = true -> s = mkInfo "Checking..." "Checking DNS configuration..." false).
Proof.
  intros h s. assert (isLoading h = true -> lastStable h = None) as Hnone.
  { apply (run_invariant dns_step (fun h => isLoading h = true -> lastStable h = None)); [|done].
    intros h' e Hk. by apply loading_has_no_status. }
  subst s. unfold getStatusInfo. destruct (isLoading h) eqn:Hl; cbn [negb].
  - rewrite Hnone by done. cbn. repeat split; try done; intros; naive_solver.
  - cbn [fst]. unfold current_status. destruct (truthy (h_error h)) eqn:He.
    + apply truthy_spec in He. cbn. repeat split; try done; naive_solver.
    + apply truthy_false in He. destruct (String.eqb_spec (d_status (response h)) "ok") as [Ho|Ho].
      * case_bool_decide; cbn; repeat split; try done; naive_solver.
      * destruct (String.eqb_spec (d_status (response h)) "disconnected"); cbn; repeat split; try done; naive_solver.
Qed.

Theorem failed_check_forgotten en events :
  let h := run dns_step (hook0 en) events in
  isLoading h = false -> d_status (response h) = "ok" ->
  forall active profiles, p_profile_id <$> active = Some (d_profile_id (response h)) ->
  badge (getStatusInfo active profiles (dns_step (dns_step h Refresh) (Finish (Rejected None None)))).1 = "Error" /\
  badge (getStatusInfo active profiles
    (dns_step (dns_step (dns_step h Refresh) (Finish (Rejected None None))) Refresh)).1 = "Connected".
Proof.
  intros h. generalize h. clear h. intros [r l ls e en' p n] Hl Ho active profiles Hp. cbn in Hl, Ho, Hp. subst l.
  assert (dns_step (dns_step (mkHook r false ls e en' p n) Refresh) (Finish (Rejected None None))
    = mkHook r false ls "Failed to check DNS status" en' p n) as -> by reflexivity.
  assert (dns_step (mkHook r false ls "Failed to check DNS status" en' p n) Refresh
    = mkHook r false ls "" en' p (S n)) as -> by reflexivity.
  split; [done|]. unfold getStatusInfo, current_status. cbn. change (truthy "") with false. cbn.
  rewrite Ho. by rewrite (bool_decide_eq_true_2 _ Hp).
Qed.

Definition witness_profile : ModelProfile := MkModelProfile "acc" "1" "Home" "p1" None.

Example failed_check_forgotten_witness :
  let h := run dns_step (hook0 true) [Deps true; Finish (Answered 200 (mkResponse "ok" "p1"))] in
  badge (getStatusInfo (Some witness_profile) [] (dns_step (dns_step h Refresh) (Finish (Rejected None None)))).1 = "Error" /\
  badge (getStatusInfo (Some witness_profile) []
    (dns_step (dns_step (dns_step h Refresh) (Finish (Rejected None None))) Refresh)).1 = "Connected".
Proof. apply failed_check_forgotten; reflexivity. Defined.
