(* ===== verification/Chrome.v ===== *)
(** * The frame around the pages

    [src/app/src/hooks/useScreenDetector.ts], [hooks/useScrolled.ts],
    [context/NavigationCollapseContext.tsx], [lib/useHeaderStackHeight.ts],
    [lib/focusPageHeading.ts] and [pages/statistics/useChartEntrance.ts]: small hooks over what the
    browser measures. Widths and heights are integers of CSS pixels. *)

From S2P Require Import Prelude JsString.

(** ** The screen *)

(** What the hook's state holds: the window's width and the two media queries. *)
Record Screen := mkScreen { width : Z; isDesktop : bool; isCoarsePointer : bool }.

Inductive ScreenEvent : Set :=
| HandleResize (w : Z)
| HandleDesktop (matches : bool)
| HandleCoarse (matches : bool).

Definition screen_step (s : Screen) (e : ScreenEvent) : Screen :=
  match e with
  | HandleResize w => mkScreen w (isDesktop s) (isCoarsePointer s)
  | HandleDesktop m => mkScreen (width s) m (isCoarsePointer s)
  | HandleCoarse m => mkScreen (width s) (isDesktop s) m
  end.

Definition isMobile (s : Screen) : bool := width s <=? 768.
Definition isTablet (s : Screen) : bool := width s <=? 1024.
Definition navDesktop (s : Screen) : bool := isDesktop s && negb (isCoarsePointer s) && (1280 <=? width s).

Lemma navDesktop_excludes s : navDesktop s = true -> isMobile s = false /\ isTablet s = false.
Proof. unfold navDesktop, isMobile, isTablet. intros H. to_prop. lia. Qed.

(** ** The collapsed navigation *)

Definition EXPAND_WIDTH : Z := 1440.
Definition COLLAPSE_WIDTH : Z := 1360.
Definition DEBOUNCE_MS : Z := 150.

(** [timer] is the target of the pending [setTimeout]. *)
Record Nav := mkNav { screen : Screen; collapsed : bool; timer : option bool }.

Definition target (s : Screen) (collapsed : bool) : bool :=
  if negb (navDesktop s) then true
  else if EXPAND_WIDTH <=? width s then false
  else if width s <? COLLAPSE_WIDTH then true
  else collapsed.

(** The effect on [[navDesktop, width, collapsed]], its cleanup included. *)
Definition collapse_effect (n : Nav) : Nav :=
  let t := target (screen n) (collapsed n) in
  mkNav (screen n) (collapsed n) (if bool_decide (t = collapsed n) then None else Some t).

Definition deps (n : Nav) : bool * Z * bool := (navDesktop (screen n), width (screen n), collapsed n).

(** A commit: the effect runs when a dependency changed. *)
Definition commit (old new : Nav) : Nav :=
  if bool_decide (deps old = deps new) then new else collapse_effect new.

Inductive NavEvent : Set :=
| ScreenChanged (e : ScreenEvent)
| SetCollapsed (b : bool)
| TimerFires.

Definition nav_step (n : Nav) (e : NavEvent) : Nav :=
  match e with
  | ScreenChanged e => commit n (mkNav (screen_step (screen n) e) (collapsed n) (timer n))
  | SetCollapsed b => commit n (mkNav (screen n) b (timer n))
  | TimerFires =>
      match timer n with
      | Some t => commit n (mkNav (screen n) t None)
      | None => n
      end
  end.

Definition nav_mount (s : Screen) : Nav := collapse_effect (mkNav s false None).

(** A timer is pending exactly while the navigation is not as the screen asks. *)
Definition nav_ok (n : Nav) : Prop :=
  timer n = if bool_decide (target (screen n) (collapsed n) = collapsed n) then None
            else Some (target (screen n) (collapsed n)).

Lemma commit_ok old new :
  nav_ok old -> timer new = timer old -> nav_ok (commit old new).
Proof.
  intros Hok Ht. unfold commit. case_bool_decide as Hd; [|reflexivity].
  unfold nav_ok in *. rewrite Ht, Hok. injection Hd as H1 H2 H3. unfold target. by rewrite H1, H2, H3.
Qed.

Lemma target_idempotent s c : target s (target s c) = target s c.
Proof. unfold target. destruct (navDesktop s); cbn; [|done]. by destruct (EXPAND_WIDTH <=? width s), (width s <? COLLAPSE_WIDTH). Qed.

Lemma collapse_step_ok n e : nav_ok n -> nav_ok (nav_step n e).
Proof.
  intros Hok. destruct e as [e|b|]; cbn [nav_step]; [by apply commit_ok..|].
  destruct (timer n) as [t|] eqn:Ht; [|done]. pose proof Hok as Hok'. unfold nav_ok in Hok'. rewrite Ht in Hok'.
  case_bool_decide as Hc; [done|]. injection Hok' as ->. unfold commit. rewrite bool_decide_eq_false_2; [reflexivity|].
  unfold deps. cbn. congruence.
Qed.

Theorem navigation_hysteresis s events :
  let n := run nav_step (nav_mount s) events in
  (timer n = None <-> collapsed n = target (screen n) (collapsed n)) /\
  (forall t, timer n = Some t ->
     t = target (screen n) t /\ timer (nav_step n TimerFires) = None /\ collapsed (nav_step n TimerFires) = t) /\
  (navDesktop (screen n) = true -> COLLAPSE_WIDTH <= width (screen n) < EXPAND_WIDTH -> timer n = None).
Proof.
  intros n. assert (nav_ok n) as Hok.
  { apply (run_invariant nav_step nav_ok); [intros; by apply collapse_step_ok|]. reflexivity. }
  split; [|split].
  - unfold nav_ok in Hok. rewrite Hok. case_bool_decide; split; congruence.
  - intros t Ht. pose proof (collapse_step_ok n TimerFires Hok) as Hok'.
    assert (t = target (screen n) (collapsed n)) as E.
    { unfold nav_ok in Hok. rewrite Ht in Hok. case_bool_decide; congruence. }
    assert (screen (nav_step n TimerFires) = screen n /\ collapsed (nav_step n TimerFires) = t) as [Hs Hc].
    { cbn [nav_step]. rewrite Ht. unfold commit. case_bool_decide; done. }
    split; [subst t; by rewrite target_idempotent|]. split; [|done].
    unfold nav_ok in Hok'. rewrite Hok', Hs, Hc. subst t. rewrite target_idempotent. by rewrite bool_decide_eq_true_2.
  - intros Hd Hw. unfold nav_ok in Hok. rewrite Hok. rewrite bool_decide_eq_true_2; [done|].
    unfold target. rewrite Hd. cbn [negb].
    destruct (Z.leb_spec EXPAND_WIDTH (width (screen n))); [lia|]. destruct (Z.ltb_spec (width (screen n)) COLLAPSE_WIDTH); [lia|done].
Qed.

(** ** Scrolling, header height, page title *)

Definition onScroll (threshold scrollY : Z) (prev : bool) : bool :=
  let shouldBeScrolled := threshold <? scrollY in
  if Bool.eqb prev shouldBeScrolled then prev else shouldBeScrolled.

(** The two custom properties, [--app-header-stack-full] and [--app-header-stack]; [None] until the
    first measure. Each write is recorded. *)
Record HeaderStack := mkStack { lastTotal : Z; writes : list (Z * Z) }.

Definition stack0 : HeaderStack := mkStack (-1) [].

(** A ref that is not mounted measures 0. *)
Definition header_update (reducePx : Z) (heights : list (option Z)) (h : HeaderStack) : HeaderStack :=
  let total := foldl (fun acc r => acc + (r ?? 0)) 0 heights in
  if total =? lastTotal h then h
  else mkStack total (writes h ++ [(total, Z.max 0 (total - reducePx))]).

(** No write repeats the value before it. *)
Lemma header_writes_change reducePx hss :
  let h := foldl (fun h hs => header_update reducePx hs h) stack0 hss in
  (writes h = [] \/ exists t, last (writes h) = Some (t, Z.max 0 (t - reducePx)) /\ lastTotal h = t) /\
  Sorted (fun a b => a.1 <> b.1) (writes h).
Proof.
  cut (forall h0, ((writes h0 = [] \/ exists t, last (writes h0) = Some (t, Z.max 0 (t - reducePx)) /\ lastTotal h0 = t) /\
    Sorted (fun a b => a.1 <> b.1) (writes h0)) ->
    let h := foldl (fun h hs => header_update reducePx hs h) h0 hss in
    (writes h = [] \/ exists t, last (writes h) = Some (t, Z.max 0 (t - reducePx)) /\ lastTotal h = t) /\
    Sorted (fun a b => a.1 <> b.1) (writes h)).
  { intros Hc. apply Hc. split; [by left|constructor]. }
  induction hss as [|hs hss IH]; intros h0 Hok; [done|]. cbn [foldl]. apply IH.
  unfold header_update. destruct (Z.eqb_spec (foldl (fun acc r => acc + (r ?? 0)) 0 hs) (lastTotal h0)) as [|Hne]; [done|].
  destruct Hok as [Hl Hs]. cbn [writes lastTotal]. split.
  - right. eexists. rewrite last_snoc. done.
  - destruct Hl as [->|(t & Hl & Ht)]; [by repeat constructor|]. revert Hs Hl.
    induction 1 as [|x l Hsl IHl Hx]; [done|]. intros Hl. cbn [app]. constructor.
    + destruct l as [|y l]; [by repeat constructor|]. apply IHl. by rewrite last_cons_cons in Hl.
    + destruct l as [|y l]; cbn; constructor; [|by inversion Hx]. cbn in Hl |- *. injection Hl as ->. cbn. congruence.
Qed.

(** [h.offsetParent !== null] of each heading, in document order. *)
Definition focusPageHeading (visible : list bool) : option nat :=
  match find_index id visible with
  | Some i => Some i
  | None => match visible with [] => None | _ => Some 0%nat end
  end.

(** ** The entrance of a chart *)

Definition ENTRANCE_MS : Z := 600.

(** [doneKey !== shapeKey && !reducedMotion()] *)
Definition entrance_active (doneKey : option string) (shapeKey : string) (reducedMotion : bool) : bool :=
  negb (bool_decide (doneKey = Some shapeKey)) && negb reducedMotion.

(** The hook: the key it is done with, and the key of the pending timer. *)
Record Entrance := mkEntrance { doneKey : option string; e_timer : option string }.

Inductive EntranceEvent : Type :=
| RenderChart (shapeKey : string) (reducedMotion : bool)
| EntranceTimer.

Definition entrance_step (e : Entrance) (ev : EntranceEvent) : Entrance :=
  match ev with
  | RenderChart k rm => mkEntrance (doneKey e) (if entrance_active (doneKey e) k rm then Some k else None)
  | EntranceTimer => match e_timer e with Some k => mkEntrance (Some k) None | None => e end
  end.

(** A refetch of the window that was animated does not replay it. *)
Lemma entrance_not_replayed e k rm :
  e_timer e = Some k -> entrance_active (doneKey (entrance_step e EntranceTimer)) k rm = false.
Proof. intros Ht. cbn. rewrite Ht. unfold entrance_active. cbn. by rewrite bool_decide_eq_true_2. Qed.
