(* ===== verification/Async.v ===== *)
(** * Asynchronous handlers

    An [async] handler of a page is a program over the page's state: it updates the state between
    its [await]s, calls the API at them, and may throw. A call is answered later, with whatever else
    happened to the page in between. [play] runs one handler against answers and interference;
    [Sys] is a page with any number of handlers in flight. *)

From S2P Require Import Prelude.

(** [toast.success(...)] and its siblings: what was shown, in order, is part of a page's state. *)
Inductive ToastKind : Set := ToastSuccess | ToastInfo | ToastWarning | ToastError.
#[export] Instance ToastKind_eq_dec : EqDecision ToastKind.
Proof. solve_decision. Defined.
Record UiToast := mkToast { toast_kind : ToastKind; toast_text : string }.
(** With [{ description }]. *)
Record DescToast := mkDescToast { dt_kind : ToastKind; dt_text : string; dt_description : option string }.

(** A page's own events, read as events of the system. *)
Lemma run_map {S Ev Ev'} (f : Ev' -> Ev) (step : S -> Ev -> S) (step' : S -> Ev' -> S) :
  (forall s e, step' s e = step s (f e)) -> forall evs s, run step' s evs = run step s (map f evs).
Proof. intros Hf evs. induction evs as [|e evs IH]; intros s; [done|]. cbn in *. by rewrite Hf, IH. Qed.

(** What leaves a flag alone does not raise it. *)
Lemma unchanged_flag {S : Type} (busy : S -> bool) (f : S -> S) :
  (forall s, busy (f s) = busy s) -> forall s, busy (f s) = true -> busy s = true.
Proof. intros Hf s. by rewrite Hf. Qed.

Section prog.
Context {Err Req St : Type} {Resp : Req -> Type}.

(** [Call] suspends: the continuation gets the answer, or the error the promise rejects with. *)
Inductive Prog (A : Type) : Type :=
| Ret (a : A)
| Raise (e : Err)
| Upd (f : St -> St) (p : Prog A)
| Call (r : Req) (k : result Err (Resp r) -> Prog A).
#[global] Arguments Ret {A} a.
#[global] Arguments Raise {A} e.
#[global] Arguments Upd {A} f p.
#[global] Arguments Call {A} r k.

#[export] Instance prog_ret : MRet Prog := fun _ a => Ret a.
#[export] Instance prog_bind : MBind Prog := fun A B f => fix go p :=
  match p with
  | Ret a => f a
  | Raise e => Raise e
  | Upd g p' => Upd g (go p')
  | Call r k => Call r (fun a => go (k a))
  end.

(** [await request] *)
Definition await (r : Req) : Prog (Resp r) :=
  Call r (fun a => match a with Ok x => Ret x | Throw e => Raise e end).
(** A state update: [setState], a store action, a toast. *)
Definition perform (f : St -> St) : Prog unit := Upd f (Ret tt).

(** [try { p } catch (e) { h(e) }] *)
Fixpoint try_async {A} (p : Prog A) (h : Err -> Prog A) : Prog A :=
  match p with
  | Ret a => Ret a
  | Raise e => h e
  | Upd g p' => Upd g (try_async p' h)
  | Call r k => Call r (fun a => try_async (k a) h)
  end.

(** [try { p } finally { g }] *)
Fixpoint finally {A} (p : Prog A) (g : St -> St) : Prog A :=
  match p with
  | Ret a => Upd g (Ret a)
  | Raise e => Upd g (Raise e)
  | Upd f p' => Upd f (finally p' g)
  | Call r k => Call r (fun a => finally (k a) g)
  end.

(** ** Execution *)

(** Up to the next [await], without interruption. *)
Fixpoint drain {A} (p : Prog A) (s : St) : St * Prog A :=
  match p with Upd f p' => drain p' (f s) | _ => (s, p) end.

(** What the API answers at one moment. *)
Definition World := forall r, result Err (Resp r).

(** [commit] is React's: the effects that run when the state has changed. *)
Context (commit : St -> St).

Definition advance {A} (p : Prog A) (s : St) : St * Prog A :=
  let '(s', p') := drain p s in (commit s', p').

Definition resume {A} (w : World) (p : Prog A) (s : St) : St * Prog A :=
  advance (match p with Call r k => k (w r) | _ => p end) s.

(** Each step: what else happens to the page, then an answer. *)
Fixpoint answers {A} (steps : list ((St -> St) * World)) (p : Prog A) (s : St) : St * Prog A :=
  match steps with
  | [] => (s, p)
  | (f, w) :: steps' => let '(s', p') := resume w p (f s) in answers steps' p' s'
  end.

Definition play {A} (steps : list ((St -> St) * World)) (p : Prog A) (s : St) : St * Prog A :=
  let '(s', p') := advance p s in answers steps p' s'.

Lemma play_one {A} f w (p : Prog A) s :
  play [(f, w)] p s = resume w (advance p s).2 (f (advance p s).1).
Proof. unfold play. destruct (advance p s) as [s' p']. cbn. by destruct (resume w p' (f s')). Qed.

Lemma play_cons {A} f w steps (p : Prog A) s :
  play ((f, w) :: steps) p s
  = answers steps (resume w (advance p s).2 (f (advance p s).1)).2 (resume w (advance p s).2 (f (advance p s).1)).1.
Proof. unfold play. destruct (advance p s) as [s' p']. cbn. by destruct (resume w p' (f s')). Qed.

(** ** Every request of a handler *)

Fixpoint sends {A} (P : Req -> Prop) (p : Prog A) : Prop :=
  match p with
  | Ret _ | Raise _ => True
  | Upd _ p' => sends P p'
  | Call r k => P r /\ forall a, sends P (k a)
  end.

Lemma sends_bind {A B} P (f : A -> Prog B) (p : Prog A) :
  sends P p -> (forall a, sends P (f a)) -> sends P (p ≫= f).
Proof. intros Hp Hf. induction p as [a|e|g p IH|r k IH]; cbn in *; try done; [by apply IH|]. naive_solver. Qed.

Lemma sends_try {A} P (p : Prog A) h :
  sends P p -> (forall e, sends P (h e)) -> sends P (try_async p h).
Proof. intros Hp Hh. induction p as [a|e|g p IH|r k IH]; cbn in *; try done; [by apply IH|]. naive_solver. Qed.

Lemma sends_finally {A} P (p : Prog A) g : sends P p -> sends P (finally p g).
Proof. intros Hp. induction p as [a|e|f p IH|r k IH]; cbn in *; try done; [by apply IH|]. naive_solver. Qed.

(** ** Every way a handler ends *)

(** Whatever the answers and the interference, if the handler ends, it ends in a state of [Q]. *)
Fixpoint ends {A} (Q : result Err A -> St -> Prop) (p : Prog A) (s : St) : Prop :=
  match p with
  | Ret a => Q (Ok a) s
  | Raise e => Q (Throw e) s
  | Upd f p' => ends Q p' (f s)
  | Call r k => forall a s', ends Q (k a) s'
  end.

Lemma ends_mono {A} (Q Q' : result Err A -> St -> Prop) p s :
  (forall o s', Q o s' -> Q' o s') -> ends Q p s -> ends Q' p s.
Proof. intros HQ. revert s. induction p as [a|e|g p IH|r k IH]; cbn; eauto. Qed.

Lemma ends_finally {A} (Q : result Err A -> St -> Prop) (p : Prog A) g s :
  (forall o s', Q o (g s')) -> ends Q (finally p g) s.
Proof. intros HQ. revert s. induction p as [a|e|f p IH|r k IH]; intros s; cbn; eauto. Qed.

Lemma ends_drain {A} (Q : result Err A -> St -> Prop) (p : Prog A) s :
  ends Q p s <-> ends Q (drain p s).2 (drain p s).1.
Proof. revert s. induction p as [a|e|f p IH|r k IH]; intros s; cbn; [done|done|apply IH|done]. Qed.

(** ** Pages with handlers in flight *)

Record Sys := mkSys { ui : St; inflight : list (Prog unit) }.

Definition suspended (p : Prog unit) : bool := match p with Call _ _ => true | _ => false end.

(** A handler that has ended, normally or not, is gone. *)
Definition keep (p : Prog unit) (l : list (Prog unit)) : list (Prog unit) :=
  if suspended p then l ++ [p] else l.

Inductive SysEvent : Type :=
| Start (handler : St -> Prog unit)
| Answer (i : nat) (w : World)
| Other (f : St -> St).

Definition sys_step (y : Sys) (e : SysEvent) : Sys :=
  match e with
  | Start handler =>
      let '(s, p) := advance (handler (ui y)) (ui y) in mkSys s (keep p (inflight y))
  | Answer i w =>
      match inflight y !! i with
      | Some p => let '(s, p') := resume w p (ui y) in mkSys s (keep p' (delete i (inflight y)))
      | None => y
      end
  | Other f => mkSys (commit (f (ui y))) (inflight y)
  end.

Lemma elem_of_keep q p l : q ∈ keep p l <-> q ∈ l \/ (q = p /\ suspended p = true).
Proof.
  unfold keep. destruct (suspended p); [|naive_solver].
  rewrite elem_of_app, list_elem_of_singleton. naive_solver.
Qed.

(** ** An invariant of the page *)

(** Every update of the handler keeps [I], whatever it is answered. *)
Fixpoint keeps {A} (I : St -> Prop) (p : Prog A) : Prop :=
  match p with
  | Ret _ | Raise _ => True
  | Upd f p' => (forall s, I s -> I (f s)) /\ keeps I p'
  | Call r k => forall a, keeps I (k a)
  end.

Lemma keeps_bind {A B} I (f : A -> Prog B) (p : Prog A) :
  keeps I p -> (forall a, keeps I (f a)) -> keeps I (p ≫= f).
Proof. intros Hp Hf. induction p as [a|e|g p IH|r k IH]; cbn in *; try done; naive_solver. Qed.

Lemma keeps_try {A} I (p : Prog A) h : keeps I p -> (forall e, keeps I (h e)) -> keeps I (try_async p h).
Proof. intros Hp Hh. induction p as [a|e|g p IH|r k IH]; cbn in *; try done; naive_solver. Qed.

Lemma keeps_finally {A} I (p : Prog A) g :
  keeps I p -> (forall s, I s -> I (g s)) -> keeps I (finally p g).
Proof. intros Hp Hg. induction p as [a|e|f p IH|r k IH]; cbn in *; naive_solver. Qed.

Lemma keeps_drain {A} I (p : Prog A) s : keeps I p -> I s -> I (drain p s).1 /\ keeps I (drain p s).2.
Proof.
  revert s. induction p as [a|e|f p IH|r k IH]; intros s Hp Hs; cbn in *; try done.
  destruct Hp as [Hf Hp]. apply IH; [done|]. by apply Hf.
Qed.

Section invariant.
Context (I : St -> Prop) (Hcommit : forall s, I s -> I (commit s)).

(** Handlers that are started while [I] holds. *)
Definition event_keeps_on (e : SysEvent) : Prop :=
  match e with
  | Start h => forall s, I s -> keeps I (h s)
  | Answer _ _ => True
  | Other f => forall s, I s -> I (f s)
  end.

Lemma sys_keeps_on y evs :
  I (ui y) -> Forall (keeps I) (inflight y) -> Forall event_keeps_on evs -> I (ui (run sys_step y evs)).
Proof.
  intros Hy Hp Hev. revert y Hy Hp. induction Hev as [|e evs He Hev IH]; intros y Hy Hp; [done|].
  assert (forall p s l, keeps I p -> I s -> Forall (keeps I) l ->
    I (ui (let '(s', p') := advance p s in mkSys s' (keep p' l))) /\
    Forall (keeps I) (inflight (let '(s', p') := advance p s in mkSys s' (keep p' l)))) as Hadv.
  { intros p s l Hk Hs Hl. unfold advance. destruct (keeps_drain I p s Hk Hs) as [Hs' Hk'].
    destruct (drain p s) as [s' p']. cbn [ui inflight] in *. split; [by apply Hcommit|].
    apply Forall_forall. intros q [Hq|[-> _]]%elem_of_keep; [|done]. rewrite Forall_forall in Hl. by apply Hl. }
  cbn [run foldl]. change (foldl sys_step (sys_step y e) evs) with (run sys_step (sys_step y e) evs).
  destruct e as [h|i w|f]; cbn [sys_step event_keeps_on] in *.
  - destruct (Hadv (h (ui y)) (ui y) (inflight y) (He _ Hy) Hy Hp) as [H1 H2]. by apply IH.
  - destruct (inflight y !! i) as [p|] eqn:Hi; [|by apply IH].
    assert (keeps I p) as Hk by (rewrite Forall_forall in Hp; apply Hp; by eapply list_elem_of_lookup_2).
    assert (Forall (keeps I) (delete i (inflight y))) as Hd.
    { rewrite (delete_Permutation _ i p Hi) in Hp. by inversion Hp. }
    unfold resume. assert (keeps I (match p with Call r k => k (w r) | _ => p end)) as Hk'
      by (destruct p; auto).
    destruct (Hadv _ (ui y) (delete i (inflight y)) Hk' Hy Hd) as [H1 H2]. by apply IH.
  - apply IH; cbn [ui inflight]; [by apply Hcommit, He|done].
Qed.

Definition event_keeps (e : SysEvent) : Prop :=
  match e with
  | Start h => forall s, keeps I (h s)
  | Answer _ _ => True
  | Other f => forall s, I s -> I (f s)
  end.

Lemma sys_keeps y evs :
  I (ui y) -> Forall (keeps I) (inflight y) -> Forall event_keeps evs -> I (ui (run sys_step y evs)).
Proof.
  intros Hy Hp Hev. apply sys_keeps_on; [done..|]. eapply Forall_impl; [exact Hev|].
  intros [h|i w|f] He; cbn in *; auto.
Qed.
End invariant.

(** ** A busy flag *)

(** Handlers of two kinds run on a page: those that raise a flag before their first [await] and lower
    it when they end, and those that never touch it. *)
Section busy.
Context (busy : St -> bool).

Definition lowers (p : Prog unit) : Prop := forall s, ends (fun _ s' => busy s' = false) p s.

Fixpoint untouched {A} (p : Prog A) : Prop :=
  match p with
  | Ret _ | Raise _ => True
  | Upd f p' => (forall s, busy (f s) = busy s) /\ untouched p'
  | Call r k => forall a, untouched (k a)
  end.

(** A handler as it is invoked. *)
Definition well_behaved (p : Prog unit) : Prop :=
  untouched p \/ exists f q, p = Upd f q /\ lowers q.

Lemma untouched_bind {A B} (f : A -> Prog B) (p : Prog A) :
  untouched p -> (forall a, untouched (f a)) -> untouched (p ≫= f).
Proof. intros Hp Hf. induction p as [a|e|g p IH|r k IH]; cbn in *; try done; [naive_solver|]. naive_solver. Qed.

Lemma untouched_try {A} (p : Prog A) h :
  untouched p -> (forall e, untouched (h e)) -> untouched (try_async p h).
Proof. intros Hp Hh. induction p as [a|e|g p IH|r k IH]; cbn in *; try done; [naive_solver|]. naive_solver. Qed.

Lemma untouched_drain {A} (p : Prog A) s :
  untouched p -> busy (drain p s).1 = busy s /\ untouched (drain p s).2.
Proof.
  revert s. induction p as [a|e|f p IH|r k IH]; intros s Hp; cbn in *; try done.
  destruct Hp as [Hf Hp]. destruct (IH (f s) Hp) as [-> ?]. by rewrite Hf.
Qed.

Lemma drain_stops {A} (p : Prog A) s : match (drain p s).2 with Upd _ _ => False | _ => True end.
Proof. revert s. induction p as [a|e|f p IH|r k IH]; intros s; cbn; [done|done|apply IH|done]. Qed.

Lemma drain_lowers (p : Prog unit) s :
  lowers p ->
  (suspended (drain p s).2 = true /\ lowers (drain p s).2) \/
  (suspended (drain p s).2 = false /\ busy (drain p s).1 = false).
Proof.
  intros Hp. pose proof (proj1 (ends_drain _ p s) (Hp s)) as He. pose proof (drain_stops p s) as Hs.
  destruct (drain p s) as [s' p']. cbn in *. destruct p' as [a|e|f p'|r k]; cbn in *; auto; [done|].
  left. split; [done|]. intros s0. cbn. auto.
Qed.

(** The effects, and what else happens to the page, may lower the flag but not raise it. *)
Context (Hcommit : forall s, busy (commit s) = true -> busy s = true).

(** While the flag is up, a handler is in flight that will lower it. *)
Definition busy_ok (y : Sys) : Prop :=
  (forall p, p ∈ inflight y -> untouched p \/ lowers p) /\
  (busy (ui y) = true -> exists p, p ∈ inflight y /\ lowers p).

Definition event_ok (e : SysEvent) : Prop :=
  match e with
  | Start h => forall s, well_behaved (h s)
  | Answer _ _ => True
  | Other f => forall s, busy (f s) = true -> busy s = true
  end.

(** A program that runs on leaves the invariant, given the handlers [l] beside it. *)
Lemma advance_ok (p : Prog unit) s l :
  (forall q, q ∈ l -> untouched q \/ lowers q) ->
  (untouched p /\ (busy s = true -> exists q, q ∈ l /\ lowers q)) \/ lowers p ->
  busy_ok (let '(s', p') := advance p s in mkSys s' (keep p' l)).
Proof.
  intros Hl Hp. unfold advance.
  destruct Hp as [[Hu Hb]|Hlow].
  - destruct (untouched_drain p s Hu) as [Hs Hu']. destruct (drain p s) as [s' p']. cbn in *.
    split; cbn [ui inflight].
    + intros q [?|[-> ?]]%elem_of_keep; auto.
    + intros E%Hcommit. rewrite Hs in E. apply Hb in E as [q [Hq ?]]. exists q. rewrite elem_of_keep. auto.
  - pose proof (drain_lowers p s Hlow) as Hd. destruct (drain p s) as [s' p']. cbn in *.
    split; cbn [ui inflight].
    + intros q [?|[-> ?]]%elem_of_keep; [auto|]. right. destruct Hd as [[_ ?]|[? _]]; [done|congruence].
    + intros E%Hcommit. destruct Hd as [[Hs ?]|[_ Hd]]; [|congruence]. exists p'.
      rewrite elem_of_keep. auto.
Qed.

Lemma elem_of_delete_or {A} (l : list A) i x y : l !! i = Some x -> y ∈ l -> y ∈ delete i l \/ y = x.
Proof. intros Hi Hy. rewrite (delete_Permutation l i x Hi), elem_of_cons in Hy. tauto. Qed.

Lemma sys_step_ok y e : event_ok e -> busy_ok y -> busy_ok (sys_step y e).
Proof.
  intros He [Hl Hb]. destruct e as [h|i w|f]; cbn [sys_step event_ok] in *.
  - destruct (He (ui y)) as [Hu|(f & q & Hq & Hlow)].
    + apply (advance_ok (h (ui y)) (ui y)); auto.
    + rewrite Hq. change (advance (Upd f q) (ui y)) with (advance q (f (ui y))). apply advance_ok; auto.
  - destruct (inflight y !! i) as [p|] eqn:Hi; [|done].
    assert (p ∈ inflight y) as Hin by (by eapply list_elem_of_lookup_2).
    assert (forall q, q ∈ delete i (inflight y) -> untouched q \/ lowers q) as Hl'.
    { intros q Hq. apply Hl. rewrite (delete_Permutation _ i p Hi), elem_of_cons. auto. }
    assert ((untouched p /\ (busy (ui y) = true -> exists q, q ∈ delete i (inflight y) /\ lowers q))
            \/ lowers p) as Hp.
    { destruct (Hl p Hin) as [Hu|]; [|auto]. destruct (busy (ui y)) eqn:E; [|by left].
      destruct (Hb eq_refl) as (q & Hq & Hlow).
      destruct (elem_of_delete_or _ i p q Hi Hq) as [Hd| ->]; [|auto]. left. eauto. }
    unfold resume. apply advance_ok; [done|]. destruct p as [a|e|f p|r k]; try done.
    destruct Hp as [[Hu ?]|Hlow]; [left; split; [apply Hu|done]|right].
    intros s. specialize (Hlow s). cbn in Hlow. apply Hlow.
  - split; cbn [ui inflight]; [done|]. intros E%Hcommit%He. by apply Hb.
Qed.

(** A page that starts idle is never left busy: when no handler is in flight, the flag is down. *)
Lemma busy_settles s0 evs :
  busy s0 = false -> Forall event_ok evs ->
  let y := run sys_step (mkSys s0 []) evs in
  busy_ok y /\ (inflight y = [] -> busy (ui y) = false).
Proof.
  intros H0 Hev. cbv zeta.
  assert (busy_ok (run sys_step (mkSys s0 []) evs)) as Hok.
  { assert (busy_ok (mkSys s0 [])) as Hi by (split; cbn; [intros p Hp%elem_of_nil; done|congruence]).
    revert Hi. generalize (mkSys s0 []). induction Hev as [|e evs He Hev IH]; intros y Hy; [done|].
    apply IH. by apply sys_step_ok. }
  split; [done|]. intros Hn. apply not_true_is_false. intros E.
  destruct (proj2 Hok E) as (p & Hp & _). rewrite Hn in Hp. by apply elem_of_nil in Hp.
Qed.
End busy.
End prog.

#[global] Arguments Prog : clear implicits.
#[global] Arguments Sys : clear implicits.
#[global] Arguments SysEvent : clear implicits.
#[global] Arguments World : clear implicits.
