(* ===== verification/CustomRulesPage.v ===== *)
(** * The custom rules page

    [src/app/src/pages/custom_rules/MainContentSection.tsx] and [RuleEditDialog.tsx]: the state of
    the page, the effects that reset it, its asynchronous handlers, and the form that edits a rule.
    A handler is invoked with the state it was rendered with, and reads nothing else before its
    first [await]; what it writes after an [await], it writes to the state of that moment. *)

From S2P Require Import Prelude JsString ApiTypes Formats CustomRules RuleComposer Store Async.
From coqutil Require Import Datatypes.RecordSetters.
Import TriangleBracketNotations.

#[local] Arguments constant _ _ _ /.

(** ** Requests *)

(** [All] is [Promise.all] over requests whose answers are not used: it rejects with the first
    rejection. *)
Inductive ApiRequest : Type :=
| CustomRulesBatchPost (profileId action : string) (values : list string)
| ProfileGet (profileId : string)
| CustomRuleDelete (profileId ruleId : string)
| CustomRulePatch (profileId ruleId : string) (patch : RequestsUpdateProfileCustomRuleBody)
| CustomRulesOrderPatch (profileId : string) (order : list string)
| CustomRuleGroupsPatch (profileId : string) (updates : list RequestsCustomRuleGroupUpdate)
| CustomRuleGroupsOrderPatch (profileId action : string) (order : list string)
| All (requests : list ApiRequest).

(** [response.data], which the batch handler reads with [?.]. *)
Definition ApiResponse (r : ApiRequest) : Type :=
  match r with
  | CustomRulesBatchPost _ _ _ => option ResponsesCreateProfileCustomRulesBatchResponse
  | ProfileGet _ => ModelProfile
  | _ => unit
  end.

(** ** State *)

(** [Record<RuleTab, RuleOption[]>] *)
Record ComposerTokens := mkTokens { ct_denylist : list RuleOption; ct_allowlist : list RuleOption }.
Definition tokensOf (t : ComposerTokens) (tab : RuleList) : list RuleOption :=
  match tab with denylist => ct_denylist t | allowlist => ct_allowlist t end.
Definition setTokensOf (tab : RuleList) (next : list RuleOption) (t : ComposerTokens) : ComposerTokens :=
  match tab with
  | denylist => mkTokens next (ct_allowlist t)
  | allowlist => mkTokens (ct_denylist t) next
  end.

(** [resetFor] is the profile id the resetting effect last ran for. *)
Record Page := mkPage {
  store : AppState;
  loaded : list ModelProfile;
  activeTab : RuleList;
  showSearch : bool;
  searchValue : string;
  loading : bool;
  selectedIds : list string;
  editingRule : option ModelCustomRule;
  composerTokens : ComposerTokens;
  toasts : list UiToast;
  resetFor : option string;
}.

Notation Handler := (Prog CaughtError ApiRequest Page ApiResponse unit).

Definition activeProfileId (s : Page) : option string := p_profile_id <$> activeProfile (store s).

(** [if (!activeProfile?.profile_id)]: an empty id is none. *)
Definition selectedProfileId (s : Page) : option string :=
  id ← activeProfileId s; if truthy id then Some id else None.

Definition customRules (s : Page) : list ModelCustomRule :=
  (p ← activeProfile (store s); st ← p_settings p; ps_custom_rules st) ?? [].

Definition tabRules (tab : RuleList) (s : Page) : list ModelCustomRule :=
  List.filter (fun r => String.eqb (cr_action r) (TAB_TO_ACTION tab)) (customRules s).

Definition hasRules (tab : RuleList) (s : Page) : bool := (0 <? length (tabRules tab s))%nat.

(** ** State updates *)

Definition setLoading (b : bool) (s : Page) : Page := s <| loading := b |>.
Definition showToast (k : ToastKind) (text : string) (s : Page) : Page :=
  s <| toasts := (toasts s ++ [mkToast k text])%list |>.
Definition setActive (p : ModelProfile) (s : Page) : Page :=
  s <| store := setActiveProfile (Some p) (store s) |>.
Definition updateComposerTokens (tab : RuleList) (next : list RuleOption) (s : Page) : Page :=
  s <| composerTokens := setTokensOf tab next (composerTokens s) |>.

(** ** Effects *)

Definition resetEffect (s : Page) : Page :=
  if bool_decide (resetFor s = activeProfileId s) then s
  else s <| composerTokens := mkTokens [] [] |> <| selectedIds := [] |> <| resetFor := activeProfileId s |>.

Definition defaultEffect (s : Page) : Page :=
  match activeProfile (store s), loaded s with
  | None, p :: _ => setActive p s
  | _, _ => s
  end.

Definition searchEffect (s : Page) : Page :=
  if hasRules (activeTab s) s then s else s <| showSearch := false |>.

(** The effects of a commit; the profile the second one selects makes the first one run again. *)
Definition commit (s : Page) : Page := searchEffect (resetEffect (defaultEffect (resetEffect s))).

(** ** The composer *)

Definition entries (n : nat) (one many : string) : string :=
  show (Z.of_nat n) ++s " entr" ++s (if (n =? 1)%nat then one else many).

(** The [Map] from a value to the last skipped item with it. *)
Definition skippedByValue (skipped : list ResponsesCustomRuleBatchSkipped)
    : gmap string ResponsesCustomRuleBatchSkipped :=
  foldl (fun m item => match bs_value item with
                       | Some v => if truthy v then <[v := item]> m else m
                       | None => m
                       end) ∅ skipped.

Definition skippedToken (m : gmap string ResponsesCustomRuleBatchSkipped) (t : RuleOption) : option RuleOption :=
  item ← m !! o_value t;
  Some (mkOption (o_label t) (o_value t)
          (Some {| m_error := Some (bs_message item ?? "Unable to add entry."); m_reason := bs_reason item |})).

(** What stays in the composer: the tokens that already had an error and the skipped ones. *)
Definition leftTokens (staticTokens submissionTokens : list RuleOption)
    (skipped : list ResponsesCustomRuleBatchSkipped) : list RuleOption :=
  dedup_by o_value [] (staticTokens ++ omap (skippedToken (skippedByValue skipped)) submissionTokens).

(** The handlers that show the skeleton: [setLoading(true)], [try], [catch] with a toast, [finally]. *)
Definition guarded (failMsg : string) (body : Handler) : Handler :=
  perform (setLoading true);;
  finally (try_async body (fun e => perform (showToast ToastError (formatApiError e failMsg))))
    (setLoading false).

(** [response.data?.created ?? []] and [response.data?.skipped ?? []] *)
Definition createdOf (response : option ResponsesCreateProfileCustomRulesBatchResponse) :=
  (d ← response; br_created d) ?? [].
Definition skippedOf (response : option ResponsesCreateProfileCustomRulesBatchResponse) :=
  (d ← response; br_skipped d) ?? [].

(** The [try] block of the submission. *)
Definition submitBody (tab : RuleList) (id : string) (staticTokens submissionTokens : list RuleOption) : Handler :=
  response ← await (CustomRulesBatchPost id (TAB_TO_ACTION tab) (map o_value submissionTokens));
  let created := createdOf response in
  let skipped := skippedOf response in
  match created with
  | [] => mret ()
  | _ =>
    updated ← await (ProfileGet id);
    perform (setActive updated);;
    perform (showToast ToastSuccess (entries (length created) "y" "ies" ++s " added to the "
                                     ++s ruleListValue tab ++s "."))
  end;;
  match skipped with
  | [] => mret ()
  | _ => perform (showToast ToastWarning (entries (length skipped) "y was" "ies were"
                                          ++s " skipped. Review the highlighted items."))
  end;;
  match created, skipped with
  | [], [] => perform (showToast ToastInfo "No changes were made.")
  | _, _ => mret ()
  end;;
  perform (updateComposerTokens tab
    match skipped, staticTokens with [], [] => [] | _, _ => leftTokens staticTokens submissionTokens skipped end).

Definition handleComposerSubmit (tab : RuleList) (tokensOverride : option (list RuleOption)) (s : Page) : Handler :=
  match selectedProfileId s with
  | None => perform (showToast ToastError "Select a profile before adding custom rules.")
  | Some id =>
      let originalTokens := tokensOverride ?? tokensOf (composerTokens s) tab in
      let staticTokens := List.filter hasError originalTokens in
      let submissionTokens := List.filter (fun t => negb (hasError t)) originalTokens in
      match submissionTokens with
      | [] => mret ()
      | _ => guarded "Failed to add custom rules" (submitBody tab id staticTokens submissionTokens)
      end
  end.

(** ** Rules *)

(** [await request; const updated = await get(profile); setActiveProfile(updated.data)] *)
Definition refetch (id : string) : Handler :=
  updated ← await (ProfileGet id);
  perform (setActive updated).

Definition withProfile (s : Page) (body : string -> Handler) : Handler :=
  match selectedProfileId s with Some id => body id | None => mret () end.

Definition handleDeleteRule (userRuleId : string) (s : Page) : Handler :=
  withProfile s (fun id =>
    guarded "Failed to delete rule" (
      await (CustomRuleDelete id userRuleId);;
      refetch id;;
      perform (showToast ToastSuccess "Custom rule deleted successfully."))).

Definition handleEntryCheck (id : string) (checked : bool) (s : Page) : Page :=
  s <| selectedIds :=
    if checked then (if bool_decide (id ∈ selectedIds s) then selectedIds s else (selectedIds s ++ [id])%list)
    else List.filter (fun selId => negb (String.eqb selId id)) (selectedIds s) |>.

(** [setSelectedIds([])] *)
Definition deselectAll (s : Page) : Page := s <| selectedIds := [] |>.

Definition handleBulkDelete (s : Page) : Handler :=
  withProfile s (fun id =>
    match selectedIds s with
    | [] => mret ()
    | _ =>
      guarded "Failed to delete selected rules" (
        await (All (map (CustomRuleDelete id) (selectedIds s)));;
        refetch id;;
        perform (showToast ToastSuccess "Selected custom rules deleted successfully.");;
        perform deselectAll)
    end).

Definition setEditingRule (r : option ModelCustomRule) (s : Page) : Page := s <| editingRule := r |>.

(** [Object.keys(patch).length === 0] *)
Definition noKeys (p : RequestsUpdateProfileCustomRuleBody) : bool :=
  match p with
  | MkRequestsUpdateProfileCustomRuleBody None None None None None => true
  | _ => false
  end.

Definition handleSaveEdit (ruleId : string) (patch : RequestsUpdateProfileCustomRuleBody) (s : Page) : Handler :=
  withProfile s (fun id =>
    if noKeys patch then perform (setEditingRule None) else
    guarded "Failed to update rule" (
      await (CustomRulePatch id ruleId patch);;
      refetch id;;
      perform (showToast ToastSuccess "Rule updated.");;
      perform (setEditingRule None))).

(** ** Order *)

Definition byOrder (a b : ModelCustomRule) : Z := (cr_order a ?? 0) - (cr_order b ?? 0).

Definition idsByOrder (tab : RuleList) (s : Page) : list string :=
  map cr_id (array_sort byOrder (tabRules tab s)).

(** The moved tab's ids as the card gives them, the other tab's in their order. *)
Definition fullOrder (tab : RuleList) (orderedIdsForTab : list string) (s : Page) : list string :=
  (match tab with denylist => orderedIdsForTab | allowlist => idsByOrder denylist s end ++
   match tab with allowlist => orderedIdsForTab | denylist => idsByOrder allowlist s end)%list.

(** The catch of the order handlers: what was shown optimistically is fetched again. *)
Definition orRefetch (id failMsg : string) (body : Handler) : Handler :=
  try_async body (fun e =>
    perform (showToast ToastError (formatApiError e failMsg));;
    refetch id).

Definition handleReorder (tab : RuleList) (orderedIdsForTab : list string) (s : Page) : Handler :=
  withProfile s (fun id =>
    orRefetch id "Failed to reorder rules" (
      await (CustomRulesOrderPatch id (fullOrder tab orderedIdsForTab s));;
      refetch id)).

Definition groupPatch (newGroup : string) : RequestsUpdateProfileCustomRuleBody :=
  MkRequestsUpdateProfileCustomRuleBody None (Some newGroup) None None None.

Definition handleMoveRule (tab : RuleList) (orderedIdsForTab : list string) (ruleId newGroup : string) (s : Page)
    : Handler :=
  withProfile s (fun id =>
    orRefetch id "Failed to move rule" (
      await (CustomRulePatch id ruleId (groupPatch newGroup));;
      await (CustomRulesOrderPatch id (fullOrder tab orderedIdsForTab s));;
      refetch id)).

(** ** Groups *)

Definition applyGroupOps (ops : list RequestsCustomRuleGroupUpdate) (failMsg : string)
    (successMsg : option string) (s : Page) : Handler :=
  withProfile s (fun id =>
    try_async (
      await (CustomRuleGroupsPatch id ops);;
      refetch id;;
      (if truthy_opt successMsg then perform (showToast ToastSuccess (successMsg ?? "")) else mret ()))
      (fun e => perform (showToast ToastError (formatApiError e failMsg)))).

(** [action] is the action of the tab the card shows. *)
Definition handleGroupNote (tab : RuleList) (group : string) (note : option string) (s : Page) : Handler :=
  applyGroupOps
    [MkRequestsCustomRuleGroupUpdate GroupReplace (TAB_TO_ACTION tab) None (toPointer group) (Some (note ?? ""))]
    "Failed to save group note" None s.

Definition handleCreateGroup (tab : RuleList) (name : string) (s : Page) : Handler :=
  applyGroupOps
    [MkRequestsCustomRuleGroupUpdate GroupAdd (TAB_TO_ACTION tab) None (toPointer name) (Some "")]
    "Failed to create group" None s.

Definition handleRenameGroup (tab : RuleList) (from to : string) (s : Page) : Handler :=
  applyGroupOps
    [MkRequestsCustomRuleGroupUpdate GroupMove (TAB_TO_ACTION tab) (Some (toPointer from)) (toPointer to) None]
    "Failed to rename group" (Some ("Group renamed to " ++s quoted to ++s ".")) s.

Definition handleDeleteGroup (tab : RuleList) (name : string) (s : Page) : Handler :=
  applyGroupOps
    [MkRequestsCustomRuleGroupUpdate GroupRemove (TAB_TO_ACTION tab) None (toPointer name) None]
    "Failed to delete group" (Some ("Group " ++s quoted name ++s " deleted. Its rules moved to Ungrouped.")) s.

Definition handleReorderGroups (tab : RuleList) (orderedNames : list string) (s : Page) : Handler :=
  withProfile s (fun id =>
    orRefetch id "Failed to reorder groups" (
      await (CustomRuleGroupsOrderPatch id (TAB_TO_ACTION tab) orderedNames);;
      refetch id)).

(** ** What the cards are given *)

Definition groupRegistry (tab : RuleList) (s : Page) : list ModelCustomRuleGroup :=
  (p ← activeProfile (store s); st ← p_settings p; g ← ps_custom_rule_groups st;
   match tab with denylist => crgs_block g | allowlist => crgs_allow g end) ?? [].

(** [Object.fromEntries]: the last entry of a name wins. *)
Definition toNoteMap (l : list ModelCustomRuleGroup) : gmap string string :=
  foldl (fun m g => <[crg_name g := crg_comment g ?? ""]> m) ∅ l.
Definition groupNotes (tab : RuleList) (s : Page) : gmap string string := toNoteMap (groupRegistry tab s).
Definition groupOrder (tab : RuleList) (s : Page) : list string := map crg_name (groupRegistry tab s).

Definition tabOfAction (action : string) : option RuleList :=
  if String.eqb action "block" then Some denylist
  else if String.eqb action "allow" then Some allowlist else None.

Definition existingGroups (s : Page) : list string :=
  match r ← editingRule s; tabOfAction (cr_action r) with
  | None => []
  | Some tab =>
      array_sort compare_units (dedup
        (List.filter (fun g => negb (String.eqb (trim g) "")) (omap cr_group (tabRules tab s)) ++
         List.filter (fun n => negb (String.eqb (trim n) "")) (groupOrder tab s))%list)
  end.

Definition filteredRules (tab : RuleList) (s : Page) : list ModelCustomRule :=
  List.filter (fun r => includes (toLowerCase (cr_value r)) (toLowerCase (searchValue s))) (tabRules tab s).

(** ** Synchronous handlers *)

Definition changeTab (tab : RuleList) (s : Page) : Page := s <| activeTab := tab |> <| selectedIds := [] |>.
Definition toggleSearch (s : Page) : Page :=
  if hasRules (activeTab s) s then s <| showSearch := negb (showSearch s) |> else s.
Definition setSearchValue (v : string) (s : Page) : Page := s <| searchValue := v |>.
Definition selectAll (s : Page) : Page :=
  s <| selectedIds := map cr_id (filteredRules (activeTab s) s) |>.

(** The switch of the profile menu, outside the page. *)
Definition switchProfile (p : ModelProfile) (s : Page) : Page := setActive p s.

(** ** The form that edits a rule *)

Definition NOTE_MAX : nat := 80.

Record EditForm := mkForm { f_value : string; f_action : RuleList; f_group : string; f_note : string }.

(** The effect that resets the form when a rule is opened. *)
Definition openForm (rule : ModelCustomRule) : EditForm :=
  mkForm (cr_value rule) (if String.eqb (cr_action rule) "allow" then allowlist else denylist)
    (cr_group rule ?? "") (cr_note rule ?? "").

Definition typeNote (v : string) (f : EditForm) : EditForm :=
  mkForm (f_value f) (f_action f) (f_group f) (str_take NOTE_MAX v).

Definition canSave (loading : bool) (f : EditForm) : bool :=
  (0 <? String.length (trim (f_value f)))%nat && negb loading.

Definition if_changed (b : bool) (v : string) : option string := if b then Some v else None.

(** Only the changed fields; [None] when nothing may be saved. *)
Definition handleSave (loading : bool) (rule : ModelCustomRule) (f : EditForm)
    : option RequestsUpdateProfileCustomRuleBody :=
  if negb (canSave loading f) then None else
  Some (MkRequestsUpdateProfileCustomRuleBody
    (if_changed (negb (String.eqb (TAB_TO_ACTION (f_action f)) (cr_action rule))) (TAB_TO_ACTION (f_action f)))
    (if_changed (negb (String.eqb (f_group f) (cr_group rule ?? ""))) (f_group f))
    (if_changed (negb (String.eqb (f_note f) (cr_note rule ?? ""))) (f_note f))
    None
    (if_changed (negb (String.eqb (trim (f_value f)) (cr_value rule))) (trim (f_value f)))).

(** ** The page as a system *)

Inductive PageHandler : Type :=
| ComposerSubmit (tab : RuleList) (tokensOverride : option (list RuleOption))
| DeleteRule (userRuleId : string)
| BulkDelete
| SaveEdit (ruleId : string) (patch : RequestsUpdateProfileCustomRuleBody)
| Reorder (tab : RuleList) (orderedIdsForTab : list string)
| MoveRule (tab : RuleList) (orderedIdsForTab : list string) (ruleId newGroup : string)
| GroupNote (tab : RuleList) (group : string) (note : option string)
| CreateGroup (tab : RuleList) (name : string)
| RenameGroup (tab : RuleList) (from to : string)
| DeleteGroup (tab : RuleList) (name : string)
| ReorderGroups (tab : RuleList) (orderedNames : list string).

Definition handler (h : PageHandler) : Page -> Handler :=
  match h with
  | ComposerSubmit tab o => handleComposerSubmit tab o
  | DeleteRule id => handleDeleteRule id
  | BulkDelete => handleBulkDelete
  | SaveEdit id p => handleSaveEdit id p
  | Reorder tab ids => handleReorder tab ids
  | MoveRule tab ids id g => handleMoveRule tab ids id g
  | GroupNote tab g n => handleGroupNote tab g n
  | CreateGroup tab n => handleCreateGroup tab n
  | RenameGroup tab from to => handleRenameGroup tab from to
  | DeleteGroup tab n => handleDeleteGroup tab n
  | ReorderGroups tab ns => handleReorderGroups tab ns
  end.

Inductive PageUpdate : Type :=
| EntryCheck (id : string) (checked : bool)
| ChangeTab (tab : RuleList)
| ToggleSearch
| SearchValue (v : string)
| SelectAll
| DeselectAll
| EditRule (r : option ModelCustomRule)
| TokensChange (tab : RuleList) (next : list RuleOption)
| SwitchProfile (p : ModelProfile).

Definition page_update (u : PageUpdate) : Page -> Page :=
  match u with
  | EntryCheck id b => handleEntryCheck id b
  | ChangeTab tab => changeTab tab
  | ToggleSearch => toggleSearch
  | SearchValue v => setSearchValue v
  | SelectAll => selectAll
  | DeselectAll => deselectAll
  | EditRule r => setEditingRule r
  | TokensChange tab next => updateComposerTokens tab next
  | SwitchProfile p => switchProfile p
  end.

Inductive PageEvent : Type :=
| Invoke (h : PageHandler)
| Answered (i : nat) (w : World CaughtError ApiRequest ApiResponse)
| Update (u : PageUpdate).

Notation PageSys := (Sys CaughtError ApiRequest Page ApiResponse).

Definition page_step (y : PageSys) (e : PageEvent) : PageSys :=
  sys_step commit y
    match e with Invoke h => Start (handler h) | Answered i w => Answer i w | Update u => Other (page_update u) end.
