(* ===== verification/CustomRulesPageFacts.v ===== *)
(** * The custom rules page: what its handlers guarantee

    No handler leaves the page loading; a change shows what the server answers, on whatever profile
    the user has moved to; a submission keeps what failed in the composer; an order names every rule;
    the edit form saves what it shows. *)

From S2P Require Import Prelude JsString ApiTypes Formats CustomRules RuleComposer Store Async CustomRulesPage.

(** ** No handler leaves the page loading *)

Lemma commit_loading s : loading (commit s) = loading s.
Proof.
  unfold commit, searchEffect, resetEffect, defaultEffect. destruct s.
  repeat case_match; reflexivity.
Qed.

Lemma untouched_perform (f : Page -> Page) :
  (forall s, loading (f s) = loading s) -> untouched loading (perform f : Handler).
Proof. by intros H. Qed.
Lemma untouched_refetch id : untouched loading (refetch id).
Proof. intros [p|e]; cbn; [|done]. split; [|done]. by intros []. Qed.
Lemma untouched_await (r : ApiRequest) (k : ApiResponse r -> Handler) :
  (forall a, untouched loading (k a)) -> untouched loading (await r ≫= k).
Proof. intros Hk [a|e]; cbn; [apply Hk|done]. Qed.
Lemma untouched_toast k t : untouched loading (perform (showToast k t) : Handler).
Proof. by apply untouched_perform; intros []. Qed.

Lemma guarded_well_behaved failMsg body : well_behaved loading (guarded failMsg body).
Proof. right. eexists _, _. split; [reflexivity|]. intros s. apply ends_finally. by intros _ []. Qed.

Lemma orRefetch_untouched id failMsg body :
  untouched loading body -> untouched loading (orRefetch id failMsg body).
Proof. intros H. apply untouched_try; [done|]. intros e. split; [by intros []|]. apply untouched_refetch. Qed.

Lemma groupOps_untouched ops m o s : untouched loading (applyGroupOps ops m o s).
Proof.
  unfold applyGroupOps, withProfile. destruct (selectedProfileId s); [|done].
  apply untouched_try; [|intros; apply untouched_toast].
  apply untouched_await. intros _. apply untouched_bind; [apply untouched_refetch|]. intros _.
  destruct (truthy_opt o); [apply untouched_toast|done].
Qed.

#[local] Hint Resolve untouched_toast untouched_refetch untouched_await orRefetch_untouched
  guarded_well_behaved groupOps_untouched : page.

Lemma handler_well_behaved h s : well_behaved loading (handler h s).
Proof.
  destruct h; cbn [handler]; try (left; apply groupOps_untouched).
  - unfold handleComposerSubmit. destruct (selectedProfileId s); [|left; apply untouched_toast].
    destruct (List.filter _ _); [by left|auto with page].
  - unfold handleDeleteRule, withProfile. destruct (selectedProfileId s); [auto with page|by left].
  - unfold handleBulkDelete, withProfile. destruct (selectedProfileId s); [|by left].
    destruct (selectedIds s); [by left|auto with page].
  - unfold handleSaveEdit, withProfile. destruct (selectedProfileId s); [|by left].
    destruct (noKeys patch); [|auto with page]. left. by apply untouched_perform; intros [].
  - unfold handleReorder, withProfile. left. destruct (selectedProfileId s); [auto with page|done].
  - unfold handleMoveRule, withProfile. left. destruct (selectedProfileId s); [auto 6 with page|done].
  - unfold handleReorderGroups, withProfile. left. destruct (selectedProfileId s); [auto with page|done].
Qed.

Lemma page_update_loading u s : loading (page_update u s) = loading s.
Proof.
  destruct u; cbn [page_update]; unfold toggleSearch; try (by destruct s).
  destruct (hasRules _ _); by destruct s.
Qed.

Theorem page_never_stuck s0 evs :
  loading s0 = false ->
  let y := run page_step (mkSys s0 []) evs in
  (inflight y = [] -> loading (ui y) = false) /\
  (loading (ui y) = true -> exists p, p ∈ inflight y /\ forall s, ends (fun _ s' => loading s' = false) p s).
Proof.
  intros H0. cbv zeta.
  set (ev e := match e with Invoke h => Start (handler h) | Answered i w => Answer i w
               | Update u => Other (page_update u) end).
  assert (run page_step (mkSys s0 []) evs = run (sys_step commit) (mkSys s0 []) (map ev evs)) as ->.
  { unfold run. generalize (mkSys s0 [] : PageSys). induction evs as [|e evs IH]; intros y; [done|]. apply IH. }
  pose proof (busy_settles commit loading (unchanged_flag loading commit commit_loading) s0 (map ev evs) H0) as Hok.
  destruct Hok as [[_ Hb] Hn]; [|by split].
  apply Forall_fmap, Forall_true. intros [h|i w|u]; cbn; [apply handler_well_behaved|done|apply unchanged_flag, page_update_loading].
Qed.

(** ** A change shows what the server answers *)

(** The tokens a submission sends. *)
Definition submitted (tab : RuleList) (tokensOverride : option (list RuleOption)) (s : Page) : list RuleOption :=
  List.filter (fun t => negb (hasError t)) (tokensOverride ?? tokensOf (composerTokens s) tab).

(** The change that a handler asks for on the profile [id] is one that it reads the profile back after,
    when the server answers as [w]: it is accepted - by a submission, when a rule was created - or it is
    a change of an order, which is read back when it is refused, too. *)
Definition rereads (h : PageHandler) (s : Page) (id : string) (w : World CaughtError ApiRequest ApiResponse) : bool :=
  match h with
  | ComposerSubmit tab o =>
      match submitted tab o s, w (CustomRulesBatchPost id (TAB_TO_ACTION tab) (map o_value (submitted tab o s))) with
      | _ :: _, Ok data => (0 <? length (createdOf data))%nat
      | _, _ => false
      end
  | DeleteRule rid => is_ok (w (CustomRuleDelete id rid))
  | BulkDelete =>
      negb (bool_decide (selectedIds s = [])) && is_ok (w (All (map (CustomRuleDelete id) (selectedIds s))))
  | SaveEdit rid patch => negb (noKeys patch) && is_ok (w (CustomRulePatch id rid patch))
  | Reorder _ _ | MoveRule _ _ _ _ | ReorderGroups _ _ => true
  | GroupNote tab group note =>
      is_ok (w (CustomRuleGroupsPatch id
        [MkRequestsCustomRuleGroupUpdate GroupReplace (TAB_TO_ACTION tab) None (toPointer group) (Some (note ?? ""))]))
  | CreateGroup tab name =>
      is_ok (w (CustomRuleGroupsPatch id
        [MkRequestsCustomRuleGroupUpdate GroupAdd (TAB_TO_ACTION tab) None (toPointer name) (Some "")]))
  | RenameGroup tab from to =>
      is_ok (w (CustomRuleGroupsPatch id
        [MkRequestsCustomRuleGroupUpdate GroupMove (TAB_TO_ACTION tab) (Some (toPointer from)) (toPointer to) None]))
  | DeleteGroup tab name =>
      is_ok (w (CustomRuleGroupsPatch id
        [MkRequestsCustomRuleGroupUpdate GroupRemove (TAB_TO_ACTION tab) None (toPointer name) None]))
  end.

(** What a change leaves before the effects run: [s1] is the page when the profile arrived. *)
Definition shows (p : ModelProfile) (s1 s' : Page) : Prop :=
  store s' = setActiveProfile (Some p) (store s1) /\ resetFor s' = resetFor s1.

(** Runs a handler through the answers of [w], as far as they are known. *)
Ltac go w := repeat (progress (unfold resume, advance; cbn); repeat match goal with
  | E : w ?r = _ |- context [w ?r] => rewrite E end).

(** The world's answers to a program: what else happens before each of them. *)
Definition served (fs : list (Page -> Page)) (w : World CaughtError ApiRequest ApiResponse) :=
  map (fun f => (f, w)) fs.

#[local] Arguments setActive : simpl never.
#[local] Arguments showToast : simpl never.
#[local] Arguments setLoading : simpl never.
#[local] Arguments setEditingRule : simpl never.
#[local] Arguments updateComposerTokens : simpl never.
#[local] Arguments deselectAll : simpl never.
#[local] Arguments createdOf : simpl never.
#[local] Arguments skippedOf : simpl never.
#[local] Arguments commit : simpl never.

Lemma is_ok_inv {E A} (r : result E A) : is_ok r = true -> exists a, r = Ok a.
Proof. destruct r; [eauto|done]. Qed.

(** [h] reads the profile back after [S n] other answers, and shows it; [g] and [f] happen before the last
    of these and before the profile arrives. *)
Definition ends_showing (h : PageHandler) (s : Page) (p : ModelProfile)
    (w : World CaughtError ApiRequest ApiResponse) (n : nat) : Prop :=
  forall fs g f, length fs = n -> exists s0 s1 s',
    play commit (served (fs ++ [g; f]) w) (handler h s) s = (commit s', Ret ()) /\
    store s1 = store (g s0) /\ shows p (f (commit s1)) s'.

Ltac play_answers w :=
  let Hn := fresh in
  first [intros [|? [|]] ? ? Hn | intros [|] ? ? Hn]; try discriminate Hn;
  do 3 eexists; (split; [go w; reflexivity|]); split; [|by split]; reflexivity.

Lemma submit_shows tab o s id p w :
  selectedProfileId s = Some id -> rereads (ComposerSubmit tab o) s id w = true -> w (ProfileGet id) = Ok p ->
  ends_showing (ComposerSubmit tab o) s p w 0.
Proof.
  intros Hid Hr Hp. cbn [rereads] in Hr. unfold ends_showing. cbn [handler]. unfold handleComposerSubmit.
  rewrite Hid. cbv zeta. fold (submitted tab o s). set (sub := submitted tab o s) in *.
  set (static := List.filter hasError _). destruct sub as [|t ts] eqn:Es; [done|]. rewrite <- Es in *.
  destruct (w _) as [data|e] eqn:Ew; [|done]. cbn in Hr. unfold submitBody.
  destruct (createdOf data) as [|c cs] eqn:Ec; [done|].
  intros [|] g f Hn; try discriminate Hn.
  destruct (skippedOf data) as [|k ks] eqn:Ek; do 3 eexists;
    (split; [go w; rewrite ?Ec, ?Ek; go w; rewrite ?Ek; reflexivity|]); split; [|by split| |by split]; reflexivity.
Qed.

Lemma group_ops_show h ops failMsg okMsg s id p (w : World CaughtError ApiRequest ApiResponse) :
  handler h s = applyGroupOps ops failMsg okMsg s -> selectedProfileId s = Some id ->
  is_ok (w (CustomRuleGroupsPatch id ops)) = true -> w (ProfileGet id) = Ok p -> ends_showing h s p w 0.
Proof.
  intros Hh Hid [a Ha]%is_ok_inv Hp. unfold ends_showing. rewrite Hh. unfold applyGroupOps, withProfile. rewrite Hid.
  destruct (truthy_opt okMsg); play_answers w.
Qed.

Lemma change_plays h s id p w :
  selectedProfileId s = Some id -> rereads h s id w = true -> w (ProfileGet id) = Ok p ->
  exists n, (n <= 1)%nat /\ ends_showing h s p w n.
Proof.
  intros Hid Hr Hp. destruct h as [tab o|rid| |rid patch|tab ids|tab ids rid g|tab g n|tab n|tab from to|tab n|tab ns].
  { exists 0%nat. split; [lia|]. by apply (submit_shows tab o s id). }
  6-9: exists 0%nat; split; [lia|]; cbn [rereads] in Hr; eapply group_ops_show; [reflexivity|done..].
  all: unfold ends_showing; cbn [handler]; unfold handleDeleteRule, handleBulkDelete, handleSaveEdit, handleReorder,
    handleMoveRule, handleReorderGroups, withProfile; rewrite Hid; cbn [rereads] in Hr.
  - apply is_ok_inv in Hr as [a Ha]. exists 0%nat. split; [lia|]. play_answers w.
  - apply andb_prop in Hr as [Hne [a Ha]%is_ok_inv]. exists 0%nat. split; [lia|].
    destruct (selectedIds s) as [|x l] eqn:E; [done|]. rewrite <- E in *. play_answers w.
  - apply andb_prop in Hr as [Hk [a Ha]%is_ok_inv]. exists 0%nat. split; [lia|].
    destruct (noKeys patch); [done|]. play_answers w.
  - exists 0%nat. split; [lia|]. destruct (w (CustomRulesOrderPatch id (fullOrder tab ids s))) eqn:E; play_answers w.
  - destruct (w (CustomRulePatch id rid (groupPatch g))) as [a|e] eqn:E.
    + exists 1%nat. split; [lia|]. destruct (w (CustomRulesOrderPatch id (fullOrder tab ids s))) eqn:E2; play_answers w.
    + exists 0%nat. split; [lia|]. play_answers w.
  - exists 0%nat. split; [lia|].
    destruct (w (CustomRuleGroupsOrderPatch id (TAB_TO_ACTION tab) ns)) eqn:E; play_answers w.
Qed.

Lemma resetEffect_case s :
  (resetFor s = activeProfileId s /\ resetEffect s = s) \/
  (resetFor s <> activeProfileId s /\ store (resetEffect s) = store s /\
   composerTokens (resetEffect s) = mkTokens [] [] /\ selectedIds (resetEffect s) = [] /\
   resetFor (resetEffect s) = activeProfileId s).
Proof. unfold resetEffect. destruct (bool_decide _) eqn:E; to_prop; [by left|by right]. Qed.

Lemma resetEffect_idemp s : resetEffect (resetEffect s) = resetEffect s.
Proof.
  destruct (resetEffect_case s) as [[_ E]|(_ & Hs & _ & _ & Hr)]; [by rewrite !E|].
  destruct (resetEffect_case (resetEffect s)) as [[_ ?]|[Hn _]]; [done|].
  exfalso. apply Hn. rewrite Hr. unfold activeProfileId. rewrite Hs. done.
Qed.

Lemma searchEffect_fields s :
  store (searchEffect s) = store s /\ composerTokens (searchEffect s) = composerTokens s /\
  selectedIds (searchEffect s) = selectedIds s /\ resetFor (searchEffect s) = resetFor s.
Proof. unfold searchEffect. by destruct (hasRules _ _). Qed.

Lemma commit_resetFor s : resetFor (commit s) = activeProfileId (commit s).
Proof.
  unfold commit, activeProfileId. destruct (searchEffect_fields (resetEffect (defaultEffect (resetEffect s))))
    as (-> & _ & _ & ->).
  destruct (resetEffect_case (defaultEffect (resetEffect s))) as [[Hr ->]|(_ & -> & _ & _ & ->)]; done.
Qed.

Lemma commit_active p s :
  activeProfile (store s) = Some p ->
  activeProfile (store (commit s)) = Some p /\
  (resetFor s <> Some (p_profile_id p) ->
   composerTokens (commit s) = mkTokens [] [] /\ selectedIds (commit s) = []) /\
  (resetFor s = Some (p_profile_id p) -> composerTokens (commit s) = composerTokens s).
Proof.
  intros Ha. unfold commit.
  assert (activeProfileId s = Some (p_profile_id p)) as Hid by (by unfold activeProfileId; rewrite Ha).
  assert (activeProfile (store (resetEffect s)) = Some p) as Ha'.
  { destruct (resetEffect_case s) as [[_ ->]|(_ & -> & _)]; done. }
  assert (defaultEffect (resetEffect s) = resetEffect s) as -> by (unfold defaultEffect; by rewrite Ha').
  rewrite resetEffect_idemp. destruct (searchEffect_fields (resetEffect s)) as (-> & -> & -> & _).
  split; [done|]. destruct (resetEffect_case s) as [[Hr ->]|(Hr & _ & -> & -> & _)]; rewrite Hid in Hr; done.
Qed.

(** C14: a handler of the custom rules page whose change is accepted - for a submission of the
    composer: with at least one rule created - ends, within three awaited requests (the deletions of
    a bulk are sent together), with the profile that the server answers to the read after it as the
    active profile, whatever else happens to the page between the requests; a drag that reorders or
    moves does so also when the server refuses it; the read itself has to succeed *)
Theorem change_shows_server_profile h s id p w :
  selectedProfileId s = Some id -> rereads h s id w = true -> w (ProfileGet id) = Ok p ->
  exists n, (n <= 3)%nat /\ forall fs, length fs = n ->
    exists s', play commit (served fs w) (handler h s) s = (s', Ret ()) /\ activeProfile (store s') = Some p.
Proof.
  intros Hid Hr Hp. destruct (change_plays h s id p w Hid Hr Hp) as (n & Hn & Hplay).
  exists (S (S n)). split; [lia|]. intros fs Hfs. destruct fs as [|f fs _] using rev_ind; [done|].
  destruct fs as [|g fs _] using rev_ind; [by rewrite length_app in Hfs; cbn in Hfs; lia|].
  rewrite !length_app in Hfs. cbn in Hfs. rewrite <- (assoc_L (++)).
  destruct (Hplay fs g f ltac:(lia)) as (s0 & s1 & s' & Hpl & _ & Hs & _). exists (commit s'). split; [exact Hpl|].
  apply commit_active. by rewrite Hs.
Qed.

Theorem late_change_switches_back h s id p q w :
  selectedProfileId s = Some id -> rereads h s id w = true -> w (ProfileGet id) = Ok p ->
  p_profile_id p = id -> p_profile_id q <> id ->
  exists n s', play commit (served (repeat (switchProfile q) n) w) (handler h s) s = (s', Ret ()) /\
    activeProfile (store s') = Some p /\ composerTokens s' = mkTokens [] [] /\ selectedIds s' = [].
Proof.
  intros Hid Hc Hw Hp Hq. destruct (change_plays h s id p w Hid Hc Hw) as (n & Hn & Hplay).
  destruct (Hplay (repeat (switchProfile q) n) (switchProfile q) (switchProfile q)) as (s0 & s1 & s' & Hpl & H1 & Hs & Hr);
    [apply repeat_length|].
  exists (n + 2)%nat, (commit s'). rewrite repeat_app. split; [exact Hpl|].
  destruct (commit_active p s') as (Ha & Hreset & _); [by rewrite Hs|]. split; [done|]. apply Hreset.
  rewrite Hr. change (resetFor (switchProfile q (commit s1))) with (resetFor (commit s1)). rewrite commit_resetFor.
  unfold activeProfileId. rewrite (proj1 (commit_active q s1 ltac:(by rewrite H1))). cbn. congruence.
Qed.

(** ** What stays in the composer *)

Definition was_skipped (skipped : list ResponsesCustomRuleBatchSkipped) (v : string) : Prop :=
  v <> "" /\ Some v ∈ map bs_value skipped.

Lemma skippedByValue_spec skipped v : is_Some (skippedByValue skipped !! v) <-> was_skipped skipped v.
Proof.
  unfold was_skipped, skippedByValue. induction skipped as [|x l IH] using rev_ind.
  { cbn. rewrite lookup_empty. split; [by intros [? ?]|]. intros [_ H%elem_of_nil]. done. }
  rewrite foldl_app, map_app, elem_of_app. cbn. rewrite list_elem_of_singleton.
  destruct (bs_value x) as [u|]; [|rewrite IH; naive_solver].
  destruct (truthy u) eqn:Hu.
  - apply truthy_spec in Hu. destruct (decide (u = v)) as [->|Hne].
    + rewrite lookup_insert_eq. split; [|eauto]. intros _. split; [done|auto].
    + rewrite lookup_insert_ne, IH by done. naive_solver.
  - rewrite IH. split; [naive_solver|]. intros [Hv [?|[= ->]]]; [done|].
    apply truthy_spec in Hv. congruence.
Qed.

Lemma elem_of_skipped m (ts : list RuleOption) t :
  t ∈ omap (skippedToken m) ts <-> exists t0, t0 ∈ ts /\ skippedToken m t0 = Some t.
Proof. rewrite list_elem_of_omap. naive_solver. Qed.

Lemma skippedToken_value m t t' : skippedToken m t = Some t' -> o_value t' = o_value t /\ is_Some (m !! o_value t).
Proof. unfold skippedToken. destruct (m !! o_value t) eqn:E; cbn; [|done]. intros [= <-]. eauto. Qed.
Lemma skippedToken_some m t : is_Some (m !! o_value t) -> exists t', skippedToken m t = Some t' /\ o_value t' = o_value t.
Proof. intros [i Hi]. unfold skippedToken. rewrite Hi. cbn. eauto. Qed.

Lemma omap_skipped_sublist m (ts : list RuleOption) : map o_value (omap (skippedToken m) ts) `sublist_of` map o_value ts.
Proof.
  induction ts as [|t ts IH]; cbn; [done|]. destruct (skippedToken m t) as [t'|] eqn:E; cbn.
  - destruct (skippedToken_value m t t' E) as [-> _]. by constructor.
  - by constructor.
Qed.

Lemma dedup_by_id {A K} `{EqDecision K} (key : A -> K) seen l :
  NoDup (map key l) -> (forall x, x ∈ l -> key x ∉ seen) -> dedup_by key seen l = l.
Proof.
  revert seen. induction l as [|x l IH]; intros seen Hnd Hdis; cbn; [done|].
  cbn in Hnd. apply NoDup_cons in Hnd as [Hx Hnd].
  rewrite bool_decide_eq_false_2 by (apply Hdis; left). f_equal. apply IH; [done|].
  intros y Hy [Hxy|Hs]%elem_of_cons; [|by apply (Hdis y); [right|]].
  apply Hx. rewrite <- Hxy. apply list_elem_of_fmap. eauto.
Qed.

(** The two kinds of tokens of a composer without duplicates. *)
Lemma leftTokens_eq ts skipped :
  NoDup (map o_value ts) ->
  let static := List.filter hasError ts in
  let submission := List.filter (fun t => negb (hasError t)) ts in
  leftTokens static submission skipped
  = (static ++ omap (skippedToken (skippedByValue skipped)) submission)%list.
Proof.
  intros Hnd. cbv zeta. apply dedup_by_id; [|intros; apply not_elem_of_nil].
  rewrite map_app. apply NoDup_app.
  assert (forall p, NoDup (map o_value (List.filter p ts))) as Hf.
  { intros p. eapply sublist_NoDup; [exact Hnd|]. apply map_sublist, filter_b_sublist. }
  split; [done|]. split; [|eapply sublist_NoDup; [apply Hf|apply omap_skipped_sublist]].
  intros v (t & -> & Ht)%list_elem_of_fmap (t' & Hv & Ht')%list_elem_of_fmap.
  apply elem_of_skipped in Ht' as (t0 & H0 & Hk). apply skippedToken_value in Hk as [Hk _].
  apply elem_of_list_filter_b in Ht as [Ht Hte]. apply elem_of_list_filter_b in H0 as [H0 Hne].
  assert (t = t0) as ->; [|rewrite Hte in Hne; done].
  apply (list_elem_of_lookup_1) in Ht as [i Hi], H0 as [j Hj].
  assert (i = j) as ->; [|congruence]. eapply NoDup_lookup; [exact Hnd| |].
  - rewrite list_lookup_fmap, Hi. reflexivity.
  - rewrite list_lookup_fmap, Hj. cbn. congruence.
Qed.

(** The page stays on its profile while the request is in flight. *)
Definition stays (f : Page -> Page) : Prop :=
  forall s, activeProfile (store (f s)) = activeProfile (store s) /\ resetFor (f s) = resetFor s.

(** What the composer holds after the submission of [ts] with the answer [skipped]. *)
Definition left_over (ts : list RuleOption) (skipped : list ResponsesCustomRuleBatchSkipped)
    (left : list RuleOption) : Prop :=
  NoDup (map o_value left) /\
  (forall t, t ∈ ts -> hasError t = true -> t ∈ left) /\
  (forall t, t ∈ ts -> hasError t = false -> (o_value t ∈ map o_value left <-> was_skipped skipped (o_value t))) /\
  (forall t, t ∈ left -> t ∈ ts \/ exists m, o_meta t = Some m /\ is_Some (m_error m)).

Lemma leftTokens_left_over ts skipped :
  NoDup (map o_value ts) ->
  left_over ts skipped
    (leftTokens (List.filter hasError ts) (List.filter (fun t => negb (hasError t)) ts) skipped).
Proof.
  intros Hnd. split.
  { unfold leftTokens. rewrite map_dedup_by. apply NoDup_dedup_from. }
  rewrite (leftTokens_eq ts skipped Hnd). split; [|split].
  - intros t Ht He. apply elem_of_app. left. by apply elem_of_list_filter_b.
  - intros t Ht He. rewrite map_app, elem_of_app. rewrite <- skippedByValue_spec. split.
    + intros [(t' & Hv & [Ht' He']%elem_of_list_filter_b)%list_elem_of_fmap|(t' & Hv & Hk)%list_elem_of_fmap].
      * apply list_elem_of_lookup_1 in Ht as [i Hi], Ht' as [j Hj].
        assert (i = j) as ->; [|congruence]. eapply NoDup_lookup; [exact Hnd| |].
        -- rewrite list_lookup_fmap, Hi. reflexivity.
        -- rewrite list_lookup_fmap, Hj. cbn. congruence.
      * apply elem_of_skipped in Hk as (t0 & _ & Hk). apply skippedToken_value in Hk as [Hk ?]. by rewrite Hv, Hk.
    + intros (t' & Hk & Hv)%skippedToken_some. right. apply list_elem_of_fmap. exists t'.
      split; [done|]. apply elem_of_skipped. exists t. split; [|done].
      apply elem_of_list_filter_b. by rewrite He.
  - intros t [[Ht _]%elem_of_list_filter_b|(t0 & _ & Hk)%elem_of_skipped]%elem_of_app; [by left|right].
    unfold skippedToken in Hk. destruct (_ !! _); [|done]. cbn in Hk. injection Hk as <-. cbn. eauto.
Qed.

Lemma left_over_nothing ts :
  List.filter hasError ts = [] -> left_over ts [] [].
Proof.
  intros Hs. split; [constructor|]. split; [|split].
  - intros t Ht He. assert (t ∈ List.filter hasError ts) as H by (by apply elem_of_list_filter_b).
    rewrite Hs in H. by apply elem_of_nil in H.
  - intros t _ _. split; [intros H%elem_of_nil; done|intros [_ H%elem_of_nil]; done].
  - intros t H%elem_of_nil. done.
Qed.

(** The tokens after the answer [data]. *)
Lemma submit_left_over ts data :
  NoDup (map o_value ts) ->
  let static := List.filter hasError ts in
  let submission := List.filter (fun t => negb (hasError t)) ts in
  left_over ts (skippedOf data)
    match skippedOf data, static with [], [] => [] | _, _ => leftTokens static submission (skippedOf data) end.
Proof.
  intros Hnd. cbv zeta. pose proof (leftTokens_left_over ts (skippedOf data) Hnd) as Hl.
  destruct (skippedOf data); [|done]. destruct (List.filter hasError ts) eqn:E; [|done].
  by apply left_over_nothing.
Qed.

Lemma tokensOf_set tab next t : tokensOf (setTokensOf tab next t) tab = next.
Proof. by destruct tab. Qed.

(** Runs a handler through the answers the context knows. *)
Ltac go_known w := repeat (progress (unfold resume, advance; cbn); repeat match goal with
  | E : w ?r = _ |- context [w ?r] => rewrite E
  | E : ?l = _ |- context [match ?l with _ => _ end] => rewrite E end).

(** The page shows the profile [id] and its resetting effect has run for it. *)
Definition on_profile (id : string) (s : Page) : Prop :=
  activeProfileId s = Some id /\ resetFor s = Some id.

Lemma on_profile_commit id s :
  on_profile id s -> on_profile id (commit s) /\ composerTokens (commit s) = composerTokens s.
Proof.
  unfold on_profile. intros [Ha Hr]. rewrite commit_resetFor. unfold activeProfileId in *.
  destruct (activeProfile (store s)) as [a|] eqn:E; [|done]. injection Ha as Ha.
  destruct (commit_active a s E) as (-> & _ & Ht). cbn. rewrite Ha in *. auto.
Qed.
Lemma on_profile_stays id f s : stays f -> on_profile id s -> on_profile id (f s).
Proof. intros Hf. unfold on_profile, activeProfileId. destruct (Hf s) as [-> ->]. done. Qed.
Lemma on_profile_setActive id p s : p_profile_id p = id -> on_profile id s -> on_profile id (setActive p s).
Proof. intros <- [_ Hr]. split; [reflexivity|]. exact Hr. Qed.
Lemma on_profile_setLoading id b s : on_profile id s -> on_profile id (setLoading b s).
Proof. done. Qed.
Lemma on_profile_toast id k m s : on_profile id s -> on_profile id (showToast k m s).
Proof. done. Qed.
Lemma on_profile_tokens id tab l s : on_profile id s -> on_profile id (updateComposerTokens tab l s).
Proof. done. Qed.
#[local] Hint Resolve on_profile_stays on_profile_setActive on_profile_setLoading on_profile_toast
  on_profile_tokens : page.

Lemma selected_on_profile id s : selectedProfileId s = Some id -> resetFor s = Some id -> on_profile id s.
Proof.
  unfold selectedProfileId. intros Hs Hr. split; [|done].
  destruct (activeProfileId s); [|done]. cbn in Hs. by destruct (truthy s0).
Qed.

(** The end of the [try] block: what [left] the composer is given and the flag. *)
Lemma submitted_state id tab left s :
  on_profile id s ->
  let s' := commit (setLoading false (updateComposerTokens tab left s)) in
  loading s' = false /\ tokensOf (composerTokens s') tab = left.
Proof.
  intros Hs. cbv zeta. rewrite commit_loading. split; [done|].
  destruct (on_profile_commit id (setLoading false (updateComposerTokens tab left s))) as [_ ->]; [done|].
  apply tokensOf_set.
Qed.

Lemma submission_settles tab id static sub s p f (w : World CaughtError ApiRequest ApiResponse)
    (data : option ResponsesCreateProfileCustomRulesBatchResponse) :
  on_profile id s -> stays f ->
  w (CustomRulesBatchPost id (TAB_TO_ACTION tab) (map o_value sub)) = Ok data ->
  w (ProfileGet id) = Ok p -> p_profile_id p = id ->
  exists n s', (1 <= n <= 2)%nat /\
    play commit (repeat (f, w) n) (guarded "Failed to add custom rules" (submitBody tab id static sub)) s
      = (s', Ret ()) /\
    loading s' = false /\
    tokensOf (composerTokens s') tab =
      match skippedOf data, static with [], [] => [] | _, _ => leftTokens static sub (skippedOf data) end.
Proof.
  intros Hs Hf Hw Hg Hp. unfold submitBody.
  assert (on_profile id (f (commit (setLoading true s)))) as H1.
  { apply on_profile_stays; [done|]. by apply on_profile_commit, on_profile_setLoading. }
  assert (on_profile id (f (commit (f (commit (setLoading true s)))))) as H2.
  { apply on_profile_stays; [done|]. by apply on_profile_commit. }
  destruct (createdOf data) as [|c cs] eqn:Hc, (skippedOf data) as [|k ks] eqn:Hk.
  1-2: exists 1%nat; eexists; split; [lia|]; split; [go_known w; reflexivity|].
  3-4: exists 2%nat; eexists; split; [lia|]; split; [go_known w; reflexivity|].
  all: apply (submitted_state id); auto with page.
Qed.

Theorem submit_keeps_what_failed tab override s id p f (w : World CaughtError ApiRequest ApiResponse)
    (data : option ResponsesCreateProfileCustomRulesBatchResponse) :
  selectedProfileId s = Some id -> resetFor s = Some id -> stays f ->
  let ts := override ?? tokensOf (composerTokens s) tab in
  let submitted := List.filter (fun t => negb (hasError t)) ts in
  NoDup (map o_value ts) -> submitted <> [] ->
  w (CustomRulesBatchPost id (TAB_TO_ACTION tab) (map o_value submitted)) = Ok data ->
  w (ProfileGet id) = Ok p -> p_profile_id p = id ->
  exists n s', (1 <= n <= 2)%nat /\
    play commit (repeat (f, w) n) (handleComposerSubmit tab override s) s = (s', Ret ()) /\
    loading s' = false /\
    left_over ts (skippedOf data) (tokensOf (composerTokens s') tab).
Proof.
  intros Hid Hr Hf. cbv zeta. set (ts := override ?? tokensOf (composerTokens s) tab). intros Hnd Hne Hw Hg Hp.
  destruct (submission_settles tab id (List.filter hasError ts) (List.filter (fun t => negb (hasError t)) ts)
    s p f w data) as (n & s' & Hn & Hpl & Hl & Ht); try done; [by apply selected_on_profile|].
  exists n, s'. split; [done|]. split; [|split; [done|]].
  - unfold handleComposerSubmit. rewrite Hid. fold ts. by destruct (List.filter (fun t => negb (hasError t)) ts).
  - rewrite Ht. by apply submit_left_over.
Qed.

(** ** Order requests *)

(** Every rule is in one of the two lists. *)
Definition rules_listed (s : Page) : Prop :=
  Forall (fun r => cr_action r = "block" \/ cr_action r = "allow") (customRules s).

Lemma filter_partition {A} (p q : A -> bool) (l : list A) :
  Forall (fun x => q x = negb (p x)) l -> (List.filter p l ++ List.filter q l)%list ≡ₚ l.
Proof.
  induction 1 as [|x l Hx _ IH]; cbn; [done|]. rewrite Hx. destruct (p x); cbn [negb].
  - cbn. by rewrite IH.
  - rewrite <- Permutation_middle. by rewrite IH.
Qed.

Lemma tabRules_partition s :
  rules_listed s -> (tabRules denylist s ++ tabRules allowlist s)%list ≡ₚ customRules s.
Proof.
  intros Hl. apply filter_partition. eapply Forall_impl; [exact Hl|]. cbn.
  intros r [-> | ->]; reflexivity.
Qed.

Lemma idsByOrder_perm tab s : idsByOrder tab s ≡ₚ map cr_id (tabRules tab s).
Proof. unfold idsByOrder. apply Permutation_map, array_sort_perm. Qed.

Lemma fullOrder_complete tab ids s :
  rules_listed s -> ids ≡ₚ map cr_id (tabRules tab s) ->
  fullOrder tab ids s ≡ₚ map cr_id (customRules s).
Proof.
  intros Hl Hids. rewrite <- (tabRules_partition s Hl), map_app. unfold fullOrder.
  destruct tab; by rewrite Hids, ?idsByOrder_perm.
Qed.

(** Requests go to the profile the handler was invoked for, and an order lists every rule once. *)
Definition order_complete (s : Page) (r : ApiRequest) : Prop :=
  match r with
  | CustomRulesOrderPatch id order => Some id = selectedProfileId s /\ order ≡ₚ map cr_id (customRules s)
  | _ => True
  end.

Lemma sends_refetch s id : sends (order_complete s) (refetch id).
Proof. split; [done|]. by intros []. Qed.
Lemma sends_await {A} P (r : ApiRequest) (k : ApiResponse r -> Prog CaughtError ApiRequest Page ApiResponse A) :
  P r -> (forall a, sends P (k a)) -> sends P (await r ≫= k).
Proof. intros Hr Hk. split; [done|]. intros [a|e]; cbn; [apply Hk|done]. Qed.
Lemma sends_orRefetch s id m body :
  sends (order_complete s) body -> sends (order_complete s) (orRefetch id m body).
Proof. intros Hb. apply sends_try; [done|]. intros e. cbn. apply (sends_refetch s id). Qed.

Lemma sends_guarded (P : ApiRequest -> Prop) m (body : Handler) : sends P body -> sends P (guarded m body).
Proof. intros Hb. apply sends_bind; [done|]. intros _. by apply sends_finally, sends_try. Qed.

Lemma reorder_complete tab ids s :
  rules_listed s -> ids ≡ₚ map cr_id (tabRules tab s) ->
  sends (order_complete s) (handleReorder tab ids s) /\
  (forall ruleId g, sends (order_complete s) (handleMoveRule tab ids ruleId g s)).
Proof.
  intros Hl Hids. unfold handleReorder, handleMoveRule, withProfile.
  destruct (selectedProfileId s) as [id|] eqn:Hid; [|done].
  assert (order_complete s (CustomRulesOrderPatch id (fullOrder tab ids s))) as Ho.
  { split; [done|]. by apply fullOrder_complete. }
  split; [|intros ruleId g]; apply sends_orRefetch.
  - apply sends_await; [done|]. intros _. apply sends_refetch.
  - apply sends_await; [done|]. intros _. apply sends_await; [done|]. intros _. apply sends_refetch.
Qed.

(** ** Editing a rule *)

(** What the endpoint does with the fields it is given. *)
Definition apply_patch (p : RequestsUpdateProfileCustomRuleBody) (r : ModelCustomRule) : ModelCustomRule :=
  MkModelCustomRule (ub_action p ?? cr_action r)
    match ub_group p with Some g => Some g | None => cr_group r end (cr_id r)
    match ub_note p with Some n => Some n | None => cr_note r end
    match ub_order p with Some o => Some o | None => cr_order r end (ub_value p ?? cr_value r).

(** The form's fields, of a rule. *)
Definition shown (r : ModelCustomRule) : string * string * string * string :=
  (cr_value r, cr_action r, cr_group r ?? "", cr_note r ?? "").
Definition entered (f : EditForm) : string * string * string * string :=
  (trim (f_value f), TAB_TO_ACTION (f_action f), f_group f, f_note f).

Lemma if_changed_default old new : (if_changed (negb (String.eqb new old)) new ?? old) = new.
Proof. unfold if_changed. by destruct (String.eqb_spec new old) as [->|]. Qed.
Lemma if_changed_option (o : option string) new :
  (match if_changed (negb (String.eqb new (o ?? ""))) new with Some v => Some v | None => o end ?? "") = new.
Proof. unfold if_changed. by destruct (String.eqb_spec new (o ?? "")) as [->|]. Qed.
Lemma if_changed_None old new : if_changed (negb (String.eqb new old)) new = None <-> new = old.
Proof. unfold if_changed. by destruct (String.eqb_spec new old) as [->|]. Qed.

Theorem edit_saves_the_form b rule f patch :
  handleSave b rule f = Some patch ->
  shown (apply_patch patch rule) = entered f /\ cr_id (apply_patch patch rule) = cr_id rule /\
  cr_order (apply_patch patch rule) = cr_order rule /\ cr_value (apply_patch patch rule) <> "" /\
  (noKeys patch = true <-> entered f = shown rule).
Proof.
  unfold handleSave, canSave. destruct (0 <? String.length (trim (f_value f)))%nat eqn:Hv; [|done].
  destruct b; [done|]. cbn [negb andb]. intros [= <-].
  unfold shown, entered. cbn [apply_patch cr_value cr_action cr_group cr_note cr_id cr_order ub_action ub_group ub_note ub_order ub_value].
  rewrite !if_changed_default, !if_changed_option. split; [done|]. split; [done|]. split; [done|].
  split; [intros E; by rewrite E in Hv|].
  transitivity (if_changed (negb (String.eqb (TAB_TO_ACTION (f_action f)) (cr_action rule))) (TAB_TO_ACTION (f_action f)) = None
    /\ if_changed (negb (String.eqb (f_group f) (cr_group rule ?? ""))) (f_group f) = None
    /\ if_changed (negb (String.eqb (f_note f) (cr_note rule ?? ""))) (f_note f) = None
    /\ if_changed (negb (String.eqb (trim (f_value f)) (cr_value rule))) (trim (f_value f)) = None).
  - unfold noKeys. destruct (if_changed _ (TAB_TO_ACTION _)), (if_changed _ (f_group f)),
      (if_changed _ (f_note f)), (if_changed _ (trim _)); split; try done; naive_solver.
  - rewrite !if_changed_None. split; [intros (-> & -> & -> & ->); done|]. intros [= -> -> -> ->]. done.
Qed.

(** ** Concrete inputs *)

Definition witness_rule (id action value : string) : ModelCustomRule :=
  MkModelCustomRule action None id None None value.
Definition witness_page_profile (id : string) (rules : list ModelCustomRule) : ModelProfile :=
  MkModelProfile "acc" id "Home" id
    (Some (MkModelProfileSettings None None (Some rules) None None id None None)).
Definition witness_home : ModelProfile := witness_page_profile "p1" [witness_rule "r1" "block" "a.com"].
Definition witness_empty_home : ModelProfile := witness_page_profile "p1" [].
Definition witness_work : ModelProfile := witness_page_profile "p2" [].

Definition witness_page : Page :=
  mkPage (setActiveProfile (Some witness_home) (setProfiles [witness_home; witness_work] initialState))
    [witness_home; witness_work] denylist false "" false ["r1"] None
    (mkTokens [mkOption "b.com" "b.com" None; mkOption "bad" "bad" None] []) [] (Some "p1").

(** Every request succeeds; of the two tokens, the second is skipped. *)
Definition witness_world : World CaughtError ApiRequest ApiResponse := fun r =>
  match r with
  | CustomRulesBatchPost _ _ _ =>
      Ok (Some (MkResponsesCreateProfileCustomRulesBatchResponse None
        (Some [MkResponsesCustomRuleBatchCreated (Some "r2") (Some "b.com")])
        (Some [MkResponsesCustomRuleBatchSkipped (Some "Invalid value") None (Some "bad")]) None))
  | ProfileGet _ => Ok witness_empty_home
  | CustomRuleDelete _ _ | CustomRulePatch _ _ _ | CustomRulesOrderPatch _ _
  | CustomRuleGroupsPatch _ _ | CustomRuleGroupsOrderPatch _ _ _ | All _ => Ok tt
  end.

Lemma page_never_stuck_witness :
  let y := run page_step (mkSys witness_page []) [Invoke (DeleteRule "r1")] in
  loading (ui y) = true /\ (inflight y = [] -> loading (ui y) = false).
Proof.
  split; [reflexivity|]. apply (page_never_stuck witness_page [Invoke (DeleteRule "r1")]). reflexivity.
Defined.

(** A submission that the server takes in part. *)
Lemma change_shows_server_profile_witness :
  exists n, (n <= 3)%nat /\ forall fs, length fs = n ->
    exists s', play commit (served fs witness_world) (handler (ComposerSubmit denylist None) witness_page) witness_page = (s', Ret ()) /\
      activeProfile (store s') = Some witness_empty_home.
Proof.
  apply (change_shows_server_profile (ComposerSubmit denylist None) witness_page "p1" witness_empty_home witness_world); reflexivity.
Defined.

Lemma late_change_switches_back_witness :
  exists n s', play commit (served (repeat (switchProfile witness_work) n) witness_world)
      (handler (DeleteRule "r1") witness_page) witness_page = (s', Ret ()) /\
    activeProfile (store s') = Some witness_empty_home /\ composerTokens s' = mkTokens [] [] /\
    selectedIds s' = [].
Proof.
  apply (late_change_switches_back (DeleteRule "r1") witness_page "p1" witness_empty_home witness_work witness_world);
    [reflexivity|reflexivity|reflexivity|reflexivity|discriminate].
Defined.

Lemma submit_keeps_what_failed_witness :
  let data := Some (MkResponsesCreateProfileCustomRulesBatchResponse None
    (Some [MkResponsesCustomRuleBatchCreated (Some "r2") (Some "b.com")])
    (Some [MkResponsesCustomRuleBatchSkipped (Some "Invalid value") None (Some "bad")]) None) in
  exists n s', (1 <= n <= 2)%nat /\
    play commit (repeat (id, witness_world) n) (handleComposerSubmit denylist None witness_page) witness_page
      = (s', Ret ()) /\
    loading s' = false /\
    left_over (ct_denylist (composerTokens witness_page)) (skippedOf data) (tokensOf (composerTokens s') denylist).
Proof.
  intros data.
  apply (submit_keeps_what_failed denylist None witness_page "p1" witness_empty_home id witness_world data);
    try reflexivity.
  - intros s. by split.
  - repeat constructor; cbn; set_solver.
  - discriminate.
Defined.

Lemma edit_saves_the_form_witness :
  exists patch,
    handleSave false (witness_rule "r1" "block" "a.com") (mkForm " b.com " allowlist "ads" "") = Some patch /\
    shown (apply_patch patch (witness_rule "r1" "block" "a.com")) = ("b.com", "allow", "ads", "").
Proof.
  eexists. split; [reflexivity|].
  apply (edit_saves_the_form false (witness_rule "r1" "block" "a.com") (mkForm " b.com " allowlist "ads" "")).
  reflexivity.
Defined.
