(* ===== verification/CustomRulesCard.v ===== *)
(** * The list of custom rules and its drag and drop

    [src/app/src/pages/custom_rules/CustomRulesCard.tsx]: one list of rules in its group sections,
    with rows and sections that are dragged. The card keeps an optimistic copy of the rules and of
    the group order; a drag changes the copy and, when it ends, the card calls its parent. Drag events
    come from [@dnd-kit] with the ids of what is dragged and of what is under it: any sequence of them
    is considered. [arrayMove] of [@dnd-kit/sortable] and [localeCompare] with base sensitivity are
    parameters. *)

From S2P Require Import Prelude JsString ApiTypes CustomRules.
From coqutil Require Import Datatypes.RecordSetters.
Import TriangleBracketNotations.

#[local] Arguments constant _ _ _ /.

(** ** Ids of drag sources and drop targets *)

Definition UNGROUPED : string := "".
Definition CONTAINER_PREFIX : string := "group:".
Definition NEW_GROUP_ZONE : string := "group:__new__".
Definition HEADER_PREFIX : string := "grouphdr:".

Definition containerId (group : string) : string := CONTAINER_PREFIX ++s group.
Definition isContainerId (id : string) : bool := startsWith id CONTAINER_PREFIX.
Definition groupFromContainer (id : string) : string := str_drop (String.length CONTAINER_PREFIX) id.
Definition headerDropId (group : string) : string := HEADER_PREFIX ++s group.
Definition isHeaderDropId (id : string) : bool := startsWith id HEADER_PREFIX.
Definition groupFromHeader (id : string) : string := str_drop (String.length HEADER_PREFIX) id.
Definition isGroupDropId (id : string) : bool := isContainerId id || isHeaderDropId id.
Definition groupFromDropId (id : string) : string :=
  if isHeaderDropId id then groupFromHeader id else groupFromContainer id.

Definition GROUP_SORT_PREFIX : string := "groupsort:".
Definition groupSortId (name : string) : string := GROUP_SORT_PREFIX ++s name.
Definition isGroupSortId (id : string) : bool := startsWith id GROUP_SORT_PREFIX.
Definition groupFromSortId (id : string) : string := str_drop (String.length GROUP_SORT_PREFIX) id.

Definition RULES_PAGE_SIZE : nat := 200.

(** ** Rules and groups *)

Definition groupOfRule (r : ModelCustomRule) : string := cr_group r ?? UNGROUPED.

Definition relabel (group : string) (r : ModelCustomRule) : ModelCustomRule :=
  MkModelCustomRule (cr_action r) (Some group) (cr_id r) (cr_note r) (cr_order r) (cr_value r).

Definition hasId (id : string) (r : ModelCustomRule) : bool := String.eqb (cr_id r) id.

(** [rules.find(r => r.id === id)?.group ?? ""] *)
Definition groupOf (rules : list ModelCustomRule) (id : string) : string :=
  (groupOfRule <$> array_find (hasId id) rules) ?? UNGROUPED.

Definition sortByOrder (rules : list ModelCustomRule) : list ModelCustomRule :=
  array_sort (fun a b => (cr_order a ?? 0) - (cr_order b ?? 0)) rules.

(** [splice(i, 0, x)] *)
Definition insert_at {A} (i : nat) (x : A) (l : list A) : list A := (take i l ++ x :: drop i l)%list.

(** The index of the last element, [-1] as [None]. *)
Fixpoint last_index {A} (p : A -> bool) (l : list A) : option nat :=
  match l with
  | [] => None
  | x :: l' => match last_index p l' with Some i => Some (S i) | None => if p x then Some 0%nat else None end
  end.

(** ** Sections *)

Record RuleSection := mkSection { s_name : string; s_items : list ModelCustomRule }.

Definition sections (localRules : list ModelCustomRule) (groupNames : list string) : list RuleSection :=
  map (fun g => mkSection g (List.filter (fun r => String.eqb (groupOfRule r) g) localRules))
    (UNGROUPED :: groupNames).

(** The rows a section renders: a page of them, and the dragged row wherever it is. *)
Definition visibleRows (limit : nat) (activeId : option string) (items : list ModelCustomRule)
    : list ModelCustomRule :=
  let visible := take limit items in
  match activeId with
  | Some id =>
      if truthy id && negb (existsb (hasId id) visible) then
        match array_find (hasId id) items with Some r => (visible ++ [r])%list | None => visible end
      else visible
  | None => visible
  end.
Definition hiddenRows (limit : nat) (activeId : option string) (items : list ModelCustomRule) : nat :=
  (length items - length (visibleRows limit activeId items))%nat.

(** ** Drafts of the group header and the new-group zone *)

Definition typeName (v : string) : string := str_take 64 v.
Definition typeGroupNote (v : string) : string := str_take 80 v.
(** [onSaveNote] gets [null] for a cleared note. *)
Definition commitNote (noteDraft : string) : option string :=
  if String.eqb (trim noteDraft) "" then None else Some (trim noteDraft).
(** The name [onRename] is called with, if it is called. *)
Definition commitName (name nameDraft : string) : option string :=
  let next := trim nameDraft in if truthy next && negb (String.eqb next name) then Some next else None.
Definition confirmDraft (draft : string) : option string :=
  if truthy (trim draft) then Some (trim draft) else None.

(** ** The card *)

(** [collapsed] is the store's entry for this profile and list; [dirty] tells that [localRules] is not
    the array of the sorted props itself, which is what React compares. *)
Record Card := mkCard {
  rules : list ModelCustomRule;
  groupOrder : list string;
  draggable : bool;
  removingIds : list string;
  collapsed : list string;
  activeId : option string;
  activeGroupName : option string;
  creatingGroup : bool;
  pendingDropRuleId : option string;
  groupToDelete : option string;
  localRules : list ModelCustomRule;
  localGroupOrder : list string;
  dirty : bool;
}.

(** The calls of the parent's functions. *)
Inductive CardCall : Type :=
| OnDelete (id : string)
| OnReorder (orderedIds : list string)
| OnMoveRule (orderedIds : list string) (ruleId newGroup : string)
| OnCreateGroup (name : string)
| OnDeleteGroup (name : string)
| OnReorderGroups (orderedNames : list string).

Definition sortedFromProps (c : Card) : list ModelCustomRule := sortByOrder (rules c).

(** [`${profileId}:${type}`] *)
Definition storageKey (profile : option ModelProfile) (denied : bool) : string :=
  ((p_profile_id <$> profile) ?? "") ++s ":" ++s (if denied then "denied" else "allowed").

Definition draggableFor (searchQuery : string) (allSelected loading : bool) : bool :=
  (String.length (trim searchQuery) =? 0)%nat && negb allSelected && negb loading.

Section card.
Context (arrayMove : forall A : Type, list A -> nat -> nat -> list A).
Context (compareBase : string -> string -> Z).

(** The registry's names first, then the names that only rules carry. *)
Definition derivedGroupNames (localRules : list ModelCustomRule) (groupOrder : list string) : list string :=
  let ordered := dedup (List.filter (fun n => negb (String.eqb n "")) groupOrder) in
  let labelOnly := dedup (List.filter (fun g => negb (String.eqb g "") && negb (bool_decide (g ∈ ordered)))
                            (map groupOfRule localRules)) in
  (ordered ++ array_sort compareBase labelOnly)%list.

(** A new array of rules: the derived names are new too, and the effect copies them. *)
Definition setLocalRules (l : list ModelCustomRule) (c : Card) : Card :=
  c <| localRules := l |> <| dirty := true |> <| localGroupOrder := derivedGroupNames l (groupOrder c) |>.

(** [setLocalRules(sortedFromProps)] *)
Definition revertLocalRules (c : Card) : Card :=
  if dirty c then (setLocalRules (sortedFromProps c) c) <| dirty := false |> else c.

(** New props: both effects run. *)
Definition receiveProps (rs : list ModelCustomRule) (order : list string) (drag : bool) (c : Card) : Card :=
  let c := c <| rules := rs |> <| groupOrder := order |> <| draggable := drag |> in
  (setLocalRules (sortedFromProps c) c) <| dirty := false |>.

Definition mount (rs : list ModelCustomRule) (order : list string) (drag : bool) (persisted : list string) : Card :=
  receiveProps rs order drag
    (mkCard rs order drag [] persisted None None false None None [] [] false).

(** ** Collapsed sections *)

Definition toggleCollapse (name : string) (c : Card) : Card :=
  let prev := dedup (collapsed c) in
  c <| collapsed := if bool_decide (name ∈ prev) then List.filter (fun n => negb (String.eqb n name)) prev
                    else (prev ++ [name])%list |>.

Definition reveal (group : string) (c : Card) : Card :=
  c <| collapsed := List.filter (fun n => negb (String.eqb n group)) (dedup (collapsed c)) |>.

(** ** Dragging *)

Definition handleDragStart (id : string) (c : Card) : Card :=
  if isGroupSortId id then c <| activeGroupName := Some (groupFromSortId id) |>
  else c <| activeId := Some id |>.

(** The updater of [handleDragOver]. *)
Definition moveOver (activeKey overKey targetGroup : string) (prev : list ModelCustomRule)
    : option (list ModelCustomRule) :=
  match find_index (hasId activeKey) prev with
  | None => None
  | Some activeIdx =>
      match prev !! activeIdx with
      | None => None
      | Some moved =>
          let next := delete activeIdx prev in
          let insertIdx :=
            if isGroupDropId overKey then
              match last_index (fun r => String.eqb (groupOfRule r) targetGroup) next with
              | Some i => S i
              | None => 0%nat
              end
            else find_index (hasId overKey) next ?? length next in
          Some (insert_at insertIdx (relabel targetGroup moved) next)
      end
  end.

Definition handleDragOver (activeKey : string) (over : option string) (c : Card) : Card :=
  match over with
  | None => c
  | Some overKey =>
      if isGroupSortId activeKey then c
      else if String.eqb overKey NEW_GROUP_ZONE then c
      else
        let targetGroup :=
          if isGroupDropId overKey then groupFromDropId overKey else groupOf (localRules c) overKey in
        if String.eqb targetGroup (groupOf (localRules c) activeKey) then c
        else match moveOver activeKey overKey targetGroup (localRules c) with
             | Some next => setLocalRules next c
             | None => c
             end
  end.

Definition clearActiveGroup (c : Card) : Card := c <| activeGroupName := None |>.

(** The end of a drag of a section. *)
Definition endGroupDrag (activeKey : string) (over : option string) (c : Card) : Card * list CardCall :=
  match over with
  | Some overKey =>
      if negb (isGroupSortId overKey) then (c, []) else
      let from := groupFromSortId activeKey in
      let to := groupFromSortId overKey in
      if String.eqb from to then (c, []) else
      match find_index (String.eqb from) (localGroupOrder c), find_index (String.eqb to) (localGroupOrder c) with
      | Some oldIndex, Some newIndex =>
          if (oldIndex =? newIndex)%nat then (c, []) else
          let nextOrder := arrayMove string (localGroupOrder c) oldIndex newIndex in
          (c <| localGroupOrder := nextOrder |>, [OnReorderGroups nextOrder])
      | _, _ => (c, [])
      end
  | None => (c, [])
  end.

(** The finalisation of a reorder over another row: the next rules, when they change. *)
Definition dropOrder (activeKey overKey : string) (c : Card) : option (list ModelCustomRule) :=
  if isGroupDropId overKey || String.eqb activeKey overKey then None else
  match find_index (hasId activeKey) (localRules c), find_index (hasId overKey) (localRules c) with
  | Some oldIndex, Some newIndex =>
      if (oldIndex =? newIndex)%nat then None
      else Some (arrayMove ModelCustomRule (localRules c) oldIndex newIndex)
  | _, _ => None
  end.

(** What is saved: a move to another group, or an order that differs. *)
Definition persistDrop (activeKey : string) (next : list ModelCustomRule) (c : Card) : Card * list CardCall :=
  let originalGroup := groupOf (rules c) activeKey in
  let finalGroup := groupOf next activeKey in
  let orderedIds := map cr_id next in
  if negb (String.eqb finalGroup originalGroup) then
    ((if String.eqb finalGroup UNGROUPED then c else reveal finalGroup c),
     [OnMoveRule orderedIds activeKey finalGroup])
  else if negb (String.eqb (join "|" orderedIds) (join "|" (map cr_id (sortedFromProps c))))
  then (c, [OnReorder orderedIds]) else (c, []).

Definition handleDragEnd (activeKey : string) (over : option string) (c : Card) : Card * list CardCall :=
  if isGroupSortId activeKey then endGroupDrag activeKey over (clearActiveGroup c) else
  let c := c <| activeId := None |> in
  match over with
  | None => (revertLocalRules c, [])
  | Some overKey =>
      if String.eqb overKey NEW_GROUP_ZONE then
        ((revertLocalRules c) <| pendingDropRuleId := Some activeKey |> <| creatingGroup := true |>, [])
      else
        match dropOrder activeKey overKey c with
        | Some next => persistDrop activeKey next (setLocalRules next c)
        | None => persistDrop activeKey (localRules c) c
        end
  end.

(** ** Groups and rows *)

Definition confirmNewGroup (name : string) (c : Card) : Card * list CardCall :=
  match pendingDropRuleId c with
  | Some ruleId =>
      if truthy ruleId
      then (c <| pendingDropRuleId := None |> <| creatingGroup := false |>,
            [OnMoveRule (map cr_id (localRules c)) ruleId name])
      else (c <| creatingGroup := false |>, [OnCreateGroup name])
  | None => (c <| creatingGroup := false |>, [OnCreateGroup name])
  end.

Definition cancelNewGroup (c : Card) : Card := c <| creatingGroup := false |> <| pendingDropRuleId := None |>.

Definition confirmDeleteGroup (c : Card) : Card * list CardCall :=
  (c <| groupToDelete := None |>, match groupToDelete c with Some g => [OnDeleteGroup g] | None => [] end).

(** The row fades for 300 ms, then the timer calls the parent. *)
Definition handleEntryDelete (id : string) (c : Card) : Card := c <| removingIds := (removingIds c ++ [id])%list |>.
Definition deleteTimer (id : string) (c : Card) : Card * list CardCall :=
  (c <| removingIds := List.filter (fun rid => negb (String.eqb rid id)) (removingIds c) |>, [OnDelete id]).

(** ** Events *)

(** [DragCancel] is a drag the user gives up with Escape: the card has no handler for it. *)
Inductive CardEvent : Type :=
| DragStart (active : string)
| DragOver (active : string) (over : option string)
| DragEnd (active : string) (over : option string)
| DragCancel
| ConfirmNewGroup (name : string)
| StartCreate
| CancelNewGroup
| AskDeleteGroup (name : option string)
| ConfirmDeleteGroup
| ToggleCollapse (name : string)
| EntryDelete (id : string)
| DeleteTimer (id : string)
| Props (rs : list ModelCustomRule) (order : list string) (drag : bool).

Definition card_step (c : Card) (e : CardEvent) : Card * list CardCall :=
  match e with
  | DragStart a => (handleDragStart a c, [])
  | DragOver a o => (handleDragOver a o c, [])
  | DragEnd a o => handleDragEnd a o c
  | DragCancel => (c, [])
  | ConfirmNewGroup n => confirmNewGroup n c
  | StartCreate => (c <| creatingGroup := true |>, [])
  | CancelNewGroup => (cancelNewGroup c, [])
  | AskDeleteGroup n => (c <| groupToDelete := n |>, [])
  | ConfirmDeleteGroup => confirmDeleteGroup c
  | ToggleCollapse n => (toggleCollapse n c, [])
  | EntryDelete id => (handleEntryDelete id c, [])
  | DeleteTimer id => deleteTimer id c
  | Props rs order drag => (receiveProps rs order drag c, [])
  end.

Definition card_run (c : Card) (evs : list CardEvent) : Card := run (fun c e => (card_step c e).1) c evs.
End card.
