(* ===== verification/CustomRulesCardFacts.v ===== *)
(** * The list of custom rules: what dragging guarantees

    Whatever is dragged where, the card shows every rule once, keeps everything of a rule but its
    group, and reports orders that name every rule; a drop saves what is shown. Two inputs where the
    card does not do what it means to are at the end. *)

From S2P Require Import Prelude JsString ApiTypes CustomRules RuleComposer Store Async CustomRulesPage CustomRulesPageFacts CustomRulesCard.
From coqutil Require Import Datatypes.RecordSetters.
Import TriangleBracketNotations.

#[local] Arguments constant _ _ _ /.

(** ** Lists *)

Lemma insert_at_perm {A} i (x : A) l : insert_at i x l ≡ₚ x :: l.
Proof. unfold insert_at. rewrite <- Permutation_middle. by rewrite take_drop. Qed.

Lemma insert_at_map {A B} (f : A -> B) i x l : map f (insert_at i x l) = insert_at i (f x) (map f l).
Proof. unfold insert_at. rewrite map_app. cbn. by rewrite <- !firstn_map, <- skipn_map. Qed.

Lemma find_index_lookup {A} (p : A -> bool) l i :
  find_index p l = Some i -> exists x, l !! i = Some x /\ p x = true.
Proof.
  revert i. induction l as [|x l IH]; intros i; cbn; [done|]. destruct (p x) eqn:Hp.
  - intros [= <-]. cbn. eauto.
  - intros H. destruct (find_index p l) as [j|]; [|done]. injection H as <-. by apply IH.
Qed.

Lemma find_index_array_find {A} (p : A -> bool) l i :
  find_index p l = Some i -> array_find p l = l !! i.
Proof.
  unfold array_find. revert i. induction l as [|x l IH]; intros i; cbn; [done|]. destruct (p x) eqn:Hp.
  - intros [= <-]. done.
  - intros H. destruct (find_index p l) as [j|]; [|done]. injection H as <-. cbn. by apply IH.
Qed.

Lemma find_index_None {A} (p : A -> bool) l : find_index p l = None -> array_find p l = None.
Proof.
  unfold array_find. induction l as [|x l IH]; cbn; [done|]. destruct (p x); [done|].
  intros H. apply IH. by destruct (find_index p l).
Qed.

(** Rules up to their groups. *)
Definition erased (l : list ModelCustomRule) : list ModelCustomRule := map (relabel UNGROUPED) l.

Lemma erased_ids l l' : erased l ≡ₚ erased l' -> map cr_id l ≡ₚ map cr_id l'.
Proof.
  assert (forall l, map cr_id l = map cr_id (erased l)) as E by (intros; unfold erased; by rewrite map_map).
  intros H. rewrite (E l), (E l'). by apply Permutation_map.
Qed.

(** ** Drop targets *)

Theorem drop_target_decodes g :
  (isGroupDropId (containerId g) = true /\ groupFromDropId (containerId g) = g) /\
  (isGroupDropId (headerDropId g) = true /\ groupFromDropId (headerDropId g) = g) /\
  (isGroupSortId (groupSortId g) = true /\ groupFromSortId (groupSortId g) = g) /\
  isGroupDropId (groupSortId g) = false /\ isGroupSortId (containerId g) = false /\
  isGroupSortId (headerDropId g) = false /\
  (containerId g = NEW_GROUP_ZONE <-> g = "__new__").
Proof.
  assert (isHeaderDropId (containerId g) = false) as Hc by (by cbv -[startsWith String.prefix]; cbn).
  assert (isHeaderDropId (headerDropId g) = true) as Hh by apply startsWith_app.
  unfold isGroupDropId, groupFromDropId. rewrite Hc, Hh, orb_true_r.
  split; [split; [by rewrite orb_false_r; apply startsWith_app|apply drop_app_s]|].
  split; [split; [done|apply drop_app_s]|].
  split; [split; [apply startsWith_app|apply drop_app_s]|].
  split; [done|]. split; [done|]. split; [done|].
  split; [|by intros ->]. intros H. by injection H.
Qed.

(** ** The invariant *)

Section facts.
Context (arrayMove : forall A : Type, list A -> nat -> nat -> list A).
Context (compareBase : string -> string -> Z).

(** The library's documentation: the element at [i] is taken out and put in at [j]. *)
Context (arrayMove_spec : forall (A : Type) (l : list A) i j x,
  l !! i = Some x -> (j < length l)%nat -> arrayMove A l i j = insert_at j x (delete i l)).

#[local] Notation derived := (derivedGroupNames compareBase).
#[local] Notation step := (card_step arrayMove compareBase).

Lemma arrayMove_perm {A} (l : list A) i j :
  (i < length l)%nat -> (j < length l)%nat -> arrayMove A l i j ≡ₚ l.
Proof.
  intros Hi Hj. destruct (lookup_lt_is_Some_2 l i Hi) as [x Hx].
  rewrite (arrayMove_spec A l i j x Hx Hj), insert_at_perm. symmetry. by apply delete_Permutation.
Qed.

Lemma find_index_lt {A} (p : A -> bool) l i : find_index p l = Some i -> (i < length l)%nat.
Proof. intros (x & Hx & _)%find_index_lookup. by eapply lookup_lt_Some. Qed.

Lemma derived_spec l order :
  NoDup (derived l order) /\ "" ∉ derived l order /\
  Forall (fun r => groupOfRule r = "" \/ groupOfRule r ∈ derived l order) l.
Proof.
  unfold derivedGroupNames. set (ordered := dedup _). set (labels := List.filter _ (map _ l)).
  assert (forall g, g ∈ labels -> g <> "" /\ g ∉ ordered) as Hlab.
  { intros g [_ Hg]%elem_of_list_filter_b. apply andb_true_iff in Hg as [H1 H2].
    apply negb_true_iff, String.eqb_neq in H1. to_prop. done. }
  assert (forall g, g ∈ array_sort compareBase (dedup labels) <-> g ∈ labels) as Hs.
  { intros g. rewrite (array_sort_perm compareBase), elem_of_dedup. done. }
  split; [|split].
  - apply NoDup_app. split; [apply NoDup_dedup|]. split.
    + intros g Hg Hl%Hs%Hlab. tauto.
    + rewrite (array_sort_perm compareBase). apply NoDup_dedup.
  - rewrite elem_of_app, Hs. intros [He|He%Hlab]; [|tauto].
    apply elem_of_dedup, elem_of_list_filter_b in He as [_ He]. done.
  - apply Forall_forall. intros r Hr.
    destruct (String.eqb_spec (groupOfRule r) "") as [|Hne]; [by left|right].
    rewrite elem_of_app, Hs. destruct (decide (groupOfRule r ∈ ordered)) as [|Hn]; [by left|right].
    apply elem_of_list_filter_b. split; [apply list_elem_of_fmap; eauto|].
    rewrite bool_decide_eq_false_2 by done. by apply String.eqb_neq in Hne as ->.
Qed.

Record card_ok (c : Card) : Prop := {
  co_rules : erased (localRules c) ≡ₚ erased (rules c);
  co_names : NoDup (localGroupOrder c) /\ "" ∉ localGroupOrder c;
  co_cover : Forall (fun r => groupOfRule r = "" \/ groupOfRule r ∈ localGroupOrder c) (localRules c);
  co_clean : dirty c = false -> localRules c = sortedFromProps c;
}.

Lemma setLocalRules_ok l c b :
  erased l ≡ₚ erased (rules c) -> (b = false -> l = sortedFromProps c) ->
  card_ok ((setLocalRules compareBase l c) <| dirty := b |>).
Proof.
  intros Hl Hb. destruct (derived_spec l (groupOrder c)) as (? & ? & ?). by destruct c; split.
Qed.

Lemma sorted_erased c : erased (sortedFromProps c) ≡ₚ erased (rules c).
Proof. apply Permutation_map, array_sort_perm. Qed.

Lemma receiveProps_ok rs order drag c : card_ok (receiveProps compareBase rs order drag c).
Proof. apply setLocalRules_ok; [apply sorted_erased|done]. Qed.

Lemma revert_ok c : card_ok c -> card_ok (revertLocalRules compareBase c).
Proof.
  intros Hc. unfold revertLocalRules. destruct (dirty c); [|done].
  apply setLocalRules_ok; [apply sorted_erased|done].
Qed.

(** The fields the invariant does not read. *)
Lemma card_ok_fields c c' :
  rules c' = rules c -> localRules c' = localRules c -> localGroupOrder c' = localGroupOrder c ->
  dirty c' = dirty c -> card_ok c -> card_ok c'.
Proof.
  intros Hr Hl Hg Hd [H1 H2 H3 H4]. split; rewrite ?Hr, ?Hl, ?Hg, ?Hd; try done.
  intros Hx%H4. unfold sortedFromProps. by rewrite Hr.
Qed.

Lemma moveOver_erased a o g l l' : moveOver a o g l = Some l' -> erased l' ≡ₚ erased l.
Proof.
  unfold moveOver. destruct (find_index (hasId a) l) as [i|]; [|done].
  destruct (l !! i) as [r|] eqn:Hr; [|done]. cbv zeta. intros [= <-].
  unfold erased. rewrite insert_at_map, insert_at_perm.
  change (relabel UNGROUPED (relabel g r) :: map (relabel UNGROUPED) (delete i l))
    with (map (relabel UNGROUPED) (r :: delete i l)).
  apply Permutation_map. symmetry. by apply delete_Permutation.
Qed.

Lemma dragOver_ok a o c : card_ok c -> card_ok (handleDragOver compareBase a o c).
Proof.
  intros Hc. unfold handleDragOver. destruct o as [o|]; [|done]. destruct (isGroupSortId a); [done|].
  destruct (String.eqb o NEW_GROUP_ZONE); [done|]. cbv zeta. generalize (if isGroupDropId o then groupFromDropId o else groupOf (localRules c) o). intros g.
  destruct (String.eqb g _); [done|]. destruct (moveOver a o g (localRules c)) as [l|] eqn:Hm; [|done].
  apply moveOver_erased in Hm. apply (setLocalRules_ok l c true); [|done].
  rewrite Hm. apply (co_rules c Hc).
Qed.

(** ** What a drop does *)

Lemma dropOrder_perm a o c l : dropOrder arrayMove a o c = Some l -> l ≡ₚ localRules c.
Proof.
  unfold dropOrder. destruct (_ || _); [done|].
  destruct (find_index (hasId a) (localRules c)) as [i|] eqn:Hi; [|done].
  destruct (find_index (hasId o) (localRules c)) as [j|] eqn:Hj; [|done].
  destruct (i =? j)%nat; [done|]. intros [= <-]. by apply arrayMove_perm; eapply find_index_lt.
Qed.

(** Orders that name every rule, and every group that is shown. *)
Definition call_complete (c : Card) (call : CardCall) : Prop :=
  match call with
  | OnReorder ids => ids ≡ₚ map cr_id (rules c)
  | OnMoveRule ids _ _ => ids ≡ₚ map cr_id (rules c)
  | OnReorderGroups names => names ≡ₚ localGroupOrder c
  | _ => True
  end.

Lemma persistDrop_ok a l c c0 :
  card_ok c -> erased l ≡ₚ erased (rules c) -> rules c0 = rules c ->
  card_ok (persistDrop a l c).1 /\ Forall (call_complete c0) (persistDrop a l c).2.
Proof.
  intros Hc Hl Hr. pose proof (erased_ids _ _ Hl) as Hids. unfold persistDrop. cbv zeta.
  destruct (negb (String.eqb (groupOf l a) _)); [|destruct (negb (String.eqb (join _ _) _))]; cbn [fst snd].
  - split; [|repeat constructor; cbn; by rewrite Hr]. destruct (String.eqb _ UNGROUPED); [done|].
    eapply card_ok_fields; [..|exact Hc]; by destruct c.
  - split; [done|repeat constructor; cbn; by rewrite Hr].
  - split; [done|constructor].
Qed.

Lemma dragEnd_ok a o c :
  card_ok c ->
  card_ok (handleDragEnd arrayMove compareBase a o c).1 /\
  Forall (call_complete c) (handleDragEnd arrayMove compareBase a o c).2.
Proof.
  intros Hc. unfold handleDragEnd. destruct (isGroupSortId a).
  - assert (card_ok (clearActiveGroup c)) as Hc' by (eapply card_ok_fields; [..|exact Hc]; by destruct c).
    unfold endGroupDrag. destruct o as [o|]; [|by split; [|constructor]].
    destruct (negb _); [by split; [|constructor]|]. cbv zeta. destruct (String.eqb _ _); [by split; [|constructor]|].
    change (localGroupOrder (clearActiveGroup c)) with (localGroupOrder c).
    destruct (find_index _ (localGroupOrder c)) as [i|] eqn:Hi; [|by split; [|constructor]].
    destruct (find_index (String.eqb (groupFromSortId o)) (localGroupOrder c)) as [j|] eqn:Hj; [|by split; [|constructor]].
    destruct (i =? j)%nat; [by split; [|constructor]|].
    assert (arrayMove string (localGroupOrder c) i j ≡ₚ localGroupOrder c) as Hp
      by (by apply arrayMove_perm; eapply find_index_lt).
    cbn [fst snd]. split; [|by repeat constructor]. destruct Hc as [H1 [H2 H2'] H3 H4].
    split; cbn; rewrite ?Hp; try done.
    eapply Forall_impl; [exact H3|]. cbn. intros r. by rewrite Hp.
  - assert (card_ok (c <| activeId := None |>)) as Hc' by (eapply card_ok_fields; [..|exact Hc]; by destruct c).
    cbv zeta. set (c1 := c <| activeId := None |>) in *. destruct o as [o|]; [|split; [by apply revert_ok|constructor]].
    destruct (String.eqb o NEW_GROUP_ZONE).
    { cbn [fst snd]. split; [|constructor]. eapply card_ok_fields; [..|apply (revert_ok c1 Hc')];
        generalize (revertLocalRules compareBase c1); by intros []. }
    destruct (dropOrder arrayMove a o c1) as [l|] eqn:Hd.
    + apply dropOrder_perm in Hd.
      assert (erased l ≡ₚ erased (rules c1)) as Hl.
      { rewrite <- (co_rules c1 Hc'). by apply Permutation_map. }
      apply (persistDrop_ok a l (setLocalRules compareBase l c1)); [|done|done].
      by apply (setLocalRules_ok l c1 true).
    + apply (persistDrop_ok a (localRules c1) c1 c Hc'); [apply (co_rules c1 Hc')|done].
Qed.

Lemma card_step_ok c e : card_ok c -> card_ok (step c e).1 /\ Forall (call_complete c) (step c e).2.
Proof.
  intros Hc. assert (forall c', rules c' = rules c -> localRules c' = localRules c ->
    localGroupOrder c' = localGroupOrder c -> dirty c' = dirty c -> card_ok c') as Hf
    by (intros; by eapply card_ok_fields).
  pose proof (erased_ids _ _ (co_rules c Hc)) as Hids.
  destruct e as [a|a o|a o| |n| | |n| |n|id|id|rs order drag]; cbn [card_step].
  - split; [|constructor]. unfold handleDragStart. destruct (isGroupSortId a); apply Hf; by destruct c.
  - split; [by apply dragOver_ok|constructor].
  - by apply dragEnd_ok.
  - split; [done|constructor].
  - unfold confirmNewGroup. destruct (pendingDropRuleId c) as [rid|]; [destruct (truthy rid)|];
      (split; [apply Hf; by destruct c|by repeat constructor]).
  - split; [apply Hf; by destruct c|constructor].
  - split; [apply Hf; by destruct c|constructor].
  - split; [apply Hf; by destruct c|constructor].
  - split; [apply Hf; by destruct c|]. unfold confirmDeleteGroup. destruct (groupToDelete c); by repeat constructor.
  - split; [|constructor]. apply Hf; by destruct c.
  - split; [apply Hf; by destruct c|constructor].
  - split; [apply Hf; by destruct c|by repeat constructor].
  - split; [apply receiveProps_ok|constructor].
Qed.

Lemma card_run_ok c evs : card_ok c -> card_ok (card_run arrayMove compareBase c evs).
Proof. intros Hc. apply (run_invariant _ card_ok); [|done]. intros c' e Hc'. by apply card_step_ok. Qed.

(** ** Every rule is shown *)

Lemma filter_groups_perm (gs : list string) (l : list ModelCustomRule) :
  NoDup gs ->
  concat (map (fun g => List.filter (fun r => String.eqb (groupOfRule r) g) l) gs)
    ≡ₚ List.filter (fun r => bool_decide (groupOfRule r ∈ gs)) l.
Proof.
  induction 1 as [|g gs Hg Hgs IH]; cbn.
  { assert (List.filter (fun r => bool_decide (groupOfRule r ∈ [])) l = []) as ->; [|done].
    induction l; cbn; [done|]. by rewrite bool_decide_eq_false_2 by apply not_elem_of_nil. }
  rewrite IH. clear IH. induction l as [|r l IH]; cbn; [done|].
  destruct (String.eqb_spec (groupOfRule r) g) as [->|Hne].
  - rewrite (bool_decide_eq_false_2 _ Hg), bool_decide_eq_true_2 by left. cbn. by rewrite IH.
  - destruct (decide (groupOfRule r ∈ gs)) as [Hin|Hin].
    + rewrite (bool_decide_eq_true_2 _ Hin), bool_decide_eq_true_2 by (by right).
      rewrite <- Permutation_middle. by rewrite IH.
    + rewrite (bool_decide_eq_false_2 _ Hin), bool_decide_eq_false_2 by (rewrite elem_of_cons; naive_solver).
      done.
Qed.

Lemma filter_true {A} (p : A -> bool) (l : list A) : Forall (fun x => p x = true) l -> List.filter p l = l.
Proof. induction 1 as [|x l Hx _ IH]; cbn; [done|]. by rewrite Hx, IH. Qed.

Lemma sections_partition c :
  card_ok c -> concat (map s_items (sections (localRules c) (localGroupOrder c))) ≡ₚ localRules c.
Proof.
  intros [_ [Hnd Hne] Hc _]. unfold sections. rewrite map_map. cbn [s_items].
  rewrite filter_groups_perm by (by constructor). rewrite filter_true; [done|].
  eapply Forall_impl; [exact Hc|]. cbn. intros r Hr. apply bool_decide_eq_true_2.
  rewrite elem_of_cons. exact Hr.
Qed.

(** C15: however rows and groups are dragged, the card holds exactly the rules it was given, up to
    their groups and order, each in one section, and no two sections share a name *)
Theorem dragging_keeps_the_rules rs order drag persisted evs :
  let c := card_run arrayMove compareBase (mount compareBase rs order drag persisted) evs in
  erased (localRules c) ≡ₚ erased (rules c) /\
  concat (map s_items (sections (localRules c) (localGroupOrder c))) ≡ₚ localRules c /\
  NoDup (map s_name (sections (localRules c) (localGroupOrder c))).
Proof.
  cbv zeta. set (c := card_run _ _ _ _).
  assert (card_ok c) as Hc by apply card_run_ok, receiveProps_ok.
  split; [apply (co_rules c Hc)|]. split; [by apply sections_partition|].
  unfold sections. rewrite map_map. cbn [s_name]. rewrite map_id. constructor; apply (co_names c Hc).
Qed.

(** ** Orders reach the server whole *)

(** The page's handler behind each of the card's callbacks. *)
Definition parent (tab : RuleList) (call : CardCall) : PageHandler :=
  match call with
  | OnDelete id => DeleteRule id
  | OnReorder ids => Reorder tab ids
  | OnMoveRule ids id g => MoveRule tab ids id g
  | OnCreateGroup n => CreateGroup tab n
  | OnDeleteGroup n => DeleteGroup tab n
  | OnReorderGroups ns => ReorderGroups tab ns
  end.

Lemma filteredRules_all tab s : searchValue s = "" -> filteredRules tab s = tabRules tab s.
Proof.
  intros Hs. unfold filteredRules. rewrite Hs. apply filter_true, Forall_true. intros r.
  by destruct (toLowerCase (cr_value r)).
Qed.

Lemma groupOps_sends ops m o s : sends (order_complete s) (applyGroupOps ops m o s).
Proof.
  unfold applyGroupOps, withProfile. destruct (selectedProfileId s) as [id|]; [|done].
  apply sends_try; [|done]. apply sends_await; [done|]. intros _.
  apply sends_bind; [apply sends_refetch|]. intros _. by destruct (truthy_opt o).
Qed.

Theorem drags_order_every_rule tab s rs order drag persisted evs e :
  rules_listed s -> searchValue s = "" ->
  let c := card_run arrayMove compareBase (mount compareBase rs order drag persisted) evs in
  rules c = filteredRules tab s ->
  Forall (fun call => sends (order_complete s) (handler (parent tab call) s)) (step c e).2.
Proof.
  cbv zeta. set (c := card_run _ _ _ _). intros Hl Hs Hr.
  assert (card_ok c) as Hc by apply card_run_ok, receiveProps_ok.
  destruct (card_step_ok c e Hc) as [_ Hcalls].
  eapply Forall_impl; [exact Hcalls|]. intros [id|ids|ids id g|n|n|ns] Hcall; cbn in Hcall |- *.
  2-3: rewrite Hr, (filteredRules_all tab s Hs) in Hcall; by apply reorder_complete.
  - unfold handleDeleteRule, withProfile. destruct (selectedProfileId s) as [p|]; [|done].
    apply sends_guarded, sends_await; [done|]. intros _.
    apply sends_bind; [apply sends_refetch|done].
  - apply groupOps_sends.
  - apply groupOps_sends.
  - unfold handleReorderGroups, withProfile. destruct (selectedProfileId s) as [p|]; [|done].
    apply sends_orRefetch, sends_await; [done|]. intros _. apply sends_refetch.
Qed.

(** ** A drop saves what is shown *)

Definition no_bar (id : string) : Prop := str_all (fun d => negb (Ascii.eqb "|" d)) id = true.

Lemma join_ids_inj (l l' : list string) :
  l ≡ₚ l' -> Forall no_bar l -> join "|" l = join "|" l' -> l = l'.
Proof.
  intros Hp Hl Hj. destruct l as [|x l].
  { apply Permutation_nil_l in Hp. by subst. }
  assert (l' <> []) as Hne by (intros ->; by apply Permutation_nil_r in Hp).
  assert (Forall no_bar l') as Hl' by (by rewrite <- Hp).
  rewrite <- (split_join (x :: l) "|"), Hj by done. by apply split_join.
Qed.

Lemma persistDrop_local a l c : localRules (persistDrop a l c).1 = localRules c.
Proof.
  unfold persistDrop. cbv zeta. destruct (negb _); [by destruct (String.eqb _ _)|]. by destruct (negb _).
Qed.

(** The calls of a drop that shows [l] where [saved] is stored. *)
Definition saves (a : string) (l : list ModelCustomRule) (c : Card) (calls : list CardCall) : Prop :=
  (calls = [] /\ map cr_id l = map cr_id (sortedFromProps c) /\ groupOf l a = groupOf (rules c) a) \/
  (calls = [OnReorder (map cr_id l)] /\ groupOf l a = groupOf (rules c) a) \/
  (calls = [OnMoveRule (map cr_id l) a (groupOf l a)] /\ groupOf l a <> groupOf (rules c) a).

Lemma persistDrop_saves a l c c0 :
  rules c0 = rules c -> Forall no_bar (map cr_id (rules c)) -> map cr_id l ≡ₚ map cr_id (rules c) ->
  saves a l c0 (persistDrop a l c).2.
Proof.
  intros Hr Hids Hp. unfold persistDrop, saves, sortedFromProps. cbv zeta. rewrite Hr.
  destruct (String.eqb_spec (groupOf l a) (groupOf (rules c) a)) as [Hg|Hg]; cbn [negb]; [|auto].
  destruct (String.eqb_spec (join "|" (map cr_id l)) (join "|" (map cr_id (sortByOrder (rules c))))) as [Hj|Hj];
    cbn [negb snd]; [left|auto].
  split; [done|]. split; [|done]. apply join_ids_inj; [|by rewrite Hp|done].
  etransitivity; [exact Hp|]. apply Permutation_map. symmetry. apply array_sort_perm.
Qed.

Theorem drop_saves_what_is_shown rs order drag persisted evs a o :
  let c := card_run arrayMove compareBase (mount compareBase rs order drag persisted) evs in
  Forall no_bar (map cr_id (rules c)) -> isGroupSortId a = false -> o <> NEW_GROUP_ZONE ->
  let '(c', calls) := step c (DragEnd a (Some o)) in
  saves a (localRules c') c calls /\ activeId c' = None.
Proof.
  cbv zeta. set (c := card_run _ _ _ _). intros Hids Ha Ho.
  assert (card_ok c) as Hc by apply card_run_ok, receiveProps_ok.
  pose proof (erased_ids _ _ (co_rules c Hc)) as Hp.
  cbn [card_step]. unfold handleDragEnd. rewrite Ha. apply String.eqb_neq in Ho as ->. cbv zeta.
  set (c1 := c <| activeId := None |>).
  destruct (dropOrder arrayMove a o c1) as [l|] eqn:Hd.
  - apply dropOrder_perm in Hd. set (c2 := setLocalRules compareBase l c1).
    pose proof (persistDrop_local a l c2) as Hloc.
    assert (saves a l c (persistDrop a l c2).2) as Hs.
    { apply persistDrop_saves; [done|done|]. etransitivity; [|exact Hp]. by apply Permutation_map. }
    assert (activeId (persistDrop a l c2).1 = None) as Hact.
    { unfold persistDrop. cbv zeta. destruct (negb _); [by destruct (String.eqb _ _)|]. by destruct (negb _). }
    destruct (persistDrop a l c2) as [c' calls]. cbn in *. by rewrite Hloc.
  - pose proof (persistDrop_local a (localRules c1) c1) as Hloc.
    assert (saves a (localRules c1) c (persistDrop a (localRules c1) c1).2) as Hs by (by apply persistDrop_saves).
    assert (activeId (persistDrop a (localRules c1) c1).1 = None) as Hact.
    { unfold persistDrop. cbv zeta. destruct (negb _); [by destruct (String.eqb _ _)|]. by destruct (negb _). }
    destruct (persistDrop a (localRules c1) c1) as [c' calls]. cbn in *. by rewrite Hloc.
Qed.

(** ** Two gestures *)

Lemma array_find_id a (l : list ModelCustomRule) r :
  NoDup (map cr_id l) -> r ∈ l -> cr_id r = a -> array_find (hasId a) l = Some r.
Proof.
  intros Hnd Hr Ha. destruct (array_find (hasId a) l) as [r'|] eqn:E.
  - apply array_find_elem in E as [Hr' Hid]. apply String.eqb_eq in Hid. f_equal.
    apply list_elem_of_lookup_1 in Hr as [i Hi], Hr' as [j Hj].
    assert (i = j) as ->; [|congruence].
    apply (NoDup_lookup _ i j a Hnd); rewrite list_lookup_fmap; [rewrite Hi|rewrite Hj]; cbn; congruence.
  - apply array_find_None in E. rewrite Forall_forall in E. specialize (E r Hr).
    unfold hasId in E. by rewrite Ha, String.eqb_refl in E.
Qed.

(** A row that hovers over another group is shown in it. *)
Lemma moveOver_group a o g l l' :
  NoDup (map cr_id l) -> moveOver a o g l = Some l' -> groupOf l' a = g.
Proof.
  intros Hnd Hm. pose proof (moveOver_erased a o g l l' Hm) as Hp%erased_ids. unfold moveOver in Hm.
  destruct (find_index (hasId a) l) as [i|] eqn:Hi; [|done].
  apply find_index_lookup in Hi as (r & Hr & Hid). rewrite Hr in Hm. injection Hm as Hm.
  unfold groupOf. rewrite (array_find_id a l' (relabel g r)); [done| | |].
  - by rewrite Hp.
  - rewrite <- Hm, insert_at_perm. left.
  - by apply String.eqb_eq in Hid.
Qed.

Lemma moveOver_some a o g l : a ∈ map cr_id l -> exists l', moveOver a o g l = Some l'.
Proof.
  intros (r & -> & Hr)%list_elem_of_fmap. unfold moveOver.
  destruct (find_index (hasId (cr_id r)) l) as [i|] eqn:Hi.
  - destruct (find_index_lookup _ _ _ Hi) as (x & -> & _). eauto.
  - apply find_index_None, array_find_None in Hi. rewrite Forall_forall in Hi. specialize (Hi r Hr).
    unfold hasId in Hi. by rewrite String.eqb_refl in Hi.
Qed.

(** A rule [a] of a card at rest. *)
Record at_rest (c : Card) (a : string) : Prop := {
  ar_ok : card_ok c;
  ar_clean : dirty c = false;
  ar_ids : NoDup (map cr_id (rules c));
  ar_rule : a ∈ map cr_id (rules c);
  ar_plain : isGroupSortId a = false;
}.

Lemma at_rest_group c a : at_rest c a -> groupOf (localRules c) a = groupOf (rules c) a.
Proof.
  intros [Hok Hc Hn (r & -> & Hr)%list_elem_of_fmap _]. rewrite (co_clean c Hok Hc). unfold groupOf.
  assert (sortedFromProps c ≡ₚ rules c) as Hp by apply array_sort_perm.
  rewrite !(array_find_id (cr_id r) _ r); try done; [by rewrite Hp|by rewrite Hp].
Qed.

(** Hovering over the target [o], which stands for the group [g], relabels the row. *)
Lemma hover_relabels c a o g :
  at_rest c a -> g <> groupOf (rules c) a -> o <> NEW_GROUP_ZONE ->
  (if isGroupDropId o then groupFromDropId o else groupOf (localRules c) o) = g ->
  let c' := handleDragOver compareBase a (Some o) c in
  groupOf (localRules c') a = g /\ rules c' = rules c /\ dirty c' = true.
Proof.
  intros Hr Hg Ho Ht. cbv zeta. unfold handleDragOver. rewrite (ar_plain c a Hr).
  apply String.eqb_neq in Ho as ->. cbv zeta. rewrite Ht, (at_rest_group c a Hr).
  assert (String.eqb g (groupOf (rules c) a) = false) as -> by (by apply String.eqb_neq).
  pose proof (erased_ids _ _ (co_rules c (ar_ok c a Hr))) as Hp.
  destruct (moveOver_some a o g (localRules c)) as [l Hl]; [rewrite Hp; apply (ar_rule c a Hr)|].
  rewrite Hl. split; [|done]. eapply moveOver_group; [|exact Hl]. rewrite Hp. apply (ar_ids c a Hr).
Qed.

(** A drop outside every target puts the row back; giving the drag up with Escape does not. *)
Theorem cancelled_drag_is_kept c a g :
  at_rest c a -> g <> groupOf (rules c) a -> g <> "__new__" ->
  let hover := [DragStart a; DragOver a (Some (containerId g))] in
  let shown_in evs := groupOf (localRules (card_run arrayMove compareBase c (hover ++ evs))) a in
  shown_in [DragEnd a None] = groupOf (rules c) a /\
  shown_in [DragCancel] = g /\
  rules (card_run arrayMove compareBase c (hover ++ [DragCancel])) = rules c.
Proof.
  intros Hr Hg Hn. cbv zeta. unfold card_run. rewrite !run_app. cbn [run foldl card_step fst].
  unfold handleDragStart. rewrite (ar_plain c a Hr). set (c1 := c <| activeId := Some a |>).
  assert (at_rest c1 a) as Hr1.
  { destruct Hr as [Hok ? ? ? ?]. split; try done. eapply card_ok_fields; [..|exact Hok]; by destruct c. }
  destruct (drop_target_decodes g) as ((Hd & Hf) & _ & _ & _ & _ & _ & Hz).
  destruct (hover_relabels c1 a (containerId g) g Hr1) as (Hs & Hrules & Hdirty).
  - done.
  - by rewrite Hz.
  - by rewrite Hd.
  - set (c2 := handleDragOver compareBase a (Some (containerId g)) c1) in *.
    split; [|by split]. unfold handleDragEnd. rewrite (ar_plain c a Hr). cbn [fst].
    unfold revertLocalRules. change (dirty (c2 <| activeId := None |>)) with (dirty c2). rewrite Hdirty.
    change (groupOf (sortedFromProps c2) a = groupOf (rules c) a).
    assert (sortedFromProps c2 = localRules c) as ->.
    { rewrite (co_clean c (ar_ok c a Hr) (ar_clean c a Hr)). unfold sortedFromProps. by rewrite Hrules. }
    by apply at_rest_group.
Qed.

(** A row dropped where [@dnd-kit] reports a group's sortable node, and not its header or body, leaves
    its group, even if that group is the node's. *)
Theorem drop_on_section_ungroups c a g :
  at_rest c a -> groupOf (rules c) a <> UNGROUPED -> groupSortId g ∉ map cr_id (rules c) ->
  let over := Some (groupSortId g) in
  exists ids, (step (card_run arrayMove compareBase c [DragStart a; DragOver a over]) (DragEnd a over)).2
    = [OnMoveRule ids a UNGROUPED].
Proof.
  intros Hr Hg Hid. cbv zeta. unfold card_run. cbn [run foldl card_step fst].
  unfold handleDragStart. rewrite (ar_plain c a Hr). set (c1 := c <| activeId := Some a |>).
  assert (at_rest c1 a) as Hr1.
  { destruct Hr as [Hok ? ? ? ?]. split; try done. eapply card_ok_fields; [..|exact Hok]; by destruct c. }
  destruct (drop_target_decodes g) as (_ & _ & _ & Hd & _).
  assert (isGroupSortId (groupSortId g) = true) as Hsort by apply startsWith_app.
  assert (groupSortId g <> NEW_GROUP_ZONE) as Hz by (intros E; by rewrite E in Hsort).
  assert (groupOf (localRules c1) (groupSortId g) = UNGROUPED) as Hu.
  { unfold groupOf. rewrite (proj2 (array_find_None (hasId (groupSortId g)) (localRules c1))); [done|].
    apply Forall_forall. intros r Hin. apply String.eqb_neq. intros Heq. apply Hid.
    change (rules c) with (rules c1). rewrite <- (erased_ids _ _ (co_rules c1 (ar_ok c1 a Hr1))), <- Heq. apply list_elem_of_fmap. eauto. }
  destruct (hover_relabels c1 a (groupSortId g) UNGROUPED Hr1) as (Hs & Hrules & Hdirty).
  - change (rules c1) with (rules c). congruence.
  - done.
  - by rewrite Hd.
  - set (c2 := handleDragOver compareBase a (Some (groupSortId g)) c1) in *.
    unfold handleDragEnd. rewrite (ar_plain c a Hr). apply String.eqb_neq in Hz as ->. cbv zeta.
    set (c3 := c2 <| activeId := None |>).
    assert (dropOrder arrayMove a (groupSortId g) c3 = None) as ->.
    { unfold dropOrder. rewrite Hd. cbn [orb].
      destruct (String.eqb a (groupSortId g)); [done|].
      destruct (find_index (hasId a) (localRules c3)); [|done].
      destruct (find_index (hasId (groupSortId g)) (localRules c3)) eqn:E; [|done].
      apply find_index_lookup in E as (r & Hin & Heq). exfalso. apply Hid.
      change (localRules c3) with (localRules c2) in Hin.
      assert (card_ok c2) as Hok2 by (apply dragOver_ok, (ar_ok c1 a Hr1)).
      change (rules c) with (rules c1). rewrite <- Hrules, <- (erased_ids _ _ (co_rules c2 Hok2)).
      apply list_elem_of_fmap. exists r. split; [by apply String.eqb_eq in Heq|by eapply list_elem_of_lookup_2]. }
    unfold persistDrop. cbv zeta. change (localRules c3) with (localRules c2). rewrite Hs.
    change (rules c3) with (rules c2). rewrite Hrules. change (rules c1) with (rules c).
    assert (String.eqb UNGROUPED (groupOf (rules c) a) = false) as -> by (by apply String.eqb_neq).
    cbn [negb snd]. eauto.
Qed.
End facts.

(** ** Concrete inputs *)

(** [arrayMove] as documented. *)
Definition array_move (A : Type) (l : list A) (i j : nat) : list A :=
  match l !! i with Some x => insert_at j x (delete i l) | None => l end.
Lemma array_move_spec (A : Type) (l : list A) i j x :
  l !! i = Some x -> (j < length l)%nat -> array_move A l i j = insert_at j x (delete i l).
Proof. unfold array_move. by intros ->. Qed.

Definition witness_card_rules : list ModelCustomRule :=
  [ MkModelCustomRule "block" (Some "ads") "r1" None (Some 0) "a.com";
    MkModelCustomRule "block" None "r2" None (Some 1) "b.com";
    MkModelCustomRule "block" (Some "ads") "r3" None (Some 2) "c.com" ].
Definition witness_card : Card := mount compare_units witness_card_rules ["ads"; "work"] true [].

Lemma witness_at_rest : at_rest witness_card "r1".
Proof.
  split; [apply receiveProps_ok|reflexivity| |left|reflexivity].
  repeat constructor; cbn; set_solver.
Qed.

Lemma cancelled_drag_is_kept_witness :
  groupOf (localRules (card_run array_move compare_units witness_card
    [DragStart "r1"; DragOver "r1" (Some (containerId "work")); DragCancel])) "r1" = "work".
Proof.
  refine (proj1 (proj2 (cancelled_drag_is_kept array_move compare_units witness_card "r1" "work" witness_at_rest _ _)));
    discriminate.
Defined.

Lemma drop_on_section_ungroups_witness :
  exists ids, (card_step array_move compare_units
    (card_run array_move compare_units witness_card [DragStart "r1"; DragOver "r1" (Some (groupSortId "ads"))])
    (DragEnd "r1" (Some (groupSortId "ads")))).2 = [OnMoveRule ids "r1" UNGROUPED].
Proof.
  apply (drop_on_section_ungroups array_move compare_units witness_card "r1" "ads" witness_at_rest);
    [discriminate|]. cbn. set_solver.
Defined.

(** A row dropped on another one in the same group. *)
Lemma drop_saves_what_is_shown_witness :
  let '(c', calls) := card_step array_move compare_units witness_card (DragEnd "r1" (Some "r3")) in
  saves "r1" (localRules c') witness_card calls /\ activeId c' = None.
Proof.
  apply (drop_saves_what_is_shown array_move compare_units array_move_spec witness_card_rules ["ads"; "work"] true []
    [] "r1" "r3"); [|reflexivity|discriminate]. repeat constructor.
Defined.

Definition witness_list_page : Page :=
  mkPage (setActiveProfile (Some (witness_page_profile "p1" witness_card_rules)) initialState)
    [] denylist false "" false [] None (mkTokens [] []) [] (Some "p1").

Lemma dragging_keeps_the_rules_witness :
  let c := card_run array_move compare_units witness_card [DragOver "r1" (Some "r2"); DragEnd "r1" (Some "r2")] in
  erased (localRules c) ≡ₚ erased (rules c) /\
  concat (map s_items (sections (localRules c) (localGroupOrder c))) ≡ₚ localRules c /\
  NoDup (map s_name (sections (localRules c) (localGroupOrder c))).
Proof.
  apply (dragging_keeps_the_rules array_move compare_units array_move_spec witness_card_rules ["ads"; "work"] true []).
Defined.

Lemma drags_order_every_rule_witness :
  Forall (fun call => sends (order_complete witness_list_page) (handler (parent denylist call) witness_list_page))
    (card_step array_move compare_units witness_card (DragEnd "r1" (Some "r2"))).2.
Proof.
  apply (drags_order_every_rule array_move compare_units array_move_spec denylist witness_list_page
    witness_card_rules ["ads"; "work"] true [] []); [|reflexivity|reflexivity].
  repeat constructor.
Defined.
