(* ===== verification/LogsPage.v ===== *)
(** * The query logs page

    [src/app/src/pages/logs/Logs.tsx]: the list of queries with its filters, pagination, refreshes and
    the background tick of auto-refresh. The state is the page's [useState]s and refs, the deps its
    effects last ran with, and the requests in flight; a step is an event, the render it causes and
    the effects of that render. Answers arrive in any order. The store's profile object is compared by
    reference by the effects: [profileRef] counts the objects. Pull-to-refresh and
    the filter bar are in LogControls; the scroll position is not modelled. *)

From S2P Require Import Prelude JsString JsDate ApiTypes Formats ConsolidateLogs QueryLogsDiff.
From coqutil Require Import Datatypes.RecordSetters.
Import TriangleBracketNotations.

#[local] Arguments constant _ _ _ /.

Definition QUERY_LIMIT : Z := 25.
Definition FIRST_PAGE_LIMIT : Z := 100.
Definition QUERY_MAX_ROWS : Z := 10000.

(** ** Requests *)

Record LogsRequest := mkLogsRequest {
  q_profile : string;
  q_page : Z;
  q_limit : Z;
  q_status : option string;
  q_timespan : option string;
  q_device : option string;
  q_search : option string;
  q_sort : string;
}.

(** The limit and the offset of a page; the API is asked for the page that starts at the offset. *)
Definition effectiveLimit (page : Z) : Z := if page =? 1 then FIRST_PAGE_LIMIT else QUERY_LIMIT.
Definition offset (page : Z) : Z := if page =? 1 then 0 else FIRST_PAGE_LIMIT + (page - 2) * QUERY_LIMIT.
Definition serverPage (page : Z) : Z := offset page / effectiveLimit page + 1.
Definition nextPageEnd (page : Z) : Z := offset page + effectiveLimit page + QUERY_LIMIT.

(** How a logs request settles. The rows of a 200 are an array; [status] is that of the error's
    response, [None] without one. *)
Inductive LogsAnswer : Type :=
| Rows (rows : list ModelQueryLog)
| OtherStatus
| Failure (status : option Z) (networkCode : bool).

(** ** State *)

Record LogFilters := mkFilters {
  filterValue : string;
  sortValue : string;
  timespanValue : option string;
  deviceIdValue : option string;
  committedSearchValue : string;
}.
#[export] Instance LogFilters_eq_dec : EqDecision LogFilters.
Proof. solve_decision. Defined.

Definition defaultFilters : LogFilters := mkFilters "all" "created" None None "".

Definition all_is_none (v : string) : option string := if String.eqb v "all" then None else Some v.
Definition or_none (v : string) : option string := if truthy v then Some v else None.

Definition request (profileId : string) (page limit : Z) (f : LogFilters) : LogsRequest :=
  mkLogsRequest profileId page limit (all_is_none (filterValue f)) (timespanValue f ≫= all_is_none)
    (deviceIdValue f ≫= or_none) (or_none (committedSearchValue f)) (sortValue f).

(** The deps of the fetch effect. *)
Record FetchDeps := mkDeps {
  d_page : Z;
  d_status : option string;
  d_timespan : option string;
  d_search : string;
  d_sort : string;
  d_profile : Z;
  d_trigger : Z;
  d_device : option string;
}.
#[export] Instance FetchDeps_eq_dec : EqDecision FetchDeps.
Proof. solve_decision. Defined.

(** A fetch in flight; it is live until the effect's cleanup runs. *)
Record Fetch := mkFetch { f_request : LogsRequest; f_page : Z; f_live : bool }.

(** The tick in flight. *)
Record Tick := mkTick { t_request : LogsRequest }.

Record DeviceFetch := mkDeviceFetch { df_profile : string; df_live : bool }.

Record LogsPage := mkLogs {
  profile : option ModelProfile;
  profileRef : Z;
  isRestricted : bool;
  logs : list ModelQueryLog;
  page : Z;
  hasMore : bool;
  rowCapReached : bool;
  loading : bool;
  error : option string;
  refreshIntervalKey : RefreshIntervalKey;
  refreshTrigger : Z;
  isListFading : bool;
  isQuickRuleSheetOpen : bool;
  quickRuleDomain : option string;
  pendingLogs : list ModelQueryLog;
  pendingOverflow : bool;
  expandedKeys : gset string;
  freshIdentities : gset string;
  lastUpdatedAt : option Z;
  searchInputValue : string;
  filters : LogFilters;
  serverDeviceIds : list string;
  observedDeviceIds : list string;
  deviceListRefreshTick : Z;
  bgFetchInFlight : bool;
  previousProfileIdRef : option string;
  filterDeps : option LogFilters;
  deviceDeps : option (option string * Z);
  fetchDeps : option FetchDeps;
  fetches : list Fetch;
  tick : option Tick;
  deviceFetches : list DeviceFetch;
}.

Definition profileId (s : LogsPage) : option string := p_profile_id <$> profile s.

(** [logs.enabled !== false]: true when nothing says otherwise. *)
Definition logsEnabled (s : LogsPage) : bool :=
  negb (bool_decide ((p ← profile s; st ← p_settings p; l ← ps_logs st; ls_enabled l) = Some false)).

Definition deps (s : LogsPage) : FetchDeps :=
  mkDeps (page s) (all_is_none (filterValue (filters s))) (timespanValue (filters s) ≫= all_is_none)
    (committedSearchValue (filters s)) (sortValue (filters s)) (profileRef s) (refreshTrigger s)
    (deviceIdValue (filters s)).

Definition availableDeviceIds (s : LogsPage) : list string :=
  let merged := dedup (serverDeviceIds s ++ observedDeviceIds s) in
  array_sort compare_units
    match deviceIdValue (filters s) with
    | Some d => if truthy d then add_new merged d else merged
    | None => merged
    end.

Definition displayGroups {H : Host} (s : LogsPage) : list ConsolidatedLogGroup :=
  if String.eqb (sortValue (filters s)) "created" then consolidateLogs (logs s) MAX_GROUP_SPAN_MS
  else imap (fun i l => toSingletonGroup l i) (logs s).

(** ** Effects *)

Definition clearStaged (s : LogsPage) : LogsPage :=
  s <| pendingLogs := [] |> <| pendingOverflow := false |>.

(** Everything a change of the committed filters resets. *)
Definition resetList (s : LogsPage) : LogsPage :=
  (clearStaged s) <| logs := [] |> <| page := 1 |> <| hasMore := true |> <| rowCapReached := false |>
    <| isListFading := true |> <| expandedKeys := ∅ |> <| freshIdentities := ∅ |> <| error := None |>.

(** Each effect is given the render [r] it belongs to and the state [s] to update. *)
Definition filterEffect (r s : LogsPage) : LogsPage :=
  if bool_decide (filterDeps r = Some (filters r)) then s
  else (resetList s) <| filterDeps := Some (filters r) |>.

Definition profileEffect (r s : LogsPage) : LogsPage :=
  let currentId := profileId r in
  let s :=
    if truthy_opt (previousProfileIdRef r) && negb (bool_decide (previousProfileIdRef r = currentId)) then
      (clearStaged s) <| isQuickRuleSheetOpen := false |> <| quickRuleDomain := None |>
        <| expandedKeys := ∅ |> <| freshIdentities := ∅ |> <| serverDeviceIds := [] |>
        <| observedDeviceIds := [] |>
    else s in
  s <| previousProfileIdRef := currentId |>.

Definition kill_device (d : DeviceFetch) : DeviceFetch := mkDeviceFetch (df_profile d) false.

Definition deviceEffect (r s : LogsPage) : LogsPage :=
  if bool_decide (deviceDeps r = Some (profileId r, deviceListRefreshTick r)) then s
  else
    let s := s <| deviceDeps := Some (profileId r, deviceListRefreshTick r) |>
               <| deviceFetches := map kill_device (deviceFetches s) |> in
    match profileId r with
    | Some id => if truthy id then s <| deviceFetches := (deviceFetches s ++ [mkDeviceFetch id true])%list |> else s
    | None => s
    end.

Definition cancel (f : Fetch) : Fetch := mkFetch (f_request f) (f_page f) false.

(** The cleanup of the previous run, then [fetchLogs] up to its [await]. *)
Definition fetchEffect (r s : LogsPage) : LogsPage :=
  if bool_decide (fetchDeps r = Some (deps r)) then s
  else
    let s := s <| fetchDeps := Some (deps r) |> <| fetches := map cancel (fetches s) |> in
    match profileId r with
    | Some id =>
        if truthy id then
          s <| loading := true |> <| error := None |>
            <| fetches := (fetches s ++ [mkFetch (request id (serverPage (page r)) (effectiveLimit (page r)) (filters r))
                                           (page r) true])%list |>
        else s <| loading := false |>
    | None => s <| loading := false |>
    end.

Definition effects (r : LogsPage) : LogsPage :=
  fetchEffect r (deviceEffect r (profileEffect r (filterEffect r r))).

(** A second render follows when the first one's effects changed the page or the filters' reset. *)
Definition commit (s : LogsPage) : LogsPage := effects (effects s).

(** ** Answers of the foreground fetch *)

Definition observe (ids : list string) (rows : list ModelQueryLog) : list string :=
  array_sort compare_units
    (foldl (fun merged l => match ql_device_id l with
                            | Some d => if truthy d then add_new merged d else merged
                            | None => merged
                            end) (dedup ids) rows).

Definition fetchError (status : option Z) (networkCode : bool) : string :=
  if bool_decide (status = Some 429) then "Too many requests. Please wait a moment before trying again."
  else if bool_decide (status = Some 500) then "Server error occurred while loading logs."
  else if bool_decide (status = Some 404) then "Profile not found."
  else if networkCode || bool_decide (status = None) then "Network error. Please check your connection."
  else "Failed to load logs".

Definition settleFetch (f : Fetch) (a : LogsAnswer) (now : Z) (s : LogsPage) : LogsPage :=
  if negb (f_live f) then s else
  let p := f_page f in
  let s :=
    match a with
    | Rows rows =>
        let full := Z.of_nat (length rows) =? effectiveLimit p in
        s <| logs := (if p =? 1 then rows else logs s ++ rows)%list |>
          <| hasMore := full && (nextPageEnd p <=? QUERY_MAX_ROWS) |>
          <| rowCapReached := full && (QUERY_MAX_ROWS <? nextPageEnd p) |>
          <| observedDeviceIds := observe (observedDeviceIds s) rows |>
          <| lastUpdatedAt := Some now |>
    | OtherStatus => s <| hasMore := false |>
    | Failure status code =>
        if bool_decide (status = Some 403) then s <| hasMore := false |>
        else s <| error := Some (fetchError status code) |> <| hasMore := false |>
    end in
  s <| loading := false |>.

(** ** Handlers *)

(** The last row's observer: it is disconnected while a fetch loads or when no row is rendered. *)
Definition handleIntersect (s : LogsPage) : LogsPage :=
  if logsEnabled s && negb (loading s) && hasMore s && negb (bool_decide (logs s = [])) then s <| page := page s + 1 |> else s.

Definition handleRefresh (s : LogsPage) : LogsPage :=
  (clearStaged s) <| page := 1 |> <| isListFading := true |> <| freshIdentities := ∅ |>
    <| refreshTrigger := refreshTrigger s + 1 |> <| deviceListRefreshTick := deviceListRefreshTick s + 1 |>.

(** [runBackgroundTick] up to its [await]. *)
Definition runBackgroundTick (hidden : bool) (s : LogsPage) : LogsPage :=
  match profileId s with
  | Some id =>
      if hidden || negb (truthy id) || negb (logsEnabled s) then s
      else if loading s || bgFetchInFlight s then s
      else if negb (String.eqb (sortValue (filters s)) "created") then handleRefresh s
      else s <| bgFetchInFlight := true |> <| tick := Some (mkTick (request id 1 FIRST_PAGE_LIMIT (filters s))) |>
  | None => s
  end.

(** The rest of the tick: nothing tells it that the filters or the profile changed meanwhile. *)
Definition settleTick (a : LogsAnswer) (now : Z) (s : LogsPage) : LogsPage :=
  let s :=
    match a with
    | Rows fetched =>
        let s := s <| lastUpdatedAt := Some now |> in
        match logs s with
        | [] =>
            (clearStaged s) <| logs := fetched |>
              <| hasMore := Z.of_nat (length fetched) =? FIRST_PAGE_LIMIT |> <| rowCapReached := false |>
        | _ =>
            let d := computeNewQueryLogs fetched (logs s) in
            s <| pendingLogs := newLogs d |>
              <| pendingOverflow := negb (overlapFound d) && (Z.of_nat (length fetched) =? FIRST_PAGE_LIMIT) |>
        end
    | OtherStatus | Failure _ _ => s
    end in
  s <| bgFetchInFlight := false |> <| tick := None |>.

Definition handleRefreshIntervalChange (key : RefreshIntervalKey) (hidden : bool) (s : LogsPage) : LogsPage :=
  let wasOn := bool_decide (is_Some (refreshIntervalMsFor (refreshIntervalKey s))) in
  let s' := s <| refreshIntervalKey := key |> in
  if bool_decide (refreshIntervalMsFor key = None) then clearStaged s'
  else if negb wasOn then runBackgroundTick hidden s' else s'.

Definition identities {H : Host} (l : list ModelQueryLog) : gset string :=
  list_to_set (map g_identity (consolidateLogs l MAX_GROUP_SPAN_MS)).

Definition handleShowPending {H : Host} (s : LogsPage) : LogsPage :=
  if pendingOverflow s then handleRefresh s
  else
    let merged := (pendingLogs s ++ logs s)%list in
    s <| freshIdentities := identities merged ∖ identities (logs s) |> <| logs := merged |> <| pendingLogs := [] |>.

Definition setFilterValue (v : string) (s : LogsPage) : LogsPage :=
  s <| filters := (filters s) <| filterValue := v |> |>.
Definition setSortValue (v : string) (s : LogsPage) : LogsPage :=
  s <| filters := (filters s) <| sortValue := v |> |>.

(** The selects of [Filters.tsx] show an unset timespan or device as [all]. *)
Definition onTimespanChange (val : string) (s : LogsPage) : LogsPage :=
  s <| filters := (filters s) <| timespanValue := all_is_none val |> |>.
Definition onDeviceIdChange (val : string) (s : LogsPage) : LogsPage :=
  s <| filters := (filters s) <| deviceIdValue := all_is_none val |> |>.

Definition commitSearch (s : LogsPage) : LogsPage :=
  s <| filters := (filters s) <| committedSearchValue := searchInputValue s |> |>.
Definition handleSearchClear (s : LogsPage) : LogsPage :=
  s <| searchInputValue := "" |> <| filters := (filters s) <| committedSearchValue := "" |> |>.
Definition handleClearFilters (s : LogsPage) : LogsPage :=
  s <| filters := defaultFilters |> <| searchInputValue := "" |>.

Definition hasNonDefaultFilters (f : LogFilters) : bool :=
  negb (String.eqb (filterValue f) "all") || bool_decide (is_Some (deviceIdValue f))
  || negb (String.eqb (sortValue f) "created")
  || bool_decide (is_Some (timespanValue f)) && negb (bool_decide (timespanValue f = Some "all")).

(** [Filters.tsx]: whether its chip that clears the filters shows. *)
Definition anyActive (f : LogFilters) : bool :=
  hasNonDefaultFilters f || negb (String.eqb (trim (committedSearchValue f)) "").

Definition toggleCardExpanded (identity : string) (s : LogsPage) : LogsPage :=
  s <| expandedKeys := if bool_decide (identity ∈ expandedKeys s) then expandedKeys s ∖ {[identity]}
                       else {[identity]} ∪ expandedKeys s |>.

Definition handleOpenQuickRule (domain : option string) (s : LogsPage) : LogsPage :=
  if negb (truthy_opt domain) || isRestricted s then s
  else s <| quickRuleDomain := domain |> <| isQuickRuleSheetOpen := true |>.
Definition handleQuickRuleSheetChange (nextOpen : bool) (s : LogsPage) : LogsPage :=
  s <| isQuickRuleSheetOpen := nextOpen |> <| quickRuleDomain := if nextOpen then quickRuleDomain s else None |>.

(** The server's device list. *)
Definition settleDevices (f : DeviceFetch) (a : option (list (option string))) (s : LogsPage) : LogsPage :=
  match a with
  | Some ids => if df_live f then s <| serverDeviceIds := List.filter truthy (omap id ids) |> else s
  | None => s
  end.

(** ** Events *)

Inductive LogsEvent : Type :=
| ProfileObject (p : option ModelProfile)
| Intersect
| ManualRefresh
| StatusChange (v : string)
| SortChange (v : string)
| TimespanChange (v : string)
| DeviceChange (v : string)
| SearchInput (v : string)
| CommitSearch
| SearchClear
| ClearFilters
| IntervalChange (key : RefreshIntervalKey) (hidden : bool)
| TickTimer (hidden : bool)
| FetchSettled (i : nat) (a : LogsAnswer) (now : Z)
| TickSettled (a : LogsAnswer) (now : Z)
| DevicesSettled (i : nat) (a : option (list (option string)))
| ShowPending
| FadeTimer
| ToggleCard (identity : string)
| OpenQuickRule (domain : option string)
| QuickRuleSheetChange (nextOpen : bool).

(** The interval runs while a cadence is chosen and there is a profile. *)
Definition autoRefreshing (s : LogsPage) : bool :=
  bool_decide (is_Some (refreshIntervalMsFor (refreshIntervalKey s))) && truthy_opt (profileId s).

Definition handle {H : Host} (e : LogsEvent) (s : LogsPage) : LogsPage :=
  match e with
  | ProfileObject p => s <| profile := p |> <| profileRef := profileRef s + 1 |>
  | Intersect => handleIntersect s
  | ManualRefresh => handleRefresh s
  | StatusChange v => setFilterValue v s
  | SortChange v => setSortValue v s
  | TimespanChange v => onTimespanChange v s
  | DeviceChange v => onDeviceIdChange v s
  | SearchInput v => s <| searchInputValue := v |>
  | CommitSearch => commitSearch s
  | SearchClear => handleSearchClear s
  | ClearFilters => handleClearFilters s
  | IntervalChange k hidden => handleRefreshIntervalChange k hidden s
  | TickTimer hidden => if autoRefreshing s then runBackgroundTick hidden s else s
  | FetchSettled i a now =>
      match fetches s !! i with
      | Some f => settleFetch f a now (s <| fetches := delete i (fetches s) |>)
      | None => s
      end
  | TickSettled a now => match tick s with Some _ => settleTick a now s | None => s end
  | DevicesSettled i a =>
      match deviceFetches s !! i with
      | Some f => settleDevices f a (s <| deviceFetches := delete i (deviceFetches s) |>)
      | None => s
      end
  | ShowPending => if bool_decide (pendingLogs s = []) then s else handleShowPending s
  | FadeTimer => if isListFading s && negb (loading s) then s <| isListFading := false |> else s
  | ToggleCard id => toggleCardExpanded id s
  | OpenQuickRule d => handleOpenQuickRule d s
  | QuickRuleSheetChange b => handleQuickRuleSheetChange b s
  end.

Definition logs_step {H : Host} (s : LogsPage) (e : LogsEvent) : LogsPage := commit (handle e s).

Definition mount (p : option ModelProfile) (restricted : bool) : LogsPage :=
  commit (mkLogs p 0 restricted [] 1 true false false None Roff 0 true false None [] false ∅ ∅ None ""
    defaultFilters [] [] 0 false None None None None [] None []).

(** ** Texts *)

Definition pillText (s : LogsPage) : string :=
  if pendingOverflow s then "100+ new queries"
  else let n := length (pendingLogs s) in
       show (Z.of_nat n) ++s " new " ++s (if (n =? 1)%nat then "query" else "queries").

Definition showsEmptyState (s : LogsPage) : bool :=
  logsEnabled s && bool_decide (logs s = []) && negb (loading s) && negb (truthy_opt (error s)).
Definition showsSkeleton (s : LogsPage) : bool := loading s && ((1 <? page s) || bool_decide (logs s = [])).
Definition showsEndMarker (s : LogsPage) : bool :=
  negb (hasMore s) && negb (loading s) && negb (truthy_opt (error s)) && negb (bool_decide (logs s = [])).

(** [Filters.tsx]: the age of the last contact, in milliseconds. *)
Definition formatAge (ms : Z) : string :=
  let seconds := Z.max 0 (ms / 1000) in
  if seconds <? 10 then "just now"
  else if seconds <? 60 then show seconds ++s "s ago"
  else let minutes := seconds / 60 in
       if minutes <? 60 then show minutes ++s "m ago" else show (minutes / 60) ++s "h ago".
