(* ===== verification/LogsPageFacts.v ===== *)
(** * The query logs page: what it requests and shows

    While the page loads, exactly one fetch counts and it is the one for the current page, filters and
    profile; its answer ends the loading. Requests stay within the server's row cap. On a log that
    does not change meanwhile, the list is always a prefix of the log and the end marker is true. A
    new profile object on a later page, and a tick that outlives its filters, break this. *)

From S2P Require Import Prelude JsString JsDate ApiTypes Formats QueryLogsDiff LogsPage.
From coqutil Require Import Datatypes.RecordSetters.
Import TriangleBracketNotations.

#[local] Arguments constant _ _ _ /.

(** ** The part of the state that decides what is fetched and listed *)

Record Core := mkCore {
  c_filters : LogFilters;
  c_profile : option ModelProfile;
  c_profileRef : Z;
  c_trigger : Z;
  c_page : Z;
  c_logs : list ModelQueryLog;
  c_hasMore : bool;
  c_rowCap : bool;
  c_loading : bool;
  c_error : option string;
  c_filterDeps : option LogFilters;
  c_fetchDeps : option FetchDeps;
  c_fetches : list Fetch;
}.

Definition core (s : LogsPage) : Core :=
  mkCore (filters s) (profile s) (profileRef s) (refreshTrigger s) (page s) (logs s) (hasMore s)
    (rowCapReached s) (loading s) (error s) (filterDeps s) (fetchDeps s) (fetches s).

Definition c_profileId (c : Core) : option string := p_profile_id <$> c_profile c.

Definition c_deps (c : Core) : FetchDeps :=
  mkDeps (c_page c) (all_is_none (filterValue (c_filters c))) (timespanValue (c_filters c) ≫= all_is_none)
    (committedSearchValue (c_filters c)) (sortValue (c_filters c)) (c_profileRef c) (c_trigger c)
    (deviceIdValue (c_filters c)).

Definition fetchOf (id : string) (page : Z) (f : LogFilters) : Fetch :=
  mkFetch (request id (serverPage page) (effectiveLimit page) f) page true.

(** The fetch that answers what the page shows. *)
Definition currentFetch (c : Core) : list Fetch :=
  match c_profileId c with
  | Some id => if truthy id then [fetchOf id (c_page c) (c_filters c)] else []
  | None => []
  end.

Definition filtersChanged (c : Core) : bool := negb (bool_decide (c_filterDeps c = Some (c_filters c))).
Definition depsChanged (c : Core) : bool := negb (bool_decide (c_fetchDeps c = Some (c_deps c))).

(** What the effects of a render make of it. *)
Definition rendered (c : Core) : Core :=
  let reset := filtersChanged c in
  let refetch := depsChanged c in
  mkCore (c_filters c) (c_profile c) (c_profileRef c) (c_trigger c) (if reset then 1 else c_page c)
    (if reset then [] else c_logs c) (reset || c_hasMore c) (negb reset && c_rowCap c)
    (if refetch then truthy_opt (c_profileId c) else c_loading c)
    (if refetch && truthy_opt (c_profileId c) || reset then None else c_error c)
    (Some (c_filters c)) (Some (c_deps c))
    (if refetch then (map cancel (c_fetches c) ++ currentFetch c)%list else c_fetches c).

Lemma profileEffect_core r s : core (profileEffect r s) = core s.
Proof. unfold profileEffect, clearStaged. destruct (truthy_opt _ && _); reflexivity. Qed.

Lemma deviceEffect_core r s : core (deviceEffect r s) = core s.
Proof.
  unfold deviceEffect. destruct (bool_decide _); [done|].
  destruct (profileId r) as [id|]; [destruct (truthy id)|]; reflexivity.
Qed.

Lemma filterEffect_core s :
  core (filterEffect s s) =
  let reset := filtersChanged (core s) in
  mkCore (filters s) (profile s) (profileRef s) (refreshTrigger s) (if reset then 1 else page s)
    (if reset then [] else logs s) (reset || hasMore s) (negb reset && rowCapReached s)
    (loading s) (if reset then None else error s) (Some (filters s)) (fetchDeps s) (fetches s).
Proof.
  unfold filterEffect.
  change (filtersChanged (core s)) with (negb (bool_decide (filterDeps s = Some (filters s)))).
  destruct (bool_decide _) eqn:E; [|reflexivity].
  to_prop. unfold core. by rewrite E.
Qed.

Lemma fetchEffect_core r s :
  core (fetchEffect r s) =
  let c := core s in
  let found := depsChanged (core r) && truthy_opt (profileId r) in
  mkCore (c_filters c) (c_profile c) (c_profileRef c) (c_trigger c) (c_page c) (c_logs c) (c_hasMore c)
    (c_rowCap c) (if depsChanged (core r) then truthy_opt (profileId r) else c_loading c)
    (if found then None else c_error c) (c_filterDeps c)
    (if depsChanged (core r) then Some (deps r) else c_fetchDeps c)
    (if depsChanged (core r) then map cancel (c_fetches c) ++ currentFetch (core r) else c_fetches c).
Proof.
  unfold fetchEffect, currentFetch, truthy_opt, fetchOf.
  change (depsChanged (core r)) with (negb (bool_decide (fetchDeps r = Some (deps r)))).
  change (c_profileId (core r)) with (profileId r).
  destruct (bool_decide _); [done|].
  destruct (profileId r) as [id|]; [change (default "" (Some id)) with id; destruct (truthy id)|]; cbn match; rewrite ?app_nil_r; reflexivity.
Qed.

Lemma effects_core s : core (effects s) = rendered (core s).
Proof.
  unfold effects. rewrite fetchEffect_core, deviceEffect_core, profileEffect_core, filterEffect_core.
  cbv zeta. cbn [c_filters c_profile c_profileRef c_trigger c_page c_logs c_hasMore c_rowCap c_loading c_error
    c_filterDeps c_fetchDeps c_fetches].
  unfold rendered. cbv zeta. change (c_profileId (core s)) with (profileId s). f_equal.
  - by destruct (_ && _), (filtersChanged _).
  - unfold depsChanged. destruct (bool_decide _) eqn:E; [|done]. by to_prop.
Qed.

Lemma commit_core s : core (commit s) = rendered (rendered (core s)).
Proof. unfold commit. by rewrite !effects_core. Qed.

(** ** The live fetch *)

Definition selectable (f : LogFilters) : Prop := timespanValue f <> Some "all".

Definition live_matches (c : Core) : Prop :=
  List.filter f_live (c_fetches c) = (if c_loading c then currentFetch c else []) /\
  (c_loading c = true -> truthy_opt (c_profileId c) = true).

(** Between a handler and the commit, the deps may lag behind. *)
Definition fetch_pre (c : Core) : Prop :=
  selectable (c_filters c) /\
  (c_fetchDeps c = Some (c_deps c) -> c_filterDeps c = Some (c_filters c) /\ live_matches c).

Definition fetch_ok (c : Core) : Prop :=
  selectable (c_filters c) /\ c_filterDeps c = Some (c_filters c) /\ c_fetchDeps c = Some (c_deps c) /\
  live_matches c.

Lemma filter_cancelled l : List.filter f_live (map cancel l) = [].
Proof. by induction l. Qed.

Lemma currentFetch_live c : List.filter f_live (currentFetch c) = currentFetch c.
Proof. unfold currentFetch. destruct (c_profileId c) as [id|]; [|done]. by destruct (truthy id). Qed.

Lemma currentFetch_none c : truthy_opt (c_profileId c) = false -> currentFetch c = [].
Proof. unfold currentFetch, truthy_opt. destruct (c_profileId c); [cbn|done]. by intros ->. Qed.

Lemma rendered_pre c : fetch_pre c -> fetch_pre (rendered c).
Proof.
  intros [Hs Hp]. split; [done|]. intros Hd. split; [done|].
  assert (c_page (rendered c) = c_page c) as Hpage by (injection Hd; intros; done).
  unfold live_matches. replace (currentFetch (rendered c)) with (currentFetch c)
    by (unfold currentFetch; change (c_profileId (rendered c)) with (c_profileId c); by rewrite Hpage).
  cbn [rendered c_fetches c_loading]. change (c_profileId (rendered c)) with (c_profileId c).
  destruct (depsChanged c) eqn:E.
  - rewrite List.filter_app, filter_cancelled, currentFetch_live. split; [|done].
    destruct (truthy_opt _) eqn:Et; [done|]. by rewrite currentFetch_none.
  - unfold depsChanged in E. to_prop. apply Hp in E as [_ Hl]. exact Hl.
Qed.

Lemma rendered_ok c : fetch_pre c -> c_filterDeps c = Some (c_filters c) -> fetch_ok (rendered c).
Proof.
  intros Hp Hf. destruct (rendered_pre c Hp) as [Hs Hd].
  assert (c_fetchDeps (rendered c) = Some (c_deps (rendered c))) as Hdeps.
  { assert (filtersChanged c = false) as E by (unfold filtersChanged; by rewrite bool_decide_true).
    unfold c_deps at 1, rendered. rewrite E. reflexivity. }
  split; [done|]. split; [done|]. split; [done|]. by apply Hd.
Qed.

Lemma logs_commit_ok c : fetch_pre c -> fetch_ok (rendered (rendered c)).
Proof. intros H. apply rendered_ok; [by apply rendered_pre|done]. Qed.

(** Nothing runs when nothing changed. *)
Lemma rendered_stable c :
  c_filterDeps c = Some (c_filters c) -> c_fetchDeps c = Some (c_deps c) -> rendered c = c.
Proof.
  intros Hf Hd. unfold rendered, filtersChanged, depsChanged.
  rewrite !bool_decide_true by done. cbn. rewrite <- Hf, <- Hd. by destruct c.
Qed.

Lemma commit_stable s :
  filterDeps s = Some (filters s) -> fetchDeps s = Some (deps s) -> core (commit s) = core s.
Proof. intros Hf Hd. rewrite commit_core. by rewrite !(rendered_stable (core s)). Qed.

(** ** Events *)

(** The live fetch is the current one, and settling it leaves none. *)
Lemma live_fetch c f :
  live_matches c -> f ∈ c_fetches c -> f_live f = true -> c_loading c = true /\ currentFetch c = [f].
Proof.
  intros [Hl _] Hin Hf.
  assert (f ∈ List.filter f_live (c_fetches c)) as Hin' by (by apply elem_of_list_filter_b).
  rewrite Hl in Hin'. destruct (c_loading c); [|by apply elem_of_nil in Hin']. split; [done|].
  unfold currentFetch in *. destruct (c_profileId c) as [id|]; [|by apply elem_of_nil in Hin'].
  destruct (truthy id); [|by apply elem_of_nil in Hin']. by apply list_elem_of_singleton in Hin' as ->.
Qed.

Lemma live_settled c i f :
  live_matches c -> c_fetches c !! i = Some f ->
  List.filter f_live (delete i (c_fetches c)) = if f_live f then [] else List.filter f_live (c_fetches c).
Proof.
  intros Hl Hi. destruct (f_live f) eqn:Hf; [|by apply filter_delete_false with (x := f)].
  destruct (live_fetch c f Hl) as [Hld Hc]; [by eapply list_elem_of_lookup_2|done|].
  destruct Hl as [Hl _]. rewrite Hld, Hc in Hl. by eapply filter_delete_single.
Qed.

Section events.
Context {H : Host}.

(** A handler that leaves what the fetch depends on alone. *)
Definition same_fetch (c c' : Core) : Prop :=
  c_filters c' = c_filters c /\ c_deps c' = c_deps c /\ c_profile c' = c_profile c /\
  c_filterDeps c' = c_filterDeps c /\ c_fetchDeps c' = c_fetchDeps c /\
  c_loading c' = c_loading c /\ c_fetches c' = c_fetches c.

Lemma same_fetch_pre c c' : fetch_pre c -> same_fetch c c' -> fetch_pre c'.
Proof.
  intros [Hs Hp] (E1 & E2 & E3 & E4 & E5 & E6 & E7).
  unfold fetch_pre, live_matches, currentFetch, c_profileId in *. rewrite E1, E2, E3, E4, E5, E6, E7.
  assert (c_page c' = c_page c) as -> by (unfold c_deps in E2; congruence). done.
Qed.

Lemma ok_pre c : fetch_ok c -> fetch_pre c.
Proof. intros (? & ? & ? & ?). by split. Qed.

(** New deps: the fetch starts anew. *)
Lemma new_deps_pre c : selectable (c_filters c) -> c_fetchDeps c <> Some (c_deps c) -> fetch_pre c.
Proof. by split. Qed.

Lemma deps_filters f f' :
  selectable f -> selectable f' -> all_is_none (filterValue f) = all_is_none (filterValue f') ->
  timespanValue f ≫= all_is_none = timespanValue f' ≫= all_is_none ->
  committedSearchValue f = committedSearchValue f' -> sortValue f = sortValue f' ->
  deviceIdValue f = deviceIdValue f' -> f = f'.
Proof.
  destruct f as [v1 so1 t1 d1 c1], f' as [v2 so2 t2 d2 c2]. unfold selectable, all_is_none. cbn. intros Hs Hs' H1 H2 -> -> ->.
  assert (v1 = v2) as ->.
  { destruct (String.eqb v1 "all") eqn:E1, (String.eqb v2 "all") eqn:E2; try congruence. to_prop. congruence. }
  assert (t1 = t2) as ->; [|done].
  destruct t1 as [x|], t2 as [y|]; cbn in *; try done.
  - destruct (String.eqb x "all") eqn:E1; [to_prop; congruence|].
    destruct (String.eqb y "all") eqn:E2; [to_prop; congruence|]. congruence.
  - destruct (String.eqb x "all") eqn:E1; [to_prop; congruence|done].
  - destruct (String.eqb y "all") eqn:E2; [to_prop; congruence|done].
Qed.

(** A change of the filters alone. *)
Lemma filters_pre s f :
  fetch_ok (core s) -> selectable f -> fetch_pre (core (s <| filters := f |>)).
Proof.
  intros (Hs & Hf & Hd & Hl) Hf'. split; [done|]. intros Hd'.
  assert (f = filters s) as ->.
  { change (fetchDeps s = Some (deps s)) in Hd.
    change (fetchDeps s = Some (c_deps (core (s <| filters := f |>)))) in Hd'. rewrite Hd in Hd'.
    injection Hd'. intros. by apply deps_filters. }
  by destruct s.
Qed.

Lemma refresh_pre s : fetch_ok (core s) -> fetch_pre (core (handleRefresh s)).
Proof.
  intros (Hs & _ & Hd & _). apply new_deps_pre; [done|].
  change (fetchDeps s <> Some (c_deps (core (handleRefresh s)))).
  change (fetchDeps s = Some (deps s)) in Hd. rewrite Hd. intros E.
  apply (f_equal (fmap d_trigger)) in E. injection E. lia.
Qed.

Lemma tick_pre hidden s : fetch_ok (core s) -> fetch_pre (core (runBackgroundTick hidden s)).
Proof.
  intros Hok. pose proof (ok_pre _ Hok) as Hs.
  unfold runBackgroundTick. destruct (profileId s) as [id|]; [|done].
  destruct (_ || _); [done|]. destruct (_ || _); [done|]. destruct (negb _); [by apply refresh_pre|].
  by apply (same_fetch_pre (core s)).
Qed.

Lemma settleFetch_pre s i f a now :
  fetch_ok (core s) -> fetches s !! i = Some f ->
  fetch_pre (core (settleFetch f a now (s <| fetches := delete i (fetches s) |>))).
Proof.
  intros (Hs & Hf & Hd & Hl) Hi. split.
  { unfold settleFetch. destruct (negb _); [done|]. destruct a as [rows| |st code]; [done|done|].
    by destruct (bool_decide _). }
  assert (forall s', filters s' = filters s -> profile s' = profile s -> page s' = page s ->
    fetches s' = delete i (fetches s) -> filterDeps s' = filterDeps s ->
    loading s' = (if f_live f then false else loading s) ->
    c_filterDeps (core s') = Some (c_filters (core s')) /\ live_matches (core s')) as Hpre.
  { intros s' E1 E2 E3 E4 E5 E6. split; [by cbn; rewrite E5, E1|].
    unfold live_matches, currentFetch, c_profileId. cbn. rewrite E1, E2, E3, E4, E6.
    pose proof (live_settled (core s) i f Hl Hi) as Hlive. cbn in Hlive. rewrite Hlive. destruct Hl as [Hl ?]. destruct (f_live f); done. }
  intros _. unfold settleFetch. destruct (f_live f) eqn:Ef; cbn [negb]; [|by apply Hpre].
  destruct a as [rows| |st code]; [by apply Hpre|by apply Hpre|].
  destruct (bool_decide _); by apply Hpre.
Qed.

Lemma handle_pre s e : fetch_ok (core s) -> fetch_pre (core (handle e s)).
Proof.
  intros Hok.
  assert (forall s', same_fetch (core s) (core s') -> fetch_pre (core s')) as Hsame
    by (intros s'; by apply same_fetch_pre, ok_pre).
  assert (fetch_pre (core s)) as Hs by by apply ok_pre.
  pose proof Hok as (Hsel & Hf & Hd & Hl).
  destruct e; cbn [handle].
  - apply new_deps_pre; [done|]. change (fetchDeps s = Some (deps s)) in Hd. intros Hd'.
    change (fetchDeps s = Some (c_deps (core (s <| profile := p |> <| profileRef := profileRef s + 1 |>)))) in Hd'.
    rewrite Hd in Hd'. apply (f_equal (fmap d_profile)) in Hd'. injection Hd'. lia.
  - unfold handleIntersect. destruct (_ && _); [|done]. apply new_deps_pre; [done|].
    change (fetchDeps s = Some (deps s)) in Hd. intros Hd'.
    change (fetchDeps s = Some (c_deps (core (s <| page := page s + 1 |>)))) in Hd'.
    rewrite Hd in Hd'. apply (f_equal (fmap d_page)) in Hd'. injection Hd'. lia.
  - by apply refresh_pre.
  - by apply filters_pre.
  - by apply filters_pre.
  - apply filters_pre; [done|]. unfold selectable, all_is_none. cbn.
    destruct (String.eqb v "all") eqn:E; [done|]. to_prop. congruence.
  - by apply filters_pre.
  - by apply Hsame.
  - by apply filters_pre.
  - apply (filters_pre (s <| searchInputValue := "" |>)); done.
  - apply (same_fetch_pre (core (s <| filters := defaultFilters |>))); [|done]. by apply filters_pre.
  - unfold handleRefreshIntervalChange. cbv zeta. destruct (bool_decide _); [by apply Hsame|].
    destruct (negb _); [|by apply Hsame]. by apply tick_pre.
  - destruct (autoRefreshing s); [|done]. by apply tick_pre.
  - destruct (fetches s !! i) as [f|] eqn:Hi; [|done]. by apply settleFetch_pre.
  - destruct (tick s); [|done]. unfold settleTick. destruct a as [rows| |]; [|by apply Hsame..].
    cbv zeta. change (logs (s <| lastUpdatedAt := Some now |>)) with (logs s).
    destruct (logs s); by apply Hsame.
  - destruct (deviceFetches s !! i) as [f|]; [|done]. unfold settleDevices.
    destruct a as [l|]; [|by apply Hsame]. destruct (df_live f); by apply Hsame.
  - destruct (bool_decide _); [done|]. unfold handleShowPending.
    destruct (pendingOverflow s); [by apply refresh_pre|by apply Hsame].
  - destruct (_ && _); [by apply Hsame|done].
  - by apply Hsame.
  - unfold handleOpenQuickRule. destruct (_ || _); [done|by apply Hsame].
  - by apply Hsame.
Qed.

Lemma step_ok s e : fetch_ok (core s) -> fetch_ok (core (logs_step s e)).
Proof. intros Hok. unfold logs_step. rewrite commit_core. by apply logs_commit_ok, handle_pre. Qed.

Lemma mount_ok p r : fetch_ok (core (mount p r)).
Proof. unfold mount. rewrite commit_core. apply logs_commit_ok. split; [done|]. by intros. Qed.

Lemma logs_run_ok p r evs : fetch_ok (core (run logs_step (mount p r) evs)).
Proof. apply (run_invariant logs_step (fun s => fetch_ok (core s))); [apply step_ok|apply mount_ok]. Qed.

(** An answer changes no deps. *)
Lemma settle_step s i f a now :
  fetch_ok (core s) -> fetches s !! i = Some f ->
  core (logs_step s (FetchSettled i a now)) = core (settleFetch f a now (s <| fetches := delete i (fetches s) |>)).
Proof.
  intros (_ & Hf & Hd & _) Hi. unfold logs_step, handle. rewrite Hi.
  change (filterDeps s = Some (filters s)) in Hf. change (fetchDeps s = Some (deps s)) in Hd.
  unfold settleFetch. destruct (negb _); [by apply commit_stable|].
  destruct a as [rows| |st code]; [by apply commit_stable|by apply commit_stable|].
  destruct (bool_decide _); by apply commit_stable.
Qed.

(** whatever happens on the logs page, it is loading exactly while one fetch is live; that fetch asks
    for the current page with the current filters on the active profile, every other answer is
    ignored, and its own answer ends the loading *)
(** C20: while the query logs page loads exactly one fetch counts, and it is the one for the current
    page, filters and profile; when it does not load no fetch counts *)
Theorem loading_is_one_fetch p r evs :
  let s := run logs_step (mount p r) evs in
  (loading s = true <-> exists f, f ∈ fetches s /\ f_live f = true) /\
  (forall i f, fetches s !! i = Some f -> f_live f = true ->
     (exists id, profileId s = Some id /\ truthy id = true /\
        f_request f = request id (serverPage (page s)) (effectiveLimit (page s)) (filters s) /\
        f_page f = page s) /\
     (forall j g, fetches s !! j = Some g -> f_live g = true -> i = j) /\
     (forall a now, loading (logs_step s (FetchSettled i a now)) = false)) /\
  (forall i f a now, fetches s !! i = Some f -> f_live f = false ->
     logs (logs_step s (FetchSettled i a now)) = logs s /\
     loading (logs_step s (FetchSettled i a now)) = loading s).
Proof.
  intros s. pose proof (logs_run_ok p r evs : fetch_ok (core s)) as Hok. clearbody s.
  pose proof Hok as (_ & _ & _ & Hl). split; [|split].
  - split.
    + intros Hload. destruct Hl as [Hl Ht]. specialize (Ht Hload).
      change (List.filter f_live (fetches s) = if loading s then currentFetch (core s) else []) in Hl.
      rewrite Hload in Hl. unfold currentFetch, truthy_opt in *.
      destruct (c_profileId (core s)) as [id|]; [|done]. cbn in Ht. rewrite Ht in Hl.
      exists (fetchOf id (page s) (filters s)).
      assert (fetchOf id (page s) (filters s) ∈ List.filter f_live (fetches s)) as Hin
        by (rewrite Hl; by apply list_elem_of_singleton).
      by apply elem_of_list_filter_b in Hin.
    + intros (f & Hin & Hf). by destruct (live_fetch (core s) f Hl Hin Hf).
  - intros i f Hi Hf. destruct (live_fetch (core s) f Hl) as [_ Hc]; [by eapply list_elem_of_lookup_2|done|].
    split; [|split].
    + unfold currentFetch in Hc. change (c_profileId (core s)) with (profileId s) in Hc.
      destruct (profileId s) as [id|]; [|done]. destruct (truthy id) eqn:Ht; [|done]. injection Hc as <-.
      by exists id.
    + intros j g Hj Hg. destruct (decide (i = j)) as [|Hne]; [done|exfalso].
      pose proof (live_settled (core s) i f Hl Hi) as Hnone. rewrite Hf in Hnone.
      assert (g ∈ List.filter f_live (delete i (fetches s))) as Hin.
      { apply elem_of_list_filter_b. split; [|done]. apply list_elem_of_lookup_2 with
          (if bool_decide (i < j)%nat then pred j else j). case_bool_decide.
        - rewrite list_lookup_delete_ge by lia. by replace (S (pred j)) with j by lia.
        - by rewrite list_lookup_delete_lt by lia. }
      change (c_fetches (core s)) with (fetches s) in Hnone. rewrite Hnone in Hin. by apply elem_of_nil in Hin.
    + intros a now. change (c_loading (core (logs_step s (FetchSettled i a now))) = false).
      rewrite (settle_step s i f) by done. unfold settleFetch. rewrite Hf. cbn [negb].
      destruct a as [rows| |st code]; [done|done|]. by destruct (bool_decide _).
  - intros i f a now Hi Hf. split.
    + change (c_logs (core (logs_step s (FetchSettled i a now))) = logs s).
      rewrite (settle_step s i f) by done. unfold settleFetch. by rewrite Hf.
    + change (c_loading (core (logs_step s (FetchSettled i a now))) = loading s).
      rewrite (settle_step s i f) by done. unfold settleFetch. by rewrite Hf.
Qed.

(** ** The row cap *)

Definition LAST_PAGE : Z := 397.

Lemma nextPageEnd_cap page : 1 <= page -> (nextPageEnd page <=? QUERY_MAX_ROWS) = true -> page <= LAST_PAGE - 1.
Proof.
  unfold nextPageEnd, offset, effectiveLimit, QUERY_MAX_ROWS, LAST_PAGE, FIRST_PAGE_LIMIT, QUERY_LIMIT.
  intros Hp. rewrite Z.leb_le. destruct (page =? 1) eqn:E; to_prop; lia.
Qed.

(** The pages are aligned: the rows the API skips are those of the pages before. *)
Lemma serverPage_aligned page : 1 <= page -> (serverPage page - 1) * effectiveLimit page = offset page.
Proof.
  intros Hp. unfold serverPage, offset, effectiveLimit, FIRST_PAGE_LIMIT, QUERY_LIMIT.
  destruct (page =? 1) eqn:E; [reflexivity|]. to_prop.
  replace (100 + (page - 2) * 25) with ((page + 2) * 25) by lia. rewrite Z.div_mul by lia. lia.
Qed.

Lemma offset_next page : 1 <= page -> offset (page + 1) = offset page + effectiveLimit page.
Proof.
  intros Hp. unfold offset, effectiveLimit, FIRST_PAGE_LIMIT, QUERY_LIMIT.
  destruct (page + 1 =? 1) eqn:E1, (page =? 1) eqn:E2; to_prop; lia.
Qed.

Definition capped (f : Fetch) : Prop :=
  1 <= f_page f <= LAST_PAGE /\
  exists id flt, f_request f = request id (serverPage (f_page f)) (effectiveLimit (f_page f)) flt.

Definition cap_pre (c : Core) : Prop :=
  truthy_opt (c_profileId c) = true /\ 1 <= c_page c <= LAST_PAGE /\
  (c_hasMore c = true -> c_loading c = false -> c_fetchDeps c = Some (c_deps c) -> c_page c <= LAST_PAGE - 1) /\
  (c_logs c = [] -> c_page c = 1) /\ Forall capped (c_fetches c).

Definition cap_ok (c : Core) : Prop := fetch_ok c /\ cap_pre c.

Lemma rendered_cap c : cap_pre c -> cap_pre (rendered c).
Proof.
  intros (Ht & Hp & Hm & Hl & Hf). unfold LAST_PAGE in *. split; [done|].
  assert (1 <= c_page (rendered c) <= 397) as Hp' by (cbn [rendered c_page]; destruct (filtersChanged c); lia).
  split; [done|]. split; [|split].
  - cbn [rendered c_hasMore c_loading c_page c_fetchDeps]. rewrite Ht. unfold depsChanged.
    destruct (filtersChanged c); [by intros|]. destruct (bool_decide _) eqn:E; [|done]. cbn. to_prop. auto.
  - cbn [rendered c_page c_logs]. destruct (filtersChanged c); auto.
  - cbn [rendered c_fetches]. destruct (depsChanged c); [|done]. apply Forall_app. split.
    + apply Forall_map. eapply Forall_impl; [done|]. by intros [rq pg lv].
    + unfold currentFetch. destruct (c_profileId c) as [id|]; [|by constructor].
      destruct (truthy id); [|by constructor]. apply Forall_singleton. split; [done|]. by exists id, (c_filters c).
Qed.

Lemma commit_cap c : fetch_pre c -> cap_pre c -> cap_ok (rendered (rendered c)).
Proof. intros Hf Hc. split; [by apply logs_commit_ok|by apply rendered_cap, rendered_cap]. Qed.

(** A handler that leaves the list, the page and the fetches alone. *)
Lemma cap_same c c' :
  cap_ok c -> c_profile c' = c_profile c -> c_page c' = c_page c -> c_hasMore c' = c_hasMore c ->
  c_loading c' = c_loading c -> c_logs c' = c_logs c -> c_fetches c' = c_fetches c -> cap_pre c'.
Proof.
  intros [(_ & _ & Hd & _) (Ht & Hp & Hm & Hl & Hf)] E1 E2 E3 E4 E5 E6. unfold cap_pre, c_profileId in *.
  rewrite E1, E2, E3, E4, E5, E6. auto.
Qed.

Lemma refresh_cap s : cap_ok (core s) -> cap_pre (core (handleRefresh s)).
Proof. intros [_ (Ht & Hp & Hm & Hl & Hf)]. unfold LAST_PAGE in *. repeat split; try done. Qed.

Lemma tick_cap hidden s : cap_ok (core s) -> cap_pre (core (runBackgroundTick hidden s)).
Proof.
  intros Hok. unfold runBackgroundTick. destruct (profileId s) as [id|]; [|apply Hok].
  destruct (_ || _); [apply Hok|]. destruct (_ || _); [apply Hok|].
  destruct (negb _); [by apply refresh_cap|]. by apply (cap_same (core s)).
Qed.

Lemma settleFetch_cap s i f a now :
  cap_ok (core s) -> fetches s !! i = Some f ->
  cap_pre (core (settleFetch f a now (s <| fetches := delete i (fetches s) |>))).
Proof.
  intros [(_ & _ & _ & Hlive) (Ht & Hp & Hm & Hl & Hf)] Hi.
  assert (Forall capped (delete i (fetches s))) as Hf'.
  { change (Forall capped (fetches s)) in Hf. rewrite (delete_Permutation _ i f Hi) in Hf. by inversion Hf. }
  assert (f ∈ fetches s) as Hin by by eapply list_elem_of_lookup_2.
  unfold settleFetch. destruct (f_live f) eqn:Hlv; cbn [negb]; [|done].
  destruct (live_fetch (core s) f Hlive Hin Hlv) as [_ Hcur].
  assert (f_page f = page s) as Hpage.
  { unfold currentFetch in Hcur. destruct (c_profileId (core s)); [|done].
    destruct (truthy _); [|done]. by injection Hcur as <-. }
  destruct a as [rows| |st code]; [|by repeat split; try apply Hp|].
  2: { destruct (bool_decide _); by repeat split; try apply Hp. }
  rewrite Hpage. split; [done|]. split; [done|]. split; [|split; [|done]].
  - intros Hmore _ _. apply andb_true_iff in Hmore as [_ Hmore]. apply nextPageEnd_cap; [apply Hp|done].
  - change ((if page s =? 1 then rows else (logs s ++ rows)%list) = [] -> page s = 1).
    destruct (page s =? 1) eqn:E; [by to_prop|]. intros Hnil. apply app_nil in Hnil as [Hnil _]. by apply Hl.
Qed.

Definition profile_given (e : LogsEvent) : Prop :=
  match e with ProfileObject p => truthy_opt (p_profile_id <$> p) = true | _ => True end.

Lemma handle_cap s e : profile_given e -> cap_ok (core s) -> cap_pre (core (handle e s)).
Proof.
  intros He Hok.
  assert (forall s', c_profile (core s') = c_profile (core s) -> page s' = page s -> hasMore s' = hasMore s ->
    loading s' = loading s -> logs s' = logs s -> fetches s' = fetches s -> cap_pre (core s')) as Hsame
    by (intros s' ? ? ? ? ? ?; by apply (cap_same (core s))).
  pose proof Hok as [_ (Ht & Hp & Hm & Hl & Hf)].
  destruct e; cbn [handle]; try (by apply Hsame).
  - split; [done|]. split; [done|]. split; [|done]. intros ? ? Hd. exfalso.
    destruct Hok as [(_ & _ & Hd' & _) _]. change (fetchDeps s = Some (deps s)) in Hd'.
    change (fetchDeps s = Some (c_deps (core (s <| profile := p |> <| profileRef := profileRef s + 1 |>)))) in Hd.
    rewrite Hd' in Hd. apply (f_equal (fmap d_profile)) in Hd. injection Hd. lia.
  - unfold handleIntersect. destruct (_ && _) eqn:E; [|done]. apply andb_true_iff in E as [E Hlogs].
    to_prop. destruct Hok as [(_ & _ & Hd & _) _].
    assert (page s <= LAST_PAGE - 1) as Hlast by by apply Hm.
    change (1 <= page s <= LAST_PAGE) in Hp. split; [done|]. split; [cbn; lia|]. split; [|split; [|done]].
    + intros _ _ Hd'. change (fetchDeps s = Some (deps s)) in Hd.
      change (fetchDeps s = Some (c_deps (core (s <| page := page s + 1 |>)))) in Hd'.
      rewrite Hd in Hd'. apply (f_equal (fmap d_page)) in Hd'. injection Hd'. lia.
    + intros Hn. by change (logs s = []) in Hn.
  - by apply refresh_cap.
  - unfold handleRefreshIntervalChange. cbv zeta. destruct (bool_decide _); [by apply Hsame|].
    destruct (negb _); [by apply tick_cap|by apply Hsame].
  - destruct (autoRefreshing s); [by apply tick_cap|done].
  - destruct (fetches s !! i) as [f|] eqn:Hi; [|done]. by apply settleFetch_cap.
  - destruct (tick s); [|done]. unfold settleTick. destruct a as [rows| |]; [|by apply Hsame..].
    cbv zeta. change (logs (s <| lastUpdatedAt := Some now |>)) with (logs s).
    destruct (logs s) eqn:El; [|by apply Hsame]. assert (page s = 1) as Hpage by by apply Hl.
    split; [done|]. split; [done|]. split; [|done]. intros _ _ _. change (page s <= LAST_PAGE - 1).
    rewrite Hpage. done.
  - destruct (deviceFetches s !! i) as [f|]; [|done]. unfold settleDevices.
    destruct a as [l|]; [|by apply Hsame]. destruct (df_live f); by apply Hsame.
  - destruct (bool_decide _); [done|]. unfold handleShowPending.
    destruct (pendingOverflow s); [by apply refresh_cap|]. split; [done|]. split; [done|]. split; [done|].
    split; [|done]. change ((pendingLogs s ++ logs s)%list = [] -> page s = 1).
    intros Hn. apply app_nil in Hn as [_ Hn]. by apply Hl.
  - destruct (_ && _); [by apply Hsame|done].
  - unfold handleOpenQuickRule. destruct (_ || _); [done|by apply Hsame].
Qed.

Lemma step_cap s e : profile_given e -> cap_ok (core s) -> cap_ok (core (logs_step s e)).
Proof.
  intros He Hok. unfold logs_step. rewrite commit_core. apply commit_cap; [|by apply handle_cap].
  apply handle_pre, Hok.
Qed.

Lemma run_cap p r evs :
  truthy_opt (p_profile_id <$> p) = true -> Forall profile_given evs ->
  cap_ok (core (run logs_step (mount p r) evs)).
Proof.
  intros Ht. assert (cap_ok (core (mount p r))) as H0.
  { unfold mount. rewrite commit_core. apply commit_cap; [split; [done|by intros]|].
    by repeat split. }
  revert H0. generalize (mount p r). induction evs as [|e evs IH]; intros s Hs Hev; [done|].
  inversion Hev; subst. apply IH; [by apply step_cap|done].
Qed.

(** every logs request stays within the server's row cap and is aligned: the rows the API skips for it
    are exactly the rows of the pages before it *)
Theorem requests_within_cap p r evs :
  truthy_opt (p_profile_id <$> p) = true -> Forall profile_given evs ->
  Forall (fun f => q_page (f_request f) * q_limit (f_request f) <= QUERY_MAX_ROWS /\
                   (q_page (f_request f) - 1) * q_limit (f_request f) = offset (f_page f) /\
                   1 <= q_page (f_request f) /\ (q_limit (f_request f) = 25 \/ q_limit (f_request f) = 100))
    (fetches (run logs_step (mount p r) evs)).
Proof.
  intros Ht Hev. destruct (run_cap p r evs Ht Hev) as [_ (_ & _ & _ & _ & Hf)].
  eapply Forall_impl; [exact Hf|]. intros f [Hp (id & flt & ->)]. cbn.
  pose proof (serverPage_aligned (f_page f) (proj1 Hp)) as Ha. split; [|split; [done|]].
  - replace (serverPage (f_page f) * effectiveLimit (f_page f))
      with (offset (f_page f) + effectiveLimit (f_page f)) by lia.
    rewrite <- offset_next by lia. unfold offset, FIRST_PAGE_LIMIT, QUERY_LIMIT, QUERY_MAX_ROWS, LAST_PAGE in *.
    destruct (f_page f + 1 =? 1); lia.
  - assert (0 <= offset (f_page f)) as Ho.
    { unfold offset, FIRST_PAGE_LIMIT, QUERY_LIMIT. destruct (f_page f =? 1) eqn:E; to_prop; lia. }
    unfold effectiveLimit, FIRST_PAGE_LIMIT, QUERY_LIMIT in *. destruct (f_page f =? 1); split; auto; nia.
Qed.

(** ** The list is a prefix of the log *)

(** The rows on the server for given filters, in the order asked for. *)
Section server.
Context (table : option string -> option string -> option string -> option string -> string -> list ModelQueryLog).

Definition rowsFor (r : LogsRequest) : list ModelQueryLog :=
  table (q_status r) (q_timespan r) (q_device r) (q_search r) (q_sort r).

(** The API skips [(page - 1) * limit] rows. *)
Definition serve (r : LogsRequest) : list ModelQueryLog :=
  take (Z.to_nat (q_limit r)) (drop (Z.to_nat ((q_page r - 1) * q_limit r)) (rowsFor r)).

(** The profile object stays and no tick is answered, which are both described below; a fetch is answered
    with the rows of the server, or fails, but for the refusal of a cut off account. *)
Definition honest (s : LogsPage) (e : LogsEvent) : Prop :=
  match e with
  | ProfileObject _ | TickSettled _ _ => False
  | FetchSettled i a _ =>
      forall f, fetches s !! i = Some f ->
        a = Rows (serve (f_request f)) \/ exists st code, a = Failure st code /\ st <> Some 403
  | _ => True
  end.

Definition honest_step (s s' : LogsPage) : Prop := exists e, honest s e /\ s' = logs_step s e.

Definition rowsShown (f : LogFilters) : list ModelQueryLog := rowsFor (request "" 1 1 f).

Definition upTo (n : Z) (l : list ModelQueryLog) : list ModelQueryLog := take (Z.to_nat n) l.

Definition listed (c : Core) : Prop :=
  let rows := rowsShown (c_filters c) in
  (exists n, c_logs c = upTo n rows) /\
  (depsChanged c || c_loading c = true -> 1 < c_page c -> c_logs c = upTo (offset (c_page c)) rows) /\
  (depsChanged c || c_loading c = false ->
     if c_hasMore c then c_logs c = upTo (offset (c_page c + 1)) rows
     else if truthy_opt (c_error c) then True
     else if c_rowCap c then c_logs c = upTo QUERY_MAX_ROWS rows else c_logs c = rows).

Definition list_pre (c : Core) : Prop := c_filterDeps c = Some (c_filters c) -> listed c.

Lemma depsChanged_eq c : depsChanged c = false <-> c_fetchDeps c = Some (c_deps c).
Proof. unfold depsChanged. rewrite negb_false_iff. apply bool_decide_eq_true. Qed.

Lemma rendered_list c : fetch_pre c -> cap_pre c -> list_pre c -> listed (rendered c).
Proof.
  intros [_ Hf] (Ht & Hp & _) Hl. unfold list_pre, listed in *. cbv zeta in *.
  change (c_filters (rendered c)) with (c_filters c).
  destruct (decide (c_filterDeps c = Some (c_filters c))) as [E|E].
  - assert (filtersChanged c = false) as Er by (unfold filtersChanged; by rewrite bool_decide_true).
    assert (depsChanged (rendered c) = false) as Ed.
    { apply depsChanged_eq. unfold c_deps, rendered. cbn [c_fetchDeps c_page c_filters c_profileRef c_trigger]. by rewrite Er. }
    rewrite Ed. cbn [rendered c_logs c_page c_loading c_hasMore c_rowCap c_error orb]. rewrite Er. cbn [negb andb orb].
    rewrite Ht, orb_false_r, andb_true_r. specialize (Hl E). destruct (depsChanged c); cbn in Hl |- *; [|exact Hl].
    destruct Hl as (Hn & H1 & _). by split.
  - assert (filtersChanged c = true) as Er by (unfold filtersChanged; by rewrite bool_decide_false).
    assert (depsChanged c = true) as Ed.
    { apply not_false_iff_true. rewrite depsChanged_eq. intros Hd. by apply Hf in Hd as [? _]. }
    cbn [rendered c_logs c_page c_loading c_hasMore c_rowCap]. rewrite Er, Ed, Ht, orb_true_r.
    split; [by exists 0|]. by split.
Qed.

Definition page_ok (s : LogsPage) : Prop := cap_ok (core s) /\ listed (core s) /\ pendingLogs s = [].

(** What the effects never stage. *)
Lemma effects_pending s : pendingLogs s = [] -> pendingLogs (effects s) = [].
Proof.
  intros Hs. unfold effects.
  assert (pendingLogs (filterEffect s s) = []) as H1 by (unfold filterEffect; by destruct (bool_decide _)).
  assert (pendingLogs (profileEffect s (filterEffect s s)) = []) as H2.
  { unfold profileEffect. by destruct (truthy_opt _ && _). }
  assert (pendingLogs (deviceEffect s (profileEffect s (filterEffect s s))) = []) as H3.
  { unfold deviceEffect. destruct (bool_decide _); [done|]. destruct (profileId s) as [id|]; [|done].
    by destruct (truthy id). }
  unfold fetchEffect. destruct (bool_decide _); [done|]. destruct (profileId s) as [id|]; [|done].
  by destruct (truthy id).
Qed.

Lemma commit_page s :
  fetch_pre (core s) -> cap_pre (core s) -> list_pre (core s) -> pendingLogs s = [] -> page_ok (commit s).
Proof.
  intros Hf Hc Hl Hp. unfold page_ok. rewrite commit_core. split; [by apply commit_cap|].
  split; [|by unfold commit; apply effects_pending, effects_pending].
  apply rendered_list; [by apply rendered_pre|by apply rendered_cap|].
  intros _. by apply rendered_list.
Qed.

(** The filters aside, a handler that leaves the list and the deps alone. *)
Lemma list_same c c' :
  fetch_ok c -> listed c -> c_filterDeps c' = c_filterDeps c -> c_fetchDeps c' = c_fetchDeps c ->
  (c_filters c' = c_filters c -> c_deps c' = c_deps c) -> c_page c' = c_page c -> c_hasMore c' = c_hasMore c ->
  c_loading c' = c_loading c -> c_logs c' = c_logs c -> c_rowCap c' = c_rowCap c -> c_error c' = c_error c ->
  list_pre c'.
Proof.
  intros (_ & Hf & _) Hl E1 E2 E3 E4 E5 E6 E7 E8 E9 Hf'.
  assert (c_filters c' = c_filters c) as E by congruence.
  unfold listed, depsChanged in *. by rewrite E, E2, E3, E4, E5, E6, E7, E8, E9.
Qed.

Lemma refresh_list s : fetch_ok (core s) -> listed (core s) -> list_pre (core (handleRefresh s)).
Proof.
  intros (_ & _ & Hd & _) (Hn & _). intros _. split; [done|].
  assert (depsChanged (core (handleRefresh s)) = true) as Ed.
  { apply not_false_iff_true. rewrite depsChanged_eq. change (fetchDeps s = Some (deps s)) in Hd.
    change (fetchDeps s <> Some (c_deps (core (handleRefresh s)))). rewrite Hd. intros E.
    apply (f_equal (fmap d_trigger)) in E. injection E. lia. }
  rewrite Ed. by split.
Qed.

Lemma tick_list hidden s : fetch_ok (core s) -> listed (core s) -> list_pre (core (runBackgroundTick hidden s)).
Proof.
  intros Hok Hl. unfold runBackgroundTick. destruct (profileId s) as [id|]; [|by intros _].
  destruct (_ || _); [by intros _|]. destruct (_ || _); [by intros _|].
  destruct (negb _); [by apply refresh_list|]. by apply (list_same (core s)).
Qed.

Lemma take_app_drop {A} n m (l : list A) : (take n l ++ take m (drop n l))%list = take (n + m) l.
Proof. by rewrite take_take_drop. Qed.

Lemma settleFetch_list s i f now :
  cap_ok (core s) -> listed (core s) -> fetches s !! i = Some f ->
  list_pre (core (settleFetch f (Rows (serve (f_request f))) now (s <| fetches := delete i (fetches s) |>))).
Proof.
  intros [Hok (Ht & Hp & _)] Hl Hi. pose proof Hok as (_ & Hf & Hd & Hlive).
  assert (f ∈ fetches s) as Hin by by eapply list_elem_of_lookup_2.
  unfold settleFetch. destruct (f_live f) eqn:Hlv; cbn [negb]; [|by apply (list_same (core s))].
  destruct (live_fetch (core s) f Hlive Hin Hlv) as [Hload Hcur].
  destruct Hl as (_ & Hl & _). change (c_loading (core s)) with (loading s) in *.
  rewrite Hload, orb_true_r in Hl. specialize (Hl eq_refl).
  unfold currentFetch in Hcur. destruct (c_profileId (core s)) as [id|]; [|done].
  destruct (truthy id); [|done]. injection Hcur as <-.
  change (c_page (core s)) with (page s) in *. change (c_filters (core s)) with (filters s) in *.
  change (c_logs (core s)) with (logs s) in *.
  assert (serve (f_request (fetchOf id (page s) (filters s)))
          = take (Z.to_nat (effectiveLimit (page s))) (drop (Z.to_nat (offset (page s))) (rowsShown (filters s)))) as Hrows.
  { unfold serve. change (rowsFor (f_request (fetchOf id (page s) (filters s)))) with (rowsShown (filters s)).
    cbn [fetchOf f_request request q_limit q_page]. rewrite serverPage_aligned by apply Hp. done. }
  rewrite Hrows. cbn [fetchOf f_page]. intros _.
  assert (0 <= offset (page s)) as Ho.
  { unfold offset, FIRST_PAGE_LIMIT, QUERY_LIMIT. destruct (page s =? 1) eqn:E; to_prop; lia. }
  assert (0 < effectiveLimit (page s)) as He.
  { unfold effectiveLimit, FIRST_PAGE_LIMIT, QUERY_LIMIT. destruct (page s =? 1); lia. }
  assert ((if page s =? 1 then take (Z.to_nat (effectiveLimit (page s))) (drop (Z.to_nat (offset (page s))) (rowsShown (filters s)))
          else (logs s ++ take (Z.to_nat (effectiveLimit (page s))) (drop (Z.to_nat (offset (page s))) (rowsShown (filters s))))%list)
          = upTo (offset (page s + 1)) (rowsShown (filters s))) as Happ.
  { unfold upTo. rewrite offset_next, Z2Nat.inj_add by lia. destruct (page s =? 1) eqn:E.
    - to_prop. rewrite E. reflexivity.
    - to_prop. rewrite Hl by lia. unfold upTo. apply take_app_drop. }
  assert (length (take (Z.to_nat (effectiveLimit (page s))) (drop (Z.to_nat (offset (page s))) (rowsShown (filters s))))
          = Z.to_nat (effectiveLimit (page s)) \/
          (Z.of_nat (length (take (Z.to_nat (effectiveLimit (page s))) (drop (Z.to_nat (offset (page s))) (rowsShown (filters s)))))
             =? effectiveLimit (page s)) = false /\
          upTo (offset (page s + 1)) (rowsShown (filters s)) = rowsShown (filters s)) as Hfull.
  { rewrite length_take, length_drop. unfold upTo. rewrite offset_next by lia.
    destruct (decide (Z.to_nat (effectiveLimit (page s)) <= length (rowsShown (filters s)) - Z.to_nat (offset (page s)))%nat).
    - left. lia.
    - right. split; [apply Z.eqb_neq; lia|]. apply take_ge. lia. }
  remember (take (Z.to_nat (effectiveLimit (page s))) (drop (Z.to_nat (offset (page s))) (rowsShown (filters s)))) as new.
  change (fetchDeps s = Some (deps s)) in Hd.
  assert (forall s', fetchDeps s' = fetchDeps s -> deps s' = deps s -> depsChanged (core s') = false) as Hdeps.
  { intros s' E1 E2. apply depsChanged_eq. change (fetchDeps s' = Some (deps s')). by rewrite E1, E2. }
  cbv zeta. split; [by exists (offset (page s + 1))|]. split.
  { rewrite Hdeps by done. done. }
  intros _. clear Hdeps.
  change (if (Z.of_nat (length new) =? effectiveLimit (page s)) && (nextPageEnd (page s) <=? QUERY_MAX_ROWS)
          then (if page s =? 1 then new else (logs s ++ new)%list) = upTo (offset (page s + 1)) (rowsShown (filters s))
          else if truthy_opt (error s) then True
          else if (Z.of_nat (length new) =? effectiveLimit (page s)) && (QUERY_MAX_ROWS <? nextPageEnd (page s))
               then (if page s =? 1 then new else (logs s ++ new)%list) = upTo QUERY_MAX_ROWS (rowsShown (filters s))
               else (if page s =? 1 then new else (logs s ++ new)%list) = rowsShown (filters s)).
  rewrite Happ. destruct Hfull as [Hfull|[-> Hall]]; [|by destruct (truthy_opt (error s))].
  rewrite Hfull, Z2Nat.id, Z.eqb_refl by lia. cbn [andb].
  destruct (nextPageEnd (page s) <=? QUERY_MAX_ROWS) eqn:En; [done|].
  assert (QUERY_MAX_ROWS <? nextPageEnd (page s) = true) as -> by (to_prop; apply Z.ltb_lt; lia).
  destruct (truthy_opt (error s)); [done|].
  unfold LAST_PAGE, nextPageEnd, QUERY_MAX_ROWS in *. rewrite <- offset_next in En by lia.
  f_equal. unfold offset, FIRST_PAGE_LIMIT, QUERY_LIMIT in *. destruct (page s + 1 =? 1) eqn:E1; to_prop; lia.
Qed.

(** A failed fetch leaves the list, and its message keeps the end marker away. *)
Lemma settleFetch_failed_list s i f st code now :
  cap_ok (core s) -> listed (core s) -> fetches s !! i = Some f -> st <> Some 403 ->
  list_pre (core (settleFetch f (Failure st code) now (s <| fetches := delete i (fetches s) |>))).
Proof.
  intros [Hok _] Hl Hi Hst. unfold settleFetch. destruct (f_live f); cbn [negb]; [|by apply (list_same (core s))].
  rewrite bool_decide_false by done. intros _. destruct Hok as (_ & _ & Hd & _), Hl as (Hn & _).
  split; [exact Hn|].
  match goal with |- context [depsChanged ?c] => assert (depsChanged c = false) as -> by by apply depsChanged_eq end.
  split; [done|]. intros _.
  change (if truthy_opt (Some (fetchError st code)) then True
          else if rowCapReached s then logs s = upTo QUERY_MAX_ROWS (rowsShown (filters s)) else logs s = rowsShown (filters s)).
  replace (truthy_opt (Some (fetchError st code))) with true; [done|].
  unfold fetchError. by repeat case_match.
Qed.

Lemma tick_page hidden s :
  page_ok s -> list_pre (core (runBackgroundTick hidden s)) /\ pendingLogs (runBackgroundTick hidden s) = [].
Proof.
  intros ([Hok _] & Hl & Hp). split; [by apply tick_list|]. unfold runBackgroundTick. destruct (profileId s); [|done].
  destruct (_ || _); [done|]. destruct (_ || _); [done|]. by destruct (negb _).
Qed.

Lemma handle_list s e : honest s e -> page_ok s -> list_pre (core (handle e s)) /\ pendingLogs (handle e s) = [].
Proof.
  intros Hh (Hc & Hl & Hp). pose proof Hc as [Hok _].
  assert (forall s', filterDeps s' = filterDeps s -> fetchDeps s' = fetchDeps s ->
    (filters s' = filters s -> deps s' = deps s) -> page s' = page s -> hasMore s' = hasMore s ->
    loading s' = loading s -> logs s' = logs s -> rowCapReached s' = rowCapReached s -> error s' = error s ->
    pendingLogs s' = [] -> list_pre (core s') /\ pendingLogs s' = []) as Hsame
    by (intros s' ? ? ? ? ? ? ? ? ? ?; split; [by apply (list_same (core s))|done]).
  assert (forall f, list_pre (core (s <| filters := f |>)) /\ pendingLogs (s <| filters := f |>) = []) as Hfilter.
  { intros f. apply Hsame; try done. change (f = filters s -> deps (s <| filters := f |>) = deps s). intros ->. done. }
  destruct e; cbn [honest handle] in *; try done; try apply Hfilter; try (by apply Hsame).
  - unfold handleIntersect. destruct (_ && _) eqn:E; [|by apply Hsame]. split; [|done].
    apply andb_true_iff in E as [E _]. to_prop. intros _.
    pose proof Hok as (_ & Hfd & Hd & _). destruct Hc as [_ (_ & Hpg & _)]. destruct Hl as (Hn & _ & Hl).
    rewrite (proj2 (depsChanged_eq (core s)) Hd) in Hl.
    change (c_loading (core s)) with (loading s) in Hl. change (c_hasMore (core s)) with (hasMore s) in Hl.
    assert (hasMore s = true) as Hmore by done. assert (loading s = false) as Hload by done.
    rewrite Hmore, Hload in Hl. specialize (Hl eq_refl).
    split; [done|]. split; [done|].
    assert (depsChanged (core (s <| page := page s + 1 |>)) = true) as ->; [|done].
    apply not_false_iff_true. rewrite depsChanged_eq. change (fetchDeps s = Some (deps s)) in Hd.
    change (fetchDeps s <> Some (c_deps (core (s <| page := page s + 1 |>)))). rewrite Hd. intros Ed.
    apply (f_equal (fmap d_page)) in Ed. injection Ed. lia.
  - split; [by apply refresh_list|done].
  - unfold handleRefreshIntervalChange. cbv zeta. destruct (bool_decide _); [by apply Hsame|].
    destruct (negb _); [|by apply Hsame].
    by apply (tick_page hidden (s <| refreshIntervalKey := key |>)).
  - destruct (autoRefreshing s); [by apply tick_page|by apply Hsame].
  - destruct (fetches s !! i) as [f|] eqn:Hi; [|by apply Hsame]. split.
    { destruct (Hh f eq_refl) as [->|(st & code & -> & Hst)]; [by apply settleFetch_list|by apply settleFetch_failed_list]. }
    unfold settleFetch. destruct (negb _); [done|]. destruct a as [rows| |st code]; [done|done|]. by destruct (bool_decide _).
  - destruct (deviceFetches s !! i) as [f|]; [|by apply Hsame]. unfold settleDevices.
    destruct a as [l|]; [|by apply Hsame]. destruct (df_live f); by apply Hsame.
  - rewrite bool_decide_true by done. by apply Hsame.
  - destruct (_ && _); by apply Hsame.
  - unfold handleOpenQuickRule. destruct (_ || _); by apply Hsame.
Qed.

Lemma honest_given s e : honest s e -> profile_given e.
Proof. by destruct e. Qed.

Lemma honest_run p r s :
  truthy_opt (p_profile_id <$> p) = true -> reach honest_step (mount p r) s -> page_ok s.
Proof.
  intros Ht Hr. apply (reach_invariant honest_step page_ok (mount p r)); [| |done].
  - unfold mount. apply commit_page; [split; [done|by intros]|by repeat split|done|done].
  - intros s1 s2 Hs (e & He & ->). pose proof (handle_list s1 e He Hs) as [Hlp Hpend].
    destruct Hs as [Hc _]. unfold logs_step. apply commit_page; [|apply handle_cap|done|done].
    + apply handle_pre, Hc.
    + by eapply honest_given.
    + done.
Qed.

(** C6: on a log that does not change, as long as the store keeps its profile object, no background
    tick is answered, and every fetch is answered with the rows the server has or fails otherwise
    than with 403, the query log list is a prefix of what the server has for the chosen filters,
    whatever is filtered, scrolled and refreshed and in whatever order the answers come; when
    nothing loads and there is more, it is exactly the pages that were loaded; the end marker shows
    only when it is all of it, or its first ten thousand rows when it says so *)
Theorem list_is_a_prefix p r s :
  truthy_opt (p_profile_id <$> p) = true -> reach honest_step (mount p r) s ->
  let rows := rowsShown (filters s) in
  (exists n, logs s = take n rows) /\
  (loading s = false -> hasMore s = true -> logs s = take (Z.to_nat (offset (page s + 1))) rows) /\
  (showsEndMarker s = true -> logs s = if rowCapReached s then take (Z.to_nat QUERY_MAX_ROWS) rows else rows).
Proof.
  intros Ht Hr. destruct (honest_run p r s Ht Hr) as ([(_ & _ & Hd & _) _] & (Hn & _ & Hl) & _).
  rewrite (proj2 (depsChanged_eq (core s)) Hd) in Hl. cbv zeta. split; [|split].
  - destruct Hn as [n Hn]. by exists (Z.to_nat n).
  - intros Hload Hmore. change (c_loading (core s)) with (loading s) in Hl.
    change (c_hasMore (core s)) with (hasMore s) in Hl. rewrite Hload, Hmore in Hl. by apply Hl.
  - unfold showsEndMarker. intros E. to_prop. change (c_loading (core s)) with (loading s) in Hl.
    change (c_hasMore (core s)) with (hasMore s) in Hl. change (c_rowCap (core s)) with (rowCapReached s) in Hl.
    assert (loading s = false) as Hload by done. assert (hasMore s = false) as Hmore by done.
    assert (truthy_opt (error s) = false) as Herr by done. change (c_error (core s)) with (error s) in Hl.
    rewrite Hload, Hmore, Herr in Hl. specialize (Hl eq_refl). by destruct (rowCapReached s).
Qed.
End server.

(** ** What breaks it *)

Lemma effects_tick s : tick (effects s) = tick s.
Proof.
  unfold effects.
  transitivity (tick (deviceEffect s (profileEffect s (filterEffect s s)))).
  { unfold fetchEffect. destruct (bool_decide _); [done|]. destruct (profileId s) as [id|]; [|done].
    by destruct (truthy id). }
  transitivity (tick (profileEffect s (filterEffect s s))).
  { unfold deviceEffect. destruct (bool_decide _); [done|]. destruct (profileId s) as [id|]; [|done].
    by destruct (truthy id). }
  transitivity (tick (filterEffect s s)).
  - unfold profileEffect. by destruct (truthy_opt _ && _).
  - unfold filterEffect. by destruct (bool_decide _).
Qed.

Lemma logs_core s : logs s = c_logs (core s).
Proof. done. Qed.

Lemma filters_core s : filters s = c_filters (core s).
Proof. done. Qed.

Lemma commit_tick s : tick (commit s) = tick s.
Proof. unfold commit. by rewrite !effects_tick. Qed.

(** a new profile object, of another profile or of the same one after a quick rule, refetches the page
    the list had reached: the rows of that page are appended below the rows shown, which either shows
    them twice or puts them below another profile's *)
Theorem new_profile_object_appends p r evs p' rows now :
  let s := run logs_step (mount p r) evs in
  1 < page s -> truthy (p_profile_id p') = true ->
  let s1 := logs_step s (ProfileObject (Some p')) in
  let i := length (fetches s) in
  fetches s1 !! i = Some (fetchOf (p_profile_id p') (page s) (filters s)) /\
  logs (logs_step s1 (FetchSettled i (Rows rows) now)) = (logs s ++ rows)%list.
Proof.
  intros s Hp Ht s1 i. pose proof (logs_run_ok p r evs : fetch_ok (core s)) as (Hs & Hf & Hd & Hl). subst s1. clearbody s.
  set (h := handle (ProfileObject (Some p')) s).
  assert (fetch_ok (core (logs_step s (ProfileObject (Some p'))))) as Hok1 by (by apply step_ok).
  assert (depsChanged (core h) = true) as Ed.
  { apply not_false_iff_true. rewrite depsChanged_eq. change (fetchDeps s = Some (deps s)) in Hd.
    change (fetchDeps s <> Some (c_deps (core h))). rewrite Hd. intros E.
    apply (f_equal (fmap d_profile)) in E. injection E. lia. }
  assert (filtersChanged (core h) = false) as Er by (unfold filtersChanged; by rewrite bool_decide_true).
  assert (core (logs_step s (ProfileObject (Some p'))) = rendered (core h)) as Hcore.
  { unfold logs_step. fold h. rewrite commit_core. apply rendered_stable; [done|].
    unfold c_deps at 1, rendered. by rewrite Er. }
  assert (fetches (logs_step s (ProfileObject (Some p'))) !! i
          = Some (fetchOf (p_profile_id p') (page s) (filters s))) as Hi.
  { change (c_fetches (core (logs_step s (ProfileObject (Some p')))) !! i
            = Some (fetchOf (p_profile_id p') (page s) (filters s))).
    rewrite Hcore. unfold rendered. rewrite Ed. cbn [c_fetches].
    change (c_fetches (core h)) with (fetches s).
    rewrite lookup_app_r; [|by rewrite length_map]. rewrite length_map, Nat.sub_diag.
    unfold currentFetch. change (c_profileId (core h)) with (Some (p_profile_id p')). cbn match. by rewrite Ht. }
  split; [exact Hi|]. rewrite logs_core.
  assert (logs (logs_step s (ProfileObject (Some p'))) = logs s) as Hl1 by (rewrite logs_core, Hcore; unfold rendered; by rewrite Er).
  rewrite (settle_step _ i _ (Rows rows) now Hok1 Hi). unfold settleFetch. cbn [fetchOf f_live f_page negb].
  generalize dependent (logs_step s (ProfileObject (Some p'))). intros s1 _ _ _ Hl1.
  change ((if page s =? 1 then rows else (logs s1 ++ rows)%list) = (logs s ++ rows)%list).
  assert (page s =? 1 = false) as -> by (apply Z.eqb_neq; lia). by rewrite Hl1.
Qed.

Lemma tick_starts s id :
  loading s = false -> bgFetchInFlight s = false -> autoRefreshing s = true -> logsEnabled s = true ->
  sortValue (filters s) = "created" -> profileId s = Some id -> truthy id = true ->
  runBackgroundTick false s
  = s <| bgFetchInFlight := true |> <| tick := Some (mkTick (request id 1 FIRST_PAGE_LIMIT (filters s))) |>.
Proof. intros Hload Hbg _ Hen Hsort Hid Ht. unfold runBackgroundTick. by rewrite Hid, Ht, Hen, Hload, Hbg, Hsort. Qed.

Lemma status_resets s v :
  fetch_ok (core s) -> v <> filterValue (filters s) ->
  logs (logs_step s (StatusChange v)) = [] /\ filterValue (filters (logs_step s (StatusChange v))) = v.
Proof.
  intros (_ & Hf & _) Hv. unfold logs_step. rewrite logs_core, filters_core, commit_core.
  cbn [handle]. set (g := core (setFilterValue v s)).
  assert (filtersChanged g = true) as E.
  { unfold filtersChanged. rewrite bool_decide_false; [done|]. change (filterDeps s = Some (filters s)) in Hf.
    change (filterDeps s <> Some (filters (setFilterValue v s))). rewrite Hf. intros E.
    apply (f_equal (fmap filterValue)) in E. injection E. intros E'. by apply Hv. }
  assert (c_logs (rendered g) = []) as Hnil by (unfold rendered; by rewrite E).
  split; [|done]. generalize dependent (rendered g). intros c Hnil. unfold rendered. cbn [c_logs].
  by destruct (filtersChanged c).
Qed.

Lemma tick_fills s t rows now :
  fetch_ok (core s) -> tick s = Some t -> logs s = [] ->
  logs (logs_step s (TickSettled (Rows rows) now)) = rows /\
  filters (logs_step s (TickSettled (Rows rows) now)) = filters s.
Proof.
  intros (_ & Hf & Hd & _) Ht Hl. unfold logs_step. rewrite logs_core, filters_core.
  cbn [handle]. rewrite Ht. unfold settleTick. cbv zeta.
  change (logs (s <| lastUpdatedAt := Some now |>)) with (logs s). rewrite Hl.
  rewrite commit_stable by done. done.
Qed.

Lemma failure_keeps s i st code now :
  fetch_ok (core s) -> logs (logs_step s (FetchSettled i (Failure st code) now)) = logs s.
Proof.
  intros Hok. rewrite logs_core. destruct (fetches s !! i) as [f|] eqn:Hi.
  - rewrite (settle_step s i f) by done. unfold settleFetch. destruct (negb _); [done|].
    by destruct (bool_decide (st = Some 403)).
  - unfold logs_step. cbn [handle]. rewrite Hi. destruct Hok as (_ & Hf & Hd & _). by rewrite commit_stable.
Qed.

(** a background tick that outlives a change of the filters fills the emptied list with the rows of the
    old filters, and when the fetch for the new filters fails they stay, under the new filters *)
Theorem stale_tick_is_shown p r evs v rows now :
  let s := run logs_step (mount p r) evs in
  loading s = false -> bgFetchInFlight s = false -> autoRefreshing s = true -> logsEnabled s = true ->
  sortValue (filters s) = "created" -> v <> filterValue (filters s) ->
  let s1 := logs_step s (TickTimer false) in
  let s2 := logs_step (logs_step s1 (StatusChange v)) (TickSettled (Rows rows) now) in
  (exists id, tick s1 = Some (mkTick (request id 1 FIRST_PAGE_LIMIT (filters s)))) /\
  filterValue (filters s2) = v /\ logs s2 = rows /\
  forall i st code now', logs (logs_step s2 (FetchSettled i (Failure st code) now')) = rows.
Proof.
  intros s Hload Hbg Hauto Hen Hsort Hv. pose proof (logs_run_ok p r evs : fetch_ok (core s)) as Hok. cbv zeta. clearbody s.
  assert (exists id, profileId s = Some id /\ truthy id = true) as (id & Hid & Ht).
  { unfold autoRefreshing in Hauto. apply andb_true_iff in Hauto as [_ Ht]. destruct (profileId s) as [id|]; [|done].
    by exists id. }
  pose proof (tick_starts s id Hload Hbg Hauto Hen Hsort Hid Ht) as Hstart.
  set (s1 := logs_step s (TickTimer false)).
  assert (tick s1 = Some (mkTick (request id 1 FIRST_PAGE_LIMIT (filters s)))) as Htick.
  { unfold s1, logs_step. rewrite commit_tick. cbn [handle]. rewrite Hauto, Hstart. done. }
  assert (filters s1 = filters s) as Hfil.
  { unfold s1, logs_step. rewrite filters_core, commit_core. cbn [handle]. rewrite Hauto, Hstart. done. }
  assert (fetch_ok (core s1)) as Hok1 by by apply step_ok.
  clearbody s1. split; [by exists id|].
  destruct (status_resets s1 v Hok1) as [Hl2 Hv2]; [by rewrite Hfil|].
  assert (tick (logs_step s1 (StatusChange v)) = Some (mkTick (request id 1 FIRST_PAGE_LIMIT (filters s)))) as Htick2
    by (unfold logs_step; by rewrite commit_tick).
  pose proof (step_ok s1 (StatusChange v) Hok1) as Hok2.
  generalize dependent (logs_step s1 (StatusChange v)). intros s2 Hl2 Hv2 Htick2 Hok2.
  destruct (tick_fills s2 _ rows now Hok2 Htick2 Hl2) as [Hl3 Hf3].
  split; [by rewrite Hf3|]. split; [done|]. intros i st code now'.
  rewrite failure_keeps by by apply step_ok. done.
Qed.
End events.

(** ** Witnesses *)

Definition logs_profile (id : string) : ModelProfile := MkModelProfile "acc" id "Home" id None.

Fixpoint all_honest {H : Host} table (s : LogsPage) (evs : list LogsEvent) : Prop :=
  match evs with
  | [] => True
  | e :: evs' => honest table s e /\ all_honest table (logs_step s e) evs'
  end.

Lemma all_honest_reach {H : Host} table evs s0 s :
  reach (honest_step table) s0 s -> all_honest table s evs -> reach (honest_step table) s0 (run logs_step s evs).
Proof.
  revert s. induction evs as [|e evs IH]; intros s Hr Hh; [done|]. destruct Hh as [He Hh].
  apply IH; [|done]. apply reach_step with s; [done|]. by exists e.
Qed.

Definition witness_rows : list ModelQueryLog := map (fun i => witness_log (show (Z.of_nat i))) (seq 0 101).
Definition witness_table (_ _ _ _ : option string) (_ : string) : list ModelQueryLog := witness_rows.
Definition witness_events : list LogsEvent :=
  [FetchSettled 0 (Rows (take 100 witness_rows)) 0; Intersect; FetchSettled 0 (Rows (drop 100 witness_rows)) 0].
(** The same after a failed fetch of the second page and a refresh. *)
Definition witness_retry : list LogsEvent :=
  [FetchSettled 0 (Rows (take 100 witness_rows)) 0; Intersect; FetchSettled 0 (Failure (Some 500) false) 0;
   ManualRefresh] ++ witness_events.
Definition witness_mount : LogsPage := mount (Some (logs_profile "p")) false.

Lemma requests_within_cap_witness :
  Forall (fun f => q_page (f_request f) * q_limit (f_request f) <= QUERY_MAX_ROWS /\
                   (q_page (f_request f) - 1) * q_limit (f_request f) = offset (f_page f) /\
                   1 <= q_page (f_request f) /\ (q_limit (f_request f) = 25 \/ q_limit (f_request f) = 100))
    (fetches (run (logs_step (H := utc_host)) witness_mount (take 2 witness_events)))
  /\ map (fun f => (q_page (f_request f), q_limit (f_request f)))
       (fetches (run (logs_step (H := utc_host)) witness_mount (take 2 witness_events))) = [(5, 25)].
Proof.
  split; [|vm_compute; reflexivity].
  apply (requests_within_cap (H := utc_host) (Some (logs_profile "p")) false (take 2 witness_events));
    [reflexivity|by repeat constructor].
Defined.

Lemma list_is_a_prefix_witness :
  let s := run (logs_step (H := utc_host)) witness_mount witness_retry in
  logs s = witness_rows /\ showsEndMarker s = true.
Proof.
  intros s. assert (showsEndMarker s = true) as Hend by (vm_compute; reflexivity). split; [|exact Hend].
  assert (reach (honest_step (H := utc_host) witness_table) witness_mount s) as Hr.
  { apply all_honest_reach; [apply reach_refl|].
    split; [|split; [exact I|split; [|split; [exact I|split; [|split; [exact I|split; [|exact I]]]]]]]; intros f Hf;
      vm_compute in Hf; injection Hf as <-;
      first [left; vm_compute; reflexivity|right; exists (Some 500), false; by split]. }
  assert (rowCapReached s = false) as Hcap by (vm_compute; reflexivity).
  assert (rowsShown witness_table (filters s) = witness_rows) as Hrows by reflexivity.
  clearbody s.
  destruct (list_is_a_prefix (H := utc_host) witness_table (Some (logs_profile "p")) false s eq_refl Hr)
    as (_ & _ & Hm).
  specialize (Hm Hend). rewrite Hcap, Hrows in Hm. exact Hm.
Defined.

Lemma new_profile_object_appends_witness :
  let s := run (logs_step (H := utc_host)) witness_mount witness_events in
  logs (logs_step (H := utc_host) (logs_step (H := utc_host) s (ProfileObject (Some (logs_profile "p"))))
          (FetchSettled (length (fetches s)) (Rows (drop 100 witness_rows)) 1))
  = (witness_rows ++ drop 100 witness_rows)%list.
Proof.
  intros s. assert (logs s = witness_rows) as Hs by (vm_compute; reflexivity). rewrite <- Hs at 1.
  apply (new_profile_object_appends (H := utc_host) (Some (logs_profile "p")) false witness_events
           (logs_profile "p") (drop 100 witness_rows) 1); vm_compute; reflexivity.
Defined.

Lemma stale_tick_is_shown_witness :
  let evs := [FetchSettled 0 (Rows (drop 99 witness_rows)) 0; IntervalChange R5s true] in
  let s := run (logs_step (H := utc_host)) (mount (Some (logs_profile "p")) false) evs in
  let s1 := logs_step (H := utc_host) s (TickTimer false) in
  let s2 := logs_step (H := utc_host) (logs_step (H := utc_host) s1 (StatusChange "blocked"))
              (TickSettled (Rows (drop 99 witness_rows)) 1) in
  logs s2 = drop 99 witness_rows.
Proof.
  intros evs s. pose proof (stale_tick_is_shown (H := utc_host) (Some (logs_profile "p")) false evs "blocked"
    (drop 99 witness_rows) 1) as Hx. fold s in Hx. cbv zeta in Hx |- *.
  assert (loading s = false) as H1 by (vm_compute; reflexivity).
  assert (bgFetchInFlight s = false) as H2 by (vm_compute; reflexivity).
  assert (autoRefreshing s = true) as H3 by (vm_compute; reflexivity).
  assert (logsEnabled s = true) as H4 by (vm_compute; reflexivity).
  assert (sortValue (filters s) = "created") as H5 by (vm_compute; reflexivity).
  assert ("blocked" <> filterValue (filters s)) as H6 by by vm_compute.
  clearbody s. by destruct (Hx H1 H2 H3 H4 H5 H6) as (_ & _ & Hl & _).
Defined.
