(* ===== verification/LogControls.v ===== *)
(** * The controls of the query logs page

    [src/app/src/pages/logs/Filters.tsx] and [NoLogs.tsx]: what the filter bar and the empty state show
    for the state of the page; the pull-to-refresh gesture of [Logs.tsx]; and the download of
    [src/app/src/pages/settings/QueryLogsSection.tsx]. Built on LogsPage; the theorems relate what the
    bar shows to what is asked of the server. *)

From S2P Require Import Prelude JsString JsDate ApiTypes Formats LogsPage.
From coqutil Require Import Datatypes.RecordSetters.
Import TriangleBracketNotations.

#[local] Arguments constant _ _ _ /.

(** ** The filter bar *)

(** A select: its value, its options with their labels, and whether it is accented. *)
Record SelectView := mkSelect { sel_value : string; sel_options : list (string * string); sel_active : bool }.

(** The controls of a refresh: the spin of the icon, the label of the cadence, and the menu. *)
Inductive Spin : Set := FastSpin | CalmSpin | NoSpin.
Record RefreshView := mkRefresh {
  rf_spin : Spin;
  rf_label : option string;
  rf_options : list (RefreshIntervalKey * string);
}.

Record FilterBar := mkBar {
  bar_search : string;
  bar_searchClear : bool;
  bar_status : SelectView;
  bar_device : SelectView;
  bar_sort : SelectView;
  bar_timespan : SelectView;
  bar_clearChip : bool;
  bar_refresh : RefreshView;
  bar_freshness : option string;
}.

Definition refreshControls (key : RefreshIntervalKey) (isRefreshing : bool) : RefreshView :=
  let activeOption := array_find (fun o => bool_decide (ri_key o = key)) QUERY_LOGS_REFRESH_INTERVALS in
  let isAutoRefreshing := bool_decide (is_Some (o ← activeOption; ri_ms o)) in
  {| rf_spin := if isRefreshing then FastSpin else if isAutoRefreshing then CalmSpin else NoSpin;
     rf_label := if isAutoRefreshing then ri_buttonLabel <$> activeOption else None;
     rf_options := map (fun o => (ri_key o, ri_label o)) QUERY_LOGS_REFRESH_INTERVALS |}.

Definition statusOptions : list (string * string) :=
  [("all", "All queries"); ("blocked", "Blocked"); ("processed", "Processed"); ("unanswered", "No answer")].
Definition sortOptions : list (string * string) :=
  [("created", "Created"); ("domain", "Domain"); ("client_ip", "Client IP")].
Definition timespanOptions : list (string * string) :=
  [("all", "All time"); ("LAST_1_HOUR", "Last 1 hour"); ("LAST_12_HOURS", "Last 12 hours");
   ("LAST_1_DAY", "Last 1 day"); ("LAST_7_DAYS", "Last 7 days"); ("LAST_MONTH", "Last 30 days")].
Definition deviceOptions (availableDeviceIds : list string) : list (string * string) :=
  ("all", "All devices") :: map (fun d => (d, d)) availableDeviceIds.

(** The bar of the page; [manualSpinActive] is true for half a second after a refresh was asked for. *)
Definition filterBar (manualSpinActive : bool) (now : Z) (s : LogsPage) : FilterBar :=
  let f := filters s in
  {| bar_search := searchInputValue s;
     bar_searchClear := (0 <? String.length (searchInputValue s))%nat;
     bar_status := mkSelect (filterValue f) statusOptions (negb (String.eqb (filterValue f) "all"));
     bar_device := mkSelect (deviceIdValue f ?? "all") (deviceOptions (availableDeviceIds s))
                     (bool_decide (is_Some (deviceIdValue f)));
     bar_sort := mkSelect (sortValue f) sortOptions (negb (String.eqb (sortValue f) "created"));
     bar_timespan := mkSelect (timespanValue f ?? "all") timespanOptions
                       (bool_decide (is_Some (timespanValue f)) && negb (bool_decide (timespanValue f = Some "all")));
     bar_clearChip := anyActive f;
     bar_refresh := refreshControls (refreshIntervalKey s) (manualSpinActive || loading s && (page s =? 1));
     bar_freshness := (fun at_ => "Updated " ++s formatAge (now - at_)) <$> lastUpdatedAt s |}.

(** A choice in one of the selects. *)
Inductive BarSelect : Set := StatusSelect | DeviceSelect | SortSelect | TimespanSelect.

Definition selectOf (b : FilterBar) (w : BarSelect) : SelectView :=
  match w with
  | StatusSelect => bar_status b | DeviceSelect => bar_device b
  | SortSelect => bar_sort b | TimespanSelect => bar_timespan b
  end.

Definition chooseOption (w : BarSelect) (v : string) : LogsEvent :=
  match w with
  | StatusSelect => StatusChange v | DeviceSelect => DeviceChange v
  | SortSelect => SortChange v | TimespanSelect => TimespanChange v
  end.

(** ** The empty state *)

Inductive EmptyVariant : Set := EmptyDefault | EmptySearch | EmptyFilters.

Record NoLogsView := mkNoLogs {
  nl_title : string;
  nl_description : string;
  nl_clearButton : bool;
  nl_setupButton : option string;
}.

(** A dash stands for the long one. *)
Definition emptyStateVariants (v : EmptyVariant) : string * string * option string :=
  match v with
  | EmptyDefault => ("No logs to display", "Set up modDNS on your devices to start analysing queries.", Some "DNS Setup")
  | EmptySearch => ("No matching logs", "No logs match your search. Try updating the keywords or filters.", None)
  | EmptyFilters => ("No matching logs", "No results for the current filters - try clearing them.", None)
  end.

(** With [onClearFilters] given, as the page does. *)
Definition noLogs (isSearchActive hasActiveFilters : bool) : NoLogsView :=
  let isFiltered := isSearchActive || hasActiveFilters in
  let '(title, description, buttonText) :=
    emptyStateVariants (if isSearchActive then EmptySearch else if hasActiveFilters then EmptyFilters else EmptyDefault) in
  mkNoLogs title description isFiltered (if isFiltered then None else buttonText).

Definition emptyState (s : LogsPage) : option NoLogsView :=
  if showsEmptyState s then
    Some (noLogs (0 <? String.length (trim (committedSearchValue (filters s))))%nat (hasNonDefaultFilters (filters s)))
  else None.

(** ** Pull to refresh *)

(** [pullDistance] is counted in fifths of a pixel, so that the resistance of 0.4 is exact. *)
Record Pull := mkPull { pullDistance : Z; isRefreshing : bool; pullStartY : Z; isPulling : bool }.

Definition mountPull : Pull := mkPull 0 false 0 false.
Definition PULL_THRESHOLD : Z := 5 * 60.
Definition MAX_PULL : Z := 5 * 100.

Inductive TouchEvent : Set :=
| TouchStart (scrollY clientY : Z)
| TouchMove (scrollY clientY : Z)
| TouchEnd
| RefreshTimeout.

Definition handleTouchStart (isMobile : bool) (scrollY clientY : Z) (p : Pull) : Pull :=
  if negb isMobile || isRefreshing p then p
  else if scrollY <=? 0 then p <| pullStartY := clientY |> <| isPulling := true |> else p.

Definition handleTouchMove (isMobile : bool) (scrollY clientY : Z) (p : Pull) : Pull :=
  if negb (isPulling p) || negb isMobile || isRefreshing p then p
  else if 0 <? scrollY then p <| isPulling := false |> <| pullDistance := 0 |>
  else
    let deltaY := clientY - pullStartY p in
    if 0 <? deltaY then p <| pullDistance := Z.min (2 * deltaY) MAX_PULL |> else p <| pullDistance := 0 |>.

(** Also tells whether the list is refreshed. *)
Definition handleTouchEnd (isMobile loading : bool) (p : Pull) : Pull * bool :=
  if negb (isPulling p) || negb isMobile then (p, false)
  else
    let p1 := p <| isPulling := false |> in
    if (PULL_THRESHOLD <? pullDistance p) && negb (isRefreshing p) && negb loading
    then (p1 <| isRefreshing := true |> <| pullDistance := 0 |>, true)
    else (p1 <| pullDistance := 0 |>, false).

Definition pull_step (isMobile : bool) (y : Pull * LogsPage) (e : TouchEvent) : Pull * LogsPage :=
  let '(p, s) := y in
  match e with
  | TouchStart v c => (handleTouchStart isMobile v c p, s)
  | TouchMove v c => (handleTouchMove isMobile v c p, s)
  | TouchEnd =>
      let '(p', refresh) := handleTouchEnd isMobile (loading s) p in
      (p', if refresh then commit (handleRefresh s) else s)
  | RefreshTimeout => (p <| isRefreshing := false |>, s)
  end.

Definition pullText (isMobile : bool) (p : Pull) : option string :=
  if isMobile && ((0 <? pullDistance p) || isRefreshing p) then
    Some (if isRefreshing p then "Refreshing..."
          else if PULL_THRESHOLD <? pullDistance p then "Release to refresh" else "Pull to refresh")
  else None.

(** ** The download of the logs *)

(** The name that the regular expression matches: what follows the first [filename=] with a name after
    it and an optional quote before that, up to the next quote. *)
Definition is_quote (c : ascii) : bool := Ascii.eqb c (ascii_of_nat 34).

Fixpoint until_quote (s : string) : string :=
  match s with "" => "" | String c s' => if is_quote c then "" else String c (until_quote s') end.

Definition name_here (s : string) : option string :=
  if startsWith s "filename=" then
    let rest := str_drop 9 s in
    let name := until_quote (match rest with String c r => if is_quote c then r else rest | "" => "" end) in
    if truthy name then Some name else None
  else None.

Fixpoint dispositionName (s : string) : option string :=
  match name_here s with
  | Some n => Some n
  | None => match s with "" => None | String _ s' => dispositionName s' end
  end.

(** The body of the answer: a blob, or what JSON had: nothing or the rows. *)
Inductive DownloadData : Type := BlobData | JsonData (rows : option (list ModelQueryLog)).

Inductive SavedFile : Type := SavedBlob | SavedJson (rows : list ModelQueryLog).

Inductive DownloadOutcome : Type :=
| Saved (file : SavedFile) (filename : string) (toast : string)
| NotSaved (toast : string).

Definition downloadName (disposition : option string) : string :=
  if truthy_opt disposition then dispositionName (disposition ?? "") ?? "query-logs.json" else "query-logs.json".

Definition downloadLogs {E : Type} (a : result E (DownloadData * option string)) : DownloadOutcome :=
  match a with
  | Throw _ => NotSaved "Failed to download query logs."
  | Ok (BlobData, disposition) => Saved SavedBlob (downloadName disposition) "Query logs download started."
  | Ok (JsonData (Some (l :: rest)), disposition) =>
      Saved (SavedJson (l :: rest)) (downloadName disposition) "Query logs download started."
  | Ok (JsonData _, _) => NotSaved "No query logs available to download."
  end.

(** ** The bar and the request *)

Section bar.
Context {H : Host}.
Implicit Types (s : LogsPage) (f : LogFilters).

(** What a select that is set narrows the list to. *)
Definition selected (v : SelectView) : option string := all_is_none (sel_value v).

(** The filters the bar can have set: no device is empty, and unset values are not written [all]. *)
Definition filters_ok f : Prop :=
  deviceIdValue f <> Some "" /\ deviceIdValue f <> Some "all" /\ timespanValue f <> Some "all".

Lemma device_choice_ok s v : v ∈ map fst (deviceOptions (availableDeviceIds s)) ->
  Forall (fun d => d <> "") (serverDeviceIds s ++ observedDeviceIds s) -> deviceIdValue (filters s) <> Some "" ->
  all_is_none v <> Some "".
Proof.
  intros Hv Hids Hd E. unfold all_is_none in E. destruct (String.eqb v "all"); [done|]. injection E as ->.
  unfold deviceOptions in Hv. cbn in Hv. rewrite map_map, map_id in Hv. apply elem_of_cons in Hv as [?|Hv]; [done|].
  unfold availableDeviceIds in Hv. rewrite array_sort_perm in Hv.
  assert ("" ∈ dedup (serverDeviceIds s ++ observedDeviceIds s) -> False) as Hno.
  { rewrite elem_of_dedup. intros Hin. rewrite Forall_forall in Hids. by apply (Hids ""). }
  destruct (deviceIdValue (filters s)) as [d|]; [|by apply Hno].
  destruct (truthy d) eqn:Et; [|by apply Hno]. unfold add_new in Hv. case_bool_decide; [by apply Hno|].
  apply elem_of_app in Hv as [?|Hv%list_elem_of_singleton]; [by apply Hno|]. by subst d.
Qed.

(** the request names what the selects of the bar show and the committed search, and a select is accented
    exactly when it narrows or orders the list *)
(** C28: the request of the logs page names exactly what the selects of the filter bar show and the
    committed search, and a select is accented exactly when it narrows or orders the list *)
Theorem request_is_what_the_bar_shows s spin now pid p lim :
  filters_ok (filters s) ->
  let b := filterBar spin now s in
  let q := request pid p lim (filters s) in
  q_status q = selected (bar_status b) /\ q_timespan q = selected (bar_timespan b) /\
  q_device q = selected (bar_device b) /\ q_sort q = sel_value (bar_sort b) /\
  q_search q = or_none (committedSearchValue (filters s)) /\
  (forall w, sel_active (selectOf b w) = true <-> sel_value (selectOf b w) <> (match w with SortSelect => "created" | _ => "all" end)).
Proof.
  intros (Hd & Ha & Ht). cbv zeta. unfold filterBar, request, selected, all_is_none, or_none.
  cbn [bar_status bar_timespan bar_device bar_sort q_status q_timespan q_device q_sort q_search sel_value].
  set (f := filters s) in *. clearbody f. split; [done|]. split.
  { destruct (timespanValue f) as [t|]; [|done]. cbn. done. }
  split.
  { destruct (deviceIdValue f) as [d|]; [|done]. cbn. destruct (truthy d) eqn:Et; [|by apply truthy_false in Et as ->].
    destruct (String.eqb_spec d "all") as [->|]; done. }
  split; [done|]. split; [done|].
  intros []; cbn [selectOf bar_status bar_timespan bar_device bar_sort sel_active sel_value].
  - by rewrite negb_true_iff, String.eqb_neq.
  - rewrite bool_decide_eq_true. destruct (deviceIdValue f) as [d|]; cbn.
    + split; [|by eauto]. intros _ E. by rewrite E in Ha.
    + split; [by intros [? ?]|done].
  - by rewrite negb_true_iff, String.eqb_neq.
  - rewrite andb_true_iff, negb_true_iff, bool_decide_eq_true, bool_decide_eq_false.
    destruct (timespanValue f) as [d|]; cbn; [|by split; [intros [[? ?] _]|]].
    split; [intros [_ Hn] E; by rewrite E in Hn|intros _; split; [by eauto|done]].
Qed.

Lemma effects_search s : filters (effects s) = filters s /\ searchInputValue (effects s) = searchInputValue s.
Proof.
  unfold effects.
  assert (forall r x, filters (filterEffect r x) = filters x /\ searchInputValue (filterEffect r x) = searchInputValue x) as H1
    by (intros r x; unfold filterEffect; by case_bool_decide).
  assert (forall r x, filters (profileEffect r x) = filters x /\ searchInputValue (profileEffect r x) = searchInputValue x) as H2
    by (intros r x; unfold profileEffect; by destruct (truthy_opt _ && _)).
  assert (forall r x, filters (deviceEffect r x) = filters x /\ searchInputValue (deviceEffect r x) = searchInputValue x) as H3
    by (intros r x; unfold deviceEffect; case_bool_decide; [done|]; destruct (profileId r) as [i|]; [by destruct (truthy i)|done]).
  assert (forall r x, filters (fetchEffect r x) = filters x /\ searchInputValue (fetchEffect r x) = searchInputValue x) as H4
    by (intros r x; unfold fetchEffect; case_bool_decide; [done|]; destruct (profileId r) as [i|]; [by destruct (truthy i)|done]).
  destruct (H4 s (deviceEffect s (profileEffect s (filterEffect s s)))) as [-> ->].
  destruct (H3 s (profileEffect s (filterEffect s s))) as [-> ->].
  destruct (H2 s (filterEffect s s)) as [-> ->]. apply H1.
Qed.

Lemma commit_filters s : filters (commit s) = filters s.
Proof. unfold commit. by rewrite !(proj1 (effects_search _)). Qed.
Lemma commit_search s : searchInputValue (commit s) = searchInputValue s.
Proof. unfold commit. by rewrite !(proj2 (effects_search _)). Qed.

(** ** What the bar can set *)

(** A choice of a select is one of its options. *)
Definition offeredBy s (e : LogsEvent) : Prop :=
  match e with
  | StatusChange v => v ∈ map fst statusOptions
  | SortChange v => v ∈ map fst sortOptions
  | TimespanChange v => v ∈ map fst timespanOptions
  | DeviceChange v => v ∈ map fst (deviceOptions (availableDeviceIds s))
  | _ => True
  end.

Definition ids_ok s : Prop := Forall (fun d => d <> "") (serverDeviceIds s ++ observedDeviceIds s).
Definition bar_ok s : Prop := filters_ok (filters s) /\ ids_ok s.

(** The parts of the state the invariant reads; an effect keeps them, or forgets the devices. *)
Definition bar_part s := (filters s, serverDeviceIds s, observedDeviceIds s).

Lemma bar_ok_ext s s' : bar_part s' = bar_part s -> bar_ok s -> bar_ok s'.
Proof. unfold bar_part, bar_ok, ids_ok. by intros [= -> -> ->]. Qed.

Lemma bar_ok_forget s s' : filters s' = filters s -> serverDeviceIds s' = [] -> observedDeviceIds s' = [] -> bar_ok s -> bar_ok s'.
Proof. unfold bar_ok, ids_ok. intros -> -> -> [Hf _]. split; [done|constructor]. Qed.

Lemma profileEffect_bar r s : bar_ok s -> bar_ok (profileEffect r s).
Proof.
  unfold profileEffect. destruct (truthy_opt _ && _); intros Hs.
  - apply (bar_ok_forget s); [by destruct s..|done].
  - apply (bar_ok_ext s); [by destruct s|done].
Qed.

Lemma effects_bar s : bar_ok s -> bar_ok (effects s).
Proof.
  intros Hs. unfold effects.
  assert (bar_ok (filterEffect s s)) as H1.
  { apply (bar_ok_ext s); [|done]. unfold filterEffect. case_bool_decide; by destruct s. }
  apply (profileEffect_bar s) in H1. generalize dependent (profileEffect s (filterEffect s s)). intros s1 H1.
  assert (bar_ok (deviceEffect s s1)) as H2.
  { apply (bar_ok_ext s1); [|done]. unfold deviceEffect. case_bool_decide; [done|].
    destruct (profileId s) as [i|]; [destruct (truthy i)|]; by destruct s1. }
  generalize dependent (deviceEffect s s1). intros s2 H2.
  apply (bar_ok_ext s2); [|done]. unfold fetchEffect. case_bool_decide; [done|].
  destruct (profileId s) as [i|]; [destruct (truthy i)|]; by destruct s2.
Qed.

Lemma commit_bar s : bar_ok s -> bar_ok (commit s).
Proof. intros Hs. by apply effects_bar, effects_bar. Qed.

Lemma observe_ok ids rows : Forall (fun d => d <> "") ids -> Forall (fun d => d <> "") (observe ids rows).
Proof.
  intros Hids. unfold observe. rewrite array_sort_perm.
  assert (Forall (fun d => d <> "") (dedup ids)) as Hd
    by (rewrite Forall_forall in *; intros d Hd; apply Hids; by apply elem_of_dedup).
  revert Hd. generalize (dedup ids) as acc. clear. induction rows as [|l rows IH]; intros acc Hacc; [done|].
  cbn [foldl]. apply IH. destruct (ql_device_id l) as [d|]; [|done]. destruct (truthy d) eqn:Et; [|done].
  unfold add_new. case_bool_decide; [done|]. apply Forall_app. split; [done|]. apply Forall_singleton. by apply truthy_spec.
Qed.

Lemma settleFetch_bar fe a now s : bar_ok s -> bar_ok (settleFetch fe a now s).
Proof.
  intros Hs. unfold settleFetch. destruct (negb (f_live fe)); [done|]. destruct a as [rows| |st code].
  - destruct Hs as [Hf Hi]. split; [exact Hf|]. unfold ids_ok in *. cbn. apply Forall_app in Hi as [Hi1 Hi2].
    apply Forall_app. split; [done|]. by apply observe_ok.
  - by apply (bar_ok_ext s); [destruct s|].
  - case_bool_decide; by apply (bar_ok_ext s); [destruct s|].
Qed.

Lemma settleDevices_bar fe a s : bar_ok s -> bar_ok (settleDevices fe a s).
Proof.
  intros Hs. unfold settleDevices. destruct a as [ids|]; [|done]. destruct (df_live fe); [|done].
  destruct Hs as [Hf Hi]. split; [exact Hf|]. unfold ids_ok in *. cbn. apply Forall_app in Hi as [_ Hi].
  apply Forall_app. split; [|done]. apply Forall_forall. intros d [_ Ht]%elem_of_list_filter_b. by apply truthy_spec.
Qed.

Lemma set_filters_bar s s' :
  filters_ok (filters s') -> serverDeviceIds s' = serverDeviceIds s -> observedDeviceIds s' = observedDeviceIds s ->
  bar_ok s -> bar_ok s'.
Proof. unfold bar_ok, ids_ok. by intros Hf -> -> [_ Hi]. Qed.

Lemma all_is_none_ok v : all_is_none v <> Some "all".
Proof. unfold all_is_none. destruct (String.eqb_spec v "all"); congruence. Qed.

Lemma runBackgroundTick_part hidden s : bar_part (runBackgroundTick hidden s) = bar_part s.
Proof.
  unfold runBackgroundTick. destruct (profileId s) as [i|]; [|done].
  destruct (hidden || _ || _); [done|]. destruct (loading s || _); [done|]. destruct (negb _); by destruct s.
Qed.

Lemma step_bar s e : offeredBy s e -> bar_ok s -> bar_ok (logs_step s e).
Proof.
  intros He Hs. unfold logs_step. apply commit_bar. pose proof Hs as [(Hd & Ha & Ht) Hi].
  destruct e; cbn [handle]; try (apply (bar_ok_ext s); [by destruct s|done]).
  - apply (bar_ok_ext s); [|done]. unfold handleIntersect. destruct (_ && _); by destruct s.
  - by apply (set_filters_bar s).
  - by apply (set_filters_bar s).
  - apply (set_filters_bar s); try done. split; [done|]. split; [done|]. apply all_is_none_ok.
  - apply (set_filters_bar s); try done. split; [|split; [apply all_is_none_ok|done]].
    by apply (device_choice_ok s).
  - by apply (set_filters_bar s).
  - by apply (set_filters_bar s).
  - by apply (set_filters_bar s).
  - apply (bar_ok_ext s); [|done]. unfold handleRefreshIntervalChange. cbv zeta.
    case_bool_decide; [done|]. destruct (negb _); [by rewrite runBackgroundTick_part|done].
  - apply (bar_ok_ext s); [|done]. destruct (autoRefreshing s); [apply runBackgroundTick_part|done].
  - destruct (fetches s !! i) as [fe|]; [|done]. apply settleFetch_bar, (bar_ok_ext s); [by destruct s|done].
  - destruct (tick s); [|done]. apply (bar_ok_ext s); [|done]. unfold settleTick.
    destruct a as [rows| |]; [|done|done]. destruct (logs (s <| lastUpdatedAt := Some now |>)); by destruct s.
  - destruct (deviceFetches s !! i) as [fe|]; [|done]. apply settleDevices_bar, (bar_ok_ext s); [by destruct s|done].
  - apply (bar_ok_ext s); [|done]. case_bool_decide; [done|]. unfold handleShowPending. destruct (pendingOverflow s); by destruct s.
  - apply (bar_ok_ext s); [|done]. destruct (_ && _); by destruct s.
  - apply (bar_ok_ext s); [|done]. unfold handleOpenQuickRule. destruct (_ || _); by destruct s.
Qed.

(** whatever happens on the page, as long as a choice is one of the options of its select, no select is set
    to an empty device or to a value that reads as all of them *)
Theorem bar_stays_ok p restricted evs :
  (forall evs1 e evs2, evs = evs1 ++ e :: evs2 -> offeredBy (run logs_step (mount p restricted) evs1) e) ->
  bar_ok (run logs_step (mount p restricted) evs).
Proof.
  induction evs as [|e evs IH] using rev_ind; intros Hoff.
  - cbn. apply commit_bar. repeat split; try done. constructor.
  - rewrite run_snoc. apply step_bar; [by apply (Hoff evs e [])|]. apply IH.
    intros evs1 e' evs2 ->. apply (Hoff evs1 e' (evs2 ++ [e])). by rewrite <- app_assoc.
Qed.

(** ** The chip, the empty state and the search *)

Lemma length_pos_truthy (v : string) : (0 <? String.length v)%nat = negb (String.eqb v "").
Proof. by destruct v. Qed.

(** the chip that clears the filters and the button of the empty state show together: when a select is
    accented or the committed search is not blank; using either leaves no select accented, an empty search,
    no chip, and a request without any filter *)
Theorem clearing_clears s spin now pid p lim :
  let b := filterBar spin now s in
  let s' := logs_step s ClearFilters in
  let b' := filterBar spin now s' in
  let q := request pid p lim (filters s') in
  (bar_clearChip b = true <-> (exists w, sel_active (selectOf b w) = true) \/ trim (committedSearchValue (filters s)) <> "") /\
  (forall v, emptyState s = Some v ->
     nl_clearButton v = bar_clearChip b /\ (nl_setupButton v = None <-> bar_clearChip b = true)) /\
  bar_clearChip b' = false /\ (forall w, sel_active (selectOf b' w) = false) /\ bar_searchClear b' = false /\
  q_status q = None /\ q_timespan q = None /\ q_device q = None /\ q_search q = None.
Proof.
  cbv zeta. split; [|split].
  - cbn [filterBar bar_clearChip]. unfold anyActive, hasNonDefaultFilters. rewrite !orb_true_iff. split.
    + intros [[[[E|E]|E]|E]|E].
      * left. by exists StatusSelect.
      * left. by exists DeviceSelect.
      * left. by exists SortSelect.
      * left. by exists TimespanSelect.
      * right. apply negb_true_iff, String.eqb_neq in E. done.
    + intros [[[] E]|E]; cbn in E; [tauto..|]. right. apply negb_true_iff. by apply String.eqb_neq.
  - unfold emptyState. destruct (showsEmptyState s); [|done]. intros v [= <-]. rewrite length_pos_truthy.
    cbn [filterBar bar_clearChip]. unfold anyActive, noLogs.
    by destruct (String.eqb (trim _) ""), (hasNonDefaultFilters (filters s)).
  - assert (filters (logs_step s ClearFilters) = defaultFilters /\ searchInputValue (logs_step s ClearFilters) = "") as [Ef Es].
    { unfold logs_step. cbn [handle]. rewrite commit_filters, commit_search. done. }
    unfold filterBar. rewrite Ef, Es. split; [done|]. split; [by intros []|done].
Qed.

(** a committed search of blanks is sent to the server, but neither the chip nor the empty state knows of it:
    with no other filter an empty answer is shown as a profile that was never set up *)
Theorem blank_search_is_unseen s spin now pid p lim c :
  filters s = defaultFilters <| committedSearchValue := c |> -> c <> "" -> trim c = "" -> showsEmptyState s = true ->
  q_search (request pid p lim (filters s)) = Some c /\ bar_clearChip (filterBar spin now s) = false /\
  emptyState s = Some (mkNoLogs "No logs to display" "Set up modDNS on your devices to start analysing queries."
                         false (Some "DNS Setup")).
Proof.
  intros Ef Hc Ht He. unfold filterBar, emptyState. rewrite He, Ef. unfold anyActive. cbn -[trim]. rewrite Ht.
  split; [|done]. unfold or_none. by rewrite (proj2 (truthy_spec c) Hc).
Qed.

(** a device that is named all cannot be chosen: its option has the value of all devices, and choosing it
    shows those of every device *)
Theorem device_named_all_shows_every_device s :
  "all" ∈ serverDeviceIds s ++ observedDeviceIds s ->
  (2 <= length (List.filter (fun o => String.eqb (fst o) "all") (deviceOptions (availableDeviceIds s))))%nat /\
  deviceIdValue (filters (logs_step s (chooseOption DeviceSelect "all"))) = None.
Proof.
  intros Hin. split.
  - assert ("all" ∈ availableDeviceIds s) as Ha.
    { unfold availableDeviceIds. rewrite array_sort_perm. apply elem_of_dedup in Hin.
      destruct (deviceIdValue (filters s)) as [d|]; [|done]. destruct (truthy d); [|done].
      unfold add_new. case_bool_decide; [done|]. apply elem_of_app. by left. }
    unfold deviceOptions. cbn [List.filter fst String.eqb Ascii.eqb Bool.eqb length].
    apply list_elem_of_split in Ha as (l1 & l2 & ->).
    rewrite map_app, List.filter_app, length_app. cbn. lia.
  - unfold logs_step. by rewrite commit_filters.
Qed.
End bar.

(** ** Pulling *)

(** What holds of the gesture: the distance is within its bounds, and while it refreshes nothing is pulled. *)
Definition pull_ok (p : Pull) : Prop :=
  0 <= pullDistance p <= MAX_PULL /\ (isRefreshing p = true -> isPulling p = false /\ pullDistance p = 0).

Lemma pull_step_ok m y e : pull_ok (fst y) -> pull_ok (fst (pull_step m y e)).
Proof.
  destruct y as [[d r y0 k] s]. unfold pull_ok, MAX_PULL. cbn. intros [Hd Hr].
  destruct e as [v c|v c| |]; cbn.
  - unfold handleTouchStart. cbn. destruct m, r; cbn; try (split; [lia|done]). destruct (v <=? 0); cbn; (split; [lia|done]).
  - unfold handleTouchMove, MAX_PULL. cbn. destruct k, m, r; cbn; try (split; [lia|done]).
    destruct (0 <? v); cbn; [split; [lia|done]|]. destruct (Z.ltb_spec 0 (c - y0)); cbn; (split; [lia|done]).
  - unfold handleTouchEnd. cbn. destruct k, m; cbn; try (split; [lia|done]).
    destruct (_ && _); cbn; (split; [lia|done || (intros; by split)]).
  - split; [lia|done].
Qed.

Lemma pull_run_ok m y evs : pull_ok (fst y) -> pull_ok (fst (run (pull_step m) y evs)).
Proof. intros Hy. apply (run_invariant (pull_step m) (fun y => pull_ok (fst y))); [|done]. intros. by apply pull_step_ok. Qed.

(** A touch that starts at the top of the page and stays there. *)
Definition moves_at_top (l : list (Z * Z)) : list TouchEvent := map (fun '(v, c) => TouchMove v c) l.

Lemma moves_run p s l y0 :
  isPulling p = true -> isRefreshing p = false -> pullStartY p = y0 -> Forall (fun m => fst m <= 0) l ->
  forall v c, v <= 0 ->
  run (pull_step true) (p, s) (moves_at_top (l ++ [(v, c)])) =
  (mkPull (Z.max 0 (Z.min (2 * (c - y0)) MAX_PULL)) false y0 true, s).
Proof.
  intros Hp Hr Hy Hl v c Hv. unfold moves_at_top. revert p Hp Hr Hy. induction Hl as [|[v1 c1] l Hv1 _ IH]; intros p Hp Hr Hy.
  - destruct p as [d r y k]. cbn in *. subst. unfold run, MAX_PULL. cbn. unfold handleTouchMove, MAX_PULL. cbn.
    rewrite (proj2 (Z.ltb_ge _ _)) by lia. destruct (Z.ltb_spec 0 (c - y0)); cbn; do 2 f_equal; lia.
  - cbn [app map]. destruct p as [d r y k]. cbn in *. subst.
    change (run (pull_step true) ?y (?e :: ?es)) with (run (pull_step true) (pull_step true y e) es).
    cbn [pull_step]. unfold handleTouchMove at 1. cbn. rewrite (proj2 (Z.ltb_ge _ _)) by lia.
    destruct (0 <? c1 - y0); apply IH; done.
Qed.

(** the distance of the gesture is never below nothing nor above its cap, and while it refreshes nothing is
    pulled, whatever is touched, on a phone or not *)
Theorem pull_stays_bounded m s evs :
  let p := fst (run (pull_step m) (mountPull, s) evs) in
  0 <= pullDistance p <= MAX_PULL /\ (isRefreshing p = true -> isPulling p = false /\ pullDistance p = 0) /\
  (m = false -> pullText m p = None).
Proof.
  cbv zeta. assert (pull_ok (fst (mountPull, s))) as H0 by (split; [unfold MAX_PULL; cbn; lia|done]).
  destruct (pull_run_ok m (mountPull, s) evs H0) as [Hd Hr]. split; [exact Hd|]. split; [exact Hr|]. by intros ->.
Qed.

(** whatever was touched before, a touch on a phone that starts at the top of the page, stays there and ends
    with the finger at [y1] refreshes the list exactly when the finger ended more than 150 pixels below its
    start and no fetch loads, provided that a refresh of the gesture is not still shown; in any case the
    distance is back to nothing, and the next touch starts over *)
Theorem long_pull_refreshes p x v0 y0 moves v1 y1 :
  isRefreshing p = false -> v0 <= 0 -> v1 <= 0 -> Forall (fun m => fst m <= 0) moves ->
  let y' := run (pull_step true) (p, x) (TouchStart v0 y0 :: moves_at_top (moves ++ [(v1, y1)]) ++ [TouchEnd]) in
  let refreshes := (150 <? y1 - y0) && negb (loading x) in
  snd y' = (if refreshes then commit (handleRefresh x) else x) /\
  isRefreshing (fst y') = refreshes /\ pullDistance (fst y') = 0 /\ isPulling (fst y') = false /\
  pullText true (fst y') = if refreshes then Some "Refreshing..." else None.
Proof.
  intros Hr Hv0 Hv1 Hm. cbv zeta.
  change (run (pull_step true) ?y (?e :: ?es)) with (run (pull_step true) (pull_step true y e) es).
  rewrite run_app. cbn [pull_step]. unfold handleTouchStart. rewrite Hr, (proj2 (Z.leb_le _ _) Hv0). cbn [negb orb].
  rewrite (moves_run _ _ _ y0) by (done || by destruct p).
  unfold run. cbn [foldl pull_step]. unfold handleTouchEnd, PULL_THRESHOLD, MAX_PULL. cbn [isPulling isRefreshing pullDistance negb orb].
  replace (5 * 60 <? Z.max 0 (Z.min (2 * (y1 - y0)) (5 * 100))) with (150 <? y1 - y0)
    by (destruct (Z.ltb_spec 150 (y1 - y0)), (Z.ltb_spec (5 * 60) (Z.max 0 (Z.min (2 * (y1 - y0)) (5 * 100)))); lia).
  rewrite andb_true_r. by destruct ((150 <? y1 - y0) && negb (loading x)).
Qed.

(** there is no handler for a touch that the browser cancels: the distance of a cancelled pull is kept, so
    the next tap at the top of the page refreshes the list *)
Theorem cancelled_pull_refreshes_on_tap p s v0 y0 v1 y1 v2 y2 :
  isRefreshing p = false -> v0 <= 0 -> v1 <= 0 -> v2 <= 0 -> 150 < y1 - y0 -> loading s = false ->
  let cancelled := run (pull_step true) (p, s) [TouchStart v0 y0; TouchMove v1 y1] in
  pullText true (fst cancelled) = Some "Release to refresh" /\
  snd (run (pull_step true) cancelled [TouchStart v2 y2; TouchEnd]) = commit (handleRefresh s).
Proof.
  intros Hr H0 H1 H2 Hy Hl. destruct p as [d r y k]. cbn in Hr. subst r. cbv zeta. unfold run. cbn [foldl pull_step].
  unfold handleTouchStart at 2. cbn. rewrite (proj2 (Z.leb_le _ _) H0). unfold handleTouchMove, MAX_PULL. cbn.
  rewrite (proj2 (Z.ltb_ge _ _)), (proj2 (Z.ltb_lt 0 (y1 - y0))) by lia. split.
  - unfold pullText, PULL_THRESHOLD. cbn -[Z.ltb Z.min Z.mul].
    rewrite (proj2 (Z.ltb_lt 0 _)) by lia. cbn -[Z.ltb Z.min Z.mul]. by rewrite (proj2 (Z.ltb_lt _ _)) by lia.
  - unfold handleTouchStart. cbn -[Z.min Z.mul]. rewrite (proj2 (Z.leb_le _ _) H2). unfold handleTouchEnd, PULL_THRESHOLD.
    cbn -[Z.ltb Z.min Z.mul commit handleRefresh]. rewrite Hl, (proj2 (Z.ltb_lt (5 * 60) _)) by lia. done.
Qed.
(** ** Downloading *)

Lemma until_quote_name n : str_all (fun c => negb (is_quote c)) n = true -> until_quote (n ++s QUOTE) = n.
Proof.
  induction n as [|c n IH]; [done|]. cbn. intros [Hc Hn]%andb_true_iff. apply negb_true_iff in Hc. rewrite Hc.
  f_equal. by apply IH.
Qed.

(** the name that the server gives in quotes is the name of the saved file *)
Theorem quoted_name_is_kept n :
  n <> "" -> str_all (fun c => negb (is_quote c)) n = true ->
  downloadName (Some ("attachment; filename=" ++s quoted n)) = n.
Proof.
  intros Hn Hq. assert (name_here ("filename=" ++s quoted n) = Some n) as Hh.
  { unfold name_here, quoted. cbn -[until_quote]. change (is_quote _) with true. cbn -[until_quote].
    rewrite until_quote_name by done.
    by rewrite (proj2 (truthy_spec n) Hn). }
  unfold downloadName. change (truthy_opt _) with true. cbn [default from_option id].
  change ("attachment; filename=" ++s quoted n) with ("attachment; " ++s ("filename=" ++s quoted n)).
  enough (dispositionName ("attachment; " ++s ("filename=" ++s quoted n)) = Some n) as -> by done.
  revert Hh. generalize ("filename=" ++s quoted n) as s. intros s Hh.
  assert (forall c s, startsWith (String c s) "filename=" = false -> dispositionName (String c s) = dispositionName s) as Hskip.
  { intros c s' E. cbn [dispositionName]. unfold name_here. by rewrite E. }
  cbn [String.append]. rewrite !Hskip by reflexivity. destruct s; cbn [dispositionName]; by rewrite Hh.
Qed.

(** a name without quotes takes everything up to the end, with the parameters after it *)
Example unquoted_name_takes_the_rest :
  downloadName (Some "attachment; filename=logs.json; size=20") = "logs.json; size=20".
Proof. reflexivity. Qed.

(** ** Witnesses *)

Definition home : ModelProfile := MkModelProfile "acc" "p1" "Home" "p1" None.
Definition home_page : LogsPage := mount (Some home) false.

(** The first page was answered without rows. *)
Definition answered_empty (s : LogsPage) : LogsPage := @logs_step utc_host s (FetchSettled 0 (Rows []) 1000).
Definition blank_page : LogsPage :=
  run (@logs_step utc_host) (answered_empty home_page) [SearchInput "  "; CommitSearch; FetchSettled 0 (Rows []) 2000].

Lemma request_is_what_the_bar_shows_witness :
  let s := @logs_step utc_host home_page (StatusChange "blocked") in
  filters_ok (filters s) /\ q_status (request "p1" 1 100 (filters s)) = Some "blocked".
Proof.
  cbv zeta. assert (filters_ok (filters (@logs_step utc_host home_page (StatusChange "blocked")))) as Hok by (repeat split; done).
  split; [exact Hok|]. pose proof (request_is_what_the_bar_shows _ false 0 "p1" 1 100 Hok) as Hb.
  cbv zeta in Hb. rewrite (proj1 Hb). reflexivity.
Defined.

Lemma bar_stays_ok_witness : bar_ok (run (@logs_step utc_host) home_page [StatusChange "blocked"; DeviceChange "all"]).
Proof.
  apply (@bar_stays_ok utc_host (Some home) false [StatusChange "blocked"; DeviceChange "all"]).
  intros evs1 e evs2 E. destruct evs1 as [|e1 [|e2 [|]]]; cbn in E; injection E as; subst; try discriminate.
  all: cbn [offeredBy]; apply (bool_decide_unpack _); vm_compute; exact I.
Defined.

Lemma blank_search_is_unseen_witness :
  q_search (request "p1" 1 100 (filters blank_page)) = Some "  " /\
  bar_clearChip (filterBar false 3000 blank_page) = false /\
  emptyState blank_page = Some (mkNoLogs "No logs to display" "Set up modDNS on your devices to start analysing queries."
                                  false (Some "DNS Setup")).
Proof. apply (blank_search_is_unseen blank_page false 3000 "p1" 1 100 "  "); [reflexivity|discriminate|reflexivity|reflexivity]. Defined.

Definition all_page : LogsPage :=
  @logs_step utc_host home_page (DevicesSettled 0 (Some [Some "all"; Some "phone"])).

Lemma device_named_all_shows_every_device_witness :
  (2 <= length (List.filter (fun o => String.eqb (fst o) "all") (deviceOptions (availableDeviceIds all_page))))%nat /\
  deviceIdValue (filters (@logs_step utc_host all_page (chooseOption DeviceSelect "all"))) = None.
Proof.
  apply (@device_named_all_shows_every_device utc_host all_page). apply (bool_decide_unpack _). vm_compute. exact I.
Defined.

Lemma long_pull_refreshes_witness :
  let x := answered_empty home_page in
  let y' := run (pull_step true) (mountPull, x) (TouchStart 0 10 :: moves_at_top ([(0, 60)] ++ [(0, 200)]) ++ [TouchEnd]) in
  snd y' = commit (handleRefresh x) /\ pullText true (fst y') = Some "Refreshing...".
Proof.
  cbv zeta.
  assert (Forall (fun m : Z * Z => fst m <= 0) [(0, 60)]) as Hm by (repeat constructor; cbn; lia).
  pose proof (long_pull_refreshes mountPull (answered_empty home_page) 0 10 [(0, 60)] 0 200 eq_refl ltac:(lia) ltac:(lia) Hm) as Hp.
  cbv zeta in Hp. split; [exact (proj1 Hp)|]. exact (proj2 (proj2 (proj2 (proj2 Hp)))).
Defined.

Lemma cancelled_pull_refreshes_on_tap_witness :
  let s := answered_empty home_page in
  let cancelled := run (pull_step true) (mountPull, s) [TouchStart 0 10; TouchMove 0 200] in
  pullText true (fst cancelled) = Some "Release to refresh" /\
  snd (run (pull_step true) cancelled [TouchStart 0 30; TouchEnd]) = commit (handleRefresh s).
Proof.
  apply (cancelled_pull_refreshes_on_tap mountPull (answered_empty home_page) 0 10 0 200 0 30); reflexivity || lia.
Defined.

Lemma quoted_name_is_kept_witness : downloadName (Some ("attachment; filename=" ++s quoted "query-logs-p1.json")) = "query-logs-p1.json".
Proof. apply (quoted_name_is_kept "query-logs-p1.json"); [discriminate|reflexivity]. Defined.
