(* ===== verification/CollectionControl.v ===== *)
(** * The data collection cards

    [src/app/src/components/data-collection/DataCollectionControl.tsx],
    [DeleteStatisticsHistory.tsx] and [ClearQueryLogs.tsx]: staged changes of one profile, the re-read
    before a save, the confirmation, the save and its failure, and the two dialogs that delete what is
    stored. The control is a client of the state machine of [DataCollection.v]; where it is placed says
    which profile of the store it shows ([Placement]). A handler has the render it was invoked in. *)

From S2P Require Import Prelude JsString JsDate ApiTypes Formats Store DataCollection Async.
From coqutil Require Import Datatypes.RecordSetters.
Import TriangleBracketNotations.

#[local] Arguments constant _ _ _ /.

(** ** Texts *)

Definition LIMITED_ACCESS_TEXT : string :=
  "In limited access mode you can turn data collection off and delete what is stored, but not turn it on or change it.".
Definition CUT_OFF_TEXT : string :=
  "Your account can't change data collection now. You can still turn it off and delete what is stored.".
Definition STALE_TEXT : string := "This setting was changed elsewhere. Review it and try again.".
Definition SAVE_ERROR_TEXT : string :=
  "Couldn't save the data collection setting. Showing the current setting.".

(** ** Requests *)

Inductive DcRequest : Type :=
| GetProfile (profileId : string)
| PatchProfile (profileId : string) (updates : list ModelProfileUpdate)
| DeleteStatistics (profileId : string)
| DeleteLogs (profileId : string).

Definition DcResponse (r : DcRequest) : Type :=
  match r with GetProfile _ | PatchProfile _ _ => ModelProfile | DeleteStatistics _ | DeleteLogs _ => unit end.

(** [e?.response?.data?.detail], dropped when empty. *)
Definition errorDetail (e : CaughtError) : option string :=
  d ← match e with CaughtObject data _ => x ← data; d_detail x | _ => None end;
  if truthy d then Some d else None.

(** ** The profile a control shows *)

(** Account preferences lists every profile; saving one must not switch the active one. *)
Definition writeProfile (updated : ModelProfile) (st : AppState) : AppState :=
  let ps := profiles st in
  let st := match activeProfile st with
            | Some a => if String.eqb (p_profile_id a) (p_profile_id updated)
                        then setActiveProfile (Some updated) st else st
            | None => setActiveProfile (Some updated) st
            end in
  setProfiles (map (fun p => if String.eqb (p_profile_id p) (p_profile_id updated) then updated else p) ps) st.

(** It is made of orderly actions of the store. *)
Lemma writeProfile_actions updated st :
  exists ops, orderly st ops /\ run store_step st ops = writeProfile updated st.
Proof.
  assert (mirror updated (mirror updated (profiles st)) = mirror updated (profiles st)) as Hidem.
  { unfold mirror. rewrite map_map. apply map_ext. intros p.
    destruct (String.eqb (p_profile_id p) (p_profile_id updated)) eqn:E; [by rewrite String.eqb_refl|by rewrite E]. }
  set (st' := setActiveProfile (Some updated) st).
  assert (exists ops, orderly st ops /\
    run store_step st ops = setProfiles (mirror updated (mirror updated (profiles st))) st') as Hwrite.
  { exists [OpSetActive (Some updated); OpSetProfiles (mirror updated (profiles st'))].
    split; [|done]. split; [done|]. split; [|done]. right. exists updated. split; [done|]. by intros b [= <-]. }
  unfold writeProfile. destruct (activeProfile st) as [a|] eqn:Ha.
  - destruct (String.eqb_spec (p_profile_id a) (p_profile_id updated)) as [E|Hne].
    + fold (mirror updated (profiles st)). by rewrite <- Hidem.
    + exists [OpSetProfiles (mirror updated (profiles st))]. split; [|done]. split; [|done]. right. exists updated.
      split; [done|]. intros b Hb E. congruence.
  - fold (mirror updated (profiles st)). by rewrite <- Hidem.
Qed.

(** Where the [profile] prop comes from: writing a profile that is shown shows what is written. *)
Class Placement := {
  shown : AppState -> option ModelProfile;
  shown_written p q st :
    shown st = Some q -> p_profile_id q = p_profile_id p -> shown (writeProfile p st) = Some p;
}.

(** The Settings, Logs and Statistics pages show the active profile. *)
#[export] Program Instance active_placement : Placement | 10 := { shown := activeProfile }.
Next Obligation. intros p q st Hq E. unfold writeProfile. rewrite Hq, E, String.eqb_refl. done. Qed.

(** Account preferences shows the profiles of the list. *)
#[export] Program Instance listed_placement (pid : string) : Placement | 20 :=
  { shown st := array_find (fun p => String.eqb (p_profile_id p) pid) (profiles st) }.
Next Obligation.
  cbn beta. intros pid p q st Hq E. unfold writeProfile. cbn [profiles setProfiles].
  assert (p_profile_id p = pid) as Hp.
  { apply array_find_Some in Hq as (l1 & l2 & _ & Hid & _). to_prop. congruence. }
  subst pid. unfold array_find in *. induction (profiles st) as [|x l IH]; [done|]. cbn in *.
  destruct (String.eqb (p_profile_id x) (p_profile_id p)) eqn:Ex.
  - by rewrite String.eqb_refl.
  - rewrite Ex. by apply IH.
Qed.

(** ** State *)

Inductive Source : Set := SourceStats | SourceLogs.
#[export] Instance Source_eq_dec : EqDecision Source.
Proof. solve_decision. Defined.

(** [Partial<DataCollectionState>] *)
Record PartialState := mkPartial {
  i_stats : option bool;
  i_logs : option bool;
  i_statsRetention : option StatsRetention;
  i_domains : option bool;
  i_ips : option bool;
  i_retention : option LogsRetention;
}.

(** [staged] is compared by reference with [stale]: [stagedRef] counts the objects staged. [clock] is
    [Date.now()] at the last render. *)
Record Control := mkControl {
  store : AppState;
  clock : Z;
  staged : DataCollectionState;
  stagedRef : nat;
  autoChecked : bool;
  saving : bool;
  confirming : option Transition;
  focusReq : nat * Source;
  stale : option nat;
  toasts : list DescToast;
  savedCalls : list (ModelProfile * Transition);
}.

Definition sameState (a b : DataCollectionState) : bool :=
  Bool.eqb (stats a) (stats b) && Bool.eqb (logs a) (logs b)
  && bool_decide (statsRetention a = statsRetention b) && Bool.eqb (domains a) (domains b)
  && Bool.eqb (ips a) (ips b) && bool_decide (retention a = retention b).

Definition touchedSource (saved pending : DataCollectionState) : Source :=
  if negb (Bool.eqb (stats saved) (stats pending)) || negb (bool_decide (statsRetention saved = statsRetention pending))
  then SourceStats
  else if negb (Bool.eqb (logs saved) (logs pending)) || logs pending then SourceLogs else SourceStats.

Definition badgeFor (saved pending changed : bool) : option string :=
  if negb changed then None
  else if negb (Bool.eqb saved pending) then Some (if pending then "Turning on" else "Turning off")
  else if saved then Some "On" else None.

(** [{ ...saved, ...initialPending }] *)
Definition merge (saved : DataCollectionState) (i : PartialState) : DataCollectionState :=
  mkState (i_stats i ?? stats saved) (i_logs i ?? logs saved) (i_statsRetention i ?? statsRetention saved)
    (i_domains i ?? domains saved) (i_ips i ?? ips saved) (i_retention i ?? retention saved).

Definition with_stats (b : bool) (p : DataCollectionState) : DataCollectionState :=
  mkState b (logs p) (statsRetention p) (domains p) (ips p) (retention p).
Definition with_logs (b : bool) (p : DataCollectionState) : DataCollectionState :=
  mkState (stats p) b (statsRetention p) (domains p) (ips p) (retention p).
Definition with_statsRetention (r : StatsRetention) (p : DataCollectionState) : DataCollectionState :=
  mkState (stats p) (logs p) r (domains p) (ips p) (retention p).
Definition with_domains (b : bool) (p : DataCollectionState) : DataCollectionState :=
  mkState (stats p) (logs p) (statsRetention p) b (ips p) (retention p).
Definition with_ips (b : bool) (p : DataCollectionState) : DataCollectionState :=
  mkState (stats p) (logs p) (statsRetention p) (domains p) b (retention p).
Definition with_retention (r : LogsRetention) (p : DataCollectionState) : DataCollectionState :=
  mkState (stats p) (logs p) (statsRetention p) (domains p) (ips p) r.

Section control.
Context {H : Host} {P : Placement}.

Definition profile (s : Control) : option ModelProfile := shown (store s).
Definition saved (s : Control) : DataCollectionState := fromProfile (profile s).
(** Limited access and cut-off accounts can only turn sources off. *)
Definition offOnly (s : Control) : bool := isRestricted (useSubscriptionGuard (store s)).

Definition pending (s : Control) : DataCollectionState :=
  if offOnly s then
    with_logs (logs (saved s) && logs (staged s)) (with_stats (stats (saved s) && stats (staged s)) (saved s))
  else staged s.

Definition transition (s : Control) : option Transition :=
  transitionFor (saved s) (pending s) (statsHeld (profile s) (clock s)).

Definition idle (s : Control) : bool := negb (bool_decide (is_Some (transition s))).
Definition disabled (s : Control) : bool := offOnly s || saving s.
Definition staleShown (s : Control) : bool := bool_decide (stale s = Some (stagedRef s)) && negb (offOnly s).

(** The state of a control that mounts. *)
Definition mount (st : AppState) (now : Z) (initial : PartialState) : Control :=
  let saved := fromProfile (shown st) in
  mkControl st now (merge saved initial) 0
    (negb (stats saved) && negb (logs saved) && (i_logs initial ?? false)
     && negb (bool_decide (i_stats initial = Some false)))
    false None (0%nat, SourceStats) None [] [].

(** ** Updates *)

Definition setPending (f : DataCollectionState -> DataCollectionState) (s : Control) : Control :=
  s <| staged := f (staged s) |> <| stagedRef := S (stagedRef s) |>.
Definition setSaving (b : bool) (s : Control) : Control := s <| saving := b |>.
Definition setConfirm (t : option Transition) (s : Control) : Control := s <| confirming := t |>.
Definition setAutoChecked (b : bool) (s : Control) : Control := s <| autoChecked := b |>.
Definition focusSource (source : Source) (s : Control) : Control :=
  s <| focusReq := (S (fst (focusReq s)), source) |>.
(** [setStale(next)], right after [setPending(next)]. *)
Definition setStale (s : Control) : Control := s <| stale := Some (stagedRef s) |>.
Definition toast (t : DescToast) (s : Control) : Control := s <| toasts := (toasts s ++ [t])%list |>.
Definition write (p : ModelProfile) (s : Control) : Control := s <| store := writeProfile p (store s) |>.
Definition onSavedCall (p : ModelProfile) (t : Transition) (s : Control) : Control :=
  s <| savedCalls := (savedCalls s ++ [(p, t)])%list |>.

(** ** The cards *)

Definition toggleStats (checked : bool) (s : Control) : Control :=
  setPending (with_stats checked) (setAutoChecked false s).

Definition toggleLogs (checked : bool) (s : Control) : Control :=
  if checked && negb (stats (saved s)) && negb (logs (saved s)) && negb (stats (pending s)) then
    setPending (fun p => with_stats true (with_logs true p)) (setAutoChecked true s)
  else if negb checked && autoChecked s then
    setPending (fun p => with_stats (stats (saved s)) (with_logs false p)) (setAutoChecked false s)
  else setPending (with_logs checked) s.

Definition discard (s : Control) : Control :=
  setAutoChecked false (setPending (fun _ => saved s) (focusSource (touchedSource (saved s) (pending s)) s)).

Definition cancelConfirm (s : Control) : Control :=
  if saving s then s else
  setAutoChecked false (setPending (fun _ => saved s)
    (focusSource (touchedSource (saved s) (pending s)) (setConfirm None s))).

(** ** Saving *)

Notation Handler := (Prog CaughtError DcRequest Control DcResponse unit).

(** The end of both branches of a save. *)
Definition settled (source : Source) (t : DescToast) : Handler :=
  perform (setAutoChecked false);;
  perform (setConfirm None);;
  perform (toast t);;
  perform (focusSource source).

(** [pid] is the id of the profile of the render; its control is keyed by it. *)
Definition commit (pid : string) (t : Transition) (r : Control) : Handler :=
  let source := touchedSource (saved r) (pending r) in
  perform (setSaving true);;
  finally
    (try_async
       (updated ← await (PatchProfile pid (buildUpdates (saved r) (pending r)));
        perform (write updated);;
        perform (setPending (fun _ => fromProfile (Some updated)));;
        perform (setAutoChecked false);;
        perform (setConfirm None);;
        perform (toast (mkDescToast ToastSuccess (t_toast t) None));;
        perform (onSavedCall updated t);;
        perform (focusSource source))
       (fun e =>
        try_async
          (fresh ← await (GetProfile pid);
           perform (write fresh);;
           perform (setPending (fun _ => fromProfile (Some fresh))))
          (fun _ => perform (setPending (fun _ => saved r)));;
        settled source (mkDescToast ToastError SAVE_ERROR_TEXT (errorDetail e))))
    (setSaving false).

(** The profile of another tab's save: nothing is sent. *)
Definition showStale (fresh : ModelProfile) (r : Control) : Handler :=
  perform (write fresh);;
  perform (setPending (fun _ => fromProfile (Some fresh)));;
  perform (setAutoChecked false);;
  perform setStale;;
  perform (setSaving false);;
  perform (focusSource (touchedSource (saved r) (pending r))).

(** The transition a save asks for or makes, from the profile just read. *)
Definition saveTransition (fresh : option ModelProfile) (later : Z) (tr : Transition) (r : Control) : Transition :=
  transitionFor (saved r) (pending r)
    (statsHeld (match fresh with Some f => Some f | None => profile r end) later) ?? tr.

(** Asks for a confirmation, or saves. *)
Definition proceed (pid : string) (t : Transition) (r : Control) : Handler :=
  perform (setSaving false);;
  match t_dialog t with
  | Some _ => perform (setConfirm (Some t))
  | None => commit pid t r
  end.

(** [fresh && !sameState(fromProfile(fresh), saved)] *)
Definition isStale (fresh : option ModelProfile) (r : Control) : option ModelProfile :=
  f ← fresh; if negb (sameState (fromProfile (Some f)) (saved r)) then Some f else None.

(** [later] is [Date.now()] when the re-read has settled. *)
Definition onSave (pid : string) (later : Z) (r : Control) : Handler :=
  match transition r with
  | None => mret ()
  | Some tr =>
      if saving r then mret () else
      perform (setSaving true);;
      fresh ← try_async (f ← await (GetProfile pid); mret (Some f)) (fun _ => mret None);
      match isStale fresh r with
      | Some f => showStale f r
      | None => proceed pid (saveTransition fresh later tr r) r
      end
  end.

(** [onClick={() => confirm && void commit(confirm)}] *)
Definition onConfirm (pid : string) (r : Control) : Handler :=
  match confirming r with Some t => commit pid t r | None => mret () end.

(** ** What the user can do *)

Inductive ControlUpdate : Type :=
| ToggleStats (checked : bool)
| ToggleLogs (checked : bool)
| PickStatsRetention (r : StatsRetention)
| PickDomains (b : bool)
| PickIps (b : bool)
| PickRetention (r : LogsRetention)
| Discard
| CancelConfirm
| Rendered (now : Z)
| StoreChange (st : AppState).

(** Controls that are disabled or not rendered do nothing; the dialog is modal. *)
Definition enabled (u : ControlUpdate) (s : Control) : bool :=
  match u with
  | ToggleStats _ => negb (saving s || offOnly s && negb (stats (saved s))) && bool_decide (confirming s = None)
  | ToggleLogs _ => negb (saving s || offOnly s && negb (logs (saved s))) && bool_decide (confirming s = None)
  | PickStatsRetention _ => negb (disabled s) && stats (pending s) && bool_decide (confirming s = None)
  | PickDomains _ | PickIps _ | PickRetention _ =>
      negb (disabled s) && logs (pending s) && bool_decide (confirming s = None)
  | Discard => negb (saving s || idle s) && bool_decide (confirming s = None)
  | CancelConfirm | Rendered _ | StoreChange _ => true
  end.

Definition control_update (u : ControlUpdate) (s : Control) : Control :=
  if negb (enabled u s) then s else
  match u with
  | ToggleStats b => toggleStats b s
  | ToggleLogs b => toggleLogs b s
  | PickStatsRetention r => setPending (with_statsRetention r) s
  | PickDomains b => setPending (with_domains b) s
  | PickIps b => setPending (with_ips b) s
  | PickRetention r => setPending (with_retention r) s
  | Discard => discard s
  | CancelConfirm => cancelConfirm s
  | Rendered now => s <| clock := now |>
  | StoreChange st => s <| store := st |>
  end.

Inductive ControlEvent : Type :=
| Save (later : Z)
| Confirm
| Answered (i : nat) (w : World CaughtError DcRequest DcResponse)
| User (u : ControlUpdate).

Definition press (pid : string) (e : ControlEvent) (r : Control) : Handler :=
  match e with
  | Save later => if saving r || idle r then mret () else onSave pid later r
  | Confirm => if saving r then mret () else onConfirm pid r
  | _ => mret ()
  end.

Notation ControlSys := (Sys CaughtError DcRequest Control DcResponse).

(** The control has no effect that changes its state. *)
Definition control_step (pid : string) (y : ControlSys) (e : ControlEvent) : ControlSys :=
  sys_step id y
    match e with
    | Save _ | Confirm => Start (press pid e)
    | Answered i w => Answer i w
    | User u => Other (control_update u)
    end.

(** ** Hints and texts *)

Definition domainHint (s : Control) : bool := logs (saved s) && domains (saved s) && negb (domains (pending s)).
Definition ipHint (s : Control) : bool := logs (saved s) && ips (saved s) && negb (ips (pending s)).
Definition lowerHint (s : Control) : bool :=
  match transition s with
  | Some t => bool_decide (t_retention t = Some Lower) && negb (t_nothingOlder t)
  | None => false
  end.
Definition logsLowerHint (s : Control) : bool :=
  match transition s with Some t => bool_decide (t_logsRetention t = Some Lower) | None => false end.
End control.

(** ** Deleting the statistics history *)

(** [closedCalls] and [deletedCalls] are the calls of [onClosed] and [onDeleted]. *)
Record HistoryDelete := mkHistory {
  hd_store : AppState;
  hd_open : bool;
  hd_busy : bool;
  hd_stale : bool;
  hd_body : string;
  hd_toasts : list DescToast;
  closedCalls : list bool;
  deletedCalls : nat;
}.

Definition BODY : string :=
  "All statistics for this profile will be permanently deleted. Statistics stay on and counting starts again now. This action cannot be undone.".

Section history.
Context {H : Host} {P : Placement}.

Notation HistoryHandler := (Prog CaughtError DcRequest HistoryDelete DcResponse unit).

(** [!!profile.settings?.statistics?.enabled] *)
Definition statsEnabled (p : option ModelProfile) : bool :=
  (x ← p; s ← p_settings x; st ← ps_statistics s; ss_enabled st) ?? false.
Definition savedEnabled (s : HistoryDelete) : bool := statsEnabled (shown (hd_store s)).

Definition setBusy (b : bool) (s : HistoryDelete) : HistoryDelete := s <| hd_busy := b |>.
Definition historyToast (t : DescToast) (s : HistoryDelete) : HistoryDelete :=
  s <| hd_toasts := (hd_toasts s ++ [t])%list |>.
Definition historyWrite (p : ModelProfile) (s : HistoryDelete) : HistoryDelete :=
  s <| hd_store := writeProfile p (hd_store s) |>.
Definition openWith (body : string) (s : HistoryDelete) : HistoryDelete :=
  s <| hd_body := body |> <| hd_open := true |>.
Definition closeHistory (deleted : bool) (s : HistoryDelete) : HistoryDelete :=
  s <| hd_open := false |> <| closedCalls := (closedCalls s ++ [deleted])%list |>.

(** C25, measured when the dialog opens. *)
Definition historyBody (p : option ModelProfile) (now : Z) : string :=
  match statsHeld p now with Some held => afterFirstSentence BODY (heldSentence held) | None => BODY end.

Definition historyRequest (pid : string) (later : Z) (r : HistoryDelete) : HistoryHandler :=
  perform (fun s => s <| hd_stale := false |>);;
  perform (setBusy true);;
  fresh ← try_async (f ← await (GetProfile pid); mret (Some f)) (fun _ => mret None);
  perform (setBusy false);;
  match f ← fresh; if Bool.eqb (statsEnabled (Some f)) (savedEnabled r) then None else Some f with
  | Some f =>
      perform (historyWrite f);;
      perform (fun s => s <| hd_stale := true |>)
  | None =>
      perform (openWith (historyBody (match fresh with Some f => Some f | None => shown (hd_store r) end) later))
  end.

Definition historyConfirm (pid : string) : HistoryHandler :=
  perform (setBusy true);;
  finally
    (try_async
       (await (DeleteStatistics pid);;
        try_async (p ← await (GetProfile pid); perform (historyWrite p)) (fun _ => mret ());;
        perform (historyToast (mkDescToast ToastSuccess "Statistics history deleted." None));;
        perform (closeHistory true);;
        perform (fun s => s <| deletedCalls := S (deletedCalls s) |>))
       (fun e =>
        perform (historyToast (mkDescToast ToastError "Couldn't delete the statistics history." (errorDetail e)));;
        perform (closeHistory false)))
    (setBusy false).
End history.

(** ** Clearing the query logs *)

Record ClearLogs := mkClear { cl_open : bool; cl_busy : bool; cl_toasts : list UiToast; cl_cleared : nat }.

Definition clearConfirm (profileId : string) : Prog CaughtError DcRequest ClearLogs DcResponse unit :=
  perform (fun s => s <| cl_busy := true |>);;
  finally
    (try_async
       (await (DeleteLogs profileId);;
        perform (fun s => s <| cl_toasts := (cl_toasts s ++ [mkToast ToastSuccess "Query logs cleared."])%list |>);;
        perform (fun s => s <| cl_open := false |>);;
        perform (fun s => s <| cl_cleared := S (cl_cleared s) |>))
       (fun _ => perform (fun s => s <| cl_toasts := (cl_toasts s ++ [mkToast ToastError "Failed to clear query logs."])%list |>)))
    (fun s => s <| cl_busy := false |>).
