(* ===== verification/CollectionControlFacts.v ===== *)
(** * The data collection cards: what a save sends and shows

    A save re-reads the profile first: what another tab changed is shown and nothing is sent; what
    deletes data waits for the confirmation; what is sent is the staged change, and the control then
    shows what the server holds. A restricted account can only turn sources off. No save switches the
    active profile, and the control never stays busy. *)

From S2P Require Import Prelude JsString JsDate ApiTypes Formats Store DataCollection DataCollectionSpec Async CollectionControl.
From coqutil Require Import Datatypes.RecordSetters.
Import TriangleBracketNotations.

#[local] Arguments constant _ _ _ /.
#[local] Arguments write : simpl never.
#[local] Arguments setPending : simpl never.
#[local] Arguments setSaving : simpl never.
#[local] Arguments setConfirm : simpl never.
#[local] Arguments setAutoChecked : simpl never.
#[local] Arguments focusSource : simpl never.
#[local] Arguments setStale : simpl never.
#[local] Arguments toast : simpl never.
#[local] Arguments onSavedCall : simpl never.

Lemma sameState_eq a b : sameState a b = true <-> a = b.
Proof.
  unfold sameState. rewrite !andb_true_iff, !bool_decide_eq_true, !eqb_true_iff.
  destruct a, b. cbn. intuition congruence.
Qed.

Section facts.
Context {H : Host} {P : Placement}.

Notation Handler := (Prog CaughtError DcRequest Control DcResponse unit).
Notation ControlWorld := (World CaughtError DcRequest DcResponse).

(** ** The control never stays busy *)

Lemma commit_form pid t r : exists q, commit pid t r = Upd (setSaving true) q /\ lowers saving q.
Proof. eexists. split; [reflexivity|]. intros s. apply ends_finally. by intros _ []. Qed.

Lemma commit_ends pid t r s : ends (fun _ s' => saving s' = false) (commit pid t r) s.
Proof. destruct (commit_form pid t r) as (q & -> & Hq). apply Hq. Qed.

Lemma proceed_ends pid t r s : ends (fun _ s' => saving s' = false) (proceed pid t r) s.
Proof. unfold proceed. cbn. destruct (t_dialog t); [by destruct s|apply commit_ends]. Qed.

#[local] Opaque proceed commit.

Lemma press_well_behaved pid e r : well_behaved saving (press pid e r).
Proof.
  destruct e; cbn [press]; try (by left).
  - destruct (_ || _); [by left|]. unfold onSave. destruct (transition r) as [tr|]; [|by left].
    destruct (saving r); [by left|]. right. eexists _, _. split; [reflexivity|]. intros s [p|e]; cbn; intros s'.
    + destruct (negb _); cbn; [by destruct s'|]. apply proceed_ends.
    + apply proceed_ends.
  - destruct (saving r); [by left|]. unfold onConfirm. destruct (confirming r); [|by left].
    destruct (commit_form pid t r) as (q & -> & Hq). right. by eexists _, _.
Qed.
#[local] Transparent proceed commit.

Lemma update_saving u s : saving (control_update u s) = saving s.
Proof.
  unfold control_update. destruct (negb _); [done|]. destruct u; try (by destruct s).
  - unfold toggleLogs. destruct (_ && _); [by destruct s|]. destruct (_ && _); by destruct s.
  - unfold cancelConfirm. destruct (saving s) eqn:E; [done|]. by destruct s.
Qed.

(** a control that mounts is never left busy: while it is saving, a request is in flight after which it
    stops, however the requests are answered and whatever happens meanwhile *)
Theorem control_settles pid st now i evs :
  let y := run (control_step pid) (mkSys (mount st now i) []) evs in
  (inflight y = [] -> saving (ui y) = false) /\
  (saving (ui y) = true ->
     exists p, p ∈ inflight y /\ forall s, ends (fun _ s' => saving s' = false) p s).
Proof.
  cbv zeta.
  set (ev e := match e with Save _ | Confirm => Start (press pid e) | Answered i w => Answer i w
               | User u => Other (control_update u) end).
  assert (run (control_step pid) (mkSys (mount st now i) []) evs
          = run (sys_step id) (mkSys (mount st now i) []) (map ev evs)) as ->.
  { unfold run. generalize (mkSys (mount st now i) [] : Sys CaughtError DcRequest Control DcResponse).
    induction evs as [|e evs IH]; intros y; [done|]. apply IH. }
  destruct (busy_settles id saving (unchanged_flag saving id (fun s => eq_refl)) (mount st now i) (map ev evs) eq_refl) as [[_ Hb] Hn]; [|by split].
  apply Forall_fmap, Forall_true. intros [l| |j w|u]; cbn [ev event_ok compose]; try done.
  - intros s. apply press_well_behaved.
  - intros s. apply (press_well_behaved pid Confirm).
  - apply unchanged_flag. intros s. apply update_saving.
Qed.

(** ** What a save sends *)

Definition is_patch (q : DcRequest) : bool := match q with PatchProfile _ _ => true | _ => false end.

(** The first request of a commit, and that no other writes. *)
Lemma commit_sends pid t r :
  exists f k, commit pid t r = Upd f (Call (PatchProfile pid (buildUpdates (saved r) (pending r))) k) /\
    forall a, sends (fun q => is_patch q = false) (k a).
Proof.
  eexists _, _. split; [reflexivity|]. intros [p|e]; cbn; [done|]. split; [done|]. by intros [p|e'].
Qed.

(** The profile a save is measured against. *)
Definition readBack (pid : string) (w : ControlWorld) (r : Control) : option ModelProfile :=
  match w (GetProfile pid) with Ok p => Some p | Throw _ => profile r end.

Lemma onSave_plays pid later r (f : Control -> Control) (w : ControlWorld) tr :
  transition r = Some tr -> saving r = false ->
  let fresh := match w (GetProfile pid) with Ok p => Some p | Throw _ => None end in
  let s1 := f (setSaving true r) in
  play id [(f, w)] (onSave pid later r) r =
  match isStale fresh r with
  | Some p => advance id (showStale p r) s1
  | None => advance id (proceed pid (saveTransition fresh later tr r) r) s1
  end.
Proof.
  intros Ht Hs. cbv zeta. rewrite play_one. unfold onSave. rewrite Ht, Hs.
  unfold resume, advance at 2 3. cbn [drain mbind prog_bind perform try_async await fst snd mret prog_ret].
  destruct (w (GetProfile pid)) as [p|e]; cbn [mbind prog_bind try_async mret prog_ret]; by destruct (isStale _ r).
Qed.

(** what a save sends without a confirmation, it sends after a re-read that found the saved settings
    unchanged or failed, it is the staged change, and saving it deletes nothing *)
Theorem silent_save_deletes_nothing pid later r (f : Control -> Control) (w : ControlWorld) :
  match (play id [(f, w)] (onSave pid later r) r).2 with
  | Call q k =>
      q = PatchProfile pid (buildUpdates (saved r) (pending r)) /\
      deletesData (saved r) (pending r) (statsHeld (readBack pid w r) later) = false /\
      (forall p, w (GetProfile pid) = Ok p -> fromProfile (Some p) = saved r) /\
      forall a, sends (fun q => is_patch q = false) (k a)
  | _ => True
  end.
Proof.
  destruct (transition r) as [tr|] eqn:Ht.
  2: { unfold onSave, play. by rewrite Ht. }
  destruct (saving r) eqn:Hs.
  { unfold onSave, play. by rewrite Ht, Hs. }
  rewrite (onSave_plays pid later r f w tr Ht Hs). cbv zeta.
  destruct (isStale _ r) as [p|] eqn:Est; [done|].
  set (t := saveTransition _ later tr r). unfold proceed.
  destruct (t_dialog t) eqn:Hd; [done|].
  destruct (commit_sends pid t r) as (g & k0 & -> & Hk). unfold advance. cbn.
  split; [done|]. split; [|split; [|done]].
  - unfold readBack, t, saveTransition in *. clear Hk.
    set (h := statsHeld (match w (GetProfile pid) with Ok p => Some p | Throw _ => profile r end) later).
    assert (t_dialog (transitionFor (saved r) (pending r) h ?? tr) = None) as Hd'
      by (unfold h; destruct (w (GetProfile pid)); exact Hd).
    clear Hd. rename Hd' into Hd. clearbody h.
    destruct (transitionFor (saved r) (pending r) h) as [t'|] eqn:Ht'.
    + apply not_true_is_false. rewrite <- (dialog_deletes _ _ _ _ Ht'). cbn in Hd. rewrite Hd. by intros [? ?].
    + apply not_true_is_false. rewrite transitionFor_None in Ht'. destruct Ht' as (Hk' & Hr & Hl & _).
      rewrite deletesData_spec, (same_key_deletes _ _ Hk'), Hr, Hl. intuition congruence.
  - intros p Hw. rewrite Hw in Est. unfold isStale in Est. cbn in Est.
    destruct (sameState _ _) eqn:E; [|done]. by apply sameState_eq.
Qed.

(** ** What a save shows *)

Definition onlyTurnsOff (u : ModelProfileUpdate) : Prop :=
  u = replace SettingsStatisticsEnabled (VBool false) \/ u = replace SettingsLogsEnabled (VBool false).

Lemma pending_same s : pending s = saved s -> idle s = true.
Proof.
  intros E. unfold idle, transition. rewrite E.
  assert (transitionFor (saved s) (saved s) (statsHeld (profile s) (clock s)) = None) as ->.
  { apply transitionFor_None. split; [done|]. unfold retentionChange, logsRetentionChange, logsFieldsChanged.
    rewrite !bool_decide_true, !eqb_reflx by done. rewrite !orb_true_r. by rewrite andb_false_r. }
  by rewrite bool_decide_false by (intros [? ?]; done).
Qed.

(** The staged state is the saved one, whoever restricts the account. *)
Lemma staged_saved_pending s : staged s = saved s -> pending s = saved s.
Proof.
  intros E. unfold pending. rewrite E. destruct (offOnly s); [|done]. unfold with_logs, with_stats.
  destruct (saved s). cbn. by rewrite !andb_diag.
Qed.

Lemma staged_saved_idle s : staged s = saved s -> idle s = true.
Proof. intros E. by apply pending_same, staged_saved_pending. Qed.

(** The profile on screen has the id the control is keyed by. *)
Definition shows_id (pid : string) (s : Control) : Prop :=
  exists q, profile s = Some q /\ p_profile_id q = pid.

Lemma profile_write pid p s :
  shows_id pid s -> p_profile_id p = pid -> profile (write p s) = Some p.
Proof. intros (q & Hq & E) Hp. apply (shown_written p q); [exact Hq|by rewrite E, Hp]. Qed.

(** C18: when Save is clicked on a data collection card and the profile, read again first, has other
    data collection settings than the card was built on, that read is the only request: the card
    ends with the profile of the server, nothing staged is left to save, and a notice says so except
    to an account that may only turn collection off *)
Theorem stale_save_sends_nothing pid later r (f : Control -> Control) (w : ControlWorld) p :
  idle r = false -> saving r = false -> w (GetProfile pid) = Ok p -> fromProfile (Some p) <> saved r ->
  p_profile_id p = pid -> shows_id pid (f (setSaving true r)) ->
  (exists k, (advance id (onSave pid later r) r).2 = Call (GetProfile pid) k) /\
  exists s', play id [(f, w)] (onSave pid later r) r = (s', Ret ()) /\
    profile s' = Some p /\ staged s' = saved s' /\ idle s' = true /\ saving s' = false /\
    staleShown s' = negb (offOnly s').
Proof.
  intros Hidle Hs Hw Hne Hp Hid. split.
  { unfold idle in Hidle. apply negb_false_iff, bool_decide_eq_true in Hidle. destruct Hidle as [tr Ht].
    unfold onSave. rewrite Ht, Hs. by eexists. } unfold idle in Hidle. apply negb_false_iff, bool_decide_eq_true in Hidle.
  destruct Hidle as [tr Ht]. rewrite (onSave_plays pid later r f w tr Ht Hs). cbv zeta. rewrite Hw.
  assert (isStale (Some p) r = Some p) as ->.
  { change (isStale (Some p) r) with (if negb (sameState (fromProfile (Some p)) (saved r)) then Some p else None).
    destruct (sameState _ _) eqn:E; [|done]. by apply sameState_eq in E. }
  unfold advance, showStale. cbn [drain mbind prog_bind perform mret prog_ret].
pose proof (profile_write pid p _ Hid Hp) as Hprof. set (s1 := f (setSaving true r)) in *.
  eexists. split; [reflexivity|]. split; [exact Hprof|].
  match goal with |- staged ?s = _ /\ _ => assert (staged s = saved s) as Hst end.
  { unfold saved. change (fromProfile (Some p) = fromProfile (profile (write p s1))). by rewrite Hprof. }
  split; [exact Hst|]. split; [by apply staged_saved_idle|]. split; [done|].
  unfold staleShown. by rewrite bool_decide_true.
Qed.

(** a limited or cut-off account sends nothing but turning sources off, whatever was staged before the
    restriction arrived *)
Theorem restricted_only_turns_off pid e r :
  offOnly r = true ->
  sends (fun q => match q with PatchProfile _ us => Forall onlyTurnsOff us | _ => True end) (press pid e r).
Proof.
  intros Hoff.
  assert (Forall onlyTurnsOff (buildUpdates (saved r) (pending r))) as Hus.
  { unfold pending, buildUpdates. rewrite Hoff. destruct (saved r) as [a b sr d i rt]. cbn.
    rewrite !eqb_reflx, !bool_decide_true by done. cbn. rewrite !andb_false_r.
    unfold push_if, onlyTurnsOff. destruct a, b, (stats (staged r)), (logs (staged r)); cbn;
      repeat (constructor; auto). }
  assert (forall t, sends (fun q => match q with PatchProfile _ us => Forall onlyTurnsOff us | _ => True end)
                      (commit pid t r)) as Hc.
  { intros t. destruct (commit_sends pid t r) as (g & k & -> & Hk). cbn. split; [done|]. intros a.
    specialize (Hk a). revert Hk. generalize (k a). intros pr. induction pr as [x|x|f0 pr IH|q k0 IH]; cbn; auto.
    intros [Hq Hk]. split; [by destruct q|]. intros a'. by apply IH. }
  destruct e; cbn [press]; try done.
  - destruct (_ || _); [done|]. unfold onSave. destruct (transition r) as [tr|]; [|done].
    destruct (saving r); [done|]. split; [done|]. intros a.
    assert (forall fresh, sends (fun q => match q with PatchProfile _ us => Forall onlyTurnsOff us | _ => True end)
      match isStale fresh r with
      | Some f => showStale f r
      | None => proceed pid (saveTransition fresh later tr r) r
      end) as Hk.
    { intros fresh. destruct (isStale fresh r); [done|]. unfold proceed. cbn [mbind prog_bind perform sends].
      destruct (t_dialog _); [done|]. apply Hc. }
    destruct a as [p|x]; [apply (Hk (Some p))|apply (Hk None)].
  - destruct (saving r); [done|]. unfold onConfirm. destruct (confirming r); [apply Hc|done].
Qed.

(** a save that the server applies leaves the control showing the staged change as saved, the options
    of unchecked cards as they were, with nothing left to save *)
(** C7: a save that the server accepts leaves the card idle on the profile the server answered, with
    nothing staged, and reports exactly one save *)
Theorem save_commits pid t r (f : Control -> Control) (w : ControlWorld) p :
  w (PatchProfile pid (buildUpdates (saved r) (pending r))) = Ok p ->
  fromProfile (Some p) = apply_updates (saved r) (buildUpdates (saved r) (pending r)) ->
  p_profile_id p = pid -> shows_id pid (f (setSaving true r)) ->
  exists s', play id [(f, w)] (commit pid t r) r = (s', Ret ()) /\
    profile s' = Some p /\ saved s' = committed (saved r) (pending r) /\ staged s' = saved s' /\
    idle s' = true /\ saving s' = false /\ confirming s' = None /\
    savedCalls s' = (savedCalls (f (setSaving true r)) ++ [(p, t)])%list.
Proof.
  intros Hw Hp Hpid Hid. rewrite apply_buildUpdates in Hp. rewrite play_one.
  unfold commit, resume, advance.
  cbn [drain mbind prog_bind perform finally try_async await fst snd mret prog_ret]. rewrite Hw.
  cbn [drain mbind prog_bind perform finally try_async fst snd mret prog_ret].
  pose proof (profile_write pid p _ Hid Hpid) as Hprof. set (s1 := f (setSaving true r)) in *.
  eexists. split; [reflexivity|]. split; [exact Hprof|].
  match goal with |- saved ?s = _ /\ _ => assert (saved s = fromProfile (Some p)) as Hsv end.
  { unfold saved. change (fromProfile (profile (write p s1)) = fromProfile (Some p)). by rewrite Hprof. }
  split; [by rewrite Hsv|].
  match goal with |- staged ?s = _ /\ _ => assert (staged s = saved s) as Hst end.
  { by rewrite Hsv. }
  split; [exact Hst|]. split; [by apply staged_saved_idle|]. done.
Qed.

(** after a failed save the control shows what the server holds, or the settings it had when even that
    cannot be read, says so, and sends nothing more *)
Theorem failed_save_shows_server pid t r (f g : Control -> Control) (w w' : ControlWorld) e :
  w (PatchProfile pid (buildUpdates (saved r) (pending r))) = Throw e ->
  exists s', play id [(f, w); (g, w')] (commit pid t r) r = (s', Ret ()) /\
    saving s' = false /\ confirming s' = None /\
    (exists l, toasts s' = (l ++ [mkDescToast ToastError SAVE_ERROR_TEXT (errorDetail e)])%list) /\
    match w' (GetProfile pid) with
    | Ok p => staged s' = fromProfile (Some p) /\
              (p_profile_id p = pid -> shows_id pid (g (f (setSaving true r))) ->
               profile s' = Some p /\ idle s' = true)
    | Throw _ => staged s' = saved r
    end.
Proof.
  intros Hw. rewrite play_cons. unfold commit, resume, advance.
  cbn [drain mbind prog_bind perform finally try_async await fst snd mret prog_ret]. rewrite Hw.
  cbn [drain mbind prog_bind perform finally try_async fst snd mret prog_ret answers]. unfold resume, advance, settled.
  cbn [drain mbind prog_bind perform finally try_async fst snd mret prog_ret answers].
  destruct (w' (GetProfile pid)) as [p|e'];
    cbn [drain mbind prog_bind perform finally try_async fst snd mret prog_ret answers].
  - eexists. split; [reflexivity|]. split; [done|]. split; [done|]. split; [by eexists|].
    split; [done|]. intros Hp Hid. change (id (f (setSaving true r))) with (f (setSaving true r)) in *.
    pose proof (profile_write pid p _ Hid Hp) as Hprof.
    split; [exact Hprof|]. apply staged_saved_idle. unfold saved.
    match goal with |- _ = fromProfile (profile ?s) => change (profile s) with (profile (write p (g (f (setSaving true r))))) end.
    by rewrite Hprof.
  - eexists. split; [reflexivity|]. split; [done|]. split; [done|]. split; [by eexists|]. done.
Qed.

(** what a confirmation saves is the difference to the settings of the moment it is pressed: query
    logs that another tab turned on while the dialog was open are turned off, and deleted, by a
    confirmation that never named them *)
Theorem confirmation_may_be_outdated pid s t st :
  confirming s = Some t -> saving s = false -> logs (staged s) = false ->
  isRestricted (useSubscriptionGuard st) = false -> logs (fromProfile (shown st)) = true ->
  let s' := control_update (StoreChange st) s in
  confirming s' = Some t /\
  exists f us k, press pid Confirm s' = Upd f (Call (PatchProfile pid us) k) /\
    replace SettingsLogsEnabled (VBool false) ∈ us.
Proof.
  intros Hc Hs Hl Hr Hon s'. split; [exact Hc|].
  assert (pending s' = staged s) as Hp by (unfold pending; by replace (offOnly s') with false).
  assert (logs (saved s') = true) as Hon' by exact Hon.
  cbn [press]. replace (saving s') with false. unfold onConfirm. replace (confirming s') with (Some t).
  destruct (commit_sends pid t s') as (f & k & -> & _). exists f, (buildUpdates (saved s') (pending s')), k.
  split; [done|]. rewrite Hp. unfold buildUpdates. rewrite Hl, Hon'. cbn [Bool.eqb negb andb push_if app].
  destruct (stats (staged s) && _); cbn; rewrite ?elem_of_app, ?elem_of_cons; set_solver.
Qed.

(** checking query logs on a profile that collects nothing checks statistics too and says so, and
    unchecking them again takes both back *)
Theorem logs_toggle_roundtrip s :
  stats (saved s) = false -> logs (saved s) = false -> offOnly s = false ->
  stats (staged s) = false -> logs (staged s) = false ->
  let on := toggleLogs true s in
  stats (pending on) = true /\ logs (pending on) = true /\ autoChecked on = true /\
  staged (toggleLogs false on) = staged s /\ autoChecked (toggleLogs false on) = false.
Proof.
  intros Hs Hl Ho Hst Hlt. cbv zeta.
  assert (stats (pending s) = false) as Hp by (unfold pending; by rewrite Ho).
  assert (toggleLogs true s = setPending (fun p => with_stats true (with_logs true p)) (setAutoChecked true s)) as E
    by (unfold toggleLogs; by rewrite Hs, Hl, Hp).
  rewrite E. clear E. set (on := setPending _ _).
  assert (pending on = with_stats true (with_logs true (staged s))) as -> by (unfold pending; by replace (offOnly on) with false).
  split; [done|]. split; [done|]. split; [done|].
  assert (toggleLogs false on = setPending (fun p => with_stats (stats (saved on)) (with_logs false p)) (setAutoChecked false on)) as ->
    by done.
  split; [|done]. replace (saved on) with (saved s) by done. rewrite Hs.
  change (with_stats false (with_logs false (with_stats true (with_logs true (staged s)))) = staged s).
  unfold with_stats, with_logs. destruct (staged s). cbn in *. by rewrite Hst, Hlt.
Qed.

(** ** The store *)

Definition on_profile (aid : string) (st : AppState) : Prop :=
  store_ok st /\ exists a, activeProfile st = Some a /\ p_profile_id a = aid.

Lemma writeProfile_keeps aid p st : on_profile aid st -> on_profile aid (writeProfile p st).
Proof.
  intros ([Hnd Hact] & a & Ha & Haid). unfold writeProfile. rewrite Ha.
  set (rep x := if String.eqb (p_profile_id x) (p_profile_id p) then p else x).
  assert (forall l, map p_profile_id (map rep l) = map p_profile_id l) as Hids.
  { intros l. rewrite map_map. apply map_ext. intros x. unfold rep.
    destruct (String.eqb _ _) eqn:E; [by to_prop|done]. }
  destruct (String.eqb (p_profile_id a) (p_profile_id p)) eqn:E; to_prop.
  - split; [|exists p; split; [done|congruence]]. split; [cbn; by rewrite Hids|].
    intros a' x [= <-] Hx Hid. cbn in Hx. apply list_elem_of_fmap in Hx as (y & -> & Hy).
    unfold rep in *. destruct (String.eqb (p_profile_id y) (p_profile_id p)) eqn:Ey; [done|]. by to_prop.
  - split; [|by exists a]. split; [cbn; by rewrite Hids|].
    intros a' x Ha' Hx Hid. cbn in Ha', Hx. rewrite Ha in Ha'. injection Ha' as <-.
    apply list_elem_of_fmap in Hx as (y & -> & Hy). unfold rep in *.
    destruct (String.eqb (p_profile_id y) (p_profile_id p)) eqn:Ey; [by to_prop; congruence|].
    by apply (Hact a y Ha).
Qed.

Definition keeps_store (aid : string) (s : Control) : Prop := on_profile aid (store s).

Lemma keeps_write aid p s : keeps_store aid s -> keeps_store aid (write p s).
Proof. apply writeProfile_keeps. Qed.

#[local] Hint Resolve keeps_write : control.

Lemma commit_keeps pid t r aid : keeps (keeps_store aid) (commit pid t r).
Proof.
  unfold commit. cbn [mbind prog_bind perform keeps]. split; [by intros []|].
  apply keeps_finally; [|by intros []]. apply keeps_try.
  - apply keeps_bind; [by intros [p|e]|]. intros p. cbn [mbind prog_bind perform keeps].
    split; [auto with control|]. repeat (split; [by intros []|]). done.
  - intros e. apply keeps_bind.
    + apply keeps_try; [|intros e'; cbn; split; [by intros []|done]].
      apply keeps_bind; [by intros [p|e']|]. intros p. cbn [mbind prog_bind perform keeps].
      split; [auto with control|]. split; [by intros []|done].
    + intros _. unfold settled. cbn [mbind prog_bind perform keeps]. repeat (split; [by intros []|]). done.
Qed.

Lemma press_keeps pid e r aid : keeps (keeps_store aid) (press pid e r).
Proof.
  destruct e; cbn [press]; try done.
  - destruct (_ || _); [done|]. unfold onSave. destruct (transition r) as [tr|]; [|done].
    destruct (saving r); [done|]. cbn [mbind prog_bind perform keeps]. split; [by intros []|].
    apply keeps_bind.
    + apply keeps_try; [|done]. apply keeps_bind; [by intros [p|e]|done].
    + intros fresh. destruct (isStale fresh r) as [p|].
      * unfold showStale. cbn [mbind prog_bind perform keeps].
        split; [auto with control|]. repeat (split; [by intros []|]). done.
      * unfold proceed. cbn [mbind prog_bind perform keeps]. split; [by intros []|].
        destruct (t_dialog _); [cbn; split; [by intros []|done]|apply commit_keeps].
  - destruct (saving r); [done|]. unfold onConfirm. destruct (confirming r); [apply commit_keeps|done].
Qed.

Definition keeps_elsewhere (e : ControlEvent) : Prop :=
  match e with User (StoreChange _) => False | _ => True end.

(** whatever is saved and whichever profile an answer carries, saving never switches the active
    profile, and the profile list and the active profile never disagree *)
Theorem saving_never_switches pid st now i evs aid :
  on_profile aid st -> Forall keeps_elsewhere evs ->
  on_profile aid (store (ui (run (control_step pid) (mkSys (mount st now i) []) evs))).
Proof.
  intros Hst Hev.
  set (ev e := match e with Save _ | Confirm => Start (press pid e) | Answered i w => Answer i w
               | User u => Other (control_update u) end).
  assert (run (control_step pid) (mkSys (mount st now i) []) evs
          = run (sys_step id) (mkSys (mount st now i) []) (map ev evs)) as ->.
  { unfold run. generalize (mkSys (mount st now i) [] : Sys CaughtError DcRequest Control DcResponse).
    clear Hev. induction evs as [|e evs IH]; intros y; [done|]. apply IH. }
  apply (sys_keeps id (keeps_store aid)); [done|exact Hst|by constructor|].
  apply Forall_fmap. eapply Forall_impl; [exact Hev|]. intros [l| |j w|u] He; cbn [compose ev event_keeps]; try done.
  - intros s. apply press_keeps.
  - intros s. apply (press_keeps pid Confirm).
  - intros s Hs. unfold keeps_store. replace (store (control_update u s)) with (store s); [done|].
    unfold control_update. destruct (negb _); [done|]. destruct u; try (by destruct s); try done.
    + unfold toggleLogs. destruct (_ && _); [by destruct s|]. destruct (_ && _); by destruct s.
    + unfold cancelConfirm. destruct (saving s); by destruct s.
Qed.
End facts.

(** ** Deleting the history *)

Section history_facts.
Context {H : Host} {P : Placement}.

#[local] Arguments setBusy : simpl never.
#[local] Arguments historyToast : simpl never.
#[local] Arguments historyWrite : simpl never.
#[local] Arguments openWith : simpl never.
#[local] Arguments closeHistory : simpl never.

(** the history is deleted by the confirmation only: asking for it re-reads the profile, and opens the
    dialog with the extent of what is stored now, or shows the profile when another tab has switched
    statistics meanwhile *)
Theorem history_delete_confirmed pid later r (f : HistoryDelete -> HistoryDelete)
    (w : World CaughtError DcRequest DcResponse) :
  sends (fun q => q = GetProfile pid) (historyRequest pid later r) /\
  exists s', play id [(f, w)] (historyRequest pid later r) r = (s', Ret ()) /\ hd_busy s' = false /\
    match w (GetProfile pid) with
    | Ok p => if Bool.eqb (statsEnabled (Some p)) (savedEnabled r)
              then hd_open s' = true /\ hd_body s' = historyBody (Some p) later
              else hd_stale s' = true /\ hd_open s' = hd_open (f (setBusy true (r <| hd_stale := false |>)))
    | Throw _ => hd_open s' = true /\ hd_body s' = historyBody (shown (hd_store r)) later
    end.
Proof.
  split.
  - unfold historyRequest. cbn [mbind prog_bind perform sends try_async await]. split; [done|].
    intros [p|e]; cbn [mbind prog_bind perform sends try_async mret prog_ret]; [|done].
    cbn [option_bind]. by destruct (Bool.eqb _ _).
  - rewrite play_one. unfold historyRequest, resume, advance.
    cbn [drain mbind prog_bind perform try_async await fst snd mret prog_ret].
    destruct (w (GetProfile pid)) as [p|e]; cbn [drain mbind prog_bind perform try_async mret prog_ret option_bind].
    + destruct (Bool.eqb _ _); eexists; by split.
    + eexists; by split.
Qed.
End history_facts.

(** ** Witnesses *)

Definition collecting (stats logs : bool) : ModelProfile :=
  MkModelProfile "acc" "1" "Home" "p1"
    (Some (MkModelProfileSettings None None None
             (Some (MkModelLogsSettings (Some logs) (Some false) (Some true) (Some "1d"))) None "p1" None
             (Some (MkModelStatisticsSettings (Some stats) None None (Some "90d"))))).

Definition store_with (p : ModelProfile) : AppState := setActiveProfile (Some p) (setProfiles [p] initialState).
Definition restricted_store (p : ModelProfile) : AppState :=
  set_field (setSubscriptionStatus (Some "limited_access")) (store_with p).

Definition no_initial : PartialState := mkPartial None None None None None None.
Definition mounted (st : AppState) (i : PartialState) : Control := @mount active_placement st 0 i.

Definition answering (get patch : ModelProfile) : World CaughtError DcRequest DcResponse :=
  fun r => match r with
           | GetProfile _ => Ok get
           | PatchProfile _ _ => Ok patch
           | DeleteStatistics _ | DeleteLogs _ => Ok ()
           end.
Definition refusing (get : ModelProfile) : World CaughtError DcRequest DcResponse :=
  fun r => match r with
           | GetProfile _ => Ok get
           | PatchProfile _ _ | DeleteStatistics _ | DeleteLogs _ => Throw CaughtOther
           end.

(** Query logs are about to be turned off. *)
Definition turning_off : Control :=
  mounted (store_with (collecting true true)) (mkPartial None (Some false) None None None None).

Lemma stale_save_sends_nothing_witness :
  (exists k, (advance id (@onSave utc_host active_placement "p1" 0 turning_off) turning_off).2 = Call (GetProfile "p1") k) /\
  exists s', play id [(id, answering (collecting false true) (collecting true false))]
      (@onSave utc_host active_placement "p1" 0 turning_off) turning_off = (s', Ret ()) /\
    @profile active_placement s' = Some (collecting false true) /\ staged s' = @saved active_placement s' /\
    @idle utc_host active_placement s' = true /\ saving s' = false /\
    staleShown s' = negb (offOnly s').
Proof.
  apply (@stale_save_sends_nothing utc_host active_placement "p1" 0 turning_off id); try reflexivity.
  - by vm_compute.
  - by eexists.
Defined.

(** Statistics were about to be turned on when the restriction arrived. *)
Definition late_restriction : Control :=
  mounted (restricted_store (collecting false true)) (mkPartial (Some true) (Some false) None None None None).

Lemma restricted_only_turns_off_witness :
  sends (fun q => match q with PatchProfile _ us => Forall onlyTurnsOff us | _ => True end)
    (@press utc_host active_placement "p1" (Save 0) late_restriction) /\
  @buildUpdates (@saved active_placement late_restriction) (@pending active_placement late_restriction)
    = [replace SettingsLogsEnabled (VBool false)].
Proof.
  split; [|reflexivity].
  apply (@restricted_only_turns_off utc_host active_placement "p1" (Save 0) late_restriction). reflexivity.
Defined.

Lemma save_commits_witness :
  exists s', play id [(id, answering (collecting true true) (collecting true false))]
      (@commit active_placement "p1" (plain "T8" "" "" None None) turning_off) turning_off = (s', Ret ()) /\
    @profile active_placement s' = Some (collecting true false) /\
    @saved active_placement s' = committed (@saved active_placement turning_off) (@pending active_placement turning_off) /\
    staged s' = @saved active_placement s' /\ @idle utc_host active_placement s' = true /\ saving s' = false /\
    confirming s' = None /\ savedCalls s' = [(collecting true false, plain "T8" "" "" None None)].
Proof.
  apply (@save_commits utc_host active_placement "p1" (plain "T8" "" "" None None) turning_off id);
    [reflexivity|reflexivity|reflexivity|by eexists].
Defined.

Lemma failed_save_shows_server_witness :
  exists s', play id [(id, refusing (collecting true false)); (id, refusing (collecting true false))]
      (@commit active_placement "p1" (plain "T8" "" "" None None) turning_off) turning_off = (s', Ret ()) /\
    saving s' = false /\ confirming s' = None /\
    (exists l, toasts s' = (l ++ [mkDescToast ToastError SAVE_ERROR_TEXT None])%list) /\
    staged s' = fromProfile (Some (collecting true false)) /\
    ("p1" = "p1" -> shows_id "p1" turning_off ->
     @profile active_placement s' = Some (collecting true false) /\ @idle utc_host active_placement s' = true).
Proof.
  apply (@failed_save_shows_server utc_host active_placement "p1" (plain "T8" "" "" None None) turning_off id id
           (refusing (collecting true false)) (refusing (collecting true false)) CaughtOther). reflexivity.
Defined.

(** The dialog of a lowered statistics retention is open; it says nothing of query logs. *)
Definition lowering : Control :=
  setConfirm (transitionFor (H := utc_host) (fromProfile (Some (collecting true false)))
                (with_statsRetention S30d (fromProfile (Some (collecting true false)))) None)
    (mounted (store_with (collecting true false)) (mkPartial None None (Some S30d) None None None)).

Lemma confirmation_may_be_outdated_witness :
  exists t, confirming lowering = Some t /\
    match t_dialog t with Some d => includes (body d) "logs" = false | None => False end /\
    exists f us k, @press utc_host active_placement "p1" Confirm
        (@control_update utc_host active_placement (StoreChange (store_with (collecting true true))) lowering)
      = Upd f (Call (PatchProfile "p1" us) k) /\ replace SettingsLogsEnabled (VBool false) ∈ us.
Proof.
  eexists. split; [reflexivity|]. split; [reflexivity|].
  refine (proj2 (@confirmation_may_be_outdated utc_host active_placement "p1" lowering _
            (store_with (collecting true true)) _ _ _ _ _)); reflexivity.
Defined.

Lemma logs_toggle_roundtrip_witness :
  let s := mounted (store_with (collecting false false)) no_initial in
  let on := @toggleLogs active_placement true s in
  stats (@pending active_placement on) = true /\ logs (@pending active_placement on) = true /\
  autoChecked on = true /\ staged (@toggleLogs active_placement false on) = staged s /\
  autoChecked (@toggleLogs active_placement false on) = false.
Proof. apply logs_toggle_roundtrip; reflexivity. Defined.

Lemma saving_never_switches_witness :
  on_profile "p1" (store (ui (run (@control_step utc_host (listed_placement "p2") "p2")
    (mkSys (@mount (listed_placement "p2") (store_with (collecting true true)) 0 no_initial) [])
    [User (ToggleStats false); Save 0; Answered 0 (answering (collecting true true) (collecting true true))]))).
Proof.
  apply (@saving_never_switches utc_host (listed_placement "p2")); [|by repeat constructor].
  split; [|by eexists]. split; [apply (bool_decide_unpack _); reflexivity|].
  intros a p [= <-] Hp _. cbn in Hp. apply list_elem_of_singleton in Hp as ->. reflexivity.
Defined.
