(* ===== verification/BlocklistsPage.v ===== *)
(** * The blocklists page

    [src/app/src/pages/blocklists/MainContentSection.tsx] with its Security, Categories and Services
    tabs ([SecurityContentSection.tsx], [NrdRangeCard.tsx], [CategoriesContentSection.tsx],
    [ServicesContentSection.tsx]): the catalog and its filters, and the handlers that enable and
    disable lists, categories, services and the rebinding protection. [formatDistanceToNow] of date-fns
    is a parameter. *)

From S2P Require Import Prelude JsString JsDate ApiTypes Formats Blocklists Store DataCollection Async.
From coqutil Require Import Datatypes.RecordSetters.
Import TriangleBracketNotations.

#[local] Arguments constant _ _ _ /.

(** ** Options of the selects *)

Record ListOption := mkListOption { lo_label : string; lo_tag : string }.

Definition INDIVIDUAL_LISTS : list ListOption :=
  [mkListOption "Hagezi" "hagezi"; mkListOption "Adguard" "adguard"; mkListOption "OISD" "oisd";
   mkListOption "Steven Black" "steven_black"; mkListOption "1Hosts" "1hosts";
   mkListOption "Peter Lowe" "peter_lowe"; mkListOption "Dan Pollock" "someonewhocares"].
Definition PREDEFINED_LISTS : list ListOption :=
  [mkListOption "Basic" "basic"; mkListOption "Comprehensive" "comprehensive";
   mkListOption "Restrictive" "restrictive"].
Definition PREDEFINED_INTENSITY : list string := ["basic"; "comprehensive"; "restrictive"].
Definition STATUS_FILTERS : list ListOption :=
  [mkListOption "Enabled" "enabled"; mkListOption "Disabled" "disabled"].

(** The age of a list; [formatDistance] is date-fns' distance with its suffix. *)
Definition formatUpdatedRelative (formatDistance : string -> string) (isoDate : option string) : string :=
  match isoDate with
  | Some d =>
      if truthy d then
        let raw := formatDistance d in
        if startsWith raw "about " then "~" ++s str_drop 6 raw else raw
      else ""
  | None => ""
  end.

(** ** Requests *)

(** The status of a change is read by some handlers. *)
Inductive BlRequest : Type :=
| BlocklistsGet (sortBy : ApiV1BlocklistsGetSortByEnum)
| BlocklistsPost (profileId : string) (ids : list string)
| BlocklistsDelete (profileId : string) (ids : list string)
| ServicesPost (profileId : string) (ids : list string)
| ServicesDelete (profileId : string) (ids : list string)
| SettingsPatch (profileId : string) (updates : list ModelProfileUpdate)
| ProfileGet (profileId : string).

Definition BlResponse (r : BlRequest) : Type :=
  match r with
  | BlocklistsGet _ => option (list ModelBlocklist)
  | ProfileGet _ => ModelProfile
  | _ => Z
  end.

(** What a [catch] of the page looks at. *)
Inductive BlError : Type := RateLimited | OtherError.

(** ** State *)

(** [fetches] are the requests for the catalog, live until the sort changes; [expandDeps] the deps of
    the two effects that expand the native card. The Services tab has an updating flag of its own. *)
Record BlPage := mkBlPage {
  store : AppState;
  activeTab : string;
  blocklists : list ModelBlocklist;
  loading : bool;
  updating : option string;
  rebindingUpdating : bool;
  servicesUpdating : option string;
  searchValue : string;
  filterValue : string;
  sortValue : ApiV1BlocklistsGetSortByEnum;
  nativeExpanded : bool;
  toasts : list DescToast;
  fetches : list (ApiV1BlocklistsGetSortByEnum * bool);
  expandDeps : bool * bool;
}.

Notation Handler := (Prog BlError BlRequest BlPage BlResponse unit).

Definition privacy (s : BlPage) : option ModelPrivacy :=
  p ← activeProfile (store s); st ← p_settings p; ps_privacy st.
Definition enabledBlocklists (s : BlPage) : list string := (p ← privacy s; priv_blocklists p) ?? [].
Definition blockedServices (s : BlPage) : list string := (p ← privacy s; priv_services p) ?? [].
Definition rebindingEnabled (s : BlPage) : bool :=
  (p ← activeProfile (store s); st ← p_settings p; sec ← ps_security st;
   r ← sec_rebinding_protection sec; rp_enabled r) ?? false.

Definition isOn (s : BlPage) (id : string) : bool := bool_decide (id ∈ enabledBlocklists s).

(** ** The catalog *)

Definition hasKind (k : string) (bl : ModelBlocklist) : bool := bool_decide (bl_kind bl = Some k).
Definition regularBlocklists (s : BlPage) : list ModelBlocklist :=
  List.filter (fun bl => negb (hasKind "category" bl) && negb (hasKind "security" bl)) (blocklists s).
Definition securityBlocklists (s : BlPage) : list ModelBlocklist := List.filter (hasKind "security") (blocklists s).
Definition categoryBlocklists (s : BlPage) : list ModelBlocklist := List.filter (hasKind "category") (blocklists s).

Definition matchesSearch (s : BlPage) (bl : ModelBlocklist) : bool :=
  negb (truthy (trim (searchValue s)))
  || includes (toLowerCase (bl_name bl)) (toLowerCase (searchValue s))
  || includes (toLowerCase (bl_description bl)) (toLowerCase (searchValue s)).

Definition matchesFilter (s : BlPage) (bl : ModelBlocklist) : bool :=
  let f := filterValue s in
  if String.eqb f "all" then true
  else if String.eqb f "enabled" then isOn s (bl_blocklist_id bl)
  else if String.eqb f "disabled" then negb (isOn s (bl_blocklist_id bl))
  else if bool_decide (f ∈ PREDEFINED_INTENSITY) then
    match bl_intensity bl with Some l => bool_decide (f ∈ l) | None => false end
  else match bl_tags bl with Some l => bool_decide (f ∈ l) | None => false end.

Section dates.
Context {H : Host}.

(** Newest first; a missing date is the epoch, and a difference that is not a number compares as 0. *)
Definition byModified (a b : ModelBlocklist) : Z :=
  let time bl := if truthy_opt (bl_last_modified bl) then Date_parse (bl_last_modified bl ?? "") else Some 0 in
  match time a, time b with Some x, Some y => y - x | _, _ => 0 end.

Definition filteredBlocklists (s : BlPage) : list ModelBlocklist :=
  let l := List.filter (fun bl => matchesSearch s bl && matchesFilter s bl)
             (List.filter (fun bl => negb (isNativeItem bl)) (regularBlocklists s)) in
  if bool_decide (sortValue s = SortUpdated) then array_sort byModified l else l.

Definition listedIds (s : BlPage) : list string := map bl_blocklist_id (filteredBlocklists s).

Definition toggleListedActive (s : BlPage) : bool :=
  negb (String.eqb (filterValue s) "all") && negb (bool_decide (filteredBlocklists s = [])).
Definition allListedEnabled (s : BlPage) : bool :=
  negb (bool_decide (filteredBlocklists s = [])) && forallb (isOn s) (listedIds s).

(** ** The native card *)

Definition nativeItems (s : BlPage) : list ModelBlocklist := orderedNativeItems (regularBlocklists s).
Definition showNativeCard (s : BlPage) : bool :=
  nativeCardVisible {| v_items := nativeItems s; v_enabled := enabledBlocklists s;
                       v_filterValue := filterValue s; v_searchTerm := searchValue s |}.
Definition nativeSearchNarrowed (s : BlPage) : bool :=
  negb (nativeCardMatches (searchValue s)) && nativeVendorMatches (nativeItems s) (searchValue s).
Definition nativePanelItems (s : BlPage) : list ModelBlocklist :=
  if nativeSearchNarrowed s then List.filter (fun bl => nativeVendorMatches [bl] (searchValue s)) (nativeItems s)
  else nativeItems s.

(** ** Effects *)

Definition kill (f : ApiV1BlocklistsGetSortByEnum * bool) := (fst f, false).

(** The fetch of the catalog when the page mounts and when the sort changes. *)
Definition fetchBlocklists (s : BlPage) : BlPage :=
  s <| loading := true |> <| fetches := (map kill (fetches s) ++ [(sortValue s, true)])%list |>.

(** The two effects of the card's expansion run when their deps have changed. *)
Definition commit (s : BlPage) : BlPage :=
  let narrowed := nativeSearchNarrowed s in
  let visible := showNativeCard s in
  let s1 := if negb (Bool.eqb (fst (expandDeps s)) narrowed) && narrowed then s <| nativeExpanded := true |> else s in
  let s2 := if negb (Bool.eqb (snd (expandDeps s)) visible) && negb visible
            then s1 <| nativeExpanded := false |> else s1 in
  s2 <| expandDeps := (narrowed, visible) |>.

Definition showToast (k : ToastKind) (text : string) (description : option string) (s : BlPage) : BlPage :=
  s <| toasts := (toasts s ++ [mkDescToast k text description])%list |>.

Definition settleFetch (live : bool) (a : result BlError (option (list ModelBlocklist))) (s : BlPage) : BlPage :=
  if negb live then s else
  (match a with
   | Ok l => s <| blocklists := l ?? [] |>
   | Throw RateLimited =>
       (showToast ToastError "Too many requests"
          (Some "Blocklists are temporarily unavailable. Please try again in a moment.") s) <| blocklists := [] |>
   | Throw OtherError => s <| blocklists := [] |>
   end) <| loading := false |>.

(** ** Handlers that change the profile *)

Definition setUpdating (u : option string) (s : BlPage) : BlPage := s <| updating := u |>.
Definition setServicesUpdating (u : option string) (s : BlPage) : BlPage := s <| servicesUpdating := u |>.
Definition setRebindingUpdating (b : bool) (s : BlPage) : BlPage := s <| rebindingUpdating := b |>.
Definition setActive (p : ModelProfile) (s : BlPage) : BlPage :=
  s <| store := setActiveProfile (Some p) (store s) |>.

Definition withProfile (s : BlPage) (body : string -> Handler) : Handler :=
  match p_profile_id <$> activeProfile (store s) with
  | Some id => if truthy id then body id else mret ()
  | None => mret ()
  end.

(** [setUpdating(key)], [try], [catch] with a toast, [finally]; [set] is the flag's setter. *)
Definition flagged (set : option string -> BlPage -> BlPage) (key failure : string) (body : Handler) : Handler :=
  perform (set (Some key));;
  finally (try_async body (fun _ => perform (showToast ToastError "Error" (Some failure)))) (set None).
Definition updatingAs : string -> string -> Handler -> Handler := flagged setUpdating.

Definition refetch (id : string) : Handler :=
  updated ← await (ProfileGet id);
  perform (setActive updated).

Definition whenIds (l : list string) (body : Handler) : Handler := match l with [] => mret () | _ => body end.

Definition done_word (enable : bool) : string := if enable then "enabled" else "disabled".

Definition handleCategoryToggle (blocklistIds : list string) (enable : bool) (groupLabel : option string)
    (s : BlPage) : Handler :=
  withProfile s (fun id =>
    let idsToChange := List.filter (fun i => xorb enable (isOn s i)) blocklistIds in
    whenIds idsToChange
      (updatingAs "category" "Failed to update category. Please try again." (
        await (if enable then BlocklistsPost id idsToChange else BlocklistsDelete id idsToChange);;
        refetch id;;
        perform (match groupLabel with
                 | Some l =>
                     if truthy l then
                       showToast ToastSuccess (l ++s " " ++s done_word enable)
                         (Some ("All lists in " ++s l ++s " have been " ++s done_word enable ++s "."))
                     else showToast ToastSuccess ("Category " ++s done_word enable)
                            (Some ("Recommended blocklists have been " ++s done_word enable ++s "."))
                 | None => showToast ToastSuccess ("Category " ++s done_word enable)
                             (Some ("Recommended blocklists have been " ++s done_word enable ++s "."))
                 end)))).

Definition handleApplyBlocklistSet (enableIds disableIds : list string) (s : BlPage) : Handler :=
  withProfile s (fun id =>
    let toEnable := List.filter (fun i => negb (isOn s i)) enableIds in
    let toDisable := List.filter (isOn s) disableIds in
    whenIds (toEnable ++ toDisable)
      (updatingAs "nrd" "Failed to update blocklists. Please try again." (
        whenIds toEnable (await (BlocklistsPost id toEnable);; mret ());;
        whenIds toDisable (await (BlocklistsDelete id toDisable);; mret ());;
        refetch id;;
        perform (showToast ToastSuccess "Blocklists updated"
                   (Some "Your selection has been updated successfully."))))).

Definition handleBlocklistSwitch (blocklistId : string) (checked : bool) (s : BlPage) : Handler :=
  withProfile s (fun id =>
    updatingAs blocklistId "Failed to update blocklist. Please try again." (
      status ← match checked with
               | true => await (BlocklistsPost id [blocklistId])
               | false => await (BlocklistsDelete id [blocklistId])
               end;
      if status =? 200 then
        refetch id;;
        perform (showToast ToastSuccess ("Blocklist " ++s done_word checked)
                   (Some ("Blocklist has been " ++s done_word checked ++s " successfully.")))
      else mret ())).

Definition handleRebindingToggle (enabled : bool) (s : BlPage) : Handler :=
  withProfile s (fun id =>
    perform (setRebindingUpdating true);;
    finally
      (try_async
        (status ← await (SettingsPatch id
                           [replace SettingsSecurityRebindingProtectionEnabled (VBool enabled)]);
         if status =? 200 then
           refetch id;;
           perform (showToast ToastSuccess ("DNS rebinding protection " ++s done_word enabled) None)
         else mret ())
        (fun _ => perform (showToast ToastError "Error"
                    (Some "Failed to update DNS rebinding protection. Please try again."))))
      (setRebindingUpdating false)).

Definition handleToggleListed (s : BlPage) : Handler :=
  withProfile s (fun id =>
    if negb (toggleListedActive s) then mret () else
    updatingAs "all" "Failed to update blocklists. Please try again." (
      await (if allListedEnabled s then BlocklistsDelete id (listedIds s)
             else BlocklistsPost id (List.filter (fun i => negb (isOn s i)) (listedIds s)));;
      refetch id;;
      perform (showToast ToastSuccess ("Blocklists " ++s done_word (negb (allListedEnabled s)))
                 (Some ("All filtered blocklists have been " ++s done_word (negb (allListedEnabled s))
                        ++s " successfully."))))).

(** ** The range card *)

(** [handleChange] of the card: the depth chosen among [nrdItems]. The values of the toggle group are
    decimal numbers, and the empty string when its active item is pressed again. *)
Definition handleNrdChange (value : string) (s : BlPage) : Handler :=
  let orderedIds := map bl_blocklist_id (orderedNrdItems (securityBlocklists s)) in
  match (if truthy value && str_all is_digit value then Some (digits_value 0 value) else None) with
  | Some next =>
      if next =? Z.of_nat (nrdDepthFromEnabled orderedIds (enabledBlocklists s)) then mret () else
      let t := nrdDepthTargets orderedIds next in
      handleApplyBlocklistSet (enable t) (disable t) s
  | None => mret ()
  end.

(** ** Categories *)

Definition categoryKey (bl : ModelBlocklist) : string := opt_or (bl_category bl) "other".

(** The [Map] of categories, in the order of their first list. *)
Definition grouped (l : list ModelBlocklist) : list (string * list ModelBlocklist) :=
  map (fun k => (k, List.filter (fun bl => String.eqb (categoryKey bl) k) l)) (dedup (map categoryKey l)).

Record CategoryMeta := mkMeta { cm_label : string; cm_description : string }.

Definition CATEGORY_META : list (string * CategoryMeta) :=
  [("gambling", mkMeta "Gambling" "Block online casinos, betting platforms, and lottery services");
   ("adult", mkMeta "Adult Content" "Block adult and explicit content websites");
   ("dating", mkMeta "Dating" "Block dating apps and matchmaking services");
   ("drugs", mkMeta "Drugs" "Block sites promoting illegal drugs and substances");
   ("social_media", mkMeta "Social Media" "Block social media platforms and networks");
   ("piracy", mkMeta "Piracy" "Block piracy, torrenting, and illegal streaming sites");
   ("crypto", mkMeta "Cryptocurrency" "Block cryptocurrency exchanges, mining, and trading platforms");
   ("fraud", mkMeta "Fraud & Scams" "Block phishing, scam, and fraudulent websites");
   ("gaming", mkMeta "Gaming" "Block online gaming platforms and game-related sites");
   ("vpn_bypass", mkMeta "VPN & Bypass" "Block VPN services and DNS/proxy bypass tools");
   ("clickbait", mkMeta "Clickbait & Fake News" "Block clickbait, fake news, and misleading content sites")].

(** [\w], and [\b\w] upper-cased: [prev] tells that the character before is a word character. *)
Definition is_word (c : ascii) : bool :=
  is_digit c || in_range 65 90 c || in_range 97 122 c || Ascii.eqb c "_".
Fixpoint capitalizeWords (prev : bool) (s : string) : string :=
  match s with
  | "" => ""
  | String c s' =>
      String (if negb prev && is_word c && in_range 97 122 c then upper_char c else c)
        (capitalizeWords (is_word c) s')
  end.
Definition underscoresToSpaces : string -> string := str_map (fun c => if Ascii.eqb c "_" then " "%char else c).

Definition getCategoryMeta (key : string) : CategoryMeta :=
  match array_find (fun e => String.eqb (fst e) key) CATEGORY_META with
  | Some e => snd e
  | None => mkMeta (capitalizeWords false (underscoresToSpaces key))
              ("Block " ++s underscoresToSpaces key ++s " content")
  end.

Record PreparedCategory := mkCategory {
  pc_key : string;
  pc_meta : CategoryMeta;
  pc_items : list ModelBlocklist;
  pc_summary : NativeSummary;
}.

(** The count, the entries and the newest date are reduced as those of the native card. *)
Definition preparedCategories (s : BlPage) : list PreparedCategory :=
  map (fun '(key, items) => mkCategory key (getCategoryMeta key) items (nativeSummary items (enabledBlocklists s)))
    (List.filter (fun '(key, _) => negb (String.eqb key "other")) (grouped (categoryBlocklists s))).

(** [handleCategoryToggle] of the Categories tab: enables all when none is enabled, else disables all. *)
Definition onCategoryToggle (key : string) (s : BlPage) : Handler :=
  let items := List.filter (fun bl => String.eqb (categoryKey bl) key) (categoryBlocklists s) in
  whenIds (map bl_blocklist_id items)
    (handleCategoryToggle (map bl_blocklist_id items)
       (bool_decide (List.filter (isOn s) (map bl_blocklist_id items) = [])) None s).

(** The toggle of the native card. *)
Definition onNativeToggle (s : BlPage) : Handler :=
  handleCategoryToggle (map bl_blocklist_id (nativeItems s))
    (enabledCount (nativeSummary (nativeItems s) (enabledBlocklists s)) =? 0)%nat (Some NATIVE_LABEL) s.
End dates.

(** ** Services *)

Definition formatASNs (asns : option (list Z)) : string :=
  match asns with
  | None | Some [] => "No ASN"
  | Some l =>
      let shown := join ", " (map show (take 5 l)) in
      if (length l <=? 5)%nat then "ASN: " ++s shown
      else "ASN: " ++s shown ++s " +" ++s show (Z.of_nat (length l) - 5)
  end.
Definition formatASNsTitle (asns : option (list Z)) : string :=
  match asns with
  | None | Some [] => "No ASN"
  | Some l => "ASN: " ++s join ", " (map show l)
  end.

Inductive StatusFilter : Set := AllServices | Blocked | Unblocked.

Definition filteredServices (services : list ServicescatalogService) (search : string) (status : StatusFilter)
    (blocked : list string) : list ServicescatalogService :=
  List.filter (fun svc =>
    let matches := negb (truthy (trim search))
                   || includes (toLowerCase (svc_name svc ?? "")) (toLowerCase search) in
    let isBlocked := let id := svc_id svc ?? "" in truthy id && bool_decide (id ∈ blocked) in
    matches && match status with AllServices => true | Blocked => isBlocked | Unblocked => negb isBlocked end)
    services.

(** The last service of an id is its entry of the [Map]. *)
Definition serviceById (services : list ServicescatalogService) (id : string) : option ServicescatalogService :=
  last (List.filter (fun svc => truthy_opt (svc_id svc) && bool_decide (svc_id svc = Some id)) services).

Definition handleServiceSwitch (services : list ServicescatalogService) (serviceId : string) (checked : bool)
    (s : BlPage) : Handler :=
  withProfile s (fun id =>
    if negb (truthy serviceId) then mret () else
    flagged setServicesUpdating serviceId "Failed to update service. Please try again." (
      await (if checked then ServicesPost id [serviceId] else ServicesDelete id [serviceId]);;
      refetch id;;
      let svcName := opt_or (svc ← serviceById services serviceId; svc_name svc) serviceId in
      perform (showToast ToastSuccess (if checked then "Service blocked" else "Service unblocked")
                 (Some (svcName ++s " has been " ++s (if checked then "blocked" else "unblocked")
                        ++s " successfully."))))).

(** ** The page as a system *)

Inductive BlHandler : Type :=
| BlocklistSwitch (blocklistId : string) (checked : bool)
| CategoryToggle (key : string)
| NativeToggle
| NrdChange (value : string)
| RebindingToggle (enabled : bool)
| ToggleListed
| ServiceSwitch (services : list ServicescatalogService) (serviceId : string) (checked : bool).

Inductive BlUpdate : Type :=
| ChangeTab (tab : string)
| Search (v : string)
| Filter (v : string)
| Sort (v : ApiV1BlocklistsGetSortByEnum)
| ExpandToggle
| SwitchProfile (p : ModelProfile)
| CatalogSettled (i : nat) (a : result BlError (option (list ModelBlocklist))).

Inductive BlEvent : Type :=
| Invoke (h : BlHandler)
| Answered (i : nat) (w : World BlError BlRequest BlResponse)
| Update (u : BlUpdate).

Notation BlSys := (Sys BlError BlRequest BlPage BlResponse).

Section system.
Context {H : Host}.

Definition handler (h : BlHandler) : BlPage -> Handler :=
  match h with
  | BlocklistSwitch i b => handleBlocklistSwitch i b
  | CategoryToggle k => onCategoryToggle k
  | NativeToggle => onNativeToggle
  | NrdChange v => handleNrdChange v
  | RebindingToggle b => handleRebindingToggle b
  | ToggleListed => handleToggleListed
  | ServiceSwitch l i b => handleServiceSwitch l i b
  end.

Definition bl_update (u : BlUpdate) (s : BlPage) : BlPage :=
  match u with
  | ChangeTab t => s <| activeTab := t |>
  | Search v => s <| searchValue := v |>
  | Filter v => s <| filterValue := v |>
  | Sort v => if bool_decide (v = sortValue s) then s else fetchBlocklists (s <| sortValue := v |>)
  | ExpandToggle => s <| nativeExpanded := negb (nativeExpanded s) |>
  | SwitchProfile p => setActive p s
  | CatalogSettled i a =>
      match fetches s !! i with
      | Some f => settleFetch (snd f) a (s <| fetches := delete i (fetches s) |>)
      | None => s
      end
  end.

Definition bl_step (y : BlSys) (e : BlEvent) : BlSys :=
  sys_step commit y
    match e with Invoke h => Start (handler h) | Answered i w => Answer i w | Update u => Other (bl_update u) end.

Definition mount (st : AppState) : BlPage :=
  commit (fetchBlocklists
    (mkBlPage st "blocklists" [] true None false None "" "all" SortUpdated false [] [] (false, false))).
End system.
