(* ===== verification/BlocklistsPageFacts.v ===== *)
(** * The blocklists page: what its handlers do to the profile

    Against a server that applies what it is sent, every handler leaves the page showing the server's
    profile, and each changes the lists it says it changes. When a later request of a handler fails,
    the page keeps showing what was before. The updating flags come down whatever is answered, and
    while the catalog loads exactly one fetch counts. *)

From S2P Require Import Prelude JsString JsDate ApiTypes Formats Blocklists Store DataCollection Async BlocklistsPage.
From coqutil Require Import Datatypes.RecordSetters.
Import TriangleBracketNotations.

#[local] Arguments constant _ _ _ /.

(** ** A server *)

(** What the server holds of a profile. *)
Record Db := mkDb { db_lists : list string; db_services : list string; db_rebinding : bool }.

Definition profileOf (pid : string) (d : Db) : ModelProfile :=
  MkModelProfile "acc" pid "Home" pid
    (Some (MkModelProfileSettings None None None None
             (Some (MkModelPrivacy (Some (db_lists d)) "include" None "allow" (Some (db_services d)))) pid
             (Some (MkModelSecurity (MkModelDNSSECSettings true false)
                      (Some (MkModelRebindingProtection (Some (db_rebinding d))))))
             None)).

Definition added (l ids : list string) : list string := l ++ List.filter (fun i => negb (bool_decide (i ∈ l))) ids.
Definition removed (l ids : list string) : list string := List.filter (fun i => negb (bool_decide (i ∈ ids))) l.

Definition patched (d : Db) (u : ModelProfileUpdate) : Db :=
  match path u, value u with
  | SettingsSecurityRebindingProtectionEnabled, VBool b => mkDb (db_lists d) (db_services d) b
  | _, _ => d
  end.

Definition applied (d : Db) (r : BlRequest) : Db :=
  match r with
  | BlocklistsPost _ ids => mkDb (added (db_lists d) ids) (db_services d) (db_rebinding d)
  | BlocklistsDelete _ ids => mkDb (removed (db_lists d) ids) (db_services d) (db_rebinding d)
  | ServicesPost _ ids => mkDb (db_lists d) (added (db_services d) ids) (db_rebinding d)
  | ServicesDelete _ ids => mkDb (db_lists d) (removed (db_services d) ids) (db_rebinding d)
  | SettingsPatch _ us => foldl patched d us
  | BlocklistsGet _ | ProfileGet _ => d
  end.

Definition answered (pid : string) (d : Db) (r : BlRequest) : BlResponse r :=
  match r with
  | BlocklistsGet _ => None
  | ProfileGet _ => profileOf pid d
  | _ => 200
  end.

(** A handler alone on the page; [refusals] says of each request whether it is refused, the rest are not. *)
Fixpoint serve (pid : string) (refusals : list bool) (p : Handler) (s : BlPage) (d : Db) : BlPage * Db * Handler :=
  match p with
  | Ret _ | Raise _ => (s, d, p)
  | Upd f p' => serve pid refusals p' (f s) d
  | Call r k =>
      match refusals with
      | true :: rest => serve pid rest (k (Throw OtherError)) s d
      | _ => serve pid (tail refusals) (k (Ok (answered pid (applied d r) r))) s (applied d r)
      end
  end.

(** The page shows the server's profile. *)
Definition shows (pid : string) (d : Db) (s : BlPage) : Prop := activeProfile (store s) = Some (profileOf pid d).

Lemma elem_of_added l ids i : i ∈ added l ids <-> i ∈ l \/ i ∈ ids.
Proof.
  unfold added. rewrite elem_of_app, elem_of_list_filter_b.
  destruct (decide (i ∈ l)); rewrite ?bool_decide_eq_true_2, ?bool_decide_eq_false_2 by done; naive_solver.
Qed.

Lemma elem_of_removed l ids i : i ∈ removed l ids <-> i ∈ l /\ i ∉ ids.
Proof.
  unfold removed. rewrite elem_of_list_filter_b, negb_true_iff, bool_decide_eq_false. tauto.
Qed.

Section facts.
Context {H : Host}.
Implicit Types (s : BlPage) (d : Db) (h : BlHandler).

(** ** What each control turns on and off *)

(** All of them on when none is, else all of them off. *)
Definition allOrNone (s : BlPage) (ids : list string) : list string * list string :=
  if forallb (fun i => negb (isOn s i)) ids then (ids, []) else ([], ids).

Definition categoryIds (s : BlPage) (key : string) : list string :=
  map bl_blocklist_id (List.filter (fun bl => String.eqb (categoryKey bl) key) (categoryBlocklists s)).
Definition nativeIds (s : BlPage) : list string := map bl_blocklist_id (nativeItems s).
Definition nrdIds (s : BlPage) : list string := map bl_blocklist_id (orderedNrdItems (securityBlocklists s)).

Definition turned (h : BlHandler) (s : BlPage) : list string * list string :=
  match h with
  | BlocklistSwitch i b => if b then ([i], []) else ([], [i])
  | CategoryToggle key => allOrNone s (categoryIds s key)
  | NativeToggle => allOrNone s (nativeIds s)
  | NrdChange v =>
      if truthy v && str_all is_digit v
         && negb (digits_value 0 v =? Z.of_nat (nrdDepthFromEnabled (nrdIds s) (enabledBlocklists s)))
      then let t := nrdDepthTargets (nrdIds s) (digits_value 0 v) in (enable t, disable t)
      else ([], [])
  | ToggleListed =>
      if negb (toggleListedActive s) then ([], [])
      else if allListedEnabled s then ([], listedIds s) else (listedIds s, [])
  | RebindingToggle _ | ServiceSwitch _ _ _ => ([], [])
  end.

Definition servicesTurned (h : BlHandler) : list string * list string :=
  match h with
  | ServiceSwitch _ i b => if negb (truthy i) then ([], []) else if b then ([i], []) else ([], [i])
  | _ => ([], [])
  end.

(** [l'] is [l] with the first ids added, then the second removed. *)
Definition switched (l : list string) (onoff : list string * list string) (l' : list string) : Prop :=
  forall i, i ∈ l' <-> (i ∈ l \/ i ∈ fst onoff) /\ i ∉ snd onoff.

Lemma switched_on l ids : switched l (ids, []) (added l ids).
Proof. intros i. rewrite elem_of_added. cbn. set_solver. Qed.
Lemma switched_off l ids : switched l ([], ids) (removed l ids).
Proof. intros i. rewrite elem_of_removed. cbn. set_solver. Qed.
Lemma switched_none l : switched l ([], []) l.
Proof. intros i. cbn. set_solver. Qed.
Lemma switched_both l on off : switched l (on, off) (removed (added l on) off).
Proof. intros i. rewrite elem_of_removed, elem_of_added. cbn. tauto. Qed.

(** Ids already on are not sent, nor those already off. *)
Lemma switched_on_missing l ids : switched l (ids, []) (added l (List.filter (fun i => negb (bool_decide (i ∈ l))) ids)).
Proof.
  intros i. rewrite elem_of_added, elem_of_list_filter_b, negb_true_iff, bool_decide_eq_false. cbn.
  destruct (decide (i ∈ l)); set_solver.
Qed.
Lemma switched_off_present l ids : switched l ([], ids) (removed l (List.filter (fun i => bool_decide (i ∈ l)) ids)).
Proof.
  intros i. rewrite elem_of_removed, elem_of_list_filter_b, bool_decide_eq_true. cbn. set_solver.
Qed.

(** ** The range card *)

Lemma byId_id l id bl : byId l id = Some bl -> bl_blocklist_id bl = id.
Proof.
  unfold byId. intros E. apply last_Some_elem_of, elem_of_list_filter_b in E as [_ E]. by to_prop.
Qed.

Lemma nrdIds_NoDup s : NoDup (nrdIds s).
Proof.
  unfold nrdIds, orderedNrdItems. generalize (securityBlocklists s) as l. intros l.
  apply (sublist_NoDup _ NRD_IDS).
  - apply (bool_decide_unpack _). by vm_compute.
  - unfold NRD_IDS. induction NRD_GROUP as [|t g IH]; [done|]. cbn.
    destruct (byId l (tier_id t)) eqn:E; cbn; [|by constructor]. rewrite (byId_id _ _ _ E). by constructor.
Qed.

Lemma targets_disjoint s n i :
  i ∈ enable (nrdDepthTargets (nrdIds s) n) -> i ∉ disable (nrdDepthTargets (nrdIds s) n).
Proof.
  pose proof (nrdIds_NoDup s) as Hnd. cbn. intros Hi Hi'.
  rewrite <- (take_drop (Z.to_nat (Z.max 0 (Z.min n (Z.of_nat (length (nrdIds s)))))) (nrdIds s)) in Hnd.
  apply NoDup_app in Hnd as (_ & Hdis & _). by apply (Hdis i).
Qed.

Lemma nrdDepth_ext ids l1 l2 :
  (forall i, i ∈ l1 <-> i ∈ l2) -> nrdDepthFromEnabled ids l1 = nrdDepthFromEnabled ids l2.
Proof.
  intros He. induction ids as [|id ids IH] using rev_ind; [done|].
  by rewrite !nrdDepth_snoc, IH, (bool_decide_ext _ _ (He id)).
Qed.

Lemma show_number_truthy n : 0 <= n -> truthy (show n) = true.
Proof.
  intros Hn. apply truthy_spec. intros E. pose proof (parseInt10_show n Hn) as Hp. by rewrite E in Hp.
Qed.

Lemma show_value n : 0 <= n -> digits_value 0 (show n) = n.
Proof.
  intros Hn. pose proof (parseInt10_show n Hn) as Hp. rewrite parseInt10_digits in Hp; [congruence|by apply show_digits|].
  apply truthy_spec. by apply show_number_truthy.
Qed.

(** ** Running a handler *)

Section served.
Context (pid : string) (Hpid : truthy pid = true).

Lemma withProfile_shows d s body : shows pid d s -> withProfile s body = body pid.
Proof. unfold shows, withProfile. intros ->. cbn. by rewrite Hpid. Qed.

Lemma enabled_shows d s : shows pid d s -> enabledBlocklists s = db_lists d.
Proof. unfold shows, enabledBlocklists, privacy. by intros ->. Qed.

Lemma isOn_shows d s i : shows pid d s -> isOn s i = bool_decide (i ∈ db_lists d).
Proof. intros Hs. unfold isOn. by rewrite (enabled_shows d). Qed.

(** How a served handler ends: on the page that shows [d']. *)
Definition lands (d' : Db) (o : BlPage * Db * Handler) : Prop :=
  snd o = Ret tt /\ snd (fst o) = d' /\ shows pid d' (fst (fst o)).

(** [o] is the end of a handler that turned lists on and off, and nothing else. *)
Definition changes (d : Db) (onoff : list string * list string) (o : BlPage * Db * Handler) : Prop :=
  exists d', lands d' o /\ switched (db_lists d) onoff (db_lists d') /\
    db_services d' = db_services d /\ db_rebinding d' = db_rebinding d.

Lemma lands_here d s : shows pid d s -> lands d (serve pid [] (mret ()) s d).
Proof. by split. Qed.

Lemma changes_none d s : shows pid d s -> changes d ([], []) (serve pid [] (mret ()) s d).
Proof. exists d. split; [by apply lands_here|]. split; [apply switched_none|done]. Qed.

(** A flagged handler that sends one request, refetches and toasts. *)
Lemma lands_change (raise : BlPage -> BlPage) (lower : BlPage -> BlPage) (r : BlRequest) (hdl : BlError -> Handler) toast s d :
  (forall x, store (lower x) = store x) -> (forall x, store (toast x) = store x) ->
  lands (applied d r)
    (serve pid [] (perform raise;; finally (try_async (await r;; refetch pid;; perform toast) hdl) lower) s d).
Proof. intros Hl Ht. split; [done|]. split; [done|]. unfold shows. cbn. by rewrite Hl, Ht. Qed.

Lemma toast_store k t de s : store (showToast k t de s) = store s.
Proof. by destruct s. Qed.

Lemma lands_category ids (enable : bool) label d s :
  shows pid d s ->
  changes d (if enable then (ids, []) else ([], ids)) (serve pid [] (handleCategoryToggle ids enable label s) s d).
Proof.
  intros Hs. unfold handleCategoryToggle. rewrite (withProfile_shows d) by done.
  assert (forall i, xorb enable (isOn s i) = if enable then negb (bool_decide (i ∈ db_lists d)) else bool_decide (i ∈ db_lists d)) as Hx
    by (intros i; rewrite (isOn_shows d) by done; by destruct enable).
  rewrite (List.filter_ext _ _ Hx). clear Hx.
  pose proof (switched_on_missing (db_lists d) ids) as Hon. pose proof (switched_off_present (db_lists d) ids) as Hoff.
  set (l := List.filter _ ids).
  set (r := if enable then BlocklistsPost pid l else BlocklistsDelete pid l).
  assert (switched (db_lists d) (if enable then (ids, []) else ([], ids)) (db_lists (applied d r))) as Hsw
    by (unfold r, l; by destruct enable).
  destruct l as [|i l'] eqn:El.
  - exists d. split; [by apply lands_here|]. split; [|done]. intros i. rewrite <- (Hsw i). unfold r.
    destruct enable; cbn [applied db_lists]; [rewrite elem_of_added|rewrite elem_of_removed]; set_solver.
  - exists (applied d r). split; [|split; [done|by destruct enable]]. apply lands_change; [by intros []|].
    intros x. destruct label as [t|]; [destruct (truthy t)|]; apply toast_store.
Qed.

Lemma lands_set on off d s :
  shows pid d s -> (forall i, i ∈ on -> i ∉ off) ->
  changes d (on, off) (serve pid [] (handleApplyBlocklistSet on off s) s d).
Proof.
  intros Hs Hdis. unfold handleApplyBlocklistSet. rewrite (withProfile_shows d) by done. cbv zeta.
  rewrite (List.filter_ext _ (fun i => negb (bool_decide (i ∈ db_lists d)))) by (intros i; by rewrite (isOn_shows d)).
  rewrite (List.filter_ext (isOn s) (fun i => bool_decide (i ∈ db_lists d))) by (intros i; by rewrite (isOn_shows d)).
  set (l1 := List.filter _ on). set (l2 := List.filter _ off).
  assert (switched (db_lists d) (on, off) (removed (added (db_lists d) l1) l2)) as Hsw.
  { intros i. unfold l1, l2. rewrite elem_of_removed, elem_of_added, !elem_of_list_filter_b, negb_true_iff,
      bool_decide_eq_false, bool_decide_eq_true. cbn. specialize (Hdis i). destruct (decide (i ∈ db_lists d)); tauto. }
  exists (mkDb (removed (added (db_lists d) l1) l2) (db_services d) (db_rebinding d)).
  split; [|done]. clear Hsw.
  assert (forall l, added l [] = l) as Ha by (intros l; apply app_nil_r).
  assert (forall l, removed l [] = l) as Hr.
  { intros l. unfold removed. induction l as [|i l IH]; [done|]. cbn in *. by rewrite IH. }
  destruct l1 as [|i1 l1], l2 as [|i2 l2]; rewrite ?Ha, ?Hr; (split; [done|]); (split; [by destruct d|]); try done.
  all: unfold shows; cbn; rewrite ?Ha, ?Hr; by destruct d.
Qed.

Lemma none_on_spec s ids :
  bool_decide (List.filter (isOn s) ids = []) = forallb (fun i => negb (isOn s i)) ids.
Proof.
  induction ids as [|i ids IH]; [done|]. cbn. destruct (isOn s i); cbn; [|exact IH]. by case_bool_decide.
Qed.

Lemma enabledCount_foldl enabled items acc :
  enabledCount (foldl (summary_step enabled) acc items) =
  (enabledCount acc + length (List.filter (fun bl => bool_decide (bl_blocklist_id bl ∈ enabled)) items))%nat.
Proof.
  revert acc. induction items as [|bl items IH]; intros acc; cbn [foldl]; [cbn; lia|]. rewrite IH. cbn.
  destruct (bool_decide _); cbn; lia.
Qed.

Lemma summary_none_on s items :
  (enabledCount (nativeSummary items (enabledBlocklists s)) =? 0)%nat
  = forallb (fun i => negb (isOn s i)) (map bl_blocklist_id items).
Proof.
  unfold nativeSummary, isOn. rewrite enabledCount_foldl. cbn [enabledCount Nat.add].
  induction items as [|bl l IH]; [done|]. cbn. destruct (bool_decide _); [done|]. exact IH.
Qed.

#[local] Opaque handleCategoryToggle handleApplyBlocklistSet.

(** Each handler of lists does what its control says. *)
Lemma handler_changes h d s :
  shows pid d s ->
  match h with RebindingToggle _ | ServiceSwitch _ _ _ => True | _ => changes d (turned h s) (serve pid [] (handler h s) s d) end.
Proof.
  intros Hs. destruct h as [i b|key| |v|b| |l i b]; cbn [handler turned]; try done.
  - unfold handleBlocklistSwitch. rewrite (withProfile_shows d) by done.
    exists (applied d (if b then BlocklistsPost pid [i] else BlocklistsDelete pid [i])).
    split; [split; [|split]; by destruct b|]. split; [destruct b; [apply switched_on|apply switched_off]|by destruct b].
  - unfold onCategoryToggle, allOrNone. fold (categoryIds s key).
    rewrite none_on_spec. destruct (categoryIds s key) as [|i ids] eqn:E; [by apply changes_none|].
    cbn [whenIds]. pose proof (lands_category (i :: ids) (forallb (fun j => negb (isOn s j)) (i :: ids)) None d s Hs) as Hc.
    by destruct (forallb _ _).
  - unfold onNativeToggle, allOrNone. rewrite summary_none_on. fold (nativeIds s).
    pose proof (lands_category (nativeIds s) (forallb (fun j => negb (isOn s j)) (nativeIds s)) (Some NATIVE_LABEL) d s Hs) as Hc.
    by destruct (forallb _ _).
  - unfold handleNrdChange. fold (nrdIds s). destruct (truthy v && str_all is_digit v); cbn [andb]; [|by apply changes_none].
    cbv zeta. destruct (_ =? _); cbn [negb]; [by apply changes_none|].
    apply lands_set; [done|]. apply targets_disjoint.
  - unfold handleToggleListed. rewrite (withProfile_shows d) by done.
    destruct (negb (toggleListedActive s)); [by apply changes_none|].
    rewrite (List.filter_ext _ (fun i => negb (bool_decide (i ∈ db_lists d)))) by (intros i; by rewrite (isOn_shows d)).
    eexists. split; [apply lands_change; [by intros []|intros x; apply toast_store]|].
    destruct (allListedEnabled s); cbn [applied db_lists db_services db_rebinding].
    + split; [apply switched_off|done].
    + split; [apply switched_on_missing|done].
Qed.

Lemma service_lands l i b d s :
  shows pid d s ->
  exists d', lands d' (serve pid [] (handleServiceSwitch l i b s) s d) /\ db_lists d' = db_lists d /\
    switched (db_services d) (servicesTurned (ServiceSwitch l i b)) (db_services d') /\ db_rebinding d' = db_rebinding d.
Proof.
  intros Hs. unfold handleServiceSwitch. rewrite (withProfile_shows d) by done. cbn [servicesTurned].
  destruct (negb (truthy i)).
  { exists d. split; [by apply lands_here|]. split; [done|]. split; [apply switched_none|done]. }
  exists (applied d (if b then ServicesPost pid [i] else ServicesDelete pid [i])).
  split; [split; [|split]; by destruct b|].
  destruct b; cbn [applied db_lists db_services db_rebinding]; (split; [done|]); split; try done;
    [apply switched_on|apply switched_off].
Qed.

Lemma rebinding_lands b d s :
  shows pid d s -> lands (mkDb (db_lists d) (db_services d) b) (serve pid [] (handleRebindingToggle b s) s d).
Proof. intros Hs. unfold handleRebindingToggle. rewrite (withProfile_shows d) by done. by split. Qed.

(** All handlers at once. *)
Lemma handler_lands h d s :
  shows pid d s ->
  exists d', lands d' (serve pid [] (handler h s) s d) /\ switched (db_lists d) (turned h s) (db_lists d') /\
    switched (db_services d) (servicesTurned h) (db_services d') /\
    db_rebinding d' = match h with RebindingToggle b => b | _ => db_rebinding d end.
Proof.
  intros Hs. pose proof (handler_changes h d s Hs) as Hh. pose proof (switched_none (db_services d)) as Hv.
  destruct h; try (destruct Hh as (d' & Hl & Hsw & Es & Er); exists d'; split; [exact Hl|]; split; [exact Hsw|];
    by rewrite Es).
  - eexists. split; [by apply rebinding_lands|]. split; [apply switched_none|]. by split.
  - destruct (service_lands services serviceId checked d s Hs) as (d' & Hl & Es & Hsw & Er).
    exists d'. split; [exact Hl|]. rewrite Es. split; [apply switched_none|]. by split.
Qed.
End served.

(** against a server that applies what it is sent, every handler ends with the page showing the
    server's profile, having turned on and off exactly what its control says *)
(** C2: against a server that applies what it is sent, every handler of the blocklists page ends
    with the page showing the profile of the server, having turned on and off exactly the lists,
    services or protection that its control says *)
Theorem changes_reach_server_and_page pid d s h :
  truthy pid = true -> shows pid d s ->
  let '(s', d', p) := serve pid [] (handler h s) s d in
  p = Ret tt /\ shows pid d' s' /\
  switched (db_lists d) (turned h s) (db_lists d') /\
  switched (db_services d) (servicesTurned h) (db_services d') /\
  db_rebinding d' = match h with RebindingToggle b => b | _ => db_rebinding d end.
Proof.
  intros Hpid Hs. destruct (handler_lands pid Hpid h d s Hs) as (d0 & (Hp & Hd & Hsh) & Hrest).
  destruct (serve _ _ _ _ _) as [[s' d'] p]. cbn in Hp, Hd, Hsh. by subst.
Qed.

(** choosing a depth on the range card ends with the card showing that depth, and no list outside the
    card has changed *)
Theorem chosen_depth_is_shown pid d s n :
  truthy pid = true -> shows pid d s -> 0 <= n <= Z.of_nat (length (nrdIds s)) ->
  let '(s', d', _) := serve pid [] (handleNrdChange (show n) s) s d in
  Z.of_nat (nrdDepthFromEnabled (nrdIds s) (enabledBlocklists s')) = n /\
  forall i, i ∉ nrdIds s -> i ∈ db_lists d' <-> i ∈ db_lists d.
Proof.
  intros Hpid Hs Hn. destruct (handler_lands pid Hpid (NrdChange (show n)) d s Hs) as (d0 & (Hp & Hd & Hsh) & Hsw & _).
  cbn [handler] in *. destruct (serve _ _ _ _ _) as [[s' d'] p]. cbn in Hp, Hd, Hsh. subst.
  rewrite (enabled_shows pid d0) by done. cbn [turned] in Hsw.
  rewrite show_number_truthy, show_digits, show_value in Hsw by lia. cbn [andb] in Hsw.
  destruct (nrd_targets_roundtrip (nrdIds s) n (db_lists d0)) as [Hall Hround].
  pose proof (targets_disjoint s n) as Hdis.
  destruct (Z.eqb_spec n (Z.of_nat (nrdDepthFromEnabled (nrdIds s) (enabledBlocklists s)))) as [E|Hne]; cbn [negb] in Hsw.
  - assert (forall i, i ∈ db_lists d0 <-> i ∈ db_lists d) as Hsame by (intros i; rewrite (Hsw i); cbn; set_solver).
    split; [|auto]. rewrite (enabled_shows pid d) in E by done. rewrite E. f_equal. by apply nrdDepth_ext.
  - cbv zeta in Hsw. split.
    + rewrite Hround; [lia|apply nrdIds_NoDup|]. intros i Hi. rewrite (Hsw i). cbn [fst snd].
      rewrite <- Hall, elem_of_app in Hi. specialize (Hdis i). tauto.
    + intros i Hi. rewrite (Hsw i). cbn [fst snd]. rewrite <- Hall, elem_of_app in Hi. tauto.
Qed.

(** when a list is switched and only the refetch fails, the switch has changed on the server, and the
    page says that it failed and shows the old position *)
Theorem saved_switch_is_shown_failed pid d s i b :
  truthy pid = true -> shows pid d s -> isOn s i = negb b ->
  let '(s', d', p) := serve pid [false; true] (handleBlocklistSwitch i b s) s d in
  p = Ret tt /\ (i ∈ db_lists d' <-> b = true) /\ isOn s' i = negb b /\ updating s' = None /\
  last (toasts s') = Some (mkDescToast ToastError "Error" (Some "Failed to update blocklist. Please try again.")).
Proof.
  intros Hpid Hs Hon. unfold handleBlocklistSwitch. rewrite (withProfile_shows pid Hpid d) by done.
  destruct b; cbn -[added removed]; (split; [done|]).
  - split; [rewrite elem_of_added; set_solver|]. split; [exact Hon|]. split; [done|]. by rewrite last_snoc.
  - split; [rewrite elem_of_removed; set_solver|]. split; [exact Hon|]. split; [done|]. by rewrite last_snoc.
Qed.
End facts.

(** ** The page never stays busy *)

Section settles.
Context {H : Host}.

Definition ev_of (e : BlEvent) : SysEvent BlError BlRequest BlPage BlResponse :=
  match e with Invoke h => Start (handler h) | Answered i w => Answer i w | Update u => Other (bl_update u) end.

Lemma bl_run y evs : run bl_step y evs = run (sys_step commit) y (map ev_of evs).
Proof. by apply run_map. Qed.

(** The three flags that disable controls. *)
Definition flags (s : BlPage) : option string * bool * option string :=
  (updating s, rebindingUpdating s, servicesUpdating s).

Lemma commit_flags s : flags (commit s) = flags s.
Proof.
  unfold commit. destruct (_ && nativeSearchNarrowed s), (_ && negb (showNativeCard s)); by destruct s.
Qed.

Lemma settleFetch_flags live a s : flags (settleFetch live a s) = flags s.
Proof. destruct live, a as [l|[]], s; done. Qed.

Lemma update_flags u s : flags (bl_update u s) = flags s.
Proof.
  destruct u; cbn [bl_update]; try (by destruct s).
  - case_bool_decide; by destruct s.
  - destruct (fetches s !! i) as [f|]; [|done]. rewrite settleFetch_flags. by destruct s.
Qed.

Definition is_up (u : option string) : bool := match u with Some _ => true | None => false end.

Section flag.
Context (busy : BlPage -> bool) (Hbusy : forall s s', flags s = flags s' -> busy s = busy s').

Lemma withProfile_behaves s (body : string -> Handler) :
  (forall id, well_behaved busy (body id)) -> well_behaved busy (withProfile s body).
Proof. intros Hb. unfold withProfile. destruct (_ <$> _) as [id|]; [|by left]. destruct (truthy id); [apply Hb|by left]. Qed.

Lemma flagged_behaves set key failure (body : Handler) :
  ((forall s, busy (set None s) = false) \/ (forall u s, busy (set u s) = busy s) /\ untouched busy body) ->
  well_behaved busy (flagged set key failure body).
Proof.
  unfold flagged. intros [Hlow|[Hset Hbody]].
  - right. eexists _, _. split; [reflexivity|]. intros s. apply ends_finally. intros _ s'. apply Hlow.
  - left. cbn. split; [intros s; apply Hset|].
    assert (forall p : Handler, untouched busy p -> untouched busy (finally p (set None))) as Hf.
    { intros p Hp. induction p as [a|e|g p IH|r k IH]; cbn in *; try done; try naive_solver; by split; [intros s; apply Hset|]. }
    apply Hf, untouched_try; [done|]. intros e. cbn. split; [|done]. intros s. by apply Hbusy; destruct s.
Qed.

Lemma refetch_untouched id : untouched busy (refetch id : Handler).
Proof. cbn. intros [p|e]; cbn; [|done]. split; [|done]. intros s. apply Hbusy. by destruct s. Qed.

Lemma toast_untouched k t de : untouched busy (perform (showToast k t de) : Handler).
Proof. cbn. split; [|done]. intros s. apply Hbusy. by destruct s. Qed.

Lemma await_untouched (r : BlRequest) : untouched busy (await r : Prog BlError BlRequest BlPage BlResponse (BlResponse r)).
Proof. by intros [x|e]. Qed.

Lemma whenIds_untouched l (p : Handler) : untouched busy p -> untouched busy (whenIds l p).
Proof. by destruct l. Qed.

(** A setter either lowers this flag or is the setter of another. *)
Definition own_or_other {A} (set : A -> BlPage -> BlPage) (low : A) : Prop :=
  (forall s, busy (set low s) = false) \/ (forall u s, busy (set u s) = busy s).

Lemma flagged_either set key failure (body : Handler) :
  own_or_other set None -> untouched busy body -> well_behaved busy (flagged set key failure body).
Proof. intros [Hl|Ho] Hb; apply flagged_behaves; [by left|by right]. Qed.

Ltac untouched_body :=
  repeat first
    [ exact I | apply refetch_untouched | apply toast_untouched | apply await_untouched
    | apply whenIds_untouched | apply untouched_bind; [|intros ?]
    | match goal with |- context [if ?b then _ else _] => destruct b end
    | match goal with |- context [match ?o with Some _ => _ | None => _ end] => destruct o end ].

Context (Hupd : own_or_other setUpdating None) (Hsvc : own_or_other setServicesUpdating None)
  (Hreb : own_or_other setRebindingUpdating false).

Lemma whenIds_behaves l (p : Handler) : well_behaved busy p -> well_behaved busy (whenIds l p).
Proof. destruct l; [by left|done]. Qed.

Lemma category_behaves ids e l s : well_behaved busy (handleCategoryToggle ids e l s).
Proof.
  apply withProfile_behaves. intros id. apply whenIds_behaves, flagged_either; [done|]. untouched_body.
Qed.

Lemma set_behaves on off s : well_behaved busy (handleApplyBlocklistSet on off s).
Proof.
  apply withProfile_behaves. intros id. apply whenIds_behaves, flagged_either; [done|]. untouched_body.
Qed.

Lemma rebinding_behaves b s : well_behaved busy (handleRebindingToggle b s).
Proof.
  apply withProfile_behaves. intros id. destruct Hreb as [Hl|Ho].
  - right. eexists _, _. split; [reflexivity|]. intros s0. apply ends_finally. intros _ s'. apply Hl.
  - left. cbn. split; [apply Ho|]. intros [st|e]; cbn; [destruct (st =? 200); cbn|].
    + intros [p|e]; cbn; repeat split; try (intros x; apply Ho); intros x; apply Hbusy; by destruct x.
    + split; [intros x; apply Ho|done].
    + split; [intros x; apply Hbusy; by destruct x|]. split; [intros x; apply Ho|done].
Qed.

Lemma handler_behaves h s : well_behaved busy (handler h s).
Proof.
  destruct h as [i b|key| |v|b| |l i b]; cbn [handler].
  - apply withProfile_behaves. intros id. apply flagged_either; [done|]. untouched_body.
  - apply whenIds_behaves, category_behaves.
  - apply category_behaves.
  - unfold handleNrdChange. destruct (truthy v && _); [|by left].
    cbv zeta. destruct (_ =? _); [by left|]. apply set_behaves.
  - apply rebinding_behaves.
  - apply withProfile_behaves. intros id. destruct (negb _); [by left|]. apply flagged_either; [done|]. untouched_body.
  - apply withProfile_behaves. intros id. destruct (negb _); [by left|]. apply flagged_either; [done|]. untouched_body.
Qed.

(** So the flag is down when nothing is in flight. *)
Lemma flag_settles st evs :
  busy (mount st) = false ->
  let y := run bl_step (mkSys (mount st) []) evs in inflight y = [] -> busy (ui y) = false.
Proof.
  intros Hm. cbv zeta. rewrite bl_run. apply busy_settles; [apply unchanged_flag; intros s; by apply Hbusy, commit_flags|done|].
  apply Forall_fmap, Forall_forall. intros [h|i w|u] _; cbn [compose ev_of event_ok]; [|done|].
  - intros s. apply handler_behaves.
  - apply unchanged_flag. intros s. apply Hbusy, update_flags.
Qed.
End flag.

(** whatever the requests are answered and whatever happens meanwhile, when no handler is in flight no
    control of the page is disabled by an updating flag *)
Theorem blocklists_page_settles st evs :
  let y := run bl_step (mkSys (mount st) []) evs in
  inflight y = [] -> updating (ui y) = None /\ servicesUpdating (ui y) = None /\ rebindingUpdating (ui y) = false.
Proof.
  cbv zeta. intros Hn.
  assert (forall busy : BlPage -> bool, (forall s s', flags s = flags s' -> busy s = busy s') ->
    own_or_other busy setUpdating None -> own_or_other busy setServicesUpdating None ->
    own_or_other busy setRebindingUpdating false -> busy (mount st) = false ->
    busy (ui (run bl_step (mkSys (mount st) []) evs)) = false) as Hf.
  { intros busy Hb H1 H2 H3 Hm. by apply flag_settles. }
  assert (forall o, is_up o = false -> o = None) as Hnone by (by intros []).
  split; [|split].
  - apply Hnone, (Hf (fun s => is_up (updating s))).
    + intros s s' [= -> _ _]. done.
    + by left.
    + right. by intros u [].
    + right. by intros u [].
    + reflexivity.
  - apply Hnone, (Hf (fun s => is_up (servicesUpdating s))).
    + intros s s' [= _ _ ->]. done.
    + right. by intros u [].
    + by left.
    + right. by intros u [].
    + reflexivity.
  - apply (Hf rebindingUpdating).
    + by intros s s' [= _ -> _].
    + right. by intros u [].
    + right. by intros u [].
    + by left.
    + reflexivity.
Qed.
End settles.

(** ** The catalog *)

Section catalog.
Context {H : Host}.

(** While the catalog loads, one fetch counts: the one for the sort the page shows. *)
Definition catalog_ok (s : BlPage) : Prop :=
  List.filter snd (fetches s) = if loading s then [(sortValue s, true)] else [].

Definition catalog (s : BlPage) := (fetches s, loading s, sortValue s).

Lemma catalog_ext s s' : catalog s' = catalog s -> catalog_ok s -> catalog_ok s'.
Proof. unfold catalog, catalog_ok. by intros [= -> -> ->]. Qed.

Lemma keeps_change (f : BlPage -> BlPage) (p : Handler) :
  (forall s, catalog (f s) = catalog s) -> keeps catalog_ok p -> keeps catalog_ok (Upd f p).
Proof. intros Hf Hp. split; [|done]. intros s. by apply catalog_ext. Qed.

Lemma keeps_perform (f : BlPage -> BlPage) :
  (forall s, catalog (f s) = catalog s) -> keeps catalog_ok (perform f : Handler).
Proof. intros Hf. by apply keeps_change. Qed.

Lemma keeps_await (r : BlRequest) :
  keeps catalog_ok (await r : Prog BlError BlRequest BlPage BlResponse (BlResponse r)).
Proof. by intros [x|e]. Qed.

Lemma keeps_refetch id : keeps catalog_ok (refetch id : Handler).
Proof. apply keeps_bind; [apply keeps_await|]. intros p. apply keeps_perform. by intros []. Qed.

Lemma keeps_toast k t de : keeps catalog_ok (perform (showToast k t de) : Handler).
Proof. apply keeps_perform. by intros []. Qed.

Lemma keeps_withProfile s (body : string -> Handler) :
  (forall id, keeps catalog_ok (body id)) -> keeps catalog_ok (withProfile s body).
Proof. intros Hb. unfold withProfile. destruct (_ <$> _) as [id|]; [|done]. destruct (truthy id); [apply Hb|done]. Qed.

Lemma keeps_flagged set key failure (body : Handler) :
  (forall u s, catalog (set u s) = catalog s) -> keeps catalog_ok body ->
  keeps catalog_ok (flagged set key failure body).
Proof.
  intros Hset Hb. apply keeps_bind; [by apply keeps_perform|]. intros _.
  apply keeps_finally; [|intros s; by apply catalog_ext]. apply keeps_try; [done|]. intros e. apply keeps_toast.
Qed.

Lemma keeps_whenIds l (p : Handler) : keeps catalog_ok p -> keeps catalog_ok (whenIds l p).
Proof. by destruct l. Qed.

Ltac keeps_body :=
  repeat first
    [ exact I | apply keeps_refetch | apply keeps_toast | apply keeps_await | apply keeps_whenIds
    | apply keeps_flagged; [by intros u []|] | apply keeps_bind; [|intros ?]
    | match goal with |- context [if ?b then _ else _] => destruct b end
    | match goal with |- context [match ?o with Some _ => _ | None => _ end] => destruct o end ].

Lemma handler_keeps_catalog h s : keeps catalog_ok (handler h s).
Proof.
  destruct h as [i b|key| |v|b| |l i b]; cbn [handler];
    [ |apply keeps_whenIds| |unfold handleNrdChange; destruct (truthy v && _); [cbv zeta; destruct (_ =? _); [done|]|done]
      | | | ].
  all: apply keeps_withProfile; intros id; try by keeps_body.
  apply keeps_bind; [apply keeps_perform; by intros []|]. intros _.
  apply keeps_finally; [apply keeps_try; [by keeps_body|intros e; apply keeps_toast]|].
  intros x. apply catalog_ext. by destruct x.
Qed.

Lemma commit_catalog s : catalog (commit s) = catalog s.
Proof.
  unfold commit. destruct (_ && nativeSearchNarrowed s), (_ && negb (showNativeCard s)); by destruct s.
Qed.

Lemma killed l : List.filter snd (map kill l) = [].
Proof. induction l as [|f l IH]; [done|exact IH]. Qed.

Lemma fetch_catalog s : catalog_ok (fetchBlocklists s).
Proof. unfold catalog_ok. cbn. by rewrite List.filter_app, killed. Qed.

Lemma settle_catalog i f a s :
  catalog_ok s -> fetches s !! i = Some f ->
  catalog_ok (settleFetch (snd f) a (s <| fetches := delete i (fetches s) |>)) /\
  (snd f = true -> f = (sortValue s, true)).
Proof.
  intros Hs Hi. destruct f as [v []]; cbn [snd].
  - unfold catalog_ok in Hs. destruct (loading s) eqn:El.
    + destruct (filter_delete_single snd _ i _ _ Hi eq_refl Hs) as [Hf Hd]. split; [|by intros _].
      unfold catalog_ok, settleFetch. destruct a as [l|[]]; exact Hd.
    + exfalso. assert ((v, true) ∈ List.filter snd (fetches s)) as Hin
        by (apply elem_of_list_filter_b; split; [by eapply list_elem_of_lookup_2|done]).
      rewrite Hs in Hin. by apply elem_of_nil in Hin.
  - split; [|done]. unfold catalog_ok in *. cbn. by rewrite (filter_delete_false snd _ i _ Hi).
Qed.

Lemma update_keeps_catalog u s : catalog_ok s -> catalog_ok (bl_update u s).
Proof.
  intros Hs. destruct u; cbn [bl_update]; try (apply (catalog_ext s); [by destruct s|done]).
  - case_bool_decide; [done|apply fetch_catalog].
  - destruct (fetches s !! i) as [f|] eqn:Hi; [|done]. by apply settle_catalog.
Qed.

Lemma run_catalog st evs : catalog_ok (ui (run bl_step (mkSys (mount st) []) evs)).
Proof.
  rewrite bl_run. apply sys_keeps; [intros s; apply catalog_ext, commit_catalog| |by constructor|].
  - apply (catalog_ext (fetchBlocklists (mkBlPage st "blocklists" [] true None false None "" "all" SortUpdated
             false [] [] (false, false)))); [apply commit_catalog|apply fetch_catalog].
  - apply Forall_fmap, Forall_forall. intros [h|i w|u] _; cbn [compose ev_of event_keeps]; [|done|].
    + intros s. apply handler_keeps_catalog.
    + apply update_keeps_catalog.
Qed.

(** whatever happens on the page, its spinner shows exactly while the catalog for the sort it shows is
    on its way; that answer ends the loading with its lists, and the answer of an earlier sort changes
    nothing the page shows *)
Theorem catalog_loads_the_shown_sort st evs i (f : ApiV1BlocklistsGetSortByEnum * bool)
    (a : result BlError (option (list ModelBlocklist))) :
  let s := ui (run bl_step (mkSys (mount st) []) evs) in
  let s' := bl_update (CatalogSettled i a) s in
  (loading s = true <-> (sortValue s, true) ∈ fetches s) /\
  (fetches s !! i = Some f ->
     if snd f then fst f = sortValue s /\ loading s' = false /\
                   blocklists s' = match a with Ok l => l ?? [] | Throw _ => [] end
     else loading s' = loading s /\ blocklists s' = blocklists s /\ toasts s' = toasts s).
Proof.
  cbv zeta. pose proof (run_catalog st evs) as Hok. generalize dependent (ui (run bl_step (mkSys (mount st) []) evs)).
  intros s Hok. split.
  - unfold catalog_ok in Hok. split.
    + intros El. rewrite El in Hok. assert ((sortValue s, true) ∈ List.filter snd (fetches s)) as Hin
        by (rewrite Hok; by apply list_elem_of_singleton). by apply elem_of_list_filter_b in Hin as [Hin _].
    + intros Hin. destruct (loading s); [done|]. assert ((sortValue s, true) ∈ List.filter snd (fetches s)) as Hin'
        by (by apply elem_of_list_filter_b). rewrite Hok in Hin'. by apply elem_of_nil in Hin'.
  - intros Hi. cbn [bl_update]. rewrite Hi. destruct (settle_catalog i f a s Hok Hi) as [_ Hf].
    destruct (snd f) eqn:Ef; [|done]. rewrite (Hf eq_refl). split; [done|]. by destruct a as [l|[]].
Qed.
End catalog.

(** ** Categories *)

Lemma groups_perm (keys : list string) (l : list ModelBlocklist) :
  NoDup keys -> (forall bl, bl ∈ l -> categoryKey bl ∈ keys) ->
  concat (map (fun k => List.filter (fun bl => String.eqb (categoryKey bl) k) l) keys) ≡ₚ l.
Proof.
  intros Hnd. induction l as [|bl l IH]; intros Hin.
  { clear Hnd Hin. induction keys as [|k keys IH]; [done|]. exact IH. }
  etransitivity; [|apply perm_skip, IH; intros; apply Hin; set_solver]. clear IH.
  assert (categoryKey bl ∈ keys) as Hk by (apply Hin; set_solver). clear Hin.
  induction keys as [|k keys IH]; [by apply elem_of_nil in Hk|].
  apply NoDup_cons in Hnd as [Hk' Hnd]. cbn [map concat List.filter].
  destruct (String.eqb_spec (categoryKey bl) k) as [E|Hne].
  - rewrite <- app_comm_cons. apply perm_skip, Permutation_app_head.
    assert (forall k', k' ∈ keys -> String.eqb (categoryKey bl) k' = false) as Hf
      by (intros k' ?; apply String.eqb_neq; congruence).
    clear -Hf. induction keys as [|k' keys IH]; [done|]. cbn [map concat List.filter].
    rewrite Hf by set_solver. apply Permutation_app_head, IH. intros; apply Hf; set_solver.
  - rewrite elem_of_cons in Hk. destruct Hk as [?|Hk]; [done|].
    rewrite IH by done. rewrite Permutation_middle. done.
Qed.

(** the categories of the page are exactly the lists it got, each in the one category of its key, in the
    order of the catalog *)
Theorem categories_partition l :
  concat (map snd (grouped l)) ≡ₚ l /\ NoDup (map fst (grouped l)) /\
  Forall (fun g => snd g <> [] /\ snd g `sublist_of` l /\ Forall (fun bl => categoryKey bl = fst g) (snd g)) (grouped l).
Proof.
  unfold grouped. rewrite !map_map. cbn [fst snd]. split; [|split].
  - apply groups_perm; [apply NoDup_dedup|]. intros bl Hbl. apply elem_of_dedup, list_elem_of_fmap. eauto.
  - rewrite map_id. apply NoDup_dedup.
  - apply Forall_fmap, Forall_forall. intros k Hk. cbn [compose fst snd].
    apply elem_of_dedup, list_elem_of_fmap in Hk as (bl & -> & Hbl). split; [|split].
    + intros E. assert (bl ∈ List.filter (fun b => String.eqb (categoryKey b) (categoryKey bl)) l) as Hin
        by (apply elem_of_list_filter_b; split; [done|apply String.eqb_refl]). rewrite E in Hin. by apply elem_of_nil in Hin.
    + apply filter_b_sublist.
    + apply Forall_forall. intros b [_ Hb]%elem_of_list_filter_b. by to_prop.
Qed.

(** ** Witnesses *)

Definition listed (id kind : string) : ModelBlocklist :=
  MkModelBlocklist id None None "" (Some 100) None None None (Some kind) (Some "2025-01-01") id None None None.

Definition nrd_catalog : list ModelBlocklist := map (fun t => listed (tier_id t) "security") NRD_GROUP.

Definition some_db : Db := mkDb ["hagezi_nrd_07"; "hagezi_nrd_14_08"; "oisd"] ["google"] false.
Definition page_of (d : Db) : BlPage :=
  (@mount utc_host (setActiveProfile (Some (profileOf "p1" d)) initialState)) <| blocklists := nrd_catalog |>.

Lemma changes_reach_server_and_page_witness :
  let '(s', d', p) := serve "p1" [] (@handler utc_host (BlocklistSwitch "oisd" false) (page_of some_db)) (page_of some_db) some_db in
  p = Ret tt /\ shows "p1" d' s' /\
  switched (db_lists some_db) (@turned utc_host (BlocklistSwitch "oisd" false) (page_of some_db)) (db_lists d') /\
  switched (db_services some_db) (servicesTurned (BlocklistSwitch "oisd" false)) (db_services d') /\
  db_rebinding d' = db_rebinding some_db.
Proof.
  apply (@changes_reach_server_and_page utc_host "p1" some_db (page_of some_db) (BlocklistSwitch "oisd" false)); reflexivity.
Defined.

Lemma chosen_depth_is_shown_witness :
  let '(s', d', _) := serve "p1" [] (handleNrdChange (show 4) (page_of some_db)) (page_of some_db) some_db in
  Z.of_nat (nrdDepthFromEnabled (nrdIds (page_of some_db)) (enabledBlocklists s')) = 4 /\
  forall i, i ∉ nrdIds (page_of some_db) -> i ∈ db_lists d' <-> i ∈ db_lists some_db.
Proof.
  apply (@chosen_depth_is_shown utc_host "p1" some_db (page_of some_db) 4); [reflexivity|reflexivity|].
  vm_compute. split; discriminate.
Defined.

Lemma saved_switch_is_shown_failed_witness :
  let '(s', d', p) := serve "p1" [false; true] (handleBlocklistSwitch "adguard" true (page_of some_db)) (page_of some_db) some_db in
  p = Ret tt /\ ("adguard" ∈ db_lists d' <-> true = true) /\ isOn s' "adguard" = false /\ updating s' = None /\
  last (toasts s') = Some (mkDescToast ToastError "Error" (Some "Failed to update blocklist. Please try again.")).
Proof. apply (saved_switch_is_shown_failed "p1" some_db (page_of some_db) "adguard" true); reflexivity. Defined.

Lemma catalog_loads_the_shown_sort_witness :
  let evs := [Update (Sort SortName)] in
  let s := ui (run (@bl_step utc_host) (mkSys (@mount utc_host initialState) []) evs) in
  fetches s !! 1%nat = Some (SortName, true) /\
  blocklists (bl_update (CatalogSettled 1 (Ok (Some nrd_catalog))) s) = nrd_catalog.
Proof.
  cbv zeta. split; [by vm_compute|].
  exact (proj2 (proj2 (proj2 (@catalog_loads_the_shown_sort utc_host initialState [Update (Sort SortName)] 1%nat
           (SortName, true) (Ok (Some nrd_catalog))) eq_refl))).
Defined.

(** A switch that is refused. *)
Lemma blocklists_page_settles_witness :
  let y := run (@bl_step utc_host) (mkSys (@mount utc_host (store (page_of some_db))) [])
             [Invoke (BlocklistSwitch "oisd" false);
              Answered 0 (fun r => match r with ProfileGet _ => Ok (profileOf "p1" some_db) | BlocklistsGet _ => Ok None
                                   | _ => Throw OtherError end)] in
  updating (ui y) = None /\ servicesUpdating (ui y) = None /\ rebindingUpdating (ui y) = false.
Proof. apply (@blocklists_page_settles utc_host). vm_compute. reflexivity. Defined.
