(* ===== verification/BlocklistCards.v ===== *)
(** * The cards of the blocklists page

    What the tabs of the blocklists page render from their state: [BlocklistCard.tsx],
    [CategoryCard.tsx], [ExpandPanel.tsx], [NrdRangeCard.tsx], [NoBlocklistsFound.tsx],
    [SecurityContentSection.tsx], [CategoriesContentSection.tsx], [ServiceCard.tsx] and
    [ServicesContentSection.tsx] of [src/app/src/pages/blocklists], and the markup of
    [MainContentSection.tsx] that puts them together. The handlers are those of BlocklistsPage; the
    theorems say which list is on which card, and that a switch does what its position says. *)

From stdpp Require Import list_tactics.
From S2P Require Import Prelude JsString JsNumber JsDate ApiTypes Blocklists ServiceLogos Store DataCollection Async BlocklistsPage BlocklistsPageFacts.
From coqutil Require Import Datatypes.RecordSetters.
Import TriangleBracketNotations.

#[local] Arguments constant _ _ _ /.

(** ** Cards *)

(** A controlled switch: its position, and what a change of it invokes. *)
Record SwitchView := mkSwitch { sw_checked : bool; sw_disabled : bool; sw_on : bool -> BlHandler }.

Record ListCard := mkListCard {
  lc_title : string;
  lc_description : string;
  lc_entries : option Z;
  lc_updated : string;
  lc_switch : SwitchView;
  lc_homepage : option string;
  lc_logoSrc : option string;
  lc_logoWide : bool;
}.

(** React renders no text for [undefined]; a template writes it out. *)
Definition entriesText (entries : option Z) : string := ((show <$> entries) ?? "") ++s " entries".
Definition entriesTitle (entries : option Z) : string := ((show <$> entries) ?? "undefined") ++s " entries".
Definition homepageTooltip (homepage : option string) : string := opt_or homepage "Open homepage".
Definition homepageLabel (homepage : option string) : string :=
  if truthy_opt homepage then "Open " ++s (homepage ?? "") else "Open homepage".
(** The address that a click opens in a new window. *)
Definition opensHomepage (homepage : option string) : option string :=
  if truthy_opt homepage then homepage else None.

Inductive CategoryState : Set := AllOn | NoneOn | PartialOn.

Definition getCategoryState (enabledLists totalLists : nat) : CategoryState :=
  if (enabledLists =? 0)%nat then NoneOn
  else if (totalLists <=? enabledLists)%nat then AllOn else PartialOn.

Record CategoryCard := mkCategoryCard {
  cc_label : string;
  cc_description : string;
  cc_totalLists : nat;
  cc_enabledLists : nat;
  cc_totalEntries : string;
  cc_lastUpdated : string;
  cc_onToggle : BlHandler;
  cc_toggleDisabled : bool;
  cc_expanded : bool;
}.

Definition cc_state (c : CategoryCard) : CategoryState := getCategoryState (cc_enabledLists c) (cc_totalLists c).
Definition isNoneOn (st : CategoryState) : bool := match st with NoneOn => true | _ => false end.

(** The switch calls [onToggle] whatever its new position is. *)
Definition cc_switch (c : CategoryCard) : SwitchView :=
  mkSwitch (negb (isNoneOn (cc_state c))) (cc_toggleDisabled c) (fun _ => cc_onToggle c).
Definition cc_badge (c : CategoryCard) : option string :=
  if isNoneOn (cc_state c) then None
  else Some (show (Z.of_nat (cc_enabledLists c)) ++s "/" ++s show (Z.of_nat (cc_totalLists c))).
Definition cc_listsText (c : CategoryCard) : string :=
  show (Z.of_nat (cc_totalLists c)) ++s " " ++s (if (cc_totalLists c =? 1)%nat then "list" else "lists").
Definition cc_entriesText (c : CategoryCard) : string := cc_totalEntries c ++s " entries".
Definition cc_updatedTitle (c : CategoryCard) : option string :=
  if truthy (cc_lastUpdated c) then Some ("Updated " ++s cc_lastUpdated c) else None.

(** A group: its card, and the label and the cards of its panel when it is open. *)
Record GroupView := mkGroup { gv_card : CategoryCard; gv_panel : option (string * list ListCard) }.

(** ** The panel of a group *)

Record ExpandPanel := mkPanel { contentHeight : Z; spread : bool }.

Definition mountPanel : ExpandPanel := mkPanel 0 false.

(** The effect of the panel; the height of its content is what the browser measures. *)
Definition measureEffect (expanded : bool) (scrollHeight : Z) (p : ExpandPanel) : ExpandPanel :=
  let p1 := if expanded then mkPanel scrollHeight (spread p) else p in
  if negb expanded then mkPanel (contentHeight p1) false else p1.

Definition handleTransitionEnd (expanded : bool) (propertyName : string) (p : ExpandPanel) : ExpandPanel :=
  if String.eqb propertyName "max-height" && expanded then mkPanel (contentHeight p) true else p.

Definition maxHeight (expanded : bool) (p : ExpandPanel) : string :=
  if expanded then if spread p then "none" else show (contentHeight p + 48) ++s "px" else "0px".

(** ** The range card *)

Record RangeStep := mkRangeStep { rs_value : string; rs_label : string; rs_ariaLabel : string }.

Record NrdCard := mkNrdCard {
  nc_depth : nat;
  nc_disabled : bool;
  nc_homepage : option string;
  nc_steps : list RangeStep;
  nc_status : string;
  nc_entries : string;
}.

Definition labelById (id : string) : option string :=
  tier_label <$> array_find (fun t => String.eqb (tier_id t) id) NRD_GROUP.

(** The middle dot. *)
Definition middot : string := String (ascii_of_nat 183) "".

Definition rangeStep (i : nat) (bl : ModelBlocklist) : RangeStep :=
  let n := show (Z.of_nat i + 1) in
  mkRangeStep n (labelById (bl_blocklist_id bl) ?? ("T" ++s n))
    ("Block domains registered in the " ++s (labelById (bl_blocklist_id bl) ?? n) ++s " window").

(** A dash stands for the long one. *)
Definition offStep : RangeStep := mkRangeStep "0" "Off" "Off - block no newly registered domains".

Section views.
Context {H : Host} (formatDistance : string -> string) (logos : gmap string LogoVariants) (isDark restricted : bool).
Implicit Types (s : BlPage) (bl : ModelBlocklist).

Definition rangeStatus (depth : nat) : string :=
  if (depth =? 0)%nat then "Not blocking newly registered domains"
  else "Blocking domains registered in the "
       ++s ((tier_window <$> (NRD_GROUP !! (depth - 1)%nat)) ?? "selected window").

Definition nrdRangeCard (items : list ModelBlocklist) s : NrdCard :=
  let depth := nrdDepthFromEnabled (map bl_blocklist_id items) (enabledBlocklists s) in
  let selected := nativeSummary (take depth items) (enabledBlocklists s) in
  {| nc_depth := depth;
     nc_disabled := is_up (updating s) || restricted;
     nc_homepage := bl ← head items; bl_homepage bl;
     nc_steps := offStep :: imap rangeStep items;
     nc_status := rangeStatus depth;
     nc_entries :=
       if (depth =? 0)%nat then "0 entries"
       else formatEntries (totalEntries selected) ++s " entries"
            ++s (if truthy (mostRecent selected)
                 then " " ++s middot ++s " updated " ++s formatUpdatedRelative formatDistance (Some (mostRecent selected))
                 else "") |}.

(** ** The card of a list *)

Definition listCard (logo : ModelBlocklist -> option NativeLogo) s bl : ListCard :=
  {| lc_title := bl_name bl;
     lc_description := bl_description bl;
     lc_entries := bl_entries bl;
     lc_updated := formatUpdatedRelative formatDistance (bl_last_modified bl);
     lc_switch := mkSwitch (isOn s (bl_blocklist_id bl))
                    (bool_decide (updating s = Some (bl_blocklist_id bl)) || restricted)
                    (BlocklistSwitch (bl_blocklist_id bl));
     lc_homepage := bl_homepage bl;
     lc_logoSrc := l ← logo bl; getServiceLogoSrc logos (Some (logo_key l)) None isDark;
     lc_logoWide := (logo_wide <$> logo bl) ?? false |}.

Definition noLogo (bl : ModelBlocklist) : option NativeLogo := None.

(** The card of a group from the summary of its lists. *)
Definition groupCard (label description : string) (items : list ModelBlocklist) (sum : NativeSummary)
    (onToggle : BlHandler) (expanded : bool) s : CategoryCard :=
  {| cc_label := label;
     cc_description := description;
     cc_totalLists := length items;
     cc_enabledLists := enabledCount sum;
     cc_totalEntries := formatEntries (totalEntries sum);
     cc_lastUpdated := formatUpdatedRelative formatDistance (Some (mostRecent sum));
     cc_onToggle := onToggle;
     cc_toggleDisabled := is_up (updating s) || restricted;
     cc_expanded := expanded |}.

(** ** The Lists tab *)

Inductive ListsBody : Type :=
| ListsSkeleton
| ListsEmpty (searchTerm : option string)
| ListsCards (cards : list ListCard) (native : option GroupView).

Definition emptyStateText (searchTerm : option string) : string :=
  if truthy_opt searchTerm then "No results for '" ++s (searchTerm ?? "") ++s "'." else "No blocklists found.".

Definition nativeGroup s : option GroupView :=
  if showNativeCard s then
    Some (mkGroup
      (groupCard NATIVE_LABEL NATIVE_DESCRIPTION (nativeItems s)
         (nativeSummary (nativeItems s) (enabledBlocklists s)) NativeToggle (nativeExpanded s) s)
      (if nativeExpanded s then Some (NATIVE_LABEL, map (listCard nativeLogo s) (nativePanelItems s)) else None))
  else None.

Definition listsBody s : ListsBody :=
  if loading s then ListsSkeleton
  else if bool_decide (filteredBlocklists s = []) && negb (showNativeCard s)
  then ListsEmpty (let t := trim (searchValue s) in if truthy t then Some t else None)
  else ListsCards (map (listCard noLogo s) (filteredBlocklists s)) (nativeGroup s).

(** The button above the lists. *)
Record ToggleListedButton := mkToggleListed { tl_label : string; tl_title : string; tl_disabled : bool }.

Definition toggleListedButton s : ToggleListedButton :=
  let actionLabel := if allListedEnabled s then "Disable" else "Enable" in
  {| tl_label := actionLabel ++s " listed blocklists";
     tl_title := if restricted then "Feature unavailable in limited access mode"
                 else actionLabel ++s " currently listed blocklists";
     tl_disabled := negb (toggleListedActive s) || bool_decide (updating s = Some "all") || restricted |}.

(** ** The Security tab *)

Definition regularItems s : list ModelBlocklist :=
  List.filter (fun bl => negb (isNrdItem bl)) (securityBlocklists s).
Definition nrdItems s : list ModelBlocklist := orderedNrdItems (securityBlocklists s).

Definition rebindingSwitch s : SwitchView :=
  mkSwitch (rebindingEnabled s) (rebindingUpdating s || restricted) RebindingToggle.

(** The threat lists, when there are any. *)
Inductive SecurityBody : Type :=
| SecuritySkeleton
| SecurityCards (rebinding : SwitchView) (threats : option (option NrdCard * list ListCard)).

Definition securityBody s : SecurityBody :=
  if loading s then SecuritySkeleton
  else SecurityCards (rebindingSwitch s)
    (if bool_decide (nrdItems s = []) && bool_decide (regularItems s = []) then None
     else Some (if bool_decide (nrdItems s = []) then None else Some (nrdRangeCard (nrdItems s) s),
                map (listCard noLogo s) (regularItems s))).

(** ** The Categories tab *)

(** Its state is the key of the open category, and is lost with the tab. *)
Definition mountCategories : option string := None.
Definition onExpandToggle (key : string) (expandedCategory : option string) : option string :=
  if bool_decide (expandedCategory = Some key) then None else Some key.

Definition expandedData (expandedCategory : option string) s : option PreparedCategory :=
  if truthy_opt expandedCategory
  then array_find (fun c => bool_decide (Some (pc_key c) = expandedCategory)) (preparedCategories s) else None.

Definition categoryGroup (expandedCategory : option string) s (cat : PreparedCategory) : GroupView :=
  let isExpanded := bool_decide (expandedCategory = Some (pc_key cat)) in
  mkGroup
    (groupCard (cm_label (pc_meta cat)) (cm_description (pc_meta cat)) (pc_items cat) (pc_summary cat)
       (CategoryToggle (pc_key cat)) isExpanded s)
    (if isExpanded then
       data ← expandedData expandedCategory s;
       Some (cm_label (pc_meta data), map (listCard noLogo s) (pc_items data))
     else None).

(** [None] while the catalog loads. *)
Definition categoriesBody (expandedCategory : option string) s : option (list GroupView) :=
  if loading s then None else Some (map (categoryGroup expandedCategory s) (preparedCategories s)).

(** ** The Services tab *)

Record ServicesTab := mkServicesTab {
  sv_services : list ServicescatalogService;
  sv_loading : bool;
  sv_live : bool;
  sv_search : string;
  sv_status : StatusFilter;
}.

Definition mountServices : ServicesTab := mkServicesTab [] true true "" AllServices.
(** The tab was left. *)
Definition unmountServices (t : ServicesTab) : ServicesTab := t <| sv_live := false |>.
(** The catalog is answered; an answer may have no services. *)
Definition catalogAnswered (a : result BlError (option (list ServicescatalogService))) (t : ServicesTab) : ServicesTab :=
  if negb (sv_live t) then t
  else t <| sv_services := match a with Ok l => l ?? [] | Throw _ => [] end |> <| sv_loading := false |>.

Record ServiceCard := mkServiceCard {
  sc_name : string;
  sc_description : string;
  sc_asnsLabel : string;
  sc_asnsTitle : string;
  sc_logoSrc : option string;
  sc_logoAlt : string;
  sc_switch : SwitchView;
}.

Definition isBlocked s (svc : ServicescatalogService) : bool :=
  truthy_opt (svc_id svc) && bool_decide (svc_id svc ?? "" ∈ blockedServices s).

Definition serviceCard (t : ServicesTab) s (svc : ServicescatalogService) : ServiceCard :=
  let id := svc_id svc ?? "" in
  let name := svc_name svc ?? "Unnamed" in
  {| sc_name := name;
     sc_description := "Block known " ++s name ++s " websites, apps, and related services.";
     sc_asnsLabel := formatASNs (svc_asns svc);
     sc_asnsTitle := formatASNsTitle (svc_asns svc);
     sc_logoSrc := getServiceLogoSrc logos (Some id) (Some name) isDark;
     sc_logoAlt := name ++s " logo";
     sc_switch := mkSwitch (isBlocked s svc)
                    (bool_decide (servicesUpdating s = Some id) || negb (truthy id) || restricted)
                    (ServiceSwitch (sv_services t) id) |}.

Inductive ServicesBody : Type :=
| ServicesSkeleton
| ServicesMessage (text : string)
| ServicesCards (cards : list ServiceCard).

Definition servicesBody (t : ServicesTab) s : ServicesBody :=
  let shown := filteredServices (sv_services t) (sv_search t) (sv_status t) (blockedServices s) in
  if sv_loading t then ServicesSkeleton
  else if bool_decide (shown = []) then
    ServicesMessage (if bool_decide (sv_services t = []) then "No services available."
                     else "No services match your search.")
  else ServicesCards (map (serviceCard t s) shown).

(** The search and the status filter. *)
Definition showsServiceFilters (t : ServicesTab) : bool :=
  negb (sv_loading t) && negb (bool_decide (sv_services t = [])).

(** ** The switches of the page *)

Definition groupSwitches (g : GroupView) : list SwitchView :=
  cc_switch (gv_card g) :: match gv_panel g with Some (_, l) => map lc_switch l | None => [] end.

Definition listsSwitches (b : ListsBody) : list SwitchView :=
  match b with
  | ListsCards l native => map lc_switch l ++ match native with Some g => groupSwitches g | None => [] end
  | _ => []
  end.
Definition securitySwitches (b : SecurityBody) : list SwitchView :=
  match b with SecurityCards _ (Some (_, l)) => map lc_switch l | _ => [] end.
Definition categoriesSwitches (b : option (list GroupView)) : list SwitchView :=
  match b with Some l => concat (map groupSwitches l) | None => [] end.

(** Every switch of lists of the three tabs of lists, with [expandedCategory] open. *)
Definition pageSwitches (expandedCategory : option string) s : list SwitchView :=
  listsSwitches (listsBody s) ++ securitySwitches (securityBody s)
  ++ categoriesSwitches (categoriesBody expandedCategory s).

(** With the switch of the security tab that is not about lists. *)
Definition tabSwitches (expandedCategory : option string) s : list SwitchView :=
  pageSwitches expandedCategory s
  ++ match securityBody s with SecurityCards rebinding _ => [rebinding] | SecuritySkeleton => [] end.

(** The lists a handler of a switch is about. *)
Definition governs s (h : BlHandler) : list string :=
  match h with
  | BlocklistSwitch i _ => [i]
  | CategoryToggle key => categoryIds s key
  | NativeToggle => nativeIds s
  | _ => []
  end.

(** ** What a switch of the page can be *)

(** The lists that have a card of their own. *)
Definition carded s bl : Prop :=
  bl ∈ filteredBlocklists s \/ bl ∈ nativePanelItems s \/ bl ∈ regularItems s
  \/ exists c, c ∈ preparedCategories s /\ bl ∈ pc_items c.

Inductive Shown s : SwitchView -> Prop :=
| shown_list logo bl : carded s bl -> Shown s (lc_switch (listCard logo s bl))
| shown_native label description expanded :
    nativeItems s <> [] ->
    Shown s (cc_switch (groupCard label description (nativeItems s)
               (nativeSummary (nativeItems s) (enabledBlocklists s)) NativeToggle expanded s))
| shown_category label description expanded c :
    c ∈ preparedCategories s ->
    Shown s (cc_switch (groupCard label description (pc_items c) (pc_summary c) (CategoryToggle (pc_key c)) expanded s)).

Lemma listCards_shown logo s l sw :
  (forall bl, bl ∈ l -> carded s bl) -> sw ∈ map lc_switch (map (listCard logo s) l) -> Shown s sw.
Proof.
  rewrite map_map. intros Hl (bl & -> & Hbl)%list_elem_of_fmap. apply shown_list. auto.
Qed.

Lemma nativeGroup_shown s g sw : nativeGroup s = Some g -> sw ∈ groupSwitches g -> Shown s sw.
Proof.
  unfold nativeGroup, groupSwitches. destruct (showNativeCard s) eqn:E; [intros [= <-]|done]. cbn [gv_card gv_panel].
  rewrite elem_of_cons. intros [-> |Hsw].
  - apply shown_native. intros E'. unfold showNativeCard, nativeCardVisible in E. cbn in E. by rewrite E' in E.
  - destruct (nativeExpanded s); [|by apply elem_of_nil in Hsw].
    eapply listCards_shown; [|exact Hsw]. intros bl Hbl. unfold carded. auto.
Qed.

Lemma categoryGroup_shown x s c sw :
  c ∈ preparedCategories s -> sw ∈ groupSwitches (categoryGroup x s c) -> Shown s sw.
Proof.
  unfold groupSwitches, categoryGroup. cbn [gv_card gv_panel]. rewrite elem_of_cons. intros Hc [-> |Hsw].
  - by apply shown_category.
  - case_bool_decide; [|by apply elem_of_nil in Hsw].
    destruct (expandedData x s) as [data|] eqn:Ed; cbn in Hsw; [|by apply elem_of_nil in Hsw].
    eapply listCards_shown; [|exact Hsw]. intros bl Hbl. do 3 right. exists data. split; [|done].
    unfold expandedData in Ed. destruct (truthy_opt x); [|done]. by apply array_find_elem in Ed as [? _].
Qed.

Lemma page_switches_shown x s sw : sw ∈ pageSwitches x s -> Shown s sw.
Proof.
  unfold pageSwitches, listsBody, securityBody, categoriesBody. destruct (loading s).
  { intros Hsw. by apply elem_of_nil in Hsw. }
  rewrite !elem_of_app. intros [Hsw|[Hsw|Hsw]].
  - destruct (bool_decide (filteredBlocklists s = []) && _); [by apply elem_of_nil in Hsw|].
    cbn [listsSwitches] in Hsw. apply elem_of_app in Hsw as [Hsw|Hsw].
    + eapply listCards_shown; [|exact Hsw]. unfold carded. auto.
    + destruct (nativeGroup s) as [g|] eqn:Eg; [|by apply elem_of_nil in Hsw]. by eapply nativeGroup_shown.
  - destruct (bool_decide (nrdItems s = []) && _); [by apply elem_of_nil in Hsw|].
    cbn [securitySwitches] in Hsw. eapply listCards_shown; [|exact Hsw]. unfold carded. auto.
  - cbn [categoriesSwitches] in Hsw. apply list_elem_of_In, in_concat in Hsw as (l & Hl & Hsw).
    apply list_elem_of_In in Hl, Hsw. rewrite map_map in Hl. apply list_elem_of_fmap in Hl as (c & -> & Hc).
    by eapply categoryGroup_shown.
Qed.

(** ** A switch does what its position says *)

Lemma group_checked label description items h expanded s :
  sw_checked (cc_switch (groupCard label description items (nativeSummary items (enabledBlocklists s)) h expanded s))
  = negb (forallb (fun i => negb (isOn s i)) (map bl_blocklist_id items)).
Proof.
  rewrite <- summary_none_on. cbn. unfold cc_state, getCategoryState. cbn.
  destruct (_ =? 0)%nat; [done|]. by destruct (_ <=? _)%nat.
Qed.

Lemma existsb_forallb_negb {A} (p : A -> bool) (l : list A) : existsb p l = negb (forallb (fun i => negb (p i)) l).
Proof. induction l as [|i l IH]; cbn; [done|]. rewrite IH. by destruct (p i). Qed.

Lemma prepared_spec s c :
  c ∈ preparedCategories s ->
  pc_summary c = nativeSummary (pc_items c) (enabledBlocklists s) /\
  pc_items c = List.filter (fun bl => String.eqb (categoryKey bl) (pc_key c)) (categoryBlocklists s) /\
  pc_items c <> [] /\ pc_key c <> "other".
Proof.
  unfold preparedCategories. intros ([key items] & -> & [Hg Hk]%elem_of_list_filter_b)%list_elem_of_fmap.
  cbn [pc_summary pc_items pc_key]. split; [done|]. pose proof Hg as Hg'. unfold grouped in Hg'.
  apply list_elem_of_fmap in Hg' as (k & [= -> ->] & _). split; [done|].
  destruct (categories_partition (categoryBlocklists s)) as (_ & _ & Hall).
  rewrite Forall_forall in Hall. destruct (Hall _ Hg) as [Hne _]. split; [exact Hne|]. by to_prop.
Qed.

(** What a switch turns is what it governs: on when it is off, and off when it is on. *)
Lemma shown_turns s sw :
  Shown s sw ->
  let h := sw_on sw (negb (sw_checked sw)) in
  governs s h <> [] /\ turned h s = if sw_checked sw then ([], governs s h) else (governs s h, []).
Proof.
  intros Hsw. cbv zeta. destruct Hsw as [logo bl _|label description x Hne|label description x c Hc].
  - split; [done|]. cbn. by destruct (isOn s _).
  - rewrite group_checked. cbn [sw_on cc_switch governs turned cc_onToggle groupCard]. unfold allOrNone. fold (nativeIds s).
    split; [|by destruct (forallb _ _)]. unfold nativeIds. by destruct (nativeItems s).
  - destruct (prepared_spec s c Hc) as (-> & Ei & Hne & _).
    rewrite group_checked. cbn [sw_on cc_switch governs turned cc_onToggle groupCard]. unfold allOrNone.
    replace (categoryIds s (pc_key c)) with (map bl_blocklist_id (pc_items c)) by (by rewrite Ei).
    split; [by destruct (pc_items c)|by destruct (forallb _ _)].
Qed.

(** A switch of lists is on as long as one of its lists is. *)
Lemma shown_checked s sw b :
  Shown s sw -> sw_checked sw = existsb (isOn s) (governs s (sw_on sw b)) /\ forall b', sw_on sw b <> RebindingToggle b'.
Proof.
  intros Hsw. destruct Hsw as [logo bl _|label description x Hne|label description x c Hc].
  - cbn. by rewrite orb_false_r.
  - rewrite group_checked, existsb_forallb_negb. done.
  - destruct (prepared_spec s c Hc) as (-> & Ei & _ & _). rewrite group_checked, existsb_forallb_negb.
    cbn [sw_on cc_switch governs cc_onToggle groupCard]. unfold categoryIds. by rewrite <- Ei.
Qed.

(** What one use of a switch leaves. *)
Definition other_position s sw s' : Prop :=
  let on := negb (sw_checked sw) in
  let h := sw_on sw on in
  (h = RebindingToggle on /\ sw_checked sw = rebindingEnabled s /\ governs s h = [] /\ rebindingEnabled s' = on \/
   sw_checked sw = existsb (isOn s) (governs s h) /\ governs s h <> [] /\ rebindingEnabled s' = rebindingEnabled s) /\
  (forall i, isOn s' i = if bool_decide (i ∈ governs s h) then on else isOn s i) /\
  (forall i, i ∈ blockedServices s' <-> i ∈ blockedServices s).

Lemma services_shows pid d s : shows pid d s -> blockedServices s = db_services d.
Proof. unfold shows, blockedServices, privacy. by intros ->. Qed.

Lemma rebinding_shows pid d s : shows pid d s -> rebindingEnabled s = db_rebinding d.
Proof. unfold shows, rebindingEnabled. by intros ->. Qed.

(** C3: against a server that applies what it is sent, using any switch of the list, security and
    category tabs turns it over: a switch of lists is on as long as one of its lists is, and ends
    with every list of it in the other position; the switch of rebinding protection turns the
    protection over; every other list, every service and, for a switch of lists, the protection stay
    as they were *)
Theorem switch_takes_other_position pid d s x sw :
  truthy pid = true -> shows pid d s -> sw ∈ tabSwitches x s ->
  let '(s', d', p) := serve pid [] (handler (sw_on sw (negb (sw_checked sw))) s) s d in
  p = Ret tt /\ shows pid d' s' /\ other_position s sw s'.
Proof.
  intros Hpid Hs Hsw. unfold other_position. set (on := negb _). set (h := sw_on sw on).
  destruct (handler_lands pid Hpid h d s Hs) as (d0 & (Hp & Hd & Hsh) & Hsl & Hsv & Hrb).
  destruct (serve _ _ _ _ _) as [[s' d'] p]. cbn in Hp, Hd, Hsh. subst. split; [done|]. split; [done|].
  rewrite (rebinding_shows pid d0 s'), (rebinding_shows pid d s), (services_shows pid d0 s'), (services_shows pid d s), Hrb by done.
  assert (h = RebindingToggle on /\ sw_checked sw = db_rebinding d \/
    (governs s h <> [] /\ turned h s = if sw_checked sw then ([], governs s h) else (governs s h, [])) /\
    sw_checked sw = existsb (isOn s) (governs s h) /\ (forall b, h <> RebindingToggle b) /\
    servicesTurned h = ([], [])) as Hcases.
  { apply elem_of_app in Hsw as [Hsw|Hsw].
    - right. apply page_switches_shown in Hsw. destruct (shown_checked s sw on Hsw) as [Hc Hno].
      split; [by apply shown_turns|]. split; [done|]. split; [done|]. by destruct Hsw.
    - left. unfold securityBody in Hsw. destruct (loading s); [by apply elem_of_nil in Hsw|].
      apply list_elem_of_singleton in Hsw as ->. split; [done|]. by apply rebinding_shows with pid. }
  split; [|split].
  - destruct Hcases as [[-> Hc]|([Hne _] & Hc & Hno & _)]; [by left|]. right. split; [done|]. split; [done|].
    destruct h; done.
  - intros i. rewrite (isOn_shows pid d0), (isOn_shows pid d) by done. specialize (Hsl i).
    destruct Hcases as [[-> _]|([_ Ht] & _)].
    + cbn in Hsl |- *. apply bool_decide_ext. set_solver.
    + rewrite Ht in Hsl. clear Ht. unfold on. clearbody h. destruct (sw_checked sw); cbn [fst snd negb] in *.
      all: destruct (decide (i ∈ governs s h)); [rewrite (bool_decide_eq_true_2 (i ∈ governs s h)) by done
                                                |rewrite (bool_decide_eq_false_2 (i ∈ governs s h)) by done].
      all: first [apply bool_decide_eq_true_2|apply bool_decide_eq_false_2|apply bool_decide_ext]; set_solver.
  - intros i. specialize (Hsv i). destruct Hcases as [[-> _]|(_ & _ & _ & Ht)]; [cbn in Hsv; set_solver|].
    rewrite Ht in Hsv. cbn in Hsv. set_solver.
Qed.

(** ** Which lists are on the page *)

(** A security list that is tagged as one of the range card without being one of its windows, and a
    list of the categories without a category of its own. *)
Definition stranded (bl : ModelBlocklist) : bool :=
  hasKind "security" bl && isNrdItem bl && negb (bool_decide (bl_blocklist_id bl ∈ NRD_IDS))
  || hasKind "category" bl && String.eqb (categoryKey bl) "other".

Lemma hasKind_other k k' bl : k <> k' -> hasKind k bl = true -> hasKind k' bl = false.
Proof.
  unfold hasKind. intros Hne E. apply bool_decide_eq_true in E. rewrite bool_decide_eq_false, E. congruence.
Qed.

Lemma filter_both {A} (p : A -> bool) l : l ≡ₚ List.filter p l ++ List.filter (fun x => negb (p x)) l.
Proof.
  induction l as [|x l IH]; [done|]. cbn. destruct (p x); cbn; [by apply perm_skip|].
  rewrite <- Permutation_middle. by apply perm_skip.
Qed.

Lemma filter_same {A} (p q : A -> bool) l :
  (forall x, x ∈ l -> p x = q x) -> List.filter p l = List.filter q l.
Proof. intros Hpq. apply List.filter_ext_in. intros x Hx. by apply Hpq, list_elem_of_In. Qed.

Lemma filter_perm {A} (p : A -> bool) (l k : list A) : l ≡ₚ k -> List.filter p l ≡ₚ List.filter p k.
Proof.
  induction 1 as [|x l k _ IH|x y l|l k m _ IH1 _ IH2]; cbn; [done| | |by etransitivity].
  - destruct (p x); [by apply perm_skip|done].
  - destruct (p x), (p y); try done. apply perm_swap.
Qed.

Lemma filter_filter_b {A} (p q : A -> bool) l :
  List.filter p (List.filter q l) = List.filter (fun x => q x && p x) l.
Proof. induction l as [|x l IH]; [done|]. cbn. destruct (q x); cbn; [destruct (p x)|]; by rewrite IH. Qed.

(** The catalog by kind. *)
Lemma by_kind s : blocklists s ≡ₚ regularBlocklists s ++ securityBlocklists s ++ categoryBlocklists s.
Proof.
  unfold regularBlocklists, securityBlocklists, categoryBlocklists.
  rewrite (filter_both (hasKind "category") (blocklists s)) at 1.
  rewrite (filter_both (hasKind "security") (List.filter (fun x => negb (hasKind "category" x)) (blocklists s))).
  rewrite !filter_filter_b.
  rewrite (filter_same (fun x => negb (hasKind "category" x) && hasKind "security" x) (hasKind "security")).
  - rewrite (Permutation_app_comm (List.filter (hasKind "category") _)), <- app_assoc.
    rewrite (Permutation_app_comm (List.filter (hasKind "security") _)), <- app_assoc.
    apply Permutation_app_head, Permutation_app_comm.
  - intros bl _. destruct (hasKind "security" bl) eqn:E; [|apply andb_false_r].
    by rewrite (hasKind_other "security" "category" bl ltac:(discriminate) E).
Qed.

Lemma same_list (l : list ModelBlocklist) b1 b2 :
  NoDup (map bl_blocklist_id l) -> b1 ∈ l -> b2 ∈ l -> bl_blocklist_id b1 = bl_blocklist_id b2 -> b1 = b2.
Proof.
  intros Hnd [i Hi]%list_elem_of_lookup [j Hj]%list_elem_of_lookup E.
  assert (i = j) as <-; [|congruence].
  eapply (NoDup_lookup _ _ _ (bl_blocklist_id b1) Hnd); rewrite list_lookup_fmap; [by rewrite Hi|rewrite Hj; cbn; congruence].
Qed.

Lemma elem_of_nrdItems s bl :
  NoDup (map bl_blocklist_id (blocklists s)) ->
  bl ∈ nrdItems s <-> bl ∈ securityBlocklists s /\ bl_blocklist_id bl ∈ NRD_IDS.
Proof.
  intros Hnd. unfold nrdItems, orderedNrdItems. rewrite list_elem_of_omap. split.
  - intros (t & Ht & Hb). pose proof (byId_id _ _ _ Hb) as Eid. unfold byId in Hb.
    apply last_Some_elem_of, elem_of_list_filter_b in Hb as [Hb _]. split; [done|]. rewrite Eid.
    apply list_elem_of_fmap. eauto.
  - intros [Hb (t & Et & Ht)%list_elem_of_fmap]. exists t. split; [done|]. unfold byId.
    assert (bl ∈ List.filter (fun b => String.eqb (bl_blocklist_id b) (tier_id t)) (securityBlocklists s)) as Hin
      by (apply elem_of_list_filter_b; split; [done|by apply String.eqb_eq]).
    destruct (last _) as [bl'|] eqn:El; [|apply last_None in El; rewrite El in Hin; by apply elem_of_nil in Hin].
    apply last_Some_elem_of, elem_of_list_filter_b in El as [Hb' Et']. apply String.eqb_eq in Et'. f_equal.
    unfold securityBlocklists in Hb, Hb'. apply elem_of_list_filter_b in Hb as [Hb _], Hb' as [Hb' _].
    apply (same_list (blocklists s)); [done..|congruence].
Qed.

Lemma security_parts s :
  NoDup (map bl_blocklist_id (blocklists s)) ->
  securityBlocklists s ≡ₚ regularItems s ++ nrdItems s ++ List.filter stranded (securityBlocklists s).
Proof.
  intros Hnd. unfold regularItems. rewrite (filter_both isNrdItem (securityBlocklists s)) at 1.
  rewrite Permutation_app_comm. apply Permutation_app_head.
  rewrite (filter_both (fun bl => bool_decide (bl_blocklist_id bl ∈ NRD_IDS)) (List.filter isNrdItem _)).
  rewrite !filter_filter_b. apply Permutation_app.
  - apply NoDup_Permutation.
    + apply NoDup_filter_b, NoDup_filter_b. by eapply NoDup_fmap_1.
    + eapply NoDup_fmap_1. exact (nrdIds_NoDup s).
    + intros bl. rewrite elem_of_nrdItems by done. rewrite elem_of_list_filter_b. unfold isNrdItem.
      rewrite andb_true_iff, orb_true_iff, bool_decide_eq_true. tauto.
  - apply reflexive_eq, filter_same. intros bl [_ Hk]%elem_of_list_filter_b. unfold stranded.
    by rewrite Hk, (hasKind_other "security" "category" bl ltac:(discriminate) Hk), orb_false_r.
Qed.

Lemma category_parts s :
  categoryBlocklists s ≡ₚ concat (map pc_items (preparedCategories s)) ++ List.filter stranded (categoryBlocklists s).
Proof.
  rewrite (filter_both (fun bl => negb (String.eqb (categoryKey bl) "other")) (categoryBlocklists s)) at 1.
  apply Permutation_app.
  - set (l := List.filter _ _). set (keys := List.filter (fun k => negb (String.eqb k "other"))
      (dedup (map categoryKey (categoryBlocklists s)))).
    rewrite <- (groups_perm keys l).
    + apply reflexive_eq. f_equal. unfold preparedCategories, grouped, keys. rewrite map_map.
      induction (dedup _) as [|k ks IH]; [done|]. cbn. destruct (String.eqb_spec k "other") as [|Hne]; cbn; [exact IH|].
      f_equal; [|exact IH]. unfold l. rewrite filter_filter_b. apply filter_same. intros bl _.
      destruct (String.eqb_spec (categoryKey bl) k) as [->|]; [|apply andb_false_r].
      by rewrite (proj2 (String.eqb_neq _ _) Hne).
    + apply NoDup_filter_b, NoDup_dedup.
    + intros bl [Hb Hk]%elem_of_list_filter_b. apply elem_of_list_filter_b. split; [|exact Hk].
      apply elem_of_dedup, list_elem_of_fmap. eauto.
  - apply reflexive_eq, filter_same. intros bl [_ Hk]%elem_of_list_filter_b. unfold stranded.
    rewrite Hk, negb_involutive. cbn [andb].
    destruct (hasKind "security" bl) eqn:E; [|done].
    by rewrite (hasKind_other "security" "category" bl ltac:(discriminate) E) in Hk.
Qed.

Lemma regular_parts s :
  filterValue s = "all" -> searchValue s = "" ->
  regularBlocklists s ≡ₚ filteredBlocklists s ++ nativePanelItems s.
Proof.
  intros Hf Hq. rewrite (filter_both isNativeItem (regularBlocklists s)) at 1. rewrite Permutation_app_comm.
  apply Permutation_app.
  - unfold filteredBlocklists. rewrite (filter_same (fun bl => matchesSearch s bl && _) (fun _ => true)).
    + assert (forall l : list ModelBlocklist, List.filter (fun _ => true) l = l) as -> by (induction l; cbn; congruence).
      case_bool_decide; [|done]. by rewrite array_sort_perm.
    + intros bl _. unfold matchesSearch, matchesFilter. by rewrite Hf, Hq.
  - unfold nativePanelItems, nativeSearchNarrowed. rewrite Hq. unfold nativeItems, orderedNativeItems.
    cbn -[array_sort]. by rewrite array_sort_perm.
Qed.

Lemma regular_not_stranded s : List.filter stranded (regularBlocklists s) = [].
Proof.
  unfold regularBlocklists. rewrite filter_filter_b. induction (blocklists s) as [|bl l IH]; [done|]. cbn.
  unfold stranded at 1. by destruct (hasKind "category" bl), (hasKind "security" bl).
Qed.

(** with no filter and no search, the cards of the tabs and the windows of the range card are the catalog,
    each list once, except for the stranded lists *)
(** C21: with no filter and no search the cards of the tabs and the windows of the range card are
    the lists of the catalog, each list in one place, except for the security lists that are tagged
    as a window without being one and the lists of the categories without a category *)
Theorem cards_cover_the_catalog s :
  filterValue s = "all" -> searchValue s = "" -> NoDup (map bl_blocklist_id (blocklists s)) ->
  filteredBlocklists s ++ nativePanelItems s ++ regularItems s ++ nrdItems s
  ++ concat (map pc_items (preparedCategories s)) ++ List.filter stranded (blocklists s) ≡ₚ blocklists s.
Proof.
  intros Hf Hq Hnd. symmetry. rewrite (filter_perm stranded _ _ (by_kind s)), !List.filter_app.
  rewrite regular_not_stranded. rewrite (by_kind s) at 1. rewrite (regular_parts s) by done.
  rewrite (security_parts s) at 1 by done. rewrite (category_parts s) at 1. solve_Permutation.
Qed.

(** ** The lists that are on no card *)

Definition offered s bl : Prop := bl ∈ blocklists s /\ stranded bl = false.

Lemma regular_offered s bl : bl ∈ regularBlocklists s -> offered s bl.
Proof.
  unfold regularBlocklists. intros [Hb Hk]%elem_of_list_filter_b. split; [done|]. unfold stranded.
  by destruct (hasKind "category" bl), (hasKind "security" bl).
Qed.

Lemma native_offered s bl : bl ∈ nativeItems s -> offered s bl.
Proof.
  unfold nativeItems, orderedNativeItems. rewrite array_sort_perm. intros [Hb _]%elem_of_list_filter_b.
  by apply regular_offered.
Qed.

Lemma category_offered s c bl : c ∈ preparedCategories s -> bl ∈ pc_items c -> offered s bl.
Proof.
  intros Hc. destruct (prepared_spec s c Hc) as (_ & -> & _ & Hk). intros [Hb E]%elem_of_list_filter_b.
  apply String.eqb_eq in E. apply elem_of_list_filter_b in Hb as [Hb Hc']. split; [done|]. unfold stranded.
  rewrite E, (proj2 (String.eqb_neq _ _) Hk), andb_false_r, orb_false_r.
  destruct (hasKind "security" bl) eqn:Es; [|done].
  by rewrite (hasKind_other "security" "category" bl ltac:(discriminate) Es) in Hc'.
Qed.

Lemma security_offered s bl :
  bl ∈ securityBlocklists s -> isNrdItem bl = false \/ bl_blocklist_id bl ∈ NRD_IDS -> offered s bl.
Proof.
  intros [Hb Hk]%elem_of_list_filter_b Hn. split; [done|]. unfold stranded.
  rewrite Hk, (hasKind_other "security" "category" bl ltac:(discriminate) Hk), orb_false_r.
  destruct Hn as [->|Hn]; [done|]. rewrite bool_decide_eq_true_2 by done. apply andb_false_r.
Qed.

Lemma listed_offered s bl : bl ∈ filteredBlocklists s -> offered s bl.
Proof.
  intros Hb. apply regular_offered. unfold filteredBlocklists in Hb.
  case_bool_decide; [rewrite array_sort_perm in Hb|]; by apply elem_of_list_filter_b in Hb as [[Hb _]%elem_of_list_filter_b _].
Qed.

Lemma carded_offered s bl : carded s bl -> offered s bl.
Proof.
  intros [Hb|[Hb|[Hb|(c & Hc & Hb)]]].
  - by apply listed_offered.
  - apply native_offered. unfold nativePanelItems in Hb. destruct (nativeSearchNarrowed s); [|done].
    by apply elem_of_list_filter_b in Hb as [Hb _].
  - apply elem_of_list_filter_b in Hb as [Hb Hn]. apply security_offered; [done|]. left. by apply negb_true_iff.
  - by eapply category_offered.
Qed.

Lemma ids_offered s (l : list ModelBlocklist) i :
  (forall bl, bl ∈ l -> offered s bl) -> i ∈ map bl_blocklist_id l -> exists bl, offered s bl /\ bl_blocklist_id bl = i.
Proof. intros Hl (bl & -> & Hb)%list_elem_of_fmap. eauto. Qed.

Lemma governed_offered s sw b i :
  Shown s sw -> i ∈ governs s (sw_on sw b) -> exists bl, offered s bl /\ bl_blocklist_id bl = i.
Proof.
  intros Hsw. destruct Hsw as [logo bl Hb|label description x _|label description x c Hc];
    cbn [sw_on cc_switch cc_onToggle groupCard listCard lc_switch governs].
  - intros ->%list_elem_of_singleton. exists bl. split; [by apply carded_offered|done].
  - apply ids_offered. apply native_offered.
  - apply ids_offered. intros bl. destruct (prepared_spec s c Hc) as (_ & <- & _). by apply category_offered.
Qed.

(** a stranded list can be turned neither on nor off: no switch of the page governs it, nor the range card,
    nor the button that turns all listed lists on *)
Theorem stranded_list_has_no_switch s x bl :
  NoDup (map bl_blocklist_id (blocklists s)) -> bl ∈ blocklists s -> stranded bl = true ->
  (forall sw b, sw ∈ pageSwitches x s -> bl_blocklist_id bl ∉ governs s (sw_on sw b)) /\
  bl_blocklist_id bl ∉ nrdIds s /\ bl_blocklist_id bl ∉ listedIds s.
Proof.
  intros Hnd Hb Hst.
  assert (~ exists b, offered s b /\ bl_blocklist_id b = bl_blocklist_id bl) as Hno.
  { intros (b & [Hb' Hf] & E). rewrite (same_list _ b bl Hnd Hb' Hb E) in Hf. congruence. }
  split; [|split].
  - intros sw b Hsw Hi. eapply Hno, governed_offered; [by eapply page_switches_shown|exact Hi].
  - intros Hi. apply Hno. eapply (ids_offered s (nrdItems s)); [|exact Hi]. intros b [Hs Hn]%elem_of_nrdItems; [|done].
    apply security_offered; auto.
  - intros Hi. apply Hno. eapply (ids_offered s (filteredBlocklists s)); [|exact Hi]. apply listed_offered.
Qed.

(** ** Which switches can be used *)

(** a switch of the page is disabled exactly for a restricted account, while its own list is updated, and,
    for a group, while anything is *)
Theorem disabled_switches s x sw :
  sw ∈ pageSwitches x s ->
  sw_disabled sw = restricted || match sw_on sw true with
                                 | BlocklistSwitch i _ => bool_decide (updating s = Some i)
                                 | _ => is_up (updating s)
                                 end.
Proof.
  intros Hsw%page_switches_shown. destruct Hsw; cbn; by rewrite orb_comm.
Qed.

(** ** The range card *)

(** with every window in the catalog, the text of the range card names the window of the longest list
    it has on *)
Theorem range_text_names_the_window s k :
  map bl_blocklist_id (nrdItems s) = NRD_IDS ->
  nc_depth (nrdRangeCard (nrdItems s) s) = S k ->
  exists t, NRD_GROUP !! k = Some t /\ isOn s (tier_id t) = true /\
    nc_status (nrdRangeCard (nrdItems s) s) = "Blocking domains registered in the " ++s tier_window t.
Proof.
  cbn [nrdRangeCard nc_depth nc_status]. intros Hids Hd. rewrite Hd. rewrite Hids in Hd.
  destruct (nrdDepth_spec NRD_IDS (enabledBlocklists s)) as (Hle & Hlast & _). rewrite Hd in Hle, Hlast.
  destruct (NRD_GROUP !! k) as [t|] eqn:Ek.
  - exists t. split; [done|]. split.
    + apply bool_decide_eq_true, Hlast.
      assert (NRD_IDS !! k = Some (tier_id t)) as El by (unfold NRD_IDS; by rewrite list_lookup_fmap, Ek).
      by rewrite (take_S_r _ _ _ El), last_snoc.
    + unfold rangeStatus. cbn [Nat.eqb]. rewrite Nat.sub_succ, Nat.sub_0_r, Ek. done.
  - exfalso. apply lookup_ge_None in Ek. cbn in Hle, Ek. lia.
Qed.

(** a window that the catalog lacks shifts the text: with the shortest one missing, the first step is
    labelled 14d, and choosing it is described as blocking the last 7 days *)
Theorem missing_window_shifts_the_text s bl rest :
  nrdItems s = bl :: rest -> bl_blocklist_id bl = "hagezi_nrd_14_08" ->
  let c := nrdRangeCard (nrdItems s) s in
  (rs_label <$> nc_steps c !! 1%nat) = Some "14d" /\
  (nc_depth c = 1%nat -> nc_status c = "Blocking domains registered in the last 7 days").
Proof.
  intros E Hid. cbv zeta. rewrite E. split.
  - cbn. unfold rangeStep. cbn. by rewrite Hid.
  - cbn [nrdRangeCard nc_depth nc_status]. by intros ->.
Qed.

(** ** The Services tab *)

Definition sid (svc : ServicescatalogService) : string := svc_id svc ?? "".

(** against a server that applies what it is sent, the switch of a service blocks it when it is not blocked
    and unblocks it when it is, and changes no other service; a service without an id cannot be switched *)
Theorem service_switch_takes_other_position pid d s t svc :
  truthy pid = true -> shows pid d s ->
  let sw := sc_switch (serviceCard t s svc) in
  let '(s', d', p) := serve pid [] (handler (sw_on sw (negb (sw_checked sw))) s) s d in
  p = Ret tt /\ shows pid d' s' /\
  (forall svc', isBlocked s' svc' =
     if bool_decide (sid svc' = sid svc) then truthy_opt (svc_id svc) && negb (sw_checked sw)
     else isBlocked s svc') /\
  (truthy_opt (svc_id svc) = false -> sw_checked sw = false /\ sw_disabled sw = true).
Proof.
  clear formatDistance. intros Hpid Hs. cbv zeta. set (sw := sc_switch _). set (h := sw_on sw _).
  destruct (handler_lands pid Hpid h d s Hs) as (d0 & (Hp & Hd & Hsh) & _ & Hsl & _).
  destruct (serve _ _ _ _ _) as [[s' d'] p]. cbn in Hp, Hd, Hsh. subst. split; [done|]. split; [done|]. split.
  - intros svc'. unfold isBlocked at 1 2. rewrite (services_shows pid d0), (services_shows pid d) by done.
    specialize (Hsl (sid svc')). unfold h in Hsl. cbn [sw_on sw sc_switch serviceCard servicesTurned sw_checked] in *.
    unfold truthy_opt. fold (sid svc) (sid svc') in *. destruct (decide (sid svc' = sid svc)) as [E|Hne].
    + rewrite (bool_decide_eq_true_2 (sid svc' = sid svc)) by done. rewrite E in *.
      destruct (truthy (sid svc)); [|done]. cbn [negb andb] in *.
      destruct (isBlocked s svc); cbn [negb fst snd] in *; [apply bool_decide_eq_false_2|apply bool_decide_eq_true_2]; set_solver.
    + rewrite (bool_decide_eq_false_2 (sid svc' = sid svc)) by done. f_equal. apply bool_decide_ext.
      destruct (truthy (sid svc)); cbn [negb] in Hsl; [|cbn in Hsl; set_solver].
      destruct (isBlocked s svc); cbn [negb fst snd] in Hsl; set_solver.
  - intros Hno. cbn. unfold isBlocked. rewrite Hno. split; [done|]. unfold truthy_opt in Hno. rewrite Hno.
    by rewrite orb_true_r.
Qed.

(** ** A catalog that cannot be read *)

(** when the catalog cannot be read, for whatever reason, and nothing is searched, the Lists tab says that
    there are no blocklists, and no tab has a switch of a list *)
Theorem failed_catalog_looks_empty s e x :
  searchValue s = "" ->
  let s' := settleFetch true (Throw e) s in
  listsBody s' = ListsEmpty None /\ emptyStateText None = "No blocklists found." /\ pageSwitches x s' = [].
Proof.
  intros Hq. cbv zeta.
  assert (blocklists (settleFetch true (Throw e) s) = [] /\ loading (settleFetch true (Throw e) s) = false
          /\ searchValue (settleFetch true (Throw e) s) = "") as (Hb & Hl & Hq') by (destruct e, s; by cbn in *).
  revert Hb Hl Hq'. generalize (settleFetch true (Throw e) s). clear. intros s Hb Hl Hq.
  assert (filteredBlocklists s = [] /\ nativeItems s = [] /\ securityBlocklists s = [] /\ categoryBlocklists s = [])
    as (Ef & En & Es & Ec).
  { unfold nativeItems, filteredBlocklists, regularBlocklists, securityBlocklists, categoryBlocklists. rewrite Hb.
    by case_bool_decide. }
  assert (showNativeCard s = false) as Ev by (unfold showNativeCard; by rewrite En).
  assert (listsBody s = ListsEmpty None) as El
    by (unfold listsBody; by rewrite Hl, Ef, Ev, Hq).
  split; [exact El|]. split; [done|]. unfold pageSwitches, securityBody, categoriesBody, preparedCategories, nrdItems, regularItems.
  by rewrite El, Hl, Es, Ec.
Qed.
End views.

(** ** Two switches at once *)

Section two.
Context {H : Host}.

Lemma committed_store s : store (commit s) = store s.
Proof. unfold commit. destruct (_ && nativeSearchNarrowed s), (_ && negb (showNativeCard s)); by destruct s. Qed.

Lemma committed_updating s : updating (commit s) = updating s.
Proof. pose proof (commit_flags s) as E. by injection E. Qed.

Definition refuse : World BlError BlRequest BlResponse := fun _ => Throw OtherError.

(** A switch on its way, and the end of it when it is refused. *)
Lemma start_switch (y : BlSys) id i c :
  p_profile_id <$> activeProfile (store (ui y)) = Some id -> truthy id = true ->
  exists p, bl_step y (Invoke (BlocklistSwitch i c))
            = mkSys (commit (setUpdating (Some i) (ui y))) (inflight y ++ [p]) /\ suspended p = true /\
    forall s, updating (fst (resume commit refuse p s)) = None /\ snd (resume commit refuse p s) = Ret tt.
Proof.
  intros Hid Ht. unfold bl_step, sys_step. cbn [handler]. unfold handleBlocklistSwitch, withProfile. rewrite Hid, Ht.
  destruct c; (eexists; split; [unfold advance; cbn -[commit]; reflexivity|]); (split; [done|]); intros s; unfold resume, advance; cbn -[commit]; by rewrite committed_updating.
Qed.

(** there is one updating flag for all lists: while two switches are on their way only the second is
    disabled, and as soon as the first is refused none is, although the second is still on its way *)
Theorem second_switch_is_released_early s id a b c1 c2 :
  p_profile_id <$> activeProfile (store s) = Some id -> truthy id = true ->
  let y := run bl_step (mkSys s []) [Invoke (BlocklistSwitch a c1); Invoke (BlocklistSwitch b c2)] in
  let y' := bl_step y (Answered 0 refuse) in
  updating (ui y) = Some b /\ length (inflight y) = 2%nat /\
  updating (ui y') = None /\ length (inflight y') = 1%nat.
Proof.
  intros Hid Ht. cbn [run foldl].
  destruct (start_switch (mkSys s []) id a c1 Hid Ht) as (p1 & E1 & Hs1 & Hr1). rewrite E1. cbn [app inflight ui].
  destruct (start_switch (mkSys (commit (setUpdating (Some a) s)) [p1]) id b c2) as (p2 & E2 & Hs2 & _);
    [cbn [ui]; rewrite committed_store; by destruct s|done|].
  rewrite E2. cbn [app inflight ui]. split; [by rewrite committed_updating|]. split; [done|].
  unfold bl_step, sys_step. cbn [inflight ui lookup list_lookup].
  destruct (Hr1 (commit (setUpdating (Some b) (commit (setUpdating (Some a) s))))) as [Hu Hp].
  destruct (resume _ _ _) as [s3 p3]. cbn [fst snd] in Hu, Hp. by subst p3.
Qed.
End two.

(** ** The panel of a group *)

Inductive PanelEvent : Type :=
| PanelRendered (expanded : bool) (scrollHeight : Z)
| PanelTransitionEnd (propertyName : string).

(** The panel with the value of its [expanded]. *)
Definition panel_step (p : bool * ExpandPanel) (e : PanelEvent) : bool * ExpandPanel :=
  match e with
  | PanelRendered expanded h => (expanded, measureEffect expanded h (snd p))
  | PanelTransitionEnd n => (fst p, handleTransitionEnd (fst p) n (snd p))
  end.

Definition collapses (e : PanelEvent) : bool := match e with PanelRendered false _ => true | _ => false end.

(** the cap of an open panel follows the measured height of its content until the transition of the cap
    has ended, then it is gone for as long as the panel stays open; a closed panel starts over *)
Theorem open_panel_is_uncapped p evs h :
  let rendered := panel_step p (PanelRendered true h) in
  let opened := run panel_step (panel_step rendered (PanelTransitionEnd "max-height")) evs in
  (spread (snd p) = false -> maxHeight true (snd rendered) = show (h + 48) ++s "px") /\
  (forallb (fun e => negb (collapses e)) evs = true -> fst opened = true /\ maxHeight true (snd opened) = "none") /\
  panel_step opened (PanelRendered false h) = (false, mkPanel (contentHeight (snd opened)) false).
Proof.
  cbv zeta. split; [|split].
  - intros Hs. cbn. by rewrite Hs.
  - set (q := panel_step (panel_step _ _) _).
    assert (fst q = true /\ spread (snd q) = true) as Hq by done. clearbody q. revert q Hq.
    induction evs as [|e evs IH]; intros q [Hx Hs]; cbn [forallb run foldl].
    + intros _. unfold run, maxHeight. cbn. by rewrite Hs.
    + intros [He Hrest]%andb_true_iff. apply (IH (panel_step q e)); [|exact Hrest].
      destruct e as [[] h'|n]; cbn in *; [by rewrite Hs|done|]. unfold handleTransitionEnd. rewrite Hx.
      by destruct (String.eqb n "max-height").
  - done.
Qed.

(** ** Witnesses *)

Definition categorized (id category : string) : ModelBlocklist :=
  MkModelBlocklist id (Some category) None "" (Some 100) None None None (Some "category") (Some "2025-01-01") id None None None.

Definition mixed_catalog : list ModelBlocklist :=
  [listed "oisd" "general"; listed "hagezi_nrd_14_08" "security"; listed "cert" "security";
   categorized "casino" "gambling"; categorized "poker" "gambling"; listed "odd" "category"].

Definition mixed_page (d : Db) : BlPage :=
  (@mount utc_host (setActiveProfile (Some (profileOf "p1" d)) initialState))
    <| blocklists := mixed_catalog |> <| loading := false |>.

Definition mixed_db : Db := mkDb ["casino"; "oisd"; "hagezi_nrd_14_08"] ["google"] false.
Definition distance (d : string) : string := "about 2 days ago".

(** The partly enabled category of gambling. *)
Definition gambling_switch : SwitchView := mkSwitch true false (fun _ => CategoryToggle "gambling").

Lemma switch_takes_other_position_witness :
  let s := mixed_page mixed_db in
  let '(s', d', p) := serve "p1" [] (@handler utc_host (CategoryToggle "gambling") s) s mixed_db in
  p = Ret tt /\ shows "p1" d' s' /\ @other_position utc_host s gambling_switch s'.
Proof.
  apply (@switch_takes_other_position utc_host distance ∅ false false "p1" mixed_db (mixed_page mixed_db) None gambling_switch);
    [reflexivity|reflexivity|]. apply (list_elem_of_lookup_2 _ 2%nat). vm_compute. reflexivity.
Defined.

Lemma cards_cover_the_catalog_witness :
  let s := mixed_page mixed_db in
  @filteredBlocklists utc_host s ++ @nativePanelItems utc_host s ++ regularItems s ++ nrdItems s
  ++ concat (map pc_items (@preparedCategories utc_host s)) ++ List.filter stranded (blocklists s) ≡ₚ mixed_catalog
  /\ List.filter stranded mixed_catalog = [listed "odd" "category"].
Proof.
  split; [|reflexivity].
  apply (@cards_cover_the_catalog utc_host (mixed_page mixed_db)); [reflexivity|reflexivity|].
  apply (bool_decide_unpack _). vm_compute. exact I.
Defined.

Lemma stranded_list_has_no_switch_witness :
  "odd" ∉ nrdIds (mixed_page mixed_db) /\ "odd" ∉ @listedIds utc_host (mixed_page mixed_db).
Proof.
  apply (@stranded_list_has_no_switch utc_host distance ∅ false false (mixed_page mixed_db) None (listed "odd" "category"));
    [apply (bool_decide_unpack _); vm_compute; exact I| |reflexivity].
  apply (list_elem_of_lookup_2 _ 5%nat). vm_compute. reflexivity.
Defined.

Lemma disabled_switches_witness : sw_disabled gambling_switch = false || is_up (updating (mixed_page mixed_db)).
Proof.
  apply (@disabled_switches utc_host distance ∅ false false (mixed_page mixed_db) None gambling_switch).
  apply (list_elem_of_lookup_2 _ 2%nat). vm_compute. reflexivity.
Defined.

Lemma range_text_names_the_window_witness :
  exists t, NRD_GROUP !! 1%nat = Some t /\ isOn (page_of some_db) (tier_id t) = true /\
    nc_status (@nrdRangeCard utc_host distance false (nrdItems (page_of some_db)) (page_of some_db))
    = "Blocking domains registered in the " ++s tier_window t.
Proof.
  apply (@range_text_names_the_window utc_host distance false (page_of some_db) 1%nat);
    vm_compute; reflexivity.
Defined.

Lemma missing_window_shifts_the_text_witness :
  let s := mixed_page mixed_db in
  let c := @nrdRangeCard utc_host distance false (nrdItems s) s in
  (rs_label <$> nc_steps c !! 1%nat) = Some "14d" /\ nc_status c = "Blocking domains registered in the last 7 days".
Proof.
  cbv zeta.
  assert (nrdItems (mixed_page mixed_db) = [listed "hagezi_nrd_14_08" "security"]) as E by (vm_compute; reflexivity).
  pose proof (@missing_window_shifts_the_text utc_host distance false (mixed_page mixed_db) _ _ E eq_refl) as Ht.
  split; [exact (proj1 Ht)|]. apply (proj2 Ht). vm_compute. reflexivity.
Defined.

Lemma service_switch_takes_other_position_witness :
  let s := mixed_page mixed_db in
  let svc := MkServicescatalogService None None None (Some "google") None (Some "Google") in
  let '(s', d', p) := serve "p1" [] (@handler utc_host (ServiceSwitch [svc] "google" false) s) s mixed_db in
  p = Ret tt /\ isBlocked s svc = true /\ isBlocked s' svc = false.
Proof.
  cbv zeta. set (svc := MkServicescatalogService None None None (Some "google") None (Some "Google")).
  pose proof (@service_switch_takes_other_position utc_host ∅ false false "p1" mixed_db (mixed_page mixed_db)
                (mkServicesTab [svc] false true "" AllServices) svc eq_refl eq_refl) as Hsw.
  cbv zeta in Hsw. change (sw_checked _) with true in Hsw. cbn [negb] in Hsw. change (sw_on _ false) with (ServiceSwitch [svc] "google" false) in Hsw.
  destruct (serve _ _ _ _ _) as [[s' d'] p]. destruct Hsw as (Hp & _ & Hb & _).
  split; [exact Hp|]. split; [reflexivity|]. rewrite (Hb svc). reflexivity.
Defined.

Lemma failed_catalog_looks_empty_witness :
  let s' := settleFetch true (Throw OtherError) (mixed_page mixed_db) in
  @listsBody utc_host distance ∅ false false s' = ListsEmpty None /\
  emptyStateText None = "No blocklists found." /\ @pageSwitches utc_host distance ∅ false false None s' = [].
Proof. apply (@failed_catalog_looks_empty utc_host distance ∅ false false (mixed_page mixed_db) OtherError None). reflexivity. Defined.

Lemma second_switch_is_released_early_witness :
  let y := run (@bl_step utc_host) (mkSys (mixed_page mixed_db) [])
             [Invoke (BlocklistSwitch "oisd" false); Invoke (BlocklistSwitch "cert" true)] in
  let y' := @bl_step utc_host y (Answered 0 refuse) in
  updating (ui y) = Some "cert" /\ length (inflight y) = 2%nat /\ updating (ui y') = None /\ length (inflight y') = 1%nat.
Proof.
  apply (@second_switch_is_released_early utc_host (mixed_page mixed_db) "p1" "oisd" "cert" false true); reflexivity.
Defined.
