(* ===== verification/ImportDialog.v ===== *)
(** * Importing profiles: the dialog

    [src/app/src/components/dialogs/ImportProfilesDialog.tsx] with the drop zone
    ([components/FileDropzone.tsx]) and the selection list ([components/MultiSelectProfileList.tsx]):
    a file is picked and checked, profiles are selected, the identity is verified, the import is sent
    and its results are shown. An em dash of a text is written [--]. *)

From S2P Require Import Prelude JsString JsNumber ApiTypes Formats Store DataCollection ImportExport Verification Async.
From coqutil Require Import Datatypes.RecordSetters.
Import TriangleBracketNotations.

#[local] Arguments constant _ _ _ /.

(** ** The drop zone *)

Record File := mkFile { file_name : string; file_size : Z }.

Definition getAllowedExtensions (accept : string) : list string :=
  map toLowerCase (List.filter (fun s => startsWith s ".") (map trim (split accept ","%char))).

Definition MB : Z := 1024 * 1024.

Definition validateFile (f : File) (accept : option string) (maxBytes : option Z) : option string :=
  let wrongType :=
    match accept with
    | Some a =>
        if truthy a then
          let extensions := getAllowedExtensions a in
          if (0 <? length extensions)%nat && negb (existsb (endsWith (toLowerCase (file_name f))) extensions)
          then Some ("File type not allowed. Expected: " ++s join ", " extensions ++s ".")
          else None
        else None
    | None => None
    end in
  match wrongType, maxBytes with
  | Some e, _ => Some e
  | None, Some m =>
      if m <? file_size f
      then Some ("File is too large. Maximum size is " ++s toFixed1 (num_div (number m) (number MB)) ++s " MB.")
      else None
  | None, None => None
  end.

Definition formatBytes (bytes : Z) : string :=
  if bytes <? 1024 then show bytes ++s " B"
  else if bytes <? MB then toFixed1 (num_div (number bytes) (number 1024)) ++s " KB"
  else toFixed1 (num_div (number bytes) (number MB)) ++s " MB".

Definition ACCEPT : string := ".moddns.json,.json,application/json".
Definition MAX_BYTES : Z := 5 * MB.

(** ** The selection list *)

(** A list of profiles with ids; [onChange] gets the new selection. *)
Definition handleSelectAll (ids selectedIds : list string) : list string :=
  if (0 <? length ids)%nat && (length selectedIds =? length ids)%nat then [] else ids.
Definition handleToggle (id : string) (checked : bool) (selectedIds : list string) : list string :=
  if checked then selectedIds ++ [id] else List.filter (fun sid => negb (String.eqb sid id)) selectedIds.

(** A checkbox of the list shows whether its id is selected, and is clicked to the opposite. *)
Definition clickCheckbox (id : string) (selectedIds : list string) : list string :=
  handleToggle id (negb (bool_decide (id ∈ selectedIds))) selectedIds.

(** ** The file *)

(** An element of [profiles] may be [null]: the check does not look at the elements. *)
Record Envelope := mkEnvelope {
  en_kind : string;
  en_schemaVersion : Z;
  en_exportedAt : string;
  en_profiles : list (option ModelExportedProfile);
}.

(** The text of a file: not JSON, a JSON value that is not an object with the fields of an envelope
    in their types, or an envelope. *)
Inductive FileText : Type := NotJson | OtherJson | EnvelopeJson (e : Envelope).

Definition INVALID_FILE : string := "Invalid export file. Expected a moddns-export JSON with at least one profile.".
Definition UNPARSABLE_FILE : string := "Could not parse the file. Make sure it is a valid moddns export JSON.".
Definition UNREADABLE_FILE : string := "Could not read the file. Please try again.".

Definition validEnvelope (e : Envelope) : bool :=
  (en_schemaVersion e =? 1) && String.eqb (en_kind e) "moddns-export" && (0 <? length (en_profiles e))%nat.

(** ** State *)

Inductive Step : Set := StepPick | StepConfirm | StepResults.
#[export] Instance Step_eq_dec : EqDecision Step.
Proof. solve_decision. Defined.

Definition MAX_PROFILES : Z := 100.
Definition MAX_VISIBLE_WARNINGS : nat := 10.

(** The dialog with its two hooks. [methodDep] and [closeDeps] are the deps of the effects that follow the
    method and the closing; [hasPasskeys_] is the length of the store's passkeys. *)
Record ImportDialog := mkDialog {
  store : AppState;
  dialogOpen : bool;
  step : Step;
  parsedPayload : option Envelope;
  selectedIds : list string;
  fileError : option string;
  importError : option string;
  currentPassword_ : string;
  otp_ : string;
  reauthToken_ : option string;
  reauth : ReauthStatus;
  chosenMethod : VerificationMethod;
  isImporting_ : bool;
  result : option ImportResult;
  shownToasts : list UiToast;
  methodDep : VerificationMethod;
  closeDeps : bool * VerificationMethod;
}.

Definition hasPasskeys (s : ImportDialog) : bool := (0 <? length (passkeys (store s)))%nat.
Definition canPassword (s : ImportDialog) : bool := passwordAvailable (account (store s)).
Definition preferred (s : ImportDialog) : VerificationMethod := preferredMethod (hasPasskeys s) (canPassword s).
Definition asksOtp (s : ImportDialog) : bool :=
  totpEnabled (account (store s)) && bool_decide (chosenMethod s = password).

(** ** Resets and effects *)

Definition handleMethodChange (s : ImportDialog) : ImportDialog :=
  s <| currentPassword_ := "" |> <| otp_ := "" |> <| reauthToken_ := None |> <| reauth := st_idle |>
    <| importError := None |>.

Definition resetAllState (s : ImportDialog) : ImportDialog :=
  s <| step := StepPick |> <| parsedPayload := None |> <| selectedIds := [] |> <| fileError := None |>
    <| importError := None |> <| currentPassword_ := "" |> <| otp_ := "" |> <| reauthToken_ := None |>
    <| reauth := st_idle |> <| chosenMethod := preferred s |> <| result := None |>.

(** The effect of the verification hook; it changes nothing when it runs again. *)
Definition methodEffect (s : ImportDialog) : ImportDialog :=
  if negb (dialogOpen s) then s <| chosenMethod := preferred s |>
  else if isMethodAvailable (hasPasskeys s) (canPassword s) (chosenMethod s) then s
  else s <| chosenMethod := preferred s |>.

(** [resetMethod] is new when the preferred method is, and with it [resetAllState]. *)
Definition closeEffect (s : ImportDialog) : ImportDialog :=
  let s' := if negb (bool_decide (closeDeps s = (dialogOpen s, preferred s))) && negb (dialogOpen s)
            then resetAllState s else s in
  s' <| closeDeps := (dialogOpen s, preferred s) |>.

Definition changeEffect (s : ImportDialog) : ImportDialog :=
  if bool_decide (methodDep s = chosenMethod s) then s
  else handleMethodChange (s <| methodDep := chosenMethod s |>).

Definition commit (s : ImportDialog) : ImportDialog := changeEffect (closeEffect (methodEffect s)).

Definition handleOpenChange (next : bool) (s : ImportDialog) : ImportDialog :=
  (if next then s else resetAllState s) <| dialogOpen := next |>.

(** ** Picking a file *)

Definition indexIds {A} (l : list A) : list string := imap (fun i _ => show (Z.of_nat i)) l.

(** [reader.onload] *)
Definition fileLoaded (text : FileText) (s : ImportDialog) : ImportDialog :=
  match text with
  | NotJson => s <| fileError := Some UNPARSABLE_FILE |>
  | OtherJson => s <| fileError := Some INVALID_FILE |>
  | EnvelopeJson e =>
      if validEnvelope e
      then s <| parsedPayload := Some e |> <| selectedIds := indexIds (en_profiles e) |> <| step := StepConfirm |>
      else s <| fileError := Some INVALID_FILE |>
  end.

Definition handleFileRejected (reason : string) (s : ImportDialog) : ImportDialog := s <| fileError := Some reason |>.

(** The drop zone passes a file on or rejects it; [reader] is what reading it will give. *)
Definition handleFileAccepted (s : ImportDialog) : ImportDialog := s <| fileError := None |>.
Definition processFile (f : File) (s : ImportDialog) : ImportDialog :=
  match validateFile f (Some ACCEPT) (Some MAX_BYTES) with
  | Some e => handleFileRejected e s
  | None => handleFileAccepted s
  end.

Definition goBack (s : ImportDialog) : ImportDialog :=
  s <| parsedPayload := None |> <| selectedIds := [] |> <| fileError := None |> <| importError := None |>
    <| step := StepPick |>.

(** ** The selection *)

Definition selectedIndices (s : ImportDialog) : list (option Z) := map parseInt10 (selectedIds s).
Definition selectedCount (s : ImportDialog) : Z := Z.of_nat (length (selectedIndices s)).
Definition currentProfileCount (s : ImportDialog) : Z := Z.of_nat (length (profiles (store s))).
Definition wouldExceedCap (s : ImportDialog) : bool := MAX_PROFILES <? currentProfileCount s + selectedCount s.
Definition remaining (s : ImportDialog) : Z := MAX_PROFILES - currentProfileCount s.

(** [parsedPayload.profiles[i]], [None] being [undefined]. *)
Definition profileAt (e : Envelope) (i : option Z) : option (option ModelExportedProfile) :=
  match i with
  | Some i => if 0 <=? i then en_profiles e !! Z.to_nat i else None
  | None => None
  end.

Record Collecting := mkCollecting { co_index : option Z; co_name : string; co_what : string }.

Definition byIndex (a b : option Z) : Z := match a, b with Some a, Some b => a - b | _, _ => 0 end.

(** I26: the selected profiles that start collecting data as soon as they are imported. *)
Definition collecting (s : ImportDialog) : list Collecting :=
  match parsedPayload s with
  | Some e =>
      omap (fun i =>
              match profileAt e i with
              | Some (Some p) => mkCollecting i (xp_name p) <$> importedCollection (Some (xp_settings p))
              | _ => None
              end) (array_sort byIndex (selectedIndices s))
  | None => []
  end.

(** Rendering the list of step 2 reads the name of every element; [None] when that throws. *)
Definition profileListItems (s : ImportDialog) : option (list (string * string)) :=
  match parsedPayload s with
  | Some e => mapM (fun '(id, p) => (fun p => (id, xp_name p)) <$> p) (zip (indexIds (en_profiles e)) (en_profiles e))
  | None => Some []
  end.

(** ** Verification *)

Definition isReauthComplete (s : ImportDialog) : bool :=
  match chosenMethod s with
  | passkey => bool_decide (reauth s = verified)
  | password => truthy (trim (currentPassword_ s)) && (negb (asksOtp s) || truthy (trim (otp_ s)))
  end.

Definition isSubmitDisabled (s : ImportDialog) : bool :=
  (selectedCount s =? 0) || wouldExceedCap s || negb (isReauthComplete s) || isImporting_ s.

Definition chooseMethod (next : VerificationMethod) (s : ImportDialog) : ImportDialog :=
  if isMethodAvailable (hasPasskeys s) (canPassword s) next then s <| chosenMethod := next |> else s.

(** ** Requests *)

Inductive ImRequest : Type :=
| PasskeyReauth
| ImportPost (r : ImportRequest (Payload := Envelope))
| ProfilesGet.

(** The three lists of an import's answer. *)
Definition ImResponse (r : ImRequest) : Type :=
  match r with
  | PasskeyReauth => string
  | ImportPost _ => (option (list string) * option (list string) * option (list string))%type
  | ProfilesGet => list ModelProfile
  end.

Record ImError := mkImError { ie_message : option string; ie_status : option Z; ie_error : option string }.

Notation Handler := (Prog ImError ImRequest ImportDialog ImResponse unit).

Definition showToast (k : ToastKind) (text : string) (s : ImportDialog) : ImportDialog :=
  s <| shownToasts := (shownToasts s ++ [mkToast k text])%list |>.
Definition setImportError (e : option string) (s : ImportDialog) : ImportDialog := s <| importError := e |>.
Definition setReauth (st : ReauthStatus) (s : ImportDialog) : ImportDialog := s <| reauth := st |>.
Definition setImporting (b : bool) (s : ImportDialog) : ImportDialog := s <| isImporting_ := b |>.
Definition setResult (r : option ImportResult) (s : ImportDialog) : ImportDialog := s <| result := r |>.
Definition setStep (st : Step) (s : ImportDialog) : ImportDialog := s <| step := st |>.

Definition verifiedWith (token : string) (s : ImportDialog) : ImportDialog :=
  s <| reauthToken_ := Some token |> <| reauth := verified |> <| currentPassword_ := "" |>.

Definition beginPasskeyReauth : Handler :=
  perform (setReauth in_progress);;
  perform (setImportError None);;
  try_async
    (token ← await PasskeyReauth;
     perform (verifiedWith token);;
     perform (showToast ToastSuccess "Identity verified via passkey"))
    (fun e =>
     perform (setReauth st_error);;
     perform (showToast ToastError (ie_message e ?? "Passkey verification failed"))).

(** [importProfiles] of the hook. *)
Definition sendImport (input : ImportProfilesInput (Payload := Envelope)) : Handler :=
  perform (setImporting true);;
  perform (setResult None);;
  finally
    (try_async
       ('(ids, names, warns) ← await (ImportPost (import_request input));
        perform (setResult (Some (import_result ids names warns))))
       (fun e =>
        perform (showToast ToastError (importErrorMessage (ie_status e) (ie_error e)));;
        Raise e))
    (setImporting false).

Definition filteredPayload (e : Envelope) (s : ImportDialog) : Envelope :=
  mkEnvelope (en_kind e) (en_schemaVersion e) (en_exportedAt e) (omap (profileAt e) (selectedIndices s)).

Definition importInput (e : Envelope) (s : ImportDialog) : ImportProfilesInput (Payload := Envelope) :=
  mkImportInput (filteredPayload e s)
    (if bool_decide (chosenMethod s = password) then Some (currentPassword_ s) else None)
    (if bool_decide (chosenMethod s = passkey) then reauthToken_ s else None)
    (if bool_decide (chosenMethod s = password) && asksOtp s then Some (otp_ s) else None).

Definition handleImport (s : ImportDialog) : Handler :=
  match parsedPayload s with
  | None => mret ()
  | Some e =>
      if isSubmitDisabled s then mret () else
      perform (setImportError None);;
      try_async
        (sendImport (importInput e s);;
         perform (setStep StepResults))
        (fun err =>
         if bool_decide (ie_status err = Some 401)
            || bool_decide (ie_status err = Some 400) && isReauthError (ie_error err)
         then mret ()
         else perform (setImportError (Some (importErrorMessage (ie_status err) (ie_error err)))))
  end.

Definition plural (n : Z) : string := if n =? 1 then "" else "s".

Definition refreshStore (ps : list ModelProfile) (s : ImportDialog) : ImportDialog :=
  s <| store := restoreActiveProfile ps (setProfiles ps (store s)) |>.

Definition handleDone (s : ImportDialog) : Handler :=
  let importedCount := Z.of_nat (length ((createdProfileIds <$> result s) ?? [])) in
  let warningCount := Z.of_nat (length ((warnings <$> result s) ?? [])) in
  try_async (refreshed ← await ProfilesGet; perform (refreshStore refreshed)) (fun _ => mret ());;
  (if 0 <? warningCount
   then perform (showToast ToastWarning ("Imported with " ++s show warningCount ++s " warning" ++s plural warningCount
                                         ++s " -- review the results"))
   else perform (showToast ToastSuccess ("Imported " ++s show importedCount ++s " profile" ++s plural importedCount)));;
  perform (handleOpenChange false).

(** ** Texts *)

Definition dialogTitleText (s : ImportDialog) : string :=
  match step s with
  | StepPick => "Import profiles"
  | StepConfirm => "Select profiles to import"
  | StepResults =>
      let n := Z.of_nat (length ((createdProfileIds <$> result s) ?? [])) in
      "Import complete -- " ++s show n ++s " profile" ++s plural n ++s " restored"
  end.

Definition dialogDescriptionText (s : ImportDialog) : string :=
  match step s with
  | StepPick => "Select an export file (.moddns.json)."
  | StepConfirm => "Choose which profiles to import and verify your identity."
  | StepResults => "The following profiles were created in your account."
  end.

Definition isIdnWarning (warning : string) : bool := includes warning "internationalized domain".

(** The rows of step 3, and what it says of the rest. *)
Definition createdRows (r : ImportResult) : list (string * string) :=
  imap (fun i id => (id, createdProfileNames r !! i ?? "(unnamed)")) (createdProfileIds r).
Definition visibleWarnings (r : ImportResult) : list (string * bool) :=
  map (fun w => (w, isIdnWarning w)) (take MAX_VISIBLE_WARNINGS (warnings r)).
Definition warningsOverflow (r : ImportResult) : option string :=
  let n := Z.of_nat (length (warnings r)) - Z.of_nat MAX_VISIBLE_WARNINGS in
  if 0 <? n then Some ("+" ++s show n ++s " more warning" ++s plural n) else None.

Definition capWarning (s : ImportDialog) : option string :=
  if wouldExceedCap s then
    Some ("Selecting " ++s show (selectedCount s) ++s " profile" ++s plural (selectedCount s)
          ++s " would exceed the " ++s show MAX_PROFILES ++s "-profile limit. You have room for "
          ++s show (if 0 <? remaining s then remaining s else 0) ++s " more. Deselect some profiles to continue.")
  else None.

(** ** The dialog as a system *)

Inductive ImHandler : Set := PasskeyClick | ImportClick | DoneClick.

(** A file that is read settles later. *)
Inductive ImUpdate : Type :=
| OpenChange (next : bool)
| FilePicked (f : File)
| FileRead (text : option FileText)
| ToggleOne (id : string)
| ToggleAll
| TypePassword (v : string)
| TypeOtp (v : string)
| ChooseMethod (m : VerificationMethod)
| Back
| StoreChanged (st : AppState).

Definition im_handler (h : ImHandler) (s : ImportDialog) : Handler :=
  match h with
  | PasskeyClick =>
      match step s, chosenMethod s, reauth s with
      | StepConfirm, passkey, (st_idle | st_error) => beginPasskeyReauth
      | _, _, _ => mret ()
      end
  | ImportClick => if bool_decide (step s = StepConfirm) then handleImport s else mret ()
  | DoneClick => if bool_decide (step s = StepResults) && bool_decide (is_Some (result s)) then handleDone s else mret ()
  end.

(** Inputs and buttons exist in their step, and Back only while nothing is sent. *)
Definition onConfirmStep (f : ImportDialog -> ImportDialog) (s : ImportDialog) : ImportDialog :=
  match step s, parsedPayload s with StepConfirm, Some _ => f s | _, _ => s end.

Definition im_update (u : ImUpdate) (s : ImportDialog) : ImportDialog :=
  match u with
  | OpenChange next => handleOpenChange next s
  | FilePicked f => if bool_decide (step s = StepPick) then processFile f s else s
  | FileRead (Some text) => fileLoaded text s
  | FileRead None => s <| fileError := Some UNREADABLE_FILE |>
  | ToggleOne id =>
      onConfirmStep (fun s =>
        if bool_decide (id ∈ (indexIds <$> (en_profiles <$> parsedPayload s)) ?? [])
        then s <| selectedIds := clickCheckbox id (selectedIds s) |> else s) s
  | ToggleAll =>
      onConfirmStep (fun s =>
        s <| selectedIds := handleSelectAll ((indexIds <$> (en_profiles <$> parsedPayload s)) ?? []) (selectedIds s) |>) s
  | TypePassword v => onConfirmStep (fun s => if bool_decide (chosenMethod s = password) then s <| currentPassword_ := v |> else s) s
  | TypeOtp v => onConfirmStep (fun s => if asksOtp s then s <| otp_ := v |> else s) s
  | ChooseMethod m => onConfirmStep (chooseMethod m) s
  | Back => if isImporting_ s then s else onConfirmStep goBack s
  | StoreChanged st => s <| store := st |>
  end.

Inductive ImEvent : Type :=
| Invoke (h : ImHandler)
| Answered (i : nat) (w : World ImError ImRequest ImResponse)
| Update (u : ImUpdate).

Notation ImSys := (Sys ImError ImRequest ImportDialog ImResponse).

Definition im_step (y : ImSys) (e : ImEvent) : ImSys :=
  sys_step commit y
    match e with Invoke h => Start (im_handler h) | Answered i w => Answer i w | Update u => Other (im_update u) end.

Definition mountDialog (st : AppState) : ImportDialog :=
  let m := preferredMethod (0 <? length (passkeys st))%nat (passwordAvailable (account st)) in
  mkDialog st false StepPick None [] None None "" "" None st_idle m false None [] m (false, m).
