(* ===== verification/ImportDialogFacts.v ===== *)
(** * Importing profiles: what the dialog sends and shows

    What is sent are the selected profiles of the picked file, within the cap, with one proof of
    identity; the profiles that will collect data are named before. A failed import says why and can be
    repeated. An import that ends after the dialog was closed, results that are closed without Done, and
    a file with an empty element are handled worse than the code means to. *)

From S2P Require Import Prelude JsString JsNumber ApiTypes Formats Store DataCollection ImportExport Verification Async ImportDialog.
From coqutil Require Import Datatypes.RecordSetters.
Import TriangleBracketNotations.

#[local] Arguments constant _ _ _ /.
#[local] Arguments importErrorMessage : simpl never.

(** ** Files *)

(** the drop zone takes exactly the files of at most five megabytes whose name ends in .json, in any
    case *)
Theorem accepted_files f :
  validateFile f (Some ACCEPT) (Some MAX_BYTES) = None <->
  endsWith (toLowerCase (file_name f)) ".json" = true /\ file_size f <= MAX_BYTES.
Proof.
  assert (getAllowedExtensions ACCEPT = [".moddns.json"; ".json"]) as He by (vm_compute; reflexivity).
  assert (forall s, endsWith s ".moddns.json" = true -> endsWith s ".json" = true) as Himp.
  { intros s. induction s as [|c s IH]; [done|]. cbn [endsWith]. intros [Heq|Hs]%orb_true_iff.
    - apply String.eqb_eq in Heq. injection Heq as -> ->. vm_compute. reflexivity.
    - by rewrite (IH Hs), orb_true_r. }
  unfold validateFile. change (truthy ACCEPT) with true. cbv iota zeta. rewrite He.
  cbn [length Nat.ltb Nat.leb existsb]. rewrite orb_false_r.
  assert (endsWith (toLowerCase (file_name f)) ".moddns.json" || endsWith (toLowerCase (file_name f)) ".json"
          = endsWith (toLowerCase (file_name f)) ".json") as ->.
  { destruct (endsWith (toLowerCase (file_name f)) ".moddns.json") eqn:E; [|done]. by rewrite (Himp _ E). }
  destruct (endsWith (toLowerCase (file_name f)) ".json"); cbn [andb negb]; [|naive_solver].
  destruct (Z.ltb_spec MAX_BYTES (file_size f)); split; try done; lia.
Qed.

(** ** The selection *)

(** The step, the file and the selection fit together, and a verification has a token. *)
Definition dialog_ok (s : ImportDialog) : Prop :=
  match parsedPayload s with
  | Some e => validEnvelope e = true /\ NoDup (selectedIds s) /\ selectedIds s ⊆ indexIds (en_profiles e)
  | None => selectedIds s = [] /\ step s <> StepConfirm
  end /\ (reauth s = verified -> is_Some (reauthToken_ s)).

(** What [dialog_ok] looks at. *)
Definition view (s : ImportDialog) := (parsedPayload s, selectedIds s, step s, reauth s, reauthToken_ s).

Lemma view_ok s s' : view s' = view s -> dialog_ok s -> dialog_ok s'.
Proof. unfold view, dialog_ok. by intros [= -> -> -> -> ->]. Qed.

Lemma indexIds_lookup {A} (l : list A) i : indexIds l !! i = (fun _ => show (Z.of_nat i)) <$> l !! i.
Proof. apply list_lookup_imap. Qed.

Lemma show_inj_nat i j : show (Z.of_nat i) = show (Z.of_nat j) -> i = j.
Proof.
  intros E. pose proof (parseInt10_show (Z.of_nat i) ltac:(lia)) as Hi.
  pose proof (parseInt10_show (Z.of_nat j) ltac:(lia)) as Hj. rewrite E in Hi. rewrite Hi in Hj. injection Hj. lia.
Qed.

Lemma indexIds_NoDup {A} (l : list A) : NoDup (indexIds l).
Proof.
  apply NoDup_alt. intros i j x Hi Hj. rewrite indexIds_lookup in Hi, Hj.
  destruct (l !! i), (l !! j); cbn in Hi, Hj; try done. injection Hi as <-. injection Hj as E. symmetry. by apply show_inj_nat.
Qed.

Lemma elem_of_indexIds {A} (l : list A) x :
  x ∈ indexIds l <-> exists i, (i < length l)%nat /\ x = show (Z.of_nat i).
Proof.
  rewrite list_elem_of_lookup. split.
  - intros [i Hi]. rewrite indexIds_lookup in Hi. destruct (l !! i) eqn:E; [|done]. exists i.
    split; [by eapply lookup_lt_Some|]. cbn in Hi. congruence.
  - intros (i & Hi & ->). exists i. rewrite indexIds_lookup. by destruct (lookup_lt_is_Some_2 l i Hi) as [y ->].
Qed.

Lemma resetAllState_ok s : dialog_ok (resetAllState s).
Proof. by split. Qed.

Lemma method_change_ok s : dialog_ok s -> dialog_ok (handleMethodChange s).
Proof. intros [Hs _]. by split. Qed.

Lemma commit_ok_dialog s : dialog_ok s -> dialog_ok (commit s).
Proof.
  intros Hs. unfold commit.
  assert (dialog_ok (methodEffect s)) as Hm.
  { unfold methodEffect. destruct (negb _); [|destruct (isMethodAvailable _ _ _); [done|]]; by apply (view_ok s). }
  assert (dialog_ok (closeEffect (methodEffect s))) as Hc.
  { unfold closeEffect. destruct (_ && _); [|by apply (view_ok (methodEffect s))].
    apply (view_ok (resetAllState (methodEffect s))); [done|apply resetAllState_ok]. }
  unfold changeEffect. destruct (bool_decide _); [done|]. apply method_change_ok. by apply (view_ok (closeEffect (methodEffect s))).
Qed.

Lemma onConfirm_ok f s : dialog_ok s -> (is_Some (parsedPayload s) -> dialog_ok (f s)) -> dialog_ok (onConfirmStep f s).
Proof.
  intros Hs Hf. unfold onConfirmStep. destruct (step s); [done| |done]. destruct (parsedPayload s) eqn:E; [|done]. by apply Hf.
Qed.

Lemma selection_ok s ids :
  dialog_ok s -> is_Some (parsedPayload s) -> NoDup ids ->
  ids ⊆ (indexIds <$> (en_profiles <$> parsedPayload s)) ?? [] -> dialog_ok (s <| selectedIds := ids |>).
Proof.
  intros [Hs Hr] [e He] Hnd Hids. unfold dialog_ok. split; [|exact Hr].
  change (parsedPayload (s <| selectedIds := ids |>)) with (parsedPayload s).
  change (selectedIds (s <| selectedIds := ids |>)) with ids.
  rewrite He in *. destruct Hs as (Hv & _). split; [done|]. by split.
Qed.

Lemma update_ok u s : dialog_ok s -> dialog_ok (im_update u s).
Proof.
  intros Hs. destruct u as [next|f|[text|]|id| |v|v|m| |st]; cbn [im_update].
  - destruct next; unfold handleOpenChange; [by apply (view_ok s)|]. apply (view_ok (resetAllState s)); [done|apply resetAllState_ok].
  - destruct (bool_decide _); [|done]. unfold processFile. destruct (validateFile _ _ _); by apply (view_ok s).
  - destruct text as [| |e]; cbn [fileLoaded]; try by apply (view_ok s).
    destruct (validEnvelope e) eqn:He; [|by apply (view_ok s)]. split; [|apply Hs]. cbn.
    split; [done|]. split; [apply indexIds_NoDup|done].
  - by apply (view_ok s).
  - apply onConfirm_ok; [done|]. intros He. case_bool_decide as Hid; [|done]. apply selection_ok; [done|done| |].
    all: destruct Hs as [Hs _]; destruct (parsedPayload s) as [e|]; [|by destruct He as [? [=]]].
    all: destruct Hs as (_ & Hnd & Hsub); unfold clickCheckbox, handleToggle; case_bool_decide as Hin; cbn [negb].
    + by apply NoDup_filter_b.
    + apply NoDup_app. split; [done|]. split; [set_solver|apply NoDup_singleton].
    + intros x Hx. apply elem_of_list_filter_b in Hx as [Hx _]. by apply Hsub.
    + cbn in Hid |- *. set_solver.
  - apply onConfirm_ok; [done|]. intros He. apply selection_ok; [done|done| |].
    all: destruct He as [e He]; rewrite He; cbn; unfold handleSelectAll; destruct (_ && _); try apply indexIds_NoDup; try done.
    + apply NoDup_nil_2.
    + by intros x Hx%elem_of_nil.
  - apply onConfirm_ok; [done|]. intros _. destruct (bool_decide _); by apply (view_ok s).
  - apply onConfirm_ok; [done|]. intros _. destruct (asksOtp s); by apply (view_ok s).
  - apply onConfirm_ok; [done|]. intros _. unfold chooseMethod. destruct (isMethodAvailable _ _ _); by apply (view_ok s).
  - destruct (isImporting_ s); [done|]. apply onConfirm_ok; [done|]. intros _. split; [done|apply Hs].
  - by apply (view_ok s).
Qed.

(** ** Handlers *)

Lemma keeps_view (f : ImportDialog -> ImportDialog) :
  (forall s, view (f s) = view s) -> keeps dialog_ok (perform f : Handler).
Proof. intros Hf. split; [|done]. intros s. by apply view_ok. Qed.

Lemma keeps_awaits (r : ImRequest) :
  keeps dialog_ok (await r : Prog ImError ImRequest ImportDialog ImResponse (ImResponse r)).
Proof. by intros [x|e]. Qed.

Lemma keeps_toasts k t : keeps dialog_ok (perform (showToast k t) : Handler).
Proof. by apply keeps_view. Qed.

Lemma setReauth_keeps st : st <> verified -> keeps dialog_ok (perform (setReauth st) : Handler).
Proof. intros Hst. split; [|done]. intros s [Hs _]. by split. Qed.

Lemma passkey_keeps : keeps dialog_ok beginPasskeyReauth.
Proof.
  apply keeps_bind; [by apply setReauth_keeps|]. intros _. apply keeps_bind; [by apply keeps_view|]. intros _.
  apply keeps_try.
  - apply keeps_bind; [apply keeps_awaits|]. intros t. apply keeps_bind; [|intros _; apply keeps_toasts].
    split; [|done]. intros s [Hs _]. split; [exact Hs|]. by eexists.
  - intros e. apply keeps_bind; [by apply setReauth_keeps|]. intros _. apply keeps_toasts.
Qed.

Lemma sendImport_keeps i : keeps dialog_ok (sendImport i).
Proof.
  apply keeps_bind; [by apply keeps_view|]. intros _. apply keeps_bind; [by apply keeps_view|]. intros _.
  apply keeps_finally; [|intros s; by apply view_ok]. apply keeps_try.
  - apply keeps_bind; [apply keeps_awaits|]. intros [[a b] c]. by apply keeps_view.
  - intros e. apply keeps_bind; [apply keeps_toasts|done].
Qed.

Lemma results_ok s : dialog_ok s -> dialog_ok (setStep StepResults s).
Proof.
  intros [Hs Hr]. split; [|exact Hr]. change (parsedPayload (setStep StepResults s)) with (parsedPayload s).
  destruct (parsedPayload s); [exact Hs|]. by split; [apply Hs|].
Qed.

Lemma handler_keeps h s : keeps dialog_ok (im_handler h s).
Proof.
  destruct h; cbn [im_handler].
  - destruct (step s), (chosenMethod s), (reauth s); try done; apply passkey_keeps.
  - destruct (bool_decide _); [|done]. unfold handleImport. destruct (parsedPayload s) as [e|]; [|done].
    destruct (isSubmitDisabled s); [done|]. apply keeps_bind; [by apply keeps_view|]. intros _.
    apply keeps_try.
    + apply keeps_bind; [apply sendImport_keeps|]. intros _. split; [|done]. intros x. apply results_ok.
    + intros e'. destruct (_ || _); [done|by apply keeps_view].
  - destruct (_ && _); [|done]. unfold handleDone. cbv zeta. apply keeps_bind.
    + apply keeps_try; [|done]. apply keeps_bind; [apply keeps_awaits|]. intros ps. by apply keeps_view.
    + intros _. apply keeps_bind; [destruct (_ <? _); apply keeps_toasts|]. intros _. split; [|done].
      intros x _. apply (view_ok (resetAllState x)); [done|apply resetAllState_ok].
Qed.

Definition im_ev (e : ImEvent) : SysEvent ImError ImRequest ImportDialog ImResponse :=
  match e with Invoke h => Start (im_handler h) | Answered i w => Answer i w | Update u => Other (im_update u) end.

Lemma im_run y evs : run im_step y evs = run (sys_step commit) y (map im_ev evs).
Proof. by apply run_map. Qed.

Lemma reached_ok st evs : dialog_ok (ui (run im_step (mkSys (mountDialog st) []) evs)).
Proof.
  rewrite im_run. apply sys_keeps; [apply commit_ok_dialog|by split|by constructor|].
  apply Forall_fmap, Forall_forall. intros [h|i w|u] _; cbn [compose im_ev event_keeps]; [|done|].
  - intros s. apply handler_keeps.
  - apply update_ok.
Qed.

(** ** What is sent *)

(** Exactly one of a password and a token, and a code only with a password and only when one is asked. *)
Definition one_proof (s : ImportDialog) (r : ImportRequest (Payload := Envelope)) : Prop :=
  match chosenMethod s with
  | password =>
      ir_current_password r = Some (currentPassword_ s) /\ truthy (trim (currentPassword_ s)) = true /\
      ir_reauth_token r = None /\ (asksOtp s = true -> ir_mfa_code r = Some (otp_ s)) /\
      (asksOtp s = false -> ir_mfa_code r = None)
  | passkey => ir_current_password r = None /\ is_Some (ir_reauth_token r) /\ ir_mfa_code r = None
  end.

Lemma parse_index e ids :
  ids ⊆ indexIds (en_profiles e) ->
  Forall2 (fun id p => exists i, id = show (Z.of_nat i) /\ en_profiles e !! i = Some p)
    ids (omap (profileAt e) (map parseInt10 ids)) /\
  length (omap (profileAt e) (map parseInt10 ids)) = length ids.
Proof.
  intros Hsub. assert (Forall2 (fun id p => exists i, id = show (Z.of_nat i) /\ en_profiles e !! i = Some p)
    ids (omap (profileAt e) (map parseInt10 ids))) as HF.
  { induction ids as [|id ids IH]; [constructor|]. cbn [map].
    assert (id ∈ indexIds (en_profiles e)) as (i & Hi & ->)%elem_of_indexIds by (apply Hsub; set_solver).
    rewrite parseInt10_show by lia. cbn [omap list_omap]. unfold profileAt at 1.
    rewrite (proj2 (Z.leb_le _ _)), Nat2Z.id by lia. destruct (lookup_lt_is_Some_2 _ _ Hi) as [p Hp]. rewrite Hp.
    constructor; [by exists i|]. apply IH. set_solver. }
  split; [exact HF|]. symmetry. by eapply Forall2_length.
Qed.

Lemma import_proof e s :
  dialog_ok s -> isReauthComplete s = true -> one_proof s (import_request (importInput e s)).
Proof.
  intros [_ Hr] Hc. unfold one_proof, isReauthComplete in *. unfold import_request, importInput.
  cbn [ii_payload ii_currentPassword ii_reauthToken ii_otp ir_current_password ir_reauth_token ir_mfa_code].
  destruct (chosenMethod s); cbn [bool_decide decide_rel].
  - apply andb_true_iff in Hc as [Hp Ho]. rewrite !bool_decide_eq_true_2, bool_decide_eq_false_2 by done.
    cbn [andb]. split; [done|]. split; [done|]. split; [done|]. unfold mfa_header.
    split; intros Ha; rewrite Ha in *; [|done]. cbn [negb orb] in Ho. apply truthy_trim in Ho.
    change (truthy_opt (Some (otp_ s))) with (truthy (otp_ s)). by rewrite Ho.
  - apply bool_decide_eq_true in Hc. rewrite bool_decide_eq_false_2, bool_decide_eq_true_2 by done. cbn [andb].
    split; [done|]. split; [by apply Hr|done].
Qed.

(** whatever was done in the dialog before, an import sends the selected profiles of the picked file in
    the order they were selected, each once, within the cap of the account, with exactly one proof of
    identity *)
(** C9: whatever was done in the dialog before, an import sends the selected profiles of the picked
    file in the order they were selected, each once, within the cap of the account, with exactly one
    proof of identity *)
Theorem import_sends_the_selection st evs :
  let s := ui (run im_step (mkSys (mountDialog st) []) evs) in
  sends (fun q => match q with
    | ImportPost r => exists e, parsedPayload s = Some e /\ NoDup (selectedIds s) /\
        Forall2 (fun id p => exists i, id = show (Z.of_nat i) /\ en_profiles e !! i = Some p)
          (selectedIds s) (en_profiles (ir_payload r)) /\
        0 < Z.of_nat (length (en_profiles (ir_payload r))) /\
        Z.of_nat (length (profiles (store s))) + Z.of_nat (length (en_profiles (ir_payload r))) <= MAX_PROFILES /\
        one_proof s r
    | _ => False
    end) (handleImport s).
Proof.
  cbv zeta. pose proof (reached_ok st evs) as Hok. generalize dependent (ui (run im_step (mkSys (mountDialog st) []) evs)).
  intros s Hok. unfold handleImport. destruct (parsedPayload s) as [e|] eqn:He; [|done].
  destruct (isSubmitDisabled s) eqn:Hd; [done|]. apply sends_bind; [done|]. intros _.
  apply sends_try; [|intros err; by destruct (_ || _)]. apply sends_bind; [|done].
  assert (exists e0, Some e = Some e0 /\ NoDup (selectedIds s) /\
    Forall2 (fun id p => exists i, id = show (Z.of_nat i) /\ en_profiles e0 !! i = Some p)
      (selectedIds s) (en_profiles (ir_payload (import_request (importInput e s)))) /\
    0 < Z.of_nat (length (en_profiles (ir_payload (import_request (importInput e s))))) /\
    Z.of_nat (length (profiles (store s))) + Z.of_nat (length (en_profiles (ir_payload (import_request (importInput e s)))))
      <= MAX_PROFILES /\ one_proof s (import_request (importInput e s))) as Hreq.
  { destruct Hok as [Hs Hr]. pose proof Hs as Hs'. rewrite He in Hs'. destruct Hs' as (_ & Hnd & Hsub).
    destruct (parse_index e _ Hsub) as [HF Hlen]. exists e. split; [done|]. split; [done|]. split; [exact HF|].
    apply orb_false_iff in Hd as [[[Hc Hcap]%orb_false_iff Hre]%orb_false_iff _].
    unfold selectedCount, selectedIndices in Hc. unfold wouldExceedCap, currentProfileCount, selectedCount, selectedIndices in Hcap.
    rewrite length_map in Hc, Hcap. apply Z.eqb_neq in Hc. apply Z.ltb_ge in Hcap. apply negb_false_iff in Hre.
    change (en_profiles (ir_payload (import_request (importInput e s))))
      with (omap (profileAt e) (map parseInt10 (selectedIds s))). rewrite Hlen.
    split; [lia|]. split; [lia|]. by apply import_proof. }
  unfold sendImport. apply sends_bind; [done|]. intros _. apply sends_bind; [done|]. intros _.
  apply sends_finally, sends_try; [|done]. split; [exact Hreq|]. intros [[[a b] c]|err]; done.
Qed.

(** ** Importing ends *)

Lemma handleImport_behaves s : well_behaved isImporting_ (handleImport s).
Proof.
  unfold handleImport. destruct (parsedPayload s) as [e|]; [|by left]. destruct (isSubmitDisabled s); [by left|].
  right. eexists _, _. split; [reflexivity|]. intros s0. cbn. intros [[[a b] c]|err] s'; cbn; [done|].
  destruct (_ || _); done.
Qed.

Lemma im_handler_behaves h s : well_behaved isImporting_ (im_handler h s).
Proof.
  destruct h; cbn [im_handler].
  - left. destruct (step s), (chosenMethod s), (reauth s); try done; cbn; (do 2 (split; [done|])); intros [t|e]; cbn; repeat split.
  - destruct (bool_decide _); [apply handleImport_behaves|by left].
  - left. destruct (_ && _); [|done]. unfold handleDone. cbv zeta. cbn. intros [ps|e]; cbn; destruct (_ <? _); repeat split.
Qed.

Lemma commit_importing s : isImporting_ (commit s) = isImporting_ s.
Proof.
  unfold commit, changeEffect, closeEffect, methodEffect.
  repeat match goal with |- context [if ?b then _ else _] => destruct b end; done.
Qed.

Lemma onConfirm_importing f s : (forall x, isImporting_ (f x) = isImporting_ x) -> isImporting_ (onConfirmStep f s) = isImporting_ s.
Proof. intros Hf. unfold onConfirmStep. destruct (step s), (parsedPayload s); auto. Qed.

Lemma update_importing u s : isImporting_ (im_update u s) = isImporting_ s.
Proof.
  destruct u as [next|f|[text|]|id| |v|v|m| |st]; cbn [im_update]; try done.
  - by destruct next.
  - destruct (bool_decide _); [|done]. unfold processFile. by destruct (validateFile _ _ _).
  - destruct text as [| |e]; cbn [fileLoaded]; try done. by destruct (validEnvelope e).
  - apply onConfirm_importing. intros x. by destruct (bool_decide _).
  - by apply onConfirm_importing.
  - apply onConfirm_importing. intros x. by destruct (bool_decide _).
  - apply onConfirm_importing. intros x. by destruct (asksOtp x).
  - apply onConfirm_importing. intros x. unfold chooseMethod. by destruct (isMethodAvailable _ _ _).
  - destruct (isImporting_ s) eqn:E; [done|]. by rewrite onConfirm_importing.
Qed.

(** whatever the dialog is answered and whatever happens meanwhile, when nothing is in flight it is not
    importing, and while it imports a request is in flight after which it stops *)
Theorem import_dialog_settles st evs :
  let y := run im_step (mkSys (mountDialog st) []) evs in
  (inflight y = [] -> isImporting_ (ui y) = false) /\
  (isImporting_ (ui y) = true -> exists p, p ∈ inflight y /\ lowers isImporting_ p).
Proof.
  cbv zeta. rewrite im_run.
  destruct (busy_settles commit isImporting_ (unchanged_flag isImporting_ commit commit_importing) (mountDialog st) (map im_ev evs) eq_refl) as [[_ Hb] Hn];
    [|by split].
  apply Forall_fmap, Forall_forall. intros [h|i w|u] _; cbn [compose im_ev event_ok]; [|done|].
  - intros s. apply im_handler_behaves.
  - apply unchanged_flag. intros s. apply update_importing.
Qed.

(** ** A refused import *)

(** an import that the server refuses ends with one toast that says why, the file and the selection as
    they were, and the message in the dialog exactly when it is not about the identity *)
Theorem refused_import_can_be_repeated s e (f : ImportDialog -> ImportDialog) (w : World ImError ImRequest ImResponse) err :
  parsedPayload s = Some e -> isSubmitDisabled s = false ->
  (forall r, w (ImportPost r) = Throw err) ->
  (forall x, shownToasts (f x) = shownToasts x /\ parsedPayload (f x) = parsedPayload x /\
             selectedIds (f x) = selectedIds x /\ step (f x) = step x /\ importError (f x) = importError x) ->
  exists s', play id [(f, w)] (handleImport s) s = (s', Ret ()) /\
    isImporting_ s' = false /\ parsedPayload s' = Some e /\ selectedIds s' = selectedIds s /\ step s' = step s /\
    shownToasts s' = shownToasts s ++ [mkToast ToastError (importErrorMessage (ie_status err) (ie_error err))] /\
    importError s' =
      (if bool_decide (ie_status err = Some 401)
          || bool_decide (ie_status err = Some 400) && isReauthError (ie_error err)
       then None else Some (importErrorMessage (ie_status err) (ie_error err))).
Proof.
  intros He Hd Hw Hf. rewrite play_one. unfold handleImport. rewrite He, Hd. unfold resume, advance.
  unfold sendImport. cbn [drain mbind prog_bind perform finally try_async await fst snd mret prog_ret]. rewrite Hw.
  cbn [drain mbind prog_bind perform finally try_async fst snd mret prog_ret].
  set (s1 := setResult None (setImporting true (setImportError None s))). change (id s1) with s1.
  destruct (Hf s1) as (Ht & Hp & Hs & Hst & Hi).
  destruct (_ || _); cbn [drain perform mret prog_ret]; eexists; (split; [reflexivity|]); (split; [done|]).
  all: split; [transitivity (parsedPayload (f s1)); [done|by rewrite Hp]|].
  all: split; [transitivity (selectedIds (f s1)); [done|by rewrite Hs]|].
  all: split; [transitivity (step (f s1)); [done|by rewrite Hst]|].
  all: split; [transitivity (shownToasts (f s1) ++ [mkToast ToastError (importErrorMessage (ie_status err) (ie_error err))]); [done|by rewrite Ht]|].
  - transitivity (importError (f s1)); [done|by rewrite Hi].
  - done.
Qed.

(** ** Closing *)

(** Done refreshes the profiles of the store; closing the results in any other way leaves the imported
    profiles out of it. *)
Theorem only_done_refreshes s r (w : World ImError ImRequest ImResponse) ps f :
  step s = StepResults -> result s = Some r -> w ProfilesGet = Ok ps ->
  (exists s', play id [(f, w)] (handleDone s) s = (s', Ret ()) /\ dialogOpen s' = false /\ profiles (store s') = ps) /\
  profiles (store (im_update (OpenChange false) s)) = profiles (store s) /\
  result (im_update (OpenChange false) s) = None.
Proof.
  intros Hst Hr Hw. split; [|by split]. rewrite play_one. unfold handleDone, resume, advance. cbv zeta.
  cbn [drain mbind prog_bind perform finally try_async await fst snd mret prog_ret]. rewrite Hw.
  cbn [drain mbind prog_bind perform finally try_async fst snd mret prog_ret].
  assert (forall ps st, profiles (restoreActiveProfile ps (setProfiles ps st)) = ps) as Hstore.
  { intros ps' st. unfold restoreActiveProfile.
    destruct (match activeProfile (setProfiles ps' st) with Some _ => _ | None => None end); [done|]. by destruct ps'. }
  destruct (_ <? _); cbn [drain mbind prog_bind perform mret prog_ret]; eexists; (split; [reflexivity|]); split; try done; apply Hstore.
Qed.

Lemma commit_closeDeps s : closeDeps (commit s) = (dialogOpen s, preferred s) /\ dialogOpen (commit s) = dialogOpen s /\
  preferred (commit s) = preferred s.
Proof.
  unfold commit, changeEffect, closeEffect, methodEffect.
  repeat match goal with |- context [if ?b then _ else _] => destruct b end; done.
Qed.

(** Nothing is reset while the dialog is open, or when it was closed already. *)
Lemma commit_kept s :
  dialogOpen s = true \/ closeDeps s = (dialogOpen s, preferred s) ->
  step (commit s) = step s /\ result (commit s) = result s.
Proof.
  intros Hs. unfold commit, closeEffect.
  assert (dialogOpen (methodEffect s) = dialogOpen s /\ preferred (methodEffect s) = preferred s /\
    closeDeps (methodEffect s) = closeDeps s /\ step (methodEffect s) = step s /\ result (methodEffect s) = result s) as (Ho & Hp & Hd & <- & <-).
  { unfold methodEffect. repeat match goal with |- context [if ?b then _ else _] => destruct b end; done. }
  assert (negb (bool_decide (closeDeps (methodEffect s) = (dialogOpen (methodEffect s), preferred (methodEffect s))))
          && negb (dialogOpen (methodEffect s)) = false) as ->.
  { rewrite Ho, Hp, Hd. destruct Hs as [-> | ->]; [by rewrite andb_false_r|]. by rewrite bool_decide_eq_true_2. }
  unfold changeEffect. destruct (bool_decide _); done.
Qed.

Definition finished (r : ImportResult) (s : ImportDialog) : ImportDialog :=
  setStep StepResults (setImporting false (setResult (Some r) s)).

Lemma import_plays s e (f : ImportDialog -> ImportDialog) (w : World ImError ImRequest ImResponse) ids names warns :
  parsedPayload s = Some e -> isSubmitDisabled s = false ->
  (forall r, w (ImportPost r) = Ok (ids, names, warns)) ->
  exists x, play commit [(f, w)] (handleImport s) s = (commit (finished (import_result ids names warns) (f x)), Ret ()).
Proof.
  intros He Hd Hw. rewrite play_one. unfold handleImport. rewrite He, Hd. unfold resume, advance.
  unfold sendImport. cbn [drain mbind prog_bind perform finally try_async await fst snd mret prog_ret]. rewrite Hw.
  cbn [drain mbind prog_bind perform finally try_async fst snd mret prog_ret]. eexists. reflexivity.
Qed.

Lemma opens_on_results r y :
  closeDeps y = (dialogOpen y, preferred y) -> dialogOpen y = false ->
  let s' := commit (finished r y) in
  dialogOpen s' = false /\ step (commit (im_update (OpenChange true) s')) = StepResults /\
  result (commit (im_update (OpenChange true) s')) = Some r.
Proof.
  intros Hy Ho. cbv zeta. assert (closeDeps (finished r y) = (dialogOpen (finished r y), preferred (finished r y))) as Hz by exact Hy.
  destruct (commit_kept (finished r y) (or_intror Hz)) as [Hs Hr]. destruct (commit_closeDeps (finished r y)) as (_ & Hoz & _).
  assert (step (finished r y) = StepResults /\ result (finished r y) = Some r /\ dialogOpen (finished r y) = false) as (E1 & E2 & E3)
    by (by split; [|split]).
  rewrite E1 in Hs. rewrite E2 in Hr. rewrite E3 in Hoz. generalize dependent (commit (finished r y)). intros s' Hs Hr Hoz.
  split; [done|]. destruct (commit_kept (im_update (OpenChange true) s') (or_introl eq_refl)) as [-> ->]. by split.
Qed.

(** an import that ends after the dialog was closed leaves the closed dialog on its last step, so it
    opens on the results instead of on the choice of a file *)
Theorem late_import_opens_on_results s e (w : World ImError ImRequest ImResponse) ids names warns :
  parsedPayload s = Some e -> isSubmitDisabled s = false ->
  (forall r, w (ImportPost r) = Ok (ids, names, warns)) ->
  let closed x := commit (im_update (OpenChange false) x) in
  exists s', play commit [(closed, w)] (handleImport s) s = (s', Ret ()) /\ dialogOpen s' = false /\
    step (commit (im_update (OpenChange true) s')) = StepResults /\
    result (commit (im_update (OpenChange true) s')) = Some (import_result ids names warns).
Proof.
  intros He Hd Hw closed. destruct (import_plays s e closed w ids names warns He Hd Hw) as [x ->].
  eexists. split; [reflexivity|].
  destruct (commit_closeDeps (im_update (OpenChange false) x)) as (Hc & Ho & Hp).
  apply opens_on_results; [|exact Ho]. unfold closed. by rewrite Hc, Ho, Hp.
Qed.

(** ** What a file shows *)

(** every selected profile that collects data as soon as it is imported is named with what it collects,
    and no other *)
Theorem collecting_is_announced st evs e :
  let s := ui (run im_step (mkSys (mountDialog st) []) evs) in
  parsedPayload s = Some e ->
  forall c, c ∈ collecting s <-> exists i p what,
    show (Z.of_nat i) ∈ selectedIds s /\ en_profiles e !! i = Some (Some p) /\
    importedCollection (Some (xp_settings p)) = Some what /\ c = mkCollecting (Some (Z.of_nat i)) (xp_name p) what.
Proof.
  cbv zeta. pose proof (reached_ok st evs) as Hok. generalize dependent (ui (run im_step (mkSys (mountDialog st) []) evs)).
  intros s [Hs _] He c. rewrite He in Hs. destruct Hs as (_ & _ & Hsub). unfold collecting. rewrite He.
  rewrite list_elem_of_omap. split.
  - intros (i & Hi & Hc). rewrite array_sort_perm in Hi. unfold selectedIndices in Hi.
    apply list_elem_of_fmap in Hi as (id & -> & Hid). pose proof (Hsub _ Hid) as (n & Hn & ->)%elem_of_indexIds.
    rewrite parseInt10_show in Hc by lia. unfold profileAt in Hc.
    rewrite (proj2 (Z.leb_le _ _)), Nat2Z.id in Hc by lia.
    destruct (en_profiles e !! n) as [[p|]|] eqn:Hp; try done.
    destruct (importedCollection (Some (xp_settings p))) as [what|] eqn:Hwhat; [|done]. cbn in Hc. injection Hc as <-.
    by exists n, p, what.
  - intros (i & p & what & Hi & Hp & Hwhat & ->). exists (Some (Z.of_nat i)). split.
    + rewrite array_sort_perm. unfold selectedIndices. apply list_elem_of_fmap. exists (show (Z.of_nat i)).
      by rewrite parseInt10_show by lia.
    + unfold profileAt. rewrite (proj2 (Z.leb_le _ _)), Nat2Z.id by lia. by rewrite Hp, Hwhat.
Qed.

(** a file with an empty element among its profiles passes the check, and rendering the selection then
    throws; without one the list shows every profile *)
Theorem empty_profile_breaks_the_list e s :
  validEnvelope e = true ->
  let s' := fileLoaded (EnvelopeJson e) s in
  step s' = StepConfirm /\ fileError s' = fileError s /\
  (profileListItems s' = None <-> None ∈ en_profiles e).
Proof.
  intros He. cbv zeta. cbn [fileLoaded]. rewrite He. split; [done|]. split; [done|]. unfold profileListItems.
  change (parsedPayload _) with (Some e). cbv iota. rewrite eq_None_not_Some, mapM_is_Some.
  assert (length (indexIds (en_profiles e)) = length (en_profiles e)) as Hlen by apply length_imap.
  split.
  - intros Hn. destruct (existsb (fun p => negb (bool_decide (is_Some p))) (en_profiles e)) eqn:E.
    { apply existsb_elem in E as ([p|] & Hin & Hp); [|done]. apply negb_true_iff, bool_decide_eq_false in Hp. by destruct Hp. }
    exfalso. apply Hn, Forall_forall. intros [id [p|]] Hin; [by eexists|]. exfalso.
    apply existsb_false in E. rewrite Forall_forall in E. apply elem_of_zip_r in Hin. by specialize (E _ Hin).
  - intros [i Hi]%list_elem_of_lookup Hall. rewrite Forall_forall in Hall.
    destruct (lookup_lt_is_Some_2 (indexIds (en_profiles e)) i) as [id Hid]; [rewrite Hlen; by eapply lookup_lt_Some|].
    destruct (Hall (id, None)) as [x Hx]; [|done]. apply (list_elem_of_lookup_2 _ i). apply lookup_zip_with_Some.
    by exists id, None.
Qed.

(** ** Witnesses *)

Definition exported (name : string) (stats : bool) : option ModelExportedProfile :=
  Some (MkModelExportedProfile None name
          (MkModelExportedSettings None None None None None None (Some (MkModelExportedStatistics (Some stats))))).

Definition two_profiles : Envelope := mkEnvelope "moddns-export" 1 "2026-01-01" [exported "Home" true; exported "Work" false].
Definition with_null : Envelope := mkEnvelope "moddns-export" 1 "2026-01-01" [exported "Home" true; None].

(** The file is read and a password typed. *)
Definition ready_events : list ImEvent :=
  [Update (OpenChange true); Update (FileRead (Some (EnvelopeJson two_profiles))); Update (TypePassword "secret")].
Definition ready : ImportDialog := ui (run im_step (mkSys (mountDialog initialState) []) ready_events).

Definition import_world (a : Prelude.result ImError (option (list string) * option (list string) * option (list string)))
    : World ImError ImRequest ImResponse :=
  fun r => match r with
           | PasskeyReauth => Ok "token"
           | ImportPost _ => a
           | ProfilesGet => Ok [MkModelProfile "acc" "1" "Home" "p1" None]
           end.

Lemma refused_import_can_be_repeated_witness :
  exists s', play id [(id, import_world (Throw (mkImError None (Some 400) (Some "bad rule"))))] (handleImport ready) ready
      = (s', Ret ()) /\
    isImporting_ s' = false /\ parsedPayload s' = Some two_profiles /\ selectedIds s' = ["0"; "1"] /\ step s' = StepConfirm /\
    shownToasts s' = [mkToast ToastError "bad rule"] /\ importError s' = Some "bad rule".
Proof.
  apply (refused_import_can_be_repeated ready two_profiles id
           (import_world (Throw (mkImError None (Some 400) (Some "bad rule")))) (mkImError None (Some 400) (Some "bad rule")));
    [by vm_compute|by vm_compute|done|by intros x].
Defined.

Definition on_results : ImportDialog := finished (mkImportResult ["p9"] ["Home"] []) ready.

Lemma only_done_refreshes_witness :
  (exists s', play id [(id, import_world (Ok (None, None, None)))] (handleDone on_results) on_results = (s', Ret ()) /\
     dialogOpen s' = false /\ profiles (store s') = [MkModelProfile "acc" "1" "Home" "p1" None]) /\
  profiles (store (im_update (OpenChange false) on_results)) = profiles (store on_results) /\
  result (im_update (OpenChange false) on_results) = None.
Proof.
  apply (only_done_refreshes on_results (mkImportResult ["p9"] ["Home"] []) (import_world (Ok (None, None, None)))
           [MkModelProfile "acc" "1" "Home" "p1" None]); reflexivity.
Defined.

Lemma late_import_opens_on_results_witness :
  let closed x := commit (im_update (OpenChange false) x) in
  exists s', play commit [(closed, import_world (Ok (Some ["p9"], Some ["Home"], None)))] (handleImport ready) ready
      = (s', Ret ()) /\ dialogOpen s' = false /\
    step (commit (im_update (OpenChange true) s')) = StepResults /\
    result (commit (im_update (OpenChange true) s')) = Some (mkImportResult ["p9"] ["Home"] []).
Proof.
  apply (late_import_opens_on_results ready two_profiles (import_world (Ok (Some ["p9"], Some ["Home"], None)))
           (Some ["p9"]) (Some ["Home"]) None); [by vm_compute|by vm_compute|done].
Defined.

Lemma collecting_is_announced_witness :
  parsedPayload ready = Some two_profiles /\
  (mkCollecting (Some 0) "Home" "query counts per device, kept for 30 days" ∈ collecting ready <->
   exists i p what, show (Z.of_nat i) ∈ selectedIds ready /\ en_profiles two_profiles !! i = Some (Some p) /\
     importedCollection (Some (xp_settings p)) = Some what /\
     mkCollecting (Some 0) "Home" "query counts per device, kept for 30 days" = mkCollecting (Some (Z.of_nat i)) (xp_name p) what).
Proof.
  split; [by vm_compute|]. apply (collecting_is_announced initialState ready_events two_profiles). by vm_compute.
Defined.

Lemma empty_profile_breaks_the_list_witness :
  let s' := fileLoaded (EnvelopeJson with_null) (mountDialog initialState) in
  step s' = StepConfirm /\ fileError s' = fileError (mountDialog initialState) /\
  (profileListItems s' = None <-> None ∈ en_profiles with_null).
Proof. apply (empty_profile_breaks_the_list with_null (mountDialog initialState)). reflexivity. Defined.
