(* ===== verification/ProfileMenu.v ===== *)
(** * The profile menu

    [src/app/src/pages/header/ProfileDropdown.tsx] with its dialogs ([CreateProfileDialog.tsx],
    [EditProfileDialog.tsx], [pages/settings/DeleteProfileDialog.tsx]): switching, creating, renaming and
    deleting profiles. A callback that is not awaited runs up to its own request at once, so it is put
    after the rest of the handler that calls it. *)

From coqutil Require Import Datatypes.RecordSetters.
From S2P Require Import Prelude JsString ApiTypes Store DataCollection Async.
Import TriangleBracketNotations.

#[local] Arguments constant _ _ _ /.

(** ** Requests *)

(** The body of a change of name has the one update. *)
Inductive PmRequest : Type :=
| ProfilesGet
| ProfilesPost (name : string)
| ProfilesIdPatch (profileId : string) (updates : list ModelProfileUpdate)
| ProfilesIdDelete (profileId : string).

(** A creation answers its status and data, a deletion its status. *)
Definition PmResponse (r : PmRequest) : Type :=
  match r with
  | ProfilesGet => list ModelProfile
  | ProfilesPost _ => (Z * option ModelProfile)%type
  | ProfilesIdPatch _ _ => ModelProfile
  | ProfilesIdDelete _ => Z
  end.

Record PmError := mkPmError { pe_status : option Z; pe_error : option string }.

(** ** State *)

Record ProfileMenu := mkMenu {
  store : AppState;
  showCreateDialog : bool;
  showEditDialog : bool;
  editProfile : option ModelProfile;
  loading : bool;
  selectOpen : bool;
  truncateAt : Z;
  createError : option string;
  profileName : string;
  editedName : string;
  showSave : bool;
  editLoading : bool;
  showDeleteDialog : bool;
  deleteLoading : bool;
  navigated : option (string * bool);
  toasts : list UiToast;
}.

Notation Handler := (Prog PmError PmRequest ProfileMenu PmResponse unit).

Definition showToast (k : ToastKind) (text : string) (s : ProfileMenu) : ProfileMenu :=
  s <| toasts := (toasts s ++ [mkToast k text])%list |>.
Definition setActive (p : option ModelProfile) (s : ProfileMenu) : ProfileMenu :=
  s <| store := setActiveProfile p (store s) |>.
Definition setProfileList (ps : list ModelProfile) (s : ProfileMenu) : ProfileMenu :=
  s <| store := setProfiles ps (store s) |>.
Definition setLoading (b : bool) (s : ProfileMenu) : ProfileMenu := s <| loading := b |>.
Definition setEditLoading (b : bool) (s : ProfileMenu) : ProfileMenu := s <| editLoading := b |>.
Definition setDeleteLoading (b : bool) (s : ProfileMenu) : ProfileMenu := s <| deleteLoading := b |>.
Definition setCreateError (e : option string) (s : ProfileMenu) : ProfileMenu := s <| createError := e |>.
Definition setShowCreate (b : bool) (s : ProfileMenu) : ProfileMenu := s <| showCreateDialog := b |>.
Definition setShowDelete (b : bool) (s : ProfileMenu) : ProfileMenu := s <| showDeleteDialog := b |>.
Definition setProfileName (n : string) (s : ProfileMenu) : ProfileMenu := s <| profileName := n |>.
Definition setShowSave (b : bool) (s : ProfileMenu) : ProfileMenu := s <| showSave := b |>.
(** [deleted] is the router state [profileDeleted]. *)
Definition navigate (path : string) (deleted : bool) (s : ProfileMenu) : ProfileMenu :=
  s <| navigated := Some (path, deleted) |>.

(** Showing the edit dialog mounts it; the delete dialog lives inside it. *)
Definition setShowEdit (b : bool) (s : ProfileMenu) : ProfileMenu :=
  (if b then s <| editedName := (p_name <$> editProfile s) ?? "" |> <| showSave := false |> <| editLoading := false |>
               <| showDeleteDialog := false |> <| deleteLoading := false |>
   else s <| showDeleteDialog := false |>) <| showEditDialog := b |>.

(** ** The menu *)

Definition headProfile (ps : list ModelProfile) : option ModelProfile := head ps.

Definition selectFound (selectProfileId : string) (ps : list ModelProfile) (s : ProfileMenu) : ProfileMenu :=
  setActive (match array_find (fun p => String.eqb (p_profile_id p) selectProfileId) ps with
             | Some p => Some p
             | None => headProfile ps
             end) s.

Definition fetchProfilesAndUpdate (selectProfileId : option string) : Handler :=
  ps ← await ProfilesGet;
  perform (setProfileList ps);;
  match selectProfileId with
  | Some id => if truthy id then perform (selectFound id ps) else mret ()
  | None => mret ()
  end.

Definition handleProfileUpdated (updated : ModelProfile) : Handler :=
  fetchProfilesAndUpdate (Some (p_profile_id updated));;
  perform (setShowEdit false);;
  perform (setLoading false).

(** [profiles] is the list of the render [r]. *)
Definition handleProfileDeleted (r : ProfileMenu) : Handler :=
  fetchProfilesAndUpdate None;;
  perform (setShowEdit false);;
  perform (setLoading false);;
  perform (setActive (headProfile (profiles (store r)))).

Definition handleProfileCreated (created : ModelProfile) : Handler :=
  fetchProfilesAndUpdate (Some (p_profile_id created));;
  perform (setShowCreate false);;
  perform (setLoading false).

Definition handleProfileSwitch (p : ModelProfile) (s : ProfileMenu) : ProfileMenu :=
  showToast ToastInfo ("Switched to profile: " ++s p_name p) (setActive (Some p) s <| selectOpen := false |>).

(** [onValueChange] of the select. *)
Definition selectValue (val : string) (s : ProfileMenu) : ProfileMenu :=
  match array_find (fun p => String.eqb (p_profile_id p) val) (profiles (store s)) with
  | Some p => setActive (Some p) s
  | None => s
  end.

(** An ellipsis is written [...]. *)
Definition truncate (s : ProfileMenu) (name : string) : string * bool :=
  if truncateAt s <? Z.of_nat (String.length name)
  then (str_take (Z.to_nat (truncateAt s)) name ++s "...", true) else (name, false).

(** The width of the window decides, from 768 pixels on. *)
Definition applyWidth (width : Z) (s : ProfileMenu) : ProfileMenu :=
  s <| truncateAt := if 768 <=? width then 20 else 16 |>.

(** The label of the closed select. *)
Definition selectLabel (s : ProfileMenu) : string * bool :=
  match activeProfile (store s) with
  | Some p => if truthy (p_name p) then truncate s (p_name p) else ("Select profile", false)
  | None => ("Select profile", false)
  end.

(** The gear of the selected profile's row; [restricted] accounts have none. *)
Definition openEdit (restricted : bool) (p : ModelProfile) (s : ProfileMenu) : ProfileMenu :=
  if negb (bool_decide (Some (p_profile_id p) = (p_profile_id <$> activeProfile (store s)))) || restricted then s
  else setShowEdit true (s <| selectOpen := false |> <| editProfile := Some p |>).

Definition openCreate (restricted : bool) (s : ProfileMenu) : ProfileMenu :=
  if restricted then s else setShowCreate true (s <| selectOpen := false |>).

Definition editOpenChange (open : bool) (s : ProfileMenu) : ProfileMenu :=
  let s' := setShowEdit open s in if open then s' else s' <| editProfile := None |>.

(** ** Creating *)

Definition createProfile (s : ProfileMenu) : Prog PmError PmRequest ProfileMenu PmResponse (option ModelProfile) :=
  '(status, data) ← await (ProfilesPost (trim (profileName s)));
  match (if status =? 201 then data else None) with
  | Some p =>
      perform (showToast ToastSuccess "Profile created.");;
      perform (setActive (Some p));;
      perform (setActive (Some p));;
      perform (setProfileName "");;
      perform (setShowCreate false);;
      perform (navigate "/setup" false);;
      mret (Some p)
  | None => mret None
  end.

Definition handleCreate (s : ProfileMenu) : Handler :=
  if negb (truthy (trim (profileName s))) then perform (setCreateError (Some "Profile name cannot be empty.")) else
  perform (setCreateError None);;
  perform (setLoading true);;
  created ← finally
    (try_async (createProfile s)
       (fun e =>
        perform (setCreateError
          (Some (if bool_decide (pe_status e = Some 400) && truthy_opt (pe_error e) then pe_error e ?? ""
                 else "Failed to create profile.")));;
        mret None))
    (setLoading false);
  match created with Some p => handleProfileCreated p | None => mret () end.

Definition handleDialogOpenChange (isOpen : bool) (s : ProfileMenu) : ProfileMenu :=
  let s' := setShowCreate isOpen s in
  if isOpen then s' else s' <| createError := None |> <| profileName := "" |>.

Definition handleInputChange (v : string) (s : ProfileMenu) : ProfileMenu :=
  let s' := setProfileName v s in
  if truthy_opt (createError s) then setCreateError None s' else s'.

(** ** Renaming *)

Definition nameChanged (name : string) (p : ModelProfile) : bool :=
  negb (String.eqb (trim name) "") && negb (String.eqb (trim name) (p_name p)).

Definition handleNameChange (v : string) (p : ModelProfile) (s : ProfileMenu) : ProfileMenu :=
  setShowSave (nameChanged v p) (s <| editedName := v |>).
Definition handleInputBlur (p : ModelProfile) (s : ProfileMenu) : ProfileMenu :=
  setShowSave (nameChanged (editedName s) p) s.

(** Whether the name was saved, and the profile the server answered. *)
Definition saveName (p : ModelProfile) (s : ProfileMenu) : Prog PmError PmRequest ProfileMenu PmResponse (option ModelProfile) :=
  updated ← await (ProfilesIdPatch (p_profile_id p) [replace Name (VString (trim (editedName s)))]);
  perform (showToast ToastSuccess "Profile name updated.");;
  perform (setShowSave false);;
  mret (Some updated).

Definition handleSave (p : ModelProfile) (s : ProfileMenu) : Handler :=
  if negb (nameChanged (editedName s) p) then mret () else
  perform (setEditLoading true);;
  saved ← finally
    (try_async (saveName p s)
       (fun e => perform (showToast ToastError (opt_or (pe_error e) "Failed to update profile name."));; mret None))
    (setEditLoading false);
  match saved with Some updated => handleProfileUpdated updated | None => mret () end.

(** ** Deleting *)

(** The props that differ between the menu and the Settings page. *)
Record DeleteProps := mkDeleteProps {
  dp_profileId : string;
  dp_setActive : option ModelProfile -> ProfileMenu -> ProfileMenu;
  dp_profiles : list ModelProfile;
}.

Definition deleteProfile (d : DeleteProps) : Prog PmError PmRequest ProfileMenu PmResponse bool :=
  status ← await (ProfilesIdDelete (dp_profileId d));
  if status =? 204 then
    let remaining := List.filter (fun p => negb (String.eqb (p_profile_id p) (dp_profileId d))) (dp_profiles d) in
    perform (dp_setActive d (headProfile remaining));;
    perform (setShowDelete false);;
    perform (showToast ToastSuccess "Profile deleted.");;
    perform (navigate "/setup" true);;
    mret true
  else mret false.

(** [onDeleted] is not awaited either. *)
Definition handleDeleteProfile (d : DeleteProps) (onDeleted : Handler) : Handler :=
  perform (setDeleteLoading true);;
  deleted ← finally
    (try_async (deleteProfile d)
       (fun e => perform (showToast ToastError (opt_or (pe_error e) "Failed to delete profile."));; mret false))
    (setDeleteLoading false);
  match deleted with true => onDeleted | false => mret () end.

(** The edit dialog passes no list and a setter that does nothing. *)
Definition menuDelete (p : ModelProfile) (r : ProfileMenu) : Handler :=
  handleDeleteProfile (mkDeleteProps (p_profile_id p) (fun _ s => s) []) (handleProfileDeleted r).

(** The Settings page passes the store's setter and its own list; its callback only closes the dialog. *)
Definition settingsDelete (listed : list ModelProfile) (p : ModelProfile) : Handler :=
  handleDeleteProfile (mkDeleteProps (p_profile_id p) setActive listed) (perform (setShowDelete false)).

(** ** The menu as a system *)

Inductive PmHandler : Set := CreateClick | SaveClick | DeleteClick.

Inductive PmUpdate : Type :=
| Switch (p : ModelProfile)
| SelectValue (v : string)
| SelectOpenChange (b : bool)
| Resize (width : Z)
| OpenEdit (restricted : bool) (p : ModelProfile)
| OpenCreate (restricted : bool)
| EditOpenChange (open : bool)
| CreateOpenChange (open : bool)
| TypeName (v : string)
| TypeEditedName (v : string)
| BlurEditedName
| DeleteOpenChange (open : bool).

Inductive PmEvent : Type :=
| Invoke (h : PmHandler)
| Answered (i : nat) (w : World PmError PmRequest PmResponse)
| Update (u : PmUpdate).

Notation PmSys := (Sys PmError PmRequest ProfileMenu PmResponse).

(** A button exists while its dialog does, and is disabled while that one is loading. *)
Definition pm_handler (h : PmHandler) (s : ProfileMenu) : Handler :=
  match h, editProfile s with
  | CreateClick, _ => if showCreateDialog s && negb (loading s) then handleCreate s else mret ()
  | SaveClick, Some p => if showEditDialog s && showSave s && negb (editLoading s) then handleSave p s else mret ()
  | DeleteClick, Some p =>
      if showEditDialog s && showDeleteDialog s && negb (deleteLoading s) then menuDelete p s else mret ()
  | _, None => mret ()
  end.

Definition withEdited (f : ModelProfile -> ProfileMenu -> ProfileMenu) (s : ProfileMenu) : ProfileMenu :=
  match editProfile s with Some p => if showEditDialog s then f p s else s | None => s end.

Definition pm_update (u : PmUpdate) (s : ProfileMenu) : ProfileMenu :=
  match u with
  | Switch p => handleProfileSwitch p s
  | SelectValue v => selectValue v s
  | SelectOpenChange b => s <| selectOpen := b |>
  | Resize w => applyWidth w s
  | OpenEdit r p => openEdit r p s
  | OpenCreate r => openCreate r s
  | EditOpenChange b => editOpenChange b s
  | CreateOpenChange b => handleDialogOpenChange b s
  | TypeName v => if loading s then s else handleInputChange v s
  | TypeEditedName v => withEdited (handleNameChange v) s
  | BlurEditedName => withEdited handleInputBlur s
  | DeleteOpenChange b => withEdited (fun _ => setShowDelete b) s
  end.

Definition pm_step (y : PmSys) (e : PmEvent) : PmSys :=
  sys_step id y
    match e with Invoke h => Start (pm_handler h) | Answered i w => Answer i w | Update u => Other (pm_update u) end.

Definition mountMenu (st : AppState) (width : Z) : ProfileMenu :=
  applyWidth width (mkMenu st false false None false false 16 None "" "" false false false false None []).

(** ** The profile menu: what its handlers leave behind

    A created or renamed profile ends up active, as the server holds it. A deletion from the menu makes
    the first profile of the list before it active, which is the deleted one when that came first; a
    deletion from the Settings page leaves the deleted profile in the list of the store. *)

#[local] Arguments setActiveProfile : simpl never.
#[local] Arguments setProfiles : simpl never.
#[local] Arguments trim : simpl never.
#[local] Arguments truthy : simpl never.

Implicit Types (s r : ProfileMenu) (p q : ModelProfile) (ps : list ModelProfile)
  (f g : ProfileMenu -> ProfileMenu) (w : World PmError PmRequest PmResponse).

(** Runs a handler on concrete answers. *)
Ltac run_menu :=
  cbn [drain mbind prog_bind perform finally try_async await fst snd mret prog_ret].

Definition lists_id (id : string) (ps : list ModelProfile) : option ModelProfile :=
  array_find (fun p => String.eqb (p_profile_id p) id) ps.

Lemma active_set (o : option ModelProfile) (st : AppState) : activeProfile (setActiveProfile o st) = o.
Proof. by destruct o. Qed.

Lemma mirror_fresh p ps : Forall (fun q => p_profile_id q <> p_profile_id p) ps -> mirror p ps = ps.
Proof.
  induction 1 as [|q ps Hq _ IH]; [done|]. unfold mirror in *. cbn. rewrite IH.
  by rewrite (proj2 (String.eqb_neq _ _) Hq).
Qed.

Lemma mirror_found p ps : NoDup (map p_profile_id ps) -> p ∈ ps -> mirror p ps = ps.
Proof.
  intros Hnd Hp. unfold mirror. induction ps as [|q ps IH]; [done|]. cbn in Hnd |- *.
  apply NoDup_cons in Hnd as [Hq Hnd]. rewrite elem_of_cons in Hp. destruct Hp as [->|Hp].
  - rewrite String.eqb_refl. f_equal. apply mirror_fresh. apply Forall_forall. intros x Hx E. apply Hq.
    rewrite <- E. by apply list_elem_of_fmap_2.
  - rewrite IH by done. destruct (String.eqb_spec (p_profile_id q) (p_profile_id p)) as [E|]; [|done].
    exfalso. apply Hq. rewrite E. by apply list_elem_of_fmap_2.
Qed.

Lemma profiles_set_active p ps (st : AppState) :
  profiles (setActiveProfile (Some p) (setProfiles ps st)) = mirror p ps.
Proof. done. Qed.

(** ** Creating and renaming *)

(** a created profile ends up active, as the refetched list holds it, with that list in the store, the
    dialog closed and cleared and the Setup page shown; the name sent is the trimmed one *)
Theorem created_profile_is_active s q q' ps f g w :
  truthy (trim (profileName s)) = true ->
  w (ProfilesPost (trim (profileName s))) = Ok (201, Some q) -> truthy (p_profile_id q) = true ->
  w ProfilesGet = Ok ps -> NoDup (map p_profile_id ps) -> lists_id (p_profile_id q) ps = Some q' ->
  (forall x, navigated (g x) = navigated x /\ profileName (g x) = profileName x) ->
  sends (fun req => match req with ProfilesPost n => n = trim (profileName s) | ProfilesGet => True | _ => False end)
    (handleCreate s) /\
  exists s', play id [(f, w); (g, w)] (handleCreate s) s = (s', Ret ()) /\
    activeProfile (store s') = Some q' /\ profiles (store s') = ps /\ showCreateDialog s' = false /\
    loading s' = false /\ profileName s' = "" /\ navigated s' = Some ("/setup", false).
Proof.
  intros Hn Hp Hid Hg Hnd Hq Hgf. unfold handleCreate. rewrite Hn. cbn [negb]. split.
  - cbn. split; [done|]. intros [[st d]|e]; cbn; [|done].
    destruct (if st =? 201 then d else None) as [d'|]; cbn; [|done]. split; [done|].
    intros [l|e]; cbn; [|done]. by destruct (truthy (p_profile_id d')).
  - unfold play, answers, resume, advance, createProfile. run_menu. rewrite Hp. run_menu. cbn [Z.eqb Pos.eqb]. cbv iota. run_menu.
    unfold handleProfileCreated, fetchProfilesAndUpdate. run_menu. rewrite Hg. run_menu. rewrite Hid. run_menu.
    set (x := g _). eexists. split; [reflexivity|]. unfold selectFound. fold (lists_id (p_profile_id q) ps). rewrite Hq.
    apply array_find_elem in Hq as [Hin _]. split; [done|]. split; [by apply (mirror_found q' ps)|].
    split; [done|]. split; [done|]. destruct (Hgf (setLoading false (navigate "/setup" false (setShowCreate false
      (setProfileName "" (setActive (Some q) (setActive (Some q) (showToast ToastSuccess "Profile created."
        (f (setLoading true (setCreateError None s)))))))))) ) as [Hnav Hname].
    split; [exact Hname|exact Hnav].
Qed.

(** a name is saved trimmed and only when it differs from the profile's; the renamed profile ends up
    active as the refetched list holds it, and the dialog closes *)
Theorem renamed_profile_is_active s p u u' ps f g w :
  nameChanged (editedName s) p = true ->
  w (ProfilesIdPatch (p_profile_id p) [replace Name (VString (trim (editedName s)))]) = Ok u ->
  truthy (p_profile_id u) = true -> w ProfilesGet = Ok ps -> NoDup (map p_profile_id ps) ->
  lists_id (p_profile_id u) ps = Some u' ->
  sends (fun req => match req with
    | ProfilesIdPatch id us => id = p_profile_id p /\ us = [replace Name (VString (trim (editedName s)))]
    | ProfilesGet => True
    | _ => False
    end) (handleSave p s) /\
  exists s', play id [(f, w); (g, w)] (handleSave p s) s = (s', Ret ()) /\
    activeProfile (store s') = Some u' /\ profiles (store s') = ps /\ showEditDialog s' = false /\ loading s' = false.
Proof.
  intros Hc Hp Hid Hg Hnd Hq. unfold handleSave. rewrite Hc. cbn [negb]. split.
  - cbn. split; [done|]. intros [d|e]; cbn; [|done]. split; [done|].
    intros [l|e]; cbn; [|done]. by destruct (truthy (p_profile_id d)).
  - unfold play, answers, resume, advance, saveName. run_menu. rewrite Hp. run_menu.
    unfold handleProfileUpdated, fetchProfilesAndUpdate. run_menu. rewrite Hg. run_menu. rewrite Hid. run_menu.
    eexists. split; [reflexivity|]. unfold selectFound. fold (lists_id (p_profile_id u) ps). rewrite Hq.
    apply array_find_elem in Hq as [Hin _]. split; [done|]. split; [by apply (mirror_found u' ps)|]. done.
Qed.

(** ** Deleting *)

(** a deletion from the menu makes the first profile of the list the menu was rendered with the active
    one: the deleted profile itself, when it was the first *)
Theorem deleted_first_profile_stays_active r p rest ps f g w :
  profiles (store r) = p :: rest ->
  w (ProfilesIdDelete (p_profile_id p)) = Ok 204 -> w ProfilesGet = Ok ps ->
  lists_id (p_profile_id p) ps = None ->
  exists s', play id [(f, w); (g, w)] (menuDelete p r) r = (s', Ret ()) /\
    profiles (store s') = ps /\ activeProfile (store s') = Some p.
Proof.
  intros Hr Hd Hg Hno. unfold menuDelete, handleDeleteProfile.
  unfold play, answers, resume, advance, deleteProfile. run_menu. cbn [dp_profileId]. rewrite Hd. run_menu. cbn [Z.eqb Pos.eqb].
  run_menu. unfold handleProfileDeleted, fetchProfilesAndUpdate. run_menu. rewrite Hg. run_menu.
  rewrite Hr. eexists. split; [reflexivity|]. split; [|done]. apply mirror_fresh.
  apply array_find_None in Hno. eapply Forall_impl; [exact Hno|]. intros q Hq. by apply String.eqb_neq in Hq.
Qed.

(** a profile deleted on the Settings page is not active any more, but still in the list of the store *)
Theorem settings_deletion_keeps_the_list r p listed q f w :
  w (ProfilesIdDelete (p_profile_id p)) = Ok 204 ->
  head (List.filter (fun x => negb (String.eqb (p_profile_id x) (p_profile_id p))) listed) = Some q ->
  p ∈ profiles (store (f (setDeleteLoading true r))) ->
  exists s', play id [(f, w)] (settingsDelete listed p) r = (s', Ret ()) /\
    activeProfile (store s') = Some q /\ p_profile_id q <> p_profile_id p /\
    p_profile_id p ∈ map p_profile_id (profiles (store s')).
Proof.
  intros Hd Hq Hp. unfold settingsDelete, handleDeleteProfile.
  unfold play, answers, resume, advance, deleteProfile. run_menu. cbn [dp_profileId dp_profiles dp_setActive]. rewrite Hd. run_menu.
  cbn [Z.eqb Pos.eqb]. run_menu. unfold headProfile. rewrite Hq. eexists. split; [reflexivity|]. split; [done|].
  assert (q ∈ List.filter (fun x => negb (String.eqb (p_profile_id x) (p_profile_id p))) listed) as Hin.
  { destruct (List.filter _ listed) as [|y l]; [done|]. cbn in Hq. injection Hq as ->. set_solver. }
  apply elem_of_list_filter_b in Hin as [_ Hne]. apply negb_true_iff, String.eqb_neq in Hne. split; [done|].
  change (p_profile_id p ∈ map p_profile_id (mirror q (profiles (store (f (setDeleteLoading true r)))))).
  unfold mirror. rewrite map_map. apply list_elem_of_fmap. exists p. split; [|done].
  destruct (String.eqb (p_profile_id p) (p_profile_id q)) eqn:E; [|done]. apply String.eqb_eq in E. congruence.
Qed.

(** ** Witnesses *)

Definition prof (id name : string) : ModelProfile := MkModelProfile "acc" id name id None.
Definition two_listed : AppState := setActiveProfile (Some (prof "p1" "Home")) (setProfiles [prof "p1" "Home"; prof "p2" "Work"] initialState).
Definition menu : ProfileMenu :=
  (setShowDelete true (setShowEdit true ((mountMenu two_listed 1024) <| editProfile := Some (prof "p1" "Home") |>)))
    <| profileName := " Travel " |> <| editedName := " House " |>.

Definition menu_world (ps : list ModelProfile) : World PmError PmRequest PmResponse :=
  fun req => match req with
           | ProfilesGet => Ok ps
           | ProfilesPost n => Ok (201, Some (prof "p3" n))
           | ProfilesIdPatch id _ => Ok (prof id "House")
           | ProfilesIdDelete _ => Ok 204
           end.

Lemma created_profile_is_active_witness :
  let ps := [prof "p1" "Home"; prof "p2" "Work"; prof "p3" "Travel"] in
  exists s', play id [(id, menu_world ps); (id, menu_world ps)] (handleCreate menu) menu = (s', Ret ()) /\
    activeProfile (store s') = Some (prof "p3" "Travel") /\ profiles (store s') = ps /\ showCreateDialog s' = false /\
    loading s' = false /\ profileName s' = "" /\ navigated s' = Some ("/setup", false).
Proof.
  refine (proj2 (created_profile_is_active menu (prof "p3" "Travel") (prof "p3" "Travel")
    [prof "p1" "Home"; prof "p2" "Work"; prof "p3" "Travel"] id id _ _ _ _ _ _ _ _)); try reflexivity.
  - apply (bool_decide_unpack _). by vm_compute.
  - by intros x.
Defined.

Lemma renamed_profile_is_active_witness :
  let ps := [prof "p1" "House"; prof "p2" "Work"] in
  exists s', play id [(id, menu_world ps); (id, menu_world ps)] (handleSave (prof "p1" "Home") menu) menu = (s', Ret ()) /\
    activeProfile (store s') = Some (prof "p1" "House") /\ profiles (store s') = ps /\ showEditDialog s' = false /\
    loading s' = false.
Proof.
  refine (proj2 (renamed_profile_is_active menu (prof "p1" "Home") (prof "p1" "House") (prof "p1" "House")
    [prof "p1" "House"; prof "p2" "Work"] id id (menu_world [prof "p1" "House"; prof "p2" "Work"]) _ _ _ _ _ _)); try reflexivity.
  apply (bool_decide_unpack _). by vm_compute.
Defined.

Lemma deleted_first_profile_stays_active_witness :
  exists s', play id [(id, menu_world [prof "p2" "Work"]); (id, menu_world [prof "p2" "Work"])]
      (menuDelete (prof "p1" "Home") menu) menu = (s', Ret ()) /\
    profiles (store s') = [prof "p2" "Work"] /\ activeProfile (store s') = Some (prof "p1" "Home").
Proof.
  apply (deleted_first_profile_stays_active menu (prof "p1" "Home") [prof "p2" "Work"] [prof "p2" "Work"] id id
           (menu_world [prof "p2" "Work"])); reflexivity.
Defined.

Lemma settings_deletion_keeps_the_list_witness :
  exists s', play id [(id, menu_world [])] (settingsDelete [prof "p1" "Home"; prof "p2" "Work"] (prof "p1" "Home")) menu
      = (s', Ret ()) /\
    activeProfile (store s') = Some (prof "p2" "Work") /\ "p2" <> "p1" /\
    "p1" ∈ map p_profile_id (profiles (store s')).
Proof.
  apply (settings_deletion_keeps_the_list menu (prof "p1" "Home") [prof "p1" "Home"; prof "p2" "Work"] (prof "p2" "Work") id
           (menu_world [])); [reflexivity|reflexivity|]. change (prof "p1" "Home" ∈ [prof "p1" "Home"; prof "p2" "Work"]). set_solver.
Defined.
