(* ===== verification/SettingsPage.v ===== *)
(** * The settings of a profile

    [src/app/src/pages/settings/ProfileManagementSection.tsx] with its sections
    ([AdvancedSettingsSection.tsx]), and the preferences dialog of the header
    ([pages/header/BlocklistsPreferencesDialog.tsx]): the toggles of the resolver's rules, how they are
    read from a profile, and how a change is saved. Data collection and deletion are elsewhere. *)

From coqutil Require Import Datatypes.RecordSetters.
From S2P Require Import Prelude JsString ApiTypes Store DataCollection Async.
Import TriangleBracketNotations.

#[local] Arguments constant _ _ _ /.

(** ** Requests *)

Inductive StRequest : Type :=
| SettingsPatch (profileId : string) (updates : list ModelProfileUpdate)
| SettingsGet (profileId : string).
Definition StResponse (r : StRequest) : Type :=
  match r with SettingsPatch _ _ => unit | SettingsGet _ => ModelProfile end.

(** The [detail] of the body of an error. *)
Record StError := mkStError { se_detail : option string }.

(** ** The toggles *)

(** A toggle as it is shown: its options are the values with their labels. *)
Record ToggleMeta := mkToggleMeta { tm_title : string; tm_description : string; tm_options : list (string * string) }.

Definition BLOCK_ALLOW : list (string * string) := [("block", "Block"); ("allow", "Allow")].
Definition DISABLE_ENABLE : list (string * string) := [("disable", "Disable"); ("enable", "Enable")].

Definition blocklistToggles : list ToggleMeta :=
  [mkToggleMeta "Default rule" "Set the how to handle DNS queries that do not match any rules set." BLOCK_ALLOW;
   mkToggleMeta "Subdomains in blocklists"
     "Set how to handle subdomains of domain entries in enabled blocklists." BLOCK_ALLOW].
Definition customRulesToggles : list ToggleMeta :=
  [mkToggleMeta "Subdomains in custom rules"
     "Set whether new custom rules include subdomains (*.domain) or use exact match only."
     [("exact", "Exact"); ("include", "Include")]].
Definition advancedToggles : list ToggleMeta :=
  [mkToggleMeta "DNSSEC"
     "Validate DNSSEC-signed domains to ensure the integrity and authenticity of DNS responses." DISABLE_ENABLE;
   mkToggleMeta "DNSSEC OK (DO) bit"
     "Enabling the DNSSEC OK (DO) bit in DNS queries signals that the resolver supports DNSSEC." DISABLE_ENABLE].

(** The values of the three arrays of settings, in their order, and of the recursor. *)
Record Toggles := mkToggles {
  blocklistSettings : list string;
  customRulesSettings : list string;
  advancedSettings : list string;
  currentRecursor : string;
}.

Definition initialToggles : Toggles := mkToggles ["allow"; "block"] ["include"] ["enable"; "enable"] "knot".

Definition enableWord (b : option bool) : string := match b with Some false => "disable" | _ => "enable" end.

(** What the effect reads of a profile. *)
Definition togglesOf (p : ModelProfile) : Toggles :=
  let st := p_settings p in
  let privacy := st ≫= ps_privacy in
  let dnssec := sec_dnssec <$> (st ≫= ps_security) in
  mkToggles
    [(priv_default_rule <$> privacy) ?? "allow"; (priv_blocklists_subdomains_rule <$> privacy) ?? "block"]
    [(privacy ≫= priv_custom_rules_subdomains_rule) ?? "include"]
    [enableWord (dnssec_enabled <$> dnssec); enableWord (dnssec_send_do_bit <$> dnssec)]
    (opt_or (adv_recursor <$> (st ≫= ps_advanced)) "knot").

(** ** State *)

(** [listed] is the list the route's loader returned when the page was opened; the store may have moved
    on. *)
Record SettingsPage := mkSettings {
  active : option ModelProfile;
  listed : list ModelProfile;
  toggles : Toggles;
  advancedLoading : bool;
  showDelete : bool;
  shownToasts : list UiToast;
}.

Notation Handler := (Prog StError StRequest SettingsPage StResponse unit).

Definition showToast (k : ToastKind) (text : string) (s : SettingsPage) : SettingsPage :=
  s <| shownToasts := (shownToasts s ++ [mkToast k text])%list |>.
Definition setToggles (f : Toggles -> Toggles) (s : SettingsPage) : SettingsPage := s <| toggles := f (toggles s) |>.
Definition setAdvancedLoading (b : bool) (s : SettingsPage) : SettingsPage := s <| advancedLoading := b |>.

(** The effect on the active profile and the list: the toggles are read from the list. *)
Definition readToggles (s : SettingsPage) : SettingsPage :=
  match active s with
  | Some a =>
      match array_find (fun p => String.eqb (p_profile_id p) (p_profile_id a)) (listed s) with
      | Some p => setToggles (fun _ => togglesOf p) s
      | None => s
      end
  | None => s
  end.

Definition mount (a : option ModelProfile) (l : list ModelProfile) : SettingsPage :=
  readToggles (mkSettings a l initialToggles false false []).

(** The store has a new active profile, or the same one in a new object. *)
Definition activeChanged (a : option ModelProfile) (s : SettingsPage) : SettingsPage := readToggles (s <| active := a |>).
(** The route's loader has run again. *)
Definition listChanged (l : list ModelProfile) (s : SettingsPage) : SettingsPage := readToggles (s <| listed := l |>).

(** ** Changes *)

(** [enable] and [disable] are booleans for the API. *)
Definition apiValue (value : string) : UpdateValue :=
  if String.eqb value "enable" then VBool true
  else if String.eqb value "disable" then VBool false else VString value.

Definition blocklistPath (idx : nat) : ModelProfileUpdatePathEnum :=
  if (idx =? 0)%nat then SettingsPrivacyDefaultRule else SettingsPrivacyBlocklistsSubdomainsRule.
Definition advancedPath (idx : nat) : ModelProfileUpdatePathEnum :=
  if (idx =? 0)%nat then SettingsSecurityDnssecEnabled else SettingsSecurityDnssecSendDoBit.

Definition setBlocklist (idx : nat) (value : string) (t : Toggles) : Toggles :=
  mkToggles (<[idx := value]> (blocklistSettings t)) (customRulesSettings t) (advancedSettings t) (currentRecursor t).
Definition setCustomRules (idx : nat) (value : string) (t : Toggles) : Toggles :=
  mkToggles (blocklistSettings t) (<[idx := value]> (customRulesSettings t)) (advancedSettings t) (currentRecursor t).
Definition setAdvanced (idx : nat) (value : string) (t : Toggles) : Toggles :=
  mkToggles (blocklistSettings t) (customRulesSettings t) (<[idx := value]> (advancedSettings t)) (currentRecursor t).
Definition setRecursor (value : string) (t : Toggles) : Toggles :=
  mkToggles (blocklistSettings t) (customRulesSettings t) (advancedSettings t) value.

(** One update, then the toggle, then a toast. *)
Definition patchToggle (id : string) (u : ModelProfileUpdate) (set : Toggles -> Toggles) (saved failure : string) : Handler :=
  try_async
    (await (SettingsPatch id [u]);;
     perform (setToggles set);;
     perform (showToast ToastSuccess saved))
    (fun e => perform (showToast ToastError (opt_or (se_detail e) failure))).

(** Nothing happens when the pressed item is pressed again, when it is the value already, or without a
    profile. The index is that of a section that is shown. *)
Definition unlessSame (old : option string) (value : string) (s : SettingsPage) (body : string -> Handler) : Handler :=
  if String.eqb value "" || bool_decide (old = Some value) then mret ()
  else match active s with Some a => body (p_profile_id a) | None => mret () end.

Definition handleBlocklistChange (idx : nat) (value : string) (s : SettingsPage) : Handler :=
  unlessSame (blocklistSettings (toggles s) !! idx) value s (fun id =>
    patchToggle id (replace (blocklistPath idx) (apiValue value)) (setBlocklist idx value)
      "Blocklist setting updated." "Failed to update blocklist setting.").

Definition handleCustomRulesSettingsChange (idx : nat) (value : string) (s : SettingsPage) : Handler :=
  unlessSame (customRulesSettings (toggles s) !! idx) value s (fun id =>
    patchToggle id (replace SettingsPrivacyCustomRulesSubdomainsRule (VString value)) (setCustomRules idx value)
      "Custom rules setting updated." "Failed to update custom rules setting.").

Definition handleAdvancedChange (idx : nat) (value : string) (s : SettingsPage) : Handler :=
  unlessSame (advancedSettings (toggles s) !! idx) value s (fun id =>
    perform (setAdvancedLoading true);;
    finally
      (patchToggle id (replace (advancedPath idx) (apiValue value)) (setAdvanced idx value)
         "Advanced setting updated." "Failed to update advanced setting.")
      (setAdvancedLoading false)).

(** The recursor has one failure text; its value is never empty. *)
Definition handleRecursorChange (recursor : string) (s : SettingsPage) : Handler :=
  match active s with
  | Some a =>
      if String.eqb (currentRecursor (toggles s)) recursor then mret () else
      perform (setAdvancedLoading true);;
      finally
        (try_async
           (await (SettingsPatch (p_profile_id a) [replace SettingsAdvancedRecursor (VString recursor)]);;
            perform (setToggles (setRecursor recursor));;
            perform (showToast ToastSuccess "Recursor updated successfully."))
           (fun _ => perform (showToast ToastError "Failed to update recursor.")))
        (setAdvancedLoading false)
  | None => mret ()
  end.

Definition handleProfileDeleted (s : SettingsPage) : SettingsPage := s <| showDelete := false |>.

(** The recursor is offered in two environments. *)
Definition shouldShowRecursorChoice (environment : option string) : bool :=
  bool_decide (environment = Some "local") || bool_decide (environment = Some "staging").

(** ** The preferences dialog *)

(** The dialog of the header has the two blocklist toggles; it reads them when it opens. *)
Definition fetchProfile (s : SettingsPage) : Handler :=
  match p_profile_id <$> active s with
  | Some id =>
      if truthy id then
        try_async
          (data ← await (SettingsGet id);
           perform (setToggles (fun t =>
             mkToggles (blocklistSettings (togglesOf data)) (customRulesSettings t) (advancedSettings t) (currentRecursor t))))
          (fun _ => perform (showToast ToastError "Failed to fetch profile settings."))
      else mret ()
  | None => mret ()
  end.

Definition preferenceToggles : list ToggleMeta :=
  [mkToggleMeta "Default rule" "Set the how to handle DNS queries that do not match any rules set." BLOCK_ALLOW;
   mkToggleMeta "Subdomains blocking"
     "Set how to handle subdomains of domain entries in enabled blocklists." BLOCK_ALLOW].

(** [handleProfileSettingChange] with the arguments of its one use. *)
Definition handlePreferenceChange (idx : nat) (value : string) (s : SettingsPage) : Handler :=
  unlessSame (blocklistSettings (toggles s) !! idx) value s (fun id =>
    patchToggle id (replace (blocklistPath idx) (apiValue value)) (setBlocklist idx value)
      "Blocklist setting updated." "Failed to update blocklist setting.").

(** ** The handlers of the page *)

Inductive StHandler : Set :=
| BlocklistChange (idx : nat) (value : string)
| CustomRulesChange (idx : nat) (value : string)
| AdvancedChange (idx : nat) (value : string)
| RecursorChange (value : string).

Definition st_handler (h : StHandler) (s : SettingsPage) : Handler :=
  match h with
  | BlocklistChange i v => handleBlocklistChange i v s
  | CustomRulesChange i v => handleCustomRulesSettingsChange i v s
  | AdvancedChange i v => handleAdvancedChange i v s
  | RecursorChange v => handleRecursorChange v s
  end.

(** ** The settings of a profile: what a change saves and shows

    A toggle that was saved shows what reading the changed profile gives. The page reads its toggles from
    the list its loader returned, which a change does not touch, so a saved toggle is undone on the screen
    as soon as the store gets the profile again, and an answer that arrives after the profile was
    switched is shown on the other one. *)


(** ** What the server makes of an update *)

Definition with_settings (f : ModelProfileSettings -> ModelProfileSettings) (p : ModelProfile) : ModelProfile :=
  MkModelProfile (p_account_id p) (p_id p) (p_name p) (p_profile_id p) (f <$> p_settings p).

Definition with_privacy (f : ModelPrivacy -> ModelPrivacy) (st : ModelProfileSettings) : ModelProfileSettings :=
  MkModelProfileSettings (ps_advanced st) (ps_custom_rule_groups st) (ps_custom_rules st) (ps_logs st) (f <$> ps_privacy st)
    (ps_profile_id st) (ps_security st) (ps_statistics st).
Definition with_dnssec (f : ModelDNSSECSettings -> ModelDNSSECSettings) (st : ModelProfileSettings) : ModelProfileSettings :=
  MkModelProfileSettings (ps_advanced st) (ps_custom_rule_groups st) (ps_custom_rules st) (ps_logs st) (ps_privacy st)
    (ps_profile_id st) ((fun sec => MkModelSecurity (f (sec_dnssec sec)) (sec_rebinding_protection sec)) <$> ps_security st)
    (ps_statistics st).
Definition with_advanced (a : ModelAdvanced) (st : ModelProfileSettings) : ModelProfileSettings :=
  MkModelProfileSettings (Some a) (ps_custom_rule_groups st) (ps_custom_rules st) (ps_logs st) (ps_privacy st)
    (ps_profile_id st) (ps_security st) (ps_statistics st).

Definition applied (u : ModelProfileUpdate) : ModelProfile -> ModelProfile :=
  with_settings
    match path u, value u with
    | SettingsPrivacyDefaultRule, VString v => with_privacy (fun y =>
        MkModelPrivacy (priv_blocklists y) (priv_blocklists_subdomains_rule y) (priv_custom_rules_subdomains_rule y) v
          (priv_services y))
    | SettingsPrivacyBlocklistsSubdomainsRule, VString v => with_privacy (fun y =>
        MkModelPrivacy (priv_blocklists y) v (priv_custom_rules_subdomains_rule y) (priv_default_rule y) (priv_services y))
    | SettingsPrivacyCustomRulesSubdomainsRule, VString v => with_privacy (fun y =>
        MkModelPrivacy (priv_blocklists y) (priv_blocklists_subdomains_rule y) (Some v) (priv_default_rule y)
          (priv_services y))
    | SettingsSecurityDnssecEnabled, VBool b => with_dnssec (fun d => MkModelDNSSECSettings b (dnssec_send_do_bit d))
    | SettingsSecurityDnssecSendDoBit, VBool b => with_dnssec (fun d => MkModelDNSSECSettings (dnssec_enabled d) b)
    | SettingsAdvancedRecursor, VString v => with_advanced (MkModelAdvanced v)
    | _, _ => id
    end.

(** A profile with the settings that the toggles are about. *)
Definition complete (p : ModelProfile) : Prop :=
  exists st y sec, p_settings p = Some st /\ ps_privacy st = Some y /\ ps_security st = Some sec.

(** A change to one of the options of a toggle that is shown. *)
Definition option_of (metas : list ToggleMeta) (i : nat) (v : string) : Prop :=
  exists m, metas !! i = Some m /\ v ∈ map fst (tm_options m).
Definition offered (h : StHandler) : Prop :=
  match h with
  | BlocklistChange i v => option_of blocklistToggles i v
  | CustomRulesChange i v => option_of customRulesToggles i v
  | AdvancedChange i v => option_of advancedToggles i v
  | RecursorChange v => truthy v = true
  end.

(** The options there are. *)
Lemma offered_values h :
  offered h ->
  match h with
  | BlocklistChange i v => (i < 2)%nat /\ (v = "block" \/ v = "allow")
  | CustomRulesChange i v => i = 0%nat /\ (v = "exact" \/ v = "include")
  | AdvancedChange i v => (i < 2)%nat /\ (v = "enable" \/ v = "disable")
  | RecursorChange v => truthy v = true
  end.
Proof.
  destruct h as [i v|i v|i v|v]; cbn [offered]; [| | |done]; intros (m & Hm & Hv).
  - destruct i as [|[|i]]; cbn in Hm; try done; injection Hm as <-; cbn in Hv; set_unfold in Hv; split; try lia; tauto.
  - destruct i as [|i]; cbn in Hm; try done; injection Hm as <-; cbn in Hv; set_unfold in Hv; split; try lia; tauto.
  - destruct i as [|[|i]]; cbn in Hm; try done; injection Hm as <-; cbn in Hv; set_unfold in Hv; split; try lia; tauto.
Qed.

(** The update a change sends, and the toggle it sets. *)
Definition update_of (h : StHandler) : ModelProfileUpdate :=
  match h with
  | BlocklistChange i v => replace (blocklistPath i) (apiValue v)
  | CustomRulesChange _ v => replace SettingsPrivacyCustomRulesSubdomainsRule (VString v)
  | AdvancedChange i v => replace (advancedPath i) (apiValue v)
  | RecursorChange v => replace SettingsAdvancedRecursor (VString v)
  end.
Definition set_of (h : StHandler) : Toggles -> Toggles :=
  match h with
  | BlocklistChange i v => setBlocklist i v
  | CustomRulesChange i v => setCustomRules i v
  | AdvancedChange i v => setAdvanced i v
  | RecursorChange v => setRecursor v
  end.

(** Setting the toggle is reading the changed profile. *)
Lemma set_reads_back h p : offered h -> complete p -> togglesOf (applied (update_of h) p) = set_of h (togglesOf p).
Proof.
  intros Ho%offered_values (st & y & sec & Hst & Hy & Hsec). destruct p as [acc i n id ps]. cbn in Hst. subst ps.
  destruct st as [adv grp rules lg pr pid se stat]. cbn in Hy, Hsec. subst pr se.
  destruct h as [[|[|k]] v|k v|[|[|k]] v|v]; cbn in Ho; try lia.
  - destruct Ho as [_ [-> | ->]]; reflexivity.
  - destruct Ho as [_ [-> | ->]]; reflexivity.
  - destruct Ho as [-> _]. reflexivity.
  - destruct Ho as [_ [-> | ->]]; reflexivity.
  - destruct Ho as [_ [-> | ->]]; reflexivity.
  - destruct v; [done|reflexivity].
Qed.

(** ** Running a change *)

Implicit Types (s : SettingsPage) (p q a : ModelProfile) (h : StHandler) (w : World StError StRequest StResponse).

(** The toggle does not show the new value yet. *)
Definition differs (h : StHandler) (s : SettingsPage) : Prop :=
  match h with
  | BlocklistChange i v => blocklistSettings (toggles s) !! i <> Some v
  | CustomRulesChange i v => customRulesSettings (toggles s) !! i <> Some v
  | AdvancedChange i v => advancedSettings (toggles s) !! i <> Some v
  | RecursorChange v => currentRecursor (toggles s) <> v
  end.

Ltac run_page :=
  unfold play, answers, resume, advance, patchToggle;
  cbn [drain mbind prog_bind perform finally try_async await fst snd mret prog_ret].

(** An answered change sends its one update, and sets its toggle on the page it finds. *)
Lemma toggle_plays h s a w f :
  offered h -> differs h s -> active s = Some a ->
  (forall us, w (SettingsPatch (p_profile_id a) us) = Ok tt) ->
  sends (fun r => r = SettingsPatch (p_profile_id a) [update_of h]) (st_handler h s) /\
  exists s', play id [(f, w)] (st_handler h s) s = (s', Ret ()) /\
    exists x, (x = s \/ x = setAdvancedLoading true s) /\ toggles s' = set_of h (toggles (f x)) /\
      active s' = active (f x) /\ listed s' = listed (f x).
Proof.
  intros Ho%offered_values Hd Ha Hw. destruct h as [i v|i v|i v|v]; cbn [st_handler differs] in *.
  - assert (String.eqb v "" = false) as Hv by (destruct Ho as [_ [-> | ->]]; done).
    unfold handleBlocklistChange, unlessSame. rewrite Hv, bool_decide_eq_false_2, Ha by done. cbn [orb]. split.
    + cbn. split; [done|]. by intros [[]|e].
    + run_page. rewrite Hw. run_page. eexists. split; [reflexivity|]. exists s. by split; [left|].
  - assert (String.eqb v "" = false) as Hv by (destruct Ho as [_ [-> | ->]]; done).
    unfold handleCustomRulesSettingsChange, unlessSame. rewrite Hv, bool_decide_eq_false_2, Ha by done. cbn [orb]. split.
    + cbn. split; [done|]. by intros [[]|e].
    + run_page. rewrite Hw. run_page. eexists. split; [reflexivity|]. exists s. by split; [left|].
  - assert (String.eqb v "" = false) as Hv by (destruct Ho as [_ [-> | ->]]; done).
    unfold handleAdvancedChange, unlessSame. rewrite Hv, bool_decide_eq_false_2, Ha by done. cbn [orb]. split.
    + cbn. split; [done|]. by intros [[]|e].
    + run_page. rewrite Hw. run_page. eexists. split; [reflexivity|].
      exists (setAdvancedLoading true s). by split; [right|].
  - unfold handleRecursorChange. rewrite Ha. apply String.eqb_neq in Hd as ->. split.
    + cbn. split; [done|]. by intros [[]|e].
    + run_page. rewrite Hw. run_page. eexists. split; [reflexivity|].
      exists (setAdvancedLoading true s). by split; [right|].
Qed.

(** a toggle that was saved shows what reading the changed profile gives, and the change sends exactly
    its one update *)
Theorem saved_toggle_reads_back h s a p w :
  offered h -> differs h s -> active s = Some a -> complete p -> toggles s = togglesOf p ->
  (forall us, w (SettingsPatch (p_profile_id a) us) = Ok tt) ->
  sends (fun r => r = SettingsPatch (p_profile_id a) [update_of h]) (st_handler h s) /\
  exists s', play id [(id, w)] (st_handler h s) s = (s', Ret ()) /\
    toggles s' = togglesOf (applied (update_of h) p).
Proof.
  intros Ho Hd Ha Hp Ht Hw. destruct (toggle_plays h s a w id Ho Hd Ha Hw) as (Hs & s' & Hpl & x & Hx & Hset & _).
  split; [done|]. exists s'. split; [done|]. rewrite Hset, set_reads_back, <- Ht by done. by destruct Hx as [-> | ->].
Qed.

Definition listed_as (id : string) (l : list ModelProfile) : option ModelProfile :=
  array_find (fun p => String.eqb (p_profile_id p) id) l.

Lemma activeChanged_toggles a p s :
  listed_as (p_profile_id a) (listed s) = Some p -> toggles (activeChanged (Some a) s) = togglesOf p.
Proof.
  intros Hp. unfold activeChanged, readToggles. change (active (s <| active := Some a |>)) with (Some a).
  change (listed (s <| active := Some a |>)) with (listed s). cbv iota. unfold listed_as in Hp. by rewrite Hp.
Qed.

(** a saved toggle is shown until the store gets the profile again, in whatever state: then the page
    shows the toggles of the list it was opened with *)
Theorem saved_toggle_is_undone h s a a' p w :
  offered h -> differs h s -> active s = Some a -> listed_as (p_profile_id a) (listed s) = Some p ->
  toggles s = togglesOf p -> p_profile_id a' = p_profile_id a ->
  (forall us, w (SettingsPatch (p_profile_id a) us) = Ok tt) ->
  exists s', play id [(id, w)] (st_handler h s) s = (s', Ret ()) /\
    toggles s' = set_of h (toggles s) /\ toggles (activeChanged (Some a') s') = toggles s.
Proof.
  intros Ho Hd Ha Hl Ht Hid Hw.
  destruct (toggle_plays h s a w id Ho Hd Ha Hw) as (_ & s' & Hpl & x & Hx & Hset & _ & Hlist).
  exists s'. split; [done|]. split; [rewrite Hset; by destruct Hx as [-> | ->]|].
  rewrite Ht. apply activeChanged_toggles. rewrite Hid, Hlist. by destruct Hx as [-> | ->].
Qed.

(** a change that is answered after the profile was switched is shown on the profile that is active
    then, which it does not concern *)
Theorem late_toggle_shown_on_other_profile h s a q w :
  offered h -> differs h s -> active s = Some a -> q ∈ listed s -> p_profile_id q <> p_profile_id a ->
  listed_as (p_profile_id q) (listed s) = Some q ->
  (forall us, w (SettingsPatch (p_profile_id a) us) = Ok tt) ->
  exists s', play id [(activeChanged (Some q), w)] (st_handler h s) s = (s', Ret ()) /\
    active s' = Some q /\ toggles s' = set_of h (togglesOf q).
Proof.
  intros Ho Hd Ha Hq Hne Hl Hw.
  destruct (toggle_plays h s a w (activeChanged (Some q)) Ho Hd Ha Hw) as (_ & s' & Hpl & x & Hx & Hset & Hact & _).
  exists s'. split; [done|].
  assert (listed_as (p_profile_id q) (listed x) = Some q) as Hlx by (by destruct Hx as [-> | ->]).
  rewrite Hset, (activeChanged_toggles q q x Hlx), Hact. split; [|done].
  unfold activeChanged, readToggles. change (listed (x <| active := Some q |>)) with (listed x).
  unfold listed_as in Hlx. change (active (x <| active := Some q |>)) with (Some q). cbv iota. by rewrite Hlx.
Qed.

(** a change that the server refuses leaves the toggles as they are and says why *)
Theorem refused_toggle_stays h s a w f d :
  offered h -> differs h s -> active s = Some a ->
  (forall us, w (SettingsPatch (p_profile_id a) us) = Throw (mkStError d)) ->
  (forall x, toggles (f x) = toggles x /\ shownToasts (f x) = shownToasts x) ->
  exists s' text, play id [(f, w)] (st_handler h s) s = (s', Ret ()) /\ toggles s' = toggles s /\
    truthy text = true /\ shownToasts s' = shownToasts s ++ [mkToast ToastError text].
Proof.
  intros Ho%offered_values Hd Ha Hw Hf.
  assert (forall x t, truthy t = true -> truthy (opt_or x t) = true) as Htr.
  { intros [[|c t]|] t' Ht; done. }
  assert (forall t x, toggles x = toggles s -> shownToasts x = shownToasts s ->
    toggles (showToast ToastError t (f x)) = toggles s /\
    shownToasts (showToast ToastError t (f x)) = shownToasts s ++ [mkToast ToastError t]) as Hend.
  { intros t x <- <-. destruct (Hf x) as [<- <-]. by split. }
  destruct h as [i v|i v|i v|v]; cbn [st_handler differs] in *.
  1-3: assert (String.eqb v "" = false) as Hv by (destruct Ho as [_ [-> | ->]]; done).
  - unfold handleBlocklistChange, unlessSame. rewrite Hv, bool_decide_eq_false_2, Ha by done. cbn [orb].
    run_page. rewrite Hw. run_page. eexists _, _. split; [reflexivity|].
    destruct (Hend (opt_or (se_detail (mkStError d)) "Failed to update blocklist setting.") s eq_refl eq_refl) as [H1 H2].
    split; [exact H1|]. split; [|exact H2]. by apply Htr.
  - unfold handleCustomRulesSettingsChange, unlessSame. rewrite Hv, bool_decide_eq_false_2, Ha by done. cbn [orb].
    run_page. rewrite Hw. run_page. eexists _, _. split; [reflexivity|].
    destruct (Hend (opt_or (se_detail (mkStError d)) "Failed to update custom rules setting.") s eq_refl eq_refl) as [H1 H2].
    split; [exact H1|]. split; [|exact H2]. by apply Htr.
  - unfold handleAdvancedChange, unlessSame. rewrite Hv, bool_decide_eq_false_2, Ha by done. cbn [orb].
    run_page. rewrite Hw. run_page. eexists _, _. split; [reflexivity|].
    destruct (Hend (opt_or (se_detail (mkStError d)) "Failed to update advanced setting.") (setAdvancedLoading true s)
                eq_refl eq_refl) as [H1 H2].
    split; [exact H1|]. split; [|exact H2]. by apply Htr.
  - unfold handleRecursorChange. rewrite Ha. apply String.eqb_neq in Hd as ->.
    run_page. rewrite Hw. run_page. eexists _, "Failed to update recursor.". split; [reflexivity|].
    destruct (Hend "Failed to update recursor." (setAdvancedLoading true s) eq_refl eq_refl) as [H1 H2].
    split; [exact H1|]. split; [done|exact H2].
Qed.

(** ** Witnesses *)

Definition ruled (id default_rule : string) : ModelProfile :=
  MkModelProfile "acc" id "Home" id
    (Some (MkModelProfileSettings None None None None
             (Some (MkModelPrivacy None "block" None default_rule None)) id
             (Some (MkModelSecurity (MkModelDNSSECSettings true false) None)) None)).

Definition on_page : SettingsPage := mount (Some (ruled "p1" "allow")) [ruled "p1" "allow"; ruled "p2" "allow"].
Definition granting : World StError StRequest StResponse :=
  fun r => match r with SettingsPatch _ _ => Ok tt | SettingsGet id => Ok (ruled id "block") end.

Lemma saved_toggle_reads_back_witness :
  exists s', play id [(id, granting)] (st_handler (BlocklistChange 0 "block") on_page) on_page = (s', Ret ()) /\
    toggles s' = togglesOf (applied (update_of (BlocklistChange 0 "block")) (ruled "p1" "allow")).
Proof.
  refine (proj2 (saved_toggle_reads_back (BlocklistChange 0 "block") on_page (ruled "p1" "allow") (ruled "p1" "allow")
    granting _ _ _ _ _ _)); try reflexivity.
  - eexists; split; [reflexivity|by left].
  - done.
  - by eexists _, _, _.
Defined.

Lemma saved_toggle_is_undone_witness :
  exists s', play id [(id, granting)] (st_handler (BlocklistChange 0 "block") on_page) on_page = (s', Ret ()) /\
    toggles s' = mkToggles ["block"; "block"] ["include"] ["enable"; "disable"] "knot" /\
    toggles (activeChanged (Some (ruled "p1" "block")) s') = mkToggles ["allow"; "block"] ["include"] ["enable"; "disable"] "knot".
Proof.
  apply (saved_toggle_is_undone (BlocklistChange 0 "block") on_page (ruled "p1" "allow") (ruled "p1" "block") (ruled "p1" "allow")
           granting); try reflexivity; [|done]. eexists; split; [reflexivity|by left].
Defined.

Lemma late_toggle_shown_on_other_profile_witness :
  exists s', play id [(activeChanged (Some (ruled "p2" "allow")), granting)] (st_handler (BlocklistChange 0 "block") on_page) on_page
      = (s', Ret ()) /\
    active s' = Some (ruled "p2" "allow") /\ toggles s' = set_of (BlocklistChange 0 "block") (togglesOf (ruled "p2" "allow")).
Proof.
  apply (late_toggle_shown_on_other_profile (BlocklistChange 0 "block") on_page (ruled "p1" "allow") (ruled "p2" "allow") granting);
    try reflexivity; try done.
  - eexists; split; [reflexivity|by left].
  - change (ruled "p2" "allow" ∈ [ruled "p1" "allow"; ruled "p2" "allow"]). set_solver.
Defined.

Lemma refused_toggle_stays_witness :
  exists s' text, play id [(id, fun r => match r with SettingsPatch _ _ => Throw (mkStError None) | SettingsGet _ => Throw (mkStError None) end)]
      (st_handler (BlocklistChange 0 "block") on_page) on_page = (s', Ret ()) /\
    toggles s' = toggles on_page /\ truthy text = true /\
    shownToasts s' = shownToasts on_page ++ [mkToast ToastError text].
Proof.
  apply (refused_toggle_stays (BlocklistChange 0 "block") on_page (ruled "p1" "allow") _ id None); try done.
  eexists; split; [reflexivity|by left].
Defined.
