(* ===== verification/Reauth.v ===== *)
(** * The identity check inside a dialog

    The dialogs for exporting profiles, changing the email address and deleting the account hold the
    same state around [hooks/useAccountVerificationMethod.ts]: a method, what was entered for it, and a
    passkey ceremony. [Reauth] is that state, [ReauthDialog] what a dialog adds to it, and [commit] the
    effects of the hook and of the dialog in the order React runs them. *)

From S2P Require Import Prelude JsString ApiTypes Verification Async.
From coqutil Require Import Datatypes.RecordSetters.
Import TriangleBracketNotations.

#[local] Arguments constant _ _ _ /.

(** ** State *)

(** [r_account] and [r_hasPasskeys] are what the dialog is given; [r_methodDep] and [r_closeDeps] the deps
    of the effects that follow the method and the closing, [None] standing for a dep that is not listed. *)
Record Reauth := mkReauth {
  r_account : option ModelAccount;
  r_hasPasskeys : bool;
  r_open : bool;
  r_method : VerificationMethod;
  r_password : string;
  r_otp : string;
  r_token : option string;
  r_status : ReauthStatus;
  r_methodDep : VerificationMethod;
  r_closeDeps : bool * option VerificationMethod;
}.

Definition r_passwordAvailable (r : Reauth) : bool := passwordAvailable (r_account r).
Definition r_available (r : Reauth) (m : VerificationMethod) : bool :=
  isMethodAvailable (r_hasPasskeys r) (r_passwordAvailable r) m.
Definition r_preferred (r : Reauth) : VerificationMethod :=
  preferredMethod (r_hasPasskeys r) (r_passwordAvailable r).
Definition r_showOtp (r : Reauth) : bool :=
  totpEnabled (r_account r) && bool_decide (r_method r = password).

Definition clearReauth (r : Reauth) : Reauth :=
  r <| r_password := "" |> <| r_otp := "" |> <| r_token := None |> <| r_status := st_idle |>.

(** What the hook passes on when nothing was entered yet. *)
Definition reauth0 (account : option ModelAccount) (hasPasskeys : bool) (closeDep : option VerificationMethod) : Reauth :=
  let m := preferredMethod hasPasskeys (passwordAvailable account) in
  mkReauth account hasPasskeys false m "" "" None st_idle m (false, closeDep).

(** ** Dialogs *)

(** [onMethodChange] and [onClosed] reset what a dialog keeps beside the identity check, [toasted] shows a
    message, and [closeFollowsMethod] says whether its closing effect depends on [resetMethod]. *)
Class ReauthDialog (D : Type) := {
  re : D -> Reauth;
  with_re : (Reauth -> Reauth) -> D -> D;
  onMethodChange : D -> D;
  onClosed : D -> D;
  toasted : ToastKind -> string -> D -> D;
  closeFollowsMethod : bool;
}.

(** The parts are apart. *)
Class ReauthLaws (D : Type) `{ReauthDialog D} : Prop := {
  re_with d f : re (with_re f d) = f (re d);
  re_onMethodChange d : re (onMethodChange d) = re d;
  re_onClosed d : re (onClosed d) = re d;
  re_toasted k t d : re (toasted k t d) = re d;
}.

Section dialog.
Context {D : Type} `{ReauthDialog D}.

Definition setMethod (m : VerificationMethod) : D -> D := with_re (fun r => r <| r_method := m |>).
Definition setStatus (st : ReauthStatus) : D -> D := with_re (fun r => r <| r_status := st |>).

(** *** Effects *)

(** [useEffect(..., [open, preferredMethod, isMethodAvailable])] *)
Definition methodEffect (d : D) : D :=
  if negb (r_open (re d)) then setMethod (r_preferred (re d)) d
  else if r_available (re d) (r_method (re d)) then d
  else setMethod (r_preferred (re d)) d.

Definition closeDeps (r : Reauth) : bool * option VerificationMethod :=
  (r_open r, if closeFollowsMethod then Some (r_preferred r) else None).

(** Every state of a closed dialog is reset, the method included. *)
Definition resetAll (d : D) : D :=
  with_re (fun r => clearReauth r <| r_method := r_preferred r |>) (onClosed d).

Definition closeEffect (d : D) : D :=
  let d' := if negb (bool_decide (r_closeDeps (re d) = closeDeps (re d))) && negb (r_open (re d))
            then resetAll d else d in
  with_re (fun r => r <| r_closeDeps := closeDeps (re d) |>) d'.

(** [onMethodChange] of the hook; it runs after the closing effect has set the method. *)
Definition changeEffect (d : D) : D :=
  if bool_decide (r_methodDep (re d) = r_method (re d)) then d
  else with_re (fun r => clearReauth r <| r_methodDep := r_method r |>) (onMethodChange d).

Definition commit (d : D) : D := changeEffect (closeEffect (methodEffect d)).

(** *** Controls *)

Definition switchMethod (next : VerificationMethod) (d : D) : D :=
  if r_available (re d) next then setMethod next d else d.
(** An input exists only while its method is shown. *)
Definition typePassword (v : string) (d : D) : D :=
  if bool_decide (r_method (re d) = password) then with_re (fun r => r <| r_password := v |>) d else d.
Definition typeOtp (v : string) (d : D) : D :=
  if r_showOtp (re d) then with_re (fun r => r <| r_otp := v |>) d else d.
(** New props. *)
Definition propsChanged (account : option ModelAccount) (hasPasskeys : bool) : D -> D :=
  with_re (fun r => r <| r_account := account |> <| r_hasPasskeys := hasPasskeys |>).

(** *** The ceremony *)

Context {Err Req : Type} {Resp : Req -> Type} (request : Req) (token : Resp request -> string) (message : Err -> option string).

(** The button is disabled while a ceremony runs and once one succeeded. *)
Definition passkeyButton (d : D) : bool :=
  bool_decide (r_method (re d) = passkey)
  && match r_status (re d) with st_idle | st_error => true | in_progress | verified => false end.

Definition verifiedWith (t : string) : D -> D :=
  with_re (fun r => r <| r_token := Some t |> <| r_status := verified |>).
Definition clearPassword : D -> D := with_re (fun r => r <| r_password := "" |>).

Definition VERIFIED : string := "Identity verified via passkey".
Definition PASSKEY_FAILED : string := "Passkey verification failed".

(** [forgets] is what a dialog does to the password once the ceremony succeeded. *)
Definition beginPasskeyReauth (forgets : D -> D) : Prog Err Req D Resp unit :=
  perform (setStatus in_progress);;
  try_async
    (t ← await request;
     perform (fun d => forgets (verifiedWith (token t) d));;
     perform (toasted ToastSuccess VERIFIED))
    (fun e =>
     perform (setStatus st_error);;
     perform (toasted ToastError (opt_or (message e) PASSKEY_FAILED))).
End dialog.

(** ** Invariant *)

(** A dialog that says it is verified has a token, and a dialog that shows a method shows one there is. *)
Definition reauth_ok (r : Reauth) : Prop :=
  (r_status r = verified -> is_Some (r_token r)) /\
  (r_method r = r_methodDep r) /\
  (r_open r = true -> r_available r (r_method r) = true \/ r_available r password = false /\ r_method r = password).

Lemma preferred_ok r : r_available r (r_preferred r) = true \/ r_available r password = false /\ r_preferred r = password.
Proof.
  unfold r_available, r_preferred, r_passwordAvailable.
  destruct (r_hasPasskeys r), (passwordAvailable (r_account r)); cbn; auto.
Qed.

Section laws.
Context {D : Type} `{ReauthLaws D}.
Implicit Types d : D.

Definition has_token (r : Reauth) : Prop := r_status r = verified -> is_Some (r_token r).

Lemma re_setMethod m d : re (setMethod m d) = (re d) <| r_method := m |>.
Proof. apply re_with. Qed.

(** What the effects make of the identity check, whatever else the dialog holds. *)
Definition methodR (r : Reauth) : Reauth :=
  if negb (r_open r) then r <| r_method := r_preferred r |>
  else if r_available r (r_method r) then r else r <| r_method := r_preferred r |>.
Definition closeR (r : Reauth) : Reauth :=
  (if negb (bool_decide (r_closeDeps r = closeDeps (D := D) r)) && negb (r_open r)
   then (clearReauth r) <| r_method := r_preferred r |> else r) <| r_closeDeps := closeDeps (D := D) r |>.
Definition changeR (r : Reauth) : Reauth :=
  if bool_decide (r_methodDep r = r_method r) then r
  else (clearReauth r) <| r_methodDep := r_method r |>.

Lemma resetAll_re d : re (resetAll d) = (clearReauth (re d)) <| r_method := r_preferred (re d) |>.
Proof. unfold resetAll. by rewrite re_with, re_onClosed. Qed.

Lemma re_commit d : re (commit d) = changeR (closeR (methodR (re d))).
Proof.
  unfold commit. set (d1 := methodEffect d). set (d2 := closeEffect d1).
  assert (re d1 = methodR (re d)) as H1.
  { unfold d1, methodEffect, methodR. destruct (negb _); [apply re_setMethod|].
    destruct (r_available _ _); [done|apply re_setMethod]. }
  assert (re d2 = closeR (re d1)) as H2.
  { unfold d2, closeEffect, closeR. rewrite re_with. destruct (_ && _); [by rewrite resetAll_re|done]. }
  rewrite <- H1, <- H2. unfold changeEffect, changeR. destruct (bool_decide _); [done|].
  by rewrite re_with, re_onMethodChange.
Qed.

(** The effects leave the props. *)
Lemma commit_props d :
  r_account (re (commit d)) = r_account (re d) /\ r_hasPasskeys (re (commit d)) = r_hasPasskeys (re d) /\
  r_open (re (commit d)) = r_open (re d).
Proof.
  rewrite re_commit. unfold methodR, closeR, changeR.
  repeat match goal with |- context [if ?b then _ else _] => destruct b end; done.
Qed.

(** The effects establish the invariant; the token alone comes from the handlers. *)
Lemma methodR_ok r :
  (r_status (methodR r) = r_status r /\ r_token (methodR r) = r_token r) /\
  (r_open (methodR r) = true -> r_available (methodR r) (r_method (methodR r)) = true \/
   r_available (methodR r) password = false /\ r_method (methodR r) = password).
Proof.
  unfold methodR. destruct (negb (r_open r)) eqn:Ho.
  - split; [done|]. intros Ho'. change (r_open r = true) in Ho'. by rewrite Ho' in Ho.
  - destruct (r_available r (r_method r)) eqn:Ha; [by split; [|left]|].
    split; [done|]. intros _. apply (preferred_ok r).
Qed.

Lemma commit_reauth_ok d : has_token (re d) -> reauth_ok (re (commit d)).
Proof.
  rewrite re_commit. generalize (re d). intros r Ht. pose proof (methodR_ok r) as [[Hs Hk] Hm].
  assert (has_token (methodR r)) as Ht1 by (unfold has_token; by rewrite Hs, Hk).
  clear Hs Hk Ht. revert Hm Ht1. generalize (methodR r). clear r. intros r Hm Ht.
  assert (has_token (closeR r) /\
    (r_open (closeR r) = true -> r_available (closeR r) (r_method (closeR r)) = true \/
     r_available (closeR r) password = false /\ r_method (closeR r) = password)) as [Ht2 Hm2].
  { unfold closeR. destruct (negb _ && negb (r_open r)) eqn:E; [|by split].
    apply andb_prop in E as [_ E%negb_true_iff]. split; [done|]. intros Ho. change (r_open r = true) in Ho. congruence. }
  clear Hm Ht. revert Ht2 Hm2. generalize (closeR r). clear r. intros r Ht Hm. unfold changeR.
  case_bool_decide as E; [by split; [|split]|]. split; [done|]. by split.
Qed.

(** *** Between two changes *)

(** Nothing is left for the effects of an open dialog to change. *)
Definition settled (r : Reauth) : Prop :=
  r_methodDep r = r_method r /\
  (r_open r = true -> r_available r (r_method r) = true \/ r_preferred r = r_method r).

Lemma commit_settled d : settled (re (commit d)).
Proof.
  rewrite re_commit. generalize (re d). intros r.
  assert (r_open (methodR r) = true ->
    r_available (methodR r) (r_method (methodR r)) = true \/ r_preferred (methodR r) = r_method (methodR r)) as Hm.
  { unfold methodR. destruct (negb (r_open r)) eqn:Ho.
    - intros Ho'. change (r_open r = true) in Ho'. by rewrite Ho' in Ho.
    - destruct (r_available r (r_method r)) eqn:Ha; [by left|by right]. }
  generalize dependent (methodR r). clear r. intros r Hm.
  assert (r_open (closeR r) = true ->
    r_available (closeR r) (r_method (closeR r)) = true \/ r_preferred (closeR r) = r_method (closeR r)) as Hc.
  { unfold closeR. destruct (negb _ && negb (r_open r)); [by right|exact Hm]. }
  generalize dependent (closeR r). clear r Hm. intros r Hc. unfold changeR.
  case_bool_decide as E; by split.
Qed.

(** So they run for nothing: the method is the same and nothing is reset. *)
Lemma settled_effects d :
  settled (re d) -> r_open (re d) = true ->
  commit d = with_re (fun r => r <| r_closeDeps := closeDeps (D := D) (re (methodEffect d)) |>) (methodEffect d) /\
  (methodEffect d = d \/ methodEffect d = setMethod (r_method (re d)) d).
Proof.
  intros [Hd Ha] Ho.
  assert (methodEffect d = d \/ methodEffect d = setMethod (r_method (re d)) d) as Hm.
  { unfold methodEffect. rewrite Ho. cbn [negb]. destruct (Ha Ho) as [-> |E]; [by left|].
    destruct (r_available _ _); [by left|right; by rewrite E]. }
  split; [|done]. set (d1 := methodEffect d) in *.
  assert (r_open (re d1) = true /\ r_methodDep (re d1) = r_method (re d1)) as [Ho1 Hd1].
  { destruct Hm as [-> | ->]; [done|]. rewrite re_setMethod. by split. }
  unfold commit. fold d1. unfold closeEffect. rewrite Ho1. cbn [negb]. rewrite andb_false_r.
  unfold changeEffect. rewrite re_with. by rewrite bool_decide_eq_true_2.
Qed.

Lemma sys_settled {Err Req : Type} {Resp : Req -> Type} (y : Sys Err Req D Resp) e :
  settled (re (ui y)) -> settled (re (ui (sys_step commit y e))).
Proof.
  intros Hy. destruct e as [h|i w|f]; cbn [sys_step].
  - unfold advance. destruct (drain (h (ui y)) (ui y)) as [s p]. apply commit_settled.
  - destruct (inflight y !! i) as [p|]; [|done]. unfold resume, advance. destruct (drain _ (ui y)) as [s p']. apply commit_settled.
  - apply commit_settled.
Qed.

(** *** Closing and opening again *)

Definition closeDep (r : Reauth) : option VerificationMethod :=
  if closeFollowsMethod (D := D) then Some (r_preferred r) else None.

(** A dialog that resets everything as it is closed is closed as it was mounted. *)
Lemma closed_re d :
  re (commit (with_re (fun r => r <| r_open := false |>) (resetAll d)))
  = reauth0 (r_account (re d)) (r_hasPasskeys (re d)) (closeDep (re d)).
Proof.
  rewrite re_commit, re_with, resetAll_re. destruct (re d) as [a pk o m pw ot tk st md cd]. clear d.
  unfold methodR, closeR, changeR, closeDep, closeDeps, reauth0, clearReauth, r_preferred, r_passwordAvailable. cbn.
  destruct (negb (bool_decide _)); cbn; case_bool_decide as E; try (by subst); done.
Qed.

(** What a late answer leaves in a closed dialog stays there. *)
Definition heldIn (r0 : Reauth) (pw ot : string) (tk : option string) (st : ReauthStatus) : Reauth :=
  r0 <| r_password := pw |> <| r_otp := ot |> <| r_token := tk |> <| r_status := st |>.

Lemma closed_stable a pk pw ot tk st d :
  re d = heldIn (reauth0 a pk (closeDep (reauth0 a pk None))) pw ot tk st ->
  re (commit d) = re d.
Proof.
  intros Hd. rewrite re_commit, Hd. clear d Hd. set (r := heldIn _ _ _ _ _).
  assert (methodR r = r) as -> by done.
  assert (closeR r = r) as -> by (unfold closeR; by rewrite bool_decide_eq_true_2 by done).
  unfold changeR. by rewrite bool_decide_eq_true_2 by done.
Qed.

(** Opening a dialog changes nothing it holds, when there is a method. *)
Lemma opened_re a pk pw ot tk st d :
  re d = heldIn (reauth0 a pk (closeDep (reauth0 a pk None))) pw ot tk st ->
  isMethodAvailable pk (passwordAvailable a) (preferredMethod pk (passwordAvailable a)) = true ->
  re (commit (with_re (fun r => r <| r_open := true |>) d))
  = (re d) <| r_open := true |> <| r_closeDeps := (true, closeDep (reauth0 a pk None)) |>.
Proof.
  intros Hd Ha. rewrite re_commit, re_with, Hd. clear d Hd. set (r := heldIn _ _ _ _ _).
  assert (methodR (r <| r_open := true |>) = r <| r_open := true |>) as ->.
  { unfold methodR. change (r_available _ _) with (isMethodAvailable pk (passwordAvailable a) (preferredMethod pk (passwordAvailable a))).
    by rewrite Ha. }
  unfold closeR. rewrite andb_false_r. unfold changeR. by rewrite bool_decide_eq_true_2 by done.
Qed.

(** Closed while the ceremony runs, the dialog holds its token; opened again, it still does. *)
Lemma late_token tk d :
  let closed := commit (with_re (fun r => r <| r_open := false |>) (resetAll d)) in
  let d' := commit (toasted ToastSuccess VERIFIED (clearPassword (verifiedWith tk closed))) in
  let held := heldIn (reauth0 (r_account (re d)) (r_hasPasskeys (re d)) (closeDep (re d))) "" "" (Some tk) verified in
  re d' = held /\
  (r_available (re d) (r_preferred (re d)) = true ->
   re (commit (with_re (fun r => r <| r_open := true |>) d')) = held <| r_open := true |> <| r_closeDeps := (true, closeDep (re d)) |>).
Proof.
  intros closed d' held.
  assert (re closed = reauth0 (r_account (re d)) (r_hasPasskeys (re d)) (closeDep (re d))) as H1 by apply closed_re.
  clearbody closed.
  assert (re d' = held) as H2.
  { unfold d'. set (d2 := toasted _ _ _).
    assert (re d2 = held) as H2; [|rewrite <- H2; exact (closed_stable (r_account (re d)) (r_hasPasskeys (re d)) _ _ _ _ d2 H2)].
    unfold d2. rewrite re_toasted. unfold clearPassword, verifiedWith. by rewrite !re_with, H1. }
  split; [done|]. clearbody d'. intros Ha.
  pose proof (opened_re (r_account (re d)) (r_hasPasskeys (re d)) _ _ _ _ d' H2 Ha) as H3. rewrite H2 in H3. exact H3.
Qed.

Context {Err Req : Type} {Resp : Req -> Type} (request : Req) (token : Resp request -> string)
  (message : Err -> option string) (forgets : D -> D).
Context (Hforgets : forall d, has_token (re d) -> has_token (re (forgets d))).

(** A ceremony keeps it. *)
Lemma passkey_keeps_token :
  keeps (fun d => has_token (re d)) (beginPasskeyReauth request token message forgets).
Proof.
  assert (forall st d, st <> verified -> has_token (re (setStatus st d))) as Hst.
  { intros st d Hst. unfold setStatus. rewrite re_with. intros E. by destruct (Hst E). }
  assert (forall k t, keeps (fun d => has_token (re d)) (perform (toasted k t) : Prog Err Req D Resp unit)) as Htoast.
  { intros k t. split; [|done]. intros d. by rewrite re_toasted. }
  apply keeps_bind; [split; [|done]; intros d _; by apply Hst|]. intros _. apply keeps_try.
  - apply keeps_bind; [by intros [x|e]|]. intros t. apply keeps_bind; [|intros _; apply Htoast].
    split; [|done]. intros d _. apply Hforgets. unfold verifiedWith. rewrite re_with. intros _. by eexists.
  - intros e. apply keeps_bind; [|intros _; apply Htoast]. split; [|done]. intros d _. by apply Hst.
Qed.

(** A ceremony that succeeds, with [f] in between. *)
Lemma ceremony_plays (f : D -> D) (w : World Err Req Resp) x d :
  w request = Ok x ->
  play commit [(f, w)] (beginPasskeyReauth request token message forgets) d
  = (commit (toasted ToastSuccess VERIFIED (forgets (verifiedWith (token x) (f (commit (setStatus in_progress d)))))), Ret ()).
Proof.
  intros Hw. rewrite play_one. unfold beginPasskeyReauth, resume, advance.
  cbn [drain mbind prog_bind perform finally try_async await fst snd mret prog_ret]. rewrite Hw.
  by cbn [drain mbind prog_bind perform finally try_async await fst snd mret prog_ret].
Qed.

(** So do the controls. *)
Lemma controls_keep_token d :
  has_token (re d) ->
  (forall m, has_token (re (switchMethod m d))) /\ (forall v, has_token (re (typePassword v d))) /\
  (forall v, has_token (re (typeOtp v d))) /\ (forall a p, has_token (re (propsChanged a p d))).
Proof.
  intros Hd. split; [|split; [|split]].
  - intros m. unfold switchMethod. destruct (r_available _ _); [by rewrite re_setMethod|done].
  - intros v. unfold typePassword. destruct (bool_decide _); [by rewrite re_with|done].
  - intros v. unfold typeOtp. destruct (r_showOtp _); [by rewrite re_with|done].
  - intros a p. unfold propsChanged. by rewrite re_with.
Qed.
End laws.
