(* ===== verification/ExportDialog.v ===== *)
(** * Exporting profiles: the dialog

    [src/app/src/components/dialogs/ExportProfilesDialog.tsx] with the hook that sends the export
    ([hooks/useProfileExport.ts]), and the section that opens it and the import
    ([components/BackupRestoreSection.tsx]). The identity check is [Reauth]. *)

From coqutil Require Import Datatypes.RecordSetters.
From S2P Require Import Prelude JsString ApiTypes Store Verification ImportExport Async ImportDialog Reauth.
Import TriangleBracketNotations.

#[local] Arguments constant _ _ _ /.

#[export] Instance ExportScope_eq_dec : EqDecision ExportScope.
Proof. solve_decision. Defined.

(** ** State *)

Record ExportDialog := mkExportDialog {
  x_store : AppState;
  x_reauth : Reauth;
  x_scope : ExportScope;
  x_selectedIds : list string;
  x_isExporting : bool;
  x_toasts : list UiToast;
  x_downloads : list string;
}.

(** The rest of [handleMethodChange] is nothing; the rest of closing is the selection. *)
#[export] Instance export_reauth : ReauthDialog ExportDialog := {
  re := x_reauth;
  with_re f d := d <| x_reauth := f (x_reauth d) |>;
  onMethodChange d := d;
  onClosed d := d <| x_scope := scope_all |> <| x_selectedIds := [] |>;
  toasted k t d := d <| x_toasts := (x_toasts d ++ [mkToast k t])%list |>;
  closeFollowsMethod := true;
}.

#[export] Instance export_laws : ReauthLaws ExportDialog.
Proof. by split. Qed.

Definition profileIds (s : AppState) : list string := map p_profile_id (profiles s).

Definition mountExport (st : AppState) : ExportDialog :=
  let pk := (0 <? length (passkeys st))%nat in
  mkExportDialog st (reauth0 (account st) pk (Some (preferredMethod pk (passwordAvailable (account st)))))
    scope_all [] false [] [].

(** [handleOpenChange] of the dialog; the parent sets [open]. *)
Definition exportOpenChange (next : bool) (d : ExportDialog) : ExportDialog :=
  with_re (fun r => r <| r_open := next |>) (if next then d else resetAll d).

(** ** The export *)

Definition exportReauthComplete (d : ExportDialog) : bool :=
  match r_method (re d) with
  | passkey => bool_decide (r_status (re d) = verified)
  | password => truthy (trim (r_password (re d))) && (negb (r_showOtp (re d)) || truthy (trim (r_otp (re d))))
  end.

Definition isScopeValid (d : ExportDialog) : bool :=
  match x_scope d with scope_all => true | scope_selected => (0 <? length (x_selectedIds d))%nat end.

Definition exportDisabled (d : ExportDialog) : bool :=
  negb (exportReauthComplete d) || negb (isScopeValid d) || x_isExporting d.

(** The answer of an export: the [content-disposition] header, and the clock when the file is named. *)
Inductive ExRequest : Type := ExportCeremony | ExportPost (r : ExportRequest).
Definition ExResponse (r : ExRequest) : Type :=
  match r with ExportCeremony => string | ExportPost _ => (option string * string)%type end.

Record ExError := mkExError { xe_message : option string; xe_body : ErrorBody }.

Notation ExHandler := (Prog ExError ExRequest ExportDialog ExResponse unit).

Definition setExporting (b : bool) (d : ExportDialog) : ExportDialog := d <| x_isExporting := b |>.
Definition download (name : string) (d : ExportDialog) : ExportDialog :=
  d <| x_downloads := (x_downloads d ++ [name])%list |>.

(** [exportProfiles] of the hook; the body of a failed request is read before the message is shown. *)
Definition sendExport (input : ExportProfilesInput) : ExHandler :=
  perform (setExporting true);;
  finally
    (try_async
       ('(disposition, iso) ← await (ExportPost (export_request input));
        perform (download (filename disposition iso)))
       (fun e =>
        perform (toasted ToastError (serverMessage (xe_body e) ?? "Export failed. Please try again."));;
        Raise e))
    (setExporting false).

Definition exportInput (d : ExportDialog) : ExportProfilesInput :=
  let r := re d in
  mkExportInput (x_scope d)
    (match x_scope d with scope_selected => Some (x_selectedIds d) | scope_all => None end)
    (if bool_decide (r_method r = password) then Some (r_password r) else None)
    (if bool_decide (r_method r = passkey) then r_token r else None)
    (if bool_decide (r_method r = password) && r_showOtp r then Some (r_otp r) else None).

Definition exportedText (count : Z) : string := "Exported " ++s show count ++s " profile" ++s plural count.

Definition exportCount (d : ExportDialog) : Z :=
  Z.of_nat (match x_scope d with scope_selected => length (x_selectedIds d) | scope_all => length (profiles (x_store d)) end).

Definition handleSubmit (d : ExportDialog) : ExHandler :=
  if exportDisabled d then mret () else
  try_async
    (sendExport (exportInput d);;
     perform (toasted ToastSuccess (exportedText (exportCount d)));;
     perform (exportOpenChange false))
    (fun _ => mret ()).

Definition exportCeremony : ExHandler :=
  beginPasskeyReauth ExportCeremony (fun t => t) xe_message clearPassword.

(** ** The dialog as a system *)

Inductive ExUpdate : Type :=
| ExportOpen (next : bool)
| ChooseScope (scope : ExportScope)
| ExportToggle (id : string)
| ExportToggleAll
| ExportMethod (m : VerificationMethod)
| ExportPassword (v : string)
| ExportOtp (v : string)
| ExportStore (st : AppState).

(** The list of profiles shows in the selected scope. *)
Definition ex_update (u : ExUpdate) (d : ExportDialog) : ExportDialog :=
  match u with
  | ExportOpen next => exportOpenChange next d
  | ChooseScope scope => d <| x_scope := scope |>
  | ExportToggle id =>
      if bool_decide (x_scope d = scope_selected) && bool_decide (id ∈ profileIds (x_store d))
      then d <| x_selectedIds := clickCheckbox id (x_selectedIds d) |> else d
  | ExportToggleAll =>
      if bool_decide (x_scope d = scope_selected)
      then d <| x_selectedIds := handleSelectAll (profileIds (x_store d)) (x_selectedIds d) |> else d
  | ExportMethod m => switchMethod m d
  | ExportPassword v => typePassword v d
  | ExportOtp v => typeOtp v d
  | ExportStore st => propsChanged (account st) (0 <? length (passkeys st))%nat (d <| x_store := st |>)
  end.

Inductive ExInvoke : Set := ExportPasskeyClick | ExportSubmit.
Definition ex_handler (h : ExInvoke) (d : ExportDialog) : ExHandler :=
  match h with
  | ExportPasskeyClick => if passkeyButton d then exportCeremony else mret ()
  | ExportSubmit => handleSubmit d
  end.

(** ** The section that opens the dialogs *)

(** A restricted account exports but does not import. *)
Record BackupRestore := mkBackup { exportOpen : bool; importOpen : bool }.
Inductive BackupEvent : Set := ExportClick | ImportRowClick | ExportOpenChange (b : bool) | ImportOpenChange (b : bool).
Definition backup_step (g : SubscriptionGuard) (s : BackupRestore) (e : BackupEvent) : BackupRestore :=
  match e with
  | ExportClick => mkBackup true (importOpen s)
  | ImportRowClick => if isRestricted g then s else mkBackup (exportOpen s) true
  | ExportOpenChange b => mkBackup b (importOpen s)
  | ImportOpenChange b => mkBackup (exportOpen s) b
  end.

(** ** Exporting profiles: what the dialog sends

    An export carries one proof of identity and what is selected; one that succeeds names one file and
    closes the dialog; one that fails leaves everything as it was. *)


Notation ExSystem := (Sys ExError ExRequest ExportDialog ExResponse).
Notation ExWorld := (World ExError ExRequest ExResponse).

Inductive ExEvent : Type :=
| ExClick (h : ExInvoke)
| ExAnswered (i : nat) (w : ExWorld)
| ExUpdated (u : ExUpdate).
Definition ex_ev (e : ExEvent) : SysEvent ExError ExRequest ExportDialog ExResponse :=
  match e with ExClick h => Start (ex_handler h) | ExAnswered i w => Answer i w | ExUpdated u => Other (ex_update u) end.
Definition ex_step (y : ExSystem) (e : ExEvent) : ExSystem := sys_step commit y (ex_ev e).

Lemma ex_run y evs : run ex_step y evs = run (sys_step commit) y (map ex_ev evs).
Proof. by apply run_map. Qed.

(** ** The token *)

Implicit Types d : ExportDialog.
Notation tokened := (fun d => has_token (re d)).

Lemma exportOpen_keeps next d : tokened d -> tokened (exportOpenChange next d).
Proof. by destruct next. Qed.

Lemma ex_update_keeps u d : tokened d -> tokened (ex_update u d).
Proof.
  intros Hd. pose proof (controls_keep_token d Hd) as (Hm & Hp & Ho & _).
  destruct u as [next|sc|id| |m|v|v|st]; cbn [ex_update]; auto.
  - by apply exportOpen_keeps.
  - by destruct (_ && _).
  - by destruct (bool_decide _).
Qed.

Lemma keeps_same (f : ExportDialog -> ExportDialog) :
  (forall d, re (f d) = re d) -> keeps tokened (perform f : ExHandler).
Proof. intros Hf. split; [|done]. intros d. by rewrite Hf. Qed.

Lemma ex_handler_keeps h d : keeps tokened (ex_handler h d).
Proof.
  destruct h; cbn [ex_handler].
  - destruct (passkeyButton d); [|done]. by apply passkey_keeps_token.
  - unfold handleSubmit. destruct (exportDisabled d); [done|]. apply keeps_try; [|done].
    apply keeps_bind.
    + apply keeps_bind; [by apply keeps_same|]. intros _. apply keeps_finally; [|done]. apply keeps_try.
      * apply keeps_bind; [by intros [x|e]|]. intros [dis iso]. by apply keeps_same.
      * intros e. apply keeps_bind; [by apply keeps_same|done].
    + intros _. apply keeps_bind; [by apply keeps_same|]. intros _. split; [|done]. apply exportOpen_keeps.
Qed.

Lemma commit_tokened d : tokened d -> tokened (commit d).
Proof. intros Hd. exact (proj1 (commit_reauth_ok d Hd)). Qed.

Lemma export_tokened st evs : tokened (ui (run ex_step (mkSys (mountExport st) []) evs)).
Proof.
  rewrite ex_run. apply (sys_keeps commit tokened); [apply commit_tokened|done|by constructor|].
  apply Forall_fmap, Forall_forall. intros [h|i w|u] _; cbn [compose ex_ev event_keeps]; [|done|].
  - intros d. apply ex_handler_keeps.
  - apply ex_update_keeps.
Qed.

(** ** What is sent *)

(** The proof in a request: a token, or a password that is not blank with a code exactly when the account
    asks for one. *)
Definition export_proof (d : ExportDialog) (r : ExportRequest) : Prop :=
  match r_method (re d) with
  | passkey => is_Some (er_reauth_token r) /\ er_current_password r = None /\ er_mfa_code r = None
  | password =>
      er_reauth_token r = None /\ er_current_password r = Some (r_password (re d)) /\
      truthy (trim (r_password (re d))) = true /\
      er_mfa_code r = if totpEnabled (r_account (re d)) then Some (r_otp (re d)) else None
  end.

(** whatever was done in the dialog before, an export sends the scope that is chosen, with the ids that
    are selected in it and at least one of them, and exactly one proof of identity *)
(** C26: whatever was done in the dialog before, an export sends the scope that is chosen, with the
    ids that are selected in it and at least one of them, and exactly one proof of identity *)
Theorem export_sends_the_selection st evs :
  let d := ui (run ex_step (mkSys (mountExport st) []) evs) in
  sends (fun q => match q with
    | ExportPost r => er_scope r = x_scope d /\ export_proof d r /\
        er_profile_ids r = (match x_scope d with scope_all => None | scope_selected => Some (x_selectedIds d) end) /\
        (x_scope d = scope_selected -> x_selectedIds d <> [])
    | ExportCeremony => False
    end) (handleSubmit d).
Proof.
  cbv zeta. pose proof (export_tokened st evs) as Ht. generalize dependent (ui (run ex_step (mkSys (mountExport st) []) evs)).
  intros d Ht. unfold handleSubmit. destruct (exportDisabled d) eqn:Hd; [done|].
  unfold exportDisabled in Hd. apply orb_false_iff in Hd as [[Hr%negb_false_iff Hs%negb_false_iff]%orb_false_iff _].
  apply sends_try; [|done]. apply sends_bind; [|done]. split; [|intros [[a b]|e]; done]. cbn.
  split; [done|]. split; [|split; [done|]].
  - unfold export_proof, exportReauthComplete, exportInput in *. change (re d) with (x_reauth d) in *. cbn. destruct (r_method (x_reauth d)) eqn:Hm.
    + apply andb_prop in Hr as [Hp Ho]. cbn. unfold r_showOtp in *. rewrite Hm in *.
      rewrite (bool_decide_eq_true_2 (password = password)), andb_true_r in * by done. split; [done|]. split; [done|].
      split; [done|]. destruct (totpEnabled (r_account (x_reauth d))); [|done]. cbn in *.
      pose proof (truthy_trim _ Ho) as Ht'.
      change (truthy_opt (Some (r_otp (x_reauth d)))) with (truthy (r_otp (x_reauth d))). by rewrite Ht'.
    + apply bool_decide_eq_true in Hr. split; [|done]. cbn. by apply Ht.
  - unfold isScopeValid in Hs. intros Hsc. rewrite Hsc in Hs. intros Hn. by rewrite Hn in Hs.
Qed.

(** ** How it ends *)

Ltac run_export :=
  cbn [drain mbind prog_bind perform finally try_async await fst snd mret prog_ret].

Lemma disabled_same d d' :
  re d' = re d -> x_scope d' = x_scope d -> x_selectedIds d' = x_selectedIds d -> x_isExporting d' = false ->
  exportDisabled d = false -> exportDisabled d' = false.
Proof.
  unfold exportDisabled, exportReauthComplete, isScopeValid. intros -> -> -> -> Hd.
  by apply orb_false_iff in Hd as [-> _].
Qed.

(** an export that the server answers saves one file, says how many profiles it holds, and leaves the
    dialog closed and reset; one that fails saves none, says why once, and leaves the dialog and what was
    entered as they were, ready to be sent again *)
Theorem export_ends d (w : ExWorld) (f : ExportDialog -> ExportDialog) :
  exportDisabled d = false ->
  (forall x, x_toasts (f x) = x_toasts x /\ x_downloads (f x) = x_downloads x /\ re (f x) = re x /\ x_scope (f x) = x_scope x /\
             x_selectedIds (f x) = x_selectedIds x) ->
  exists d', play id [(f, w)] (handleSubmit d) d = (d', Ret ()) /\ x_isExporting d' = false /\
    match w (ExportPost (export_request (exportInput d))) with
    | Ok (disposition, iso) =>
        x_downloads d' = x_downloads d ++ [filename disposition iso] /\
        x_toasts d' = x_toasts d ++ [mkToast ToastSuccess (exportedText (exportCount d))] /\
        r_open (re d') = false /\ r_password (re d') = "" /\ r_otp (re d') = "" /\ r_token (re d') = None /\
        x_selectedIds d' = []
    | Throw e =>
        x_downloads d' = x_downloads d /\
        x_toasts d' = x_toasts d ++ [mkToast ToastError (serverMessage (xe_body e) ?? "Export failed. Please try again.")] /\
        re d' = re d /\ x_scope d' = x_scope d /\ x_selectedIds d' = x_selectedIds d /\ exportDisabled d' = false
    end.
Proof.
  intros Hd Hf. rewrite play_one. unfold handleSubmit. rewrite Hd. unfold resume, advance, sendExport. run_export.
  set (x := f _). assert (x_toasts x = x_toasts d /\ x_downloads x = x_downloads d /\ re x = re d /\ x_scope x = x_scope d /\
    x_selectedIds x = x_selectedIds d) as (Ht & Hdl & Hre & Hsc & Hids) by exact (Hf (setExporting true d)).
  destruct (w _) as [[dis iso]|e]; run_export; eexists; (split; [reflexivity|]); (split; [done|]).
  - rewrite <- Ht, <- Hdl. repeat split.
  - rewrite <- Ht, <- Hdl. split; [done|]. split; [done|]. split; [exact Hre|]. split; [exact Hsc|]. split; [exact Hids|].
    by apply (disabled_same d).
Qed.

(** ** A ceremony that ends late *)

Lemma commit_rest d :
  x_isExporting (commit d) = x_isExporting d /\ (x_scope d = scope_all -> x_scope (commit d) = scope_all).
Proof.
  unfold commit, methodEffect, closeEffect, changeEffect.
  repeat match goal with |- context [if ?b then _ else _] => destruct b end; done.
Qed.

Lemma closing_rest d :
  x_isExporting (exportOpenChange false d) = x_isExporting d /\ x_scope (exportOpenChange false d) = scope_all.
Proof. done. Qed.

Lemma rest_after k txt tk d :
  x_isExporting d = false ->
  let d' := commit (toasted k txt (clearPassword (verifiedWith tk (commit (exportOpenChange false d))))) in
  x_isExporting d' = false /\ x_scope d' = scope_all.
Proof.
  intros Hx. cbv zeta. destruct (commit_rest (exportOpenChange false d)) as [E1 E2]. rewrite (proj1 (closing_rest d)), Hx in E1.
  specialize (E2 (proj2 (closing_rest d))). generalize dependent (commit (exportOpenChange false d)). intros c E1 E2.
  destruct (commit_rest (toasted k txt (clearPassword (verifiedWith tk c)))) as [E3 E4]. rewrite E3. split; [exact E1|]. by apply E4.
Qed.

Lemma verified_submits d t :
  r_method (re d) = passkey -> r_status (re d) = verified -> r_token (re d) = Some t ->
  x_scope d = scope_all -> x_isExporting d = false ->
  exportDisabled d = false /\ er_reauth_token (export_request (exportInput d)) = Some t.
Proof.
  intros Hm Hs Ht Hsc Hx. unfold exportDisabled, exportReauthComplete, isScopeValid. rewrite Hm, Hs, Hsc, Hx.
  split; [done|]. unfold exportInput. rewrite Hm. exact Ht.
Qed.

Lemma opened_rest d :
  x_scope d = scope_all ->
  x_isExporting (commit (exportOpenChange true d)) = x_isExporting d /\ x_scope (commit (exportOpenChange true d)) = scope_all.
Proof. intros Hs. destruct (commit_rest (exportOpenChange true d)) as [-> E]. split; [done|]. by apply E. Qed.

(** a passkey ceremony that ends after the dialog was closed leaves the closed dialog verified: opened
    again, it sends an export without asking for a proof of identity *)
Theorem late_ceremony_verifies d (w : ExWorld) t :
  passkeyButton d = true -> r_hasPasskeys (re d) = true -> x_isExporting d = false ->
  w ExportCeremony = Ok t ->
  let closed x := commit (ex_update (ExportOpen false) x) in
  exists d', play commit [(closed, w)] exportCeremony d = (d', Ret ()) /\ r_open (re d') = false /\
    let d'' := commit (ex_update (ExportOpen true) d') in
    r_open (re d'') = true /\ exportDisabled d'' = false /\ er_reauth_token (export_request (exportInput d'')) = Some t.
Proof.
  intros _ Hpk Hx Hw closed. unfold exportCeremony.
  rewrite (ceremony_plays ExportCeremony (fun t => t) xe_message clearPassword closed w t d Hw).
  eexists. split; [reflexivity|].
  assert (x_isExporting (commit (setStatus in_progress d)) = false) as Hx1 by (by rewrite (proj1 (commit_rest _))).
  assert (r_hasPasskeys (re (commit (setStatus in_progress d))) = true) as Hp1
    by (rewrite (proj1 (proj2 (commit_props _))); exact Hpk).
  generalize dependent (commit (setStatus in_progress d)). clear d Hpk Hx. intros d Hx Hpk.
  destruct (late_token t d) as [H1 H2].
  destruct (rest_after ToastSuccess VERIFIED t d Hx) as [Hx' Hs'].
  assert (preferredMethod true (passwordAvailable (r_account (re d))) = passkey) as Hm
    by (by destruct (passwordAvailable (r_account (re d)))).
  unfold r_available, r_preferred, r_passwordAvailable in H2. rewrite Hpk, Hm in H2. specialize (H2 eq_refl).
  rewrite Hpk in H1.
  change (commit (toasted ToastSuccess VERIFIED (clearPassword (verifiedWith t (closed d)))))
    with (commit (toasted ToastSuccess VERIFIED (clearPassword (verifiedWith t (commit (with_re (fun r => r <| r_open := false |>) (resetAll d))))))).
  change (commit (exportOpenChange false d)) with (commit (with_re (fun r => r <| r_open := false |>) (resetAll d))) in Hx', Hs'.
  generalize dependent (commit (toasted ToastSuccess VERIFIED (clearPassword (verifiedWith t (commit (with_re (fun r => r <| r_open := false |>) (resetAll d))))))).
  intros d' H1 H2 Hx' Hs'. split; [by rewrite H1|]. cbv zeta.
  change (ex_update (ExportOpen true) d') with (exportOpenChange true d').
  destruct (opened_rest d' Hs') as [Hx5 Hs5]. rewrite Hx' in Hx5.
  change (with_re (fun r => r <| r_open := true |>) d') with (exportOpenChange true d') in H2.
  split; [by rewrite H2|]. apply verified_submits; [rewrite H2; exact Hm|by rewrite H2|by rewrite H2|done|done].
Qed.

(** ** Witnesses *)

Definition keyed_store : AppState := set_field (setPasskeys [MkModelCredential None (Some "key")]) initialState.
Definition export_start : ExportDialog := commit (exportOpenChange true (mountExport keyed_store)).
Definition export_ready : ExportDialog :=
  commit (typePassword "secret" (commit (switchMethod password export_start))).
Definition export_world : ExWorld := fun r =>
  match r with ExportCeremony => Ok "token" | ExportPost _ => Ok (None, "2026-01-02T03:04:05.678Z") end.

Lemma export_ends_witness :
  exists d', play id [(id, export_world)] (handleSubmit export_ready) export_ready = (d', Ret ()) /\
    x_downloads d' = ["moddns-export-2026-01-02T03-04-05-678Z.moddns.json"] /\ r_open (re d') = false.
Proof.
  destruct (export_ends export_ready export_world id eq_refl) as (d' & Hp & _ & H); [by repeat split|].
  exists d'. split; [exact Hp|]. destruct H as (H1 & _ & H2 & _). split; [|exact H2].
  rewrite H1. vm_compute. reflexivity.
Defined.

Lemma late_ceremony_verifies_witness :
  let closed x := commit (ex_update (ExportOpen false) x) in
  exists d', play commit [(closed, export_world)] exportCeremony export_start = (d', Ret ()) /\ r_open (re d') = false /\
    exportDisabled (commit (ex_update (ExportOpen true) d')) = false.
Proof.
  intros closed. destruct (late_ceremony_verifies export_start export_world "token" eq_refl eq_refl eq_refl eq_refl)
    as (d' & Hp & Ho & _ & H & _).
  exists d'. split; [exact Hp|]. split; [exact Ho|exact H].
Defined.
