(* ===== verification/ChangeEmail.v ===== *)
(** * Changing the email address

    [src/app/src/pages/account_preferences/ChangeEmailDialog.tsx]: the new address and the proof of
    identity are entered first, the address is entered again to confirm it, then it is sent. *)

From coqutil Require Import Datatypes.RecordSetters.
From S2P Require Import Prelude JsString ApiTypes Store Verification Async Reauth.
Import TriangleBracketNotations.

#[local] Arguments constant _ _ _ /.

Definition normalizeEmail (s : string) : string := toLowerCase (trim s).

(** ** State *)

Inductive EmailStep : Set := Details | ConfirmEmail.
#[export] Instance EmailStep_eq_dec : EqDecision EmailStep.
Proof. solve_decision. Defined.

(** [changed] counts the calls of [onChanged]. *)
Record EmailDialog := mkEmailDialog {
  e_store : AppState;
  e_reauth : Reauth;
  e_step : EmailStep;
  newEmail : string;
  confirmEmail : string;
  submitting : bool;
  e_toasts : list UiToast;
  changed : nat;
}.

(** The closing effect resets the step and the confirmation, and follows [open] alone; the method of a
    closed dialog is the preferred one already. *)
#[export] Instance email_reauth : ReauthDialog EmailDialog := {
  re := e_reauth;
  with_re f d := d <| e_reauth := f (e_reauth d) |>;
  onMethodChange d := d;
  onClosed d := d <| e_step := Details |> <| confirmEmail := "" |>;
  toasted k t d := d <| e_toasts := (e_toasts d ++ [mkToast k t])%list |>;
  closeFollowsMethod := false;
}.

#[export] Instance email_laws : ReauthLaws EmailDialog.
Proof. by split. Qed.

Definition mountEmail (st : AppState) (account : option ModelAccount) : EmailDialog :=
  mkEmailDialog st (reauth0 account (0 <? length (passkeys st))%nat None) Details "" "" false [] 0.

Definition emailToast (k : ToastKind) (t : string) : EmailDialog -> EmailDialog := toasted k t.

Definition resetMethod (d : EmailDialog) : EmailDialog := setMethod (r_preferred (re d)) d.

Definition emailOpenChange (next : bool) (d : EmailDialog) : EmailDialog :=
  with_re (fun r => r <| r_open := next |>)
    (resetMethod
       (if next then d
        else with_re clearReauth (d <| e_step := Details |> <| newEmail := "" |> <| confirmEmail := "" |>))).

(** ** The first step *)

Definition emailsMatch (d : EmailDialog) : bool :=
  negb (String.eqb (confirmEmail d) "") && String.eqb (normalizeEmail (confirmEmail d)) (normalizeEmail (newEmail d)).
Definition showMismatch (d : EmailDialog) : bool := negb (String.eqb (confirmEmail d) "") && negb (emailsMatch d).

Definition handleContinue (d : EmailDialog) : EmailDialog :=
  let r := re d in
  match r_account r with
  | None => d
  | Some _ =>
      if negb (includes (newEmail d) "@") then emailToast ToastError "Please enter a valid email." d
      else if bool_decide (r_method r = password) && negb (truthy (r_password r))
      then emailToast ToastError "Current password is required." d
      else if bool_decide (r_method r = passkey) && negb (truthy_opt (r_token r))
      then emailToast ToastError "Passkey verification is required." d
      else if r_showOtp r && negb (truthy (r_otp r)) then emailToast ToastError "2FA code is required." d
      else d <| e_step := ConfirmEmail |>
  end.

Definition continueDisabled (d : EmailDialog) : bool :=
  submitting d || bool_decide (r_method (re d) = passkey) && negb (bool_decide (r_status (re d) = verified))
  || r_showOtp (re d) && negb (truthy (r_otp (re d))).

(** ** Requests *)

(** [{ reauth_token, new_email }] or [{ current_password, new_email }]. *)
Inductive EmailValue : Type :=
| EmailReauth (token : option string) (new : string)
| EmailPassword (current : string) (new : string).

Inductive CeRequest : Type :=
| EmailCeremony
| EmailPatch (v : EmailValue) (mfa : option (string * list string))
| EmailAccountGet.
Definition CeResponse (r : CeRequest) : Type :=
  match r with EmailCeremony => string | EmailPatch _ _ => unit | EmailAccountGet => ModelAccount end.
Record CeError := mkCeError { ce_message : option string; ce_error : option string }.

Notation CeHandler := (Prog CeError CeRequest EmailDialog CeResponse unit).

Definition emailCeremony (d : EmailDialog) : CeHandler :=
  match r_account (re d) with
  | None => mret ()
  | Some _ => beginPasskeyReauth EmailCeremony (fun t => t) ce_message clearPassword
  end.

Definition setSubmitting (b : bool) (d : EmailDialog) : EmailDialog := d <| submitting := b |>.
Definition storeAccount (a : ModelAccount) (d : EmailDialog) : EmailDialog :=
  d <| e_store := setAccount (Some a) (e_store d) |>.
Definition onChanged (d : EmailDialog) : EmailDialog := d <| changed := S (changed d) |>.

Definition emailValue (d : EmailDialog) : EmailValue :=
  match r_method (re d) with
  | passkey => EmailReauth (r_token (re d)) (newEmail d)
  | password => EmailPassword (r_password (re d)) (newEmail d)
  end.
Definition emailMfa (d : EmailDialog) : option (string * list string) :=
  if r_showOtp (re d) then Some (r_otp (re d), ["totp"]) else None.

Definition EMAIL_UPDATED : string := "Email updated. Please verify your new address.".
Definition EMAIL_FAILED : string := "Failed to update email".

(** [onChanged] sends its own request and is not awaited. *)
Definition submitEmail (d : EmailDialog) : CeHandler :=
  match r_account (re d) with
  | None => mret ()
  | Some _ =>
      if negb (emailsMatch d) then perform (emailToast ToastError "Email addresses do not match.") else
      perform (setSubmitting true);;
      finally
        (try_async
           (await (EmailPatch (emailValue d) (emailMfa d));;
            refreshed ← await EmailAccountGet;
            perform (storeAccount refreshed);;
            perform (emailToast ToastSuccess EMAIL_UPDATED);;
            perform (emailOpenChange false);;
            perform onChanged)
           (fun e => perform (emailToast ToastError (opt_or (ce_error e) EMAIL_FAILED))))
        (setSubmitting false)
  end.

(** ** The dialog as a system *)

Inductive CeUpdate : Type :=
| EmailOpen (next : bool)
| TypeNewEmail (v : string)
| TypeConfirmEmail (v : string)
| TypeEmailPassword (v : string)
| TypeEmailOtp (v : string)
| EmailMethod (m : VerificationMethod)
| ContinueClick
| OtpEnter
| BackClick
| EmailProps (account : option ModelAccount) (st : AppState).

(** An input exists only in its step. *)
Definition inStep (st : EmailStep) (f : EmailDialog -> EmailDialog) (d : EmailDialog) : EmailDialog :=
  if bool_decide (e_step d = st) then f d else d.

Definition ce_update (u : CeUpdate) (d : EmailDialog) : EmailDialog :=
  match u with
  | EmailOpen next => emailOpenChange next d
  | TypeNewEmail v => inStep Details (fun d => d <| newEmail := v |> <| confirmEmail := "" |>) d
  | TypeConfirmEmail v => inStep ConfirmEmail (fun d => d <| confirmEmail := v |>) d
  | TypeEmailPassword v => inStep Details (typePassword v) d
  | TypeEmailOtp v => inStep Details (typeOtp v) d
  | EmailMethod m => inStep Details (switchMethod m) d
  | ContinueClick => inStep Details (fun d => if continueDisabled d then d else handleContinue d) d
  | OtpEnter => inStep Details (fun d => if r_showOtp (re d) then handleContinue d else d) d
  | BackClick => if submitting d then d else inStep ConfirmEmail (fun d => d <| e_step := Details |>) d
  | EmailProps account st =>
      propsChanged account (0 <? length (passkeys st))%nat (d <| e_store := st |>)
  end.

Inductive CeInvoke : Set := EmailPasskeyClick | EmailSubmit.
Definition ce_handler (h : CeInvoke) (d : EmailDialog) : CeHandler :=
  match h with
  | EmailPasskeyClick =>
      if bool_decide (e_step d = Details) && passkeyButton d && negb (submitting d) then emailCeremony d else mret ()
  | EmailSubmit =>
      if bool_decide (e_step d = ConfirmEmail) && emailsMatch d && negb (submitting d) then submitEmail d else mret ()
  end.

Notation CeSystem := (Sys CeError CeRequest EmailDialog CeResponse).
Notation CeWorld := (World CeError CeRequest CeResponse).

Inductive CeEvent : Type :=
| CeClick (h : CeInvoke)
| CeAnswered (i : nat) (w : CeWorld)
| CeUpdated (u : CeUpdate).
Definition ce_ev (e : CeEvent) : SysEvent CeError CeRequest EmailDialog CeResponse :=
  match e with CeClick h => Start (ce_handler h) | CeAnswered i w => Answer i w | CeUpdated u => Other (ce_update u) end.
Definition ce_step (y : CeSystem) (e : CeEvent) : CeSystem := sys_step commit y (ce_ev e).

(** ** Changing the email address: what is sent and shown

    The address that is sent was entered twice. A ceremony that ends after the method was switched empties
    the password that was entered since, and a change whose account cannot be read afterwards is shown as
    failed although it was saved. *)


Implicit Types (d : EmailDialog) (w : CeWorld).

(** ** The address *)

Definition address_ok (d : EmailDialog) : Prop := e_step d = ConfirmEmail -> includes (newEmail d) "@" = true.

(** What [address_ok] looks at. *)
Definition address_view (d : EmailDialog) := (e_step d, newEmail d).
Lemma address_same d d' : address_view d' = address_view d -> address_ok d -> address_ok d'.
Proof. unfold address_view, address_ok. by intros [= -> ->]. Qed.
Lemma address_details d : e_step d = Details -> address_ok d.
Proof. unfold address_ok. congruence. Qed.

Lemma commit_email d : commit d = with_re (fun _ => re (commit d)) d \/ e_step (commit d) = Details.
Proof.
  unfold commit, changeEffect, closeEffect, methodEffect. destruct d as [st r sp n c sub ts ch].
  repeat match goal with |- context [if ?b then _ else _] => destruct b end; cbn; auto.
Qed.

Lemma commit_address d : address_ok d -> address_ok (commit d).
Proof.
  intros Hd. destruct (commit_email d) as [-> |Hs]; [|by apply address_details]. by apply (address_same d).
Qed.

(** The first step is left with an address only. *)
Lemma continue_address d : address_ok d -> address_ok (handleContinue d).
Proof.
  intros Hd. unfold handleContinue. destruct (r_account (re d)); [|done].
  destruct (includes (newEmail d) "@") eqn:Hn; cbn [negb]; [|by apply (address_same d)].
  repeat match goal with |- context [if ?b then _ else _] => destruct b end; try by apply (address_same d).
  intros _. exact Hn.
Qed.

Lemma ce_update_address u d : address_ok d -> address_ok (ce_update u d).
Proof.
  intros Hd. destruct u as [next|v|v|v|v|m| | | |a st]; cbn [ce_update].
  - destruct next; [by apply (address_same d)|by apply address_details].
  - unfold inStep. case_bool_decide as Hs; [|done]. by apply address_details.
  - unfold inStep. case_bool_decide as Hs; [|done]. by apply (address_same d).
  - unfold inStep. case_bool_decide as Hs; [|done]. unfold typePassword. destruct (bool_decide _); [by apply (address_same d)|done].
  - unfold inStep. case_bool_decide as Hs; [|done]. unfold typeOtp. destruct (r_showOtp _); [by apply (address_same d)|done].
  - unfold inStep. case_bool_decide as Hs; [|done]. unfold switchMethod. destruct (r_available _ _); [by apply (address_same d)|done].
  - unfold inStep. case_bool_decide as Hs; [|done]. destruct (continueDisabled d); [done|]. by apply continue_address.
  - unfold inStep. case_bool_decide as Hs; [|done]. destruct (r_showOtp _); [|done]. by apply continue_address.
  - destruct (submitting d); [done|]. unfold inStep. case_bool_decide; [|done]. by apply address_details.
  - by apply (address_same d).
Qed.

Lemma keeps_address (f : EmailDialog -> EmailDialog) :
  (forall d, address_view (f d) = address_view d \/ e_step (f d) = Details) -> keeps address_ok (perform f : CeHandler).
Proof.
  intros Hf. split; [|done]. intros d Hd. destruct (Hf d) as [E|E]; [by apply (address_same d)|by apply address_details].
Qed.

Lemma ce_handler_address h d : keeps address_ok (ce_handler h d).
Proof.
  assert (forall k t, keeps address_ok (perform (toasted k t) : CeHandler)) as Ht by (intros; apply keeps_address; by left).
  destruct h; cbn [ce_handler].
  - destruct (_ && _); [|done]. unfold emailCeremony. destruct (r_account (re d)); [|done].
    apply keeps_bind; [apply keeps_address; by left|]. intros _. apply keeps_try.
    + apply keeps_bind; [by intros [x|e]|]. intros t. apply keeps_bind; [apply keeps_address; by left|]. intros _. apply Ht.
    + intros e. apply keeps_bind; [apply keeps_address; by left|]. intros _. apply Ht.
  - destruct (_ && _); [|done]. unfold submitEmail. destruct (r_account (re d)); [|done].
    destruct (negb (emailsMatch d)); [apply Ht|]. apply keeps_bind; [apply keeps_address; by left|]. intros _.
    apply keeps_finally; [|intros s; by apply address_same]. apply keeps_try; [|intros e; apply Ht].
    apply keeps_bind; [by intros [x|e]|]. intros _. apply keeps_bind; [by intros [x|e]|]. intros acc.
    apply keeps_bind; [apply keeps_address; by left|]. intros _. apply keeps_bind; [apply Ht|]. intros _.
    apply keeps_bind; [apply keeps_address; by right|]. intros _. apply keeps_address; by left.
Qed.

Lemma ce_run y evs : run ce_step y evs = run (sys_step commit) y (map ce_ev evs).
Proof. by apply run_map. Qed.

Definition addressOf (v : EmailValue) : string := match v with EmailReauth _ a => a | EmailPassword _ a => a end.

(** whatever was done in the dialog before, an address is sent only from the second step, after it was
    entered again (up to case and blanks), with an at sign, as it was entered first; a code goes with it
    exactly when the account asks for one with its password *)
(** C16: whatever was done in the dialog before, a new email address is sent only from the second
    step, after it was entered again (up to case and blanks), with an at sign, as it was entered
    first; a code goes with it exactly when the account asks for one with its password *)
Theorem email_is_confirmed st a evs :
  let d := ui (run ce_step (mkSys (mountEmail st a) []) evs) in
  sends (fun q => match q with
    | EmailPatch v mfa =>
        addressOf v = newEmail d /\ includes (newEmail d) "@" = true /\ e_step d = ConfirmEmail /\
        normalizeEmail (confirmEmail d) = normalizeEmail (newEmail d) /\
        mfa = (if totpEnabled (r_account (re d)) && bool_decide (r_method (re d) = password)
               then Some (r_otp (re d), ["totp"]) else None)
    | EmailAccountGet => True
    | EmailCeremony => False
    end) (ce_handler EmailSubmit d).
Proof.
  cbv zeta. assert (address_ok (ui (run ce_step (mkSys (mountEmail st a) []) evs))) as Hd.
  { rewrite ce_run. apply (sys_keeps commit address_ok); [apply commit_address|done|by constructor|].
    apply Forall_fmap, Forall_forall. intros [h|i w|u] _; cbn [compose ce_ev event_keeps]; [|done|].
    - intros d. apply ce_handler_address.
    - apply ce_update_address. }
  generalize dependent (ui (run ce_step (mkSys (mountEmail st a) []) evs)). intros d Hd. cbn [ce_handler].
  destruct (_ && negb _) eqn:E; [|done]. apply andb_prop in E as [[Hs%bool_decide_eq_true Hm]%andb_prop _].
  unfold submitEmail. destruct (r_account (re d)) as [acc|] eqn:Ha; [|done]. rewrite Hm. cbn [negb].
  unfold emailsMatch in Hm. apply andb_prop in Hm as [_ Hm%String.eqb_eq].
  apply sends_bind; [done|]. intros _. apply sends_finally, sends_try; [|done]. split; [|intros [[]|e]; [|done]].
  - unfold emailValue, emailMfa, r_showOtp. rewrite Ha. destruct (r_method (re d)); cbn; auto.
  - split; [done|]. by intros [x|e].
Qed.

(** ** How a change ends *)

Ltac run_email :=
  cbn [drain mbind prog_bind perform finally try_async await fst snd mret prog_ret].

(** Whatever else happens leaves the toasts and the store. *)
Definition quiet (f : EmailDialog -> EmailDialog) : Prop :=
  forall x, e_toasts (f x) = e_toasts x /\ changed (f x) = changed x /\ account (e_store (f x)) = account (e_store x).

(** a change that the server makes and whose account is read ends with that account in the store, the
    dialog closed and cleared, and the caller told once; one that the server refuses ends with one toast
    that says why and the store as it was *)
Theorem email_change_ends d f g w :
  emailsMatch d = true -> is_Some (r_account (re d)) -> quiet f -> quiet g ->
  match w (EmailPatch (emailValue d) (emailMfa d)) with
  | Ok _ => forall acc, w EmailAccountGet = Ok acc ->
      exists d', play id [(f, w); (g, w)] (submitEmail d) d = (d', Ret ()) /\ submitting d' = false /\
        account (e_store d') = Some acc /\ changed d' = S (changed d) /\ r_open (re d') = false /\
        newEmail d' = "" /\ confirmEmail d' = "" /\ e_step d' = Details /\
        r_password (re d') = "" /\ r_token (re d') = None /\
        e_toasts d' = e_toasts d ++ [mkToast ToastSuccess EMAIL_UPDATED]
  | Throw e =>
      exists d', play id [(f, w)] (submitEmail d) d = (d', Ret ()) /\ submitting d' = false /\
        account (e_store d') = account (e_store d) /\ changed d' = changed d /\
        e_toasts d' = e_toasts d ++ [mkToast ToastError (opt_or (ce_error e) EMAIL_FAILED)]
  end.
Proof.
  intros Hm [a0 Ha] Hf Hg. unfold submitEmail. rewrite Ha, Hm. cbn [negb].
  destruct (w (EmailPatch (emailValue d) (emailMfa d))) as [u|e] eqn:Hw.
  - intros acc Hacc. unfold play, answers, resume, advance. run_email. rewrite Hw. run_email. rewrite Hacc. run_email.
    destruct (Hf (setSubmitting true d)) as (T1 & C1 & A1). destruct (Hg (f (setSubmitting true d))) as (T2 & C2 & A2).
    eexists. split; [reflexivity|]. split; [done|]. split; [done|].
    split; [change (S (changed (g (f (setSubmitting true d)))) = S (changed d)); by rewrite C2, C1|].
    repeat (split; [done|]).
    change (e_toasts (g (f (setSubmitting true d))) ++ [mkToast ToastSuccess EMAIL_UPDATED] = e_toasts d ++ [mkToast ToastSuccess EMAIL_UPDATED]).
    by rewrite T2, T1.
  - rewrite play_one. unfold resume, advance. run_email. rewrite Hw. run_email.
    destruct (Hf (setSubmitting true d)) as (T1 & C1 & A1). eexists. split; [reflexivity|]. split; [done|].
    split; [exact A1|]. split; [exact C1|].
    change (e_toasts (f (setSubmitting true d)) ++ [mkToast ToastError (opt_or (ce_error e) EMAIL_FAILED)]
      = e_toasts d ++ [mkToast ToastError (opt_or (ce_error e) EMAIL_FAILED)]). by rewrite T1.
Qed.

(** when the change is made but the account cannot be read afterwards, the dialog says that it failed,
    stays open with the address and the store keeps the old one *)
Theorem saved_email_is_shown_failed d f w e :
  emailsMatch d = true -> is_Some (r_account (re d)) -> quiet f ->
  w (EmailPatch (emailValue d) (emailMfa d)) = Ok tt -> w EmailAccountGet = Throw e ->
  exists d', play id [(f, w); (id, w)] (submitEmail d) d = (d', Ret ()) /\
    account (e_store d') = account (e_store d) /\ changed d' = changed d /\
    newEmail d' = newEmail (f (setSubmitting true d)) /\ e_step d' = e_step (f (setSubmitting true d)) /\
    e_toasts d' = e_toasts d ++ [mkToast ToastError (opt_or (ce_error e) EMAIL_FAILED)].
Proof.
  intros Hm [a0 Ha] Hf Hw He. unfold submitEmail. rewrite Ha, Hm. cbn [negb].
  unfold play, answers, resume, advance. run_email. rewrite Hw. run_email. change (id ?x) with x. rewrite He. run_email.
  destruct (Hf (setSubmitting true d)) as (T1 & C1 & A1). eexists. split; [reflexivity|].
  split; [exact A1|]. split; [exact C1|]. split; [done|]. split; [done|].
  change (e_toasts (f (setSubmitting true d)) ++ [mkToast ToastError (opt_or (ce_error e) EMAIL_FAILED)]
    = e_toasts d ++ [mkToast ToastError (opt_or (ce_error e) EMAIL_FAILED)]). by rewrite T1.
Qed.

(** ** A ceremony that ends late *)

#[local] Arguments passwordAvailable : simpl never.
#[local] Arguments totpEnabled : simpl never.
#[local] Arguments commit : simpl never.

(** An open dialog whose method there is. *)
Lemma open_commit a m pw ot tk st md cd d :
  re d = mkReauth (Some a) true true m pw ot tk st md cd -> passwordAvailable (Some a) = true ->
  commit d = with_re (fun _ =>
    if bool_decide (md = m) then mkReauth (Some a) true true m pw ot tk st md (true, None)
    else mkReauth (Some a) true true m "" "" None st_idle m (true, None)) d.
Proof.
  intros Hd Hp. destruct d as [st0 r sp n c sub ts ch]. cbn in Hd. subst r. unfold commit.
  assert (methodEffect (mkEmailDialog st0 (mkReauth (Some a) true true m pw ot tk st md cd) sp n c sub ts ch)
    = mkEmailDialog st0 (mkReauth (Some a) true true m pw ot tk st md cd) sp n c sub ts ch) as ->.
  { unfold methodEffect, r_available, r_passwordAvailable. cbn. rewrite Hp. by destruct m. }
  unfold closeEffect. cbn. rewrite andb_false_r. unfold changeEffect. cbn. by case_bool_decide.
Qed.

Definition userDoes (us : list CeUpdate) (d : EmailDialog) : EmailDialog :=
  foldl (fun d u => commit (ce_update u d)) d us.

Lemma user_plays a v pw st d :
  re d = mkReauth (Some a) true true passkey "" "" None st passkey (true, None) ->
  passwordAvailable (Some a) = true -> totpEnabled (Some a) = false ->
  e_step d = Details -> submitting d = false -> includes v "@" = true -> truthy pw = true ->
  userDoes [EmailMethod password; TypeNewEmail v; TypeEmailPassword pw; ContinueClick] d
  = mkEmailDialog (e_store d) (mkReauth (Some a) true true password pw "" None st_idle password (true, None))
      ConfirmEmail v "" false (e_toasts d) (changed d).
Proof.
  intros Hd Hp Htotp Hs Hsub Hv Hpw. destruct d as [st0 r sp n c sub ts ch]. cbn in Hd, Hs, Hsub. subst r sp sub.
  unfold userDoes. cbn [foldl].
  assert (forall m pw' md st2 st1 n c ts ch, commit (mkEmailDialog st0 (mkReauth (Some a) true true m pw' "" None st1 md (true, None)) st2 n c false ts ch)
    = mkEmailDialog st0 (if bool_decide (md = m) then mkReauth (Some a) true true m pw' "" None st1 md (true, None)
        else mkReauth (Some a) true true m "" "" None st_idle m (true, None)) st2 n c false ts ch) as Hc.
  { intros. by erewrite open_commit. }
  set (D m pw' st1 md sp n c := mkEmailDialog st0 (mkReauth (Some a) true true m pw' "" None st1 md (true, None)) sp n c false ts ch).
  assert (ce_update (EmailMethod password) (D passkey "" st passkey Details n c) = D password "" st passkey Details n c) as E1.
  { change (ce_update _ _) with (switchMethod password (D passkey "" st passkey Details n c)).
    unfold switchMethod, r_available, r_passwordAvailable. cbn. by rewrite Hp. }
  assert (ce_update ContinueClick (D password pw st_idle password Details v "") = D password pw st_idle password ConfirmEmail v "") as E4.
  { cbn. unfold inStep, continueDisabled, handleContinue, r_showOtp. cbn. rewrite Htotp. cbn. rewrite Hv. cbn. rewrite Hpw. done. }
  change (commit (ce_update ContinueClick (commit (ce_update (TypeEmailPassword pw) (commit (ce_update (TypeNewEmail v)
    (commit (ce_update (EmailMethod password) (D passkey "" st passkey Details n c)))))))) = D password pw st_idle password ConfirmEmail v "").
  rewrite E1. unfold D at 1. rewrite Hc. cbn [bool_decide].
  change (ce_update (TypeNewEmail v) _) with (D password "" st_idle password Details v ""). unfold D at 1. rewrite Hc.
  change (ce_update (TypeEmailPassword pw) _) with (D password pw st_idle password Details v ""). unfold D at 1. rewrite Hc.
  change (mkEmailDialog _ _ _ _ _ _ _ _) with (D password pw st_idle password Details v ""). rewrite E4. unfold D at 1. by rewrite Hc.
Qed.

(** a passkey ceremony that ends after the user switched to the password, entered it and went on, empties
    the password: the address is then sent with no proof of identity *)
Theorem late_ceremony_empties_password d w a t v pw :
  re d = mkReauth (Some a) true true passkey "" "" None st_idle passkey (true, None) ->
  passwordAvailable (Some a) = true -> totpEnabled (Some a) = false ->
  e_step d = Details -> submitting d = false ->
  includes v "@" = true -> truthy pw = true -> w EmailCeremony = Ok t ->
  let f := userDoes [EmailMethod password; TypeNewEmail v; TypeEmailPassword pw; ContinueClick] in
  exists d', play commit [(f, w)] (emailCeremony d) d = (d', Ret ()) /\
    emailValue (f d) = EmailPassword pw v /\ e_step (f d) = ConfirmEmail /\
    emailValue d' = EmailPassword "" v /\ e_step d' = ConfirmEmail.
Proof.
  intros Hd Hp Htotp Hs Hsub Hv Hpw Hw f. unfold emailCeremony. rewrite Hd. cbn [r_account].
  rewrite (ceremony_plays EmailCeremony (fun t => t) ce_message clearPassword f w t d Hw).
  eexists. split; [reflexivity|].
  assert (commit (setStatus in_progress d) = setStatus in_progress d) as ->.
  { erewrite (open_commit a passkey "" "" None in_progress passkey (true, None)); [|change (re (setStatus in_progress d)) with ((re d) <| r_status := in_progress |>); by rewrite Hd|done].
    destruct d as [st0 r sp n c sub ts ch]. cbn in Hd. by subst r. }
  unfold f. rewrite (user_plays a v pw st_idle d), (user_plays a v pw in_progress (setStatus in_progress d)); try done.
  2: by (change (re (setStatus in_progress d)) with ((re d) <| r_status := in_progress |>); rewrite Hd).
  split; [done|]. split; [done|].
  erewrite (open_commit a password "" "" (Some t) verified password (true, None)); done.
Qed.

(** ** Witnesses *)

Definition email_account : ModelAccount := MkModelAccount (Some ["password"; "passkey"]) None None None None None None.
Definition email_open : EmailDialog :=
  commit (emailOpenChange true (mountEmail (set_field (setPasskeys [MkModelCredential None (Some "key")]) initialState) (Some email_account))).
Definition email_world : CeWorld := fun r =>
  match r with EmailCeremony => Ok "token" | EmailPatch _ _ => Ok tt | EmailAccountGet => Ok email_account end.
Definition email_ready : EmailDialog :=
  commit (ce_update (TypeConfirmEmail "NEW@example.com")
    (userDoes [EmailMethod password; TypeNewEmail "new@example.com"; TypeEmailPassword "secret"; ContinueClick] email_open)).

Lemma email_change_ends_witness :
  exists d', play id [(id, email_world); (id, email_world)] (submitEmail email_ready) email_ready = (d', Ret ()) /\
    account (e_store d') = Some email_account /\ newEmail d' = "".
Proof.
  destruct (email_change_ends email_ready id id email_world eq_refl (ex_intro _ email_account eq_refl)
    (fun x => conj eq_refl (conj eq_refl eq_refl)) (fun x => conj eq_refl (conj eq_refl eq_refl)) email_account eq_refl)
    as (d' & Hp & _ & Ha & _ & _ & Hn & _).
  exists d'. split; [exact Hp|]. split; [exact Ha|exact Hn].
Defined.

Lemma saved_email_is_shown_failed_witness :
  let w : CeWorld := fun r => match r with EmailCeremony => Ok "token" | EmailPatch _ _ => Ok tt
                              | EmailAccountGet => Throw (mkCeError None None) end in
  exists d', play id [(id, w); (id, w)] (submitEmail email_ready) email_ready = (d', Ret ()) /\
    e_toasts d' = [mkToast ToastError "Failed to update email"].
Proof.
  intros w. destruct (saved_email_is_shown_failed email_ready id w (mkCeError None None) eq_refl
    (ex_intro _ email_account eq_refl) (fun x => conj eq_refl (conj eq_refl eq_refl)) eq_refl eq_refl)
    as (d' & Hp & _ & _ & _ & _ & Ht).
  exists d'. split; [exact Hp|exact Ht].
Defined.

Lemma late_ceremony_empties_password_witness :
  exists d', play commit [(userDoes [EmailMethod password; TypeNewEmail "new@example.com"; TypeEmailPassword "secret"; ContinueClick],
                           email_world)] (emailCeremony email_open) email_open = (d', Ret ()) /\
    emailValue d' = EmailPassword "" "new@example.com" /\ e_step d' = ConfirmEmail.
Proof.
  destruct (late_ceremony_empties_password email_open email_world email_account "token" "new@example.com" "secret"
    eq_refl eq_refl eq_refl eq_refl eq_refl eq_refl eq_refl eq_refl) as (d' & Hp & _ & _ & Hv & Hs).
  exists d'. split; [exact Hp|]. split; [exact Hv|exact Hs].
Defined.
