(* ===== verification/DeleteAccount.v ===== *)
(** * Deleting the account

    [src/app/src/pages/account_preferences/DeleteAccount.tsx]: the dialog asks the server for a code as
    it opens, shows it, and deletes the account when the code is entered and the identity is proved. *)

From coqutil Require Import Datatypes.RecordSetters.
From S2P Require Import Prelude JsString ApiTypes Store Verification Async Reauth.
Import TriangleBracketNotations.

#[local] Arguments constant _ _ _ /.

(** ** State *)

(** [loggedOut] are the calls of [auth.logout]. *)
Record DeleteDialog := mkDeleteDialog {
  d_reauth : Reauth;
  deletionCode : string;
  userCode : string;
  isGenerating : bool;
  isDeleting : bool;
  isCopied : bool;
  hasAttemptedGeneration : bool;
  d_toasts : list UiToast;
  loggedOut : list (string * ToastKind);
}.

(** What is reset beside the identity check, on a change of method and on closing. *)
Definition clearCode (d : DeleteDialog) : DeleteDialog :=
  d <| deletionCode := "" |> <| userCode := "" |> <| isCopied := false |> <| isGenerating := false |>
    <| hasAttemptedGeneration := false |>.

#[export] Instance delete_reauth : ReauthDialog DeleteDialog := {
  re := d_reauth;
  with_re f d := d <| d_reauth := f (d_reauth d) |>;
  onMethodChange := clearCode;
  onClosed := clearCode;
  toasted k t d := d <| d_toasts := (d_toasts d ++ [mkToast k t])%list |>;
  closeFollowsMethod := true;
}.

#[export] Instance delete_laws : ReauthLaws DeleteDialog.
Proof. by split. Qed.

Definition mountDelete (account : option ModelAccount) (hasPasskeys : bool) : DeleteDialog :=
  mkDeleteDialog (reauth0 account hasPasskeys (Some (preferredMethod hasPasskeys (passwordAvailable account))))
    "" "" false false false false [] [].

Definition deleteOpenChange (next : bool) (d : DeleteDialog) : DeleteDialog :=
  with_re (fun r => r <| r_open := next |>) (if next then d else resetAll d).

Definition deleteToast (k : ToastKind) (t : string) : DeleteDialog -> DeleteDialog := toasted k t.

(** ** Requests *)

(** The body and the headers of the deletion. *)
Record DeletionRequest := mkDeletion {
  dr_deletion_code : string;
  dr_current_password : option string;
  dr_reauth_token : option string;
  dr_mfa_code : option string;
}.

Inductive DaRequest : Type :=
| DeleteCeremony
| DeletionCodePost
| AccountDelete (r : DeletionRequest).
Definition DaResponse (r : DaRequest) : Type :=
  match r with DeleteCeremony => string | DeletionCodePost => option string | AccountDelete _ => unit end.
Record DaError := mkDaError { da_message : option string; da_status : option Z; da_error : option string }.

Notation DaHandler := (Prog DaError DaRequest DeleteDialog DaResponse unit).

(** ** The code *)

Definition CODE_FAILED : string := "Failed to generate deletion code.".
Definition TOO_MANY : string := "Too many requests, please try again later.".

Definition codeError (e : DaError) : string :=
  if bool_decide (da_status e = Some 429) then TOO_MANY else opt_or (da_error e) CODE_FAILED.

Definition startGenerating (d : DeleteDialog) : DeleteDialog :=
  d <| isGenerating := true |> <| hasAttemptedGeneration := true |>.
Definition setGenerating (b : bool) (d : DeleteDialog) : DeleteDialog := d <| isGenerating := b |>.
Definition showCode (code : string) (d : DeleteDialog) : DeleteDialog :=
  d <| deletionCode := code |> <| isCopied := false |>.

Definition generateDeletionCode : DaHandler :=
  perform startGenerating;;
  finally
    (try_async
       (code ← await DeletionCodePost;
        match code with
        | Some c => if truthy c then perform (showCode c) else perform (deleteToast ToastError CODE_FAILED)
        | None => perform (deleteToast ToastError CODE_FAILED)
        end)
       (fun e => perform (deleteToast ToastError (codeError e))))
    (setGenerating false).

(** When the effect that asks for a code does so. *)
Definition wantsCode (d : DeleteDialog) : bool :=
  r_open (re d) && negb (truthy (deletionCode d) || isGenerating d || hasAttemptedGeneration d).

(** ** The deletion *)

Definition deletionPayload (d : DeleteDialog) : DeletionRequest :=
  let r := re d in
  mkDeletion (trim (userCode d))
    (if bool_decide (r_method r = password) then Some (trim (r_password r)) else None)
    (if bool_decide (r_method r = passkey) && truthy_opt (r_token r) then r_token r else None)
    (if bool_decide (r_method r = password) && r_showOtp r && truthy (trim (r_otp r)) then Some (trim (r_otp r)) else None).

(** Why a confirmation is refused. *)
Definition refusal (d : DeleteDialog) : option string :=
  let r := re d in
  if negb (truthy (trim (userCode d))) then Some "Please enter the deletion code."
  else match r_method r with
       | password =>
           if negb (r_passwordAvailable r) then Some "Password verification is not available."
           else if negb (truthy (trim (r_password r))) then Some "Current password is required."
           else if r_showOtp r && negb (truthy (trim (r_otp r))) then Some "2FA code is required."
           else None
       | passkey =>
           if negb (r_hasPasskeys r) then Some "Passkey verification is not available."
           else if negb (truthy_opt (r_token r)) then Some "Passkey verification is required."
           else None
       end.

Definition deletionError (e : DaError) : string :=
  if bool_decide (da_status e = Some 429) then TOO_MANY
  else if bool_decide (da_status e = Some 400) && bool_decide (da_error e = Some "invalid deletion code")
  then "Failed to delete account - invalid or expired deletion code."
  else opt_or (da_error e) "Unknown error, please try again later.".

Definition setDeleting (b : bool) (d : DeleteDialog) : DeleteDialog := d <| isDeleting := b |>.
Definition logout (message : string) (k : ToastKind) (d : DeleteDialog) : DeleteDialog :=
  d <| loggedOut := (loggedOut d ++ [(message, k)])%list |>.
(** [onOpenChange] of the parent. *)
Definition setOpen (b : bool) : DeleteDialog -> DeleteDialog := with_re (fun r => r <| r_open := b |>).

Definition handleConfirm (d : DeleteDialog) : DaHandler :=
  match refusal d with
  | Some why => perform (deleteToast ToastError why)
  | None =>
      perform (setDeleting true);;
      finally
        (try_async
           (await (AccountDelete (deletionPayload d));;
            perform (setOpen false);;
            perform (logout "Account deleted." ToastInfo))
           (fun e => perform (deleteToast ToastError (deletionError e))))
        (setDeleting false)
  end.

Definition confirmDisabled (d : DeleteDialog) : bool :=
  let r := re d in
  isGenerating d || isDeleting d || negb (truthy (deletionCode d)) || negb (truthy (trim (userCode d)))
  || bool_decide (r_method r = password)
     && (negb (truthy (trim (r_password r))) || r_showOtp r && negb (truthy (trim (r_otp r))))
  || bool_decide (r_method r = passkey) && negb (bool_decide (r_status r = verified)).

Definition cancelDisabled (d : DeleteDialog) : bool := isGenerating d || isDeleting d.

Definition deleteCeremony : DaHandler :=
  beginPasskeyReauth DeleteCeremony (fun t => t) da_message (fun d => d).

(** ** The dialog as a system *)

(** The clipboard answers, and two seconds after a copy the button is reset. *)
Inductive DaUpdate : Type :=
| DeleteOpen (next : bool)
| TypeUserCode (v : string)
| TypeDeletePassword (v : string)
| TypeDeleteOtp (v : string)
| DeleteMethod (m : VerificationMethod)
| CopyDone (ok : bool)
| CopyTimeout
| DeleteProps (account : option ModelAccount) (hasPasskeys : bool).

Definition da_update (u : DaUpdate) (d : DeleteDialog) : DeleteDialog :=
  match u with
  | DeleteOpen next => deleteOpenChange next d
  | TypeUserCode v => if negb (isGenerating d) && truthy (deletionCode d) then d <| userCode := v |> else d
  | TypeDeletePassword v => typePassword v d
  | TypeDeleteOtp v => typeOtp v d
  | DeleteMethod m => switchMethod m d
  | CopyDone true => deleteToast ToastSuccess "Deletion code copied to clipboard." (d <| isCopied := true |>)
  | CopyDone false => deleteToast ToastError "Failed to copy to clipboard." d
  | CopyTimeout => d <| isCopied := false |>
  | DeleteProps account hasPasskeys => propsChanged account hasPasskeys d
  end.

Inductive DaInvoke : Set := DeletePasskeyClick | ConfirmClick | RetryCode.
Definition da_handler (h : DaInvoke) (d : DeleteDialog) : DaHandler :=
  match h with
  | DeletePasskeyClick => if passkeyButton d then deleteCeremony else mret ()
  | ConfirmClick => if confirmDisabled d then mret () else handleConfirm d
  | RetryCode => if isGenerating d || truthy (deletionCode d) then mret () else generateDeletionCode
  end.

Notation DaSystem := (Sys DaError DaRequest DeleteDialog DaResponse).
Notation DaWorld := (World DaError DaRequest DaResponse).

Inductive DaEvent : Type :=
| DaClick (h : DaInvoke)
| DaAnswered (i : nat) (w : DaWorld)
| DaUpdated (u : DaUpdate).
Definition da_ev (e : DaEvent) : SysEvent DaError DaRequest DeleteDialog DaResponse :=
  match e with DaClick h => Start (da_handler h) | DaAnswered i w => Answer i w | DaUpdated u => Other (da_update u) end.

(** The effect that asks for a code follows every change it depends on. *)
Definition codeEffect (y : DaSystem) : DaSystem :=
  if wantsCode (ui y) then sys_step commit y (Start (fun _ => generateDeletionCode)) else y.
Definition da_step (y : DaSystem) (e : DaEvent) : DaSystem := codeEffect (sys_step commit y (da_ev e)).

(** ** Deleting the account: the code and the proof

    A deletion carries the code that was typed and one proof of identity. An open dialog has a code, asks
    for one, or has tried to; an answer that arrives after it was closed is shown when it opens again. *)


Implicit Types (d : DeleteDialog) (w : DaWorld).

(** ** What is sent *)

Definition deletion_proof (d : DeleteDialog) (r : DeletionRequest) : Prop :=
  match r_method (re d) with
  | password =>
      dr_current_password r = Some (trim (r_password (re d))) /\ truthy (trim (r_password (re d))) = true /\
      dr_reauth_token r = None /\
      if totpEnabled (r_account (re d))
      then dr_mfa_code r = Some (trim (r_otp (re d))) /\ truthy (trim (r_otp (re d))) = true
      else dr_mfa_code r = None
  | passkey =>
      dr_current_password r = None /\ dr_reauth_token r = r_token (re d) /\ truthy_opt (r_token (re d)) = true /\
      dr_mfa_code r = None
  end.

(** a deletion is sent only with the code that was typed, without blanks around it and not empty, and with
    exactly one proof of identity of a method the account has: a token, or a password that is not blank
    with a code exactly when the account asks for one *)
(** C8: an account deletion is sent only with the code that was typed, without blanks around it and
    not empty, and with exactly one proof of identity of a method the account has: a token, or a
    password that is not blank with a code exactly when the account asks for one *)
Theorem deletion_needs_code_and_proof d :
  sends (fun q => match q with
    | AccountDelete r =>
        dr_deletion_code r = trim (userCode d) /\ truthy (dr_deletion_code r) = true /\
        r_available (re d) (r_method (re d)) = true /\ deletion_proof d r
    | _ => False
    end) (handleConfirm d).
Proof.
  unfold handleConfirm. destruct (refusal d) eqn:Hr; [done|].
  apply sends_bind; [done|]. intros _. apply sends_finally, sends_try; [|done]. split; [|by intros [[]|e]].
  unfold refusal in Hr. destruct (truthy (trim (userCode d))) eqn:Hc; [|done]. cbn [negb] in Hr.
  split; [done|]. split; [exact Hc|]. unfold r_available, deletion_proof, deletionPayload.
  destruct (r_method (re d)) eqn:Hm; cbn [isMethodAvailable] in *.
  - destruct (r_passwordAvailable (re d)); [|done]. destruct (truthy (trim (r_password (re d)))) eqn:Hp; [|done].
    cbn [negb] in Hr. split; [done|]. unfold r_showOtp in *. rewrite Hm in *.
    rewrite (bool_decide_eq_true_2 (password = password)), andb_true_r in * by done.
    destruct (totpEnabled (r_account (re d))); cbn [negb andb] in *; [|done].
    destruct (truthy (trim (r_otp (re d)))) eqn:Ho; [|done]. done.
  - destruct (r_hasPasskeys (re d)); [|done]. destruct (truthy_opt (r_token (re d))) eqn:Ht; [|done].
    done.
Qed.

(** ** How a deletion ends *)

Ltac run_delete :=
  cbn [drain mbind prog_bind perform finally try_async await fst snd mret prog_ret].

(** a deletion that the server makes ends with the dialog closed and the session ended once, with its
    message; one that it refuses says why and leaves the session and what was entered *)
Theorem deletion_ends d f w :
  refusal d = None -> (forall x, loggedOut (f x) = loggedOut x /\ d_toasts (f x) = d_toasts x /\ re (f x) = re x /\ userCode (f x) = userCode x) ->
  exists d', play id [(f, w)] (handleConfirm d) d = (d', Ret ()) /\ isDeleting d' = false /\ userCode d' = userCode d /\
    match w (AccountDelete (deletionPayload d)) with
    | Ok _ => loggedOut d' = loggedOut d ++ [("Account deleted.", ToastInfo)] /\ r_open (re d') = false /\ d_toasts d' = d_toasts d
    | Throw e => loggedOut d' = loggedOut d /\ re d' = re d /\
        exists text, d_toasts d' = d_toasts d ++ [mkToast ToastError text] /\ truthy text = true /\
          (da_status e = Some 429 -> text = TOO_MANY) /\
          (da_status e <> Some 429 -> truthy_opt (da_error e) = true ->
             (da_status e <> Some 400 \/ da_error e <> Some "invalid deletion code") -> Some text = da_error e)
    end.
Proof.
  intros Hr Hf. rewrite play_one. unfold handleConfirm. rewrite Hr. unfold resume, advance. run_delete.
  pose proof (Hf (setDeleting true d)) as (Hl & Ht & Hre & Hu).
  destruct (w _) as [u|e]; run_delete; eexists; (split; [reflexivity|]); (split; [done|]); (split; [exact Hu|]).
  - split; [|split; [done|exact Ht]].
    change (loggedOut (f (setDeleting true d)) ++ [("Account deleted.", ToastInfo)] = loggedOut d ++ [("Account deleted.", ToastInfo)]).
    by rewrite Hl.
  - split; [exact Hl|]. split; [exact Hre|]. exists (deletionError e).
    split; [change (d_toasts (f (setDeleting true d)) ++ [mkToast ToastError (deletionError e)] = d_toasts d ++ [mkToast ToastError (deletionError e)]); by rewrite Ht|].
    unfold deletionError. assert (truthy (opt_or (da_error e) "Unknown error, please try again later.") = true) as Ho.
    { unfold opt_or, str_or. by destruct (truthy (default "" (da_error e))) eqn:E. }
    split; [repeat case_bool_decide; done|]. split; [intros Hs; by rewrite bool_decide_eq_true_2|].
    intros Hs He Hne. rewrite (bool_decide_eq_false_2 (da_status e = Some 429)) by done.
    assert (bool_decide (da_status e = Some 400) && bool_decide (da_error e = Some "invalid deletion code") = false) as ->.
    { apply andb_false_iff. destruct Hne; [left|right]; by apply bool_decide_eq_false_2. }
    unfold opt_or, str_or. unfold truthy_opt in He. rewrite He. by destruct (da_error e).
Qed.

(** ** The code *)

(** What the effects do to the code. *)
Definition codeView (d : DeleteDialog) := (deletionCode d, isGenerating d, hasAttemptedGeneration d).

Lemma commit_code d : settled (re d) -> r_open (re d) = true -> codeView (commit d) = codeView d.
Proof. intros Hs Ho. destruct (settled_effects d Hs Ho) as [-> [-> | ->]]; done. Qed.

Lemma commit_generating d : isGenerating (commit d) = true -> isGenerating d = true.
Proof.
  unfold commit, methodEffect, closeEffect, changeEffect.
  repeat match goal with |- context [if ?b then _ else _] => destruct b end; done.
Qed.

(** A step and the effect after it are steps of the system. *)
Lemma da_run (P : SysEvent DaError DaRequest DeleteDialog DaResponse -> Prop) :
  P (Start (fun _ => generateDeletionCode)) -> (forall e, P (da_ev e)) ->
  forall evs y, exists l, run da_step y evs = run (sys_step commit) y l /\ Forall P l.
Proof.
  intros Hg He evs. induction evs as [|e evs IH]; intros y; [by exists []|].
  destruct (IH (da_step y e)) as (l & Hl & HP). cbn [run foldl]. fold (run da_step (da_step y e) evs).
  assert (da_step y e = codeEffect (sys_step commit y (da_ev e))) as Hst by done. unfold codeEffect in Hst.
  destruct (wantsCode (ui (sys_step commit y (da_ev e)))).
  - exists (da_ev e :: Start (fun _ => generateDeletionCode) :: l). split; [|by repeat constructor]. rewrite Hl. by rewrite Hst.
  - exists (da_ev e :: l). split; [|by constructor]. rewrite Hl. by rewrite Hst.
Qed.

Lemma generate_behaves : well_behaved isGenerating generateDeletionCode.
Proof. right. exists startGenerating. eexists. split; [reflexivity|]. intros s. by apply ends_finally. Qed.

Lemma untouched_one (f : DeleteDialog -> DeleteDialog) :
  (forall d, isGenerating (f d) = isGenerating d) -> untouched isGenerating (perform f : DaHandler).
Proof. by intros Hf. Qed.

Lemma da_handler_behaves h d : well_behaved isGenerating (da_handler h d).
Proof.
  destruct h; cbn [da_handler].
  - destruct (passkeyButton d); [|by left]. left.
    apply untouched_bind; [by apply untouched_one|]. intros _. apply untouched_try.
    + apply untouched_bind; [by intros [x|e]|]. intros t. apply untouched_bind; [by apply untouched_one|]. intros _. by apply untouched_one.
    + intros e. apply untouched_bind; [by apply untouched_one|]. intros _. by apply untouched_one.
  - destruct (confirmDisabled d); [by left|]. left. unfold handleConfirm. destruct (refusal d); [by apply untouched_one|].
    apply untouched_bind; [by apply untouched_one|]. intros _. cbn.
    intros [[]|e]; cbn; by repeat split.
  - destruct (_ || _); [by left|apply generate_behaves].
Qed.

Lemma da_update_generating u d : isGenerating (da_update u d) = true -> isGenerating d = true.
Proof.
  destruct u as [next|v|v|v|m|[]| |a p]; cbn [da_update]; try done.
  - by destruct next.
  - by destruct (_ && _).
  - unfold typePassword. by destruct (bool_decide _).
  - unfold typeOtp. by destruct (r_showOtp _).
  - unfold switchMethod. by destruct (r_available _ _).
Qed.

(** The effect asks for a code whenever none is shown, on its way or refused. *)
Definition codeAsked (y : DaSystem) : Prop := settled (re (ui y)) /\ wantsCode (ui y) = false.

Lemma da_step_asked y e : codeAsked y -> codeAsked (da_step y e).
Proof.
  intros [Hs _]. unfold da_step, codeEffect.
  pose proof (sys_settled y (da_ev e) Hs) as Hs1. generalize dependent (sys_step commit y (da_ev e)). clear y Hs.
  intros y Hs. destruct (wantsCode (ui y)) eqn:E; [|by split]. split; [by apply sys_settled|].
  unfold wantsCode in E. apply andb_prop in E as [Ho _].
  assert (ui (sys_step commit y (Start (fun _ => generateDeletionCode))) = commit (startGenerating (ui y))) as -> by done.
  unfold wantsCode. rewrite (proj2 (proj2 (commit_props _))).
  assert (codeView (commit (startGenerating (ui y))) = codeView (startGenerating (ui y))) as Hv by (by apply commit_code).
  unfold codeView in Hv. injection Hv as -> -> ->. cbn. by rewrite orb_true_r, andb_false_r.
Qed.

(** while the dialog is open it shows a code, or asks for one with a request in flight that ends the
    waiting, or an attempt was made and it offers another: when nothing is in flight there is a code or a
    way to ask for one *)
Theorem deletion_code_settles account hasPasskeys evs :
  let y := run da_step (mkSys (mountDelete account hasPasskeys) []) evs in
  (isGenerating (ui y) = true -> exists p, p ∈ inflight y /\ forall s, ends (fun _ s' => isGenerating s' = false) p s) /\
  (r_open (re (ui y)) = true -> truthy (deletionCode (ui y)) = true \/ isGenerating (ui y) = true \/ hasAttemptedGeneration (ui y) = true) /\
  (inflight y = [] -> isGenerating (ui y) = false).
Proof.
  cbv zeta.
  assert (codeAsked (run da_step (mkSys (mountDelete account hasPasskeys) []) evs)) as [_ Hw].
  { apply run_invariant; [apply da_step_asked|]. split; [|done]. split; [done|]. done. }
  destruct (da_run (event_ok isGenerating)) with (evs := evs) (y := mkSys (mountDelete account hasPasskeys) [] : DaSystem)
    as (l & Hl & HP).
  { intros s. apply generate_behaves. }
  { intros [h|i w|u]; cbn [da_ev event_ok]; [|done|]. { intros s. apply da_handler_behaves. } intros s. apply da_update_generating. }
  destruct (busy_settles commit isGenerating commit_generating (mountDelete account hasPasskeys) l eq_refl HP) as [[_ Hb] Hn].
  rewrite <- Hl in Hb, Hn. split; [exact Hb|]. split; [|exact Hn].
  intros Ho. unfold wantsCode in Hw. rewrite Ho in Hw. cbn [andb] in Hw. apply negb_false_iff in Hw.
  destruct (truthy _), (isGenerating _), (hasAttemptedGeneration _); auto.
Qed.

(** ** A code that arrives late *)

(** A closed dialog keeps what a late answer puts into it. *)
Lemma closed_code a pk d :
  re d = reauth0 a pk (closeDep (D := DeleteDialog) (reauth0 a pk None)) -> codeView (commit d) = codeView d.
Proof.
  intros Hd. unfold commit, methodEffect. rewrite Hd. cbn [r_open reauth0 negb].
  set (d1 := setMethod _ d).
  assert (re d1 = reauth0 a pk (closeDep (D := DeleteDialog) (reauth0 a pk None))) as H1.
  { unfold d1. rewrite re_setMethod, Hd. done. }
  assert (codeView d1 = codeView d) as <- by done. clearbody d1.
  unfold closeEffect. rewrite H1. rewrite bool_decide_eq_true_2 by done. cbn [negb andb].
  unfold changeEffect. rewrite re_with, H1. by rewrite bool_decide_eq_true_2.
Qed.

Lemma opened_code d : settled (re d) -> r_open (re d) = false ->
  isMethodAvailable (r_hasPasskeys (re d)) (r_passwordAvailable (re d)) (r_method (re d)) = true ->
  codeView (commit (deleteOpenChange true d)) = codeView d.
Proof.
  intros [Hs _] Ho Ha. rewrite commit_code; [done| |done]. split; [exact Hs|]. intros _. left. exact Ha.
Qed.

Lemma generate_plays (f : DeleteDialog -> DeleteDialog) w c d :
  w DeletionCodePost = Ok (Some c) -> truthy c = true ->
  play commit [(f, w)] generateDeletionCode d = (commit (setGenerating false (showCode c (f (commit (startGenerating d))))), Ret ()).
Proof.
  intros Hw Hc. rewrite play_one. unfold generateDeletionCode, resume, advance. run_delete. rewrite Hw. run_delete.
  rewrite Hc. by run_delete.
Qed.

(** a code that arrives after the dialog was closed is kept: opened again, however much later, the dialog
    shows that code and asks for no other *)
Theorem late_code_shown_again d w c :
  w DeletionCodePost = Ok (Some c) -> truthy c = true ->
  r_available (re d) (r_preferred (re d)) = true ->
  let closed x := commit (da_update (DeleteOpen false) x) in
  exists d', play commit [(closed, w)] generateDeletionCode d = (d', Ret ()) /\ r_open (re d') = false /\
    let d'' := commit (da_update (DeleteOpen true) d') in
    r_open (re d'') = true /\ deletionCode d'' = c /\ isGenerating d'' = false /\ wantsCode d'' = false.
Proof.
  intros Hw Hc Ha closed. rewrite (generate_plays closed w c d Hw Hc). eexists. split; [reflexivity|].
  destruct (commit_props (startGenerating d)) as (Pa & Pp & _).
  change (re (startGenerating d)) with (re d) in Pa, Pp.
  generalize dependent (commit (startGenerating d)). intros d1 Pa Pp.
  pose proof (closed_re (D := DeleteDialog) d1) as Hre.
  change (closed d1) with (commit (with_re (fun r => r <| r_open := false |>) (resetAll d1))).
  generalize dependent (commit (with_re (fun r => r <| r_open := false |>) (resetAll d1))). intros d2 Hre.
  set (d3 := setGenerating false (showCode c d2)). change (re d2) with (re d3) in Hre.
  assert (codeView d3 = (c, false, hasAttemptedGeneration d2)) as Hv by done. clearbody d3.
  pose proof (closed_code _ _ _ Hre) as Hv4. rewrite Hv in Hv4.
  pose proof (closed_stable (D := DeleteDialog) (r_account (re d1)) (r_hasPasskeys (re d1)) "" "" None st_idle d3 Hre) as Hr4.
  pose proof (commit_settled d3) as Hs4. rewrite Hre in Hr4.
  generalize dependent (commit d3). clear d3 Hre Hv. intros d4 Hv4 Hr4 Hs4.
  split; [by rewrite Hr4|]. cbv zeta. change (da_update (DeleteOpen true) d4) with (deleteOpenChange true d4).
  assert (r_open (re d4) = false) as Ho by (by rewrite Hr4).
  pose proof (opened_code d4 Hs4 Ho) as Hv5. rewrite Hr4 in Hv5 at 1 2 3.
  unfold r_available, r_preferred, r_passwordAvailable in Ha. rewrite <- Pa, <- Pp in Ha. specialize (Hv5 Ha). rewrite Hv4 in Hv5.
  split; [by rewrite (proj2 (proj2 (commit_props _)))|].
  unfold codeView in Hv5. injection Hv5 as E1 E2 E3. split; [done|]. split; [done|].
  unfold wantsCode. by rewrite E1, Hc, andb_false_r.
Qed.

(** ** Witnesses *)

Definition delete_open : DeleteDialog := commit (deleteOpenChange true (mountDelete None false)).
Definition delete_ready : DeleteDialog :=
  commit (typePassword "secret" (commit (da_update (TypeUserCode "ABC") (showCode "ABC" delete_open)))).
Definition delete_world : DaWorld := fun r =>
  match r with DeleteCeremony => Ok "token" | DeletionCodePost => Ok (Some "ABC") | AccountDelete _ => Ok tt end.

Lemma deletion_ends_witness :
  exists d', play id [(id, delete_world)] (handleConfirm delete_ready) delete_ready = (d', Ret ()) /\
    loggedOut d' = [("Account deleted.", ToastInfo)] /\ r_open (re d') = false.
Proof.
  destruct (deletion_ends delete_ready id delete_world eq_refl) as (d' & Hp & _ & _ & Hl & Ho & _); [by repeat split|].
  exists d'. split; [exact Hp|]. split; [exact Hl|exact Ho].
Defined.

Lemma late_code_shown_again_witness :
  let closed x := commit (da_update (DeleteOpen false) x) in
  exists d', play commit [(closed, delete_world)] generateDeletionCode delete_open = (d', Ret ()) /\
    deletionCode (commit (da_update (DeleteOpen true) d')) = "ABC".
Proof.
  intros closed. destruct (late_code_shown_again delete_open delete_world "ABC" eq_refl eq_refl eq_refl) as (d' & Hp & _ & _ & Hc & _).
  exists d'. split; [exact Hp|exact Hc].
Defined.

Lemma deletion_code_settles_witness :
  let y := run da_step (mkSys (mountDelete None false) []) [DaUpdated (DeleteOpen true); DaAnswered 0 delete_world] in
  isGenerating (ui y) = false.
Proof.
  cbv zeta. apply (deletion_code_settles None false [DaUpdated (DeleteOpen true); DaAnswered 0 delete_world]).
  vm_compute. reflexivity.
Defined.
