(* ===== verification/OtpInput.v ===== *)
(** * The code input

    [src/app/src/components/ui/input-otp.tsx]: six slots that show the characters of one string. A slot
    reports the whole text of its input; typing moves the focus on. *)

From S2P Require Import Prelude JsString.

#[local] Arguments is_digit : simpl never.

(** [s.replace(/\D/g, "")] *)
Fixpoint digitsOnly (s : string) : string :=
  match s with
  | EmptyString => EmptyString
  | String c s' => if is_digit c then String c (digitsOnly s') else digitsOnly s'
  end.

(** [s.split("")] and [arr.join("")]; a hole of the array joins as nothing. *)
Fixpoint chars (s : string) : list string :=
  match s with EmptyString => [] | String c s' => String c "" :: chars s' end.
Definition joined (arr : list string) : string := foldr String.append "" arr.

(** [arr[i] = x], which extends the array. *)
Definition js_set (i : nat) (x : string) (arr : list string) : list string :=
  take i arr ++ replicate (i - length arr) "" ++ x :: drop (S i) arr.

(** What [setValue] passes on. *)
Definition slice (maxLength : nat) (s : string) : string :=
  if (maxLength <? String.length s)%nat then str_take maxLength s else s.

(** The loop over the typed digits: the array, and the slot after the last one that was written. *)
Fixpoint distribute (maxLength : nat) (ds : list string) (slot : nat) (arr : list string) : list string * nat :=
  match ds with
  | [] => (arr, slot)
  | d :: ds' => if (maxLength <=? slot)%nat then (arr, slot) else distribute maxLength ds' (S slot) (js_set slot d arr)
  end.

(** [handleChange] of a slot: the new value, and the slot that gets the focus. *)
Definition handleChange (maxLength index : nat) (raw value : string) : string * option nat :=
  let ds := digitsOnly raw in
  if negb (truthy ds) then (slice maxLength (joined (js_set index "" (chars value))), None)
  else
    let '(arr, slot) := distribute maxLength (chars ds) index (chars value) in
    (slice maxLength (joined arr), if (slot <=? maxLength - 1)%nat then Some slot else None).

(** [handlePaste], [None] when the paste is left to the browser. *)
Definition handlePaste (maxLength : nat) (text : string) : option string :=
  let ds := str_take maxLength (digitsOnly text) in
  if truthy ds then Some (slice maxLength ds) else None.

Definition shown (index : nat) (value : string) : string :=
  match String.get index value with Some c => String c "" | None => "" end.

(** Keys: the slot that gets the focus, and whether the code is submitted. *)
Inductive OtpKey : Set := Backspace | ArrowLeft | ArrowRight | Enter.
Definition handleKeyDown (maxLength index : nat) (k : OtpKey) (value : string) : option nat * bool :=
  match k with
  | Backspace => (if negb (truthy (shown index value)) && (0 <? index)%nat then Some (index - 1)%nat else None, false)
  | ArrowLeft => (if (0 <? index)%nat then Some (index - 1)%nat else None, false)
  | ArrowRight => (if (index <? maxLength - 1)%nat then Some (S index) else None, false)
  | Enter => (None, (String.length value =? maxLength)%nat)
  end.

(** ** The value *)

Definition allDigits (s : string) : bool := str_all is_digit s.

Lemma allDigits_app a b : allDigits (a ++s b) = allDigits a && allDigits b.
Proof. unfold allDigits. induction a as [|c a IH]; cbn; [done|]. rewrite IH. by rewrite andb_assoc. Qed.

Lemma digitsOnly_all s : allDigits (digitsOnly s) = true.
Proof. induction s as [|c s IH]; cbn; [done|]. destruct (is_digit c) eqn:E; [|done]. unfold allDigits in *. cbn. by rewrite E. Qed.

Lemma digitsOnly_id s : allDigits s = true -> digitsOnly s = s.
Proof.
  unfold allDigits. induction s as [|c s IH]; cbn; [done|]. intros [-> H]%andb_prop. by rewrite IH.
Qed.

Lemma chars_digits s : allDigits s = true -> Forall (fun x => allDigits x = true) (chars s).
Proof.
  unfold allDigits. induction s as [|c s IH]; cbn; [constructor|]. intros [Hc H]%andb_prop. constructor; [by cbn; rewrite Hc|by apply IH].
Qed.

Lemma joined_digits arr : Forall (fun x => allDigits x = true) arr -> allDigits (joined arr) = true.
Proof. induction 1 as [|x arr Hx Harr IH]; [done|]. change (joined (x :: arr)) with (x ++s joined arr). by rewrite allDigits_app, Hx, IH. Qed.

Lemma js_set_Forall (P : string -> Prop) i x arr : P "" -> P x -> Forall P arr -> Forall P (js_set i x arr).
Proof.
  intros He Hx Ha. unfold js_set. rewrite !Forall_app. split; [by apply Forall_take|]. split; [by apply Forall_replicate|].
  constructor; [done|]. by apply Forall_drop.
Qed.

Lemma distribute_Forall (P : string -> Prop) m ds : P "" -> Forall P ds ->
  forall slot arr, Forall P arr -> Forall P (distribute m ds slot arr).1.
Proof.
  intros He Hds. induction Hds as [|d ds Hd Hds IH]; intros slot arr Ha; [done|]. cbn.
  destruct (m <=? slot)%nat; [done|]. apply IH. by apply js_set_Forall.
Qed.

Lemma str_take_digits n s : allDigits s = true -> allDigits (str_take n s) = true.
Proof.
  unfold allDigits. revert n. induction s as [|c s IH]; intros [|n]; cbn; try done. intros [-> H]%andb_prop. by apply IH.
Qed.
Lemma str_take_length n s : (String.length (str_take n s) <= n)%nat.
Proof. revert n. induction s as [|c s IH]; intros [|n]; cbn; try lia. specialize (IH n). lia. Qed.

Lemma slice_ok m s : allDigits s = true -> allDigits (slice m s) = true /\ (String.length (slice m s) <= m)%nat.
Proof.
  intros Hs. unfold slice. destruct (m <? String.length s)%nat eqn:E.
  - split; [by apply str_take_digits|apply str_take_length].
  - split; [done|]. apply Nat.ltb_ge in E. done.
Qed.

(** Whatever is typed, deleted or pasted, the value is digits, at most as many as there are slots. *)
Inductive OtpEvent : Type := Typed (index : nat) (raw : string) | Pasted (text : string).
Definition otp_step (m : nat) (value : string) (e : OtpEvent) : string :=
  match e with
  | Typed i raw => if (i <? m)%nat then (handleChange m i raw value).1 else value
  | Pasted text => handlePaste m text ?? value
  end.

Definition code_ok (m : nat) (s : string) : Prop := allDigits s = true /\ (String.length s <= m)%nat.

Lemma otp_step_ok m v e : code_ok m v -> code_ok m (otp_step m v e).
Proof.
  intros [Hd Hl]. destruct e as [i raw|text]; cbn [otp_step].
  - destruct (i <? m)%nat; [|by split]. unfold handleChange. destruct (negb (truthy (digitsOnly raw))).
    + apply slice_ok, joined_digits, js_set_Forall; [done|done|by apply chars_digits].
    + pose proof (distribute_Forall (fun x => allDigits x = true) m (chars (digitsOnly raw)) eq_refl
        (chars_digits _ (digitsOnly_all raw)) i (chars v) (chars_digits v Hd)) as H.
      destruct (distribute m _ i (chars v)) as [arr slot]. cbn [fst] in *. by apply slice_ok, joined_digits.
  - unfold handlePaste. destruct (truthy _); [|by split]. cbn. apply slice_ok, str_take_digits, digitsOnly_all.
Qed.

(** ** Typing a code *)

Lemma chars_app a b : chars (a ++s b) = chars a ++ chars b.
Proof. induction a as [|c a IH]; cbn; [done|]. by rewrite IH. Qed.
Lemma joined_chars s : joined (chars s) = s.
Proof. induction s as [|c s IH]; [done|]. cbn. unfold joined in IH. by rewrite IH. Qed.
Lemma chars_length s : length (chars s) = String.length s.
Proof. induction s; cbn; lia. Qed.
Lemma string_length_app a b : String.length (a ++s b) = (String.length a + String.length b)%nat.
Proof. induction a as [|c a IH]; cbn; [done|]. by rewrite IH. Qed.

Lemma js_set_end x arr : js_set (length arr) x arr = arr ++ [x].
Proof. unfold js_set. rewrite take_ge, drop_ge, Nat.sub_diag by lia. done. Qed.

(** A digit typed after the last one is appended, and the focus moves on. *)
Lemma type_next m v c :
  is_digit c = true -> (String.length v < m)%nat ->
  handleChange m (String.length v) (String c "") v
  = (v ++s String c "", if (S (String.length v) <=? m - 1)%nat then Some (S (String.length v)) else None).
Proof.
  intros Hc Hl. unfold handleChange. cbn [digitsOnly]. rewrite Hc. cbn [chars truthy distribute].
  change (negb (truthy (String c ""))) with false. cbv iota. rewrite (proj2 (Nat.leb_gt _ _)) by lia.
  rewrite <- (chars_length v) at 1. rewrite js_set_end. f_equal.
  change [String c ""] with (chars (String c "")). rewrite <- chars_app, joined_chars. unfold slice.
  rewrite string_length_app. cbn [String.length]. by rewrite (proj2 (Nat.ltb_ge _ _)) by lia.
Qed.

(** Typing with the focus where the input puts it. *)
Fixpoint typeAll (m : nat) (ds : string) (focus : option nat) (v : string) : string :=
  match ds, focus with
  | String c ds', Some i => let '(v', f) := handleChange m i (String c "") v in typeAll m ds' f v'
  | _, _ => v
  end.

Lemma typeAll_from m ds v :
  allDigits ds = true -> (String.length v + String.length ds <= m)%nat -> (String.length v < m)%nat ->
  typeAll m ds (Some (String.length v)) v = v ++s ds.
Proof.
  revert v. induction ds as [|c ds IH]; intros v Hd Hl Hv; cbn [typeAll].
  { induction v as [|x v IHv]; [done|]. cbn in *. f_equal. rewrite <- IHv at 1; [done|lia|lia]. }
  unfold allDigits in Hd. cbn in Hd. apply andb_prop in Hd as [Hc Hd]. cbn [String.length] in Hl.
  rewrite type_next by done. assert (String.length (v ++s String c "") = S (String.length v)) as Hlen
    by (rewrite string_length_app; cbn; lia).
  assert (v ++s String c ds = (v ++s String c "") ++s ds) as ->.
  { clear. induction v as [|x v IHv]; [done|]. cbn. by rewrite IHv. }
  destruct ds as [|c' ds].
  - destruct (_ <=? _)%nat; cbn [typeAll]; clear.
    all: set (w := v ++s String c ""); clearbody w; induction w as [|x w IHw]; [done|]; cbn; f_equal; exact IHw.
  - cbn [String.length] in Hl. rewrite (proj2 (Nat.leb_le _ _)) by lia. rewrite <- Hlen. apply IH; [exact Hd|rewrite Hlen; cbn; lia|lia].
Qed.

(** a code that is typed digit by digit, from the first slot and wherever the focus goes, is the value in
    the end; so is a code that is pasted *)
Theorem typed_code_is_the_value m ds :
  allDigits ds = true -> String.length ds = m -> (0 < m)%nat ->
  typeAll m ds (Some 0%nat) "" = ds /\ handlePaste m ds = Some ds.
Proof.
  intros Hd Hl Hm. split; [by apply (typeAll_from m ds ""); cbn; [done|lia|]|].
  assert (str_take m ds = ds) as Ht.
  { clear -Hl. revert m Hl. induction ds as [|c ds IH]; intros [|m] Hl; cbn in *; try done. by rewrite IH by lia. }
  unfold handlePaste. rewrite digitsOnly_id by done. rewrite Ht.
  assert (truthy ds = true) as -> by (destruct ds; [cbn in Hl; lia|done]).
  unfold slice. by rewrite (proj2 (Nat.ltb_ge _ _)) by lia.
Qed.

(** a digit that is typed into a slot further on, while the slots before it are empty, is shown in the
    first empty one *)
Theorem digit_moves_to_first_empty_slot m i v c :
  is_digit c = true -> (String.length v < i)%nat -> (i < m)%nat ->
  (handleChange m i (String c "") v).1 = v ++s String c "".
Proof.
  intros Hc Hi Hm. unfold handleChange. cbn [digitsOnly]. rewrite Hc. cbn [chars distribute].
  change (negb (truthy (String c ""))) with false. cbv iota. rewrite (proj2 (Nat.leb_gt _ _)) by lia. cbn [fst].
  assert (joined (js_set i (String c "") (chars v)) = v ++s String c "") as ->.
  { unfold js_set. rewrite chars_length, take_ge, (drop_ge _ (S i)) by (rewrite chars_length; lia).
    generalize (i - String.length v)%nat. intros n. clear. induction v as [|x v IH]; [|cbn; f_equal; exact IH].
    cbn. induction n as [|n IHn]; [done|exact IHn]. }
  unfold slice. rewrite string_length_app. cbn [String.length]. by rewrite (proj2 (Nat.ltb_ge _ _)) by lia.
Qed.

Lemma typed_code_is_the_value_witness : typeAll 6 "123456" (Some 0%nat) "" = "123456".
Proof. apply (typed_code_is_the_value 6 "123456"); [reflexivity|reflexivity|lia]. Defined.

Lemma digit_moves_to_first_empty_slot_witness : (handleChange 6 4 "7" "12").1 = "127".
Proof. apply (digit_moves_to_first_empty_slot 6 4 "12"); [reflexivity|cbn; lia|lia]. Defined.
