(* ===== verification/AccountPage.v ===== *)
(** * The account page

    [src/app/src/pages/account_preferences/Account.tsx] with the dialogs that share its state:
    [Enable2FA.tsx], [Disable2FA.tsx], [VerifyEmailDialog.tsx] and [DeleteSessions.tsx]. The page has a copy
    of the account of its own, beside the store's. *)

From coqutil Require Import Datatypes.RecordSetters.
From S2P Require Import Prelude JsString ApiTypes Store SentryPrivacy Async OtpInput.
Import TriangleBracketNotations.

#[local] Arguments constant _ _ _ /.

(** ** State *)

(** [en_shown] is the page's [showEnable2FA]; the dialog stays visible while it fades out. *)
Record Enable2FA := mkEnable {
  en_shown : bool;
  en_visible : bool;
  en_copied : bool;
  en_loading : bool;
  en_secret : string;
  en_uri : string;
  en_otp : string;
  en_backupCodes : option (list string);
  en_enabling : bool;
  en_confirmed : bool;
}.

Inductive Phase : Set := phase_idle | code_sent.
#[export] Instance Phase_eq_dec : EqDecision Phase.
Proof. solve_decision. Defined.

Record VerifyEmail := mkVerify {
  ve_shown : bool;
  ve_phase : Phase;
  ve_otp : string;
  ve_sending : bool;
  ve_verifying : bool;
  ve_cooldown : Z;
}.

Record Disable2FA := mkDisable { di_shown : bool; di_otp : string; di_loading : bool }.

Record AccountPage := mkAccountPage {
  a_store : AppState;
  currentAccount : option ModelAccount;
  errorReportsConsent : bool;
  updatingConsent : bool;
  showUpdatePassword : bool;
  showDeleteSessions : bool;
  showDeleteAccount : bool;
  showChangeEmail : bool;
  highlightVerify : bool;
  is2FAEnabled : option bool;
  enable2FA : Enable2FA;
  disable2FA : Disable2FA;
  verifyEmail : VerifyEmail;
  a_toasts : list UiToast;
}.

Definition twoFactor (a : option ModelAccount) : option bool :=
  acc ← a; mfa ← acc_mfa acc; t ← mfa_totp mfa; totp_enabled t.
Definition isEmailVerified (s : AccountPage) : bool :=
  (a ← currentAccount s; acc_email_verified a) ?? false.

Definition closedEnable : Enable2FA := mkEnable false false false false "" "" "" None false false.
Definition closedVerify : VerifyEmail := mkVerify false phase_idle "" false false 0.

(** [highlight] is the query parameter of the page's address. *)
Definition mountAccount (st : AppState) (account : option ModelAccount) (highlight : option string) : AccountPage :=
  let verified := (a ← account; acc_email_verified a) ?? false in
  mkAccountPage st account ((a ← account; acc_error_reports_consent a) ?? false) false false false false false
    (negb verified && bool_decide (highlight = Some "verify")) (twoFactor account)
    closedEnable (mkDisable false "" false) closedVerify [].

Definition showToast (k : ToastKind) (t : string) (s : AccountPage) : AccountPage :=
  s <| a_toasts := (a_toasts s ++ [mkToast k t])%list |>.

(** ** Requests *)

Inductive AcRequest : Type :=
| CurrentGet
| ConsentPatch (b : bool)
| TotpEnable
| TotpConfirm (otp : string)
| TotpDisable (otp : string)
| EmailOtpRequest
| EmailOtpConfirm (otp : string)
| SessionsDelete.
Definition AcResponse (r : AcRequest) : Type :=
  match r with
  | CurrentGet => ModelAccount
  | TotpEnable => (option string * option string)%type
  | TotpConfirm _ => option (list string)
  | _ => unit
  end.
Record AcError := mkAcError { ac_status : option Z; ac_detail : option string }.

Notation AcHandler := (Prog AcError AcRequest AccountPage AcResponse unit).
Notation AcProg A := (Prog AcError AcRequest AccountPage AcResponse A).

(** ** The account *)

Definition storeAccount (a : ModelAccount) (s : AccountPage) : AccountPage :=
  s <| a_store := setAccount (Some a) (a_store s) |>.
Definition setCurrentAccount (a : ModelAccount) (s : AccountPage) : AccountPage := s <| currentAccount := Some a |>.
Definition setIs2FA (b : option bool) (s : AccountPage) : AccountPage := s <| is2FAEnabled := b |>.

(** *** The two-factor dialogs open and close *)

Definition onEnable (f : Enable2FA -> Enable2FA) (s : AccountPage) : AccountPage := s <| enable2FA := f (enable2FA s) |>.
Definition onDisable (f : Disable2FA -> Disable2FA) (s : AccountPage) : AccountPage := s <| disable2FA := f (disable2FA s) |>.
Definition onVerify (f : VerifyEmail -> VerifyEmail) (s : AccountPage) : AccountPage := s <| verifyEmail := f (verifyEmail s) |>.

(** [setShowEnable2FA(false)] and the effect that follows [open]; the effect does not run again for a
    closed dialog. *)
Definition hideEnable : AccountPage -> AccountPage :=
  onEnable (fun e => if en_shown e then e <| en_shown := false |> <| en_otp := "" |> else e).
(** The effect when it opens, up to its request. *)
Definition startEnable : AccountPage -> AccountPage :=
  onEnable (fun e => e <| en_shown := true |> <| en_visible := true |> <| en_loading := true |>
                       <| en_backupCodes := None |> <| en_confirmed := false |> <| en_otp := "" |>).
Definition hideDisable : AccountPage -> AccountPage := onDisable (fun d => d <| di_shown := false |>).
Definition showDisable : AccountPage -> AccountPage :=
  onDisable (fun d => if di_shown d then d else d <| di_shown := true |> <| di_otp := "" |>).

(** [handle2FAChanged] *)
Definition handle2FAChanged (enabled : bool) : AcHandler :=
  try_async
    (a ← await CurrentGet;
     perform (setCurrentAccount a);;
     perform (setIs2FA (twoFactor (Some a)));;
     perform (storeAccount a))
    (fun _ => perform (setIs2FA (Some enabled)));;
  perform hideEnable;;
  perform hideDisable.

(** *** Error reports *)

Definition setUpdatingConsent (b : bool) (s : AccountPage) : AccountPage := s <| updatingConsent := b |>.
Definition setConsent (b : bool) (s : AccountPage) : AccountPage := s <| errorReportsConsent := b |>.

Definition handleErrorReportsConsentChange (value : bool) : AcHandler :=
  perform (setUpdatingConsent true);;
  finally
    (try_async
       (await (ConsentPatch value);;
        perform (setConsent value);;
        perform (showToast ToastSuccess "Error reports consent updated."))
       (fun _ => perform (showToast ToastError "Failed to update error reports consent.")))
    (setUpdatingConsent false).

(** ** Enabling two-factor authentication *)

Definition setSetup (secret uri : option string) : AccountPage -> AccountPage :=
  onEnable (fun e => e <| en_secret := opt_or secret "" |> <| en_uri := opt_or uri "" |>).
Definition setEnLoading (b : bool) : AccountPage -> AccountPage := onEnable (fun e => e <| en_loading := b |>).
Definition setEnabling (b : bool) : AccountPage -> AccountPage := onEnable (fun e => e <| en_enabling := b |>).
Definition setBackupCodes (codes : option (list string)) : AccountPage -> AccountPage :=
  onEnable (fun e => e <| en_backupCodes := Some (codes ?? []) |> <| en_otp := "" |>).
Definition setConfirmed : AccountPage -> AccountPage := onEnable (fun e => e <| en_confirmed := true |>).

(** The toggle opens the dialog; its effect asks for the secret. *)
Definition openEnable (s : AccountPage) : AcHandler :=
  if en_shown (enable2FA s) then mret () else
  perform startEnable;;
  finally
    (try_async
       ('(secret, uri) ← await TotpEnable; perform (setSetup secret uri))
       (fun _ =>
        perform (showToast ToastError "Failed to fetch 2FA setup data.");;
        perform hideEnable))
    (setEnLoading false).

(** The button and the Enter key share their guard. *)
Definition enableReady (e : Enable2FA) : bool :=
  negb (en_loading e) && negb (en_enabling e) && truthy (en_secret e) && truthy (en_otp e).

Definition handleEnable2FA (s : AccountPage) : AcHandler :=
  perform (setEnabling true);;
  finally
    (try_async
       (codes ← await (TotpConfirm (en_otp (enable2FA s)));
        perform (setBackupCodes codes);;
        perform (showToast ToastSuccess "2FA enabled successfully."))
       (fun e => perform (showToast ToastError (opt_or (ac_detail e) "Failed to enable 2FA."))))
    (setEnabling false).

(** [onEnabled] is not awaited: the dialog closes first. *)
Definition handleBackupCodesConfirmed : AcHandler :=
  perform setConfirmed;;
  try_async (a ← await CurrentGet; perform (storeAccount a)) (fun _ => mret ());;
  perform hideEnable;;
  handle2FAChanged true.

(** While backup codes are shown and not confirmed, nothing but Done closes the dialog. *)
Definition codesPending (e : Enable2FA) : bool := bool_decide (is_Some (en_backupCodes e)) && negb (en_confirmed e).
Definition dismissEnable (s : AccountPage) : AccountPage := if codesPending (enable2FA s) then s else hideEnable s.

(** ** Disabling it *)

Definition setDiLoading (b : bool) : AccountPage -> AccountPage := onDisable (fun d => d <| di_loading := b |>).
Definition disableReady (d : Disable2FA) : bool := negb (di_loading d) && (String.length (di_otp d) =? 6)%nat.

Definition handleDisable2FA (s : AccountPage) : AcHandler :=
  perform (setDiLoading true);;
  disabled ← finally
    (try_async
       (await (TotpDisable (di_otp (disable2FA s)));;
        perform (showToast ToastSuccess "2FA disabled successfully.");;
        try_async (a ← await CurrentGet; perform (storeAccount a)) (fun _ => mret ());;
        perform hideDisable;;
        mret true)
       (fun e => perform (showToast ToastError (opt_or (ac_detail e) "Failed to disable 2FA."));; mret false))
    (setDiLoading false) : AcProg bool;
  match disabled with true => handle2FAChanged false | false => mret () end.

(** ** Verifying the email address *)

(** The effect that follows [open] resets the dialog as it closes. *)
Definition hideVerify : AccountPage -> AccountPage := onVerify (fun v => if ve_shown v then closedVerify else v).
Definition showVerify : AccountPage -> AccountPage := onVerify (fun v => v <| ve_shown := true |>).
Definition setSending (b : bool) : AccountPage -> AccountPage := onVerify (fun v => v <| ve_sending := b |>).
Definition setVerifying (b : bool) : AccountPage -> AccountPage := onVerify (fun v => v <| ve_verifying := b |>).
Definition codeSent : AccountPage -> AccountPage :=
  onVerify (fun v => v <| ve_phase := code_sent |> <| ve_cooldown := 30 |>).
Definition clearOtp : AccountPage -> AccountPage := onVerify (fun v => v <| ve_otp := "" |>).

Definition requestError (e : AcError) : string :=
  if bool_decide (ac_status e = Some 429) then "Too many requests. Please wait." else "Failed to send code.".

Definition requestCode : AcHandler :=
  perform (setSending true);;
  finally
    (try_async
       (await EmailOtpRequest;;
        perform codeSent;;
        perform (showToast ToastSuccess "Verification code sent."))
       (fun e => perform (showToast ToastError (requestError e))))
    (setSending false).

Definition resendCode (s : AccountPage) : AcHandler :=
  if 0 <? ve_cooldown (verifyEmail s) then mret () else (perform clearOtp;; requestCode).

Definition verifyError (e : AcError) : string :=
  if bool_decide (ac_status e = Some 422) then "Invalid code."
  else if bool_decide (ac_status e = Some 410) then "Code expired. Request a new one."
  else if bool_decide (ac_status e = Some 429) then "Too many attempts. Please wait."
  else "Verification failed. If the code is incorrect or expired, request a new one.".

(** [onVerified] of the page, which is not awaited. *)
Definition onVerified : AcHandler :=
  finally
    (a ← await CurrentGet;
     perform (setCurrentAccount a);;
     perform (storeAccount a))
    hideVerify.

Definition verifyCode (s : AccountPage) : AcHandler :=
  if negb (String.length (ve_otp (verifyEmail s)) =? 6)%nat
  then perform (showToast ToastError "Enter the 6-digit code.") else
  perform (setVerifying true);;
  ok ← finally
    (try_async
       (await (EmailOtpConfirm (ve_otp (verifyEmail s)));;
        perform (showToast ToastSuccess "Email verified successfully.");;
        mret true)
       (fun e => perform (showToast ToastError (verifyError e));; mret false))
    (setVerifying false) : AcProg bool;
  match ok with true => onVerified | false => mret () end.

(** ** After a change of email *)

Definition emailChangedEnd (s : AccountPage) : AccountPage :=
  (hideVerify (s <| showChangeEmail := false |>)) <| highlightVerify := true |>.
Definition onEmailChanged : AcHandler :=
  finally
    (a ← await CurrentGet;
     perform (setCurrentAccount a);;
     perform (storeAccount a))
    emailChangedEnd.

(** ** Sessions *)

Definition setShowDeleteSessions (b : bool) (s : AccountPage) : AccountPage := s <| showDeleteSessions := b |>.
Definition deleteSessions : AcHandler :=
  try_async
    (await SessionsDelete;;
     perform (showToast ToastSuccess "All other sessions have been logged out.");;
     perform (setShowDeleteSessions false))
    (fun _ => perform (showToast ToastError "Failed to log out sessions.")).

(** ** The page as a system *)

(** [TwoFactorToggle] and [ConsentToggle] carry the value the toggle group reports: [""] when the selected
    option is clicked. *)
Inductive AcInvoke : Type :=
| TwoFactorToggle (val : string)
| EnableClick
| CodesDone
| DisableClick
| ConsentToggle (val : string)
| SendCode
| ResendClick
| VerifySubmit
| VerifyEnter
| EmailChanged
| SessionsConfirm.

Definition ac_handler (h : AcInvoke) (s : AccountPage) : AcHandler :=
  match h with
  | TwoFactorToggle val =>
      if String.eqb val "enable" && negb (is2FAEnabled s ?? false) then openEnable s
      else if String.eqb val "disable" && (is2FAEnabled s ?? false) then perform showDisable
      else mret ()
  | EnableClick =>
      let e := enable2FA s in
      if en_shown e && negb (bool_decide (is_Some (en_backupCodes e))) && enableReady e then handleEnable2FA s else mret ()
  | CodesDone =>
      let e := enable2FA s in
      if en_shown e && bool_decide (is_Some (en_backupCodes e)) then handleBackupCodesConfirmed else mret ()
  | DisableClick => if di_shown (disable2FA s) && disableReady (disable2FA s) then handleDisable2FA s else mret ()
  | ConsentToggle val => if updatingConsent s then mret () else handleErrorReportsConsentChange (String.eqb val "enable")
  | SendCode =>
      let v := verifyEmail s in
      if ve_shown v && bool_decide (ve_phase v = phase_idle) && negb (ve_sending v) then requestCode else mret ()
  | ResendClick =>
      let v := verifyEmail s in
      if ve_shown v && bool_decide (ve_phase v = code_sent) && negb ((0 <? ve_cooldown v) || ve_sending v)
      then resendCode s else mret ()
  | VerifySubmit | VerifyEnter =>
      let v := verifyEmail s in
      if ve_shown v && bool_decide (ve_phase v = code_sent) && negb (ve_verifying v) then verifyCode s else mret ()
  | EmailChanged => onEmailChanged
  | SessionsConfirm => if showDeleteSessions s then deleteSessions else mret ()
  end.

(** [EnableHidden] is the end of the fade, [Tick] a second of the cooldown. *)
Inductive AcUpdate : Type :=
| DismissEnable
| CancelEnable
| EnableHidden
| TypeTotp (v : string)
| SecretCopied (ok : bool)
| CopiedReset
| CodesCopied (ok : bool)
| DisableOpen (b : bool)
| TypeDisableOtp (v : string)
| OpenVerify
| DismissVerify
| OtpInput (e : OtpEvent)
| Tick
| ShowUpdatePassword (b : bool)
| ShowDeleteSessions (b : bool)
| ShowDeleteAccount (b : bool)
| ShowChangeEmail (b : bool)
| StoreChanged (st : AppState).

Definition ac_update (u : AcUpdate) (s : AccountPage) : AccountPage :=
  match u with
  | DismissEnable => dismissEnable s
  | CancelEnable =>
      if negb (bool_decide (is_Some (en_backupCodes (enable2FA s)))) && negb (en_enabling (enable2FA s))
      then hideEnable s else s
  | EnableHidden => onEnable (fun e => if en_shown e then e else e <| en_visible := false |>) s
  | TypeTotp v =>
      onEnable (fun e => if en_loading e || en_enabling e || bool_decide (is_Some (en_backupCodes e)) then e
                         else e <| en_otp := v |>) s
  | SecretCopied true => showToast ToastSuccess "Secret copied to clipboard" (onEnable (fun e => e <| en_copied := true |>) s)
  | SecretCopied false => showToast ToastError "Failed to copy" s
  | CopiedReset => onEnable (fun e => e <| en_copied := false |>) s
  | CodesCopied true => showToast ToastSuccess "Backup codes copied to clipboard" s
  | CodesCopied false => showToast ToastError "Failed to copy backup codes" s
  | DisableOpen b => if b then showDisable s else hideDisable s
  | TypeDisableOtp v => onDisable (fun d => if di_loading d then d else d <| di_otp := str_take 6 v |>) s
  | OpenVerify => if isEmailVerified s then s else showVerify s
  | DismissVerify => hideVerify s
  | OtpInput e =>
      onVerify (fun v => match ve_phase v with
        | code_sent => v <| ve_otp := str_take 6 (digitsOnly (otp_step 6 (ve_otp v) e)) |>
        | phase_idle => v
        end) s
  | Tick => onVerify (fun v => if ve_cooldown v <=? 0 then v else v <| ve_cooldown := ve_cooldown v - 1 |>) s
  | ShowUpdatePassword b => s <| showUpdatePassword := b |>
  | ShowDeleteSessions b => s <| showDeleteSessions := b |>
  | ShowDeleteAccount b => s <| showDeleteAccount := b |>
  | ShowChangeEmail b => s <| showChangeEmail := b |>
  | StoreChanged st => s <| a_store := st |>
  end.

Notation AcSystem := (Sys AcError AcRequest AccountPage AcResponse).
Notation AcWorld := (World AcError AcRequest AcResponse).

Inductive AcEvent : Type :=
| AcClick (h : AcInvoke)
| AcAnswered (i : nat) (w : AcWorld)
| AcUpdated (u : AcUpdate).
Definition ac_ev (e : AcEvent) : SysEvent AcError AcRequest AccountPage AcResponse :=
  match e with AcClick h => Start (ac_handler h) | AcAnswered i w => Answer i w | AcUpdated u => Other (ac_update u) end.
Definition ac_step (y : AcSystem) (e : AcEvent) : AcSystem := sys_step id y (ac_ev e).

(** ** What the page shows *)

Definition accountInfo (s : AccountPage) : list (string * string) :=
  [("modDNS ID", opt_or (a ← currentAccount s; acc_email a) "");
   ("Email status", if isEmailVerified s then "Verified" else "Not verified");
   ("2FA", if is2FAEnabled s ?? false then "Enabled" else "Disabled")].

Definition resendText (v : VerifyEmail) : string :=
  if 0 <? ve_cooldown v then "Resend in " ++s show (ve_cooldown v) ++s "s" else "You can resend a new code.".

(** ** The account page: what is saved and shown

    Backup codes cannot be dismissed once they show, and Done brings the page to the account of the
    server. Codes of an activation that was closed before its answer are lost. Withdrawing the consent
    to error reports is saved but does not reach the store that the reports ask. *)

#[local] Arguments twoFactor : simpl never.

Implicit Types (s : AccountPage) (w : AcWorld).

Ltac run_account :=
  cbn [drain mbind prog_bind perform finally try_async await fst snd mret prog_ret].

(** ** Backup codes *)

(** The open dialog shows [codes], and Done was not clicked. *)
Definition codes_shown (codes : list string) s : Prop :=
  en_shown (enable2FA s) = true /\ en_backupCodes (enable2FA s) = Some codes /\ en_confirmed (enable2FA s) = false.

Lemma shown_pending codes s : codes_shown codes s -> codesPending (enable2FA s) = true.
Proof. unfold codesPending. by intros (_ & -> & ->). Qed.

Lemma codes_same codes s s' : enable2FA s' = enable2FA s -> codes_shown codes s -> codes_shown codes s'.
Proof. unfold codes_shown. by intros ->. Qed.

Lemma ac_update_codes codes u s : codes_shown codes s -> codes_shown codes (ac_update u s).
Proof.
  intros Hs. pose proof (shown_pending codes s Hs) as Hp. pose proof Hs as (Ho & Hb & Hc).
  destruct u as [| | |v|[]| |[]|b|v| | |e| |b|b|b|b|st]; cbn [ac_update]; try first [exact Hs | by apply (codes_same codes s)].
  - unfold dismissEnable. by rewrite Hp.
  - by rewrite Hb.
  - unfold codes_shown, onEnable. change (enable2FA (s <| enable2FA := ?e |>)) with e. cbv beta. by rewrite Ho.
  - unfold codes_shown, onEnable. change (enable2FA (s <| enable2FA := ?e |>)) with e. cbv beta.
    by rewrite Hb, bool_decide_true, orb_true_r by done.
  - destruct b; by apply (codes_same codes s).
  - destruct (isEmailVerified s); [done|by apply (codes_same codes s)].
Qed.

(** Every update of a handler that is not about the dialog. *)
Ltac keeps_codes :=
  repeat first
    [ done
    | apply keeps_bind; [|intros ?]
    | apply keeps_try; [|intros ?]
    | apply keeps_finally; [|intros ? ?]
    | match goal with |- keeps _ (await _) => by intros [?|?] end
    | match goal with |- keeps _ (perform _) => split; [intros ?; by apply codes_same|done] end
    | match goal with |- keeps _ (match ?x with _ => _ end) => destruct x end
    | by eapply codes_same ].

(** The clicks that may close the dialog, or start what does. *)
Definition may_close (h : AcInvoke) : bool := match h with CodesDone | DisableClick => true | _ => false end.

Lemma ac_handler_codes codes h s :
  may_close h = false -> codes_shown codes s -> keeps (codes_shown codes) (ac_handler h s).
Proof.
  intros Hh (Ho & Hb & Hc). destruct h as [val| | | |val| | | | | |]; try discriminate; cbn [ac_handler].
  - destruct (_ && _); [unfold openEnable; by rewrite Ho|keeps_codes].
  - rewrite Hb, Ho. done.
  - unfold handleErrorReportsConsentChange. keeps_codes.
  - unfold requestCode. keeps_codes.
  - unfold resendCode, requestCode. keeps_codes.
  - unfold verifyCode, onVerified. keeps_codes.
  - unfold verifyCode, onVerified. keeps_codes.
  - unfold onEmailChanged. keeps_codes.
  - unfold deleteSessions. keeps_codes.
Qed.

(** C27: once backup codes show, the dialog stays open with them, unconfirmed, whatever is done on
    the page except clicking Done or disabling two-factor authentication and whatever is answered,
    as long as every handler that was already waiting when they appeared leaves them alone *)
Theorem codes_stay_until_done codes y evs :
  codes_shown codes (ui y) -> Forall (keeps (codes_shown codes)) (inflight y) ->
  Forall (fun e => match e with AcClick h => may_close h = false | _ => True end) evs ->
  codes_shown codes (ui (run ac_step y evs)).
Proof.
  intros Hs Hp He. rewrite (run_map ac_ev (sys_step id) ac_step) by done.
  apply sys_keeps_on; [done..|]. apply Forall_fmap. eapply Forall_impl; [exact He|].
  intros [h|i w|u] Hh; cbn [compose ac_ev event_keeps_on]; [|done|].
  - intros x Hx. by apply ac_handler_codes.
  - intros x. apply ac_update_codes.
Qed.

(** an activation whose dialog is closed before the server answers is made, but its backup codes are never
    shown: the closed dialog holds them, opening it again clears them, and the toggle still says that
    two-factor authentication is off *)
Theorem closing_while_enabling_loses_codes s w codes a :
  en_shown (enable2FA s) = true -> en_backupCodes (enable2FA s) = None ->
  is2FAEnabled s = Some false -> w (TotpConfirm (en_otp (enable2FA s))) = Ok (Some codes) ->
  w TotpEnable = Ok a ->
  exists s', play id [(ac_update DismissEnable, w)] (handleEnable2FA s) s = (s', Ret ()) /\
    en_shown (enable2FA s') = false /\ en_backupCodes (enable2FA s') = Some codes /\ is2FAEnabled s' = Some false /\
    exists s'', play id [(id, w)] (ac_handler (TwoFactorToggle "enable") s') s' = (s'', Ret ()) /\
      en_shown (enable2FA s'') = true /\ en_backupCodes (enable2FA s'') = None.
Proof.
  intros Ho Hn H2 Hw Ha. rewrite play_one. unfold handleEnable2FA, resume, advance. run_account. rewrite Hw. run_account.
  eexists. split; [reflexivity|]. cbn [ac_update].
  assert (dismissEnable (id (setEnabling true s)) = hideEnable (setEnabling true s)) as ->.
  { unfold dismissEnable, codesPending. change (en_backupCodes (enable2FA (id (setEnabling true s)))) with (en_backupCodes (enable2FA s)).
    by rewrite Hn. }
  set (s1 := hideEnable (setEnabling true s)).
  assert (en_shown (enable2FA s1) = false /\ is2FAEnabled s1 = Some false) as [H1 H1'].
  { unfold s1, hideEnable, onEnable. change (enable2FA (?x <| enable2FA := ?e |>)) with e. cbv beta.
    change (en_shown (enable2FA (setEnabling true s))) with (en_shown (enable2FA s)). by rewrite Ho. }
  clearbody s1. set (s2 := id _). assert (en_shown (enable2FA s2) = false /\ is2FAEnabled s2 = Some false) as [E1 E2] by done.
  split; [done|]. split; [done|]. split; [done|]. clearbody s2. clear s1 H1 H1'.
  cbn [ac_handler]. rewrite E2. change (String.eqb "enable" "enable" && negb (Some false ?? false)) with true. cbv iota.
  unfold openEnable. rewrite E1. rewrite play_one. unfold resume, advance. run_account. rewrite Ha. destruct a as [sec uri].
  run_account. eexists. split; [reflexivity|]. by split.
Qed.

(** ** The account of the server *)

(** confirming the backup codes ends with the dialog closed; when the account can be read, the store, the
    page and its toggle show it, and when it cannot, the toggle shows that two-factor authentication is on *)
Theorem confirmed_codes_show_the_account s w f g :
  exists s', play id [(f, w); (g, w)] handleBackupCodesConfirmed s = (s', Ret ()) /\
    en_shown (enable2FA s') = false /\ di_shown (disable2FA s') = false /\
    match w CurrentGet with
    | Ok a => account (a_store s') = Some a /\ currentAccount s' = Some a /\ is2FAEnabled s' = twoFactor (Some a)
    | Throw _ => is2FAEnabled s' = Some true
    end.
Proof.
  unfold handleBackupCodesConfirmed, handle2FAChanged, play, answers, resume, advance. run_account.
  destruct (w CurrentGet) as [a|e] eqn:Hw; run_account; rewrite Hw; run_account; (eexists; split; [reflexivity|]).
  all: assert (forall x, en_shown (enable2FA (hideDisable (hideEnable x))) = false) as Hh
    by (intros x; unfold hideDisable, hideEnable, onDisable, onEnable;
        change (enable2FA (?y <| disable2FA := ?e |>)) with (enable2FA y);
        change (enable2FA (?y <| enable2FA := ?e |>)) with e; cbv beta; by destruct (en_shown (enable2FA x)) eqn:E).
  all: split; [apply Hh|]; by repeat split.
Qed.

(** ** Error reports *)

(** What [sentry.ts] asks before it sends anything. *)
Definition hasConsent (st : AppState) : bool := (a ← account st; acc_error_reports_consent a) ?? false.

(** a change of the consent that is saved shows on the page, but the store keeps the earlier answer: error
    reports are sent after the consent was withdrawn, and are not after it was given *)
Theorem saved_consent_does_not_reach_reports {Rest : Type} s w b (event : ErrorEvent (Rest := Rest)) :
  w (ConsentPatch b) = Ok tt ->
  exists s', play id [(id, w)] (handleErrorReportsConsentChange b) s = (s', Ret ()) /\
    errorReportsConsent s' = b /\ updatingConsent s' = false /\
    beforeSend (hasConsent (a_store s')) event = beforeSend (hasConsent (a_store s)) event /\
    (hasConsent (a_store s) = true -> b = false ->
     beforeSend (hasConsent (a_store s')) event = Some <$> scrubErrorEvent event).
Proof.
  intros Hw. rewrite play_one. unfold handleErrorReportsConsentChange, resume, advance. run_account. rewrite Hw. run_account.
  eexists. split; [reflexivity|]. split; [done|]. split; [done|]. split; [done|].
  intros Hc _. change (beforeSend (hasConsent (a_store s)) event = Some <$> scrubErrorEvent event). by rewrite Hc.
Qed.

(** ** Verifying the email address *)

Definition verify_ok (s : AccountPage) : Prop :=
  0 <= ve_cooldown (verifyEmail s) <= 30 /\ code_ok 6 (ve_otp (verifyEmail s)) /\
  (ve_phase (verifyEmail s) = phase_idle -> ve_cooldown (verifyEmail s) = 0).

Lemma verify_same s s' : verifyEmail s' = verifyEmail s -> verify_ok s -> verify_ok s'.
Proof. unfold verify_ok. by intros ->. Qed.

Lemma verify_closed s : verifyEmail s = closedVerify -> verify_ok s.
Proof. unfold verify_ok. intros ->. split; [done|]. split; [|done]. by split; [|cbn; lia]. Qed.

Lemma hideVerify_ok s : verify_ok s -> verify_ok (hideVerify s).
Proof.
  intros Hs. destruct (ve_shown (verifyEmail s)) eqn:E.
  - apply verify_closed. unfold hideVerify, onVerify. change (verifyEmail (s <| verifyEmail := ?v |>)) with v. cbv beta. by rewrite E.
  - apply (verify_same s); [|done]. unfold hideVerify, onVerify. change (verifyEmail (s <| verifyEmail := ?v |>)) with v. cbv beta. by rewrite E.
Qed.

Lemma ac_update_verify u s : verify_ok s -> verify_ok (ac_update u s).
Proof.
  intros Hs. destruct u as [| | |v|[]| |[]|b|v| | |e| |b|b|b|b|st]; cbn [ac_update]; try by apply (verify_same s).
  - unfold dismissEnable. destruct (codesPending _); [done|by apply (verify_same s)].
  - destruct (_ && _); [by apply (verify_same s)|done].
  - destruct b; by apply (verify_same s).
  - destruct (isEmailVerified s); [done|]. exact Hs.
  - by apply hideVerify_ok.
  - destruct Hs as (Hc & Ho & Hp). unfold verify_ok, onVerify. change (verifyEmail (s <| verifyEmail := ?v |>)) with v. cbv beta.
    destruct (ve_phase (verifyEmail s)) eqn:E; [by rewrite E|]. split; [exact Hc|]. split.
    + cbn [ve_otp]. split; [apply str_take_digits, digitsOnly_all|apply str_take_length].
    + intros E'. change (ve_phase (verifyEmail s) = phase_idle) in E'. congruence.
  - destruct Hs as (Hc & Ho & Hp). unfold verify_ok, onVerify. change (verifyEmail (s <| verifyEmail := ?v |>)) with v. cbv beta.
    destruct (ve_cooldown (verifyEmail s) <=? 0) eqn:E; [by split|].
    split; [change (0 <= ve_cooldown (verifyEmail s) - 1 <= 30); lia|]. split; [exact Ho|].
    intros E'. change (ve_phase (verifyEmail s) = phase_idle) in E'. specialize (Hp E'). lia.
Qed.

Lemma keeps_verify (f : AccountPage -> AccountPage) :
  (forall s, verifyEmail (f s) = verifyEmail s) -> keeps verify_ok (perform f : AcHandler).
Proof. intros Hf. split; [|done]. intros s. by apply verify_same. Qed.
Lemma keeps_verify_part (f : AccountPage -> AccountPage) :
  (forall s, verify_ok s -> verify_ok (f s)) -> keeps verify_ok (perform f : AcHandler).
Proof. by split. Qed.
Lemma keeps_ac_await (r : AcRequest) : keeps verify_ok (await r : AcProg (AcResponse r)).
Proof. by intros [x|e]. Qed.

Create HintDb account.
#[local] Hint Resolve keeps_verify_part keeps_ac_await : account.

Lemma codeSent_ok s : verify_ok s -> verify_ok (codeSent s).
Proof. intros (_ & Ho & _). split; [done|]. split; [exact Ho|done]. Qed.
Lemma clearOtp_ok s : verify_ok s -> verify_ok (clearOtp s).
Proof. intros (Hc & _ & Hp). split; [exact Hc|]. split; [|exact Hp]. by split; [|cbn; lia]. Qed.

(** Every update of a handler, by its form. *)
Ltac keeps_page :=
  repeat first
    [ done
    | apply keeps_bind; [|intros ?]
    | apply keeps_try; [|intros ?]
    | apply keeps_finally; [|intros ? ?]
    | apply keeps_ac_await
    | apply keeps_verify; intros ?; reflexivity
    | apply keeps_verify_part; (exact codeSent_ok || exact clearOtp_ok || exact hideVerify_ok)
    | match goal with |- keeps _ (match ?x with _ => _ end) => destruct x end
    | by apply verify_same
    | by apply hideVerify_ok ].

Lemma handle2FA_verify b : keeps verify_ok (handle2FAChanged b).
Proof. unfold handle2FAChanged. keeps_page. Qed.

Lemma request_verify : keeps verify_ok requestCode.
Proof. unfold requestCode. keeps_page. Qed.

Lemma verify_code_verify s : keeps verify_ok (verifyCode s).
Proof. unfold verifyCode, onVerified. keeps_page. Qed.

Lemma ac_handler_verify h s : keeps verify_ok (ac_handler h s).
Proof.
  pose proof handle2FA_verify as H2. pose proof request_verify as Hr. pose proof (verify_code_verify s) as Hv.
  assert (forall x, verify_ok x -> verify_ok (emailChangedEnd x)) as He.
  { intros x Hx. apply (verify_same (hideVerify (x <| showChangeEmail := false |>))); [done|]. apply hideVerify_ok. exact Hx. }
  destruct h as [val| | | |val| | | | | |]; cbn [ac_handler].
  - destruct (_ && _); [unfold openEnable; keeps_page|]. keeps_page.
  - destruct (_ && _); [unfold handleEnable2FA; keeps_page|done].
  - destruct (_ && _); [|done]. unfold handleBackupCodesConfirmed. keeps_page; apply H2.
  - destruct (_ && _); [|done]. unfold handleDisable2FA. keeps_page; apply H2.
  - unfold handleErrorReportsConsentChange. keeps_page.
  - destruct (_ && _); [apply Hr|done].
  - destruct (_ && _); [|done]. unfold resendCode. keeps_page.
  - destruct (_ && _); [apply Hv|done].
  - destruct (_ && _); [apply Hv|done].
  - unfold onEmailChanged. keeps_page; by apply He.
  - destruct (showDeleteSessions s); [unfold deleteSessions; keeps_page|done].
Qed.

Lemma ac_run y evs : run ac_step y evs = run (sys_step id) y (map ac_ev evs).
Proof. by apply run_map. Qed.

Lemma reached_verify st a hl evs : verify_ok (ui (run ac_step (mkSys (mountAccount st a hl) []) evs)).
Proof.
  rewrite ac_run. apply sys_keeps; [done| |by constructor|].
  - by apply verify_closed.
  - apply Forall_fmap, Forall_forall. intros [h|i w|u] _; cbn [compose ac_ev event_keeps]; [|done|].
    + intros s. apply ac_handler_verify.
    + apply ac_update_verify.
Qed.

(** Requests of a program, by its form. *)
Ltac sends_page :=
  repeat first
    [ done
    | apply sends_bind; [|intros ?]
    | apply sends_try; [|intros ?]
    | apply sends_finally
    | match goal with |- sends _ (match ?x with _ => _ end) => destruct x end
    | match goal with |- sends _ (await _) => split; [|by intros [?|?]] end ].

(** whatever happened on the page before, a code for the email address is asked for only when the
    countdown since the last one is over, which starts at thirty; and the code that is sent back has six
    characters, all of them digits *)
Theorem email_codes_are_six_digits st a hl evs h :
  let s := ui (run ac_step (mkSys (mountAccount st a hl) []) evs) in
  0 <= ve_cooldown (verifyEmail s) <= 30 /\ ve_cooldown (verifyEmail (codeSent s)) = 30 /\
  sends (fun q => match q with
    | EmailOtpRequest => ve_shown (verifyEmail s) = true /\ ve_cooldown (verifyEmail s) = 0
    | EmailOtpConfirm c => String.length c = 6%nat /\ allDigits c = true
    | _ => True
    end) (ac_handler h s).
Proof.
  cbv zeta. destruct (reached_verify st a hl evs) as (Hc & [Hd _] & Hp).
  generalize dependent (ui (run ac_step (mkSys (mountAccount st a hl) []) evs)). intros s Hc Hd Hp. split; [done|]. split; [done|].
  assert (forall P b, P CurrentGet -> sends P (handle2FAChanged b)) as H2 by (intros; unfold handle2FAChanged; sends_page).
  destruct h as [val| | | |val| | | | | |]; cbn [ac_handler].
  - destruct (_ && _); [unfold openEnable; sends_page|]. sends_page.
  - destruct (_ && _); [unfold handleEnable2FA; sends_page|done].
  - destruct (_ && _); [|done]. unfold handleBackupCodesConfirmed. sends_page; by apply H2.
  - destruct (_ && _); [|done]. unfold handleDisable2FA. sends_page; by apply H2.
  - unfold handleErrorReportsConsentChange. sends_page.
  - destruct (_ && negb (ve_sending _)) eqn:E; [|done]. apply andb_prop in E as [[Es Ei%bool_decide_eq_true]%andb_prop _].
    unfold requestCode. sends_page. split; [done|by apply Hp].
  - destruct (_ && negb (_ || _)) eqn:E; [|done]. apply andb_prop in E as [[Es _]%andb_prop [Ec%Z.ltb_ge _]%negb_true_iff%orb_false_iff].
    unfold resendCode, requestCode. sends_page. split; [done|]. lia.
  - destruct (_ && _); [|done]. unfold verifyCode, onVerified.
    destruct (negb (String.length _ =? 6)%nat) eqn:E; [done|]. apply negb_false_iff, Nat.eqb_eq in E. sends_page.
  - destruct (_ && _); [|done]. unfold verifyCode, onVerified.
    destruct (negb (String.length _ =? 6)%nat) eqn:E; [done|]. apply negb_false_iff, Nat.eqb_eq in E. sends_page.
  - unfold onEmailChanged. sends_page.
  - destruct (showDeleteSessions s); [unfold deleteSessions; sends_page|done].
Qed.

(** a code that is sent after the dialog was closed leaves the closed dialog on its second step: opened
    again, it asks for the code without offering to send one, until the countdown ends *)
Theorem late_code_opens_second_step s w :
  ve_shown (verifyEmail s) = true -> isEmailVerified s = false -> w EmailOtpRequest = Ok tt ->
  exists s', play id [(ac_update DismissVerify, w)] requestCode s = (s', Ret ()) /\
    ve_shown (verifyEmail s') = false /\
    ve_shown (verifyEmail (ac_update OpenVerify s')) = true /\ ve_phase (verifyEmail (ac_update OpenVerify s')) = code_sent.
Proof.
  intros Hs He Hw. rewrite play_one. unfold requestCode, resume, advance. run_account. rewrite Hw. run_account.
  eexists. split; [reflexivity|]. cbn [ac_update].
  set (s' := id _). assert (isEmailVerified s' = false) as -> by exact He. unfold s'.
  split; [|done]. unfold hideVerify, onVerify, id.
  change (verifyEmail (?x <| verifyEmail := ?v |>)) with v. cbv beta.
  change (ve_shown (verifyEmail (setSending true s))) with (ve_shown (verifyEmail s)).
  by rewrite Hs.
Qed.

(** ** Witnesses *)

Definition account_start : AccountPage := mountAccount initialState None None.
Definition enabling_page : AccountPage :=
  setIs2FA (Some false) (onEnable (fun _ => mkEnable true true false false "secret" "uri" "123456" None false false) account_start).
Definition coded_page : AccountPage := setBackupCodes (Some ["code"]) enabling_page.
Definition account_world : AcWorld := fun r =>
  match r with
  | CurrentGet => Throw (mkAcError None None)
  | TotpEnable => Ok (Some "secret", Some "uri")
  | TotpConfirm _ => Ok (Some ["code"])
  | _ => Ok tt
  end.

(** A change of the consent is in flight. *)
Lemma codes_stay_until_done_witness :
  let y := ac_step (mkSys coded_page []) (AcClick (ConsentToggle "enable")) in
  length (inflight y) = 1%nat /\
  codes_shown ["code"] (ui (run ac_step y
    [AcUpdated DismissEnable; AcClick (TwoFactorToggle "enable"); AcAnswered 0 account_world; AcUpdated CancelEnable])).
Proof.
  split; [reflexivity|].
  apply (codes_stay_until_done ["code"] (ac_step (mkSys coded_page []) (AcClick (ConsentToggle "enable")))
    [AcUpdated DismissEnable; AcClick (TwoFactorToggle "enable"); AcAnswered 0 account_world; AcUpdated CancelEnable]).
  - repeat split.
  - constructor; [|constructor]. intros [u|e]; repeat (split; [intros x Hx; exact Hx|]); done.
  - repeat constructor.
Defined.

(** The exception: the dialog was opened twice, the first request for the secret was answered and the
    activation made with it; the second request fails and closes the dialog with the codes. *)
Example late_setup_failure_closes_codes :
  let refused : AcWorld := fun r => match r with TotpEnable => Throw (mkAcError None None) | _ => account_world r end in
  let y := run ac_step (mkSys (setIs2FA (Some false) account_start) [])
    [AcClick (TwoFactorToggle "enable"); AcUpdated DismissEnable; AcClick (TwoFactorToggle "enable");
     AcAnswered 0 account_world; AcUpdated (TypeTotp "123456"); AcClick EnableClick; AcAnswered 1 account_world] in
  codes_shown ["code"] (ui y) /\ en_shown (enable2FA (ui (ac_step y (AcAnswered 0 refused)))) = false.
Proof. vm_compute. repeat split. Qed.

Lemma closing_while_enabling_loses_codes_witness :
  exists s', play id [(ac_update DismissEnable, account_world)] (handleEnable2FA enabling_page) enabling_page = (s', Ret ()) /\
    en_shown (enable2FA s') = false /\ en_backupCodes (enable2FA s') = Some ["code"].
Proof.
  destruct (closing_while_enabling_loses_codes enabling_page account_world ["code"] (Some "secret", Some "uri")
    eq_refl eq_refl eq_refl eq_refl eq_refl) as (s' & Hp & Hs & Hc & _).
  exists s'. split; [exact Hp|]. split; [exact Hs|exact Hc].
Defined.

Definition consenting_store : AppState :=
  setAccount (Some (MkModelAccount None None None (Some true) None None None)) initialState.

Lemma saved_consent_does_not_reach_reports_witness :
  let s := mountAccount consenting_store (account consenting_store) None in
  let event := mkErrorEvent None None "rest" in
  exists s', play id [(id, account_world)] (handleErrorReportsConsentChange false) s = (s', Ret ()) /\
    errorReportsConsent s' = false /\ beforeSend (hasConsent (a_store s')) event = Ok (Some event).
Proof.
  intros s event. destruct (saved_consent_does_not_reach_reports s account_world false event eq_refl) as (s' & Hp & Hc & _ & _ & Hb).
  exists s'. split; [exact Hp|]. split; [exact Hc|]. exact (Hb eq_refl eq_refl).
Defined.

Lemma late_code_opens_second_step_witness :
  let s := showVerify account_start in
  exists s', play id [(ac_update DismissVerify, account_world)] requestCode s = (s', Ret ()) /\
    ve_phase (verifyEmail (ac_update OpenVerify s')) = code_sent.
Proof.
  intros s. destruct (late_code_opens_second_step s account_world eq_refl eq_refl eq_refl) as (s' & Hp & _ & _ & Hc).
  exists s'. split; [exact Hp|exact Hc].
Defined.
