(* ===== verification/Passkeys.v ===== *)
(** * The passkeys of an account

    [src/app/src/pages/account_preferences/PasskeySettings.tsx] with [AddPasskeyDialog.tsx] and
    [DeletePasskeyDialog.tsx]: the list, its two dialogs and the requests behind them. The ceremonies
    of [lib/webauthn.ts] are one request each; the identity fields hand over an [IdentityVerification]. *)

From S2P Require Import Prelude JsString ApiTypes Store WebAuthn Verification Async.
From coqutil Require Import Datatypes.RecordSetters.
Import TriangleBracketNotations.

#[local] Arguments constant _ _ _ /.

(** ** State *)

(** [addVerification] and [deleteVerification] are the states of the two dialogs. *)
Record PasskeySettings := mkPasskeySettings {
  k_store : AppState;
  loading : bool;
  registering : bool;
  deletingId : option string;
  webAuthnSupported : bool;
  addDialogOpen : bool;
  deleteDialogOpen : bool;
  passkeyToDelete : option (string * string);
  addVerification : option IdentityVerification;
  deleteVerification : option IdentityVerification;
  k_toasts : list UiToast;
}.

Definition mountPasskeys (st : AppState) (supported : bool) : PasskeySettings :=
  mkPasskeySettings st false false None supported false false None None None [].

Definition showToast (k : ToastKind) (t : string) (s : PasskeySettings) : PasskeySettings :=
  s <| k_toasts := (k_toasts s ++ [mkToast k t])%list |>.

(** Matches the rule of the API: the last passkey of an account without a password stays. *)
Definition isOnlySignInMethod (st : AppState) : bool :=
  negb (passwordAvailable (account st)) && (length (passkeys st) <=? 1)%nat.

(** ** Requests *)

(** The list, [None] when the answer is not an array. *)
Inductive PkRequest : Type :=
| PasskeysGet
| AddPasskey (v : IdentityVerification)
| DeletePasskey (id : string) (v : IdentityVerification).
Definition PkResponse (r : PkRequest) : Type :=
  match r with PasskeysGet => option (list ModelCredential) | _ => unit end.
Record PkError := mkPkError { pk_message : option string; pk_error : option string }.

Notation PkHandler := (Prog PkError PkRequest PasskeySettings PkResponse unit).

Definition setLoading (b : bool) (s : PasskeySettings) : PasskeySettings := s <| loading := b |>.
Definition setRegistering (b : bool) (s : PasskeySettings) : PasskeySettings := s <| registering := b |>.
Definition setDeletingId (id : option string) (s : PasskeySettings) : PasskeySettings := s <| deletingId := id |>.
Definition setAddDialogOpen (b : bool) (s : PasskeySettings) : PasskeySettings := s <| addDialogOpen := b |>.
Definition setDeleteDialogOpen (b : bool) (s : PasskeySettings) : PasskeySettings := s <| deleteDialogOpen := b |>.
Definition storePasskeys (l : list ModelCredential) (s : PasskeySettings) : PasskeySettings :=
  s <| k_store := set_field (setPasskeys l) (k_store s) |>.

Definition loadPasskeys : PkHandler :=
  finally
    (try_async
       (perform (setLoading true);;
        l ← await PasskeysGet;
        perform (storePasskeys (l ?? [])))
       (fun _ =>
        perform (showToast ToastError "Failed to load passkeys");;
        perform (storePasskeys [])))
    (setLoading false).

Definition handleAddPasskey (v : IdentityVerification) : PkHandler :=
  finally
    (try_async
       (perform (setRegistering true);;
        await (AddPasskey v);;
        perform (setAddDialogOpen false);;
        perform (showToast ToastSuccess "Passkey added successfully.");;
        loadPasskeys)
       (fun e => perform (showToast ToastError (opt_or (pk_message e) "Failed to add passkey"))))
    (setRegistering false).

Definition handleDeletePasskey (id : string) (passkeyName : option string) (s : PasskeySettings) : PasskeySettings :=
  s <| passkeyToDelete := Some (id, opt_or passkeyName id) |> <| deleteDialogOpen := true |>.

Definition endDeletion (s : PasskeySettings) : PasskeySettings :=
  s <| deletingId := None |> <| deleteDialogOpen := false |> <| passkeyToDelete := None |>.

Definition confirmDeletePasskey (s : PasskeySettings) (v : IdentityVerification) : PkHandler :=
  match passkeyToDelete s with
  | None => mret ()
  | Some (id, _) =>
      finally
        (try_async
           (perform (setDeletingId (Some id));;
            await (DeletePasskey id v);;
            perform (showToast ToastSuccess "Passkey deleted successfully");;
            loadPasskeys)
           (fun e => perform (showToast ToastError (opt_or (pk_error e) "Failed to delete passkey"))))
        endDeletion
  end.

(** ** The section as a system *)

Definition deleteLoading (s : PasskeySettings) : bool :=
  bool_decide (is_Some (deletingId s)) && bool_decide (deletingId s = fst <$> passkeyToDelete s).

Inductive PkInvoke : Set := PkMount | AddConfirm | DeleteConfirm.
Definition pk_handler (h : PkInvoke) (s : PasskeySettings) : PkHandler :=
  match h with
  | PkMount => loadPasskeys
  | AddConfirm =>
      match addVerification s with
      | Some v => if addDialogOpen s && negb (registering s) then handleAddPasskey v else mret ()
      | None => mret ()
      end
  | DeleteConfirm =>
      match deleteVerification s with
      | Some v => if deleteDialogOpen s && negb (deleteLoading s) then confirmDeletePasskey s v else mret ()
      | None => mret ()
      end
  end.

(** [DeleteClick i] is the button of the row [i]. *)
Inductive PkUpdate : Type :=
| AddClick
| DeleteClick (i : nat)
| AddDialogChange (b : bool)
| DeleteDialogChange (b : bool)
| AddVerified (v : option IdentityVerification)
| DeleteVerified (v : option IdentityVerification)
| PkStore (st : AppState).

Definition deleteDisabled (s : PasskeySettings) (id : string) : bool :=
  bool_decide (deletingId s = Some id) || negb (truthy id) || isOnlySignInMethod (k_store s).

Definition pk_update (u : PkUpdate) (s : PasskeySettings) : PasskeySettings :=
  match u with
  | AddClick => if registering s then s else setAddDialogOpen true s
  | DeleteClick i =>
      match (passkeys (k_store s) !! i) ≫= cred_id with
      | Some id => if loading s || deleteDisabled s id then s else handleDeletePasskey id (Some id) s
      | None => s
      end
  | AddDialogChange b => setAddDialogOpen b s
  | DeleteDialogChange b => setDeleteDialogOpen b s
  | AddVerified v => s <| addVerification := v |>
  | DeleteVerified v => s <| deleteVerification := v |>
  | PkStore st => s <| k_store := st |>
  end.

Notation PkSystem := (Sys PkError PkRequest PasskeySettings PkResponse).
Notation PkWorld := (World PkError PkRequest PkResponse).

Inductive PkEvent : Type :=
| PkClick (h : PkInvoke)
| PkAnswered (i : nat) (w : PkWorld)
| PkUpdated (u : PkUpdate).
Definition pk_ev (e : PkEvent) : SysEvent PkError PkRequest PasskeySettings PkResponse :=
  match e with PkClick h => Start (pk_handler h) | PkAnswered i w => Answer i w | PkUpdated u => Other (pk_update u) end.
Definition pk_step (y : PkSystem) (e : PkEvent) : PkSystem := sys_step id y (pk_ev e).

(** ** What is deleted *)

Implicit Types (s : PasskeySettings) (w : PkWorld).

Ltac run_passkeys :=
  cbn [drain mbind prog_bind perform finally try_async await fst snd mret prog_ret].

(** the button of a passkey chooses it and nothing else, and on an account without a password the button of
    the only passkey does nothing *)
Theorem delete_button_chooses_its_passkey s i c id :
  passkeys (k_store s) !! i = Some c -> cred_id c = Some id -> truthy id = true ->
  loading s = false -> deletingId s = None ->
  let s' := pk_update (DeleteClick i) s in
  k_store s' = k_store s /\
  if negb (passwordAvailable (account (k_store s))) && (length (passkeys (k_store s)) =? 1)%nat
  then s' = s
  else passkeyToDelete s' = Some (id, id) /\ deleteDialogOpen s' = true.
Proof.
  intros Hi Hc Hid Hl Hd. cbv zeta. cbn [pk_update]. rewrite Hi. cbn [mbind option_bind]. rewrite Hc, Hl.
  unfold deleteDisabled, isOnlySignInMethod. rewrite Hd, Hid. cbn [orb negb].
  assert ((length (passkeys (k_store s)) <=? 1)%nat = (length (passkeys (k_store s)) =? 1)%nat) as ->.
  { apply lookup_lt_Some in Hi. destruct (length _) as [|[|n]]; [lia|done|]. by rewrite (proj2 (Nat.eqb_neq _ _)) by lia. }
  destruct (_ && _); [by split|]. split; [done|]. split; [|done]. cbn. unfold opt_or, str_or. cbn. by rewrite Hid.
Qed.

(** a deletion sends the chosen passkey with the proof of identity and ends with the dialog closed; when
    the server makes it, the list is the one it gives then *)
Theorem deletion_shows_the_list s w v f g id n :
  passkeyToDelete s = Some (id, n) ->
  sends (fun q => match q with DeletePasskey i v' => i = id /\ v' = v | PasskeysGet => True | AddPasskey _ => False end)
    (confirmDeletePasskey s v) /\
  match w (DeletePasskey id v) with
  | Ok _ => forall l, w PasskeysGet = Ok (Some l) ->
      exists s', play (fun x => x) [(f, w); (g, w)] (confirmDeletePasskey s v) s = (s', Ret ()) /\
        passkeys (k_store s') = l /\ deleteDialogOpen s' = false /\ deletingId s' = None /\ loading s' = false
  | Throw e =>
      exists s', play (fun x => x) [(f, w)] (confirmDeletePasskey s v) s = (s', Ret ()) /\
        passkeys (k_store s') = passkeys (k_store (f (setDeletingId (Some id) s))) /\
        deleteDialogOpen s' = false /\ deletingId s' = None
  end.
Proof.
  intros Hp. unfold confirmDeletePasskey. rewrite Hp. split.
  - cbn. split; [done|]. intros [u|e]; cbn; [|done]. split; [done|]. by intros [l|e]; cbn.
  - destruct (w (DeletePasskey id v)) as [u|e] eqn:Hw.
    + intros l Hl. unfold play, answers, resume, advance, loadPasskeys. run_passkeys. rewrite Hw. run_passkeys. rewrite Hl.
      run_passkeys. eexists. split; [reflexivity|]. split; [|done].
      assert (forall ks st, passkeys (set_field (setPasskeys ks) st) = ks) as Hset by (intros ks []; done).
      exact (Hset l _).
    + rewrite play_one. unfold resume, advance. run_passkeys. rewrite Hw. run_passkeys. eexists. split; [reflexivity|]. by split.
Qed.

(** a deletion that ends after its dialog was closed and the dialog for another passkey was opened closes
    that one, and forgets which passkey it is for *)
Theorem finished_deletion_closes_other_dialog s w v l id n j c id' :
  passkeyToDelete s = Some (id, n) -> w (DeletePasskey id v) = Ok tt -> w PasskeysGet = Ok (Some l) ->
  passkeys (k_store s) !! j = Some c -> cred_id c = Some id' -> truthy id' = true -> id' <> id ->
  loading s = false -> isOnlySignInMethod (k_store s) = false ->
  let other x := pk_update (DeleteClick j) (pk_update (DeleteDialogChange false) x) in
  passkeyToDelete (other (setDeletingId (Some id) s)) = Some (id', id') /\
  deleteDialogOpen (other (setDeletingId (Some id) s)) = true /\
  exists s', play (fun x => x) [(other, w); (fun x => x, w)] (confirmDeletePasskey s v) s = (s', Ret ()) /\
    deleteDialogOpen s' = false /\ passkeyToDelete s' = None.
Proof.
  intros Hp Hw Hl Hj Hc Hid Hne Hld Ho other. split; [|split].
  1,2: unfold other; cbn [pk_update];
    change (k_store (setDeleteDialogOpen false (setDeletingId (Some id) s))) with (k_store s); rewrite Hj;
    cbn [mbind option_bind]; rewrite Hc;
    change (loading (setDeleteDialogOpen false (setDeletingId (Some id) s))) with (loading s); rewrite Hld;
    unfold deleteDisabled;
    change (deletingId (setDeleteDialogOpen false (setDeletingId (Some id) s))) with (Some id);
    change (k_store (setDeleteDialogOpen false (setDeletingId (Some id) s))) with (k_store s);
    rewrite Ho, Hid, bool_decide_eq_false_2 by congruence; cbn [orb negb].
  - cbn. unfold opt_or, str_or. cbn. by rewrite Hid.
  - done.
  - unfold confirmDeletePasskey. rewrite Hp. unfold play, answers, resume, advance, loadPasskeys. run_passkeys. rewrite Hw.
    run_passkeys. rewrite Hl. run_passkeys. eexists. split; [reflexivity|]. by split.
Qed.

(** when the list cannot be loaded the store is left without passkeys: an account without a password then
    has no method to prove its identity with *)
Theorem failed_load_leaves_no_method s w e f :
  w PasskeysGet = Throw e -> (forall x, account (k_store (f x)) = account (k_store x)) ->
  passwordAvailable (account (k_store s)) = false ->
  exists s', play (fun x => x) [(f, w)] loadPasskeys s = (s', Ret ()) /\ passkeys (k_store s') = [] /\
    forall m, isMethodAvailable (0 <? length (passkeys (k_store s')))%nat (passwordAvailable (account (k_store s'))) m = false.
Proof.
  intros Hw Hf Hp. rewrite play_one. unfold loadPasskeys, resume, advance. run_passkeys. rewrite Hw. run_passkeys.
  eexists. split; [reflexivity|].
  set (x := f (setLoading true s)). assert (account (k_store x) = account (k_store s)) as Hx by exact (Hf (setLoading true s)).
  set (s' := setLoading false _).
  assert (passkeys (k_store s') = [] /\ account (k_store s') = account (k_store x)) as [Hs Ha].
  { unfold s', storePasskeys. change (k_store (setLoading false (?y <| k_store := ?v |>))) with v.
    change (k_store (showToast ToastError "Failed to load passkeys" x)) with (k_store x). by destruct (k_store x). }
  split; [done|]. rewrite Hs, Ha, Hx, Hp. by intros [].
Qed.

(** ** Witnesses *)

Definition key_of (id : string) : ModelCredential := MkModelCredential None (Some id).
Definition two_keys : PasskeySettings := mountPasskeys (set_field (setPasskeys [key_of "a"; key_of "b"]) initialState) true.
Definition key_world : PkWorld := fun r => match r with PasskeysGet => Ok (Some [key_of "b"]) | _ => Ok tt end.
Definition no_verification : IdentityVerification := mkIdentity None None (Some "token").

Lemma delete_button_chooses_its_passkey_witness : passkeyToDelete (pk_update (DeleteClick 0) two_keys) = Some ("a", "a").
Proof. apply (delete_button_chooses_its_passkey two_keys 0 (key_of "a") "a"); reflexivity. Defined.

Lemma deletion_shows_the_list_witness :
  let s := pk_update (DeleteClick 0) two_keys in
  exists s', play (fun x => x) [(fun x => x, key_world); (fun x => x, key_world)] (confirmDeletePasskey s no_verification) s = (s', Ret ()) /\
    passkeys (k_store s') = [key_of "b"].
Proof.
  intros s. destruct (deletion_shows_the_list s key_world no_verification (fun x => x) (fun x => x) "a" "a" eq_refl) as [_ H].
  destruct (H [key_of "b"] eq_refl) as (s' & Hp & Hk & _). exists s'. split; [exact Hp|exact Hk].
Defined.

Lemma finished_deletion_closes_other_dialog_witness :
  let s := pk_update (DeleteClick 0) two_keys in
  let other x := pk_update (DeleteClick 1) (pk_update (DeleteDialogChange false) x) in
  exists s', play (fun x => x) [(other, key_world); (fun x => x, key_world)] (confirmDeletePasskey s no_verification) s = (s', Ret ()) /\
    deleteDialogOpen s' = false.
Proof.
  intros s other.
  destruct (finished_deletion_closes_other_dialog s key_world no_verification [key_of "b"] "a" "a" 1 (key_of "b") "b"
    eq_refl eq_refl eq_refl eq_refl eq_refl eq_refl ltac:(done) eq_refl eq_refl) as (_ & _ & s' & Hp & Ho & _).
  exists s'. split; [exact Hp|exact Ho].
Defined.

Definition passkey_only : AppState :=
  setAccount (Some (MkModelAccount (Some ["passkey"]) None None None None None None)) initialState.
Lemma failed_load_leaves_no_method_witness :
  let w : PkWorld := fun r => match r with PasskeysGet => Throw (mkPkError None None) | _ => Ok tt end in
  exists s', play (fun x => x) [(fun x => x, w)] loadPasskeys (mountPasskeys passkey_only true) = (s', Ret ()) /\ passkeys (k_store s') = [].
Proof.
  intros w. destruct (failed_load_leaves_no_method (mountPasskeys passkey_only true) w (mkPkError None None) (fun x => x)
    eq_refl (fun x => eq_refl) eq_refl) as (s' & Hp & Hk & _).
  exists s'. split; [exact Hp|exact Hk].
Defined.
