(* ===== verification/UpdatePassword.v ===== *)
(** * Setting and changing the password

    [src/app/src/pages/account_preferences/UpdatePasswordDialog.tsx]. An account that has a password proves
    itself with it, and a code when it has two-factor authentication; one that signs in with passkeys
    only proves itself with the token of a ceremony. The dialog is mounted when it is opened. *)

From S2P Require Import Prelude JsString ApiTypes Store WebAuthn Verification Async.
From coqutil Require Import Datatypes.RecordSetters.
Import TriangleBracketNotations.

#[local] Arguments constant _ _ _ /.

(** ** State *)

Record PasswordDialog := mkPasswordDialog {
  w_store : AppState;
  w_open : bool;
  oldPassword : string;
  newPassword : string;
  confirmPassword : string;
  w_loading : bool;
  closing : bool;
  w_otp : string;
  w_verification : option IdentityVerification;
  w_toasts : list UiToast;
}.

Definition hasPassword (s : PasswordDialog) : bool := passwordAvailable (account (w_store s)).
(** A passkey is asked for instead of a code. *)
Definition asksCode (s : PasswordDialog) : bool := hasPassword s && totpEnabled (account (w_store s)).

(** The effect that follows [passwordAvailable]. *)
Definition commit (s : PasswordDialog) : PasswordDialog := if hasPassword s then s else s <| oldPassword := "" |>.

Definition mountPassword (st : AppState) : PasswordDialog := commit (mkPasswordDialog st true "" "" "" false false "" None []).

Definition showToast (k : ToastKind) (t : string) (s : PasswordDialog) : PasswordDialog :=
  s <| w_toasts := (w_toasts s ++ [mkToast k t])%list |>.

(** ** Requests *)

(** The value of the [test] update: the old password, or [{ reauth_token }]. *)
Inductive PasswordTest : Type := OldPassword (p : string) | ReauthToken (t : option string).
Inductive PwRequest : Type :=
| PasswordPatch (test : PasswordTest) (new : string) (mfa : option (string * list string))
| PwAccountGet.
Definition PwResponse (r : PwRequest) : Type := match r with PasswordPatch _ _ _ => unit | PwAccountGet => ModelAccount end.
Record PwError := mkPwError { pw_error : option string }.

Notation PwHandler := (Prog PwError PwRequest PasswordDialog PwResponse unit).

Definition setLoading (b : bool) (s : PasswordDialog) : PasswordDialog := s <| w_loading := b |>.
Definition storeAccount (a : ModelAccount) (s : PasswordDialog) : PasswordDialog :=
  s <| w_store := setAccount (Some a) (w_store s) |>.
(** [handleClose]: the dialog fades out before [closed] runs. *)
Definition startClosing (s : PasswordDialog) : PasswordDialog := s <| closing := true |>.
Definition closed (s : PasswordDialog) : PasswordDialog :=
  s <| closing := false |> <| w_open := false |> <| w_otp := "" |> <| oldPassword := "" |> <| newPassword := "" |>
    <| confirmPassword := "" |>.

Definition COMPLEXITY : string := "password does not meet complexity requirements".
Definition COMPLEXITY_TEXT : string :=
  "Password must be 12-64 characters, contain at least one uppercase letter, one lowercase letter, one number, and one special character.".
Definition passwordError (e : PwError) : string :=
  if bool_decide (pw_error e = Some COMPLEXITY) then COMPLEXITY_TEXT else opt_or (pw_error e) "Failed to update password.".

(** Why a submission is refused. *)
Definition refused (s : PasswordDialog) : option string :=
  if hasPassword s && negb (truthy (oldPassword s)) then Some "Old password is required."
  else if negb (hasPassword s) && negb (truthy_opt (w_verification s ≫= reauthToken)) then Some "Verify with your passkey first."
  else if negb (truthy (newPassword s)) || negb (String.eqb (newPassword s) (confirmPassword s)) then Some "Passwords do not match."
  else if asksCode s && negb (truthy (w_otp s)) then Some "2FA code is required."
  else None.

Definition passwordTest (s : PasswordDialog) : PasswordTest :=
  if hasPassword s then OldPassword (oldPassword s) else ReauthToken (w_verification s ≫= reauthToken).
Definition passwordMfa (s : PasswordDialog) : option (string * list string) :=
  if asksCode s then Some (w_otp s, ["totp"]) else None.

Definition handleSubmit (s : PasswordDialog) : PwHandler :=
  match refused s with
  | Some why => perform (showToast ToastError why)
  | None =>
      perform (setLoading true);;
      finally
        (try_async
           (await (PasswordPatch (passwordTest s) (newPassword s) (passwordMfa s));;
            refreshed ← await PwAccountGet;
            perform (storeAccount refreshed);;
            perform (showToast ToastSuccess "Password updated successfully.");;
            perform startClosing)
           (fun e => perform (showToast ToastError (passwordError e))))
        (setLoading false)
  end.

(** ** The dialog as a system *)

(** The Enter key in the code field submits too, without looking at [loading]. *)
Inductive PwInvoke : Set := SaveClick | CodeEnter.
Definition pw_handler (h : PwInvoke) (s : PasswordDialog) : PwHandler :=
  match h with
  | SaveClick => if w_loading s then mret () else handleSubmit s
  | CodeEnter => if asksCode s then handleSubmit s else mret ()
  end.

Inductive PwUpdate : Type :=
| TypeOld (v : string)
| TypeNew (v : string)
| TypeConfirm (v : string)
| TypeCode (v : string)
| Verified (v : option IdentityVerification)
| CloseClick
| CloseTimeout
| PwStore (st : AppState).

Definition pw_update (u : PwUpdate) (s : PasswordDialog) : PasswordDialog :=
  match u with
  | TypeOld v => if hasPassword s then s <| oldPassword := v |> else s
  | TypeNew v => s <| newPassword := v |>
  | TypeConfirm v => s <| confirmPassword := v |>
  | TypeCode v => if asksCode s then s <| w_otp := v |> else s
  | Verified v => s <| w_verification := v |>
  | CloseClick => startClosing s
  | CloseTimeout => if closing s then closed s else s
  | PwStore st => s <| w_store := st |>
  end.

Notation PwSystem := (Sys PwError PwRequest PasswordDialog PwResponse).
Notation PwWorld := (World PwError PwRequest PwResponse).

Inductive PwEvent : Type :=
| PwClick (h : PwInvoke)
| PwAnswered (i : nat) (w : PwWorld)
| PwUpdated (u : PwUpdate).
Definition pw_ev (e : PwEvent) : SysEvent PwError PwRequest PasswordDialog PwResponse :=
  match e with PwClick h => Start (pw_handler h) | PwAnswered i w => Answer i w | PwUpdated u => Other (pw_update u) end.
Definition pw_step (y : PwSystem) (e : PwEvent) : PwSystem := sys_step commit y (pw_ev e).

(** ** What is sent *)

Implicit Types (s : PasswordDialog) (w : PwWorld).

(** C35: a change of the password sends the new one only when it was entered twice alike and is not
    empty; with the old one, not empty, exactly when the account has a password, else with the
    reauth token that its verification gave, not empty; and with a code, not empty, exactly when the
    account has a password and two-factor authentication *)
Theorem password_is_entered_twice s h :
  sends (fun q => match q with
    | PasswordPatch test new mfa =>
        new = newPassword s /\ new = confirmPassword s /\ truthy new = true /\
        (if passwordAvailable (account (w_store s))
         then test = OldPassword (oldPassword s) /\ truthy (oldPassword s) = true
         else exists t, (w_verification s ≫= reauthToken) = Some t /\ truthy t = true /\ test = ReauthToken (Some t)) /\
        (if passwordAvailable (account (w_store s)) && totpEnabled (account (w_store s))
         then mfa = Some (w_otp s, ["totp"]) /\ truthy (w_otp s) = true else mfa = None)
    | PwAccountGet => True
    end) (pw_handler h s).
Proof.
  assert (forall P : PwRequest -> Prop, (refused s = None -> P (PasswordPatch (passwordTest s) (newPassword s) (passwordMfa s))) ->
    P PwAccountGet -> sends P (pw_handler h s)) as Hform.
  { intros P Hp Hg. assert (sends P (handleSubmit s)) as Hs.
    { unfold handleSubmit. destruct (refused s) eqn:Hr; [done|]. cbn. split; [by apply Hp|].
      intros [u|e]; cbn; [|done]. split; [done|]. by intros [a|e]. }
    destruct h; cbn [pw_handler]; [by destruct (w_loading s)|by destruct (asksCode s)]. }
  apply Hform; [|done]. intros Hr. unfold refused in Hr. unfold passwordTest, passwordMfa, asksCode, hasPassword in *.
  destruct (passwordAvailable (account (w_store s))) eqn:Hp; cbn [negb andb] in *.
  - destruct (truthy (oldPassword s)) eqn:Ho; [|done]. cbn [negb] in Hr.
    destruct (truthy (newPassword s)) eqn:Hn; [|done]. destruct (String.eqb_spec (newPassword s) (confirmPassword s)) as [Hc|]; [|done].
    cbn [negb orb] in Hr. destruct (totpEnabled _) eqn:Ht; cbn [andb] in *; [|by repeat split].
    destruct (truthy (w_otp s)) eqn:Hw; [|done]. by repeat split.
  - destruct (w_verification s ≫= reauthToken) as [t|] eqn:Hv; [|done]. change (truthy_opt (Some t)) with (truthy t) in Hr.
    destruct (truthy t) eqn:Htt; [|done]. cbn [negb] in Hr.
    destruct (truthy (newPassword s)) eqn:Hn; [|done]. destruct (String.eqb_spec (newPassword s) (confirmPassword s)) as [Hc|]; [|done].
    repeat (split; [done|]). split; [|done]. by exists t.
Qed.

(** ** How it ends *)

Ltac run_password :=
  cbn [drain mbind prog_bind perform finally try_async await fst snd mret prog_ret].

(** a password that is saved ends with the account of the server in the store and the dialog closing; one
    that is refused says why, in the words of the rule when it is too simple, and keeps what was entered *)
Theorem password_change_ends s w f g :
  refused s = None ->
  (forall x, w_toasts (f x) = w_toasts x /\ newPassword (f x) = newPassword x /\ oldPassword (f x) = oldPassword x) ->
  match w (PasswordPatch (passwordTest s) (newPassword s) (passwordMfa s)) with
  | Ok _ => forall a, w PwAccountGet = Ok a ->
      exists s', play id [(f, w); (g, w)] (handleSubmit s) s = (s', Ret ()) /\
        account (w_store s') = Some a /\ closing s' = true /\ w_loading s' = false /\
        w_open (closed s') = false /\ newPassword (closed s') = "" /\ oldPassword (closed s') = ""
  | Throw e =>
      exists s' text, play id [(f, w)] (handleSubmit s) s = (s', Ret ()) /\
        w_loading s' = false /\ newPassword s' = newPassword s /\ oldPassword s' = oldPassword s /\
        w_toasts s' = w_toasts s ++ [mkToast ToastError text] /\ truthy text = true /\
        (pw_error e = Some COMPLEXITY -> text = COMPLEXITY_TEXT) /\
        (pw_error e <> Some COMPLEXITY -> truthy_opt (pw_error e) = true -> pw_error e = Some text)
  end.
Proof.
  intros Hr Hf. unfold handleSubmit. rewrite Hr. destruct (w (PasswordPatch _ _ _)) as [u|e] eqn:Hw.
  - intros a Ha. unfold play, answers, resume, advance. run_password. rewrite Hw. run_password. rewrite Ha. run_password.
    eexists. split; [reflexivity|]. by repeat split.
  - rewrite play_one. unfold resume, advance. run_password. rewrite Hw. run_password.
    destruct (Hf (setLoading true s)) as (Ht & Hn & Ho). eexists _, (passwordError e). split; [reflexivity|].
    split; [done|]. split; [exact Hn|]. split; [exact Ho|].
    split; [change (w_toasts (f (setLoading true s)) ++ [mkToast ToastError (passwordError e)] = w_toasts s ++ [mkToast ToastError (passwordError e)]); by rewrite Ht|].
    unfold passwordError, opt_or, str_or. case_bool_decide as E; [done|].
    split; [by destruct (truthy (default "" (pw_error e))) eqn:E'|]. split; [done|]. intros _ Hte. unfold truthy_opt in Hte.
    rewrite Hte. by destruct (pw_error e).
Qed.

(** the Enter key submits again while a change is on its way: the same password is sent twice *)
Theorem enter_submits_twice s :
  refused s = None -> asksCode s = true -> w_loading s = false -> commit (setLoading true s) = setLoading true s ->
  exists p q k k', inflight (run pw_step (mkSys s []) [PwClick SaveClick; PwClick CodeEnter]) = [p; q] /\
    p = Call (PasswordPatch (passwordTest s) (newPassword s) (passwordMfa s)) k /\
    q = Call (PasswordPatch (passwordTest s) (newPassword s) (passwordMfa s)) k'.
Proof.
  intros Hr Ha Hl Hc. unfold pw_step. cbn [run foldl pw_ev sys_step ui inflight pw_handler]. rewrite Hl.
  unfold handleSubmit. rewrite Hr. unfold advance. run_password. rewrite Hc. cbn [ui inflight].
  change (asksCode (setLoading true s)) with (asksCode s). rewrite Ha.
  change (refused (setLoading true s)) with (refused s). rewrite Hr. run_password.
  eexists _, _, _, _. split; [reflexivity|]. by split.
Qed.

(** when the password is changed but the account cannot be read afterwards, the dialog says that it failed
    and keeps the old password, which is none any more *)
Theorem saved_password_is_shown_failed s w f e :
  refused s = None -> (forall x, w_toasts (f x) = w_toasts x /\ oldPassword (f x) = oldPassword x /\ closing (f x) = closing x) ->
  w (PasswordPatch (passwordTest s) (newPassword s) (passwordMfa s)) = Ok tt -> w PwAccountGet = Throw e ->
  exists s', play id [(f, w); (id, w)] (handleSubmit s) s = (s', Ret ()) /\
    oldPassword s' = oldPassword s /\ closing s' = closing s /\
    w_toasts s' = w_toasts s ++ [mkToast ToastError (passwordError e)].
Proof.
  intros Hr Hf Hw He. unfold handleSubmit. rewrite Hr. unfold play, answers, resume, advance. run_password. rewrite Hw.
  run_password. rewrite He. run_password. destruct (Hf (setLoading true s)) as (Ht & Ho & Hc).
  eexists. split; [reflexivity|]. split; [exact Ho|]. split; [exact Hc|].
  change (w_toasts (f (setLoading true s)) ++ [mkToast ToastError (passwordError e)] = w_toasts s ++ [mkToast ToastError (passwordError e)]).
  by rewrite Ht.
Qed.

(** ** Witnesses *)

Definition code_account : ModelAccount :=
  MkModelAccount None None None None None (Some (MkModelMFASettings (Some (MkModelTotpSettings (Some true))))) None.
Definition password_ready : PasswordDialog :=
  foldl (fun s u => commit (pw_update u s)) (mountPassword (setAccount (Some code_account) initialState))
    [TypeOld "old"; TypeNew "new"; TypeConfirm "new"; TypeCode "123456"].
Definition password_world : PwWorld := fun r => match r with PasswordPatch _ _ _ => Ok tt | PwAccountGet => Ok code_account end.

Lemma password_change_ends_witness :
  exists s', play id [(id, password_world); (id, password_world)] (handleSubmit password_ready) password_ready = (s', Ret ()) /\
    closing s' = true /\ newPassword (closed s') = "".
Proof.
  destruct (password_change_ends password_ready password_world id id eq_refl (fun x => conj eq_refl (conj eq_refl eq_refl)) code_account eq_refl)
    as (s' & Hp & _ & Hc & _ & _ & Hn & _).
  exists s'. split; [exact Hp|]. split; [exact Hc|exact Hn].
Defined.

Lemma enter_submits_twice_witness :
  exists p q, inflight (run pw_step (mkSys password_ready []) [PwClick SaveClick; PwClick CodeEnter]) = [p; q].
Proof.
  destruct (enter_submits_twice password_ready eq_refl eq_refl eq_refl eq_refl) as (p & q & _ & _ & H & _).
  exists p, q. exact H.
Defined.

Lemma saved_password_is_shown_failed_witness :
  let w : PwWorld := fun r => match r with PasswordPatch _ _ _ => Ok tt | PwAccountGet => Throw (mkPwError None) end in
  exists s', play id [(id, w); (id, w)] (handleSubmit password_ready) password_ready = (s', Ret ()) /\
    w_toasts s' = [mkToast ToastError "Failed to update password."].
Proof.
  intros w. destruct (saved_password_is_shown_failed password_ready w id (mkPwError None) eq_refl
    (fun x => conj eq_refl (conj eq_refl eq_refl)) eq_refl eq_refl) as (s' & Hp & _ & _ & Ht).
  exists s'. split; [exact Hp|exact Ht].
Defined.
