(* ===== verification/Login.v ===== *)
(** * Logging in

    [src/app/src/pages/auth/Login.tsx] with its card ([LoginCard.tsx]), the dialog of the session limit
    ([components/dialogs/SessionLimitDialog.tsx]) and the messages ([lib/authToasts.tsx]). The page acts on
    the [Session] of the application; a passkey login is one request, answered by [WebAuthn]. *)

From coqutil Require Import Datatypes.RecordSetters.
From S2P Require Import Prelude JsString ApiTypes Store Session WebAuthn Async.
Import TriangleBracketNotations.

#[local] Arguments constant _ _ _ /.

(** ** State *)

(** The fields of the card are [c_email], [c_password], [c_otp] and [isPasskeyMode]. *)
Record LoginPage := mkLogin {
  lg_session : Session;
  lg_error : option string;
  lg_loading : bool;
  showOtp : bool;
  pendingEmail : string;
  pendingPassword : string;
  showSessionLimitDialog : bool;
  sessionLimitLoading : bool;
  c_email : string;
  c_password : string;
  c_otp : string;
  isPasskeyMode : bool;
  lg_toasts : list UiToast;
}.

Definition showToast (k : ToastKind) (t : string) (s : LoginPage) : LoginPage :=
  s <| lg_toasts := (lg_toasts s ++ [mkToast k t])%list |>.

(** ** The first messages *)

(** [authToasts] *)
Definition passwordResetSuccess : UiToast := mkToast ToastSuccess "Password reset successful. You can now log in.".
Definition accountDeletedSuccess : UiToast := mkToast ToastSuccess "Account deleted successfully.".

(** Messages of the verification page, deferred by a flag of the session storage. *)
Definition keyMap : list (string * UiToast) :=
  [ ("emailVerifiedShowToast", mkToast ToastSuccess "Email verified successfully. You can now log in.");
    ("emailVerifyInvalid", mkToast ToastError "Invalid or unknown verification token.");
    ("emailVerifyExpired", mkToast ToastError "Verification link expired. Request a new one.");
    ("emailVerifyAlready", mkToast ToastInfo "Email already verified. You can log in.");
    ("emailVerifyGenericError", mkToast ToastError "Email verification failed. Please request a new code or retry.");
    ("emailVerifyRateLimit", mkToast ToastError "Too many verification attempts. Please wait and try again.") ].

Definition deferred (storage : gmap string string) (entry : string * UiToast) : bool :=
  bool_decide (storage !! entry.1 = Some "1").

(** What is shown, and the storage without the flags that were. *)
Definition showDeferred (storage : gmap string string) : list UiToast * gmap string string :=
  let shown := List.filter (deferred storage) keyMap in
  (map snd shown, foldl (fun st entry => delete entry.1 st) storage shown).

(** The parameter of a deleted account: the message, and the parameters the address is left with. *)
Definition accountDeleted (params : list (string * string)) : list UiToast * list (string * string) :=
  if bool_decide ((snd <$> array_find (fun p => String.eqb p.1 "account_deleted") params) = Some "true")
  then ([accountDeletedSuccess], List.filter (fun p => negb (String.eqb p.1 "account_deleted")) params)
  else ([], params).

Definition mountLogin (session : Session) (supported resetSuccess : bool) (storage : gmap string string)
    (params : list (string * string)) : LoginPage :=
  mkLogin session None false false "" "" false false "" "" "" supported
    ((if resetSuccess then [passwordResetSuccess] else []) ++ (showDeferred storage).1 ++ (accountDeleted params).1).

(** ** Requests *)

(** [PasskeyLogin email limitCallback removeSessions] is [authenticateWithPasskey]; its answer says whether
    the callback of the session limit was called. *)
Inductive LgRequest : Type :=
| LoginPost (email password : string) (otp : option string) (mfaMethods : option (list string)) (removeSessions : string)
| PasskeyLogin (email : string) (limitCallback removeSessions : bool).
Definition LgResponse (r : LgRequest) : Type :=
  match r with LoginPost _ _ _ _ _ => Z | PasskeyLogin _ _ _ => bool end.
Record LgError := mkLgError { lg_status : option Z; lg_detail : option string; lg_message : option string }.

Notation LgHandler := (Prog LgError LgRequest LoginPage LgResponse unit).
Notation LgSystem := (Sys LgError LgRequest LoginPage LgResponse).
Notation LgWorld := (World LgError LgRequest LgResponse).

Definition isLimitCall (c : WebAuthn.Call) : bool := match c with OnSessionLimitReached => true | _ => false end.

(** How [authenticateWithPasskey] ends, as an answer. *)
Definition passkeyAnswer (outcome : list WebAuthn.Call * result Thrown unit) : result LgError bool :=
  match outcome with
  | (cs, Ok _) => Ok (existsb isLimitCall cs)
  | (_, Throw e) => Throw (mkLgError None (data_error e) (if isError e then Some (message e) else None))
  end.

(** ** Handlers *)

Section login.
Context {R : Router}.

Definition setLoading (b : bool) (s : LoginPage) : LoginPage := s <| lg_loading := b |>.
Definition setError (e : option string) (s : LoginPage) : LoginPage := s <| lg_error := e |>.
Definition setPending (email password : string) (s : LoginPage) : LoginPage :=
  s <| pendingEmail := email |> <| pendingPassword := password |>.
Definition onSession (f : Session -> Session) (s : LoginPage) : LoginPage := s <| lg_session := f (lg_session s) |>.
Definition login (toast : bool) : LoginPage -> LoginPage := onSession (Session.login toast).
(** [navigate("/home")] starts the loader of the page. *)
Definition goHome : LoginPage -> LoginPage := onSession (fun x => session_step x (Navigate "/home")).

Definition askCode (email password : string) (s : LoginPage) : LoginPage :=
  setPending email password (s <| showOtp := true |>).
Definition openLimit (email password : string) (s : LoginPage) : LoginPage :=
  setPending email password (s <| showSessionLimitDialog := true |>).

Definition INVALID : string := "Invalid credentials or login failed.".
Definition UNAUTHORIZED : string := "Unauthorized. Please check your credentials.".
Definition TOO_MANY : string := "Too many login attempts. Please try again later.".
Definition UNEXPECTED : string := "An unexpected error occurred.".
Definition CODE_REQUIRED : string := "Two-factor authentication required. Please enter your code.".

(** [setError] and the toast. *)
Definition failed (message : string) (s : LoginPage) : LoginPage :=
  showToast ToastError message (setError (Some message) s).

Definition asksCode (e : LgError) : bool :=
  bool_decide (lg_status e = Some 401)
  && (bool_decide (lg_detail e = Some "TOTP is required") || bool_decide (lg_detail e = Some "TOTP_REQUIRED")).
Definition atLimit (e : LgError) : bool :=
  bool_decide (lg_status e = Some 429) && bool_decide (lg_detail e = Some "maximum number of active sessions reached").

Definition failureText (e : LgError) : string :=
  if bool_decide (lg_status e = Some 401) then UNAUTHORIZED
  else if bool_decide (lg_status e = Some 429) then TOO_MANY
  else if bool_decide (lg_status e = Some 400) && includes (toLowerCase (opt_or (lg_detail e) "")) "invalid" then INVALID
  else opt_or (lg_detail e) UNEXPECTED.

Definition loginError (email password : string) (e : LgError) (s : LoginPage) : LoginPage :=
  if asksCode e then setError (Some CODE_REQUIRED) (askCode email password (showToast ToastInfo CODE_REQUIRED s))
  else if atLimit e then openLimit email password s
  else failed (failureText e) s.

Definition startLogin (s : LoginPage) : LoginPage := setError None (setLoading true s).

Definition handleLogin (email password : string) (otp : option string) : LgHandler :=
  perform startLogin;;
  finally
    (try_async
       (status ← await (LoginPost email password otp (Some ["totp"]) "false");
        match bool_decide (status = 200) with
        | true => perform (login true);; perform goHome
        | false => perform (failed INVALID)
        end)
       (fun e => perform (loginError email password e)))
    (setLoading false).

Definition handlePasskeyLogin (email : string) : LgHandler :=
  perform startLogin;;
  finally
    (try_async
       (limited ← await (PasskeyLogin email true false);
        perform (fun s => if limited : bool then openLimit email "" s else s);;
        perform (login (negb limited));;
        perform goHome)
       (fun e => perform (failed (opt_or (lg_message e) "Passkey authentication failed"))))
    (setLoading false).

(** *** The session limit *)

Definition handleCancelSessionLimit (s : LoginPage) : LoginPage :=
  setPending "" "" (s <| showSessionLimitDialog := false |>).
Definition setLimitLoading (b : bool) (s : LoginPage) : LoginPage := s <| sessionLimitLoading := b |>.

Definition LOGIN_FAILED : LgError := mkLgError None None (Some "Login failed").

(** Without a password it was a passkey login. *)
Definition handleRemoveAllSessions (s : LoginPage) : LgHandler :=
  if negb (truthy (pendingEmail s)) then mret () else
  finally
    (try_async
       (perform (setLimitLoading true);;
        match String.eqb (pendingPassword s) "" with
        | true => await (PasskeyLogin (pendingEmail s) false true);; perform (login true)
        | false =>
            status ← await (LoginPost (pendingEmail s) (pendingPassword s) None None "true");
            match bool_decide (status = 200) with
            | true => perform (login true)
            | false => Raise LOGIN_FAILED
            end
        end;;
        perform goHome)
       (fun _ => perform (setError (Some "Failed to login. Please try again."))))
    (fun s => setLimitLoading false (handleCancelSessionLimit s)).

(** ** The page as a system *)

(** A form is submitted when its button is enabled and its required fields are filled. *)
Inductive LgInvoke : Set := PasskeySubmit | PasswordSubmit | LimitConfirm.
Definition lg_handler (h : LgInvoke) (s : LoginPage) : LgHandler :=
  match h with
  | PasskeySubmit =>
      if isPasskeyMode s && negb (lg_loading s) && truthy (c_email s) then handlePasskeyLogin (c_email s) else mret ()
  | PasswordSubmit =>
      if negb (isPasskeyMode s) && negb (lg_loading s) && truthy (c_email s) && truthy (c_password s)
         && (negb (showOtp s) || truthy (c_otp s))
      then if showOtp s then handleLogin (pendingEmail s) (pendingPassword s) (Some (c_otp s))
           else handleLogin (c_email s) (c_password s) None
      else mret ()
  | LimitConfirm =>
      if showSessionLimitDialog s && negb (sessionLimitLoading s) then handleRemoveAllSessions s else mret ()
  end.

Inductive LgUpdate : Type :=
| TypeEmail (v : string)
| TypePassword (v : string)
| TypeCode (v : string)
| ToggleMode
| LimitCancel
| SessionDoes (e : SessionEvent).

Definition unlessLoading (f : LoginPage -> LoginPage) (s : LoginPage) : LoginPage := if lg_loading s then s else f s.

Definition lg_update (u : LgUpdate) (s : LoginPage) : LoginPage :=
  match u with
  | TypeEmail v => unlessLoading (fun s => s <| c_email := v |>) s
  | TypePassword v => unlessLoading (fun s => if isPasskeyMode s then s else s <| c_password := v |>) s
  | TypeCode v =>
      unlessLoading (fun s => if isPasskeyMode s || negb (showOtp s) then s else s <| c_otp := str_take 16 v |>) s
  | ToggleMode => unlessLoading (fun s => s <| isPasskeyMode := negb (isPasskeyMode s) |>) s
  | LimitCancel => if showSessionLimitDialog s then handleCancelSessionLimit s else s
  | SessionDoes e => onSession (fun x => session_step x e) s
  end.

Inductive LgEvent : Type :=
| LgSubmit (h : LgInvoke)
| LgAnswered (i : nat) (w : LgWorld)
| LgUpdated (u : LgUpdate).
Definition lg_ev (e : LgEvent) : SysEvent LgError LgRequest LoginPage LgResponse :=
  match e with LgSubmit h => Start (lg_handler h) | LgAnswered i w => Async.Answer i w | LgUpdated u => Other (lg_update u) end.
Definition lg_step (y : LgSystem) (e : LgEvent) : LgSystem := sys_step id y (lg_ev e).

(** ** Logging in: what holds

    How an attempt ends, where other sessions are removed, and two ways the limit of sessions goes wrong. *)

Implicit Types (s : LoginPage) (w v : LgWorld).

Ltac run_login := cbn [drain mbind prog_bind perform finally try_async await fst snd mret prog_ret].

(** ** How an attempt ends *)

Lemma failureText_speaks e : truthy (failureText e) = true.
Proof.
  unfold failureText. do 2 (case_bool_decide; [done|]). destruct (_ && _); [done|].
  unfold opt_or, str_or. by destruct (truthy (default "" (lg_detail e))) eqn:E.
Qed.

(** [auth.login] and [navigate]: the key is set before the loader of the home page looks at it. *)
Lemma home_after_login b x : authKey (Session.login b x) = Some "true" /\ isAuthenticated (Session.login b x) = true.
Proof.
  unfold Session.login, commit_auth. destruct b, x as [a k st p ts r]; cbn; destruct a; done.
Qed.
(** Where the application is going: the target of a navigation that waits for its loader, or the path. *)
Definition heading (x : Session) : string := match pending x with Some (_, p) => p | None => path x end.

Lemma match_home : matchRoute "/home" = ProtectedRoute "/home" root_loader.
Proof. apply match_protected. by left. Qed.

Lemma navigate_home_waits x : authKey x = Some "true" ->
  let z := navigateTo "/home" x in heading z = "/home" /\ (path z = "/home" \/ path z = path x).
Proof.
  intros Hk. cbv zeta. unfold navigateTo. rewrite match_home. unfold startLoader, startRootLoader.
  rewrite bool_decide_true by done. cbn [negb]. destruct (account (store x)), (profiles (store x)); auto.
Qed.

Lemma navigate_home x : authKey x = Some "true" -> isAuthenticated x = true ->
  let y := session_step x (Navigate "/home") in
  heading y = "/home" /\ isAuthenticated y = true /\ authKey y = Some "true" /\ Session.toasts y = Session.toasts x.
Proof.
  intros Hk Ha y. subst y. unfold session_step. cbn [handle].
  destruct (navigateTo_same "/home" x) as ([Ha' Hk'] & _ & Ht).
  destruct (navigate_home_waits x Hk) as [Hh Hp]. set (z := navigateTo "/home" x) in *.
  rewrite Ha in Ha'. rewrite Hk in Hk'. destruct (renders (Navigate "/home") x z) eqn:Er; [|done].
  assert (path z = "/home") as Hpz.
  { destruct Hp as [?|He]; [done|]. exfalso. revert Er. unfold renders. by rewrite He, Ha, Ha', String.eqb_refl. }
  assert (follow_redirect z = z) as ->; [|done].
  unfold follow_redirect, view, protectedRedirect. rewrite Hpz, match_home, Ha', Hk'. done.
Qed.

(** What an attempt leaves: whether a code is asked for and the dialog of the limit is open, the
    credentials that are kept, the message next to the form and the new toasts. The fields of the card
    stay as they are. *)
Definition leaves s1 s' (ask limit : bool) (kept : string * string) (message : option string) (shown : list UiToast) : Prop :=
  lg_loading s' = false /\ showOtp s' = ask /\ showSessionLimitDialog s' = limit /\
  (pendingEmail s', pendingPassword s') = kept /\ lg_error s' = message /\ lg_toasts s' = lg_toasts s1 ++ shown /\
  sessionLimitLoading s' = sessionLimitLoading s1 /\
  (c_email s', c_password s', c_otp s', isPasskeyMode s') = (c_email s1, c_password s1, c_otp s1, isPasskeyMode s1).

Definition kept_credentials s : string * string := (pendingEmail s, pendingPassword s).

(** C29: an attempt to log in with a password ends the loading with exactly one of five
    consequences, and leaves the rest of the page as it was: the session starts and heads for the
    home page; a code is asked for, or the dialog of the session limit opens, either with the
    credentials that were sent kept; a status other than 200 is shown as invalid credentials; or
    another failure is shown as one message *)
Theorem login_ends s w f email password otp :
  let s1 := f (startLogin s) in
  exists s', play id [(f, w)] (handleLogin email password otp) s = (s', Ret ()) /\
    match w (LoginPost email password otp (Some ["totp"]) "false") with
    | Ok status =>
        if bool_decide (status = 200)
        then leaves s1 s' (showOtp s1) (showSessionLimitDialog s1) (kept_credentials s1) (lg_error s1) [] /\
             isAuthenticated (lg_session s') = true /\ authKey (lg_session s') = Some "true" /\
             heading (lg_session s') = "/home" /\
             Session.toasts (lg_session s') = Session.toasts (lg_session s1) ++ [LoginSuccess]
        else leaves s1 s' (showOtp s1) (showSessionLimitDialog s1) (kept_credentials s1) (Some INVALID)
               [mkToast ToastError INVALID] /\
             lg_session s' = lg_session s1
    | Throw e =>
        lg_session s' = lg_session s1 /\
        (if asksCode e then
           leaves s1 s' true (showSessionLimitDialog s1) (email, password) (Some CODE_REQUIRED)
             [mkToast ToastInfo CODE_REQUIRED]
         else if atLimit e then leaves s1 s' (showOtp s1) true (email, password) (lg_error s1) []
         else exists text, truthy text = true /\
           leaves s1 s' (showOtp s1) (showSessionLimitDialog s1) (kept_credentials s1) (Some text)
             [mkToast ToastError text])
    end.
Proof.
  intros s1. rewrite play_one. unfold handleLogin, resume, advance. run_login. fold s1.
  destruct (w (LoginPost email password otp (Some ["totp"]) "false")) as [status|e]; run_login.
  - cbn [LgResponse] in *. destruct (bool_decide (status = 200)); run_login; eexists; (split; [reflexivity|]).
    + destruct (home_after_login true (lg_session s1)) as [Hk Ha].
      destruct (navigate_home _ Hk Ha) as (Hp & Hi & Hk' & Ht).
      split; [repeat (split; [reflexivity|]); split; [symmetry; apply app_nil_r|by split]|].
      split; [exact Hi|]. split; [exact Hk'|]. split; [exact Hp|].
      etransitivity; [exact Ht|]. unfold Session.login, commit_auth. by destruct (Bool.eqb _ _).
    + split; [|done]. by repeat split.
  - eexists. split; [reflexivity|]. unfold loginError. destruct (asksCode e); [by repeat split|].
    destruct (atLimit e); [|by repeat split; exists (failureText e); split; [apply failureText_speaks|repeat split]].
    split; [done|]. repeat (split; [reflexivity|]). split; [symmetry; apply app_nil_r|by split].
Qed.

(** ** Where other sessions are removed *)

(** other sessions are removed only by confirming the dialog of the session limit, while it is open and not
    working already; it removes them for the credentials that met the limit *)
Theorem sessions_are_removed_from_dialog s h :
  sends (fun q => match q with
    | LoginPost e p otp _ remove =>
        remove <> "false" -> h = LimitConfirm /\ showSessionLimitDialog s = true /\ sessionLimitLoading s = false /\
          e = pendingEmail s /\ p = pendingPassword s
    | PasskeyLogin e _ remove =>
        remove = true -> h = LimitConfirm /\ showSessionLimitDialog s = true /\ sessionLimitLoading s = false /\
          e = pendingEmail s /\ pendingPassword s = ""
    end) (lg_handler h s).
Proof.
  assert (forall P e p o, P (LoginPost e p o (Some ["totp"]) "false") -> sends P (handleLogin e p o)) as Hlogin.
  { intros P e p o HP. cbn. split; [exact HP|]. intros [st|x]; [|done]. cbn. by destruct (bool_decide _). }
  destruct h; cbn [lg_handler].
  - destruct (_ && _); [|done]. cbn. split; [done|]. by intros [b|x].
  - destruct (_ && _); [|done]. destruct (showOtp s); by apply Hlogin.
  - destruct (showSessionLimitDialog s) eqn:Hd; [|done]. destruct (sessionLimitLoading s) eqn:Hl; [done|]. cbn [andb negb].
    unfold handleRemoveAllSessions. destruct (truthy (pendingEmail s)); [|done]. cbn [negb].
    destruct (String.eqb_spec (pendingPassword s) "") as [Hp|Hp]; cbn.
    + split; [done|]. by intros [b|x].
    + split; [done|]. intros [st|x]; [|done]. cbn. by destruct (bool_decide _).
Qed.

(** ** Nothing hangs *)

(** while the page loads, a handler is in flight that ends it *)
Theorem login_settles session supported reset storage params evs :
  let y := run lg_step (mkSys (mountLogin session supported reset storage params) []) evs in
  (lg_loading (ui y) = true -> exists p, p ∈ inflight y /\ forall s, ends (fun _ s' => lg_loading s' = false) p s) /\
  (inflight y = [] -> lg_loading (ui y) = false).
Proof.
  intros y. unfold y. rewrite (run_map lg_ev (sys_step id) lg_step) by done.
  destruct (busy_settles id lg_loading (fun s H => H) (mountLogin session supported reset storage params) (map lg_ev evs))
    as [Hok Hnil]; [done| |split; [apply Hok|exact Hnil]].
  assert (forall e p o, well_behaved lg_loading (handleLogin e p o)) as Hlogin.
  { intros e p o. right. eexists _, _. split; [reflexivity|]. intros s. apply ends_finally. by intros. }
  apply Forall_forall. intros ev (e & -> & _)%list_elem_of_fmap. destruct e as [h|i w|u]; cbn [lg_ev event_ok]; [| done|].
  - intros s. destruct h; cbn [lg_handler].
    + destruct (_ && _); [|by left]. right. eexists _, _. split; [reflexivity|]. intros s'. apply ends_finally. by intros.
    + destruct (_ && _); [|by left]. by destruct (showOtp s).
    + destruct (_ && _); [|by left]. left. unfold handleRemoveAllSessions. destruct (negb _); [done|].
      destruct (String.eqb _ _); cbn; split; try done; intros [x|x]; cbn; try done.
      destruct (bool_decide _); done.
  - intros s. apply (unchanged_flag lg_loading (lg_update u)). intros x.
    destruct u; cbn [lg_update]; unfold unlessLoading; try (destruct (lg_loading x) eqn:E; [done|]);
      repeat match goal with |- context [if ?b then _ else _] => destruct b end; done.
Qed.

(** ** The second step *)

(** once a code is asked for, it is sent with the credentials of the first step, whatever is typed into the
    fields of the card meanwhile *)
Theorem code_goes_with_first_credentials s us :
  showOtp s = true -> Forall (fun u => match u with LimitCancel => False | _ => True end) us ->
  let s' := foldl (fun s u => lg_update u s) s us in
  sends (fun q => exists code, q = LoginPost (pendingEmail s) (pendingPassword s) (Some code) (Some ["totp"]) "false")
    (lg_handler PasswordSubmit s').
Proof.
  intros Ho Hus. cbv zeta.
  assert (showOtp (foldl (fun s u => lg_update u s) s us) = true /\
    pendingEmail (foldl (fun s u => lg_update u s) s us) = pendingEmail s /\
    pendingPassword (foldl (fun s u => lg_update u s) s us) = pendingPassword s) as (Ho' & He & Hp).
  { revert s Ho. induction Hus as [|u us Hu Hus IH]; intros s Ho; [done|]. cbn [foldl].
    assert (showOtp (lg_update u s) = true /\ pendingEmail (lg_update u s) = pendingEmail s /\
      pendingPassword (lg_update u s) = pendingPassword s) as (H1 & <- & <-); [|by apply IH].
    destruct u; cbn [lg_update]; try done; unfold unlessLoading;
      repeat match goal with |- context [if ?b then _ else _] => destruct b end; done. }
  revert Ho' He Hp. generalize (foldl (fun s u => lg_update u s) s us). intros s' Ho' He Hp.
  cbn [lg_handler]. destruct (_ && _); [|done]. rewrite Ho', He, Hp. cbn. split; [by eexists|].
  intros [st|x]; [|done]. cbn. by destruct (bool_decide _).
Qed.

(** ** The limit of sessions *)

(** Going home without a session: the loader's answer sends the visitor back. *)
Lemma home_without_session x ps :
  isAuthenticated x = false -> account (store x) = None -> Session.inflight x = [] ->
  let y := session_step (Session.login false x) (Navigate "/home") in
  let z := session_step y (Session.Answer (RootFetch (navs x)) (Rejected (Some 401)) ps) in
  isAuthenticated y = true /\ heading y = "/home" /\
  isAuthenticated z = false /\ path z = "/login" /\ Session.toasts z = Session.toasts x ++ [SessionExpiredToast].
Proof.
  destruct x as [a k st p ts r pe n]. intros Ha Hst Hr y z. cbn [isAuthenticated store Session.inflight] in Ha, Hst, Hr. subst a r.
  assert (y = mkSession true (Some "true") st p ts [RootFetch n] (Some (n, "/home")) (S n)) as Hy.
  { unfold y, Session.login, commit_auth, session_step. cbn [set_key isAuthenticated Bool.eqb negb andb handle].
    unfold navigateTo. rewrite match_home. unfold startLoader, startRootLoader. cbn -[account profiles renders].
    rewrite Hst. cbn -[renders]. unfold renders. cbn. by rewrite String.eqb_refl. }
  cbn [navs] in z. assert (ended y z) as He.
  { unfold z. rewrite answer_step by (rewrite Hy; by left). cbv zeta. apply rendered_ended.
    apply (refused_answer_ends (RootFetch n) (Rejected (Some 401)) ps (drop_request (RootFetch n) y)); [by rewrite Hy|done]. }
  destruct He as (Hf & _ & Hp & _ & _ & _ & Ht). rewrite Hy in Ht |- *. by repeat split.
Qed.

(** a passkey login that meets the limit of sessions opens the dialog, but goes on as if it had succeeded:
    the application is authenticated, without a session, and leaves for the home page; the answer of the
    server to the loader there ends it *)
Theorem passkey_limit_logs_in {Credential} (W : WebAuthn.World (Credential := Credential)) s w cs e ps email :
  authenticate_body W email false = (cs, Throw e) -> status_429 e = true -> session_limit e = true ->
  w (PasskeyLogin email true false) = passkeyAnswer (authenticateWithPasskey W email true false) ->
  isAuthenticated (lg_session s) = false -> account (store (lg_session s)) = None ->
  Session.inflight (lg_session s) = [] ->
  exists s', play id [(id, w)] (handlePasskeyLogin email) s = (s', Ret ()) /\
    showSessionLimitDialog s' = true /\ lg_toasts s' = lg_toasts s /\
    isAuthenticated (lg_session s') = true /\ heading (lg_session s') = "/home" /\
    let x := session_step (lg_session s') (Session.Answer (RootFetch (navs (lg_session s))) (Rejected (Some 401)) ps) in
    isAuthenticated x = false /\ path x = "/login" /\ Session.toasts x = Session.toasts (lg_session s) ++ [SessionExpiredToast].
Proof.
  intros Hb H4 Hl Hw Ha Hs Hr. unfold authenticateWithPasskey in Hw. rewrite Hb in Hw. cbn [try_] in Hw.
  rewrite H4, Hl in Hw. cbn [passkeyAnswer] in Hw.
  assert (existsb isLimitCall (cs ++ [OnSessionLimitReached]) = true) as Hc
    by (rewrite existsb_app; apply orb_true_intro; by right).
  rewrite Hc in Hw. unfold handlePasskeyLogin, play, answers, resume, advance. run_login. rewrite Hw. run_login.
  eexists. split; [reflexivity|]. split; [reflexivity|]. split; [reflexivity|].
  exact (home_without_session (lg_session s) ps Ha Hs Hr).
Qed.

(** an account with a second factor that meets the limit of sessions does not get in: the confirmation of
    the dialog sends no code, the server asks for one, the dialog closes without a message, and the form
    goes on asking for a code but has forgotten the credentials it goes with *)
Theorem limit_locks_out_second_factor s w v e e' code :
  showOtp s = true -> truthy (pendingEmail s) = true -> truthy (pendingPassword s) = true ->
  w (LoginPost (pendingEmail s) (pendingPassword s) (Some code) (Some ["totp"]) "false") = Throw e ->
  asksCode e = false -> atLimit e = true ->
  v (LoginPost (pendingEmail s) (pendingPassword s) None None "true") = Throw e' ->
  exists s1, play id [(id, w)] (handleLogin (pendingEmail s) (pendingPassword s) (Some code)) s = (s1, Ret ()) /\
    showSessionLimitDialog s1 = true /\
    exists s2, play id [(id, v)] (handleRemoveAllSessions s1) s1 = (s2, Ret ()) /\
      showSessionLimitDialog s2 = false /\ lg_toasts s2 = lg_toasts s /\ showOtp s2 = true /\
      lg_session s2 = lg_session s /\
      forall s3, showOtp s3 = showOtp s2 -> pendingEmail s3 = pendingEmail s2 -> pendingPassword s3 = pendingPassword s2 ->
        sends (fun q => exists c, q = LoginPost "" "" (Some c) (Some ["totp"]) "false") (lg_handler PasswordSubmit s3).
Proof.
  intros Ho He Hp Hw Hc Hl Hv. rewrite play_one. unfold handleLogin, resume, advance. run_login. rewrite Hw. run_login.
  unfold loginError. rewrite Hc, Hl.
  set (s1 := setLoading false (openLimit (pendingEmail s) (pendingPassword s) (startLogin s))).
  exists s1. split; [reflexivity|]. split; [reflexivity|].
  assert (pendingEmail s1 = pendingEmail s /\ pendingPassword s1 = pendingPassword s) as [He1 Hp1] by done.
  rewrite play_one. unfold handleRemoveAllSessions, resume, advance. rewrite He1, Hp1, He.
  assert (String.eqb (pendingPassword s) "" = false) as -> by (apply String.eqb_neq, truthy_spec, Hp).
  cbn [negb]. run_login. rewrite Hv. run_login.
  eexists. split; [reflexivity|]. repeat (split; [first [reflexivity|exact Ho]|]).
  intros s3 Ho3 He3 Hp3. cbn [lg_handler]. destruct (_ && _); [|done].
  assert (showOtp s3 = true) as -> by (rewrite Ho3; exact Ho). rewrite He3, Hp3.
  cbn. split; [by eexists|]. intros [st|x]; [|done]. cbn. by destruct (bool_decide _).
Qed.

End login.

(** ** The first messages *)

Lemma lookup_delete_keys (l : list (string * UiToast)) (st : gmap string string) k :
  foldl (fun st entry => delete entry.1 st) st l !! k = (if bool_decide (k ∈ map fst l) then None else st !! k).
Proof.
  revert st. induction l as [|x l IH]; intros st; [done|]. cbn [foldl map]. rewrite IH.
  destruct (decide (k = x.1)) as [->|Hk].
  - rewrite lookup_delete_eq, (bool_decide_true (x.1 ∈ x.1 :: _)) by (apply elem_of_cons; by left).
    by destruct (bool_decide _).
  - rewrite lookup_delete_ne by done.
    rewrite (bool_decide_ext (k ∈ x.1 :: map fst l) (k ∈ map fst l)); [done|]. rewrite elem_of_cons. naive_solver.
Qed.

(** a deferred message is shown once: the flags of those that were shown are gone *)
Theorem deferred_messages_show_once storage : (showDeferred (showDeferred storage).2).1 = [].
Proof.
  unfold showDeferred. cbn [fst snd].
  assert (forall entry, entry ∈ keyMap ->
    deferred (foldl (fun st e => delete e.1 st) storage (List.filter (deferred storage) keyMap)) entry = false) as Hnone.
  { intros entry Hin. unfold deferred at 1. rewrite lookup_delete_keys. destruct (deferred storage entry) eqn:E.
    - rewrite bool_decide_true with (P := entry.1 ∈ _); [done|]. apply list_elem_of_fmap. exists entry. split; [done|].
      by apply elem_of_list_filter_b.
    - destruct (bool_decide (entry.1 ∈ _)); [done|exact E]. }
  revert Hnone. generalize (deferred (foldl (fun st e => delete e.1 st) storage (List.filter (deferred storage) keyMap))).
  generalize keyMap. intros l p Hp. induction l as [|x l IH]; [done|]. cbn [List.filter].
  rewrite Hp by (apply elem_of_cons; by left). apply IH. intros y Hy. apply Hp, elem_of_cons. by right.
Qed.

(** ** Witnesses *)

#[local] Existing Instance exactRouter.

Definition login_start : LoginPage := mountLogin (boot None initialState "/login") false false ∅ [].
Definition second_step : LoginPage := foldl (fun s u => lg_update u s) (askCode "a@b" "secret" login_start) [TypeCode "123456"].
Definition limit_world : LgWorld := fun r =>
  match r with
  | LoginPost _ _ _ _ "false" => Throw (mkLgError (Some 429) (Some "maximum number of active sessions reached") None)
  | LoginPost _ _ _ _ _ => Throw (mkLgError (Some 401) (Some "TOTP is required") None)
  | PasskeyLogin _ _ _ => Ok true
  end.

Lemma code_goes_with_first_credentials_witness :
  sends (fun q => exists code, q = LoginPost "a@b" "secret" (Some code) (Some ["totp"]) "false")
    (lg_handler PasswordSubmit (foldl (fun s u => lg_update u s) second_step [TypeEmail "c@d"; TypePassword "other"])).
Proof.
  apply (code_goes_with_first_credentials second_step [TypeEmail "c@d"; TypePassword "other"]); [reflexivity|].
  repeat constructor.
Defined.

Lemma limit_locks_out_second_factor_witness :
  exists s1 s2, play id [(id, limit_world)] (handleLogin "a@b" "secret" (Some "123456")) second_step = (s1, Ret ()) /\
    play id [(id, limit_world)] (handleRemoveAllSessions s1) s1 = (s2, Ret ()) /\ lg_toasts s2 = [].
Proof.
  destruct (limit_locks_out_second_factor second_step limit_world limit_world
    (mkLgError (Some 429) (Some "maximum number of active sessions reached") None)
    (mkLgError (Some 401) (Some "TOTP is required") None) "123456" eq_refl eq_refl eq_refl eq_refl eq_refl eq_refl eq_refl)
    as (s1 & H1 & _ & s2 & H2 & _ & Ht & _).
  exists s1, s2. split; [exact H1|]. split; [exact H2|exact Ht].
Defined.

(** A server at the limit: the ceremony succeeds, its last step is refused. *)
Definition limit_error : Thrown :=
  mkThrown false true "AxiosError" "Request failed" (Some (mkResponse (Some 429) (Some "Maximum number of active sessions reached") None)).
Definition limit_ceremony : WebAuthn.World (Credential := string) :=
  mkWorld true (Ok true) (fun _ => Ok (JObject [("publicKey", JObject [])])) (fun _ => Ok "credential")
    (fun _ => Throw limit_error) (fun _ => Ok None) (fun c => c) limit_error.

Lemma passkey_limit_logs_in_witness :
  exists s', play id [(id, limit_world)] (handlePasskeyLogin "a@b") login_start = (s', Ret ()) /\
    showSessionLimitDialog s' = true /\ isAuthenticated (lg_session s') = true.
Proof.
  destruct (passkey_limit_logs_in limit_ceremony login_start limit_world
    [LoginBegin "a@b"; StartAuthentication (JObject []); LoginFinish None "credential"] limit_error (Fulfilled []) "a@b"
    ltac:(vm_compute; reflexivity) ltac:(vm_compute; reflexivity) ltac:(vm_compute; reflexivity) ltac:(vm_compute; reflexivity)
    eq_refl eq_refl eq_refl) as (s' & Hp & Hd & _ & Ha & _).
  exists s'. split; [exact Hp|]. split; [exact Hd|exact Ha].
Defined.
