(* ===== verification/Signup.v ===== *)
(** * Signing up

    [src/app/src/pages/auth/Signup.tsx] with its card ([SignupCard.tsx]): the page of a signup link, which
    creates an account with a password or with a passkey. *)

From coqutil Require Import Datatypes.RecordSetters.
From S2P Require Import Prelude JsString Async.
Import TriangleBracketNotations.

#[local] Arguments constant _ _ _ /.

(** ** Identifiers *)

(** The pattern of a version 4 UUID, an [h] for a hexadecimal digit and a [v] for the variant. *)
Definition UUID_V4 : string := "hhhhhhhh-hhhh-4hhh-vhhh-hhhhhhhhhhhh".

Definition isHex (c : ascii) : bool := is_digit c || in_range 97 102 c || in_range 65 70 c.
Definition isVariant (c : ascii) : bool := bool_decide (c ∈ ["8"; "9"; "a"; "b"; "A"; "B"]%char).

Definition charMatches (p c : ascii) : bool :=
  if Ascii.eqb p "h" then isHex c else if Ascii.eqb p "v" then isVariant c else Ascii.eqb p c.

Fixpoint matches (pattern s : string) : bool :=
  match pattern, s with
  | EmptyString, EmptyString => true
  | String p pattern', String c s' => charMatches p c && matches pattern' s'
  | _, _ => false
  end.

Definition isUUIDv4 (id : string) : bool := matches UUID_V4 id.

(** ** State *)

(** [submittingRef] is the ref, which changes at once; the last three are the fields of the card. *)
Record SignupPage := mkSignup {
  su_subid : string;
  su_sessionid : string;
  su_error : option string;
  su_loading : bool;
  su_syncing : bool;
  submittingRef : bool;
  su_paths : list string;
  su_toasts : list UiToast;
  su_email : string;
  su_password : string;
  passkeyEmail : string;
}.

(** Without a valid subscription id the page is not found. *)
Definition validSubId (subid : string) : bool := negb (String.eqb subid "") && isUUIDv4 subid.

Definition mountSignup (subid sessionid : option string) : SignupPage :=
  mkSignup (opt_or subid "") (opt_or sessionid "") None false false false [] [] "" "" "".

(** ** Requests *)

Inductive SuRequest : Type :=
| SessionRotate (sessionid : string)
| AccountPost (email password subid : string)
| PasskeyRegister (email subid : string).
(** The status of a created account. *)
Definition SuResponse (r : SuRequest) : Type := match r with AccountPost _ _ _ => Z | _ => unit end.
(** [se_error] and [se_message] are strings of the answer, [se_details] its list. *)
Record SuError := mkSuError {
  se_error : option string;
  se_dataMessage : option string;
  se_details : option (list string);
  se_message : option string;
}.

Notation SuHandler := (Prog SuError SuRequest SignupPage SuResponse unit).

Definition setSyncing (b : bool) (s : SignupPage) : SignupPage := s <| su_syncing := b |>.
Definition setLoading (b : bool) (s : SignupPage) : SignupPage := s <| su_loading := b |>.
Definition setError (e : option string) (s : SignupPage) : SignupPage := s <| su_error := e |>.
Definition setSubmitting (b : bool) (s : SignupPage) : SignupPage := s <| submittingRef := b |>.
Definition showToast (k : ToastKind) (t : string) (s : SignupPage) : SignupPage :=
  s <| su_toasts := (su_toasts s ++ [mkToast k t])%list |>.
Definition navigate (p : string) (s : SignupPage) : SignupPage := s <| su_paths := (su_paths s ++ [p])%list |>.

(** ** Handlers *)

Definition LINK_EXPIRED : string := "This signup link has expired. Please request a new one from your IVPN account.".

(** The effect of the mount: the session of the link is rotated. *)
Definition rotateSession (s : SignupPage) : SuHandler :=
  if negb (truthy (su_sessionid s)) || negb (isUUIDv4 (su_sessionid s)) then mret () else
  perform (setSyncing true);;
  try_async
    (await (SessionRotate (su_sessionid s));; perform (setSyncing false))
    (fun _ => perform (setError (Some LINK_EXPIRED));; perform (setSyncing false)).

Definition COMPLEXITY_RULES : string :=
  "Password must be 12-64 characters, contain at least one uppercase letter, one lowercase letter, one number, and one special character.".
Definition CREATED : string := "Account created successfully. Please log in.".

Definition aboutPassword (details : list string) : bool :=
  existsb (fun d => includes (toLowerCase d) "password") details.

Definition signupError (e : SuError) : string :=
  if aboutPassword (se_details e ?? []) then COMPLEXITY_RULES
  else opt_or (se_error e) (opt_or (se_dataMessage e)
         (str_or (join ", " (se_details e ?? [])) (opt_or (se_message e) "Failed to create account"))).

Definition passkeySignupError (e : SuError) : string :=
  if truthy_opt (se_message e) && includes (se_message e ?? "") "passkey" then se_message e ?? ""
  else match se_error e with
       | Some m => m
       | None => opt_or (se_message e) "Failed to create account with passkey"
       end.

(** [authToasts.unexpectedError] *)
Definition unexpectedError (msg : string) : SignupPage -> SignupPage :=
  showToast ToastError (str_or msg "An unexpected error occurred.").

Definition startSignup (s : SignupPage) : SignupPage := setError None (setLoading true (setSubmitting true s)).
Definition signupFailed (message : string) (s : SignupPage) : SignupPage :=
  setSubmitting false (unexpectedError message (setError (Some message) s)).
Definition created (s : SignupPage) : SignupPage := showToast ToastSuccess CREATED (navigate "/login" s).

Definition handleSignup (email password : string) (s : SignupPage) : SuHandler :=
  if submittingRef s then mret () else
  perform startSignup;;
  finally
    (try_async
       (status ← await (AccountPost email password (su_subid s));
        match bool_decide (status = 201) with true => perform created | false => mret () end)
       (fun e => perform (signupFailed (signupError e))))
    (setLoading false).

Definition handlePasskeySignup (email : string) (s : SignupPage) : SuHandler :=
  if submittingRef s then mret () else
  perform startSignup;;
  finally
    (try_async
       (await (PasskeyRegister email (su_subid s));; perform created)
       (fun e => perform (signupFailed (passkeySignupError e))))
    (setLoading false).

(** ** The page as a system *)

Definition busy (s : SignupPage) : bool := su_loading s || su_syncing s.

Inductive SuInvoke : Set := SuMount | SignupSubmit | PasskeySignupClick.
Definition su_handler (h : SuInvoke) (s : SignupPage) : SuHandler :=
  if negb (validSubId (su_subid s)) then
    match h with SuMount => rotateSession s | _ => mret () end
  else
  match h with
  | SuMount => rotateSession s
  | SignupSubmit =>
      if negb (busy s) && truthy (su_email s) && truthy (su_password s)
      then handleSignup (su_email s) (su_password s) s else mret ()
  | PasskeySignupClick =>
      if negb (busy s) && truthy (passkeyEmail s) && includes (passkeyEmail s) "@"
      then handlePasskeySignup (passkeyEmail s) s else mret ()
  end.

Inductive SuUpdate : Type :=
| SuEmail (v : string)
| SuPassword (v : string)
| SuPasskeyEmail (v : string)
| SuAuthenticated.

Definition su_update (u : SuUpdate) (s : SignupPage) : SignupPage :=
  match u with
  | SuEmail v => if busy s then s else s <| su_email := v |>
  | SuPassword v => if busy s then s else s <| su_password := v |>
  | SuPasskeyEmail v => if busy s then s else s <| passkeyEmail := v |>
  | SuAuthenticated => navigate "/home" s
  end.

Notation SuSystem := (Sys SuError SuRequest SignupPage SuResponse).
Notation SuWorld := (World SuError SuRequest SuResponse).

Inductive SuEvent : Type :=
| SuClick (h : SuInvoke)
| SuAnswered (i : nat) (w : SuWorld)
| SuUpdated (u : SuUpdate).
Definition su_ev (e : SuEvent) : SysEvent SuError SuRequest SignupPage SuResponse :=
  match e with SuClick h => Start (su_handler h) | SuAnswered i w => Answer i w | SuUpdated u => Other (su_update u) end.
Definition su_step (y : SuSystem) (e : SuEvent) : SuSystem := sys_step id y (su_ev e).

(** ** Signing up: what holds

    What the page sends, and that an account is created at most once. *)

Implicit Types (s : SignupPage) (y : SuSystem).

(** ** Identifiers *)

Lemma matches_length pattern id : matches pattern id = true -> String.length id = String.length pattern.
Proof.
  revert id. induction pattern as [|p pattern IH]; intros [|c id]; cbn; try done. intros [_ H]%andb_prop. f_equal. by apply IH.
Qed.

(** an identifier that is taken has thirty-six characters, the version digit and one of the four variants *)
Lemma uuid_shape id :
  isUUIDv4 id = true ->
  String.length id = 36%nat /\ String.get 14 id = Some "4"%char /\
  exists c, String.get 19 id = Some c /\ isVariant c = true.
Proof.
  intros H. split; [by apply (matches_length UUID_V4)|]. unfold isUUIDv4, UUID_V4 in H.
  do 36 (destruct id as [|? id]; [by repeat (apply andb_prop in H as [_ H])|]; apply andb_prop in H as [?H H]).
  split; [|eexists; split; [reflexivity|assumption]].
  cbn. f_equal. symmetry. by apply Ascii.eqb_eq.
Qed.

(** ** One account *)

Definition creates (q : SuRequest) : bool :=
  match q with AccountPost _ _ _ | PasskeyRegister _ _ => true | SessionRotate _ => false end.
Definition creating (p : Prog SuError SuRequest SignupPage SuResponse unit) : bool :=
  match p with Call r _ => creates r | _ => false end.
Definition createdToast : UiToast := mkToast ToastSuccess CREATED.

(** How a creation ends: with the account, without a word, or with a message and a way to try again. *)
Definition ended (s s' : SignupPage) : Prop :=
  (submittingRef s' = submittingRef s /\ (su_toasts s' = su_toasts s ++ [createdToast] \/ su_toasts s' = su_toasts s)) \/
  (submittingRef s' = false /\ exists m, su_toasts s' = su_toasts s ++ [mkToast ToastError m]).

(** Every handler waits for one answer. *)
Definition last_call (p : Prog SuError SuRequest SignupPage SuResponse unit) : Prop :=
  match p with
  | Call r k => forall a s, suspended (drain (k a) s).2 = false /\
      if creates r then ended s (drain (k a) s).1
      else submittingRef (drain (k a) s).1 = submittingRef s /\ su_toasts (drain (k a) s).1 = su_toasts s
  | _ => True
  end.

Definition once (y : SuSystem) : Prop :=
  Forall (fun p => suspended p = true /\ last_call p) (inflight y) /\
  (length (List.filter creating (inflight y)) <= if submittingRef (ui y) then 1 else 0)%nat /\
  (createdToast ∈ su_toasts (ui y) -> submittingRef (ui y) = true /\ List.filter creating (inflight y) = []).

Lemma rotate_last s : last_call (advance id (rotateSession s) s).2.
Proof.
  unfold rotateSession. destruct (_ || _); [done|]. cbn. intros [u|e] s'; by cbn.
Qed.
Lemma signup_last email pw s : last_call (advance id (handleSignup email pw s) s).2.
Proof.
  unfold handleSignup. destruct (submittingRef s); [done|]. cbn. intros [st|e] s'; cbn.
  - destruct (bool_decide _); cbn; (split; [done|]); left; (split; [done|]); [by left|by right].
  - split; [done|]. right. split; [done|]. by eexists.
Qed.
Lemma passkey_last email s : last_call (advance id (handlePasskeySignup email s) s).2.
Proof.
  unfold handlePasskeySignup. destruct (submittingRef s); [done|]. cbn. intros [st|e] s'; cbn.
  - split; [done|]. left. split; [done|]. by left.
  - split; [done|]. right. split; [done|]. by eexists.
Qed.

(** What a handler does before it waits: nothing, or the rotation begins, or a creation does. *)
Lemma handler_starts h s :
  last_call (advance id (su_handler h s) s).2 /\
  su_toasts (advance id (su_handler h s) s).1 = su_toasts s /\
  if creating (advance id (su_handler h s) s).2
  then submittingRef s = false /\ submittingRef (advance id (su_handler h s) s).1 = true
  else submittingRef (advance id (su_handler h s) s).1 = submittingRef s.
Proof.
  assert (su_toasts (advance id (rotateSession s) s).1 = su_toasts s /\
    (if creating (advance id (rotateSession s) s).2
     then submittingRef s = false /\ submittingRef (advance id (rotateSession s) s).1 = true
     else submittingRef (advance id (rotateSession s) s).1 = submittingRef s)) as [Hr1 Hr2]
    by (unfold rotateSession; by destruct (_ || _)).
  unfold su_handler. destruct (negb (validSubId _)), h; try done.
  - split; [apply rotate_last|by split].
  - split; [apply rotate_last|by split].
  - destruct (_ && _); [|done]. split; [apply signup_last|].
    unfold handleSignup. destruct (submittingRef s) eqn:E; cbn; [by rewrite E|by split].
  - destruct (_ && _); [|done]. split; [apply passkey_last|].
    unfold handlePasskeySignup. destruct (submittingRef s) eqn:E; cbn; [by rewrite E|by split].
Qed.

Lemma filter_keep p l : List.filter creating (keep p l) = List.filter creating l ++ (if creating p then [p] else []).
Proof.
  unfold keep. destruct p as [a|e|g p|r k]; cbn [suspended creating]; try by rewrite app_nil_r.
  rewrite List.filter_app. cbn. by destruct (creates r).
Qed.

Lemma keep_last p l :
  last_call p -> Forall (fun p => suspended p = true /\ last_call p) l ->
  Forall (fun p => suspended p = true /\ last_call p) (keep p l).
Proof.
  intros Hp Hl. unfold keep. destruct (suspended p) eqn:E; [|done]. apply Forall_app. split; [done|]. by repeat constructor.
Qed.

Lemma once_start h y : once y -> once (sys_step id y (Start (su_handler h))).
Proof.
  intros (Hl & Hc & Ht). cbn [sys_step]. pose proof (handler_starts h (ui y)) as (H1 & H2 & H3).
  destruct (advance id (su_handler h (ui y)) (ui y)) as [s p]. cbn [fst snd] in *. split; [by apply keep_last|].
  cbn [ui inflight]. rewrite filter_keep, length_app, H2. destruct (creating p).
  - destruct H3 as [H0 H3]. rewrite H0, H3 in *. split; [cbn; lia|]. intros [? _]%Ht. congruence.
  - rewrite H3, app_nil_r. split; [cbn; lia|exact Ht].
Qed.

Lemma filter_delete_creating (l : list (Prog SuError SuRequest SignupPage SuResponse unit)) i p :
  l !! i = Some p ->
  length (List.filter creating l) = ((if creating p then 1 else 0) + length (List.filter creating (delete i l)))%nat.
Proof.
  revert i. induction l as [|q l IH]; intros [|i]; [done|done| |].
  - intros [= ->]. change (delete 0%nat (p :: l)) with l. cbn. by destruct (creating p).
  - intros Hi. change (delete (S i) (q :: l)) with (q :: delete i l). cbn. specialize (IH i Hi).
    destruct (creating q); cbn; rewrite IH; lia.
Qed.

Lemma not_created m l : createdToast ∈ (l ++ [mkToast ToastError m]) -> createdToast ∈ l.
Proof. rewrite elem_of_app, list_elem_of_singleton. intros [?|H]; [done|discriminate]. Qed.

Lemma once_answer i w y : once y -> once (sys_step id y (Answer i w)).
Proof.
  intros (Hl & Hc & Ht). cbn [sys_step]. destruct (inflight y !! i) as [p|] eqn:Hi; [|by split].
  assert (suspended p = true /\ last_call p) as [Hs Hp] by (rewrite Forall_forall in Hl; apply Hl; by eapply list_elem_of_lookup_2).
  assert (Forall (fun p => suspended p = true /\ last_call p) (delete i (inflight y))) as Hd.
  { rewrite (delete_Permutation _ i p Hi) in Hl. by inversion Hl. }
  pose proof (filter_delete_creating _ i p Hi) as Hlen. destruct p as [a|e|g p|r k]; try done.
  destruct (Hp (w r) (ui y)) as [Hs' Hr]. unfold resume, advance. destruct (drain (k (w r)) (ui y)) as [s' p'].
  cbn [fst snd creating] in *. unfold keep. rewrite Hs'. split; [done|]. cbn [ui inflight]. unfold id.
  destruct (creates r); [|destruct Hr as [-> ->]; split; [lia|]; intros H; destruct (Ht H) as [? Hn]; rewrite Hn in Hlen;
    split; [done|]; destruct (List.filter creating (delete i (inflight y))); [done|cbn in Hlen; lia]].
  assert (submittingRef (ui y) = true) as Hu by (destruct (submittingRef (ui y)); [done|lia]). rewrite Hu in *.
  assert (List.filter creating (delete i (inflight y)) = []) as Hnil
    by (destruct (List.filter creating (delete i (inflight y))); [done|cbn in Hlen; lia]).
  rewrite Hnil. assert (createdToast ∉ su_toasts (ui y)) as Hno
    by (intros H; destruct (Ht H) as [_ Hn]; rewrite Hn, Hnil in Hlen; cbn in Hlen; lia).
  split; [cbn; lia|]. intros H. destruct Hr as [[-> _]|(_ & m & Hm)]; [done|].
  rewrite Hm in H. by apply not_created in H.
Qed.

(** however often the form is submitted and however the answers arrive, at most one account is being created
    at a time, and once the page has announced an account it creates no other *)
(** C17: however often the signup form is submitted and however the answers arrive, at most one
    account is being created at a time, and once the page has announced an account it creates no
    other *)
Theorem one_account_is_created subid sessionid evs :
  let y := run su_step (mkSys (mountSignup subid sessionid) []) evs in
  (length (List.filter creating (inflight y)) <= 1)%nat /\
  (createdToast ∈ su_toasts (ui y) ->
   List.filter creating (inflight y) = [] /\ forall h, sends (fun q => creates q = false) (su_handler h (ui y))).
Proof.
  intros y. assert (once y) as (_ & Hc & Ht).
  { unfold y. apply run_invariant; [|split; [constructor|split; [cbn; lia|intros H%elem_of_nil; done]]].
    intros y0 e Hy. destruct e as [h|i w|u]; [by apply once_start|by apply once_answer|].
    destruct Hy as (Hl & Hc & Ht). split; [exact Hl|].
    assert (submittingRef (su_update u (ui y0)) = submittingRef (ui y0) /\ su_toasts (su_update u (ui y0)) = su_toasts (ui y0)) as [H1 H2]
      by (destruct u; cbn; try destruct (busy _); done).
    unfold su_step, su_ev, sys_step, id. cbn [ui inflight]. rewrite H1, H2. by split. }
  split; [destruct (submittingRef (ui y)); lia|]. intros H. destruct (Ht H) as [Hs Hn]. split; [exact Hn|].
  intros h. assert (sends (fun q => creates q = false) (rotateSession (ui y))) as Hr.
  { unfold rotateSession. destruct (_ || _); [done|]. cbn. split; [done|]. by intros [u|x]. }
  unfold su_handler, handleSignup, handlePasskeySignup. rewrite Hs.
  destruct (negb (validSubId _)), h; try done; by destruct (_ && _).
Qed.

(** ** What is sent *)

(** every request carries a valid identifier of the link; an account with a password is asked for with an
    address and a password, one with a passkey with an address that has an at sign *)
Theorem signup_sends_valid_link s h :
  sends (fun q => match q with
    | SessionRotate id => id = su_sessionid s /\ isUUIDv4 id = true
    | AccountPost email password id =>
        id = su_subid s /\ isUUIDv4 id = true /\ truthy email = true /\ truthy password = true
    | PasskeyRegister email id => id = su_subid s /\ isUUIDv4 id = true /\ includes email "@" = true
    end) (su_handler h s).
Proof.
  assert (forall P, (isUUIDv4 (su_sessionid s) = true -> P (SessionRotate (su_sessionid s))) -> sends P (rotateSession s)) as Hrot.
  { intros P HP. unfold rotateSession. destruct (negb (truthy (su_sessionid s))); [done|].
    destruct (isUUIDv4 (su_sessionid s)); [|done]. cbn. split; [by apply HP|]. by intros [u|e]. }
  unfold su_handler. destruct (validSubId (su_subid s)) eqn:Hv; cbn [negb].
  - apply andb_prop in Hv as [_ Hv]. destruct h.
    + apply Hrot. done.
    + destruct (negb (busy s)); [|done]. destruct (truthy (su_email s)) eqn:He; [|done].
      destruct (truthy (su_password s)) eqn:Hp; [|done]. cbn [andb]. unfold handleSignup.
      destruct (submittingRef s); [done|]. cbn. split; [done|]. intros [st|e]; cbn; [by destruct (bool_decide _)|done].
    + destruct (negb (busy s)); [|done]. destruct (truthy (passkeyEmail s)) eqn:He; [|done].
      destruct (includes (passkeyEmail s) "@") eqn:Hp; [|done]. cbn [andb]. unfold handlePasskeySignup.
      destruct (submittingRef s); [done|]. cbn. split; [done|]. by intros [st|e].
  - destruct h; [|done..]. by apply Hrot.
Qed.
