(* ===== verification/PasswordReset.v ===== *)
(** * Resetting a password

    [src/app/src/pages/auth/PasswordReset.tsx], which asks for the link, and [PasswordResetConfirm.tsx], the
    page the link opens. *)

From S2P Require Import Prelude JsString Async.
From coqutil Require Import Datatypes.RecordSetters.
Import TriangleBracketNotations.

#[local] Arguments constant _ _ _ /.

(** ** Asking for the link *)

Record ResetPage := mkReset {
  rs_email : string;
  rs_loading : bool;
  sent : bool;
  resending : bool;
  rs_toasts : list UiToast;
}.

Definition mountReset : ResetPage := mkReset "" false false false [].

(** The one request, answered by its status; an error has the message of the server. *)
Inductive RsRequest : Type := ResetPost (email : string).
Definition RsResponse (r : RsRequest) : Type := Z.

Notation RsHandler := (Prog (option string) RsRequest ResetPage RsResponse unit).

Definition resetToast (k : ToastKind) (t : string) (s : ResetPage) : ResetPage :=
  s <| rs_toasts := (rs_toasts s ++ [mkToast k t])%list |>.
Definition setResetLoading (b : bool) (s : ResetPage) : ResetPage := s <| rs_loading := b |>.
Definition setResending (b : bool) (s : ResetPage) : ResetPage := s <| resending := b |>.
Definition setSent (s : ResetPage) : ResetPage := s <| sent := true |>.

Definition requestReset (s : ResetPage) : RsHandler :=
  perform (setResetLoading true);;
  finally
    (try_async
       (status ← await (ResetPost (rs_email s));
        match bool_decide (status = 204) with
        | true => perform setSent;; perform (resetToast ToastSuccess "Reset instructions sent to your email.")
        | false => mret ()
        end)
       (fun e => perform (resetToast ToastError (opt_or e "Failed to send reset instructions."))))
    (setResetLoading false).

Definition handleResend (s : ResetPage) : RsHandler :=
  perform (setResending true);;
  finally
    (try_async
       (status ← await (ResetPost (rs_email s));
        match bool_decide (status = 204) with
        | true => perform (resetToast ToastSuccess "Reset instructions resent.")
        | false => mret ()
        end)
       (fun e => perform (resetToast ToastError (opt_or e "Failed to resend reset instructions."))))
    (setResending false).

(** The form shows until the link was sent; its address is required. *)
Inductive RsInvoke : Set := ResetSubmit | ResendClick.
Definition rs_handler (h : RsInvoke) (s : ResetPage) : RsHandler :=
  match h with
  | ResetSubmit => if negb (sent s) && negb (rs_loading s) && truthy (rs_email s) then requestReset s else mret ()
  | ResendClick => if sent s && negb (resending s) then handleResend s else mret ()
  end.
Definition typeResetEmail (v : string) (s : ResetPage) : ResetPage :=
  if sent s || rs_loading s then s else s <| rs_email := v |>.

Notation RsSystem := (Sys (option string) RsRequest ResetPage RsResponse).
Notation RsWorld := (World (option string) RsRequest RsResponse).

Inductive RsEvent : Type :=
| RsClick (h : RsInvoke)
| RsAnswered (i : nat) (w : RsWorld)
| RsTyped (v : string).
Definition rs_ev (e : RsEvent) : SysEvent (option string) RsRequest ResetPage RsResponse :=
  match e with RsClick h => Start (rs_handler h) | RsAnswered i w => Answer i w | RsTyped v => Other (typeResetEmail v) end.
Definition rs_step (y : RsSystem) (e : RsEvent) : RsSystem := sys_step id y (rs_ev e).

(** ** The page of the link *)

(** [token] is the parameter of the route, [rc_paths] are the navigations. *)
Record ConfirmPage := mkConfirm {
  token : option string;
  newPassword : string;
  confirmPassword : string;
  rc_otp : string;
  rc_showOtp : bool;
  rc_loading : bool;
  rc_paths : list string;
  rc_toasts : list UiToast;
}.

Definition mountConfirm (token : option string) : ConfirmPage := mkConfirm token "" "" "" false false [] [].

Inductive RcRequest : Type := ResetConfirm (token new_password otp : string) (mfaMethods : list string).
Definition RcResponse (r : RcRequest) : Type := unit.

(** [details] is a string or a list. *)
Inductive Details : Type := DetailText (s : string) | DetailList (l : list string).
Record RcError := mkRcError { rc_status : option Z; rc_error : option string; rc_details : option Details }.

Notation RcHandler := (Prog RcError RcRequest ConfirmPage RcResponse unit).

Definition confirmToast (k : ToastKind) (t : string) (s : ConfirmPage) : ConfirmPage :=
  s <| rc_toasts := (rc_toasts s ++ [mkToast k t])%list |>.
Definition setConfirmLoading (b : bool) (s : ConfirmPage) : ConfirmPage := s <| rc_loading := b |>.
Definition setShowOtp (s : ConfirmPage) : ConfirmPage := s <| rc_showOtp := true |>.

Definition PASSWORD_COMPLEXITY_RULES : string :=
  "Password must be 12-64 characters, contain at least one uppercase letter, one lowercase letter, one number, and one special character.".

(** A text is searched as it is, the elements of a list in lower case. *)
Definition mentionsPassword (d : option Details) : bool :=
  match d with
  | Some (DetailText s) => includes s "password"
  | Some (DetailList l) => existsb (fun s => includes (toLowerCase s) "password") l
  | None => false
  end.

Definition INVALID_REQUEST : string := "Invalid request. Please check your input.".

Definition badRequestText (e : RcError) : string :=
  if bool_decide (rc_error e = Some "token expired") then "Reset password token has expired. Please request a new one."
  else if bool_decide (rc_error e = Some "invalid request") then
    if mentionsPassword (rc_details e) then PASSWORD_COMPLEXITY_RULES else INVALID_REQUEST
  else opt_or (rc_error e) INVALID_REQUEST.

Definition confirmError (e : RcError) (s : ConfirmPage) : ConfirmPage :=
  if bool_decide (rc_status e = Some 400) then confirmToast ToastError (badRequestText e) s
  else if bool_decide (rc_status e = Some 401) then
    if bool_decide (rc_error e = Some "TOTP is required")
    then confirmToast ToastInfo "Two-factor authentication required. Please enter your code." (setShowOtp s)
    else s
  else if bool_decide (rc_status e = Some 500) then confirmToast ToastError "Server error. Please try again later." s
  else confirmToast ToastError (opt_or (rc_error e) "Failed to reset password.") s.

Definition confirmRefused (s : ConfirmPage) : option string :=
  if negb (truthy_opt (token s)) then Some "Invalid or missing token."
  else if negb (truthy (newPassword s)) || negb (truthy (confirmPassword s)) then Some "Please fill in all fields."
  else if negb (String.eqb (newPassword s) (confirmPassword s)) then Some "Passwords do not match."
  else None.

(** The login page is told, and shows a message. *)
Definition toLogin (s : ConfirmPage) : ConfirmPage := s <| rc_paths := (rc_paths s ++ ["/login"])%list |>.

Definition handleReset (s : ConfirmPage) : RcHandler :=
  match confirmRefused s with
  | Some why => perform (confirmToast ToastError why)
  | None =>
      perform (setConfirmLoading true);;
      finally
        (try_async
           (await (ResetConfirm (token s ?? "") (newPassword s) (rc_otp s) ["totp"]);; perform toLogin)
           (fun e => perform (confirmError e)))
        (setConfirmLoading false)
  end.

(** The fields are required, the code once it shows. *)
Definition submitConfirm (s : ConfirmPage) : RcHandler :=
  if negb (rc_loading s) && truthy (newPassword s) && truthy (confirmPassword s) && (negb (rc_showOtp s) || truthy (rc_otp s))
  then handleReset s else mret ().

Inductive RcUpdate : Type := TypeNew (v : string) | TypeConfirm (v : string) | TypeCode (v : string).
Definition rc_update (u : RcUpdate) (s : ConfirmPage) : ConfirmPage :=
  if rc_loading s then s else
  match u with
  | TypeNew v => s <| newPassword := v |>
  | TypeConfirm v => s <| confirmPassword := v |>
  | TypeCode v => if rc_showOtp s then s <| rc_otp := str_take 8 v |> else s
  end.

Notation RcWorld := (World RcError RcRequest RcResponse).

(** ** What holds *)

Implicit Types (s : ConfirmPage) (w : RcWorld).

Ltac run_reset := cbn [drain mbind prog_bind perform finally try_async await fst snd mret prog_ret].

(** a reset is sent only with a token and a password that was entered twice; whatever is answered the page
    stops loading, and a reset that was made leads to the login page *)
Theorem reset_needs_token_and_password s w f :
  sends (fun q => match q with ResetConfirm t new otp _ =>
      token s = Some t /\ truthy t = true /\ new = newPassword s /\ new = confirmPassword s /\ truthy new = true /\ otp = rc_otp s
    end) (submitConfirm s) /\
  (confirmRefused s = None ->
   exists s', play id [(f, w)] (handleReset s) s = (s', Ret ()) /\ rc_loading s' = false /\
     match w (ResetConfirm (token s ?? "") (newPassword s) (rc_otp s) ["totp"]) with
     | Ok _ => rc_paths s' = rc_paths (f (setConfirmLoading true s)) ++ ["/login"] /\
         rc_toasts s' = rc_toasts (f (setConfirmLoading true s))
     | Throw e => rc_paths s' = rc_paths (f (setConfirmLoading true s))
     end).
Proof.
  split.
  - unfold submitConfirm, handleReset. destruct (_ && _); [|done]. destruct (confirmRefused s) eqn:Hr; [done|].
    unfold confirmRefused in Hr. destruct (token s) as [t|]; [|done]. change (truthy_opt (Some t)) with (truthy t) in Hr.
    destruct (truthy t) eqn:Ht; [|done]. destruct (truthy (newPassword s)) eqn:Hn; [|done].
    destruct (truthy (confirmPassword s)) eqn:Hc; [|done]. cbn [negb orb] in Hr.
    destruct (String.eqb_spec (newPassword s) (confirmPassword s)) as [E|]; [|done].
    cbn. split; [by repeat split|]. by intros [u|e].
  - intros Hr. rewrite play_one. unfold handleReset. rewrite Hr. unfold resume, advance. run_reset.
    destruct (w _) as [u|e]; run_reset; eexists; (split; [reflexivity|]); (split; [reflexivity|]); [by split|].
    unfold confirmError. repeat case_bool_decide; done.
Qed.

(** every refusal of the server is answered with one message, except a refusal with 401 that does not ask
    for a code - as for a wrong code: the page says nothing at all *)
Theorem wrong_code_says_nothing s w e :
  confirmRefused s = None -> w (ResetConfirm (token s ?? "") (newPassword s) (rc_otp s) ["totp"]) = Throw e ->
  exists s', play id [(id, w)] (handleReset s) s = (s', Ret ()) /\
    if bool_decide (rc_status e = Some 401) && negb (bool_decide (rc_error e = Some "TOTP is required"))
    then s' = setConfirmLoading false s
    else exists k text, truthy text = true /\ rc_toasts s' = rc_toasts s ++ [mkToast k text].
Proof.
  intros Hr Hw. rewrite play_one. unfold handleReset. rewrite Hr. unfold resume, advance. run_reset. rewrite Hw. run_reset.
  eexists. split; [reflexivity|].
  assert (forall d, truthy d = true -> truthy (opt_or (rc_error e) d) = true) as Hor.
  { intros d Hd. unfold opt_or, str_or. by destruct (truthy (default "" (rc_error e))) eqn:E. }
  unfold confirmError, id. destruct (bool_decide (rc_status e = Some 400)) eqn:E400.
  - apply bool_decide_eq_true in E400. rewrite (bool_decide_false (rc_status e = Some 401)) by congruence. cbn [andb].
    eexists _, (badRequestText e). split; [|done]. unfold badRequestText.
    repeat case_bool_decide; [done|by destruct (mentionsPassword _)|by apply Hor].
  - destruct (bool_decide (rc_status e = Some 401)); cbn [andb].
    + destruct (bool_decide (rc_error e = Some "TOTP is required")); cbn [negb]; [by (eexists _, _; split; [|reflexivity])|done].
    + destruct (bool_decide (rc_status e = Some 500)); [by (eexists _, _; split; [|reflexivity])|]. eexists _, _. split; [|reflexivity]. by apply Hor.
Qed.

(** the page of the link waits for an answer while it says so *)
Theorem reset_page_settles evs :
  let y := run rs_step (mkSys mountReset []) evs in
  inflight y = [] -> rs_loading (ui y) = false /\ resending (ui y) = false.
Proof.
  intros y. unfold y. rewrite (run_map rs_ev (sys_step id) rs_step) by done. intros Hnil.
  assert (forall (busy : ResetPage -> bool), busy mountReset = false ->
    (forall h (r : ResetPage), well_behaved busy (rs_handler h r)) -> (forall v (r : ResetPage), busy (typeResetEmail v r) = busy r) ->
    busy (ui (run (sys_step id) (mkSys mountReset []) (map rs_ev evs))) = false) as H.
  { intros busy H0 Hh Hu. refine (proj2 (busy_settles id busy (fun r H => H) mountReset (map rs_ev evs) H0 _) Hnil).
    apply Forall_forall. intros ev (e & -> & _)%list_elem_of_fmap. destruct e as [h|i w|v]; cbn; [apply Hh|done|].
    intros r. by rewrite Hu. }
  split; apply H; try done.
  - intros h r. destruct h; cbn [rs_handler]; (destruct (_ && _); [|by left]).
    + right. eexists _, _. split; [reflexivity|]. intros r'. apply ends_finally. by intros.
    + left. split; [done|]. cbn. intros [st|e]; cbn; [by destruct (bool_decide _)|done].
  - intros v r. unfold typeResetEmail. by destruct (_ || _).
  - intros h r. destruct h; cbn [rs_handler]; (destruct (_ && _); [|by left]).
    + left. split; [done|]. cbn. intros [st|e]; cbn; [by destruct (bool_decide _)|done].
    + right. eexists _, _. split; [reflexivity|]. intros r'. apply ends_finally. by intros.
  - intros v r. unfold typeResetEmail. by destruct (_ || _).
Qed.

(** ** Witnesses *)

Definition confirm_ready : ConfirmPage :=
  foldl (fun s u => rc_update u s) (mountConfirm (Some "token")) [TypeNew "secret"; TypeConfirm "secret"].

Lemma wrong_code_says_nothing_witness :
  let w : RcWorld := fun _ => Throw (mkRcError (Some 401) (Some "incorrect OTP") None) in
  exists s', play id [(id, w)] (handleReset confirm_ready) confirm_ready = (s', Ret ()) /\ rc_toasts s' = [].
Proof.
  intros w. destruct (wrong_code_says_nothing confirm_ready w (mkRcError (Some 401) (Some "incorrect OTP") None) eq_refl eq_refl)
    as (s' & Hp & Hs). exists s'. split; [exact Hp|]. rewrite Hs. reflexivity.
Defined.

Lemma reset_page_settles_witness : rs_loading (ui (run rs_step (mkSys mountReset []) [RsTyped "a@b"; RsClick ResetSubmit; RsAnswered 0 (fun _ => Ok 204)])) = false.
Proof. apply (reset_page_settles [RsTyped "a@b"; RsClick ResetSubmit; RsAnswered 0 (fun _ => Ok 204)]). reflexivity. Defined.
