(* ===== verification/Subscription.v ===== *)
(** * The subscription card

    [src/app/src/components/AccountSubscription.tsx]: the card of the account page reads the subscription
    as it is mounted, and syncs it first when the address carries the session of a sync. *)

From S2P Require Import Prelude JsString ApiTypes Store Async Signup.
From coqutil Require Import Datatypes.RecordSetters.
Import TriangleBracketNotations.

#[local] Arguments constant _ _ _ /.

(** ** State *)

Record ModelSubscription := mkSubscription {
  sub_status : option string;
  sub_type : option string;
  sub_deletion_scheduled_at : option string;
  sub_outage : bool;
  sub_active_until : option string;
  sub_updated_at : option string;
}.

(** [sb_sessionid] and [sb_subid] are the parameters of the address. *)
Record SubscriptionCard := mkCard {
  sb_store : AppState;
  sb_sessionid : string;
  sb_subid : string;
  sub : option ModelSubscription;
  sb_error : string;
  syncing : bool;
  sb_toasts : list UiToast;
}.

Definition mountCard (st : AppState) (sessionid subid : option string) : SubscriptionCard :=
  mkCard st (opt_or sessionid "") (opt_or subid "") None "" false [].

(** ** Requests *)

Inductive SbRequest : Type := SubGet | PaRotate (sessionid : string) | SubUpdate (subid : option string).
Definition SbResponse (r : SbRequest) : Type := match r with SubGet => ModelSubscription | _ => unit end.

(** An error is the status of its response. *)
Notation SbHandler := (Prog (option Z) SbRequest SubscriptionCard SbResponse unit).

Definition setSyncing (b : bool) (s : SubscriptionCard) : SubscriptionCard := s <| syncing := b |>.
Definition setError (e : string) (s : SubscriptionCard) : SubscriptionCard := s <| sb_error := e |>.
Definition showToast (k : ToastKind) (t : string) (s : SubscriptionCard) : SubscriptionCard :=
  s <| sb_toasts := (sb_toasts s ++ [mkToast k t])%list |>.

Definition storeSubscription (x : ModelSubscription) (st : AppState) : AppState :=
  set_field (setSubscriptionDeletionScheduled (truthy_opt (sub_deletion_scheduled_at x)))
    (set_field (setSubscriptionType (sub_type x)) (set_field (setSubscriptionStatus (sub_status x)) st)).
Definition setSub (x : ModelSubscription) (s : SubscriptionCard) : SubscriptionCard :=
  s <| sub := Some x |> <| sb_store := storeSubscription x (sb_store s) |>.

Definition LOAD_FAILED : string := "Failed to load subscription.".
Definition SYNCED : string := "Your account has been successfully synced.".

Definition fetchSubscription : SbHandler :=
  try_async (x ← await SubGet; perform (setSub x)) (fun _ => perform (setError LOAD_FAILED)).

Definition syncError (status : option Z) : string :=
  if bool_decide (status = Some 409)
  then "This modDNS account has been replaced by a new signup and can no longer be synced."
  else "Failed to sync subscription. Please try again.".

Definition updateBody (subid : string) : option string := if isUUIDv4 subid then Some subid else None.
Definition startSync (s : SubscriptionCard) : SubscriptionCard := setError "" (setSyncing true s).

Definition resync (s : SubscriptionCard) : SbHandler :=
  if negb (truthy (sb_sessionid s)) then mret () else
  perform startSync;;
  finally
    (try_async
       (await (PaRotate (sb_sessionid s));;
        await (SubUpdate (updateBody (sb_subid s)));;
        fetchSubscription;;
        perform (showToast ToastSuccess SYNCED))
       (fun e => perform (setError (syncError e))))
    (setSyncing false).

(** The two effects of the mount; neither waits for the other. *)
Inductive SbInvoke : Set := MountFetch | MountSync.
Definition sb_handler (h : SbInvoke) (s : SubscriptionCard) : SbHandler :=
  match h with MountFetch => fetchSubscription | MountSync => resync s end.

Notation SbSystem := (Sys (option Z) SbRequest SubscriptionCard SbResponse).
Notation SbWorld := (World (option Z) SbRequest SbResponse).

Inductive SbEvent : Type := SbMounted (h : SbInvoke) | SbAnswered (i : nat) (w : SbWorld).
Definition sb_ev (e : SbEvent) : SysEvent (option Z) SbRequest SubscriptionCard SbResponse :=
  match e with SbMounted h => Start (sb_handler h) | SbAnswered i w => Answer i w end.
Definition sb_step (y : SbSystem) (e : SbEvent) : SbSystem := sys_step id y (sb_ev e).

(** ** What the card shows *)

Definition hasSubStatus (x : ModelSubscription) (v : string) : bool := bool_decide (sub_status x = Some v).
Definition subIsActive (x : ModelSubscription) : bool := hasSubStatus x "active" || hasSubStatus x "grace_period".
Definition subIsCutOff (x : ModelSubscription) : bool := hasSubStatus x "inactive" || hasSubStatus x "pending_delete".

(** The intent and the text of the badge. *)
Definition statusBadge (s : SubscriptionCard) (x : ModelSubscription) : string * string :=
  if syncing s then ("info", "Syncing...")
  else if subIsActive x then ("success", "Active")
  else if hasSubStatus x "limited_access" then ("warning", "Limited")
  else if hasSubStatus x "pending_delete" then ("error", "Scheduled for deletion")
  else ("neutral", "Inactive").

Section card.
(** [toLocaleDateString] of the browser. *)
Context (localeDate : string -> string).

Definition formatDate (d : option string) : string := if truthy_opt d then localeDate (d ?? "") else "--".

Definition cardRows (x : ModelSubscription) : list (string * string) :=
  if negb (hasSubStatus x "limited_access") && negb (subIsCutOff x) then [("Active until", formatDate (sub_active_until x))] else [].

Record CardView := mkCardView { badge : string * string; rows : list (string * string); outage : bool; alert : option string }.
(** Nothing shows before a subscription was read. *)
Definition cardView (s : SubscriptionCard) : option CardView :=
  x ← sub s;
  Some (mkCardView (statusBadge s x) (cardRows x) (sub_outage x) (if truthy (sb_error s) then Some (sb_error s) else None)).
End card.

(** ** What holds *)

Implicit Types (s : SubscriptionCard) (w : SbWorld).

Lemma stored_status x st : subscriptionStatus (storeSubscription x st) = sub_status x.
Proof. by destruct st. Qed.

Ltac run_sub := cbn [drain mbind prog_bind perform finally try_async await fst snd mret prog_ret].

(** a card that shows a subscription agrees with what the rest of the application does about it: it shows
    the day the subscription ends, or says that it is active, only for an account that is not restricted *)
Theorem badge_agrees_with_guard localeDate s x :
  syncing s = false -> sub_status x <> None ->
  let s' := setSub x s in
  let g := useSubscriptionGuard (sb_store s') in
  (statusBadge s' x = ("success", "Active") <-> canMutate g = true) /\
  (cardRows localeDate x <> [] <-> isRestricted g = false) /\
  (statusBadge s' x = ("error", "Scheduled for deletion") <-> isPendingDelete g = true).
Proof.
  intros Hs Hx. cbv zeta.
  assert (useSubscriptionGuard (sb_store (setSub x s)) = useSubscriptionGuard (storeSubscription x (sb_store s))) as -> by done.
  unfold useSubscriptionGuard, statusBadge, cardRows, subIsActive, subIsCutOff, hasSubStatus.
  change (syncing (setSub x s)) with (syncing s). rewrite Hs.
  cbn [canMutate isRestricted isPendingDelete]. rewrite !stored_status.
  destruct (sub_status x) as [v|]; [|done]. rewrite (bool_decide_false (Some v = None)) by done.
  assert (forall c, bool_decide (Some v = Some c) = String.eqb v c) as Hd
    by (intros c; destruct (String.eqb_spec v c); [by rewrite bool_decide_true by congruence|by rewrite bool_decide_false by congruence]).
  rewrite !Hd. clear Hd.
  destruct (String.eqb_spec v "active") as [->|]; [by vm_compute|].
  destruct (String.eqb_spec v "grace_period") as [->|]; [by vm_compute|].
  destruct (String.eqb_spec v "limited_access") as [->|]; [by vm_compute|].
  destruct (String.eqb_spec v "pending_delete") as [->|]; [by vm_compute|].
  destruct (String.eqb_spec v "inactive") as [->|]; [by vm_compute|]. cbn. naive_solver.
Qed.

(** a sync that the server accepts ends with the subscription of the server on the card and in the store;
    one that it refuses leaves both and says why *)
Theorem sync_ends s w :
  truthy (sb_sessionid s) = true ->
  match w (PaRotate (sb_sessionid s)), w (SubUpdate (updateBody (sb_subid s))), w SubGet with
  | Ok _, Ok _, Ok x =>
      exists s', play id [(id, w); (id, w); (id, w)] (resync s) s = (s', Ret ()) /\ syncing s' = false /\ sub s' = Some x /\
        sb_error s' = "" /\ sb_store s' = storeSubscription x (sb_store s) /\
        sb_toasts s' = sb_toasts s ++ [mkToast ToastSuccess SYNCED]
  | Throw e, _, _ =>
      exists s', play id [(id, w)] (resync s) s = (s', Ret ()) /\ syncing s' = false /\ sub s' = sub s /\
        sb_error s' = syncError e /\ sb_store s' = sb_store s /\ sb_toasts s' = sb_toasts s
  | Ok _, Throw e, _ =>
      exists s', play id [(id, w); (id, w)] (resync s) s = (s', Ret ()) /\ syncing s' = false /\ sub s' = sub s /\
        sb_error s' = syncError e /\ sb_store s' = sb_store s /\ sb_toasts s' = sb_toasts s
  | Ok _, Ok _, Throw _ => True
  end.
Proof.
  intros Ht. unfold resync. rewrite Ht. cbn [negb]. unfold play, answers, resume, advance. run_sub.
  destruct (w (PaRotate _)) as [[]|e]; run_sub; [|eexists; by repeat split].
  destruct (w (SubUpdate _)) as [[]|e]; run_sub; [|eexists; by repeat split].
  destruct (w SubGet) as [x|e] eqn:Hg; [|done].
  unfold fetchSubscription. run_sub. rewrite Hg. run_sub. eexists. by repeat split.
Qed.

(** when the subscription cannot be read after a sync, the card says both that it was synced and that it
    could not be loaded, and keeps the subscription from before *)
Theorem unread_sync_is_announced s w e :
  truthy (sb_sessionid s) = true -> w (PaRotate (sb_sessionid s)) = Ok tt ->
  w (SubUpdate (updateBody (sb_subid s))) = Ok tt -> w SubGet = Throw e ->
  exists s', play id [(id, w); (id, w); (id, w)] (resync s) s = (s', Ret ()) /\ sub s' = sub s /\
    sb_error s' = LOAD_FAILED /\ sb_toasts s' = sb_toasts s ++ [mkToast ToastSuccess SYNCED].
Proof.
  intros Ht Hr Hu Hg. unfold resync. rewrite Ht. cbn [negb]. unfold play, answers, resume, advance. run_sub.
  rewrite Hr. run_sub. rewrite Hu. run_sub. unfold fetchSubscription. run_sub. rewrite Hg. run_sub. eexists. by repeat split.
Qed.

(** the subscription that was asked for before a sync, answered after it, replaces what the sync read: the
    card and the store show the state from before *)
Theorem answer_before_sync_wins st sessionid subid w old new :
  truthy sessionid = true -> w (PaRotate sessionid) = Ok tt -> w (SubUpdate (updateBody subid)) = Ok tt ->
  let fresh : SbWorld := fun r => match r with SubGet => Ok new | r => w r end in
  let stale : SbWorld := fun r => match r with SubGet => Ok old | r => w r end in
  let y := run sb_step (mkSys (mountCard st (Some sessionid) (Some subid)) [])
    [SbMounted MountFetch; SbMounted MountSync; SbAnswered 1 fresh; SbAnswered 1 fresh; SbAnswered 1 fresh; SbAnswered 0 stale] in
  inflight y = [] /\ sub (ui y) = Some old /\ subscriptionStatus (sb_store (ui y)) = sub_status old /\
  sb_toasts (ui y) = [mkToast ToastSuccess SYNCED].
Proof.
  intros Ht Hr Hu fresh stale y.
  assert (opt_or (Some sessionid) "" = sessionid /\ opt_or (Some subid) "" = subid) as [E1 E2].
  { unfold opt_or, str_or. cbn. rewrite Ht. destruct (truthy subid) eqn:E; [done|]. by apply truthy_false in E as ->. }
  unfold y, run, sb_step, mountCard. rewrite E1, E2. clear E1 E2 y.
  cbn -[truthy updateBody resync]. unfold resync. cbn -[truthy updateBody]. rewrite Ht.
  do 4 (unfold resume, advance, fresh, stale; cbn -[truthy updateBody]; rewrite ?Hr, ?Hu). cbn -[truthy updateBody].
  by rewrite stored_status.
Qed.

(** a subscription that cannot be read shows nothing, not even that it failed *)
Theorem first_failure_is_hidden localeDate st sessionid subid w e :
  w SubGet = Throw e ->
  exists s', play id [(id, w)] fetchSubscription (mountCard st sessionid subid) = (s', Ret ()) /\
    sb_error s' = LOAD_FAILED /\ cardView localeDate s' = None.
Proof. intros Hw. rewrite play_one. unfold fetchSubscription, resume, advance. run_sub. rewrite Hw. run_sub. eexists. by repeat split. Qed.

(** ** Witnesses *)

Definition a_subscription (status : string) : ModelSubscription := mkSubscription (Some status) None None false None None.
Definition sync_uuid : string := "12345678-1234-4123-8123-123456789abc".
Definition sync_world : SbWorld := fun r => match r with SubGet => Ok (a_subscription "active") | _ => Ok tt end.
Definition sync_card : SubscriptionCard := mountCard initialState (Some sync_uuid) (Some sync_uuid).

Lemma badge_agrees_with_guard_witness :
  canMutate (useSubscriptionGuard (sb_store (setSub (a_subscription "active") sync_card))) = true.
Proof. apply (badge_agrees_with_guard (fun d => d) sync_card (a_subscription "active")); [reflexivity|discriminate|reflexivity]. Defined.

Lemma sync_ends_witness :
  exists s', play id [(id, sync_world); (id, sync_world); (id, sync_world)] (resync sync_card) sync_card = (s', Ret ()) /\
    sub s' = Some (a_subscription "active").
Proof.
  destruct (sync_ends sync_card sync_world eq_refl) as (s' & Hp & _ & Hs & _). exists s'. split; [exact Hp|exact Hs].
Defined.

Lemma unread_sync_is_announced_witness :
  let w : SbWorld := fun r => match r with SubGet => Throw None | _ => Ok tt end in
  exists s', play id [(id, w); (id, w); (id, w)] (resync sync_card) sync_card = (s', Ret ()) /\ sb_error s' = LOAD_FAILED.
Proof.
  intros w. destruct (unread_sync_is_announced sync_card w None eq_refl eq_refl eq_refl eq_refl) as (s' & Hp & _ & He & _).
  exists s'. split; [exact Hp|exact He].
Defined.

Lemma answer_before_sync_wins_witness :
  sub (ui (run sb_step (mkSys sync_card [])
    [SbMounted MountFetch; SbMounted MountSync; SbAnswered 1 sync_world; SbAnswered 1 sync_world; SbAnswered 1 sync_world;
     SbAnswered 0 (fun r => match r with SubGet => Ok (a_subscription "limited_access") | r => sync_world r end)]))
  = Some (a_subscription "limited_access").
Proof.
  exact (proj1 (proj2 (answer_before_sync_wins initialState sync_uuid sync_uuid sync_world (a_subscription "limited_access")
    (a_subscription "active") eq_refl eq_refl eq_refl))).
Defined.

Lemma first_failure_is_hidden_witness :
  let w : SbWorld := fun r => match r with SubGet => Throw None | _ => Ok tt end in
  exists s', play id [(id, w)] fetchSubscription (mountCard initialState None None) = (s', Ret ()) /\ cardView (fun d => d) s' = None.
Proof.
  intros w. destruct (first_failure_is_hidden (fun d => d) initialState None None w None eq_refl) as (s' & Hp & _ & Hv).
  exists s'. split; [exact Hp|exact Hv].
Defined.
