(* ===== verification/QuickRule.v ===== *)
(** * The quick rule sheet

    [src/app/src/components/custom-rules/QuickRuleSheet.tsx]: the sheet that adds one rule for a domain of
    the query log or of the Statistics page, with what its owner keeps: [pages/logs/Logs.tsx] and
    [useQuickRules] of [pages/statistics/groups.tsx]. The effect that fills the form compares the
    profile by reference: [qr_ref] counts the profile objects that were active. *)

From coqutil Require Import Datatypes.RecordSetters.
From S2P Require Import Prelude JsString ApiTypes CustomRules Formats Store Async.
Import TriangleBracketNotations.

#[local] Arguments constant _ _ _ /.

(** ** Constants *)

Definition ACTION_TO_API (a : RuleList) : string := match a with denylist => "block" | allowlist => "allow" end.
Definition ACTION_LABEL (a : RuleList) : string := match a with denylist => "Denylist" | allowlist => "Allowlist" end.
Definition ACTION_HELPER (a : RuleList) : string :=
  match a with
  | denylist => "Blocks the domain and its matching subdomains for the selected profile."
  | allowlist => "Overrides blocklists and always allows the domain when resolving."
  end.
Definition ACTION_SEQUENCE : list RuleList := [denylist; allowlist].

(** [/^www\./] *)
Definition strip_www (raw : string) : string := if startsWith raw "www." then str_drop 4 raw else raw.
Definition prefillDomain (raw mode : string) : string :=
  if String.eqb mode "exact" then raw else "*." ++s strip_www raw.

(** ** State *)

(** Who renders the sheet. The Statistics page passes [onCreated], [successToast] and [duplicateNotice]. *)
Inductive Owner : Set := OnLogs | OnStatistics.

(** What the effect of the sheet depends on. *)
Record SheetDeps := mkDeps { d_ref : nat; d_default : option RuleList; d_domain : option string; d_open : bool }.
#[export] Instance SheetDeps_eq_dec : EqDecision SheetDeps.
Proof. solve_decision. Defined.

(** [qr_page] are the profiles the page was loaded with, [qr_closed] the profile the effect that closes
    the sheet last ran for, [qr_seen] the dependencies the effect that fills it last ran with. *)
Record Sheet := mkSheet {
  qr_owner : Owner;
  qr_store : AppState;
  qr_ref : nat;
  qr_page : list ModelProfile;
  qr_closed : option string;
  qr_open : bool;
  qr_domain : option string;
  qr_default : option RuleList;
  qr_seen : SheetDeps;
  action : RuleList;
  domainValue : string;
  isSubmitting : bool;
  inputError : option string;
  duplicateValue : option string;
  addedRules : list string;
  qr_toasts : list DescToast;
}.

(** [profile_id] of [storeProfile ?? profiles[0] ?? null] *)
Definition pageProfileId (s : Sheet) : option string :=
  p_profile_id <$> match activeProfile (qr_store s) with Some p => Some p | None => head (qr_page s) end.

Definition depsOf (s : Sheet) : SheetDeps := mkDeps (qr_ref s) (qr_default s) (qr_domain s) (qr_open s).

(** The first render: nothing is open. *)
Definition mountSheet (o : Owner) (st : AppState) (ps : list ModelProfile) : Sheet :=
  let s := mkSheet o st 0 ps None false None None (mkDeps 0 None None false) denylist "" false None None [] [] in
  s <| qr_closed := pageProfileId s |>.

(** ** Updates *)

Definition subdomainsRule (p : option ModelProfile) : string :=
  (q ← p; st ← p_settings q; pr ← ps_privacy st; priv_custom_rules_subdomains_rule pr) ?? "include".

(** The effect that fills the form. *)
Definition fillForm (s : Sheet) : Sheet :=
  s <| action := qr_default s ?? denylist |>
    <| domainValue := match qr_domain s with
                      | Some d => if truthy d then prefillDomain d (subdomainsRule (activeProfile (qr_store s))) else ""
                      | None => ""
                      end |>
    <| inputError := None |> <| duplicateValue := None |>.
Definition openEffect (s : Sheet) : Sheet :=
  if bool_decide (qr_seen s = depsOf s) then s
  else (if qr_open s then fillForm s else s) <| qr_seen := depsOf s |>.

(** [handleQuickRuleSheetChange(false)] and [setSheet(null)]. The log keeps its default action. *)
Definition closeSheet (s : Sheet) : Sheet :=
  s <| qr_open := false |> <| qr_domain := None |>
    <| qr_default := match qr_owner s with OnLogs => qr_default s | OnStatistics => None end |>.

(** A switch of the profile closes the sheet. *)
Definition switchEffect (s : Sheet) : Sheet :=
  if bool_decide (qr_closed s = pageProfileId s) then s else (closeSheet s) <| qr_closed := pageProfileId s |>.

(** The effects of the child run before those of its owner; closing renders the sheet again. *)
Definition commit (s : Sheet) : Sheet := openEffect (switchEffect (openEffect s)).

Definition setActive (p : ModelProfile) (s : Sheet) : Sheet :=
  s <| qr_store := setActiveProfile (Some p) (qr_store s) |> <| qr_ref := S (qr_ref s) |>.
Definition showToast (k : ToastKind) (t : string) (d : option string) (s : Sheet) : Sheet :=
  s <| qr_toasts := (qr_toasts s ++ [mkDescToast k t d])%list |>.
Definition setInputError (e : option string) (s : Sheet) : Sheet := s <| inputError := e |>.
Definition setDuplicateValue (v : option string) (s : Sheet) : Sheet := s <| duplicateValue := v |>.
Definition setSubmitting (b : bool) (s : Sheet) : Sheet := s <| isSubmitting := b |>.

(** ** Requests *)

Inductive QrRequest : Type :=
| RulesBatchPost (profileId action : string) (values : list string)
| GetProfile (profileId : string).
Definition QrResponse (r : QrRequest) : Type :=
  match r with
  | RulesBatchPost _ _ _ => option ResponsesCreateProfileCustomRulesBatchResponse
  | GetProfile _ => ModelProfile
  end.
Notation QrHandler := (Prog CaughtError QrRequest Sheet QrResponse unit).
Notation QrSystem := (Sys CaughtError QrRequest Sheet QrResponse).
Notation QrWorld := (World CaughtError QrRequest QrResponse).

(** ** Adding the rule *)

Definition TOAST_DESCRIPTION : string := "Past queries still count here - new queries follow the rule.".
Definition successToast (o : Owner) : option string :=
  match o with OnLogs => None | OnStatistics => Some TOAST_DESCRIPTION end.
Definition duplicateNotice (o : Owner) : bool := match o with OnLogs => false | OnStatistics => true end.

(** [`${profileId}|${domain}`] *)
Definition addedKey (profileId domain : string) : string := profileId ++s "|" ++s domain.

(** [onCreated] of the render [s0] the handler belongs to. *)
Definition onCreated (s0 : Sheet) (s : Sheet) : Sheet :=
  match qr_owner s0, qr_open s0, qr_domain s0 with
  | OnStatistics, true, Some d => s <| addedRules := addedKey (pageProfileId s0 ?? "") d :: addedRules s |>
  | _, _, _ => s
  end.
Definition isAdded (domain : string) (s : Sheet) : bool :=
  bool_decide (addedKey (pageProfileId s ?? "") domain ∈ addedRules s).

Definition NO_VALUE : string := "Enter a valid domain or hostname.".
Definition NO_PROFILE : string := "Select a profile before adding custom rules.".
Definition UNABLE : string := "Unable to add this entry.".
Definition REVIEW : string := "Review the highlighted entry before trying again.".
Definition NO_CHANGES : string := "No changes were applied.".
Definition ADD_FAILED : string := "Failed to add custom rule.".

Definition startSubmit (s : Sheet) : Sheet := setDuplicateValue None (setInputError None (setSubmitting true s)).

Definition created (response : option ResponsesCreateProfileCustomRulesBatchResponse) : bool :=
  (0 <? length ((d ← response; br_created d) ?? []))%nat.
Definition skipped (response : option ResponsesCreateProfileCustomRulesBatchResponse) :=
  (d ← response; br_skipped d) ?? [].

Definition submitBody (s0 : Sheet) (profileId normalized : string) : QrHandler :=
  response ← await (RulesBatchPost profileId (ACTION_TO_API (action s0)) [normalized]);
  if created response then
    updated ← await (GetProfile profileId);
    perform (setActive updated);;
    perform (showToast ToastSuccess (normalized ++s " added to the " ++s ACTION_LABEL (action s0) ++s ".") (successToast (qr_owner s0)));;
    perform (onCreated s0);;
    perform closeSheet
  else match skipped response with
  | first :: _ =>
      if duplicateNotice (qr_owner s0) && bool_decide (bs_reason first = Some "duplicate_existing")
      then perform (setDuplicateValue (Some normalized))
      else perform (setInputError (Some (bs_message first ?? UNABLE)));;
           perform (showToast ToastWarning REVIEW None)
  | [] => perform (showToast ToastInfo NO_CHANGES None)
  end.

(** [!activeProfile?.profile_id] *)
Definition selectedId (s : Sheet) : option string :=
  p ← activeProfile (qr_store s); if truthy (p_profile_id p) then Some (p_profile_id p) else None.

Definition handleSubmit (s : Sheet) : QrHandler :=
  let normalized := normalizeRuleValue (domainValue s) in
  if negb (truthy_opt normalized) then perform (setInputError (Some NO_VALUE))
  else match selectedId s with
  | None => perform (showToast ToastError NO_PROFILE None)
  | Some id =>
      perform startSubmit;;
      finally (try_async (submitBody s id (normalized ?? ""))
                 (fun e => perform (showToast ToastError (formatApiError e ADD_FAILED) None)))
        (setSubmitting false)
  end.

Definition disabled (s : Sheet) : bool := negb (truthy (trim (domainValue s))) || isSubmitting s.

Record KeyEvent := mkKey { k_key : string; k_shift : bool; k_composing : bool; k_defaultPrevented : bool }.

(** Enter in the field of the domain. *)
Definition handleDomainKeyDown (isDesktop : bool) (e : KeyEvent) (s : Sheet) : QrHandler :=
  if negb (String.eqb (k_key e) "Enter") || k_shift e || k_composing e then mret ()
  else if negb isDesktop then mret ()
  else if disabled s then mret () else handleSubmit s.

(** [ACTION_SEQUENCE[(indexOf(action) + delta + length) % length]] *)
Definition shiftAction (delta : Z) (a : RuleList) : RuleList :=
  let n := Z.of_nat (length ACTION_SEQUENCE) in
  let i := match find_index (fun b => bool_decide (b = a)) ACTION_SEQUENCE with Some i => Z.of_nat i | None => -1 end in
  (ACTION_SEQUENCE !! Z.to_nat (Z.rem (i + delta + n) n)) ?? a.

Definition keyAction (e : KeyEvent) (a : RuleList) : RuleList :=
  let key := toLowerCase (k_key e) in
  if k_defaultPrevented e then a
  else if String.eqb key "b" || String.eqb key "d" then denylist
  else if String.eqb key "a" then allowlist
  else if String.eqb (k_key e) "ArrowLeft" then shiftAction (-1) a
  else if String.eqb (k_key e) "ArrowRight" then shiftAction 1 a
  else a.
Definition handleActionKeyDown (e : KeyEvent) (s : Sheet) : Sheet := s <| action := keyAction e (action s) |>.

(** [onValueChange] of the toggle: a press of the one that is on gives the empty value. *)
Definition pickAction (value : option RuleList) (s : Sheet) : Sheet :=
  match value with Some a => s <| action := a |> | None => s end.

(** ** The owner *)

(** [handleOpenQuickRule] and [api.open] *)
Definition openSheet (restricted : bool) (domain : option string) (a : RuleList) (s : Sheet) : Sheet :=
  match qr_owner s, domain with
  | OnLogs, None => s
  | OnLogs, Some d => if negb (truthy d) || restricted then s
                      else s <| qr_domain := Some d |> <| qr_default := Some a |> <| qr_open := true |>
  | OnStatistics, d => if restricted then s else s <| qr_open := true |> <| qr_domain := d |> <| qr_default := Some a |>
  end.

(** ** The sheet on its page *)

(** What the sheet offers, it offers while it is open. *)
Inductive QrInvoke : Type := ClickAdd | KeyInDomain (isDesktop : bool) (e : KeyEvent).
Definition qr_handler (h : QrInvoke) (s : Sheet) : QrHandler :=
  if negb (qr_open s) then mret ()
  else match h with
  | ClickAdd => if disabled s then mret () else handleSubmit s
  | KeyInDomain isDesktop e => handleDomainKeyDown isDesktop e s
  end.

Inductive QrUpdate : Type :=
| OpenSheet (restricted : bool) (domain : option string) (a : RuleList)
| CloseSheet
| PickAction (value : option RuleList)
| KeyInActions (e : KeyEvent)
| SwitchProfile (p : ModelProfile).
Definition while_open (f : Sheet -> Sheet) (s : Sheet) : Sheet := if qr_open s then f s else s.
Definition qr_update (u : QrUpdate) : Sheet -> Sheet :=
  match u with
  | OpenSheet r d a => openSheet r d a
  | CloseSheet => while_open closeSheet
  | PickAction v => while_open (pickAction v)
  | KeyInActions e => while_open (handleActionKeyDown e)
  | SwitchProfile p => setActive p
  end.

Inductive QrEvent : Type := QrInvoked (h : QrInvoke) | QrAnswered (i : nat) (w : QrWorld) | QrUpdated (u : QrUpdate).
Definition qr_ev (e : QrEvent) : SysEvent CaughtError QrRequest Sheet QrResponse :=
  match e with
  | QrInvoked h => Start (qr_handler h)
  | QrAnswered i w => Answer i w
  | QrUpdated u => Other (qr_update u)
  end.
Definition qr_step (y : QrSystem) (e : QrEvent) : QrSystem := sys_step commit y (qr_ev e).

(** ** The quick rule sheet: what it guarantees

    A submission sends one rule, the value and the action that are shown, for the active profile; every
    answer has its outcome; the button is never left disabled. What an answer does that arrives after
    the sheet was closed, or opened again for another domain. *)


#[local] Arguments created : simpl never.
#[local] Arguments skipped : simpl never.

Implicit Types (s : Sheet) (w : QrWorld).

Ltac run_qr := cbn [drain mbind prog_bind perform finally try_async await fst snd mret prog_ret].

(** ** Effects *)

Lemma openEffect_submitting s : isSubmitting (openEffect s) = isSubmitting s.
Proof. unfold openEffect. case_match; [done|]. by destruct (qr_open s). Qed.
Lemma switchEffect_submitting s : isSubmitting (switchEffect s) = isSubmitting s.
Proof. unfold switchEffect. by case_match. Qed.
Lemma commit_submitting s : isSubmitting (commit s) = isSubmitting s.
Proof. unfold commit. by rewrite openEffect_submitting, switchEffect_submitting, openEffect_submitting. Qed.

Lemma openEffect_id s : qr_seen s = depsOf s -> openEffect s = s.
Proof. intros H. unfold openEffect. by rewrite bool_decide_true by done. Qed.
Lemma switchEffect_id s : qr_closed s = pageProfileId s -> switchEffect s = s.
Proof. intros H. unfold switchEffect. by rewrite bool_decide_true by done. Qed.

(** No effect has something to do. *)
Definition settled s : Prop := qr_seen s = depsOf s /\ qr_closed s = pageProfileId s.

Lemma commit_settled_id s : settled s -> commit s = s.
Proof. intros [H1 H2]. unfold commit. rewrite (openEffect_id s H1), (switchEffect_id s H2). by apply openEffect_id. Qed.

Lemma openEffect_seen s : qr_seen (openEffect s) = depsOf (openEffect s).
Proof. unfold openEffect. case_bool_decide; [done|]. by destruct (qr_open s). Qed.
Lemma openEffect_page s : pageProfileId (openEffect s) = pageProfileId s /\ qr_closed (openEffect s) = qr_closed s.
Proof. unfold openEffect. case_bool_decide; [done|]. by destruct (qr_open s). Qed.
Lemma switchEffect_closed s : qr_closed (switchEffect s) = pageProfileId (switchEffect s).
Proof. unfold switchEffect. by case_bool_decide. Qed.

Lemma commit_settles s : settled (commit s).
Proof.
  unfold commit, settled. split; [apply openEffect_seen|].
  destruct (openEffect_page (switchEffect (openEffect s))) as [-> ->]. apply switchEffect_closed.
Qed.

(** An open sheet filled by its effect. *)
Lemma closed_sheet_fills_nothing s : qr_open s = false -> openEffect s = s <| qr_seen := depsOf s |>.
Proof. intros H. unfold openEffect. rewrite H. case_bool_decide as E; [|done]. rewrite <- E. by destruct s. Qed.

Lemma switchEffect_open s : qr_open s = false -> qr_open (switchEffect s) = false.
Proof. intros H. unfold switchEffect. by case_bool_decide. Qed.
Lemma openEffect_open s : qr_open (openEffect s) = qr_open s.
Proof. unfold openEffect. case_bool_decide; [done|]. by destruct (qr_open s) eqn:E. Qed.
Lemma commit_closed s : qr_open s = false -> qr_open (commit s) = false.
Proof. intros H. unfold commit. rewrite openEffect_open. apply switchEffect_open. by rewrite openEffect_open. Qed.

(** What the effects leave alone. *)
Lemma openEffect_keeps {A} (f : Sheet -> A) s :
  (forall s, f (fillForm s) = f s) -> (forall s d, f (s <| qr_seen := d |>) = f s) -> f (openEffect s) = f s.
Proof. intros H1 H2. unfold openEffect. case_bool_decide; [done|]. rewrite H2. destruct (qr_open s); [apply H1|done]. Qed.
Lemma sheet_commit_keeps {A} (f : Sheet -> A) s :
  (forall s, f (fillForm s) = f s) -> (forall s d, f (s <| qr_seen := d |>) = f s) ->
  (forall s c, f ((closeSheet s) <| qr_closed := c |>) = f s) -> f (commit s) = f s.
Proof.
  intros H1 H2 H3. unfold commit. rewrite openEffect_keeps by done. unfold switchEffect.
  case_bool_decide; rewrite ?H3; by apply openEffect_keeps.
Qed.
Lemma commit_store s : qr_store (commit s) = qr_store s.
Proof. by apply sheet_commit_keeps. Qed.
Lemma commit_toasts s : qr_toasts (commit s) = qr_toasts s.
Proof. by apply sheet_commit_keeps. Qed.
Lemma commit_added s : addedRules (commit s) = addedRules s.
Proof. by apply sheet_commit_keeps. Qed.
Lemma commit_owner s : qr_owner (commit s) = qr_owner s.
Proof. by apply sheet_commit_keeps. Qed.

(** ** Opening *)

(** a sheet that opens shows its domain and its action, and nothing of the one before *)
Theorem opened_sheet_is_fresh d a s :
  settled s -> qr_open s = false -> truthy d = true ->
  let s' := commit (openSheet false (Some d) a s) in
  qr_open s' = true /\ action s' = a /\ inputError s' = None /\ duplicateValue s' = None /\
  domainValue s' = prefillDomain d (subdomainsRule (activeProfile (qr_store s))) /\ settled s'.
Proof.
  intros [Hd Hc] Ho Ht. cbv zeta.
  assert (openSheet false (Some d) a s = s <| qr_domain := Some d |> <| qr_default := Some a |> <| qr_open := true |>) as ->
    by (unfold openSheet; rewrite Ht; by destruct s as [[]]).
  set (t := s <| qr_domain := Some d |> <| qr_default := Some a |> <| qr_open := true |>).
  assert (openEffect t = (fillForm t) <| qr_seen := depsOf t |>) as E.
  { unfold openEffect. rewrite bool_decide_false; [done|].
    change (qr_seen t) with (qr_seen s). rewrite Hd. intros [= _ _ E]. congruence. }
  split_and!; [| | | | |apply commit_settles].
  all: unfold commit; rewrite E, switchEffect_id by exact Hc; rewrite openEffect_id by done.
  1-4: done.
  unfold fillForm. cbn. by rewrite Ht.
Qed.

(** A domain as the pages give it: without its trailing dot and without white space. *)
Definition plain_domain (d : string) : bool :=
  truthy d && negb (endsWith d ".") && str_all (fun c => negb (is_ws c)) d.

Lemma normalize_plain d : plain_domain d = true -> normalizeRuleValue d = Some d.
Proof.
  intros [[Ht He%negb_true_iff]%andb_true_iff Hw]%andb_true_iff. unfold normalizeRuleValue.
  by rewrite trim_no_ws, Ht, He.
Qed.

Lemma endsWith_cons c d : truthy d = true -> endsWith (String c d) "." = endsWith d ".".
Proof.
  destruct d as [|e d]; [done|]. intros _.
  change (endsWith (String c (String e d)) ".") with (String.eqb (String c (String e d)) "." || endsWith (String e d) ".").
  destruct (String.eqb_spec (String c (String e d)) "."); [congruence|done].
Qed.

(** It has no empty label at its start. *)
Lemma plain_strip d : plain_domain d = true -> plain_domain (strip_www d) = true.
Proof.
  unfold strip_www. destruct (startsWith d "www.") eqn:E; [|done].
  apply startsWith_spec in E as [t ->]. change (str_drop 4 ("www." ++s t)) with t.
  unfold plain_domain. destruct t as [|c t]; [done|]. intros [[_ He]%andb_true_iff Hw]%andb_true_iff.
  cbn [String.append] in He, Hw. rewrite !endsWith_cons in He by done. by rewrite He.
Qed.

Lemma plain_prefill d mode : plain_domain d = true -> plain_domain (prefillDomain d mode) = true.
Proof.
  intros H. unfold prefillDomain. destruct (String.eqb mode "exact"); [done|].
  apply plain_strip in H. revert H. generalize (strip_www d). clear d. intros d [[Ht He]%andb_true_iff Hw]%andb_true_iff.
  unfold plain_domain. cbn [String.append]. rewrite !endsWith_cons by (done || by destruct d). by rewrite He.
Qed.

(** ** What a submission sends *)

Definition qr_request_ok s (r : QrRequest) : Prop :=
  exists id, selectedId s = Some id /\
  match r with
  | RulesBatchPost p a vs => p = id /\ a = ACTION_TO_API (action s) /\
      exists v, vs = [v] /\ normalizeRuleValue (domainValue s) = Some v /\ truthy v = true
  | GetProfile p => p = id
  end.

(** every request of the sheet is for the profile that was active when the button was pressed, in an open
    sheet that is not being submitted; it carries one value, the one that is shown, and the action that is
    shown *)
(** C32: every request of the quick rule sheet is for the profile that was active when the button
    was pressed, in an open sheet that is not being submitted; it carries one value, the one that is
    shown, and the action that is shown *)
Theorem sheet_sends_what_it_shows h s : sends (fun r => qr_open s = true /\ isSubmitting s = false /\ qr_request_ok s r) (qr_handler h s).
Proof.
  assert (qr_open s = true -> disabled s = false ->
    sends (fun r => qr_open s = true /\ isSubmitting s = false /\ qr_request_ok s r) (handleSubmit s)) as Hh.
  { intros Ho [_ Hb]%orb_false_iff. unfold handleSubmit.
    destruct (normalizeRuleValue (domainValue s)) as [v|] eqn:Hv; [|done]. change (truthy_opt (Some v)) with (truthy v).
    destruct (truthy v) eqn:Ht; cbn [negb]; [|done].
    destruct (selectedId s) as [id|] eqn:Hi; [|done].
    cbn [sends mbind prog_bind perform]. apply sends_finally, sends_try; [|done]. unfold submitBody.
    cbn. split; [split_and!; [done..|]; exists id; split_and!; [done..|]; by exists v|].
    intros [r|e]; [|done]. cbn. destruct (created r).
    - cbn. split; [split_and!; [done..|]; by exists id|]. by intros [p|e].
    - destruct (skipped r) as [|f l]; [done|]. by destruct (_ && _). }
  unfold qr_handler. destruct (qr_open s) eqn:Ho; [|done]. cbn [negb].
  destruct h as [|dk e]; unfold handleDomainKeyDown.
  - destruct (disabled s) eqn:Hd; [done|]. by apply Hh.
  - destruct (_ || _); [done|]. destruct dk; [|done]. cbn [negb].
    destruct (disabled s) eqn:Hd; [done|]. by apply Hh.
Qed.

(** ** The outcomes of a submission *)

Lemma handleSubmit_runs s id v :
  selectedId s = Some id -> normalizeRuleValue (domainValue s) = Some v -> truthy v = true ->
  handleSubmit s = (perform startSubmit;;
    finally (try_async (submitBody s id v) (fun e => perform (showToast ToastError (formatApiError e ADD_FAILED) None)))
      (setSubmitting false)).
Proof. intros Hi Hv Ht. unfold handleSubmit. rewrite Hv. change (truthy_opt (Some v)) with (truthy v). by rewrite Ht, Hi. Qed.

(** What a sheet shows after a submission that added nothing. *)
Definition refused_with s (e dup : option string) (k : ToastKind) (t : string) : Sheet :=
  showToast k t None (s <| isSubmitting := false |> <| inputError := e |> <| duplicateValue := dup |>).

(** every answer to a submission has its outcome: an added rule shows the profile of the server, is announced,
    is remembered on the Statistics page and closes the sheet; a rule that exists is named there; another refusal is
    shown with its message; a failure is announced, with the form as it was *)
Theorem submission_ends s w id v :
  settled s -> qr_open s = true -> selectedId s = Some id ->
  normalizeRuleValue (domainValue s) = Some v -> truthy v = true ->
  match w (RulesBatchPost id (ACTION_TO_API (action s)) [v]) with
  | Throw e =>
      play commit [(fun t => t, w)] (handleSubmit s) s
      = (refused_with s None None ToastError (formatApiError e ADD_FAILED), Ret ())
  | Ok r =>
      if created r then
        match w (GetProfile id) with
        | Ok p => exists s', play commit [(fun t => t, w); (fun t => t, w)] (handleSubmit s) s = (s', Ret ()) /\
            qr_open s' = false /\ isSubmitting s' = false /\ qr_store s' = setActiveProfile (Some p) (qr_store s) /\
            qr_toasts s' = qr_toasts s ++
              [mkDescToast ToastSuccess (v ++s " added to the " ++s ACTION_LABEL (action s) ++s ".") (successToast (qr_owner s))] /\
            addedRules s' = addedRules (onCreated s s)
        | Throw e => play commit [(fun t => t, w); (fun t => t, w)] (handleSubmit s) s
            = (refused_with s None None ToastError (formatApiError e ADD_FAILED), Ret ())
        end
      else play commit [(fun t => t, w)] (handleSubmit s) s = (match skipped r with
        | [] => refused_with s None None ToastInfo NO_CHANGES
        | first :: _ =>
            if duplicateNotice (qr_owner s) && bool_decide (bs_reason first = Some "duplicate_existing")
            then s <| isSubmitting := false |> <| inputError := None |> <| duplicateValue := Some v |>
            else refused_with s (Some (bs_message first ?? UNABLE)) None ToastWarning REVIEW
        end, Ret ())
  end.
Proof.
  intros Hs Ho Hi Hv Ht. rewrite (handleSubmit_runs s id v Hi Hv Ht).
  unfold play, answers, resume, advance, submitBody. run_qr.
  assert (forall t, qr_seen t = qr_seen s -> depsOf t = depsOf s -> qr_closed t = qr_closed s ->
    pageProfileId t = pageProfileId s -> commit t = t) as Hc.
  { intros t H1 H2 H3 H4. apply commit_settled_id. destruct Hs as [Hd Hc]. split; congruence. }
  rewrite (Hc (startSubmit s)) by done. cbn [QrResponse].
  destruct (w (RulesBatchPost _ _ _)) as [r|e]; run_qr; [|f_equal; by apply Hc].
  destruct (created r); run_qr.
  - rewrite (Hc (startSubmit s)) by done.
    destruct (w (GetProfile id)) as [p|e]; run_qr; [|f_equal; by apply Hc].
    eexists. split; [reflexivity|].
    rewrite commit_submitting, commit_store, commit_toasts, commit_added, commit_closed by done.
    unfold onCreated. by destruct (qr_owner s), (qr_open s), (qr_domain s).
  - destruct (skipped r) as [|first l]; run_qr; [f_equal; by apply Hc|].
    destruct (_ && _); run_qr; f_equal; by apply Hc.
Qed.

(** ** The button *)

Lemma submit_well_behaved s : well_behaved isSubmitting (handleSubmit s).
Proof.
  unfold handleSubmit. destruct (negb _); [by left|]. destruct (selectedId s) as [id|]; [|by left].
  right. eexists _, _. split; [reflexivity|]. intros t. apply ends_finally. by intros.
Qed.
Lemma qr_handler_well_behaved h s : well_behaved isSubmitting (qr_handler h s).
Proof.
  unfold qr_handler. destruct (negb _); [by left|]. destruct h as [|dk e]; unfold handleDomainKeyDown.
  - destruct (disabled s); [by left|apply submit_well_behaved].
  - destruct (_ || _); [by left|]. destruct (negb dk); [by left|]. destruct (disabled s); [by left|apply submit_well_behaved].
Qed.
Lemma qr_update_submitting u s : isSubmitting (qr_update u s) = isSubmitting s.
Proof.
  destruct u as [r d a| |x|e|p]; cbn [qr_update]; unfold while_open, openSheet, pickAction; [|by destruct (qr_open s)|by destruct (qr_open s), x|by destruct (qr_open s)|done].
  destruct (qr_owner s), d as [d|]; try done; [by destruct (_ || _)|by destruct r..].
Qed.

(** the button of the sheet is disabled by a submission only while one is in flight, and each ends by
    enabling it, whatever it is answered and whatever happens to the sheet meanwhile *)
Theorem sheet_settles o st ps evs :
  let y := run qr_step (mkSys (mountSheet o st ps) []) evs in
  (inflight y = [] -> isSubmitting (ui y) = false) /\
  (isSubmitting (ui y) = true -> exists p, p ∈ inflight y /\ forall s, ends (fun _ s' => isSubmitting s' = false) p s).
Proof.
  cbv zeta. rewrite (run_map qr_ev (sys_step commit) qr_step (fun y e => eq_refl)).
  destruct (busy_settles commit isSubmitting (unchanged_flag isSubmitting commit commit_submitting)
    (mountSheet o st ps) (map qr_ev evs) eq_refl) as [[_ Hb] Hn]; [|by split].
  apply Forall_fmap, Forall_true. intros [h|i w|u]; cbn; [apply qr_handler_well_behaved|done|].
  apply unchanged_flag, qr_update_submitting.
Qed.

(** ** Answers that come late *)

(** [close], then open for another domain, each with its render. *)
Definition reopen (d : string) (a : RuleList) s : Sheet := commit (openSheet false (Some d) a (commit (closeSheet s))).

Lemma reopened d a s :
  truthy d = true -> qr_open (reopen d a s) = true /\ inputError (reopen d a s) = None /\ settled (reopen d a s).
Proof.
  intros Hd. unfold reopen.
  destruct (opened_sheet_is_fresh d a (commit (closeSheet s)) (commit_settles _) (commit_closed (closeSheet s) eq_refl) Hd)
    as (H1 & _ & H3 & _ & _ & H6). by split_and!.
Qed.

(** a submission whose sheet was closed and opened again for another domain acts on the new form: the rule
    that was added closes it, and a refusal is shown in it *)
Theorem late_answer_reaches_next_sheet s w id v d a :
  selectedId s = Some id -> normalizeRuleValue (domainValue s) = Some v -> truthy v = true -> truthy d = true ->
  match w (RulesBatchPost id (ACTION_TO_API (action s)) [v]) with
  | Ok r =>
      if created r then
        match w (GetProfile id) with
        | Ok p => qr_open (play commit [(reopen d a, w); (fun t => t, w)] (handleSubmit s) s).1 = false
        | Throw _ => True
        end
      else match skipped r with
        | first :: _ =>
            if duplicateNotice (qr_owner s) && bool_decide (bs_reason first = Some "duplicate_existing") then True
            else
              let s' := (play commit [(reopen d a, w)] (handleSubmit s) s).1 in
              qr_open s' = true /\ inputError s' = Some (bs_message first ?? UNABLE)
        | [] => True
        end
  | Throw _ => True
  end.
Proof.
  intros Hi Hv Ht Hd. rewrite (handleSubmit_runs s id v Hi Hv Ht).
  unfold play, answers, resume, advance, submitBody. run_qr.
  destruct (w (RulesBatchPost _ _ _)) as [r|e]; [|done]. destruct (created r) eqn:Hr; run_qr.
  - rewrite Hr. run_qr. destruct (w (GetProfile id)) as [p|e]; [|done]. run_qr. by apply commit_closed.
  - destruct (skipped r) as [|first l] eqn:Hk; [done|]. destruct (_ && _) eqn:Hn; [done|].
    rewrite Hr. run_qr.
    destruct (reopened d a (commit (startSubmit s)) Hd) as (Ho & _ & Hs).
    revert Ho Hs. generalize (reopen d a (commit (startSubmit s))). intros t Ho [H1 H2].
    rewrite commit_settled_id by (split; [exact H1|exact H2]). by split.
Qed.

Lemma onCreated_store s t : qr_store (onCreated s t) = qr_store t.
Proof. unfold onCreated. by destruct (qr_owner s), (qr_open s), (qr_domain s). Qed.

(** a rule that was added before the profile was switched makes the profile it was added to active again *)
Theorem late_rule_switches_back s w id v p q :
  selectedId s = Some id -> normalizeRuleValue (domainValue s) = Some v -> truthy v = true ->
  match w (RulesBatchPost id (ACTION_TO_API (action s)) [v]) with Ok r => created r = true | Throw _ => False end ->
  w (GetProfile id) = Ok p -> p_profile_id p = id -> p_profile_id q <> id ->
  let switch t := commit (setActive q (commit (closeSheet t))) in
  let before := (play commit [(switch, w)] (handleSubmit s) s).1 in
  let after := (play commit [(switch, w); (fun t => t, w)] (handleSubmit s) s).1 in
  selectedId after = Some id /\ (p_profile_id <$> activeProfile (qr_store before)) = Some (p_profile_id q).
Proof.
  intros Hi Hv Ht Hw Hp E _. cbv zeta. rewrite (handleSubmit_runs s id v Hi Hv Ht).
  unfold play, answers, resume, advance, submitBody. run_qr.
  destruct (w (RulesBatchPost _ _ _)) as [r|e]; [|done]. run_qr. rewrite Hw. run_qr. rewrite Hp. run_qr.
  assert (truthy id = true) as Hid.
  { unfold selectedId in Hi. destruct (activeProfile (qr_store s)) as [x|]; [|done]. cbn in Hi.
    destruct (truthy (p_profile_id x)) eqn:Hx; [|done]. injection Hi as <-. exact Hx. }
  assert (forall x y, selectedId (commit (setSubmitting false (closeSheet (onCreated s
    (showToast ToastSuccess x y (setActive p (commit (commit (setActive q (commit (closeSheet (commit (startSubmit s)))))))))))))
    = Some id) as H1.
  { intros x y. unfold selectedId. rewrite commit_store.
    match goal with |- context [setSubmitting false (closeSheet (onCreated s ?t))] =>
      change (qr_store (setSubmitting false (closeSheet (onCreated s t)))) with (qr_store (onCreated s t));
      rewrite (onCreated_store s t) end.
    change (activeProfile (qr_store _)) with (Some p). cbn [mbind option_bind]. by rewrite E, Hid. }
  split; [apply H1|]. by rewrite !commit_store.
Qed.

(** ** The value that is filled in *)

(** the sheet of a domain that starts with [www.] proposes the rest with its subdomains, also where the
    rest is a public suffix: for [www.com] it sends the rule [*.com] *)
Theorem www_domain_blocks_its_suffix s id :
  settled s -> qr_open s = false -> selectedId s = Some id -> isSubmitting s = false ->
  subdomainsRule (activeProfile (qr_store s)) = "include" ->
  let s' := commit (openSheet false (Some "www.com") denylist s) in
  exists k, (advance commit (qr_handler ClickAdd s') s').2 = Call (RulesBatchPost id "block" ["*.com"]) k.
Proof.
  intros Hs Ho Hi Hb Hm. cbv zeta.
  destruct (opened_sheet_is_fresh "www.com" denylist s Hs Ho eq_refl) as (H1 & H2 & _ & _ & H5 & _).
  set (s' := commit (openSheet false (Some "www.com") denylist s)) in *. rewrite Hm in H5. cbn in H5.
  assert (qr_store (openSheet false (Some "www.com") denylist s) = qr_store s /\
    isSubmitting (openSheet false (Some "www.com") denylist s) = isSubmitting s) as [E1 E2]
    by (unfold openSheet; by destruct (qr_owner s)).
  assert (selectedId s' = Some id) as Hi' by (unfold selectedId, s'; by rewrite commit_store, E1).
  assert (disabled s' = false) as Hd.
  { unfold disabled. rewrite H5. unfold s'. rewrite commit_submitting, E2, Hb. reflexivity. }
  unfold qr_handler. rewrite H1, Hd. cbn [negb].
  rewrite (handleSubmit_runs s' id "*.com" Hi') by (by rewrite ?H5).
  unfold advance, submitBody. run_qr. rewrite H2. by eexists.
Qed.

(** ** Witnesses *)

Definition a_home (id : string) : ModelProfile := MkModelProfile "acc" "1" "Home" id None.
Definition a_store : AppState := setActiveProfile (Some (a_home "p1")) initialState.
Definition closed_sheet : Sheet := mountSheet OnStatistics a_store [].
Definition open_sheet : Sheet := commit (openSheet false (Some "www.ads.com") denylist closed_sheet).
Definition added_response : ResponsesCreateProfileCustomRulesBatchResponse :=
  MkResponsesCreateProfileCustomRulesBatchResponse None (Some [MkResponsesCustomRuleBatchCreated None None]) None None.
Definition adding : QrWorld := fun r =>
  match r with RulesBatchPost _ _ _ => Ok (Some added_response) | GetProfile p => Ok (a_home p) end.

Lemma opened_sheet_is_fresh_witness : domainValue open_sheet = "*.ads.com".
Proof.
  exact (proj1 (proj2 (proj2 (proj2 (proj2
    (opened_sheet_is_fresh "www.ads.com" denylist closed_sheet (conj eq_refl eq_refl) eq_refl eq_refl)))))).
Defined.

Lemma submission_ends_witness :
  exists s', play commit [(fun t => t, adding); (fun t => t, adding)] (handleSubmit open_sheet) open_sheet = (s', Ret ()) /\ qr_open s' = false.
Proof.
  destruct (submission_ends open_sheet adding "p1" "*.ads.com" (conj eq_refl eq_refl) eq_refl eq_refl eq_refl eq_refl) as (s' & Hp & Ho & _).
  exists s'. split; [exact Hp|exact Ho].
Defined.

Lemma late_answer_reaches_next_sheet_witness :
  qr_open (play commit [(reopen "tracker.net" allowlist, adding); (fun t => t, adding)] (handleSubmit open_sheet) open_sheet).1 = false.
Proof.
  exact (late_answer_reaches_next_sheet open_sheet adding "p1" "*.ads.com" "tracker.net" allowlist eq_refl eq_refl eq_refl eq_refl).
Defined.

Lemma late_rule_switches_back_witness :
  selectedId (play commit [(fun t => commit (setActive (a_home "p2") (commit (closeSheet t))), adding); (fun t => t, adding)]
    (handleSubmit open_sheet) open_sheet).1 = Some "p1".
Proof.
  refine (proj1 (late_rule_switches_back open_sheet adding "p1" "*.ads.com" (a_home "p1") (a_home "p2")
    eq_refl eq_refl eq_refl _ eq_refl eq_refl _)); [reflexivity|discriminate].
Defined.

Lemma www_domain_blocks_its_suffix_witness :
  exists k, (advance commit (qr_handler ClickAdd (commit (openSheet false (Some "www.com") denylist closed_sheet)))
    (commit (openSheet false (Some "www.com") denylist closed_sheet))).2 = Call (RulesBatchPost "p1" "block" ["*.com"]) k.
Proof. exact (www_domain_blocks_its_suffix closed_sheet "p1" (conj eq_refl eq_refl) eq_refl eq_refl eq_refl eq_refl). Defined.
