(* ===== verification/QueryLogRow.v ===== *)
(** * A row of the query log

    [src/app/src/pages/logs/QueryLogCard.tsx] and [components/ui/ReasonBadges.tsx]: what a row shows of
    one query or of a run of duplicates ([ConsolidateLogs]), and what it does when it is pressed.
    [date-fns] is the argument of the definitions: [parseISO], [format] and [formatDistanceToNow]. *)

From Stdlib Require Import ZifyNat.
From S2P Require Import Prelude JsString JsDate ApiTypes Formats ConsolidateLogs Outcomes Reasons CustomRules QuickRule.
From coqutil Require Import Datatypes.RecordSetters.
Import TriangleBracketNotations.

#[local] Arguments constant _ _ _ /.

(** ** What a row derives from its log and its group *)

Definition rowCount (group : option ConsolidatedLogGroup) : nat := (g_count <$> group) ?? 1%nat.
Definition isConsolidated (group : option ConsolidatedLogGroup) : bool := (1 <? rowCount group)%nat.
Definition rowMembers (log : ModelQueryLog) (group : option ConsolidatedLogGroup) : list ModelQueryLog :=
  (g_members <$> group) ?? [log].

Definition rawDomain (log : ModelQueryLog) : option string := r ← ql_dns_request log; dr_domain r.
Definition normalizedDomain (log : ModelQueryLog) : option string :=
  d ← rawDomain log; if truthy d then Some (stripTrailingDot d) else None.
Definition displayDomain (log : ModelQueryLog) : option string :=
  match normalizedDomain log with Some d => Some d | None => rawDomain log end.
Definition quickRuleAvailable (log : ModelQueryLog) : bool := truthy_opt (normalizedDomain log).

Definition hasStatus (log : ModelQueryLog) (v : string) : bool := bool_decide (ql_status log = Some v).
Definition isBlocked (log : ModelQueryLog) : bool := hasStatus log "blocked".
Definition isProcessed (log : ModelQueryLog) : bool := hasStatus log "processed".
Definition isUnavailable (log : ModelQueryLog) : bool := hasStatus log "unavailable".
Definition isUnanswered (log : ModelQueryLog) (group : option ConsolidatedLogGroup) : bool :=
  negb (isBlocked log) && hasUnansweredMember (rowMembers log group).

(** The slot of the status: a pill, a label, or nothing. *)
Inductive StatusIndicator : Set := PillBlocked | LabelUnanswered.
Definition statusIndicator (log : ModelQueryLog) (group : option ConsolidatedLogGroup) : option StatusIndicator :=
  if isUnanswered log group then Some LabelUnanswered
  else if isBlocked log then Some PillBlocked else None.

Definition rowReasons (log : ModelQueryLog) (group : option ConsolidatedLogGroup) : list string :=
  match group with
  | Some g => if isConsolidated group then g_members g ≫= (fun m => ql_reasons m ?? []) else ql_reasons log ?? []
  | None => ql_reasons log ?? []
  end.

(** *** DNSSEC *)

Definition dnssecValidated (log : ModelQueryLog) : bool := bool_decide ((r ← ql_dns_request log; dr_dnssec r) = Some true).
Definition dnssecFailed (reasons : list string) : bool := bool_decide ("dnssec_failed" ∈ reasons).
Inductive DnssecState : Set := DnssecFailed | DnssecValidated | DnssecNone.
Definition dnssecState (log : ModelQueryLog) (reasons : list string) : DnssecState :=
  if dnssecFailed reasons then DnssecFailed else if dnssecValidated log then DnssecValidated else DnssecNone.
Definition dnssecBadge (log : ModelQueryLog) (reasons : list string) : option DnssecState :=
  match dnssecState log reasons with DnssecNone => None | d => Some d end.
Definition dnssecDetail (d : DnssecState) : string :=
  match d with DnssecFailed => "Validation failed" | DnssecValidated => "Validated" | DnssecNone => "No DNSSEC" end.

(** *** Texts *)

Definition deviceIdOrIp (isMobile : bool) (log : ModelQueryLog) : string :=
  let rawDeviceId := opt_or (ql_device_id log) "" in
  if negb (truthy rawDeviceId) then opt_or (ql_client_ip log) ""
  else if isMobile then str_take 20 rawDeviceId else str_take 36 rawDeviceId.

Definition DOMAIN_TRUNCATE_THRESHOLD : nat := 65.
Definition isDomainTruncatable (log : ModelQueryLog) : bool :=
  match displayDomain log with
  | Some d => truthy d && (DOMAIN_TRUNCATE_THRESHOLD <? String.length d)%nat
  | None => false
  end.
(** The ellipsis is [...] here. *)
Definition truncatedDomain (log : ModelQueryLog) : option string :=
  d ← displayDomain log;
  Some (if isDomainTruncatable log then str_take DOMAIN_TRUNCATE_THRESHOLD d ++s "..." else d).
(** What the row writes for the domain. *)
Definition shownDomain (log : ModelQueryLog) : string :=
  if truthy_opt (displayDomain log) then truncatedDomain log ?? "-" else "-".

Definition protocolLabel (log : ModelQueryLog) : string :=
  match ql_protocol log with Some p => if truthy p then str_map upper_char p else "--" | None => "--" end.

Definition queryTypeText (log : ModelQueryLog) (group : option ConsolidatedLogGroup) : option string :=
  if isConsolidated group then g ← group; Some (join ", " (g_queryTypes g))
  else r ← ql_dns_request log; dr_query_type r.
Definition responseCodeText (log : ModelQueryLog) (group : option ConsolidatedLogGroup) : option string :=
  if isConsolidated group then g ← group; Some (join ", " (g_responseCodes g))
  else r ← ql_dns_request log; dr_response_code r.

Definition queryOutcomePairs (log : ModelQueryLog) (group : option ConsolidatedLogGroup) : list OutcomePair :=
  outcomePairs (match group with Some g => if isConsolidated group then g_members g else [log] | None => [log] end).

Definition reasonsLabel (log : ModelQueryLog) (reasons : list string) : string :=
  if isBlocked log then "Block reason" else if dnssecFailed reasons then "Failure reason" else "Allow reason".

(** *** Reason chips *)

Definition MAX_VISIBLE : nat := 3.
Record ReasonBadges := mkBadges { visible : list FormattedReason; overflow : list FormattedReason }.
Definition reasonBadges (reasons : list string) (blocklistNames serviceNames : gmap string string) : option ReasonBadges :=
  match formatReasons reasons blocklistNames serviceNames with
  | [] => None
  | formatted => Some (mkBadges (take MAX_VISIBLE formatted) (drop MAX_VISIBLE formatted))
  end.

(** ** Times *)

Section times.
(** [parseISO], [format] and [formatDistanceToNow] of date-fns; the latter two throw on an invalid date. *)
Context (parseISO : string -> option Z) (format : Z -> string -> string) (distanceToNow : Z -> string).

Definition INVALID_TIME : string := "Invalid time value".
Definition formatISO (ts pattern : string) : result string string :=
  match parseISO ts with Some t => Ok (format t pattern) | None => Throw INVALID_TIME end.

Definition SECONDS_PATTERN : string := "yyyy-MM-dd'T'HH:mm:ss".
Definition FULL_PATTERN : string := "MMMM d, yyyy 'at' hh:mm:ss a".
Definition CLOCK_PATTERN : string := "hh:mm:ss a".

Definition hasTimeRange (group : option ConsolidatedLogGroup) : result string bool :=
  match group with
  | Some g =>
      match g_firstTimestamp g, g_lastTimestamp g with
      | Some a, Some b =>
          if isConsolidated group && truthy a && truthy b then
            x ← formatISO a SECONDS_PATTERN; y ← formatISO b SECONDS_PATTERN; mret (negb (String.eqb x y))
          else mret false
      | _, _ => mret false
      end
  | None => mret false
  end.

(** The label and the text of the time; the dashes are [--] here. *)
Definition timeField (log : ModelQueryLog) (group : option ConsolidatedLogGroup) : result string (string * string) :=
  range ← hasTimeRange group;
  match range, group with
  | true, Some g =>
      x ← formatISO (g_firstTimestamp g ?? "") FULL_PATTERN;
      y ← formatISO (g_lastTimestamp g ?? "") CLOCK_PATTERN;
      mret ("Time range", x ++s " -- " ++s y)
  | _, _ =>
      match ql_timestamp log with
      | Some ts => if truthy ts then x ← formatISO ts FULL_PATTERN; mret ("Time", x) else mret ("Time", "--")
      | None => mret ("Time", "--")
      end
  end.

(** [TimestampDisplay] *)
Definition timestampDisplay (ts : option string) : result string (option string) :=
  match ts with
  | Some ts => if truthy ts then match parseISO ts with Some t => Ok (Some (distanceToNow t)) | None => Throw INVALID_TIME end
               else Ok None
  | None => Ok None
  end.

(** ** The row *)

(** [renderDetailField] when its value is there. *)
Definition field (b : bool) (label value : string) : list (string * string) := if b then [(label, value)] else [].
Definition opt_field (label : string) (value : option string) : list (string * string) :=
  field (truthy_opt value) label (value ?? "").

Definition DOMAIN_DISABLED : string := "Domain logging disabled".
Definition detailGrid (log : ModelQueryLog) (group : option ConsolidatedLogGroup) (time : string * string) : list (string * string) :=
  let reasons := rowReasons log group in
  [("Domain", normalizedDomain log ?? DOMAIN_DISABLED)] ++
  opt_field (if isConsolidated group then "Query types" else "Query type") (queryTypeText log group) ++
  opt_field (if isConsolidated group then "Response codes" else "Response code") (responseCodeText log group) ++
  field (bool_decide ((r ← ql_dns_request log; dr_dnssec r) <> None) || dnssecFailed reasons)
    "DNSSEC" (dnssecDetail (dnssecState log reasons)) ++
  [("Protocol", protocolLabel log); ("Occurrences", show (Z.of_nat (rowCount group)))] ++
  opt_field "Client IP" (ql_client_ip log) ++ opt_field "Device ID" (ql_device_id log) ++ [time].

Record RowView := mkRow {
  rv_domain : string;
  rv_truncated : bool;
  rv_badge : option nat;
  rv_protocol : string;
  rv_dnssec : option DnssecState;
  rv_status : option StatusIndicator;
  rv_device : string;
  rv_ago : option string;
  rv_details : list (string * string);
  rv_pairs : list OutcomePair;
  rv_reasons : option (string * option ReasonBadges);
}.

Definition rowView (isMobile : bool) (blocklistNames serviceNames : gmap string string)
    (log : ModelQueryLog) (group : option ConsolidatedLogGroup) : result string RowView :=
  time ← timeField log group;
  ago ← timestampDisplay (ql_timestamp log);
  let reasons := rowReasons log group in
  mret (mkRow (shownDomain log) (isDomainTruncatable log) (if isConsolidated group then Some (rowCount group) else None)
    (protocolLabel log) (dnssecBadge log reasons) (statusIndicator log group) (deviceIdOrIp isMobile log) ago
    (detailGrid log group time) (queryOutcomePairs log group)
    (match reasons with [] => None | _ => Some (reasonsLabel log reasons, reasonBadges reasons blocklistNames serviceNames) end)).
End times.

(** ** What a row does *)

Definition quickRuleDisabled (restricted : bool) (log : ModelQueryLog) : bool := negb (quickRuleAvailable log) || restricted.
Definition quickRuleTooltip (restricted : bool) (log : ModelQueryLog) : string :=
  if restricted then "Feature unavailable in limited access mode"
  else if quickRuleAvailable log then "Create a custom rule" else "Domain unavailable".
(** The call of [onQuickRule], if there is one. *)
Definition handleQuickRule (restricted : bool) (log : ModelQueryLog) : option (option string * RuleList) :=
  if quickRuleDisabled restricted log then None
  else Some (normalizedDomain log, if isBlocked log then allowlist else denylist).

(** Expansion: the owner's when it controls it. [ex_calls] counts the calls of [onExpand], [ex_reported]
    those of [onToggleExpanded]. *)
Record Expansion := mkExpansion { ex_prop : option bool; ex_internal : bool; ex_calls : nat; ex_reported : nat }.
Definition expanded (x : Expansion) : bool := ex_prop x ?? ex_internal x.
Definition toggleExpanded (x : Expansion) : Expansion :=
  let x := if expanded x then x else x <| ex_calls := S (ex_calls x) |> in
  match ex_prop x with
  | Some _ => x <| ex_reported := S (ex_reported x) |>
  | None => x <| ex_internal := negb (ex_internal x) |>
  end.

(** ** What holds *)

Section facts.
Context (parseISO : string -> option Z) (format : Z -> string -> string) (distanceToNow : Z -> string).
Let view := rowView parseISO format distanceToNow.

(** a row for a run of one query is the row of that query *)
Theorem singleton_row_is_plain isMobile bn sn log i :
  view isMobile bn sn log (Some (toSingletonGroup log i)) = view isMobile bn sn log None.
Proof.
  assert (hasTimeRange parseISO format (Some (toSingletonGroup log i)) = Ok false) as E
    by (unfold hasTimeRange; cbn; by destruct (ql_timestamp log)).
  unfold view, rowView, timeField. by rewrite E.
Qed.

Definition parses (ts : option string) : Prop := forall t, ts = Some t -> truthy t = true -> parseISO t <> None.

Lemma formatISO_ok ts p : parseISO ts <> None -> exists x, formatISO parseISO format ts p = Ok x.
Proof. unfold formatISO. intros H. destruct (parseISO ts); [by eexists|done]. Qed.

Lemma hasTimeRange_ok group :
  (forall g, group = Some g -> parses (g_firstTimestamp g) /\ parses (g_lastTimestamp g)) ->
  exists b, hasTimeRange parseISO format group = Ok b /\
    (b = true -> exists g t u, group = Some g /\ isConsolidated group = true /\ g_firstTimestamp g = Some t /\
      g_lastTimestamp g = Some u /\ parseISO t <> None /\ parseISO u <> None).
Proof.
  intros H. unfold hasTimeRange. destruct group as [g|]; [|by eexists].
  destruct (H g eq_refl) as [Ha Hb].
  destruct (g_firstTimestamp g) as [a|] eqn:Ea; [|by eexists]. destruct (g_lastTimestamp g) as [b|] eqn:Eb; [|by eexists].
  destruct (isConsolidated (Some g)) eqn:Ec; [|by eexists].
  destruct (truthy a) eqn:Ta; [|by eexists]. destruct (truthy b) eqn:Tb; [|by eexists]. cbn [andb].
  specialize (Ha a eq_refl Ta). specialize (Hb b eq_refl Tb).
  destruct (formatISO_ok a SECONDS_PATTERN Ha) as [x ->]. destruct (formatISO_ok b SECONDS_PATTERN Hb) as [y ->].
  eexists. split; [reflexivity|]. intros _. by exists g, a, b.
Qed.

(** a row whose time stamps are dates renders; one with a time stamp that is none makes the page throw *)
Theorem row_renders isMobile bn sn log group :
  (forall g, group = Some g -> parses (g_firstTimestamp g) /\ parses (g_lastTimestamp g)) ->
  ((exists v, view isMobile bn sn log group = Ok v) <-> parses (ql_timestamp log)).
Proof.
  intros Hg. unfold view, rowView. split.
  - intros [v Hv] t Ht Htt Hn. unfold timestampDisplay in Hv. rewrite Ht, Htt, Hn in Hv.
    by destruct (timeField _ _ _ _).
  - intros Hp.
    assert (exists x, timeField parseISO format log group = Ok x) as [x ->].
    { unfold timeField. destruct (hasTimeRange_ok group Hg) as (b & -> & Hb). cbn [mbind result_bind].
      assert (exists x : string * string, match ql_timestamp log with
        | Some ts => if truthy ts then x ← formatISO parseISO format ts FULL_PATTERN; mret ("Time", x) else mret ("Time", "--")
        | None => mret ("Time", "--") end = (Ok x : result string _)) as Hplain.
      { destruct (ql_timestamp log) as [ts|] eqn:E; [|by eexists]. destruct (truthy ts) eqn:T; [|by eexists].
        destruct (formatISO_ok ts FULL_PATTERN (Hp ts eq_refl T)) as [y ->]. by eexists. }
      destruct b; [|done]. destruct (Hb eq_refl) as (g & t & u & -> & _ & Ht & Hu & Pt & Pu).
      rewrite Ht, Hu. cbn [default from_option id].
      destruct (formatISO_ok t FULL_PATTERN Pt) as [y ->]. destruct (formatISO_ok u CLOCK_PATTERN Pu) as [z ->]. by eexists. }
    cbn [mbind result_bind]. unfold timestampDisplay.
    destruct (ql_timestamp log) as [ts|] eqn:E; [|by eexists]. destruct (truthy ts) eqn:T; [|by eexists].
    specialize (Hp ts eq_refl T). destruct (parseISO ts); [by eexists|done].
Qed.
End facts.

Section groups.
Context `{H : Host}.

Lemma consolidated_groups_ok logs maxMs : Forall (group_ok maxMs) (consolidateLogs logs maxMs).
Proof.
  rewrite consolidateLogs_loop. apply (all_runs_ind (fun _ _ gs => Forall (group_ok maxMs) gs)); [constructor|].
  intros i rep l rest l' Hok. constructor; [|done]. apply finalize_ok, take_run_all.
Qed.

Definition plain_text (m : ModelQueryLog) : Prop := Forall (fun f => lacks "000" f = true) (signature_fields m).

Lemma same_status a b : plain_text a -> plain_text b -> signature a = signature b -> isBlocked a = isBlocked b.
Proof.
  intros Ha Hb E. apply signature_inj in E; [|done..]. unfold signature_fields in E. injection E as _ E _ _ _.
  unfold isBlocked, hasStatus. destruct (ql_status a) as [x|], (ql_status b) as [y|]; cbn in E; subst; try done.
Qed.

(** the row of a run shows the pill exactly when every query of it was blocked, and the label exactly when
    none was and one of them got no answer *)
(** C34: the row of a run shows the pill exactly when every query of it was blocked, and the label
    exactly when none was and one of them got no answer *)
Theorem row_status_of_run logs maxMs g :
  g ∈ consolidateLogs logs maxMs -> Forall plain_text (g_members g) ->
  (statusIndicator (g_representative g) (Some g) = Some PillBlocked <-> Forall (fun m => isBlocked m = true) (g_members g)) /\
  (statusIndicator (g_representative g) (Some g) = Some LabelUnanswered <->
     Forall (fun m => isBlocked m = false) (g_members g) /\ hasUnansweredMember (g_members g) = true).
Proof.
  intros Hg Ht. pose proof (consolidated_groups_ok logs maxMs) as Hok. rewrite Forall_forall in Hok.
  destruct (Hok g Hg) as (rep & rest & Hm & -> & _ & Hr). rewrite Hm in Ht |- *.
  assert (Forall (fun m => isBlocked m = isBlocked rep) (rep :: rest)) as Hsame.
  { constructor; [done|]. apply Forall_cons in Ht as [Hrep Hrest]. rewrite Forall_forall in Hr, Hrest |- *.
    intros m Hin. apply same_status; [by apply Hrest|done|]. by apply Hr. }
  assert (rowMembers rep (Some g) = rep :: rest) as Hrm by exact Hm.
  unfold statusIndicator, isUnanswered. rewrite Hrm.
  destruct (isBlocked rep) eqn:Hb; cbn [negb andb].
  - split; [split; [by intros _|done]|]. split; [done|]. intros [Hf _]. apply Forall_cons in Hf as [Hf _]. congruence.
  - split.
    + split; [by destruct (hasUnansweredMember _)|]. intros Hf. apply Forall_cons in Hf as [Hf _]. congruence.
    + destruct (hasUnansweredMember _); [by split|]. split; [done|by intros [_ ?]].
Qed.

(** the reasons of a row are those of its queries, each of them *)
Theorem row_reasons_of_run logs maxMs g r :
  g ∈ consolidateLogs logs maxMs ->
  (r ∈ rowReasons (g_representative g) (Some g) <-> exists m rs, m ∈ g_members g /\ ql_reasons m = Some rs /\ r ∈ rs).
Proof.
  intros Hg. pose proof (consolidated_groups_ok logs maxMs) as Hok. rewrite Forall_forall in Hok.
  destruct (Hok g Hg) as (rep & rest & Hm & -> & Hc & _).
  assert (rowReasons rep (Some g) = g_members g ≫= (fun m => ql_reasons m ?? [])) as ->.
  { unfold rowReasons, isConsolidated, rowCount. cbn [fmap option_fmap option_map default from_option id].
    rewrite Hc, Hm. destruct rest as [|x rest]; [|done]. cbn. by rewrite app_nil_r. }
  rewrite list_elem_of_bind. split.
  - intros (m & Hr & Hin). destruct (ql_reasons m) as [rs|] eqn:E; [|by apply elem_of_nil in Hr]. by exists m, rs.
  - intros (m & rs & Hin & E & Hr). exists m. by rewrite E.
Qed.
End groups.

(** every reason has its chip: the chips that are shown and those behind the last one are all of them, and
    at most three are shown *)
Theorem no_reason_chip_is_lost reasons bn sn :
  match reasonBadges reasons bn sn with
  | Some b => visible b ++ overflow b = formatReasons reasons bn sn /\ (length (visible b) <= 3)%nat /\
      (overflow b <> [] -> length (visible b) = 3%nat)
  | None => formatReasons reasons bn sn = []
  end.
Proof.
  unfold reasonBadges. destruct (formatReasons reasons bn sn) as [|x l] eqn:E; [done|].
  cbn [visible overflow]. split_and!.
  - apply take_drop.
  - rewrite length_take. unfold MAX_VISIBLE. lia.
  - rewrite length_take. unfold MAX_VISIBLE. intros Hn.
    destruct (decide (3 <= length (x :: l))%nat); [lia|]. exfalso. apply Hn. apply drop_ge. lia.
Qed.

(** ** The quick rule of a row *)

(** the quick rule of a row asks for the opposite of what the row shows, for the domain it shows, and only
    for an account that is not restricted and a row that has a domain *)
Theorem row_rule_undoes_the_row restricted log :
  match handleQuickRule restricted log with
  | Some (d, a) => restricted = false /\ d = displayDomain log /\ truthy_opt d = true /\
      (ACTION_TO_API a = "allow" <-> isBlocked log = true)
  | None => restricted = true \/ truthy_opt (normalizedDomain log) = false
  end.
Proof.
  unfold handleQuickRule, quickRuleDisabled, quickRuleAvailable.
  destruct (truthy_opt (normalizedDomain log)) eqn:E; cbn [negb orb]; [|by right].
  destruct restricted; [by left|]. split; [done|]. unfold displayDomain.
  destruct (normalizedDomain log) as [d|]; [|done]. split; [done|]. split; [done|].
  by destruct (isBlocked log).
Qed.

(** ** Expansion *)

Lemma toggle_controlled x b : ex_prop x = Some b ->
  toggleExpanded x = mkExpansion (Some b) (ex_internal x) ((if b then 0 else 1) + ex_calls x) (S (ex_reported x)).
Proof. destruct x as [p i c r]. cbn. intros ->. by destruct b. Qed.
Lemma toggle_uncontrolled x : ex_prop x = None ->
  toggleExpanded x = mkExpansion None (negb (ex_internal x)) ((if ex_internal x then 0 else 1) + ex_calls x) (ex_reported x).
Proof. destruct x as [p i c r]. cbn. intros ->. by destruct i. Qed.

(** a row that holds its own state opens and closes in turn and reports each opening; one that its owner
    controls reports each press and leaves the state to it *)
Theorem expansion_is_the_owners x n :
  Nat.iter n toggleExpanded x =
  match ex_prop x with
  | Some b => mkExpansion (Some b) (ex_internal x) ((if b then 0 else n) + ex_calls x) (n + ex_reported x)
  | None => mkExpansion None (xorb (Nat.odd n) (ex_internal x))
      ((n + (if Nat.odd n then if ex_internal x then 0 else 1 else 0)) / 2 + ex_calls x) (ex_reported x)
  end%nat.
Proof.
  induction n as [|n IH]; [destruct x as [[[]|] [] c r]; reflexivity|].
  cbn [Nat.iter nat_rect]. change (nat_rect _ x (fun _ => toggleExpanded) n) with (Nat.iter n toggleExpanded x). rewrite IH.
  destruct (ex_prop x) as [b|].
  - erewrite toggle_controlled by reflexivity. by destruct b.
  - rewrite toggle_uncontrolled by done. cbn [ex_internal ex_calls ex_reported].
    rewrite Nat.odd_succ, <- Nat.negb_odd. destruct (Nat.odd n) eqn:Ho, (ex_internal x); cbn [xorb negb]; f_equal.
    all: rewrite ?Nat.add_0_r.
    all: first [apply Nat.odd_spec in Ho as [k ->] | assert (Nat.even n = true) as He by (by rewrite <- Nat.negb_odd, Ho);
      apply Nat.even_spec in He as [k ->]].
    all: zify; Z.to_euclidean_division_equations; lia.
Qed.

(** ** The range of a run *)

(** the time range of a run goes from its first query in the list to its last: with the newest queries
    first it runs backwards in time, and names the day of the newest only *)
Theorem range_runs_backwards parseISO format log g a b ta tb :
  isConsolidated (Some g) = true -> g_firstTimestamp g = Some a -> g_lastTimestamp g = Some b ->
  truthy a = true -> truthy b = true -> parseISO a = Some ta -> parseISO b = Some tb -> tb < ta ->
  format ta SECONDS_PATTERN <> format tb SECONDS_PATTERN ->
  timeField parseISO format log (Some g) = Ok ("Time range", format ta FULL_PATTERN ++s " -- " ++s format tb CLOCK_PATTERN).
Proof.
  intros Hc Ha Hb Ta Tb Pa Pb _ Hne. unfold timeField, hasTimeRange. rewrite Ha, Hb, Hc, Ta, Tb. cbn [andb].
  unfold formatISO. rewrite Pa, Pb. cbn [mbind result_bind]. 
  assert (String.eqb (format ta SECONDS_PATTERN) (format tb SECONDS_PATTERN) = false) as -> by (by apply String.eqb_neq).
  cbn [mret result_ret negb default from_option id]. by rewrite Pa, Pb.
Qed.

(** ** Witnesses *)

Definition row_request : ModelDNSRequest := MkModelDNSRequest None (Some "ads.com.") (Some "A") (Some "NOERROR").
Definition row_log (ts status : string) : ModelQueryLog :=
  MkModelQueryLog (Some "10.0.0.1") None (Some row_request) None (Some "timeout") (Some "p1") (Some "doh")
    (Some ["default_rule"]) (Some status) (Some ts).
Definition row_newer : ModelQueryLog := row_log "2026-06-15T10:20:32.000Z" "processed".
Definition row_older : ModelQueryLog := row_log "2026-06-15T10:20:30.000Z" "processed".
Definition row_group : ConsolidatedLogGroup := finalize row_newer [row_older] (signature row_newer) 0.

Definition row_parse (ts : string) : option Z := @Date_parse utc_host ts.
Definition row_format (t : Z) (pattern : string) : string := show t.

Lemma row_renders_witness :
  exists v, rowView row_parse row_format show false ∅ ∅ row_newer (Some row_group) = Ok v.
Proof.
  apply (row_renders row_parse row_format show false ∅ ∅ row_newer (Some row_group)).
  - intros g [= <-]. split; intros t [= <-] _; vm_compute; discriminate.
  - intros t [= <-] _. vm_compute. discriminate.
Defined.

Lemma row_status_of_run_witness :
  statusIndicator row_newer (Some row_group) = Some LabelUnanswered.
Proof.
  refine (proj2 (proj2 (@row_status_of_run utc_host [row_newer; row_older] 10000 row_group _ _)) (conj _ eq_refl)).
  - apply list_elem_of_here.
  - repeat constructor.
  - repeat constructor.
Defined.

Lemma row_reasons_of_run_witness : "default_rule" ∈ rowReasons row_newer (Some row_group).
Proof.
  apply (@row_reasons_of_run utc_host [row_newer; row_older] 10000 row_group "default_rule").
  - apply list_elem_of_here.
  - exists row_newer, ["default_rule"]. split; [apply list_elem_of_here|]. split; [reflexivity|apply list_elem_of_here].
Defined.

Lemma range_runs_backwards_witness :
  timeField row_parse row_format row_newer (Some row_group) = Ok ("Time range", "1781518832000 -- 1781518830000").
Proof.
  apply (range_runs_backwards row_parse row_format row_newer row_group "2026-06-15T10:20:32.000Z" "2026-06-15T10:20:30.000Z"
    1781518832000 1781518830000); (reflexivity || (vm_compute; discriminate) || done).
Defined.
