(* ===== verification/Statistics.v ===== *)
(** * The Statistics page

    [src/app/src/pages/statistics/Statistics.tsx]: the page around seven resources ([ApiResource]), the
    view it shows ([Ranges]), the revalidation of a profile whose statistics the server reports off, the
    clock of the first counts, and the dialogs its gates open. A step is an event, the render it causes
    and the effects of that render; an effect that sets state renders the page again. The focus is not
    modelled. *)

From S2P Require Import Prelude JsString JsDate ApiTypes Store DataCollection CollectionControl Ranges Derive ApiResource.
From coqutil Require Import Datatypes.RecordSetters.
Import TriangleBracketNotations.

#[local] Arguments constant _ _ _ /.

(** ** Reading the answers *)

Record LogsList (T : Type) := mkList { items : list T; coveredFrom : option Z }.
Arguments mkList {T}. Arguments items {T}. Arguments coveredFrom {T}.

Record DomainItem := mkDomain { di_domain : string; di_count : Z }.
(** [asOrg], [asn] and [country] are what the API sent, [null] and [undefined] as [None]. *)
Record ClientItem := mkClient { ci_ip : string; ci_count : Z; ci_asOrg : option Json; ci_asn : option Json; ci_country : option Json }.

Section answers.
Context {H : Host}.
(** [Number(v)] of a string or an array; no answer has one as a count. *)
Context (number_of : Json -> Z).

(** [Number(v) || 0] *)
Definition count_of (v : option Json) : Z :=
  match v with
  | Some (JNum (Fin z)) => z
  | Some (JBool true) => 1
  | Some (JStr _ as j) | Some (JArr _ as j) => number_of j
  | _ => 0
  end.

Definition asCoveredFrom (raw : option Json) : option Z :=
  match member_opt raw "covered_from" with Some (JStr s) => Date_parse s | _ => None end.

(** [v ?? null] *)
Definition nullish (v : option Json) : option Json := match v with Some JNull => None | v => v end.

Definition asDomain (i : Json) : list DomainItem :=
  match member_opt (Some i) "domain" with
  | Some (JStr d) => [mkDomain d (count_of (member_opt (Some i) "count"))]
  | _ => []
  end.
Definition asDomains (raw : option Json) : list DomainItem := elems (member_opt raw "items") ≫= asDomain.

Definition asClient (i : Json) : list ClientItem :=
  match member_opt (Some i) "ip" with
  | Some (JStr ip) =>
      [mkClient ip (count_of (member_opt (Some i) "count")) (nullish (member_opt (Some i) "as_org"))
         (nullish (member_opt (Some i) "asn")) (nullish (member_opt (Some i) "country"))]
  | _ => []
  end.
Definition asClients (raw : option Json) : list ClientItem := elems (member_opt raw "items") ≫= asClient.

(** The elements are objects; [blocklist_id] and [name] are strings or absent. *)
Definition string_of (v : option Json) : option string := match v with Some (JStr s) => Some s | _ => None end.
Definition asBlocklist (i : Json) : list BlocklistItem :=
  match string_of (member_opt (Some i) "blocklist_id") with
  | Some id => if truthy id then [mkItem id (string_of (member_opt (Some i) "name")) (count_of (member_opt (Some i) "count"))] else []
  | None => []
  end.
Definition asBlocklists (raw : option Json) : list BlocklistItem := elems (member_opt raw "items") ≫= asBlocklist.

(** The later of two entries for a device wins. *)
Definition addSeen (m : gmap string Z) (d : Json) : gmap string Z :=
  match time (member_opt (Some d) "last_seen"), member_opt (Some d) "device_id" with
  | Some t, Some (JStr id) => <[id := t]> m
  | _, _ => m
  end.
Definition asLastSeen (raw : option Json) : gmap string Z := foldl addSeen ∅ (elems raw).

Definition asList {T} (parse : option Json -> list T) (raw : option Json) : LogsList T := mkList (parse raw) (asCoveredFrom raw).
End answers.

(** ** Dialogs *)

Inductive GateId : Set := GateStats | GateLogs | GateDomains | GateIps.
Inductive DialogId : Set := GateDialog (g : GateId) | RetentionDialog.

Definition no_pending : PartialState := mkPartial None None None None None None.
(** D4: what each dialog opens with staged. *)
Definition GATE_DIALOG (d : DialogId) : PartialState :=
  match d with
  | RetentionDialog => no_pending
  | GateDialog GateStats => mkPartial (Some true) None None None None None
  | GateDialog GateLogs => mkPartial None (Some true) None None None None
  | GateDialog GateDomains => mkPartial None (Some true) None (Some true) None None
  | GateDialog GateIps => mkPartial None (Some true) None None (Some true) None
  end.

(** ** State *)

Inductive TimerKind : Set := UpdateNow | RefetchStats.
Record Timer := mkTimer { t_kind : TimerKind; t_at : Z }.

(** What the effect of the timers depends on. *)
Record TimerDeps := mkTimerDeps { td_collecting : option Z; td_refetch : option Z; td_pid : option string; td_range : RangeKey }.
#[export] Instance TimerDeps_eq_dec : EqDecision TimerDeps.
Proof. solve_decision. Defined.

(** [sp_param] is the [range] of the address, [sp_remembered] the view remembered for the session,
    [sp_asked] the profiles whose revalidation is on its way, [sp_timerDeps] what the effect of the
    timers last ran with. *)
Record StatsPage := mkStatsPage {
  sp_store : AppState;
  sp_loaded : list ModelProfile;
  sp_param : option string;
  sp_remembered : option RangeKey;
  sp_reload : nat;
  sp_stats : Hook (T := StatsData);
  sp_blocked : Hook (T := LogsList DomainItem);
  sp_resolved : Hook (T := LogsList DomainItem);
  sp_clients : Hook (T := LogsList ClientItem);
  sp_blocklists : Hook (T := LogsList BlocklistItem);
  sp_catalog : Hook (T := gmap string string);
  sp_devices : Hook (T := gmap string Z);
  sp_revalidated : option string;
  sp_asked : list string;
  sp_gate : option DialogId;
  sp_now : Z;
  sp_timers : list Timer;
  sp_timerDeps : option TimerDeps;
}.

(** ** What a render derives *)

Definition pageProfile (s : StatsPage) : option ModelProfile :=
  match activeProfile (sp_store s) with Some p => Some p | None => head (sp_loaded s) end.
Definition pageRetention (s : StatsPage) : StatsRetention := profileStatsRetention (pageProfile s).

(** [askedRange ?? rememberedRange()] *)
Definition askedRange (s : StatsPage) : option string :=
  match sp_param s with Some v => Some v | None => rangeKeyValue <$> rememberedRange (sp_remembered s) end.
(** Every retention offers a view, so there always is one. *)
Definition shownRange (s : StatsPage) : RangeKey := resolveRange (askedRange s) (pageRetention s) ?? DEFAULT_RANGE.

Definition pid (s : StatsPage) : option string := p_profile_id <$> pageProfile s.
Definition pageSettings (s : StatsPage) : option ModelProfileSettings := p ← pageProfile s; p_settings p.
Definition logsOn (s : StatsPage) : bool := (st ← pageSettings s; l ← ps_logs st; ls_enabled l) ?? false.
Definition statsOn (s : StatsPage) : bool := (st ← pageSettings s; t ← ps_statistics st; ss_enabled t) ?? false.
Definition domainsOn (s : StatsPage) : bool := logsOn s && ((st ← pageSettings s; l ← ps_logs st; ls_log_domains l) ?? true).
Definition ipsOn (s : StatsPage) : bool := logsOn s && ((st ← pageSettings s; l ← ps_logs st; ls_log_clients_ips l) ?? false).

(** A key of a resource, when the profile has an id and the condition holds. *)
Definition keyWhen (on : bool) (parts : list string) (s : StatsPage) : option string :=
  p ← pid s; if truthy p && on then Some (join "|" (p :: parts)) else None.
Definition view_of (s : StatsPage) : string := rangeKeyValue (shownRange s).
Definition statsKey (s : StatsPage) : option string :=
  keyWhen (statsOn s) [view_of s; statsRetentionValue (pageRetention s); show (Z.of_nat (sp_reload s))] s.
Definition blockedKey (s : StatsPage) : option string := keyWhen (domainsOn s) [view_of s; "b"] s.
Definition resolvedKey (s : StatsPage) : option string := keyWhen (domainsOn s) [view_of s; "r"] s.
Definition clientsKey (s : StatsPage) : option string := keyWhen (ipsOn s) [view_of s; "c"] s.
Definition blocklistsKey (s : StatsPage) : option string := keyWhen (logsOn s) [view_of s; "bl"] s.
Definition devicesKey (s : StatsPage) : option string := keyWhen (logsOn s) ["devices"] s.

(** The data of a resource that is ready. *)
Definition readyData {T} (h : Hook (T := T)) : option T :=
  match r_status (state h) with ready => r_data (state h) | _ => None end.

Section derived.
Context {H : Host}.

Definition enabledLists (s : StatsPage) : list string :=
  (st ← pageSettings s; pr ← ps_privacy st; priv_blocklists pr) ?? [].
(** [withEnabledLists(...) !== items]: a new list is made exactly when a list has to be added. *)
Definition uncreditedLists (its : list BlocklistItem) (enabled : list string) : bool :=
  negb (TOP_LIST_LIMIT <=? length its)%nat &&
  existsb (fun id => negb (bool_decide (id ∈ map bi_id its))) enabled.
Definition hasUncredited (s : StatsPage) : bool :=
  match readyData (sp_blocklists s) with
  | Some d => uncreditedLists (items d) (enabledLists s)
  | None => false
  end.
Definition CATALOG_KEY : string := "blocklists-catalog".
Definition catalogKey (s : StatsPage) : option string :=
  p ← pid s; if truthy p && hasUncredited s then Some CATALOG_KEY else None.
Definition catalogSettled (s : StatsPage) : bool :=
  match r_status (state (sp_catalog s)) with ready | failed => true | _ => false end.
(** The items of the blocklists panel. *)
Definition blocklistsShown (s : StatsPage) : option (list BlocklistItem) :=
  d ← readyData (sp_blocklists s);
  Some (if hasUncredited s && catalogSettled s
        then withEnabledLists (items d) (enabledLists s) (r_data (state (sp_catalog s)) ?? ∅)
        else items d).

(** P17: the store says on and the API says off. *)
Definition serverOff (s : StatsPage) : bool :=
  statsOn s && match readyData (sp_stats s) with Some d => negb (enabled d) | None => false end.
Definition countsOn (s : StatsPage) : bool := statsOn s && negb (serverOff s).
Definition anyCollection (s : StatsPage) : bool := countsOn s || logsOn s.

(** P24: while no query was counted yet. *)
Definition expected (s : StatsPage) : option ExpectedFirstCounts :=
  d ← readyData (sp_stats s);
  match countsState d with
  | no_queries_yet => expectedFirstCounts (shownRange s) (turnedOnAt d) (historyDeletedAt d)
  | _ => None
  end.
Definition timerDepsOf (s : StatsPage) : TimerDeps :=
  mkTimerDeps (collectingUntilMs <$> expected s) ((fun e => boundaryMs e + 90000) <$> expected s) (pid s) (shownRange s).

(** ** Effects *)

(** The parameter that names a view: the default has none. *)
Definition paramOf (k : RangeKey) : option string := if bool_decide (k = DEFAULT_RANGE) then None else Some (rangeKeyValue k).
Definition setRange (k : RangeKey) (s : StatsPage) : StatsPage := s <| sp_param := paramOf k |>.

(** The address names another view than the one shown. *)
Definition urlDiffers (s : StatsPage) : bool :=
  if truthy_opt (sp_param s) then negb (bool_decide (parseRange (sp_param s) = shownRange s))
  else negb (bool_decide (shownRange s = DEFAULT_RANGE)).
Definition urlEffect (s : StatsPage) : StatsPage := if urlDiffers s then setRange (shownRange s) s else s.

(** The renders of the seven hooks, with their effects. *)
Definition renderHooks (s : StatsPage) : StatsPage :=
  s <| sp_stats := render (pid s) (statsKey s) (sp_stats s) |>
    <| sp_blocked := render (pid s) (blockedKey s) (sp_blocked s) |>
    <| sp_resolved := render (pid s) (resolvedKey s) (sp_resolved s) |>
    <| sp_clients := render (pid s) (clientsKey s) (sp_clients s) |>
    <| sp_blocklists := render (pid s) (blocklistsKey s) (sp_blocklists s) |>
    <| sp_catalog := render (pid s) (catalogKey s) (sp_catalog s) |>
    <| sp_devices := render (pid s) (devicesKey s) (sp_devices s) |>.

(** [off] and [deps] are what the render computed. *)
Definition revalidate (off : bool) (s : StatsPage) : StatsPage :=
  match pid s with
  | Some p => if negb off || negb (truthy p) || bool_decide (sp_revalidated s = Some p) then s
              else s <| sp_revalidated := Some p |> <| sp_asked := (sp_asked s ++ [p])%list |>
  | None => s
  end.

Definition firstTimers (t0 : Z) (deps : TimerDeps) : list Timer :=
  match td_collecting deps, td_refetch deps with
  | Some c, Some r => if c <=? t0 then [] else mkTimer UpdateNow c :: (if t0 <? r then [mkTimer RefetchStats r] else [])
  | _, _ => []
  end.
Definition timersEffect (t0 : Z) (deps : TimerDeps) (s : StatsPage) : StatsPage :=
  if bool_decide (sp_timerDeps s = Some deps) then s
  else s <| sp_timerDeps := Some deps |> <| sp_timers := firstTimers t0 deps |>
         <| sp_now := match td_collecting deps with Some _ => t0 | None => sp_now s end |>.

(** One render and its effects, at the time [t0]. *)
Definition pass (t0 : Z) (s : StatsPage) : StatsPage :=
  timersEffect t0 (timerDepsOf s) (revalidate (serverOff s) (renderHooks s)).

(** The effects of a render set state that the next one reads; after the second nothing changes. *)
Definition commit (t0 : Z) (s : StatsPage) : StatsPage := pass t0 (pass t0 (urlEffect s)).

(** ** Events *)

Definition mountPage (t0 : Z) (st : AppState) (ps : list ModelProfile) (param : option string) (remembered : option RangeKey) : StatsPage :=
  commit t0 (mkStatsPage st ps param remembered 0 hook0 hook0 hook0 hook0 hook0 hook0 hook0 None [] None t0 [] None).

(** K2: a view the user picks is remembered for the session. *)
Definition chooseRange (k : RangeKey) (s : StatsPage) : StatsPage :=
  setRange k (s <| sp_remembered := rememberRange k (sp_remembered s) |>).

(** What a fetch comes to: the body, or the status of the failure. *)
Inductive FetchAnswer : Type := Body (raw : Json) | FetchFailed (status : option Z).

Definition statsAnswer (a : FetchAnswer) : Answer (T := StatsData) :=
  match a with
  | Body raw => match normalizeStats raw with Ok d => Resolved d | Throw _ => Failed None end
  | FetchFailed st => Failed st
  end.
Context (number_of : Json -> Z).
Definition listAnswer {T} (parse : option Json -> list T) (a : FetchAnswer) : Answer (T := LogsList T) :=
  match a with Body raw => Resolved (asList parse (Some raw)) | FetchFailed st => Failed st end.
Definition devicesAnswer (a : FetchAnswer) : Answer (T := gmap string Z) :=
  match a with Body raw => Resolved (asLastSeen (Some raw)) | FetchFailed st => Failed st end.

Inductive StatsEvent : Type :=
| ChooseRange (k : RangeKey)
| Navigate (param : option string)
| StoreChanged (st : AppState)
| StatsSettled (i : nat) (a : FetchAnswer)
| BlockedSettled (i : nat) (a : FetchAnswer)
| ResolvedSettled (i : nat) (a : FetchAnswer)
| ClientsSettled (i : nat) (a : FetchAnswer)
| BlocklistsSettled (i : nat) (a : FetchAnswer)
| CatalogSettled (i : nat) (a : Answer (T := gmap string string))
| DevicesSettled (i : nat) (a : FetchAnswer)
| Visible (visible : bool)
| RetryStats | RetryBlocked | RetryResolved | RetryClients | RetryBlocklists
| ProfileAnswered (i : nat) (data : option ModelProfile)
| HistoryDeleted
| OpenDialog (d : DialogId)
| CloseDialog
| TimerFired (i : nat).

Definition onProfile (i : nat) (data : option ModelProfile) (s : StatsPage) : StatsPage :=
  match sp_asked s !! i with
  | Some _ =>
      let s := s <| sp_asked := delete i (sp_asked s) |> in
      match data with Some p => s <| sp_store := setActiveProfile (Some p) (sp_store s) |> | None => s end
  | None => s
  end.

Definition onTimer (now : Z) (i : nat) (s : StatsPage) : StatsPage :=
  match sp_timers s !! i with
  | Some t =>
      if t_at t <=? now then
        let s := s <| sp_timers := delete i (sp_timers s) |> in
        match t_kind t with
        | UpdateNow => s <| sp_now := now |>
        | RefetchStats => s <| sp_stats := refetch (sp_stats s) |>
        end
      else s
  | None => s
  end.

Definition onVisibility (v : bool) (now : Z) (s : StatsPage) : StatsPage :=
  s <| sp_stats := onVisible v now (sp_stats s) |> <| sp_blocked := onVisible v now (sp_blocked s) |>
    <| sp_resolved := onVisible v now (sp_resolved s) |> <| sp_clients := onVisible v now (sp_clients s) |>
    <| sp_blocklists := onVisible v now (sp_blocklists s) |> <| sp_catalog := onVisible v now (sp_catalog s) |>
    <| sp_devices := onVisible v now (sp_devices s) |>.

Definition page_event (now : Z) (e : StatsEvent) (s : StatsPage) : StatsPage :=
  match e with
  | ChooseRange k => chooseRange k s
  | Navigate p => s <| sp_param := p |>
  | StoreChanged st => s <| sp_store := st |>
  | StatsSettled i a => s <| sp_stats := hook_step (sp_stats s) (Settle i (statsAnswer a) now) |>
  | BlockedSettled i a => s <| sp_blocked := hook_step (sp_blocked s) (Settle i (listAnswer (asDomains number_of) a) now) |>
  | ResolvedSettled i a => s <| sp_resolved := hook_step (sp_resolved s) (Settle i (listAnswer (asDomains number_of) a) now) |>
  | ClientsSettled i a => s <| sp_clients := hook_step (sp_clients s) (Settle i (listAnswer (asClients number_of) a) now) |>
  | BlocklistsSettled i a => s <| sp_blocklists := hook_step (sp_blocklists s) (Settle i (listAnswer (asBlocklists number_of) a) now) |>
  | CatalogSettled i a => s <| sp_catalog := hook_step (sp_catalog s) (Settle i a now) |>
  | DevicesSettled i a => s <| sp_devices := hook_step (sp_devices s) (Settle i (devicesAnswer a) now) |>
  | Visible v => onVisibility v now s
  | RetryStats => s <| sp_stats := reload (sp_stats s) |>
  | RetryBlocked => s <| sp_blocked := reload (sp_blocked s) |>
  | RetryResolved => s <| sp_resolved := reload (sp_resolved s) |>
  | RetryClients => s <| sp_clients := reload (sp_clients s) |>
  | RetryBlocklists => s <| sp_blocklists := reload (sp_blocklists s) |>
  | ProfileAnswered i d => onProfile i d s
  | HistoryDeleted => s <| sp_reload := S (sp_reload s) |>
  | OpenDialog d => s <| sp_gate := Some d |>
  | CloseDialog => s <| sp_gate := None |>
  | TimerFired i => onTimer now i s
  end.
Definition page_step (s : StatsPage) (e : Z * StatsEvent) : StatsPage := commit e.1 (page_event e.1 e.2 s).

(** ** What the page shows *)

(** The group of the counts. *)
Inductive CountsBody : Type :=
| CountsGate
| CountsHidden
| CountsError (status : option Z)
| CountsSkeleton
| Collecting (since : option string) (displayAt : Z)
| NothingCounted (since : option string)
| EmptyRange (words : string) (next : option RangeKey)
| CountsData (d : StatsData) (refreshing : bool).

Definition countsBody (s : StatsPage) : CountsBody :=
  if negb (countsOn s) then CountsGate
  else match r_status (state (sp_stats s)), r_data (state (sp_stats s)) with
  | failed, _ => if bool_decide (r_errorStatus (state (sp_stats s)) = Some 403) then CountsHidden
                 else CountsError (r_errorStatus (state (sp_stats s)))
  | ready, Some d =>
      match countsState d with
      | no_queries_yet =>
          let since := formatDateTime <$> enabledAt d in
          match expectedFirstCounts (shownRange s) (turnedOnAt d) (historyDeletedAt d) with
          | Some e => if sp_now s <? collectingUntilMs e then Collecting since (displayMs e) else NothingCounted since
          | None => NothingCounted since
          end
      | empty_range => EmptyRange (r_words (rangeDef (shownRange s))) (nextLongerRange (shownRange s))
      | data => CountsData d (r_refreshing (state (sp_stats s)))
      end
  | _, _ => CountsSkeleton
  end.

(** A slot of a top list. *)
Inductive Slot (T : Type) : Type := SlotGate | SlotHidden | SlotError (status : option Z) | SlotSkeleton | SlotItems (its : list T) (refreshing : bool).
#[global] Arguments SlotGate {T}. #[global] Arguments SlotHidden {T}. #[global] Arguments SlotError {T} status.
#[global] Arguments SlotSkeleton {T}. #[global] Arguments SlotItems {T} its refreshing.
Definition listSlot {T} (h : Hook (T := LogsList T)) : Slot T :=
  match r_status (state h), r_data (state h) with
  | failed, _ => if bool_decide (r_errorStatus (state h) = Some 403) then SlotHidden else SlotError (r_errorStatus (state h))
  | ready, Some d => SlotItems (items d) (r_refreshing (state h))
  | _, _ => SlotSkeleton
  end.

(** P18: the earliest start over the lists that are loaded. *)
Definition earliest (a b : option Z) : option Z :=
  match b with Some t => match a with Some o => if t <? o then Some t else a | None => Some t end | None => a end.
Definition startOf {T} (h : Hook (T := LogsList T)) : option Z := d ← readyData h; coveredFrom d.
Definition earliestCoveredFrom (s : StatsPage) : option Z :=
  foldl earliest None [startOf (sp_blocked s); startOf (sp_resolved s); startOf (sp_clients s); startOf (sp_blocklists s)].

Record LogsBody := mkLogsBody {
  lb_scope : Scope;
  lb_reach : option string;
  lb_blocked : Slot DomainItem;
  lb_resolved : Slot DomainItem;
  lb_blocklists : Slot BlocklistItem;
  lb_clients : Slot ClientItem;
}.
(** The value of [logs.retention] as the profile has it. *)
Definition logsRetentionText (s : StatsPage) : option string :=
  Some (logsRetentionValue (retention (fromProfile (pageProfile s)))).
Definition countsStart (s : StatsPage) : option Z :=
  if countsOn s then d ← readyData (sp_stats s); countingSince d else None.
(** [None]: the gate of the query logs. *)
Definition logsBody (nowMs : Z) (s : StatsPage) : option LogsBody :=
  if negb (logsOn s) then None else
  let from := earliestCoveredFrom s in
  Some (mkLogsBody (logsScope (shownRange s) (logsRetentionText s) from nowMs)
    (c ← countsStart s;
     if logsReachBeforeCounts (shownRange s) (logsRetentionText s) from (Some c)
     then Some ("Query logs reach further back than statistics, which count since " ++s formatDateTime c ++s ".") else None)
    (if domainsOn s then listSlot (sp_blocked s) else SlotGate)
    (if domainsOn s then listSlot (sp_resolved s) else SlotGate)
    (match listSlot (sp_blocklists s), blocklistsShown s with
     | SlotItems _ r, Some its => SlotItems its r
     | x, _ => x
     end)
    (if ipsOn s then listSlot (sp_clients s) else SlotGate)).
End derived.

(** ** The picker of views *)

(** K11: the shortest retention that covers a view. *)
Definition neededRetention (r : RangeDef) : string :=
  so_words ((match array_find (fun o => r_seconds r <=? so_days o * DAY) STATS_RETENTION_OPTIONS with
             | Some o => Some o | None => last STATS_RETENTION_OPTIONS end) ?? statsOption S1y).
Record PickerItem := mkPickerItem { pi_key : RangeKey; pi_label : string; pi_needs : option string }.
Definition pickerItems (offered : list RangeDef) : list PickerItem :=
  map (fun r => mkPickerItem (r_key r) (r_label r)
         (if existsb (fun o => bool_decide (r_key o = r_key r)) offered then None
          else Some ("Needs statistics kept for " ++s neededRetention r))) RANGES.
Definition anyDisabled (offered : list RangeDef) : bool :=
  existsb (fun r => negb (existsb (fun o => bool_decide (r_key o = r_key r)) offered)) RANGES.
