(* ===== verification/StatisticsFacts.v ===== *)
(** * The Statistics page: what it guarantees

    The address names the view that is shown, and the retention covers it. The counts that are shown are
    those of the view, and the page never waits without a request; while it says that it is collecting, a
    timer will look again. A view that is not offered is not shown by choosing it. *)

From S2P Require Import Prelude JsString JsDate ApiTypes Store DataCollection CollectionControl Ranges Derive ApiResource Statistics.
From coqutil Require Import Datatypes.RecordSetters.
Import TriangleBracketNotations.

#[local] Arguments constant _ _ _ /.

Section facts.
Context {H : Host} (number_of : Json -> Z).
Implicit Types (s : StatsPage) (t now : Z).

(** ** What the effects leave alone *)

Definition same_inputs s s' : Prop :=
  sp_store s' = sp_store s /\ sp_loaded s' = sp_loaded s /\ sp_param s' = sp_param s /\
  sp_remembered s' = sp_remembered s /\ sp_reload s' = sp_reload s.

Lemma same_profile s s' : same_inputs s s' -> pageProfile s' = pageProfile s.
Proof. intros (E1 & E2 & _). unfold pageProfile. by rewrite E1, E2. Qed.
Lemma same_range s s' : same_inputs s s' -> shownRange s' = shownRange s.
Proof.
  intros Hs. unfold shownRange, pageRetention. rewrite (same_profile s s' Hs). destruct Hs as (_ & _ & E3 & E4 & _).
  unfold askedRange. by rewrite E3, E4.
Qed.
Lemma same_pid s s' : same_inputs s s' -> pid s' = pid s.
Proof. intros Hs. unfold pid. by rewrite (same_profile s s' Hs). Qed.

Lemma revalidate_same off s : same_inputs s (revalidate off s).
Proof. unfold revalidate. destruct (pid s); [|done]. by destruct (_ || _). Qed.
Lemma timers_same t d s : same_inputs s (timersEffect t d s).
Proof. unfold timersEffect. by destruct (bool_decide _). Qed.
Lemma same_trans s1 s2 s3 : same_inputs s1 s2 -> same_inputs s2 s3 -> same_inputs s1 s3.
Proof. unfold same_inputs. naive_solver congruence. Qed.
Lemma pass_same t s : same_inputs s (pass t s).
Proof.
  unfold pass. eapply same_trans; [|apply timers_same]. eapply same_trans; [|apply revalidate_same]. done.
Qed.

(** What a render of the hooks and the other effects make of each field. *)
Lemma timers_hooks t d s :
  let s' := timersEffect t d s in
  sp_stats s' = sp_stats s /\ sp_blocked s' = sp_blocked s /\ sp_resolved s' = sp_resolved s /\ sp_clients s' = sp_clients s /\
  sp_blocklists s' = sp_blocklists s /\ sp_catalog s' = sp_catalog s /\ sp_devices s' = sp_devices s /\
  sp_revalidated s' = sp_revalidated s /\ sp_asked s' = sp_asked s.
Proof. cbv zeta. unfold timersEffect. by destruct (bool_decide _). Qed.
Lemma revalidate_hooks off s :
  let s' := revalidate off s in
  sp_stats s' = sp_stats s /\ sp_blocked s' = sp_blocked s /\ sp_resolved s' = sp_resolved s /\ sp_clients s' = sp_clients s /\
  sp_blocklists s' = sp_blocklists s /\ sp_catalog s' = sp_catalog s /\ sp_devices s' = sp_devices s /\
  sp_timers s' = sp_timers s /\ sp_timerDeps s' = sp_timerDeps s /\ sp_now s' = sp_now s.
Proof. cbv zeta. unfold revalidate. destruct (pid s); [|done]. by destruct (_ || _). Qed.

Lemma pass_stats t s : sp_stats (pass t s) = render (pid s) (statsKey s) (sp_stats s).
Proof.
  unfold pass. destruct (timers_hooks t (timerDepsOf s) (revalidate (serverOff s) (renderHooks s))) as (-> & _).
  destruct (revalidate_hooks (serverOff s) (renderHooks s)) as (-> & _). done.
Qed.
Lemma pass_blocklists t s : sp_blocklists (pass t s) = render (pid s) (blocklistsKey s) (sp_blocklists s).
Proof.
  unfold pass. destruct (timers_hooks t (timerDepsOf s) (revalidate (serverOff s) (renderHooks s))) as (_ & _ & _ & _ & -> & _).
  by destruct (revalidate_hooks (serverOff s) (renderHooks s)) as (_ & _ & _ & _ & -> & _).
Qed.

(** ** The view *)

Lemma resolve_view v ret :
  exists k, resolveRange v ret = Some k /\ rangeSeconds k <= statsDays ret * DAY /\
    (k = parseRange v \/ (statsDays ret * DAY < rangeSeconds (parseRange v) /\ k <> DEFAULT_RANGE)) /\
    (forall j, rangeSeconds j <= statsDays ret * DAY -> resolveRange (Some (rangeKeyValue j)) ret = Some j).
Proof.
  assert (forall j, rangeSeconds j <= statsDays ret * DAY -> resolveRange (Some (rangeKeyValue j)) ret = Some j) as Hj.
  { intros j Hj. unfold resolveRange. rewrite parseRange_value. apply elem_of_offered in Hj.
    rewrite (proj2 (existsb_elem _ _)); [done|]. apply list_elem_of_fmap in Hj as (r & -> & Hr). exists r. by rewrite bool_decide_true. }
  unfold resolveRange at 1. generalize (parseRange v) as asked. intros asked.
  destruct ret, asked; cbn; eexists; (split; [reflexivity|]); (split; [done|]); (split; [|exact Hj]);
    first [by left | right; split; [done|discriminate]].
Qed.

Lemma shownRange_offered s : rangeSeconds (shownRange s) <= statsDays (pageRetention s) * DAY.
Proof. unfold shownRange. by destruct (resolve_view (askedRange s) (pageRetention s)) as (k & -> & Hk & _). Qed.

Lemma parseRange_falsy v : truthy_opt v = false -> parseRange v = DEFAULT_RANGE.
Proof. destruct v as [v|]; [|done]. unfold truthy_opt. cbn. intros ->%truthy_false. done. Qed.

Lemma urlDiffers_spec s : urlDiffers s = false <-> parseRange (sp_param s) = shownRange s.
Proof.
  unfold urlDiffers. destruct (truthy_opt (sp_param s)) eqn:E.
  - rewrite negb_false_iff, bool_decide_eq_true. done.
  - rewrite negb_false_iff, bool_decide_eq_true, (parseRange_falsy _ E). split; congruence.
Qed.

Lemma urlEffect_settles s : parseRange (sp_param (urlEffect s)) = shownRange (urlEffect s) /\ shownRange (urlEffect s) = shownRange s.
Proof.
  unfold urlEffect. destruct (urlDiffers s) eqn:E; [|split; [by apply urlDiffers_spec|done]].
  assert (shownRange s <> DEFAULT_RANGE) as Hk.
  { intros Hd. unfold urlDiffers in E. destruct (truthy_opt (sp_param s)) eqn:Et; [|by rewrite Hd in E].
    unfold shownRange in Hd, E. destruct (resolve_view (askedRange s) (pageRetention s)) as (k & Hr & _ & Hor & _).
    rewrite Hr in Hd, E. cbn in Hd, E. unfold askedRange in Hor. destruct (sp_param s) as [v|] eqn:Ep; [|done].
    destruct Hor as [->|[_ ?]]; [by rewrite bool_decide_true in E by done|congruence]. }
  unfold setRange, paramOf. rewrite bool_decide_false by done. cbn [sp_param].
  assert (shownRange (s <| sp_param := Some (rangeKeyValue (shownRange s)) |>) = shownRange s) as Hs.
  { unfold shownRange at 1. change (askedRange _) with (Some (rangeKeyValue (shownRange s))).
    change (pageRetention (s <| sp_param := _ |>)) with (pageRetention s).
    destruct (resolve_view (askedRange s) (pageRetention s)) as (k & _ & _ & _ & Hj).
    by rewrite (Hj _ (shownRange_offered s)). }
  split; [|exact Hs]. change (parseRange (Some (rangeKeyValue (shownRange s))) = shownRange (s <| sp_param := Some (rangeKeyValue (shownRange s)) |>)).
  by rewrite parseRange_value, Hs.
Qed.

Lemma commit_same t s : same_inputs (urlEffect s) (commit t s).
Proof. unfold commit. eapply same_trans; apply pass_same. Qed.
Lemma commit_view t s : parseRange (sp_param (commit t s)) = shownRange (commit t s) /\ shownRange (commit t s) = shownRange s.
Proof.
  pose proof (commit_same t s) as Hs. rewrite (same_range _ _ Hs). destruct Hs as (_ & _ & -> & _). apply urlEffect_settles.
Qed.

(** ** Two renders are enough *)

Lemma keyWhen_same on parts s s' : same_inputs s s' -> keyWhen on parts s' = keyWhen on parts s.
Proof. intros Hs. unfold keyWhen. by rewrite (same_pid s s' Hs). Qed.
Lemma same_settings s s' : same_inputs s s' -> pageSettings s' = pageSettings s.
Proof. intros Hs. unfold pageSettings. by rewrite (same_profile s s' Hs). Qed.
Lemma same_keys s s' : same_inputs s s' ->
  statsKey s' = statsKey s /\ blockedKey s' = blockedKey s /\ resolvedKey s' = resolvedKey s /\ clientsKey s' = clientsKey s /\
  blocklistsKey s' = blocklistsKey s /\ devicesKey s' = devicesKey s.
Proof.
  intros Hs. pose proof (same_settings _ _ Hs) as E. pose proof (same_range _ _ Hs) as Er.
  assert (sp_reload s' = sp_reload s) as El by apply Hs.
  unfold statsKey, blockedKey, resolvedKey, clientsKey, blocklistsKey, devicesKey, domainsOn, ipsOn, logsOn, statsOn, view_of, pageRetention.
  rewrite E, Er, El, (same_profile _ _ Hs). split_and!; by apply keyWhen_same.
Qed.

Lemma render_idem {T} scope key (h : Hook (T := T)) : render scope key (render scope key h) = render scope key h.
Proof.
  unfold render at 1. assert (rendered (render scope key h) = Some (key, scope) /\ keyRef (render scope key h) = key) as [-> Hk].
  { unfold render. destruct (negb _) eqn:E; [|done]. unfold key_effect. by destruct (negb (truthy_opt key)). }
  rewrite bool_decide_true by done. cbn [negb]. clear Hk.
  unfold render. destruct (negb (bool_decide (rendered h = Some (key, scope)))) eqn:E; [|done].
  unfold key_effect. by destruct (negb (truthy_opt key)).
Qed.

(** The fields of a page after its hooks were rendered. *)
Definition hooks_settled s : Prop := renderHooks s = s.
Lemma hooks_settled_iff s : hooks_settled s <->
  render (pid s) (statsKey s) (sp_stats s) = sp_stats s /\ render (pid s) (blockedKey s) (sp_blocked s) = sp_blocked s /\
  render (pid s) (resolvedKey s) (sp_resolved s) = sp_resolved s /\ render (pid s) (clientsKey s) (sp_clients s) = sp_clients s /\
  render (pid s) (blocklistsKey s) (sp_blocklists s) = sp_blocklists s /\ render (pid s) (catalogKey s) (sp_catalog s) = sp_catalog s /\
  render (pid s) (devicesKey s) (sp_devices s) = sp_devices s.
Proof.
  unfold hooks_settled, renderHooks. split.
  - intros E. split_and!.
    + by apply (f_equal sp_stats) in E.
    + by apply (f_equal sp_blocked) in E.
    + by apply (f_equal sp_resolved) in E.
    + by apply (f_equal sp_clients) in E.
    + by apply (f_equal sp_blocklists) in E.
    + by apply (f_equal sp_catalog) in E.
    + by apply (f_equal sp_devices) in E.
  - intros (-> & -> & -> & -> & -> & -> & ->). by destruct s.
Qed.

Lemma pass_hooks t s : let s' := pass t s in
  sp_stats s' = render (pid s) (statsKey s) (sp_stats s) /\ sp_blocked s' = render (pid s) (blockedKey s) (sp_blocked s) /\
  sp_resolved s' = render (pid s) (resolvedKey s) (sp_resolved s) /\ sp_clients s' = render (pid s) (clientsKey s) (sp_clients s) /\
  sp_blocklists s' = render (pid s) (blocklistsKey s) (sp_blocklists s) /\ sp_catalog s' = render (pid s) (catalogKey s) (sp_catalog s) /\
  sp_devices s' = render (pid s) (devicesKey s) (sp_devices s).
Proof.
  cbv zeta. unfold pass.
  destruct (timers_hooks t (timerDepsOf s) (revalidate (serverOff s) (renderHooks s))) as (-> & -> & -> & -> & -> & -> & -> & _).
  by destruct (revalidate_hooks (serverOff s) (renderHooks s)) as (-> & -> & -> & -> & -> & -> & -> & _).
Qed.

Lemma catalogKey_same s s' : same_inputs s s' -> sp_blocklists s' = sp_blocklists s -> catalogKey s' = catalogKey s.
Proof.
  intros Hs E. unfold catalogKey, hasUncredited, enabledLists. by rewrite (same_pid _ _ Hs), E, (same_settings _ _ Hs).
Qed.

Lemma pass_hooks_settled t s : hooks_settled (pass t (pass t s)).
Proof.
  set (s1 := pass t s). set (s2 := pass t s1). apply hooks_settled_iff.
  assert (same_inputs s s1) as H1 by apply pass_same. assert (same_inputs s1 s2) as H2 by apply pass_same.
  rewrite (same_pid _ _ H2). destruct (same_keys _ _ H2) as (-> & -> & -> & -> & -> & ->).
  assert (sp_blocklists s2 = sp_blocklists s1) as Eb.
  { unfold s2. rewrite pass_blocklists. unfold s1 at 3. rewrite pass_blocklists.
    rewrite (same_pid _ _ H1). destruct (same_keys _ _ H1) as (_ & _ & _ & _ & -> & _). rewrite render_idem.
    unfold s1. by rewrite pass_blocklists. }
  rewrite (catalogKey_same _ _ H2 Eb). change s2 with (pass t s1). destruct (pass_hooks t s1) as (-> & -> & -> & -> & -> & -> & ->).
  rewrite !render_idem. done.
Qed.

(** The values the other effects depend on. *)
Lemma serverOff_same s s' : same_inputs s s' -> sp_stats s' = sp_stats s -> serverOff s' = serverOff s /\ timerDepsOf s' = timerDepsOf s.
Proof.
  intros Hs E. unfold serverOff, statsOn, timerDepsOf, expected.
  by rewrite (same_settings _ _ Hs), (same_pid _ _ Hs), (same_range _ _ Hs), E.
Qed.
Lemma revalidate_idem off s : revalidate off (revalidate off s) = revalidate off s.
Proof.
  unfold revalidate at 2 3. destruct (pid s) as [p|] eqn:Ep; [|unfold revalidate; by rewrite Ep].
  destruct (negb off || negb (truthy p) || bool_decide (sp_revalidated s = Some p)) eqn:E; [unfold revalidate; by rewrite Ep, E|].
  unfold revalidate. change (pid (s <| sp_revalidated := Some p |> <| sp_asked := (sp_asked s ++ [p])%list |>)) with (pid s). rewrite Ep.
  cbn [sp_revalidated]. by rewrite (bool_decide_true (Some p = Some p)), !orb_true_r by done.
Qed.
Lemma timers_idem t d s : timersEffect t d (timersEffect t d s) = timersEffect t d s.
Proof.
  unfold timersEffect at 2 3. destruct (bool_decide (sp_timerDeps s = Some d)) eqn:E; [unfold timersEffect; by rewrite E|].
  unfold timersEffect. cbn [sp_timerDeps]. by rewrite bool_decide_true by done.
Qed.
Lemma revalidate_timers off t d s : revalidate off (timersEffect t d s) = timersEffect t d (revalidate off s).
Proof.
  unfold timersEffect. destruct (bool_decide (sp_timerDeps s = Some d)) eqn:Ed.
  - destruct (revalidate_hooks off s) as (_ & _ & _ & _ & _ & _ & _ & _ & -> & _). by rewrite Ed.
  - destruct (revalidate_hooks off s) as (_ & _ & _ & _ & _ & _ & _ & _ & -> & ->). rewrite Ed.
    unfold revalidate. change (pid (s <| sp_timerDeps := Some d |> <| sp_timers := firstTimers t d |> <| sp_now := _ |>)) with (pid s).
    destruct (pid s) as [p|]; [|done]. cbn [sp_revalidated]. by destruct (_ || _).
Qed.

Theorem page_settles t s : pass t (commit t s) = commit t s.
Proof.
  unfold commit. set (s0 := urlEffect s). set (s1 := pass t s0). set (s2 := pass t s1).
  assert (same_inputs s1 s2) as H2 by apply pass_same. assert (same_inputs s0 s1) as H1 by apply pass_same.
  assert (sp_stats s2 = sp_stats s1) as Es.
  { unfold s2. rewrite pass_stats. unfold s1 at 3. rewrite pass_stats. rewrite (same_pid _ _ H1).
    destruct (same_keys _ _ H1) as (-> & _). rewrite render_idem. unfold s1. by rewrite pass_stats. }
  destruct (serverOff_same _ _ H2 Es) as [E1 E2].
  unfold pass at 1. rewrite (pass_hooks_settled t s0 : renderHooks s2 = s2), E1, E2.
  unfold s2, pass. by rewrite revalidate_timers, revalidate_idem, timers_idem.
Qed.

(** ** The counts *)

(** The scope of a key: its profile. *)
Fixpoint before_bar (k : string) : string :=
  match k with
  | "" => ""
  | String c k' => if Ascii.eqb c "|" then "" else String c (before_bar k')
  end.
Definition key_scope (k : string) : option string := Some (before_bar k).
Definition bar_free (p : string) : Prop := lacks "|" p = true.

Lemma before_bar_join p q parts : bar_free p -> before_bar (join "|" (p :: q :: parts)) = p.
Proof.
  unfold bar_free, lacks. change (join "|" (p :: q :: parts)) with (p ++s "|" ++s join "|" (q :: parts)).
  generalize (join "|" (q :: parts)). intros r. change ("|" ++s r) with (String "|" r). induction p as [|c p IH]; [done|]. cbn [str_all String.append before_bar].
  intros [Hc Hp]%andb_true_iff. apply negb_true_iff in Hc. rewrite Ascii.eqb_sym in Hc. rewrite Hc. by rewrite (IH Hp).
Qed.

Lemma statsKey_scope s k : (forall p, pid s = Some p -> bar_free p) -> statsKey s = Some k -> pid s = key_scope k.
Proof.
  unfold statsKey, keyWhen. intros Hb. destruct (pid s) as [p|]; [|done]. cbn [mbind option_bind].
  destruct (truthy p && statsOn s); [|done]. intros Hk. unfold key_scope. f_equal.
  rewrite <- (before_bar_join p (view_of s) [statsRetentionValue (pageRetention s); show (Z.of_nat (sp_reload s))] (Hb p eq_refl)).
  f_equal. congruence.
Qed.

(** [answers k d]: the API answered the key [k] with [d]. *)
Context (answers : string -> StatsData -> Prop).

(** What an event may bring: a fetch is answered for the key it was made for, and no profile has an id
    with a bar. *)
Definition fits s (e : Z * StatsEvent) : Prop :=
  (forall p, pid (page_event number_of e.1 e.2 s) = Some p -> bar_free p) /\
  match e.2 with
  | StatsSettled i a => forall r d, running (sp_stats s) !! i = Some r -> statsAnswer a = Resolved d -> answers (run_key r) d
  | _ => True
  end.
Inductive stats_reach : StatsPage -> Prop :=
| reach_mount t st ps param remembered :
    (forall p, pid (mountPage t st ps param remembered) = Some p -> bar_free p) -> stats_reach (mountPage t st ps param remembered)
| reach_event s e : stats_reach s -> fits s e -> stats_reach (page_step number_of s e).

Lemma commit_pid t s : pid (commit t s) = pid s.
Proof. rewrite (same_pid _ _ (commit_same t s)). unfold urlEffect. by destruct (urlDiffers s). Qed.
Lemma commit_stats t s : sp_stats (commit t s) = render (pid (commit t s)) (statsKey (commit t s)) (sp_stats s).
Proof.
  pose proof (commit_same t s) as Hc. rewrite (same_pid _ _ Hc). destruct (same_keys _ _ Hc) as (-> & _).
  unfold commit. rewrite pass_stats, pass_stats. pose proof (pass_same t (urlEffect s)) as Hp.
  rewrite (same_pid _ _ Hp). destruct (same_keys _ _ Hp) as (-> & _). rewrite render_idem.
  unfold urlEffect. by destruct (urlDiffers s).
Qed.

Lemma commit_stats_ok t s :
  (forall p, pid s = Some p -> bar_free p) -> hook_ok answers key_scope (sp_stats s) -> hook_ok answers key_scope (sp_stats (commit t s)).
Proof.
  intros Hb Hok. rewrite commit_stats. apply render_ok; [|done]. intros k Hk _. apply statsKey_scope; [|done].
  intros p Hp. apply Hb. by rewrite <- (commit_pid t s).
Qed.

Lemma page_event_stats_ok s e : fits s e -> hook_ok answers key_scope (sp_stats s) ->
  hook_ok answers key_scope (sp_stats (page_event number_of e.1 e.2 s)).
Proof.
  destruct e as [now e]. intros [_ Hf] Hok. cbn [fst snd] in *.
  destruct e; cbn [page_event]; try exact Hok.
  - apply hook_step_ok; [|done]. unfold event_ok. destruct (statsAnswer a) as [d|st] eqn:Ea; [|done].
    intros r Hr. by apply (Hf r d).
  - exact (hook_step_ok answers key_scope (sp_stats s) (VisibilityChange visible now) I Hok).
  - exact (hook_step_ok answers key_scope (sp_stats s) Reload I Hok).
  - unfold onProfile. destruct (sp_asked s !! i); [|done]. by destruct data.
  - unfold onTimer. destruct (sp_timers s !! i) as [t|]; [|done]. destruct (t_at t <=? now); [|done].
    destruct (t_kind t); [exact Hok|]. exact (hook_step_ok answers key_scope (sp_stats s) Refetch I Hok).
Qed.

Lemma stats_reach_ok s : stats_reach s -> hook_ok answers key_scope (sp_stats s) /\ keyRef (sp_stats s) = statsKey s.
Proof.
  assert (forall t s, keyRef (sp_stats (commit t s)) = statsKey (commit t s)) as Hk.
  { intros t u. rewrite commit_stats. unfold render. destruct (negb _); [|done]. unfold key_effect. by destruct (negb _). }
  induction 1 as [t st ps param remembered Hb|s e Hr [IH _] Hf]; (split; [|apply Hk]).
  - apply commit_stats_ok; [|apply hook0_ok]. intros p Hp. apply Hb. unfold mountPage. by rewrite commit_pid.
  - apply commit_stats_ok; [apply Hf|]. by apply page_event_stats_ok.
Qed.

(** The key of the counts of a profile: its view, its retention, and the number of deletions of the
    history, which empties the cache of the server. *)
Definition countsKey (p : string) s : string :=
  join "|" [p; rangeKeyValue (shownRange s); statsRetentionValue (pageRetention s); show (Z.of_nat (sp_reload s))].

Lemma statsKey_counts s k : statsKey s = Some k -> exists p, pid s = Some p /\ truthy p = true /\ k = countsKey p s.
Proof.
  unfold statsKey, keyWhen. destruct (pid s) as [p|]; [|done]. cbn [mbind option_bind].
  destruct (truthy p) eqn:Et; [|done]. destruct (statsOn s); [|done]. intros Hk. exists p. split; [done|]. split; [done|].
  unfold countsKey. unfold view_of in Hk. cbn [andb] in Hk. congruence.
Qed.

(** the counts that are shown are those of the profile, the view and the retention that are shown, except
    while they are marked as refreshing, and the skeleton and the marked counts have a request for them in
    flight, however the answers overtake each other *)
(** C30: the counts that the Statistics page shows are those of the profile, the view and the
    retention that are shown, except while they are marked as refreshing, and the skeleton and the
    marked counts have a request for them in flight, however the answers overtake each other *)
Theorem counts_are_of_the_view s :
  stats_reach s -> (exists p, pid s = Some p /\ truthy p = true) ->
  exists p, pid s = Some p /\
  match countsBody s with
  | CountsData d false => answers (countsKey p s) d
  | CountsData _ true | CountsSkeleton => mkRun (countsKey p s) false ∈ running (sp_stats s)
  | _ => True
  end.
Proof.
  intros Hr (p & Hp & Ht). exists p. split; [done|]. destruct (stats_reach_ok s Hr) as [Hok Hk].
  assert (forall P : string -> Prop, (exists k, keyRef (sp_stats s) = Some k /\ P k) -> P (countsKey p s)) as Hkey.
  { intros P (k & E & HP). rewrite Hk in E. destruct (statsKey_counts s k E) as (p' & Hp' & _ & ->). rewrite Hp in Hp'. by injection Hp' as <-. }
  unfold countsBody. destruct (countsOn s) eqn:Hc; [|done]. cbn [negb].
  assert (r_status (state (sp_stats s)) = loading \/ r_refreshing (state (sp_stats s)) = true ->
    mkRun (countsKey p s) false ∈ running (sp_stats s)) as Hw.
  { intros Hor. apply (Hkey (fun k => mkRun k false ∈ running (sp_stats s))). by apply (ho_awaited _ _ _ Hok). }
  destruct (r_status (state (sp_stats s))) eqn:Es.
  - exfalso. apply (ho_idle _ _ _ Hok) in Es. rewrite Hk in Es. unfold statsKey, keyWhen in Es. rewrite Hp in Es.
    cbn [mbind option_bind] in Es. unfold countsOn in Hc. apply andb_true_iff in Hc as [Hon _]. rewrite Ht, Hon in Es.
    cbn [andb] in Es. by destruct p as [|c p].
  - apply Hw. by left.
  - destruct (r_data (state (sp_stats s))) as [d|] eqn:Ed.
    + destruct (countsState d); [|by destruct (expectedFirstCounts _ _ _) as [x|]; [destruct (_ <? _)|]|done].
      destruct (r_refreshing (state (sp_stats s))) eqn:Ef; [apply Hw; by right|].
      apply (Hkey (fun k => answers k d)). by apply (ho_current _ _ _ Hok).
    + exfalso. by apply (ho_data _ _ _ Hok) in Es.
  - by destruct (bool_decide _).
Qed.

(** ** The clock of the first counts *)

(** The timers of the effect's last run are set, or the moment they wait for has passed. *)
Definition timers_ok s : Prop :=
  (length (sp_timers s) <= 2)%nat /\
  forall deps, sp_timerDeps s = Some deps ->
    (forall x, x ∈ sp_timers s -> t_kind x = UpdateNow -> td_collecting deps = Some (t_at x)) /\
    forall c, td_collecting deps = Some c -> td_refetch deps <> None /\ (c <= sp_now s \/ mkTimer UpdateNow c ∈ sp_timers s).

Lemma timersEffect_ok t0 deps s :
  (td_collecting deps <> None -> td_refetch deps <> None) -> timers_ok s -> timers_ok (timersEffect t0 deps s).
Proof.
  intros Hd [Hl Hok]. unfold timersEffect. destruct (bool_decide (sp_timerDeps s = Some deps)); [by split|].
  unfold timers_ok. cbn [sp_timers sp_timerDeps sp_now]. unfold firstTimers.
  destruct (td_collecting deps) as [c|] eqn:Ec; [|split; [cbn; lia|]; intros d [= <-]; rewrite Ec; split; [by intros t Ht%elem_of_nil|done]].
  destruct (td_refetch deps) as [r|] eqn:Er; [|by destruct Hd].
  destruct (Z.leb_spec c t0) as [Hc|Hc].
  - split; [cbn; lia|]. intros d [= <-]. rewrite Ec, Er. split; [by intros t Ht%elem_of_nil|]. intros c' [= <-]. split; [done|by left].
  - split; [destruct (t0 <? r); cbn; lia|]. intros d [= <-]. rewrite Ec, Er. split.
    + intros t [->|Ht]%elem_of_cons; [done|]. destruct (t0 <? r); [|by apply elem_of_nil in Ht].
      apply list_elem_of_singleton in Ht as ->. done.
    + intros c' [= <-]. split; [done|]. right. apply list_elem_of_here.
Qed.

Lemma timers_ok_ext s s' :
  sp_timers s' = sp_timers s -> sp_timerDeps s' = sp_timerDeps s -> sp_now s' = sp_now s -> timers_ok s -> timers_ok s'.
Proof. unfold timers_ok. by intros -> -> ->. Qed.

Lemma pass_timers_ok t s : timers_ok s -> timers_ok (pass t s).
Proof.
  intros Hok. apply timersEffect_ok.
  - unfold timerDepsOf. cbn. by destruct (expected s).
  - destruct (revalidate_hooks (serverOff s) (renderHooks s)) as (_ & _ & _ & _ & _ & _ & _ & E1 & E2 & E3).
    by eapply timers_ok_ext.
Qed.
Lemma commit_timers_ok t s : timers_ok s -> timers_ok (commit t s).
Proof.
  intros Hok. unfold commit. do 2 apply pass_timers_ok. unfold urlEffect. by destruct (urlDiffers s).
Qed.
Lemma event_timers_ok now e s : timers_ok s -> timers_ok (page_event number_of now e s).
Proof.
  intros Hok. destruct e; cbn [page_event]; try exact Hok.
  - unfold onProfile. destruct (sp_asked s !! i); [|done]. by destruct data.
  - unfold onTimer. destruct (sp_timers s !! i) as [t|] eqn:Ei; [|done]. destruct (Z.leb_spec (t_at t) now) as [Ht|]; [|done].
    destruct Hok as [Hl Hok].
    assert (length (delete i (sp_timers s)) <= 2)%nat as Hl' by (pose proof (length_delete (sp_timers s) i (mk_is_Some _ _ Ei)); lia).
    assert (forall x, x ∈ delete i (sp_timers s) -> x ∈ sp_timers s) as Hsub.
    { intros x Hx. rewrite (delete_Permutation _ _ _ Ei). apply elem_of_cons. by right. }
    destruct (t_kind t) eqn:Ek; (split; [exact Hl'|]); intros d Hd; destruct (Hok d Hd) as [H1 H2]; cbn [sp_timers sp_now sp_stats].
    + split; [intros x Hx; by apply H1, Hsub|]. intros c Hc. destruct (H2 c Hc) as [Hr _]. split; [done|]. left.
      assert (t ∈ sp_timers s) as Hin by (by eapply list_elem_of_lookup_2). specialize (H1 t Hin Ek). rewrite Hc in H1.
      injection H1 as ->. exact Ht.
    + split; [intros x Hx; by apply H1, Hsub|]. intros c Hc. destruct (H2 c Hc) as [Hr [Hn|Hin]]; (split; [done|]); [by left|right].
      rewrite (delete_Permutation _ _ _ Ei) in Hin. apply elem_of_cons in Hin as [<-|Hin]; [done|exact Hin].
Qed.

Lemma commit_deps t s : sp_timerDeps (commit t s) = Some (timerDepsOf (commit t s)).
Proof.
  assert (forall d x, sp_timerDeps (timersEffect t d x) = Some d) as Hd.
  { intros d x. unfold timersEffect. by case_bool_decide. }
  rewrite <- (page_settles t s) at 1. unfold pass. apply Hd.
Qed.

Definition page_run s0 (evs : list (Z * StatsEvent)) : StatsPage := run (page_step number_of) s0 evs.

(** What holds after every event. *)
Definition page_quiet s : Prop :=
  sp_timerDeps s = Some (timerDepsOf s) /\ hooks_settled s /\ parseRange (sp_param s) = shownRange s.
Lemma commit_quiet t s : page_quiet (commit t s).
Proof. split; [apply commit_deps|]. split; [apply pass_hooks_settled|apply commit_view]. Qed.

Lemma page_run_ok t st ps param remembered evs :
  let s := page_run (mountPage t st ps param remembered) evs in timers_ok s /\ page_quiet s.
Proof.
  cbv zeta. unfold page_run. apply (run_invariant (page_step number_of) (fun s => timers_ok s /\ page_quiet s)).
  - intros s e [Hok _]. split; [by apply commit_timers_ok, event_timers_ok|apply commit_quiet].
  - split; [|apply commit_quiet]. apply commit_timers_ok. split; [cbn; lia|done].
Qed.

(** A quiet page commits without touching the clock or the counts. *)
Lemma quiet_commit t s : page_quiet s ->
  sp_now (commit t s) = sp_now s /\ sp_stats (commit t s) = sp_stats s /\ same_inputs s (commit t s).
Proof.
  intros (Hd & Hh & Hu). unfold commit. assert (urlEffect s = s) as -> by (unfold urlEffect; by rewrite (proj2 (urlDiffers_spec s) Hu)).
  apply hooks_settled_iff in Hh as (Hs & _).
  assert (forall x, sp_timerDeps x = Some (timerDepsOf x) -> sp_now (pass t x) = sp_now x /\ sp_timerDeps (pass t x) = sp_timerDeps x) as Hp.
  { intros x Hx. unfold pass, timersEffect.
    destruct (revalidate_hooks (serverOff x) (renderHooks x)) as (_ & _ & _ & _ & _ & _ & _ & _ & Ed & En).
    rewrite Ed. change (sp_timerDeps (renderHooks x)) with (sp_timerDeps x). rewrite Hx, bool_decide_true by done. by rewrite Ed, En. }
  destruct (Hp s Hd) as [E1 E2]. assert (sp_stats (pass t s) = sp_stats s) as E3 by (by rewrite pass_stats).
  destruct (serverOff_same s (pass t s) (pass_same t s) E3) as [_ E4].
  destruct (Hp (pass t s)) as [E5 _]; [by rewrite E2, E4|]. split; [by rewrite E5|]. split.
  - rewrite pass_stats, (same_pid _ _ (pass_same t s)). destruct (same_keys _ _ (pass_same t s)) as (-> & _). by rewrite E3.
  - eapply same_trans; apply pass_same.
Qed.

Lemma quiet_clock s l n : page_quiet s -> page_quiet (s <| sp_timers := l |> <| sp_now := n |>).
Proof.
  set (x := s <| sp_timers := l |> <| sp_now := n |>). assert (same_inputs s x) as Hx by (split_and!; reflexivity).
  intros (A & B & C). unfold page_quiet. destruct (serverOff_same s x Hx eq_refl) as [_ ->].
  rewrite (same_range s x Hx). split; [exact A|]. split; [|exact C].
  apply hooks_settled_iff. apply hooks_settled_iff in B. rewrite (same_pid s x Hx).
  destruct (same_keys s x Hx) as (-> & -> & -> & -> & -> & ->). rewrite (catalogKey_same s x Hx eq_refl). exact B.
Qed.

(** while the page says that it is collecting, a timer is set for the moment it stops saying so, when it
    looks at the clock again; there are never more than two timers *)
(** C31: while the Statistics page says that it is collecting, a timer is set for the moment it
    stops saying so, when it looks at the clock again; there are never more than two timers *)
Theorem collecting_updates_itself t st ps param remembered evs :
  let s := page_run (mountPage t st ps param remembered) evs in
  (length (sp_timers s) <= 2)%nat /\
  forall since at_, countsBody s = Collecting since at_ ->
    exists i c, sp_timers s !! i = Some (mkTimer UpdateNow c) /\ at_ + COLLECTING_GRACE_MS = c /\ sp_now s < c /\
      forall now, c <= now -> forall since' at', countsBody (page_step number_of s (now, TimerFired i)) <> Collecting since' at'.
Proof.
  cbv zeta. destruct (page_run_ok t st ps param remembered evs) as [[Hl Hok] Hq].
  assert (Hdeps := proj1 Hq).
  set (s := page_run (mountPage t st ps param remembered) evs) in *. clearbody s. split; [exact Hl|].
  assert (forall x since at_, countsBody x = Collecting since at_ -> exists e, expected x = Some e /\
    sp_now x < collectingUntilMs e /\ at_ = displayMs e) as Hb.
  { intros x since at_. unfold countsBody, expected, readyData. destruct (countsOn x); [|done]. cbn [negb].
    destruct (r_status (state (sp_stats x))); [done|done| |by case_bool_decide].
    destruct (r_data (state (sp_stats x))) as [d|]; [|done]. cbn [mbind option_bind].
    destruct (countsState d); [done| |done]. destruct (expectedFirstCounts _ _ _) as [e|]; [|done].
    destruct (Z.ltb_spec (sp_now x) (collectingUntilMs e)); [|done]. intros [= _ <-]. by exists e. }
  intros since at_ Hc. destruct (Hb s since at_ Hc) as (e & He & Hn & ->).
  destruct (Hok _ Hdeps) as [_ H2].
  assert (td_collecting (timerDepsOf s) = Some (collectingUntilMs e)) as Htd by (unfold timerDepsOf; by rewrite He).
  destruct (H2 _ Htd) as [_ [Hle|Hin]]; [lia|].
  apply list_elem_of_lookup in Hin as [i Hi]. exists i, (collectingUntilMs e). split; [exact Hi|]. split.
  { unfold expected in He. destruct (readyData (sp_stats s)) as [d|]; [|done]. cbn [mbind option_bind] in He.
    destruct (countsState d); [done| |done]. unfold expectedFirstCounts in He. by destruct (latest _ _); [injection He as <-|]. }
  split; [exact Hn|]. intros now Hnow since' at' Hc'.
  destruct (Hb _ since' at' Hc') as (e' & He' & Hn' & _).
  assert (onTimer now i s = s <| sp_timers := delete i (sp_timers s) |> <| sp_now := now |>) as Ht.
  { unfold onTimer. rewrite Hi. cbn [t_at t_kind]. destruct (Z.leb_spec (collectingUntilMs e) now); [done|lia]. }
  assert (sp_now (page_step number_of s (now, TimerFired i)) = now /\ expected (page_step number_of s (now, TimerFired i)) = expected s)
    as [E1 E2].
  { unfold page_step. cbn [fst snd page_event]. rewrite Ht.
    set (x := s <| sp_timers := delete i (sp_timers s) |> <| sp_now := now |>).
    destruct (quiet_commit now x) as (F1 & F2 & F3).
    { by apply quiet_clock. } split; [by rewrite F1|].
    unfold expected. rewrite F2, (same_range _ _ F3). done. }
  rewrite E1 in Hn'. rewrite E2, He in He'. injection He' as <-. lia.
Qed.

(** ** Choosing a view *)

(** the address always names the view that is shown, which the retention of the profile covers, whatever is
    chosen, wherever the address comes from and whichever profile is active *)
Theorem address_names_the_view t st ps param remembered evs :
  let s := page_run (mountPage t st ps param remembered) evs in
  parseRange (sp_param s) = shownRange s /\ shownRange s ∈ r_key <$> offeredRanges (pageRetention s).
Proof.
  cbv zeta. destruct (page_run_ok t st ps param remembered evs) as (_ & _ & _ & Hu). split; [exact Hu|].
  apply elem_of_offered, shownRange_offered.
Qed.

Lemma chosen_resolves k s :
  shownRange (chooseRange k s) = resolveRange (Some (rangeKeyValue k)) (pageRetention s) ?? DEFAULT_RANGE.
Proof.
  unfold shownRange. change (pageRetention (chooseRange k s)) with (pageRetention s).
  assert (askedRange (chooseRange k s) = Some (rangeKeyValue k)) as ->; [|done].
  unfold askedRange, chooseRange, setRange, paramOf, rememberRange, rememberedRange. cbn [sp_param sp_remembered].
  by case_bool_decide as E; [rewrite E|].
Qed.

(** a view that the retention covers is shown when it is chosen, and again on every later visit of the page
    without a view in its address, until another one is chosen or the retention no longer covers it *)
Theorem chosen_view_is_shown s now k :
  k ∈ r_key <$> offeredRanges (pageRetention s) ->
  let s' := page_step number_of s (now, ChooseRange k) in
  shownRange s' = k /\ parseRange (sp_param s') = k /\
  forall s2, pageRetention s2 = pageRetention s -> sp_remembered s2 = sp_remembered s' -> sp_param s2 = None ->
    shownRange s2 = k.
Proof.
  intros Hk%elem_of_offered. cbv zeta. unfold page_step. cbn [fst snd page_event].
  destruct (resolve_view None (pageRetention s)) as (_ & _ & _ & _ & Hj).
  destruct (commit_view now (chooseRange k s)) as [E1 E2].
  assert (shownRange (chooseRange k s) = k) as E3 by (rewrite chosen_resolves; by rewrite (Hj k Hk)).
  rewrite E1, E2, E3. split; [done|]. split; [done|].
  intros s2 Hret Hrem Hs. unfold shownRange, askedRange. rewrite Hret, Hs, Hrem.
  destruct (commit_same now (chooseRange k s)) as (_ & _ & _ & -> & _).
  assert (sp_remembered (urlEffect (chooseRange k s)) = Some k) as -> by (unfold urlEffect; by destruct (urlDiffers _)).
  cbn [rememberedRange fmap option_fmap option_map]. by rewrite (Hj k Hk).
Qed.

(** the button of a view without queries names the next longer view also when the retention does not cover
    it: pressing it leaves the view as it is, and remembers the one that cannot be shown *)
Theorem empty_view_offers_a_dead_end s now words k :
  countsBody s = EmptyRange words (Some k) -> k ∉ r_key <$> offeredRanges (pageRetention s) ->
  let s' := page_step number_of s (now, ChooseRange k) in
  shownRange s' = shownRange s /\ sp_remembered s' = Some k.
Proof.
  intros Hb Hk. assert (nextLongerRange (shownRange s) = Some k) as Hn.
  { revert Hb. unfold countsBody. destruct (negb _); [done|].
    destruct (r_status _); [done|done| |by case_bool_decide]. destruct (r_data _) as [d|]; [|done].
    destruct (countsState d); [done| |congruence]. destruct (expectedFirstCounts _ _ _) as [e|]; [|done]. by destruct (_ <? _). }
  cbv zeta. unfold page_step. cbn [fst snd page_event]. destruct (commit_view now (chooseRange k s)) as [_ ->]. split.
  - rewrite chosen_resolves. assert (Hs := shownRange_offered s). clear Hb. revert Hs Hn Hk. rewrite elem_of_offered.
    generalize (shownRange s), (pageRetention s). intros [] []; cbn; intros Hs [= <-] Hk; try done;
      exfalso; (apply Hk || apply Hs); done.
  - destruct (commit_same now (chooseRange k s)) as (_ & _ & _ & -> & _). unfold urlEffect. by destruct (urlDiffers _).
Qed.

(** ** The dialogs of the gates *)

(** a dialog of the page opens with the settings of the profile, with what its gate offers turned on and
    nothing turned off or changed *)
Theorem gates_only_turn_on saved d :
  let p := merge saved (GATE_DIALOG d) in
  (stats saved = true -> stats p = true) /\ (logs saved = true -> logs p = true) /\
  (domains saved = true -> domains p = true) /\ (ips saved = true -> ips p = true) /\
  statsRetention p = statsRetention saved /\ retention p = retention saved /\
  match d with
  | RetentionDialog => p = saved
  | GateDialog GateStats => stats p = true
  | GateDialog GateLogs => logs p = true
  | GateDialog GateDomains => logs p = true /\ domains p = true
  | GateDialog GateIps => logs p = true /\ ips p = true
  end.
Proof. destruct saved, d as [[]|]; cbn; split_and!; done. Qed.

(** ** Revalidation *)

(** while a profile stays active it is read again once at most, whatever the server answers *)
Theorem one_revalidation s t p :
  pid s = Some p -> sp_revalidated s = Some p -> sp_asked (commit t s) = sp_asked s.
Proof.
  intros Hp Hr. unfold commit.
  assert (forall x, pid x = Some p -> sp_revalidated x = Some p ->
    sp_asked (pass t x) = sp_asked x /\ pid (pass t x) = Some p /\ sp_revalidated (pass t x) = Some p) as Hpass.
  { intros x Hx Hrx. split_and!; [|by rewrite (same_pid _ _ (pass_same t x))|]; unfold pass;
      destruct (timers_hooks t (timerDepsOf x) (revalidate (serverOff x) (renderHooks x))) as (_ & _ & _ & _ & _ & _ & _ & Er & Ea);
      rewrite ?Er, ?Ea; unfold revalidate; change (pid (renderHooks x)) with (pid x); rewrite Hx;
      change (sp_revalidated (renderHooks x)) with (sp_revalidated x); rewrite Hrx, (bool_decide_true (Some p = Some p)), !orb_true_r by done; done. }
  assert (pid (urlEffect s) = Some p /\ sp_revalidated (urlEffect s) = Some p /\ sp_asked (urlEffect s) = sp_asked s) as (H1 & H2 & <-)
    by (unfold urlEffect; by destruct (urlDiffers s)).
  destruct (Hpass _ H1 H2) as (<- & H3 & H4). by destruct (Hpass _ H3 H4) as (-> & _).
Qed.

(** the profile that a revalidation reads becomes the active one, also when another one is active by then *)
Theorem late_revalidation_switches_back s now i p data :
  sp_asked s !! i = Some p -> p_profile_id data = p ->
  pid (page_step number_of s (now, ProfileAnswered i (Some data))) = Some p.
Proof.
  intros Hi <-. unfold page_step. cbn [fst snd page_event]. rewrite commit_pid. unfold onProfile. rewrite Hi. reflexivity.
Qed.
(** the answer that said off is still there when the next profile is rendered for the first time: the next
    profile is read again although nothing was said about it *)
Theorem off_answer_revalidates_next_profile s now st q :
  serverOff s = true -> activeProfile st = Some q -> truthy (p_profile_id q) = true ->
  (settings ← p_settings q; t ← ps_statistics settings; ss_enabled t) = Some true ->
  sp_revalidated s <> Some (p_profile_id q) ->
  p_profile_id q ∈ sp_asked (page_step number_of s (now, StoreChanged st)).
Proof.
  intros Hoff Hq Ht Hon Hr. unfold page_step. cbn [fst snd page_event]. set (x := s <| sp_store := st |>).
  unfold commit. set (y := urlEffect x).
  assert (sp_store y = st /\ sp_stats y = sp_stats s /\ sp_revalidated y = sp_revalidated s) as (E1 & E2 & E3)
    by (unfold y, urlEffect; by destruct (urlDiffers x)).
  assert (forall z a, a ∈ sp_asked z -> a ∈ sp_asked (pass now z)) as Hgrow.
  { intros z a Ha. unfold pass. destruct (timers_hooks now (timerDepsOf z) (revalidate (serverOff z) (renderHooks z)))
      as (_ & _ & _ & _ & _ & _ & _ & _ & ->).
    unfold revalidate. destruct (pid (renderHooks z)) as [p|]; [|exact Ha]. destruct (_ || _); [exact Ha|].
    cbn [sp_asked]. apply elem_of_app. by left. }
  apply Hgrow. unfold pass. destruct (timers_hooks now (timerDepsOf y) (revalidate (serverOff y) (renderHooks y)))
      as (_ & _ & _ & _ & _ & _ & _ & _ & ->).
  assert (pageProfile y = Some q) as Hpq by (unfold pageProfile; by rewrite E1, Hq).
  assert (serverOff y = true) as ->.
  { unfold serverOff in Hoff |- *. rewrite E2. apply andb_true_iff in Hoff as [_ ->].
    unfold statsOn, pageSettings. rewrite Hpq. cbn [mbind option_bind]. by rewrite Hon. }
  unfold revalidate. change (pid (renderHooks y)) with (pid y). change (sp_revalidated (renderHooks y)) with (sp_revalidated y).
  assert (pid y = Some (p_profile_id q)) as -> by (unfold pid; by rewrite Hpq).
  rewrite E3, Ht, (bool_decide_false _ Hr). cbn [negb orb sp_asked]. apply elem_of_app. right. by apply list_elem_of_singleton.
Qed.
End facts.

(** ** The picker *)

(** The shortest retention that covers a view. *)
Definition covering (k : RangeKey) : StatsRetention := match k with K3m => S90d | K12m => S1y | _ => S30d end.
Lemma covering_shortest k :
  neededRetention (rangeDef k) = so_words (statsOption (covering k)) /\ k ∈ r_key <$> offeredRanges (covering k) /\
  forall ret, k ∈ r_key <$> offeredRanges ret -> statsDays (covering k) <= statsDays ret.
Proof.
  split; [by destruct k|]. rewrite elem_of_offered. split; [by destruct k|].
  intros ret. rewrite elem_of_offered. destruct k, ret; vm_compute; intros E F; (discriminate F || by apply E).
Qed.

Lemma offered_bool ret k :
  existsb (fun o => bool_decide (r_key o = k)) (offeredRanges ret) = bool_decide (k ∈ r_key <$> offeredRanges ret).
Proof.
  apply Bool.eq_iff_eq_true. rewrite bool_decide_eq_true, existsb_elem, list_elem_of_fmap. split.
  - intros (o & Ho & E%bool_decide_eq_true_1). by exists o.
  - intros (o & -> & Ho). exists o. by rewrite bool_decide_true.
Qed.

(** the picker lists every view; the ones that are disabled are those the retention does not cover, and
    what they need is the shortest retention that covers them *)
Theorem picker_disables_what_is_not_covered ret :
  map pi_key (pickerItems (offeredRanges ret)) = map r_key RANGES /\
  Forall (fun i => match pi_needs i with
    | None => pi_key i ∈ r_key <$> offeredRanges ret
    | Some w => pi_key i ∉ r_key <$> offeredRanges ret /\
        exists o, w = "Needs statistics kept for " ++s so_words (statsOption o) /\ pi_key i ∈ r_key <$> offeredRanges o /\
          forall o', pi_key i ∈ r_key <$> offeredRanges o' -> statsDays o <= statsDays o'
    end) (pickerItems (offeredRanges ret)).
Proof.
  split; [unfold pickerItems; by rewrite map_map|].
  unfold pickerItems. apply Forall_map, Forall_forall. intros r Hr. cbn [pi_needs pi_key].
  rewrite offered_bool. case_bool_decide as E; [exact E|]. split; [exact E|]. exists (covering (r_key r)).
  destruct (covering_shortest (r_key r)) as (H1 & H2 & H3).
  assert (rangeDef (r_key r) = r) as Er by (unfold RANGES in Hr; repeat (apply elem_of_cons in Hr as [->|Hr]; [reflexivity|]); by apply elem_of_nil in Hr).
  rewrite Er in H1. rewrite H1. by split_and!.
Qed.

(** ** Witnesses *)

Definition counted_profile (id : string) : ModelProfile :=
  MkModelProfile "acc" id "Home" id
    (Some (MkModelProfileSettings None None None None None id None (Some (MkModelStatisticsSettings (Some true) None None (Some "30d"))))).
Definition stats_store (id : string) : AppState := setActiveProfile (Some (counted_profile id)) initialState.
Definition stats_page : StatsPage := mountPage 0 (stats_store "p1") [] (Some "30d") None.

Definition witness_body (on : bool) (queries : Z) : FetchAnswer :=
  Body (JObj [("enabled", JBool on); ("enabled_at", JStr "2026-01-01T00:00:00Z"); ("from", JStr "2026-03-01T00:00:00Z");
              ("to", JStr "2026-03-31T00:00:00Z"); ("totals", JObj [("total", JNum (Fin queries))])]).
Definition settled_page (a : FetchAnswer) : StatsPage :=
  page_step (H := utc_host) (fun _ => 0) stats_page (1, StatsSettled 0 a).
Definition witness_answers (k : string) (d : StatsData) : Prop := k = "p1|30d|30d|0" /\ tot_total (totals d) = 7.

Lemma counts_are_of_the_view_witness :
  exists d, countsBody (H := utc_host) (settled_page (witness_body true 7)) = CountsData d false /\
    witness_answers (countsKey "p1" (settled_page (witness_body true 7))) d.
Proof.
  assert (stats_reach (H := utc_host) (fun _ => 0) witness_answers (settled_page (witness_body true 7))) as Hr.
  { unfold settled_page. refine (reach_event (fun _ => 0) witness_answers stats_page (1, StatsSettled 0 (witness_body true 7)) _ _).
    - refine (reach_mount _ _ 0 (stats_store "p1") [] (Some "30d") None _). intros p Hp. vm_compute in Hp. injection Hp as <-. reflexivity.
    - split.
      + intros p Hp. vm_compute in Hp. injection Hp as <-. reflexivity.
      + cbn [snd]. intros r d Hd Ha. vm_compute in Hd. injection Hd as <-. vm_compute in Ha. injection Ha as <-.
        split; vm_compute; reflexivity. }
  destruct (counts_are_of_the_view (H := utc_host) (fun _ => 0) witness_answers _ Hr (ex_intro _ "p1" (conj eq_refl eq_refl)))
    as (p & Hp & Hc).
  vm_compute in Hp. injection Hp as <-.
  destruct (countsBody (settled_page (witness_body true 7))) as [| | | | | | |d b] eqn:E; try (exfalso; vm_compute in E; discriminate E).
  assert (b = false) as Hb by (vm_compute in E; congruence). subst b. exists d. split; [reflexivity|exact Hc].
Defined.

Lemma chosen_view_is_shown_witness :
  shownRange (page_step (H := utc_host) (fun _ => 0) stats_page (1, ChooseRange K7d)) = K7d.
Proof.
  refine (proj1 (chosen_view_is_shown (H := utc_host) (fun _ => 0) stats_page 1 K7d _)).
  apply elem_of_offered. vm_compute. discriminate.
Defined.

Lemma empty_view_offers_a_dead_end_witness :
  let s := settled_page (witness_body true 0) in
  shownRange (page_step (H := utc_host) (fun _ => 0) s (2, ChooseRange K3m)) = K30d /\
  sp_remembered (page_step (H := utc_host) (fun _ => 0) s (2, ChooseRange K3m)) = Some K3m.
Proof.
  intros s. apply (empty_view_offers_a_dead_end (H := utc_host) (fun _ => 0) s 2 "last 30 days" K3m); [vm_compute; reflexivity|].
  rewrite elem_of_offered. vm_compute. intros E. apply E. reflexivity.
Defined.

Lemma one_revalidation_witness :
  sp_asked (commit 2 (settled_page (witness_body false 0))) = ["p1"].
Proof.
  etransitivity; [apply (one_revalidation (settled_page (witness_body false 0)) 2 "p1"); vm_compute; reflexivity|].
  vm_compute. reflexivity.
Defined.

Lemma late_revalidation_switches_back_witness :
  let s := page_step (H := utc_host) (fun _ => 0) (settled_page (witness_body false 0)) (2, StoreChanged (stats_store "p2")) in
  pid s = Some "p2" /\ pid (page_step (H := utc_host) (fun _ => 0) s (3, ProfileAnswered 0 (Some (counted_profile "p1")))) = Some "p1".
Proof.
  intros s. split; [vm_compute; reflexivity|].
  apply (late_revalidation_switches_back (H := utc_host) (fun _ => 0) s 3 0 "p1" (counted_profile "p1")); vm_compute; reflexivity.
Defined.

Lemma off_answer_revalidates_next_profile_witness :
  "p2" ∈ sp_asked (page_step (H := utc_host) (fun _ => 0) (settled_page (witness_body false 0)) (2, StoreChanged (stats_store "p2"))).
Proof.
  apply (off_answer_revalidates_next_profile (H := utc_host) (fun _ => 0) (settled_page (witness_body false 0)) 2 (stats_store "p2") (counted_profile "p2"));
    vm_compute; (reflexivity || discriminate).
Defined.
