(* ===== verification/StatsPanels.v ===== *)
(** * The panels of the Statistics page

    [src/app/src/pages/statistics/panels] and [primitives.tsx]: what each panel writes for the counts and
    the top lists, as the table and as the bars, the columns and the lines of the chart, and the view that
    a panel remembers. Geometry is kept as fractions: a bar is its value over what the whole track stands
    for. The angles of the donut and the pixels of the sparklines are not modelled. *)

From Stdlib Require Import QArith Qminmax Lqa.
From S2P Require Import Prelude JsString JsNumber JsDate ApiTypes CustomRules Formats Ranges Derive StatsTime Statistics.

#[local] Open Scope Z_scope.

(** ** The view of a panel *)

Inductive PanelView : Set := ViewChart | ViewBars | ViewTable.
#[export] Instance PanelView_eq_dec : EqDecision PanelView.
Proof. solve_decision. Defined.

(** [useState] of [PanelShell] at its mount; [remembered] is the map of the session. *)
Definition mountShell (rememberAs : option string) (defaultView : PanelView) (remembered : gmap string PanelView) : PanelView :=
  match rememberAs with
  | Some name => if truthy name then remembered !! name ?? defaultView else defaultView
  | None => defaultView
  end.
Definition chooseView (rememberAs : option string) (v : PanelView) (remembered : gmap string PanelView) : gmap string PanelView * PanelView :=
  (match rememberAs with Some name => if truthy name then <[name := v]> remembered else remembered | None => remembered end, v).

(** ** Tables and bars *)

Record StatsTable := mkTable { tb_caption : string; tb_columns : list string; tb_rows : list (list string) }.

(** The texts of [meta] in order; [br_blocked] is the red part of a bar. *)
Record BarRow := mkBar { br_id : string; br_label : string; br_value : Z; br_blocked : option Z; br_meta : list string }.
Inductive BarScale : Set := ScaleShare | ScaleLeader.

Definition sumValues (rows : list BarRow) : Z := foldr (fun r n => br_value r + n) 0 rows.
(** [Math.max(...values)]; a panel without rows has no bars. *)
Definition maxValue (rows : list BarRow) : Z := foldr (fun r n => Z.max (br_value r) n) 0 rows.
Definition denominator (scale : BarScale) (rows : list BarRow) : Z :=
  match scale with ScaleShare => sumValues rows | ScaleLeader => maxValue rows end.
(** A segment: its value, drawn as that part of the denominator. *)
Definition seg (denom value : Z) : option Z := if (0 <? value) && (0 <? denom) then Some value else None.
Definition segments (denom : Z) (r : BarRow) : list (option Z) :=
  match br_blocked r with
  | Some b => [seg denom (br_value r - b); seg denom b]
  | None => [seg denom (br_value r)]
  end.
Definition shownBars (collapseAfter : option nat) (expanded : bool) (rows : list BarRow) : list BarRow :=
  match collapseAfter with
  | Some n => if (n <? length rows)%nat && negb expanded then take n rows else rows
  | None => rows
  end.

Inductive PanelBody : Type :=
| PanelNote (text : string)
| PanelTable (t : StatsTable)
| PanelBars (scale : BarScale) (collapseAfter : option nat) (rows : list BarRow)
| PanelDonut (label : string) (rows : list BarRow).
(** [p_toggle]: the panel offers its views; [p_default]: the view it opens with; [p_note] is the line
    below a full top list. *)
Record Panel := mkPanel {
  p_title : string;
  p_toggle : bool;
  p_default : PanelView;
  p_body : PanelBody;
  p_note : option string;
}.

Definition topListNote (count : nat) : option string :=
  if (TOP_LIST_LIMIT <=? count)%nat then Some ("Showing the top " ++s show (Z.of_nat TOP_LIST_LIMIT) ++s ".") else None.

Section panels.
Context {H : Host} {N : NumberHost}.

Definition isTable (v : PanelView) : bool := bool_decide (v = ViewTable).
Definition rangeWords (range : RangeKey) : string := r_words (rangeDef range).
Definition numbered {A} (l : list A) : list (nat * A) := imap (fun i x => (S i, x)) l.

(** *** Reasons *)

Record ReasonRow := mkReason { rr_id : string; rr_label : string; rr_cat : Z; rr_value : Z }.
Definition reasonRow (d : StatsData) (c : ClassDef ReasonKey) : ReasonRow :=
  mkReason (reasonKeyValue (cl_key c)) (cl_label c) (cl_cat c) (reasons d (cl_key c)).
Definition by_value (a b : ReasonRow) : Z := rr_value b - rr_value a.
Definition reasonRows (d : StatsData) : list ReasonRow :=
  array_sort by_value (List.filter (fun r => 0 <? rr_value r) (map (reasonRow d) REASON_CLASSES)).
Definition reasonTotal (rows : list ReasonRow) : Z := foldr (fun r n => rr_value r + n) 0 rows.
Definition reasonsPanel (view : PanelView) (d : StatsData) (range : RangeKey) : Panel :=
  let rows := reasonRows d in
  let total := reasonTotal rows in
  mkPanel "Blocked by reason" (0 <? total) ViewChart
    (if total =? 0 then PanelNote "Nothing was blocked in this range."
     else if isTable view then
       PanelTable (mkTable ("Blocked queries by reason, " ++s rangeWords range) ["Reason"; "Blocked"; "Share"]
         (map (fun r => [rr_label r; formatCount (rr_value r); formatPercent (rr_value r) total]) rows))
     else PanelBars ScaleShare None
       (map (fun r => mkBar (rr_id r) (rr_label r) (rr_value r) None [formatCount (rr_value r); formatPercent (rr_value r) total]) rows))
    None.

(** *** Protocols *)

Record Slice := mkSlice { sl_label : string; sl_cat : Z; sl_value : Z }.
Definition protocolSlices (d : StatsData) : list Slice :=
  List.filter (fun s => 0 <? sl_value s) (map (fun p => mkSlice (cl_label p) (cl_cat p) (protocols d (cl_key p))) PROTOCOLS).
Definition sliceTotal (l : list Slice) : Z := foldr (fun s n => sl_value s + n) 0 l.
(** The name of the donut. *)
Definition donutLabel (l : list Slice) : string :=
  "Protocols: " ++s join ", " (map (fun s => sl_label s ++s " " ++s formatPercent (sl_value s) (sliceTotal l)) l).
(** The rows of the legend beside the donut. *)
Definition protocolsPanel (view : PanelView) (d : StatsData) (range : RangeKey) : Panel :=
  let slices := protocolSlices d in
  let total := sliceTotal slices in
  mkPanel "Protocols" (0 <? total) ViewChart
    (if total =? 0 then PanelNote "No encrypted queries in this range."
     else if isTable view then
       PanelTable (mkTable ("Queries by protocol, " ++s rangeWords range) ["Protocol"; "Queries"; "Share"]
         (map (fun s => [sl_label s; formatCount (sl_value s); formatPercent (sl_value s) total]) slices))
     else PanelDonut (donutLabel slices)
       (map (fun s => mkBar (sl_label s) (sl_label s) (sl_value s) None [formatPercent (sl_value s) total; formatCount (sl_value s)]) slices))
    None.

(** *** Devices *)

(** [lastSeen] is [None] while logs are off. *)
Definition seen (lastSeen : option (gmap string Z)) (now : Z) (d : StatsDevice) : option string :=
  m ← lastSeen; ms ← m !! dv_id d; Some (formatRelative ms now).
Definition devicesTotal (l : list StatsDevice) : Z := foldr (fun d n => dv_total d + n) 0 l.
Definition devicesPanel (view : PanelView) (d : StatsData) (range : RangeKey) (lastSeen : option (gmap string Z)) (now : Z) : Panel :=
  let devs := devices d in
  let on := bool_decide (is_Some lastSeen) in
  mkPanel "Devices" (0 <? length devs)%nat ViewChart
    (match devs with
     | [] => PanelNote "No devices in this range."
     | _ =>
       if isTable view then
         PanelTable (mkTable ("Queries per device, " ++s rangeWords range)
           (["Device"; "Queries"; "Blocked"; "Blocked %"] ++ if on then ["Last seen in logs"] else [])
           (map (fun x => [dl_text (deviceLabel (dv_id x)); formatCount (dv_total x); formatCount (dv_blocked x);
                           formatPercent (dv_blocked x) (dv_total x)]
                          ++ if on then [seen lastSeen now x ?? "-"] else []) devs))
       else PanelBars ScaleShare (Some 5%nat)
         (map (fun x => mkBar (str_or (dv_id x) "(none)") (dl_text (deviceLabel (dv_id x))) (dv_total x) (Some (dv_blocked x))
            ([formatCount (dv_total x); formatPercent (dv_total x) (devicesTotal devs); formatCount (dv_blocked x) ++s " blocked"]
             ++ match seen lastSeen now x with Some t => ["last seen in logs " ++s t] | None => [] end)) devs)
     end) None.

(** *** Top lists *)

Definition blocklistName (b : BlocklistItem) : string := opt_or (bi_name b) (bi_id b).
Definition blocklistsPanel (view : PanelView) (its : list BlocklistItem) (scopeIn : string) : Panel :=
  let hits := length (List.filter (fun b => 0 <? bi_count b) its) in
  mkPanel "Top blocklists" (0 <? hits)%nat ViewTable
    (if (hits =? 0)%nat then PanelNote ("No queries blocked by a blocklist " ++s scopeIn ++s ".")
     else if isTable view then
       PanelTable (mkTable ("Top blocklists, from query logs " ++s scopeIn) ["#"; "Blocklist"; "Queries"]
         (map (fun ib => [show (Z.of_nat (fst ib)); blocklistName (snd ib); formatCount (bi_count (snd ib))]) (numbered its)))
     else PanelBars ScaleLeader None
       (map (fun b => mkBar (bi_id b) (blocklistName b) (bi_count b) None [formatCount (bi_count b)]) its))
    (if (hits =? 0)%nat then None else topListNote hits).

Definition domainTitle (blocked : bool) : string := if blocked then "Top blocked domains" else "Top resolved domains".
(** The action of the quick rule of a row. *)
Definition domainRule (blocked : bool) : RuleList := if blocked then allowlist else denylist.
(** [added] is [quickRule.isAdded], when the panel offers quick rules. *)
Definition domainsPanel (view : PanelView) (blocked : bool) (its : list DomainItem) (scopeIn : string)
  (added : option (string -> bool)) : Panel :=
  let name d := stripTrailingDot (di_domain d) in
  let named d := name d ++s (if match added with Some f => f (name d) | None => false end then "Rule added" else "") in
  mkPanel (domainTitle blocked) (0 <? length its)%nat ViewTable
    (match its with
     | [] => PanelNote ("No " ++s (if blocked then "blocked" else "resolved") ++s " domains " ++s scopeIn ++s ".")
     | _ =>
       if isTable view then
         PanelTable (mkTable (domainTitle blocked ++s ", from query logs " ++s scopeIn)
           (["#"; "Domain"; "Queries"] ++ if added then ["Actions"] else [])
           (map (fun id => [show (Z.of_nat (fst id)); named (snd id); formatCount (di_count (snd id))]
                           ++ if added then ["Create a custom rule for " ++s name (snd id)] else []) (numbered its)))
       else PanelBars ScaleLeader None
         (map (fun d => mkBar (di_domain d) (named d) (di_count d) None [formatCount (di_count d)]) its)
     end) (match its with [] => None | _ => topListNote (length its) end).

(** The API sends names as strings and a number of an autonomous system as an integer. *)
Definition text_of (v : option Json) : option string :=
  match v with Some (JStr s) => Some s | Some (JNum (Fin z)) => Some (show z) | _ => None end.
Definition json_truthy (v : option Json) : bool :=
  match v with
  | None | Some JNull | Some (JBool false) | Some (JNum JNaN) => false
  | Some (JStr s) => truthy s
  | Some (JNum (Fin z)) => negb (z =? 0)
  | _ => true
  end.
Definition isp (c : ClientItem) : string :=
  if json_truthy (ci_asOrg c) then
    let org := text_of (ci_asOrg c) ?? "" in
    if json_truthy (ci_asn c) then org ++s " (AS" ++s (text_of (ci_asn c) ?? "") ++s ")" else org
  else "-".
Definition noGeo (its : list ClientItem) : bool :=
  (0 <? length its)%nat &&
  forallb (fun c => negb (json_truthy (ci_asOrg c)) && negb (json_truthy (ci_asn c)) && negb (json_truthy (ci_country c))) its.
Definition clientsPanel (its : list ClientItem) (scopeIn : string) : Panel :=
  mkPanel "Top clients" false ViewChart
    (match its with
     | [] => PanelNote ("No client addresses " ++s scopeIn ++s ".")
     | _ => PanelTable (mkTable ("Top clients, from query logs " ++s scopeIn) ["IP address"; "Queries"; "ISP (ASN)"; "Country"]
              (map (fun c => [ci_ip c; formatCount (ci_count c); isp c; text_of (ci_country c) ?? "-"]) its))
     end) (match its with [] => None | _ => topListNote (length its) end).

(** *** Queries over time *)

Record SeriesRow := mkSeries {
  se_ts : Z;
  se_all : option Z;
  se_blocked : option Z;
  se_allTail : option Z;
  se_blockedTail : option Z;
  se_barAll : option Z;
  se_barBlocked : option Z;
  se_inProgress : bool;
}.
Definition seriesRow (b : Bucket) (next : option Bucket) : SeriesRow :=
  let inTail := b_inProgress b || match next with Some n => b_inProgress n | None => false end in
  mkSeries (b_ts b) (if b_inProgress b then None else b_total b) (if b_inProgress b then None else b_blocked b)
    (if inTail then b_total b else None) (if inTail then b_blocked b else None) (b_total b) (b_blocked b) (b_inProgress b).
Fixpoint toRows (l : list Bucket) : list SeriesRow :=
  match l with [] => [] | b :: l' => seriesRow b (head l') :: toRows l' end.

Definition is_counted (r : SeriesRow) : bool := bool_decide (is_Some (se_all r) \/ is_Some (se_allTail r)).
(** With one or two points a line has nothing to draw, so each gets a dot. *)
Definition fewBuckets (count : nat) : bool := (0 <? count)%nat && (count <=? 2)%nat.
Definition dots (rows : list SeriesRow) : bool := fewBuckets (length (List.filter is_counted rows)).
(** Where the marker of the start of counting stands. *)
Definition markerTs (d : StatsData) (rows : list SeriesRow) : option Z :=
  _ ← countingSince d; se_ts <$> array_find is_counted rows.

Definition is_live (b : Bucket) : bool := bool_decide (is_Some (b_total b)).
Definition higher (m : option Bucket) (b : Bucket) : option Bucket :=
  match m with
  | None => Some b
  | Some p => if (b_total p ?? 0) <? (b_total b ?? 0) then Some b else m
  end.
Definition peak (l : list Bucket) : option Bucket := foldl higher None (List.filter is_live l).
Definition chartSummary (d : StatsData) (buckets : list Bucket) (range : RangeKey) : string :=
  let base := "Queries over the " ++s rangeWords range ++s ": " ++s formatCount (tot_total (totals d)) ++s " total, "
              ++s formatCount (tot_blocked (totals d)) ++s " blocked" in
  match peak buckets with
  | Some p =>
      if 0 <? (b_total p ?? 0) then
        base ++s "; busiest " ++s (if String.eqb (bucketUnitWord (bucketSeconds d)) "daily" then "day" else "bucket") ++s " "
        ++s formatBucketLabel (b_ts p) (bucketSeconds d) ++s " with " ++s formatCount (b_total p ?? 0)
      else base
  | None => base
  end.

Definition seriesTable (d : StatsData) (buckets : list Bucket) : StatsTable :=
  let unit := bucketUnitWord (bucketSeconds d) in
  mkTable ((if String.eqb unit "daily" then "Daily buckets (UTC days)"
            else if String.eqb unit "hourly" then "Hourly buckets" else "15-minute buckets") ++s ", newest first")
    ["Time"; "Total"; "Blocked"; "DNSSEC"]
    (map (fun b => [formatBucketLabel (b_ts b) (bucketSeconds d) ++s (if b_inProgress b then "(in progress)" else "");
                    formatCount (b_total b ?? 0); formatCount (b_blocked b ?? 0); formatCount (b_dnssec b ?? 0)])
       (List.filter is_live (rev buckets))).

Definition seriesTooltip (bucketSeconds : Z) (row : SeriesRow) : list string :=
  let total := match se_all row with Some n => Some n | None => se_allTail row end in
  let blocked := match se_blocked row with Some n => Some n | None => se_blockedTail row end in
  [formatBucketLabel (se_ts row) bucketSeconds] ++
  match total with
  | None => ["Statistics were off"]
  | Some n => ["All queries: " ++s formatCount n; "Blocked: " ++s formatCount (blocked ?? 0)]
  end ++ if se_inProgress row then ["In progress"] else [].

(** The panel: the line about the start of counting with its shorter view, and the table or the chart with
    its name, rows, ticks, marker and dots. *)
Inductive SeriesBody : Type :=
| SeriesTable (t : StatsTable)
| SeriesChart (bars : bool) (label : string) (rows : list SeriesRow) (ticks : list AxisTick) (marker : option Z) (dot : bool).
Record SeriesView := mkSeriesView {
  sv_since : option string;
  sv_shorter : option (RangeKey * string);
  sv_body : SeriesBody;
}.
Definition seriesPanel (view : PanelView) (d : StatsData) (range : RangeKey) (offered : list RangeDef) (width : option Z) : SeriesView :=
  let buckets := buildBuckets d in
  let rows := toRows buckets in
  let since := countingSince d in
  mkSeriesView
    (s ← since; Some ("Counting since " ++s formatDateTime s ++s "."))
    (_ ← since; k ← shorterViewForStart d range offered; Some (k, "Show " ++s rangeWords k))
    (match view with
     | ViewTable => SeriesTable (seriesTable d buckets)
     | _ => SeriesChart (bool_decide (view = ViewBars)) (chartSummary d buckets range) rows
              (axisTicks range (map se_ts rows) width) (markerTs d rows) (dots rows)
     end).

(** A bucket as a column: its height, and that of its red part; nothing without queries. *)
Definition bucketColumn (height : Q) (row : SeriesRow) : option (Q * Q) :=
  let all := se_barAll row ?? 0 in
  if all <=? 0 then None else
  let h := Qmax height 1 in
  let blocked := se_barBlocked row ?? 0 in
  Some (h, if 0 <? blocked then Qmin h (Qmax 1 (h * inject_Z blocked / inject_Z all)) else 0%Q).

(** *** Sparklines *)

Definition BINS : Z := 28.
(** [Math.max(1, Math.round(length / BINS))] *)
Definition binSize (n : nat) : nat := Z.to_nat (Z.max 1 ((Z.of_nat n + BINS / 2) / BINS)).
Definition binOf (slice : list (option Z)) : option Z :=
  match omap id slice with [] => None | vs => Some (foldr Z.add 0 vs) end.
Fixpoint binned_from (fuel size : nat) (values : list (option Z)) : list (option Z) :=
  match fuel, values with
  | S f, _ :: _ => binOf (take size values) :: binned_from f size (drop size values)
  | _, _ => []
  end.
(** Every round takes at least one value. *)
Definition binned (values : list (option Z)) : list (option Z) :=
  binned_from (length values) (binSize (length values)) values.
Definition sparkMax (bins : list (option Z)) : Z := foldr (fun v n => Z.max (v ?? 0) n) 1 bins.
(** The points of the line: the bins that have a value, with their position; none for fewer than two
    bins. *)
Definition sparkline (values : list (option Z)) : list (nat * Z) :=
  let bins := binned values in
  if (length bins <? 2)%nat then [] else omap (fun iv => v ← snd iv; Some (fst iv, v)) (imap pair bins).

(** *** The cards *)

(** [k_spark]: the points of the sparkline. *)
Record Kpi := mkKpi { k_label : string; k_value : string; k_exact : string; k_sub : option string; k_spark : list (nat * Z) }.
Definition kpiCards (d : StatsData) : list Kpi :=
  let total := tot_total (totals d) in let blocked := tot_blocked (totals d) in let dnssec := tot_dnssec (totals d) in
  let buckets := buildBuckets d in
  let pct := formatPercent blocked total in
  [ mkKpi "Total queries" (formatCompact total) (formatCount total) None (sparkline (map b_total buckets));
    mkKpi "Blocked" (formatCompact blocked) (formatCount blocked) None (sparkline (map b_blocked buckets));
    mkKpi "Blocked %" pct pct (Some (formatCount blocked ++s " of " ++s formatCount total)) [];
    mkKpi "DNSSEC-validated" (formatCompact dnssec) (formatCount dnssec) (Some (formatPercent dnssec total ++s " of total"))
      (sparkline (map b_dnssec buckets)) ].
End panels.

(** ** What the panels of the Statistics page show

    The reasons are ranked and none is lost, the parts of a panel of shares make up its track, the dashed
    tail of the chart starts where the line ends, a column's red part stays within it, the summary names
    the earliest of the busiest buckets, and the bins of a sparkline keep the sum of their values. *)


(** ** The remembered view *)

Lemma mountShell_other a b dflt v m :
  a <> b -> mountShell (Some a) dflt (fst (chooseView (Some b) v m)) = mountShell (Some a) dflt m.
Proof.
  intros Hab. cbn. destruct (truthy b); [|done]. destruct (truthy a); [|done].
  by rewrite lookup_insert_ne.
Qed.

(** A panel that remembers opens with what was chosen last, and choosing in one leaves the others. *)
Lemma view_is_remembered name dflt v m :
  truthy name = true -> mountShell (Some name) dflt (fst (chooseView (Some name) v m)) = v.
Proof. intros Hn. cbn. by rewrite Hn, lookup_insert, decide_True. Qed.

Lemma unnamed_view_is_forgotten dflt v m : mountShell None dflt (fst (chooseView None v m)) = dflt.
Proof. done. Qed.

(** ** Reasons *)

Section reasons.
Context {H : Host} {N : NumberHost}.

Lemma reasonRows_ranked d :
  Sorted (fun a b => rr_value b <= rr_value a) (reasonRows d).
Proof.
  unfold reasonRows. generalize (List.filter (fun r => 0 <? rr_value r) (map (reasonRow d) REASON_CLASSES)).
  intros l. assert (Sorted (cmp_le by_value) (array_sort by_value l)) as Hs.
  { apply array_sort_sorted. unfold by_value. lia. }
  induction Hs as [|x k _ IH Hx]; constructor; [done|].
  destruct Hx as [|y k Hxy]; constructor. unfold cmp_le, by_value in Hxy. lia.
Qed.

Lemma elem_of_reasonRows d r :
  r ∈ reasonRows d <-> 0 < rr_value r /\ exists c, c ∈ REASON_CLASSES /\ r = reasonRow d c.
Proof.
  unfold reasonRows. rewrite array_sort_perm, elem_of_list_filter_b, list_elem_of_fmap, Z.ltb_lt.
  firstorder.
Qed.

Lemma reasonTotal_sum rows : (forall r, r ∈ rows -> 0 < rr_value r) -> 0 <= reasonTotal rows.
Proof.
  induction rows as [|r rows IH]; intros Hp; cbn; [lia|].
  pose proof (Hp r ltac:(set_solver)). specialize (IH ltac:(set_solver)). fold (reasonTotal rows). lia.
Qed.

(** The panel says that nothing was blocked exactly when no reason was counted. *)
Lemma reasons_note_when_none d :
  reasonTotal (reasonRows d) = 0 <-> forall c, c ∈ REASON_CLASSES -> reasons d (cl_key c) <= 0.
Proof.
  assert (forall r, r ∈ reasonRows d -> 0 < rr_value r) as Hpos by (intros r; rewrite elem_of_reasonRows; tauto).
  split.
  - intros Hz c Hc. apply Z.nlt_ge. intros Hlt.
    assert (reasonRow d c ∈ reasonRows d) as Hin by (apply elem_of_reasonRows; cbn; eauto).
    destruct (reasonRows d) as [|r rows]; [by apply elem_of_nil in Hin|]. cbn in Hz. fold (reasonTotal rows) in Hz.
    pose proof (Hpos r ltac:(set_solver)). pose proof (reasonTotal_sum rows ltac:(set_solver)). lia.
  - intros Hall. destruct (reasonRows d) as [|r rows] eqn:E; [done|]. exfalso.
    assert (r ∈ reasonRows d) as Hin by (rewrite E; set_solver).
    apply elem_of_reasonRows in Hin as [Hr (c & Hc & ->)]. specialize (Hall c Hc). cbn in Hr. lia.
Qed.
End reasons.

(** ** Bars *)

Definition drawn (l : list (option Z)) : Z := foldr (fun v n => (v ?? 0) + n) 0 l.
(** The counts the API sends: not negative, and no more blocked than asked. *)
Definition bar_ok (r : BarRow) : Prop := 0 <= br_value r /\ forall b, br_blocked r = Some b -> 0 <= b <= br_value r.

Lemma seg_drawn denom v : 0 <= v -> 0 < denom -> seg denom v ?? 0 = v.
Proof. intros Hv Hd. unfold seg. rewrite (proj2 (Z.ltb_lt 0 denom) Hd). destruct (Z.ltb_spec 0 v); cbn; lia. Qed.

(** The segments of a bar are its whole value. *)
Lemma segments_drawn denom r : bar_ok r -> 0 < denom -> drawn (segments denom r) = br_value r.
Proof.
  intros [Hv Hb] Hd. unfold segments. destruct (br_blocked r) as [b|]; cbn.
  - specialize (Hb b eq_refl). rewrite !seg_drawn by lia. lia.
  - rewrite seg_drawn by lia. lia.
Qed.

Lemma value_le_denominator scale rows r : Forall bar_ok rows -> r ∈ rows -> br_value r <= denominator scale rows.
Proof.
  intros Hok. assert (0 <= sumValues rows) as Hs.
  { induction Hok as [|x l [Hx _] _ IH]; cbn; [lia|]. fold (sumValues l). lia. }
  revert Hs. induction Hok as [|x l [Hx _] Hl IH]; intros Hs Hin; [by apply elem_of_nil in Hin|].
  assert (0 <= sumValues l) as Hs'.
  { clear -Hl. induction Hl as [|y l [Hy _] _ IH]; cbn; [lia|]. fold (sumValues l). lia. }
  destruct scale; cbn in *; fold (sumValues l) (maxValue l) in *;
    apply elem_of_cons in Hin as [->|Hin]; try lia; specialize (IH Hs' Hin); lia.
Qed.

Lemma seg_bounds denom v x : seg denom v = Some x -> 0 < x /\ x = v /\ 0 < denom.
Proof. unfold seg. destruct (Z.ltb_spec 0 v), (Z.ltb_spec 0 denom); intros [= <-]; lia. Qed.

(** No bar is wider than its track. *)
Lemma segment_fits scale rows r x :
  Forall bar_ok rows -> r ∈ rows -> Some x ∈ segments (denominator scale rows) r ->
  0 < x <= denominator scale rows.
Proof.
  intros Hok Hin Hx. pose proof (value_le_denominator scale rows r Hok Hin) as Hle.
  rewrite Forall_forall in Hok. destruct (Hok r Hin) as [Hv Hb]. revert Hx. unfold segments.
  destruct (br_blocked r) as [b|]; rewrite ?elem_of_cons, elem_of_nil; intros Hx.
  - specialize (Hb b eq_refl). destruct Hx as [E|[E|[]]]; symmetry in E; apply seg_bounds in E; lia.
  - destruct Hx as [E|[]]; symmetry in E; apply seg_bounds in E; lia.
Qed.

Lemma drawn_app l k : drawn (l ++ k) = drawn l + drawn k.
Proof. induction l as [|x l IH]; cbn; [done|]. fold (drawn (l ++ k)) (drawn l). lia. Qed.

(** On a scale of shares the bars of all rows together fill the track: it stands for all of them. *)
Lemma shares_fill_the_track rows :
  Forall bar_ok rows -> 0 < sumValues rows ->
  drawn (flat_map (segments (denominator ScaleShare rows)) rows) = denominator ScaleShare rows.
Proof.
  intros Hok Hd. change (denominator ScaleShare rows) with (sumValues rows).
  revert Hd. generalize (sumValues rows) at 1 2 as denom. intros denom Hd.
  induction Hok as [|r l Hr _ IH]; cbn -[segments]; [done|].
  rewrite drawn_app, segments_drawn by done. fold (sumValues l). lia.
Qed.

Lemma maxValue_reached rows :
  Forall bar_ok rows -> rows <> [] -> exists r, r ∈ rows /\ br_value r = maxValue rows.
Proof.
  induction 1 as [|r l [Hr _] Hl IH]; intros Hne; [done|]. cbn. fold (maxValue l).
  destruct l as [|r' l']; [exists r; split; [set_solver|]; cbn; lia|].
  destruct IH as (m & Hm & Hv); [done|].
  destruct (Z.max_spec (br_value r) (maxValue (r' :: l'))) as [[_ ->]|[_ ->]];
    [exists m|exists r]; split; [set_solver|done|set_solver|done].
Qed.

(** Collapsing a list hides rows at its end only, and expanding it shows them all. *)
Lemma shownBars_prefix n e rows : exists rest, rows = shownBars n e rows ++ rest.
Proof.
  unfold shownBars. destruct n as [n|]; [|by exists []; rewrite app_nil_r].
  destruct (_ && _); [exists (drop n rows); by rewrite take_drop|by exists []; rewrite app_nil_r].
Qed.
Lemma shownBars_expanded n rows : shownBars n true rows = rows.
Proof. destruct n; cbn; [|done]. by rewrite andb_false_r. Qed.
Lemma shownBars_length n rows : length (shownBars (Some n) false rows) = Nat.min n (length rows).
Proof.
  unfold shownBars. rewrite andb_true_r. destruct (Nat.ltb_spec n (length rows)); [rewrite length_take|]; lia.
Qed.

(** ** Queries over time *)

Lemma toRows_lookup l i : toRows l !! i = (fun b => seriesRow b (l !! S i)) <$> l !! i.
Proof.
  revert i. induction l as [|b l IH]; intros [|i]; cbn; [done|done| |apply IH]. by destruct l.
Qed.

Lemma length_toRows l : length (toRows l) = length l.
Proof. induction l; cbn; congruence. Qed.

(** Before an in-progress bucket the dashed tail starts at the end of the line, with the same counts. *)
Lemma tail_joins_the_line l i b n :
  l !! i = Some b -> l !! S i = Some n -> b_inProgress b = false -> b_inProgress n = true ->
  exists r, toRows l !! i = Some r /\ se_all r = b_total b /\ se_allTail r = se_all r /\ se_blockedTail r = se_blocked r.
Proof.
  intros Hb Hn Hc Hp. eexists. rewrite toRows_lookup, Hb. split; [done|]. unfold seriesRow.
  rewrite Hn, Hp, Hc. done.
Qed.

(** A count is drawn on the line, on the tail, or on both; a gap is drawn on neither. *)
Lemma toRows_draws l i b :
  l !! i = Some b ->
  exists r, toRows l !! i = Some r /\ (match se_all r with Some n => Some n | None => se_allTail r end) = b_total b
            /\ (se_allTail r = None \/ se_allTail r = b_total b) /\ se_barAll r = b_total b.
Proof.
  intros Hb. eexists. rewrite toRows_lookup, Hb. split; [done|]. unfold seriesRow. cbn.
  destruct (b_inProgress b), (b_total b), (l !! S i) as [n|]; cbn; try destruct (b_inProgress n); cbn; eauto.
Qed.

Lemma counted_iff l i b r :
  l !! i = Some b -> toRows l !! i = Some r -> is_counted r = is_live b.
Proof.
  intros Hb Hr. rewrite toRows_lookup, Hb in Hr. injection Hr as <-. unfold is_counted, is_live, seriesRow. cbn.
  apply bool_decide_ext. destruct (b_inProgress b), (b_total b), (l !! S i) as [n|];
    cbn; try destruct (b_inProgress n); cbn; split; intros; naive_solver.
Qed.

(** ** The busiest bucket *)

Definition count_of (b : Bucket) : Z := b_total b ?? 0.

Lemma foldl_higher l m :
  exists p, foldl higher (Some m) l = Some p /\ (p = m \/ p ∈ l) /\ count_of m <= count_of p
            /\ (forall b, b ∈ l -> count_of b <= count_of p).
Proof.
  revert m. induction l as [|b l IH]; intros m; cbn -[higher]; [by exists m; split_and!; [|left| |set_solver]|].
  unfold higher at 2. fold (count_of m) (count_of b).
  destruct (Z.ltb_spec (count_of m) (count_of b)).
  - destruct (IH b) as (p & -> & Hp & Hb & Hl). exists p. split_and!; [done|set_solver|lia|].
    intros x [->|Hx]%elem_of_cons; auto.
  - destruct (IH m) as (p & -> & Hp & Hb & Hl). exists p. split_and!; [done|set_solver|lia|].
    intros x [->|Hx]%elem_of_cons; [lia|auto].
Qed.

(** The bucket that the summary names is one of those that count, and no other has more. *)
Lemma peak_is_a_maximum l p :
  peak l = Some p -> p ∈ l /\ is_live p = true /\ forall b, b ∈ l -> is_live b = true -> count_of b <= count_of p.
Proof.
  unfold peak. destruct (List.filter is_live l) as [|m k] eqn:E; [done|]. cbn -[higher]. cbn [higher].
  destruct (foldl_higher k m) as (q & -> & Hq & Hm & Hk). intros [= <-].
  assert (forall b, b ∈ m :: k <-> is_live b = true /\ b ∈ l) as He by (intros b; rewrite <- E, elem_of_list_filter_b; tauto).
  assert (q ∈ m :: k) as [Hl Hin]%He by set_solver. split_and!; [done|done|].
  intros b Hb Hlb. assert (b ∈ m :: k) as [->|Hx]%elem_of_cons by (apply He; done); auto.
Qed.

Lemma peak_none l : peak l = None <-> forall b, b ∈ l -> is_live b = false.
Proof.
  unfold peak. destruct (List.filter is_live l) as [|m k] eqn:E.
  - split; [|done]. intros _ b Hb. destruct (is_live b) eqn:Hl; [|done].
    assert (b ∈ List.filter is_live l) as Hin by (by apply elem_of_list_filter_b; eauto). rewrite E in Hin. by apply elem_of_nil in Hin.
  - cbn -[higher]. cbn [higher]. destruct (foldl_higher k m) as (q & -> & _). split; [done|]. intros Hf.
    assert (m ∈ List.filter is_live l) as [Hin Hl]%elem_of_list_filter_b by (rewrite E; set_solver).
    rewrite Hf in Hl; done.
Qed.

(** ** Columns *)

(** The red part is drawn exactly when something was blocked, and never reaches over the column. *)
Lemma bucketColumn_bounds h row c r :
  bucketColumn h row = Some (c, r) ->
  (1 <= c)%Q /\ (0 <= r <= c)%Q /\ ((0 < r)%Q <-> 0 < (se_barBlocked row ?? 0)).
Proof.
  unfold bucketColumn. destruct (_ <=? 0); [done|]. intros [= <- <-].
  set (c := Qmax h 1). assert (1 <= c)%Q as Hc by apply Q.le_max_r.
  destruct (Z.ltb_spec 0 (se_barBlocked row ?? 0)) as [Hb|Hb].
  - set (x := Qmax 1 _). assert (1 <= x)%Q as Hx by apply Q.le_max_l.
    assert (1 <= Qmin c x)%Q by (by apply Q.min_glb). pose proof (Q.le_min_l c x).
    split_and!; [done|lra|lra|]. split; [done|]. intros _. lra.
  - split_and!; [done|lra|lra|]. split; [|lia]. intros Hf. lra.
Qed.

(** ** Sparklines *)

Definition sum_of (l : list (option Z)) : Z := foldr (fun v n => (v ?? 0) + n) 0 l.

Lemma sum_of_app l k : sum_of (l ++ k) = sum_of l + sum_of k.
Proof. apply drawn_app. Qed.

Lemma binOf_sum l : binOf l ?? 0 = sum_of l.
Proof.
  unfold binOf. assert (foldr Z.add 0 (omap id l) = sum_of l) as <-.
  { induction l as [|[z|] l IH]; cbn in *; [done| |done]. by rewrite IH. }
  by destruct (omap id l).
Qed.

Lemma binned_from_sum fuel size l :
  (length l <= fuel)%nat -> (0 < size)%nat -> sum_of (binned_from fuel size l) = sum_of l.
Proof.
  intros Hf Hs. revert l Hf. induction fuel as [|f IH]; intros [|v l] Hf; [done|by cbn in Hf; lia|done|].
  cbn -[binOf take drop sum_of]. rewrite <- (take_drop size (v :: l)) at 3. rewrite sum_of_app.
  change (sum_of (?x :: ?y)) with ((x ?? 0) + sum_of y). rewrite binOf_sum, IH; [done|].
  rewrite length_drop. cbn in *. lia.
Qed.

Lemma binSize_pos n : (0 < binSize n)%nat.
Proof. unfold binSize. lia. Qed.

(** Binning loses no query: the bins add up to what the buckets count. *)
Lemma binned_keeps_the_sum l : sum_of (binned l) = sum_of l.
Proof. apply binned_from_sum; [done|apply binSize_pos]. Qed.

Lemma length_binned_from fuel size l :
  (length l <= fuel)%nat -> (0 < size)%nat ->
  Z.of_nat (length (binned_from fuel size l)) * Z.of_nat size < Z.of_nat (length l) + Z.of_nat size.
Proof.
  intros Hf Hs. revert l Hf. induction fuel as [|f IH]; intros [|v l] Hf; try (cbn in *; lia).
  cbn -[binOf take drop]. cbn in Hf.
  specialize (IH (drop size (v :: l))). rewrite length_drop in IH. cbn [length] in IH.
  specialize (IH ltac:(lia)).
  destruct (Nat.le_gt_cases (S (length l)) size) as [Hle|Hgt].
  - rewrite drop_ge by (cbn; lia). destruct f; cbn; lia.
  - rewrite Nat2Z.inj_sub in IH by lia. lia.
Qed.

(** A sparkline has at most 41 points, however many buckets there are. *)
Lemma binned_bounded l : (length (binned l) <= 41)%nat.
Proof.
  unfold binned. pose proof (length_binned_from (length l) (binSize (length l)) l ltac:(lia) (binSize_pos _)) as Hl.
  revert Hl. generalize (length (binned_from (length l) (binSize (length l)) l)) as k. intros k.
  generalize (length l) as n. intros n. unfold binSize, BINS. intros Hk.
  destruct (Z.le_gt_cases ((Z.of_nat n + 28 / 2) / 28) 1) as [Hs|Hs].
  - rewrite Z.max_l in Hk by lia. change (28 / 2) with 14 in Hs.
    assert (Z.of_nat n < 42) by (pose proof (Z.div_mod (Z.of_nat n + 14) 28); pose proof (Z.mod_pos_bound (Z.of_nat n + 14) 28); lia).
    lia.
  - rewrite Z.max_r in Hk by lia. change (28 / 2) with 14 in *. rewrite Z2Nat.id in Hk by lia.
    set (q := (Z.of_nat n + 14) / 28) in *.
    assert (Z.of_nat n < 28 * q + 14) by (pose proof (Z.div_mod (Z.of_nat n + 14) 28); pose proof (Z.mod_pos_bound (Z.of_nat n + 14) 28); lia).
    nia.
Qed.

Lemma sparkMax_bounds bins : 1 <= sparkMax bins /\ forall v, Some v ∈ bins -> v <= sparkMax bins.
Proof.
  induction bins as [|b bins [IH1 IH2]]; cbn; [set_solver|]. fold (sparkMax bins).
  split; [lia|]. intros v [<-|Hv]%elem_of_cons; cbn; [lia|]. specialize (IH2 v Hv). lia.
Qed.

(** Every point of a sparkline is within its width and below its top. *)
Lemma sparkline_fits values i v :
  (i, v) ∈ sparkline values -> (i < length (binned values))%nat /\ v <= sparkMax (binned values).
Proof.
  unfold sparkline. destruct (_ <? 2)%nat; [by intros ?%elem_of_nil|].
  intros ((j & w) & Hin & Hw)%list_elem_of_omap. cbn in Hw. destruct w as [w|]; [|done]. injection Hw as -> ->.
  apply elem_of_lookup_imap in Hin as (k & x & [= <- <-] & Hk).
  split; [by eapply lookup_lt_Some|]. apply sparkMax_bounds. by eapply list_elem_of_lookup_2.
Qed.
