(* ===== verification/MobileConfig.v ===== *)
(** * Configuration profiles for Apple devices

    [src/app/src/pages/mobileconfig/MobileconfigGenerator.tsx], the page that makes a profile, a code for it
    and a link, and [MobileconfigDownload.tsx], the page that link opens. What the browser is, how it parses
    a URL and the address of the API are arguments. *)

From coqutil Require Import Datatypes.RecordSetters.
From S2P Require Import Prelude JsString ApiTypes Store Async.
Import TriangleBracketNotations.

#[local] Arguments constant _ _ _ /.

(** ** The browser *)

Record Navigator := mkNavigator { userAgent : string; nav_platform : string; maxTouchPoints : option Z }.

(** [None]: there is no [navigator]. *)
Definition isIOSDevice (nav : option Navigator) : bool :=
  match nav with
  | None => false
  | Some n =>
      let ua := userAgent n in
      includes ua "iPad" || includes ua "iPhone" || includes ua "iPod"
      || (String.eqb (nav_platform n) "MacIntel" && (1 <? (maxTouchPoints n ?? 0)))
  end.

(** [s.lastIndexOf(c)] *)
Fixpoint lastIndexOf (s : string) (c : ascii) : option nat :=
  match s with
  | EmptyString => None
  | String d s' =>
      match lastIndexOf s' c with
      | Some i => Some (S i)
      | None => if Ascii.eqb d c then Some 0%nat else None
      end
  end.

(** The code of a short link; [path] is [new URL(link).pathname], [None] where it throws. *)
Definition shortCode (path : option string) (link : string) : string :=
  match path with
  | Some p => last (List.filter truthy (split p "/")) ?? ""
  | None =>
      match lastIndexOf link "/" with
      | Some i => if (i <? String.length link - 1)%nat then str_drop (S i) link else ""
      | None => ""
      end
  end.

(** [`${import.meta.env.VITE_API_URL}/api/v1/short/${code}`] *)
Definition directUrl (apiUrl code : string) : string := apiUrl ++s "/api/v1/short/" ++s code.

(** ** The form *)

Inductive EncryptionType : Set := EncHttps | EncTls.
#[export] Instance EncryptionType_eq_dec : EqDecision EncryptionType.
Proof. solve_decision. Defined.
Definition encryptionValue (e : EncryptionType) : string := match e with EncHttps => "https" | EncTls => "tls" end.

Record AdvancedOptions := mkAdvanced {
  excluded_domains : string;
  encryption_type : EncryptionType;
  excluded_wifi_networks : string;
  payload_removal_disallowed : bool;
  sign_configuration_profile : bool;
}.
Record FormData := mkForm { device_id : string; advanced_options : AdvancedOptions }.
Definition emptyForm : FormData := mkForm "" (mkAdvanced "" EncHttps "" false true).

(** The fields the page has inputs for. *)
Inductive FormField : Type :=
| FieldDevice (value : string)
| FieldEncryption (value : EncryptionType)
| FieldWifi (value : string).
Definition setField (f : FormField) (form : FormData) : FormData :=
  match f with
  | FieldDevice v => form <| device_id := v |>
  | FieldEncryption v => form <| advanced_options := (advanced_options form) <| encryption_type := v |> |>
  | FieldWifi v => form <| advanced_options := (advanced_options form) <| excluded_wifi_networks := v |> |>
  end.

(** The class of [/^[A-Za-z0-9 -]*$/] *)
Definition device_char (c : ascii) : bool :=
  in_range 65 90 c || in_range 97 122 c || is_digit c || Ascii.eqb c " " || Ascii.eqb c "-".
Definition isValidDeviceId (deviceId : string) : bool :=
  if negb (truthy (trim deviceId)) then true else str_all device_char deviceId.

Record MobileRequest := mkMobileRequest { rq_profile : string; rq_advanced : AdvancedOptions; rq_device : option string }.

(** ** The page that makes a profile *)

(** What the page did to the browser: a direct navigation, or a file that was saved. *)
Inductive Delivery : Type :=
| Navigated (url : string)
| Saved (name content : string).
(** The timers that were set: the one that hides "Copied!" and the one that revokes a blob URL. *)
Inductive GenTimer : Set := HideCopied | RevokeBlob.
#[export] Instance GenTimer_eq_dec : EqDecision GenTimer.
Proof. solve_decision. Defined.

(** [g_rev] counts the form objects that were set, [g_seen] is the one the effect that removes the code
    last ran for; [g_blobs] are the blob URLs that are alive. *)
Record Generator := mkGen {
  g_store : AppState;
  showAdvancedOptions : bool;
  isDownloading : bool;
  isGeneratingQR : bool;
  qrCodeUrl : string;
  linkCopied : bool;
  formData : FormData;
  g_rev : nat;
  g_seen : nat;
  g_toasts : list UiToast;
  g_delivered : list Delivery;
  g_blobs : nat;
  g_timers : list GenTimer;
}.
Definition mountGenerator (st : AppState) : Generator :=
  mkGen st false false false "" false emptyForm 0 0 [] [] 0 [].

(** The effect that removes the code when the form changes. *)
Definition gen_commit (s : Generator) : Generator :=
  if (g_seen s =? g_rev s)%nat then s
  else s <| qrCodeUrl := "" |> <| linkCopied := false |> <| g_seen := g_rev s |>.

Definition updateFormField (f : FormField) (s : Generator) : Generator :=
  s <| formData := setField f (formData s) |> <| g_rev := S (g_rev s) |>.
Definition toggleAdvanced (s : Generator) : Generator := s <| showAdvancedOptions := negb (showAdvancedOptions s) |>.
Definition setDownloading (b : bool) (s : Generator) : Generator := s <| isDownloading := b |>.
Definition setGenerating (b : bool) (s : Generator) : Generator := s <| isGeneratingQR := b |>.
Definition setQr (u : string) (s : Generator) : Generator := s <| qrCodeUrl := u |>.
Definition setCopied (b : bool) (s : Generator) : Generator := s <| linkCopied := b |>.
Definition genToast (k : ToastKind) (t : string) (s : Generator) : Generator :=
  s <| g_toasts := (g_toasts s ++ [mkToast k t])%list |>.
Definition deliver (d : Delivery) (s : Generator) : Generator := s <| g_delivered := (g_delivered s ++ [d])%list |>.
Definition setTimer (t : GenTimer) (s : Generator) : Generator := s <| g_timers := (g_timers s ++ [t])%list |>.
(** A blob URL, the download through it, and the timer that revokes it. *)
Definition saveBlob (name content : string) (s : Generator) : Generator :=
  setTimer RevokeBlob (deliver (Saved name content) (s <| g_blobs := S (g_blobs s) |>)).
Definition revokeBlob (s : Generator) : Generator := s <| g_blobs := Nat.pred (g_blobs s) |>.
(** The timer at [i] fires. *)
Definition onTimer (i : nat) (s : Generator) : Generator :=
  match g_timers s !! i with
  | None => s
  | Some t =>
      let s' := s <| g_timers := delete i (g_timers s) |> in
      match t with HideCopied => setCopied false s' | RevokeBlob => revokeBlob s' end
  end.

Definition profileId (s : Generator) : option string := p_profile_id <$> activeProfile (g_store s).
Definition deviceIdValid (s : Generator) : bool := isValidDeviceId (device_id (formData s)).
Definition getRequestData (s : Generator) : MobileRequest :=
  let device := trim (device_id (formData s)) in
  mkMobileRequest (opt_or (profileId s) "") (advanced_options (formData s)) (if truthy device then Some device else None).

(** The link of the answer, where it has data; the profile; nothing. *)
Inductive GenRequest : Type :=
| ShortPost (r : MobileRequest)
| MobileconfigPost (r : MobileRequest)
| ClipboardWrite (text : string).
Definition GenResponse (r : GenRequest) : Type :=
  match r with ShortPost _ => option string | MobileconfigPost _ => string | ClipboardWrite _ => unit end.
(** The handlers look at no error. *)
Notation GenHandler := (Prog unit GenRequest Generator GenResponse unit).
Notation GenSystem := (Sys unit GenRequest Generator GenResponse).
Notation GenWorld := (World unit GenRequest GenResponse).

Definition START_FAILED : string := "Failed to start the profile download. Please try again.".
Definition DOWNLOADED : string := "Configuration profile downloaded successfully.".
Definition DOWNLOAD_FAILED : string := "Failed to download the configuration profile. Please try again.".
Definition QR_GENERATED : string := "QR code generated successfully.".
Definition QR_FAILED : string := "Failed to generate the QR code. Please try again.".

(** [`modDNS-${activeProfile?.profile_id || 'profile'}.mobileconfig`] *)
Definition profileFilename (s : Generator) : string := "modDNS-" ++s opt_or (profileId s) "profile" ++s ".mobileconfig".

Section generator.
(** [import.meta.env.VITE_API_URL], [navigator], and the path of a URL where it can be parsed. *)
Context (apiUrl : string) (nav : option Navigator) (urlPath : string -> option string).

Definition iosDownload (s : Generator) : GenHandler :=
  finally (try_async
    (perform (setDownloading true);;
     link ← await (ShortPost (getRequestData s));
     if truthy_opt link then
       let code := shortCode (urlPath (link ?? "")) (link ?? "") in
       if truthy code then perform (deliver (Navigated (directUrl apiUrl code))) else Raise tt
     else Raise tt)
    (fun _ => perform (genToast ToastError START_FAILED)))
    (setDownloading false).

Definition blobDownload (s : Generator) : GenHandler :=
  finally (try_async
    (perform (setDownloading true);;
     content ← await (MobileconfigPost (getRequestData s));
     perform (saveBlob (profileFilename s) content);;
     perform (genToast ToastSuccess DOWNLOADED))
    (fun _ => perform (genToast ToastError DOWNLOAD_FAILED)))
    (setDownloading false).

Definition downloadMobileConfig (s : Generator) : GenHandler :=
  if isIOSDevice nav then iosDownload s else blobDownload s.

Definition generateQRCode (s : Generator) : GenHandler :=
  finally (try_async
    (perform (setGenerating true);;
     perform (setCopied false);;
     link ← await (ShortPost (getRequestData s));
     if truthy_opt link then
       perform (setQr (link ?? ""));;
       perform (genToast ToastSuccess QR_GENERATED)
     else Raise tt)
    (fun _ => perform (genToast ToastError QR_FAILED)))
    (setGenerating false).

Definition copyShortLink (s : Generator) : GenHandler :=
  if negb (truthy (qrCodeUrl s)) then mret ()
  else try_async
    (await (ClipboardWrite (qrCodeUrl s));;
     perform (setCopied true);;
     perform (genToast ToastSuccess "Link copied to clipboard!");;
     perform (setTimer HideCopied))
    (fun _ => perform (genToast ToastError "Failed to copy link to clipboard")).

Definition unavailable (s : Generator) : bool :=
  negb (truthy_opt (profileId s)) || negb (deviceIdValid s) || isRestricted (useSubscriptionGuard (g_store s)).
Definition downloadDisabled (s : Generator) : bool := unavailable s || isDownloading s.
Definition qrDisabled (s : Generator) : bool := unavailable s || isGeneratingQR s.

(** [ClickCopy]: the button beside the link, while there is one. *)
Inductive GenInvoke : Set := ClickDownload | ClickGenerate | ClickCopy.
Definition gen_handler (h : GenInvoke) (s : Generator) : GenHandler :=
  match h with
  | ClickDownload => if downloadDisabled s then mret () else downloadMobileConfig s
  | ClickGenerate => if qrDisabled s then mret () else generateQRCode s
  | ClickCopy => copyShortLink s
  end.

(** The inputs of the advanced options are there while they are shown. *)
Inductive GenUpdate : Type :=
| TypeField (f : FormField)
| ToggleAdvanced
| TimerFires (i : nat)
| StoreChanges (f : AppState -> AppState).
Definition gen_update (u : GenUpdate) (s : Generator) : Generator :=
  match u with
  | TypeField (FieldDevice v) => updateFormField (FieldDevice v) s
  | TypeField f => if showAdvancedOptions s then updateFormField f s else s
  | ToggleAdvanced => toggleAdvanced s
  | TimerFires i => onTimer i s
  | StoreChanges f => s <| g_store := f (g_store s) |>
  end.

Inductive GenEvent : Type := GenInvoked (h : GenInvoke) | GenAnswered (i : nat) (w : GenWorld) | GenUpdated (u : GenUpdate).
Definition gen_ev (e : GenEvent) : SysEvent unit GenRequest Generator GenResponse :=
  match e with
  | GenInvoked h => Start (gen_handler h)
  | GenAnswered i w => Answer i w
  | GenUpdated u => Other (gen_update u)
  end.
Definition gen_step (y : GenSystem) (e : GenEvent) : GenSystem := sys_step gen_commit y (gen_ev e).
End generator.

(** [handleBack]: the set-up page, with the platform the page was opened for. *)
Definition backState (platform : option string) : string * bool := (opt_or platform "iOS", true).

(** ** The page a short link opens *)

(** [err] as the page reads it: with a [response] property, which may have a status, or without. *)
Inductive DlError : Type := DlResponse (status : option Z) | DlOther.
Record DlAnswer := mkDlAnswer { da_content : string; da_disposition : option string }.

Definition NO_CODE : string := "Invalid download link. The code parameter is missing.".
Definition UNABLE_DL : string := "Unable to download the configuration profile. The link may have expired or is invalid.".
Definition NOT_FOUND : string := "Configuration profile not found. The link may have expired or is invalid.".
Definition EXPIRED : string := "This download link has expired. Please generate a new configuration profile.".
Definition FAILED_DL : string := "Failed to download the configuration profile. Please try again or generate a new link.".

(** [d_timers]: the navigations that are set to start. *)
Record DownloadPage := mkDownload {
  d_code : option string;
  d_loading : bool;
  d_error : bool;
  d_success : bool;
  d_errorMessage : string;
  d_toasts : list UiToast;
  d_delivered : list Delivery;
  d_timers : list string;
}.

(** The first render; the effect on the code starts the download. *)
Definition renderDownload (code : option string) : DownloadPage := mkDownload code true false false UNABLE_DL [] [] [].

Definition setDlLoading (b : bool) (s : DownloadPage) : DownloadPage := s <| d_loading := b |>.
Definition setDlError (b : bool) (s : DownloadPage) : DownloadPage := s <| d_error := b |>.
Definition setDlSuccess (s : DownloadPage) : DownloadPage := s <| d_success := true |>.
Definition setDlMessage (m : string) (s : DownloadPage) : DownloadPage := s <| d_errorMessage := m |>.
Definition dlToast (k : ToastKind) (t : string) (s : DownloadPage) : DownloadPage :=
  s <| d_toasts := (d_toasts s ++ [mkToast k t])%list |>.
Definition dlDeliver (d : Delivery) (s : DownloadPage) : DownloadPage := s <| d_delivered := (d_delivered s ++ [d])%list |>.
Definition dlTimer (url : string) (s : DownloadPage) : DownloadPage := s <| d_timers := (d_timers s ++ [url])%list |>.
Definition dlTimerFires (i : nat) (s : DownloadPage) : DownloadPage :=
  match d_timers s !! i with
  | Some url => (dlDeliver (Navigated url) s) <| d_timers := delete i (d_timers s) |>
  | None => s
  end.

(** [h.match(/filename=([^;]+)/)?.[1]] *)
Fixpoint take_until (c : ascii) (s : string) : string :=
  match s with
  | EmptyString => EmptyString
  | String d s' => if Ascii.eqb d c then EmptyString else String d (take_until c s')
  end.
Fixpoint dispositionMatch (s : string) : option string :=
  match s with
  | EmptyString => None
  | String _ s' =>
      let name := take_until ";" (str_drop 9 s) in
      if startsWith s "filename=" && truthy name then Some name else dispositionMatch s'
  end.
(** Without single and double quotes. *)
Fixpoint dropQuotes (s : string) : string :=
  match s with
  | EmptyString => EmptyString
  | String c s' => if (code c =? 34) || (code c =? 39) then dropQuotes s' else String c (dropQuotes s')
  end.
Definition dlFilename (disposition : option string) : string :=
  match dispositionMatch (disposition ?? "") with
  | Some name => dropQuotes (trim name)
  | None => "modDNS-profile.mobileconfig"
  end.

Definition dlMessage (status : option Z) : string :=
  if bool_decide (status = Some 404) then NOT_FOUND
  else if bool_decide (status = Some 410) then EXPIRED else FAILED_DL.

Inductive DlRequest : Type := ShortCodeGet (code : string).
Definition DlResponseOf (r : DlRequest) : Type := DlAnswer.
Notation DlHandler := (Prog DlError DlRequest DownloadPage DlResponseOf unit).
Notation DlSystem := (Sys DlError DlRequest DownloadPage DlResponseOf).
Notation DlWorld := (World DlError DlRequest DlResponseOf).

Section download.
Context (apiUrl : string) (nav : option Navigator).

Definition dlBody (code : string) : DlHandler :=
  perform (setDlLoading true);;
  perform (setDlError false);;
  response ← await (ShortCodeGet code);
  perform (dlDeliver (Saved (dlFilename (da_disposition response)) (da_content response)));;
  perform (setDlLoading false);;
  perform setDlSuccess;;
  perform (dlToast ToastSuccess DOWNLOADED).

Definition dlFails (e : DlError) : DlHandler :=
  perform (setDlLoading false);;
  perform (setDlError true);;
  match e with DlResponse status => perform (setDlMessage (dlMessage status)) | DlOther => mret () end;;
  perform (dlToast ToastError "Failed to download configuration profile").

Definition startDownload (s : DownloadPage) : DlHandler :=
  let code := d_code s ?? "" in
  if negb (truthy code) then
    perform (setDlError true);; perform (setDlMessage NO_CODE);; perform (setDlLoading false)
  else if isIOSDevice nav then
    perform (setDlLoading false);; perform (setDlError false);; perform setDlSuccess;;
    perform (dlToast ToastSuccess "Download started.");; perform (dlTimer (directUrl apiUrl code))
  else try_async (dlBody code) dlFails.

(** "Try Again" and "Download Again", where they are shown. *)
Definition retryDownload (s : DownloadPage) : DlHandler :=
  if d_error s || d_success s then startDownload s else mret ().

(** [DlMounts]: the effect, at the mount. *)
Inductive DlEvent : Type := DlMounts | DlRetry | DlAnswered (i : nat) (w : DlWorld) | DlTimerFires (i : nat).
Definition dl_ev (e : DlEvent) : SysEvent DlError DlRequest DownloadPage DlResponseOf :=
  match e with
  | DlMounts => Start startDownload
  | DlRetry => Start retryDownload
  | DlAnswered i w => Answer i w
  | DlTimerFires i => Other (dlTimerFires i)
  end.
Definition dl_step (y : DlSystem) (e : DlEvent) : DlSystem := sys_step id y (dl_ev e).
End download.

(** ** Configuration profiles: what the two pages guarantee

    Every request is for the profile that is active and for the form that is shown, with an identifier that
    conforms; the buttons are never left disabled; each answer has its outcome; no blob URL is leaked; the
    code that is read from a short link is the one the link ends with. What is shown when the form changes
    while a code is made, and when a download is tried again. *)


Implicit Types (s : Generator) (w : GenWorld).

Ltac run_mc := cbn [drain mbind prog_bind perform finally try_async await fst snd mret prog_ret].

(** ** The identifier of a device *)

(** An identifier is accepted when only white space, or when it has letters, digits, spaces and hyphens
    only; what is sent is trimmed, not empty, and conforms. *)
Lemma device_of_request s d :
  deviceIdValid s = true -> rq_device (getRequestData s) = Some d ->
  truthy d = true /\ str_all device_char d = true /\ d = trim (device_id (formData s)).
Proof.
  unfold deviceIdValid, isValidDeviceId, getRequestData. cbn.
  destruct (truthy (trim (device_id (formData s)))) eqn:Ht; cbn [negb]; [|done].
  intros Hv [= <-]. split_and!; [done|by apply str_all_trim|done].
Qed.

(** The page's own example has an apostrophe, and is refused. *)
Lemma example_device_is_refused : isValidDeviceId "John's iPad" = false.
Proof. reflexivity. Qed.

(** ** Short links *)

Lemma lastIndexOf_app c p x : lacks c x = true -> lastIndexOf (p ++s String c x) c = Some (String.length p).
Proof.
  intros Hx. induction p as [|d p IH]; cbn; [|by rewrite IH].
  assert (lastIndexOf x c = None) as ->; [|by rewrite Ascii.eqb_refl].
  induction x as [|d x IHx]; [done|]. unfold lacks in Hx. cbn in Hx. apply andb_true_iff in Hx as [Hd Hx].
  cbn. rewrite (IHx Hx), Ascii.eqb_sym. by apply negb_true_iff in Hd as ->.
Qed.

Lemma split_on_sep p x c y : p c = true -> split_on p (x ++s String c y) = split_on p x ++ split_on p y.
Proof.
  intros Hc. induction x as [|d x IH]; cbn.
  - destruct (split_on p y) eqn:E; [by destruct (split_on_nonempty p y)|]. by rewrite Hc.
  - rewrite IH. destruct (split_on p x) as [|v l] eqn:E; [by destruct (split_on_nonempty p x)|].
    cbn. by destruct (p d).
Qed.

(** the code of a short link is what follows its last slash, whether the link can be parsed or not *)
Theorem shortCode_last p q c :
  truthy c = true -> lacks "/" c = true ->
  shortCode (Some (p ++s "/" ++s c)) (q ++s "/" ++s c) = c /\ shortCode None (q ++s "/" ++s c) = c.
Proof.
  intros Ht Hc. change ("/" ++s c) with (String "/" c). unfold shortCode. split.
  - unfold split. rewrite split_on_sep by done. rewrite (split_on_none _ c) by done.
    rewrite List.filter_app. cbn [List.filter]. by rewrite Ht, last_snoc.
  - rewrite lastIndexOf_app by done.
    assert (String.length q < String.length (q ++s String "/" c) - 1)%nat as Hl.
    { rewrite length_app_s. cbn. destruct c; [done|]. cbn. lia. }
    apply Nat.ltb_lt in Hl as ->. clear. induction q as [|d q IH]; [done|]. exact IH.
Qed.

(** ** The form *)

(** What the inputs of the page can make of the form. *)
Definition form_ok (f : FormData) : Prop :=
  excluded_domains (advanced_options f) = "" /\ payload_removal_disallowed (advanced_options f) = false /\
  sign_configuration_profile (advanced_options f) = true.

Section generator.
Context (apiUrl : string) (nav : option Navigator) (urlPath : string -> option string).
Notation handler := (gen_handler apiUrl nav urlPath).
Notation step := (gen_step apiUrl nav urlPath).

Definition form_settled s : Prop := g_seen s = g_rev s.
Lemma gen_commit_id s : form_settled s -> gen_commit s = s.
Proof. intros E. unfold gen_commit. by rewrite E, Nat.eqb_refl. Qed.
Lemma gen_commit_settles s : form_settled (gen_commit s).
Proof. unfold form_settled, gen_commit. destruct (Nat.eqb_spec (g_seen s) (g_rev s)); done. Qed.

Lemma gen_commit_keeps {A} (f : Generator -> A) s :
  (forall s, f (s <| qrCodeUrl := "" |> <| linkCopied := false |> <| g_seen := g_rev s |>) = f s) ->
  f (gen_commit s) = f s.
Proof. intros Hf. unfold gen_commit. destruct (_ =? _)%nat; [done|apply Hf]. Qed.

(** ** Requests *)

Definition gen_request_ok s (r : GenRequest) : Prop :=
  match r with
  | ShortPost q | MobileconfigPost q =>
      q = getRequestData s /\ profileId s = Some (rq_profile q) /\ truthy (rq_profile q) = true /\
      isRestricted (useSubscriptionGuard (g_store s)) = false /\
      forall d, rq_device q = Some d -> truthy d = true /\ str_all device_char d = true /\ d = trim (device_id (formData s))
  | ClipboardWrite t => t = qrCodeUrl s /\ truthy t = true
  end.

(** every request of the page is for the active profile and for the form as it was when the button was pressed,
    with an identifier that conforms, and never in limited access mode; only the shown link is copied *)
(** C33: every request for a configuration profile is for the active profile and for the form as it
    was when the button was pressed, with an identifier that conforms, and never in limited access
    mode; only the link that is shown is copied *)
Theorem profile_requests_conform h s : sends (gen_request_ok s) (handler h s).
Proof.
  assert (unavailable s = false -> forall q, q = getRequestData s -> gen_request_ok s (ShortPost q) /\ gen_request_ok s (MobileconfigPost q)) as Hok.
  { intros [[Hp%negb_false_iff Hd%negb_false_iff]%orb_false_iff Hr]%orb_false_iff q ->.
    assert (gen_request_ok s (ShortPost (getRequestData s))) as Hs; [|split; exact Hs].
    unfold truthy_opt in Hp. destruct (profileId s) as [i|] eqn:Hi; [|done]. cbn in Hp.
    assert (rq_profile (getRequestData s) = i) as Hq.
    { unfold getRequestData. cbn [rq_profile]. unfold opt_or, str_or. rewrite Hi. cbn. by rewrite Hp. }
    cbn [gen_request_ok]. rewrite Hq. split_and!; [done..|]. intros d Hdev. by apply device_of_request. }
  destruct h; cbn [gen_handler].
  - destruct (downloadDisabled s) eqn:E; [done|]. apply orb_false_iff in E as [E _].
    specialize (Hok E (getRequestData s) eq_refl) as [H1 H2].
    unfold downloadMobileConfig. destruct (isIOSDevice nav); apply sends_finally, sends_try; try done; run_mc; cbn [sends].
    + split; [exact H1|]. intros [l|e]; [|done]. cbn. destruct (truthy_opt l); [|done]. by destruct (truthy _).
    + split; [exact H2|]. by intros [l|e].
  - destruct (qrDisabled s) eqn:E; [done|]. apply orb_false_iff in E as [E _].
    specialize (Hok E (getRequestData s) eq_refl) as [H1 _].
    apply sends_finally, sends_try; [|done]. run_mc. cbn [sends]. split; [exact H1|].
    intros [l|e]; [|done]. cbn. by destruct (truthy_opt l).
  - unfold copyShortLink. destruct (truthy (qrCodeUrl s)) eqn:E; [|done]. cbn [negb].
    apply sends_try; [|done]. run_mc. cbn [sends]. split; [done|]. by intros [l|e].
Qed.

(** ** What the inputs make of the form *)

Lemma setField_ok f form : form_ok form -> form_ok (setField f form).
Proof. by destruct f. Qed.

Lemma keeps_field (I : FormData -> Prop) h s : keeps (fun t => I (formData t)) (handler h s).
Proof.
  destruct h; cbn [gen_handler].
  - destruct (downloadDisabled s); [done|]. unfold downloadMobileConfig.
    destruct (isIOSDevice nav); apply keeps_finally; try done; apply keeps_try; try done; run_mc; cbn [keeps].
    + split; [done|]. intros [l|e]; [|done]. cbn. destruct (truthy_opt l); [|done]. by destruct (truthy _).
    + split; [done|]. by intros [l|e].
  - destruct (qrDisabled s); [done|]. apply keeps_finally; try done. apply keeps_try; try done. run_mc. cbn [keeps].
    split_and!; [done|done|]. intros [l|e]; [|done]. cbn. by destruct (truthy_opt l).
  - unfold copyShortLink. destruct (negb _); [done|]. apply keeps_try; try done. run_mc. cbn [keeps]. by intros [l|e].
Qed.

(** Whatever is typed, pressed and answered, the profile that is asked for is signed, can be removed, and
    excludes no domain. *)
Lemma profiles_are_signed st evs :
  form_ok (formData (ui (run step (mkSys (mountGenerator st) []) evs))).
Proof.
  rewrite (run_map (gen_ev apiUrl nav urlPath) (sys_step gen_commit) step (fun y e => eq_refl)).
  apply (sys_keeps gen_commit (fun t => form_ok (formData t))).
  - intros s Hs. by rewrite (gen_commit_keeps formData).
  - done.
  - constructor.
  - apply Forall_fmap, Forall_true. intros [h|i w|u]; cbn; [intros s; apply keeps_field|done|].
    intros s Hs. destruct u as [[v|v|v]| |i|f]; cbn; try done.
    + by destruct (showAdvancedOptions s).
    + by destruct (showAdvancedOptions s).
    + unfold onTimer. destruct (g_timers s !! i) as [[]|]; done.
Qed.

(** ** Blob URLs *)

Definition pending (t : GenTimer) (l : list GenTimer) : nat := length (filter (fun u => u = t) l).
Definition blobs_ok s : Prop := g_blobs s = pending RevokeBlob (g_timers s).

Lemma pending_app t l k : pending t (l ++ k) = (pending t l + pending t k)%nat.
Proof. unfold pending. by rewrite filter_app, length_app. Qed.
Lemma pending_delete t l i u :
  l !! i = Some u -> pending t l = ((if decide (u = t) then 1 else 0) + pending t (delete i l))%nat.
Proof.
  intros Hi. unfold pending. rewrite (delete_Permutation _ _ _ Hi) at 1. cbn. unfold filter at 1. cbn.
  destruct (decide (u = t)); done.
Qed.

Lemma onTimer_blobs i s : blobs_ok s -> blobs_ok (onTimer i s).
Proof.
  unfold blobs_ok, onTimer. intros Hb. destruct (g_timers s !! i) as [t|] eqn:Hi; [|done].
  pose proof (pending_delete RevokeBlob _ _ _ Hi) as Hd.
  destruct t; [rewrite decide_False in Hd by done|rewrite decide_True in Hd by done]; destruct s; cbn -[pending delete] in *; lia.
Qed.

(** a blob URL is alive exactly while a timer that revokes it is set: none is leaked *)
Theorem no_blob_is_leaked st evs : blobs_ok (ui (run step (mkSys (mountGenerator st) []) evs)).
Proof.
  rewrite (run_map (gen_ev apiUrl nav urlPath) (sys_step gen_commit) step (fun y e => eq_refl)).
  apply (sys_keeps gen_commit blobs_ok).
  - intros s Hs. unfold blobs_ok. rewrite (gen_commit_keeps g_blobs), (gen_commit_keeps g_timers) by done. exact Hs.
  - done.
  - constructor.
  - assert (forall s n c, blobs_ok s -> blobs_ok (saveBlob n c s)) as Hsave.
    { intros s n c Hs. unfold blobs_ok in *.
      change (S (g_blobs s) = pending RevokeBlob (g_timers s ++ [RevokeBlob])). rewrite pending_app, <- Hs.
      change (pending RevokeBlob [RevokeBlob]) with 1%nat. lia. }
    apply Forall_fmap, Forall_true. intros [h|i w|u]; cbn; [intros s|done|].
    + destruct h; cbn [gen_handler].
      * destruct (downloadDisabled s); [done|]. unfold downloadMobileConfig.
        destruct (isIOSDevice nav); apply keeps_finally; try done; apply keeps_try; try done; run_mc; cbn [keeps].
        -- split; [done|]. intros [l|e]; [|done]. cbn. destruct (truthy_opt l); [|done]. by destruct (truthy _).
        -- split; [done|]. intros [l|e]; [|done]. cbn [keeps]. split; [intros t; apply Hsave|done].
      * destruct (qrDisabled s); [done|]. apply keeps_finally; try done. apply keeps_try; try done. run_mc. cbn [keeps].
        split_and!; [done|done|]. intros [l|e]; [|done]. cbn. by destruct (truthy_opt l).
      * unfold copyShortLink. destruct (negb _); [done|]. apply keeps_try; try done. run_mc. cbn [keeps].
        intros [l|e]; [|done]. cbn [keeps]. split; [done|]. split; [done|]. split; [|done]. intros t Ht. unfold blobs_ok in *.
        change (g_blobs t = pending RevokeBlob (g_timers t ++ [HideCopied])). rewrite pending_app, <- Ht.
        change (pending RevokeBlob [HideCopied]) with 0%nat. lia.
    + intros s Hs. destruct u as [[v|v|v]| |i|f]; cbn [gen_update]; try done.
      * by destruct (showAdvancedOptions s).
      * by destruct (showAdvancedOptions s).
      * by apply onTimer_blobs.
Qed.

(** ** The buttons *)

Lemma gen_update_flags u s :
  isDownloading (gen_update u s) = isDownloading s /\ isGeneratingQR (gen_update u s) = isGeneratingQR s.
Proof.
  destruct u as [[v|v|v]| |i|f]; cbn [gen_update]; try done; [by destruct (showAdvancedOptions s)..|].
  unfold onTimer. by destruct (g_timers s !! i) as [[]|].
Qed.

Ltac run_un := run_mc; cbn [untouched].

Lemma download_untouched f h s :
  (forall b t, f (setDownloading b t) = f t) -> (forall d t, f (deliver d t) = f t) ->
  (forall k x t, f (genToast k x t) = f t) -> (forall n c t, f (saveBlob n c t) = f t) ->
  h = ClickDownload -> untouched f (handler h s).
Proof.
  intros H1 H2 H3 H4 ->. cbn [gen_handler]. destruct (downloadDisabled s); [done|]. unfold downloadMobileConfig.
  destruct (isIOSDevice nav); run_mc; cbn [untouched]; (split; [done|]); intros [l|e]; run_un.
  - destruct (truthy_opt l); run_un; [|by split_and!]. destruct (truthy _); run_un; by split_and!.
  - by split_and!.
  - by split_and!.
  - by split_and!.
Qed.

Lemma generate_untouched f s :
  (forall b t, f (setGenerating b t) = f t) -> (forall b t, f (setCopied b t) = f t) ->
  (forall k x t, f (genToast k x t) = f t) -> (forall u t, f (setQr u t) = f t) ->
  untouched f (handler ClickGenerate s).
Proof.
  intros H1 H2 H3 H4. cbn [gen_handler]. destruct (qrDisabled s); [done|]. unfold generateQRCode. run_mc.
  cbn [untouched]. split; [done|]. split; [done|]. intros [l|e]; run_un; [|by split_and!]. destruct (truthy_opt l); run_un; by split_and!.
Qed.

Lemma copy_untouched f s :
  (forall b t, f (setCopied b t) = f t) -> (forall k x t, f (genToast k x t) = f t) ->
  (forall t v, f (setTimer v t) = f t) -> untouched f (handler ClickCopy s).
Proof.
  intros H1 H2 H3. cbn [gen_handler]. unfold copyShortLink. destruct (negb _); [done|]. run_mc. cbn [untouched].
  intros [l|e]; run_un; by split_and!.
Qed.

(** a button of the page is disabled by its own request only while it is in flight, and each ends by
    enabling it, whatever it is answered and whatever happens to the page meanwhile *)
Theorem generator_settles st evs :
  let y := run step (mkSys (mountGenerator st) []) evs in
  (inflight y = [] -> isDownloading (ui y) = false /\ isGeneratingQR (ui y) = false) /\
  (isDownloading (ui y) = true -> exists p, p ∈ inflight y /\ lowers isDownloading p) /\
  (isGeneratingQR (ui y) = true -> exists p, p ∈ inflight y /\ lowers isGeneratingQR p).
Proof.
  cbv zeta. rewrite (run_map (gen_ev apiUrl nav urlPath) (sys_step gen_commit) step (fun y e => eq_refl)).
  assert (forall busy, (forall s, busy (gen_commit s) = busy s) -> busy (mountGenerator st) = false ->
    (forall h s, well_behaved busy (handler h s)) -> (forall u s, busy (gen_update u s) = busy s) ->
    let y := run (sys_step gen_commit) (mkSys (mountGenerator st) []) (map (gen_ev apiUrl nav urlPath) evs) in
    (inflight y = [] -> busy (ui y) = false) /\ (busy (ui y) = true -> exists p, p ∈ inflight y /\ lowers busy p)) as Hgen.
  { intros busy Hc H0 Hh Hu.
    destruct (busy_settles gen_commit busy (unchanged_flag busy gen_commit Hc) (mountGenerator st)
      (map (gen_ev apiUrl nav urlPath) evs) H0) as [[_ Hb] Hn]; [|by split].
    apply Forall_fmap, Forall_true. intros [h|i w|u]; cbn; [apply Hh|done|apply unchanged_flag, Hu]. }
  destruct (Hgen isDownloading) as [A1 A2].
  - intros s. by apply gen_commit_keeps.
  - done.
  - intros [] s; [|left; by apply generate_untouched|left; by apply copy_untouched].
    cbn [gen_handler]. destruct (downloadDisabled s); [by left|]. right. unfold downloadMobileConfig.
    destruct (isIOSDevice nav); eexists _, _; (split; [reflexivity|]); intros t; apply ends_finally; by intros.
  - intros u s. apply gen_update_flags.
  - destruct (Hgen isGeneratingQR) as [B1 B2].
    + intros s. by apply gen_commit_keeps.
    + done.
    + intros [] s; [left; by apply download_untouched| |left; by apply copy_untouched].
      cbn [gen_handler]. destruct (qrDisabled s); [by left|]. right.
      eexists _, _. split; [reflexivity|]. intros t. apply ends_finally. by intros.
    + intros u s. apply gen_update_flags.
    + split; [intros Hn; split; auto|]. by split.
Qed.

(** ** Outcomes *)

(** every answer to a request for a code has its outcome: the link is shown, or the failure is announced
    and the code that was shown stays *)
Theorem code_is_shown s w :
  form_settled s ->
  play gen_commit [(fun t => t, w)] (generateQRCode s) s
  = (match w (ShortPost (getRequestData s)) with
     | Ok l =>
         if truthy_opt l then
           genToast ToastSuccess QR_GENERATED (s <| qrCodeUrl := l ?? "" |> <| linkCopied := false |> <| isGeneratingQR := false |>)
         else genToast ToastError QR_FAILED (s <| linkCopied := false |> <| isGeneratingQR := false |>)
     | Throw _ => genToast ToastError QR_FAILED (s <| linkCopied := false |> <| isGeneratingQR := false |>)
     end, Ret ()).
Proof.
  intros Hs. unfold play, answers, resume, advance, generateQRCode. run_mc.
  rewrite (gen_commit_id (setCopied false (setGenerating true s))) by exact Hs. cbn [GenResponse].
  destruct (w (ShortPost (getRequestData s))) as [l|e]; run_mc; [destruct (truthy_opt l); run_mc|]; f_equal; by rewrite gen_commit_id.
Qed.

(** a profile that is downloaded is saved under the name of the active profile, and is announced; on iOS the
    browser is sent to the code of the link *)
Theorem download_is_delivered s w :
  form_settled s ->
  play gen_commit [(fun t => t, w)] (downloadMobileConfig apiUrl nav urlPath s) s
  = (let done t := t <| isDownloading := false |> in
     if isIOSDevice nav then
       match w (ShortPost (getRequestData s)) with
       | Ok (Some l) =>
           if truthy l && truthy (shortCode (urlPath l) l)
           then done (deliver (Navigated (directUrl apiUrl (shortCode (urlPath l) l))) s)
           else done (genToast ToastError START_FAILED s)
       | _ => done (genToast ToastError START_FAILED s)
       end
     else
       match w (MobileconfigPost (getRequestData s)) with
       | Ok c => done (genToast ToastSuccess DOWNLOADED (saveBlob (profileFilename s) c s))
       | Throw _ => done (genToast ToastError DOWNLOAD_FAILED s)
       end, Ret ()).
Proof.
  intros Hs. cbv zeta. unfold play, answers, resume, advance, downloadMobileConfig, iosDownload, blobDownload.
  destruct (isIOSDevice nav); run_mc; rewrite (gen_commit_id (setDownloading true s)) by exact Hs; cbn [GenResponse].
  - destruct (w (ShortPost (getRequestData s))) as [[l|]|e]; run_mc.
    + change (truthy_opt (Some l)) with (truthy l). destruct (truthy l); cbn [andb]; run_mc; [|f_equal; by rewrite gen_commit_id].
      change (Some l ?? "") with l. destruct (truthy (shortCode (urlPath l) l)); run_mc; f_equal; by rewrite gen_commit_id.
    + f_equal; by rewrite gen_commit_id.
    + f_equal; by rewrite gen_commit_id.
  - destruct (w (MobileconfigPost (getRequestData s))) as [c|e]; run_mc; f_equal; by rewrite gen_commit_id.
Qed.

(** ** Codes that come late *)

(** a code that was asked for before the form was changed is shown beside the changed form *)
Theorem late_code_is_of_other_form s w v l :
  form_settled s -> w (ShortPost (getRequestData s)) = Ok (Some l) -> truthy l = true ->
  v <> device_id (formData s) ->
  let change t := gen_commit (updateFormField (FieldDevice v) t) in
  let s' := (play gen_commit [(change, w)] (generateQRCode s) s).1 in
  qrCodeUrl s' = l /\ device_id (formData s') = v /\ isGeneratingQR s' = false.
Proof.
  intros Hs Hw Hl _. cbv zeta. unfold play, answers, resume, advance, generateQRCode. run_mc.
  rewrite (gen_commit_id (setCopied false (setGenerating true s))) by exact Hs. rewrite Hw. run_mc.
  change (truthy_opt (Some l)) with (truthy l). rewrite Hl. run_mc. change (Some l ?? "") with l.
  set (t := gen_commit (updateFormField (FieldDevice v) _)).
  assert (form_settled t) as Ht by apply gen_commit_settles.
  rewrite gen_commit_id by exact Ht. split_and!; [done| |done].
  change (device_id (formData t) = v). unfold t. by rewrite (gen_commit_keeps formData).
Qed.

(** A change of the form removes the code; a change of the active profile does not. *)
Lemma change_removes_code f s : qrCodeUrl (gen_commit (updateFormField f s)) = "" \/ g_seen s = S (g_rev s).
Proof.
  unfold gen_commit. destruct (Nat.eqb_spec (g_seen (updateFormField f s)) (g_rev (updateFormField f s))) as [E|_]; [right; exact E|by left].
Qed.
Lemma switch_keeps_code p s :
  form_settled s ->
  let s' := gen_commit (gen_update (StoreChanges (setActiveProfile p)) s) in
  qrCodeUrl s' = qrCodeUrl s /\ profileId s' = (p_profile_id <$> p).
Proof.
  intros Hs. cbv zeta. rewrite gen_commit_id by exact Hs. by split.
Qed.
End generator.

(** ** The page a short link opens *)

Lemma take_until_lacks c x : lacks c x = true -> take_until c x = x.
Proof.
  unfold lacks. induction x as [|d x IH]; cbn; [done|]. intros [Hd Hx]%andb_true_iff.
  apply negb_true_iff in Hd. rewrite Ascii.eqb_sym in Hd. by rewrite Hd, IH.
Qed.

Definition unquoted (c : ascii) : bool := negb ((code c =? 34) || (code c =? 39)).
Lemma dropQuotes_none x : str_all unquoted x = true -> dropQuotes x = x.
Proof.
  induction x as [|c x IH]; cbn; [done|]. intros [Hc Hx]%andb_true_iff. unfold unquoted in Hc.
  apply negb_true_iff in Hc. by rewrite Hc, IH.
Qed.
Lemma dropQuotes_app x y : dropQuotes (x ++s y) = dropQuotes x ++s dropQuotes y.
Proof. induction x as [|c x IH]; cbn; [done|]. by destruct (_ || _); rewrite IH. Qed.

Lemma dispositionMatch_skip p x : lacks "f" p = true -> dispositionMatch (p ++s x) = dispositionMatch x.
Proof.
  unfold lacks. induction p as [|c p IH]; cbn [str_all String.append dispositionMatch]; [done|].
  intros [Hc Hp]%andb_true_iff. apply negb_true_iff, Ascii.eqb_neq in Hc.
  assert (startsWith (String c (p ++s x)) "filename=" = false) as ->; [|by apply IH].
  unfold startsWith. cbn [String.prefix]. destruct (ascii_dec "f" c); [done|reflexivity].
Qed.

Lemma dispositionMatch_at x : truthy x = true -> lacks ";" x = true -> dispositionMatch ("filename=" ++s x) = Some x.
Proof.
  intros Ht Hx.
  assert (forall c y, dispositionMatch (String c y) =
    if startsWith (String c y) "filename=" && truthy (take_until ";" (str_drop 9 (String c y)))
    then Some (take_until ";" (str_drop 9 (String c y))) else dispositionMatch y) as Hd by done.
  change ("filename=" ++s x) with (String "f" ("ilename=" ++s x)). rewrite Hd.
  change (String "f" ("ilename=" ++s x)) with ("filename=" ++s x). rewrite startsWith_app.
  change (str_drop 9 ("filename=" ++s x)) with x. by rewrite take_until_lacks, Ht.
Qed.

(** the name that the server gives a profile is the name it is saved under, quoted or not *)
Theorem profile_name_of_server x :
  truthy x = true -> lacks ";" x = true -> str_all unquoted x = true -> str_all (fun c => negb (is_ws c)) x = true ->
  dlFilename (Some ("attachment; filename=" ++s x)) = x /\
  dlFilename (Some ("attachment; filename=" ++s quoted x)) = x.
Proof.
  intros Ht Hs Hq Hw. unfold dlFilename, quoted. change (Some ?y ?? "") with y. split.
  - change ("attachment; filename=" ++s x) with ("attachment; " ++s "filename=" ++s x).
    rewrite dispositionMatch_skip, dispositionMatch_at, trim_no_ws by done. by apply dropQuotes_none.
  - change ("attachment; filename=" ++s ?y) with ("attachment; " ++s "filename=" ++s y).
    assert (forall y, str_all y QUOTE = true -> str_all y x = true -> str_all y (QUOTE ++s x ++s QUOTE) = true) as Hall.
    { intros y H1 H2. by rewrite !str_all_app, H1, H2. }
    rewrite dispositionMatch_skip, dispositionMatch_at, trim_no_ws; try done; try (by apply Hall).
    rewrite !dropQuotes_app, (dropQuotes_none x) by done. apply app_nil_r_s.
Qed.

Section download.
Context (apiUrl : string) (nav : option Navigator).
Notation start := (startDownload apiUrl nav).
Notation step := (dl_step apiUrl nav).
Implicit Types d : DownloadPage.

(** every way a download goes is shown: what was saved or is about to be opened, or why not *)
Lemma download_is_shown d c (w : DlWorld) :
  d_code d = Some c -> truthy c = true ->
  let d' := (play id [(fun t => t, w)] (start d) d).1 in
  d_loading d' = false /\ d_code d' = Some c /\
  (if isIOSDevice nav then d_error d' = false /\ d_success d' = true /\ d_timers d' = d_timers d ++ [directUrl apiUrl c]
   else match w (ShortCodeGet c) with
        | Ok a => d_error d' = false /\ d_success d' = true /\
            d_delivered d' = d_delivered d ++ [Saved (dlFilename (da_disposition a)) (da_content a)]
        | Throw e => d_error d' = true /\ d_success d' = d_success d /\ d_delivered d' = d_delivered d /\
            d_errorMessage d' = match e with DlResponse status => dlMessage status | DlOther => d_errorMessage d end
        end).
Proof.
  intros Hc Ht. cbv zeta. unfold startDownload. rewrite Hc. change (Some c ?? "") with c. rewrite Ht. cbn [negb].
  unfold play, answers, resume, advance. destruct (isIOSDevice nav); run_mc; [split_and!; try done; exact Hc|].
  unfold dlBody, dlFails. run_mc. cbn [DlResponseOf id].
  destruct (w (ShortCodeGet c)) as [a|[status|]]; run_mc; (split_and!; try done; exact Hc).
Qed.

(** Without a code nothing is asked for. *)
Lemma no_code_is_named d (w : DlWorld) :
  truthy_opt (d_code d) = false ->
  start d = (perform (setDlError true);; perform (setDlMessage NO_CODE);; perform (setDlLoading false)).
Proof. intros Hc. unfold startDownload. unfold truthy_opt in Hc. by rewrite Hc. Qed.

(** a download that fails when it is tried again after a success is shown as failed and as started *)
Theorem failed_retry_shows_both d c (w w' : DlWorld) a e :
  d_code d = Some c -> truthy c = true -> isIOSDevice nav = false ->
  w (ShortCodeGet c) = Ok a -> w' (ShortCodeGet c) = Throw e ->
  let d1 := (play id [(fun t => t, w)] (start d) d).1 in
  let d2 := (play id [(fun t => t, w')] (retryDownload apiUrl nav d1) d1).1 in
  d_error d2 = true /\ d_success d2 = true /\ d_loading d2 = false.
Proof.
  intros Hc Ht Hn Hw Hw'. cbv zeta.
  destruct (download_is_shown d c w Hc Ht) as (_ & Hc1 & H1). rewrite Hn, Hw in H1. destruct H1 as (_ & Hs & _).
  revert Hc1 Hs. generalize ((play id [(fun t => t, w)] (start d) d).1). intros d1 Hc1 Hs.
  unfold retryDownload. rewrite Hs, orb_true_r.
  destruct (download_is_shown d1 c w' Hc1 Ht) as (Hl & _ & H2). rewrite Hn, Hw' in H2. destruct H2 as (He & Hs2 & _).
  split_and!; [done|by rewrite Hs2|done].
Qed.
End download.

(** ** Witnesses *)

Definition mc_store : AppState := setActiveProfile (Some (MkModelProfile "acc" "1" "Home" "p1" None)) initialState.
Definition mc_page : Generator := mountGenerator mc_store.
Definition a_link : string := "https://api.moddns.net/short/abc123".
Definition linking : GenWorld := fun r =>
  match r with ShortPost _ => Ok (Some a_link) | MobileconfigPost _ => Ok "profile" | ClipboardWrite _ => Ok tt end.

Lemma shortCode_last_witness : shortCode None a_link = "abc123".
Proof. exact (proj2 (shortCode_last "" "https://api.moddns.net/short" "abc123" eq_refl eq_refl)). Defined.

Lemma code_is_shown_witness :
  qrCodeUrl (play gen_commit [(fun t => t, linking)] (generateQRCode mc_page) mc_page).1 = a_link.
Proof. rewrite (code_is_shown mc_page linking eq_refl). reflexivity. Defined.

Lemma download_is_delivered_witness :
  g_delivered (play gen_commit [(fun t => t, linking)] (downloadMobileConfig "https://api" None (fun _ => None) mc_page) mc_page).1
  = [Saved "modDNS-p1.mobileconfig" "profile"].
Proof. rewrite (download_is_delivered "https://api" None (fun _ => None) mc_page linking eq_refl). reflexivity. Defined.

Lemma late_code_is_of_other_form_witness :
  qrCodeUrl (play gen_commit [(fun t => gen_commit (updateFormField (FieldDevice "iPad") t), linking)] (generateQRCode mc_page) mc_page).1
  = a_link.
Proof.
  refine (proj1 (late_code_is_of_other_form mc_page linking "iPad" a_link eq_refl eq_refl eq_refl _)). discriminate.
Defined.

Lemma profile_name_of_server_witness : dlFilename (Some "attachment; filename=a.mobileconfig") = "a.mobileconfig".
Proof. exact (proj1 (profile_name_of_server "a.mobileconfig" eq_refl eq_refl eq_refl eq_refl)). Defined.

Definition dl_page : DownloadPage := renderDownload (Some "abc123").
Lemma failed_retry_shows_both_witness :
  let d1 := (play id [(fun t => t, (fun _ => Ok (mkDlAnswer "profile" None)) : DlWorld)] (startDownload "https://api" None dl_page) dl_page).1 in
  d_success (play id [(fun t => t, (fun _ => Throw DlOther) : DlWorld)] (retryDownload "https://api" None d1) d1).1 = true.
Proof.
  exact (proj1 (proj2 (failed_retry_shows_both "https://api" None dl_page "abc123" (fun _ => Ok (mkDlAnswer "profile" None))
    (fun _ => Throw DlOther) _ _ eq_refl eq_refl eq_refl eq_refl eq_refl))).
Defined.
