(* ===== verification/SetupPage.v ===== *)
(** * Setting up a device

    [src/app/src/pages/setup/SetupScreen.tsx], [RightPanelGuide.tsx] and [guides/]: the page with the addresses
    of the profile, its panel, and the guides. Of a guide the values that it shows are modelled, in order
    and with their steps and tabs, not the words around them. [guides/Routers.tsx] and [guides/Linux.tsx] also ask
    for DNS stamps. *)

From S2P Require Import Prelude JsString Formats ApiTypes Store Async.
From coqutil Require Import Datatypes.RecordSetters.
Import TriangleBracketNotations.

#[local] Arguments constant _ _ _ /.

(** ** The addresses of the profile *)

(** The rows of the card; the first two kinds of address have a note. *)
Definition addressRows (d : DerivedProfileData) : list (string * string) :=
  [("Profile ID", dp_id d); ("DNS-over-TLS/QUIC", dp_dnsOverTLS d); ("DNS-over-HTTPS", dp_dnsOverHTTPS d); ("IPv4", dp_ipv4 d)]
  ++ match dp_ipv6 d with Some v => if truthy v then [("IPv6", v)] else [] | None => [] end.
Definition hasNote (label : string) : bool := String.eqb label "IPv4" || String.eqb label "IPv6".

(** ** The platforms *)

Record PlatformCard := mkPlatform { pc_name : string; pc_disabled : bool }.
Definition platformCards : list (list PlatformCard) :=
  [ [mkPlatform "Windows" false; mkPlatform "macOS" false; mkPlatform "Linux" false];
    [mkPlatform "Browsers" false; mkPlatform "Android" false; mkPlatform "iOS" false];
    [mkPlatform "Routers" false; mkPlatform "VPN apps" false; mkPlatform "Smart TV" true] ].
(** The grid of small screens. *)
Definition mobileCards : list PlatformCard := List.filter (fun p => negb (pc_disabled p)) (concat platformCards).
Definition DEVICE_IDENTIFICATION : string := "Device Identification".
(** What can be chosen. *)
Definition offeredPlatforms : list string := map pc_name mobileCards ++ [DEVICE_IDENTIFICATION].

(** ** The page *)

(** The state that a navigation to the page carries. *)
Record SetupLocation := mkSetupLocation { sl_profileDeleted : bool; sl_fromMobileconfig : bool; sl_platform : option string }.
Definition noLocation : SetupLocation := mkSetupLocation false false None.

Inductive SetupTimer : Set := ClearCopied | ClearSelected.
#[export] Instance SetupTimer_eq_dec : EqDecision SetupTimer.
Proof. solve_decision. Defined.

Record SetupPage := mkSetup {
  su_store : AppState;
  su_location : SetupLocation;
  copiedField : option string;
  selectedPlatform : option string;
  showPanel : bool;
  toastShown : bool;
  su_toasts : list UiToast;
  su_timers : list SetupTimer;
}.
Definition renderSetup (st : AppState) (l : SetupLocation) : SetupPage := mkSetup st l None None false false [] [].

Definition setRightPanel (b : bool) (s : SetupPage) : SetupPage := s <| su_store := set_field (setRightPanelOpen b) (su_store s) |>.
Definition setupToast (k : ToastKind) (t : string) (s : SetupPage) : SetupPage :=
  s <| su_toasts := (su_toasts s ++ [mkToast k t])%list |>.
Definition setSetupTimer (t : SetupTimer) (s : SetupPage) : SetupPage := s <| su_timers := (su_timers s ++ [t])%list |>.
Definition setCopiedField (f : option string) (s : SetupPage) : SetupPage := s <| copiedField := f |>.

(** [handlePlatformClick] and [handleGuideClose] *)
Definition handlePlatformClick (name : string) (s : SetupPage) : SetupPage :=
  setRightPanel true (s <| selectedPlatform := Some name |> <| showPanel := true |>).
Definition handleGuideClose (s : SetupPage) : SetupPage :=
  setSetupTimer ClearSelected (setRightPanel false (s <| showPanel := false |>)).

(** The effects, with the location of the render; each clears its state from the location. *)
Definition deletedEffect (l : SetupLocation) (s : SetupPage) : SetupPage :=
  if sl_profileDeleted l && negb (toastShown s) then
    (setupToast ToastSuccess "Profile deleted." (s <| toastShown := true |>)) <| su_location := noLocation |>
  else s.
Definition guideEffect (l : SetupLocation) (s : SetupPage) : SetupPage :=
  match sl_platform l with
  | Some p =>
      if sl_fromMobileconfig l && truthy p && negb (showPanel s)
      then (handlePlatformClick p s) <| su_location := noLocation |> else s
  | None => s
  end.
Definition setup_commit (s : SetupPage) : SetupPage :=
  let l := su_location s in guideEffect l (deletedEffect l s).

Definition onSetupTimer (i : nat) (s : SetupPage) : SetupPage :=
  match su_timers s !! i with
  | None => s
  | Some t =>
      let s' := s <| su_timers := delete i (su_timers s) |> in
      match t with ClearCopied => setCopiedField None s' | ClearSelected => s' <| selectedPlatform := None |> end
  end.

Inductive SuRequest : Type := SuClipboard (text : string).
Definition SuResponse (r : SuRequest) : Type := unit.
Notation SuHandler := (Prog unit SuRequest SetupPage SuResponse unit).
Notation SuSystem := (Sys unit SuRequest SetupPage SuResponse).
Notation SuWorld := (World unit SuRequest SuResponse).

Definition copyToClipboard (text fieldName : string) : SuHandler :=
  try_async
    (await (SuClipboard text);;
     perform (setCopiedField (Some fieldName));;
     perform (setSetupTimer ClearCopied);;
     perform (setupToast ToastSuccess (fieldName ++s " copied to clipboard")))
    (fun _ => perform (setupToast ToastError "Failed to copy to clipboard")).

(** The page is hidden and takes no click while the panel covers it. *)
Definition pageHidden (isDesktop : bool) (s : SetupPage) : bool := negb isDesktop && showPanel s.
(** The panel is there while a platform is selected. *)
Definition panelShown (s : SetupPage) : bool := bool_decide (is_Some (selectedPlatform s)) && showPanel s.

Inductive SuInvoke : Type := CopyRow (row : string * string).
Definition su_handler (env : ProfileEnv) (isDesktop : bool) (h : SuInvoke) (s : SetupPage) : SuHandler :=
  match h, useProfileData env (su_store s) with
  | CopyRow (label, value), Some d =>
      if bool_decide ((label, value) ∈ addressRows d) && negb (pageHidden isDesktop s)
         && negb (isDesktop && bool_decide (copiedField s = Some label))
      then copyToClipboard value label else mret ()
  | _, None => mret ()
  end.

Inductive SuUpdate : Type :=
| ChoosePlatform (name : string)
| ChangePlatform (name : string)
| CloseGuide
| SetupTimerFires (i : nat)
| Navigated (l : SetupLocation)
| SetupStoreChanges (f : AppState -> AppState).
(** [ChangePlatform]: a link of the guide that is shown. *)
Definition su_update (isDesktop : bool) (u : SuUpdate) (s : SetupPage) : SetupPage :=
  match u with
  | ChoosePlatform name =>
      if bool_decide (name ∈ offeredPlatforms) && negb (pageHidden isDesktop s) then handlePlatformClick name s else s
  | ChangePlatform name => if panelShown s then handlePlatformClick name s else s
  | CloseGuide => if panelShown s then handleGuideClose s else s
  | SetupTimerFires i => onSetupTimer i s
  | Navigated l => s <| su_location := l |>
  | SetupStoreChanges f => s <| su_store := f (su_store s) |>
  end.

Inductive SuEvent : Type := SuInvoked (h : SuInvoke) | SuAnswered (i : nat) (w : SuWorld) | SuUpdated (u : SuUpdate).
Definition su_ev (env : ProfileEnv) (isDesktop : bool) (e : SuEvent) : SysEvent unit SuRequest SetupPage SuResponse :=
  match e with
  | SuInvoked h => Start (su_handler env isDesktop h)
  | SuAnswered i w => Answer i w
  | SuUpdated u => Other (su_update isDesktop u)
  end.
Definition su_step (env : ProfileEnv) (isDesktop : bool) (y : SuSystem) (e : SuEvent) : SuSystem :=
  sys_step setup_commit y (su_ev env isDesktop e).

(** The warning about an unverified address. *)
Definition verificationBanner (account : option ModelAccount) (dismissed : bool) : bool :=
  match account with
  | Some a => negb (acc_email_verified a ?? false) && negb dismissed
  | None => false
  end.
