(* ===== verification/SetupGuides.v ===== *)
(** * The guides of the set-up page

    [src/app/src/pages/setup/RightPanelGuide.tsx], [guides/] and [components/setup/CodeBlock.tsx]. Of a guide its
    badges, its steps and tabs, and the values that each of them shows are modelled, in order, not the words
    around them. *)

From S2P Require Import Prelude JsString Formats ApiTypes Store.

(** ** Guides *)

Record GuideTab := mkTab { tab_key : string; tab_label : string; tab_values : list string }.
(** A step shows its number, its values, and tabs of which one is open; [TabsStep] has no number. *)
Inductive GuideStep : Type :=
| TextStep (number : option nat) (values : list string)
| TabsStep (tabs : list GuideTab).
Record Guide := mkGuide { gd_badges : list string; gd_steps : list GuideStep }.

Definition stepValues (s : GuideStep) : list string :=
  match s with TextStep _ vs => vs | TabsStep tabs => flat_map tab_values tabs end.
(** Every value of a guide, whichever tab shows it. *)
Definition guideValues (g : Guide) : list string := flat_map stepValues (gd_steps g).
(** [tabs.find(t => t.key === active)] *)
Definition openTab (active : string) (tabs : list GuideTab) : option GuideTab :=
  array_find (fun t => String.eqb (tab_key t) active) tabs.

Definition plain (n : nat) : GuideStep := TextStep (Some n) [].
(** [v && ...] *)
Definition optional (v : option string) : list string :=
  match v with Some x => if truthy x then [x] else [] | None => [] end.

(** *** Windows, Android, browsers, VPN apps *)

Definition windowsBadges : list string := ["Windows"; "DNS over HTTPS"].
Definition createWindowsSteps (dohEndpoint primaryIp : string) (ipv6 : option string) : list GuideStep :=
  [plain 1; plain 2; plain 3; plain 4; TextStep (Some 5%nat) (primaryIp :: optional ipv6); plain 6;
   TextStep (Some 7%nat) [dohEndpoint]; plain 8].

Definition androidBadges : list string := ["Android 9 or newer"; "DNS over TLS"].
Definition createAndroidSteps (dotEndpoint : string) : list GuideStep :=
  [plain 1; plain 2; plain 3; plain 4; plain 5; TextStep (Some 6%nat) [dotEndpoint]].

Definition browsersBadges : list string := ["Browsers"; "DNS over HTTPS"].
Definition browserTabs (doh : string) : list GuideTab :=
  [mkTab "chrome" "Chrome" [doh]; mkTab "firefox" "Firefox" [doh; "dns.moddns.net"]; mkTab "brave" "Brave" [doh];
   mkTab "edge" "Edge" [doh]; mkTab "safari" "Safari" []].
Definition createBrowsersSteps (dohEndpoint : string) : list GuideStep := [TabsStep (browserTabs dohEndpoint)].

Definition vpnAppsBadges : list string := ["VPN apps"; "DNS over HTTPS"; "DNS over TLS"].
Definition createVpnAppsSteps (dohEndpoint dotEndpoint primaryIp : string) : list GuideStep :=
  [TextStep None []; plain 1; plain 2; TextStep (Some 3%nat) [primaryIp];
   TextStep (Some 4%nat) [dohEndpoint; dotEndpoint]; plain 5].

(** *** Linux *)

Definition linuxBadges : list string := ["Linux"; "DNS over TLS"; "DNS over HTTPS"].
Definition buildSystemdResolvedConfig (profileId primaryIp domain : string) (ipv6 : option string) : string :=
  let sni := profileId ++s "." ++s domain in
  let first := primaryIp ++s "#" ++s sni in
  let servers := if truthy_opt ipv6 then first ++s " " ++s (ipv6 ?? "") ++s "#" ++s sni else first in
  "[Resolve]" ++s newline ++s "DNS=" ++s servers ++s newline ++s "DNSOverTLS=yes" ++s newline ++s "Domains=~.".
Definition systemdRestartCmd : string := "sudo systemctl restart systemd-resolved".
Definition dnscryptRestartCmd : string := "sudo systemctl restart dnscrypt-proxy".
(** The configuration of the other tab comes with the stamp. *)
Definition linuxTabs (profileId primaryIp domain : string) (ipv6 : option string) : list GuideTab :=
  [mkTab "systemd-resolved" "systemd-resolved"
     [buildSystemdResolvedConfig profileId primaryIp domain ipv6; systemdRestartCmd; systemdRestartCmd];
   mkTab "dnscrypt-proxy" "dnscrypt-proxy" [dnscryptRestartCmd]].
Definition createLinuxSteps (profileId primaryIp domain : string) (ipv6 : option string) : list GuideStep :=
  [TabsStep (linuxTabs profileId primaryIp domain ipv6)].

(** *** Routers *)

Definition routersBadges : list string := ["Routers"; "DNS over HTTPS"; "DNS over TLS"].
Record RoutersGuideDeps := mkRouters {
  rd_dohEndpoint : string;
  rd_anycastIpv4 : string;
  rd_anycastIpv6 : option string;
  rd_dnsServerDomain : string;
  rd_dotHostname : string;
  rd_profileId : string;
}.
Definition line (s : string) : string := s ++s newline.
Definition buildMikrotikCommands (d : RoutersGuideDeps) : string :=
  line ("/ip dns set servers=" ++s quoted "")
  ++s line ("/ip dns static add name=" ++s rd_dnsServerDomain d ++s " address=" ++s rd_anycastIpv4 d ++s " type=A")
  ++s (if truthy_opt (rd_anycastIpv6 d)
       then line ("/ip dns static add name=" ++s rd_dnsServerDomain d ++s " address=" ++s (rd_anycastIpv6 d ?? "") ++s " type=AAAA")
       else "")
  ++s line ("/ip dns set use-doh-server=" ++s quoted (rd_dohEndpoint d) ++s " verify-doh-cert=yes")
  ++s "/ip dns set allow-remote-requests=yes".
Definition bootstrapDns (d : RoutersGuideDeps) : string :=
  if truthy_opt (rd_anycastIpv6 d) then rd_anycastIpv4 d ++s "," ++s (rd_anycastIpv6 d ?? "") else rd_anycastIpv4 d.
Definition buildOpenWrtCommands (d : RoutersGuideDeps) : string :=
  line "# OpenWrt 24.10 and older use opkg package manager"
  ++s line "opkg update"
  ++s line (line "opkg install https-dns-proxy")
  ++s line "# OpenWrt 25.12 and newer use apk package manager"
  ++s line "apk update"
  ++s line (line "apk add https-dns-proxy")
  ++s line "while uci -q delete https-dns-proxy.@https-dns-proxy[0]; do :; done"
  ++s line ("uci set https-dns-proxy.dns=" ++s quoted "https-dns-proxy")
  ++s line ("uci set https-dns-proxy.dns.bootstrap_dns=" ++s quoted (bootstrapDns d))
  ++s line ("uci set https-dns-proxy.dns.resolver_url=" ++s quoted (rd_dohEndpoint d))
  ++s line ("uci set https-dns-proxy.dns.listen_addr=" ++s quoted "127.0.0.1")
  ++s line ("uci set https-dns-proxy.dns.listen_port=" ++s quoted "5053")
  ++s line "uci commit https-dns-proxy"
  ++s "service https-dns-proxy restart".
(** The stamps of the last tab are asked for. *)
Definition buildRouterTabs (d : RoutersGuideDeps) : list GuideTab :=
  [mkTab "mikrotik" "Mikrotik RouterOS" [buildMikrotikCommands d];
   mkTab "pfsense" "pfSense" ([rd_anycastIpv4 d; rd_dotHostname d] ++ optional (rd_anycastIpv6 d));
   mkTab "opnsense" "OPNsense" ([rd_anycastIpv4 d] ++ optional (rd_anycastIpv6 d) ++ ["853"; rd_dotHostname d]);
   mkTab "openwrt" "OpenWrt" [buildOpenWrtCommands d];
   mkTab "stamps" "DNS Stamps" []].
Definition createRoutersSteps (d : RoutersGuideDeps) : list GuideStep := [TabsStep (buildRouterTabs d)].

(** *** Device identification *)

Definition deviceIdentificationBadges : list string := ["Device Tracking"; "DNS Logs"].
Definition createDeviceIdentificationSteps (profileId dnsOverHTTPS domain : string) : list GuideStep :=
  let host := profileId ++s "." ++s domain in
  [TextStep None []; TextStep None [];
   TextStep None [dnsOverHTTPS; dnsOverHTTPS ++s "/my-laptop"; dnsOverHTTPS ++s "/phone"; dnsOverHTTPS ++s "/John%27s%20iPhone"];
   TextStep None [];
   TextStep None [host; "my-laptop-" ++s host; "home--router-" ++s host; "john--s--iphone-" ++s host];
   TextStep None []].

(** *** The panel *)

Definition macOSBadges : list string := ["macOS"; "DNS over HTTPS"; "DNS over TLS"].
Definition iosBadges : list string := ["iOS"; "iPadOS"; "DNS over HTTPS"; "DNS over TLS"].

(** [platformGuides[platform] || WindowsGuide], for the platforms without steps of their own. *)
Definition platformGuide (platform : string) : Guide :=
  if String.eqb platform "macOS" then mkGuide macOSBadges []
  else if String.eqb platform "iOS" then mkGuide iosBadges []
  else mkGuide windowsBadges [].

(** [profileData?.f || fallback] *)
Definition field_or (f : DerivedProfileData -> string) (d : option DerivedProfileData) (fallback : string) : string :=
  opt_or (f <$> d) fallback.

Definition guideOf (platform : string) (d : option DerivedProfileData) : Guide :=
  let primaryIp := field_or dp_ipv4 d "0.0.0.0" in
  let ipv6 := x ← d; dp_ipv6 x in
  let domain := field_or dp_domain d "example.com" in
  let doh := field_or dp_dohEndpoint d "https://example.com/dns-query/your-profile-id" in
  let id := field_or dp_id d "your-profile-id" in
  if String.eqb platform "Device Identification" then
    mkGuide deviceIdentificationBadges (createDeviceIdentificationSteps id doh "example.com")
  else if String.eqb platform "Browsers" then mkGuide browsersBadges (createBrowsersSteps doh)
  else if String.eqb platform "Windows" then mkGuide windowsBadges (createWindowsSteps doh primaryIp ipv6)
  else if String.eqb platform "Linux" then mkGuide linuxBadges (createLinuxSteps id primaryIp domain ipv6)
  else if String.eqb platform "Android" then
    mkGuide androidBadges (createAndroidSteps (field_or dp_dnsOverTLS d "your-profile-id.example.com"))
  else if String.eqb platform "Routers" then
    mkGuide routersBadges (createRoutersSteps (mkRouters doh primaryIp ipv6 domain
      (field_or dp_dnsOverTLS d ("your-profile-id." ++s domain)) id))
  else if String.eqb platform "VPN apps" then
    mkGuide vpnAppsBadges (createVpnAppsSteps doh (field_or dp_dnsOverTLS d ("your-profile-id." ++s domain)) primaryIp)
  else platformGuide platform.

(** The two platforms with a configuration profile, and where its button leads. *)
Definition supportsMobileconfig (platform : string) : bool := String.eqb platform "macOS" || String.eqb platform "iOS".
Definition quickSetup (platform : string) : option (string * string) :=
  if supportsMobileconfig platform then Some ("/mobileconfig", platform) else None.

(** Where the panel starts: below the headers when it covers the page. [measured]: what the headers take,
    and the safe area. *)
Definition EXTRA_BUFFER : Z := 24.
Definition panelTop (overlay connectionStatusVisible : bool) (measured safe : Z) : Z :=
  if overlay then
    (if measured =? 0 then (if connectionStatusVisible then 48 else 0) + 64 else measured) + safe + EXTRA_BUFFER
  else 0.
