(* ===== verification/DnsStamps.v ===== *)
(** * DNS stamps

    [StampsTab] of [src/app/src/pages/setup/guides/Routers.tsx] and [LinuxDnscryptProxyTab] of
    [guides/Linux.tsx]: two components that ask for the stamps of the profile. *)

From coqutil Require Import Datatypes.RecordSetters.
From S2P Require Import Prelude JsString Formats Async.
Import TriangleBracketNotations.

#[local] Arguments constant _ _ _ /.

Record ResponsesDNSStampResponse := mkStamps { ds_doh : option string; ds_dot : option string; ds_doq : option string }.

Inductive StampRequest : Type := DnsstampPost (profile_id device_id : string).
Definition StampResponse (r : StampRequest) : Type := ResponsesDNSStampResponse.
(** The components look at no error. *)
Notation StampWorld := (World unit StampRequest StampResponse).

(** ** The tab of the routers *)

(** What the effect of the timer depends on. *)
Record StampDeps := mkStampDeps { sd_label : string; sd_open : bool; sd_profile : string }.
#[export] Instance StampDeps_eq_dec : EqDecision StampDeps.
Proof. solve_decision. Defined.

(** [sp_timer]: the fetch that is set to start, with the profile and the label of its closure. *)
Record StampsTab := mkStampsTab {
  sp_profile : string;
  sp_stamps : option ResponsesDNSStampResponse;
  sp_loading : bool;
  sp_error : option string;
  sp_open : bool;
  sp_label : string;
  sp_timer : option (string * string);
  sp_seen : StampDeps;
}.
Definition renderStamps (profileId : string) : StampsTab :=
  mkStampsTab profileId None true None false "" None (mkStampDeps "" false profileId).

Notation SpHandler := (Prog unit StampRequest StampsTab StampResponse unit).
Notation SpSystem := (Sys unit StampRequest StampsTab StampResponse).

Definition stampDepsOf (s : StampsTab) : StampDeps := mkStampDeps (sp_label s) (sp_open s) (sp_profile s).
(** The effect of the timer: its cleanup, and the new timer while the advanced options are open. *)
Definition stamps_commit (s : StampsTab) : StampsTab :=
  if bool_decide (sp_seen s = stampDepsOf s) then s
  else s <| sp_timer := if sp_open s then Some (sp_profile s, sp_label s) else None |> <| sp_seen := stampDepsOf s |>.

Definition STAMPS_FAILED : string := "Could not generate stamps. Try again.".
Definition setStampsLoading (b : bool) (s : StampsTab) : StampsTab := s <| sp_loading := b |>.
Definition setStampsError (e : option string) (s : StampsTab) : StampsTab := s <| sp_error := e |>.
Definition setStamps (r : option ResponsesDNSStampResponse) (s : StampsTab) : StampsTab := s <| sp_stamps := r |>.

Definition fetchStamps (profileId deviceId : string) : SpHandler :=
  perform (setStampsLoading true);;
  perform (setStampsError None);;
  finally (try_async
    (data ← await (DnsstampPost profileId deviceId);
     perform (setStamps (Some data)))
    (fun _ => perform (setStampsError (Some STAMPS_FAILED));; perform (setStamps None)))
    (setStampsLoading false).

(** [SpMounts] and [SpProfile]: the effect on the profile; [SpTimer]: the timer fires. *)
Inductive SpEvent : Type :=
| SpMounts
| SpProfile (profileId : string)
| SpToggle (isOpen : bool)
| SpLabel (label : string)
| SpTimer
| SpRetry
| SpAnswered (i : nat) (w : StampWorld).
Definition startProfile (p : string) (s : StampsTab) : SpHandler :=
  if String.eqb p (sp_profile s) then mret () else perform (fun t => t <| sp_profile := p |>);; fetchStamps p "".
Definition fireTimer (s : StampsTab) : SpHandler :=
  match sp_timer s with
  | Some (p, l) => perform (fun t => t <| sp_timer := None |>);; fetchStamps p l
  | None => mret ()
  end.
Definition retryStamps (s : StampsTab) : SpHandler :=
  match sp_error s with
  | Some _ => fetchStamps (sp_profile s) (if sp_open s then sp_label s else "")
  | None => mret ()
  end.
(** The label has an input of at most 36 characters, while the options are open. *)
Definition typeLabel (l : string) (s : StampsTab) : StampsTab := if sp_open s then s <| sp_label := l |> else s.
Definition sp_ev (e : SpEvent) : SysEvent unit StampRequest StampsTab StampResponse :=
  match e with
  | SpMounts => Start (fun s => fetchStamps (sp_profile s) "")
  | SpProfile p => Start (startProfile p)
  | SpToggle b => Other (fun s => s <| sp_open := b |>)
  | SpLabel l => Other (typeLabel l)
  | SpTimer => Start fireTimer
  | SpRetry => Start retryStamps
  | SpAnswered i w => Answer i w
  end.
Definition sp_step (y : SpSystem) (e : SpEvent) : SpSystem := sys_step stamps_commit y (sp_ev e).

(** What the tab shows: the failure, or the three rows and the configuration; [None] while it is loading. *)
Inductive StampsBody : Type :=
| StampsError (text : string)
| StampsRows (doh dot doq config : option string).
Definition stampsBody (s : StampsTab) : StampsBody :=
  match sp_error s with
  | Some e => StampsError e
  | None =>
      let row f := if sp_loading s then None else Some ((r ← sp_stamps s; f r) ?? "") in
      StampsRows (row ds_doh) (row ds_dot) (row ds_doq)
        (if sp_loading s then None
         else v ← (r ← sp_stamps s; ds_doh r); if truthy v then Some (buildDnscryptProxyToml (sp_profile s) v) else None)
  end.

(** ** The tab of the Linux guide *)

Record LinuxTab := mkLinux { ln_profile : string; ln_doh : string; ln_loading : bool; ln_error : option string }.
Definition renderLinux (profileId : string) : LinuxTab := mkLinux profileId "" true None.

Notation LnHandler := (Prog unit StampRequest LinuxTab StampResponse unit).
Notation LnSystem := (Sys unit StampRequest LinuxTab StampResponse).

Definition STAMP_FAILED : string := "Could not generate the DoH stamp. Try again.".
Definition setLnLoading (b : bool) (s : LinuxTab) : LinuxTab := s <| ln_loading := b |>.
Definition setLnError (e : option string) (s : LinuxTab) : LinuxTab := s <| ln_error := e |>.
Definition setLnDoh (v : string) (s : LinuxTab) : LinuxTab := s <| ln_doh := v |>.
Definition fetchStamp (profileId : string) : LnHandler :=
  perform (setLnLoading true);;
  perform (setLnError None);;
  finally (try_async
    (data ← await (DnsstampPost profileId "");
     perform (setLnDoh (ds_doh data ?? "")))
    (fun _ => perform (setLnError (Some STAMP_FAILED));; perform (setLnDoh "")))
    (setLnLoading false).

Inductive LnEvent : Type := LnMounts | LnProfile (profileId : string) | LnRetry | LnAnswered (i : nat) (w : StampWorld).
Definition switchLinux (p : string) (s : LinuxTab) : LnHandler :=
  if String.eqb p (ln_profile s) then mret () else perform (fun t => t <| ln_profile := p |>);; fetchStamp p.
Definition retryLinux (s : LinuxTab) : LnHandler :=
  match ln_error s with Some _ => fetchStamp (ln_profile s) | None => mret () end.
Definition ln_ev (e : LnEvent) : SysEvent unit StampRequest LinuxTab StampResponse :=
  match e with
  | LnMounts => Start (fun s => fetchStamp (ln_profile s))
  | LnProfile p => Start (switchLinux p)
  | LnRetry => Start retryLinux
  | LnAnswered i w => Answer i w
  end.
Definition ln_step (y : LnSystem) (e : LnEvent) : LnSystem := sys_step id y (ln_ev e).

(** The configuration, the failure, or nothing while it is loading. *)
Definition linuxBody (s : LinuxTab) : option (string + string) :=
  match ln_error s with
  | Some e => Some (inl e)
  | None => if ln_loading s || negb (truthy (ln_doh s)) then None
            else Some (inr (buildDnscryptProxyToml (ln_profile s) (ln_doh s)))
  end.

(** ** DNS stamps: what the two tabs guarantee

    A fetch ends by taking the skeleton away, and while one is shown a fetch is in flight; a timer that is
    set asks for the profile and the label that are shown; an answer has its outcome. What two answers do
    that overtake each other. *)


Implicit Types (w : StampWorld).

Ltac run_st := cbn [drain mbind prog_bind perform finally try_async await fst snd mret prog_ret].

(** ** The tab of the routers *)

Definition stamps_settled (s : StampsTab) : Prop := sp_seen s = stampDepsOf s.

Lemma stamps_commit_id s : stamps_settled s -> stamps_commit s = s.
Proof. intros E. unfold stamps_commit. by rewrite bool_decide_true. Qed.
Lemma stamps_commit_settles s : stamps_settled (stamps_commit s).
Proof. unfold stamps_settled, stamps_commit. by case_bool_decide. Qed.
Lemma stamps_commit_keeps {A} (f : StampsTab -> A) s :
  (forall s t d, f (s <| sp_timer := t |> <| sp_seen := d |>) = f s) -> f (stamps_commit s) = f s.
Proof. intros Hf. unfold stamps_commit. case_bool_decide; [done|apply Hf]. Qed.

Lemma sp_step_settles y e : stamps_settled (ui y) -> stamps_settled (ui (sp_step y e)).
Proof.
  intros Hy. unfold sp_step. destruct (sp_ev e) as [h|i w|f]; cbn [sys_step].
  - unfold advance. destruct (drain _ _). apply stamps_commit_settles.
  - destruct (inflight y !! i) as [p|]; [|done]. unfold resume, advance. destruct (drain _ _). apply stamps_commit_settles.
  - apply stamps_commit_settles.
Qed.

(** *** The timer *)

Definition timer_ok (s : StampsTab) : Prop :=
  forall p l, sp_timer s = Some (p, l) -> sp_seen s = mkStampDeps l true p.

Lemma stamps_commit_timer s : timer_ok s -> timer_ok (stamps_commit s).
Proof.
  intros Hs. unfold stamps_commit. case_bool_decide; [done|]. intros p l. cbn. unfold stampDepsOf.
  destruct (sp_open s); [|done]. by intros [= -> ->].
Qed.

Lemma fetch_keeps_timer p l : keeps timer_ok (fetchStamps p l).
Proof.
  unfold fetchStamps. run_st. cbn [keeps]. split; [done|]. split; [done|]. intros [d|e]; run_st; cbn [keeps]; by split_and!.
Qed.

(** a fetch that is set to start is for the profile and the label that are shown, while the options are open *)
Theorem timer_is_current p0 evs p l :
  let s := ui (run sp_step (mkSys (renderStamps p0) []) evs) in
  sp_timer s = Some (p, l) -> p = sp_profile s /\ l = sp_label s /\ sp_open s = true.
Proof.
  cbv zeta.
  assert (stamps_settled (ui (run sp_step (mkSys (renderStamps p0) []) evs))) as Hset.
  { assert (stamps_settled (ui (mkSys (renderStamps p0) [] : SpSystem))) as H0 by done.
    revert H0. generalize (mkSys (renderStamps p0) [] : SpSystem). induction evs as [|e evs IH]; intros y Hy; [done|].
    apply IH. by apply sp_step_settles. }
  assert (timer_ok (ui (run sp_step (mkSys (renderStamps p0) []) evs))) as Ht.
  { rewrite (run_map sp_ev (sys_step stamps_commit) sp_step (fun y e => eq_refl)).
    apply (sys_keeps stamps_commit timer_ok stamps_commit_timer); [done|constructor|].
    apply Forall_fmap, Forall_true. intros [|q|b|lb| | |i w]; cbn; try done.
    - intros s. apply fetch_keeps_timer.
    - intros s. unfold startProfile. destruct (String.eqb q (sp_profile s)); [done|].
      cbn [keeps mbind prog_bind perform]. split; [done|]. apply fetch_keeps_timer.
    - intros s Hs. unfold typeLabel. by destruct (sp_open s).
    - intros s. unfold fireTimer. destruct (sp_timer s) as [[q x]|]; [|done].
      cbn [keeps mbind prog_bind perform]. split; [done|]. apply fetch_keeps_timer.
    - intros s. unfold retryStamps. destruct (sp_error s); [apply fetch_keeps_timer|done]. }
  intros Hp. specialize (Ht p l Hp). rewrite Hset in Ht. unfold stampDepsOf in Ht. by injection Ht.
Qed.

(** *** The skeleton *)

Lemma fetch_lowers p l : well_behaved sp_loading (fetchStamps p l) /\ lowers sp_loading (fetchStamps p l).
Proof.
  assert (forall s, ends (fun _ s' => sp_loading s' = false)
    (perform (setStampsError None);; finally (try_async (data ← await (DnsstampPost p l); perform (setStamps (Some data)))
      (fun _ => perform (setStampsError (Some STAMPS_FAILED));; perform (setStamps None))) (setStampsLoading false) : SpHandler) s) as Hl.
  { intros s. cbn [ends mbind prog_bind perform]. apply ends_finally. by intros. }
  split; [right; eexists _, _; split; [reflexivity|exact Hl]|]. intros s. exact (Hl (setStampsLoading true s)).
Qed.

Lemma start_well_behaved (f : StampsTab -> StampsTab) p l :
  well_behaved sp_loading (perform f;; fetchStamps p l : SpHandler).
Proof.
  right. eexists _, _. split; [reflexivity|]. intros s. cbn [mbind prog_bind]. apply fetch_lowers.
Qed.

Lemma busy_run y evs :
  busy_ok sp_loading y -> busy_ok sp_loading (run sp_step y evs).
Proof.
  revert y. induction evs as [|e evs IH]; intros y Hy; [done|]. apply IH. unfold sp_step.
  apply (sys_step_ok stamps_commit sp_loading); [|  |done].
  - apply unchanged_flag. intros s. by apply stamps_commit_keeps.
  - destruct e as [|q|b|lb| | |i w]; cbn; try done.
    + intros s. apply fetch_lowers.
    + intros s. unfold startProfile. destruct (String.eqb q (sp_profile s)); [by left|apply start_well_behaved].
    + intros s. unfold typeLabel. by destruct (sp_open s).
    + intros s. unfold fireTimer. destruct (sp_timer s) as [[q x]|]; [apply start_well_behaved|by left].
    + intros s. unfold retryStamps. destruct (sp_error s); [apply fetch_lowers|by left].
Qed.

(** the rows are a skeleton only while a fetch is in flight, and every fetch ends by taking it away,
    whatever it is answered and whatever happens to the tab meanwhile *)
Theorem stamps_settle p0 evs :
  let y := run sp_step (mkSys (renderStamps p0) []) (SpMounts :: evs) in
  (inflight y = [] -> sp_loading (ui y) = false) /\
  (sp_loading (ui y) = true -> exists p, p ∈ inflight y /\ lowers sp_loading p).
Proof.
  cbv zeta. cbn [run foldl].
  change (foldl sp_step ?y evs) with (run sp_step y evs).
  assert (busy_ok sp_loading (sp_step (mkSys (renderStamps p0) []) SpMounts)) as H0.
  { unfold sp_step. cbn [sp_ev sys_step]. apply (advance_ok stamps_commit sp_loading).
    - apply unchanged_flag. intros s. by apply stamps_commit_keeps.
    - intros q Hq. by apply elem_of_nil in Hq.
    - right. apply fetch_lowers. }
  destruct (busy_run _ evs H0) as [_ Hb]. split; [|exact Hb].
  intros Hn. apply not_true_is_false. intros E. apply Hb in E as (p & Hp & _). rewrite Hn in Hp. by apply elem_of_nil in Hp.
Qed.

(** *** Answers *)

(** An answer shows its stamps, or the failure, with no skeleton. *)
Lemma fetch_shows p l s w :
  stamps_settled s ->
  play stamps_commit [(fun t => t, w)] (fetchStamps p l) s
  = (match w (DnsstampPost p l) with
     | Ok d => s <| sp_loading := false |> <| sp_error := None |> <| sp_stamps := Some d |>
     | Throw _ => s <| sp_loading := false |> <| sp_error := Some STAMPS_FAILED |> <| sp_stamps := None |>
     end, Ret ()).
Proof.
  intros Hs. unfold play, answers, resume, advance, fetchStamps. run_st.
  rewrite (stamps_commit_id (setStampsError None (setStampsLoading true s))) by exact Hs. cbn [StampResponse].
  destruct (w (DnsstampPost p l)) as [d|e]; run_st; f_equal; by rewrite stamps_commit_id.
Qed.

(** Two fetches in flight: the first for the tab as it opened, the second for the label that was typed. *)
Definition typing (l : string) : list SpEvent := [SpMounts; SpToggle true; SpLabel l; SpTimer].
(** The second is answered first. *)
Definition overtaking w : list SpEvent := [SpAnswered 1 w; SpAnswered 0 w].

(** A fetch that waits for its answer. *)
Definition waiting (p l : string) : SpHandler :=
  Call (DnsstampPost p l) (fun a => finally (try_async
    (data ← match a with Ok x => Ret x | Throw e => Raise e end; perform (setStamps (Some data)))
    (fun _ => perform (setStampsError (Some STAMPS_FAILED));; perform (setStamps None))) (setStampsLoading false)).

Lemma fetch_waits p l s : stamps_settled s ->
  advance stamps_commit (fetchStamps p l) s = (setStampsError None (setStampsLoading true s), waiting p l).
Proof. intros Hs. unfold advance, fetchStamps. run_st. by rewrite stamps_commit_id. Qed.

Lemma waiting_answered p l d s w : stamps_settled s -> w (DnsstampPost p l) = Ok d ->
  resume stamps_commit w (waiting p l) s = (s <| sp_loading := false |> <| sp_stamps := Some d |>, Ret ()).
Proof.
  intros Hs Hw. unfold resume, waiting, advance. rewrite Hw. run_st. f_equal. by apply stamps_commit_id.
Qed.

Definition typed_tab (p l : string) : StampsTab := mkStampsTab p None true None true l None (mkStampDeps l true p).

Lemma stamps_commit_new s : sp_seen s <> stampDepsOf s ->
  stamps_commit s = s <| sp_timer := if sp_open s then Some (sp_profile s, sp_label s) else None |> <| sp_seen := stampDepsOf s |>.
Proof. intros Hd. unfold stamps_commit. by rewrite bool_decide_false. Qed.

Lemma typing_runs p l : truthy l = true ->
  run sp_step (mkSys (renderStamps p) []) (typing l) = mkSys (typed_tab p l) [waiting p ""; waiting p l].
Proof.
  intros Hl. apply truthy_spec in Hl. unfold typing. cbn [run foldl]. unfold sp_step. cbn [sp_ev sys_step].
  rewrite (fetch_waits _ _ (renderStamps p)) by done. cbn [ui inflight].
  change (keep (waiting _ _) []) with [waiting p ""].
  rewrite (stamps_commit_new ((setStampsError None (setStampsLoading true (renderStamps p))) <| sp_open := true |>)) by done.
  set (s1 := mkStampsTab p None true None true "" (Some (p, "")) (mkStampDeps "" true p)).
  match goal with |- context [typeLabel l ?t] => change t with s1 end.
  rewrite (stamps_commit_new (typeLabel l s1)) by (intros [= E]; congruence).
  set (s2 := mkStampsTab p None true None true l (Some (p, l)) (mkStampDeps l true p)).
  match goal with |- context [fireTimer ?t] => change t with s2 end.
  unfold fireTimer. cbn [sp_timer s2]. unfold advance. run_st. unfold fetchStamps. run_st.
  rewrite stamps_commit_id by done. reflexivity.
Qed.

(** the stamps that were asked for without a label are shown beside the label, when their answer comes last *)
Theorem late_stamps_are_of_other_device p l w d d' :
  truthy l = true -> w (DnsstampPost p "") = Ok d -> w (DnsstampPost p l) = Ok d' ->
  let s := ui (run sp_step (mkSys (renderStamps p) []) (typing l ++ overtaking w)) in
  sp_label s = l /\ sp_open s = true /\ sp_loading s = false /\ sp_stamps s = Some d.
Proof.
  intros Hl Hw Hw'. cbv zeta. rewrite run_app, typing_runs by done. unfold overtaking. cbn [run foldl].
  unfold sp_step. cbn [sp_ev sys_step inflight lookup list_lookup ui].
  rewrite (waiting_answered p l d') by done. cbn [inflight delete list_delete keep suspended lookup list_lookup ui].
  rewrite (waiting_answered p "" d) by done. by cbn.
Qed.

(** ** The tab of the Linux guide *)

Definition ln_waiting (p : string) : LnHandler :=
  Call (DnsstampPost p "") (fun a => finally (try_async
    (data ← match a with Ok x => Ret x | Throw e => Raise e end; perform (setLnDoh (ds_doh data ?? "")))
    (fun _ => perform (setLnError (Some STAMP_FAILED));; perform (setLnDoh ""))) (setLnLoading false)).

Lemma ln_answered p d s w : w (DnsstampPost p "") = Ok d ->
  resume id w (ln_waiting p) s = (s <| ln_loading := false |> <| ln_doh := ds_doh d ?? "" |>, Ret ()).
Proof. intros Hw. unfold resume, ln_waiting, advance. rewrite Hw. by run_st. Qed.

(** the configuration names the profile that is active, with the stamp of the profile before it when that
    answer comes last *)
Theorem late_stamp_under_other_profile p q w d d' v :
  p <> q -> w (DnsstampPost p "") = Ok d -> w (DnsstampPost q "") = Ok d' -> ds_doh d = Some v -> truthy v = true ->
  linuxBody (ui (run ln_step (mkSys (renderLinux p) []) [LnMounts; LnProfile q; LnAnswered 1 w; LnAnswered 0 w]))
  = Some (inr (buildDnscryptProxyToml q v)).
Proof.
  intros Hpq Hw Hw' Hv Ht. cbn [run foldl]. unfold ln_step. cbn [ln_ev].
  assert (sys_step id (sys_step id (mkSys (renderLinux p) []) (Start (fun s => fetchStamp (ln_profile s)))) (Start (switchLinux q))
    = mkSys (mkLinux q "" true None) [ln_waiting p; ln_waiting q]) as ->.
  { change (sys_step id (mkSys (renderLinux p) []) (Start (fun s => fetchStamp (ln_profile s))))
      with (mkSys (mkLinux p "" true None) [ln_waiting p]).
    cbn [sys_step ui inflight]. unfold switchLinux. cbn [ln_profile].
    destruct (String.eqb_spec q p) as [->|_]; [done|]. reflexivity. }
  cbn [sys_step inflight lookup list_lookup ui]. rewrite (ln_answered q d') by done.
  cbn [inflight delete list_delete keep suspended lookup list_lookup ui]. rewrite (ln_answered p d) by done.
  cbn [ui]. unfold linuxBody. cbn. rewrite Hv. cbn. by rewrite Ht.
Qed.

(** An answer shows the configuration of the profile, or the failure. *)
Lemma linux_shows p s w :
  ln_profile s = p ->
  linuxBody (play id [(fun t => t, w)] (fetchStamp p) s).1
  = match w (DnsstampPost p "") with
    | Ok d => if truthy_opt (ds_doh d) then Some (inr (buildDnscryptProxyToml p (ds_doh d ?? ""))) else None
    | Throw _ => Some (inl STAMP_FAILED)
    end.
Proof.
  intros <-. unfold play, answers, resume, advance, fetchStamp. run_st. cbn [StampResponse].
  destruct (w (DnsstampPost (ln_profile s) "")) as [d|e]; run_st; [|done]. unfold linuxBody, truthy_opt. cbn.
  by destruct (truthy (ds_doh d ?? "")) eqn:E; rewrite ?E.
Qed.

(** ** Witnesses *)

Definition stamping : StampWorld := fun '(DnsstampPost p l) => Ok (mkStamps (Some ("sdns://" ++s p ++s "/" ++s l)) None None).

Lemma timer_is_current_witness :
  sp_label (ui (run sp_step (mkSys (renderStamps "p1") []) [SpMounts; SpToggle true; SpLabel "tv"])) = "tv".
Proof.
  symmetry. refine (proj1 (proj2 (timer_is_current "p1" [SpMounts; SpToggle true; SpLabel "tv"] "p1" "tv" _))). reflexivity.
Defined.

Lemma late_stamps_are_of_other_device_witness :
  sp_stamps (ui (run sp_step (mkSys (renderStamps "p1") []) (typing "tv" ++ overtaking stamping)))
  = Some (mkStamps (Some "sdns://p1/") None None).
Proof.
  exact (proj2 (proj2 (proj2 (late_stamps_are_of_other_device "p1" "tv" stamping _ _ eq_refl eq_refl eq_refl)))).
Defined.

Lemma late_stamp_under_other_profile_witness :
  linuxBody (ui (run ln_step (mkSys (renderLinux "p1") []) [LnMounts; LnProfile "p2"; LnAnswered 1 stamping; LnAnswered 0 stamping]))
  = Some (inr (buildDnscryptProxyToml "p2" "sdns://p1/")).
Proof.
  refine (late_stamp_under_other_profile "p1" "p2" stamping _ _ _ _ eq_refl eq_refl eq_refl eq_refl). discriminate.
Defined.
