(* ===== verification/SetupFacts.v ===== *)
(** * Setting up a device: what the page and its guides guarantee

    Only addresses that are shown are copied; a deleted profile is told once; the panel stays open while
    no closing is in progress, and what happens when one is; the guides name the addresses of the active
    profile, and the one that does not. *)

From S2P Require Import Prelude JsString Formats ApiTypes Store Async SetupPage SetupGuides.
From coqutil Require Import Datatypes.RecordSetters.
Import TriangleBracketNotations.

#[local] Arguments constant _ _ _ /.

Implicit Types (s : SetupPage) (w : SuWorld).

Ltac run_su := cbn [drain mbind prog_bind perform finally try_async await fst snd mret prog_ret].

(** ** The page *)

Section page.
Context (env : ProfileEnv) (isDesktop : bool).
Notation step := (su_step env isDesktop).

(** What is copied is an address of the active profile, as the card shows it. *)
Lemma copies_what_is_shown h s :
  sends (fun '(SuClipboard t) => exists d label, useProfileData env (su_store s) = Some d /\ (label, t) ∈ addressRows d)
    (su_handler env isDesktop h s).
Proof.
  destruct h as [[label value]]. cbn [su_handler]. destruct (useProfileData env (su_store s)) as [d|] eqn:Hd; [|done].
  destruct (bool_decide_reflect ((label, value) ∈ addressRows d)) as [Hin|_]; [|done]. cbn [andb].
  destruct (_ && _); [|done]. unfold copyToClipboard. apply sends_try; [|done]. run_su. cbn [sends].
  split; [by exists d, label|]. by intros [[]|e].
Qed.

(** *** The toast of a deleted profile *)

Definition DELETED : string := "Profile deleted.".
Definition told (l : list UiToast) : nat := length (filter (fun t => toast_text t = DELETED) l).
Definition told_ok s : Prop := told (su_toasts s) = if toastShown s then 1%nat else 0%nat.

Lemma told_snoc l t : told (l ++ [t]) = (told l + if decide (toast_text t = DELETED) then 1 else 0)%nat.
Proof. unfold told. rewrite filter_app, length_app. f_equal. rewrite filter_cons. by destruct (decide _). Qed.

Lemma copied_text_differs x : x ++s " copied to clipboard" <> DELETED.
Proof. intros E. apply (f_equal String.length) in E. rewrite length_app_s in E. cbn in E. lia. Qed.

Lemma told_toast k t s : t <> DELETED -> told_ok s -> told_ok (setupToast k t s).
Proof.
  intros Ht Hs. unfold told_ok in *. change (told (su_toasts s ++ [mkToast k t]) = if toastShown s then 1%nat else 0%nat).
  rewrite told_snoc, decide_False by done. lia.
Qed.

Lemma deletedEffect_told l s : told_ok s -> told_ok (deletedEffect l s).
Proof.
  intros Hs. unfold deletedEffect. destruct (toastShown s) eqn:E; [by rewrite andb_false_r|].
  destruct (sl_profileDeleted l); [|done]. cbn [andb negb]. unfold told_ok in *. rewrite E in Hs.
  change (told (su_toasts s ++ [mkToast ToastSuccess DELETED]) = 1%nat). rewrite told_snoc, Hs. reflexivity.
Qed.
Lemma guideEffect_told l s : told_ok s -> told_ok (guideEffect l s).
Proof. intros Hs. unfold guideEffect. destruct (sl_platform l) as [p|]; [|done]. by destruct (_ && _). Qed.
Lemma setup_commit_told s : told_ok s -> told_ok (setup_commit s).
Proof. intros Hs. by apply guideEffect_told, deletedEffect_told. Qed.

Lemma onSetupTimer_told i s : told_ok s -> told_ok (onSetupTimer i s).
Proof. intros Hs. unfold onSetupTimer. by destruct (su_timers s !! i) as [[]|]. Qed.

(** the page tells at most once that a profile was deleted, however it is navigated to *)
Theorem deletion_is_told_once st l evs : told_ok (ui (run step (mkSys (setup_commit (renderSetup st l)) []) evs)).
Proof.
  rewrite (run_map (su_ev env isDesktop) (sys_step setup_commit) step (fun y e => eq_refl)).
  apply (sys_keeps setup_commit told_ok setup_commit_told); [by apply setup_commit_told|constructor|].
  apply Forall_fmap, Forall_true. intros [h|i w|u]; cbn; [|done|].
  - intros s. destruct h as [[label value]]. cbn [su_handler]. destruct (useProfileData env (su_store s)) as [d|]; [|done].
    destruct (_ && _); [|done]. unfold copyToClipboard. apply keeps_try.
    + run_su. cbn [keeps]. intros [[]|e]; [|done]. cbn [keeps]. split; [done|]. split; [done|]. split; [|done].
      intros t. apply told_toast, copied_text_differs.
    + intros e. cbn [keeps perform]. split; [|done]. intros t. by apply told_toast.
  - intros s Hs. destruct u as [n|n| |i|q|f]; cbn [su_update]; try done.
    + by destruct (_ && _).
    + by destruct (panelShown s).
    + by destruct (panelShown s).
    + by apply onSetupTimer_told.
Qed.

(** *** The panel *)

(** An open panel has a guide, which no timer is about to take. *)
Definition guide_ok s : Prop :=
  showPanel s = true -> is_Some (selectedPlatform s) /\ ClearSelected ∉ su_timers s /\ rightPanelOpen (su_store s) = true.

Definition opens (u : SuUpdate) : bool := match u with ChoosePlatform _ | ChangePlatform _ | Navigated _ => true | _ => false end.

Lemma click_ok n s : ClearSelected ∉ su_timers s -> guide_ok (handlePlatformClick n s).
Proof. intros Ht _. split_and!; [done|exact Ht|]. by destruct s as [[]]. Qed.

Lemma setup_commit_panel s : ClearSelected ∉ su_timers s -> guide_ok s -> guide_ok (setup_commit s).
Proof.
  intros Ht Hs. unfold setup_commit, guideEffect.
  assert (guide_ok (deletedEffect (su_location s) s) /\ ClearSelected ∉ su_timers (deletedEffect (su_location s) s)) as [Hd Hdt].
  { unfold deletedEffect. by destruct (_ && _). }
  destruct (sl_platform (su_location s)) as [p|]; [|done]. destruct (_ && _); [|done].
  intros E. exact (click_ok p _ Hdt E).
Qed.

(** While no closing is in progress, whatever happens to the page leaves an open panel its guide. *)
Lemma calm_panel_keeps_guide u s :
  ClearSelected ∉ su_timers s -> (forall f, u <> SetupStoreChanges f) -> guide_ok s -> guide_ok (su_update isDesktop u s).
Proof.
  intros Ht Hu Hs. destruct u as [n|n| |i|l|f]; cbn [su_update]; try done.
  - destruct (_ && _); [by apply click_ok|done].
  - destruct (panelShown s); [by apply click_ok|done].
  - by destruct (panelShown s).
  - unfold onSetupTimer. destruct (su_timers s !! i) as [t|] eqn:Hi; [|done].
    assert (t <> ClearSelected) as Hne by (intros ->; apply Ht; by eapply list_elem_of_lookup_2).
    destruct t; [|done]. intros E. destruct (Hs E) as (H1 & H2 & H3). split_and!; [done| |done].
    intros Hin. apply Ht. eapply elem_of_submseteq; [exact Hin|apply sublist_submseteq, sublist_delete].
  - by destruct (Hu f).
Qed.
End page.

(** a guide that is chosen in the half second after another was closed is taken away by the timer of that
    one: its panel counts as open without a guide, and on a small screen the page is hidden and takes no
    click any more *)
Theorem late_close_hides_the_page env st p q :
  p ∈ offeredPlatforms -> q ∈ offeredPlatforms ->
  let s := ui (run (su_step env false) (mkSys (setup_commit (renderSetup st noLocation)) [])
    [SuUpdated (ChoosePlatform p); SuUpdated CloseGuide; SuUpdated (ChoosePlatform q); SuUpdated (SetupTimerFires 0)]) in
  showPanel s = true /\ rightPanelOpen (su_store s) = true /\ panelShown s = false /\ pageHidden false s = true /\
  forall n, su_update false (ChoosePlatform n) s = s.
Proof.
  intros Hp Hq. cbv zeta. cbn [run foldl su_step sys_step su_ev ui su_update].
  assert (forall t n, n ∈ offeredPlatforms -> showPanel t = false ->
    (if bool_decide (n ∈ offeredPlatforms) && negb (pageHidden false t) then handlePlatformClick n t else t) = handlePlatformClick n t) as Hc.
  { intros t n Hn Ht. rewrite bool_decide_true by done. unfold pageHidden. by rewrite Ht. }
  assert (forall t, su_location t = noLocation -> setup_commit t = t) as Hid.
  { intros t Ht. unfold setup_commit. by rewrite Ht. }
  rewrite (Hid (renderSetup st noLocation)) by done. rewrite (Hc _ p Hp) by done. rewrite (Hid (handlePlatformClick p _)) by done.
  change (panelShown (handlePlatformClick p (renderSetup st noLocation))) with true. cbv iota.
  rewrite (Hid (handleGuideClose _)) by done. rewrite (Hc _ q Hq) by done. rewrite (Hid (handlePlatformClick q _)) by done.
  set (t := onSetupTimer 0 _).
  assert (showPanel t = true /\ su_location t = noLocation /\ selectedPlatform t = None /\ rightPanelOpen (su_store t) = true) as (H1 & H2 & H3 & H4)
    by (split_and!; try done; unfold t; cbn; by destruct st).
  rewrite (Hid t H2). split_and!; [done|done| | |].
  - unfold panelShown. by rewrite H3.
  - unfold pageHidden. by rewrite H1.
  - intros n. unfold pageHidden. rewrite H1. cbn. by rewrite andb_false_r.
Qed.

(** ** The guides *)

(** The derived data of a profile is never empty, so the guides use no fallback. *)
Lemma derived_full env st d :
  useProfileData env st = Some d ->
  truthy (dp_dnsOverTLS d) = true /\ truthy (dp_dohEndpoint d) = true /\ truthy (dp_ipv4 d) = true /\ truthy (dp_domain d) = true /\
  dp_dnsOverTLS d = dp_id d ++s "." ++s dp_domain d /\ (forall v, dp_ipv6 d = Some v -> truthy v = true).
Proof.
  unfold useProfileData. destruct (activeProfile st) as [a|]; [|done]. intros [= <-].
  cbn [dp_dnsOverTLS dp_dohEndpoint dp_ipv4 dp_domain dp_id dp_ipv6].
  assert (forall x y, truthy y = true -> truthy (str_or x y) = true) as Hor.
  { intros x y Hy. unfold str_or. by destruct (truthy x) eqn:E. }
  split_and!; [by destruct (str_or (p_profile_id a) (p_id a))|done|by apply Hor|by apply Hor|done|].
  intros v Hv. unfold firstListed in Hv.
  destruct (List.filter truthy _) as [|x l] eqn:E; [done|]. injection Hv as ->.
  assert (v ∈ v :: l) as Hin by set_solver. rewrite <- E in Hin. by apply elem_of_list_filter_b in Hin as [_ ?].
Qed.

Lemma field_or_full f d x : truthy (f d) = true -> field_or f (Some d) x = f d.
Proof. intros Hf. unfold field_or, opt_or, str_or. cbn. by rewrite Hf. Qed.

(** The addresses a guide is about. *)
Definition ipv6Of (d : DerivedProfileData) : list string := match dp_ipv6 d with Some v => [v] | None => [] end.
Definition guideAddresses (platform : string) (d : DerivedProfileData) : list string :=
  if String.eqb platform "Windows" then [dp_ipv4 d; dp_dohEndpoint d] ++ ipv6Of d
  else if String.eqb platform "Linux" then map (fun ip => ip ++s "#" ++s dp_dnsOverTLS d) (dp_ipv4 d :: ipv6Of d)
  else if String.eqb platform "Android" then [dp_dnsOverTLS d]
  else if String.eqb platform "Browsers" then [dp_dohEndpoint d]
  else if String.eqb platform "VPN apps" then [dp_ipv4 d; dp_dohEndpoint d; dp_dnsOverTLS d]
  else if String.eqb platform "Routers" then [dp_ipv4 d; dp_dnsOverTLS d; dp_dohEndpoint d] ++ ipv6Of d
  else if String.eqb platform "Device Identification" then [dp_dohEndpoint d]
  else [].

(** One of the values of the guide has the text. *)
Definition shows (g : Guide) (a : string) : Prop := exists v, v ∈ guideValues g /\ includes v a = true.
Lemma shows_value g a : a ∈ guideValues g -> shows g a.
Proof. intros Ha. exists a. split; [done|apply includes_refl]. Qed.

Lemma optional_full env st d : useProfileData env st = Some d -> optional (dp_ipv6 d) = ipv6Of d.
Proof.
  intros Hd. destruct (derived_full env st d Hd) as (_ & _ & _ & _ & _ & H6). unfold optional, ipv6Of.
  destruct (dp_ipv6 d) as [v|]; [|done]. pose proof (H6 v eq_refl) as E. by rewrite E.
Qed.

Lemma mikrotik_names_doh r : includes (buildMikrotikCommands r) (rd_dohEndpoint r) = true.
Proof.
  unfold buildMikrotikCommands. do 3 apply includes_app_l. apply includes_app_r.
  unfold line. apply includes_app_r, includes_app_l, includes_app_r. unfold quoted. apply includes_app_l, includes_app_r, includes_refl.
Qed.

Lemma resolved_names_servers id ip dom ipv6 a :
  a ∈ ip :: (match ipv6 with Some v => if truthy v then [v] else [] | None => [] end) ->
  includes (buildSystemdResolvedConfig id ip dom ipv6) (a ++s "#" ++s id ++s "." ++s dom) = true.
Proof.
  intros Ha. unfold buildSystemdResolvedConfig. set (sni := id ++s "." ++s dom).
  do 3 apply includes_app_l. apply includes_app_r. unfold truthy_opt.
  apply elem_of_cons in Ha as [->|Ha].
  - destruct (truthy (default "" ipv6)); [apply includes_app_r|]; apply includes_refl.
  - destruct ipv6 as [v|]; [|by apply elem_of_nil in Ha]. change (default "" (Some v)) with v.
    destruct (truthy v); [|by apply elem_of_nil in Ha]. apply list_elem_of_singleton in Ha as ->.
    change (Some v ?? "") with v. do 2 apply includes_app_l. apply includes_refl.
Qed.

(** every guide shows the addresses of the active profile that it is about, those of IPv6 where they are
    configured *)
Theorem guide_names_addresses env st d p a :
  useProfileData env st = Some d -> truthy (dp_id d) = true -> a ∈ guideAddresses p d -> shows (guideOf p (Some d)) a.
Proof.
  intros Hd Hid. destruct (derived_full env st d Hd) as (H1 & H2 & H3 & H4 & H5 & H6).
  pose proof (optional_full env st d Hd) as Hopt. unfold guideAddresses, guideOf.
  rewrite (field_or_full dp_ipv4), (field_or_full dp_dohEndpoint), (field_or_full dp_domain), !(field_or_full dp_dnsOverTLS),
    (field_or_full dp_id) by done.
  change (Some d ≫= _) with (dp_ipv6 d).
  destruct (String.eqb_spec p "Windows") as [->|].
  { intros Ha. apply shows_value. cbn -[elem_of]. rewrite Hopt. set_solver. }
  destruct (String.eqb_spec p "Linux") as [->|].
  { intros (ip & -> & Hip)%list_elem_of_fmap. rewrite H5. eexists. split; [by left|].
    apply resolved_names_servers. unfold ipv6Of in Hip. destruct (dp_ipv6 d) as [v|]; [|done].
    pose proof (H6 v eq_refl) as E. by rewrite E. }
  destruct (String.eqb_spec p "Android") as [->|]; [intros Ha; apply shows_value; set_solver|].
  destruct (String.eqb_spec p "Browsers") as [->|]; [intros Ha; apply shows_value; set_solver|].
  destruct (String.eqb_spec p "VPN apps") as [->|]; [intros Ha; apply shows_value; set_solver|].
  destruct (String.eqb_spec p "Routers") as [->|].
  { intros Ha. change (String.eqb "Routers" _) with false at 1. cbv iota.
    destruct (decide (a = dp_dohEndpoint d)) as [->|Hne].
    - eexists. split; [by left|]. apply mikrotik_names_doh.
    - apply shows_value. cbn -[elem_of optional buildMikrotikCommands buildOpenWrtCommands]. rewrite Hopt. set_solver. }
  destruct (String.eqb_spec p "Device Identification") as [->|]; [intros Ha; apply shows_value; set_solver|].
  by intros ?%elem_of_nil.
Qed.

(** the guide of device identification shows the hosts of a server at [example.com], not those of the profile *)
Theorem device_guide_names_example_host d :
  truthy (dp_id d) = true -> dp_dnsOverTLS d = dp_id d ++s "." ++s dp_domain d -> dp_domain d <> "example.com" ->
  let host := dp_id d ++s ".example.com" in
  host <> dp_dnsOverTLS d /\
  forall name, name ∈ [""; "my-laptop-"; "home--router-"; "john--s--iphone-"] ->
    name ++s host ∈ guideValues (guideOf "Device Identification" (Some d)).
Proof.
  intros Hid Ht Hd. cbv zeta. split.
  - rewrite Ht. change ".example.com" with ("." ++s "example.com"). intros E.
    apply app_inj_l in E. apply app_inj_l in E. congruence.
  - intros name Hn. unfold guideOf. rewrite (field_or_full dp_id) by done. cbn -[elem_of].
    set_solver.
Qed.

(** The provider that the guide of Firefox says to look for does not depend on the server. *)
Lemma firefox_names_one_provider doh : shows (mkGuide browsersBadges (createBrowsersSteps doh)) "dns.moddns.net".
Proof. apply shows_value. cbn -[elem_of]. set_solver. Qed.

(** ** Witnesses *)

Definition su_store0 : AppState := setActiveProfile (Some (MkModelProfile "acc" "1" "Home" "p1" None)) initialState.
Definition su_env : ProfileEnv := {| env_domain := Some "dns.moddns.net"; env_ips := Some "9.9.9.9, 1.1.1.1"; env_ipv6s := Some "2001:db8::1" |}.
Definition su_data : DerivedProfileData :=
  mkDerived "p1" "p1.dns.moddns.net" "https://dns.moddns.net/dns-query/p1" "9.9.9.9" (Some "2001:db8::1") "dns.moddns.net"
    "https://dns.moddns.net/dns-query/p1".

Lemma guide_names_addresses_witness : shows (guideOf "Linux" (Some su_data)) "2001:db8::1#p1.dns.moddns.net".
Proof.
  refine (guide_names_addresses su_env su_store0 su_data "Linux" _ eq_refl eq_refl _). cbn -[elem_of]. right. by left.
Defined.

Lemma device_guide_names_example_host_witness :
  "my-laptop-p1.example.com" ∈ guideValues (guideOf "Device Identification" (Some su_data)).
Proof.
  refine (proj2 (device_guide_names_example_host su_data eq_refl eq_refl _) "my-laptop-" _); [discriminate|]. right. by left.
Defined.

Lemma late_close_hides_the_page_witness :
  pageHidden false (ui (run (su_step su_env false) (mkSys (setup_commit (renderSetup su_store0 noLocation)) [])
    [SuUpdated (ChoosePlatform "iOS"); SuUpdated CloseGuide; SuUpdated (ChoosePlatform "macOS"); SuUpdated (SetupTimerFires 0)])) = true.
Proof.
  refine (proj1 (proj2 (proj2 (proj2 (late_close_hides_the_page su_env su_store0 "iOS" "macOS" _ _)))));
    refine (bool_decide_eq_true_1 _ _); vm_compute; reflexivity.
Defined.
