(* ===== verification/Navigation.v ===== *)
(** * Navigation

    [src/app/src/pages/navigation_menu/NavigationMenu.tsx], [pages/navigation_menu/] of small screens
    ([BottomNav.tsx]), [pages/header/Header.tsx] and [ConnectionStatusHeader.tsx],
    [components/dialogs/LogoutConfirmDialog.tsx], [components/theme-provider.tsx], and the page of
    [pages/announcements/Announcements.tsx]. Two components log out, in different orders. *)

From coqutil Require Import Datatypes.RecordSetters.
From S2P Require Import Prelude JsString ApiTypes Async.
Import TriangleBracketNotations.

#[local] Arguments constant _ _ _ /.

(** ** The theme *)

Inductive Theme : Set := Dark | Light.
#[export] Instance Theme_eq_dec : EqDecision Theme.
Proof. solve_decision. Defined.
Definition themeValue (t : Theme) : string := match t with Dark => "dark" | Light => "light" end.

(** What [localStorage] holds under the key of the provider, when it is mounted. *)
Definition storedTheme (defaultTheme : Theme) (stored : option string) : Theme :=
  match stored with
  | Some v => if String.eqb v "dark" then Dark else if String.eqb v "light" then Light else defaultTheme
  | None => defaultTheme
  end.
(** The provider's value, and what it stores. *)
Definition setTheme (t : Theme) : Theme * option string := (t, Some (themeValue t)).
Definition toggledTheme (t : Theme) : Theme := match t with Dark => Light | Light => Dark end.

(** The classes of the document and the attribute of its body. *)
Definition themeClasses (t : Theme) (classes : gset string) : gset string :=
  {[themeValue t]} ∪ (classes ∖ {[themeValue (toggledTheme t)]}).
Definition themeMode (t : Theme) : string := match t with Dark => "dark-emerald" | Light => "light-emerald" end.

(** ** The entries *)

Record MenuItem := mkItem { mi_label : string; mi_route : string }.
Definition menuItems : list MenuItem :=
  [mkItem "DNS Setup" "/setup"; mkItem "Blocklists" "/blocklists"; mkItem "Custom rules" "/custom-rules";
   mkItem "Statistics" "/statistics"; mkItem "Logs" "/query-logs"; mkItem "Settings" "/settings";
   mkItem "Account" "/account-preferences"].
Definition bottomItems : list MenuItem :=
  [mkItem "Blocklists" "/blocklists"; mkItem "Rules" "/custom-rules"; mkItem "Statistics" "/statistics"; mkItem "Logs" "/query-logs"].
(** The entries below: pages without a place in the menu. *)
Definition supportItems : list MenuItem :=
  [mkItem "Announcements" "/announcements"; mkItem "FAQ" "/faq"; mkItem "Privacy" "/privacy"].
Definition NEW_NAV_ROUTES : list string := ["/statistics"].

Definition isActive (pathname route : string) : bool := String.eqb pathname route || startsWith pathname (route ++s "/").
Definition isNew (route : string) : bool := bool_decide (route ∈ NEW_NAV_ROUTES).
Definition showLabels (isMobile collapsed : bool) : bool := isMobile || negb collapsed.
(** [aria-label] of an entry. *)
Definition itemLabel (labels : bool) (i : MenuItem) : option string :=
  if labels && isNew (mi_route i) then Some (mi_label i ++s ", new") else None.

(** ** Logging out *)

(** [nv_authed] is the context of the application; [nv_open] is the overlay of small screens. *)
Record NavState := mkNavState {
  nv_authed : bool;
  nv_path : string;
  nv_open : bool;
  nv_loading : bool;
  nv_dialog : bool;
  nv_toasts : list UiToast;
}.

Definition navLoading (b : bool) (s : NavState) : NavState := s <| nv_loading := b |>.
Definition navDialog (b : bool) (s : NavState) : NavState := s <| nv_dialog := b |>.
Definition navToast (k : ToastKind) (t : string) (s : NavState) : NavState := s <| nv_toasts := (nv_toasts s ++ [mkToast k t])%list |>.
(** [auth.logout()] *)
Definition signOut (s : NavState) : NavState := s <| nv_authed := false |>.
(** [if (isMobile && onClose) onClose()] *)
Definition closeMenu (isMobile : bool) (s : NavState) : NavState := if isMobile then s <| nv_open := false |> else s.

Definition handleNavigation (isMobile : bool) (route : string) (s : NavState) : NavState :=
  closeMenu isMobile (s <| nv_path := route |>).
Definition askLogout (isMobile : bool) (s : NavState) : NavState :=
  if nv_loading s then s else closeMenu isMobile (navDialog true s).

Inductive NvRequest : Set := LogoutPost.
Definition NvResponse (r : NvRequest) : Type := unit.
Notation NvHandler := (Prog unit NvRequest NavState NvResponse unit).
Notation NvSystem := (Sys unit NvRequest NavState NvResponse).
Notation NvWorld := (World unit NvRequest NvResponse).

(** The menu: signed out first, and a failure is only logged. *)
Definition menuLogout (isMobile : bool) : NvHandler :=
  perform (navLoading true);;
  finally (try_async
    (perform signOut;; await LogoutPost)
    (fun _ => mret ()))
    (fun s => closeMenu isMobile (navDialog false (navLoading false s))).

(** The header: signed out when the server has answered. *)
Definition headerLogout : NvHandler :=
  perform (navLoading true);;
  finally (try_async
    (await LogoutPost;; perform signOut)
    (fun _ => perform (navToast ToastError "Logout failed.")))
    (fun s => navDialog false (navLoading false s)).

(** The button of the dialog, while it is open and not loading. *)
Definition confirmLogout (logout : NvHandler) (s : NavState) : NvHandler :=
  if nv_dialog s && negb (nv_loading s) then logout else mret ().

Inductive NvEvent : Type :=
| NvLogout (fromMenu isMobile : bool)
| NvAnswered (i : nat) (w : NvWorld)
| NvNavigate (isMobile : bool) (route : string)
| NvAsk (isMobile : bool)
| NvCancel
| NvMore
| NvClose.
Definition nv_update (e : NvEvent) (s : NavState) : NavState :=
  match e with
  | NvNavigate m r => handleNavigation m r s
  | NvAsk m => askLogout m s
  | NvCancel => if nv_loading s then s else navDialog false s
  | NvMore => s <| nv_open := true |>
  | NvClose => s <| nv_open := false |>
  | _ => s
  end.
Definition nv_ev (e : NvEvent) : SysEvent unit NvRequest NavState NvResponse :=
  match e with
  | NvLogout fromMenu m => Start (confirmLogout (if fromMenu then menuLogout m else headerLogout))
  | NvAnswered i w => Answer i w
  | _ => Other (nv_update e)
  end.
Definition nv_step (y : NvSystem) (e : NvEvent) : NvSystem := sys_step id y (nv_ev e).

(** ** The header *)

(** What its right side offers on a desktop. *)
Inductive HeaderAccount : Set := LogoutButton | ProfileMenu | NoAccount.
Definition headerAccount (showLogoutButton showProfileDropdown : bool) : HeaderAccount :=
  if showLogoutButton then LogoutButton else if showProfileDropdown then ProfileMenu else NoAccount.
(** Below 768 pixels the actions of a page are beside its title. *)
Definition actionsInTitleRow (width : Z) : bool := width <? 768.
Definition showsLogo (pathname : string) : bool := negb (String.eqb pathname "/home").
(** The button of the preferences: on a desktop where it is asked for, else on the page of the blocklists. *)
Definition preferencesButton (navDesktop showDialogTrigger : bool) (pathname : string) (titled : bool) : bool :=
  if navDesktop then showDialogTrigger else titled && String.eqb pathname "/blocklists".
Definition preferencesDialog (showDialogTrigger isRestricted : bool) : bool := showDialogTrigger && negb isRestricted.

(** The connection bar: hidden at once, collapsed by a timer that hides it for the session. *)
Record StatusBar := mkBar_ { sb_collapsed : bool; sb_hiding : bool; sb_visible : bool; sb_timers : nat }.
Definition handleHide (s : StatusBar) : StatusBar := s <| sb_hiding := true |> <| sb_timers := S (sb_timers s) |>.
Definition hideTimer (s : StatusBar) : StatusBar :=
  match sb_timers s with
  | S n => s <| sb_collapsed := true |> <| sb_visible := false |> <| sb_timers := n |>
  | O => s
  end.
Definition statusBarShown (isCutOff : bool) (s : StatusBar) : bool := negb (sb_collapsed s || isCutOff).

(** ** The announcements *)

Definition PAGE_SIZE : nat := 15.
Definition CATEGORY_META : list (string * string) :=
  [("news", "News"); ("feature", "Feature"); ("maintenance", "Maintenance"); ("incident", "Incident");
   ("security", "Security"); ("policy", "Policy")].
Definition SEVERITIES : list string := ["info"; "warning"; "critical"].

(** The badge: its label and its severity, with those of an ordinary message for what is not known. *)
Definition categoryLabel (a : AnnouncementsAnnouncement) : string :=
  match array_find (fun e => String.eqb (fst e) (ann_category a ?? "news")) CATEGORY_META with Some e => snd e | None => "News" end.
Definition severityOf (a : AnnouncementsAnnouncement) : string :=
  let s := ann_severity a ?? "info" in if bool_decide (s ∈ SEVERITIES) then s else "info".
(** [key] of a card *)
Definition cardKey (a : AnnouncementsAnnouncement) : option string := match ann_id a with Some i => Some i | None => ann_title a end.

(** [an_active] is the flag of the effect. *)
Record AnnouncementsPage := mkAnnouncements {
  an_items : list AnnouncementsAnnouncement;
  an_loading : bool;
  an_error : string;
  visibleCount : nat;
  an_active : bool;
}.
Definition renderAnnouncements : AnnouncementsPage := mkAnnouncements [] true "" PAGE_SIZE true.

Definition visibleItems (s : AnnouncementsPage) : list AnnouncementsAnnouncement := take (visibleCount s) (an_items s).
Definition hasMore (s : AnnouncementsPage) : bool := (visibleCount s <? length (an_items s))%nat.

Definition LOAD_FAILED : string := "Unable to load announcements right now. Please try again later.".
(** [AnLast]: the last card scrolls into view; [AnUnmounts]: the cleanup. *)
Inductive AnEvent : Type :=
| AnAnswered (r : result unit (option (list AnnouncementsAnnouncement)))
| AnLast
| AnUnmounts.
Definition an_step (s : AnnouncementsPage) (e : AnEvent) : AnnouncementsPage :=
  match e with
  | AnAnswered r =>
      if negb (an_active s) then s
      else (match r with
            | Ok data => s <| an_items := data ?? [] |> <| visibleCount := PAGE_SIZE |> <| an_error := "" |>
            | Throw _ => s <| an_error := LOAD_FAILED |>
            end) <| an_loading := false |>
  | AnLast => if negb (an_loading s) && hasMore s then s <| visibleCount := (visibleCount s + PAGE_SIZE)%nat |> else s
  | AnUnmounts => s <| an_active := false |>
  end.

Inductive AnBody : Type :=
| AnLoading
| AnError (text : string)
| AnEmpty
| AnCards (cards : list AnnouncementsAnnouncement).
Definition announcementsBody (s : AnnouncementsPage) : AnBody :=
  if an_loading s then AnLoading
  else if truthy (an_error s) then AnError (an_error s)
  else match an_items s with [] => AnEmpty | _ => AnCards (visibleItems s) end.

(** ** Navigation: what it guarantees

    The theme that was chosen is the one that is restored; at most one entry of the menu is active; logging
    out from the menu always ends signed out and from the header when the server agreed; the announcements
    are revealed in order until all are. *)


(** ** The theme *)

(** The theme that was chosen is the one the provider starts with the next time, whatever its default. *)
Lemma theme_is_restored t d : storedTheme d (snd (setTheme t)) = fst (setTheme t).
Proof. by destruct t. Qed.
Lemma toggled_twice t : toggledTheme (toggledTheme t) = t.
Proof. by destruct t. Qed.
(** The document has the class of the theme and not that of the other one; other classes stay. *)
Lemma themeClasses_spec t cs :
  themeValue t ∈ themeClasses t cs /\ themeValue (toggledTheme t) ∉ themeClasses t cs /\
  forall c, c <> "dark" -> c <> "light" -> c ∈ themeClasses t cs <-> c ∈ cs.
Proof.
  unfold themeClasses. split_and!; [set_solver| |].
  - destruct t; set_solver.
  - intros c H1 H2. destruct t; set_solver.
Qed.

(** ** The menu *)

Definition simple_route (r : string) : bool :=
  match r with String c r' => Ascii.eqb c "/" && lacks "/" r' && truthy r' | EmptyString => false end.

Lemma active_split p r : isActive p r = true -> p = r \/ exists t, p = r ++s "/" ++s t.
Proof.
  intros [->%String.eqb_eq|[t ->]%startsWith_spec]%orb_true_iff; [by left|].
  right. exists t. apply app_assoc_s.
Qed.

Lemma first_sep c x y a b :
  lacks c x = true -> lacks c y = true -> x ++s String c a = y ++s String c b -> x = y.
Proof.
  revert y. induction x as [|d x IH]; intros [|e y] Hx Hy E; cbn in *; try done.
  - injection E as -> _. unfold lacks in Hy. cbn in Hy. by rewrite Ascii.eqb_refl in Hy.
  - injection E as -> _. unfold lacks in Hx. cbn in Hx. by rewrite Ascii.eqb_refl in Hx.
  - unfold lacks in Hx, Hy. cbn in Hx, Hy. apply andb_true_iff in Hx as [_ Hx], Hy as [_ Hy].
    injection E as -> E. f_equal. by apply IH.
Qed.

Lemma no_sep c x y b : lacks c x = true -> x <> y ++s String c b.
Proof.
  intros Hx ->. unfold lacks in Hx. rewrite str_all_app in Hx. cbn in Hx. rewrite Ascii.eqb_refl in Hx.
  by rewrite andb_false_r in Hx.
Qed.

Lemma active_route_unique p r1 r2 :
  simple_route r1 = true -> simple_route r2 = true -> isActive p r1 = true -> isActive p r2 = true -> r1 = r2.
Proof.
  destruct r1 as [|c1 r1], r2 as [|c2 r2]; cbn [simple_route]; try done.
  intros [[->%Ascii.eqb_eq H1]%andb_true_iff _]%andb_true_iff [[->%Ascii.eqb_eq H2]%andb_true_iff _]%andb_true_iff A1 A2.
  f_equal. apply active_split in A1, A2.
  destruct A1 as [->|[t ->]], A2 as [E|[u E]]; cbn in E; injection E as E; try done.
  - by apply no_sep in E.
  - symmetry in E. by apply no_sep in E.
  - by eapply first_sep in E.
Qed.

(** at most one entry of the menus is marked as the page that is shown, on every address *)
Theorem one_active_entry p i j :
  i ∈ menuItems ++ supportItems -> j ∈ menuItems ++ supportItems ->
  isActive p (mi_route i) = true -> isActive p (mi_route j) = true -> i = j.
Proof.
  intros Hi Hj A B.
  assert (Forall (fun i => simple_route (mi_route i) = true) (menuItems ++ supportItems)) as Hs by (repeat constructor).
  rewrite Forall_forall in Hs. pose proof (active_route_unique p _ _ (Hs i Hi) (Hs j Hj) A B) as E.
  assert (forall k, k ∈ menuItems ++ supportItems ->
    array_find (fun x => String.eqb (mi_route x) (mi_route k)) (menuItems ++ supportItems) = Some k) as Hk.
  { assert (Forall (fun k => array_find (fun x => String.eqb (mi_route x) (mi_route k)) (menuItems ++ supportItems) = Some k)
      (menuItems ++ supportItems)) as Hf by (repeat constructor). by rewrite Forall_forall in Hf. }
  pose proof (Hk i Hi) as H1. rewrite E, (Hk j Hj) in H1. by injection H1.
Qed.

(** ** Logging out *)

Ltac run_nv := cbn [drain mbind prog_bind perform finally try_async await fst snd mret prog_ret].

(** The menu signs out whatever the server answers, and says nothing of a failure. *)
Lemma menu_logout_ends m (s : NavState) (w : NvWorld) :
  play id [(fun t => t, w)] (menuLogout m) s
  = (closeMenu m (s <| nv_authed := false |> <| nv_loading := false |> <| nv_dialog := false |>), Ret ()).
Proof.
  unfold play, answers, resume, advance, menuLogout. run_nv. by destruct (w LogoutPost) as [[]|e]; run_nv.
Qed.

(** The header signs out when the server has answered, else says so. *)
Lemma header_logout_ends (s : NavState) (w : NvWorld) :
  play id [(fun t => t, w)] headerLogout s
  = (let done t := t <| nv_loading := false |> <| nv_dialog := false |> in
     match w LogoutPost with
     | Ok _ => done (signOut s)
     | Throw _ => done (navToast ToastError "Logout failed." s)
     end, Ret ()).
Proof.
  unfold play, answers, resume, advance, headerLogout. run_nv. by destruct (w LogoutPost) as [[]|e]; run_nv.
Qed.

(** logging out that the server refuses leaves the header signed in, with the failure announced, and the
    menu signed out, with nothing announced *)
Theorem refused_logout_differs m (s : NavState) (w : NvWorld) e :
  w LogoutPost = Throw e -> nv_authed s = true ->
  let by_header := (play id [(fun t => t, w)] headerLogout s).1 in
  let by_menu := (play id [(fun t => t, w)] (menuLogout m) s).1 in
  nv_authed by_header = true /\ nv_toasts by_header = nv_toasts s ++ [mkToast ToastError "Logout failed."] /\
  nv_authed by_menu = false /\ nv_toasts by_menu = nv_toasts s.
Proof.
  intros Hw Hs. cbv zeta. rewrite header_logout_ends, menu_logout_ends, Hw. cbn. by destruct m.
Qed.

Lemma finally_lowers (q : NvHandler) g :
  (forall s, nv_loading (g s) = false) -> well_behaved nv_loading (perform (navLoading true);; finally q g).
Proof.
  intros Hg. right. exists (navLoading true), (finally q g). split; [done|]. intros s. apply ends_finally. by intros.
Qed.

(** the dialog is loading only while a request to log out is in flight, and each ends by closing it *)
Theorem logout_settles s evs :
  nv_loading s = false ->
  let y := run nv_step (mkSys s []) evs in
  (inflight y = [] -> nv_loading (ui y) = false) /\
  (nv_loading (ui y) = true -> exists p, p ∈ inflight y /\ lowers nv_loading p).
Proof.
  intros Hs. cbv zeta. rewrite (run_map nv_ev (sys_step id) nv_step (fun y e => eq_refl)).
  destruct (busy_settles id nv_loading (fun s H => H) s (map nv_ev evs) Hs) as [[_ Hb] Hn]; [|by split].
  apply Forall_fmap, Forall_true. intros e. destruct e as [b m|i w|m r|m| | |]; cbn [nv_ev event_ok]; try done.
  - intros t. unfold confirmLogout. destruct (_ && _); [|by left].
    destruct b; [unfold menuLogout|unfold headerLogout]; apply finally_lowers; intros t'; by destruct m.
  - intros t. by destruct m.
  - intros t. cbn [nv_update]. unfold askLogout. destruct (nv_loading t) eqn:E; [done|]. destruct m; intros Hx; exact (eq_trans (eq_sym E) Hx).
  - intros t. cbn [nv_update]. destruct (nv_loading t) eqn:E; [done|]. intros Hx. exact (eq_trans (eq_sym E) Hx).
  - by intros t.
  - by intros t.
Qed.

(** A choice in the menu of a small screen closes it. *)
Lemma navigation_closes_menu r s : nv_open (handleNavigation true r s) = false /\ nv_path (handleNavigation true r s) = r.
Proof. done. Qed.

(** ** The announcements *)

Fixpoint scrolled (n : nat) (s : AnnouncementsPage) : AnnouncementsPage :=
  match n with O => s | S n' => scrolled n' (an_step s AnLast) end.

Lemma scroll_step s :
  an_loading s = false ->
  an_items (an_step s AnLast) = an_items s /\ an_loading (an_step s AnLast) = false /\
  visibleCount (an_step s AnLast) = (if hasMore s then visibleCount s + PAGE_SIZE else visibleCount s)%nat.
Proof. intros Hl. cbn [an_step]. rewrite Hl. cbn [negb andb]. by destruct (hasMore s). Qed.

Lemma scrolled_count n s :
  an_loading s = false ->
  an_items (scrolled n s) = an_items s /\
  (Nat.min (length (an_items s)) (visibleCount s + n * PAGE_SIZE) <= visibleCount (scrolled n s))%nat.
Proof.
  revert s. induction n as [|n IH]; intros s Hl; cbn [scrolled]; [split; [done|lia]|].
  destruct (scroll_step s Hl) as (Hi & Hl' & Hv). destruct (IH _ Hl') as [Hi' Hc]. rewrite Hi in Hi', Hc.
  split; [done|]. rewrite Hv in Hc. unfold hasMore in Hc.
  destruct (Nat.ltb_spec (visibleCount s) (length (an_items s))); lia.
Qed.

(** every announcement is revealed by scrolling: as often as there are further pages of fifteen *)
Theorem all_announcements_are_reached s :
  an_loading s = false -> (PAGE_SIZE <= visibleCount s)%nat ->
  visibleItems (scrolled ((length (an_items s) - 1) / PAGE_SIZE) s) = an_items s.
Proof.
  intros Hl Hv. destruct (scrolled_count ((length (an_items s) - 1) / PAGE_SIZE) s Hl) as [Hi Hc].
  unfold visibleItems. rewrite Hi. apply take_ge. unfold PAGE_SIZE in *.
  pose proof (Nat.div_mod (length (an_items s) - 1) 15). pose proof (Nat.mod_upper_bound (length (an_items s) - 1) 15). lia.
Qed.

(** What is shown is always a beginning of the list, not empty when the list is not. *)
Definition an_ok (s : AnnouncementsPage) : Prop := (PAGE_SIZE <= visibleCount s)%nat.
Lemma an_step_ok s e : an_ok s -> an_ok (an_step s e).
Proof.
  unfold an_ok. intros Hs. destruct e as [r| |]; cbn [an_step]; [|destruct (_ && _); cbn; lia|done].
  destruct (negb (an_active s)); [done|]. by destruct r.
Qed.
Lemma shown_is_a_beginning evs :
  let s := run an_step renderAnnouncements evs in
  exists rest, an_items s = visibleItems s ++ rest /\ (an_items s <> [] -> visibleItems s <> []).
Proof.
  cbv zeta. assert (an_ok (run an_step renderAnnouncements evs)) as Hok.
  { apply (run_invariant an_step); [|unfold an_ok; cbn; lia]. intros s e. apply an_step_ok. }
  revert Hok. generalize (run an_step renderAnnouncements evs). intros s Hs.
  exists (drop (visibleCount s) (an_items s)). unfold visibleItems. rewrite take_drop. split; [done|].
  unfold an_ok, PAGE_SIZE in Hs. intros Hne E. destruct (an_items s), (visibleCount s); try done; lia.
Qed.

(** An answer that comes after the page was left changes nothing. *)
Lemma late_announcements_ignored s r : an_step (an_step s AnUnmounts) (AnAnswered r) = an_step s AnUnmounts.
Proof. done. Qed.

(** ** Witnesses *)

Definition nv_signed_in : NavState := mkNavState true "/setup" true false true [].
Lemma refused_logout_differs_witness :
  nv_authed (play id [(fun t => t, (fun _ => Throw tt) : NvWorld)] headerLogout nv_signed_in).1 = true.
Proof. exact (proj1 (refused_logout_differs true nv_signed_in (fun _ => Throw tt) tt eq_refl eq_refl)). Defined.

Lemma one_active_entry_witness : mkItem "Logs" "/query-logs" = mkItem "Logs" "/query-logs".
Proof.
  refine (one_active_entry "/query-logs/p1" (mkItem "Logs" "/query-logs") (mkItem "Logs" "/query-logs") _ _ eq_refl eq_refl); do 4 right; by left.
Defined.

Lemma logout_settles_witness :
  nv_loading (ui (run nv_step (mkSys nv_signed_in []) [NvLogout false false; NvAnswered 0 (fun _ => Ok tt)])) = false.
Proof. apply (proj1 (logout_settles nv_signed_in [NvLogout false false; NvAnswered 0 (fun _ => Ok tt)] eq_refl)). reflexivity. Defined.

Definition many_announcements : AnnouncementsPage :=
  an_step renderAnnouncements (AnAnswered (Ok (Some (replicate 31 (MkAnnouncementsAnnouncement None None None None None None None None None))))).
Lemma all_announcements_are_reached_witness : length (visibleItems (scrolled 2 many_announcements)) = 31%nat.
Proof.
  refine (eq_trans (f_equal length (all_announcements_are_reached many_announcements eq_refl _)) _); [|reflexivity].
  vm_compute. lia.
Defined.
