(* ===== verification/Uri.v ===== *)
(** * URLs, query strings and JSON texts

    The part of the platform that [src/app/src/api/client/common.ts] uses: [encodeURIComponent],
    [URL] on paths, [URLSearchParams] and [JSON.stringify], with [setSearchParams] and [toPathString]
    of that file. The decoder of URI components is that of [SentryPrivacy]. *)

From S2P Require Import Prelude JsString SentryPrivacy.

(** ** Percent-encoding *)

(** The octets of a Latin-1 code unit in UTF-8. *)
Definition utf8 (c : ascii) : list Z :=
  if code c <? 128 then [code c] else [192 + code c / 64; 128 + code c mod 64].

Definition hex_digit (d : Z) : ascii := of_code (if d <? 10 then 48 + d else 55 + d).

Definition percent (b : Z) : string :=
  String "%" (String (hex_digit (b / 16)) (String (hex_digit (b mod 16)) "")).

Definition percents (c : ascii) : string := join "" (map percent (utf8 c)).

Definition is_alnum (c : ascii) : bool := in_range 48 57 c || in_range 65 90 c || in_range 97 122 c.

Definition one_of (cs : string) (c : ascii) : bool := negb (lacks c cs).

(** What [encodeURIComponent] keeps. *)
Definition unreserved (c : ascii) : bool := is_alnum c || one_of "-_.!~*'()" c.

Fixpoint encode_by (keep : ascii -> bool) (s : string) : string :=
  match s with
  | EmptyString => ""
  | String c s' => (if keep c then String c "" else percents c) ++s encode_by keep s'
  end.

Definition encodeURIComponent : string -> string := encode_by unreserved.

(** ** Query strings *)

(** What the serializer of [application/x-www-form-urlencoded] keeps. *)
Definition form_safe (c : ascii) : bool := is_alnum c || one_of "*-._" c.

Fixpoint form_encode (s : string) : string :=
  match s with
  | EmptyString => ""
  | String c s' =>
      (if Ascii.eqb c " " then "+" else if form_safe c then String c "" else percents c) ++s form_encode s'
  end.

Definition URLSearchParams : Type := list (string * string).

Definition sp_has (ps : URLSearchParams) (key : string) : bool :=
  existsb (fun '(k, _) => String.eqb k key) ps.

Definition sp_append (ps : URLSearchParams) (key v : string) : URLSearchParams := ps ++ [(key, v)].

(** [set]: the first pair of the name gets the value and the others go. *)
Fixpoint sp_set (ps : URLSearchParams) (key v : string) : URLSearchParams :=
  match ps with
  | [] => [(key, v)]
  | (k, w) :: ps' =>
      if String.eqb k key then (key, v) :: filter (fun p => p.1 <> key) ps' else (k, w) :: sp_set ps' key v
  end.

Definition form_pair (p : string * string) : string := form_encode p.1 ++s "=" ++s form_encode p.2.
Definition sp_toString (ps : URLSearchParams) : string := join "&" (map form_pair ps).

(** How a query string is read: at ampersands, each piece at its first equals sign, plus signs for
    spaces. As code points; [None] when an escape is malformed. *)
Fixpoint cut (c : ascii) (s : string) : string * option string :=
  match s with
  | EmptyString => ("", None)
  | String d s' => if Ascii.eqb c d then ("", Some s') else let '(a, r) := cut c s' in (String d a, r)
  end.

Definition unplus (s : string) : string := str_map (fun c => if Ascii.eqb c "+" then " "%char else c) s.

Definition form_decode (s : string) : option (list Z) :=
  match decodeURIComponent (unplus s) with Ok v => Some v | Throw _ => None end.

Definition read_pair (piece : string) : option (list Z * list Z) :=
  let '(k, v) := cut "=" piece in
  k' ← form_decode k; v' ← form_decode (default "" v); Some (k', v').

Definition read_query (s : string) : option (list (list Z * list Z)) :=
  mapM read_pair (filter (fun p => p <> "") (split s "&")).

(** ** URLs

    [new URL(input, base)] for an input that starts with one slash and has only characters a URL
    keeps as they are, which [plain_path] says. *)
Record URL := mkURL { pathname : string; search : string; hash : string }.

Definition url_char (c : ascii) : bool := unreserved c || one_of "/%" c.
Definition plain_path (s : string) : bool := str_all url_char s && startsWith s "/" && negb (startsWith s "//").

Definition is_dot (s : string) : bool := bool_decide (toLowerCase s ∈ ["."; "%2e"]).
Definition is_dotdot (s : string) : bool :=
  bool_decide (toLowerCase s ∈ [".."; ".%2e"; "%2e."; "%2e%2e"]).

(** The path so far, backwards, and the segments to come. *)
Fixpoint path_from (done : list string) (segs : list string) : list string :=
  match segs with
  | [] => rev done
  | g :: rest =>
      if is_dotdot g then path_from (match rest with [] => "" :: tail done | _ => tail done end) rest
      else if is_dot g then path_from (match rest with [] => "" :: done | _ => done end) rest
      else path_from (g :: done) rest
  end.

Definition normalize (p : string) : string := "/" ++s join "/" (path_from [] (tail (split p "/"))).

Definition newURL (input : string) : URL :=
  let '(rest, frag) := cut "#" input in
  let '(p, query) := cut "?" rest in
  let part sep o := match o with Some x => if truthy x then sep ++s x else "" | None => "" end in
  mkURL (normalize p) (part "?" query) (part "#" frag).

(** [url.search = text]; the query string that it gives. *)
Definition set_search (u : URL) (text : string) : URL :=
  mkURL (pathname u) (if truthy text then "?" ++s text else "") (hash u).
Definition query_of (u : URL) : string := str_drop 1 (search u).

(** ** Values and JSON *)

Inductive JsValue : Type :=
| JUndefined
| JNull
| JBool (b : bool)
| JNum (z : Z)
| JStr (s : string)
| JArr (items : list JsValue)
| JObj (fields : list (string * JsValue)).

Definition is_null (v : JsValue) : bool := match v with JUndefined | JNull => true | _ => false end.

Definition hex4 (c : ascii) : string :=
  "u00" ++s String (of_code (if code c / 16 <? 10 then 48 + code c / 16 else 87 + code c / 16))
             (String (of_code (if code c mod 16 <? 10 then 48 + code c mod 16 else 87 + code c mod 16)) "").

(** One character of a JSON string. *)
Definition json_char (c : ascii) : string :=
  let esc x := String (of_code 92) x in
  if code c =? 8 then esc "b" else if code c =? 9 then esc "t" else if code c =? 10 then esc "n"
  else if code c =? 12 then esc "f" else if code c =? 13 then esc "r"
  else if code c =? 34 then esc QUOTE else if code c =? 92 then esc (String (of_code 92) "")
  else if code c <? 32 then esc (hex4 c) else String c "".

Fixpoint json_chars (s : string) : string :=
  match s with EmptyString => "" | String c s' => json_char c ++s json_chars s' end.
Definition json_string (s : string) : string := quoted (json_chars s).

(** [JSON.stringify] of data: an absent field is left out, an absent item is null. *)
Fixpoint stringify (v : JsValue) : option string :=
  match v with
  | JUndefined => None
  | JNull => Some "null"
  | JBool b => Some (if b then "true" else "false")
  | JNum z => Some (show z)
  | JStr s => Some (json_string s)
  | JArr items => Some ("[" ++s join "," (map (fun x => stringify x ?? "null") items) ++s "]")
  | JObj fields =>
      Some ("{" ++s join "," (omap (fun '(k, x) => (fun t => json_string k ++s ":" ++s t) <$> stringify x) fields)
            ++s "}")
  end.

(** ** The search parameters of a request *)

Definition put_param (key v : string) (ps : URLSearchParams) : URLSearchParams :=
  if sp_has ps key then sp_append ps key v else sp_set ps key v.

Fixpoint setFlattenedQueryParams (v : JsValue) (key : string) (ps : URLSearchParams) : URLSearchParams :=
  match v with
  | JUndefined | JNull => ps
  | JArr items => fold_left (fun acc x => setFlattenedQueryParams x key acc) items ps
  | JObj fields =>
      fold_left (fun acc '(k, x) =>
        setFlattenedQueryParams x (key ++s (if String.eqb key "" then "" else ".") ++s k) acc) fields ps
  | JBool b => put_param key (if b then "true" else "false") ps
  | JNum z => put_param key (show z) ps
  | JStr s => put_param key s ps
  end.

(** The URLs of the client are made of paths without a query ([plain_url]), so the parameters start
    empty. *)
Definition setSearchParams (u : URL) (objects : list JsValue) : URL :=
  set_search u (sp_toString (setFlattenedQueryParams (JArr objects) "" [])).

Definition toPathString (u : URL) : string := pathname u ++s search u ++s hash u.

(** ** Facts *)

Definition percent_char (c : ascii) : bool := Ascii.eqb c "%" || in_range 48 57 c || in_range 65 70 c.

Ltac each_char c := destruct c as [[] [] [] [] [] [] [] []]; by vm_compute.

Lemma percents_chars c : str_all percent_char (percents c) = true.
Proof. each_char c. Qed.

Lemma escape_percents c rest : escape (percents c ++s rest) = Some (code c, rest).
Proof. destruct c as [[] [] [] [] [] [] [] []]; reflexivity. Qed.

Lemma percents_head c : exists t, percents c = String "%" t /\ (2 <= String.length t)%nat.
Proof. unfold percents, utf8. destruct (code c <? 128); cbn; eexists; split; try reflexivity; cbn; lia. Qed.

Lemma str_all_encode_by (p keep : ascii -> bool) s :
  (forall c, keep c = true -> p c = true) -> (forall c, percent_char c = true -> p c = true) ->
  str_all p (encode_by keep s) = true.
Proof.
  intros Hk Hp. induction s as [|c s IH]; [done|]. cbn [encode_by]. rewrite str_all_app, IH, andb_true_r.
  destruct (keep c) eqn:E; [cbn; by rewrite Hk|]. apply (str_all_impl percent_char); [done|apply percents_chars].
Qed.

Lemma decode_encode_from keep s : keep "%"%char = false -> forall n,
  (String.length (encode_by keep s) <= n)%nat -> decode_from n (encode_by keep s) = Ok (points s).
Proof.
  intros Hk. induction s as [|c s IH]; intros n Hn; [by destruct n|]. cbn [encode_by points] in *.
  destruct (keep c) eqn:E.
  - cbn [String.append String.length] in *. destruct n as [|n]; [lia|]. cbn [decode_from].
    destruct (Ascii.eqb_spec c "%") as [->|_]; [congruence|]. rewrite IH by lia. done.
  - pose proof (escape_percents c (encode_by keep s)) as He. destruct (percents_head c) as (t & Ht & Hl).
    rewrite Ht in He, Hn |- *. cbn [String.append String.length] in *. rewrite length_app_s in Hn.
    destruct n as [|n]; [lia|]. cbn [decode_from].
    change (Ascii.eqb "%" "%") with true. cbn iota. rewrite He, IH by lia. done.
Qed.

Lemma decode_encode keep s : keep "%"%char = false -> decodeURIComponent (encode_by keep s) = Ok (points s).
Proof. intros Hk. by apply decode_encode_from. Qed.

(** What is escaped comes back. *)
Lemma decode_encodeURIComponent s : decodeURIComponent (encodeURIComponent s) = Ok (points s).
Proof. by apply decode_encode. Qed.

(** A plus sign is written only for a space. *)
Lemma unplus_form s : unplus (form_encode s) = encode_by (fun c => Ascii.eqb c " " || form_safe c) s.
Proof.
  assert (forall c, unplus (percents c) = percents c) as Hp by (intros c; each_char c).
  assert (forall a b, unplus (a ++s b) = unplus a ++s unplus b) as Happ.
  { intros a b. induction a as [|c a IH]; [done|]. unfold unplus in *. cbn. by rewrite IH. }
  induction s as [|c s IH]; [done|]. cbn [form_encode encode_by]. rewrite Happ, IH. f_equal.
  destruct (Ascii.eqb_spec c " ") as [->|_]; [done|]. cbn [orb]. destruct (form_safe c) eqn:E; [|apply Hp].
  unfold unplus. cbn [str_map]. by destruct (Ascii.eqb_spec c "+") as [->|].
Qed.

Lemma form_decode_encode s : form_decode (form_encode s) = Some (points s).
Proof. unfold form_decode. by rewrite unplus_form, decode_encode. Qed.

Lemma str_all_form (p : ascii -> bool) s :
  (forall c, form_safe c = true -> p c = true) -> (forall c, percent_char c = true -> p c = true) ->
  p "+"%char = true -> str_all p (form_encode s) = true.
Proof.
  intros Hk Hp Hs. induction s as [|c s IH]; [done|]. cbn [form_encode]. rewrite str_all_app, IH, andb_true_r.
  destruct (Ascii.eqb c " "); [cbn; by rewrite Hs|].
  destruct (form_safe c) eqn:E; [cbn; by rewrite Hk|]. apply (str_all_impl percent_char); [done|apply percents_chars].
Qed.

Lemma form_lacks d s : form_safe d = false -> percent_char d = false -> d <> "+"%char -> lacks d (form_encode s) = true.
Proof.
  intros Hk Hp Hs. apply str_all_form; intros; rewrite negb_true_iff; apply Ascii.eqb_neq; congruence.
Qed.

Lemma cut_at c a s : lacks c a = true -> cut c (a ++s String c s) = (a, Some s).
Proof.
  induction a as [|d a IH]; cbn.
  - intros _. by rewrite Ascii.eqb_refl.
  - rewrite andb_true_iff. intros [Hd Ha]. to_prop. destruct (Ascii.eqb_spec c d); [by subst|]. by rewrite IH.
Qed.

Lemma cut_none c a : lacks c a = true -> cut c a = (a, None).
Proof.
  induction a as [|d a IH]; cbn; [done|]. rewrite andb_true_iff. intros [Hd Ha]. to_prop.
  destruct (Ascii.eqb_spec c d); [by subst|]. by rewrite IH.
Qed.

Definition points_pair (p : string * string) : list Z * list Z := (points p.1, points p.2).

Lemma read_form_pair p : read_pair (form_pair p) = Some (points_pair p).
Proof.
  unfold read_pair, form_pair. change ("=" ++s form_encode p.2) with (String "=" (form_encode p.2)).
  rewrite (cut_at "=") by (by apply form_lacks).
  cbn [default from_option id]. by rewrite !form_decode_encode.
Qed.

Lemma drop_empty_none ws : Forall (fun w => w <> "") ws -> filter (fun w => w <> "") ws = ws.
Proof. induction 1 as [|w ws Hw _ IH]; [done|]. by rewrite filter_cons_True, IH. Qed.

(** What is put into a query string is read from it. *)
Lemma read_sp_toString ps : read_query (sp_toString ps) = Some (map points_pair ps).
Proof.
  unfold read_query, sp_toString. destruct ps as [|p ps]; [done|].
  rewrite split_join; [|done|].
  - rewrite drop_empty_none.
    + generalize (p :: ps). intros l. induction l as [|q l IH]; [done|].
      cbn [map mapM]. by rewrite read_form_pair, IH.
    + rewrite Forall_map. apply Forall_true. intros q. unfold form_pair. by destruct (form_encode q.1).
  - rewrite Forall_map. apply Forall_true. intros q. unfold form_pair. rewrite str_all_app.
    rewrite andb_true_iff. split; [by apply form_lacks|]. exact (form_lacks "&" q.2 eq_refl eq_refl ltac:(done)).
Qed.

(** ** Paths *)

Lemma plain_url p :
  lacks "?" p = true -> lacks "#" p = true -> newURL p = mkURL (normalize p) "" "".
Proof. intros Hq Hh. unfold newURL. by rewrite !cut_none. Qed.

Definition no_dots (g : string) : bool := negb (is_dot g) && negb (is_dotdot g).

Lemma path_from_no_dots done segs : forallb no_dots segs = true -> path_from done segs = rev done ++ segs.
Proof.
  revert done. induction segs as [|g segs IH]; intros done; cbn; [by rewrite app_nil_r|].
  rewrite andb_true_iff. unfold no_dots at 1. rewrite andb_true_iff, !negb_true_iff. intros [[-> ->] Hs].
  rewrite IH by done. cbn. by rewrite <- app_assoc.
Qed.

Lemma normalize_no_dots g segs :
  forallb no_dots (g :: segs) = true -> Forall (fun w => lacks "/" w = true) (g :: segs) ->
  normalize ("/" ++s join "/" (g :: segs)) = "/" ++s join "/" (g :: segs).
Proof.
  intros Hd Hl. unfold normalize. cbn [String.append].
  replace (split (String "/" (join "/" (g :: segs))) "/") with ("" :: g :: segs); [by rewrite path_from_no_dots|].
  symmetry. apply (split_join ("" :: g :: segs) "/"); [done|]. by constructor.
Qed.

Example flattened :
  setFlattenedQueryParams (JArr [JObj [("a", JNum 1); ("b", JUndefined); ("c", JObj [("d", JStr "x y")])]]) "" []
  = [("a", "1"); ("c.d", "x y")].
Proof. reflexivity. Qed.

Example encoded : encodeURIComponent "a/b c" = "a%2Fb%20c" /\ form_encode "a/b c" = "a%2Fb+c".
Proof. by vm_compute. Qed.

Example dotted : pathname (newURL "/api/v1/profiles/../logs") = "/api/v1/logs".
Proof. reflexivity. Qed.
