(* ===== verification/ApiClient.v ===== *)
(** * The API client: how a call becomes a request

    [src/app/src/api/client/base.ts], [common.ts] and [configuration.ts], the shape that every method
    of [client/api.ts] has, and the client of the application in [src/app/src/api/api.ts]. The
    methods themselves are in [ApiOperations]. axios is outside: a request is the instance it is made
    on with the configuration it is given. *)

From S2P Require Import Prelude JsString ApiEvents Uri.

(** ** Configurations *)

(** The instances: the default export of axios and the one that [api.ts] creates. *)
Inductive AxiosInstance : Set := globalAxios | axiosClient.
#[export] Instance AxiosInstance_eq_dec : EqDecision AxiosInstance.
Proof. solve_decision. Defined.

Notation Headers := (gmap string string).

(** The properties of a request configuration that the source sets or passes; [None]: absent. [axios]
    is no property that axios knows. *)
Record AxiosRequestConfig := mkRequestConfig {
  rc_method : option string;
  rc_url : option string;
  rc_headers : option Headers;
  rc_data : option JsValue;
  rc_withCredentials : option bool;
  rc_responseType : option string;
  rc_axios : option AxiosInstance;
}.
Definition noOptions : AxiosRequestConfig := mkRequestConfig None None None None None None None.

(** [{...a, ...b}] *)
Definition over {A} (b a : option A) : option A := match b with Some x => Some x | None => a end.
Definition spread (a b : AxiosRequestConfig) : AxiosRequestConfig :=
  mkRequestConfig (over (rc_method b) (rc_method a)) (over (rc_url b) (rc_url a))
    (over (rc_headers b) (rc_headers a)) (over (rc_data b) (rc_data a))
    (over (rc_withCredentials b) (rc_withCredentials a)) (over (rc_responseType b) (rc_responseType a))
    (over (rc_axios b) (rc_axios a)).

(** The parameters and the properties of [Configuration] that the client reads. *)
Record ConfigurationParameters := mkParameters {
  param_basePath : option string;
  param_serverIndex : option nat;
  param_baseOptions : option AxiosRequestConfig;
}.
Record Configuration := mkConfiguration {
  cfg_basePath : option string;
  cfg_serverIndex : option nat;
  cfg_baseOptions : AxiosRequestConfig;
}.

Definition USER_AGENT : string := "OpenAPI-Generator/typescript-axios".

(** The constructor; headers of the parameters replace the object that the user agent was put into. *)
Definition newConfiguration (p : ConfigurationParameters) : Configuration :=
  let given := param_baseOptions p ?? noOptions in
  let agent := <["User-Agent" := USER_AGENT]> (rc_headers given ?? ∅) in
  mkConfiguration (param_basePath p) (param_serverIndex p)
    (spread (mkRequestConfig None None (Some agent) None None None None) given).

(** [[^;/ \t]] *)
Definition mime_char (c : ascii) : bool := negb (one_of ";/ " c || Ascii.eqb c (of_code 9)).

Fixpoint take_run (p : ascii -> bool) (s : string) : string * string :=
  match s with
  | String c s' => if p c then let '(a, b) := take_run p s' in (String c a, b) else ("", s)
  | EmptyString => ("", "")
  end.

(** What may follow a type: spaces and tabs, then nothing or parameters. *)
Definition mime_tail (s : string) : bool :=
  match (take_run (one_of (String (of_code 9) " ")) s).2 with
  | EmptyString => true
  | String c s' => Ascii.eqb c ";" && lacks (of_code 10) s' && lacks (of_code 13) s'
  end.

(** The expression of [isJsonMime]. A class excludes what follows it, so each run is maximal. *)
Definition jsonMime (mime : string) : bool :=
  let '(t, r) := take_run mime_char (toLowerCase mime) in
  match r with
  | String c r' =>
      Ascii.eqb c "/" && negb (String.eqb t "") &&
      (let '(u, rest) := take_run mime_char r' in
       (String.eqb t "application" && String.eqb u "json" || endsWith u "+json" && negb (String.eqb u "+json"))
       && mime_tail rest)
  | EmptyString => false
  end.

Definition isJsonMime (mime : string) : bool :=
  jsonMime mime || String.eqb (toLowerCase mime) "application/json-patch+json".

Example json_mimes :
  map isJsonMime ["application/json"; "application/json; charset=UTF8"; "APPLICATION/JSON"; "application/vnd.company+json"]
  = [true; true; true; true] /\
  map isJsonMime ["application/jsonx"; "text/json"; "+json"; "a/+json"] = [false; false; false; false].
Proof. by vm_compute. Qed.

(** ** What a method says, and the request it makes of it *)

Inductive ClientError : Type :=
| RequiredError (field msg : string)
| TypeError.

(** [assertParamExists]; a value that is null or undefined does not exist. *)
Definition assertParamExists (functionName paramName : string) (given : bool) : result ClientError unit :=
  if given then Ok ()
  else Throw (RequiredError paramName
    ("Required parameter " ++s paramName ++s " was null or undefined when calling " ++s functionName ++s ".")).

(** A method of an [AxiosParamCreator]: the parameters it asserts with whether they are given, its
    method and path, the parameters it replaces in the path, the query and header parameters it adds
    when they are given, and its body. *)
Record Operation := mkOperation {
  op_name : string;
  op_asserts : list (string * bool);
  op_method : string;
  op_path : string;
  op_ids : list (string * option string);
  op_query : list (string * option JsValue);
  op_headers : list (string * option string);
  op_body : option JsValue;
}.

(** A value that is neither null nor undefined. *)
Definition present {A} (v : option A) : bool := match v with Some _ => true | None => false end.

(** [mapped.join(COLLECTION_FORMATS['csv'])] *)
Definition csv (values : list string) : string := join "," (map (fun v => str_or v "") values).

Definition contentJson : string * option string := ("Content-Type", Some "application/json").

Record RequestArgs := mkRequestArgs { args_url : string; args_options : AxiosRequestConfig }.

Definition placeholder (k : string) : string := "{" ++s k ++s "}".

(** [String(v)] of an absent value; it is asserted before. *)
Definition idText (v : option string) : string := v ?? "undefined".

Definition fillPath (path : string) (ids : list (string * option string)) : string :=
  fold_left (fun p '(k, v) => replaceFirst p (placeholder k) (encodeURIComponent (idText v))) ids path.

Fixpoint assertAll (functionName : string) (ps : list (string * bool)) : result ClientError unit :=
  match ps with
  | [] => Ok ()
  | (k, given) :: ps' => assertParamExists functionName k given;; assertAll functionName ps'
  end.

(** The properties that were set. *)
Definition given_fields {A} (fs : list (string * option A)) : list (string * A) :=
  omap (fun '(k, v) => (fun x => (k, x)) <$> v) fs.

Definition headerParameters (op : Operation) : Headers := list_to_map (rev (given_fields (op_headers op))).

(** The headers hold strings, so a missing content type is the only value without [toLowerCase]. *)
Definition serializeDataIfNeeded (value : JsValue) (requestOptions : AxiosRequestConfig)
    (configuration : option Configuration) : result ClientError JsValue :=
  let nonString := match value with JStr _ => false | _ => true end in
  needsSerialization ←
    match configuration with
    | Some _ =>
        if nonString then
          match (rc_headers requestOptions ?? ∅) !! "Content-Type" with
          | Some mime => Ok (isJsonMime mime)
          | None => Throw TypeError
          end
        else Ok nonString
    | None => Ok nonString
    end;
  Ok (if needsSerialization : bool then
        JStr (stringify (match value with JUndefined => JObj [] | v => v end) ?? "")
      else match value with
           | JUndefined | JNull | JBool false | JStr EmptyString => JStr ""
           | JNum z => if Z.eqb z 0 then JStr "" else value
           | _ => value
           end).

(** The shape of every method of the parameter creators. *)
Definition toRequestArgs (configuration : option Configuration) (options : AxiosRequestConfig)
    (op : Operation) : result ClientError RequestArgs :=
  assertAll (op_name op) (op_asserts op);;
  let localVarPath := fillPath (op_path op) (op_ids op) in
  let localVarUrlObj := newURL localVarPath in
  let base := cfg_baseOptions <$> configuration in
  let localVarRequestOptions :=
    spread (spread (mkRequestConfig (Some (op_method op)) None None None None None None) (base ?? noOptions)) options in
  let localVarUrlObj := setSearchParams localVarUrlObj [JObj (given_fields (op_query op))] in
  let headersFromBaseOptions := (b ← base; rc_headers b) ?? ∅ in
  let all := (rc_headers options ?? ∅) ∪ (headersFromBaseOptions ∪ headerParameters op) in
  let withHeaders := spread localVarRequestOptions (mkRequestConfig None None (Some all) None None None None) in
  d ← match op_body op with
      | Some body => Some <$> serializeDataIfNeeded body withHeaders configuration
      | None => Ok None
      end;
  Ok (mkRequestArgs (toPathString localVarUrlObj)
        (spread withHeaders (mkRequestConfig None None None d None None None))).

(** ** Performing it *)

(** What [axios.request] is given, on which instance. *)
Record Dispatch := mkDispatch { on_instance : AxiosInstance; request_config : AxiosRequestConfig }.

(** [defaults.baseURL] of the instances; that of [axiosClient] in an environment. *)
Definition defaultBaseURL (apiUrl : string) (a : AxiosInstance) : option string :=
  match a with globalAxios => None | axiosClient => Some (apiUrl ++s "/api/v1") end.

Definition createRequestFunction (apiUrl : string) (axiosArgs : RequestArgs) (configuration : option Configuration)
    (a : AxiosInstance) (base : string) : Dispatch :=
  let prefix := if truthy_opt (defaultBaseURL apiUrl a) then "" else (c ← configuration; cfg_basePath c) ?? base in
  mkDispatch a (spread (args_options axiosArgs)
    (mkRequestConfig None (Some (prefix ++s args_url axiosArgs)) None None None None None)).

(** [operationServerMap] is empty. *)
Definition operationServerMap : gmap string (list string) := ∅.

(** A method of an [...ApiFp]: the arguments first, then the function of instance and base path. *)
Definition fpRequest (apiUrl : string) (configuration : option Configuration) (key : string)
    (localVarAxiosArgs : result ClientError RequestArgs) : result ClientError (AxiosInstance -> string -> Dispatch) :=
  axiosArgs ← localVarAxiosArgs;
  let index := (c ← configuration; cfg_serverIndex c) ?? 0%nat in
  let operationBasePath := servers ← operationServerMap !! key; servers !! index in
  Ok (fun a base => createRequestFunction apiUrl axiosArgs configuration a (opt_or operationBasePath base)).

Record BaseAPI := mkBaseAPI {
  api_configuration : option Configuration;
  api_basePath : string;
  api_axios : AxiosInstance;
}.

Definition BASE_PATH : string := "http://localhost".

(** The constructor, with its default arguments. *)
Definition newBaseAPI (conf : option Configuration) (base : option string) (a : option AxiosInstance) : BaseAPI :=
  mkBaseAPI conf (match conf with Some c => cfg_basePath c ?? (base ?? BASE_PATH) | None => base ?? BASE_PATH end)
    (a ?? globalAxios).

(** A method of an API class: [request(this.axios, this.basePath)]. *)
Definition callRequest (self : BaseAPI) (request : result ClientError (AxiosInstance -> string -> Dispatch))
    : result ClientError Dispatch :=
  f ← request; Ok (f (api_axios self) (api_basePath self)).

(** ** The client of the application *)

Definition appConfig (apiUrl : string) : Configuration :=
  newConfiguration (mkParameters (Some apiUrl) None
    (Some (mkRequestConfig None None None None (Some true) None (Some axiosClient)))).

(** Every API of [Client]: [new client.AuthenticationApi(config)] and its siblings. *)
Definition clientApi (apiUrl : string) : BaseAPI := newBaseAPI (Some (appConfig apiUrl)) None None.

(** The interceptor is put on the instance that [api.ts] creates; a response runs through those of the
    instance it was asked on. *)
Definition onResponseError (a : AxiosInstance) (l : Location) (status : option Z) : option BrowserEvent :=
  match a with axiosClient => interceptor l status | globalAxios => None end.
