(* ===== verification/ApiOperations.v ===== *)
(** * The methods of the API client

    [src/app/src/api/client/api.ts]: for every endpoint what its parameter creator says (an
    [Operation]), its functional method and its method of the API class; then every call of the
    client as one type. Parameters are what TypeScript leaves at run time: [None] is undefined or
    null, an enum is its string, a body is a value. *)

From S2P Require Import Prelude JsString Uri ApiClient.

(** ** AccountApiAxiosParamCreator *)

Definition apiV1AccountsCurrentDelete (body : JsValue) : Operation :=
  mkOperation "apiV1AccountsCurrentDelete" [("body", negb (is_null body))]
    "DELETE" "/api/v1/accounts/current"
    [] [] [contentJson] (Some body).

Definition apiV1AccountsCurrentDeletionCodePost : Operation :=
  mkOperation "apiV1AccountsCurrentDeletionCodePost" []
    "POST" "/api/v1/accounts/current/deletion-code"
    [] [] [] None.

Definition apiV1AccountsCurrentGet : Operation :=
  mkOperation "apiV1AccountsCurrentGet" []
    "GET" "/api/v1/accounts/current"
    [] [] [] None.

Definition apiV1AccountsMfaTotpDisablePost (body : JsValue) : Operation :=
  mkOperation "apiV1AccountsMfaTotpDisablePost" [("body", negb (is_null body))]
    "POST" "/api/v1/accounts/mfa/totp/disable"
    [] [] [contentJson] (Some body).

Definition apiV1AccountsMfaTotpEnableConfirmPost (body : JsValue) : Operation :=
  mkOperation "apiV1AccountsMfaTotpEnableConfirmPost" [("body", negb (is_null body))]
    "POST" "/api/v1/accounts/mfa/totp/enable/confirm"
    [] [] [contentJson] (Some body).

Definition apiV1AccountsMfaTotpEnablePost : Operation :=
  mkOperation "apiV1AccountsMfaTotpEnablePost" []
    "POST" "/api/v1/accounts/mfa/totp/enable"
    [] [] [] None.

Definition apiV1AccountsPatch (body : JsValue) (xMfaCode : option string)
    (xMfaMethods : option (list string)) : Operation :=
  mkOperation "apiV1AccountsPatch" [("body", negb (is_null body))]
    "PATCH" "/api/v1/accounts"
    [] [] [contentJson; ("x-mfa-code", xMfaCode); ("x-mfa-methods", csv <$> xMfaMethods)] (Some body).

Definition apiV1AccountsPost (body : JsValue) : Operation :=
  mkOperation "apiV1AccountsPost" [("body", negb (is_null body))]
    "POST" "/api/v1/accounts"
    [] [] [contentJson] (Some body).

Definition apiV1AccountsResetPasswordPost (body : JsValue) : Operation :=
  mkOperation "apiV1AccountsResetPasswordPost" [("body", negb (is_null body))]
    "POST" "/api/v1/accounts/reset-password"
    [] [] [contentJson] (Some body).

(** ** AnnouncementsApiAxiosParamCreator *)

Definition apiV1AnnouncementsGet : Operation :=
  mkOperation "apiV1AnnouncementsGet" []
    "GET" "/api/v1/announcements"
    [] [] [] None.

(** ** AppleMobileconfigApiAxiosParamCreator *)

Definition apiV1MobileconfigPost (body : JsValue) : Operation :=
  mkOperation "apiV1MobileconfigPost" [("body", negb (is_null body))]
    "POST" "/api/v1/mobileconfig"
    [] [] [contentJson] (Some body).

Definition apiV1MobileconfigShortPost (body : JsValue) : Operation :=
  mkOperation "apiV1MobileconfigShortPost" [("body", negb (is_null body))]
    "POST" "/api/v1/mobileconfig/short"
    [] [] [contentJson] (Some body).

Definition apiV1ShortCodeGet (code : option string) : Operation :=
  mkOperation "apiV1ShortCodeGet" [("code", present code)]
    "GET" "/api/v1/short/{code}"
    [("code", code)] [] [] None.

(** ** AuthenticationApiAxiosParamCreator *)

Definition apiV1AccountsLogoutPost : Operation :=
  mkOperation "apiV1AccountsLogoutPost" []
    "POST" "/api/v1/accounts/logout"
    [] [] [] None.

Definition apiV1LoginPost (body : JsValue) (xMfaCode : option string)
    (xMfaMethods : option (list string)) (xSessionsRemove : option string) : Operation :=
  mkOperation "apiV1LoginPost" [("body", negb (is_null body))]
    "POST" "/api/v1/login"
    [] [] [contentJson; ("x-mfa-code", xMfaCode); ("x-mfa-methods", csv <$> xMfaMethods);
     ("x-sessions-remove", xSessionsRemove)] (Some body).

Definition apiV1WebauthnLoginBeginPost (body : JsValue) : Operation :=
  mkOperation "apiV1WebauthnLoginBeginPost" [("body", negb (is_null body))]
    "POST" "/api/v1/webauthn/login/begin"
    [] [] [contentJson] (Some body).

Definition apiV1WebauthnLoginFinishPost (xSessionsRemove : option string) : Operation :=
  mkOperation "apiV1WebauthnLoginFinishPost" []
    "POST" "/api/v1/webauthn/login/finish"
    [] [] [("x-sessions-remove", xSessionsRemove)] None.

Definition apiV1WebauthnPasskeyAddBeginPost (body : JsValue) (xMfaCode : option string)
    (xMfaMethods : option (list string)) : Operation :=
  mkOperation "apiV1WebauthnPasskeyAddBeginPost" [("body", negb (is_null body))]
    "POST" "/api/v1/webauthn/passkey/add/begin"
    [] [] [contentJson; ("x-mfa-code", xMfaCode); ("x-mfa-methods", csv <$> xMfaMethods)] (Some body).

Definition apiV1WebauthnPasskeyAddFinishPost : Operation :=
  mkOperation "apiV1WebauthnPasskeyAddFinishPost" []
    "POST" "/api/v1/webauthn/passkey/add/finish"
    [] [] [] None.

Definition apiV1WebauthnPasskeyIdDelete (id : option string) (body : JsValue)
    (xMfaCode : option string) (xMfaMethods : option (list string)) : Operation :=
  mkOperation "apiV1WebauthnPasskeyIdDelete" [("id", present id); ("body", negb (is_null body))]
    "DELETE" "/api/v1/webauthn/passkey/{id}"
    [("id", id)] [] [contentJson; ("x-mfa-code", xMfaCode); ("x-mfa-methods", csv <$> xMfaMethods)]
     (Some body).

Definition apiV1WebauthnPasskeyReauthBeginPost (body : JsValue) : Operation :=
  mkOperation "apiV1WebauthnPasskeyReauthBeginPost" [("body", negb (is_null body))]
    "POST" "/api/v1/webauthn/passkey/reauth/begin"
    [] [] [contentJson] (Some body).

Definition apiV1WebauthnPasskeyReauthFinishPost : Operation :=
  mkOperation "apiV1WebauthnPasskeyReauthFinishPost" []
    "POST" "/api/v1/webauthn/passkey/reauth/finish"
    [] [] [] None.

Definition apiV1WebauthnPasskeysGet : Operation :=
  mkOperation "apiV1WebauthnPasskeysGet" []
    "GET" "/api/v1/webauthn/passkeys"
    [] [] [] None.

Definition apiV1WebauthnRegisterBeginPost (body : JsValue) : Operation :=
  mkOperation "apiV1WebauthnRegisterBeginPost" [("body", negb (is_null body))]
    "POST" "/api/v1/webauthn/register/begin"
    [] [] [contentJson] (Some body).

Definition apiV1WebauthnRegisterFinishPost : Operation :=
  mkOperation "apiV1WebauthnRegisterFinishPost" []
    "POST" "/api/v1/webauthn/register/finish"
    [] [] [] None.

(** ** BlocklistsApiAxiosParamCreator *)

Definition apiV1BlocklistsGet (sortBy : option string) : Operation :=
  mkOperation "apiV1BlocklistsGet" []
    "GET" "/api/v1/blocklists"
    [] [("sort_by", JStr <$> sortBy)] [] None.

(** ** DNSStampsApiAxiosParamCreator *)

Definition apiV1DnsstampPost (body : JsValue) : Operation :=
  mkOperation "apiV1DnsstampPost" [("body", negb (is_null body))]
    "POST" "/api/v1/dnsstamp"
    [] [] [contentJson] (Some body).

(** ** PASessionApiAxiosParamCreator *)

Definition apiV1PasessionAddPost (body : JsValue) : Operation :=
  mkOperation "apiV1PasessionAddPost" [("body", negb (is_null body))]
    "POST" "/api/v1/pasession/add"
    [] [] [contentJson] (Some body).

Definition apiV1PasessionRotatePut (body : JsValue) : Operation :=
  mkOperation "apiV1PasessionRotatePut" [("body", negb (is_null body))]
    "PUT" "/api/v1/pasession/rotate"
    [] [] [contentJson] (Some body).

(** ** ProfileApiAxiosParamCreator *)

Definition apiV1ProfilesExportPost (body : JsValue) : Operation :=
  mkOperation "apiV1ProfilesExportPost" [("body", negb (is_null body))]
    "POST" "/api/v1/profiles/export"
    [] [] [contentJson] (Some body).

Definition apiV1ProfilesGet : Operation :=
  mkOperation "apiV1ProfilesGet" []
    "GET" "/api/v1/profiles"
    [] [] [] None.

Definition apiV1ProfilesIdBlocklistsDelete (id : option string) (blocklistIds : JsValue) : Operation
    :=
  mkOperation "apiV1ProfilesIdBlocklistsDelete" [("id", present id);
    ("blocklistIds", negb (is_null blocklistIds))]
    "DELETE" "/api/v1/profiles/{id}/blocklists"
    [("id", id)] [] [contentJson] (Some blocklistIds).

Definition apiV1ProfilesIdBlocklistsPost (id : option string) (blocklistIds : JsValue) : Operation :=
  mkOperation "apiV1ProfilesIdBlocklistsPost" [("id", present id);
    ("blocklistIds", negb (is_null blocklistIds))]
    "POST" "/api/v1/profiles/{id}/blocklists"
    [("id", id)] [] [contentJson] (Some blocklistIds).

Definition apiV1ProfilesIdCustomRuleGroupsOrderPatch (id : option string) (body : JsValue) :
    Operation :=
  mkOperation "apiV1ProfilesIdCustomRuleGroupsOrderPatch" [("id", present id);
    ("body", negb (is_null body))]
    "PATCH" "/api/v1/profiles/{id}/custom_rule_groups/order"
    [("id", id)] [] [contentJson] (Some body).

Definition apiV1ProfilesIdCustomRuleGroupsPatch (id : option string) (body : JsValue) : Operation :=
  mkOperation "apiV1ProfilesIdCustomRuleGroupsPatch" [("id", present id);
    ("body", negb (is_null body))]
    "PATCH" "/api/v1/profiles/{id}/custom_rule_groups"
    [("id", id)] [] [contentJson] (Some body).

Definition apiV1ProfilesIdCustomRulesBatchPost (id : option string) (body : JsValue) : Operation :=
  mkOperation "apiV1ProfilesIdCustomRulesBatchPost" [("id", present id); ("body", negb (is_null body))]
    "POST" "/api/v1/profiles/{id}/custom_rules/batch"
    [("id", id)] [] [contentJson] (Some body).

Definition apiV1ProfilesIdCustomRulesCustomRuleIdDelete (id customRuleId : option string) : Operation
    :=
  mkOperation "apiV1ProfilesIdCustomRulesCustomRuleIdDelete" [("id", present id);
    ("customRuleId", present customRuleId)]
    "DELETE" "/api/v1/profiles/{id}/custom_rules/{custom_rule_id}"
    [("id", id); ("custom_rule_id", customRuleId)] [] [] None.

Definition apiV1ProfilesIdCustomRulesOrderPatch (id : option string) (body : JsValue) : Operation :=
  mkOperation "apiV1ProfilesIdCustomRulesOrderPatch" [("id", present id);
    ("body", negb (is_null body))]
    "PATCH" "/api/v1/profiles/{id}/custom_rules/order"
    [("id", id)] [] [contentJson] (Some body).

Definition apiV1ProfilesIdCustomRulesPost (id : option string) (body : JsValue) : Operation :=
  mkOperation "apiV1ProfilesIdCustomRulesPost" [("id", present id); ("body", negb (is_null body))]
    "POST" "/api/v1/profiles/{id}/custom_rules"
    [("id", id)] [] [contentJson] (Some body).

Definition apiV1ProfilesIdDelete (id : option string) : Operation :=
  mkOperation "apiV1ProfilesIdDelete" [("id", present id)]
    "DELETE" "/api/v1/profiles/{id}"
    [("id", id)] [] [] None.

Definition apiV1ProfilesIdGet (id : option string) : Operation :=
  mkOperation "apiV1ProfilesIdGet" [("id", present id)]
    "GET" "/api/v1/profiles/{id}"
    [("id", id)] [] [] None.

Definition apiV1ProfilesIdPatch (id : option string) (body : JsValue) : Operation :=
  mkOperation "apiV1ProfilesIdPatch" [("id", present id); ("body", negb (is_null body))]
    "PATCH" "/api/v1/profiles/{id}"
    [("id", id)] [] [contentJson] (Some body).

Definition apiV1ProfilesIdServicesDelete (id : option string) (serviceIds : JsValue) : Operation :=
  mkOperation "apiV1ProfilesIdServicesDelete" [("id", present id);
    ("serviceIds", negb (is_null serviceIds))]
    "DELETE" "/api/v1/profiles/{id}/services"
    [("id", id)] [] [contentJson] (Some serviceIds).

Definition apiV1ProfilesIdServicesPost (id : option string) (serviceIds : JsValue) : Operation :=
  mkOperation "apiV1ProfilesIdServicesPost" [("id", present id);
    ("serviceIds", negb (is_null serviceIds))]
    "POST" "/api/v1/profiles/{id}/services"
    [("id", id)] [] [contentJson] (Some serviceIds).

Definition apiV1ProfilesImportPost (xModDNSImport : option string) (body : JsValue) : Operation :=
  mkOperation "apiV1ProfilesImportPost" [("xModDNSImport", present xModDNSImport);
    ("body", negb (is_null body))]
    "POST" "/api/v1/profiles/import"
    [] [] [contentJson; ("X-modDNS-Import", xModDNSImport)] (Some body).

Definition apiV1ProfilesPost (body : JsValue) : Operation :=
  mkOperation "apiV1ProfilesPost" [("body", negb (is_null body))]
    "POST" "/api/v1/profiles"
    [] [] [contentJson] (Some body).

Definition apiV1ProfilesProfileIdCustomRulesCustomRuleIdPatch
    (profileId customRuleId : option string) (body : JsValue) : Operation :=
  mkOperation "apiV1ProfilesProfileIdCustomRulesCustomRuleIdPatch" [("profileId", present profileId);
    ("customRuleId", present customRuleId); ("body", negb (is_null body))]
    "PATCH" "/api/v1/profiles/{profile_id}/custom_rules/{custom_rule_id}"
    [("profile_id", profileId); ("custom_rule_id", customRuleId)] [] [contentJson] (Some body).

(** ** QueryLogsApiAxiosParamCreator *)

Definition apiV1ProfilesIdLogsDelete (id : option string) : Operation :=
  mkOperation "apiV1ProfilesIdLogsDelete" [("id", present id)]
    "DELETE" "/api/v1/profiles/{id}/logs"
    [("id", id)] [] [] None.

Definition apiV1ProfilesIdLogsDevicesGet (id : option string) : Operation :=
  mkOperation "apiV1ProfilesIdLogsDevicesGet" [("id", present id)]
    "GET" "/api/v1/profiles/{id}/logs/devices"
    [("id", id)] [] [] None.

Definition apiV1ProfilesIdLogsDownloadGet (id : option string) : Operation :=
  mkOperation "apiV1ProfilesIdLogsDownloadGet" [("id", present id)]
    "GET" "/api/v1/profiles/{id}/logs/download"
    [("id", id)] [] [] None.

Definition apiV1ProfilesIdLogsGet (id : option string) (page limit : option Z)
    (status timespan deviceId search sortBy : option string) : Operation :=
  mkOperation "apiV1ProfilesIdLogsGet" [("id", present id)]
    "GET" "/api/v1/profiles/{id}/logs"
    [("id", id)] [("page", JNum <$> page); ("limit", JNum <$> limit); ("status", JStr <$> status);
     ("timespan", JStr <$> timespan); ("device_id", JStr <$> deviceId); ("search", JStr <$> search);
     ("sort_by", JStr <$> sortBy)] [] None.

Definition apiV1ProfilesIdLogsTopBlocklistsGet (id timespan : option string) (limit : option Z) :
    Operation :=
  mkOperation "apiV1ProfilesIdLogsTopBlocklistsGet" [("id", present id)]
    "GET" "/api/v1/profiles/{id}/logs/top/blocklists"
    [("id", id)] [("timespan", JStr <$> timespan); ("limit", JNum <$> limit)] [] None.

Definition apiV1ProfilesIdLogsTopClientsGet (id timespan : option string) (limit : option Z) :
    Operation :=
  mkOperation "apiV1ProfilesIdLogsTopClientsGet" [("id", present id)]
    "GET" "/api/v1/profiles/{id}/logs/top/clients"
    [("id", id)] [("timespan", JStr <$> timespan); ("limit", JNum <$> limit)] [] None.

Definition apiV1ProfilesIdLogsTopDomainsGet (id kind timespan : option string) (limit : option Z) :
    Operation :=
  mkOperation "apiV1ProfilesIdLogsTopDomainsGet" [("id", present id); ("kind", present kind)]
    "GET" "/api/v1/profiles/{id}/logs/top/domains"
    [("id", id)] [("timespan", JStr <$> timespan); ("kind", JStr <$> kind); ("limit", JNum <$> limit)]
     [] None.

(** ** ServicesApiAxiosParamCreator *)

Definition apiV1ServicesGet : Operation :=
  mkOperation "apiV1ServicesGet" []
    "GET" "/api/v1/services"
    [] [] [] None.

(** ** SessionsApiAxiosParamCreator *)

Definition apiV1SessionsDelete : Operation :=
  mkOperation "apiV1SessionsDelete" []
    "DELETE" "/api/v1/sessions"
    [] [] [] None.

(** ** StatisticsApiAxiosParamCreator *)

Definition apiV1ProfilesIdStatisticsDelete (id : option string) : Operation :=
  mkOperation "apiV1ProfilesIdStatisticsDelete" [("id", present id)]
    "DELETE" "/api/v1/profiles/{id}/statistics"
    [("id", id)] [] [] None.

Definition apiV1ProfilesIdStatisticsGet (id timespan : option string) : Operation :=
  mkOperation "apiV1ProfilesIdStatisticsGet" [("id", present id)]
    "GET" "/api/v1/profiles/{id}/statistics"
    [("id", id)] [("timespan", JStr <$> timespan)] [] None.

(** ** SubscriptionApiAxiosParamCreator *)

Definition apiV1SubGet : Operation :=
  mkOperation "apiV1SubGet" []
    "GET" "/api/v1/sub"
    [] [] [] None.

Definition apiV1SubUpdatePut (body : JsValue) : Operation :=
  mkOperation "apiV1SubUpdatePut" []
    "PUT" "/api/v1/sub/update"
    [] [] [contentJson] (Some body).

(** ** VerificationApiAxiosParamCreator *)

Definition apiV1VerifyEmailOtpConfirmPost (body : JsValue) : Operation :=
  mkOperation "apiV1VerifyEmailOtpConfirmPost" [("body", negb (is_null body))]
    "POST" "/api/v1/verify/email/otp/confirm"
    [] [] [contentJson] (Some body).

Definition apiV1VerifyEmailOtpRequestPost : Operation :=
  mkOperation "apiV1VerifyEmailOtpRequestPost" []
    "POST" "/api/v1/verify/email/otp/request"
    [] [] [] None.

Definition apiV1VerifyResetPasswordPost (body : JsValue) (xMfaCode : option string)
    (xMfaMethods : option (list string)) : Operation :=
  mkOperation "apiV1VerifyResetPasswordPost" [("body", negb (is_null body))]
    "POST" "/api/v1/verify/reset-password"
    [] [] [contentJson; ("x-mfa-code", xMfaCode); ("x-mfa-methods", csv <$> xMfaMethods)] (Some body).

Section client.
Context (apiUrl : string).

(** ** AccountApiFp and AccountApi *)

Definition AccountApiFp_apiV1AccountsCurrentDelete (conf : option Configuration) (body : JsValue)
    (options : AxiosRequestConfig) :=
  fpRequest apiUrl conf "AccountApi.apiV1AccountsCurrentDelete"
    (toRequestArgs conf options (apiV1AccountsCurrentDelete body)).
Definition AccountApi_apiV1AccountsCurrentDelete (self : BaseAPI) (body : JsValue)
    (options : AxiosRequestConfig) :=
  callRequest self (AccountApiFp_apiV1AccountsCurrentDelete (api_configuration self) body options).

Definition AccountApiFp_apiV1AccountsCurrentDeletionCodePost (conf : option Configuration)
    (options : AxiosRequestConfig) :=
  fpRequest apiUrl conf "AccountApi.apiV1AccountsCurrentDeletionCodePost"
    (toRequestArgs conf options apiV1AccountsCurrentDeletionCodePost).
Definition AccountApi_apiV1AccountsCurrentDeletionCodePost (self : BaseAPI)
    (options : AxiosRequestConfig) :=
  callRequest self
    (AccountApiFp_apiV1AccountsCurrentDeletionCodePost (api_configuration self) options).

Definition AccountApiFp_apiV1AccountsCurrentGet (conf : option Configuration)
    (options : AxiosRequestConfig) :=
  fpRequest apiUrl conf "AccountApi.apiV1AccountsCurrentGet"
    (toRequestArgs conf options apiV1AccountsCurrentGet).
Definition AccountApi_apiV1AccountsCurrentGet (self : BaseAPI) (options : AxiosRequestConfig) :=
  callRequest self (AccountApiFp_apiV1AccountsCurrentGet (api_configuration self) options).

Definition AccountApiFp_apiV1AccountsMfaTotpDisablePost (conf : option Configuration)
    (body : JsValue) (options : AxiosRequestConfig) :=
  fpRequest apiUrl conf "AccountApi.apiV1AccountsMfaTotpDisablePost"
    (toRequestArgs conf options (apiV1AccountsMfaTotpDisablePost body)).
Definition AccountApi_apiV1AccountsMfaTotpDisablePost (self : BaseAPI) (body : JsValue)
    (options : AxiosRequestConfig) :=
  callRequest self
    (AccountApiFp_apiV1AccountsMfaTotpDisablePost (api_configuration self) body options).

Definition AccountApiFp_apiV1AccountsMfaTotpEnableConfirmPost (conf : option Configuration)
    (body : JsValue) (options : AxiosRequestConfig) :=
  fpRequest apiUrl conf "AccountApi.apiV1AccountsMfaTotpEnableConfirmPost"
    (toRequestArgs conf options (apiV1AccountsMfaTotpEnableConfirmPost body)).
Definition AccountApi_apiV1AccountsMfaTotpEnableConfirmPost (self : BaseAPI) (body : JsValue)
    (options : AxiosRequestConfig) :=
  callRequest self
    (AccountApiFp_apiV1AccountsMfaTotpEnableConfirmPost (api_configuration self) body options).

Definition AccountApiFp_apiV1AccountsMfaTotpEnablePost (conf : option Configuration)
    (options : AxiosRequestConfig) :=
  fpRequest apiUrl conf "AccountApi.apiV1AccountsMfaTotpEnablePost"
    (toRequestArgs conf options apiV1AccountsMfaTotpEnablePost).
Definition AccountApi_apiV1AccountsMfaTotpEnablePost (self : BaseAPI) (options : AxiosRequestConfig)
    :=
  callRequest self (AccountApiFp_apiV1AccountsMfaTotpEnablePost (api_configuration self) options).

Definition AccountApiFp_apiV1AccountsPatch (conf : option Configuration) (body : JsValue)
    (xMfaCode : option string) (xMfaMethods : option (list string)) (options : AxiosRequestConfig) :=
  fpRequest apiUrl conf "AccountApi.apiV1AccountsPatch"
    (toRequestArgs conf options (apiV1AccountsPatch body xMfaCode xMfaMethods)).
Definition AccountApi_apiV1AccountsPatch (self : BaseAPI) (body : JsValue) (xMfaCode : option string)
    (xMfaMethods : option (list string)) (options : AxiosRequestConfig) :=
  callRequest self
    (AccountApiFp_apiV1AccountsPatch (api_configuration self) body xMfaCode xMfaMethods options).

Definition AccountApiFp_apiV1AccountsPost (conf : option Configuration) (body : JsValue)
    (options : AxiosRequestConfig) :=
  fpRequest apiUrl conf "AccountApi.apiV1AccountsPost"
    (toRequestArgs conf options (apiV1AccountsPost body)).
Definition AccountApi_apiV1AccountsPost (self : BaseAPI) (body : JsValue)
    (options : AxiosRequestConfig) :=
  callRequest self (AccountApiFp_apiV1AccountsPost (api_configuration self) body options).

Definition AccountApiFp_apiV1AccountsResetPasswordPost (conf : option Configuration) (body : JsValue)
    (options : AxiosRequestConfig) :=
  fpRequest apiUrl conf "AccountApi.apiV1AccountsResetPasswordPost"
    (toRequestArgs conf options (apiV1AccountsResetPasswordPost body)).
Definition AccountApi_apiV1AccountsResetPasswordPost (self : BaseAPI) (body : JsValue)
    (options : AxiosRequestConfig) :=
  callRequest self (AccountApiFp_apiV1AccountsResetPasswordPost (api_configuration self) body options).

(** ** AnnouncementsApiFp and AnnouncementsApi *)

Definition AnnouncementsApiFp_apiV1AnnouncementsGet (conf : option Configuration)
    (options : AxiosRequestConfig) :=
  fpRequest apiUrl conf "AnnouncementsApi.apiV1AnnouncementsGet"
    (toRequestArgs conf options apiV1AnnouncementsGet).
Definition AnnouncementsApi_apiV1AnnouncementsGet (self : BaseAPI) (options : AxiosRequestConfig) :=
  callRequest self (AnnouncementsApiFp_apiV1AnnouncementsGet (api_configuration self) options).

(** ** AppleMobileconfigApiFp and AppleMobileconfigApi *)

Definition AppleMobileconfigApiFp_apiV1MobileconfigPost (conf : option Configuration)
    (body : JsValue) (options : AxiosRequestConfig) :=
  fpRequest apiUrl conf "AppleMobileconfigApi.apiV1MobileconfigPost"
    (toRequestArgs conf options (apiV1MobileconfigPost body)).
Definition AppleMobileconfigApi_apiV1MobileconfigPost (self : BaseAPI) (body : JsValue)
    (options : AxiosRequestConfig) :=
  callRequest self
    (AppleMobileconfigApiFp_apiV1MobileconfigPost (api_configuration self) body options).

Definition AppleMobileconfigApiFp_apiV1MobileconfigShortPost (conf : option Configuration)
    (body : JsValue) (options : AxiosRequestConfig) :=
  fpRequest apiUrl conf "AppleMobileconfigApi.apiV1MobileconfigShortPost"
    (toRequestArgs conf options (apiV1MobileconfigShortPost body)).
Definition AppleMobileconfigApi_apiV1MobileconfigShortPost (self : BaseAPI) (body : JsValue)
    (options : AxiosRequestConfig) :=
  callRequest self
    (AppleMobileconfigApiFp_apiV1MobileconfigShortPost (api_configuration self) body options).

Definition AppleMobileconfigApiFp_apiV1ShortCodeGet (conf : option Configuration)
    (code : option string) (options : AxiosRequestConfig) :=
  fpRequest apiUrl conf "AppleMobileconfigApi.apiV1ShortCodeGet"
    (toRequestArgs conf options (apiV1ShortCodeGet code)).
Definition AppleMobileconfigApi_apiV1ShortCodeGet (self : BaseAPI) (code : option string)
    (options : AxiosRequestConfig) :=
  callRequest self (AppleMobileconfigApiFp_apiV1ShortCodeGet (api_configuration self) code options).

(** ** AuthenticationApiFp and AuthenticationApi *)

Definition AuthenticationApiFp_apiV1AccountsLogoutPost (conf : option Configuration)
    (options : AxiosRequestConfig) :=
  fpRequest apiUrl conf "AuthenticationApi.apiV1AccountsLogoutPost"
    (toRequestArgs conf options apiV1AccountsLogoutPost).
Definition AuthenticationApi_apiV1AccountsLogoutPost (self : BaseAPI) (options : AxiosRequestConfig)
    :=
  callRequest self (AuthenticationApiFp_apiV1AccountsLogoutPost (api_configuration self) options).

Definition AuthenticationApiFp_apiV1LoginPost (conf : option Configuration) (body : JsValue)
    (xMfaCode : option string) (xMfaMethods : option (list string)) (xSessionsRemove : option string)
    (options : AxiosRequestConfig) :=
  fpRequest apiUrl conf "AuthenticationApi.apiV1LoginPost"
    (toRequestArgs conf options (apiV1LoginPost body xMfaCode xMfaMethods xSessionsRemove)).
Definition AuthenticationApi_apiV1LoginPost (self : BaseAPI) (body : JsValue)
    (xMfaCode : option string) (xMfaMethods : option (list string)) (xSessionsRemove : option string)
    (options : AxiosRequestConfig) :=
  callRequest self
    (AuthenticationApiFp_apiV1LoginPost (api_configuration self) body xMfaCode xMfaMethods xSessionsRemove options).

Definition AuthenticationApiFp_apiV1WebauthnLoginBeginPost (conf : option Configuration)
    (body : JsValue) (options : AxiosRequestConfig) :=
  fpRequest apiUrl conf "AuthenticationApi.apiV1WebauthnLoginBeginPost"
    (toRequestArgs conf options (apiV1WebauthnLoginBeginPost body)).
Definition AuthenticationApi_apiV1WebauthnLoginBeginPost (self : BaseAPI) (body : JsValue)
    (options : AxiosRequestConfig) :=
  callRequest self
    (AuthenticationApiFp_apiV1WebauthnLoginBeginPost (api_configuration self) body options).

Definition AuthenticationApiFp_apiV1WebauthnLoginFinishPost (conf : option Configuration)
    (xSessionsRemove : option string) (options : AxiosRequestConfig) :=
  fpRequest apiUrl conf "AuthenticationApi.apiV1WebauthnLoginFinishPost"
    (toRequestArgs conf options (apiV1WebauthnLoginFinishPost xSessionsRemove)).
Definition AuthenticationApi_apiV1WebauthnLoginFinishPost (self : BaseAPI)
    (xSessionsRemove : option string) (options : AxiosRequestConfig) :=
  callRequest self
    (AuthenticationApiFp_apiV1WebauthnLoginFinishPost (api_configuration self) xSessionsRemove options).

Definition AuthenticationApiFp_apiV1WebauthnPasskeyAddBeginPost (conf : option Configuration)
    (body : JsValue) (xMfaCode : option string) (xMfaMethods : option (list string))
    (options : AxiosRequestConfig) :=
  fpRequest apiUrl conf "AuthenticationApi.apiV1WebauthnPasskeyAddBeginPost"
    (toRequestArgs conf options (apiV1WebauthnPasskeyAddBeginPost body xMfaCode xMfaMethods)).
Definition AuthenticationApi_apiV1WebauthnPasskeyAddBeginPost (self : BaseAPI) (body : JsValue)
    (xMfaCode : option string) (xMfaMethods : option (list string)) (options : AxiosRequestConfig) :=
  callRequest self
    (AuthenticationApiFp_apiV1WebauthnPasskeyAddBeginPost (api_configuration self) body xMfaCode xMfaMethods options).

Definition AuthenticationApiFp_apiV1WebauthnPasskeyAddFinishPost (conf : option Configuration)
    (options : AxiosRequestConfig) :=
  fpRequest apiUrl conf "AuthenticationApi.apiV1WebauthnPasskeyAddFinishPost"
    (toRequestArgs conf options apiV1WebauthnPasskeyAddFinishPost).
Definition AuthenticationApi_apiV1WebauthnPasskeyAddFinishPost (self : BaseAPI)
    (options : AxiosRequestConfig) :=
  callRequest self
    (AuthenticationApiFp_apiV1WebauthnPasskeyAddFinishPost (api_configuration self) options).

Definition AuthenticationApiFp_apiV1WebauthnPasskeyIdDelete (conf : option Configuration)
    (id : option string) (body : JsValue) (xMfaCode : option string) (xMfaMethods : option (list string))
    (options : AxiosRequestConfig) :=
  fpRequest apiUrl conf "AuthenticationApi.apiV1WebauthnPasskeyIdDelete"
    (toRequestArgs conf options (apiV1WebauthnPasskeyIdDelete id body xMfaCode xMfaMethods)).
Definition AuthenticationApi_apiV1WebauthnPasskeyIdDelete (self : BaseAPI) (id : option string)
    (body : JsValue) (xMfaCode : option string) (xMfaMethods : option (list string))
    (options : AxiosRequestConfig) :=
  callRequest self
    (AuthenticationApiFp_apiV1WebauthnPasskeyIdDelete (api_configuration self) id body xMfaCode xMfaMethods options).

Definition AuthenticationApiFp_apiV1WebauthnPasskeyReauthBeginPost (conf : option Configuration)
    (body : JsValue) (options : AxiosRequestConfig) :=
  fpRequest apiUrl conf "AuthenticationApi.apiV1WebauthnPasskeyReauthBeginPost"
    (toRequestArgs conf options (apiV1WebauthnPasskeyReauthBeginPost body)).
Definition AuthenticationApi_apiV1WebauthnPasskeyReauthBeginPost (self : BaseAPI) (body : JsValue)
    (options : AxiosRequestConfig) :=
  callRequest self
    (AuthenticationApiFp_apiV1WebauthnPasskeyReauthBeginPost (api_configuration self) body options).

Definition AuthenticationApiFp_apiV1WebauthnPasskeyReauthFinishPost (conf : option Configuration)
    (options : AxiosRequestConfig) :=
  fpRequest apiUrl conf "AuthenticationApi.apiV1WebauthnPasskeyReauthFinishPost"
    (toRequestArgs conf options apiV1WebauthnPasskeyReauthFinishPost).
Definition AuthenticationApi_apiV1WebauthnPasskeyReauthFinishPost (self : BaseAPI)
    (options : AxiosRequestConfig) :=
  callRequest self
    (AuthenticationApiFp_apiV1WebauthnPasskeyReauthFinishPost (api_configuration self) options).

Definition AuthenticationApiFp_apiV1WebauthnPasskeysGet (conf : option Configuration)
    (options : AxiosRequestConfig) :=
  fpRequest apiUrl conf "AuthenticationApi.apiV1WebauthnPasskeysGet"
    (toRequestArgs conf options apiV1WebauthnPasskeysGet).
Definition AuthenticationApi_apiV1WebauthnPasskeysGet (self : BaseAPI) (options : AxiosRequestConfig)
    :=
  callRequest self (AuthenticationApiFp_apiV1WebauthnPasskeysGet (api_configuration self) options).

Definition AuthenticationApiFp_apiV1WebauthnRegisterBeginPost (conf : option Configuration)
    (body : JsValue) (options : AxiosRequestConfig) :=
  fpRequest apiUrl conf "AuthenticationApi.apiV1WebauthnRegisterBeginPost"
    (toRequestArgs conf options (apiV1WebauthnRegisterBeginPost body)).
Definition AuthenticationApi_apiV1WebauthnRegisterBeginPost (self : BaseAPI) (body : JsValue)
    (options : AxiosRequestConfig) :=
  callRequest self
    (AuthenticationApiFp_apiV1WebauthnRegisterBeginPost (api_configuration self) body options).

Definition AuthenticationApiFp_apiV1WebauthnRegisterFinishPost (conf : option Configuration)
    (options : AxiosRequestConfig) :=
  fpRequest apiUrl conf "AuthenticationApi.apiV1WebauthnRegisterFinishPost"
    (toRequestArgs conf options apiV1WebauthnRegisterFinishPost).
Definition AuthenticationApi_apiV1WebauthnRegisterFinishPost (self : BaseAPI)
    (options : AxiosRequestConfig) :=
  callRequest self
    (AuthenticationApiFp_apiV1WebauthnRegisterFinishPost (api_configuration self) options).

(** ** BlocklistsApiFp and BlocklistsApi *)

Definition BlocklistsApiFp_apiV1BlocklistsGet (conf : option Configuration) (sortBy : option string)
    (options : AxiosRequestConfig) :=
  fpRequest apiUrl conf "BlocklistsApi.apiV1BlocklistsGet"
    (toRequestArgs conf options (apiV1BlocklistsGet sortBy)).
Definition BlocklistsApi_apiV1BlocklistsGet (self : BaseAPI) (sortBy : option string)
    (options : AxiosRequestConfig) :=
  callRequest self (BlocklistsApiFp_apiV1BlocklistsGet (api_configuration self) sortBy options).

(** ** DNSStampsApiFp and DNSStampsApi *)

Definition DNSStampsApiFp_apiV1DnsstampPost (conf : option Configuration) (body : JsValue)
    (options : AxiosRequestConfig) :=
  fpRequest apiUrl conf "DNSStampsApi.apiV1DnsstampPost"
    (toRequestArgs conf options (apiV1DnsstampPost body)).
Definition DNSStampsApi_apiV1DnsstampPost (self : BaseAPI) (body : JsValue)
    (options : AxiosRequestConfig) :=
  callRequest self (DNSStampsApiFp_apiV1DnsstampPost (api_configuration self) body options).

(** ** PASessionApiFp and PASessionApi *)

Definition PASessionApiFp_apiV1PasessionAddPost (conf : option Configuration) (body : JsValue)
    (options : AxiosRequestConfig) :=
  fpRequest apiUrl conf "PASessionApi.apiV1PasessionAddPost"
    (toRequestArgs conf options (apiV1PasessionAddPost body)).
Definition PASessionApi_apiV1PasessionAddPost (self : BaseAPI) (body : JsValue)
    (options : AxiosRequestConfig) :=
  callRequest self (PASessionApiFp_apiV1PasessionAddPost (api_configuration self) body options).

Definition PASessionApiFp_apiV1PasessionRotatePut (conf : option Configuration) (body : JsValue)
    (options : AxiosRequestConfig) :=
  fpRequest apiUrl conf "PASessionApi.apiV1PasessionRotatePut"
    (toRequestArgs conf options (apiV1PasessionRotatePut body)).
Definition PASessionApi_apiV1PasessionRotatePut (self : BaseAPI) (body : JsValue)
    (options : AxiosRequestConfig) :=
  callRequest self (PASessionApiFp_apiV1PasessionRotatePut (api_configuration self) body options).

(** ** ProfileApiFp and ProfileApi *)

Definition ProfileApiFp_apiV1ProfilesExportPost (conf : option Configuration) (body : JsValue)
    (options : AxiosRequestConfig) :=
  fpRequest apiUrl conf "ProfileApi.apiV1ProfilesExportPost"
    (toRequestArgs conf options (apiV1ProfilesExportPost body)).
Definition ProfileApi_apiV1ProfilesExportPost (self : BaseAPI) (body : JsValue)
    (options : AxiosRequestConfig) :=
  callRequest self (ProfileApiFp_apiV1ProfilesExportPost (api_configuration self) body options).

Definition ProfileApiFp_apiV1ProfilesGet (conf : option Configuration) (options : AxiosRequestConfig)
    :=
  fpRequest apiUrl conf "ProfileApi.apiV1ProfilesGet"
    (toRequestArgs conf options apiV1ProfilesGet).
Definition ProfileApi_apiV1ProfilesGet (self : BaseAPI) (options : AxiosRequestConfig) :=
  callRequest self (ProfileApiFp_apiV1ProfilesGet (api_configuration self) options).

Definition ProfileApiFp_apiV1ProfilesIdBlocklistsDelete (conf : option Configuration)
    (id : option string) (blocklistIds : JsValue) (options : AxiosRequestConfig) :=
  fpRequest apiUrl conf "ProfileApi.apiV1ProfilesIdBlocklistsDelete"
    (toRequestArgs conf options (apiV1ProfilesIdBlocklistsDelete id blocklistIds)).
Definition ProfileApi_apiV1ProfilesIdBlocklistsDelete (self : BaseAPI) (id : option string)
    (blocklistIds : JsValue) (options : AxiosRequestConfig) :=
  callRequest self
    (ProfileApiFp_apiV1ProfilesIdBlocklistsDelete (api_configuration self) id blocklistIds options).

Definition ProfileApiFp_apiV1ProfilesIdBlocklistsPost (conf : option Configuration)
    (id : option string) (blocklistIds : JsValue) (options : AxiosRequestConfig) :=
  fpRequest apiUrl conf "ProfileApi.apiV1ProfilesIdBlocklistsPost"
    (toRequestArgs conf options (apiV1ProfilesIdBlocklistsPost id blocklistIds)).
Definition ProfileApi_apiV1ProfilesIdBlocklistsPost (self : BaseAPI) (id : option string)
    (blocklistIds : JsValue) (options : AxiosRequestConfig) :=
  callRequest self
    (ProfileApiFp_apiV1ProfilesIdBlocklistsPost (api_configuration self) id blocklistIds options).

Definition ProfileApiFp_apiV1ProfilesIdCustomRuleGroupsOrderPatch (conf : option Configuration)
    (id : option string) (body : JsValue) (options : AxiosRequestConfig) :=
  fpRequest apiUrl conf "ProfileApi.apiV1ProfilesIdCustomRuleGroupsOrderPatch"
    (toRequestArgs conf options (apiV1ProfilesIdCustomRuleGroupsOrderPatch id body)).
Definition ProfileApi_apiV1ProfilesIdCustomRuleGroupsOrderPatch (self : BaseAPI) (id : option string)
    (body : JsValue) (options : AxiosRequestConfig) :=
  callRequest self
    (ProfileApiFp_apiV1ProfilesIdCustomRuleGroupsOrderPatch (api_configuration self) id body options).

Definition ProfileApiFp_apiV1ProfilesIdCustomRuleGroupsPatch (conf : option Configuration)
    (id : option string) (body : JsValue) (options : AxiosRequestConfig) :=
  fpRequest apiUrl conf "ProfileApi.apiV1ProfilesIdCustomRuleGroupsPatch"
    (toRequestArgs conf options (apiV1ProfilesIdCustomRuleGroupsPatch id body)).
Definition ProfileApi_apiV1ProfilesIdCustomRuleGroupsPatch (self : BaseAPI) (id : option string)
    (body : JsValue) (options : AxiosRequestConfig) :=
  callRequest self
    (ProfileApiFp_apiV1ProfilesIdCustomRuleGroupsPatch (api_configuration self) id body options).

Definition ProfileApiFp_apiV1ProfilesIdCustomRulesBatchPost (conf : option Configuration)
    (id : option string) (body : JsValue) (options : AxiosRequestConfig) :=
  fpRequest apiUrl conf "ProfileApi.apiV1ProfilesIdCustomRulesBatchPost"
    (toRequestArgs conf options (apiV1ProfilesIdCustomRulesBatchPost id body)).
Definition ProfileApi_apiV1ProfilesIdCustomRulesBatchPost (self : BaseAPI) (id : option string)
    (body : JsValue) (options : AxiosRequestConfig) :=
  callRequest self
    (ProfileApiFp_apiV1ProfilesIdCustomRulesBatchPost (api_configuration self) id body options).

Definition ProfileApiFp_apiV1ProfilesIdCustomRulesCustomRuleIdDelete (conf : option Configuration)
    (id customRuleId : option string) (options : AxiosRequestConfig) :=
  fpRequest apiUrl conf "ProfileApi.apiV1ProfilesIdCustomRulesCustomRuleIdDelete"
    (toRequestArgs conf options (apiV1ProfilesIdCustomRulesCustomRuleIdDelete id customRuleId)).
Definition ProfileApi_apiV1ProfilesIdCustomRulesCustomRuleIdDelete (self : BaseAPI)
    (id customRuleId : option string) (options : AxiosRequestConfig) :=
  callRequest self
    (ProfileApiFp_apiV1ProfilesIdCustomRulesCustomRuleIdDelete (api_configuration self) id customRuleId options).

Definition ProfileApiFp_apiV1ProfilesIdCustomRulesOrderPatch (conf : option Configuration)
    (id : option string) (body : JsValue) (options : AxiosRequestConfig) :=
  fpRequest apiUrl conf "ProfileApi.apiV1ProfilesIdCustomRulesOrderPatch"
    (toRequestArgs conf options (apiV1ProfilesIdCustomRulesOrderPatch id body)).
Definition ProfileApi_apiV1ProfilesIdCustomRulesOrderPatch (self : BaseAPI) (id : option string)
    (body : JsValue) (options : AxiosRequestConfig) :=
  callRequest self
    (ProfileApiFp_apiV1ProfilesIdCustomRulesOrderPatch (api_configuration self) id body options).

Definition ProfileApiFp_apiV1ProfilesIdCustomRulesPost (conf : option Configuration)
    (id : option string) (body : JsValue) (options : AxiosRequestConfig) :=
  fpRequest apiUrl conf "ProfileApi.apiV1ProfilesIdCustomRulesPost"
    (toRequestArgs conf options (apiV1ProfilesIdCustomRulesPost id body)).
Definition ProfileApi_apiV1ProfilesIdCustomRulesPost (self : BaseAPI) (id : option string)
    (body : JsValue) (options : AxiosRequestConfig) :=
  callRequest self
    (ProfileApiFp_apiV1ProfilesIdCustomRulesPost (api_configuration self) id body options).

Definition ProfileApiFp_apiV1ProfilesIdDelete (conf : option Configuration) (id : option string)
    (options : AxiosRequestConfig) :=
  fpRequest apiUrl conf "ProfileApi.apiV1ProfilesIdDelete"
    (toRequestArgs conf options (apiV1ProfilesIdDelete id)).
Definition ProfileApi_apiV1ProfilesIdDelete (self : BaseAPI) (id : option string)
    (options : AxiosRequestConfig) :=
  callRequest self (ProfileApiFp_apiV1ProfilesIdDelete (api_configuration self) id options).

Definition ProfileApiFp_apiV1ProfilesIdGet (conf : option Configuration) (id : option string)
    (options : AxiosRequestConfig) :=
  fpRequest apiUrl conf "ProfileApi.apiV1ProfilesIdGet"
    (toRequestArgs conf options (apiV1ProfilesIdGet id)).
Definition ProfileApi_apiV1ProfilesIdGet (self : BaseAPI) (id : option string)
    (options : AxiosRequestConfig) :=
  callRequest self (ProfileApiFp_apiV1ProfilesIdGet (api_configuration self) id options).

Definition ProfileApiFp_apiV1ProfilesIdPatch (conf : option Configuration) (id : option string)
    (body : JsValue) (options : AxiosRequestConfig) :=
  fpRequest apiUrl conf "ProfileApi.apiV1ProfilesIdPatch"
    (toRequestArgs conf options (apiV1ProfilesIdPatch id body)).
Definition ProfileApi_apiV1ProfilesIdPatch (self : BaseAPI) (id : option string) (body : JsValue)
    (options : AxiosRequestConfig) :=
  callRequest self (ProfileApiFp_apiV1ProfilesIdPatch (api_configuration self) id body options).

Definition ProfileApiFp_apiV1ProfilesIdServicesDelete (conf : option Configuration)
    (id : option string) (serviceIds : JsValue) (options : AxiosRequestConfig) :=
  fpRequest apiUrl conf "ProfileApi.apiV1ProfilesIdServicesDelete"
    (toRequestArgs conf options (apiV1ProfilesIdServicesDelete id serviceIds)).
Definition ProfileApi_apiV1ProfilesIdServicesDelete (self : BaseAPI) (id : option string)
    (serviceIds : JsValue) (options : AxiosRequestConfig) :=
  callRequest self
    (ProfileApiFp_apiV1ProfilesIdServicesDelete (api_configuration self) id serviceIds options).

Definition ProfileApiFp_apiV1ProfilesIdServicesPost (conf : option Configuration)
    (id : option string) (serviceIds : JsValue) (options : AxiosRequestConfig) :=
  fpRequest apiUrl conf "ProfileApi.apiV1ProfilesIdServicesPost"
    (toRequestArgs conf options (apiV1ProfilesIdServicesPost id serviceIds)).
Definition ProfileApi_apiV1ProfilesIdServicesPost (self : BaseAPI) (id : option string)
    (serviceIds : JsValue) (options : AxiosRequestConfig) :=
  callRequest self
    (ProfileApiFp_apiV1ProfilesIdServicesPost (api_configuration self) id serviceIds options).

Definition ProfileApiFp_apiV1ProfilesImportPost (conf : option Configuration)
    (xModDNSImport : option string) (body : JsValue) (options : AxiosRequestConfig) :=
  fpRequest apiUrl conf "ProfileApi.apiV1ProfilesImportPost"
    (toRequestArgs conf options (apiV1ProfilesImportPost xModDNSImport body)).
Definition ProfileApi_apiV1ProfilesImportPost (self : BaseAPI) (xModDNSImport : option string)
    (body : JsValue) (options : AxiosRequestConfig) :=
  callRequest self
    (ProfileApiFp_apiV1ProfilesImportPost (api_configuration self) xModDNSImport body options).

Definition ProfileApiFp_apiV1ProfilesPost (conf : option Configuration) (body : JsValue)
    (options : AxiosRequestConfig) :=
  fpRequest apiUrl conf "ProfileApi.apiV1ProfilesPost"
    (toRequestArgs conf options (apiV1ProfilesPost body)).
Definition ProfileApi_apiV1ProfilesPost (self : BaseAPI) (body : JsValue)
    (options : AxiosRequestConfig) :=
  callRequest self (ProfileApiFp_apiV1ProfilesPost (api_configuration self) body options).

Definition ProfileApiFp_apiV1ProfilesProfileIdCustomRulesCustomRuleIdPatch
    (conf : option Configuration) (profileId customRuleId : option string) (body : JsValue)
    (options : AxiosRequestConfig) :=
  fpRequest apiUrl conf "ProfileApi.apiV1ProfilesProfileIdCustomRulesCustomRuleIdPatch"
    (toRequestArgs conf options (apiV1ProfilesProfileIdCustomRulesCustomRuleIdPatch profileId customRuleId body)).
Definition ProfileApi_apiV1ProfilesProfileIdCustomRulesCustomRuleIdPatch (self : BaseAPI)
    (profileId customRuleId : option string) (body : JsValue) (options : AxiosRequestConfig) :=
  callRequest self
    (ProfileApiFp_apiV1ProfilesProfileIdCustomRulesCustomRuleIdPatch (api_configuration self) profileId customRuleId body options).

(** ** QueryLogsApiFp and QueryLogsApi *)

Definition QueryLogsApiFp_apiV1ProfilesIdLogsDelete (conf : option Configuration)
    (id : option string) (options : AxiosRequestConfig) :=
  fpRequest apiUrl conf "QueryLogsApi.apiV1ProfilesIdLogsDelete"
    (toRequestArgs conf options (apiV1ProfilesIdLogsDelete id)).
Definition QueryLogsApi_apiV1ProfilesIdLogsDelete (self : BaseAPI) (id : option string)
    (options : AxiosRequestConfig) :=
  callRequest self (QueryLogsApiFp_apiV1ProfilesIdLogsDelete (api_configuration self) id options).

Definition QueryLogsApiFp_apiV1ProfilesIdLogsDevicesGet (conf : option Configuration)
    (id : option string) (options : AxiosRequestConfig) :=
  fpRequest apiUrl conf "QueryLogsApi.apiV1ProfilesIdLogsDevicesGet"
    (toRequestArgs conf options (apiV1ProfilesIdLogsDevicesGet id)).
Definition QueryLogsApi_apiV1ProfilesIdLogsDevicesGet (self : BaseAPI) (id : option string)
    (options : AxiosRequestConfig) :=
  callRequest self (QueryLogsApiFp_apiV1ProfilesIdLogsDevicesGet (api_configuration self) id options).

Definition QueryLogsApiFp_apiV1ProfilesIdLogsDownloadGet (conf : option Configuration)
    (id : option string) (options : AxiosRequestConfig) :=
  fpRequest apiUrl conf "QueryLogsApi.apiV1ProfilesIdLogsDownloadGet"
    (toRequestArgs conf options (apiV1ProfilesIdLogsDownloadGet id)).
Definition QueryLogsApi_apiV1ProfilesIdLogsDownloadGet (self : BaseAPI) (id : option string)
    (options : AxiosRequestConfig) :=
  callRequest self (QueryLogsApiFp_apiV1ProfilesIdLogsDownloadGet (api_configuration self) id options).

Definition QueryLogsApiFp_apiV1ProfilesIdLogsGet (conf : option Configuration) (id : option string)
    (page limit : option Z) (status timespan deviceId search sortBy : option string)
    (options : AxiosRequestConfig) :=
  fpRequest apiUrl conf "QueryLogsApi.apiV1ProfilesIdLogsGet"
    (toRequestArgs conf options (apiV1ProfilesIdLogsGet id page limit status timespan deviceId search sortBy)).
Definition QueryLogsApi_apiV1ProfilesIdLogsGet (self : BaseAPI) (id : option string)
    (page limit : option Z) (status timespan deviceId search sortBy : option string)
    (options : AxiosRequestConfig) :=
  callRequest self
    (QueryLogsApiFp_apiV1ProfilesIdLogsGet (api_configuration self) id page limit status timespan deviceId search sortBy options).

Definition QueryLogsApiFp_apiV1ProfilesIdLogsTopBlocklistsGet (conf : option Configuration)
    (id timespan : option string) (limit : option Z) (options : AxiosRequestConfig) :=
  fpRequest apiUrl conf "QueryLogsApi.apiV1ProfilesIdLogsTopBlocklistsGet"
    (toRequestArgs conf options (apiV1ProfilesIdLogsTopBlocklistsGet id timespan limit)).
Definition QueryLogsApi_apiV1ProfilesIdLogsTopBlocklistsGet (self : BaseAPI)
    (id timespan : option string) (limit : option Z) (options : AxiosRequestConfig) :=
  callRequest self
    (QueryLogsApiFp_apiV1ProfilesIdLogsTopBlocklistsGet (api_configuration self) id timespan limit options).

Definition QueryLogsApiFp_apiV1ProfilesIdLogsTopClientsGet (conf : option Configuration)
    (id timespan : option string) (limit : option Z) (options : AxiosRequestConfig) :=
  fpRequest apiUrl conf "QueryLogsApi.apiV1ProfilesIdLogsTopClientsGet"
    (toRequestArgs conf options (apiV1ProfilesIdLogsTopClientsGet id timespan limit)).
Definition QueryLogsApi_apiV1ProfilesIdLogsTopClientsGet (self : BaseAPI)
    (id timespan : option string) (limit : option Z) (options : AxiosRequestConfig) :=
  callRequest self
    (QueryLogsApiFp_apiV1ProfilesIdLogsTopClientsGet (api_configuration self) id timespan limit options).

Definition QueryLogsApiFp_apiV1ProfilesIdLogsTopDomainsGet (conf : option Configuration)
    (id kind timespan : option string) (limit : option Z) (options : AxiosRequestConfig) :=
  fpRequest apiUrl conf "QueryLogsApi.apiV1ProfilesIdLogsTopDomainsGet"
    (toRequestArgs conf options (apiV1ProfilesIdLogsTopDomainsGet id kind timespan limit)).
Definition QueryLogsApi_apiV1ProfilesIdLogsTopDomainsGet (self : BaseAPI)
    (id kind timespan : option string) (limit : option Z) (options : AxiosRequestConfig) :=
  callRequest self
    (QueryLogsApiFp_apiV1ProfilesIdLogsTopDomainsGet (api_configuration self) id kind timespan limit options).

(** ** ServicesApiFp and ServicesApi *)

Definition ServicesApiFp_apiV1ServicesGet (conf : option Configuration)
    (options : AxiosRequestConfig) :=
  fpRequest apiUrl conf "ServicesApi.apiV1ServicesGet"
    (toRequestArgs conf options apiV1ServicesGet).
Definition ServicesApi_apiV1ServicesGet (self : BaseAPI) (options : AxiosRequestConfig) :=
  callRequest self (ServicesApiFp_apiV1ServicesGet (api_configuration self) options).

(** ** SessionsApiFp and SessionsApi *)

Definition SessionsApiFp_apiV1SessionsDelete (conf : option Configuration)
    (options : AxiosRequestConfig) :=
  fpRequest apiUrl conf "SessionsApi.apiV1SessionsDelete"
    (toRequestArgs conf options apiV1SessionsDelete).
Definition SessionsApi_apiV1SessionsDelete (self : BaseAPI) (options : AxiosRequestConfig) :=
  callRequest self (SessionsApiFp_apiV1SessionsDelete (api_configuration self) options).

(** ** StatisticsApiFp and StatisticsApi *)

Definition StatisticsApiFp_apiV1ProfilesIdStatisticsDelete (conf : option Configuration)
    (id : option string) (options : AxiosRequestConfig) :=
  fpRequest apiUrl conf "StatisticsApi.apiV1ProfilesIdStatisticsDelete"
    (toRequestArgs conf options (apiV1ProfilesIdStatisticsDelete id)).
Definition StatisticsApi_apiV1ProfilesIdStatisticsDelete (self : BaseAPI) (id : option string)
    (options : AxiosRequestConfig) :=
  callRequest self
    (StatisticsApiFp_apiV1ProfilesIdStatisticsDelete (api_configuration self) id options).

Definition StatisticsApiFp_apiV1ProfilesIdStatisticsGet (conf : option Configuration)
    (id timespan : option string) (options : AxiosRequestConfig) :=
  fpRequest apiUrl conf "StatisticsApi.apiV1ProfilesIdStatisticsGet"
    (toRequestArgs conf options (apiV1ProfilesIdStatisticsGet id timespan)).
Definition StatisticsApi_apiV1ProfilesIdStatisticsGet (self : BaseAPI) (id timespan : option string)
    (options : AxiosRequestConfig) :=
  callRequest self
    (StatisticsApiFp_apiV1ProfilesIdStatisticsGet (api_configuration self) id timespan options).

(** ** SubscriptionApiFp and SubscriptionApi *)

Definition SubscriptionApiFp_apiV1SubGet (conf : option Configuration) (options : AxiosRequestConfig)
    :=
  fpRequest apiUrl conf "SubscriptionApi.apiV1SubGet"
    (toRequestArgs conf options apiV1SubGet).
Definition SubscriptionApi_apiV1SubGet (self : BaseAPI) (options : AxiosRequestConfig) :=
  callRequest self (SubscriptionApiFp_apiV1SubGet (api_configuration self) options).

Definition SubscriptionApiFp_apiV1SubUpdatePut (conf : option Configuration) (body : JsValue)
    (options : AxiosRequestConfig) :=
  fpRequest apiUrl conf "SubscriptionApi.apiV1SubUpdatePut"
    (toRequestArgs conf options (apiV1SubUpdatePut body)).
Definition SubscriptionApi_apiV1SubUpdatePut (self : BaseAPI) (body : JsValue)
    (options : AxiosRequestConfig) :=
  callRequest self (SubscriptionApiFp_apiV1SubUpdatePut (api_configuration self) body options).

(** ** VerificationApiFp and VerificationApi *)

Definition VerificationApiFp_apiV1VerifyEmailOtpConfirmPost (conf : option Configuration)
    (body : JsValue) (options : AxiosRequestConfig) :=
  fpRequest apiUrl conf "VerificationApi.apiV1VerifyEmailOtpConfirmPost"
    (toRequestArgs conf options (apiV1VerifyEmailOtpConfirmPost body)).
Definition VerificationApi_apiV1VerifyEmailOtpConfirmPost (self : BaseAPI) (body : JsValue)
    (options : AxiosRequestConfig) :=
  callRequest self
    (VerificationApiFp_apiV1VerifyEmailOtpConfirmPost (api_configuration self) body options).

Definition VerificationApiFp_apiV1VerifyEmailOtpRequestPost (conf : option Configuration)
    (options : AxiosRequestConfig) :=
  fpRequest apiUrl conf "VerificationApi.apiV1VerifyEmailOtpRequestPost"
    (toRequestArgs conf options apiV1VerifyEmailOtpRequestPost).
Definition VerificationApi_apiV1VerifyEmailOtpRequestPost (self : BaseAPI)
    (options : AxiosRequestConfig) :=
  callRequest self (VerificationApiFp_apiV1VerifyEmailOtpRequestPost (api_configuration self) options).

Definition VerificationApiFp_apiV1VerifyResetPasswordPost (conf : option Configuration)
    (body : JsValue) (xMfaCode : option string) (xMfaMethods : option (list string))
    (options : AxiosRequestConfig) :=
  fpRequest apiUrl conf "VerificationApi.apiV1VerifyResetPasswordPost"
    (toRequestArgs conf options (apiV1VerifyResetPasswordPost body xMfaCode xMfaMethods)).
Definition VerificationApi_apiV1VerifyResetPasswordPost (self : BaseAPI) (body : JsValue)
    (xMfaCode : option string) (xMfaMethods : option (list string)) (options : AxiosRequestConfig) :=
  callRequest self
    (VerificationApiFp_apiV1VerifyResetPasswordPost (api_configuration self) body xMfaCode xMfaMethods options).

End client.

(** ** Calls *)

Inductive Call : Type :=
| Call_apiV1AccountsCurrentDelete (body : JsValue)
| Call_apiV1AccountsCurrentDeletionCodePost
| Call_apiV1AccountsCurrentGet
| Call_apiV1AccountsMfaTotpDisablePost (body : JsValue)
| Call_apiV1AccountsMfaTotpEnableConfirmPost (body : JsValue)
| Call_apiV1AccountsMfaTotpEnablePost
| Call_apiV1AccountsPatch (body : JsValue) (xMfaCode : option string)
    (xMfaMethods : option (list string))
| Call_apiV1AccountsPost (body : JsValue)
| Call_apiV1AccountsResetPasswordPost (body : JsValue)
| Call_apiV1AnnouncementsGet
| Call_apiV1MobileconfigPost (body : JsValue)
| Call_apiV1MobileconfigShortPost (body : JsValue)
| Call_apiV1ShortCodeGet (code : option string)
| Call_apiV1AccountsLogoutPost
| Call_apiV1LoginPost (body : JsValue) (xMfaCode : option string)
    (xMfaMethods : option (list string)) (xSessionsRemove : option string)
| Call_apiV1WebauthnLoginBeginPost (body : JsValue)
| Call_apiV1WebauthnLoginFinishPost (xSessionsRemove : option string)
| Call_apiV1WebauthnPasskeyAddBeginPost (body : JsValue) (xMfaCode : option string)
    (xMfaMethods : option (list string))
| Call_apiV1WebauthnPasskeyAddFinishPost
| Call_apiV1WebauthnPasskeyIdDelete (id : option string) (body : JsValue) (xMfaCode : option string)
    (xMfaMethods : option (list string))
| Call_apiV1WebauthnPasskeyReauthBeginPost (body : JsValue)
| Call_apiV1WebauthnPasskeyReauthFinishPost
| Call_apiV1WebauthnPasskeysGet
| Call_apiV1WebauthnRegisterBeginPost (body : JsValue)
| Call_apiV1WebauthnRegisterFinishPost
| Call_apiV1BlocklistsGet (sortBy : option string)
| Call_apiV1DnsstampPost (body : JsValue)
| Call_apiV1PasessionAddPost (body : JsValue)
| Call_apiV1PasessionRotatePut (body : JsValue)
| Call_apiV1ProfilesExportPost (body : JsValue)
| Call_apiV1ProfilesGet
| Call_apiV1ProfilesIdBlocklistsDelete (id : option string) (blocklistIds : JsValue)
| Call_apiV1ProfilesIdBlocklistsPost (id : option string) (blocklistIds : JsValue)
| Call_apiV1ProfilesIdCustomRuleGroupsOrderPatch (id : option string) (body : JsValue)
| Call_apiV1ProfilesIdCustomRuleGroupsPatch (id : option string) (body : JsValue)
| Call_apiV1ProfilesIdCustomRulesBatchPost (id : option string) (body : JsValue)
| Call_apiV1ProfilesIdCustomRulesCustomRuleIdDelete (id customRuleId : option string)
| Call_apiV1ProfilesIdCustomRulesOrderPatch (id : option string) (body : JsValue)
| Call_apiV1ProfilesIdCustomRulesPost (id : option string) (body : JsValue)
| Call_apiV1ProfilesIdDelete (id : option string)
| Call_apiV1ProfilesIdGet (id : option string)
| Call_apiV1ProfilesIdPatch (id : option string) (body : JsValue)
| Call_apiV1ProfilesIdServicesDelete (id : option string) (serviceIds : JsValue)
| Call_apiV1ProfilesIdServicesPost (id : option string) (serviceIds : JsValue)
| Call_apiV1ProfilesImportPost (xModDNSImport : option string) (body : JsValue)
| Call_apiV1ProfilesPost (body : JsValue)
| Call_apiV1ProfilesProfileIdCustomRulesCustomRuleIdPatch (profileId customRuleId : option string)
    (body : JsValue)
| Call_apiV1ProfilesIdLogsDelete (id : option string)
| Call_apiV1ProfilesIdLogsDevicesGet (id : option string)
| Call_apiV1ProfilesIdLogsDownloadGet (id : option string)
| Call_apiV1ProfilesIdLogsGet (id : option string) (page limit : option Z)
    (status timespan deviceId search sortBy : option string)
| Call_apiV1ProfilesIdLogsTopBlocklistsGet (id timespan : option string) (limit : option Z)
| Call_apiV1ProfilesIdLogsTopClientsGet (id timespan : option string) (limit : option Z)
| Call_apiV1ProfilesIdLogsTopDomainsGet (id kind timespan : option string) (limit : option Z)
| Call_apiV1ServicesGet
| Call_apiV1SessionsDelete
| Call_apiV1ProfilesIdStatisticsDelete (id : option string)
| Call_apiV1ProfilesIdStatisticsGet (id timespan : option string)
| Call_apiV1SubGet
| Call_apiV1SubUpdatePut (body : JsValue)
| Call_apiV1VerifyEmailOtpConfirmPost (body : JsValue)
| Call_apiV1VerifyEmailOtpRequestPost
| Call_apiV1VerifyResetPasswordPost (body : JsValue) (xMfaCode : option string)
    (xMfaMethods : option (list string)).

(** What the parameter creator of a call says. *)
Definition operation (c : Call) : Operation :=
  match c with
  | Call_apiV1AccountsCurrentDelete body => apiV1AccountsCurrentDelete body
  | Call_apiV1AccountsCurrentDeletionCodePost => apiV1AccountsCurrentDeletionCodePost
  | Call_apiV1AccountsCurrentGet => apiV1AccountsCurrentGet
  | Call_apiV1AccountsMfaTotpDisablePost body => apiV1AccountsMfaTotpDisablePost body
  | Call_apiV1AccountsMfaTotpEnableConfirmPost body => apiV1AccountsMfaTotpEnableConfirmPost body
  | Call_apiV1AccountsMfaTotpEnablePost => apiV1AccountsMfaTotpEnablePost
  | Call_apiV1AccountsPatch body xMfaCode xMfaMethods => apiV1AccountsPatch body xMfaCode xMfaMethods
  | Call_apiV1AccountsPost body => apiV1AccountsPost body
  | Call_apiV1AccountsResetPasswordPost body => apiV1AccountsResetPasswordPost body
  | Call_apiV1AnnouncementsGet => apiV1AnnouncementsGet
  | Call_apiV1MobileconfigPost body => apiV1MobileconfigPost body
  | Call_apiV1MobileconfigShortPost body => apiV1MobileconfigShortPost body
  | Call_apiV1ShortCodeGet code => apiV1ShortCodeGet code
  | Call_apiV1AccountsLogoutPost => apiV1AccountsLogoutPost
  | Call_apiV1LoginPost body xMfaCode xMfaMethods xSessionsRemove => apiV1LoginPost body xMfaCode xMfaMethods xSessionsRemove
  | Call_apiV1WebauthnLoginBeginPost body => apiV1WebauthnLoginBeginPost body
  | Call_apiV1WebauthnLoginFinishPost xSessionsRemove => apiV1WebauthnLoginFinishPost xSessionsRemove
  | Call_apiV1WebauthnPasskeyAddBeginPost body xMfaCode xMfaMethods => apiV1WebauthnPasskeyAddBeginPost body xMfaCode xMfaMethods
  | Call_apiV1WebauthnPasskeyAddFinishPost => apiV1WebauthnPasskeyAddFinishPost
  | Call_apiV1WebauthnPasskeyIdDelete id body xMfaCode xMfaMethods => apiV1WebauthnPasskeyIdDelete id body xMfaCode xMfaMethods
  | Call_apiV1WebauthnPasskeyReauthBeginPost body => apiV1WebauthnPasskeyReauthBeginPost body
  | Call_apiV1WebauthnPasskeyReauthFinishPost => apiV1WebauthnPasskeyReauthFinishPost
  | Call_apiV1WebauthnPasskeysGet => apiV1WebauthnPasskeysGet
  | Call_apiV1WebauthnRegisterBeginPost body => apiV1WebauthnRegisterBeginPost body
  | Call_apiV1WebauthnRegisterFinishPost => apiV1WebauthnRegisterFinishPost
  | Call_apiV1BlocklistsGet sortBy => apiV1BlocklistsGet sortBy
  | Call_apiV1DnsstampPost body => apiV1DnsstampPost body
  | Call_apiV1PasessionAddPost body => apiV1PasessionAddPost body
  | Call_apiV1PasessionRotatePut body => apiV1PasessionRotatePut body
  | Call_apiV1ProfilesExportPost body => apiV1ProfilesExportPost body
  | Call_apiV1ProfilesGet => apiV1ProfilesGet
  | Call_apiV1ProfilesIdBlocklistsDelete id blocklistIds => apiV1ProfilesIdBlocklistsDelete id blocklistIds
  | Call_apiV1ProfilesIdBlocklistsPost id blocklistIds => apiV1ProfilesIdBlocklistsPost id blocklistIds
  | Call_apiV1ProfilesIdCustomRuleGroupsOrderPatch id body => apiV1ProfilesIdCustomRuleGroupsOrderPatch id body
  | Call_apiV1ProfilesIdCustomRuleGroupsPatch id body => apiV1ProfilesIdCustomRuleGroupsPatch id body
  | Call_apiV1ProfilesIdCustomRulesBatchPost id body => apiV1ProfilesIdCustomRulesBatchPost id body
  | Call_apiV1ProfilesIdCustomRulesCustomRuleIdDelete id customRuleId => apiV1ProfilesIdCustomRulesCustomRuleIdDelete id customRuleId
  | Call_apiV1ProfilesIdCustomRulesOrderPatch id body => apiV1ProfilesIdCustomRulesOrderPatch id body
  | Call_apiV1ProfilesIdCustomRulesPost id body => apiV1ProfilesIdCustomRulesPost id body
  | Call_apiV1ProfilesIdDelete id => apiV1ProfilesIdDelete id
  | Call_apiV1ProfilesIdGet id => apiV1ProfilesIdGet id
  | Call_apiV1ProfilesIdPatch id body => apiV1ProfilesIdPatch id body
  | Call_apiV1ProfilesIdServicesDelete id serviceIds => apiV1ProfilesIdServicesDelete id serviceIds
  | Call_apiV1ProfilesIdServicesPost id serviceIds => apiV1ProfilesIdServicesPost id serviceIds
  | Call_apiV1ProfilesImportPost xModDNSImport body => apiV1ProfilesImportPost xModDNSImport body
  | Call_apiV1ProfilesPost body => apiV1ProfilesPost body
  | Call_apiV1ProfilesProfileIdCustomRulesCustomRuleIdPatch profileId customRuleId body => apiV1ProfilesProfileIdCustomRulesCustomRuleIdPatch profileId customRuleId body
  | Call_apiV1ProfilesIdLogsDelete id => apiV1ProfilesIdLogsDelete id
  | Call_apiV1ProfilesIdLogsDevicesGet id => apiV1ProfilesIdLogsDevicesGet id
  | Call_apiV1ProfilesIdLogsDownloadGet id => apiV1ProfilesIdLogsDownloadGet id
  | Call_apiV1ProfilesIdLogsGet id page limit status timespan deviceId search sortBy => apiV1ProfilesIdLogsGet id page limit status timespan deviceId search sortBy
  | Call_apiV1ProfilesIdLogsTopBlocklistsGet id timespan limit => apiV1ProfilesIdLogsTopBlocklistsGet id timespan limit
  | Call_apiV1ProfilesIdLogsTopClientsGet id timespan limit => apiV1ProfilesIdLogsTopClientsGet id timespan limit
  | Call_apiV1ProfilesIdLogsTopDomainsGet id kind timespan limit => apiV1ProfilesIdLogsTopDomainsGet id kind timespan limit
  | Call_apiV1ServicesGet => apiV1ServicesGet
  | Call_apiV1SessionsDelete => apiV1SessionsDelete
  | Call_apiV1ProfilesIdStatisticsDelete id => apiV1ProfilesIdStatisticsDelete id
  | Call_apiV1ProfilesIdStatisticsGet id timespan => apiV1ProfilesIdStatisticsGet id timespan
  | Call_apiV1SubGet => apiV1SubGet
  | Call_apiV1SubUpdatePut body => apiV1SubUpdatePut body
  | Call_apiV1VerifyEmailOtpConfirmPost body => apiV1VerifyEmailOtpConfirmPost body
  | Call_apiV1VerifyEmailOtpRequestPost => apiV1VerifyEmailOtpRequestPost
  | Call_apiV1VerifyResetPasswordPost body xMfaCode xMfaMethods => apiV1VerifyResetPasswordPost body xMfaCode xMfaMethods
  end.

(** A call on the API object of [Client] that has the method. *)
Definition request (apiUrl : string) (c : Call) (options : AxiosRequestConfig) : result ClientError Dispatch :=
  let self := clientApi apiUrl in
  match c with
  | Call_apiV1AccountsCurrentDelete body => AccountApi_apiV1AccountsCurrentDelete apiUrl self body
      options
  | Call_apiV1AccountsCurrentDeletionCodePost => AccountApi_apiV1AccountsCurrentDeletionCodePost apiUrl
      self options
  | Call_apiV1AccountsCurrentGet => AccountApi_apiV1AccountsCurrentGet apiUrl self options
  | Call_apiV1AccountsMfaTotpDisablePost body => AccountApi_apiV1AccountsMfaTotpDisablePost apiUrl self
      body options
  | Call_apiV1AccountsMfaTotpEnableConfirmPost body => AccountApi_apiV1AccountsMfaTotpEnableConfirmPost
      apiUrl self body options
  | Call_apiV1AccountsMfaTotpEnablePost => AccountApi_apiV1AccountsMfaTotpEnablePost apiUrl self
      options
  | Call_apiV1AccountsPatch body xMfaCode xMfaMethods => AccountApi_apiV1AccountsPatch apiUrl self body
      xMfaCode xMfaMethods options
  | Call_apiV1AccountsPost body => AccountApi_apiV1AccountsPost apiUrl self body options
  | Call_apiV1AccountsResetPasswordPost body => AccountApi_apiV1AccountsResetPasswordPost apiUrl self
      body options
  | Call_apiV1AnnouncementsGet => AnnouncementsApi_apiV1AnnouncementsGet apiUrl self options
  | Call_apiV1MobileconfigPost body => AppleMobileconfigApi_apiV1MobileconfigPost apiUrl self body
      options
  | Call_apiV1MobileconfigShortPost body => AppleMobileconfigApi_apiV1MobileconfigShortPost apiUrl self
      body options
  | Call_apiV1ShortCodeGet code => AppleMobileconfigApi_apiV1ShortCodeGet apiUrl self code options
  | Call_apiV1AccountsLogoutPost => AuthenticationApi_apiV1AccountsLogoutPost apiUrl self options
  | Call_apiV1LoginPost body xMfaCode xMfaMethods xSessionsRemove => AuthenticationApi_apiV1LoginPost
      apiUrl self body xMfaCode xMfaMethods xSessionsRemove options
  | Call_apiV1WebauthnLoginBeginPost body => AuthenticationApi_apiV1WebauthnLoginBeginPost apiUrl self
      body options
  | Call_apiV1WebauthnLoginFinishPost xSessionsRemove => AuthenticationApi_apiV1WebauthnLoginFinishPost
      apiUrl self xSessionsRemove options
  | Call_apiV1WebauthnPasskeyAddBeginPost body xMfaCode xMfaMethods =>
      AuthenticationApi_apiV1WebauthnPasskeyAddBeginPost apiUrl self body xMfaCode xMfaMethods options
  | Call_apiV1WebauthnPasskeyAddFinishPost => AuthenticationApi_apiV1WebauthnPasskeyAddFinishPost
      apiUrl self options
  | Call_apiV1WebauthnPasskeyIdDelete id body xMfaCode xMfaMethods =>
      AuthenticationApi_apiV1WebauthnPasskeyIdDelete apiUrl self id body xMfaCode xMfaMethods options
  | Call_apiV1WebauthnPasskeyReauthBeginPost body =>
      AuthenticationApi_apiV1WebauthnPasskeyReauthBeginPost apiUrl self body options
  | Call_apiV1WebauthnPasskeyReauthFinishPost => AuthenticationApi_apiV1WebauthnPasskeyReauthFinishPost
      apiUrl self options
  | Call_apiV1WebauthnPasskeysGet => AuthenticationApi_apiV1WebauthnPasskeysGet apiUrl self options
  | Call_apiV1WebauthnRegisterBeginPost body => AuthenticationApi_apiV1WebauthnRegisterBeginPost apiUrl
      self body options
  | Call_apiV1WebauthnRegisterFinishPost => AuthenticationApi_apiV1WebauthnRegisterFinishPost apiUrl
      self options
  | Call_apiV1BlocklistsGet sortBy => BlocklistsApi_apiV1BlocklistsGet apiUrl self sortBy options
  | Call_apiV1DnsstampPost body => DNSStampsApi_apiV1DnsstampPost apiUrl self body options
  | Call_apiV1PasessionAddPost body => PASessionApi_apiV1PasessionAddPost apiUrl self body options
  | Call_apiV1PasessionRotatePut body => PASessionApi_apiV1PasessionRotatePut apiUrl self body options
  | Call_apiV1ProfilesExportPost body => ProfileApi_apiV1ProfilesExportPost apiUrl self body options
  | Call_apiV1ProfilesGet => ProfileApi_apiV1ProfilesGet apiUrl self options
  | Call_apiV1ProfilesIdBlocklistsDelete id blocklistIds => ProfileApi_apiV1ProfilesIdBlocklistsDelete
      apiUrl self id blocklistIds options
  | Call_apiV1ProfilesIdBlocklistsPost id blocklistIds => ProfileApi_apiV1ProfilesIdBlocklistsPost
      apiUrl self id blocklistIds options
  | Call_apiV1ProfilesIdCustomRuleGroupsOrderPatch id body =>
      ProfileApi_apiV1ProfilesIdCustomRuleGroupsOrderPatch apiUrl self id body options
  | Call_apiV1ProfilesIdCustomRuleGroupsPatch id body =>
      ProfileApi_apiV1ProfilesIdCustomRuleGroupsPatch apiUrl self id body options
  | Call_apiV1ProfilesIdCustomRulesBatchPost id body => ProfileApi_apiV1ProfilesIdCustomRulesBatchPost
      apiUrl self id body options
  | Call_apiV1ProfilesIdCustomRulesCustomRuleIdDelete id customRuleId =>
      ProfileApi_apiV1ProfilesIdCustomRulesCustomRuleIdDelete apiUrl self id customRuleId options
  | Call_apiV1ProfilesIdCustomRulesOrderPatch id body =>
      ProfileApi_apiV1ProfilesIdCustomRulesOrderPatch apiUrl self id body options
  | Call_apiV1ProfilesIdCustomRulesPost id body => ProfileApi_apiV1ProfilesIdCustomRulesPost apiUrl
      self id body options
  | Call_apiV1ProfilesIdDelete id => ProfileApi_apiV1ProfilesIdDelete apiUrl self id options
  | Call_apiV1ProfilesIdGet id => ProfileApi_apiV1ProfilesIdGet apiUrl self id options
  | Call_apiV1ProfilesIdPatch id body => ProfileApi_apiV1ProfilesIdPatch apiUrl self id body options
  | Call_apiV1ProfilesIdServicesDelete id serviceIds => ProfileApi_apiV1ProfilesIdServicesDelete apiUrl
      self id serviceIds options
  | Call_apiV1ProfilesIdServicesPost id serviceIds => ProfileApi_apiV1ProfilesIdServicesPost apiUrl
      self id serviceIds options
  | Call_apiV1ProfilesImportPost xModDNSImport body => ProfileApi_apiV1ProfilesImportPost apiUrl self
      xModDNSImport body options
  | Call_apiV1ProfilesPost body => ProfileApi_apiV1ProfilesPost apiUrl self body options
  | Call_apiV1ProfilesProfileIdCustomRulesCustomRuleIdPatch profileId customRuleId body =>
      ProfileApi_apiV1ProfilesProfileIdCustomRulesCustomRuleIdPatch apiUrl self profileId customRuleId
      body options
  | Call_apiV1ProfilesIdLogsDelete id => QueryLogsApi_apiV1ProfilesIdLogsDelete apiUrl self id options
  | Call_apiV1ProfilesIdLogsDevicesGet id => QueryLogsApi_apiV1ProfilesIdLogsDevicesGet apiUrl self id
      options
  | Call_apiV1ProfilesIdLogsDownloadGet id => QueryLogsApi_apiV1ProfilesIdLogsDownloadGet apiUrl self
      id options
  | Call_apiV1ProfilesIdLogsGet id page limit status timespan deviceId search sortBy =>
      QueryLogsApi_apiV1ProfilesIdLogsGet apiUrl self id page limit status timespan deviceId search
      sortBy options
  | Call_apiV1ProfilesIdLogsTopBlocklistsGet id timespan limit =>
      QueryLogsApi_apiV1ProfilesIdLogsTopBlocklistsGet apiUrl self id timespan limit options
  | Call_apiV1ProfilesIdLogsTopClientsGet id timespan limit =>
      QueryLogsApi_apiV1ProfilesIdLogsTopClientsGet apiUrl self id timespan limit options
  | Call_apiV1ProfilesIdLogsTopDomainsGet id kind timespan limit =>
      QueryLogsApi_apiV1ProfilesIdLogsTopDomainsGet apiUrl self id kind timespan limit options
  | Call_apiV1ServicesGet => ServicesApi_apiV1ServicesGet apiUrl self options
  | Call_apiV1SessionsDelete => SessionsApi_apiV1SessionsDelete apiUrl self options
  | Call_apiV1ProfilesIdStatisticsDelete id => StatisticsApi_apiV1ProfilesIdStatisticsDelete apiUrl
      self id options
  | Call_apiV1ProfilesIdStatisticsGet id timespan => StatisticsApi_apiV1ProfilesIdStatisticsGet apiUrl
      self id timespan options
  | Call_apiV1SubGet => SubscriptionApi_apiV1SubGet apiUrl self options
  | Call_apiV1SubUpdatePut body => SubscriptionApi_apiV1SubUpdatePut apiUrl self body options
  | Call_apiV1VerifyEmailOtpConfirmPost body => VerificationApi_apiV1VerifyEmailOtpConfirmPost apiUrl
      self body options
  | Call_apiV1VerifyEmailOtpRequestPost => VerificationApi_apiV1VerifyEmailOtpRequestPost apiUrl self
      options
  | Call_apiV1VerifyResetPasswordPost body xMfaCode xMfaMethods =>
      VerificationApi_apiV1VerifyResetPasswordPost apiUrl self body xMfaCode xMfaMethods options
  end.
