(* ===== verification/ApiClientFacts.v ===== *)
(** * What a call of the client sends, and where

    Theorems on [ApiClient] and [ApiOperations]: a call is made when its required parameters are there,
    on the global instance of axios; its path carries its ids, each in its own segment, its query its
    parameters, and no two calls ask the same. *)

From S2P Require Import Prelude JsString SentryPrivacy ApiEvents Uri ApiClient ApiOperations.

(** ** The shape of a request *)

(** The dispatch of arguments that were made. *)
Definition dispatched (apiUrl : string) (args : RequestArgs) : Dispatch :=
  mkDispatch globalAxios (spread (args_options args)
    (mkRequestConfig None (Some (apiUrl ++s args_url args)) None None None None None)).

Lemma call_fp apiUrl key r :
  callRequest (clientApi apiUrl) (fpRequest apiUrl (api_configuration (clientApi apiUrl)) key r)
  = (args ← r; Ok (dispatched apiUrl args)).
Proof. by destruct r. Qed.

Lemma request_spec apiUrl c options :
  request apiUrl c options
  = (args ← toRequestArgs (Some (appConfig apiUrl)) options (operation c); Ok (dispatched apiUrl args)).
Proof. destruct c; apply call_fp. Qed.

(** ** Which instance *)

(** C11: no call of the client passes the interceptor: it is made on the global instance of axios,
    so a refusal with any status, 401 included, raises no event of the browser *)
Theorem client_bypasses_interceptor apiUrl c options d l status :
  request apiUrl c options = Ok d ->
  on_instance d = globalAxios /\ onResponseError (on_instance d) l status = None.
Proof.
  rewrite request_spec. destruct (toRequestArgs _ _ _) as [args|e]; [|done]. cbn. by intros [= <-].
Qed.

Lemma client_bypasses_interceptor_witness :
  exists d, request "https://api" Call_apiV1AccountsCurrentGet noOptions = Ok d /\
    onResponseError (on_instance d) (mkLoc "/settings" "https://app/settings") (Some 401) = None.
Proof.
  eexists. split; [reflexivity|].
  apply (client_bypasses_interceptor "https://api" Call_apiV1AccountsCurrentGet noOptions). reflexivity.
Defined.

(** On the instance that has the interceptor the same request would have its prefix twice. *)
Lemma other_instance_doubles_prefix apiUrl args conf base :
  let d := createRequestFunction apiUrl args conf axiosClient base in
  rc_url (request_config d) = Some (args_url args) /\
  defaultBaseURL apiUrl (on_instance d) = Some (apiUrl ++s "/api/v1").
Proof. by destruct apiUrl. Qed.

(** ** Whether it is sent *)

(** The first parameter that is missing. *)
Definition missing (ps : list (string * bool)) : option string :=
  fst <$> array_find (fun p => negb p.2) ps.

Definition required_error (functionName paramName : string) : ClientError :=
  RequiredError paramName
    ("Required parameter " ++s paramName ++s " was null or undefined when calling " ++s functionName ++s ".").

Lemma assertAll_spec f ps :
  assertAll f ps = match missing ps with Some k => Throw (required_error f k) | None => Ok () end.
Proof.
  unfold missing. induction ps as [|[k []] ps IH]; [done| |done].
  cbn [assertAll assertParamExists mbind result_bind]. rewrite IH. done.
Qed.

(** The content type is that of the options, else of the configuration, else of the method. *)
Definition sent_headers (conf : Configuration) (options : AxiosRequestConfig) (op : Operation) : Headers :=
  (rc_headers options ?? ∅) ∪ ((rc_headers (cfg_baseOptions conf) ?? ∅) ∪ headerParameters op).

(** A body comes with a content type. *)
Definition typed_body (op : Operation) : bool :=
  match op_body op with
  | Some _ => bool_decide (is_Some (headerParameters op !! "Content-Type"))
  | None => true
  end.

Lemma operation_typed c : typed_body (operation c) = true.
Proof.
  destruct c; try reflexivity; repeat match goal with v : option _ |- _ => destruct v end; reflexivity.
Qed.

Lemma serialize_total op conf options base : typed_body op = true -> forall body, op_body op = Some body ->
  exists v, serializeDataIfNeeded body
    (spread base (mkRequestConfig None None (Some (sent_headers conf options op)) None None None None)) (Some conf) = Ok v.
Proof.
  unfold typed_body. intros Ht body Hb. rewrite Hb in Ht. to_prop. destruct Ht as [m Hm].
  unfold serializeDataIfNeeded. destruct body; cbn; eauto;
  destruct (sent_headers conf options op !! "Content-Type") eqn:E; eauto; exfalso.
  all: unfold sent_headers in E; rewrite !lookup_union_None in E; naive_solver congruence.
Qed.

(** The path and query of a request. *)
Definition target (op : Operation) : string :=
  toPathString (setSearchParams (newURL (fillPath (op_path op) (op_ids op))) [JObj (given_fields (op_query op))]).

Lemma toRequestArgs_spec conf options op : typed_body op = true ->
  match missing (op_asserts op) with
  | Some k => toRequestArgs (Some conf) options op = Throw (required_error (op_name op) k)
  | None => exists args, toRequestArgs (Some conf) options op = Ok args /\ args_url args = target op /\
      rc_method (args_options args) = Some (rc_method options ?? (rc_method (cfg_baseOptions conf) ?? op_method op)) /\
      rc_withCredentials (args_options args) = over (rc_withCredentials options) (rc_withCredentials (cfg_baseOptions conf)) /\
      rc_headers (args_options args) = Some (sent_headers conf options op)
  end.
Proof.
  intros Ht. unfold toRequestArgs. rewrite assertAll_spec. destruct (missing (op_asserts op)); [done|].
  cbn [mbind result_bind fmap option_fmap option_map].
  set (base := spread (spread _ _) options).
  assert (rc_method base = Some (rc_method options ?? (rc_method (cfg_baseOptions conf) ?? op_method op)) /\
    rc_withCredentials base = over (rc_withCredentials options) (rc_withCredentials (cfg_baseOptions conf))) as [Hm Hc].
  { unfold base. cbn. destruct (rc_method options), (rc_method (cfg_baseOptions conf)),
      (rc_withCredentials options), (rc_withCredentials (cfg_baseOptions conf)); done. }
  clearbody base.
  destruct (op_body op) as [body|] eqn:Hb.
  - destruct (serialize_total op conf options base Ht body Hb) as [v Hv]. unfold sent_headers in Hv.
    cbn [mbind option_bind]. rewrite Hv. cbn [fmap result_fmap mbind result_bind].
    eexists. split; [done|]. cbn. by rewrite Hm, Hc.
  - cbn [mbind result_bind]. eexists. split; [done|]. cbn. by rewrite Hm, Hc.
Qed.

(** C24: a call is refused before anything is sent exactly when a required parameter is missing,
    with an error that names the first one; otherwise it is sent, with its method, to the address of
    the API followed by its path and query, and with the credentials of the session *)
Theorem missing_parameter_sends_nothing apiUrl c options :
  rc_method options = None -> rc_withCredentials options = None ->
  let op := operation c in
  match missing (op_asserts op) with
  | Some k => request apiUrl c options = Throw (required_error (op_name op) k)
  | None => exists d, request apiUrl c options = Ok d /\
      rc_method (request_config d) = Some (op_method op) /\
      rc_url (request_config d) = Some (apiUrl ++s target op) /\
      rc_withCredentials (request_config d) = Some true
  end.
Proof.
  intros Hm Hc op. rewrite request_spec.
  pose proof (toRequestArgs_spec (appConfig apiUrl) options op (operation_typed c)) as H.
  fold op. destruct (missing (op_asserts op)) as [k|]; [by rewrite H|].
  destruct H as (args & -> & Hu & Hm' & Hc' & _). eexists. split; [done|].
  cbn. rewrite Hm', Hc', Hu, Hm, Hc. done.
Qed.

Lemma missing_parameter_sends_nothing_witness :
  request "https://api" (Call_apiV1ProfilesIdPatch (Some "p1") JUndefined) noOptions
  = Throw (required_error "apiV1ProfilesIdPatch" "body").
Proof.
  apply (missing_parameter_sends_nothing "https://api" (Call_apiV1ProfilesIdPatch (Some "p1") JUndefined) noOptions);
    reflexivity.
Defined.

Lemma operation_content_type c body :
  op_body (operation c) = Some body -> headerParameters (operation c) !! "Content-Type" = Some "application/json".
Proof. destruct c; try done; repeat match goal with v : option _ |- _ => destruct v end; reflexivity. Qed.

Theorem bodies_are_json apiUrl c d body text :
  request apiUrl c noOptions = Ok d -> op_body (operation c) = Some body ->
  (forall s, body <> JStr s) -> stringify body = Some text ->
  rc_data (request_config d) = Some (JStr text) /\
  rc_headers (request_config d) ≫= (fun h => h !! "Content-Type") = Some "application/json".
Proof.
  rewrite request_spec. unfold toRequestArgs. rewrite assertAll_spec.
  destruct (missing _); [done|]. intros Hr Hb Hns Ht. rewrite Hb in Hr.
  set (conf := appConfig apiUrl) in *.
  assert (sent_headers conf noOptions (operation c) !! "Content-Type" = Some "application/json") as Hc.
  { unfold sent_headers. rewrite !lookup_union. rewrite (operation_content_type c body Hb). reflexivity. }
  cbn [mbind result_bind fmap option_fmap option_map] in Hr.
  match type of Hr with context [serializeDataIfNeeded body ?ro ?cf] =>
    assert (serializeDataIfNeeded body ro cf = Ok (JStr text)) as Hs end.
  { unfold serializeDataIfNeeded. cbn [spread rc_headers over].
    match goal with |- context [?h !! "Content-Type"] =>
      change (h !! "Content-Type") with (sent_headers conf noOptions (operation c) !! "Content-Type") end.
    rewrite Hc. change (isJsonMime "application/json") with true.
    destruct body; try (by destruct (Hns s)); try discriminate Ht; cbn [mbind result_bind]; by rewrite Ht. }
  rewrite Hs in Hr. cbn in Hr. injection Hr as <-. split; [done|]. exact Hc.
Qed.

Lemma bodies_are_json_witness :
  let body := JObj [("a", JNum 1)] in
  exists d, request "https://api" (Call_apiV1ProfilesIdPatch (Some "p1") body) noOptions = Ok d /\
    rc_data (request_config d) = Some (JStr ("{" ++s quoted "a" ++s ":1}")).
Proof.
  intros body. eexists. split; [reflexivity|].
  apply (bodies_are_json "https://api" (Call_apiV1ProfilesIdPatch (Some "p1") body) _ body); done.
Defined.

(** ** Paths *)

(** Segments, each after a slash. *)
Fixpoint slashed (segs : list string) : string :=
  match segs with [] => "" | g :: segs' => "/" ++s g ++s slashed segs' end.
Definition segments (p : string) : list string := tail (split p "/").

(** A path whose segments are literals or, in order, the placeholders of the ids. *)
Fixpoint segs_ok (segs : list string) (names : list string) : bool :=
  match segs, names with
  | [], [] => true
  | [], _ => false
  | g :: segs', _ =>
      if lacks "{" g then no_dots g && lacks "/" g && lacks "?" g && lacks "#" g && segs_ok segs' names
      else match names with k :: names' => String.eqb g (placeholder k) && segs_ok segs' names' | [] => false end
  end.

Definition template_ok (op : Operation) : bool :=
  String.eqb (op_path op) (slashed (segments (op_path op))) && negb (bool_decide (segments (op_path op) = [])) &&
  segs_ok (segments (op_path op)) (map fst (op_ids op)).

Lemma operation_template c : template_ok (operation c) = true.
Proof. destruct c; by vm_compute. Qed.

(** The segments with the ids in place of the placeholders. *)
Fixpoint subst_segs (segs : list string) (ids : list (string * option string)) : list string :=
  match segs with
  | [] => []
  | g :: segs' =>
      if lacks "{" g then g :: subst_segs segs' ids
      else match ids with
           | (_, v) :: ids' => encodeURIComponent (idText v) :: subst_segs segs' ids'
           | [] => []
           end
  end.

Lemma encoded_lacks c s : unreserved c = false -> percent_char c = false -> lacks c (encodeURIComponent s) = true.
Proof.
  intros Hk Hp. apply str_all_encode_by; intros; rewrite negb_true_iff; apply Ascii.eqb_neq; congruence.
Qed.

Lemma lacks_concat c a b : lacks c (a ++s b) = lacks c a && lacks c b.
Proof. apply str_all_app. Qed.

Lemma replace_here pat s rep : replaceFirst (pat ++s s) pat rep = rep ++s s.
Proof.
  unfold replaceFirst.
  assert (indexOf (pat ++s s) pat = Some 0%nat) as ->.
  { pose proof (startsWith_app pat s) as H. destruct (pat ++s s) eqn:E; cbn; [by destruct pat|].
    unfold startsWith in H. cbn in H. by rewrite H. }
  cbn. by rewrite drop_app_s.
Qed.

Lemma fill_slashed segs : forall pre ids,
  lacks "{" pre = true -> segs_ok segs (map fst ids) = true ->
  fillPath (pre ++s slashed segs) ids = pre ++s slashed (subst_segs segs ids).
Proof.
  induction segs as [|g segs IH]; intros pre ids Hp Hs.
  - by destruct ids.
  - cbn [segs_ok subst_segs slashed] in *. destruct (lacks "{" g) eqn:Hg.
    + rewrite !andb_true_iff in Hs. destruct Hs as [_ Hs].
      replace (pre ++s "/" ++s g ++s slashed segs) with ((pre ++s "/" ++s g) ++s slashed segs)
        by (by rewrite !app_assoc_s).
      rewrite IH; [by rewrite !app_assoc_s| |done]. by rewrite !lacks_concat, Hp, Hg.
    + destruct ids as [|[k v] ids]; [done|]. cbn [map fst] in Hs. rewrite andb_true_iff in Hs.
      destruct Hs as [Hk Hs]. to_prop. subst g. unfold fillPath. cbn [fold_left].
      assert (replaceFirst (pre ++s "/" ++s placeholder k ++s slashed segs) (placeholder k)
                (encodeURIComponent (idText v))
              = (pre ++s "/" ++s encodeURIComponent (idText v)) ++s slashed segs) as ->.
      { replace (pre ++s "/" ++s placeholder k ++s slashed segs)
          with ((pre ++s "/") ++s placeholder k ++s slashed segs) by (by rewrite !app_assoc_s).
        unfold placeholder at 2. cbn [String.append].
        rewrite replaceFirst_skip by (by rewrite lacks_concat, Hp).
        change (String "{" (k ++s "}")) with (placeholder k). by rewrite replace_here, !app_assoc_s. }
      fold (fillPath ((pre ++s "/" ++s encodeURIComponent (idText v)) ++s slashed segs) ids).
      rewrite IH; [by rewrite !app_assoc_s| |done].
      rewrite !lacks_concat, Hp. cbn. by apply encoded_lacks.
Qed.

(** *** Dots *)

Definition unit_of (c : ascii) : string := if unreserved c then String c "" else percents c.

Lemma lower_unit_dot c rest t :
  toLowerCase (unit_of c ++s rest) = String "." t -> c = "."%char /\ toLowerCase rest = t.
Proof.
  rewrite lower_app. destruct c as [[] [] [] [] [] [] [] []]; vm_compute (toLowerCase (unit_of _));
    cbn [String.append]; intros [= ?]; done.
Qed.

Lemma lower_unit_2e c rest t : toLowerCase (unit_of c ++s rest) <> "%2e" ++s t.
Proof.
  rewrite lower_app. destruct c as [[] [] [] [] [] [] [] []]; vm_compute (toLowerCase (unit_of _));
    cbn [String.append]; discriminate.
Qed.

Lemma encode_cons c s : encodeURIComponent (String c s) = unit_of c ++s encodeURIComponent s.
Proof. done. Qed.

Lemma lower_encode_nil v : toLowerCase (encodeURIComponent v) = "" -> v = "".
Proof.
  destruct v as [|c v]; [done|]. rewrite encode_cons, lower_app. unfold unit_of.
  destruct (unreserved c); [done|]. destruct (percents_head c) as (t & -> & _). done.
Qed.

Lemma lower_encode_dot v t : toLowerCase (encodeURIComponent v) = String "." t ->
  exists v', v = String "." v' /\ toLowerCase (encodeURIComponent v') = t.
Proof.
  destruct v as [|c v]; [done|]. rewrite encode_cons. intros [-> H]%lower_unit_dot. eauto.
Qed.

Lemma lower_encode_2e v t : toLowerCase (encodeURIComponent v) <> "%2e" ++s t.
Proof. destruct v as [|c v]; [done|]. rewrite encode_cons. apply lower_unit_2e. Qed.

(** Ids that a URL would read as steps in the path. *)
Definition dotted (v : string) : bool := bool_decide (v ∈ ["."; ".."]).

Lemma encode_no_dots v : dotted v = false -> no_dots (encodeURIComponent v) = true.
Proof.
  intros Hv. unfold dotted in Hv. to_prop. unfold no_dots, is_dot, is_dotdot. rewrite andb_true_iff, !negb_true_iff.
  rewrite !bool_decide_eq_false. split; intros Hd; apply Hv; rewrite !elem_of_cons in *.
  - destruct Hd as [H|[H|H]]; [|by apply (lower_encode_2e v "") in H|by apply not_elem_of_nil in H].
    apply lower_encode_dot in H as (v' & -> & ->%lower_encode_nil). tauto.
  - destruct Hd as [H|[H|[H|[H|H]]]]; [| |by apply (lower_encode_2e v ".") in H|by apply (lower_encode_2e v "%2e") in H
      |by apply not_elem_of_nil in H]; apply lower_encode_dot in H as (v' & -> & H).
    + apply lower_encode_dot in H as (v'' & -> & ->%lower_encode_nil). tauto.
    + by apply (lower_encode_2e v' "") in H.
Qed.

(** *** The path of a request *)

Lemma slashed_join g segs : slashed (g :: segs) = "/" ++s join "/" (g :: segs).
Proof.
  revert g. induction segs as [|h segs IH]; intros g; [cbn; by rewrite app_nil_r_s|].
  change (slashed (g :: h :: segs)) with ("/" ++s g ++s slashed (h :: segs)). rewrite IH. done.
Qed.

Definition plain_segment (g : string) : bool :=
  no_dots g && lacks "/" g && lacks "?" g && lacks "#" g.

Lemma subst_plain segs : forall ids,
  segs_ok segs (map fst ids) = true -> Forall (fun p => dotted (idText p.2) = false) ids ->
  forallb plain_segment (subst_segs segs ids) = true.
Proof.
  induction segs as [|g segs IH]; intros ids Hs Hi; [done|].
  cbn [segs_ok subst_segs] in *. destruct (lacks "{" g).
  - rewrite !andb_true_iff in Hs. cbn [forallb]. unfold plain_segment at 1.
    rewrite !andb_true_iff. split; [tauto|]. apply IH; tauto.
  - destruct ids as [|[k v] ids]; [done|]. cbn [map fst] in Hs. rewrite andb_true_iff in Hs. destruct Hs as [_ Hs].
    apply Forall_cons in Hi as [Hv Hi]. cbn [forallb]. unfold plain_segment at 1.
    rewrite encode_no_dots, !encoded_lacks by done. by apply IH.
Qed.

Lemma lacks_slashed c segs : c <> "/"%char -> forallb (lacks c) segs = true -> lacks c (slashed segs) = true.
Proof.
  intros Hc. induction segs as [|g segs IH]; cbn [forallb slashed]; [done|].
  rewrite andb_true_iff. intros [Hg Hs]. rewrite !lacks_concat, Hg, (IH Hs), andb_true_r.
  cbn. rewrite andb_true_r. by apply negb_true_iff, Ascii.eqb_neq.
Qed.

Lemma forallb_sub {A} (p q : A -> bool) l : (forall x, p x = true -> q x = true) -> forallb p l = true -> forallb q l = true.
Proof. rewrite !forallb_forall. auto. Qed.

Lemma newURL_slashed segs :
  segs <> [] -> forallb plain_segment segs = true -> newURL (slashed segs) = mkURL (slashed segs) "" "".
Proof.
  intros Hne Hp. destruct segs as [|g segs]; [done|].
  assert (forall q : string -> bool, (forall x, plain_segment x = true -> q x = true) -> forallb q (g :: segs) = true) as Hall.
  { intros q Hq. by apply (forallb_sub plain_segment). }
  rewrite plain_url.
  - rewrite slashed_join. f_equal. apply normalize_no_dots; [apply Hall|].
    + intros x Hx. unfold plain_segment in Hx. rewrite !andb_true_iff in Hx. tauto.
    + rewrite Forall_forall. intros x Hx%list_elem_of_In. assert (forallb (lacks "/") (g :: segs) = true) as Hl.
      { apply Hall. intros y Hy. unfold plain_segment in Hy. rewrite !andb_true_iff in Hy. tauto. }
      rewrite forallb_forall in Hl. by apply Hl.
  - apply lacks_slashed; [done|]. apply Hall. intros y Hy. unfold plain_segment in Hy. rewrite !andb_true_iff in Hy. tauto.
  - apply lacks_slashed; [done|]. apply Hall. intros y Hy. unfold plain_segment in Hy. rewrite !andb_true_iff in Hy. tauto.
Qed.

(** How a server reads a target. *)
Definition url_path (t : string) : string := (cut "?" t).1.
Definition url_query (t : string) : string := (cut "?" t).2 ?? "".

Definition undotted (op : Operation) : Prop := Forall (fun p => dotted (idText p.2) = false) (op_ids op).

Lemma template_facts op : template_ok op = true ->
  op_path op = slashed (segments (op_path op)) /\ segments (op_path op) <> [] /\
  segs_ok (segments (op_path op)) (map fst (op_ids op)) = true.
Proof. unfold template_ok. rewrite !andb_true_iff, negb_true_iff. intros [[? ?] ?]. by to_prop. Qed.

Lemma subst_nonempty segs ids :
  segs <> [] -> segs_ok segs (map fst ids) = true -> subst_segs segs ids <> [].
Proof.
  destruct segs as [|g segs]; [done|]. cbn. destruct (lacks "{" g); [done|]. by destruct ids as [|[k v] ids].
Qed.

Lemma target_split op : template_ok op = true -> undotted op ->
  url_path (target op) = slashed (subst_segs (segments (op_path op)) (op_ids op)) /\
  url_query (target op)
  = sp_toString (setFlattenedQueryParams (JArr [JObj (given_fields (op_query op))]) "" []).
Proof.
  intros (Hp & Hne & Hs)%template_facts Hu. unfold target.
  rewrite Hp at 1 3. change (slashed (segments (op_path op))) with ("" ++s slashed (segments (op_path op))).
  rewrite fill_slashed by done. cbn [String.append].
  pose proof (subst_plain _ _ Hs Hu) as Hpl. set (segs := subst_segs _ _) in *.
  rewrite newURL_slashed; [|by apply subst_nonempty|done].
  unfold setSearchParams, set_search, toPathString. cbn [pathname search hash]. set (text := sp_toString _).
  assert (lacks "?" (slashed segs) = true) as Hl.
  { apply lacks_slashed; [done|]. apply (forallb_sub plain_segment); [|done].
    intros y Hy. unfold plain_segment in Hy. rewrite !andb_true_iff in Hy. tauto. }
  unfold url_path, url_query. rewrite app_nil_r_s. destruct (truthy text) eqn:Ht.
  - change ("?" ++s text) with (String "?" text). by rewrite cut_at.
  - rewrite app_nil_r_s, cut_none by done. split; [done|]. apply truthy_false in Ht. by rewrite Ht.
Qed.

(** *** Ids *)

(** [t] is a segment of a template and [g] the segment of the path in its place. *)
Definition carries (ids : list (string * option string)) (t g : string) : Prop :=
  (lacks "{" t = true /\ g = t) \/
  exists k v, (k, v) ∈ ids /\ t = placeholder k /\ decodeURIComponent g = Ok (points (idText v)).

Lemma carries_more p ids t g : carries ids t g -> carries (p :: ids) t g.
Proof. intros [?|(k & v & Hin & ?)]; [by left|]. right. exists k, v. split; [by right|done]. Qed.

Lemma subst_carries segs : forall ids,
  segs_ok segs (map fst ids) = true -> Forall2 (carries ids) segs (subst_segs segs ids).
Proof.
  induction segs as [|g segs IH]; intros ids Hs; [constructor|]. cbn [segs_ok subst_segs] in *.
  destruct (lacks "{" g) eqn:Hg.
  - rewrite !andb_true_iff in Hs. constructor; [by left|]. apply IH. tauto.
  - destruct ids as [|[k v] ids]; [done|]. cbn [map fst] in Hs. rewrite andb_true_iff in Hs. destruct Hs as [Hk Hs]. to_prop.
    constructor.
    + right. exists k, v. split; [by left|]. split; [done|]. apply decode_encodeURIComponent.
    + eapply Forall2_impl; [by apply IH|]. intros. by apply carries_more.
Qed.

Lemma segments_slashed segs :
  segs <> [] -> forallb plain_segment segs = true -> segments (slashed segs) = segs.
Proof.
  intros Hne Hp. destruct segs as [|g segs]; [done|]. rewrite slashed_join. unfold segments.
  change ("/" ++s join "/" (g :: segs)) with (join "/" ("" :: g :: segs)).
  rewrite split_join; [done|done|]. constructor; [done|].
  rewrite Forall_forall. intros x Hx%list_elem_of_In. rewrite forallb_forall in Hp. apply Hp in Hx.
  unfold plain_segment in Hx. rewrite !andb_true_iff in Hx. tauto.
Qed.

(** C13: the path of a request has the segments of its endpoint, and in place of each placeholder
    one segment from which the server decodes the id that the call was given, whatever characters it
    has, as long as no id of the call is a dot or two dots, which a URL resolves *)
Theorem path_carries_ids c :
  undotted (operation c) ->
  Forall2 (carries (op_ids (operation c)))
    (segments (op_path (operation c))) (segments (url_path (target (operation c)))).
Proof.
  intros Hu. destruct (target_split _ (operation_template c) Hu) as [-> _].
  destruct (template_facts _ (operation_template c)) as (_ & Hne & Hs).
  rewrite segments_slashed; [by apply subst_carries|by apply subst_nonempty|by apply subst_plain].
Qed.

Lemma path_carries_ids_witness :
  url_path (target (apiV1ProfilesIdLogsGet (Some "a/b?c=d") None None None None None (Some "x") None))
  = "/api/v1/profiles/a%2Fb%3Fc%3Dd/logs" /\
  Forall2 (carries [("id", Some "a/b?c=d")])
    ["api"; "v1"; "profiles"; "{id}"; "logs"] ["api"; "v1"; "profiles"; "a%2Fb%3Fc%3Dd"; "logs"].
Proof.
  split; [reflexivity|].
  apply (path_carries_ids (Call_apiV1ProfilesIdLogsGet (Some "a/b?c=d") None None None None None (Some "x") None)).
  repeat constructor.
Defined.

(** An id of two dots leaves its endpoint. *)
Lemma dotted_id_leaves_the_path :
  url_path (target (apiV1ProfilesIdDelete (Some ".."))) = "/api/v1/".
Proof. reflexivity. Qed.

(** ** Query parameters *)

Definition text_of (v : JsValue) : option string :=
  match v with
  | JBool b => Some (if b then "true" else "false")
  | JNum z => Some (show z)
  | JStr s => Some s
  | _ => None
  end.

(** The parameters that were given, as text. *)
Definition query_texts (op : Operation) : URLSearchParams :=
  omap (fun '(k, v) => (fun t => (k, t)) <$> text_of v) (given_fields (op_query op)).

Definition query_ok (op : Operation) : bool :=
  let given := given_fields (op_query op) in
  bool_decide (NoDup (map fst given)) && forallb (fun p => present (text_of p.2)) given.

Lemma operation_query c : query_ok (operation c) = true.
Proof. destruct c; try reflexivity; repeat match goal with v : option _ |- _ => destruct v end; reflexivity. Qed.

Lemma put_new k v ps : sp_has ps k = false -> put_param k v ps = (ps ++ [(k, v)])%list.
Proof.
  intros Hk. unfold put_param. rewrite Hk. induction ps as [|[j w] ps IH]; [done|].
  cbn in *. apply orb_false_iff in Hk as [Hj Hk]. rewrite Hj. cbn. by rewrite IH.
Qed.

Lemma sp_has_spec ps k : sp_has ps k = false <-> k ∉ map fst ps.
Proof.
  induction ps as [|[j w] ps IH]; cbn; [by split; [intros _ []%not_elem_of_nil|]|].
  rewrite orb_false_iff, IH, not_elem_of_cons, String.eqb_neq. naive_solver.
Qed.

Lemma flat_query fields : forall acc : URLSearchParams,
  NoDup (map fst acc ++ map fst fields)%list -> forallb (fun p => present (text_of p.2)) fields = true ->
  fold_left (fun ps '(k, x) => setFlattenedQueryParams x ("" ++s "" ++s k) ps) fields acc
  = (acc ++ omap (fun '(k, v) => (fun t => (k, t)) <$> text_of v) fields)%list.
Proof.
  induction fields as [|[k v] fields IH]; intros acc Hnd Hp; [by rewrite app_nil_r|].
  cbn [forallb fold_left map fst snd] in *. rewrite andb_true_iff in Hp. destruct Hp as [Hv Hp].
  assert (sp_has acc k = false) as Hk.
  { apply sp_has_spec. rewrite NoDup_app in Hnd. destruct Hnd as (_ & Hd & _). intros Hin. apply (Hd k Hin). by left. }
  assert (exists t, text_of v = Some t /\ setFlattenedQueryParams v k acc = (acc ++ [(k, t)])%list) as (t & Ht & Hs).
  { destruct v; try done; (eexists; split; [reflexivity|]); by apply put_new. }
  change ("" ++s "" ++s k) with k. rewrite Hs, IH.
  - rewrite <- app_assoc. f_equal. cbn. by rewrite Ht.
  - rewrite map_app. cbn. by rewrite <- app_assoc.
  - done.
Qed.

Theorem query_carries_parameters c :
  undotted (operation c) ->
  read_query (url_query (target (operation c))) = Some (map points_pair (query_texts (operation c))).
Proof.
  intros Hu. destruct (target_split _ (operation_template c) Hu) as [_ ->].
  pose proof (operation_query c) as Hq. unfold query_ok in Hq. rewrite andb_true_iff in Hq. destruct Hq as [Hn Hp]. to_prop.
  rewrite read_sp_toString. do 2 f_equal. by apply (flat_query _ []).
Qed.

Lemma query_carries_parameters_witness :
  let c := Call_apiV1ProfilesIdLogsGet (Some "p1") (Some 2) (Some 50) None None None (Some "a&b=c d+") None in
  url_query (target (operation c)) = "page=2&limit=50&search=a%26b%3Dc+d%2B" /\
  read_query (url_query (target (operation c)))
  = Some (map points_pair [("page", "2"); ("limit", "50"); ("search", "a&b=c d+")]).
Proof.
  split; [reflexivity|].
  apply (query_carries_parameters (Call_apiV1ProfilesIdLogsGet (Some "p1") (Some 2) (Some 50) None None None (Some "a&b=c d+") None)).
  repeat constructor.
Defined.

(** ** Endpoints *)

(** Every call once, without its parameters. *)
Definition endpoints : list Call :=
  [Call_apiV1AccountsCurrentDelete JUndefined; Call_apiV1AccountsCurrentDeletionCodePost;
   Call_apiV1AccountsCurrentGet; Call_apiV1AccountsMfaTotpDisablePost JUndefined;
   Call_apiV1AccountsMfaTotpEnableConfirmPost JUndefined; Call_apiV1AccountsMfaTotpEnablePost;
   Call_apiV1AccountsPatch JUndefined None None; Call_apiV1AccountsPost JUndefined;
   Call_apiV1AccountsResetPasswordPost JUndefined; Call_apiV1AnnouncementsGet;
   Call_apiV1MobileconfigPost JUndefined; Call_apiV1MobileconfigShortPost JUndefined;
   Call_apiV1ShortCodeGet None; Call_apiV1AccountsLogoutPost;
   Call_apiV1LoginPost JUndefined None None None; Call_apiV1WebauthnLoginBeginPost JUndefined;
   Call_apiV1WebauthnLoginFinishPost None; Call_apiV1WebauthnPasskeyAddBeginPost JUndefined None None;
   Call_apiV1WebauthnPasskeyAddFinishPost; Call_apiV1WebauthnPasskeyIdDelete None JUndefined None None;
   Call_apiV1WebauthnPasskeyReauthBeginPost JUndefined; Call_apiV1WebauthnPasskeyReauthFinishPost;
   Call_apiV1WebauthnPasskeysGet; Call_apiV1WebauthnRegisterBeginPost JUndefined;
   Call_apiV1WebauthnRegisterFinishPost; Call_apiV1BlocklistsGet None;
   Call_apiV1DnsstampPost JUndefined; Call_apiV1PasessionAddPost JUndefined;
   Call_apiV1PasessionRotatePut JUndefined; Call_apiV1ProfilesExportPost JUndefined;
   Call_apiV1ProfilesGet; Call_apiV1ProfilesIdBlocklistsDelete None JUndefined;
   Call_apiV1ProfilesIdBlocklistsPost None JUndefined;
   Call_apiV1ProfilesIdCustomRuleGroupsOrderPatch None JUndefined;
   Call_apiV1ProfilesIdCustomRuleGroupsPatch None JUndefined;
   Call_apiV1ProfilesIdCustomRulesBatchPost None JUndefined;
   Call_apiV1ProfilesIdCustomRulesCustomRuleIdDelete None None;
   Call_apiV1ProfilesIdCustomRulesOrderPatch None JUndefined;
   Call_apiV1ProfilesIdCustomRulesPost None JUndefined; Call_apiV1ProfilesIdDelete None;
   Call_apiV1ProfilesIdGet None; Call_apiV1ProfilesIdPatch None JUndefined;
   Call_apiV1ProfilesIdServicesDelete None JUndefined;
   Call_apiV1ProfilesIdServicesPost None JUndefined; Call_apiV1ProfilesImportPost None JUndefined;
   Call_apiV1ProfilesPost JUndefined;
   Call_apiV1ProfilesProfileIdCustomRulesCustomRuleIdPatch None None JUndefined;
   Call_apiV1ProfilesIdLogsDelete None; Call_apiV1ProfilesIdLogsDevicesGet None;
   Call_apiV1ProfilesIdLogsDownloadGet None;
   Call_apiV1ProfilesIdLogsGet None None None None None None None None;
   Call_apiV1ProfilesIdLogsTopBlocklistsGet None None None;
   Call_apiV1ProfilesIdLogsTopClientsGet None None None;
   Call_apiV1ProfilesIdLogsTopDomainsGet None None None None; Call_apiV1ServicesGet;
   Call_apiV1SessionsDelete; Call_apiV1ProfilesIdStatisticsDelete None;
   Call_apiV1ProfilesIdStatisticsGet None None; Call_apiV1SubGet; Call_apiV1SubUpdatePut JUndefined;
   Call_apiV1VerifyEmailOtpConfirmPost JUndefined; Call_apiV1VerifyEmailOtpRequestPost;
   Call_apiV1VerifyResetPasswordPost JUndefined None None].

Definition Route : Type := string * (string * string).
Definition route (op : Operation) : Route := (op_name op, (op_method op, op_path op)).
Definition routes : list Route := map (fun c => route (operation c)) endpoints.

Lemma route_listed c : route (operation c) ∈ routes.
Proof.
  assert (existsb (fun q => bool_decide (route (operation c) = q)) routes = true) as H
    by (destruct c; by vm_compute).
  apply existsb_exists in H as (q & Hq & E). to_prop. rewrite E. by apply list_elem_of_In.
Qed.

(** Whether two segments of templates can be the same segment of a path, when no id is [order]. *)
Definition meets (t u : string) : bool :=
  if lacks "{" t then if lacks "{" u then String.eqb t u else negb (String.eqb t "order")
  else if lacks "{" u then negb (String.eqb u "order") else true.

Fixpoint all_meet (ts us : list string) : bool :=
  match ts, us with
  | [], [] => true
  | t :: ts', u :: us' => meets t u && all_meet ts' us'
  | _, _ => false
  end.

(** Routes of different calls differ in their method, or no path is of both. *)
Definition apart (r q : Route) : bool :=
  if String.eqb r.1 q.1 then bool_decide (r.2 = q.2)
  else negb (String.eqb r.2.1 q.2.1) || negb (all_meet (segments r.2.2) (segments q.2.2)).

Lemma routes_apart : forallb (fun r => forallb (apart r) routes) routes = true.
Proof. by vm_compute. Qed.

Lemma points_inj a b : points a = points b -> a = b.
Proof.
  revert b. induction a as [|c a IH]; intros [|d b]; cbn; try done. intros [= Hc Hp]. f_equal; [|by apply IH].
  unfold code in Hc. apply N2Z.inj in Hc. rewrite <- (ascii_N_embedding c), <- (ascii_N_embedding d). by f_equal.
Qed.

Lemma encode_inj a b : encodeURIComponent a = encodeURIComponent b -> a = b.
Proof.
  intros H. apply (f_equal decodeURIComponent) in H. rewrite !decode_encodeURIComponent in H.
  injection H as H. by apply points_inj.
Qed.

Definition free_ids (ids : list (string * option string)) : Prop := Forall (fun p => idText p.2 <> "order") ids.

Lemma encode_order v : encodeURIComponent v = "order" -> v = "order".
Proof. intros H. by apply encode_inj. Qed.

Lemma subst_meets ts : forall us ids jds,
  segs_ok ts (map fst ids) = true -> segs_ok us (map fst jds) = true -> free_ids ids -> free_ids jds ->
  subst_segs ts ids = subst_segs us jds -> all_meet ts us = true.
Proof.
  induction ts as [|t ts IH]; intros [|u us] ids jds Ht Hu Hi Hj E; [done| | |].
  - symmetry in E. by apply subst_nonempty in E.
  - by apply subst_nonempty in E.
  - cbn [segs_ok subst_segs all_meet] in *. unfold meets.
    destruct (lacks "{" t), (lacks "{" u).
    + rewrite !andb_true_iff in Ht, Hu. injection E as -> E.
      rewrite String.eqb_refl. apply (IH us ids jds); tauto.
    + destruct jds as [|[k v] jds]; [done|]. apply Forall_cons in Hj as [Hv Hj]. cbn [map fst] in Hu.
      rewrite !andb_true_iff in Ht, Hu. injection E as E1 E.
      rewrite andb_true_iff, negb_true_iff, String.eqb_neq. split; [|apply (IH us ids jds); tauto].
      intros ->. by apply Hv, encode_order.
    + destruct ids as [|[k v] ids]; [done|]. apply Forall_cons in Hi as [Hv Hi]. cbn [map fst] in Ht.
      rewrite !andb_true_iff in Ht, Hu. injection E as E1 E.
      rewrite andb_true_iff, negb_true_iff, String.eqb_neq. split; [|apply (IH us ids jds); tauto].
      intros ->. by apply Hv, encode_order.
    + destruct ids as [|[k v] ids], jds as [|[l w] jds]; try done. apply Forall_cons in Hi as [_ Hi], Hj as [_ Hj].
      cbn [map fst] in Ht, Hu. rewrite !andb_true_iff in Ht, Hu. injection E as _ E. apply (IH us ids jds); tauto.
Qed.

Lemma subst_ids ts : forall ids jds,
  segs_ok ts (map fst ids) = true -> segs_ok ts (map fst jds) = true ->
  subst_segs ts ids = subst_segs ts jds -> map (fun p => idText p.2) ids = map (fun p => idText p.2) jds.
Proof.
  induction ts as [|t ts IH]; intros ids jds Hi Hj E; [by destruct ids, jds|].
  cbn [segs_ok subst_segs] in *. destruct (lacks "{" t).
  - rewrite !andb_true_iff in Hi, Hj. injection E as E. apply IH; tauto.
  - destruct ids as [|[k v] ids], jds as [|[l w] jds]; try done. cbn [map fst snd] in *.
    rewrite !andb_true_iff in Hi, Hj. injection E as E1%encode_inj E. rewrite E1. f_equal. apply IH; tauto.
Qed.

(** C23: a request says which call it is: two calls with the same method and the same path are the
    same call on the same ids, as long as no id is a dot, two dots or the word that one endpoint has
    in the place of a rule *)
Theorem request_determines_call c d :
  undotted (operation c) -> undotted (operation d) ->
  free_ids (op_ids (operation c)) -> free_ids (op_ids (operation d)) ->
  op_method (operation c) = op_method (operation d) ->
  url_path (target (operation c)) = url_path (target (operation d)) ->
  op_name (operation c) = op_name (operation d) /\
  map (fun p => idText p.2) (op_ids (operation c)) = map (fun p => idText p.2) (op_ids (operation d)).
Proof.
  intros Hc Hd Fc Fd Hm Hp.
  destruct (template_facts _ (operation_template c)) as (_ & Nc & Sc).
  destruct (template_facts _ (operation_template d)) as (_ & Nd & Sd).
  rewrite (proj1 (target_split _ (operation_template c) Hc)), (proj1 (target_split _ (operation_template d) Hd)) in Hp.
  apply (f_equal segments) in Hp.
  rewrite !segments_slashed in Hp by (by apply subst_plain || by apply subst_nonempty).
  assert (apart (route (operation c)) (route (operation d)) = true) as Ha.
  { pose proof routes_apart as H. rewrite forallb_forall in H. specialize (H _ (proj1 (list_elem_of_In _ _) (route_listed c))).
    rewrite forallb_forall in H. exact (H _ (proj1 (list_elem_of_In _ _) (route_listed d))). }
  unfold apart, route in Ha. cbn [fst snd] in Ha. destruct (String.eqb_spec (op_name (operation c)) (op_name (operation d))) as [->|_].
  - to_prop. injection Ha as _ Ht. split; [done|]. rewrite Ht in Hp, Sc. by apply (subst_ids (segments (op_path (operation d)))).
  - rewrite Hm, String.eqb_refl, (subst_meets _ _ _ _ Sc Sd Fc Fd Hp) in Ha. done.
Qed.

Lemma request_determines_call_witness :
  let c := Call_apiV1ProfilesProfileIdCustomRulesCustomRuleIdPatch (Some "p1") (Some "r/1") (JObj []) in
  op_name (operation c) = op_name (operation c) /\ map (fun p => idText p.2) (op_ids (operation c)) = ["p1"; "r/1"].
Proof.
  apply (request_determines_call
    (Call_apiV1ProfilesProfileIdCustomRulesCustomRuleIdPatch (Some "p1") (Some "r/1") (JObj []))
    (Call_apiV1ProfilesProfileIdCustomRulesCustomRuleIdPatch (Some "p1") (Some "r/1") JNull));
    repeat constructor; discriminate.
Defined.

(** A rule with that word for an id would be changed by the reordering endpoint. *)
Lemma rule_named_order_is_reordered b b' :
  target (operation (Call_apiV1ProfilesProfileIdCustomRulesCustomRuleIdPatch (Some "p1") (Some "order") b))
  = target (operation (Call_apiV1ProfilesIdCustomRulesOrderPatch (Some "p1") b')).
Proof. reflexivity. Qed.
