(* ===== verification/Requests.v ===== *)
(** * From the requests of the pages to HTTP

    What the pages ask for, as calls of the client: the bodies they build and the methods they call.
    [Wire] is what a page promises the client, [AboutProfile] that its calls are about one profile.
    The theorems join the pages with [ApiClient]: what the server reads from a request is what the
    page asked for. *)

From S2P Require Import Prelude JsString JsDate SentryPrivacy CustomRulesPage BlocklistsPage CollectionControl SettingsPage.
From S2P Require Import ProfileMenu QuickRule LogsPage LogsPageFacts ApiTypes Uri ApiClient ApiOperations ApiClientFacts.

(** ** Bodies *)

Definition opt_str (v : option string) : JsValue := match v with Some s => JStr s | None => JUndefined end.
Definition strs (l : list string) : JsValue := JArr (map JStr l).

Definition operation_text (o : ModelProfileUpdateOperationEnum) : string :=
  match o with Remove => "remove" | Add => "add" | Replace => "replace" | Move => "move" | Copy => "copy" end.

Definition path_text (p : ModelProfileUpdatePathEnum) : string :=
  match p with
  | Name => "/name"
  | SettingsStatisticsEnabled => "/settings/statistics/enabled"
  | SettingsStatisticsRetention => "/settings/statistics/retention"
  | SettingsLogsEnabled => "/settings/logs/enabled"
  | SettingsLogsLogClientsIps => "/settings/logs/log_clients_ips"
  | SettingsLogsLogDomains => "/settings/logs/log_domains"
  | SettingsLogsRetention => "/settings/logs/retention"
  | SettingsPrivacyDefaultRule => "/settings/privacy/default_rule"
  | SettingsPrivacyBlocklistsSubdomainsRule => "/settings/privacy/blocklists_subdomains_rule"
  | SettingsPrivacyCustomRulesSubdomainsRule => "/settings/privacy/custom_rules_subdomains_rule"
  | SettingsSecurityDnssecEnabled => "/settings/security/dnssec/enabled"
  | SettingsSecurityDnssecSendDoBit => "/settings/security/dnssec/send_do_bit"
  | SettingsSecurityRebindingProtectionEnabled => "/settings/security/rebinding_protection/enabled"
  | SettingsAdvancedRecursor => "/settings/advanced/recursor"
  end.

Definition update_json (u : ModelProfileUpdate) : JsValue :=
  JObj [("operation", JStr (operation_text (ApiTypes.operation u))); ("path", JStr (path_text (path u)));
        ("value", match value u with VBool b => JBool b | VString s => JStr s end)].
Definition updates_json (us : list ModelProfileUpdate) : JsValue := JObj [("updates", JArr (map update_json us))].

Definition group_operation_text (o : RequestsCustomRuleGroupUpdateOperationEnum) : string :=
  match o with GroupAdd => "add" | GroupReplace => "replace" | GroupRemove => "remove" | GroupMove => "move" end.

Definition group_update_json (u : RequestsCustomRuleGroupUpdate) : JsValue :=
  JObj [("operation", JStr (group_operation_text (gu_operation u))); ("action", JStr (gu_action u));
        ("from", opt_str (gu_from u)); ("path", JStr (gu_path u)); ("value", opt_str (gu_value u))].

Definition rule_patch_json (b : RequestsUpdateProfileCustomRuleBody) : JsValue :=
  JObj [("value", opt_str (ub_value b)); ("action", opt_str (ub_action b)); ("group", opt_str (ub_group b));
        ("note", opt_str (ub_note b)); ("order", match ub_order b with Some z => JNum z | None => JUndefined end)].

Definition batch_json (action : string) (values : list string) : JsValue :=
  JObj [("action", JStr action); ("values", strs values)].

Definition sort_text (s : ApiV1BlocklistsGetSortByEnum) : string :=
  match s with SortUpdated => "updated" | SortName => "name" | SortEntries => "entries" end.

(** ** Calls *)

(** The calls of a request, and the profile they are about. *)
Class Wire (R : Type) := wire : R -> list Call.
Class AboutProfile (R : Type) := about : R -> option string.

Fixpoint customRulesCalls (r : ApiRequest) : list Call :=
  match r with
  | CustomRulesBatchPost p action values =>
      [Call_apiV1ProfilesIdCustomRulesBatchPost (Some p) (batch_json action values)]
  | CustomRulesPage.ProfileGet p => [Call_apiV1ProfilesIdGet (Some p)]
  | CustomRuleDelete p id => [Call_apiV1ProfilesIdCustomRulesCustomRuleIdDelete (Some p) (Some id)]
  | CustomRulePatch p id patch =>
      [Call_apiV1ProfilesProfileIdCustomRulesCustomRuleIdPatch (Some p) (Some id) (rule_patch_json patch)]
  | CustomRulesOrderPatch p order => [Call_apiV1ProfilesIdCustomRulesOrderPatch (Some p) (JObj [("order", strs order)])]
  | CustomRuleGroupsPatch p us =>
      [Call_apiV1ProfilesIdCustomRuleGroupsPatch (Some p) (JObj [("updates", JArr (map group_update_json us))])]
  | CustomRuleGroupsOrderPatch p action order =>
      [Call_apiV1ProfilesIdCustomRuleGroupsOrderPatch (Some p) (JObj [("action", JStr action); ("order", strs order)])]
  | All rs => flat_map customRulesCalls rs
  end.
#[export] Instance customRules_wire : Wire ApiRequest := customRulesCalls.

(** A group of requests is about a profile when all of it is. *)
Fixpoint customRulesAbout (p : string) (r : ApiRequest) : bool :=
  match r with
  | CustomRulesBatchPost q _ _ | CustomRulesPage.ProfileGet q | CustomRuleDelete q _ | CustomRulePatch q _ _
  | CustomRulesOrderPatch q _ | CustomRuleGroupsPatch q _ | CustomRuleGroupsOrderPatch q _ _ => String.eqb p q
  | All rs => forallb (customRulesAbout p) rs
  end.

Definition first_id (c : Call) : option string := match op_ids (operation c) with (_, v) :: _ => v | [] => None end.
#[export] Instance customRules_about : AboutProfile ApiRequest := fun r =>
  p ← head (customRulesCalls r) ≫= first_id; if customRulesAbout p r then Some p else None.

Definition blocklistsCalls (r : BlRequest) : list Call :=
  match r with
  | BlocklistsGet s => [Call_apiV1BlocklistsGet (Some (sort_text s))]
  | BlocklistsPost p ids => [Call_apiV1ProfilesIdBlocklistsPost (Some p) (JObj [("blocklist_ids", strs ids)])]
  | BlocklistsDelete p ids => [Call_apiV1ProfilesIdBlocklistsDelete (Some p) (JObj [("blocklist_ids", strs ids)])]
  | ServicesPost p ids => [Call_apiV1ProfilesIdServicesPost (Some p) (JObj [("service_ids", strs ids)])]
  | ServicesDelete p ids => [Call_apiV1ProfilesIdServicesDelete (Some p) (JObj [("service_ids", strs ids)])]
  | BlocklistsPage.SettingsPatch p us => [Call_apiV1ProfilesIdPatch (Some p) (updates_json us)]
  | BlocklistsPage.ProfileGet p => [Call_apiV1ProfilesIdGet (Some p)]
  end.
#[export] Instance blocklists_wire : Wire BlRequest := blocklistsCalls.
#[export] Instance blocklists_about : AboutProfile BlRequest := fun r =>
  match r with
  | BlocklistsGet _ => None
  | BlocklistsPost p _ | BlocklistsDelete p _ | ServicesPost p _ | ServicesDelete p _
  | BlocklistsPage.SettingsPatch p _ | BlocklistsPage.ProfileGet p => Some p
  end.

Definition collectionCalls (r : DcRequest) : list Call :=
  match r with
  | CollectionControl.GetProfile p => [Call_apiV1ProfilesIdGet (Some p)]
  | PatchProfile p us => [Call_apiV1ProfilesIdPatch (Some p) (updates_json us)]
  | DeleteStatistics p => [Call_apiV1ProfilesIdStatisticsDelete (Some p)]
  | DeleteLogs p => [Call_apiV1ProfilesIdLogsDelete (Some p)]
  end.
#[export] Instance collection_wire : Wire DcRequest := collectionCalls.
#[export] Instance collection_about : AboutProfile DcRequest := fun r =>
  match r with CollectionControl.GetProfile p | PatchProfile p _ | DeleteStatistics p | DeleteLogs p => Some p end.

Definition settingsCalls (r : StRequest) : list Call :=
  match r with
  | SettingsPage.SettingsPatch p us => [Call_apiV1ProfilesIdPatch (Some p) (updates_json us)]
  | SettingsGet p => [Call_apiV1ProfilesIdGet (Some p)]
  end.
#[export] Instance settings_wire : Wire StRequest := settingsCalls.
#[export] Instance settings_about : AboutProfile StRequest := fun r =>
  match r with SettingsPage.SettingsPatch p _ | SettingsGet p => Some p end.

Definition profileMenuCalls (r : PmRequest) : list Call :=
  match r with
  | ProfilesGet => [Call_apiV1ProfilesGet]
  | ProfilesPost name => [Call_apiV1ProfilesPost (JObj [("name", JStr name)])]
  | ProfilesIdPatch p us => [Call_apiV1ProfilesIdPatch (Some p) (updates_json us)]
  | ProfilesIdDelete p => [Call_apiV1ProfilesIdDelete (Some p)]
  end.
#[export] Instance profileMenu_wire : Wire PmRequest := profileMenuCalls.
#[export] Instance profileMenu_about : AboutProfile PmRequest := fun r =>
  match r with ProfilesGet | ProfilesPost _ => None | ProfilesIdPatch p _ | ProfilesIdDelete p => Some p end.

Definition quickRuleCalls (r : QrRequest) : list Call :=
  match r with
  | RulesBatchPost p action values => [Call_apiV1ProfilesIdCustomRulesBatchPost (Some p) (batch_json action values)]
  | QuickRule.GetProfile p => [Call_apiV1ProfilesIdGet (Some p)]
  end.
#[export] Instance quickRule_wire : Wire QrRequest := quickRuleCalls.
#[export] Instance quickRule_about : AboutProfile QrRequest := fun r =>
  match r with RulesBatchPost p _ _ | QuickRule.GetProfile p => Some p end.

Definition logsCall (q : LogsRequest) : Call :=
  Call_apiV1ProfilesIdLogsGet (Some (q_profile q)) (Some (q_page q)) (Some (q_limit q)) (q_status q) (q_timespan q)
    (q_device q) (q_search q) (Some (q_sort q)).
#[export] Instance logs_wire : Wire LogsRequest := fun q => [logsCall q].
#[export] Instance logs_about : AboutProfile LogsRequest := fun q => Some (q_profile q).

(** ** Requests are about the profile they name *)

(** A call on an endpoint of profiles, the profile in place of the placeholder. *)
Definition names_profile (p : string) (c : Call) : Prop :=
  first_id c = Some p /\
  exists t rest, segments (op_path (operation c)) = "api" :: "v1" :: "profiles" :: t :: rest /\ lacks "{" t = false.

Class WireLaws (R : Type) `{Wire R} `{AboutProfile R} :=
  wire_about : forall (r : R) p c, about r = Some p -> c ∈ wire r -> names_profile p c.

Ltac solve_names := split; [reflexivity|]; do 2 eexists; split; [vm_compute; reflexivity|reflexivity].
Ltac solve_wire :=
  intros r p c Ha Hc; destruct r; try discriminate Ha; injection Ha as <-;
  apply list_elem_of_In in Hc; destruct Hc as [<-|[]]; solve_names.

#[export] Instance blocklists_laws : WireLaws BlRequest. Proof. solve_wire. Qed.
#[export] Instance collection_laws : WireLaws DcRequest. Proof. solve_wire. Qed.
#[export] Instance settings_laws : WireLaws StRequest. Proof. solve_wire. Qed.
#[export] Instance profileMenu_laws : WireLaws PmRequest. Proof. solve_wire. Qed.
#[export] Instance quickRule_laws : WireLaws QrRequest. Proof. solve_wire. Qed.
#[export] Instance logs_laws : WireLaws LogsRequest. Proof. solve_wire. Qed.

Lemma customRules_names p : forall r, customRulesAbout p r = true -> Forall (names_profile p) (customRulesCalls r).
Proof.
  fix IH 1. intros r. destruct r as [q ? ?|q|q ?|q ? ?|q ?|q ?|q ? ?|rs]; cbn [customRulesAbout customRulesCalls]; intros H;
    try (apply String.eqb_eq in H as <-; constructor; [solve_names|constructor]).
  induction rs as [|r rs IHrs]; cbn [flat_map forallb] in *; [constructor|].
  rewrite andb_true_iff in H. destruct H as [H1 H2]. apply Forall_app. split; [by apply IH|by apply IHrs].
Qed.

#[export] Instance customRules_laws : WireLaws ApiRequest.
Proof.
  intros r p c Ha Hc. unfold about, customRules_about in Ha. destruct (_ ≫= first_id) as [q|]; [|done].
  cbn in Ha. destruct (customRulesAbout q r) eqn:Hq; [|done]. injection Ha as ->.
  apply customRules_names in Hq. rewrite Forall_forall in Hq. by apply Hq.
Qed.



(** ** Query logs *)

Definition given_text (k : string) (v : option string) : URLSearchParams := match v with Some t => [(k, t)] | None => [] end.

Definition logs_query (f : Fetch) : string := url_query (target (operation (logsCall (f_request f)))).

(** What is asked of a fetch. *)
Definition asks_its_rows (f : Fetch) : Prop :=
  let q := f_request f in
  dotted (q_profile q) = false ->
  read_query (logs_query f)
  = Some (map points_pair ([("page", show (q_page q)); ("limit", show (q_limit q))] ++
      given_text "status" (q_status q) ++ given_text "timespan" (q_timespan q) ++
      given_text "device_id" (q_device q) ++ given_text "search" (q_search q) ++ [("sort_by", q_sort q)])) /\
  q_page q * q_limit q <= QUERY_MAX_ROWS.

(** C22: the rows that the server is asked for are those of the page: the query it reads has the
    page and the limit that the list computed, whose end is within the cap of the server, and the
    filters that are set, whatever they contain *)
Theorem logs_urls_within_cap {H : Host} p r evs :
  truthy_opt (p_profile_id <$> p) = true -> Forall profile_given evs ->
  Forall asks_its_rows (fetches (run logs_step (mount p r) evs)).
Proof.
  intros Ht Hev. eapply Forall_impl; [exact (requests_within_cap p r evs Ht Hev)|].
  intros f (Hcap & _). unfold asks_its_rows. set (q := f_request f) in *. intros Hd. split; [|done].
  assert (undotted (operation (logsCall q))) as Hu by (by repeat constructor).
  unfold logs_query. fold q. destruct (target_split _ (operation_template (logsCall q)) Hu) as [_ ->].
  rewrite read_sp_toString. do 2 f_equal.
  unfold logsCall. cbn [operation op_query apiV1ProfilesIdLogsGet].
  destruct (q_status q), (q_timespan q), (q_device q), (q_search q); reflexivity.
Qed.

Lemma logs_urls_within_cap_witness :
  let s := run (logs_step (H := utc_host)) witness_mount [SearchInput "a&b=c"; CommitSearch] in
  Forall asks_its_rows (fetches s) /\
  last (map logs_query (fetches s)) = Some "page=1&limit=100&search=a%26b%3Dc&sort_by=created".
Proof.
  split; [|vm_compute; reflexivity].
  apply (logs_urls_within_cap (H := utc_host) (Some (logs_profile "p")) false [SearchInput "a&b=c"; CommitSearch]);
    [reflexivity|by repeat constructor].
Defined.
